(* ===== verification/_CoqProject ===== *)
-Q . S2P
Prelude.v
CTypes.v
Queue.v
Kernel.v
KernelRun.v
Boot.v
MemUtil.v
Geom.v
NandIo.v
Ftl.v
FtlInv.v
Requests.v
FtlIo.v
FtlDisk.v
HostIf.v
HostDma.v
NandCtrl.v
NandInv.v
NandHw.v
NandBatch.v
Prp.v
ReqAlloc.v
BufferMgt.v
NvmeQueues.v
NvmePost.v
Firmware.v
Isp.v
Nvme.v
NvmeIo.v
NvmeRw.v
System.v
SysRun.v
Start.v
SysIo.v
SysProps.v
SysDemo.v
FtlUneq.v
UneqDisk.v
Persist.v
PowerCycle.v
Printf.v
PrintText.v
PrintLock.v
PrintNames.v
PrintDev.v
SimBuffer.v
SimStats.v
