(* ===== verification/Prelude.v ===== *)
(** * S4SIM firmware: a verified model

    The repository simulates a solid-state drive with in-storage processing.  The
    firmware (src/firmware/, C) runs on a simulated ARM system (gem5) whose host
    interface and flash controller are simulation objects
    (src/SSD_hw_platforms/gem5/extra_sim_objects/, C++); the host is a patched
    QEMU (src/Host_hw_platforms/).  This library is a shallow embedding of the
    firmware and of the devices it talks to.

    ** Conventions

    Words of the machine are [Z] with the wrap-around written out ([u32], [u64]
    of CTypes.v); memories are total functions from addresses to bytes; arrays
    are lists read and written with [arr_get] and [arr_set], which fault out of
    range; structs are records; a C function from a state is a Gallina function
    into [outcome] (this file), whose faults are an undefined operation of C, a
    call of [shutDownSystem] or exhausted fuel.  A wait on another core or device
    is either a step relation, or consumes the next schedule of a list of
    schedules, or is split into the parts before and after the wait.

    ** Parts

    - Prelude, CTypes, Queue, MemUtil: outcomes and arrays; bit-field layouts of
      include/*.h; [queue_t] (util.containers.c) with the interface [Fifo] of a
      bounded queue; util.memcp.c and the string helpers.
    - Kernel, KernelRun, Boot (issd_kernel.c): threads, callback and object
      rings, [run_thread], the scheduler; the translation table, the heap of
      uncacheable memory and the release of the secondary cores.
    - Geom, Ftl, FtlInv (ftl_page_mapping/ftl.h, ftl.c, global_macro.h): addresses
      of the flash, the mapping tables and their invariant.
    - NandIo (low_level_nand_io.c, low_level_nand_io_debug.c): batches of flash
      operations, and the class [NandFlash] of a flash that executes them, with
      the in-memory flash as its first instance.
    - NandCtrl (iSSDNandCtrl.hh, iSSDNandCtrl.cc), NandHw (low_level_nand_io.c):
      the flash controllers with their channels, chips, waiting rooms, DMA engine
      and completion events, and the driver that writes their registers and polls
      them; events fire as an oracle says.  NandInv, NandBatch: the invariant of a
      controller at work on a batch, and the controllers as the second instance of
      [NandFlash], for every oracle.
    - Requests, FtlIo, FtlDisk (global.h, equal.pages.c, ftl.c): the requests of
      the FTL for host pages as large as flash pages; [disk_rel] relates the
      tables and the flash to an array of logical pages.
    - FtlUneq, UneqDisk (unequal.pages.c): the FTL compiled for host pages smaller
      than flash pages, with its read-modify-program path, against the same array
      of logical pages.
    - Persist, PowerCycle (ftl.c): the mapping tables written to the flash at the
      shutdown and read back at the start.
    - HostIf (host_ssd_interface.h, iSSDHostInterface.cc, the QEMU patch): the
      shared-memory queues, and the transfer protocol as interleaved steps of the
      device and of the host's thread.  HostDma (host_dma.c): the driver's
      thread on top of it.
    - ReqAlloc (issd_kernel_mem_alloc.c), BufferMgt (buffer_mgt_1wbc-r.c), Prp,
      NvmeQueues, NvmePost, Firmware, Nvme, NvmeIo, NvmeRw (nvme_driver.c): request
      objects, page buffers and write-back cache, PRP lists, completion queues,
      the commands, and what each handler does to the state.
    - Isp (isp.c): the driver of in-storage applets.
    - Printf, PrintText, PrintLock, PrintNames, PrintDev (util.uart_print.c,
      issd_kernel.c): formatted output, the way the cores take turns at the
      terminal (each access of the shared word is a step), the tables of names, and
      the buffer of a core on its way to the device.
    - SimBuffer (iSSDBufferMgt.cc), SimStats (iSSDStats.cc, [LOG_EVENT] of util.h):
      the simulated page buffers between two ports, and the event log with its
      device, its ring and its writing thread as interleaved steps.
    - Start (init_firmware_ftn and the init functions), System, SysRun, SysIo,
      SysProps, SysDemo: the machine the threads share, the functions their
      queues call, the drive as a block device, and concrete runs.

    ** What the theorems show

    - SysProps: a write command that the host submits ends in three runs of the
      two threads, with its data on the disk and one success entry in the
      completion queue; a read delivers the disk's blocks to the pages its PRP
      fields name and touches nothing else of the host but its completion; what
      was written is read back; and a write that finds no free program batch is
      acknowledged before the FTL faults.
    - FtlInv, FtlDisk: the invariant of the mapping tables is preserved, planes
      are used in turn, a new medium holds a stated number of pages, and the
      FTL's read, program and flush refine an array of pages.
    - NandBatch: the driver and the controllers execute a batch of the FTL exactly,
      whatever the order of the completions, and the polling ends; the witnesses
      of SysDemo run the firmware on these controllers.
    - Prp, HostIf, HostDma, NvmePost: the PRP decoder covers exactly the command's
      bytes for at most 16 host pages whose list lies in one list page (it overflows
      its array beyond that, and takes the pointer to a further list page for a
      page of data); every fair schedule of the transfer protocol moves the data of
      a transfer that fits the 64 KiB of a page register; and completions are
      posted in order, at most one per free slot, with the phase bit.
    - UneqDisk: flushes and reads refine an array of pages whenever the touched
      flash pages were written before, and what goes wrong otherwise.  PowerCycle:
      the two ways the FTL starts, with the tables and the disk of an image in the
      flash ([holds_image]) or with an empty disk when the flash has no
      configuration; and the shutdown, which with the pools as the firmware
      initialises them dereferences NULL, so that it never completes such an image.
    - PrintText: formatted output is the text a declarative reading of the format
      gives, and numbers read back.  PrintLock: prompt cores print whole lines,
      a late one prints in the middle of another's line.  SimBuffer: two bounded FIFO
      queues, refused requests are retried, and a refused request can take the
      response of a served one, which then never gets any.  SimStats: no interleaving
      of the two threads loses, reorders or tears an accepted event, all reach the
      file, and what the macro of the firmware stores for each source.
    - Kernel, KernelRun, Boot, ReqAlloc, BufferMgt, MemUtil, Queue, Start: queues
      are FIFO, the scheduler is fair to waiting threads, allocations are
      disjoint, objects are handed out once, and start-up leaves the wiring that
      the system theorems assume.

    ** Bounds and fuel

    Loops over a counter are structural.  Fuel appears in: the FTL's search for a
    free page (one unit per plane, Ftl.v), the PRP loop (one unit per list entry,
    Prp.v, [prp_fuel]), the posting of pending completions (one unit per
    pending entry and one more, NvmePost.post_fuel_enough), the polls of a transfer
    (one schedule per wait, HostDma.v), string loops (MemUtil.v) and
    the drains of the buffer queues ([buf_fuel], Nvme.v), a controller's waiting
    room (one unit per command, [room_fuel], NandCtrl.v) and the polling of the
    controllers (eight rounds per page, [poll_fuel], NandHw.v: a command is worth
    at most four events), and a format (one unit per character and one more,
    Printf.v).  The
    theorems state that a run returns, so that fuel is never the reason of a result.
    The witnesses use the default configuration (Geom.H4k_N4k_256mb).

    ** Not modelled

    The counters of requests and pages that are only printed; the terminal itself
    and the macros of verbose_macro.h; the ARM assembly; the
    code of applets; the parts of gem5 and QEMU behind the copy operations (the
    class [DmaEngines]); the ticks between a flash command and its completion (any
    order of completions is allowed instead); the files behind the flash image and
    the event log; the memory accesses of a core are taken in the order of the
    program;
    buffer_mgt_Nwbc-r.c, which no build compiles, the containers that are inside a
    comment; and the components that the manifest lists as not modelled. *)

From Stdlib Require Import ZArith Lia Bool List.
From stdpp Require Import base tactics option list functions gmap.

#[export] Set Default Goal Selector "!".
Open Scope Z_scope.

(** ** Outcomes of C code

    A run of a C function either returns ([Ok]), performs an operation the
    language leaves undefined ([Fault FNull], [FBounds], [FDivZero]), stops the
    machine through [shutDownSystem] ([FShutdown]) or, for loops that have no
    structural bound, exhausts the fuel the model was given ([FFuel]). *)
Inductive fault := FNull | FBounds | FDivZero | FShutdown | FFuel.

Inductive outcome (A : Type) :=
| Ok (a : A)
| Fault (f : fault).
Arguments Ok {A} a.
Arguments Fault {A} f.

#[export] Instance fault_eq_dec : EqDecision fault.
Proof. solve_decision. Defined.

Definition obind {A B} (m : outcome A) (k : A -> outcome B) : outcome B :=
  match m with
  | Ok a => k a
  | Fault f => Fault f
  end.

Definition is_ok {A} (m : outcome A) : bool :=
  match m with Ok _ => true | Fault _ => false end.

(** The value of a run, or a default: used to build concrete states. *)
Definition from_ok {A} (d : A) (m : outcome A) : A :=
  match m with Ok a => a | Fault _ => d end.

Declare Scope c_scope.
Delimit Scope c_scope with c.
Notation "'let!' x := m 'in' k" := (obind m (fun x => k))
  (at level 10, x binder, m at level 100, k at level 200) : c_scope.
Notation "'let!' ' p := m 'in' k" := (obind m (fun y => match y with p => k end))
  (at level 10, p pattern, m at level 100, k at level 200) : c_scope.
Open Scope c_scope.

Lemma obind_Ok {A B} (m : outcome A) (k : A -> outcome B) b :
  obind m k = Ok b <-> exists a, m = Ok a /\ k a = Ok b.
Proof.
  destruct m as [a|f]; simpl; split.
  - eauto.
  - intros (a' & H & ?). by simplify_eq.
  - discriminate.
  - intros (a' & H & ?). discriminate.
Qed.

(** [null_check]: reading through a pointer that may be NULL. *)
Definition deref {A} (p : option A) : outcome A :=
  match p with Some a => Ok a | None => Fault FNull end.

(** ** Machine-width unsigned integers: stores wrap modulo [2^w] *)
Definition u8 (z : Z) : Z := z mod 2 ^ 8.
Definition u16 (z : Z) : Z := z mod 2 ^ 16.
Definition u32 (z : Z) : Z := z mod 2 ^ 32.
Definition u64 (z : Z) : Z := z mod 2 ^ 64.

Definition fits (w z : Z) : Prop := 0 <= z < 2 ^ w.

Lemma u8_fits z : fits 8 (u8 z).
Proof. unfold fits, u8. apply Z.mod_pos_bound. lia. Qed.
Lemma u16_fits z : fits 16 (u16 z).
Proof. unfold fits, u16. apply Z.mod_pos_bound. lia. Qed.
Lemma u32_fits z : fits 32 (u32 z).
Proof. unfold fits, u32. apply Z.mod_pos_bound. lia. Qed.
Lemma u64_fits z : fits 64 (u64 z).
Proof. unfold fits, u64. apply Z.mod_pos_bound. lia. Qed.

Lemma u8_id z : 0 <= z < 256 -> u8 z = z.
Proof. intros. unfold u8. apply Z.mod_small. lia. Qed.
Lemma u16_id z : 0 <= z < 65536 -> u16 z = z.
Proof. intros. unfold u16. apply Z.mod_small. lia. Qed.
Lemma u32_id z : 0 <= z < 4294967296 -> u32 z = z.
Proof. intros. unfold u32. apply Z.mod_small. lia. Qed.
Lemma u64_id z : 0 <= z < 18446744073709551616 -> u64 z = z.
Proof. intros. unfold u64. apply Z.mod_small. lia. Qed.

Create HintDb cint discriminated.
Create Rewrite HintDb cint.
#[export] Hint Resolve u8_fits u16_fits u32_fits u64_fits : cint.
#[export] Hint Rewrite u8_id u16_id u32_id u64_id using lia : cint.

(** ** Bit fields: [n] bits of [v] from bit [lo] *)
Definition bits (lo n v : Z) : Z := (v / 2 ^ lo) mod 2 ^ n.

Lemma bits_range lo n v : 0 <= n -> fits n (bits lo n v).
Proof. intros. unfold fits, bits. apply Z.mod_pos_bound. lia. Qed.

Lemma bits_spec lo n v :
  0 <= lo -> 0 <= n -> bits lo n v = Z.land (Z.shiftr v lo) (Z.ones n).
Proof. intros. unfold bits. by rewrite Z.land_ones, Z.shiftr_div_pow2. Qed.

(** ** Arrays indexed by [Z]: an index out of range is a fault *)
Definition in_range (n i : Z) : bool := (0 <=? i) && (i <? n).

Lemma in_range_true n i : in_range n i = true <-> 0 <= i < n.
Proof. unfold in_range. rewrite andb_true_iff, Z.leb_le, Z.ltb_lt. lia. Qed.

Definition arr_get {A} (l : list A) (i : Z) : outcome A :=
  if in_range (Z.of_nat (length l)) i then
    match l !! Z.to_nat i with Some a => Ok a | None => Fault FBounds end
  else Fault FBounds.

Definition arr_set {A} (l : list A) (i : Z) (a : A) : outcome (list A) :=
  if in_range (Z.of_nat (length l)) i then Ok (<[Z.to_nat i := a]> l)
  else Fault FBounds.

Lemma arr_get_Ok {A} (l : list A) i a :
  arr_get l i = Ok a <-> 0 <= i /\ l !! Z.to_nat i = Some a.
Proof.
  unfold arr_get. destruct (in_range _ i) eqn:E.
  - apply in_range_true in E. destruct (l !! Z.to_nat i) eqn:L.
    + split; [intros; simplify_eq; split; [lia|done] | intros [_ ?]; by simplify_eq].
    + apply lookup_ge_None in L. lia.
  - split; [discriminate|]. intros [H0 H]. apply lookup_lt_Some in H.
    assert (in_range (Z.of_nat (length l)) i = true) by (apply in_range_true; lia).
    congruence.
Qed.

Lemma arr_get_lookup {A} (l : list A) i :
  0 <= i < Z.of_nat (length l) -> exists a, arr_get l i = Ok a /\ l !! Z.to_nat i = Some a.
Proof.
  intros H. destruct (lookup_lt_is_Some_2 l (Z.to_nat i)) as [a Ha]; [lia|].
  exists a. split; [|done]. apply arr_get_Ok. split; [lia|done].
Qed.

Lemma arr_get_oob {A} (l : list A) i :
  ~ (0 <= i < Z.of_nat (length l)) -> arr_get l i = Fault FBounds.
Proof.
  intros H. unfold arr_get. destruct (in_range _ i) eqn:E; [|done].
  apply in_range_true in E. lia.
Qed.

Lemma arr_set_Ok {A} (l : list A) i a :
  0 <= i < Z.of_nat (length l) -> arr_set l i a = Ok (<[Z.to_nat i := a]> l).
Proof.
  intros H. unfold arr_set. destruct (in_range _ i) eqn:E; [done|].
  assert (in_range (Z.of_nat (length l)) i = true) by (apply in_range_true; lia). congruence.
Qed.

Lemma arr_get_set_eq {A} (l l' : list A) i a :
  arr_set l i a = Ok l' -> arr_get l' i = Ok a.
Proof.
  unfold arr_set. destruct (in_range _ i) eqn:E; [|discriminate]. intros H; simplify_eq.
  apply in_range_true in E. apply arr_get_Ok. split; [lia|].
  apply list_lookup_insert_eq. lia.
Qed.

Lemma arr_get_set_ne {A} (l l' : list A) i j a :
  i <> j -> arr_set l i a = Ok l' -> arr_get l' j = arr_get l j.
Proof.
  intros Hij. unfold arr_set. destruct (in_range _ i) eqn:E; [|discriminate].
  intros H; simplify_eq. apply in_range_true in E. unfold arr_get. rewrite length_insert.
  destruct (in_range _ j) eqn:F; [|done]. apply in_range_true in F.
  rewrite list_lookup_insert_ne by lia. done.
Qed.

Lemma arr_set_length {A} (l l' : list A) i a : arr_set l i a = Ok l' -> length l' = length l.
Proof.
  unfold arr_set. destruct (in_range _ i); [|discriminate].
  intros H; simplify_eq. apply length_insert.
Qed.

(** ** Tactics *)

(** Split the conditionals of the goal and turn boolean tests into arithmetic. *)
Ltac zify_bools :=
  repeat match goal with
    | H : (_ && _) = true |- _ => apply andb_true_iff in H as [? ?]
    | H : (_ || _) = false |- _ => apply orb_false_iff in H as [? ?]
    | H : (_ <? _) = true |- _ => apply Z.ltb_lt in H
    | H : (_ <? _) = false |- _ => apply Z.ltb_ge in H
    | H : (_ <=? _) = true |- _ => apply Z.leb_le in H
    | H : (_ <=? _) = false |- _ => apply Z.leb_gt in H
    | H : (_ =? _) = true |- _ => apply Z.eqb_eq in H
    | H : (_ =? _) = false |- _ => apply Z.eqb_neq in H
    | H : negb _ = true |- _ => apply negb_true_iff in H
    | H : negb _ = false |- _ => apply negb_false_iff in H
    end.

Ltac case_if :=
  match goal with
  | |- context [if ?b then _ else _] => let E := fresh "E" in destruct b eqn:E
  end.

(** Decide [a <? b] and friends from the arithmetic context. *)
Ltac zb :=
  repeat match goal with
    | |- context [?a <? ?b] =>
        first [ replace (a <? b) with true by (symmetry; apply Z.ltb_lt; lia)
              | replace (a <? b) with false by (symmetry; apply Z.ltb_ge; lia) ]
    | |- context [?a <=? ?b] =>
        first [ replace (a <=? b) with true by (symmetry; apply Z.leb_le; lia)
              | replace (a <=? b) with false by (symmetry; apply Z.leb_gt; lia) ]
    | |- context [?a =? ?b] =>
        first [ replace (a =? b) with true by (symmetry; apply Z.eqb_eq; lia)
              | replace (a =? b) with false by (symmetry; apply Z.eqb_neq; lia) ]
    end.
