(* ===== verification/CTypes.v ===== *)
(** * Bit-field layouts: the unions and packed structures of include/

    The headers describe device registers, NVMe commands and page addresses as
    unions of a raw word with a packed structure.  A structure is modelled by
    its list of field widths, least significant field first (little-endian
    allocation, as the ARM EABI does it); a value of the union is its raw
    word, [field] reads a member and [set_field] writes one.  The layouts
    below are copied from nvmeDataStructures.h, issd_types.h,
    iSSDNandCtrlCmdReg.h, iSSDHostIntCmdReg.h and nvme_driver.h. *)

From Stdlib Require Import ZArith Lia Bool List.
From stdpp Require Import base tactics option list.
From S2P Require Import Prelude.

(** ** Generic layouts *)

Fixpoint pack (fs : list (Z * Z)) : Z :=
  match fs with
  | [] => 0
  | (w, v) :: r => v + 2 ^ w * pack r
  end.

Fixpoint unpack (ws : list Z) (d : Z) : list Z :=
  match ws with
  | [] => []
  | w :: r => d mod 2 ^ w :: unpack r (d / 2 ^ w)
  end.

Definition widths_sum (ws : list Z) : Z := foldr Z.add 0 ws.

Definition field (ws : list Z) (i : nat) (d : Z) : Z := nth i (unpack ws d) 0.

Definition set_field (ws : list Z) (i : nat) (v d : Z) : Z :=
  pack (zip ws (<[i := v mod 2 ^ nth i ws 0]> (unpack ws d))).

Definition widths_ok (ws : list Z) : Prop := Forall (fun w => 0 <= w) ws.

Lemma length_unpack ws d : length (unpack ws d) = length ws.
Proof. revert d. induction ws; intros d; simpl; auto. Qed.

Lemma pack_range ws vs :
  widths_ok ws -> Forall2 fits ws vs -> 0 <= pack (zip ws vs) < 2 ^ widths_sum ws.
Proof.
  intros Hw H. induction H as [|w v ws vs Hf _ IH]; simpl; [lia|].
  inversion Hw as [|? ? Hw0 Hws]; subst. specialize (IH Hws).
  assert (0 <= widths_sum ws) by (clear - Hws; induction Hws; simpl; lia).
  unfold widths_sum in *. simpl. rewrite Z.pow_add_r by lia. unfold fits in Hf. nia.
Qed.

(** Reading back every member of a packed structure gives the values stored. *)
Lemma unpack_pack ws vs :
  widths_ok ws -> Forall2 fits ws vs -> unpack ws (pack (zip ws vs)) = vs.
Proof.
  intros Hw H. induction H as [|w v ws vs Hf Hr IH]; simpl; [done|].
  inversion Hw as [|? ? Hw0 Hws]; subst. unfold fits in Hf. f_equal.
  - rewrite Z.mul_comm, Z_mod_plus_full. apply Z.mod_small. lia.
  - rewrite (Z.mul_comm (2 ^ w)), Z.div_add, (Z.div_small v) by lia. auto.
Qed.

(** Re-packing the members of a raw word gives the word, on the bits covered. *)
Lemma pack_unpack ws d :
  widths_ok ws -> pack (zip ws (unpack ws d)) = d mod 2 ^ widths_sum ws.
Proof.
  intros Hw. revert d. induction Hw as [|w ws Hw0 Hws IH]; intros d; simpl.
  - by rewrite Z.mod_1_r.
  - rewrite IH. assert (0 <= widths_sum ws) by (clear - Hws; induction Hws; simpl; lia).
    rewrite Z.pow_add_r, Z.rem_mul_r by lia. done.
Qed.

Lemma unpack_fits ws d : widths_ok ws -> Forall2 fits ws (unpack ws d).
Proof.
  intros Hw. revert d. induction Hw; intros d; simpl; constructor; auto.
  unfold fits. apply Z.mod_pos_bound. lia.
Qed.

Lemma Forall2_insert_r {A B} (P : A -> B -> Prop) l k (i : nat) a b :
  Forall2 P l k -> l !! i = Some a -> P a b -> Forall2 P l (<[i := b]> k).
Proof.
  intros H. revert i. induction H; intros [|i] Hi Hp; simplify_eq/=; constructor; auto.
Qed.

Lemma nth_lookup_Some {A} (l : list A) i d : (i < length l)%nat -> l !! i = Some (nth i l d).
Proof. revert i. induction l; intros [|i] H; simpl in *; try lia; auto with lia. Qed.

Lemma set_field_unpack ws i v d :
  widths_ok ws -> (i < length ws)%nat ->
  unpack ws (set_field ws i v d) = <[i := v mod 2 ^ nth i ws 0]> (unpack ws d).
Proof.
  intros Hw Hi. unfold set_field. apply unpack_pack; [done|].
  eapply Forall2_insert_r.
  - by apply unpack_fits.
  - by apply nth_lookup_Some.
  - unfold fits. apply Z.mod_pos_bound.
    assert (0 <= nth i ws 0); [|lia].
    unfold widths_ok in Hw. rewrite List.Forall_forall in Hw. apply Hw. by apply nth_In.
Qed.

Lemma nth_insert_eq {A} (l : list A) i a d : (i < length l)%nat -> nth i (<[i := a]> l) d = a.
Proof. revert i. induction l; intros [|i] H; simpl in *; try lia; auto with lia. Qed.

Lemma nth_insert_ne {A} (l : list A) i j a d : i <> j -> nth j (<[i := a]> l) d = nth j l d.
Proof.
  revert i j. induction l; intros [|i] [|j] H; simpl in *; try done. apply IHl. lia.
Qed.

Lemma field_set_eq ws i v d :
  widths_ok ws -> (i < length ws)%nat -> fits (nth i ws 0) v ->
  field ws i (set_field ws i v d) = v.
Proof.
  intros Hw Hi Hf. unfold field. rewrite set_field_unpack by done.
  rewrite nth_insert_eq by (by rewrite length_unpack).
  apply Z.mod_small. apply Hf.
Qed.

Lemma field_set_ne ws i j v d :
  widths_ok ws -> (i < length ws)%nat -> i <> j ->
  field ws j (set_field ws i v d) = field ws j d.
Proof.
  intros Hw Hi Hij. unfold field. rewrite set_field_unpack by done. by apply nth_insert_ne.
Qed.

(** A member is the slice of the raw word that starts after the previous members. *)
Lemma field_bits ws i d :
  widths_ok ws -> (i < length ws)%nat ->
  field ws i d = bits (widths_sum (take i ws)) (nth i ws 0) d.
Proof.
  unfold field. intros Hw. revert i d.
  induction Hw as [|w ws Hw0 Hws IH]; intros i d Hi; simpl in *; [lia|].
  destruct i as [|i]; simpl.
  - unfold bits. simpl. by rewrite Z.div_1_r.
  - rewrite IH by lia. unfold bits, widths_sum. simpl.
    assert (0 <= foldr Z.add 0 (take i ws)).
    { clear - Hws. revert i. induction Hws; intros [|i]; simpl; try lia. specialize (IHHws i). lia. }
    rewrite Z.pow_add_r by lia. rewrite Z.div_div by lia. done.
Qed.

Lemma bits_bits lo n LO N d :
  0 <= lo -> 0 <= n -> 0 <= LO -> lo + n <= N ->
  bits lo n (bits LO N d) = bits (LO + lo) n d.
Proof.
  intros. rewrite !bits_spec by lia. apply Z.bits_inj'. intros k Hk.
  rewrite !Z.land_spec, !Z.shiftr_spec, Z.land_spec, Z.shiftr_spec by lia.
  rewrite !Z.testbit_ones_nonneg by lia.
  destruct (Z.ltb_spec k n); [|by rewrite !andb_false_r].
  replace (k + lo <? N) with true by (symmetry; apply Z.ltb_lt; lia).
  rewrite !andb_true_r. f_equal. lia.
Qed.

(** A write of a whole member keeps every slice that lies inside the other members. *)
Lemma field_sub ws i lo n d :
  widths_ok ws -> (i < length ws)%nat -> 0 <= lo -> 0 <= n -> lo + n <= nth i ws 0 ->
  bits lo n (field ws i d) = bits (widths_sum (take i ws) + lo) n d.
Proof.
  intros Hw Hi ? ? ?. rewrite field_bits by done. apply bits_bits; try done.
  clear - Hw. unfold widths_sum. revert i.
  induction Hw; intros [|i]; simpl; try lia. specialize (IHHw i). lia.
Qed.

Lemma field_fits ws i w d : widths_ok ws -> ws !! i = Some w -> fits w (field ws i d).
Proof.
  intros Hw Hi. pose proof (unpack_fits ws d Hw) as Hf. unfold field.
  destruct (Forall2_lookup_l _ _ _ _ _ Hf Hi) as (v & Hv & Hfit).
  rewrite (nth_lookup_Some _ _ 0) in Hv by (apply lookup_lt_Some in Hv; done). by simplify_eq.
Qed.

(** ** issd_types.h *)

(** The page address [ppa_t]: a 64-bit word, a pair of registers or a path of
    page, block, plane, die and channel. *)
Definition ppa_layout : list Z := [16; 16; 8; 8; 8; 8].

Record ppa := Ppa {
  page : Z; block : Z; plane : Z; die : Z; chn : Z; resv : Z }.

#[export] Instance ppa_eq_dec : EqDecision ppa.
Proof. solve_decision. Defined.

Definition ppa_data (p : ppa) : Z :=
  pack (zip ppa_layout [page p; block p; plane p; die p; chn p; resv p]).

Definition ppa_path (d : Z) : ppa :=
  Ppa (field ppa_layout 0 d) (field ppa_layout 1 d) (field ppa_layout 2 d)
      (field ppa_layout 3 d) (field ppa_layout 4 d) (field ppa_layout 5 d).

Definition ppa_fits (p : ppa) : Prop :=
  fits 16 (page p) /\ fits 16 (block p) /\ fits 8 (plane p) /\
  fits 8 (die p) /\ fits 8 (chn p) /\ fits 8 (resv p).

Definition reg64_layout : list Z := [32; 32].
Definition lbits (d : Z) : Z := field reg64_layout 0 d.
Definition hbits (d : Z) : Z := field reg64_layout 1 d.

Definition dword_words : list Z := [16; 16].
Definition dword_bytes : list Z := [8; 8; 8; 8].

(** ** iSSDNandCtrlCmdReg.h: the address cycles sent to a NAND chip *)
Definition address_cycle_shorts : list Z := [16; 16; 16; 16].
Definition address_cycle_addr : list Z := [32; 32].

(** ** iSSDHostIntCmdReg.h: the door bell update register *)
Definition dbUpdateReg_layout : list Z := [8; 8; 16].
Definition isSQ_DB : Z := 1.
Definition isCQ_DB : Z := 2.

(** ** nvmeDataStructures.h: controller registers *)
Definition cap_lo_register : list Z := [16; 1; 2; 5; 8].
Definition cap_hi_register : list Z := [4; 1; 1; 3; 7; 4; 4; 8].
Definition cc_register : list Z := [1; 3; 3; 4; 3; 2; 4; 4; 8].
Definition csts_register : list Z := [1; 1; 2; 28].
Definition aqa_register : list Z := [12; 4; 12; 4].

(** The two words of the completion dword 0, [Dword]. *)
Definition Dword_words : list Z := [16; 16].

(** ** nvmeDataStructures.h and in_storage_processing.h: commands

    A submission command is the 512-bit word made of its 64 bytes. *)
Definition nvmescmd_cp : list Z := [64; 64; 64; 64; 64; 64; 64; 64].
Definition NvmeSCmd : list Z := [8; 8; 16; 32; 64; 64; 64; 64; 32; 32; 32; 32; 32; 32].
Definition NvmeIdentifyCmd : list Z :=
  [8; 8; 16; 32; 64; 64; 64; 64; 2; 30; 32; 32; 32; 32; 32].
Definition NvmeSetFeatureCmd : list Z :=
  [8; 8; 16; 32; 64; 64; 64; 64; 8; 24; 16; 16; 32; 32; 32; 32].
Definition NvmeCreateSQCmd : list Z :=
  [8; 8; 16; 32; 64; 64; 64; 64; 16; 16; 1; 2; 13; 16; 32; 32; 32; 32].
Definition NvmeCreateCQCmd : list Z :=
  [8; 8; 16; 32; 64; 64; 64; 64; 16; 16; 1; 1; 14; 16; 32; 32; 32; 32].
Definition NvmefwdlCmd : list Z := [8; 8; 16; 32; 64; 64; 64; 64; 32; 32; 32; 32; 32; 32].
Definition NvmefwActCmd : list Z :=
  [8; 8; 16; 32; 64; 64; 64; 64; 3; 2; 27; 32; 32; 32; 32; 32].
Definition NvmeIOSCmd : list Z :=
  [8; 8; 16; 32; 64; 64; 64; 64; 64; 16; 10; 4; 1; 1; 8; 24; 32; 16; 16].
Definition NvmeISPSCmd : list Z :=
  [8; 2; 5; 1; 16; 32; 8; 8; 16; 32; 64; 64; 64; 32; 32; 32; 32; 32; 32].

(** The completion command posted to the host. *)
Record NvmeCCmd := MkCCmd {
  cc_cdw0 : Z; cc_sqhd : Z; cc_cid : Z; cc_status_p : Z }.

Definition layouts_512 : list (list Z) :=
  [nvmescmd_cp; NvmeSCmd; NvmeIdentifyCmd; NvmeSetFeatureCmd; NvmeCreateSQCmd;
   NvmeCreateCQCmd; NvmefwdlCmd; NvmefwActCmd; NvmeIOSCmd; NvmeISPSCmd].

Lemma widths_ok_of_bool ws : forallb (fun w => 0 <=? w) ws = true -> widths_ok ws.
Proof. intros H. apply List.Forall_forall. intros w Hw. rewrite forallb_forall in H. specialize (H w Hw). lia. Qed.

Ltac solve_layout := first [ apply widths_ok_of_bool; reflexivity | simpl; lia ].
#[export] Hint Extern 1 (widths_ok _) => (apply widths_ok_of_bool; reflexivity) : cint.

(** Every view of a submission command covers exactly the 64 bytes of the
    command, every register view its 32 bits and every page address view 64 bits:
    the casts of the source between the command structures are width preserving. *)
Lemma views_cover :
  Forall (fun ws => widths_ok ws /\ widths_sum ws = 512) layouts_512 /\
  Forall (fun ws => widths_ok ws /\ widths_sum ws = 32)
    [cap_lo_register; cap_hi_register; cc_register; csts_register; aqa_register;
     Dword_words; dword_words; dword_bytes; dbUpdateReg_layout] /\
  Forall (fun ws => widths_ok ws /\ widths_sum ws = 64)
    [ppa_layout; reg64_layout; address_cycle_shorts; address_cycle_addr].
Proof.
  repeat first [ apply widths_ok_of_bool; reflexivity | reflexivity | apply Forall_nil_2
               | apply Forall_cons_2 | split ].
Qed.

Lemma ppa_path_data p : ppa_fits p -> ppa_path (ppa_data p) = p.
Proof.
  intros (? & ? & ? & ? & ? & ?). destruct p. unfold ppa_path, ppa_data, field. cbn [page block plane die chn resv] in *.
  rewrite unpack_pack; [done| auto with cint |].
  repeat first [done | apply Forall2_nil_2 | apply Forall2_cons_2].
Qed.

Lemma ppa_data_path d : fits 64 d -> ppa_data (ppa_path d) = d.
Proof.
  intros Hd. unfold ppa_data, ppa_path. cbn [page block plane die chn resv].
  change [field ppa_layout 0 d; field ppa_layout 1 d; field ppa_layout 2 d;
    field ppa_layout 3 d; field ppa_layout 4 d; field ppa_layout 5 d] with (unpack ppa_layout d).
  rewrite pack_unpack by auto with cint. apply Z.mod_small, Hd.
Qed.

Lemma ppa_path_fits d : ppa_fits (ppa_path d).
Proof.
  unfold ppa_fits, ppa_path, field; cbn -[Z.pow]. unfold fits.
  repeat split; try apply Z.mod_pos_bound; lia.
Qed.
