(* ===== verification/Queue.v ===== *)
(** * Circular queues (firmware/util.h, firmware/util.containers.c)

    The firmware keeps every FIFO in an array with a tail and a head index.
    This file models the shared container [queue_t] with [enQueue] and
    [deQueue], the two unguarded index updates every other queue of the
    firmware repeats ([put_tail], [take_head]), and an interface, [Fifo], of
    what a bounded queue promises to its clients.  The client theorem
    [fifo_run_refines] is proved against the interface; each queue of the
    firmware is an instance. *)

From Stdlib Require Import ZArith Lia Bool List.
From stdpp Require Import base tactics option list.
From S2P Require Import Prelude.

Record queue_t (A : Type) := Queue {
  q_tail : Z; q_head : Z; q_size : Z; q_objs : list A }.
Arguments Queue {A}.
Arguments q_tail {A}.
Arguments q_head {A}.
Arguments q_size {A}.
Arguments q_objs {A}.

(** C's [%] on the non-negative indices of a queue: undefined for a zero size. *)
Definition c_mod (a n : Z) : outcome Z :=
  if n =? 0 then Fault FDivZero else Ok (a mod n).

(** [objs[tail] = item; tail = (tail + 1) % size] *)
Definition put_tail {A} (q : queue_t A) (item : A) : outcome (queue_t A) :=
  let! objs := arr_set (q_objs q) (q_tail q) item in
  let! t := c_mod (q_tail q + 1) (q_size q) in
  Ok (Queue t (q_head q) (q_size q) objs).

(** [item = objs[head]; head = (head + 1) % size] *)
Definition take_head {A} (q : queue_t A) : outcome (A * queue_t A) :=
  let! item := arr_get (q_objs q) (q_head q) in
  let! h := c_mod (q_head q + 1) (q_size q) in
  Ok (item, Queue (q_tail q) h (q_size q) (q_objs q)).

(** The result of [enQueue] is the item pointer, or NULL ([None]) when full. *)
Definition enQueue {A} (queue : queue_t A) (item_ptr : A) : outcome (option A * queue_t A) :=
  let! next := c_mod (q_tail queue + 1) (q_size queue) in
  if q_head queue =? next then Ok (None, queue)
  else
    let! q' := put_tail queue item_ptr in
    Ok (Some item_ptr, q').

Definition deQueue {A} (queue : queue_t A) : outcome (option A * queue_t A) :=
  if q_head queue =? q_tail queue then Ok (None, queue)
  else
    let! '(item_ptr, q') := take_head queue in
    Ok (Some item_ptr, q').

(** ** The contents of a ring *)

(** [n] entries of the ring starting at index [h] *)
Fixpoint slice {A} (objs : list A) (size h : Z) (n : nat) : list A :=
  match n with
  | O => []
  | S n' =>
      match objs !! Z.to_nat h with
      | Some a => a :: slice objs size ((h + 1) mod size) n'
      | None => []
      end
  end.

Definition q_count {A} (q : queue_t A) : nat := Z.to_nat ((q_tail q - q_head q) mod q_size q).

Definition q_contents {A} (q : queue_t A) : list A :=
  slice (q_objs q) (q_size q) (q_head q) (q_count q).

Definition q_wf {A} (q : queue_t A) : Prop :=
  0 < q_size q /\ q_size q <= Z.of_nat (length (q_objs q)) /\
  0 <= q_head q < q_size q /\ 0 <= q_tail q < q_size q.

Lemma mod_succ_shift a s k : 0 < s -> ((a + 1) mod s + k) mod s = (a + (k + 1)) mod s.
Proof. intros. rewrite Z.add_mod_idemp_l by lia. f_equal. lia. Qed.

Lemma mod_inj_range h s j k :
  0 < s -> (h + j) mod s = (h + k) mod s -> 0 <= j < s -> 0 <= k < s -> j = k.
Proof.
  intros Hs E Hj Hk.
  pose proof (Z.div_mod (h + j) s ltac:(lia)). pose proof (Z.div_mod (h + k) s ltac:(lia)).
  assert (D : j - k = s * ((h + j) / s - (h + k) / s)) by lia.
  set (d := (h + j) / s - (h + k) / s) in *.
  destruct (Z.lt_trichotomy d 0) as [L|[L|L]]; nia.
Qed.

Lemma slice_length {A} (objs : list A) s h n :
  0 < s -> s <= Z.of_nat (length objs) -> 0 <= h < s -> length (slice objs s h n) = n.
Proof.
  intros Hs Hl. revert h. induction n as [|n IH]; intros h Hh; simpl; [done|].
  destruct (lookup_lt_is_Some_2 objs (Z.to_nat h)) as [a ->]; [lia|]. simpl.
  rewrite IH; [done|]. apply Z.mod_pos_bound. lia.
Qed.

Lemma slice_insert {A} (objs : list A) s h n i a :
  0 < s -> (forall k, 0 <= k < Z.of_nat n -> (h + k) mod s <> i) -> 0 <= h < s -> 0 <= i ->
  slice (<[Z.to_nat i := a]> objs) s h n = slice objs s h n.
Proof.
  intros Hs. revert h. induction n as [|n IH]; intros h Hk Hh Hi; simpl; [done|].
  assert (h <> i).
  { specialize (Hk 0). rewrite Z.add_0_r, Z.mod_small in Hk by lia. apply Hk. lia. }
  rewrite list_lookup_insert_ne by lia. rewrite IH; [done| |apply Z.mod_pos_bound; lia|done].
  intros k Hk'. rewrite mod_succ_shift by lia. apply Hk. lia.
Qed.

Lemma slice_snoc {A} (objs : list A) s h n a :
  0 < s -> s <= Z.of_nat (length objs) -> 0 <= h < s ->
  objs !! Z.to_nat ((h + Z.of_nat n) mod s) = Some a ->
  slice objs s h (S n) = slice objs s h n ++ [a].
Proof.
  intros Hs Hl. revert h. induction n as [|n IH]; intros h Hh Ha.
  - simpl in *. rewrite Z.add_0_r, Z.mod_small in Ha by lia. by rewrite Ha.
  - change (slice objs s h (S (S n))) with
      (match objs !! Z.to_nat h with
       | Some b => b :: slice objs s ((h + 1) mod s) (S n) | None => [] end).
    simpl (slice objs s h (S n)).
    destruct (lookup_lt_is_Some_2 objs (Z.to_nat h)) as [b ->]; [lia|].
    rewrite IH; [done|apply Z.mod_pos_bound; lia|].
    rewrite mod_succ_shift by lia. rewrite <- Ha. f_equal. f_equal. f_equal. lia.
Qed.

Section ring.
Context {A : Type}.
Implicit Types q : queue_t A.

Lemma q_count_bound q : q_wf q -> 0 <= Z.of_nat (q_count q) < q_size q.
Proof.
  intros (? & _). unfold q_count.
  pose proof (Z.mod_pos_bound (q_tail q - q_head q) (q_size q)). lia.
Qed.

Lemma q_contents_length q : q_wf q -> length (q_contents q) = q_count q.
Proof. intros (? & ? & ? & ?). by apply slice_length. Qed.

Lemma q_tail_count q : q_wf q -> (q_head q + Z.of_nat (q_count q)) mod q_size q = q_tail q.
Proof.
  intros (Hs & _ & Hh & Ht). unfold q_count.
  pose proof (Z.mod_pos_bound (q_tail q - q_head q) (q_size q)).
  rewrite Z2Nat.id by lia. rewrite Z.add_mod_idemp_r by lia.
  replace (q_head q + (q_tail q - q_head q)) with (q_tail q) by lia.
  apply Z.mod_small. lia.
Qed.

Lemma mod_sub_succ t h s : 0 < s -> (t - h) mod s + 1 < s ->
  ((t + 1) mod s - h) mod s = (t - h) mod s + 1.
Proof.
  intros Hs H. pose proof (Z.mod_pos_bound (t - h) s).
  rewrite Zminus_mod_idemp_l. replace (t + 1 - h) with ((t - h) + 1) by lia.
  rewrite <- Z.add_mod_idemp_l by lia. apply Z.mod_small. lia.
Qed.

(** A queue is full exactly when it holds [size - 1] entries. *)
Lemma full_iff q : q_wf q ->
  (q_head q =? (q_tail q + 1) mod q_size q) = (Z.of_nat (q_count q) =? q_size q - 1).
Proof.
  intros Hwf. pose proof (q_count_bound q Hwf) as Hc. destruct Hwf as (Hs & _ & Hh & Ht).
  unfold q_count in *. pose proof (Z.mod_pos_bound (q_tail q - q_head q) (q_size q) Hs).
  rewrite Z2Nat.id in * by lia. apply eq_true_iff_eq. rewrite !Z.eqb_eq. split.
  - intros E. destruct (Z.eq_dec ((q_tail q - q_head q) mod q_size q) (q_size q - 1)); [done|].
    pose proof (mod_sub_succ (q_tail q) (q_head q) (q_size q) Hs ltac:(lia)) as E2.
    rewrite <- E, Z.sub_diag, Z.mod_0_l in E2 by lia. lia.
  - intros E. pose proof (Z.div_mod (q_tail q - q_head q) (q_size q) ltac:(lia)) as D.
    rewrite E in D. set (k := (q_tail q - q_head q) / q_size q) in *.
    replace (q_tail q + 1) with (q_head q + (k + 1) * q_size q) by nia.
    rewrite Z_mod_plus_full. symmetry. apply Z.mod_small. lia.
Qed.

Lemma empty_iff q : q_wf q -> (q_head q =? q_tail q) = (q_count q =? 0)%nat.
Proof.
  intros Hwf. pose proof (q_tail_count q Hwf) as E. destruct Hwf as (Hs & _ & Hh & Ht).
  apply eq_true_iff_eq. rewrite Z.eqb_eq, Nat.eqb_eq. split.
  - intros H. unfold q_count. rewrite H, Z.sub_diag, Z.mod_0_l by lia. done.
  - intros H. rewrite H in E. rewrite Z.add_0_r, Z.mod_small in E by lia. done.
Qed.

Lemma put_tail_spec q a :
  q_wf q -> Z.of_nat (q_count q) < q_size q - 1 ->
  exists q', put_tail q a = Ok q' /\ q_wf q' /\ q_size q' = q_size q /\
    q_head q' = q_head q /\ q_contents q' = q_contents q ++ [a].
Proof.
  intros Hwf Hn. pose proof (q_tail_count q Hwf) as Ht0.
  destruct Hwf as (Hs & Hl & Hh & Ht). unfold put_tail, c_mod.
  rewrite arr_set_Ok by lia. simpl. zb. simpl. eexists. split; [done|].
  pose proof (Z.mod_pos_bound (q_tail q + 1) (q_size q)) as Hb.
  split_and!; simpl; try done; try lia.
  { unfold q_wf; simpl. rewrite length_insert. lia. }
  unfold q_contents, q_count in *; simpl.
  pose proof (Z.mod_pos_bound (q_tail q - q_head q) (q_size q) Hs).
  rewrite Z2Nat.id in * by lia.
  rewrite mod_sub_succ by lia.
  replace (Z.to_nat ((q_tail q - q_head q) mod q_size q + 1))
    with (S (Z.to_nat ((q_tail q - q_head q) mod q_size q))) by lia.
  rewrite (slice_snoc _ _ _ _ a); [|done|by rewrite length_insert|done|].
  - f_equal. apply slice_insert; try lia. intros k Hk E.
    rewrite <- Ht0 in E. rewrite Z2Nat.id in Hk by lia.
    apply mod_inj_range in E; lia.
  - rewrite Z2Nat.id by lia. rewrite Ht0. apply list_lookup_insert_eq. lia.
Qed.

Lemma take_head_spec q :
  q_wf q -> q_count q <> O ->
  exists a q', take_head q = Ok (a, q') /\ q_wf q' /\ q_size q' = q_size q /\
    q_tail q' = q_tail q /\ q_contents q = a :: q_contents q'.
Proof.
  intros Hwf Hn. pose proof (q_count_bound q Hwf). destruct Hwf as (Hs & Hl & Hh & Ht).
  unfold take_head, c_mod.
  destruct (arr_get_lookup (q_objs q) (q_head q)) as (a & -> & Ha); [lia|]. simpl. zb. simpl.
  exists a. eexists. split; [done|].
  pose proof (Z.mod_pos_bound (q_head q + 1) (q_size q)).
  split_and!; try done; try (unfold q_wf; simpl; lia).
  unfold q_contents. destruct (q_count q) as [|n] eqn:En; [done|]. simpl. rewrite Ha. f_equal.
  f_equal. unfold q_count in *. simpl.
  pose proof (Z.mod_pos_bound (q_tail q - q_head q) (q_size q) Hs).
  rewrite Zminus_mod_idemp_r. replace (q_tail q - (q_head q + 1)) with (q_tail q - q_head q - 1) by lia.
  rewrite <- Zminus_mod_idemp_l. rewrite (Z.mod_small (_ - 1)) by lia. lia.
Qed.
End ring.

(** ** The interface of a bounded FIFO *)

(** What a queue component promises: its contents as a list, oldest first, a
    capacity, and operations that append at the back unless the queue is full
    and take from the front unless it is empty. *)
Class Fifo (Q A : Type) := {
  fifo_wf : Q -> Prop;
  fifo_contents : Q -> list A;
  fifo_cap : Q -> nat;
  fifo_push : Q -> A -> outcome (bool * Q);
  fifo_pop : Q -> outcome (option A * Q);
  fifo_push_spec : forall q a, fifo_wf q ->
    exists q', fifo_wf q' /\ fifo_cap q' = fifo_cap q /\
      ((length (fifo_contents q) < fifo_cap q)%nat /\ fifo_push q a = Ok (true, q') /\
         fifo_contents q' = fifo_contents q ++ [a]
       \/ length (fifo_contents q) = fifo_cap q /\ fifo_push q a = Ok (false, q') /\
         fifo_contents q' = fifo_contents q);
  fifo_pop_spec : forall q, fifo_wf q ->
    exists q', fifo_wf q' /\ fifo_cap q' = fifo_cap q /\
      (fifo_contents q = [] /\ fifo_pop q = Ok (None, q') /\ fifo_contents q' = []
       \/ exists a, fifo_contents q = a :: fifo_contents q' /\ fifo_pop q = Ok (Some a, q'))
}.

(** A script of operations and what a client observes of it. *)
Inductive qop (A : Type) := QPush (a : A) | QPop.
Arguments QPush {A} a.
Arguments QPop {A}.

Inductive qres (A : Type) := RPush (added : bool) | RPop (item : option A).
Arguments RPush {A} added.
Arguments RPop {A} item.

Fixpoint run_fifo {Q A} `{Fifo Q A} (ops : list (qop A)) (q : Q) : outcome (list (qres A) * Q) :=
  match ops with
  | [] => Ok ([], q)
  | QPush a :: r =>
      let! '(b, q1) := fifo_push q a in
      let! '(rs, q2) := run_fifo r q1 in Ok (RPush b :: rs, q2)
  | QPop :: r =>
      let! '(x, q1) := fifo_pop q in
      let! '(rs, q2) := run_fifo r q1 in Ok (RPop x :: rs, q2)
  end.

(** The specification: a list of at most [cap] elements. *)
Fixpoint run_list {A} (cap : nat) (ops : list (qop A)) (l : list A) : list (qres A) * list A :=
  match ops with
  | [] => ([], l)
  | QPush a :: r =>
      let b := (length l <? cap)%nat in
      let '(rs, l') := run_list cap r (if b then l ++ [a] else l) in (RPush b :: rs, l')
  | QPop :: r =>
      match l with
      | [] => let '(rs, l') := run_list cap r [] in (RPop None :: rs, l')
      | x :: l0 => let '(rs, l') := run_list cap r l0 in (RPop (Some x) :: rs, l')
      end
  end.

Lemma fifo_run_refines {Q A} `{Fifo Q A} ops (q : Q) :
  fifo_wf q ->
  exists q', run_fifo ops q = Ok (fst (run_list (fifo_cap q) ops (fifo_contents q)), q') /\
    fifo_wf q' /\ fifo_cap q' = fifo_cap q /\
    fifo_contents q' = snd (run_list (fifo_cap q) ops (fifo_contents q)).
Proof.
  revert q. induction ops as [|[a|] ops IH]; intros q Hwf; simpl.
  - by exists q.
  - destruct (fifo_push_spec q a Hwf) as (q1 & Hwf1 & Hcap & [(Hl & -> & Hc)|(Hl & -> & Hc)]); simpl.
    + destruct (IH q1 Hwf1) as (q' & Hr & ? & ? & Hs). rewrite Hc, Hcap in Hr, Hs. rewrite Hr. simpl.
      replace (_ <? _)%nat with true by (symmetry; by apply Nat.ltb_lt).
      destruct (run_list _ ops _) as [rs l']; simpl in *. exists q'. split_and!; try done. congruence.
    + destruct (IH q1 Hwf1) as (q' & Hr & ? & ? & Hs). rewrite Hc, Hcap in Hr, Hs. rewrite Hr. simpl.
      replace (_ <? _)%nat with false by (symmetry; apply Nat.ltb_ge; lia).
      destruct (run_list _ ops _) as [rs l']; simpl in *. exists q'. split_and!; try done. congruence.
  - destruct (fifo_pop_spec q Hwf) as (q1 & Hwf1 & Hcap & [(He & -> & Hc)|(a & He & ->)]); simpl.
    + destruct (IH q1 Hwf1) as (q' & Hr & ? & ? & Hs). rewrite Hc, Hcap in Hr, Hs.
      rewrite Hr, He. simpl.
      destruct (run_list _ ops _) as [rs l']; simpl in *. exists q'. split_and!; try done. congruence.
    + destruct (IH q1 Hwf1) as (q' & Hr & ? & ? & Hs). rewrite Hcap in Hr, Hs.
      rewrite Hr, He. simpl.
      destruct (run_list _ ops _) as [rs l']; simpl in *. exists q'. split_and!; try done. congruence.
Qed.

(** ** [enQueue]/[deQueue] implement the interface with capacity [size - 1] *)

Lemma enQueue_spec {A} (q : queue_t A) a :
  q_wf q ->
  exists q', q_wf q' /\ q_size q' = q_size q /\
    (Z.of_nat (length (q_contents q)) < q_size q - 1 /\ enQueue q a = Ok (Some a, q') /\
       q_contents q' = q_contents q ++ [a]
     \/ Z.of_nat (length (q_contents q)) = q_size q - 1 /\ enQueue q a = Ok (None, q') /\ q' = q).
Proof.
  intros Hwf. pose proof (full_iff q Hwf) as Hf. pose proof (q_count_bound q Hwf) as Hb.
  rewrite q_contents_length by done. unfold enQueue, c_mod.
  destruct (Z.eqb_spec (q_size q) 0) as [?|_]; [lia|]. simpl. rewrite Hf.
  destruct (Z.eqb_spec (Z.of_nat (q_count q)) (q_size q - 1)) as [E|E].
  - exists q. split_and!; auto.
  - destruct (put_tail_spec q a Hwf ltac:(lia)) as (q' & -> & ? & ? & ? & Hc). simpl.
    exists q'. split_and!; try done. left. split; [lia|]. by split.
Qed.

Lemma deQueue_spec {A} (q : queue_t A) :
  q_wf q ->
  exists q', q_wf q' /\ q_size q' = q_size q /\
    (q_contents q = [] /\ deQueue q = Ok (None, q') /\ q' = q
     \/ exists a, q_contents q = a :: q_contents q' /\ deQueue q = Ok (Some a, q')).
Proof.
  intros Hwf. pose proof (empty_iff q Hwf) as He. pose proof (q_contents_length q Hwf) as Hl.
  unfold deQueue. rewrite He. destruct (Nat.eqb_spec (q_count q) 0) as [E|E].
  - exists q. split_and!; try done. left. split; [|done]. apply length_zero_iff_nil. lia.
  - destruct (take_head_spec q Hwf E) as (a & q' & -> & ? & ? & ? & Hc). simpl.
    exists q'. split_and!; try done. right. by exists a.
Qed.

#[export, refine] Instance queue_t_fifo {A} : Fifo (queue_t A) A := {|
  fifo_wf := q_wf;
  fifo_contents := q_contents;
  fifo_cap q := Z.to_nat (q_size q - 1);
  fifo_push q a := let! '(r, q') := enQueue q a in Ok (bool_decide (is_Some r), q');
  fifo_pop := deQueue
|}.
Proof.
  - intros q a Hwf. destruct (enQueue_spec q a Hwf) as (q' & Hwf' & Hs & [(Hl & -> & Hc)|(Hl & -> & ->)]).
    + exists q'. rewrite Hs. split_and!; try done. left. split_and!; try done. lia.
    + exists q. split_and!; try done. right. split_and!; try done. lia.
  - intros q Hwf. destruct (deQueue_spec q Hwf) as (q' & Hwf' & Hs & [(Hc & -> & ->)|(a & Hc & ->)]).
    + exists q. split_and!; try done. by left.
    + exists q'. rewrite Hs. split_and!; try done. right. by exists a.
Defined.
