(* ===== verification/Kernel.v ===== *)
(** * The kernel (firmware/issd_kernel.c, firmware/issd_kernel.h)

    Threads, the table of thread functions, the object queues and callback
    queues between threads, and the per-CPU scheduler.  The start-up code of
    the kernel is in Boot.v.

    Function and object pointers are addresses ([Z]).  Calling through a
    function pointer is the parameter [call] of [run_thread]: it receives the
    pointer, both arguments and the whole state. *)

From Stdlib Require Import ZArith Lia Bool List.
From stdpp Require Import base tactics option list.
From S2P Require Import Prelude Queue.

(** ** Constants of issd_kernel.h and global_macro.h *)
Definition MSG_Q_SIZE : Z := 256.
Definition THREAD_STATUS_ACTIVE : Z := 1.
Definition THREAD_STATUS_READY : Z := 2.
Definition THREAD_STATUS_SWPM : Z := 3.
Definition HOST_DMA_THREAD : Z := 1.
Definition NVME_DRIVER_THREAD : Z := 2.
Definition FTL_MODULE_THREAD : Z := 3.
Definition ISP_THREAD_START_INDEX : Z := 4.
Definition FTL_MODULE_IN_Q : Z := 5.
Definition FTL_MODULE_OUT_Q : Z := 6.

(** ** State *)

Record cbk_entry := CbkEntry { ce_ftn_id : Z; ce_arg0 : Z }.
Record obj_entry := ObjEntry { oe_obj_ptr : Z; oe_obj_type : Z }.

Record thrd_t := Thrd {
  t_id : Z; t_status : Z; t_skipped_count : Z; t_stack_start : Z;
  t_num_of_ftns : Z; t_function_ids : list Z;
  t_num_of_queues : Z; t_msg_queues : list Z;
  t_ftn_cbk : queue_t cbk_entry }.

Record thrd_ftn_t := ThrdFtn { f_id : Z; f_ftn_ptr : Z; f_thrd_id : Z }.

Record obj_queue_t := ObjQueue {
  oq_id : Z; oq_push_thrd : Z; oq_cbk_ftn_id : Z; oq_ring : queue_t obj_entry }.

Record kernel := Kernel {
  thrds : list thrd_t; num_of_thrds : Z;
  all_thrds_ftns : list thrd_ftn_t; num_of_ftns : Z;
  queues : list obj_queue_t }.

Definition set_thrds v k := Kernel v (num_of_thrds k) (all_thrds_ftns k) (num_of_ftns k) (queues k).
Definition set_queues v k := Kernel (thrds k) (num_of_thrds k) (all_thrds_ftns k) (num_of_ftns k) v.
Definition set_status v t :=
  Thrd (t_id t) v (t_skipped_count t) (t_stack_start t) (t_num_of_ftns t) (t_function_ids t)
    (t_num_of_queues t) (t_msg_queues t) (t_ftn_cbk t).
Definition set_skipped v t :=
  Thrd (t_id t) (t_status t) v (t_stack_start t) (t_num_of_ftns t) (t_function_ids t)
    (t_num_of_queues t) (t_msg_queues t) (t_ftn_cbk t).
Definition set_ftn_cbk v t :=
  Thrd (t_id t) (t_status t) (t_skipped_count t) (t_stack_start t) (t_num_of_ftns t)
    (t_function_ids t) (t_num_of_queues t) (t_msg_queues t) v.
Definition set_ring v q := ObjQueue (oq_id q) (oq_push_thrd q) (oq_cbk_ftn_id q) v.

(** Zero-initialised globals. *)
Definition thrd0 : thrd_t :=
  Thrd 0 0 0 0 0 (replicate 16 0) 0 (replicate 16 0)
    (Queue 0 0 MSG_Q_SIZE (replicate 256 (CbkEntry 0 0))).
Definition obj_queue0 : obj_queue_t :=
  ObjQueue 0 0 0 (Queue 0 0 MSG_Q_SIZE (replicate 256 (ObjEntry 0 0))).
Definition kernel0 : kernel :=
  Kernel (replicate 8 thrd0) 1 (replicate 64 (ThrdFtn 0 0 0)) 0 (replicate 16 obj_queue0).

(** ** Threads and queues *)

Definition thrd_stack_size : Z := 16384.

(** [&thrd_stack[i][thrd_stack_size - 4]], as an offset into [thrd_stack] *)
Definition thrd_stack_top (i : Z) : Z := i * thrd_stack_size + (thrd_stack_size - 4).

Definition sys_create_thread (thrd : Z) (k : kernel) : outcome (Z * kernel) :=
  if negb (thrd =? num_of_thrds k) then Fault FShutdown
  else
    let! t := arr_get (thrds k) (num_of_thrds k) in
    let t' := Thrd (num_of_thrds k) (t_status t) (t_skipped_count t)
                (thrd_stack_top (num_of_thrds k)) 0 (t_function_ids t) 0 (t_msg_queues t)
                (Queue 0 0 MSG_Q_SIZE (q_objs (t_ftn_cbk t))) in
    let! ts := arr_set (thrds k) (num_of_thrds k) t' in
    Ok (num_of_ftns k - 1,
        Kernel ts (num_of_thrds k + 1) (all_thrds_ftns k) (num_of_ftns k) (queues k)).

Definition sys_add_thread_function (thrd ftn_ptr : Z) (k : kernel) : outcome (Z * kernel) :=
  if (thrd <? 1) || (num_of_thrds k <=? thrd) then Fault FShutdown
  else
    let ftn_id := num_of_ftns k in
    let! fs := arr_set (all_thrds_ftns k) ftn_id (ThrdFtn ftn_id ftn_ptr thrd) in
    let! t := arr_get (thrds k) thrd in
    let! ids := arr_set (t_function_ids t) (t_num_of_ftns t) ftn_id in
    let t' := Thrd (t_id t) (t_status t) (t_skipped_count t) (t_stack_start t)
                (t_num_of_ftns t + 1) ids (t_num_of_queues t) (t_msg_queues t) (t_ftn_cbk t) in
    let! ts := arr_set (thrds k) thrd t' in
    Ok (ftn_id, Kernel ts (num_of_thrds k) fs (ftn_id + 1) (queues k)).

Definition sys_create_obj_queue (queue_id push_thrd cbk_ftn_id : Z) (k : kernel) : outcome (Z * kernel) :=
  let! q := arr_get (queues k) queue_id in
  let q' := ObjQueue queue_id push_thrd cbk_ftn_id (Queue 0 0 MSG_Q_SIZE (q_objs (oq_ring q))) in
  let! qs := arr_set (queues k) queue_id q' in
  let! f := arr_get (all_thrds_ftns k) cbk_ftn_id in
  let! t := arr_get (thrds k) (f_thrd_id f) in
  let! mq := arr_set (t_msg_queues t) (t_num_of_queues t) queue_id in
  let t' := Thrd (t_id t) (t_status t) (t_skipped_count t) (t_stack_start t) (t_num_of_ftns t)
              (t_function_ids t) (t_num_of_queues t + 1) mq (t_ftn_cbk t) in
  let! ts := arr_set (thrds k) (f_thrd_id f) t' in
  Ok (0, Kernel ts (num_of_thrds k) (all_thrds_ftns k) (num_of_ftns k) qs).

(** The push and pop operations: [-1] when full, respectively empty; a pop
    returns the index of the entry it took. *)
Definition ring_push {A} (r : queue_t A) (e : A) : outcome (Z * queue_t A) :=
  if q_head r =? (q_tail r + 1) mod MSG_Q_SIZE then Ok (-1, r)
  else
    let! objs := arr_set (q_objs r) (q_tail r) e in
    Ok (0, Queue ((q_tail r + 1) mod MSG_Q_SIZE) (q_head r) (q_size r) objs).

Definition ring_pop {A} (r : queue_t A) : Z * queue_t A :=
  if q_head r =? q_tail r then (-1, r)
  else (q_head r, Queue (q_tail r) ((q_head r + 1) mod MSG_Q_SIZE) (q_size r) (q_objs r)).

Definition push_obj_to_queue (queue obj_ptr obj_type : Z) (k : kernel) : outcome (Z * kernel) :=
  let! q := arr_get (queues k) queue in
  let! '(r, ring') := ring_push (oq_ring q) (ObjEntry obj_ptr obj_type) in
  let! qs := arr_set (queues k) queue (set_ring ring' q) in
  Ok (r, set_queues qs k).

Definition pop_obj_from_queue (queue : Z) (k : kernel) : outcome (Z * kernel) :=
  let! q := arr_get (queues k) queue in
  let '(ix, ring') := ring_pop (oq_ring q) in
  let! qs := arr_set (queues k) queue (set_ring ring' q) in
  Ok (ix, set_queues qs k).

Definition push_callback_ftn (ftn_id arg_0 : Z) (k : kernel) : outcome (Z * kernel) :=
  let! f := arr_get (all_thrds_ftns k) ftn_id in
  let! t := arr_get (thrds k) (f_thrd_id f) in
  let! '(r, ring') := ring_push (t_ftn_cbk t) (CbkEntry ftn_id arg_0) in
  let! ts := arr_set (thrds k) (f_thrd_id f) (set_ftn_cbk ring' t) in
  Ok (r, set_thrds ts k).

Definition pop_callback_ftn (thrd : Z) (k : kernel) : outcome (Z * kernel) :=
  let! t := arr_get (thrds k) thrd in
  let '(ix, ring') := ring_pop (t_ftn_cbk t) in
  let! ts := arr_set (thrds k) thrd (set_ftn_cbk ring' t) in
  Ok (ix, set_thrds ts k).

Definition sys_push_obj_to_queue := push_obj_to_queue.

(** The result of the push is dropped: a full queue loses the request. *)
Definition sys_push_to_ftl (req req_type : Z) (k : kernel) : outcome kernel :=
  let! '(_, k') := push_obj_to_queue FTL_MODULE_IN_Q req req_type k in Ok k'.

Definition sys_push_to_nvme (req req_type : Z) (k : kernel) : outcome kernel :=
  let! '(_, k') := push_obj_to_queue FTL_MODULE_OUT_Q req req_type k in Ok k'.

Definition sys_add_callback_ftn := push_callback_ftn.

(** ** Running a thread

    [W] is the whole machine, [getk]/[setk] its kernel part; [call f a b w]
    runs the function at address [f]. *)
Section run_thread.
Context {W : Type} (getk : W -> kernel) (setk : kernel -> W -> W)
        (call : Z -> Z -> Z -> W -> outcome W).

Definition run_callback (thrd : Z) (w : W) : outcome W :=
  let! '(entry_index, k) := pop_callback_ftn thrd (getk w) in
  let w := setk k w in
  if entry_index =? -1 then Ok w
  else
    let! t := arr_get (thrds (getk w)) thrd in
    let! e := arr_get (q_objs (t_ftn_cbk t)) entry_index in
    let! f := arr_get (all_thrds_ftns (getk w)) (ce_ftn_id e) in
    call (f_ftn_ptr f) (ce_arg0 e) 0 w.

Definition run_queue (qid : Z) (w : W) : outcome W :=
  let! '(entry_index, k) := pop_obj_from_queue qid (getk w) in
  let w := setk k w in
  if entry_index =? -1 then Ok w
  else
    let! q := arr_get (queues (getk w)) qid in
    let! f := arr_get (all_thrds_ftns (getk w)) (oq_cbk_ftn_id q) in
    let! e := arr_get (q_objs (oq_ring q)) entry_index in
    call (f_ftn_ptr f) (oe_obj_ptr e) (oe_obj_type e) w.

(** The loop over the thread's queues; [t->num_of_queues] and the queue ids
    are read again in every round.  A thread has 16 queue slots. *)
Fixpoint run_queues (fuel : nat) (i thrd : Z) (w : W) : outcome W :=
  let! t := arr_get (thrds (getk w)) thrd in
  if i <? t_num_of_queues t then
    match fuel with
    | O => Fault FFuel
    | S fuel' =>
        let! qid := arr_get (t_msg_queues t) i in
        let! w := run_queue qid w in
        run_queues fuel' (i + 1) thrd w
    end
  else Ok w.

Definition run_thread (thrd : Z) (w : W) : outcome W :=
  let! w := run_callback thrd w in
  let! w := run_queues 16 0 thrd w in
  let! t := arr_get (thrds (getk w)) thrd in
  let! ts := arr_set (thrds (getk w)) thrd (set_status THREAD_STATUS_READY t) in
  Ok (setk (set_thrds ts (getk w)) w).
End run_thread.

(** ** The scheduler of one CPU core *)

Record cpu_threads_t := CpuThreads {
  c_current_thread : option Z; c_num_assigned : Z; c_threads : list Z }.

Inductive sched_action := RunThread (t : Z) | RestoreThread (t : Z) | NoThread.

Definition assign_thrd_to_cpu (thread_index : Z) (c : cpu_threads_t) (k : kernel)
  : outcome (cpu_threads_t * kernel) :=
  let! t := arr_get (thrds k) thread_index in
  let! ts := arr_set (thrds k) thread_index (set_skipped 0 (set_status THREAD_STATUS_READY t)) in
  let! l := arr_set (c_threads c) (c_num_assigned c) thread_index in
  Ok (CpuThreads (c_current_thread c) (c_num_assigned c + 1) l, set_thrds ts k).

(** The thread each of the four cores runs ([NUM_CPUS == 4]). *)
Definition firmware_entry (cpuID : Z) (k : kernel) : outcome (cpu_threads_t * kernel) :=
  let c := CpuThreads None 0 (replicate 8 0) in
  if cpuID =? 0 then assign_thrd_to_cpu NVME_DRIVER_THREAD c k
  else if cpuID =? 1 then assign_thrd_to_cpu HOST_DMA_THREAD c k
  else if cpuID =? 2 then assign_thrd_to_cpu FTL_MODULE_THREAD c k
  else if cpuID =? 3 then assign_thrd_to_cpu ISP_THREAD_START_INDEX c k
  else Ok (c, k).

(** The first loop of [cpu_thread_scheduler]: the index after the current thread. *)
Fixpoint after_current (n : nat) (i : Z) (c : cpu_threads_t) : outcome Z :=
  match n with
  | O => Ok 0
  | S n' =>
      let! t := arr_get (c_threads c) i in
      if bool_decide (c_current_thread c = Some t) then Ok (i + 1)
      else after_current n' (i + 1) c
  end.

(** The second loop: [asm_run_thread] and [asm_restore_saved_thread] leave the
    scheduler for the thread, so the loop ends with that action. *)
Fixpoint sched_loop (n : nat) (t_index : Z) (c : cpu_threads_t) (k : kernel)
  : outcome (sched_action * cpu_threads_t * kernel) :=
  match n with
  | O => Ok (NoThread, c, k)
  | S n' =>
      let t_index := if c_num_assigned c <=? t_index then 0 else t_index in
      let! tid := arr_get (c_threads c) t_index in
      let! t := arr_get (thrds k) tid in
      let c' := CpuThreads (Some tid) (c_num_assigned c) (c_threads c) in
      if t_status t =? THREAD_STATUS_READY then
        let! ts := arr_set (thrds k) tid (set_status THREAD_STATUS_ACTIVE t) in
        Ok (RunThread tid, c', set_thrds ts k)
      else if t_status t =? THREAD_STATUS_SWPM then
        let s := u32 (t_skipped_count t + 1) in
        if 2 <=? s then
          let! ts := arr_set (thrds k) tid (set_status THREAD_STATUS_ACTIVE (set_skipped 0 t)) in
          Ok (RestoreThread tid, c', set_thrds ts k)
        else
          let! ts := arr_set (thrds k) tid (set_skipped s t) in
          sched_loop n' (t_index + 1) c (set_thrds ts k)
      else sched_loop n' (t_index + 1) c k
  end.

Definition cpu_thread_scheduler (c : cpu_threads_t) (k : kernel)
  : outcome (sched_action * cpu_threads_t * kernel) :=
  let n := Z.to_nat (c_num_assigned c) in
  let! t_index := after_current n 0 c in
  sched_loop n t_index c k.

(** [sys_yield_cpu]: the current thread waits in polling mode. *)
Definition sys_yield_cpu (c : cpu_threads_t) (k : kernel) : outcome kernel :=
  let! tid := deref (c_current_thread c) in
  let! t := arr_get (thrds k) tid in
  let! ts := arr_set (thrds k) tid (set_status THREAD_STATUS_SWPM t) in
  Ok (set_thrds ts k).

(** ** Message queues and callback queues are bounded FIFOs *)

(** The rings of the kernel, as a type of their own so that they get their own
    [Fifo] instance. *)
Inductive msg_ring (A : Type) := MsgRing (r : queue_t A).
Arguments MsgRing {A} r.
Definition ring_of {A} (m : msg_ring A) : queue_t A := let 'MsgRing r := m in r.

Definition ring_wf {A} (r : queue_t A) : Prop := q_wf r /\ q_size r = MSG_Q_SIZE.

Definition ring_take {A} (r : queue_t A) : outcome (option A * queue_t A) :=
  let '(ix, r') := ring_pop r in
  if ix =? -1 then Ok (None, r')
  else let! a := arr_get (q_objs r') ix in Ok (Some a, r').

Lemma ring_push_put {A} (r : queue_t A) e :
  ring_wf r -> ring_push r e =
    if Z.of_nat (q_count r) =? 255 then Ok (-1, r)
    else let! r' := put_tail r e in Ok (0, r').
Proof.
  intros [Hwf Hs]. pose proof (full_iff r Hwf) as Hf. rewrite Hs in Hf.
  unfold ring_push, put_tail, c_mod. rewrite Hf, Hs.
  change (MSG_Q_SIZE - 1) with 255. change (MSG_Q_SIZE =? 0) with false.
  case_if; [done|]. by destruct (arr_set _ _ _).
Qed.

Lemma ring_push_spec {A} (r : queue_t A) e :
  ring_wf r -> exists r', ring_wf r' /\
    ((length (q_contents r) < 255)%nat /\ ring_push r e = Ok (0, r') /\
       q_contents r' = q_contents r ++ [e]
     \/ length (q_contents r) = 255%nat /\ ring_push r e = Ok (-1, r') /\ r' = r).
Proof.
  intros Hr. pose proof Hr as [Hwf Hs]. rewrite ring_push_put by done.
  pose proof (q_count_bound r Hwf). rewrite Hs in *. unfold MSG_Q_SIZE in *.
  rewrite q_contents_length by done.
  destruct (Z.eqb_spec (Z.of_nat (q_count r)) 255).
  - exists r. split; [done|]. right. split_and!; auto; lia.
  - destruct (put_tail_spec r e Hwf ltac:(lia)) as (r' & -> & Hwf' & Hs' & _ & Hc). simpl.
    exists r'. split; [split; [done|unfold MSG_Q_SIZE; lia]|]. left. split_and!; auto; lia.
Qed.

Lemma ring_pop_spec {A} (r : queue_t A) :
  ring_wf r -> exists r', ring_wf r' /\ q_objs r' = q_objs r /\ snd (ring_pop r) = r' /\
    (q_contents r = [] /\ fst (ring_pop r) = -1 /\ r' = r
     \/ exists a, q_contents r = a :: q_contents r' /\ 0 <= fst (ring_pop r) /\
          arr_get (q_objs r) (fst (ring_pop r)) = Ok a).
Proof.
  intros [Hwf Hs]. unfold ring_pop. rewrite (empty_iff r Hwf).
  pose proof (q_contents_length r Hwf) as Hl.
  destruct (Nat.eqb_spec (q_count r) 0) as [E|E]; simpl.
  - exists r. split_and!; try done. left. split_and!; try done. apply length_zero_iff_nil. lia.
  - destruct (take_head_spec r Hwf E) as (a & r' & Ht & Hwf' & Hs' & _ & Hc).
    unfold take_head, c_mod in Ht. rewrite Hs in Ht.
    change (MSG_Q_SIZE =? 0) with false in Ht.
    destruct (arr_get (q_objs r) (q_head r)) as [b|] eqn:Eg; simpl in Ht; [|done]. simplify_eq.
    eexists. split_and!.
    + split; [exact Hwf'|]. done.
    + done.
    + by rewrite Hs.
    + right. exists a. split_and!; try done. simpl. destruct Hwf as (_ & _ & ? & _). lia.
Qed.

#[export, refine] Instance msg_ring_fifo {A} : Fifo (msg_ring A) A := {|
  fifo_wf m := ring_wf (ring_of m);
  fifo_contents m := q_contents (ring_of m);
  fifo_cap _ := 255%nat;
  fifo_push m a := let! '(r, m') := ring_push (ring_of m) a in Ok (r =? 0, MsgRing m');
  fifo_pop m := let! '(a, m') := ring_take (ring_of m) in Ok (a, MsgRing m')
|}.
Proof.
  - intros [q] a Hwf. simpl in *.
    destruct (ring_push_spec q a Hwf) as (q' & Hwf' & [(Hl & -> & Hc)|(Hl & -> & ->)]).
    + exists (MsgRing q'). split_and!; try done. by left.
    + exists (MsgRing q). split_and!; try done. by right.
  - intros [q] Hwf. simpl in *. unfold ring_take.
    destruct (ring_pop_spec q Hwf) as (q' & Hwf' & Ho & Hs & H). destruct (ring_pop q) as [ix qq].
    simpl in *. subst qq. destruct H as [(Hc & -> & ->)|(a & Hc & Hix & Hg)].
    + exists (MsgRing q). split_and!; try done. by left.
    + replace (ix =? -1) with false by lia. rewrite Ho, Hg.
      exists (MsgRing q'). split_and!; try done. right. by exists a.
Defined.

(** The first property below is stated of the kernel's rings; the callback
    queues of the threads and the object queues are both such rings. *)

(** ** Kernel-level queue operations *)

Definition queue_ok (k : kernel) (qid : Z) : Prop :=
  exists q, arr_get (queues k) qid = Ok q /\ ring_wf (oq_ring q).

Definition queue_contents (k : kernel) (qid : Z) : list obj_entry :=
  match arr_get (queues k) qid with Ok q => q_contents (oq_ring q) | Fault _ => [] end.

Lemma arr_get_range {A} (l : list A) i a : arr_get l i = Ok a -> 0 <= i < Z.of_nat (length l).
Proof. rewrite arr_get_Ok. intros [? H]. apply lookup_lt_Some in H. lia. Qed.

Lemma arr_set_Ok_ex {A} (l : list A) i a :
  0 <= i < Z.of_nat (length l) -> exists l', arr_set l i a = Ok l'.
Proof. intros. eexists. by apply arr_set_Ok. Qed.

Lemma push_obj_to_queue_spec k qid o ty :
  queue_ok k qid -> exists k', queue_ok k' qid /\
    thrds k' = thrds k /\ all_thrds_ftns k' = all_thrds_ftns k /\
    (forall j, j <> qid -> arr_get (queues k') j = arr_get (queues k) j) /\
    ((length (queue_contents k qid) < 255)%nat /\ push_obj_to_queue qid o ty k = Ok (0, k') /\
       queue_contents k' qid = queue_contents k qid ++ [ObjEntry o ty]
     \/ length (queue_contents k qid) = 255%nat /\ push_obj_to_queue qid o ty k = Ok (-1, k') /\
       queue_contents k' qid = queue_contents k qid).
Proof.
  intros (q & Hq & Hr). pose proof (arr_get_range _ _ _ Hq) as Hb.
  destruct (ring_push_spec (oq_ring q) (ObjEntry o ty) Hr) as (r' & Hr' & Hcases).
  destruct (arr_set_Ok_ex (queues k) qid (set_ring r' q) Hb) as [qs Es].
  assert (Hg : arr_get qs qid = Ok (set_ring r' q)) by (by eapply arr_get_set_eq).
  exists (set_queues qs k). split_and!; try done.
  - exists (set_ring r' q). by split.
  - intros j Hj. simpl. eapply arr_get_set_ne; [|exact Es]. congruence.
  - unfold queue_contents, push_obj_to_queue. simpl. rewrite Hq, Hg. simpl.
    destruct Hcases as [(Hl & -> & Hc)|(Hl & -> & ->)]; simpl; rewrite Es; [left|right]; done.
Qed.

Lemma pop_obj_from_queue_spec k qid :
  queue_ok k qid -> exists k', queue_ok k' qid /\
    thrds k' = thrds k /\ all_thrds_ftns k' = all_thrds_ftns k /\
    (forall j, j <> qid -> arr_get (queues k') j = arr_get (queues k) j) /\
    (exists q q', arr_get (queues k) qid = Ok q /\ arr_get (queues k') qid = Ok q' /\
       oq_cbk_ftn_id q' = oq_cbk_ftn_id q /\
       (queue_contents k qid = [] /\ pop_obj_from_queue qid k = Ok (-1, k') /\
          queue_contents k' qid = []
        \/ exists ix e, 0 <= ix /\ queue_contents k qid = e :: queue_contents k' qid /\
          pop_obj_from_queue qid k = Ok (ix, k') /\ arr_get (q_objs (oq_ring q')) ix = Ok e)).
Proof.
  intros (q & Hq & Hr). pose proof (arr_get_range _ _ _ Hq) as Hb.
  destruct (ring_pop_spec (oq_ring q) Hr) as (r' & Hr' & Ho & Hs & Hcases).
  destruct (arr_set_Ok_ex (queues k) qid (set_ring r' q) Hb) as [qs Es].
  assert (Hg : arr_get qs qid = Ok (set_ring r' q)) by (by eapply arr_get_set_eq).
  exists (set_queues qs k). split_and!; try done.
  - exists (set_ring r' q). by split.
  - intros j Hj. simpl. eapply arr_get_set_ne; [|exact Es]. congruence.
  - exists q, (set_ring r' q). split_and!; try done.
    unfold queue_contents, pop_obj_from_queue. simpl. rewrite Hq, Hg. simpl.
    destruct (ring_pop (oq_ring q)) as [ix rr]. simpl in *. subst rr. rewrite Es. simpl.
    destruct Hcases as [(Hc & -> & ->)|(e & Hc & Hix & Hge)]; [by left|right].
    exists ix, e. split_and!; try done. by rewrite Ho.
Qed.

(** ** Delivery of messages *)

Section delivery.
Context {W : Type} (getk : W -> kernel) (setk : kernel -> W -> W)
        (call : Z -> Z -> Z -> W -> outcome W).
Hypothesis get_set : forall k w, getk (setk k w) = k.

Lemma run_queue_empty w qid :
  queue_ok (getk w) qid -> queue_contents (getk w) qid = [] ->
  exists k', queue_contents k' qid = [] /\ run_queue getk setk call qid w = Ok (setk k' w).
Proof.
  intros Hq Hc. destruct (pop_obj_from_queue_spec _ _ Hq)
    as (k' & _ & _ & _ & _ & q & q' & _ & _ & _ & [(_ & Hp & Hc')|(ix & e & _ & Hc' & _)]).
  - exists k'. split; [done|]. unfold run_queue. rewrite Hp. done.
  - congruence.
Qed.

(** One round over a queue takes its oldest message and calls the callback
    function registered for the queue with the message's object and type. *)
Lemma run_queue_dispatch w qid q f e rest :
  queue_ok (getk w) qid -> arr_get (queues (getk w)) qid = Ok q ->
  arr_get (all_thrds_ftns (getk w)) (oq_cbk_ftn_id q) = Ok f ->
  queue_contents (getk w) qid = e :: rest ->
  exists k', queue_ok k' qid /\ queue_contents k' qid = rest /\
    all_thrds_ftns k' = all_thrds_ftns (getk w) /\ thrds k' = thrds (getk w) /\
    (exists q', arr_get (queues k') qid = Ok q' /\ oq_cbk_ftn_id q' = oq_cbk_ftn_id q) /\
    run_queue getk setk call qid w
      = call (f_ftn_ptr f) (oe_obj_ptr e) (oe_obj_type e) (setk k' w).
Proof.
  intros Hq Hg Hf Hc. destruct (pop_obj_from_queue_spec _ _ Hq)
    as (k' & Hok & Ht & Hfs & _ & q0 & q' & Hg0 & Hg' & Hid & [(Hc' & _)|(ix & e' & Hix & Hc' & Hp & He)]);
    [congruence|].
  rewrite Hg0 in Hg. rewrite Hc' in Hc. simplify_eq.
  exists k'. split_and!; try done; [by exists q'|].
  unfold run_queue. rewrite Hp. simpl. rewrite get_set.
  replace (ix =? -1) with false by lia. rewrite Hg'. simpl. rewrite Hfs, Hid, Hf. simpl.
  by rewrite He.
Qed.
End delivery.

(** A machine that records the calls made through function pointers. *)
Definition log_world : Type := kernel * list (Z * Z * Z).
Definition log_call (f a b : Z) (w : log_world) : outcome log_world :=
  Ok (fst w, snd w ++ [(f, a, b)]).
Definition log_set (k : kernel) (w : log_world) : log_world := (k, snd w).

Fixpoint push_all (qid : Z) (msgs : list (Z * Z)) (k : kernel) : outcome (list Z * kernel) :=
  match msgs with
  | [] => Ok ([], k)
  | (o, ty) :: r =>
      let! '(rc, k) := push_obj_to_queue qid o ty k in
      let! '(rcs, k) := push_all qid r k in Ok (rc :: rcs, k)
  end.

Fixpoint serve (n : nat) (qid : Z) (w : log_world) : outcome log_world :=
  match n with
  | O => Ok w
  | S n' => let! w := run_queue fst log_set log_call qid w in serve n' qid w
  end.

Lemma push_all_spec qid msgs k :
  queue_ok k qid -> (length (queue_contents k qid) + length msgs <= 255)%nat ->
  exists k', push_all qid msgs k = Ok (replicate (length msgs) 0, k') /\ queue_ok k' qid /\
    all_thrds_ftns k' = all_thrds_ftns k /\
    (forall q, arr_get (queues k) qid = Ok q -> exists q', arr_get (queues k') qid = Ok q' /\
       oq_cbk_ftn_id q' = oq_cbk_ftn_id q) /\
    queue_contents k' qid = queue_contents k qid ++ map (fun m => ObjEntry m.1 m.2) msgs.
Proof.
  revert k. induction msgs as [|[o ty] msgs IH]; intros k Hq Hl; simpl in *.
  - exists k. rewrite app_nil_r. split_and!; try done. eauto.
  - destruct (push_obj_to_queue_spec k qid o ty Hq)
      as (k1 & Hq1 & _ & Hf1 & _ & [(_ & Hp & Hc)|(? & _)]); [|lia].
    rewrite Hp. simpl. destruct (IH k1 Hq1) as (k2 & Hk2 & Hq2 & Hf2 & Hid2 & Hc2).
    { rewrite Hc, length_app. simpl. lia. }
    rewrite Hk2. simpl. exists k2. split_and!; try done.
    + congruence.
    + intros q Hg. unfold push_obj_to_queue in Hp. rewrite Hg in Hp. simpl in Hp.
      apply obind_Ok in Hp as ([z r'] & _ & Hp). apply obind_Ok in Hp as (qs & Hs & Hp). simplify_eq.
      destruct (Hid2 (set_ring r' q)) as (q' & ? & Hid); [by eapply arr_get_set_eq|].
      exists q'. by rewrite Hid.
    + rewrite Hc2, Hc, <- app_assoc. done.
Qed.

Lemma serve_spec qid q f msgs w :
  queue_ok (fst w) qid -> arr_get (queues (fst w)) qid = Ok q ->
  arr_get (all_thrds_ftns (fst w)) (oq_cbk_ftn_id q) = Ok f ->
  queue_contents (fst w) qid = map (fun m => ObjEntry m.1 m.2) msgs ->
  exists k', serve (length msgs) qid w
      = Ok (k', snd w ++ map (fun m => (f_ftn_ptr f, m.1, m.2)) msgs) /\
    queue_contents k' qid = [].
Proof.
  revert w q. induction msgs as [|m msgs IH]; intros w q Hq Hg Hf Hc; simpl in *.
  - exists (fst w). rewrite app_nil_r. by destruct w.
  - destruct (run_queue_dispatch fst log_set log_call ltac:(done) w qid q f _ _ Hq Hg Hf Hc)
      as (k' & Hok & Hc' & Hfs & _ & (q' & Hg' & Hid) & Hr).
    rewrite Hr. simpl. destruct (IH (k', snd w ++ [(f_ftn_ptr f, m.1, m.2)]) q') as (k2 & Hs & He);
      simpl; try done.
    { rewrite Hfs, Hid. done. }
    rewrite Hs. exists k2. simpl. by rewrite <- app_assoc.
Qed.

(** C37: any burst of at most 255 messages pushed to an empty kernel queue is
    accepted without loss, and serving the queue afterwards calls the callback
    function registered for the queue once per message, in the order pushed,
    with the message's object and type, leaving the queue empty. *)
Theorem kernel_queue_delivers_in_order k log qid q f msgs :
  queue_ok k qid -> arr_get (queues k) qid = Ok q -> queue_contents k qid = [] ->
  arr_get (all_thrds_ftns k) (oq_cbk_ftn_id q) = Ok f -> (length msgs <= 255)%nat ->
  exists k1 k2,
    push_all qid msgs k = Ok (replicate (length msgs) 0, k1) /\
    serve (length msgs) qid (k1, log)
      = Ok (k2, log ++ map (fun m => (f_ftn_ptr f, m.1, m.2)) msgs) /\
    queue_contents k2 qid = [].
Proof.
  intros Hq Hg Hc Hf Hl. destruct (push_all_spec qid msgs k Hq) as (k1 & Hp & Hq1 & Hf1 & Hid & Hc1).
  { rewrite Hc. simpl. lia. }
  destruct (Hid q Hg) as (q1 & Hg1 & Hid1). rewrite Hc in Hc1. simpl in Hc1.
  destruct (serve_spec qid q1 f msgs (k1, log)) as (k2 & Hs & He); simpl; try done.
  { by rewrite Hf1, Hid1. }
  exists k1, k2. split_and!; done.
Qed.

(** The kernel after two threads, one function and one queue were registered. *)
Definition demo_kernel : kernel :=
  match (let! '(_, k) := sys_create_thread 1 kernel0 in
         let! '(_, k) := sys_create_thread 2 k in
         let! '(id, k) := sys_add_thread_function 1 4096 k in
         let! '(_, k) := sys_create_obj_queue 10 2 id k in Ok k) with
  | Ok k => k
  | Fault _ => kernel0
  end.

Lemma q_wf_fresh {A} (l : list A) n : 0 < n -> Z.of_nat (length l) = n -> q_wf (Queue 0 0 n l).
Proof. intros. unfold q_wf; simpl. lia. Qed.

Lemma kernel_queue_delivers_in_order_witness :
  exists k1 k2, push_all 10 [(100, 48); (200, 64)] demo_kernel = Ok (replicate 2 0, k1) /\
    serve 2 10 (k1, []) = Ok (k2, [(4096, 100, 48); (4096, 200, 64)]) /\ queue_contents k2 10 = [].
Proof.
  refine (kernel_queue_delivers_in_order demo_kernel [] 10
    (ObjQueue 10 2 0 (Queue 0 0 256 (replicate 256 (ObjEntry 0 0)))) (ThrdFtn 0 4096 1)
    [(100, 48); (200, 64)] _ _ _ _ _).
  - eexists. split; [vm_compute; reflexivity|]. split; [by apply q_wf_fresh|reflexivity].
  - vm_compute. reflexivity.
  - vm_compute. reflexivity.
  - vm_compute. reflexivity.
  - simpl. lia.
Defined.

(** ** Properties of the scheduler *)

Definition thread_at (k : kernel) (tid : Z) (t : thrd_t) : Prop := arr_get (thrds k) tid = Ok t.

(** Every slot in use names an existing thread. *)
Definition cpu_ok (c : cpu_threads_t) (k : kernel) : Prop :=
  0 <= c_num_assigned c <= 8 /\ length (c_threads c) = 8%nat /\
  forall i, 0 <= i < c_num_assigned c ->
    exists tid t, arr_get (c_threads c) i = Ok tid /\ thread_at k tid t.

Lemma after_current_ok c k n i :
  cpu_ok c k -> 0 <= i -> i + Z.of_nat n <= c_num_assigned c ->
  exists r, after_current n i c = Ok r /\ 0 <= r <= c_num_assigned c.
Proof.
  intros (Hn & Hlen & H). revert i. induction n as [|n IH]; intros i Hi Hb; simpl.
  - exists 0. split; [done|lia].
  - destruct (H i) as (tid & t & -> & _); [lia|]. simpl. case_bool_decide.
    + exists (i + 1). split; [done|lia].
    + apply IH; lia.
Qed.

(** What one scan of the scheduler may do to the state: it starts a READY thread of
    the core, or resumes a waiting one, marks it ACTIVE and current, and changes
    the status of no other thread; or it finds no thread to run and changes no
    status at all. *)
Definition thread_change (a : sched_action) (tid : Z) (t t' : thrd_t) : Prop :=
  match a with
  | RunThread r | RestoreThread r => if decide (tid = r) then t_status t' = THREAD_STATUS_ACTIVE else t_status t' = t_status t
  | NoThread => t_status t' = t_status t
  end.

(** What a scan may run. *)
Definition runnable (c : cpu_threads_t) (k : kernel) (tid status : Z) : Prop :=
  (exists i, 0 <= i < c_num_assigned c /\ arr_get (c_threads c) i = Ok tid) /\
  exists t, thread_at k tid t /\ t_status t = status.

Definition sched_post (c : cpu_threads_t) (k : kernel) (a : sched_action)
    (c' : cpu_threads_t) (k' : kernel) : Prop :=
  cpu_ok c' k' /\ c_num_assigned c' = c_num_assigned c /\ c_threads c' = c_threads c /\
  (forall tid t, thread_at k tid t -> exists t', thread_at k' tid t' /\ thread_change a tid t t') /\
  match a with
  | RunThread tid => runnable c k tid THREAD_STATUS_READY /\ c_current_thread c' = Some tid
  | RestoreThread tid => runnable c k tid THREAD_STATUS_SWPM /\ c_current_thread c' = Some tid
  | NoThread => c' = c
  end.

Lemma set_thread_ok c k tid t t1 :
  cpu_ok c k -> thread_at k tid t ->
  exists ts, arr_set (thrds k) tid t1 = Ok ts /\ cpu_ok c (set_thrds ts k) /\
    thread_at (set_thrds ts k) tid t1 /\
    forall j t', j <> tid -> thread_at k j t' -> thread_at (set_thrds ts k) j t'.
Proof.
  intros (Hb & Hlen & H) Ht. pose proof (arr_get_range _ _ _ Ht) as Hr.
  destruct (arr_set_Ok_ex (thrds k) tid t1 Hr) as [ts Hs]. exists ts.
  assert (Hne : forall j t', j <> tid -> thread_at k j t' -> thread_at (set_thrds ts k) j t').
  { intros j t' Hjn Hj. unfold thread_at in *. simpl. rewrite <- Hj.
    eapply arr_get_set_ne; [|exact Hs]. congruence. }
  assert (He : thread_at (set_thrds ts k) tid t1) by (eapply arr_get_set_eq; exact Hs).
  split; [done|]. split; [|by split]. split; [done|]. split; [done|].
  intros i Hi. destruct (H i Hi) as (ti & tt & Hci & Hti). exists ti.
  destruct (Z.eq_dec ti tid) as [->|Hd]; [by exists t1|]. exists tt. auto.
Qed.

(** The two branches of the scan that leave for a thread. *)
Lemma sched_stop c k i tid t t1 a :
  cpu_ok c k -> 0 <= i < c_num_assigned c -> arr_get (c_threads c) i = Ok tid -> thread_at k tid t -> t_status t1 = THREAD_STATUS_ACTIVE ->
  (a = RunThread tid /\ t_status t = THREAD_STATUS_READY \/
   a = RestoreThread tid /\ t_status t = THREAD_STATUS_SWPM) ->
  exists c' k',
    (let! ts := arr_set (thrds k) tid t1 in
     Ok (a, CpuThreads (Some tid) (c_num_assigned c) (c_threads c), set_thrds ts k)) = Ok (a, c', k')
    /\ sched_post c k a c' k'.
Proof.
  intros Hok Hi Hc Ht Hact Ha. destruct (set_thread_ok c k tid t t1 Hok Ht) as (ts & -> & Hok1 & Ht1 & Hne).
  simpl. do 2 eexists. split; [done|]. split; [exact Hok1|]. split; [done|]. split; [done|]. split.
  - intros tid0 t0 Ht0. destruct (Z.eq_dec tid0 tid) as [->|Hd].
    + exists t1. split; [done|]. unfold thread_change. destruct Ha as [[-> _]|[-> _]]; by rewrite decide_True.
    + exists t0. split; [auto|]. unfold thread_change. destruct Ha as [[-> _]|[-> _]]; by rewrite decide_False.
  - destruct Ha as [[-> Hs]|[-> Hs]]; (split; [|done]); (split; [by exists i|by exists t]).
Qed.

Lemma sched_loop_spec n ix c k :
  cpu_ok c k -> 0 < c_num_assigned c -> 0 <= ix <= c_num_assigned c ->
  exists a c' k', sched_loop n ix c k = Ok (a, c', k') /\ sched_post c k a c' k'.
Proof.
  revert ix k. induction n as [|n IH]; intros ix k Hok Hn Hix; simpl.
  { exists NoThread, c, k. split; [done|]. split; [done|]. split_and!; try done.
    intros tid t Ht. by exists t. }
  set (jx := if c_num_assigned c <=? ix then 0 else ix).
  assert (Hj : 0 <= jx < c_num_assigned c) by (unfold jx; case_if; zify_bools; lia).
  pose proof Hok as (Hb & Hlen & H). destruct (H jx Hj) as (tid & t & Hc & Ht).
  rewrite Hc. simpl. pose proof Ht as Ht'. unfold thread_at in Ht'. rewrite Ht'. simpl.
  destruct (Z.eqb_spec (t_status t) THREAD_STATUS_READY) as [Es|Es].
  { exists (RunThread tid). eapply sched_stop; eauto. }
  destruct (Z.eqb_spec (t_status t) THREAD_STATUS_SWPM) as [Ew|Ew]; [|apply IH; auto; lia].
  destruct (2 <=? u32 (t_skipped_count t + 1)).
  { exists (RestoreThread tid). eapply sched_stop; eauto. }
  destruct (set_thread_ok c k tid t (set_skipped (u32 (t_skipped_count t + 1)) t) Hok Ht)
    as (ts & -> & Hok1 & Ht1 & Hne). simpl.
  destruct (IH (jx + 1) (set_thrds ts k) Hok1 Hn ltac:(lia))
    as (a & c' & k' & Hr' & Hok' & Hn' & Hth & Hsp & Hm).
  assert (Hrun : forall r st, runnable c (set_thrds ts k) r st -> runnable c k r st).
  { intros r st (Hix' & t2 & Ht2 & Hst). split; [done|]. destruct (Z.eq_dec r tid) as [->|Hd].
    - exists t. split; [done|]. unfold thread_at in *. rewrite Ht1 in Ht2. by simplify_eq.
    - destruct Hix' as (i & Hi & Hci). destruct (H i Hi) as (r' & t3 & Hci' & Ht3). rewrite Hci in Hci'. simplify_eq.
      exists t3. split; [done|]. specialize (Hne _ _ Hd Ht3). unfold thread_at in *. rewrite Hne in Ht2. by simplify_eq. }
  exists a, c', k'. split; [done|]. split; [done|]. split; [done|]. split; [done|]. split.
  - intros tid0 t0 Ht0. destruct (Z.eq_dec tid0 tid) as [->|Hd]; [|apply Hsp; auto].
    unfold thread_at in Ht0. rewrite Ht' in Ht0. simplify_eq. by apply Hsp in Ht1.
  - destruct a; [..|done]; destruct Hm as (Hm & ?); (split; [by apply Hrun|done]).
Qed.

(** A scan that reaches a READY thread does not come back empty-handed. *)
Lemma sched_loop_ready n ix c k i tid t :
  cpu_ok c k -> 0 <= ix < c_num_assigned c -> 0 <= i < Z.of_nat n ->
  arr_get (c_threads c) ((ix + i) mod c_num_assigned c) = Ok tid -> thread_at k tid t ->
  t_status t = THREAD_STATUS_READY ->
  forall c' k', sched_loop n ix c k <> Ok (NoThread, c', k').
Proof.
  revert ix k i t. induction n as [|n IH]; intros ix k i t Hok Hix Hi Htid Ht Hs c' k'; [lia|].
  simpl. replace (c_num_assigned c <=? ix) with false by lia.
  pose proof Hok as (Hb & Hlen & H). destruct (H ix Hix) as (tj & t' & Hc & Htj).
  rewrite Hc. simpl. pose proof Htj as Hx. unfold thread_at in Hx. rewrite Hx. simpl.
  destruct (Z.eqb_spec (t_status t') THREAD_STATUS_READY) as [Es|Es].
  { destruct (arr_set _ _ _); simpl; congruence. }
  assert (Hi0 : i <> 0).
  { intros ->. rewrite Z.add_0_r, Z.mod_small in Htid by lia. unfold thread_at in *. congruence. }
  assert (Hnext : sched_loop n (ix + 1) c k = sched_loop n ((ix + 1) mod c_num_assigned c) c k /\
                  forall kk, sched_loop n (ix + 1) c kk = sched_loop n ((ix + 1) mod c_num_assigned c) c kk).
  { assert (forall kk, sched_loop n (ix + 1) c kk = sched_loop n ((ix + 1) mod c_num_assigned c) c kk); [|by split].
    intros kk. destruct n as [|n']; [done|]. destruct (Z.eq_dec (ix + 1) (c_num_assigned c)) as [E|E].
    - rewrite E, Z.mod_same by lia. simpl. zb. done.
    - by rewrite (Z.mod_small (ix + 1)) by lia. }
  assert (Hm : 0 <= (ix + 1) mod c_num_assigned c < c_num_assigned c) by (apply Z.mod_pos_bound; lia).
  assert (Ht2 : arr_get (c_threads c) (((ix + 1) mod c_num_assigned c + (i - 1)) mod c_num_assigned c) = Ok tid).
  { rewrite mod_succ_shift by lia. rewrite <- Htid. f_equal. f_equal. lia. }
  destruct (Z.eqb_spec (t_status t') THREAD_STATUS_SWPM) as [Ew|Ew].
  - destruct (2 <=? u32 (t_skipped_count t' + 1)); [destruct (arr_set _ _ _); simpl; congruence|].
    destruct (set_thread_ok c k tj t' (set_skipped (u32 (t_skipped_count t' + 1)) t') Hok Htj)
      as (ts & -> & Hok1 & Ht1 & Hne). simpl. rewrite (proj2 Hnext).
    eapply IH; try done; [lia|]. apply Hne; [|exact Ht].
    intros ->. unfold thread_at in *. congruence.
  - rewrite (proj1 Hnext). eapply IH; try done. lia.
Qed.

Lemma scheduler_start c k :
  cpu_ok c k -> 0 < c_num_assigned c ->
  exists ix, after_current (Z.to_nat (c_num_assigned c)) 0 c = Ok ix /\
    0 <= ix <= c_num_assigned c /\
    forall n kk, sched_loop (S n) ix c kk = sched_loop (S n) (ix mod c_num_assigned c) c kk.
Proof.
  intros Hok Hn. destruct (after_current_ok c k (Z.to_nat (c_num_assigned c)) 0 Hok) as (ix & -> & Hix);
    [lia|lia|].
  exists ix. split_and!; try done; try lia. intros n kk.
  destruct (Z.eq_dec ix (c_num_assigned c)) as [E|E].
  - rewrite E, Z.mod_same by lia. simpl. zb. done.
  - by rewrite (Z.mod_small ix) by lia.
Qed.

(** C38: the per-core scheduler never gets stuck; what it starts was a READY
    thread assigned to the core and what it resumes a waiting one, this becomes
    the only thread whose status changes (to ACTIVE) and the current one, and as
    long as one thread assigned to the core is READY it does run a thread. *)
Theorem scheduler_correct c k :
  cpu_ok c k -> 0 < c_num_assigned c ->
  exists a c' k', cpu_thread_scheduler c k = Ok (a, c', k') /\ sched_post c k a c' k' /\
    ((exists i tid t, 0 <= i < c_num_assigned c /\ arr_get (c_threads c) i = Ok tid /\
        thread_at k tid t /\ t_status t = THREAD_STATUS_READY) -> a <> NoThread).
Proof.
  intros Hok Hn. destruct (scheduler_start c k Hok Hn) as (ix & Ha & Hix & Hmod).
  unfold cpu_thread_scheduler. rewrite Ha. simpl.
  destruct (sched_loop_spec (Z.to_nat (c_num_assigned c)) ix c k Hok Hn Hix)
    as (a & c' & k' & Hs & Hp).
  exists a, c', k'. split; [done|]. split; [done|].
  intros (i & tid & t & Hi & Htid & Ht & Hst) ->.
  destruct (Z.to_nat (c_num_assigned c)) as [|n] eqn:En; [lia|]. rewrite Hmod in Hs.
  revert Hs. set (m := c_num_assigned c) in *.
  assert (0 <= ix mod m < m) by (apply Z.mod_pos_bound; lia).
  eapply (sched_loop_ready (S n) _ _ _ ((i - ix mod m) mod m)); try done.
  - assert (0 <= (i - ix mod m) mod m < m) by (apply Z.mod_pos_bound; lia). lia.
  - rewrite Z.add_mod_idemp_r by lia. replace (ix mod m + (i - ix mod m)) with i by lia.
    rewrite Z.mod_small by lia. done.
Qed.

Definition waiting_once (k : kernel) (tid : Z) : Prop :=
  exists t, thread_at k tid t /\ t_status t = THREAD_STATUS_SWPM /\ t_skipped_count t = 1.

(** A scan that finds nothing leaves the threads already skipped alone. *)
Lemma sched_none_keeps n ix c k c' k' tid :
  cpu_ok c k -> 0 < c_num_assigned c -> 0 <= ix <= c_num_assigned c ->
  sched_loop n ix c k = Ok (NoThread, c', k') -> waiting_once k tid -> waiting_once k' tid.
Proof.
  revert ix k. induction n as [|n IH]; intros ix k Hok Hn Hix Hs Hw; simpl in Hs; [by simplify_eq|].
  set (jx := if c_num_assigned c <=? ix then 0 else ix) in *.
  assert (Hj : 0 <= jx < c_num_assigned c) by (unfold jx; case_if; zify_bools; lia).
  pose proof Hok as (Hb & Hlen & H). destruct (H jx Hj) as (tj & t' & Hc & Htj).
  rewrite Hc in Hs. simpl in Hs. pose proof Htj as Hx. unfold thread_at in Hx. rewrite Hx in Hs. simpl in Hs.
  destruct (t_status t' =? THREAD_STATUS_READY); [by destruct (arr_set _ _ _)|].
  destruct (Z.eqb_spec (t_status t') THREAD_STATUS_SWPM) as [Ew|Ew].
  2: { eapply IH; [exact Hok|done|..|exact Hs|exact Hw]. lia. }
  destruct (2 <=? u32 (t_skipped_count t' + 1)) eqn:E2; [by destruct (arr_set _ _ _)|].
  destruct (set_thread_ok c k tj t' (set_skipped (u32 (t_skipped_count t' + 1)) t') Hok Htj)
    as (ts & Hset & Hok1 & Ht1 & Hne). rewrite Hset in Hs. simpl in Hs.
  eapply IH; [exact Hok1|done|..|exact Hs|]; [lia|].
  destruct Hw as (t & Ht & Hst & Hsk). exists t. split; [|done]. apply Hne; [|done].
  intros ->. unfold thread_at in Ht. rewrite Hx in Ht. simplify_eq. rewrite Hsk in E2. done.
Qed.

Definition all_waiting (c : cpu_threads_t) (k : kernel) : Prop :=
  forall i tid t, 0 <= i < c_num_assigned c -> arr_get (c_threads c) i = Ok tid ->
    thread_at k tid t -> t_status t = THREAD_STATUS_SWPM /\ 0 <= t_skipped_count t < 2.

(** ... and has skipped every thread it looked at. *)
Lemma sched_none_skips n ix c k c' k' i tid :
  cpu_ok c k -> 0 < c_num_assigned c -> 0 <= ix <= c_num_assigned c -> all_waiting c k ->
  sched_loop (S n) ix c k = Ok (NoThread, c', k') ->
  i = ix mod c_num_assigned c -> arr_get (c_threads c) i = Ok tid -> waiting_once k' tid.
Proof.
  intros Hok Hn Hix Haw Hs Hi Htid. simpl in Hs.
  replace (if c_num_assigned c <=? ix then 0 else ix) with i in Hs.
  2: { subst i. destruct (Z.eq_dec ix (c_num_assigned c)) as [->|].
       - rewrite Z.mod_same by lia. by zb.
       - rewrite Z.mod_small by lia. by zb. }
  assert (Hib : 0 <= i < c_num_assigned c) by (subst i; apply Z.mod_pos_bound; lia).
  pose proof Hok as (_ & _ & H). destruct (H i Hib) as (tj & t & Hc & Ht).
  rewrite Htid in Hc. simplify_eq. rewrite Htid in Hs. simpl in Hs.
  destruct (Haw _ tj t Hib Htid Ht) as [Hst Hsk].
  pose proof Ht as Hx. unfold thread_at in Hx. rewrite Hx in Hs. simpl in Hs. rewrite Hst in Hs.
  change (THREAD_STATUS_SWPM =? THREAD_STATUS_READY) with false in Hs. simpl in Hs.
  destruct (2 <=? u32 (t_skipped_count t + 1)) eqn:E2; [by destruct (arr_set _ _ _)|].
  destruct (set_thread_ok c k tj t (set_skipped (u32 (t_skipped_count t + 1)) t) Hok Ht)
    as (ts & Hset & Hok1 & Ht1 & Hne). rewrite Hset in Hs. simpl in Hs.
  eapply sched_none_keeps; [exact Hok1|done|..|exact Hs|]; [lia|].
  eexists. split; [exact Ht1|]. simpl. split; [done|].
  zify_bools. rewrite u32_id in * by lia. lia.
Qed.

(** C39: a core whose threads all wait in polling mode is never starved: if one
    call of the scheduler finds nothing to run, the next call resumes a waiting
    thread. *)
Theorem scheduler_resumes_waiting c k c1 k1 :
  cpu_ok c k -> 0 < c_num_assigned c -> all_waiting c k ->
  cpu_thread_scheduler c k = Ok (NoThread, c1, k1) ->
  exists tid c2 k2, cpu_thread_scheduler c1 k1 = Ok (RestoreThread tid, c2, k2).
Proof.
  intros Hok Hn Haw Hs. destruct (scheduler_start c k Hok Hn) as (ix & Ha & Hix & Hmod).
  unfold cpu_thread_scheduler in *. rewrite Ha in Hs. simpl in Hs.
  destruct (sched_loop_spec (Z.to_nat (c_num_assigned c)) ix c k Hok Hn Hix)
    as (a & c' & k' & Hs' & Hok' & _ & _ & _ & Hm).
  rewrite Hs in Hs'. simplify_eq. rewrite Ha. simpl.
  destruct (Z.to_nat (c_num_assigned c)) as [|n] eqn:En; [lia|].
  pose proof Hok as (_ & _ & H). destruct (H (ix mod c_num_assigned c)) as (tid & _ & Htid & _).
  { apply Z.mod_pos_bound. lia. }
  destruct (sched_none_skips n ix c k c k' _ tid Hok Hn Hix Haw Hs eq_refl Htid)
    as (t & Ht & Hst & Hsk).
  destruct (set_thread_ok c k' tid t (set_status THREAD_STATUS_ACTIVE (set_skipped 0 t)) Hok' Ht)
    as (ts & Hset & _).
  exists tid. do 2 eexists. rewrite Hmod. simpl.
  assert (0 <= ix mod c_num_assigned c < c_num_assigned c) by (apply Z.mod_pos_bound; lia).
  zb. rewrite Htid. simpl. unfold thread_at in Ht. rewrite Ht. simpl. rewrite Hst, Hsk. simpl.
  rewrite Hset. simpl. reflexivity.
Qed.

(** The waiting state reached by the DMA thread of a two-thread kernel. *)
Definition demo_cpu : cpu_threads_t := CpuThreads (Some 1) 2 [1; 2; 0; 0; 0; 0; 0; 0].
Definition demo_threads (s1 s2 : Z) : kernel :=
  set_thrds (<[1%nat := set_status s1 thrd0]> (<[2%nat := set_status s2 thrd0]> (replicate 8 thrd0)))
    kernel0.

Lemma demo_cpu_ok s1 s2 : cpu_ok demo_cpu (demo_threads s1 s2).
Proof.
  split; [simpl; lia|]. split; [done|]. intros i Hi. simpl in Hi.
  assert (i = 0 \/ i = 1) as [-> | ->] by lia.
  - exists 1, (set_status s1 thrd0). split; reflexivity.
  - exists 2, (set_status s2 thrd0). split; reflexivity.
Qed.

Lemma scheduler_correct_witness :
  exists a c' k', cpu_thread_scheduler demo_cpu (demo_threads 3 2) = Ok (a, c', k') /\
    sched_post demo_cpu (demo_threads 3 2) a c' k' /\
    ((exists i tid t, 0 <= i < c_num_assigned demo_cpu /\ arr_get (c_threads demo_cpu) i = Ok tid /\
        thread_at (demo_threads 3 2) tid t /\ t_status t = THREAD_STATUS_READY) -> a <> NoThread).
Proof. refine (scheduler_correct demo_cpu (demo_threads 3 2) (demo_cpu_ok 3 2) _). simpl. lia. Defined.

Lemma scheduler_resumes_waiting_witness :
  exists tid c2 k2, (let! '(a, c1, k1) := cpu_thread_scheduler demo_cpu (demo_threads 3 3) in
                     cpu_thread_scheduler c1 k1) = Ok (RestoreThread tid, c2, k2).
Proof.
  destruct (cpu_thread_scheduler demo_cpu (demo_threads 3 3)) as [[[a c1] k1]|f] eqn:E.
  - simpl. apply (scheduler_resumes_waiting demo_cpu (demo_threads 3 3)).
    + apply demo_cpu_ok.
    + simpl. lia.
    + intros i tid t Hi Hc Ht. simpl in Hi. assert (i = 0 \/ i = 1) as [-> | ->] by lia;
        vm_compute in Hc; simplify_eq; vm_compute in Ht; simplify_eq; by simpl.
    + rewrite E. f_equal. f_equal. f_equal. vm_compute in E. by simplify_eq.
  - vm_compute in E. discriminate.
Defined.
