(* ===== verification/KernelRun.v ===== *)
(** * Running the threads of the kernel

    What a push, a callback and one run of a thread do to the kernel's state: the
    wiring of threads, functions and queues stays, one queue or callback ring
    changes.  Lemmas for the functions of Kernel.v, for any machine. *)

From Stdlib Require Import ZArith Lia Bool List.
From stdpp Require Import base tactics option list.
From S2P Require Import Prelude Queue Kernel.

(** ** Pushing to a queue

    Between two states of the kernel one queue has changed. *)
Record kernel_push (qid : Z) (e : obj_entry) (k k' : kernel) : Prop := {
  kp_ok : queue_ok k' qid;
  kp_contents : queue_contents k' qid = queue_contents k qid ++ [e];
  kp_thrds : thrds k' = thrds k;
  kp_ftns : all_thrds_ftns k' = all_thrds_ftns k;
  kp_cbk : forall q, arr_get (queues k) qid = Ok q ->
    exists q', arr_get (queues k') qid = Ok q' /\ oq_cbk_ftn_id q' = oq_cbk_ftn_id q;
  kp_other : forall j, j <> qid -> arr_get (queues k') j = arr_get (queues k) j }.

Lemma push_ok qid o ty k :
  queue_ok k qid -> (length (queue_contents k qid) < 255)%nat ->
  exists k', push_obj_to_queue qid o ty k = Ok (0, k') /\ kernel_push qid (ObjEntry o ty) k k'.
Proof.
  intros Hq Hl. destruct (push_obj_to_queue_spec k qid o ty Hq)
    as (k' & Hq' & Ht & Hf & Hoth & [(_ & Hp & Hc)|(Hbad & _)]); [|lia].
  exists k'. split; [done|]. split; try done. intros q Hg. unfold push_obj_to_queue in Hp. rewrite Hg in Hp.
  cbn [obind] in Hp. apply obind_Ok in Hp as ([z r'] & _ & Hp). apply obind_Ok in Hp as (qs & Hs & Hp). simplify_eq.
  exists (set_ring r' q). split; [by eapply arr_get_set_eq|done].
Qed.

(** ** Callbacks *)

(** The callbacks waiting for thread [thrd]. *)
Definition cbk_contents (k : kernel) (thrd : Z) : list cbk_entry :=
  match arr_get (thrds k) thrd with Ok t => q_contents (t_ftn_cbk t) | Fault _ => [] end.

(** Function [id] is registered for thread [thrd], whose callback ring is sound. *)
Definition ftn_ok (k : kernel) (id thrd ptr : Z) : Prop :=
  arr_get (all_thrds_ftns k) id = Ok (ThrdFtn id ptr thrd)
  /\ exists t, arr_get (thrds k) thrd = Ok t /\ ring_wf (t_ftn_cbk t).

(** [k'] is [k] with one more callback waiting. *)
Record callback_added (id thrd : Z) (k k' : kernel) : Prop := {
  ca_queues : queues k' = queues k;
  ca_ftns : all_thrds_ftns k' = all_thrds_ftns k;
  ca_thrds : forall j, j <> thrd -> arr_get (thrds k') j = arr_get (thrds k) j;
  ca_thrd : forall t, arr_get (thrds k) thrd = Ok t -> exists r, ring_wf r /\ arr_get (thrds k') thrd = Ok (set_ftn_cbk r t);
  ca_contents : cbk_contents k' thrd = cbk_contents k thrd ++ [CbkEntry id 0] }.

Lemma add_callback_ok id thrd ptr k :
  ftn_ok k id thrd ptr -> (length (cbk_contents k thrd) < 255)%nat ->
  exists k', sys_add_callback_ftn id 0 k = Ok (0, k') /\ callback_added id thrd k k'.
Proof.
  intros (Hf & t & Ht & Hr) Hl. unfold cbk_contents in Hl. rewrite Ht in Hl.
  destruct (ring_push_spec (t_ftn_cbk t) (CbkEntry id 0) Hr) as (r' & Hr' & [(_ & E & Hc)|(Hfull & _)]); [|lia].
  destruct (arr_set_Ok_ex (thrds k) thrd (set_ftn_cbk r' t) (arr_get_range _ _ _ Ht)) as [ts Es].
  exists (set_thrds ts k). split.
  - unfold sys_add_callback_ftn, push_callback_ftn. rewrite Hf. cbn [obind f_thrd_id]. rewrite Ht. cbn [obind].
    rewrite E. cbn [obind]. by rewrite Es.
  - split; try done.
    + intros j Hj. exact (arr_get_set_ne _ _ _ _ _ (not_eq_sym Hj) Es).
    + intros t' Ht'. rewrite Ht in Ht'. injection Ht' as <-. exists r'. split; [done|]. by eapply arr_get_set_eq.
    + unfold cbk_contents. cbn [set_thrds thrds]. rewrite (arr_get_set_eq _ _ _ _ Es), Ht. exact Hc.
Qed.


(** ** What stays: functions, queues and threads as they were registered *)

Definition queue_wired (k k' : kernel) : Prop :=
  forall j q, arr_get (queues k) j = Ok q -> exists q', arr_get (queues k') j = Ok q'
    /\ oq_cbk_ftn_id q' = oq_cbk_ftn_id q /\ (ring_wf (oq_ring q) -> ring_wf (oq_ring q')).

Definition thread_wired (k k' : kernel) : Prop :=
  forall j t, arr_get (thrds k) j = Ok t -> exists t', arr_get (thrds k') j = Ok t'
    /\ t_num_of_queues t' = t_num_of_queues t /\ t_msg_queues t' = t_msg_queues t
    /\ (ring_wf (t_ftn_cbk t) -> ring_wf (t_ftn_cbk t')).

Record wired (k k' : kernel) : Prop := {
  wi_ftns : all_thrds_ftns k' = all_thrds_ftns k;
  wi_queues : queue_wired k k';
  wi_thrds : thread_wired k k' }.

#[export] Instance wired_refl : Reflexive wired.
Proof. intros k. split; [done|intros j q ?; by exists q|intros j t ?; by exists t]. Qed.

#[export] Instance wired_trans : Transitive wired.
Proof.
  intros k1 k2 k3 [F1 Q1 T1] [F2 Q2 T2]. split; [congruence| |].
  - intros j q Hq. destruct (Q1 _ _ Hq) as (q2 & Hq2 & E2 & W2). destruct (Q2 _ _ Hq2) as (q3 & Hq3 & E3 & W3).
    exists q3. split_and!; [done|congruence|auto].
  - intros j t Ht. destruct (T1 _ _ Ht) as (t2 & Ht2 & A2 & B2 & W2). destruct (T2 _ _ Ht2) as (t3 & Ht3 & A3 & B3 & W3).
    exists t3. split_and!; [done|congruence|congruence|auto].
Qed.

Lemma same_thrds_wired k k' : thrds k' = thrds k -> thread_wired k k'.
Proof. intros E j t Ht. exists t. by rewrite E. Qed.
Lemma same_queues_wired k k' : queues k' = queues k -> queue_wired k k'.
Proof. intros E j q Hq. exists q. by rewrite E. Qed.

(** One queue is replaced by one with the same callback. *)
Lemma one_queue_wired qid k k' q q' :
  arr_get (queues k) qid = Ok q -> arr_get (queues k') qid = Ok q' ->
  oq_cbk_ftn_id q' = oq_cbk_ftn_id q -> ring_wf (oq_ring q') ->
  (forall j, j <> qid -> arr_get (queues k') j = arr_get (queues k) j) -> queue_wired k k'.
Proof.
  intros Hq Hq' Hid Hwf Hoth j q0 Hq0. destruct (decide (j = qid)) as [->|Hne].
  - exists q'. rewrite Hq in Hq0. by simplify_eq.
  - exists q0. by rewrite Hoth.
Qed.

Lemma push_wired qid e k k' : queue_ok k qid -> kernel_push qid e k k' -> wired k k'.
Proof.
  intros (q & Hq & Hr) [(q1 & Hq1 & Hr1) _ Ht Hf Hc Hoth]. destruct (Hc _ Hq) as (q' & Hq' & Hid).
  rewrite Hq1 in Hq'. simplify_eq. split; [done| |by apply same_thrds_wired].
  by eapply one_queue_wired.
Qed.

Lemma callback_wired id thrd ptr k k' : ftn_ok k id thrd ptr -> callback_added id thrd k k' -> wired k k'.
Proof.
  intros (_ & t & Ht & _) [Hq Hf Hoth Hthr _]. split; [done|by apply same_queues_wired|].
  destruct (Hthr _ Ht) as (r & Hr & Ht'). intros j t0 Ht0. destruct (decide (j = thrd)) as [->|Hne].
  - exists (set_ftn_cbk r t). rewrite Ht in Ht0. by simplify_eq.
  - exists t0. by rewrite Hoth.
Qed.

(** ** What is waiting *)

(** A queue of thread [thrd]'s list, and the threads' lists of queues. *)
Definition queue_idle (k : kernel) (qid : Z) : Prop := queue_ok k qid /\ queue_contents k qid = [].

Definition thread_ok (k : kernel) (thrd : Z) (qs : list Z) : Prop :=
  exists t, arr_get (thrds k) thrd = Ok t /\ ring_wf (t_ftn_cbk t)
    /\ t_num_of_queues t = Z.of_nat (length qs) /\ take (length qs) (t_msg_queues t) = qs.

Lemma thread_ok_wired k k' thrd qs : wired k k' -> thread_ok k thrd qs -> thread_ok k' thrd qs.
Proof.
  intros [_ _ Hw] (t & Ht & Hr & Hn & Hq). destruct (Hw _ _ Ht) as (t' & Ht' & En & Em & Hwf).
  exists t'. rewrite En, Em. auto.
Qed.

Lemma queue_ok_wired k k' qid : wired k k' -> queue_ok k qid -> queue_ok k' qid.
Proof. intros [_ Hw _] (q & Hq & Hr). destruct (Hw _ _ Hq) as (q' & Hq' & _ & Hwf). exists q'. auto. Qed.

(** Messages of queue [qid] go to the function at [ptr]. *)
Definition served_by (k : kernel) (qid ptr : Z) : Prop :=
  exists q f, arr_get (queues k) qid = Ok q /\ ring_wf (oq_ring q)
    /\ arr_get (all_thrds_ftns k) (oq_cbk_ftn_id q) = Ok f /\ f_ftn_ptr f = ptr.

Lemma served_by_wired k k' qid ptr : wired k k' -> served_by k qid ptr -> served_by k' qid ptr.
Proof.
  intros [Hf Hw _] (q & f & Hq & Hr & Hg & Hp). destruct (Hw _ _ Hq) as (q' & Hq' & Eid & Hwf).
  exists q', f. rewrite Hf, Eid. auto.
Qed.

Lemma served_by_ok k qid ptr : served_by k qid ptr -> queue_ok k qid.
Proof. intros (q & _ & Hq & Hr & _). by exists q. Qed.

Lemma ftn_ok_wired k k' id thrd ptr : wired k k' -> ftn_ok k id thrd ptr -> ftn_ok k' id thrd ptr.
Proof.
  intros [Hf _ Hw] (Hg & t & Ht & Hr). destruct (Hw _ _ Ht) as (t' & Ht' & _ & _ & Hwf).
  split; [by rewrite Hf|]. exists t'. auto.
Qed.

(** ** Popping *)

Lemma arr_set_same {A} (l : list A) i a : arr_get l i = Ok a -> arr_set l i a = Ok l.
Proof.
  intros E. pose proof (arr_get_range _ _ _ E) as Hr. rewrite arr_set_Ok by done.
  apply arr_get_Ok in E as [_ E]. by rewrite list_insert_id.
Qed.

Lemma ring_pop_empty {A} (r : queue_t A) : ring_wf r -> q_contents r = [] -> ring_pop r = (-1, r).
Proof.
  intros Hr Hc. destruct (ring_pop_spec r Hr) as (r' & _ & _ & Hs & [(_ & H & E)|(a & Hc' & _)]); [|congruence].
  destruct (ring_pop r) as [ix r2]. simpl in *. congruence.
Qed.

(** [k'] is [k] without the oldest callback of thread [thrd]. *)
Record callback_taken (thrd : Z) (k k' : kernel) : Prop := {
  ct_wired : wired k k';
  ct_queues : queues k' = queues k;
  ct_other : forall j, j <> thrd -> cbk_contents k' j = cbk_contents k j;
  ct_contents : cbk_contents k' thrd = tl (cbk_contents k thrd) }.

Lemma set_cbk_taken thrd k t r ts :
  arr_get (thrds k) thrd = Ok t -> arr_set (thrds k) thrd (set_ftn_cbk r t) = Ok ts ->
  ring_wf r -> q_contents r = tl (q_contents (t_ftn_cbk t)) -> callback_taken thrd k (set_thrds ts k).
Proof.
  intros Ht Hs Hr Hc. assert (Hother : forall j, j <> thrd -> arr_get ts j = arr_get (thrds k) j)
    by (intros j Hj; by eapply arr_get_set_ne; [|exact Hs]). pose proof (arr_get_set_eq _ _ _ _ Hs) as He.
  split.
  - split; [done|by apply same_queues_wired|]. intros j t0 Ht0. cbn [set_thrds thrds].
    destruct (decide (j = thrd)) as [->|Hne]; [|rewrite Hother by done; by exists t0].
    exists (set_ftn_cbk r t). rewrite Ht in Ht0. by simplify_eq.
  - done.
  - intros j Hj. unfold cbk_contents. cbn [set_thrds thrds]. by rewrite Hother.
  - unfold cbk_contents. cbn [set_thrds thrds]. by rewrite He, Ht.
Qed.

(** [k'] is [k] without the oldest message of queue [qid]. *)
Record message_taken (qid : Z) (k k' : kernel) : Prop := {
  mt_wired : wired k k';
  mt_thrds : thrds k' = thrds k;
  mt_other : forall j, j <> qid -> queue_contents k' j = queue_contents k j;
  mt_contents : queue_contents k' qid = tl (queue_contents k qid) }.

(** [k'] is [k] after the thread has finished its run. *)
Record thread_done (thrd : Z) (k k' : kernel) : Prop := {
  td_wired : wired k k';
  td_queues : queues k' = queues k;
  td_cbks : forall j, cbk_contents k' j = cbk_contents k j;
  td_status : exists t, arr_get (thrds k') thrd = Ok t /\ t_status t = THREAD_STATUS_READY }.

Lemma set_ready_done k thrd t :
  arr_get (thrds k) thrd = Ok t ->
  exists ts, arr_set (thrds k) thrd (set_status THREAD_STATUS_READY t) = Ok ts /\ thread_done thrd k (set_thrds ts k).
Proof.
  intros Ht. destruct (arr_set_Ok_ex (thrds k) thrd (set_status THREAD_STATUS_READY t) (arr_get_range _ _ _ Ht)) as [ts Hs].
  exists ts. split; [done|]. pose proof (arr_get_set_eq _ _ _ _ Hs) as He.
  assert (Hother : forall j, j <> thrd -> arr_get ts j = arr_get (thrds k) j)
    by (intros j Hj; by eapply arr_get_set_ne; [|exact Hs]).
  split.
  - split; [done|by apply same_queues_wired|]. intros j t0 Ht0. cbn [set_thrds thrds].
    destruct (decide (j = thrd)) as [->|Hne]; [|rewrite Hother by done; by exists t0].
    exists (set_status THREAD_STATUS_READY t). rewrite Ht in Ht0. by simplify_eq.
  - done.
  - intros j. unfold cbk_contents. cbn [set_thrds thrds].
    destruct (decide (j = thrd)) as [->|Hne]; [by rewrite He, Ht|by rewrite Hother].
  - eexists. split; [exact He|done].
Qed.

(** ** One run of a thread *)

Section runs.
Context {W : Type} (getk : W -> kernel) (setk : kernel -> W -> W) (call : Z -> Z -> Z -> W -> outcome W).
Hypothesis get_set : forall k w, getk (setk k w) = k.
Hypothesis set_get : forall w, setk (getk w) w = w.

Lemma run_callback_idle thrd qs w :
  thread_ok (getk w) thrd qs -> cbk_contents (getk w) thrd = [] -> run_callback getk setk call thrd w = Ok w.
Proof using set_get.
  intros (t & Ht & Hr & _) Hc. unfold cbk_contents in Hc. rewrite Ht in Hc.
  unfold run_callback, pop_callback_ftn. rewrite Ht. cbn [obind]. rewrite ring_pop_empty by done.
  replace (set_ftn_cbk (t_ftn_cbk t) t) with t by by destruct t.
  rewrite (arr_set_same _ _ _ Ht). cbn [obind].
  replace (set_thrds (thrds (getk w)) (getk w)) with (getk w) by by destruct (getk w).
  by rewrite set_get.
Qed.

Lemma run_callback_call thrd qs w e rest f :
  thread_ok (getk w) thrd qs -> cbk_contents (getk w) thrd = e :: rest ->
  arr_get (all_thrds_ftns (getk w)) (ce_ftn_id e) = Ok f ->
  exists k', callback_taken thrd (getk w) k'
    /\ run_callback getk setk call thrd w = call (f_ftn_ptr f) (ce_arg0 e) 0 (setk k' w).
Proof using get_set.
  intros (t & Ht & Hr & _) Hc Hf. unfold cbk_contents in Hc. rewrite Ht in Hc.
  unfold run_callback, pop_callback_ftn. rewrite Ht. cbn [obind].
  destruct (ring_pop_spec (t_ftn_cbk t) Hr) as (r' & Hr' & Ho & Hs & [(Hx & _)|(a & Hc' & Hix & Hg)]); [congruence|].
  rewrite Hc in Hc'. injection Hc' as <- Hrest. destruct (ring_pop (t_ftn_cbk t)) as [ix r2]. simpl in Hs, Hix, Hg. subst r2.
  destruct (arr_set_Ok_ex (thrds (getk w)) thrd (set_ftn_cbk r' t) (arr_get_range _ _ _ Ht)) as [ts Es].
  rewrite Es. cbn [obind]. exists (set_thrds ts (getk w)). split.
  - eapply set_cbk_taken; [exact Ht|exact Es|exact Hr'|]. by rewrite Hc, <- Hrest.
  - rewrite get_set. replace (ix =? -1) with false by lia. cbn [set_thrds thrds all_thrds_ftns].
    rewrite (arr_get_set_eq _ _ _ _ Es). cbn [obind set_ftn_cbk t_ftn_cbk]. rewrite Ho, Hg. cbn [obind]. by rewrite Hf.
Qed.

Lemma run_queue_idle qid w :
  queue_idle (getk w) qid -> run_queue getk setk call qid w = Ok w.
Proof using set_get.
  intros ((q & Hq & Hr) & Hc). unfold queue_contents in Hc. rewrite Hq in Hc.
  unfold run_queue, pop_obj_from_queue. rewrite Hq. cbn [obind]. rewrite ring_pop_empty by done.
  replace (set_ring (oq_ring q) q) with q by by destruct q.
  rewrite (arr_set_same _ _ _ Hq). cbn [obind].
  replace (set_queues (queues (getk w)) (getk w)) with (getk w) by by destruct (getk w).
  by rewrite set_get.
Qed.

Lemma run_queue_call qid ptr w e rest :
  served_by (getk w) qid ptr -> queue_contents (getk w) qid = e :: rest ->
  exists k', message_taken qid (getk w) k'
    /\ run_queue getk setk call qid w = call ptr (oe_obj_ptr e) (oe_obj_type e) (setk k' w).
Proof using get_set.
  intros (q & f & Hq & Hr & Hf & <-) Hc. pose proof Hc as Hc0. unfold queue_contents in Hc. rewrite Hq in Hc.
  unfold run_queue, pop_obj_from_queue. rewrite Hq. cbn [obind].
  destruct (ring_pop_spec (oq_ring q) Hr) as (r' & Hr' & Ho & Hs & [(Hx & _)|(a & Hc' & Hix & Hg)]); [congruence|].
  rewrite Hc in Hc'. injection Hc' as <- Hrest. destruct (ring_pop (oq_ring q)) as [ix r2]. simpl in Hs, Hix, Hg. subst r2.
  destruct (arr_set_Ok_ex (queues (getk w)) qid (set_ring r' q) (arr_get_range _ _ _ Hq)) as [qs Es].
  rewrite Es. cbn [obind]. pose proof (arr_get_set_eq _ _ _ _ Es) as He.
  assert (Hother : forall j, j <> qid -> arr_get qs j = arr_get (queues (getk w)) j)
    by (intros j Hj; by eapply arr_get_set_ne; [|exact Es]).
  exists (set_queues qs (getk w)). split.
  - split; [split; [done| |by apply same_thrds_wired]|done| |].
    + by eapply (one_queue_wired qid).
    + intros j Hj. unfold queue_contents. cbn [set_queues queues]. by rewrite Hother.
    + rewrite Hc0. unfold queue_contents. cbn [set_queues queues]. rewrite He. simpl. congruence.
  - rewrite get_set. replace (ix =? -1) with false by lia. cbn [set_queues queues all_thrds_ftns].
    rewrite He. cbn [obind set_ring oq_cbk_ftn_id oq_ring]. rewrite Hf. cbn [obind]. by rewrite Ho, Hg.
Qed.

Lemma run_queues_idle fuel i thrd qs w :
  thread_ok (getk w) thrd qs -> 0 <= i -> Z.of_nat (length qs) <= i + Z.of_nat fuel ->
  Forall (queue_idle (getk w)) (drop (Z.to_nat i) qs) -> run_queues getk setk call fuel i thrd w = Ok w.
Proof using set_get.
  intros Ht. pose proof Ht as (t & Et & _ & En & Eq). revert i. induction fuel as [|fuel IH]; intros i Hi Hf Hall;
    cbn [run_queues]; rewrite Et; cbn [obind]; rewrite En.
  - destruct (Z.ltb_spec i (Z.of_nat (length qs))); [lia|done].
  - destruct (Z.ltb_spec i (Z.of_nat (length qs))) as [Hl|Hl]; [|done].
    destruct (lookup_lt_is_Some_2 qs (Z.to_nat i) ltac:(lia)) as [qid Hq].
    assert (Eg : arr_get (t_msg_queues t) i = Ok qid).
    { apply arr_get_Ok. split; [done|]. rewrite <- Eq, lookup_take in Hq. by case_decide. }
    rewrite (drop_S _ _ _ Hq) in Hall. apply Forall_cons in Hall as [Hqi Hall].
    rewrite Eg. cbn [obind]. rewrite run_queue_idle by done. cbn [obind]. apply IH; [lia|lia|].
    by replace (Z.to_nat (i + 1)) with (S (Z.to_nat i)) by lia.
Qed.

(** One queue of the thread has a message: it is handled, the others are idle. *)
Lemma run_queues_one fuel i thrd pre qid post w w' :
  let qs := pre ++ qid :: post in
  thread_ok (getk w) thrd qs -> 0 <= i <= Z.of_nat (length pre) -> Z.of_nat (length qs) <= i + Z.of_nat fuel ->
  Forall (queue_idle (getk w)) (drop (Z.to_nat i) pre) ->
  run_queue getk setk call qid w = Ok w' -> thread_ok (getk w') thrd qs -> Forall (queue_idle (getk w')) post ->
  run_queues getk setk call fuel i thrd w = Ok w'.
Proof using set_get.
  intros qs Ht Hi Hf Hpre Hrun Ht' Hpost. pose proof Ht as (t & Et & _ & En & Eq).
  assert (Hlen : length qs = (length pre + S (length post))%nat) by (unfold qs; by rewrite length_app).
  revert i Hi Hf Hpre. induction fuel as [|fuel IH]; intros i Hi Hf Hpre; [lia|].
  cbn [run_queues]. rewrite Et. cbn [obind]. rewrite En. rewrite (proj2 (Z.ltb_lt _ _)) by lia.
  destruct (lookup_lt_is_Some_2 qs (Z.to_nat i) ltac:(lia)) as [x Hx].
  assert (Eg : arr_get (t_msg_queues t) i = Ok x).
  { apply arr_get_Ok. split; [lia|]. rewrite <- Eq, lookup_take in Hx. by case_decide. }
  rewrite Eg. cbn [obind]. destruct (Z.eq_dec i (Z.of_nat (length pre))) as [->|Hne].
  - unfold qs in Hx. rewrite Nat2Z.id, list_lookup_middle in Hx by done. injection Hx as <-.
    rewrite Hrun. cbn [obind]. apply (run_queues_idle fuel _ thrd qs); [done|lia|lia|].
    unfold qs. replace (Z.to_nat (Z.of_nat (length pre) + 1)) with (length pre + 1)%nat by lia.
    rewrite <- drop_drop, drop_app_length. exact Hpost.
  - assert (Hxp : pre !! Z.to_nat i = Some x) by (unfold qs in Hx; by rewrite lookup_app_l in Hx by lia).
    rewrite (drop_S _ _ _ Hxp) in Hpre. apply Forall_cons in Hpre as [Hxi Hpre].
    rewrite run_queue_idle by done. cbn [obind]. apply IH; [lia|lia|].
    by replace (Z.to_nat (i + 1)) with (S (Z.to_nat i)) by lia.
Qed.

(** A run of a thread from its two parts. *)
Lemma run_thread_parts thrd qs w w1 w2 :
  run_callback getk setk call thrd w = Ok w1 -> run_queues getk setk call 16 0 thrd w1 = Ok w2 ->
  thread_ok (getk w2) thrd qs ->
  exists k', thread_done thrd (getk w2) k' /\ run_thread getk setk call thrd w = Ok (setk k' w2).
Proof.
  intros E1 E2 (t & Ht & _). destruct (set_ready_done _ _ _ Ht) as (ts & Es & Hd).
  exists (set_thrds ts (getk w2)). split; [done|]. unfold run_thread. rewrite E1. cbn [obind]. rewrite E2. cbn [obind].
  rewrite Ht. cbn [obind]. by rewrite Es.
Qed.

End runs.
