(* ===== verification/Boot.v ===== *)
(** * Start-up and memory (firmware/issd_kernel.c)

    The MMU table, the bump allocator for uncacheable memory with the blocks
    the firmware takes from it at start-up, the device address map, and the
    handshake that releases the secondary CPU cores. *)

From Stdlib Require Import ZArith Lia Bool List.
From stdpp Require Import base tactics option list relations.
From S2P Require Import Prelude.

Definition MMU_TTB_READY : Z := 1.
Definition CPU_RUNNING : Z := 2.

(** ** Memory map, uncacheable memory and devices *)

Definition DEV_MEM : Z := 0x00002c02.
Definition CACHEABLE_MEM : Z := 0x00007c0e.
Definition UNCACHEABLE_MEM : Z := 0x00002c02.

(** One loop of [make_mmu_ttb]: [table[i] = (i << 20) | attr] for [n] entries from [i]. *)
Fixpoint ttb_fill (n : nat) (i attr : Z) (tbl : list Z) : outcome (list Z) :=
  match n with
  | O => Ok tbl
  | S n' =>
      let! tbl := arr_set tbl i (Z.lor (u32 (Z.shiftl i 20)) attr) in
      ttb_fill n' (i + 1) attr tbl
  end.

Record uc_heap := UcHeap { uncached_ram_start : Z; uncached_ram_end : Z; uncacheable_next_ptr : Z }.

Definition make_mmu_ttb (tbl : list Z) : outcome (list Z * uc_heap) :=
  let! tbl := ttb_fill 2048 0 DEV_MEM tbl in
  let! tbl := ttb_fill (2264 - 2048) 2048 CACHEABLE_MEM tbl in
  let start := u32 (Z.shiftl 2264 20) in
  let! tbl := ttb_fill (2560 - 2264) 2264 UNCACHEABLE_MEM tbl in
  let end_ := u32 (Z.shiftl (2560 - 1) 20) in
  let! tbl := ttb_fill (4096 - 2560) 2560 DEV_MEM tbl in
  Ok (tbl, UcHeap start end_ start).

Definition get_uncacheable_ram (size : Z) (h : uc_heap) : outcome (Z * uc_heap) :=
  let rtn := uncacheable_next_ptr h in
  let next := u32 (rtn + size) in
  if uncached_ram_end h <? next then Fault FShutdown
  else Ok (rtn, UcHeap (uncached_ram_start h) (uncached_ram_end h) next).

(** A sequence of allocations: the blocks handed out, oldest first. *)
Fixpoint alloc_seq (sizes : list Z) (h : uc_heap) : outcome (list Z * uc_heap) :=
  match sizes with
  | [] => Ok ([], h)
  | s :: r =>
      let! '(p, h) := get_uncacheable_ram s h in
      let! '(ps, h) := alloc_seq r h in
      Ok (p :: ps, h)
  end.

Definition DEV_HOST_INT : Z := 1.
Definition DEV_NAND_CTRL : Z := 2.
Definition DEV_STATS : Z := 3.

Definition get_dev_address (DeviceID : Z) : Z :=
  if DeviceID =? DEV_HOST_INT then 0x2d100000
  else if DeviceID =? DEV_NAND_CTRL then 0x2d108000
  else if DeviceID =? DEV_STATS then 0x2d419000
  else 0.

(** The start-up handshake with the secondary cores: [halt_sec_cpus] is one
    poll of a core, [release_sec_cpus] the writes and one poll of the primary. *)
Definition halt_sec_cpus_poll (cpuID : Z) (ind : list Z) : outcome (bool * list Z) :=
  let! v := arr_get ind cpuID in
  if v =? MMU_TTB_READY then let! ind := arr_set ind cpuID CPU_RUNNING in Ok (true, ind)
  else Ok (false, ind).

Definition release_sec_cpus_write (ind : list Z) : outcome (list Z) :=
  let! ind := arr_set ind 1 MMU_TTB_READY in
  let! ind := arr_set ind 2 MMU_TTB_READY in
  arr_set ind 3 MMU_TTB_READY.

Definition release_sec_cpus_poll (ind : list Z) : outcome bool :=
  let! a := arr_get ind 1 in
  let! b := arr_get ind 2 in
  let! c := arr_get ind 3 in
  Ok ((a =? CPU_RUNNING) && (b =? CPU_RUNNING) && (c =? CPU_RUNNING)).


(** ** The MMU table is a flat map *)

(** The attributes [make_mmu_ttb] gives to megabyte section [i]. *)
Definition section_attr (i : Z) : Z :=
  if (2048 <=? i) && (i <? 2264) then CACHEABLE_MEM else DEV_MEM.

Lemma land_section i attr : 0 <= attr < 2 ^ 20 -> Z.land (i * 2 ^ 20) attr = 0.
Proof.
  intros Ha. apply Z.bits_inj'. intros n Hn. rewrite Z.land_spec, Z.bits_0.
  destruct (Z.ltb_spec n 20).
  - by rewrite Z.mul_pow2_bits_low by lia.
  - rewrite <- (Z.mod_small attr (2 ^ 20)) by done.
    by rewrite Z.mod_pow2_bits_high, andb_false_r by lia.
Qed.

Lemma lor_section i attr :
  0 <= i < 4096 -> 0 <= attr < 2 ^ 20 -> Z.lor (u32 (Z.shiftl i 20)) attr = i * 2 ^ 20 + attr.
Proof.
  intros Hi Ha. rewrite Z.shiftl_mul_pow2 by lia. rewrite u32_id by lia.
  rewrite Z.add_nocarry_lxor by (by apply land_section).
  symmetry. apply Z.lxor_lor. by apply land_section.
Qed.

Lemma ttb_fill_spec n i attr tbl :
  0 <= i -> i + Z.of_nat n <= Z.of_nat (length tbl) ->
  exists tbl', ttb_fill n i attr tbl = Ok tbl' /\ length tbl' = length tbl /\
    forall j, 0 <= j -> arr_get tbl' j =
      if (i <=? j) && (j <? i + Z.of_nat n) then Ok (Z.lor (u32 (Z.shiftl j 20)) attr)
      else arr_get tbl j.
Proof.
  revert i tbl. induction n as [|n IH]; intros i tbl Hi Hl.
  - exists tbl. split_and!; try done. intros j Hj. case_if; [|done]. zify_bools. lia.
  - simpl. rewrite arr_set_Ok by lia. simpl.
    destruct (IH (i + 1) (<[Z.to_nat i := Z.lor (u32 (Z.shiftl i 20)) attr]> tbl)) as (t' & -> & Hlen & Hg);
      [lia|rewrite length_insert; lia|].
    exists t'. split; [done|]. rewrite length_insert in Hlen. split; [done|].
    intros j Hj. rewrite Hg by lia. destruct (Z.eq_dec j i) as [->|].
    + replace ((i + 1 <=? i) && _) with false by (symmetry; apply andb_false_iff; left; apply Z.leb_gt; lia).
      replace ((i <=? i) && _) with true by (symmetry; apply andb_true_iff; rewrite Z.leb_le, Z.ltb_lt; lia).
      apply arr_get_Ok. split; [lia|]. apply list_lookup_insert_eq. lia.
    + replace ((i <=? j) && (j <? i + Z.of_nat (S n))) with ((i + 1 <=? j) && (j <? i + 1 + Z.of_nat n)).
      * case_if; [done|]. eapply (arr_get_set_ne tbl _ i j); [lia|]. apply arr_set_Ok. lia.
      * apply eq_true_iff_eq. rewrite !andb_true_iff, !Z.leb_le, !Z.ltb_lt. lia.
Qed.

(** from any table of 4096 entries [make_mmu_ttb] builds a flat translation:
    entry [i] maps megabyte [i] onto itself, cacheable exactly for the sections
    2048 to 2263 and device memory elsewhere; the uncacheable heap starts at
    section 2264 and ends within the uncacheable region. *)
Theorem make_mmu_ttb_flat tbl :
  length tbl = 4096%nat ->
  exists tbl' h, make_mmu_ttb tbl = Ok (tbl', h) /\ length tbl' = 4096%nat /\
    (forall i, 0 <= i < 4096 -> arr_get tbl' i = Ok (i * 2 ^ 20 + section_attr i)) /\
    uncached_ram_start h = 2264 * 2 ^ 20 /\ uncacheable_next_ptr h = uncached_ram_start h /\
    uncached_ram_start h < uncached_ram_end h < 2560 * 2 ^ 20.
Proof.
  intros Hl. unfold make_mmu_ttb.
  destruct (ttb_fill_spec 2048 0 DEV_MEM tbl) as (t1 & -> & Hl1 & Hg1); [lia|lia|]. cbv beta iota delta [obind].
  destruct (ttb_fill_spec (2264 - 2048) 2048 CACHEABLE_MEM t1) as (t2 & -> & Hl2 & Hg2); [lia|lia|].
  cbv beta iota delta [obind].
  destruct (ttb_fill_spec (2560 - 2264) 2264 UNCACHEABLE_MEM t2) as (t3 & -> & Hl3 & Hg3); [lia|lia|].
  cbv beta iota delta [obind].
  destruct (ttb_fill_spec (4096 - 2560) 2560 DEV_MEM t3) as (t4 & -> & Hl4 & Hg4); [lia|lia|].
  cbv beta iota delta [obind]. do 2 eexists. split; [done|]. split; [lia|]. split; [|done].
  intros i Hi. rewrite Hg4, Hg3, Hg2, Hg1 by lia.
  unfold section_attr. rewrite <- lor_section by (done || by case_if).
  replace (2560 + Z.of_nat (4096 - 2560)) with 4096 by lia.
  replace (2264 + Z.of_nat (2560 - 2264)) with 2560 by lia.
  replace (2048 + Z.of_nat (2264 - 2048)) with 2264 by lia.
  replace (0 + Z.of_nat 2048) with 2048 by lia.
  destruct (Z.lt_ge_cases i 2048); [by zb|].
  destruct (Z.lt_ge_cases i 2264); [by zb|].
  destruct (Z.lt_ge_cases i 2560); by zb.
Qed.

Lemma make_mmu_ttb_flat_witness :
  exists tbl' h, make_mmu_ttb (replicate 4096 0) = Ok (tbl', h) /\ length tbl' = 4096%nat /\
    (forall i, 0 <= i < 4096 -> arr_get tbl' i = Ok (i * 2 ^ 20 + section_attr i)) /\
    uncached_ram_start h = 2264 * 2 ^ 20 /\ uncacheable_next_ptr h = uncached_ram_start h /\
    uncached_ram_start h < uncached_ram_end h < 2560 * 2 ^ 20.
Proof. apply (make_mmu_ttb_flat (replicate 4096 0)). apply length_replicate. Defined.

(** ** The uncacheable allocator *)

Definition heap_ok (h : uc_heap) : Prop :=
  0 <= uncached_ram_start h <= uncacheable_next_ptr h /\
  uncacheable_next_ptr h <= uncached_ram_end h < 2 ^ 32.

Definition sum_sizes (l : list Z) : Z := foldr Z.add 0 l.

Lemma get_uncacheable_ram_spec size h :
  heap_ok h -> 0 <= size -> uncacheable_next_ptr h + size < 2 ^ 32 ->
  get_uncacheable_ram size h =
    if uncached_ram_end h <? uncacheable_next_ptr h + size then Fault FShutdown
    else Ok (uncacheable_next_ptr h,
             UcHeap (uncached_ram_start h) (uncached_ram_end h) (uncacheable_next_ptr h + size)).
Proof. intros (? & ?) ? ?. unfold get_uncacheable_ram. by rewrite u32_id by lia. Qed.

Lemma alloc_seq_addresses sizes h ps h' :
  heap_ok h -> Forall (fun s => 0 <= s <= 2 ^ 32 - 1 - uncached_ram_end h) sizes ->
  alloc_seq sizes h = Ok (ps, h') ->
  heap_ok h' /\ length ps = length sizes /\ uncached_ram_end h' = uncached_ram_end h /\
  uncacheable_next_ptr h' = uncacheable_next_ptr h + sum_sizes sizes /\
  forall i p, ps !! i = Some p -> p = uncacheable_next_ptr h + sum_sizes (take i sizes).
Proof.
  intros Hh Hs. revert h ps Hh Hs. induction sizes as [|s sizes IH]; intros h ps Hh Hs H; simpl in H.
  { simplify_eq. split_and!; simpl; try done; lia. }
  apply Forall_cons in Hs as [Hs0 Hs]. pose proof Hh as (? & ?).
  rewrite get_uncacheable_ram_spec in H by (done || lia).
  destruct (Z.ltb_spec (uncached_ram_end h) (uncacheable_next_ptr h + s)) as [?|Hle]; simpl in H; [done|].
  apply obind_Ok in H as ([ps2 h2] & Ha & H). simplify_eq.
  set (h1 := UcHeap _ _ _) in Ha.
  destruct (IH h1 ps2) as (Hh2 & Hl & He & Hn & Hp); [unfold heap_ok; simpl; lia|done|done|].
  simpl in *.
  split_and!; simpl; try done; try lia.
  intros [|i] p Hi; simpl in *; simplify_eq; [lia|]. rewrite (Hp i p Hi). lia.
Qed.


(** ** The blocks of the firmware

    The requests of [init_firmware_ftn], in call order, for host and NAND pages
    of 4096 bytes: ISP code buffer, print lock, ISP argument buffer, NAND
    operation buffer, identify controller, identify namespace, namespace list,
    PRP list, submission and completion buffers, page buffer, FTL page buffer
    and FTL table buffer. *)
Definition ISP_MAX_APPLET_BIN_SIZE : Z := 0x10000000.
Definition IdDataSize : Z := 4096.
Definition PrpListSize : Z := 8192.

Definition init_sizes : list Z :=
  [ISP_MAX_APPLET_BIN_SIZE; 4 * 4; 16 * 4096; 2 ^ 24; 4096; 4096; IdDataSize / 4;
   PrpListSize; 64 * 128; 16 * 128; 16 * 4096; 4096 * 4; 2 ^ 16].

Definition init_heap : uc_heap :=
  snd (from_ok ([], UcHeap 0 0 0) (make_mmu_ttb (replicate 4096 0))).

(** Uncacheable memory begins at section 2264. *)
Lemma init_heap_value : init_heap = UcHeap (2264 * 2 ^ 20) (2559 * 2 ^ 20) (2264 * 2 ^ 20).
Proof. vm_compute. reflexivity. Qed.

(** The bytes [nvme_identify] clears and transfers at the namespace list. *)
Definition ns_list_bytes : Z := IdDataSize / 4 * 4.

(** With 4 KiB pages every start-up allocation succeeds, yet the block
    allocated for the active-namespace list is only 1024 bytes of the 4096 that
    identify clears and sends, so that clearing it runs over the PRP list and
    the first bytes after it: the list ends after the PRP list begins. *)
Theorem init_allocations :
  exists ps h', alloc_seq init_sizes init_heap = Ok (ps, h') /\
    uncacheable_next_ptr h' <= uncached_ram_end h' /\
    exists ns prp, ps !! 6%nat = Some ns /\ ps !! 7%nat = Some prp /\
      ns + IdDataSize / 4 = prp /\ prp < ns + ns_list_bytes.
Proof.
  rewrite init_heap_value. eexists. eexists. split; [vm_compute; reflexivity|]. split; [vm_compute; discriminate|].
  do 2 eexists. split; [reflexivity|]. split; [reflexivity|]. split; [reflexivity|]. by vm_compute.
Qed.


(** ** Releasing the secondary cores *)

(** The primary core has not yet written ([PNotReleased]), polls ([PPolling]) or
    has returned ([PDone]); a secondary core spins or runs. *)
Inductive primary_pc := PNotReleased | PPolling | PDone.

Record boot := Boot { b_ind : list Z; b_primary : primary_pc; b_running : list bool }.

Definition boot0 : boot := Boot [0; 0; 0; 0] PNotReleased [false; false; false; false].

(** One step of one core; secondary cores only poll [halt_sec_cpus] while halted. *)
Inductive boot_step : boot -> boot -> Prop :=
| step_release b ind :
    b_primary b = PNotReleased -> release_sec_cpus_write (b_ind b) = Ok ind ->
    boot_step b (Boot ind PPolling (b_running b))
| step_poll b r :
    b_primary b = PPolling -> release_sec_cpus_poll (b_ind b) = Ok r ->
    boot_step b (Boot (b_ind b) (if r then PDone else PPolling) (b_running b))
| step_halted b c ind r :
    1 <= c <= 3 -> arr_get (b_running b) c = Ok false ->
    halt_sec_cpus_poll c (b_ind b) = Ok (r, ind) ->
    boot_step b (Boot ind (b_primary b) (<[Z.to_nat c := r]> (b_running b))).

Definition boot_inv (b : boot) : Prop :=
  exists i1 i2 i3 r1 r2 r3,
    b_ind b = [0; i1; i2; i3] /\ b_running b = [false; r1; r2; r3] /\
    match b_primary b with
    | PNotReleased => i1 = 0 /\ i2 = 0 /\ i3 = 0 /\ r1 = false /\ r2 = false /\ r3 = false
    | _ => i1 = (if r1 then CPU_RUNNING else MMU_TTB_READY) /\
           i2 = (if r2 then CPU_RUNNING else MMU_TTB_READY) /\
           i3 = (if r3 then CPU_RUNNING else MMU_TTB_READY)
    end /\
    (b_primary b = PDone -> r1 = true /\ r2 = true /\ r3 = true).

Lemma boot_inv_step b b' : boot_inv b -> boot_step b b' -> boot_inv b'.
Proof.
  intros (i1 & i2 & i3 & r1 & r2 & r3 & Hi & Hr & Hm & Hd) Hs.
  inversion Hs as [b0 ind Hp Hw|b0 r Hp Hw|b0 c ind r Hc Hg Hw]; subst; rewrite Hi in Hw.
  - rewrite Hp in Hm. destruct Hm as (-> & -> & -> & -> & -> & ->). vm_compute in Hw. simplify_eq.
    exists 1, 1, 1, false, false, false. simpl. by rewrite Hr.
  - rewrite Hp in Hm. destruct Hm as (-> & -> & ->).
    exists (if r1 then CPU_RUNNING else MMU_TTB_READY), (if r2 then CPU_RUNNING else MMU_TTB_READY),
      (if r3 then CPU_RUNNING else MMU_TTB_READY), r1, r2, r3. simpl. rewrite Hi, Hr.
    destruct r1, r2, r3; vm_compute in Hw; simplify_eq; simpl; by auto.
  - assert (c = 1 \/ c = 2 \/ c = 3) as [-> | [-> | ->]] by lia; rewrite Hr in *;
    destruct (b_primary b) eqn:Hp; destruct Hm as (-> & -> & Hm); destruct_and?; subst;
    try (destruct r1); try (destruct r2); try (destruct r3); vm_compute in Hg; simplify_eq;
    vm_compute in Hw; simplify_eq; simpl; do 6 eexists; simpl;
    (split; [reflexivity|]); (split; [reflexivity|]); (split; [by auto|]); intros; try done;
    destruct (Hd eq_refl) as (? & ? & ?); done.
Qed.

(** In every interleaving of the start-up handshake a secondary core leaves
    its halt loop only after the primary core released it, and the primary core
    returns from [release_sec_cpus] only when all three cores run. *)
Theorem boot_handshake b :
  rtc boot_step boot0 b ->
  (forall c, arr_get (b_running b) c = Ok true -> b_primary b <> PNotReleased) /\
  (b_primary b = PDone -> b_running b = [false; true; true; true]).
Proof.
  intros H. assert (Hinv : boot_inv b).
  { assert (H0 : boot_inv boot0) by (exists 0, 0, 0, false, false, false; simpl; by auto 10).
    induction H as [|x y z Hxy _ IH]; [done|]. apply IH. by eapply boot_inv_step. }
  destruct Hinv as (i1 & i2 & i3 & r1 & r2 & r3 & Hi & Hr & Hm & Hd). rewrite Hr. split.
  - intros c Hc Hp. rewrite Hp in Hm. destruct Hm as (_ & _ & _ & -> & -> & ->).
    apply arr_get_Ok in Hc as [_ Hc]. destruct (Z.to_nat c) as [|[|[|[|?]]]]; simpl in Hc; by simplify_eq.
  - intros Hp. destruct (Hd Hp) as (-> & -> & ->). done.
Qed.

Lemma boot_handshake_witness :
  (forall c, arr_get [false; true; true; true] c = Ok true -> PDone <> PNotReleased) /\
  (PDone = PDone -> [false; true; true; true] = [false; true; true; true]).
Proof.
  apply (boot_handshake (Boot [0; 2; 2; 2] PDone [false; true; true; true])).
  eapply rtc_l; [by apply step_release|]. simpl.
  eapply rtc_l; [apply (step_halted _ 2 [0; 1; 2; 1] true); [lia|done|done]|]. simpl.
  eapply rtc_l; [apply (step_poll _ false); done|]. simpl.
  eapply rtc_l; [apply (step_halted _ 1 [0; 2; 2; 1] true); [lia|done|done]|]. simpl.
  eapply rtc_l; [apply (step_halted _ 3 [0; 2; 2; 2] true); [lia|done|done]|]. simpl.
  eapply rtc_l; [apply (step_poll _ true); done|]. apply rtc_refl.
Defined.
