(* ===== verification/MemUtil.v ===== *)
(** * Byte memory and its utilities (firmware/util.memcp.c, util.uart_print.c)

    SSD RAM is a total map from addresses to bytes.  Wide stores and loads are
    little-endian.  Loops run over the element count, as the source's do;
    string loops that stop at a NUL byte take fuel. *)

From Stdlib Require Import ZArith Lia Bool List.
From stdpp Require Import base tactics option list functions.
From S2P Require Import Prelude.

Abbreviation mem := (Z -> Z).

Definition mem_ok (m : mem) : Prop := forall a, fits 8 (m a).

(** ** Words of [n] bytes *)

Fixpoint store_le (n : nat) (a v : Z) (m : mem) : mem :=
  match n with
  | O => m
  | S n' => store_le n' (a + 1) (v / 2 ^ 8) (<[a := u8 v]> m)
  end.

Fixpoint load_le (n : nat) (a : Z) (m : mem) : Z :=
  match n with
  | O => 0
  | S n' => m a + 2 ^ 8 * load_le n' (a + 1) m
  end.

(** ** util.memcp.c *)

Fixpoint memset32_loop (n : nat) (ix ptr value : Z) (m : mem) : mem :=
  match n with
  | O => m
  | S n' => memset32_loop n' (ix + 1) ptr value (store_le 4 (ptr + 4 * ix) value m)
  end.
Definition memset32 (ptr value count : Z) (m : mem) : mem :=
  memset32_loop (Z.to_nat count) 0 ptr value m.

Fixpoint memset8_loop (n : nat) (ix ptr value : Z) (m : mem) : mem :=
  match n with
  | O => m
  | S n' => memset8_loop n' (ix + 1) ptr value (<[ptr + ix := u8 value]> m)
  end.
Definition memset8 (ptr value count : Z) (m : mem) : mem :=
  memset8_loop (Z.to_nat count) 0 ptr value m.

(** [dst[ix] = src[ix]] for [n] words of [w] bytes *)
Fixpoint copy_loop (w n : nat) (ix dst src : Z) (m : mem) : mem :=
  match n with
  | O => m
  | S n' =>
      copy_loop w n' (ix + 1) dst src
        (store_le w (dst + Z.of_nat w * ix) (load_le w (src + Z.of_nat w * ix) m) m)
  end.

Definition sysByteWidth : nat := 4.
Definition memcpy_sysbitw (dst src count : Z) (m : mem) : mem :=
  copy_loop sysByteWidth (Z.to_nat count) 0 dst src m.
Definition memcpy8 (dst src count : Z) (m : mem) : mem :=
  copy_loop 1 (Z.to_nat count) 0 dst src m.

(** ** util.uart_print.c: strings *)

Fixpoint strnlen_loop (n : nat) (i s : Z) (m : mem) : Z :=
  match n with
  | O => i
  | S n' => if m (s + i) =? 0 then i else strnlen_loop n' (i + 1) s m
  end.
Definition strnlen (s max_len : Z) (m : mem) : Z := strnlen_loop (Z.to_nat max_len) 0 s m.

Definition strpadcpy (buf buf_size str pad : Z) (m : mem) : mem :=
  let len := strnlen str buf_size m in
  let m := memcpy8 buf str len m in
  memset8 (buf + len) pad (buf_size - len) m.

(** The loop that advances the destination to its NUL. *)
Fixpoint find_nul (fuel : nat) (a : Z) (m : mem) : outcome Z :=
  match fuel with
  | O => Fault FFuel
  | S n => if m a =? 0 then Ok a else find_nul n (a + 1) m
  end.

(** The copying loop: it ends with the destination one past the NUL. *)
Fixpoint copy_str (fuel : nat) (dest src : Z) (m : mem) : outcome (Z * mem) :=
  match fuel with
  | O => Fault FFuel
  | S n =>
      let c := m src in
      let m := <[dest := c]> m in
      if c =? 0 then Ok (dest + 1, m) else copy_str n (dest + 1) (src + 1) m
  end.

Definition simple_strcat (fuel : nat) (dest src : Z) (m : mem) : outcome (Z * mem) :=
  let! dest := find_nul fuel dest m in
  let! '(dest, m) := copy_str fuel dest src m in
  Ok (dest - 1, m).

(** ** Lemmas on words *)

Lemma fits8_u8 b : fits 8 b -> u8 b = b.
Proof. intros. by apply u8_id. Qed.

Lemma mem_ok_insert a v m : mem_ok m -> fits 8 v -> mem_ok (<[a := v]> m).
Proof.
  intros Hm Hv b. destruct (decide (a = b)) as [->|];
    [by rewrite fn_lookup_insert|by rewrite fn_lookup_insert_ne].
Qed.
#[export] Hint Resolve mem_ok_insert : cint.

Lemma store_le_ok n a v m : mem_ok m -> mem_ok (store_le n a v m).
Proof. revert a v m. induction n; intros a v m Hm; simpl; auto with cint. Qed.
#[export] Hint Resolve store_le_ok : cint.

Lemma store_le_out n a v m b : ~ (a <= b < a + Z.of_nat n) -> store_le n a v m b = m b.
Proof.
  revert a v m. induction n as [|n IH]; intros a v m Hb; simpl; [done|].
  rewrite IH by lia. apply fn_lookup_insert_ne. lia.
Qed.

Lemma load_le_fits n a m : mem_ok m -> 0 <= load_le n a m < 2 ^ (8 * Z.of_nat n).
Proof.
  intros Hm. revert a. induction n as [|n IH]; intros a; [simpl; lia|].
  cbn [load_le]. specialize (IH (a + 1)). pose proof (Hm a) as Ha. unfold fits in Ha.
  replace (8 * Z.of_nat (S n)) with (8 + 8 * Z.of_nat n) by lia.
  rewrite Z.pow_add_r by lia. nia.
Qed.

(** A word copied from one place to another arrives byte by byte. *)
Lemma store_load n dst src m b (m' : mem) :
  mem_ok m -> dst <= b < dst + Z.of_nat n ->
  store_le n dst (load_le n src m) m' b = m (src + (b - dst)).
Proof.
  intros Hm. revert dst src m'. induction n as [|n IH]; intros dst src m' Hb; simpl; [lia|].
  pose proof (Hm src) as Hs. unfold fits in Hs.
  replace ((m src + 2 ^ 8 * load_le n (src + 1) m) / 2 ^ 8) with (load_le n (src + 1) m).
  2: { rewrite (Z.mul_comm (2 ^ 8)), Z.div_add, Z.div_small by lia. lia. }
  destruct (Z.eq_dec b dst) as [->|].
  - rewrite store_le_out by lia. rewrite fn_lookup_insert. unfold u8.
    rewrite (Z.mul_comm (2 ^ 8)), Z_mod_plus_full, Z.mod_small by lia. f_equal. lia.
  - rewrite IH by lia. f_equal. lia.
Qed.

Lemma store_le_0 n a b m : store_le n a 0 m b = if (a <=? b) && (b <? a + Z.of_nat n) then 0 else m b.
Proof.
  revert a m. induction n as [|n IH]; intros a m; simpl.
  - case_if; [zify_bools; lia|done].
  - rewrite IH. destruct (Z.eq_dec a b) as [->|].
    + rewrite fn_lookup_insert. zb. by case_if.
    + rewrite fn_lookup_insert_ne by done.
      replace ((a + 1 <=? b) && (b <? a + 1 + Z.of_nat n)) with
        ((a <=? b) && (b <? a + Z.pos (Pos.of_succ_nat n))); [done|].
      apply eq_true_iff_eq. rewrite !andb_true_iff, !Z.leb_le, !Z.ltb_lt. lia.
Qed.

(** ** Block operations, address by address *)

Definition disjoint_blocks (a b n : Z) : Prop := a + n <= b \/ b + n <= a.

Lemma copy_loop_spec w n ix dst src m b :
  mem_ok m -> 0 <= ix ->
  disjoint_blocks dst src (Z.of_nat w * (ix + Z.of_nat n)) ->
  copy_loop w n ix dst src m b =
    if (dst + Z.of_nat w * ix <=? b) && (b <? dst + Z.of_nat w * (ix + Z.of_nat n))
    then m (src + (b - dst)) else m b.
Proof.
  revert ix m. induction n as [|n IH]; intros ix m Hm Hix Hd; simpl.
  - case_if; [zify_bools; lia|done].
  - unfold disjoint_blocks in *. rewrite Nat2Z.inj_succ in *. unfold Z.succ in *.
    assert (0 <= Z.of_nat w * Z.of_nat n) by lia. assert (0 <= Z.of_nat w * ix) by nia.
    rewrite IH; [|auto with cint|lia|lia].
    destruct (Z.lt_ge_cases b (dst + Z.of_nat w * ix)) as [H1|H1].
    { zb. simpl. apply store_le_out. lia. }
    destruct (Z.lt_ge_cases b (dst + Z.of_nat w * (ix + 1))) as [H2|H2].
    { zb. simpl. rewrite store_load by (done || lia). f_equal. lia. }
    zb. simpl. replace (ix + 1 + Z.of_nat n) with (ix + (Z.of_nat n + 1)) by lia.
    case_if; zify_bools; apply store_le_out; lia.
Qed.

Lemma copy_loop_ok w n ix dst src m : mem_ok m -> mem_ok (copy_loop w n ix dst src m).
Proof. revert ix m. induction n; intros ix m Hm; simpl; auto with cint. Qed.

Lemma memset8_loop_spec n ix ptr v m b :
  memset8_loop n ix ptr v m b =
    if (ptr + ix <=? b) && (b <? ptr + ix + Z.of_nat n) then u8 v else m b.
Proof.
  revert ix m. induction n as [|n IH]; intros ix m; simpl.
  - case_if; [zify_bools; lia|done].
  - rewrite IH. destruct (Z.eq_dec (ptr + ix) b) as [<-|].
    + rewrite fn_lookup_insert. zb. by case_if.
    + rewrite fn_lookup_insert_ne by done.
      replace ((ptr + (ix + 1) <=? b) && (b <? ptr + (ix + 1) + Z.of_nat n)) with
        ((ptr + ix <=? b) && (b <? ptr + ix + Z.pos (Pos.of_succ_nat n))); [done|].
      apply eq_true_iff_eq. rewrite !andb_true_iff, !Z.leb_le, !Z.ltb_lt. lia.
Qed.

Lemma memset32_zero n ix ptr m b :
  memset32_loop n ix ptr 0 m b =
    if (ptr + 4 * ix <=? b) && (b <? ptr + 4 * (ix + Z.of_nat n)) then 0 else m b.
Proof.
  revert ix m. induction n as [|n IH]; intros ix m.
  - simpl. case_if; [zify_bools; lia|done].
  - cbn [memset32_loop]. rewrite IH, store_le_0. rewrite Nat2Z.inj_succ. unfold Z.succ.
    replace (ix + 1 + Z.of_nat n) with (ix + (Z.of_nat n + 1)) by lia.
    destruct (Z.lt_ge_cases b (ptr + 4 * ix)) as [H1|H1]; [by zb|].
    destruct (Z.lt_ge_cases b (ptr + 4 * (ix + 1))) as [H2|H2]; [by zb|].
    zb. cbn [andb]. repeat case_if; zify_bools; first [done | lia].
Qed.

(** C40: copying [count] 32-bit words with [memcpy_sysbitw] between disjoint
    blocks is the byte copy [memcpy8] of [4 * count] bytes: every byte of the
    destination block is the source byte at the same offset and the rest of the
    memory is untouched. *)
Theorem memcpy_sysbitw_is_memcpy8 dst src count m :
  mem_ok m -> 0 <= count -> disjoint_blocks dst src (4 * count) ->
  forall b, memcpy_sysbitw dst src count m b = memcpy8 dst src (4 * count) m b /\
    memcpy8 dst src (4 * count) m b =
      if (dst <=? b) && (b <? dst + 4 * count) then m (src + (b - dst)) else m b.
Proof.
  intros Hm Hc Hd b. unfold memcpy_sysbitw, memcpy8, sysByteWidth.
  rewrite !copy_loop_spec by (auto; unfold disjoint_blocks in *; lia).
  rewrite !Z2Nat.id by lia.
  replace (dst + Z.of_nat 4 * 0) with dst by lia. replace (dst + Z.of_nat 1 * 0) with dst by lia.
  replace (Z.of_nat 4 * (0 + count)) with (4 * count) by lia.
  replace (Z.of_nat 1 * (0 + 4 * count)) with (4 * count) by lia. done.
Qed.

Lemma memcpy_sysbitw_is_memcpy8_witness :
  memcpy_sysbitw 16 0 2 (fun a => u8 a) 18 = memcpy8 16 0 (4 * 2) (fun a => u8 a) 18 /\
  memcpy8 16 0 (4 * 2) (fun a => u8 a) 18 =
    (if (16 <=? 18) && (18 <? 16 + 4 * 2) then (fun a => u8 a) (0 + (18 - 16)) else u8 18).
Proof.
  apply (memcpy_sysbitw_is_memcpy8 16 0 2 (fun a => u8 a)).
  - intros a. apply u8_fits.
  - lia.
  - unfold disjoint_blocks. lia.
Defined.

Lemma strnlen_loop_spec n i s m :
  exists k, strnlen_loop n i s m = i + Z.of_nat k /\ (k <= n)%nat /\
    (forall j, 0 <= j < Z.of_nat k -> m (s + i + j) <> 0) /\
    ((k < n)%nat -> m (s + i + Z.of_nat k) = 0).
Proof.
  revert i. induction n as [|n IH]; intros i; simpl.
  - exists O. split_and!; intros; lia.
  - destruct (Z.eqb_spec (m (s + i)) 0) as [E|E].
    + exists O. rewrite !Z.add_0_r. split_and!; intros; try lia; done.
    + destruct (IH (i + 1)) as (k & -> & Hk & Hne & Hz). exists (S k).
      split_and!; try lia.
      * intros j Hj. destruct (Z.eq_dec j 0) as [->|]; [by rewrite Z.add_0_r|].
        replace (s + i + j) with (s + (i + 1) + (j - 1)) by lia. apply Hne. lia.
      * intros. replace (s + i + Z.of_nat (S k)) with (s + (i + 1) + Z.of_nat k) by lia. apply Hz. lia.
Qed.

(** [strpadcpy] fills the whole field: with the string clipped to the field
    (it need not be NUL-terminated within it), bytes of the string come first,
    the pad character fills the rest, no byte outside the field changes, and no
    NUL is written unless the pad is NUL. *)
Theorem strpadcpy_spec buf buf_size str pad m :
  mem_ok m -> 0 <= buf_size -> disjoint_blocks buf str buf_size ->
  exists len, 0 <= len <= buf_size /\
    (forall j, 0 <= j < len -> m (str + j) <> 0) /\ (len < buf_size -> m (str + len) = 0) /\
    forall b, strpadcpy buf buf_size str pad m b =
      if (buf <=? b) && (b <? buf + len) then m (str + (b - buf))
      else if (buf + len <=? b) && (b <? buf + buf_size) then u8 pad
      else m b.
Proof.
  intros Hm Hs Hd. unfold strpadcpy, strnlen.
  destruct (strnlen_loop_spec (Z.to_nat buf_size) 0 str m) as (k & -> & Hk & Hne & Hz).
  exists (Z.of_nat k). rewrite Z.add_0_r in Hne, Hz.
  split; [lia|]. split; [done|]. split; [intros Hl; apply Hz; lia|].
  - intros b. unfold memset8, memcpy8. rewrite memset8_loop_spec.
    rewrite copy_loop_spec by (auto; unfold disjoint_blocks in *; lia).
    rewrite !Z2Nat.id by lia. replace (Z.of_nat 1 * (0 + (0 + Z.of_nat k))) with (Z.of_nat k) by lia.
    replace (buf + Z.of_nat 1 * 0) with buf by lia.
    replace (buf + (0 + Z.of_nat k) + 0) with (buf + Z.of_nat k) by lia.
    replace (buf + Z.of_nat k + (buf_size - (0 + Z.of_nat k))) with (buf + buf_size) by lia.
    destruct (Z.le_gt_cases (buf + Z.of_nat k) b); zb; simpl; [|done].
    repeat case_if; zify_bools; first [done | lia].
Qed.

Lemma strpadcpy_spec_witness :
  exists len, 0 <= len <= 8 /\
    forall b, strpadcpy 100 8 0 32 (fun a => if a =? 3 then 0 else 65) b =
      if (100 <=? b) && (b <? 100 + len) then (fun a => if a =? 3 then 0 else 65) (0 + (b - 100))
      else if (100 + len <=? b) && (b <? 100 + 8) then u8 32
      else (fun a => if a =? 3 then 0 else 65) b.
Proof.
  destruct (strpadcpy_spec 100 8 0 32 (fun a => if a =? 3 then 0 else 65)) as (len & Hl & _ & _ & H).
  - intros a. case_if; unfold fits; lia.
  - lia.
  - unfold disjoint_blocks. lia.
  - exists len. split; [exact Hl|exact H].
Defined.
