(* ===== verification/Geom.v ===== *)
(** The geometry of the drive: the build-time configuration of the NAND array
    and of the host page size, with the derived constants of
    firmware/global_macro.h, and the numbering of pages in a plane and of
    planes in the array that the page-mapping FTL uses. *)

From Stdlib Require Import ZArith Lia Bool List.
From stdpp Require Import base tactics option list.
From S2P Require Import Prelude CTypes.

(** The values given on the compiler's command line. *)
Record geom := Geom {
  nand_num_chn : Z; nand_pkgs_per_chn : Z; nand_dies_per_pkg : Z;
  nand_planes_per_die : Z; nand_blocks_per_plane : Z; nand_pages_per_block : Z;
  nand_page_size : Z; host_page_size : Z; over_provision_factor : Z }.

Section geometry.
Context (g : geom).

Definition NUM_CHANNELS : Z := nand_num_chn g.
Definition PLANES_PER_DIE : Z := nand_planes_per_die g.
Definition BLOCKS_PER_PLANE : Z := nand_blocks_per_plane g.
Definition PAGES_PER_BLOCK : Z := nand_pages_per_block g.
Definition NAND_DS : Z := nand_page_size g.
Definition NAND_PAGE_SIZE : Z := Z.shiftl 1 (nand_page_size g).
Definition HOST_DS : Z := host_page_size g.
Definition HOST_PAGE_SIZE : Z := Z.shiftl 1 (host_page_size g).
Definition DIES_PER_CHANNEL : Z := nand_pkgs_per_chn g * nand_dies_per_pkg g.
Definition PAGES_PER_PLANE : Z := BLOCKS_PER_PLANE * PAGES_PER_BLOCK.
Definition TOTAL_NUM_OF_PKGS : Z := NUM_CHANNELS * nand_pkgs_per_chn g.
Definition TOTAL_NUM_OF_DIES : Z := TOTAL_NUM_OF_PKGS * nand_dies_per_pkg g.
Definition TOTAL_NUM_OF_PLANES : Z := TOTAL_NUM_OF_DIES * PLANES_PER_DIE.
Definition TOTAL_NUM_OF_BLOCK : Z := TOTAL_NUM_OF_PLANES * BLOCKS_PER_PLANE.
Definition TOTAL_NUM_OF_PAGES : Z := TOTAL_NUM_OF_BLOCK * PAGES_PER_BLOCK.
Definition HOST_2_NAND_DS : Z := NAND_DS - HOST_DS.
Definition OVP : Z := over_provision_factor g.

(** The index tuple of a physical page in [ppa_table], of its block in
    [blk_table] and of its plane in [last_page_per_plane]. *)
Definition page_key : Type := Z * Z * Z * Z * Z.
Definition blk_key : Type := Z * Z * Z * Z.
Definition plane_key : Type := Z * Z * Z.

Definition key_of (p : ppa) : page_key := (chn p, die p, plane p, block p, page p).
Definition blk_of (p : ppa) : blk_key := (chn p, die p, plane p, block p).
Definition plane_of (p : ppa) : plane_key := (chn p, die p, plane p).

(** The subscripts of the tables are inside the arrays. *)
Definition plane_in (c d l : Z) : bool :=
  in_range NUM_CHANNELS c && in_range DIES_PER_CHANNEL d && in_range PLANES_PER_DIE l.

Definition blk_in (p : ppa) : bool :=
  plane_in (chn p) (die p) (plane p) && in_range BLOCKS_PER_PLANE (block p).

Definition ppa_in (p : ppa) : bool := blk_in p && in_range PAGES_PER_BLOCK (page p).

(** A configuration the types of [ppa_t] can address, with channel 255 left
    free for the mark of an unmapped page. *)
Definition geom_ok : Prop :=
  0 < nand_num_chn g <= 255 /\ 0 < DIES_PER_CHANNEL <= 256 /\
  0 < nand_planes_per_die g <= 256 /\ 0 < nand_blocks_per_plane g < 65535 /\
  0 < nand_pages_per_block g <= 256 /\ 9 <= nand_page_size g < 30 /\
  9 <= host_page_size g <= nand_page_size g /\ TOTAL_NUM_OF_PAGES <= 2 ^ 30.

(** ** Numbering

    Planes are numbered with the channel running fastest, then the die, then
    the plane in the die: the order in which the allocator visits them. *)

Definition slot (c d l : Z) : Z := c + NUM_CHANNELS * (d + DIES_PER_CHANNEL * l).

Definition slot_chn (j : Z) : Z := j mod NUM_CHANNELS.
Definition slot_die (j : Z) : Z := (j / NUM_CHANNELS) mod DIES_PER_CHANNEL.
Definition slot_plane (j : Z) : Z := j / NUM_CHANNELS / DIES_PER_CHANNEL.

(** Page number [o] of plane number [j]. *)
Definition page_at (j o : Z) : ppa :=
  Ppa (o mod PAGES_PER_BLOCK) (o / PAGES_PER_BLOCK) (slot_plane j) (slot_die j) (slot_chn j) 0.

Lemma planes_product : TOTAL_NUM_OF_PLANES = NUM_CHANNELS * (DIES_PER_CHANNEL * PLANES_PER_DIE).
Proof.
  unfold TOTAL_NUM_OF_PLANES, TOTAL_NUM_OF_DIES, TOTAL_NUM_OF_PKGS, DIES_PER_CHANNEL. ring.
Qed.

Lemma pages_product : TOTAL_NUM_OF_PAGES = TOTAL_NUM_OF_PLANES * PAGES_PER_PLANE.
Proof. unfold TOTAL_NUM_OF_PAGES, TOTAL_NUM_OF_BLOCK, PAGES_PER_PLANE. ring. Qed.

Lemma plane_in_spec c d l :
  plane_in c d l = true <->
  0 <= c < NUM_CHANNELS /\ 0 <= d < DIES_PER_CHANNEL /\ 0 <= l < PLANES_PER_DIE.
Proof. unfold plane_in. rewrite !andb_true_iff, !in_range_true. tauto. Qed.

Lemma ppa_in_spec p :
  ppa_in p = true <->
  plane_in (chn p) (die p) (plane p) = true /\ 0 <= block p < BLOCKS_PER_PLANE /\
  0 <= page p < PAGES_PER_BLOCK.
Proof. unfold ppa_in, blk_in. rewrite !andb_true_iff, !in_range_true. tauto. Qed.

Context (Hg : geom_ok).

Lemma geom_pos :
  0 < NUM_CHANNELS /\ 0 < DIES_PER_CHANNEL /\ 0 < PLANES_PER_DIE /\ 0 < BLOCKS_PER_PLANE /\
  0 < PAGES_PER_BLOCK /\ 0 < TOTAL_NUM_OF_PLANES /\ 0 < PAGES_PER_PLANE.
Proof.
  destruct Hg as (? & ? & ? & ? & ? & _).
  unfold NUM_CHANNELS, PLANES_PER_DIE, PAGES_PER_PLANE, BLOCKS_PER_PLANE, PAGES_PER_BLOCK.
  rewrite planes_product. unfold NUM_CHANNELS, PLANES_PER_DIE. repeat split; try lia; nia.
Qed.

Lemma slot_range c d l : plane_in c d l = true -> 0 <= slot c d l < TOTAL_NUM_OF_PLANES.
Proof.
  rewrite plane_in_spec, planes_product. unfold slot. intros (? & ? & ?).
  assert (d + DIES_PER_CHANNEL * l < DIES_PER_CHANNEL * PLANES_PER_DIE) by nia.
  assert (0 <= d + DIES_PER_CHANNEL * l) by nia. split; nia.
Qed.

Lemma slot_split c d l :
  plane_in c d l = true ->
  slot_chn (slot c d l) = c /\ slot_die (slot c d l) = d /\ slot_plane (slot c d l) = l.
Proof.
  rewrite plane_in_spec. intros (? & ? & ?). unfold slot_chn, slot_die, slot_plane, slot.
  assert (E : (c + NUM_CHANNELS * (d + DIES_PER_CHANNEL * l)) / NUM_CHANNELS = d + DIES_PER_CHANNEL * l).
  { rewrite Z.mul_comm, Z.div_add, Z.div_small by lia. lia. }
  rewrite E. rewrite (Z.mul_comm NUM_CHANNELS), Z_mod_plus_full, Z.mod_small by lia.
  rewrite (Z.mul_comm DIES_PER_CHANNEL), Z_mod_plus_full, Z.mod_small by lia.
  rewrite Z.div_add, Z.div_small by lia. lia.
Qed.

Lemma slot_join j :
  0 <= j < TOTAL_NUM_OF_PLANES ->
  plane_in (slot_chn j) (slot_die j) (slot_plane j) = true /\
  slot (slot_chn j) (slot_die j) (slot_plane j) = j.
Proof.
  pose proof geom_pos as (? & ? & ? & _). rewrite planes_product. intros Hj.
  unfold slot, slot_chn, slot_die, slot_plane. rewrite plane_in_spec.
  pose proof (Z.mod_pos_bound j NUM_CHANNELS ltac:(lia)).
  pose proof (Z.mod_pos_bound (j / NUM_CHANNELS) DIES_PER_CHANNEL ltac:(lia)).
  assert (0 <= j / NUM_CHANNELS < DIES_PER_CHANNEL * PLANES_PER_DIE).
  { split; [apply Z.div_pos; lia|]. apply Z.div_lt_upper_bound; lia. }
  assert (0 <= j / NUM_CHANNELS / DIES_PER_CHANNEL < PLANES_PER_DIE).
  { split; [apply Z.div_pos; lia|]. apply Z.div_lt_upper_bound; lia. }
  split; [split_and!; try lia|].
  rewrite (Z.add_comm (_ mod DIES_PER_CHANNEL)), <- (Z_div_mod_eq_full (j / NUM_CHANNELS)).
  rewrite Z.add_comm, <- (Z_div_mod_eq_full j). done.
Qed.

Lemma slot_inj c d l c' d' l' :
  plane_in c d l = true -> plane_in c' d' l' = true ->
  slot c d l = slot c' d' l' -> (c, d, l) = (c', d', l').
Proof.
  intros H1 H2 E. destruct (slot_split c d l H1) as (E1 & E2 & E3).
  destruct (slot_split c' d' l' H2) as (E1' & E2' & E3'). rewrite <- E in *. congruence.
Qed.

(** The number of a page in its plane. *)
Definition offset_of (p : ppa) : Z := block p * PAGES_PER_BLOCK + page p.
Definition slot_of (p : ppa) : Z := slot (chn p) (die p) (plane p).

Lemma offset_range p : ppa_in p = true -> 0 <= offset_of p < PAGES_PER_PLANE.
Proof. rewrite ppa_in_spec. intros (_ & ? & ?). unfold offset_of, PAGES_PER_PLANE. nia. Qed.

Lemma page_at_in j o :
  0 <= j < TOTAL_NUM_OF_PLANES -> 0 <= o < PAGES_PER_PLANE ->
  ppa_in (page_at j o) = true /\ slot_of (page_at j o) = j /\ offset_of (page_at j o) = o.
Proof.
  pose proof geom_pos as (? & ? & ? & ? & ? & _). intros Hj Ho.
  destruct (slot_join j Hj) as (Hp & Hs). unfold PAGES_PER_PLANE in Ho.
  pose proof (Z.mod_pos_bound o PAGES_PER_BLOCK ltac:(lia)).
  rewrite ppa_in_spec. unfold slot_of, offset_of, page_at; cbn [chn die plane block page].
  split_and!; try done; try lia.
  - apply Z.div_pos; lia.
  - apply Z.div_lt_upper_bound; lia.
  - rewrite Z.mul_comm. symmetry. apply Z_div_mod_eq_full.
Qed.

Lemma key_inj p q :
  ppa_in p = true -> ppa_in q = true ->
  slot_of p = slot_of q -> offset_of p = offset_of q -> key_of p = key_of q.
Proof.
  intros Hp Hq Es Eo. pose proof Hp as Hp'. pose proof Hq as Hq'.
  rewrite ppa_in_spec in Hp', Hq'. destruct Hp' as (Hp1 & Hp2 & Hp3), Hq' as (Hq1 & Hq2 & Hq3).
  pose proof (slot_inj _ _ _ _ _ _ Hp1 Hq1 Es) as E.
  unfold offset_of in Eo.
  assert (block p = block q /\ page p = page q) as [Eb Ep].
  { assert (block p = block q) by nia. split; [done|nia]. }
  unfold key_of. congruence.
Qed.

Lemma key_page_at p :
  ppa_in p = true -> key_of p = key_of (page_at (slot_of p) (offset_of p)).
Proof.
  intros Hp. pose proof (offset_range p Hp). pose proof Hp as Hp'. rewrite ppa_in_spec in Hp'.
  destruct (page_at_in (slot_of p) (offset_of p)) as (H1 & H2 & H3);
    [apply slot_range; tauto|done|].
  apply key_inj; congruence.
Qed.

End geometry.

(** The default configuration of the build, [H4k_N4k_256mb]. *)
Definition H4k_N4k_256mb : geom := Geom 4 2 2 2 16 128 12 12 7.

Lemma H4k_N4k_256mb_ok : geom_ok H4k_N4k_256mb.
Proof. unfold geom_ok. repeat split; vm_compute; congruence. Qed.
