(* ===== verification/NandIo.v ===== *)
(** firmware/low_level_nand_io.c: the objects that describe a batch of flash
    page operations, the pools they come from, and the interface of the flash
    array that executes a batch; firmware/low_level_nand_io_debug.c: the
    virtual flash array in memory, an implementation of that interface. *)

From Stdlib Require Import ZArith Lia Bool List.
From stdpp Require Import base tactics option list functions.
From S2P Require Import Prelude CTypes Queue MemUtil Geom.

Definition FLASH_READ_OPERATION : Z := 8.
Definition FLASH_PROGRAM_OPERATION : Z := 9.
Definition MAX_OPS : Z := 128.

(** A page of a batch, [struct read_page_t] and [struct program_page_t], and the
    batch itself, [rop_t] and [pop_t].  The call-back fields are never read. *)
Record op_page := OpPage { pg_ppa : ppa; pg_ssd_addr : Z }.
Record op_t := Op { op_type : Z; op_index : Z; op_nop : Z; op_pages : list op_page }.

Definition set_nop (n : Z) (o : op_t) : op_t := Op (op_type o) (op_index o) n (op_pages o).

(** A pointer into [rops] or [pops]. *)
Inductive op_ptr := RopPtr (i : Z) | PopPtr (i : Z).

Record op_pools := OpPools {
  free_rop_objs : queue_t (option op_ptr); free_pop_objs : queue_t (option op_ptr);
  rops : list op_t; pops : list op_t }.

Definition op_page0 : op_page := OpPage (Ppa 0 0 0 0 0 0) 0.
Definition op0 : op_t := Op 0 0 0 (replicate 128 op_page0).

(** Before [init_op_obj]: zero-initialised globals, NULL pointers. *)
Definition op_pools0 : op_pools :=
  OpPools (Queue 0 0 0 (replicate 128 None)) (Queue 0 0 0 (replicate 128 None))
    (replicate 128 op0) (replicate 128 op0).

(** One loop of [init_op_obj]: [dst i] is the index the pointer is stored at. *)
Fixpoint init_op_loop (n : nat) (i type : Z) (dst : Z -> Z) (mk : Z -> op_ptr)
    (objs : list (option op_ptr)) (ops : list op_t) : outcome (list (option op_ptr) * list op_t) :=
  match n with
  | O => Ok (objs, ops)
  | S n' =>
      let! o := arr_get ops i in
      let! ops := arr_set ops i (Op type (i + 1) (op_nop o) (op_pages o)) in
      let! objs := arr_set objs (dst i) (Some (mk i)) in
      init_op_loop n' (i + 1) type dst mk objs ops
  end.

Definition init_op_obj (s : op_pools) : outcome op_pools :=
  let! '(robjs, rs) :=
    init_op_loop 128 0 FLASH_READ_OPERATION (fun i => i) RopPtr (q_objs (free_rop_objs s)) (rops s) in
  let! rt := c_mod MAX_OPS MAX_OPS in
  let! '(pobjs, ps) :=
    init_op_loop 128 0 FLASH_PROGRAM_OPERATION (fun _ => 0) PopPtr (q_objs (free_pop_objs s)) (pops s) in
  let! pt := c_mod MAX_OPS MAX_OPS in
  Ok (OpPools (Queue rt 0 MAX_OPS robjs) (Queue pt 0 MAX_OPS pobjs) rs ps).

Definition get_op (p : op_ptr) (s : op_pools) : outcome op_t :=
  match p with RopPtr i => arr_get (rops s) i | PopPtr i => arr_get (pops s) i end.

Definition set_op (p : op_ptr) (o : op_t) (s : op_pools) : outcome op_pools :=
  match p with
  | RopPtr i =>
      let! l := arr_set (rops s) i o in Ok (OpPools (free_rop_objs s) (free_pop_objs s) l (pops s))
  | PopPtr i =>
      let! l := arr_set (pops s) i o in Ok (OpPools (free_rop_objs s) (free_pop_objs s) (rops s) l)
  end.

(** Neither function looks whether the ring is empty or full. *)
Definition malloc_op_obj (req_type : Z) (s : op_pools) : outcome (option op_ptr * op_pools) :=
  if req_type =? FLASH_READ_OPERATION then
    let! '(op, q) := take_head (free_rop_objs s) in
    Ok (op, OpPools q (free_pop_objs s) (rops s) (pops s))
  else if req_type =? FLASH_PROGRAM_OPERATION then
    let! '(op, q) := take_head (free_pop_objs s) in
    Ok (op, OpPools (free_rop_objs s) q (rops s) (pops s))
  else Ok (None, s).

Definition free_op_obj (p : op_ptr) (s : op_pools) : outcome op_pools :=
  let! o := get_op p s in
  if op_type o =? FLASH_READ_OPERATION then
    let! q := put_tail (free_rop_objs s) (Some p) in
    Ok (OpPools q (free_pop_objs s) (rops s) (pops s))
  else if op_type o =? FLASH_PROGRAM_OPERATION then
    let! q := put_tail (free_pop_objs s) (Some p) in
    Ok (OpPools (free_rop_objs s) q (rops s) (pops s))
  else Ok s.

(** [begin_read_op] and [begin_program_op]; the pointer is dereferenced unchecked. *)
Definition begin_op (type : Z) (s : op_pools) : outcome (op_ptr * op_pools) :=
  let! '(rop, s) := malloc_op_obj type s in
  let! rop := deref rop in
  let! o := get_op rop s in
  let! s := set_op rop (set_nop 0 o) s in
  Ok (rop, s).

Definition begin_read_op : op_pools -> outcome (op_ptr * op_pools) := begin_op FLASH_READ_OPERATION.
Definition begin_program_op : op_pools -> outcome (op_ptr * op_pools) := begin_op FLASH_PROGRAM_OPERATION.

(** [add_read_op_page] and [add_program_op_page]: the new number of pages, or 0
    when the batch is full. *)
Definition add_op_page (op : op_ptr) (p : ppa) (ssd_addr : Z) (s : op_pools) : outcome (Z * op_pools) :=
  let! o := get_op op s in
  if 128 <=? op_nop o then Ok (0, s)
  else
    let! pages := arr_set (op_pages o) (op_nop o) (OpPage p ssd_addr) in
    let! s := set_op op (Op (op_type o) (op_index o) (op_nop o + 1) pages) s in
    Ok (op_nop o + 1, s).

(** The pages of a batch, in order. *)
Definition op_list (o : op_t) : list op_page := take (Z.to_nat (op_nop o)) (op_pages o).

(** ** The flash array *)

(** The effect of reading the pages of a batch into memory, in order. *)
Definition read_page (g : geom) (page : page_key -> mem) (m : mem) (p : op_page) : mem :=
  fun b => if (pg_ssd_addr p <=? b) && (b <? pg_ssd_addr p + NAND_PAGE_SIZE g)
           then page (key_of (pg_ppa p)) (b - pg_ssd_addr p) else m b.

Definition read_pages (g : geom) (page : page_key -> mem) (l : list op_page) (m : mem) : mem :=
  fold_left (read_page g page) l m.

(** The effect of programming a batch of pages from memory, in order. *)
Definition program_page (g : geom) (m : mem) (page : page_key -> mem) (p : op_page) : page_key -> mem :=
  fun k off => if bool_decide (k = key_of (pg_ppa p)) && in_range (NAND_PAGE_SIZE g) off
               then m (pg_ssd_addr p + off) else page k off.

Definition program_pages (g : geom) (m : mem) (l : list op_page) (page : page_key -> mem)
  : page_key -> mem := fold_left (program_page g m) l page.

Definition pages_ok (page : page_key -> mem) : Prop := forall k, mem_ok (page k).

(** The pages lie in the array and their buffers in 32 bits. *)
Definition pages_placed (g : geom) (l : list op_page) : Prop :=
  Forall (fun p => ppa_in g (pg_ppa p) = true /\ 0 <= pg_ssd_addr p < 2 ^ 32) l.

(** Different pages go to different bytes. *)
Definition buffers_apart (g : geom) (l : list op_page) : Prop :=
  forall x y a, In x l -> In y l -> in_range (NAND_PAGE_SIZE g) (a - pg_ssd_addr x) = true ->
    in_range (NAND_PAGE_SIZE g) (a - pg_ssd_addr y) = true -> x = y.

(** What the flash array promises to the FTL: [__do_sync_flash_read] and
    [__do_sync_flash_program] on a batch whose pages lie inside the array, and for
    reads have buffers of their own.  [nand_ready]: the array waits for a batch. *)
Class NandFlash (D : Type) := {
  nand_page : D -> page_key -> mem;
  nand_ready : geom -> D -> Prop;
  do_sync_flash_read : geom -> op_t -> D -> mem -> outcome (D * mem);
  do_sync_flash_program : geom -> op_t -> D -> mem -> outcome (D * mem);
  nand_read_law : forall g o d m,
    geom_ok g -> nand_ready g d -> 0 <= op_nop o <= MAX_OPS -> length (op_pages o) = 128%nat ->
    pages_placed g (op_list o) -> buffers_apart g (op_list o) -> mem_ok m -> pages_ok (nand_page d) ->
    exists d' m', do_sync_flash_read g o d m = Ok (d', m') /\ nand_ready g d' /\
      (forall k off, nand_page d' k off = nand_page d k off) /\
      (forall b, m' b = read_pages g (nand_page d) (op_list o) m b);
  nand_program_law : forall g o d m,
    geom_ok g -> nand_ready g d -> 0 <= op_nop o <= MAX_OPS -> length (op_pages o) = 128%nat ->
    pages_placed g (op_list o) -> mem_ok m -> pages_ok (nand_page d) ->
    exists d' m', do_sync_flash_program g o d m = Ok (d', m') /\ nand_ready g d' /\
      (forall b, m' b = m b) /\
      (forall k off, nand_page d' k off = program_pages g m (op_list o) (nand_page d) k off) }.

(** [sync_end_read_op] and [sync_end_program_op]. *)
Section sync_end.
Context {D : Type} `{NandFlash D} (g : geom).

Definition sync_end_read_op (rop : op_ptr) (s : op_pools) (d : D) (m : mem)
  : outcome (op_pools * D * mem) :=
  let! o := get_op rop s in
  let! '(d, m) := do_sync_flash_read g o d m in
  let! s := free_op_obj rop s in
  Ok (s, d, m).

Definition sync_end_program_op (pop : op_ptr) (s : op_pools) (d : D) (m : mem)
  : outcome (op_pools * D * mem) :=
  let! o := get_op pop s in
  let! '(d, m) := do_sync_flash_program g o d m in
  let! s := free_op_obj pop s in
  Ok (s, d, m).
End sync_end.

(** ** The virtual flash array of low_level_nand_io_debug.c *)

Inductive vnand := VNand (pages : page_key -> mem).
Definition vn_page (v : vnand) : page_key -> mem := let 'VNand p := v in p.

(** [for (ix < n) dst[ix] = src[ix]] on words of [w] bytes of two objects *)
Fixpoint copy_between (w n : nat) (ix dst src : Z) (md ms : mem) : mem :=
  match n with
  | O => md
  | S n' =>
      copy_between w n' (ix + 1) dst src
        (store_le w (dst + Z.of_nat w * ix) (load_le w (src + Z.of_nat w * ix) ms) md) ms
  end.

Definition page_words (g : geom) : nat := Z.to_nat (NAND_PAGE_SIZE g / 8).

Fixpoint vn_read_loop (g : geom) (n : nat) (ix : Z) (o : op_t) (v : vnand) (m : mem) : outcome mem :=
  match n with
  | O => Ok m
  | S n' =>
      let! p := arr_get (op_pages o) ix in
      if ppa_in g (pg_ppa p) then
        vn_read_loop g n' (ix + 1) o v
          (copy_between 8 (page_words g) 0 (pg_ssd_addr p) 0 m (vn_page v (key_of (pg_ppa p))))
      else Fault FBounds
  end.

Definition vn_do_sync_flash_read (g : geom) (o : op_t) (v : vnand) (m : mem) : outcome (vnand * mem) :=
  if op_nop o =? 0 then Ok (v, m)
  else let! m := vn_read_loop g (Z.to_nat (op_nop o)) 0 o v m in Ok (v, m).

Fixpoint vn_program_loop (g : geom) (n : nat) (ix : Z) (o : op_t) (v : vnand) (m : mem) : outcome vnand :=
  match n with
  | O => Ok v
  | S n' =>
      let! p := arr_get (op_pages o) ix in
      if ppa_in g (pg_ppa p) then
        let k := key_of (pg_ppa p) in
        vn_program_loop g n' (ix + 1) o
          (VNand (<[k := copy_between 8 (page_words g) 0 0 (pg_ssd_addr p) (vn_page v k) m]> (vn_page v))) m
      else Fault FBounds
  end.

Definition vn_do_sync_flash_program (g : geom) (o : op_t) (v : vnand) (m : mem) : outcome (vnand * mem) :=
  if op_nop o =? 0 then Ok (v, m)
  else let! v := vn_program_loop g (Z.to_nat (op_nop o)) 0 o v m in Ok (v, m).

(** ** Lemmas on the array *)

Lemma nand_page_size_words g : geom_ok g -> 8 * Z.of_nat (page_words g) = NAND_PAGE_SIZE g.
Proof.
  intros (_ & _ & _ & _ & _ & H & _). unfold page_words, NAND_PAGE_SIZE.
  rewrite Z.shiftl_1_l. replace (nand_page_size g) with (3 + (nand_page_size g - 3)) by lia.
  rewrite Z.pow_add_r by lia. change (2 ^ 3) with 8.
  assert (0 < 2 ^ (nand_page_size g - 3)) by (apply Z.pow_pos_nonneg; lia).
  set (x := 2 ^ (nand_page_size g - 3)) in *. replace (8 * x / 8) with x; [lia|].
  rewrite Z.mul_comm, Z.div_mul; lia.
Qed.

Lemma copy_between_spec w n ix dst src md ms b :
  mem_ok ms -> 0 <= ix ->
  copy_between w n ix dst src md ms b =
    if (dst + Z.of_nat w * ix <=? b) && (b <? dst + Z.of_nat w * (ix + Z.of_nat n))
    then ms (src + (b - dst)) else md b.
Proof.
  intros Hm. revert ix md. induction n as [|n IH]; intros ix md Hix; simpl.
  - case_if; [zify_bools; lia|done].
  - rewrite Nat2Z.inj_succ. unfold Z.succ. rewrite IH by lia.
    assert (0 <= Z.of_nat w * Z.of_nat n) by lia.
    destruct (Z.lt_ge_cases b (dst + Z.of_nat w * ix)) as [H1|H1].
    { zb. simpl. apply store_le_out. lia. }
    destruct (Z.lt_ge_cases b (dst + Z.of_nat w * (ix + 1))) as [H2|H2].
    { zb. simpl. rewrite store_load by (done || lia). f_equal. lia. }
    zb. simpl. replace (ix + 1 + Z.of_nat n) with (ix + (Z.of_nat n + 1)) by lia.
    case_if; zify_bools; [done|apply store_le_out; lia].
Qed.

Lemma copy_between_ok w n ix dst src md ms : mem_ok md -> mem_ok (copy_between w n ix dst src md ms).
Proof. revert ix md. induction n; intros ix md Hm; simpl; auto with cint. Qed.
#[export] Hint Resolve copy_between_ok : cint.

(** Reading and programming respect pointwise equality of memories. *)
Lemma read_pages_ext g page l m1 m2 :
  (forall b, m1 b = m2 b) -> forall b, read_pages g page l m1 b = read_pages g page l m2 b.
Proof.
  revert m1 m2. induction l as [|p l IH]; intros m1 m2 E b; simpl; [done|].
  apply IH. intros b'. unfold read_page. case_if; [done|apply E].
Qed.

Lemma program_pages_ext g m1 m2 l p1 p2 :
  (forall b, m1 b = m2 b) -> (forall k off, p1 k off = p2 k off) ->
  forall k off, program_pages g m1 l p1 k off = program_pages g m2 l p2 k off.
Proof.
  intros Em. revert p1 p2. induction l as [|p l IH]; intros p1 p2 E k off; simpl; [apply E|].
  apply IH. intros k' off'. unfold program_page. case_if; [apply Em|apply E].
Qed.

Lemma read_page_copy g v m p b :
  geom_ok g -> pages_ok (vn_page v) ->
  copy_between 8 (page_words g) 0 (pg_ssd_addr p) 0 m (vn_page v (key_of (pg_ppa p))) b =
  read_page g (vn_page v) m p b.
Proof.
  intros Hg Hv. rewrite copy_between_spec by (apply Hv || lia).
  pose proof (nand_page_size_words g Hg) as Hw. change (Z.of_nat 8) with 8.
  replace (pg_ssd_addr p + 8 * 0) with (pg_ssd_addr p) by lia.
  replace (8 * (0 + Z.of_nat (page_words g))) with (NAND_PAGE_SIZE g) by lia. done.
Qed.

Lemma drop_cons_get {A} (l : list A) ix n x :
  0 <= ix -> arr_get l ix = Ok x ->
  take (S n) (drop (Z.to_nat ix) l) = x :: take n (drop (Z.to_nat (ix + 1)) l).
Proof.
  intros Hix Hx. apply arr_get_Ok in Hx as [_ Hx].
  rewrite (drop_S l x) by done. simpl. by replace (Z.to_nat (ix + 1)) with (S (Z.to_nat ix)) by lia.
Qed.

Lemma vn_read_loop_spec g o v n ix m :
  geom_ok g -> pages_ok (vn_page v) -> 0 <= ix ->
  ix + Z.of_nat n <= Z.of_nat (length (op_pages o)) ->
  Forall (fun p => ppa_in g (pg_ppa p) = true) (take n (drop (Z.to_nat ix) (op_pages o))) ->
  exists m', vn_read_loop g n ix o v m = Ok m' /\
    forall b, m' b = read_pages g (vn_page v) (take n (drop (Z.to_nat ix) (op_pages o))) m b.
Proof.
  intros Hg Hv. revert ix m. induction n as [|n IH]; intros ix m Hix Hn Hall.
  - by exists m.
  - destruct (arr_get_lookup (op_pages o) ix) as (p & Hp & _); [lia|].
    rewrite (drop_cons_get _ _ _ _ Hix Hp) in *. inversion_clear Hall as [|? ? Hin Hall'].
    cbn [vn_read_loop]. rewrite Hp. cbn [obind]. rewrite Hin.
    edestruct (IH (ix + 1)) as (m' & E & Hm'); [lia|lia|exact Hall'|].
    rewrite E. exists m'. split; [done|]. intros b. rewrite Hm'. cbn [read_pages fold_left].
    apply read_pages_ext. intros b'. by apply read_page_copy.
Qed.

Lemma program_page_copy g v m p k off :
  geom_ok g -> mem_ok m ->
  (<[key_of (pg_ppa p) := copy_between 8 (page_words g) 0 0 (pg_ssd_addr p)
       (vn_page v (key_of (pg_ppa p))) m]> (vn_page v)) k off =
  program_page g m (vn_page v) p k off.
Proof.
  intros Hg Hm. unfold program_page. pose proof (nand_page_size_words g Hg) as Hw.
  case_bool_decide as E.
  - subst k. rewrite fn_lookup_insert, copy_between_spec by (done || lia).
    change (Z.of_nat 8) with 8. unfold in_range. replace (0 + 8 * 0) with 0 by lia.
    replace (0 + 8 * (0 + Z.of_nat (page_words g))) with (NAND_PAGE_SIZE g) by lia.
    rewrite Z.sub_0_r. done.
  - by rewrite fn_lookup_insert_ne by done.
Qed.

Lemma vn_program_loop_spec g o n ix v m :
  geom_ok g -> mem_ok m -> 0 <= ix ->
  ix + Z.of_nat n <= Z.of_nat (length (op_pages o)) ->
  Forall (fun p => ppa_in g (pg_ppa p) = true) (take n (drop (Z.to_nat ix) (op_pages o))) ->
  exists v', vn_program_loop g n ix o v m = Ok v' /\
    forall k off, vn_page v' k off =
      program_pages g m (take n (drop (Z.to_nat ix) (op_pages o))) (vn_page v) k off.
Proof.
  intros Hg Hm. revert ix v. induction n as [|n IH]; intros ix v Hix Hn Hall.
  - by exists v.
  - destruct (arr_get_lookup (op_pages o) ix) as (p & Hp & _); [lia|].
    rewrite (drop_cons_get _ _ _ _ Hix Hp) in *. inversion_clear Hall as [|? ? Hin Hall'].
    cbn [vn_program_loop]. rewrite Hp. cbn [obind]. rewrite Hin.
    edestruct (IH (ix + 1)) as (v' & E & Hv'); [lia|lia|exact Hall'|].
    rewrite E. exists v'. split; [done|]. intros k off. rewrite Hv'.
    cbn [program_pages fold_left vn_page]. apply program_pages_ext; [done|].
    intros k' off'. by apply program_page_copy.
Qed.

Lemma pages_placed_in g l : pages_placed g l -> Forall (fun p => ppa_in g (pg_ppa p) = true) l.
Proof. apply Forall_impl. by intros p (? & _). Qed.

(** The virtual array implements the interface; it is always ready. *)
#[export, refine] Instance vnand_flash : NandFlash vnand := {|
  nand_page := vn_page;
  nand_ready := fun _ _ => True;
  do_sync_flash_read := vn_do_sync_flash_read;
  do_sync_flash_program := vn_do_sync_flash_program |}.
Proof.
  - intros g o d m Hg _ Hn Hl Hall%pages_placed_in _ Hm Hd. unfold vn_do_sync_flash_read, MAX_OPS in *. case_if.
    + zify_bools. exists d, m. unfold op_list. replace (op_nop o) with 0 by lia. done.
    + edestruct (vn_read_loop_spec g o d (Z.to_nat (op_nop o)) 0 m) as (m' & -> & Hm');
        [done|done|lia|lia|exact Hall|]. cbn [obind]. by exists d, m'.
  - intros g o d m Hg _ Hn Hl Hall%pages_placed_in Hm Hd. unfold vn_do_sync_flash_program, MAX_OPS in *. case_if.
    + zify_bools. exists d, m. unfold op_list. replace (op_nop o) with 0 by lia. done.
    + edestruct (vn_program_loop_spec g o (Z.to_nat (op_nop o)) 0 d m) as (v' & -> & Hv');
        [done|done|lia|lia|exact Hall|]. cbn [obind]. by exists v', m.
Defined.

(** ** The pools, one batch at a time *)

Inductive side := RD | PR.
Definition other (k : side) : side := match k with RD => PR | PR => RD end.
Definition free_of (k : side) (s : op_pools) : queue_t (option op_ptr) :=
  match k with RD => free_rop_objs s | PR => free_pop_objs s end.
Definition ops_of (k : side) (s : op_pools) : list op_t := match k with RD => rops s | PR => pops s end.
Definition mk_of (k : side) : Z -> op_ptr := match k with RD => RopPtr | PR => PopPtr end.
Definition type_of (k : side) : Z :=
  match k with RD => FLASH_READ_OPERATION | PR => FLASH_PROGRAM_OPERATION end.
Definition same_side (k : side) (s s' : op_pools) : Prop :=
  free_of k s' = free_of k s /\ ops_of k s' = ops_of k s.

(** A well-formed ring; when [F] holds every entry points to an object of its
    own kind. *)
Definition ring_ok (k : side) (F : Prop) (q : queue_t (option op_ptr)) : Prop :=
  q_wf q /\ q_size q = MAX_OPS /\
  (F -> forall i, 0 <= i < MAX_OPS -> exists j, 0 <= j < MAX_OPS /\ arr_get (q_objs q) i = Ok (Some (mk_of k j))).

Definition ops_ok (k : side) (l : list op_t) : Prop :=
  length l = 128%nat /\
  forall i o, arr_get l i = Ok o -> op_type o = type_of k /\ length (op_pages o) = 128%nat.

(** No batch is being built. *)
Definition pool_idle (k : side) (F : Prop) (s : op_pools) : Prop :=
  ring_ok k F (free_of k s) /\ (F -> q_tail (free_of k s) = q_head (free_of k s)) /\ ops_ok k (ops_of k s).

(** ... and the next object to hand out is there. *)
Definition pool_ready (k : side) (F : Prop) (s : op_pools) : Prop :=
  pool_idle k F s /\
  exists j, 0 <= j < MAX_OPS /\ arr_get (q_objs (free_of k s)) (q_head (free_of k s)) = Ok (Some (mk_of k j)).

(** The batch at [p] is being built and holds the pages [l]. *)
Definition op_open (k : side) (F : Prop) (p : op_ptr) (l : list op_page) (s : op_pools) : Prop :=
  ring_ok k F (free_of k s) /\
  (F -> q_head (free_of k s) = (q_tail (free_of k s) + 1) mod MAX_OPS) /\ ops_ok k (ops_of k s) /\
  exists j o, p = mk_of k j /\ arr_get (ops_of k s) j = Ok o /\
    op_nop o = Z.of_nat (length l) /\ op_list o = l.

Lemma pool_ready_same k F s s' : same_side k s s' -> pool_ready k F s -> pool_ready k F s'.
Proof. unfold same_side, pool_ready, pool_idle. intros [-> ->]. done. Qed.

Lemma pool_idle_same k F s s' : same_side k s s' -> pool_idle k F s -> pool_idle k F s'.
Proof. unfold same_side, pool_idle. intros [-> ->]. done. Qed.

(** A pool whose entries are all there is ready again after every batch. *)
Lemma pool_idle_ready k (F : Prop) s : F -> pool_idle k F s -> pool_ready k F s.
Proof.
  intros HF Hi. split; [done|]. destruct Hi as ((Hwf & Hsz & Hfull) & _).
  apply (Hfull HF). destruct Hwf as (_ & _ & ? & _). rewrite Hsz in *. done.
Qed.

Lemma same_side_trans k s1 s2 s3 : same_side k s1 s2 -> same_side k s2 s3 -> same_side k s1 s3.
Proof. unfold same_side. intros [-> ->] [-> ->]. done. Qed.

(** Replacing a well-typed operation keeps the pool. *)
Lemma set_op_spec k s j o o' :
  ops_ok k (ops_of k s) -> arr_get (ops_of k s) j = Ok o ->
  op_type o' = type_of k -> length (op_pages o') = 128%nat ->
  exists s', set_op (mk_of k j) o' s = Ok s' /\ free_of k s' = free_of k s /\
    ops_ok k (ops_of k s') /\ arr_get (ops_of k s') j = Ok o' /\ same_side (other k) s s'.
Proof.
  intros [Hl Ho] Hj Ht Hp.
  assert (Hr : 0 <= j < Z.of_nat (length (ops_of k s))).
  { apply arr_get_Ok in Hj as [? Hj]. apply lookup_lt_Some in Hj. lia. }
  pose proof (arr_set_Ok (ops_of k s) j o' Hr) as Hs.
  assert (Hok : ops_ok k (<[Z.to_nat j := o']> (ops_of k s))).
  { split; [by rewrite length_insert|]. intros i x Hx.
    destruct (Z.eq_dec j i) as [<-|Hne].
    - rewrite (arr_get_set_eq _ _ _ _ Hs) in Hx. by simplify_eq.
    - rewrite (arr_get_set_ne _ _ _ _ _ Hne Hs) in Hx. by eapply Ho. }
  pose proof (arr_get_set_eq _ _ _ _ Hs) as Hg.
  destruct k; cbn [set_op mk_of ops_of] in *; rewrite Hs; cbn [obind]; eexists; split_and!; done.
Qed.

Lemma get_op_mk k j s : get_op (mk_of k j) s = arr_get (ops_of k s) j.
Proof. by destruct k. Qed.

Lemma malloc_op_obj_spec k F s :
  pool_ready k F s -> exists j s', 0 <= j < MAX_OPS /\
    malloc_op_obj (type_of k) s = Ok (Some (mk_of k j), s') /\
    ring_ok k F (free_of k s') /\
    (F -> q_head (free_of k s') = (q_tail (free_of k s') + 1) mod MAX_OPS) /\
    ops_of k s' = ops_of k s /\ same_side (other k) s s'.
Proof.
  intros (((Hwf & Hsz & Hfull) & Ht & Hok) & j & Hj & Hg). pose proof Hwf as (_ & Hlen & Hh & _).
  rewrite Hsz in *.
  assert (Hwf' : q_wf (Queue (q_tail (free_of k s)) ((q_head (free_of k s) + 1) mod MAX_OPS)
    MAX_OPS (q_objs (free_of k s)))).
  { destruct Hwf as (? & ? & ? & ?). unfold q_wf; cbn [q_size q_head q_tail q_objs].
    split_and!; try done; try lia; apply Z.mod_pos_bound; done. }
  exists j. destruct k; unfold malloc_op_obj, take_head, c_mod; cbn [type_of free_of mk_of] in *;
    cbn [Z.eqb Pos.eqb]; change (MAX_OPS =? 0) with false in *; rewrite Hsz, Hg; cbn [obind];
    change (MAX_OPS =? 0) with false; cbn [obind];
    (eexists; split; [done|split; [reflexivity|]]); cbn [free_rop_objs free_pop_objs q_head q_tail];
    split_and!; try done; intros HF; rewrite (Ht HF); done.
Qed.

Lemma begin_op_spec k F s :
  pool_ready k F s -> exists p s', begin_op (type_of k) s = Ok (p, s') /\
    op_open k F p [] s' /\ same_side (other k) s s'.
Proof.
  intros Hr. destruct (malloc_op_obj_spec k F s Hr) as (j & s1 & Hj & E & Hf & Hh & Ho & Hs).
  destruct Hr as ((_ & _ & Hok) & _). rewrite <- Ho in Hok.
  destruct (arr_get_lookup (ops_of k s1) j) as (o & Hg & _).
  { destruct Hok as [-> _]. unfold MAX_OPS in Hj. lia. }
  pose proof (proj2 Hok _ _ Hg) as [Ht Hp].
  destruct (set_op_spec k s1 j o (set_nop 0 o) Hok Hg Ht Hp) as (s2 & E2 & Hf2 & Hok2 & Hg2 & Hs2).
  exists (mk_of k j), s2. unfold begin_op. rewrite E. cbn [obind deref].
  rewrite get_op_mk, Hg. cbn [obind]. rewrite E2. cbn [obind]. split; [done|].
  split; [|by eapply same_side_trans]. unfold op_open. rewrite Hf2.
  split_and!; try done. exists j, (set_nop 0 o). done.
Qed.

Lemma op_list_snoc o (l : list op_page) x pages :
  op_nop o = Z.of_nat (length l) -> op_list o = l ->
  pages = <[Z.to_nat (op_nop o) := x]> (op_pages o) ->
  (length l < length (op_pages o))%nat ->
  op_list (Op (op_type o) (op_index o) (op_nop o + 1) pages) = l ++ [x].
Proof.
  intros Hn Hl -> Hlt. unfold op_list in *. cbn [op_nop op_pages].
  rewrite Hn in *. rewrite Nat2Z.id in *.
  replace (Z.to_nat (Z.of_nat (length l) + 1)) with (S (length l)) by lia.
  rewrite (take_S_r _ _ x) by (apply list_lookup_insert_eq; lia).
  rewrite take_insert_ge by lia. congruence.
Qed.

Lemma add_op_page_spec k F p l s a addr :
  op_open k F p l s -> (length l < 128)%nat -> exists s',
    add_op_page p a addr s = Ok (Z.of_nat (length l) + 1, s') /\
    op_open k F p (l ++ [OpPage a addr]) s' /\ same_side (other k) s s'.
Proof.
  intros (Hf & Hh & Hok & j & o & -> & Hg & Hn & Hl) Hlt.
  pose proof (proj2 Hok _ _ Hg) as [Ht Hp]. unfold add_op_page.
  rewrite get_op_mk, Hg. cbn [obind]. zb.
  rewrite arr_set_Ok by lia. cbn [obind].
  edestruct (set_op_spec k s j o) as (s2 & E2 & Hf2 & Hok2 & Hg2 & Hs2); [done|done| | |].
  3: { rewrite E2. cbn [obind]. exists s2. rewrite Hn. split; [done|]. split; [|done].
       unfold op_open. rewrite Hf2. split_and!; try done. do 2 eexists. split_and!; [done|exact Hg2| |].
       - cbn [op_nop]. rewrite length_app. simpl. lia.
       - eapply op_list_snoc; [done|done|done|lia]. }
  - done.
  - cbn [op_pages]. by rewrite length_insert.
Qed.

(** A full batch drops the page and reports 0, which no caller looks at. *)
Lemma add_op_page_full k F p l s a addr :
  op_open k F p l s -> length l = 128%nat -> add_op_page p a addr s = Ok (0, s).
Proof.
  intros (Hf & Hh & Hok & j & o & -> & Hg & Hn & Hl) Hlt. unfold add_op_page.
  rewrite get_op_mk, Hg. cbn [obind]. by zb.
Qed.

Lemma op_open_get k F p l s :
  op_open k F p l s -> exists o, get_op p s = Ok o /\ op_list o = l /\
    0 <= op_nop o <= MAX_OPS /\ length (op_pages o) = 128%nat.
Proof.
  intros (Hf & Hh & Hok & j & o & -> & Hg & Hn & Hl). exists o. rewrite get_op_mk.
  pose proof (proj2 Hok _ _ Hg) as [_ Hp].
  split_and!; try done; [lia|]. rewrite Hn, <- Hl. unfold op_list, MAX_OPS. rewrite length_take. lia.
Qed.

Lemma free_op_obj_spec k F p l s :
  op_open k F p l s -> exists s', free_op_obj p s = Ok s' /\ pool_idle k F s' /\ same_side (other k) s s'.
Proof.
  intros ((Hwf & Hsz & Hfull) & Hh & Hok & j & o & -> & Hg & Hn & Hl).
  pose proof (proj2 Hok _ _ Hg) as [Ht Hp]. unfold free_op_obj.
  rewrite get_op_mk, Hg. cbn [obind]. pose proof Hwf as (_ & Hlen & Hhr & Htr). rewrite Hsz in *.
  assert (Hj : 0 <= j < MAX_OPS).
  { apply arr_get_Ok in Hg as [? Hg]. apply lookup_lt_Some in Hg. destruct Hok as [E _].
    rewrite E in Hg. unfold MAX_OPS. lia. }
  pose proof (arr_set_Ok (q_objs (free_of k s)) (q_tail (free_of k s)) (Some (mk_of k j)) ltac:(lia)) as Hs.
  assert (Hring : ring_ok k F (Queue ((q_tail (free_of k s) + 1) mod MAX_OPS) (q_head (free_of k s))
    MAX_OPS (<[Z.to_nat (q_tail (free_of k s)) := Some (mk_of k j)]> (q_objs (free_of k s))))).
  { unfold ring_ok, q_wf; cbn [q_size q_head q_tail q_objs].
    pose proof (Z.mod_pos_bound (q_tail (free_of k s) + 1) MAX_OPS ltac:(done)).
    rewrite length_insert. split_and!; try done; try lia.
    intros HF i Hi. destruct (Z.eq_dec (q_tail (free_of k s)) i) as [<-|Hne].
    - exists j. split; [done|]. exact (arr_get_set_eq _ _ _ _ Hs).
    - rewrite (arr_get_set_ne _ _ _ _ _ Hne Hs). by apply (Hfull HF). }
  destruct k; cbn [type_of free_of ops_of mk_of] in *; rewrite Ht; cbn [Z.eqb Pos.eqb];
    unfold put_tail, c_mod; rewrite Hs, Hsz; cbn [obind]; change (MAX_OPS =? 0) with false;
    cbn [obind]; eexists; (split; [reflexivity|]); unfold pool_idle, same_side; cbn [free_of ops_of
    free_rop_objs free_pop_objs rops pops q_tail q_head other]; split_and!; try done;
    intros HF; by rewrite (Hh HF).
Qed.

(** ** Whole batches *)

Fixpoint add_pages (p : op_ptr) (l : list op_page) (s : op_pools) : outcome op_pools :=
  match l with
  | [] => Ok s
  | x :: l' => let! '(_, s) := add_op_page p (pg_ppa x) (pg_ssd_addr x) s in add_pages p l' s
  end.

Lemma add_pages_spec k F p l0 l s :
  op_open k F p l0 s -> (length l0 + length l <= 128)%nat -> exists s',
    add_pages p l s = Ok s' /\ op_open k F p (l0 ++ l) s' /\ same_side (other k) s s'.
Proof.
  revert l0 s. induction l as [|x l IH]; intros l0 s Ho Hlen; cbn [add_pages].
  - exists s. by rewrite app_nil_r.
  - cbn [length] in Hlen.
    destruct (add_op_page_spec k F p l0 s (pg_ppa x) (pg_ssd_addr x) Ho ltac:(lia)) as (s1 & -> & Ho1 & Hs1).
    cbn [obind]. destruct (IH _ _ Ho1) as (s2 & -> & Ho2 & Hs2); [rewrite length_app; simpl; lia|].
    exists s2. split; [done|]. rewrite <- app_assoc in Ho2. destruct x.
    split; [exact Ho2|by eapply same_side_trans].
Qed.

Section batches.
Context {D : Type} `{NandFlash D} (g : geom) (Hg : geom_ok g).

Definition read_batch (l : list op_page) (s : op_pools) (d : D) (m : mem) : outcome (op_pools * D * mem) :=
  let! '(p, s) := begin_read_op s in
  let! s := add_pages p l s in
  sync_end_read_op g p s d m.

Definition program_batch (l : list op_page) (s : op_pools) (d : D) (m : mem) : outcome (op_pools * D * mem) :=
  let! '(p, s) := begin_program_op s in
  let! s := add_pages p l s in
  sync_end_program_op g p s d m.

Lemma sync_end_read_spec F p l s d m :
  op_open RD F p l s -> nand_ready g d -> pages_placed g l -> buffers_apart g l -> mem_ok m ->
  pages_ok (nand_page d) -> exists s' d' m',
    sync_end_read_op g p s d m = Ok (s', d', m') /\ pool_idle RD F s' /\ same_side PR s s' /\ nand_ready g d' /\
    (forall k off, nand_page d' k off = nand_page d k off) /\
    (forall b, m' b = read_pages g (nand_page d) l m b).
Proof using Hg.
  intros Ho Hrd Hin Hap Hm Hd. destruct (op_open_get _ _ _ _ _ Ho) as (o & Hget & <- & Hn & Hl).
  destruct (nand_read_law g o d m Hg Hrd Hn Hl Hin Hap Hm Hd) as (d' & m' & E & Hrd' & Hd' & Hm').
  destruct (free_op_obj_spec _ _ _ _ _ Ho) as (s' & Ef & Hr & Hs).
  unfold sync_end_read_op. rewrite Hget. cbn [obind]. rewrite E. cbn [obind]. rewrite Ef. cbn [obind].
  by exists s', d', m'.
Qed.

Lemma sync_end_program_spec F p l s d m :
  op_open PR F p l s -> nand_ready g d -> pages_placed g l -> mem_ok m ->
  pages_ok (nand_page d) -> exists s' d' m',
    sync_end_program_op g p s d m = Ok (s', d', m') /\ pool_idle PR F s' /\ same_side RD s s' /\ nand_ready g d' /\
    (forall b, m' b = m b) /\
    (forall k off, nand_page d' k off = program_pages g m l (nand_page d) k off).
Proof using Hg.
  intros Ho Hrd Hin Hm Hd. destruct (op_open_get _ _ _ _ _ Ho) as (o & Hget & <- & Hn & Hl).
  destruct (nand_program_law g o d m Hg Hrd Hn Hl Hin Hm Hd) as (d' & m' & E & Hrd' & Hd' & Hm').
  destruct (free_op_obj_spec _ _ _ _ _ Ho) as (s' & Ef & Hr & Hs).
  unfold sync_end_program_op. rewrite Hget. cbn [obind]. rewrite E. cbn [obind]. rewrite Ef. cbn [obind].
  by exists s', d', m'.
Qed.

(** C20: a batch of at most 128 pages inside the array, built with begin, add
    and end, transfers exactly its pages in order: a read batch, whose buffers do
    not meet, leaves the array
    as it is and copies each page to its buffer address, a program batch leaves
    the memory as it is and stores each buffer in its page; both return their
    object to the pool, so that the next batch can start if the pool is complete. *)
Theorem batches_execute (F : Prop) l s d m :
  (length l <= 128)%nat -> nand_ready g d -> pages_placed g l -> mem_ok m -> pages_ok (nand_page d) ->
  (pool_ready RD F s -> buffers_apart g l ->
     exists s' d' m', read_batch l s d m = Ok (s', d', m') /\ pool_idle RD F s' /\ nand_ready g d' /\
     (forall k off, nand_page d' k off = nand_page d k off) /\
     (forall b, m' b = read_pages g (nand_page d) l m b)) /\
  (pool_ready PR F s ->
     exists s' d' m', program_batch l s d m = Ok (s', d', m') /\ pool_idle PR F s' /\ nand_ready g d' /\
     (forall b, m' b = m b) /\
     (forall k off, nand_page d' k off = program_pages g m l (nand_page d) k off)).
Proof using Hg.
  intros Hl Hrd Hin Hm Hd. split; [intros Hr Hap|intros Hr].
  - destruct (begin_op_spec RD F s Hr) as (p & s1 & E1 & Ho1 & _).
    destruct (add_pages_spec RD F p [] l s1 Ho1 ltac:(simpl; lia)) as (s2 & E2 & Ho2 & _).
    destruct (sync_end_read_spec F p l s2 d m Ho2 Hrd Hin Hap Hm Hd) as (s' & d' & m' & E & ? & ? & ? & ? & ?).
    unfold read_batch. change (begin_read_op s) with (begin_op (type_of RD) s). rewrite E1. cbn [obind].
    rewrite E2. cbn [obind]. rewrite E. by exists s', d', m'.
  - destruct (begin_op_spec PR F s Hr) as (p & s1 & E1 & Ho1 & _).
    destruct (add_pages_spec PR F p [] l s1 Ho1 ltac:(simpl; lia)) as (s2 & E2 & Ho2 & _).
    destruct (sync_end_program_spec F p l s2 d m Ho2 Hrd Hin Hm Hd) as (s' & d' & m' & E & ? & ? & ? & ? & ?).
    unfold program_batch. change (begin_program_op s) with (begin_op (type_of PR) s). rewrite E1. cbn [obind].
    rewrite E2. cbn [obind]. rewrite E. by exists s', d', m'.
Qed.
End batches.

(** ** The pools as [init_op_obj] leaves them *)

Definition init_pools : op_pools := from_ok op_pools0 (init_op_obj op_pools0).

Lemma forallb_seq_range (f : Z -> bool) n i :
  forallb f (map Z.of_nat (seq 0 n)) = true -> 0 <= i < Z.of_nat n -> f i = true.
Proof.
  intros H Hi. rewrite forallb_forall in H. apply H. apply in_map_iff. exists (Z.to_nat i).
  split; [lia|]. apply in_seq. lia.
Qed.

Lemma init_pools_ops k : ops_ok k (ops_of k init_pools).
Proof.
  split; [destruct k; vm_compute; reflexivity|]. intros i o Hi.
  assert (Hr : 0 <= i < 128).
  { apply arr_get_Ok in Hi as [? Hi]. apply lookup_lt_Some in Hi.
    assert (length (ops_of k init_pools) = 128%nat) by (destruct k; vm_compute; reflexivity). lia. }
  assert (Hall : forallb (fun i => match arr_get (ops_of k init_pools) i with
    | Ok o => (op_type o =? type_of k) && (length (op_pages o) =? 128)%nat | _ => false end)
    (map Z.of_nat (seq 0 128)) = true) by (destruct k; vm_compute; reflexivity).
  apply (forallb_seq_range _ 128 i) in Hall; [|lia]. cbv beta in Hall. rewrite Hi in Hall. zify_bools.
  split; [done|]. by apply Nat.eqb_eq.
Qed.

Lemma init_pools_read : pool_ready RD True init_pools.
Proof.
  apply pool_idle_ready; [done|].
  split_and!; [|intros _; vm_compute; reflexivity|apply init_pools_ops].
  split; [vm_compute; split_and!; congruence|]. split; [vm_compute; reflexivity|]. intros _ i Hi.
  exists i. split; [done|].
  assert (Hall : forallb (fun i => match arr_get (q_objs (free_of RD init_pools)) i with
    | Ok (Some (RopPtr j)) => j =? i | _ => false end) (map Z.of_nat (seq 0 128)) = true)
    by (vm_compute; reflexivity).
  apply (forallb_seq_range _ 128 i) in Hall; [|done]. cbv beta in Hall.
  destruct (arr_get _ i) as [[[j|j]|]|]; try done. zify_bools. by subst.
Qed.

(** The pool of program batches is only good for one batch. *)
Lemma init_pools_program : pool_ready PR False init_pools.
Proof.
  split.
  - split_and!; [|done|apply init_pools_ops].
    split; [vm_compute; split_and!; congruence|]. split; [vm_compute; reflexivity|done].
  - exists 127. split; [done|]. vm_compute. reflexivity.
Qed.

Lemma add_op_page_free p a addr s r s' :
  add_op_page p a addr s = Ok (r, s') -> free_of PR s' = free_of PR s.
Proof.
  unfold add_op_page. destruct (get_op p s) as [o|]; cbn [obind]; [|done].
  case_if; [by intros; simplify_eq|]. destruct (arr_set _ _ _) as [pages|]; cbn [obind]; [|done].
  unfold set_op. destruct p; (destruct (arr_set _ _ _); cbn [obind]; [|done]); by intros; simplify_eq.
Qed.

Lemma add_pages_free p l s s' : add_pages p l s = Ok s' -> free_of PR s' = free_of PR s.
Proof.
  revert s. induction l as [|x l IH]; intros s; cbn [add_pages]; [by intros; simplify_eq|].
  destruct (add_op_page _ _ _ s) as [[r s1]|] eqn:E; cbn [obind]; [|done]. intros E2.
  rewrite (IH _ E2). by eapply add_op_page_free.
Qed.

Lemma second_program_null p l s1 s2 s3 :
  begin_program_op init_pools = Ok (p, s1) -> add_pages p l s1 = Ok s2 ->
  free_op_obj p s2 = Ok s3 -> begin_program_op s3 = Fault FNull.
Proof.
  assert (E0 : exists s1, begin_program_op init_pools = Ok (PopPtr 127, s1) /\
    q_head (free_of PR s1) = 1 /\ q_tail (free_of PR s1) = 0 /\ q_size (free_of PR s1) = 128 /\
    q_objs (free_of PR s1) = q_objs (free_of PR init_pools)).
  { eexists. split; [vm_compute; reflexivity|]. vm_compute. done. }
  destruct E0 as (s0 & E0 & Hh & Ht & Hsz & Hob).
  intros E1 E2 E3. rewrite E0 in E1. injection E1 as <- <-.
  assert (H1 : arr_get (q_objs (free_of PR s0)) 1 = Ok None) by (rewrite Hob; vm_compute; reflexivity).
  clear E0 Hob. pose proof (add_pages_free _ _ _ _ E2) as Hf. unfold free_op_obj in E3.
  destruct (get_op _ s2) as [o|]; cbn [obind] in E3; [|done].
  assert (Hq : q_head (free_of PR s3) = 1 /\ arr_get (q_objs (free_of PR s3)) 1 = Ok None /\
    q_size (free_of PR s3) = 128).
  { repeat case_match; simplify_eq; try (rewrite Hf; done).
    - destruct (put_tail (free_rop_objs s2) _); cbn [obind] in E3; simplify_eq.
      cbn [free_of free_pop_objs] in *. rewrite Hf. done.
    - cbn [free_of] in *. rewrite Hf in E3. unfold put_tail, c_mod in E3. rewrite Ht, Hsz in E3.
      change (128 =? 0) with false in E3.
      destruct (arr_set (q_objs (free_pop_objs s0)) 0 _) as [objs|] eqn:Es; cbn [obind] in E3; [|done].
      simplify_eq. cbn [free_pop_objs q_head q_objs q_size]. split_and!; try done.
      by rewrite (arr_get_set_ne _ _ 0 1 _ ltac:(lia) Es). }
  destruct Hq as (Hq1 & Hq2 & Hq3). cbn [free_of] in *.
  unfold begin_program_op, begin_op, malloc_op_obj. cbn [Z.eqb Pos.eqb FLASH_READ_OPERATION FLASH_PROGRAM_OPERATION].
  unfold take_head, c_mod. rewrite Hq1, Hq2, Hq3. reflexivity.
Qed.

(** [init_op_obj] fills the pool of read batches with its 128 objects, but
    stores every program object in entry 0 of its pool (line 304 of
    low_level_nand_io.c): the first program batch runs, and whatever it
    contains, the second one gets a NULL object and dereferences it. *)
Theorem second_program_batch_is_null :
  pool_ready RD True init_pools /\
  (exists p s1, begin_program_op init_pools = Ok (p, s1)) /\
  forall p l s1 s2 s3, begin_program_op init_pools = Ok (p, s1) -> add_pages p l s1 = Ok s2 ->
    free_op_obj p s2 = Ok s3 -> begin_program_op s3 = Fault FNull.
Proof.
  split; [apply init_pools_read|]. split; [|exact second_program_null].
  eexists _, _. vm_compute. reflexivity.
Qed.

Lemma batches_execute_witness :
  exists s' d' m',
    read_batch H4k_N4k_256mb [OpPage (page_at H4k_N4k_256mb 3 200) 4096] init_pools
      (VNand (fun _ off => u8 off)) (fun _ => 0) = Ok (s', d', m') /\ m' 4101 = 5 /\ m' 100 = 0.
Proof.
  destruct (proj1 (batches_execute H4k_N4k_256mb H4k_N4k_256mb_ok True
    [OpPage (page_at H4k_N4k_256mb 3 200) 4096] init_pools (VNand (fun _ off => u8 off)) (fun _ => 0)
    ltac:(simpl; lia) I
    ltac:(apply Forall_cons_2; [split; [vm_compute; reflexivity|cbn; lia]|apply Forall_nil_2])
    ltac:(intros b; split; [lia|done]) ltac:(intros k b; apply u8_fits)) init_pools_read
    ltac:(intros x y a [<-|[]] [<-|[]]; done))
    as (s' & d' & m' & E & _ & _ & _ & Hm).
  exists s', d', m'. split; [exact E|]. rewrite !Hm. split; vm_compute; reflexivity.
Defined.
