(* ===== verification/Ftl.v ===== *)
(** firmware/ftl_page_mapping: the mapping tables of the page-mapping FTL
    (ftl.h), the search for a free page, the mapping of a logical page and the
    start of a new flash medium (ftl.c). *)

From Stdlib Require Import ZArith Lia Bool List.
From stdpp Require Import base tactics option list functions.
From S2P Require Import Prelude CTypes Geom.

(** ** Tables *)

Definition FREE_PPA : Z := 0x40000000.
Definition INVALID_PPA : Z := 0x80000000.
Definition RESERVED_PPA : Z := 0xc0000000.
Definition VALID_PPA_MASK : Z := 0xc0000000.

Record block_meta := BlockMeta { invalid_pgs : Z; valid_pgs : Z; erase_count : Z }.

Record ftl_config_t := FtlConfig {
  fc_nand_ds : Z; fc_host_ds : Z; fc_pages_per_block : Z; fc_total_pages : Z;
  rpp_ovp : Z; rpp_map_tables : Z; total_rpp : Z; total_logical_pages : Z;
  total_invalid_pages : Z; total_valid_pages : Z; total_free_pages : Z;
  last_selected_ppa : ppa; mapping_tables : list ppa }.

Record ftl := Ftl {
  lpa_table : Z -> ppa; ppa_table : page_key -> Z; blk_table : blk_key -> block_meta;
  last_page_per_plane : plane_key -> ppa; last_searched_channel : ppa;
  ftl_config : ftl_config_t }.

Definition set_lpa v s := Ftl v (ppa_table s) (blk_table s) (last_page_per_plane s) (last_searched_channel s) (ftl_config s).
Definition set_ppa_table v s := Ftl (lpa_table s) v (blk_table s) (last_page_per_plane s) (last_searched_channel s) (ftl_config s).
Definition set_blk v s := Ftl (lpa_table s) (ppa_table s) v (last_page_per_plane s) (last_searched_channel s) (ftl_config s).
Definition set_lpp v s := Ftl (lpa_table s) (ppa_table s) (blk_table s) v (last_searched_channel s) (ftl_config s).
Definition set_last_searched v s := Ftl (lpa_table s) (ppa_table s) (blk_table s) (last_page_per_plane s) v (ftl_config s).
Definition set_config v s := Ftl (lpa_table s) (ppa_table s) (blk_table s) (last_page_per_plane s) (last_searched_channel s) v.

Definition set_last_selected v c :=
  FtlConfig (fc_nand_ds c) (fc_host_ds c) (fc_pages_per_block c) (fc_total_pages c) (rpp_ovp c)
    (rpp_map_tables c) (total_rpp c) (total_logical_pages c) (total_invalid_pages c)
    (total_valid_pages c) (total_free_pages c) v (mapping_tables c).
Definition set_totals inv val free c :=
  FtlConfig (fc_nand_ds c) (fc_host_ds c) (fc_pages_per_block c) (fc_total_pages c) (rpp_ovp c)
    (rpp_map_tables c) (total_rpp c) (total_logical_pages c) inv val free
    (last_selected_ppa c) (mapping_tables c).
Definition set_mapping_tables v c :=
  FtlConfig (fc_nand_ds c) (fc_host_ds c) (fc_pages_per_block c) (fc_total_pages c) (rpp_ovp c)
    (rpp_map_tables c) (total_rpp c) (total_logical_pages c) (total_invalid_pages c)
    (total_valid_pages c) (total_free_pages c) (last_selected_ppa c) v.

Section tables.
Context (g : geom).

(** The access macros of ftl.h; a subscript outside its array is a fault. *)
Definition GET_MAPPED_PPA (lpa : Z) (s : ftl) : outcome ppa :=
  if in_range (TOTAL_NUM_OF_PAGES g) lpa then Ok (lpa_table s lpa) else Fault FBounds.

Definition IS_UNMAPPED_LPA (lpa : Z) (s : ftl) : outcome bool :=
  let! p := GET_MAPPED_PPA lpa s in Ok (chn p =? 0xFF).

Definition SET_MAPPED_PPA (lpa : Z) (p : ppa) (s : ftl) : outcome ftl :=
  if in_range (TOTAL_NUM_OF_PAGES g) lpa then Ok (set_lpa (<[lpa := p]> (lpa_table s)) s)
  else Fault FBounds.

Definition GET_MAPPED_LPA (p : ppa) (s : ftl) : outcome Z :=
  if ppa_in g p then Ok (ppa_table s (key_of p)) else Fault FBounds.

Definition SET_MAPPED_LPA (v : Z) (p : ppa) (s : ftl) : outcome ftl :=
  if ppa_in g p then Ok (set_ppa_table (<[key_of p := v]> (ppa_table s)) s) else Fault FBounds.

Definition SET_INVALID_PPA (p : ppa) : ftl -> outcome ftl := SET_MAPPED_LPA INVALID_PPA p.
Definition SET_RESERVED_PPA (p : ppa) : ftl -> outcome ftl := SET_MAPPED_LPA RESERVED_PPA p.

Definition IS_FREE_PPA (p : ppa) (s : ftl) : outcome bool :=
  let! v := GET_MAPPED_LPA p s in Ok (v =? FREE_PPA).

Definition MAP_LPA_AND_PPA (lpa : Z) (p : ppa) (s : ftl) : outcome ftl :=
  let! s := SET_MAPPED_PPA lpa p s in SET_MAPPED_LPA lpa p s.

Definition upd_blk (f : block_meta -> block_meta) (p : ppa) (s : ftl) : outcome ftl :=
  if blk_in g p then Ok (set_blk (<[blk_of p := f (blk_table s (blk_of p))]> (blk_table s)) s)
  else Fault FBounds.

(** 16-bit counters *)
Definition add_valid (n : Z) (b : block_meta) : block_meta :=
  BlockMeta (invalid_pgs b) (u16 (valid_pgs b + n)) (erase_count b).
Definition add_invalid (n : Z) (b : block_meta) : block_meta :=
  BlockMeta (u16 (invalid_pgs b + n)) (valid_pgs b) (erase_count b).
Definition INC_VALID_PAGES : ppa -> ftl -> outcome ftl := upd_blk (add_valid 1).
Definition DEC_VALID_PAGES : ppa -> ftl -> outcome ftl := upd_blk (add_valid (-1)).
Definition INC_INVALID_PAGES : ppa -> ftl -> outcome ftl := upd_blk (add_invalid 1).

(** ** The search for a free page *)

Definition inc_page (p : ppa) : ppa :=
  Ppa (u16 (page p + 1)) (block p) (plane p) (die p) (chn p) (resv p).

Definition next_block (p : ppa) : ppa :=
  let b := u16 (block p + 1) in
  Ppa 0 (if BLOCKS_PER_PLANE g <? b then 0 else b) (plane p) (die p) (chn p) (resv p).

(** The inner loop of [find_free_page], over the pages left in a block. *)
Fixpoint scan_pages (fuel : nat) (i_ppa : ppa) (s : ftl) : outcome (bool * ppa) :=
  if page i_ppa <? PAGES_PER_BLOCK g then
    match fuel with
    | O => Fault FFuel
    | S fuel' =>
        let! free := IS_FREE_PPA i_ppa s in
        if free then Ok (true, i_ppa) else scan_pages fuel' (inc_page i_ppa) s
    end
  else Ok (false, i_ppa).

(** The outer loop, [n] blocks. *)
Fixpoint scan_blocks (n : nat) (i_ppa : ppa) (s : ftl) : outcome (bool * ppa) :=
  match n with
  | O => Ok (false, i_ppa)
  | S n' =>
      let! '(found, i_ppa) := scan_pages (Z.to_nat (PAGES_PER_BLOCK g)) i_ppa s in
      if found then Ok (true, i_ppa) else scan_blocks n' (next_block i_ppa) s
  end.

(** The plane searched next: channel first, then die, then plane. *)
Definition next_plane_of (p : ppa) : Z * Z * Z :=
  if NUM_CHANNELS g <=? chn p + 1 then
    if DIES_PER_CHANNEL g <=? die p + 1 then
      if PLANES_PER_DIE g <=? plane p + 1 then (0, 0, 0) else (0, 0, plane p + 1)
    else (0, die p + 1, plane p)
  else (chn p + 1, die p, plane p).

(** The result is the page found, if any. *)
Definition find_free_page (s : ftl) : outcome (option ppa * ftl) :=
  let '(nextChn, next_die, next_plane) := next_plane_of (last_searched_channel s) in
  if plane_in g nextChn next_die next_plane then
    let i_ppa := last_page_per_plane s (nextChn, next_die, next_plane) in
    let! '(found, i_ppa) := scan_blocks (Z.to_nat (BLOCKS_PER_PLANE g)) i_ppa s in
    if found then
      let new_ppa := i_ppa in
      let i_ppa := inc_page i_ppa in
      let s := set_config (set_last_selected i_ppa (ftl_config s)) s in
      let s := set_last_searched i_ppa s in
      Ok (Some new_ppa, set_lpp (<[plane_of i_ppa := i_ppa]> (last_page_per_plane s)) s)
    else Ok (None, set_last_searched i_ppa s)
  else Fault FBounds.

(** [get_free_ppa] repeats the search until it succeeds. *)
Fixpoint get_free_ppa (fuel : nat) (s : ftl) : outcome (ppa * ftl) :=
  match fuel with
  | O => Fault FFuel
  | S fuel' =>
      let! '(r, s) := find_free_page s in
      match r with Some p => Ok (p, s) | None => get_free_ppa fuel' s end
  end.

Definition make_new_mapping (fuel : nat) (lpn : Z) (s : ftl) : outcome (ppa * ftl) :=
  let! '(new_ppa, s) := get_free_ppa fuel s in
  let! unmapped := IS_UNMAPPED_LPA lpn s in
  if unmapped then
    let! s := MAP_LPA_AND_PPA lpn new_ppa s in
    let! s := INC_VALID_PAGES new_ppa s in
    let c := ftl_config s in
    let c := set_totals (total_invalid_pages c) (u32 (total_valid_pages c + 1))
               (u32 (total_free_pages c - 1)) c in
    Ok (new_ppa, set_config c s)
  else
    let! current_mapped_ppa := GET_MAPPED_PPA lpn s in
    let! s := SET_INVALID_PPA current_mapped_ppa s in
    let! s := INC_INVALID_PAGES current_mapped_ppa s in
    let! s := DEC_VALID_PAGES current_mapped_ppa s in
    let! s := MAP_LPA_AND_PPA lpn new_ppa s in
    let! s := INC_VALID_PAGES new_ppa s in
    let c := ftl_config s in
    let c := set_totals (u32 (total_invalid_pages c + 1)) (total_valid_pages c)
               (u32 (total_free_pages c - 1)) c in
    Ok (new_ppa, set_config c s).

(** ** A new flash medium *)

Definition zseq (n : Z) : list Z := map Z.of_nat (seq 0 (Z.to_nat n)).

(** The three nested loops that reset [last_page_per_plane]; [resv] is not written. *)
Definition reset_plane (k : plane_key) (t : plane_key -> ppa) : plane_key -> ppa :=
  let '(c, d, l) := k in <[k := Ppa 0 0 l d c (resv (t k))]> t.

Definition reset_planes (t : plane_key -> ppa) : plane_key -> ppa :=
  fold_left (fun t c =>
    fold_left (fun t d =>
      fold_left (fun t l => reset_plane (c, d, l) t) (zseq (PLANES_PER_DIE g)) t)
      (zseq (DIES_PER_CHANNEL g)) t)
    (zseq (NUM_CHANNELS g)) t.

(** [initialize_ftl] on a medium without tables; [tables_len] is the length of
    the linker's section of mapping tables. *)
Definition new_media (tables_len : Z) (s : ftl) : outcome ftl :=
  let first_page := Ppa 0 0 0 0 0 0 in
  let s := set_lpp (reset_planes (last_page_per_plane s)) s in
  let total := TOTAL_NUM_OF_PAGES g in
  let ovp := u32 (total / 100 * OVP g) in
  let maps := u32 (tables_len / NAND_PAGE_SIZE g + 1) in
  let rpp := u32 (ovp + maps) in
  let logical := u32 (Z.shiftl (u32 (total - rpp)) (HOST_2_NAND_DS g)) in
  let c := ftl_config s in
  let c := FtlConfig (NAND_DS g) (HOST_DS g) (PAGES_PER_BLOCK g) total ovp maps rpp logical
             (total_invalid_pages c) (total_valid_pages c) (total_free_pages c)
             (last_selected_ppa c) (mapping_tables c) in
  let s := set_config c s in
  let! s := SET_RESERVED_PPA first_page s in
  let! s := INC_VALID_PAGES first_page s in
  let s := set_config (set_totals 0 1 (u32 (total - 1)) (ftl_config s)) s in
  let first_page := inc_page first_page in
  let s := set_config (set_last_selected first_page (ftl_config s)) s in
  if plane_in g (chn first_page) (die first_page) (plane first_page) then
    Ok (set_lpp (<[plane_of first_page := first_page]> (last_page_per_plane s)) s)
  else Fault FBounds.

(** The last statement of [initialize_ftl]. *)
Definition start_search (s : ftl) : ftl := set_last_searched (last_selected_ppa (ftl_config s)) s.

End tables.

(** The tables as [gen_mapping_table_arrays.cpp] and the C start-up leave them:
    every logical page unmapped, every physical page free, all else zero. *)
Definition ftl_config0 : ftl_config_t :=
  FtlConfig 0 0 0 0 0 0 0 0 0 0 0 (Ppa 0 0 0 0 0 0) (replicate 1224 (Ppa 0 0 0 0 0 0)).

Definition ftl0 : ftl :=
  Ftl (fun _ => ppa_path 0x00FF000000000000) (fun _ => FREE_PPA) (fun _ => BlockMeta 0 0 0)
    (fun _ => Ppa 0 0 0 0 0 0) (Ppa 0 0 0 0 0 0) ftl_config0.
