(* ===== verification/FtlInv.v ===== *)
(** The page-mapping FTL is correct: the invariant of its tables, the order in
    which it hands out pages, what a new mapping does, and how much a medium
    can hold before the search leaves the tables. *)

From Stdlib Require Import ZArith Lia Bool List.
From stdpp Require Import base tactics option list functions.
From S2P Require Import Prelude CTypes Geom Ftl.

(** ** Counting the pages of a block *)

(** How many [i < n] satisfy [f]. *)
Fixpoint count (n : nat) (f : Z -> bool) : Z :=
  match n with O => 0 | S n' => count n' f + Z.b2z (f (Z.of_nat n')) end.

Lemma count_ext n f h : (forall i, 0 <= i < Z.of_nat n -> f i = h i) -> count n f = count n h.
Proof.
  induction n as [|n IH]; intros E; cbn [count]; [done|].
  rewrite IH by (intros; apply E; lia). rewrite E by lia. done.
Qed.

Lemma count_range n f : 0 <= count n f <= Z.of_nat n.
Proof. induction n as [|n IH]; cbn [count]; [lia|]. destruct (f _); cbn [Z.b2z]; lia. Qed.

Lemma count_upd n f h i :
  0 <= i < Z.of_nat n -> (forall j, 0 <= j < Z.of_nat n -> j <> i -> h j = f j) ->
  count n h = count n f - Z.b2z (f i) + Z.b2z (h i).
Proof.
  induction n as [|n IH]; intros Hi E; [lia|]. cbn [count].
  destruct (Z.eq_dec i (Z.of_nat n)) as [->|Hne].
  - rewrite (count_ext n h f); [lia|]. intros j Hj. apply E; lia.
  - rewrite IH; [|lia|intros; apply E; lia]. rewrite (E (Z.of_nat n)) by lia. lia.
Qed.

Section inv.
Context (g : geom) (Hg : geom_ok g).

Abbreviation P := (TOTAL_NUM_OF_PLANES g).
Abbreviation PPP := (PAGES_PER_PLANE g).
Abbreviation TOTAL := (TOTAL_NUM_OF_PAGES g).

(** The number of a physical page: pages are handed out in this order. *)
Definition page_no (p : ppa) : Z := slot_of g p + P * offset_of g p.

Definition nth_page (k : Z) : ppa := page_at g (k mod P) (k / P).

(** How far plane [j] is filled once the first [k] pages are handed out. *)
Definition frontier (k j : Z) : Z := (k + P - 1 - j) / P.

Definition mapped_value (v : Z) : bool := negb (v =? FREE_PPA) && negb (v =? INVALID_PPA).

(** The tables after [k] pages have been handed out. *)
Record map_inv (k : Z) (s : ftl) : Prop := MapInv {
  mi_range : 1 <= k <= TOTAL;
  mi_last : plane_in g (chn (last_searched_channel s)) (die (last_searched_channel s))
              (plane (last_searched_channel s)) = true /\
            slot_of g (last_searched_channel s) = (k - 1) mod P;
  mi_frontier : forall c d l, plane_in g c d l = true ->
    let q := last_page_per_plane s (c, d, l) in
    chn q = c /\ die q = d /\ plane q = l /\ resv q = 0 /\
    0 <= block q < BLOCKS_PER_PLANE g /\ 0 <= page q <= PAGES_PER_BLOCK g /\
    offset_of g q = frontier k (slot g c d l);
  mi_free : forall p, ppa_in g p = true ->
    (ppa_table s (key_of p) = FREE_PPA <-> k <= page_no p);
  mi_lpa : forall lpn, 0 <= lpn < TOTAL -> chn (lpa_table s lpn) <> 255 ->
    ppa_in g (lpa_table s lpn) = true /\ ppa_table s (key_of (lpa_table s lpn)) = lpn;
  mi_ppa : forall p, ppa_in g p = true ->
    ppa_table s (key_of p) = FREE_PPA \/ ppa_table s (key_of p) = INVALID_PPA \/
    ppa_table s (key_of p) = RESERVED_PPA \/
    (0 <= ppa_table s (key_of p) < TOTAL /\
     chn (lpa_table s (ppa_table s (key_of p))) <> 255 /\
     key_of (lpa_table s (ppa_table s (key_of p))) = key_of p) }.

Definition block_key (p : ppa) (i : Z) : page_key := (chn p, die p, plane p, block p, i).

(** The number of pages of a block whose table entry satisfies [f]. *)
Definition count_block (f : Z -> bool) (t : page_key -> Z) (p : ppa) : Z :=
  count (Z.to_nat (PAGES_PER_BLOCK g)) (fun i => f (t (block_key p i))).

Definition blk_counts (t : page_key -> Z) (b : blk_key -> block_meta) : Prop :=
  forall p, blk_in g p = true ->
    valid_pgs (b (blk_of p)) = count_block mapped_value t p /\
    invalid_pgs (b (blk_of p)) = count_block (fun v => v =? INVALID_PPA) t p.

(** The counters of the blocks and of the configuration. *)
Record count_inv (k : Z) (s : ftl) : Prop := CountInv {
  ci_blocks : blk_counts (ppa_table s) (blk_table s);
  ci_totals : total_free_pages (ftl_config s) = TOTAL - k /\
    total_valid_pages (ftl_config s) + total_invalid_pages (ftl_config s) = k /\
    0 <= total_invalid_pages (ftl_config s) /\ 0 <= total_valid_pages (ftl_config s) }.

(** ** Numbering *)

Lemma dims : 0 < P /\ 0 < PPP /\ 0 < BLOCKS_PER_PLANE g < 65535 /\ 0 < PAGES_PER_BLOCK g <= 256 /\
  TOTAL = P * PPP /\ PPP = BLOCKS_PER_PLANE g * PAGES_PER_BLOCK g /\ TOTAL <= 2 ^ 30.
Proof using Hg.
  destruct (geom_pos g Hg) as (? & ? & ? & ? & ? & ? & ?).
  destruct Hg as (? & ? & ? & ? & ? & ? & ? & ?).
  split_and!; try done; try (unfold BLOCKS_PER_PLANE, PAGES_PER_BLOCK; lia). apply pages_product.
Qed.

Lemma page_no_range p : ppa_in g p = true -> 0 <= page_no p < TOTAL.
Proof using Hg.
  intros Hp. pose proof (offset_range g p Hp). pose proof Hp as Hp'. rewrite ppa_in_spec in Hp'.
  destruct Hp' as (Hpl & _). pose proof (slot_range g _ _ _ Hpl).
  destruct dims as (? & ? & _ & _ & -> & _). unfold page_no, slot_of. nia.
Qed.

Lemma page_no_split p :
  ppa_in g p = true -> page_no p mod P = slot_of g p /\ page_no p / P = offset_of g p.
Proof using Hg.
  intros Hp. rewrite ppa_in_spec in Hp. destruct Hp as (Hpl & _).
  pose proof (slot_range g _ _ _ Hpl) as Hr. change (slot g _ _ _) with (slot_of g p) in Hr.
  unfold page_no. rewrite (Z.mul_comm P), Z_mod_plus_full, Z.mod_small, Z.div_add, Z.div_small by lia. lia.
Qed.

Lemma page_no_inj p q :
  ppa_in g p = true -> ppa_in g q = true -> page_no p = page_no q -> key_of p = key_of q.
Proof using Hg.
  intros Hp Hq E. destruct (page_no_split p Hp), (page_no_split q Hq).
  apply (key_inj g); congruence.
Qed.

Lemma page_no_key p q :
  key_of p = key_of q -> page_no p = page_no q.
Proof.
  unfold key_of, page_no, slot_of, offset_of. intros E. by simplify_eq/=; congruence.
Qed.

Lemma nth_page_in k :
  0 <= k < TOTAL -> ppa_in g (nth_page k) = true /\ page_no (nth_page k) = k.
Proof using Hg.
  destruct dims as (? & ? & _ & _ & -> & _). intros Hk.
  destruct (page_at_in g Hg (k mod P) (k / P)) as (Hin & Es & Eo).
  - apply Z.mod_pos_bound. lia.
  - split; [apply Z.div_pos; lia|apply Z.div_lt_upper_bound; lia].
  - split; [done|]. unfold page_no, nth_page. rewrite Es, Eo.
    rewrite Z.add_comm. symmetry. apply Z_div_mod_eq_full.
Qed.

(** The plane searched next is the next plane in the numbering. *)
Lemma next_plane_slot p :
  plane_in g (chn p) (die p) (plane p) = true ->
  let '(c, d, l) := next_plane_of g p in
  plane_in g c d l = true /\ slot g c d l = (slot_of g p + 1) mod P.
Proof using Hg.
  intros Hp. pose proof (slot_range g _ _ _ Hp) as Hr.
  pose proof (geom_pos g Hg) as (? & ? & ? & _). rewrite plane_in_spec in Hp.
  unfold next_plane_of, slot_of. rewrite planes_product in *. unfold slot in *.
  set (C := NUM_CHANNELS g) in *. set (D := DIES_PER_CHANNEL g) in *. set (L := PLANES_PER_DIE g) in *.
  destruct (Z.leb_spec C (chn p + 1)); [destruct (Z.leb_spec D (die p + 1));
    [destruct (Z.leb_spec L (plane p + 1))|]|]; rewrite plane_in_spec.
  - split; [lia|]. assert (chn p = C - 1) as -> by lia. assert (die p = D - 1) as -> by lia.
    assert (plane p = L - 1) as -> by lia.
    replace (C - 1 + C * (D - 1 + D * (L - 1)) + 1) with (C * (D * L)) by ring.
    rewrite Z.mod_same by nia. lia.
  - split; [lia|]. assert (chn p = C - 1) as -> by lia. assert (die p = D - 1) as -> by lia.
    rewrite Z.mod_small; [ring|].
    assert (D * (plane p + 1) < D * L) by nia.
    replace (C - 1 + C * (D - 1 + D * plane p) + 1) with (C * (D * (plane p + 1))) by ring. nia.
  - split; [lia|]. assert (chn p = C - 1) as -> by lia.
    rewrite Z.mod_small; [ring|].
    replace (C - 1 + C * (die p + D * plane p) + 1) with (C * (die p + 1 + D * plane p)) by ring.
    assert (die p + 1 + D * plane p < D * L) by nia. nia.
  - split; [lia|]. rewrite Z.mod_small; [ring|].
    assert (die p + D * plane p <= D * L - 1) by nia. nia.
Qed.

Lemma frontier_at k : 0 <= k -> frontier k (k mod P) = k / P.
Proof using Hg.
  intros Hk. destruct dims as (HP & _). unfold frontier.
  pose proof (Z_div_mod_eq_full k P) as E.
  replace (k + P - 1 - k mod P) with (P - 1 + (k / P) * P) by lia.
  rewrite Z.div_add, Z.div_small by lia. lia.
Qed.

Lemma frontier_succ k j :
  0 <= k -> 0 <= j < P ->
  frontier (k + 1) j = if j =? k mod P then k / P + 1 else frontier k j.
Proof using Hg.
  intros Hk Hj. destruct dims as (HP & _). pose proof (Z_div_mod_eq_full k P) as E.
  pose proof (Z.mod_pos_bound k P HP) as Hm. unfold frontier.
  set (q := k / P) in *. set (r := k mod P) in *.
  destruct (Z.eqb_spec j r) as [->|Hne].
  - replace (k + 1 + P - 1 - r) with (0 + (q + 1) * P) by lia. rewrite Z.div_add by lia. done.
  - destruct (Z.lt_ge_cases j r).
    + replace (k + 1 + P - 1 - j) with (r - j + (q + 1) * P) by lia.
      replace (k + P - 1 - j) with (r - j - 1 + (q + 1) * P) by lia.
      rewrite !Z.div_add, !Z.div_small by lia. done.
    + replace (k + 1 + P - 1 - j) with (r + P - j + q * P) by lia.
      replace (k + P - 1 - j) with (r + P - j - 1 + q * P) by lia.
      rewrite !Z.div_add, !Z.div_small by lia. done.
Qed.

(** ** The search *)

Lemma ppa_ext p q : key_of p = key_of q -> resv p = resv q -> p = q.
Proof. destruct p, q. unfold key_of; simpl. intros; simplify_eq. done. Qed.

(** The entry of a plane that holds [o] pages, with room for one more, is page
    [o] of the plane, or the end of the block before it. *)
Lemma frontier_ppa q j o :
  plane_in g (chn q) (die q) (plane q) = true -> slot_of g q = j -> resv q = 0 ->
  0 <= block q < BLOCKS_PER_PLANE g -> 0 <= page q <= PAGES_PER_BLOCK g ->
  offset_of g q = o -> o < PPP ->
  if page q <? PAGES_PER_BLOCK g then q = page_at g j o
  else next_block g q = page_at g j o /\ 2 <= BLOCKS_PER_PLANE g.
Proof using Hg.
  intros Hp Hs Hr Hb Hpg Ho Hlt. destruct dims as (? & ? & ? & ? & _ & HPP & _).
  pose proof (slot_range g _ _ _ Hp) as Hsr. change (slot g _ _ _) with (slot_of g q) in Hsr.
  assert (Hin : 0 <= o < PPP) by (unfold offset_of in Ho; nia).
  destruct (page_at_in g Hg j o) as (Hin' & Es & Eo); [lia|done|].
  case_if; zify_bools.
  - apply ppa_ext; [|by rewrite Hr]. apply (key_inj g); [|done|congruence|congruence].
    rewrite ppa_in_spec. split_and!; try done; lia.
  - assert (page q = PAGES_PER_BLOCK g) as Ep by lia. unfold offset_of in Ho.
    assert (block q + 1 < BLOCKS_PER_PLANE g) by nia. split; [|lia].
    assert (Hnb : next_block g q = Ppa 0 (block q + 1) (plane q) (die q) (chn q) 0).
    { unfold next_block. rewrite u16_id by lia. zb. by rewrite Hr. }
    apply ppa_ext; [|by rewrite Hnb]. rewrite Hnb.
    apply (key_inj g); [|done|rewrite Es, <- Hs; done|].
    + rewrite ppa_in_spec; cbn [chn die plane block page]. split_and!; try done; lia.
    + rewrite Eo, <- Ho. unfold offset_of; cbn [block page]. lia.
Qed.

Lemma scan_pages_free fuel q s :
  ppa_in g q = true -> ppa_table s (key_of q) = FREE_PPA -> (0 < fuel)%nat ->
  scan_pages g fuel q s = Ok (true, q).
Proof.
  intros Hin Hf Hn. destruct fuel as [|fuel]; [lia|]. cbn [scan_pages].
  pose proof Hin as Hin'. rewrite ppa_in_spec in Hin'. zb.
  unfold IS_FREE_PPA, GET_MAPPED_LPA. rewrite Hin. cbn [obind]. by rewrite Hf.
Qed.

Lemma scan_pages_end fuel q s :
  PAGES_PER_BLOCK g <= page q -> scan_pages g fuel q s = Ok (false, q).
Proof. intros H. destruct fuel; cbn [scan_pages]; by zb. Qed.

(** The state once [nth_page k] has been found. *)
Definition found_state (k : Z) (s : ftl) : ftl :=
  let i := inc_page (nth_page k) in
  let s := set_config (set_last_selected i (ftl_config s)) s in
  let s := set_last_searched i s in
  set_lpp (<[plane_of i := i]> (last_page_per_plane s)) s.

(** The plane to search and its entry, in a state of the invariant. *)
Lemma next_entry k s :
  map_inv k s -> exists c d l,
    next_plane_of g (last_searched_channel s) = (c, d, l) /\ plane_in g c d l = true /\
    slot g c d l = k mod P /\
    let q := last_page_per_plane s (c, d, l) in
    plane_in g (chn q) (die q) (plane q) = true /\ slot_of g q = k mod P /\ resv q = 0 /\
    0 <= block q < BLOCKS_PER_PLANE g /\ 0 <= page q <= PAGES_PER_BLOCK g /\
    offset_of g q = k / P.
Proof using Hg.
  intros Hi. destruct (mi_last _ _ Hi) as (Hp & Hs). pose proof (mi_range _ _ Hi) as Hk.
  pose proof (next_plane_slot _ Hp) as Hn.
  destruct (next_plane_of g (last_searched_channel s)) as [[c d] l] eqn:En.
  destruct Hn as (Hin & Hsl). destruct dims as (HP & _).
  assert (Hsl' : slot g c d l = k mod P).
  { rewrite Hsl, Hs, Z.add_mod_idemp_l by lia. f_equal. lia. }
  exists c, d, l. destruct (mi_frontier _ _ Hi c d l Hin) as (E1 & E2 & E3 & E4 & E5 & E6 & E7).
  cbv zeta. unfold slot_of. rewrite E1, E2, E3. split_and!; try done; try lia.
  rewrite E7, Hsl'. apply frontier_at. lia.
Qed.

Lemma find_free_page_ok k s :
  map_inv k s -> k < TOTAL -> find_free_page g s = Ok (Some (nth_page k), found_state k s).
Proof using Hg.
  intros Hi Hk. pose proof (mi_range _ _ Hi) as Hk1. destruct dims as (? & ? & ? & ? & HT & _).
  destruct (next_entry k s Hi) as (c & d & l & En & Hin & Hsl & Hq1 & Hq2 & Hq3 & Hq4 & Hq5 & Hq6).
  unfold find_free_page. rewrite En, Hin. set (q := last_page_per_plane s (c, d, l)) in *.
  assert (k / P < PPP) by (apply Z.div_lt_upper_bound; lia).
  pose proof (frontier_ppa q _ _ Hq1 Hq2 Hq3 Hq4 Hq5 Hq6 ltac:(done)) as Hf.
  fold (nth_page k) in Hf. destruct (nth_page_in k ltac:(lia)) as (Hnin & Hno).
  assert (Hfree : ppa_table s (key_of (nth_page k)) = FREE_PPA)
    by (apply (mi_free _ _ Hi); [done|lia]).
  assert (Hscan : scan_blocks g (Z.to_nat (BLOCKS_PER_PLANE g)) q s = Ok (true, nth_page k)).
  { destruct (Z.ltb_spec (page q) (PAGES_PER_BLOCK g)) as [Hlt|Hge].
    - destruct (Z.to_nat (BLOCKS_PER_PLANE g)) as [|n] eqn:Eb; [lia|]. cbn [scan_blocks].
      rewrite Hf, scan_pages_free by (done || lia). done.
    - destruct Hf as [Hf Hb2].
      destruct (Z.to_nat (BLOCKS_PER_PLANE g)) as [|[|n]] eqn:Eb; [lia|lia|]. cbn [scan_blocks].
      rewrite scan_pages_end by lia. cbn [obind].
      rewrite Hf, scan_pages_free by (done || lia). done. }
  rewrite Hscan. done.
Qed.

(** Once the plane whose turn it is is full, the search runs into block number
    [BLOCKS_PER_PLANE], outside the table: the test for the last block is [>]
    where [>=] is meant. *)
Lemma find_free_page_overrun s :
  map_inv TOTAL s -> 1 < BLOCKS_PER_PLANE g -> find_free_page g s = Fault FBounds.
Proof using Hg.
  intros Hi Hb. destruct dims as (? & ? & ? & ? & HT & HPP & _).
  destruct (next_entry TOTAL s Hi) as (c & d & l & En & Hin & Hsl & Hq1 & Hq2 & Hq3 & Hq4 & Hq5 & Hq6).
  unfold find_free_page. rewrite En, Hin. set (q := last_page_per_plane s (c, d, l)) in *.
  rewrite HT, Z.mul_comm, Z.div_mul, HPP in Hq6 by lia. unfold offset_of in Hq6.
  assert (page q = PAGES_PER_BLOCK g) by nia. assert (block q = BLOCKS_PER_PLANE g - 1) by nia.
  destruct (Z.to_nat (BLOCKS_PER_PLANE g)) as [|[|n]] eqn:Eb; [lia|lia|]. cbn [scan_blocks].
  rewrite scan_pages_end by lia. cbn [obind].
  destruct (Z.to_nat (PAGES_PER_BLOCK g)) as [|f] eqn:Ef; [lia|]. cbn [scan_pages].
  unfold next_block; cbn [page]. zb. unfold IS_FREE_PPA, GET_MAPPED_LPA, ppa_in, blk_in.
  cbn [chn die plane block page]. rewrite u16_id by lia. zb. unfold in_range at 1. zb.
  rewrite andb_false_r. done.
Qed.

(** ** Handing out a page *)

Lemma inc_page_next p :
  ppa_in g p = true ->
  chn (inc_page p) = chn p /\ die (inc_page p) = die p /\ plane (inc_page p) = plane p /\
  block (inc_page p) = block p /\ page (inc_page p) = page p + 1 /\ resv (inc_page p) = resv p.
Proof using Hg.
  rewrite ppa_in_spec. intros (_ & _ & ?). destruct dims as (_ & _ & _ & ? & _).
  unfold inc_page; cbn. rewrite u16_id by lia. done.
Qed.

(** One page further: whatever the page's new owner is, as long as the tables
    stay inverse to each other and no other page becomes free or stops being free. *)
Lemma map_inv_step k s s' :
  map_inv k s -> k < TOTAL ->
  last_searched_channel s' = inc_page (nth_page k) ->
  last_page_per_plane s' =
    <[plane_of (inc_page (nth_page k)) := inc_page (nth_page k)]> (last_page_per_plane s) ->
  ppa_table s' (key_of (nth_page k)) <> FREE_PPA ->
  (forall p, ppa_in g p = true -> key_of p <> key_of (nth_page k) ->
     ppa_table s' (key_of p) = FREE_PPA <-> ppa_table s (key_of p) = FREE_PPA) ->
  (forall lpn, 0 <= lpn < TOTAL -> chn (lpa_table s' lpn) <> 255 ->
     ppa_in g (lpa_table s' lpn) = true /\ ppa_table s' (key_of (lpa_table s' lpn)) = lpn) ->
  (forall p, ppa_in g p = true ->
    ppa_table s' (key_of p) = FREE_PPA \/ ppa_table s' (key_of p) = INVALID_PPA \/
    ppa_table s' (key_of p) = RESERVED_PPA \/
    (0 <= ppa_table s' (key_of p) < TOTAL /\
     chn (lpa_table s' (ppa_table s' (key_of p))) <> 255 /\
     key_of (lpa_table s' (ppa_table s' (key_of p))) = key_of p)) ->
  map_inv (k + 1) s'.
Proof using Hg.
  intros Hi Hk Hl Hlp Hnf Hfr Hlpa Hppa. pose proof (mi_range _ _ Hi) as Hr.
  destruct (nth_page_in k ltac:(lia)) as (Hin & Hno).
  destruct (page_no_split _ Hin) as (Es & Eo). rewrite Hno in Es, Eo.
  destruct (inc_page_next _ Hin) as (Ic & Id & Il & Ib & Ip & Ir).
  pose proof Hin as Hin'. rewrite ppa_in_spec in Hin'. destruct Hin' as (Hpl & Hb & Hp).
  destruct dims as (HP & _). split; auto.
  - lia.
  - rewrite Hl. unfold slot_of. rewrite Ic, Id, Il. split; [done|].
    change (slot g _ _ _) with (slot_of g (nth_page k)). rewrite <- Es. f_equal. lia.
  - intros c d l Hcdl. cbv zeta. rewrite Hlp.
    pose proof (slot_range g _ _ _ Hcdl) as Hsr. rewrite frontier_succ by lia.
    unfold plane_of. rewrite Ic, Id, Il.
    destruct (decide ((chn (nth_page k), die (nth_page k), plane (nth_page k)) = (c, d, l))) as [E|E].
    + rewrite E, fn_lookup_insert. simplify_eq.
      change (slot g _ _ _) with (slot_of g (nth_page k)). rewrite Es, Z.eqb_refl.
      rewrite Ic, Id, Il, Ir, Ib, Ip. split_and!; try done; try lia.
      unfold offset_of in *. rewrite Ib, Ip. lia.
    + rewrite fn_lookup_insert_ne by done.
      destruct (Z.eqb_spec (slot g c d l) (k mod P)) as [E2|E2].
      * destruct E. apply (slot_inj g); [done|done|]. by rewrite E2.
      * by apply (mi_frontier _ _ Hi).
  - intros p Hpin. destruct (decide (key_of p = key_of (nth_page k))) as [E|E].
    + rewrite E, (page_no_key _ _ E), Hno. split; [done|lia].
    + rewrite (Hfr p Hpin E), (mi_free _ _ Hi p Hpin).
      assert (page_no p <> k); [|lia]. intros E2. apply E. apply page_no_inj; congruence.
Qed.

(** Rewriting one entry of the page table and the counters of its block. *)
Lemma count_block_upd f t n v p :
  ppa_in g n = true ->
  count_block f (<[key_of n := v]> t) p =
    count_block f t p +
    if bool_decide (blk_of p = blk_of n) then Z.b2z (f v) - Z.b2z (f (t (key_of n))) else 0.
Proof using Hg.
  intros Hn. rewrite ppa_in_spec in Hn. destruct Hn as (_ & _ & Hn). unfold count_block.
  case_bool_decide as E.
  - assert (Ek : block_key p (page n) = key_of n).
    { unfold block_key, key_of, blk_of in *. congruence. }
    rewrite (count_upd _ (fun i => f (t (block_key p i))) _ (page n)) by
      first [ lia | intros j Hj Hne; rewrite fn_lookup_insert_ne; [done|];
       rewrite <- Ek; unfold block_key; congruence ].
    rewrite Ek, fn_lookup_insert. lia.
  - rewrite Z.add_0_r. apply count_ext. intros i Hi. rewrite fn_lookup_insert_ne; [done|].
    intros Ek. apply E. unfold block_key, key_of, blk_of in *. congruence.
Qed.

Lemma blk_counts_upd t b n v m :
  blk_counts t b -> ppa_in g n = true ->
  valid_pgs m = valid_pgs (b (blk_of n)) + (Z.b2z (mapped_value v) - Z.b2z (mapped_value (t (key_of n)))) ->
  invalid_pgs m = invalid_pgs (b (blk_of n)) + (Z.b2z (v =? INVALID_PPA) - Z.b2z (t (key_of n) =? INVALID_PPA)) ->
  blk_counts (<[key_of n := v]> t) (<[blk_of n := m]> b).
Proof using Hg.
  intros Hc Hn Hv Hi p Hp. rewrite !(count_block_upd _ _ n) by done.
  destruct (Hc p Hp) as (Ev & Ei). case_bool_decide as E.
  - rewrite E, fn_lookup_insert, Hv, Hi, <- Ev, <- Ei, E. done.
  - rewrite fn_lookup_insert_ne by done. lia.
Qed.

Lemma blk_counts_range t b n :
  blk_counts t b -> blk_in g n = true ->
  0 <= valid_pgs (b (blk_of n)) <= 256 /\ 0 <= invalid_pgs (b (blk_of n)) <= 256.
Proof using Hg.
  intros Hc Hn. destruct (Hc n Hn) as (-> & ->). destruct dims as (_ & _ & _ & ? & _).
  unfold count_block.
  pose proof (count_range (Z.to_nat (PAGES_PER_BLOCK g)) (fun i => mapped_value (t (block_key n i)))).
  pose proof (count_range (Z.to_nat (PAGES_PER_BLOCK g)) (fun i => t (block_key n i) =? INVALID_PPA)).
  lia.
Qed.

Lemma ppa_in_blk p : ppa_in g p = true -> blk_in g p = true.
Proof. unfold ppa_in. rewrite andb_true_iff. tauto. Qed.

Lemma blk_counts_ext t b b' : (forall j, b' j = b j) -> blk_counts t b -> blk_counts t b'.
Proof. intros E Hc p Hp. rewrite E. by apply Hc. Qed.

(** A block with an entry satisfying [f] counts at least one. *)
Lemma count_pos n f i : 0 <= i < Z.of_nat n -> f i = true -> 0 < count n f.
Proof.
  intros Hi Hf. pose proof (count_upd n f (fun j => if j =? i then false else f j) i Hi) as E.
  cbv beta in E. rewrite Z.eqb_refl, Hf in E.
  pose proof (count_range n (fun j => if j =? i then false else f j)).
  enough (count n (fun j => if j =? i then false else f j) = count n f - 1) by lia.
  rewrite E; [simpl; lia|]. intros j Hj Hne. by destruct (Z.eqb_spec j i).
Qed.

(** ** A new mapping *)

Lemma get_free_ppa_ok fuel k s :
  map_inv k s -> k < TOTAL -> get_free_ppa g (S fuel) s = Ok (nth_page k, found_state k s).
Proof using Hg. intros Hi Hk. cbn [get_free_ppa]. by rewrite (find_free_page_ok k s Hi Hk). Qed.

Lemma lpn_values lpn :
  0 <= lpn < TOTAL -> lpn <> FREE_PPA /\ mapped_value lpn = true /\ (lpn =? INVALID_PPA) = false.
Proof using Hg.
  intros H. destruct dims as (_ & _ & _ & _ & _ & _ & HT).
  unfold mapped_value, FREE_PPA, INVALID_PPA. zb. simpl. split_and!; [lia|done|done].
Qed.

Lemma map_lpa_and_ppa_ok lpn n s :
  0 <= lpn < TOTAL -> ppa_in g n = true ->
  MAP_LPA_AND_PPA g lpn n s =
    Ok (set_ppa_table (<[key_of n := lpn]> (ppa_table s)) (set_lpa (<[lpn := n]> (lpa_table s)) s)).
Proof.
  intros Hl Hn. unfold MAP_LPA_AND_PPA, SET_MAPPED_PPA, SET_MAPPED_LPA.
  apply in_range_true in Hl. rewrite Hl. cbn [obind]. by rewrite Hn.
Qed.

Lemma upd_blk_ok f n s :
  ppa_in g n = true ->
  upd_blk g f n s = Ok (set_blk (<[blk_of n := f (blk_table s (blk_of n))]> (blk_table s)) s).
Proof. intros Hn. unfold upd_blk. by rewrite (ppa_in_blk n Hn). Qed.

Section mapping.
Context (k lpn : Z) (s : ftl) (Hi : map_inv k s) (Hk : k < TOTAL) (Hl : 0 <= lpn < TOTAL).
Abbreviation n := (nth_page k) (only parsing).
Abbreviation old := (lpa_table s lpn) (only parsing).

Lemma new_page_free : ppa_in g n = true /\ ppa_table s (key_of n) = FREE_PPA.
Proof using Hg Hi Hk.
  destruct (nth_page_in k) as (Hin & Hno); [pose proof (mi_range _ _ Hi); lia|].
  split; [done|]. apply (mi_free _ _ Hi); [done|lia].
Qed.

Lemma old_page_mapped :
  chn old <> 255 -> ppa_in g old = true /\ ppa_table s (key_of old) = lpn /\ key_of old <> key_of n.
Proof using Hg Hi Hk Hl.
  intros Hc. destruct (mi_lpa _ _ Hi lpn Hl Hc) as (Hin & Ho). split; [done|]. split; [done|].
  intros E. destruct new_page_free as (_ & Hf). rewrite <- E, Ho in Hf.
  by destruct (lpn_values lpn Hl).
Qed.

(** The tables after the mapping, and that they satisfy the invariant again. *)
Definition mapped_tables (s' : ftl) : Prop :=
  lpa_table s' = <[lpn := n]> (lpa_table s) /\
  ppa_table s' = <[key_of n := lpn]>
    (if chn old =? 255 then ppa_table s else <[key_of old := INVALID_PPA]> (ppa_table s)) /\
  last_searched_channel s' = inc_page n /\
  last_page_per_plane s' = <[plane_of (inc_page n) := inc_page n]> (last_page_per_plane s).

Lemma mapped_tables_get s' p :
  mapped_tables s' -> ppa_in g p = true ->
  ppa_table s' (key_of p) =
    if bool_decide (key_of p = key_of n) then lpn
    else if negb (chn old =? 255) && bool_decide (key_of p = key_of old) then INVALID_PPA
    else ppa_table s (key_of p).
Proof.
  intros (_ & -> & _) Hp. case_bool_decide as E; [by rewrite E, fn_lookup_insert|].
  rewrite fn_lookup_insert_ne by done. destruct (chn old =? 255); [done|]. simpl.
  case_bool_decide as E2; [by rewrite E2, fn_lookup_insert|by rewrite fn_lookup_insert_ne].
Qed.

Lemma mapped_tables_inv s' : mapped_tables s' -> map_inv (k + 1) s'.
Proof using Hg Hi Hk Hl.
  intros Hm. pose proof (mapped_tables_get s') as Hget.
  destruct Hm as (Hla & Hpa & Hls & Hlp). destruct new_page_free as (Hin & Hfree).
  destruct (lpn_values lpn Hl) as (Hv1 & Hv2 & Hv3).
  assert (Hm : mapped_tables s') by (split_and!; done).
  apply (map_inv_step k s s' Hi Hk Hls Hlp).
  - rewrite Hget by done. by rewrite bool_decide_true.
  - intros p Hp Hne. rewrite Hget by done. rewrite bool_decide_false by done.
    case_if; [|done]. zify_bools. apply bool_decide_eq_true in H0.
    destruct (old_page_mapped ltac:(done)) as (_ & Ho & _). rewrite H0, Ho. split; [done|].
    intros Ef. by rewrite Ef in Hv1.
  - intros l Hlr. rewrite Hla. destruct (Z.eq_dec lpn l) as [<-|Hne].
    + rewrite fn_lookup_insert. intros _. split; [done|]. rewrite Hget by done.
      by rewrite bool_decide_true.
    + rewrite fn_lookup_insert_ne by done. intros Hc.
      destruct (mi_lpa _ _ Hi l Hlr Hc) as (Hin' & Ho'). split; [done|]. rewrite Hget by done.
      case_bool_decide as E.
      { rewrite E, Hfree in Ho'. subst l. by destruct (lpn_values _ Hlr). }
      case_if; [|done]. zify_bools. apply bool_decide_eq_true in H0.
      destruct (old_page_mapped ltac:(done)) as (_ & Ho & _). congruence.
  - intros p Hp. rewrite Hget by done. rewrite Hla. case_bool_decide as E.
    + do 3 right. rewrite fn_lookup_insert. split; [done|]. split; [|done].
      pose proof Hin as Hin'. rewrite ppa_in_spec, plane_in_spec in Hin'.
      destruct Hg as (Hch & _). unfold NUM_CHANNELS in Hin'. lia.
    + case_if; [by right; left|].
      destruct (mi_ppa _ _ Hi p Hp) as [H|[H|[H|(H1 & H2 & H3)]]]; [by left|by right; left|by do 2 right; left|].
      do 3 right. split; [done|]. rewrite fn_lookup_insert_ne; [done|]. intros El.
      rewrite <- El in *. rewrite H3, bool_decide_true, andb_true_r in E0 by done.
      apply negb_false_iff in E0. zify_bools. done.
Qed.

(** The counters after the mapping. *)
Definition mapped_counts (s' : ftl) : Prop :=
  (forall j, blk_table s' j =
    (let b := if chn old =? 255 then blk_table s
              else <[blk_of old := add_valid (-1) (add_invalid 1 (blk_table s (blk_of old)))]> (blk_table s) in
     <[blk_of n := add_valid 1 (b (blk_of n))]> b) j) /\
  let c := ftl_config s in let c' := ftl_config s' in
  total_free_pages c' = u32 (total_free_pages c - 1) /\
  if chn old =? 255 then
    total_valid_pages c' = u32 (total_valid_pages c + 1) /\
    total_invalid_pages c' = total_invalid_pages c
  else
    total_valid_pages c' = total_valid_pages c /\
    total_invalid_pages c' = u32 (total_invalid_pages c + 1).

Lemma mapped_counts_blocks s' :
  mapped_tables s' -> mapped_counts s' -> blk_counts (ppa_table s) (blk_table s) ->
  blk_counts (ppa_table s') (blk_table s').
Proof using Hg Hi Hk Hl.
  intros (_ & -> & _) (Hb & _) Hc. refine (blk_counts_ext _ _ _ Hb _). clear Hb.
  destruct new_page_free as (Hin & Hfree).
  destruct (lpn_values lpn Hl) as (Hv1 & Hv2 & Hv3). cbv zeta.
  assert (Hfin : forall t b, blk_counts t b -> t (key_of n) = FREE_PPA ->
    blk_counts (<[key_of n := lpn]> t) (<[blk_of n := add_valid 1 (b (blk_of n))]> b)).
  { intros t b Htb Hf.
    assert (Hbig : blk_counts (<[key_of n := lpn]> t)
      (<[blk_of n := BlockMeta (invalid_pgs (b (blk_of n))) (valid_pgs (b (blk_of n)) + 1)
        (erase_count (b (blk_of n)))]> b)).
    { apply blk_counts_upd; [done|done|rewrite Hv2, Hf; done|rewrite Hv3, Hf; simpl; lia]. }
    pose proof (blk_counts_range _ _ n Hbig (ppa_in_blk n Hin)) as Hr.
    rewrite fn_lookup_insert in Hr. cbn [valid_pgs] in Hr.
    unfold add_valid. rewrite u16_id by lia. exact Hbig. }
  destruct (Z.eqb_spec (chn old) 255) as [Hu|Hu]; [by apply Hfin|].
  destruct (old_page_mapped Hu) as (Hoin & Ho & Hne).
  apply Hfin; [|by rewrite fn_lookup_insert_ne].
  assert (Hbig : blk_counts (<[key_of old := INVALID_PPA]> (ppa_table s))
    (<[blk_of old := BlockMeta (invalid_pgs (blk_table s (blk_of old)) + 1)
      (valid_pgs (blk_table s (blk_of old)) - 1) (erase_count (blk_table s (blk_of old)))]> (blk_table s))).
  { apply blk_counts_upd; [done|done|rewrite Ho, Hv2; simpl; lia|rewrite Ho, Hv3; done]. }
  pose proof (blk_counts_range _ _ old Hbig (ppa_in_blk _ Hoin)) as Hr.
  rewrite fn_lookup_insert in Hr. cbn [valid_pgs invalid_pgs] in Hr.
  unfold add_valid, add_invalid; cbn [valid_pgs invalid_pgs erase_count].
  rewrite !u16_id by lia. exact Hbig.
Qed.

Lemma mapped_counts_inv s' :
  mapped_tables s' -> mapped_counts s' -> count_inv k s -> count_inv (k + 1) s'.
Proof using Hg Hi Hk Hl.
  intros Hm Hc [Hb Ht]. split; [by apply mapped_counts_blocks|].
  destruct Hc as (_ & Hf & Hvi). destruct Ht as (T1 & T2 & T3 & T4).
  pose proof (mi_range _ _ Hi). destruct dims as (_ & _ & _ & _ & _ & _ & HT).
  rewrite Hf, u32_id by lia. split; [lia|].
  destruct (chn old =? 255); destruct Hvi as (-> & ->); rewrite u32_id by lia; lia.
Qed.

Lemma make_new_mapping_runs fuel :
  exists s', make_new_mapping g (S fuel) lpn s = Ok (n, s') /\ mapped_tables s' /\ mapped_counts s'.
Proof using Hg Hi Hk Hl.
  destruct new_page_free as (Hin & Hfree). pose proof Hl as Hl'. apply in_range_true in Hl'.
  unfold make_new_mapping. rewrite (get_free_ppa_ok fuel k s Hi Hk). cbn [obind].
  unfold IS_UNMAPPED_LPA, GET_MAPPED_PPA. rewrite Hl'. cbn [obind found_state lpa_table set_lpp
    set_last_searched set_config].
  unfold mapped_tables, mapped_counts. destruct (Z.eqb_spec (chn old) 255) as [Hu|Hu].
  - rewrite map_lpa_and_ppa_ok by done. cbn [obind]. unfold INC_VALID_PAGES.
    rewrite upd_blk_ok by done. cbn [obind]. eexists. split; [reflexivity|]. done.
  - destruct (old_page_mapped Hu) as (Hoin & Ho & Hne).
    unfold SET_INVALID_PPA, SET_MAPPED_LPA. rewrite Hoin. cbn [obind].
    unfold INC_INVALID_PAGES. rewrite upd_blk_ok by done. cbn [obind].
    unfold DEC_VALID_PAGES. rewrite upd_blk_ok by done. cbn [obind].
    rewrite map_lpa_and_ppa_ok by done. cbn [obind]. unfold INC_VALID_PAGES.
    rewrite upd_blk_ok by done. cbn [obind]. eexists. split; [reflexivity|].
    split; [done|]. split; [|done]. cbv zeta.
    cbn [set_config set_blk set_ppa_table set_lpa blk_table set_lpp set_last_searched].
    intros j. rewrite !fn_lookup_insert. unfold insert, fn_insert. by repeat case_decide.
Qed.

End mapping.

(** What the callers of [make_new_mapping] need. *)
Lemma make_new_mapping_ok k lpn s fuel :
  map_inv k s -> k < TOTAL -> 0 <= lpn < TOTAL ->
  exists s', make_new_mapping g (S fuel) lpn s = Ok (nth_page k, s') /\
    map_inv (k + 1) s' /\ (count_inv k s -> count_inv (k + 1) s') /\
    lpa_table s' = <[lpn := nth_page k]> (lpa_table s).
Proof using Hg.
  intros Hi Hk Hl. destruct (make_new_mapping_runs k lpn s Hi Hk Hl fuel) as (s' & E & Hm & Hc).
  exists s'. split; [done|]. split; [by apply (mapped_tables_inv k lpn s)|].
  split; [by apply (mapped_counts_inv k lpn s)|apply Hm].
Qed.

(** C6: while the medium has a free page, [make_new_mapping] returns the page
    whose turn it is, which was free; afterwards the logical page is mapped to
    it and to nothing else, its old physical page is marked invalid, every other
    logical and physical page keeps its entry, and both invariants (tables
    inverse to each other, allocation frontier, block and total counters) hold
    for one more page. *)
Theorem make_new_mapping_correct k lpn s fuel :
  map_inv k s -> k < TOTAL -> 0 <= lpn < TOTAL ->
  exists s', make_new_mapping g (S fuel) lpn s = Ok (nth_page k, s') /\
    map_inv (k + 1) s' /\ (count_inv k s -> count_inv (k + 1) s') /\
    ppa_table s (key_of (nth_page k)) = FREE_PPA /\
    lpa_table s' = <[lpn := nth_page k]> (lpa_table s) /\
    (forall p, ppa_in g p = true ->
       ppa_table s' (key_of p) =
         if bool_decide (key_of p = key_of (nth_page k)) then lpn
         else if negb (chn (lpa_table s lpn) =? 255) && bool_decide (key_of p = key_of (lpa_table s lpn))
              then INVALID_PPA
              else ppa_table s (key_of p)).
Proof using Hg.
  intros Hi Hk Hl. destruct (make_new_mapping_runs k lpn s Hi Hk Hl fuel) as (s' & E & Hm & Hc).
  exists s'. split; [done|]. split; [by apply (mapped_tables_inv k lpn s)|].
  split; [by apply (mapped_counts_inv k lpn s)|].
  destruct (new_page_free k s Hi Hk) as (_ & Hf). split; [done|]. split; [apply Hm|].
  intros p Hp. by apply mapped_tables_get.
Qed.

(** ** Filling a medium *)

(** One new mapping after the other. *)
Fixpoint map_all (lpns : list Z) (s : ftl) : outcome (list ppa * ftl) :=
  match lpns with
  | [] => Ok ([], s)
  | x :: r =>
      let! '(p, s) := make_new_mapping g 1 x s in
      let! '(ps, s) := map_all r s in
      Ok (p :: ps, s)
  end.

(** The logical table after the pages [k], [k + 1], ... went to [lpns]. *)
Fixpoint assign (k : Z) (lpns : list Z) (f : Z -> ppa) : Z -> ppa :=
  match lpns with [] => f | x :: r => assign (k + 1) r (<[x := nth_page k]> f) end.

Lemma map_all_ok k lpns s :
  map_inv k s -> count_inv k s -> Forall (fun x => 0 <= x < TOTAL) lpns ->
  k + Z.of_nat (length lpns) <= TOTAL ->
  exists s', map_all lpns s = Ok (map (fun i => nth_page (k + Z.of_nat i)) (seq 0 (length lpns)), s') /\
    map_inv (k + Z.of_nat (length lpns)) s' /\ count_inv (k + Z.of_nat (length lpns)) s' /\
    lpa_table s' = assign k lpns (lpa_table s).
Proof using Hg.
  intros Hi Hc Hall. revert k s Hi Hc. induction Hall as [|x r Hx _ IH]; intros k s Hi Hc Hlen.
  - exists s. simpl. rewrite Z.add_0_r. done.
  - cbn [length] in *. rewrite Nat2Z.inj_succ in *. unfold Z.succ in *.
    destruct (make_new_mapping_ok k x s 0 Hi ltac:(lia) Hx) as (s1 & E1 & Hi1 & Hc1 & Hl1).
    destruct (IH (k + 1) s1 Hi1 (Hc1 Hc) ltac:(lia)) as (s2 & E2 & Hi2 & Hc2 & Hl2).
    cbn [map_all]. rewrite E1. cbn [obind]. rewrite E2. cbn [obind]. exists s2.
    replace (k + (Z.of_nat (length r) + 1)) with (k + 1 + Z.of_nat (length r)) by lia.
    split_and!; [|done|done|by rewrite Hl2, Hl1]. cbn [seq map]. rewrite Z.add_0_r.
    rewrite <- seq_shift, map_map. do 3 f_equal. apply map_ext. intros i. f_equal. lia.
Qed.

(** ** A new medium *)

Lemma fold_flat_map {A B T} (f : T -> B -> T) (h : A -> list B) (l : list A) t :
  fold_left (fun t x => fold_left f (h x) t) l t = fold_left f (flat_map h l) t.
Proof.
  revert t. induction l as [|x l IH]; intros t; cbn [fold_left flat_map]; [done|].
  by rewrite IH, fold_left_app.
Qed.

Lemma elem_zseq n i : In i (zseq n) <-> 0 <= i < n.
Proof.
  unfold zseq. rewrite in_map_iff. split.
  - intros (j & <- & Hj). apply in_seq in Hj. lia.
  - intros Hi. exists (Z.to_nat i). split; [lia|]. apply in_seq. lia.
Qed.

Lemma fold_reset ks t k :
  fold_left (fun t k => reset_plane k t) ks t k =
    if decide (k ∈ ks) then let '(c, d, l) := k in Ppa 0 0 l d c (resv (t k)) else t k.
Proof.
  revert t. induction ks as [|k0 ks IH]; intros t; cbn [fold_left].
  - rewrite decide_False; [done|apply not_elem_of_nil].
  - rewrite IH. destruct (decide (k = k0)) as [<-|Hne].
    + rewrite (decide_True (P := k ∈ k :: ks)) by apply list_elem_of_here.
      destruct k as [[c d] l]. cbn [reset_plane]. rewrite fn_lookup_insert. by case_decide.
    + destruct k0 as [[c0 d0] l0]. cbn [reset_plane]. rewrite fn_lookup_insert_ne by done.
      destruct (decide (k ∈ ks)) as [H1|H1].
      * rewrite decide_True; [done|]. by apply list_elem_of_further.
      * rewrite decide_False; [done|]. by apply not_elem_of_cons.
Qed.

(** The three loops reach every plane. *)
Lemma reset_planes_get t c d l :
  plane_in g c d l = true -> reset_planes g t (c, d, l) = Ppa 0 0 l d c (resv (t (c, d, l))).
Proof.
  rewrite plane_in_spec. intros Hin. unfold reset_planes.
  set (keys := flat_map (fun c => flat_map (fun d => map (fun l => (c, d, l)) (zseq (PLANES_PER_DIE g)))
    (zseq (DIES_PER_CHANNEL g))) (zseq (NUM_CHANNELS g))).
  assert (E : reset_planes g t = fold_left (fun t k => reset_plane k t) keys t).
  { unfold reset_planes, keys. rewrite <- fold_flat_map.
    assert (Hx : forall L t, fold_left (fun t c => fold_left (fun t d => fold_left (fun t l =>
        reset_plane (c, d, l) t) (zseq (PLANES_PER_DIE g)) t) (zseq (DIES_PER_CHANNEL g)) t) L t =
      fold_left (fun t c => fold_left (fun t k => reset_plane k t) (flat_map (fun d =>
        map (fun l => (c, d, l)) (zseq (PLANES_PER_DIE g))) (zseq (DIES_PER_CHANNEL g))) t) L t).
    { induction L as [|x L IH]; intros t0; cbn [fold_left]; [done|]. rewrite IH. f_equal.
      rewrite <- fold_flat_map. clear. revert t0. induction (zseq (DIES_PER_CHANNEL g)) as [|d D IHD];
        intros t0; cbn [fold_left]; [done|]. rewrite IHD. f_equal. clear.
      revert t0. induction (zseq (PLANES_PER_DIE g)) as [|l L IHL]; intros t0; cbn [fold_left map]; [done|].
      by rewrite IHL. }
    apply Hx. }
  unfold reset_planes in E. rewrite E, fold_reset, decide_True; [done|].
  apply list_elem_of_In. unfold keys. apply in_flat_map. exists c. split; [apply elem_zseq; lia|].
  apply in_flat_map. exists d. split; [apply elem_zseq; lia|].
  apply in_map. apply elem_zseq. lia.
Qed.

(** The logical pages of a new medium: all but the over-provisioned ones and
    those kept for the tables. *)
Definition new_capacity (tables_len : Z) : Z :=
  u32 (Z.shiftl (u32 (TOTAL - u32 (u32 (TOTAL / 100 * OVP g) + u32 (tables_len / NAND_PAGE_SIZE g + 1)))) (HOST_2_NAND_DS g)).

(** The first page is the reserved one, the others are free, whatever the
    configuration was. *)
Lemma new_media_any cfg tables_len :
  exists s, new_media g tables_len (set_config cfg ftl0) = Ok s /\
    map_inv 1 (start_search s) /\ count_inv 1 (start_search s) /\
    lpa_table s = lpa_table ftl0 /\ total_logical_pages (ftl_config s) = new_capacity tables_len /\
    fc_host_ds (ftl_config s) = HOST_DS g.
Proof using Hg.
  destruct dims as (HP & HPP & HB & HG & HT & HPPP & HTm).
  assert (H0 : ppa_in g (Ppa 0 0 0 0 0 0) = true).
  { destruct (geom_pos g Hg) as (? & ? & ? & _). rewrite ppa_in_spec, plane_in_spec; cbn. lia. }
  pose proof H0 as H0'. rewrite ppa_in_spec in H0'. cbn [chn die plane block page] in H0'.
  destruct H0' as (Hpl & _). destruct (inc_page_next _ H0) as (I1 & I2 & I3 & I4 & I5 & I6).
  cbn [chn die plane block page resv] in I1, I2, I3, I4, I5, I6.
  assert (Hno0 : page_no (Ppa 0 0 0 0 0 0) = 0) by (unfold page_no, slot_of, offset_of, slot; cbn; lia).
  unfold new_media, SET_RESERVED_PPA, SET_MAPPED_LPA. rewrite H0. cbn [obind].
  unfold INC_VALID_PAGES. rewrite upd_blk_ok by done. cbn [obind].
  rewrite I1, I2, I3. rewrite Hpl. eexists. split; [reflexivity|].
  set (fp := inc_page (Ppa 0 0 0 0 0 0)) in *.
  assert (Hk0 : forall p, ppa_in g p = true -> key_of p = key_of (Ppa 0 0 0 0 0 0) <-> page_no p = 0).
  { intros p Hp. split; [intros E; rewrite (page_no_key _ _ E); done|].
    intros E. apply page_no_inj; congruence. }
  split; [split|split; [split|done]].
  - nia.
  - cbn. fold fp. unfold slot_of. rewrite I1, I2, I3. split; [done|]. rewrite Z.mod_0_l by lia.
    unfold slot. lia.
  - intros c d l Hin. cbv zeta. cbn. fold fp.
    assert (Ef : frontier 1 (slot g c d l) = if slot g c d l =? 0 then 1 else 0).
    { pose proof (slot_range g _ _ _ Hin). rewrite (frontier_succ 0) by lia.
      rewrite Z.mod_0_l, Z.div_0_l by lia. case_if; [done|]. zify_bools. unfold frontier.
      apply Z.div_small. lia. }
    rewrite Ef. unfold plane_of. rewrite I1, I2, I3.
    destruct (decide ((0, 0, 0) = (c, d, l))) as [E|E].
    + rewrite E, fn_lookup_insert. simplify_eq. rewrite I1, I2, I3, I4, I5, I6.
      unfold offset_of. rewrite I4, I5. unfold slot. rewrite !Z.mul_0_r. split_and!; try done; lia.
    + rewrite fn_lookup_insert_ne by done. rewrite reset_planes_get by done. cbn.
      unfold offset_of; cbn. split_and!; try done; try lia.
      case_if; [|done]. zify_bools. destruct E. apply (slot_inj g); [done|done|].
      rewrite E0. unfold slot. lia.
  - intros p Hp. cbn. pose proof (page_no_range p Hp). destruct (decide (key_of p = key_of (Ppa 0 0 0 0 0 0))) as [E|E].
    + rewrite E, fn_lookup_insert. apply Hk0 in E; [|done]. rewrite E. split; [discriminate|lia].
    + rewrite fn_lookup_insert_ne by done. split; [|done]. intros _.
      assert (page_no p <> 0) by (by rewrite <- Hk0). lia.
  - intros lpn Hl. cbn. intros Hc. destruct Hc. vm_compute. done.
  - intros p Hp. cbn. destruct (decide (key_of p = key_of (Ppa 0 0 0 0 0 0))) as [E|E].
    + rewrite E, fn_lookup_insert. do 2 right. by left.
    + rewrite fn_lookup_insert_ne by done. by left.
  - cbn. assert (Hz : forall f, f FREE_PPA = false -> forall p, count_block f (fun _ => FREE_PPA) p = 0).
    { intros f Hf p. unfold count_block. induction (Z.to_nat _) as [|m IH]; cbn [count]; [done|].
      by rewrite IH, Hf. }
    apply blk_counts_upd; [|done|reflexivity|reflexivity].
    intros p Hp. rewrite !Hz by done. done.
  - cbn. rewrite u32_id by lia. lia.
Qed.

Lemma new_media_ok tables_len :
  exists s, new_media g tables_len ftl0 = Ok s /\
    map_inv 1 (start_search s) /\ count_inv 1 (start_search s).
Proof using Hg. destruct (new_media_any ftl_config0 tables_len) as (s & E & H1 & H2 & _). by exists s. Qed.

(** C9: on a new medium (page 0 reserved for the configuration) every sequence of
    at most [TOTAL_NUM_OF_PAGES - 1] writes of host pages succeeds and uses the
    free pages in order; the invariants hold throughout and each logical page
    ends up mapped to the page of its last write.  When all pages are used the
    next write finds no page and, with more than one block per plane, the search
    leaves the table: the block index is compared with [>] where [>=] is meant. *)
Theorem new_medium_capacity tables_len lpns :
  Forall (fun x => 0 <= x < TOTAL) lpns -> Z.of_nat (length lpns) <= TOTAL - 1 ->
  exists s s', new_media g tables_len ftl0 = Ok s /\
    map_all lpns (start_search s) =
      Ok (map (fun i => nth_page (1 + Z.of_nat i)) (seq 0 (length lpns)), s') /\
    map_inv (1 + Z.of_nat (length lpns)) s' /\ count_inv (1 + Z.of_nat (length lpns)) s' /\
    lpa_table s' = assign 1 lpns (lpa_table ftl0) /\
    (Z.of_nat (length lpns) = TOTAL - 1 -> 1 < BLOCKS_PER_PLANE g ->
       forall lpn fuel, make_new_mapping g (S fuel) lpn s' = Fault FBounds).
Proof using Hg.
  intros Hall Hlen. destruct (new_media_ok tables_len) as (s & E & Hi & Hc).
  destruct (map_all_ok 1 lpns _ Hi Hc Hall ltac:(lia)) as (s' & E' & Hi' & Hc' & Hl').
  exists s, s'. split_and!; try done.
  - rewrite Hl'. f_equal. unfold new_media in E.
    destruct (SET_RESERVED_PPA _ _ _) as [s1|] eqn:E1; cbn [obind] in E; [|done].
    destruct (INC_VALID_PAGES _ _ s1) as [s2|] eqn:E2; cbn [obind] in E; [|done].
    unfold SET_RESERVED_PPA, SET_MAPPED_LPA in E1. unfold INC_VALID_PAGES, upd_blk in E2.
    repeat case_match; simplify_eq. done.
  - intros Hn Hb lpn fuel. unfold make_new_mapping. cbn [get_free_ppa].
    rewrite (find_free_page_overrun s'); [done| |done]. by replace TOTAL with (1 + Z.of_nat (length lpns)) by lia.
Qed.

(** Writes are striped over the drive: any two pages handed out less than
    [TOTAL_NUM_OF_PLANES] allocations apart lie in different planes, and
    consecutive pages go to consecutive channels. *)
Theorem allocation_striped i j :
  0 <= i < j -> j - i < P -> j < TOTAL ->
  plane_of (nth_page i) <> plane_of (nth_page j) /\
  chn (nth_page i) = i mod NUM_CHANNELS g /\
  offset_of g (nth_page i) <= offset_of g (nth_page j) <= offset_of g (nth_page i) + 1.
Proof using Hg.
  intros Hi Hj Ht. destruct dims as (HP & _). pose proof (geom_pos g Hg) as (HC & HD & HL & _).
  destruct (nth_page_in i ltac:(lia)) as (Hi1 & Hi2). destruct (nth_page_in j ltac:(lia)) as (Hj1 & Hj2).
  destruct (page_no_split _ Hi1) as (Hi3 & Hi4). destruct (page_no_split _ Hj1) as (Hj3 & Hj4).
  rewrite Hi2 in Hi3, Hi4. rewrite Hj2 in Hj3, Hj4.
  pose proof (Z_div_mod_eq_full i P). pose proof (Z_div_mod_eq_full j P).
  pose proof (Z.mod_pos_bound i P HP). pose proof (Z.mod_pos_bound j P HP).
  rewrite <- Hi4, <- Hj4. split_and!.
  - intros E. assert (Es : i mod P = j mod P).
    { rewrite Hi3, Hj3. unfold slot_of, plane_of in *. congruence. }
    assert (Ed : P * (j / P - i / P) = j - i) by (rewrite Z.mul_sub_distr_l; lia).
    destruct (Z.le_gt_cases (j / P - i / P) 0); nia.
  - change (chn (nth_page i)) with ((i mod P) mod NUM_CHANNELS g). rewrite planes_product.
    assert (0 < DIES_PER_CHANNEL g * PLANES_PER_DIE g) by nia.
    rewrite Z.rem_mul_r by lia. rewrite (Z.mul_comm (NUM_CHANNELS g)), Z_mod_plus_full.
    apply Zmod_mod.
  - nia.
  - nia.
Qed.

End inv.

(** ** A small drive: two channels, one plane each, two blocks of two pages *)
Definition tiny : geom := Geom 2 1 1 1 2 2 9 9 0.

Lemma tiny_ok : geom_ok tiny.
Proof. unfold geom_ok. repeat split; vm_compute; congruence. Qed.

Lemma new_medium_capacity_witness :
  exists s s', new_media tiny 100 ftl0 = Ok s /\
    map_all tiny [3; 5; 3; 0; 1; 2; 7] (start_search s) =
      Ok ([Ppa 0 0 0 0 1 0; Ppa 1 0 0 0 0 0; Ppa 1 0 0 0 1 0; Ppa 0 1 0 0 0 0; Ppa 0 1 0 0 1 0;
           Ppa 1 1 0 0 0 0; Ppa 1 1 0 0 1 0], s') /\
    make_new_mapping tiny 1 4 s' = Fault FBounds.
Proof.
  destruct (new_medium_capacity tiny tiny_ok 100 [3; 5; 3; 0; 1; 2; 7]) as (s & s' & E1 & E2 & _ & _ & _ & E3).
  - repeat (apply Forall_cons_2; [vm_compute; split; congruence|]). apply Forall_nil_2.
  - vm_compute. congruence.
  - exists s, s'. split; [exact E1|]. split; [exact E2|].
    apply E3; [vm_compute; reflexivity|vm_compute; reflexivity].
Defined.

Lemma make_new_mapping_correct_witness :
  exists s s', new_media tiny 100 ftl0 = Ok s /\
    make_new_mapping tiny 1 3 (start_search s) = Ok (Ppa 0 0 0 0 1 0, s') /\
    lpa_table s' 3 = Ppa 0 0 0 0 1 0.
Proof.
  destruct (new_media_ok tiny tiny_ok 100) as (s & E & Hi & Hc).
  destruct (make_new_mapping_correct tiny tiny_ok 1 3 (start_search s) 0 Hi) as (s' & E' & _ & _ & _ & Hl & _).
  - vm_compute. reflexivity.
  - vm_compute. split; congruence.
  - exists s, s'. split; [exact E|]. split; [exact E'|]. rewrite Hl. reflexivity.
Defined.

Lemma allocation_striped_witness :
  plane_of (nth_page H4k_N4k_256mb 5) <> plane_of (nth_page H4k_N4k_256mb 36) /\
  chn (nth_page H4k_N4k_256mb 5) = 5 mod NUM_CHANNELS H4k_N4k_256mb /\
  offset_of H4k_N4k_256mb (nth_page H4k_N4k_256mb 5) <= offset_of H4k_N4k_256mb (nth_page H4k_N4k_256mb 36)
    <= offset_of H4k_N4k_256mb (nth_page H4k_N4k_256mb 5) + 1.
Proof.
  apply (allocation_striped H4k_N4k_256mb H4k_N4k_256mb_ok 5 36); vm_compute; try split; congruence.
Defined.
