(* ===== verification/Requests.v ===== *)
(** firmware/global.h and firmware/global_macro.h: the request objects passed
    between the NVMe driver, the buffer manager, the FTL and the ISP driver. *)

From Stdlib Require Import ZArith Lia Bool List.
From stdpp Require Import base tactics option list.
From S2P Require Import Prelude CTypes.

(** ** Request types and stages *)
Definition ADMIN_REQUEST : Z := 1.
Definition READ_IO_REQUEST : Z := 2.
Definition WRITE_IO_REQUEST : Z := 3.
Definition FLUSH_IO_REQUEST : Z := 4.
Definition TRIM_IO_REQUEST : Z := 5.
Definition ISP_IO_REQUEST : Z := 6.
Definition WBC_FLUSH_REQUEST : Z := 7.
Definition ISP_READ_PAGES_REQUEST : Z := 10.
Definition ISP_PROGRAM_PAGES_REQUEST : Z := 11.
Definition ISP_HOST_DMA_REQUEST : Z := 13.
Definition ISP_EXECUTION_EXIT : Z := 14.

Definition REQ_STAGE_FREE : Z := 1.
Definition REQ_STAGE_INUSE : Z := 2.
Definition REQ_STAGE_FTL : Z := 3.
Definition REQ_STAGE_READING_FLASH : Z := 4.
Definition REQ_STAGE_DMA : Z := 6.
Definition PENDING_CCMD_POST : Z := 7.
Definition REQ_COMPLETED : Z := 8.
Definition CCMD_POSTED : Z := 8.
Definition ISP_DATA_TRANSFERING : Z := 10.
Definition ISP_CTRL_PENDING_MSG : Z := 11.
Definition ISP_EXEC_PENDING_POST : Z := 13.
Definition ISP_HOST_DMA_REQ_INIT : Z := 14.
Definition ISP_HOST_DMA_REQ_TX_ON : Z := 15.
Definition ISP_HOST_DMA_REQ_CMPT : Z := 16.
Definition ISP_NAND_OP_INIT : Z := 17.
Definition ISP_NAND_OP_CMPLT : Z := 18.
Definition ISP_FOR_HOST_DMA_REQ : Z := 19.

Definition MAX_LP_TX : Z := 16.
Definition MDTS_PAGES : Z := MAX_LP_TX.
Definition WBC_PAGES : Z := MDTS_PAGES.
Definition NULL_FTN : Z := 0xFFFF.

(** ** Host transfers *)

Record dma_op_t := DmaOp {
  do_ssd_addr : Z; do_len : Z; do_host_p_addr : Z; do_host_dma_complete : bool }.

Record dma_t := Dma {
  data_size : Z; n_ops : Z; dma_complete : bool; buffer_addr : Z;
  c_op_smem_pg : Z; c_op_len : Z; dma_list : list dma_op_t }.

Definition dma_op0 : dma_op_t := DmaOp 0 0 0 false.
Definition dma0 : dma_t := Dma 0 0 false 0 0 0 (replicate 16 dma_op0).

Definition set_dma_list v d :=
  Dma (data_size d) (n_ops d) (dma_complete d) (buffer_addr d) (c_op_smem_pg d) (c_op_len d) v.
Definition set_data_size v d :=
  Dma v (n_ops d) (dma_complete d) (buffer_addr d) (c_op_smem_pg d) (c_op_len d) (dma_list d).
Definition set_n_ops v d :=
  Dma (data_size d) v (dma_complete d) (buffer_addr d) (c_op_smem_pg d) (c_op_len d) (dma_list d).
Definition set_dma_complete v d :=
  Dma (data_size d) (n_ops d) v (buffer_addr d) (c_op_smem_pg d) (c_op_len d) (dma_list d).
Definition set_buffer_addr v d :=
  Dma (data_size d) (n_ops d) (dma_complete d) v (c_op_smem_pg d) (c_op_len d) (dma_list d).
Definition set_c_op smem len d :=
  Dma (data_size d) (n_ops d) (dma_complete d) (buffer_addr d) smem len (dma_list d).

(** ** I/O requests

    One record for [r_req_t], [w_req_t], [f_req_t], [dsm_req_t] and [isp_req_t]:
    the common fields, the host transfer, the FTL's part of a read request and
    the control command index of an ISP request. *)
Record io_req := IoReq {
  rq_type : Z; rq_index : Z; rq_stage : Z; rq_sqid : Z; rq_cqid : Z; rq_sqe : Z;
  rq_status : Z; rq_ccmd_dw0 : Z; rq_scmd : Z;
  rq_dma : dma_t; rq_nand_io_complete : bool; rq_meta_lpn : list Z;
  rq_ctrl_cmd_index : Z }.

Definition io_req0 : io_req := IoReq 0 0 0 0 0 0 0 0 0 dma0 false (replicate 16 0) 0.

Definition set_stage v r :=
  IoReq (rq_type r) (rq_index r) v (rq_sqid r) (rq_cqid r) (rq_sqe r) (rq_status r) (rq_ccmd_dw0 r)
    (rq_scmd r) (rq_dma r) (rq_nand_io_complete r) (rq_meta_lpn r) (rq_ctrl_cmd_index r).
Definition set_type_index ty ix r :=
  IoReq ty ix (rq_stage r) (rq_sqid r) (rq_cqid r) (rq_sqe r) (rq_status r) (rq_ccmd_dw0 r)
    (rq_scmd r) (rq_dma r) (rq_nand_io_complete r) (rq_meta_lpn r) (rq_ctrl_cmd_index r).
Definition set_req_dma v r :=
  IoReq (rq_type r) (rq_index r) (rq_stage r) (rq_sqid r) (rq_cqid r) (rq_sqe r) (rq_status r)
    (rq_ccmd_dw0 r) (rq_scmd r) v (rq_nand_io_complete r) (rq_meta_lpn r) (rq_ctrl_cmd_index r).
Definition set_nand_io_complete v r :=
  IoReq (rq_type r) (rq_index r) (rq_stage r) (rq_sqid r) (rq_cqid r) (rq_sqe r) (rq_status r)
    (rq_ccmd_dw0 r) (rq_scmd r) (rq_dma r) v (rq_meta_lpn r) (rq_ctrl_cmd_index r).
Definition set_meta_lpn v r :=
  IoReq (rq_type r) (rq_index r) (rq_stage r) (rq_sqid r) (rq_cqid r) (rq_sqe r) (rq_status r)
    (rq_ccmd_dw0 r) (rq_scmd r) (rq_dma r) (rq_nand_io_complete r) v (rq_ctrl_cmd_index r).
Definition set_queue_info sqid cqid sqe scmd status dw0 r :=
  IoReq (rq_type r) (rq_index r) (rq_stage r) sqid cqid sqe status dw0 scmd (rq_dma r)
    (rq_nand_io_complete r) (rq_meta_lpn r) (rq_ctrl_cmd_index r).
Definition set_ccmd_dw0 v r :=
  IoReq (rq_type r) (rq_index r) (rq_stage r) (rq_sqid r) (rq_cqid r) (rq_sqe r) (rq_status r) v
    (rq_scmd r) (rq_dma r) (rq_nand_io_complete r) (rq_meta_lpn r) (rq_ctrl_cmd_index r).
Definition set_req_status v r :=
  IoReq (rq_type r) (rq_index r) (rq_stage r) (rq_sqid r) (rq_cqid r) (rq_sqe r) v (rq_ccmd_dw0 r)
    (rq_scmd r) (rq_dma r) (rq_nand_io_complete r) (rq_meta_lpn r) (rq_ctrl_cmd_index r).
Definition set_ctrl_cmd_index v r :=
  IoReq (rq_type r) (rq_index r) (rq_stage r) (rq_sqid r) (rq_cqid r) (rq_sqe r) (rq_status r)
    (rq_ccmd_dw0 r) (rq_scmd r) (rq_dma r) (rq_nand_io_complete r) (rq_meta_lpn r) v.

(** Fields of the copy of the submission command. *)
Definition io_opcode (r : io_req) : Z := field NvmeIOSCmd 0 (rq_scmd r).
Definition io_cid (r : io_req) : Z := field NvmeIOSCmd 2 (rq_scmd r).
Definition io_slba (r : io_req) : Z := field NvmeIOSCmd 8 (rq_scmd r).
Definition io_nlbs (r : io_req) : Z := field NvmeIOSCmd 9 (rq_scmd r).

(** ** The write-back cache request *)

Record wbc_page := WbcPage { wp_lpn : Z; wp_ssd_addr : Z; wp_valid : Z; wp_nand_io_complete : Z }.

Record wbc_req := WbcReq {
  wb_type : Z; wb_index : Z; wb_stage : Z; wb_num_program_pgs : Z;
  wb_nand_io_complete : bool; wb_pages : list wbc_page }.

Definition set_wb_pages v w :=
  WbcReq (wb_type w) (wb_index w) (wb_stage w) (wb_num_program_pgs w) (wb_nand_io_complete w) v.
Definition set_wb_complete v w :=
  WbcReq (wb_type w) (wb_index w) (wb_stage w) (wb_num_program_pgs w) v (wb_pages w).
Definition set_wb_num v w :=
  WbcReq (wb_type w) (wb_index w) (wb_stage w) v (wb_nand_io_complete w) (wb_pages w).

(** ** Requests of the ISP driver *)

Record isp_nand_op := IspNandOp {
  no_type : Z; no_index : Z; no_stage : Z; no_status : Z; no_start_lpn : Z;
  no_num_of_lpn : Z; no_ssd_addr : Z; no_cbk_ftn_id : Z }.

Record isp_host_dma := IspHostDma {
  hd_type : Z; hd_index : Z; hd_stage : Z; hd_ssd_addr : Z; hd_start_mem_page : Z; hd_size : Z;
  hd_tx_type : Z; hd_request_code : Z; hd_exec_thrd : Z; hd_transfered_size : Z;
  hd_ctrl_cmd_index : Z; hd_status : Z }.

(** ** Admin requests *)
Record admin_req := AdminReq {
  ar_type : Z; ar_index : Z; ar_stage : Z; ar_scmd : Z; ar_scmd_entry : Z; ar_dma : dma_t;
  ar_ccmd_cdw0 : Z; ar_status : Z }.

Definition set_ar_common ty ix st a :=
  AdminReq ty ix st (ar_scmd a) (ar_scmd_entry a) (ar_dma a) (ar_ccmd_cdw0 a) (ar_status a).
Definition set_ar_dma v a :=
  AdminReq (ar_type a) (ar_index a) (ar_stage a) (ar_scmd a) (ar_scmd_entry a) v (ar_ccmd_cdw0 a) (ar_status a).
Definition set_ar_cdw0 v a :=
  AdminReq (ar_type a) (ar_index a) (ar_stage a) (ar_scmd a) (ar_scmd_entry a) (ar_dma a) v (ar_status a).
Definition set_ar_status v a :=
  AdminReq (ar_type a) (ar_index a) (ar_stage a) (ar_scmd a) (ar_scmd_entry a) (ar_dma a) (ar_ccmd_cdw0 a) v.
Definition set_ar_scmd scmd entry a :=
  AdminReq (ar_type a) (ar_index a) (ar_stage a) scmd entry (ar_dma a) (ar_ccmd_cdw0 a) (ar_status a).
