(* ===== verification/FtlIo.v ===== *)
(** firmware/ftl_page_mapping/equal.pages.c and the requests of ftl.c: reading
    and programming logical pages for host and NAND pages of the same size, the
    write-back cache flush, and the storing and loading of the mapping tables. *)

From Stdlib Require Import ZArith Lia Bool List.
From stdpp Require Import base tactics option list functions.
From S2P Require Import Prelude CTypes MemUtil Kernel Geom NandIo Ftl FtlInv Requests.

(** Everything the FTL thread touches: its tables, the batch objects, the flash
    array, the memory of the drive and the kernel's queues. *)
Record drive (D : Type) := Drive {
  d_ftl : ftl; d_pools : op_pools; d_nand : D; d_mem : mem; d_kernel : kernel }.
Arguments Drive {D}.
Arguments d_ftl {D}.
Arguments d_pools {D}.
Arguments d_nand {D}.
Arguments d_mem {D}.
Arguments d_kernel {D}.

Definition set_d_ftl {D} v (s : drive D) := Drive v (d_pools s) (d_nand s) (d_mem s) (d_kernel s).
Definition set_d_pools {D} v (s : drive D) := Drive (d_ftl s) v (d_nand s) (d_mem s) (d_kernel s).
Definition set_d_mem {D} v (s : drive D) := Drive (d_ftl s) (d_pools s) (d_nand s) v (d_kernel s).
Definition set_d_kernel {D} v (s : drive D) := Drive (d_ftl s) (d_pools s) (d_nand s) (d_mem s) v.

Section ftl_io.
Context {D : Type} `{NandFlash D} (g : geom).

(** ** Batches of the drive *)

Definition d_begin_read (s : drive D) : outcome (op_ptr * drive D) :=
  let! '(p, ps) := begin_read_op (d_pools s) in Ok (p, set_d_pools ps s).

Definition d_begin_program (s : drive D) : outcome (op_ptr * drive D) :=
  let! '(p, ps) := begin_program_op (d_pools s) in Ok (p, set_d_pools ps s).

(** The result of [add_read_op_page] and [add_program_op_page] is not used. *)
Definition d_add_page (op : op_ptr) (p : ppa) (addr : Z) (s : drive D) : outcome (drive D) :=
  let! '(_, ps) := add_op_page op p addr (d_pools s) in Ok (set_d_pools ps s).

Definition d_end_read (op : op_ptr) (s : drive D) : outcome (drive D) :=
  let! '(ps, d, m) := sync_end_read_op g op (d_pools s) (d_nand s) (d_mem s) in
  Ok (Drive (d_ftl s) ps d m (d_kernel s)).

Definition d_end_program (op : op_ptr) (s : drive D) : outcome (drive D) :=
  let! '(ps, d, m) := sync_end_program_op g op (d_pools s) (d_nand s) (d_mem s) in
  Ok (Drive (d_ftl s) ps d m (d_kernel s)).

(** The address of page [lpn_index] of a buffer: 32-bit pointer arithmetic. *)
Definition page_addr (buffer lpn_index : Z) : Z :=
  u32 (buffer + u32 (Z.shiftl lpn_index (HOST_DS g))).

(** ** Reading *)

(** The body of the read loops: an unmapped page is cleared in the buffer at
    once, a mapped one is added to the batch. *)
Definition read_lpn (rop : op_ptr) (buffer lpn_index lpn : Z) (s : drive D) : outcome (drive D) :=
  let! unmapped := IS_UNMAPPED_LPA g lpn (d_ftl s) in
  if unmapped then
    Ok (set_d_mem (memset32 (page_addr buffer lpn_index) 0 (HOST_PAGE_SIZE g / 4) (d_mem s)) s)
  else
    let! current_ppa := GET_MAPPED_PPA g lpn (d_ftl s) in
    d_add_page rop current_ppa (page_addr buffer lpn_index) s.

Fixpoint sync_read_loop (n : nat) (rop : op_ptr) (buffer lpn_index lpn : Z) (s : drive D)
  : outcome (drive D) :=
  match n with
  | O => Ok s
  | S n' =>
      let! s := read_lpn rop buffer lpn_index lpn s in
      sync_read_loop n' rop buffer (lpn_index + 1) (u32 (lpn + 1)) s
  end.

Definition sync_read_pages (start_lpn num_of_lpg lpg_buffer : Z) (s : drive D) : outcome (Z * drive D) :=
  let! '(rop, s) := d_begin_read s in
  let! s := sync_read_loop (Z.to_nat num_of_lpg) rop lpg_buffer 0 start_lpn s in
  let! s := d_end_read rop s in
  Ok (num_of_lpg, s).

(** [ftl_process_read_io] also records the logical pages in the request. *)
Fixpoint read_io_loop (n : nat) (rop : op_ptr) (lpn_index lpn : Z) (req : io_req) (s : drive D)
  : outcome (io_req * drive D) :=
  match n with
  | O => Ok (req, s)
  | S n' =>
      let! meta := arr_set (rq_meta_lpn req) lpn_index lpn in
      let req := set_meta_lpn meta req in
      let! s := read_lpn rop (buffer_addr (rq_dma req)) lpn_index lpn s in
      read_io_loop n' rop (lpn_index + 1) (u32 (lpn + 1)) req s
  end.

Definition ftl_process_read_io (req_ptr : Z) (req : io_req) (s : drive D) : outcome (io_req * drive D) :=
  let req := set_stage REQ_STAGE_FTL req in
  let! '(rop, s) := d_begin_read s in
  let! '(req, s) :=
    read_io_loop (Z.to_nat (io_nlbs req + 1)) rop 0 (u32 (io_slba req)) req s in
  let req := set_stage REQ_STAGE_READING_FLASH req in
  let! s := d_end_read rop s in
  let req := set_nand_io_complete true req in
  let! k := sys_push_to_nvme req_ptr (rq_type req) (d_kernel s) in
  Ok (req, set_d_kernel k s).

(** ** Programming *)

Context (fuel : nat).  (** of the search for a free page *)

Definition d_new_mapping (lpn : Z) (s : drive D) : outcome (ppa * drive D) :=
  let! '(p, f) := make_new_mapping g fuel lpn (d_ftl s) in Ok (p, set_d_ftl f s).

(** The body of the program loops; both branches of the source map the page. *)
Definition program_lpn (pop : op_ptr) (lpn addr : Z) (s : drive D) : outcome (drive D) :=
  let! unmapped := IS_UNMAPPED_LPA g lpn (d_ftl s) in
  let! '(new_ppa, s) := if unmapped then d_new_mapping lpn s else d_new_mapping lpn s in
  d_add_page pop new_ppa addr s.

Fixpoint sync_program_loop (n : nat) (pop : op_ptr) (buffer lpn_index lpn : Z) (s : drive D)
  : outcome (drive D) :=
  match n with
  | O => Ok s
  | S n' =>
      let! s := program_lpn pop lpn (page_addr buffer lpn_index) s in
      sync_program_loop n' pop buffer (lpn_index + 1) (u32 (lpn + 1)) s
  end.

Definition sync_program_pages (start_lpn num_of_lpg lpg_buffer : Z) (s : drive D) : outcome (Z * drive D) :=
  let! '(pop, s) := d_begin_program s in
  let! s := sync_program_loop (Z.to_nat num_of_lpg) pop lpg_buffer 0 start_lpn s in
  let! s := d_end_program pop s in
  Ok (num_of_lpg, s).

(** [process_wbc]: [num_program_pgs] is the local counter, which stays 0. *)
Fixpoint wbc_loop (n : nat) (pop : op_ptr) (icache num_program_pgs : Z) (wbc : wbc_req) (s : drive D)
  : outcome (wbc_req * drive D) :=
  match n with
  | O => Ok (wbc, s)
  | S n' =>
      if (icache <? WBC_PAGES) && (num_program_pgs <? wb_num_program_pgs wbc) then
        let! pg := arr_get (wb_pages wbc) icache in
        if wp_valid pg =? 0 then wbc_loop n' pop (icache + 1) num_program_pgs wbc s
        else
          let! unmapped := IS_UNMAPPED_LPA g (wp_lpn pg) (d_ftl s) in
          let! '(new_ppa, s) := if unmapped then d_new_mapping (wp_lpn pg) s
                                else d_new_mapping (wp_lpn pg) s in
          let! pages := arr_set (wb_pages wbc) icache
            (WbcPage (wp_lpn pg) (wp_ssd_addr pg) (wp_valid pg) 0) in
          let wbc := set_wb_pages pages wbc in
          let! s := d_add_page pop new_ppa (wp_ssd_addr pg) s in
          wbc_loop n' pop (icache + 1) num_program_pgs wbc s
      else Ok (wbc, s)
  end.

Definition process_wbc (wbc_ptr : Z) (wbc : wbc_req) (s : drive D) : outcome (wbc_req * drive D) :=
  let! '(pop, s) := d_begin_program s in
  let wbc := set_wb_complete false wbc in
  let! '(wbc, s) := wbc_loop (Z.to_nat WBC_PAGES) pop 0 0 wbc s in
  let! s := d_end_program pop s in
  let wbc := set_wb_complete true wbc in
  let! k := sys_push_to_nvme wbc_ptr (wb_type wbc) (d_kernel s) in
  Ok (wbc, set_d_kernel k s).

(** ** Requests of the ISP driver *)

Definition SYNC_CALL : Z := u32 (-1).

Definition process_isp_read_pages (req : isp_nand_op) (s : drive D) : outcome (isp_nand_op * drive D) :=
  if no_cbk_ftn_id req =? SYNC_CALL then
    let! '(status, s) := sync_read_pages (no_start_lpn req) (no_num_of_lpn req) (no_ssd_addr req) s in
    Ok (IspNandOp (no_type req) (no_index req) ISP_NAND_OP_CMPLT status (no_start_lpn req)
          (no_num_of_lpn req) (no_ssd_addr req) (no_cbk_ftn_id req), s)
  else Ok (req, s).

Definition process_isp_program_pages (req : isp_nand_op) (s : drive D) : outcome (isp_nand_op * drive D) :=
  if no_cbk_ftn_id req =? SYNC_CALL then
    let! '(status, s) := sync_program_pages (no_start_lpn req) (no_num_of_lpn req) (no_ssd_addr req) s in
    Ok (IspNandOp (no_type req) (no_index req) ISP_NAND_OP_CMPLT status (no_start_lpn req)
          (no_num_of_lpn req) (no_ssd_addr req) (no_cbk_ftn_id req), s)
  else Ok (req, s).

(** The object behind the pointer handed to [process_req_cbk]. *)
Inductive ftl_obj := FRead (r : io_req) | FWbc (w : wbc_req) | FIsp (o : isp_nand_op).

(** The dispatch on [req_type]; an object of another type than announced is a
    cast that the callers never make. *)
Definition process_req_cbk (req_ptr : Z) (req : ftl_obj) (req_type : Z) (s : drive D)
  : outcome (ftl_obj * drive D) :=
  if req_type =? READ_IO_REQUEST then
    match req with
    | FRead r => let! '(r, s) := ftl_process_read_io req_ptr r s in Ok (FRead r, s)
    | _ => Fault FBounds
    end
  else if req_type =? WBC_FLUSH_REQUEST then
    match req with
    | FWbc w => let! '(w, s) := process_wbc req_ptr w s in Ok (FWbc w, s)
    | _ => Fault FBounds
    end
  else if req_type =? ISP_READ_PAGES_REQUEST then
    match req with
    | FIsp o => let! '(o, s) := process_isp_read_pages o s in Ok (FIsp o, s)
    | _ => Fault FBounds
    end
  else if req_type =? ISP_PROGRAM_PAGES_REQUEST then
    match req with
    | FIsp o => let! '(o, s) := process_isp_program_pages o s in Ok (FIsp o, s)
    | _ => Fault FBounds
    end
  else Ok (req, s).

End ftl_io.
