(* ===== verification/FtlDisk.v ===== *)
(** The FTL implements a disk: an array of logical pages that are zero until
    they are written.  The abstraction relation between the drive and the disk,
    and the refinement of the read and program operations. *)

From Stdlib Require Import ZArith Lia Bool List.
From stdpp Require Import base tactics option list functions.
From S2P Require Import Prelude CTypes MemUtil Kernel Geom NandIo Ftl FtlInv Requests FtlIo.

(** The contents of the logical pages. *)
Definition disk : Type := Z -> mem.

Section disk.
Context {D : Type} `{NandFlash D} (g : geom) (Hg : geom_ok g) (Heq : host_page_size g = nand_page_size g).

Abbreviation TOTAL := (TOTAL_NUM_OF_PAGES g) (only parsing).
Abbreviation PS := (NAND_PAGE_SIZE g) (only parsing).

(** What the tables and the flash array say about the disk. *)
Definition represents (page : page_key -> mem) (lpa : Z -> ppa) (dk : disk) : Prop :=
  forall lpn off, 0 <= lpn < TOTAL -> 0 <= off < PS ->
    dk lpn off = if chn (lpa lpn) =? 255 then 0 else page (key_of (lpa lpn)) off.

Record disk_rel (k : Z) (dk : disk) (s : drive D) : Prop := DiskRel {
  dr_map : map_inv g k (d_ftl s);
  dr_pages : pages_ok (nand_page (d_nand s));
  dr_mem : mem_ok (d_mem s);
  dr_rep : represents (nand_page (d_nand s)) (lpa_table (d_ftl s)) dk;
  dr_ready : nand_ready g (d_nand s) }.

(** Pages to write lie in the drive, their buffers in 32 bits. *)
Definition writes_ok (ws : list (Z * Z)) : Prop := Forall (fun w => 0 <= fst w < TOTAL /\ 0 <= snd w < 2 ^ 32) ws.

(** Writing the buffers [(lpn, address)] in order. *)
Definition write_page (m : mem) (dk : disk) (w : Z * Z) : disk :=
  fun lpn off => if lpn =? fst w then m (snd w + off) else dk lpn off.

Definition write_pages (m : mem) (ws : list (Z * Z)) (dk : disk) : disk := fold_left (write_page m) ws dk.

Lemma page_size_pos : 512 <= PS /\ PS = 4 * (HOST_PAGE_SIZE g / 4) /\ HOST_PAGE_SIZE g = PS /\
  PS = 2 ^ nand_page_size g.
Proof using Hg Heq.
  destruct Hg as (_ & _ & _ & _ & _ & H9 & _). unfold NAND_PAGE_SIZE, HOST_PAGE_SIZE. rewrite Heq, Z.shiftl_1_l.
  replace (nand_page_size g) with (9 + (nand_page_size g - 9)) by lia.
  rewrite Z.pow_add_r by lia. assert (0 < 2 ^ (nand_page_size g - 9)) by (apply Z.pow_pos_nonneg; lia).
  change (2 ^ 9) with 512. set (x := 2 ^ (nand_page_size g - 9)) in *. split_and!; try lia.
  replace (512 * x) with (128 * x * 4) by lia. rewrite Z.div_mul by lia. lia.
Qed.

Lemma page_addr_ok buffer i :
  0 <= buffer -> 0 <= i -> buffer + (i + 1) * PS <= 2 ^ 32 ->
  page_addr g buffer i = buffer + i * PS.
Proof using Hg Heq.
  intros Hb Hi Hm. destruct page_size_pos as (Hp & _ & _ & E2).
  unfold page_addr, HOST_DS. rewrite Heq, Z.shiftl_mul_pow2 by (destruct Hg as (_ & _ & _ & _ & _ & ? & _); lia).
  rewrite <- E2. rewrite (u32_id (i * _)) by nia. apply u32_id. nia.
Qed.

(** ** Programming a list of pages *)

Context (fuel : nat).

Fixpoint program_list (ws : list (Z * Z)) (pop : op_ptr) (s : drive D) : outcome (drive D) :=
  match ws with
  | [] => Ok s
  | (lpn, addr) :: r => let! s := program_lpn g (S fuel) pop lpn addr s in program_list r pop s
  end.

Lemma represents_write k lpn a m f f' page dk :
  map_inv g k f -> k < TOTAL -> 0 <= lpn < TOTAL ->
  lpa_table f' = <[lpn := nth_page g k]> (lpa_table f) ->
  represents page (lpa_table f) dk ->
  represents (program_page g m page (OpPage (nth_page g k) a)) (lpa_table f') (write_page m dk (lpn, a)).
Proof using Hg.
  intros Hi Hk Hl -> Hr l off Hlr Ho. unfold write_page, program_page; cbn [fst snd pg_ppa pg_ssd_addr].
  destruct (new_page_free g Hg k f Hi Hk) as (Hin & Hfree).
  destruct (Z.eqb_spec l lpn) as [->|Hne].
  - rewrite fn_lookup_insert, bool_decide_true by done.
    rewrite (proj2 (in_range_true _ _) Ho). cbn [andb].
    pose proof Hin as Hin'. rewrite ppa_in_spec, plane_in_spec in Hin'.
    destruct Hg as (Hch & _). unfold NUM_CHANNELS in Hin'. by zb.
  - rewrite fn_lookup_insert_ne by done. rewrite (Hr l off Hlr Ho).
    destruct (Z.eqb_spec (chn (lpa_table f l)) 255) as [Hu|Hu]; [done|].
    destruct (mi_lpa _ _ _ Hi l Hlr Hu) as (Hlin & Hlv). rewrite bool_decide_false; [done|].
    intros E. rewrite E, Hfree in Hlv. subst l. by destruct (lpn_values g Hg _ Hlr).
Qed.

(** A list of pages is mapped to the next free pages, one program operation is
    added for each, and once these are executed the array represents the disk
    with the pages written. *)
Lemma program_list_ok F k ws l0 pop s :
  map_inv g k (d_ftl s) -> writes_ok ws ->
  k + Z.of_nat (length ws) <= TOTAL -> (length l0 + length ws <= 128)%nat ->
  op_open PR F pop l0 (d_pools s) ->
  exists s' l, program_list ws pop s = Ok s' /\
    map_inv g (k + Z.of_nat (length ws)) (d_ftl s') /\
    (count_inv g k (d_ftl s) -> count_inv g (k + Z.of_nat (length ws)) (d_ftl s')) /\
    op_open PR F pop (l0 ++ l) (d_pools s') /\ same_side RD (d_pools s) (d_pools s') /\
    pages_placed g l /\
    d_nand s' = d_nand s /\ d_mem s' = d_mem s /\ d_kernel s' = d_kernel s /\
    forall m page dk, represents page (lpa_table (d_ftl s)) dk ->
      represents (program_pages g m l page) (lpa_table (d_ftl s')) (write_pages m ws dk).
Proof using Hg.
  intros Hi Hall. revert k l0 s Hi. induction Hall as [|[lpn a] ws (Hw & Ha) _ IH]; intros k l0 s Hi Hk Hlen Ho.
  - exists s, []. cbn [program_list length] in *. rewrite Z.add_0_r, app_nil_r. split_and!; try done. apply Forall_nil_2.
  - cbn [length fst snd] in *. rewrite Nat2Z.inj_succ in *. unfold Z.succ in *.
    destruct (make_new_mapping_ok g Hg k lpn (d_ftl s) fuel Hi ltac:(lia) Hw)
      as (f1 & E1 & Hi1 & Hc1 & Hl1).
    destruct (add_op_page_spec PR F pop l0 (d_pools s) (nth_page g k) a Ho ltac:(lia)) as (p1 & E2 & Ho1 & Hs1).
    destruct (IH (k + 1) (l0 ++ [OpPage (nth_page g k) a]) (set_d_pools p1 (set_d_ftl f1 s)))
      as (s' & l & E & Hi' & Hc' & Ho' & Hs' & Hin' & Hn' & Hm' & Hk' & Hr');
      [done|lia|rewrite length_app; simpl; lia|done|].
    exists s', (OpPage (nth_page g k) a :: l). cbn [program_list].
    assert (E0 : program_lpn g (S fuel) pop lpn a s = Ok (set_d_pools p1 (set_d_ftl f1 s))).
    { unfold program_lpn, IS_UNMAPPED_LPA, GET_MAPPED_PPA. rewrite (proj2 (in_range_true _ _) Hw).
      cbn [obind]. unfold d_new_mapping. rewrite E1. cbn [obind]. unfold d_add_page.
      case_if; cbn [obind set_d_ftl d_pools]; rewrite E2; done. }
    rewrite E0. cbn [obind]. rewrite E. replace (k + (Z.of_nat (length ws) + 1)) with (k + 1 + Z.of_nat (length ws)) by lia.
    rewrite <- app_assoc in Ho'. split_and!; try done.
    + intros Hc. apply Hc', Hc1, Hc.
    + by eapply same_side_trans.
    + apply Forall_cons_2; [|done]. split; [|exact Ha]. by apply (new_page_free g Hg k (d_ftl s) Hi ltac:(lia)).
    + intros m page dk Hr. cbn [write_pages fold_left program_pages]. apply Hr'.
      by eapply represents_write; [exact Hi|lia|exact Hw|exact Hl1|].
Qed.

(** The batch of such a list, from begin to end. *)
Lemma program_list_batch F k dk ws s :
  disk_rel k dk s -> writes_ok ws ->
  k + Z.of_nat (length ws) <= TOTAL -> (length ws <= 128)%nat -> pool_ready PR F (d_pools s) ->
  exists pop s1 s2 s3, d_begin_program s = Ok (pop, s1) /\ d_ftl s1 = d_ftl s /\
    program_list ws pop s1 = Ok s2 /\ d_end_program g pop s2 = Ok s3 /\
    disk_rel (k + Z.of_nat (length ws)) (write_pages (d_mem s) ws dk) s3 /\
    (count_inv g k (d_ftl s) -> count_inv g (k + Z.of_nat (length ws)) (d_ftl s3)) /\
    pool_idle PR F (d_pools s3) /\ same_side RD (d_pools s) (d_pools s3) /\
    (forall b, d_mem s3 b = d_mem s b) /\ d_kernel s2 = d_kernel s /\ d_kernel s3 = d_kernel s.
Proof using Hg.
  intros [Hi Hp Hm Hr Hrd] Hall Hk Hlen Hpool.
  destruct (begin_op_spec PR F (d_pools s) Hpool) as (pop & p1 & E1 & Ho & Hs1).
  destruct (program_list_ok F k ws [] pop (set_d_pools p1 s) Hi Hall Hk ltac:(simpl; lia) Ho)
    as (s2 & l & E2 & Hi2 & Hc2 & Ho2 & Hs2 & Hin2 & Hn2 & Hm2 & Hk2 & Hr2).
  cbn [set_d_pools d_nand d_mem d_kernel d_ftl d_pools app] in *.
  destruct (sync_end_program_spec g Hg F pop l (d_pools s2) (d_nand s2) (d_mem s2) Ho2)
    as (p3 & d3 & m3 & E3 & Hi3 & Hs3 & Hrd3 & Hm3 & Hd3); [by rewrite Hn2|done|by rewrite Hm2|by rewrite Hn2|].
  exists pop, (set_d_pools p1 s), s2, (Drive (d_ftl s2) p3 d3 m3 (d_kernel s2)).
  unfold d_begin_program. change (begin_program_op (d_pools s)) with (begin_op (type_of PR) (d_pools s)).
  rewrite E1. cbn [obind]. unfold d_end_program. rewrite E3. cbn [obind d_ftl d_pools d_mem d_kernel].
  rewrite Hm2, Hn2 in *. split_and!; try done.
  - split; cbn [d_ftl d_nand d_mem]; [done| | | |done].
    + intros kk b. rewrite Hd3. clear - Hp Hm. revert kk b. generalize (nand_page (d_nand s)) Hp. clear Hp.
      induction l as [|x l IH]; intros pg Hpg kk b; cbn [program_pages fold_left]; [apply Hpg|].
      apply IH. intros k' b'. unfold program_page. case_if; [apply Hm|apply Hpg].
    + intros b. rewrite Hm3. apply Hm.
    + intros lpn off Hl Hoff. rewrite Hd3. by apply Hr2.
  - eapply same_side_trans; [exact Hs1|]. by eapply same_side_trans.
Qed.

(** The loop of [__sync_program_pages] is such a list. *)
Definition run_of (start buffer : Z) (n : nat) : list (Z * Z) :=
  map (fun i => (start + Z.of_nat i, buffer + Z.of_nat i * PS)) (seq 0 n).

Lemma run_of_shift start buffer i n :
  map (fun j => (start + Z.of_nat j, buffer + Z.of_nat j * PS)) (seq i (S n)) =
  (start + Z.of_nat i, buffer + Z.of_nat i * PS) ::
  map (fun j => (start + Z.of_nat j, buffer + Z.of_nat j * PS)) (seq (S i) n).
Proof. done. Qed.

Lemma sync_program_loop_list start buffer n i pop s :
  0 <= start -> start + Z.of_nat (i + n) <= 2 ^ 30 -> 0 <= buffer ->
  buffer + Z.of_nat (i + n) * PS <= 2 ^ 32 ->
  sync_program_loop g (S fuel) n pop buffer (Z.of_nat i) (start + Z.of_nat i) s =
  program_list (map (fun j => (start + Z.of_nat j, buffer + Z.of_nat j * PS)) (seq i n)) pop s.
Proof using Hg Heq.
  intros Hs. destruct page_size_pos as (Hp & _). revert i s.
  induction n as [|n IH]; intros i s Hn Hb Hm; [done|].
  rewrite run_of_shift. cbn [sync_program_loop program_list].
  rewrite page_addr_ok by (try lia; nia).
  destruct (program_lpn g (S fuel) pop _ _ s) as [s1|]; cbn [obind]; [|done].
  rewrite u32_id by lia. specialize (IH (S i) s1).
  replace (start + Z.of_nat (S i)) with (start + Z.of_nat i + 1) in IH by lia.
  replace (Z.of_nat (S i)) with (Z.of_nat i + 1) in IH by lia. apply IH; [lia|lia|].
  replace (S i + n)%nat with (i + S n)%nat by lia. done.
Qed.

(** C7: programming logical pages: while enough free pages are left,
    [__sync_program_pages] of at most 128 pages starting at [start] stores the
    buffer in these pages of the disk and changes no other page, no memory and
    no queue; it uses up exactly that many flash pages. *)
Theorem sync_program_pages_writes F k dk start n buffer (s : drive D) :
  disk_rel k dk s -> 0 <= start -> start + n <= TOTAL -> 0 <= n <= 128 -> k + n <= TOTAL ->
  0 <= buffer -> buffer + n * PS <= 2 ^ 32 -> pool_ready PR F (d_pools s) ->
  exists s', sync_program_pages g (S fuel) start n buffer s = Ok (n, s') /\
    disk_rel (k + n)
      (fun lpn off => if in_range n (lpn - start) then d_mem s (buffer + (lpn - start) * PS + off)
                      else dk lpn off) s' /\
    (count_inv g k (d_ftl s) -> count_inv g (k + n) (d_ftl s')) /\
    pool_idle PR F (d_pools s') /\ same_side RD (d_pools s) (d_pools s') /\
    (forall b, d_mem s' b = d_mem s b) /\ d_kernel s' = d_kernel s.
Proof using Hg Heq.
  intros Hr Hs Hn1 Hn Hk Hb Hbm Hpool. pose proof (dims g Hg) as (_ & _ & _ & _ & _ & _ & HT).
  set (ws := run_of start buffer (Z.to_nat n)).
  assert (Hlen : length ws = Z.to_nat n) by (unfold ws, run_of; by rewrite length_map, length_seq).
  destruct (program_list_batch F k dk ws s Hr) as (pop & s1 & s2 & s3 & E1 & Ef1 & E2 & E3 & Hr3 & Hc3 & Hp3 & Hs3 & Hm3 & Hk2 & Hk3);
    [|lia|lia|done|].
  { unfold ws, run_of. apply Forall_forall. intros w Hw. rewrite in_map_iff in Hw.
    destruct Hw as (i & <- & Hi). apply in_seq in Hi. cbn [fst snd]. destruct page_size_pos as (Hps & _). nia. }
  rewrite Hlen, Z2Nat.id in * by lia. exists s3. unfold sync_program_pages. rewrite E1. cbn [obind].
  pose proof (sync_program_loop_list start buffer (Z.to_nat n) 0 pop s1) as El.
  cbn [Nat.add] in El. change (Z.of_nat 0) with 0 in El. rewrite Z.add_0_r, Z2Nat.id in El by lia.
  rewrite El by lia.
  fold (run_of start buffer (Z.to_nat n)). fold ws. rewrite E2. cbn [obind]. rewrite E3. cbn [obind].
  split_and!; try done. destruct Hr3 as [Hi3 Hp3' Hm3' Hr3 Hrd3]. split; try done.
  intros lpn off Hl Ho. rewrite <- (Hr3 lpn off Hl Ho). unfold ws, run_of, write_pages.
  clear - Hn. rewrite <- (Z2Nat.id n) at 1 by lia. generalize (Z.to_nat n) as m. clear.
  induction m as [|m IH].
  - cbn. unfold in_range. case_if; [zify_bools; lia|done].
  - rewrite seq_S, map_app, fold_left_app. cbn [map fold_left Nat.add]. unfold write_page at 1. cbn [fst snd].
    rewrite Nat2Z.inj_succ. unfold Z.succ. destruct (Z.eqb_spec lpn (start + Z.of_nat m)) as [->|Hne].
    + replace (start + Z.of_nat m - start) with (Z.of_nat m) by lia. unfold in_range. by zb.
    + rewrite <- IH. replace (in_range (Z.of_nat m + 1) (lpn - start)) with (in_range (Z.of_nat m) (lpn - start)); [done|].
      apply eq_true_iff_eq. rewrite !in_range_true. lia.
Qed.

(** ** Reading *)

(** The pages of a read that are mapped, and the buffer with the unmapped ones
    cleared. *)
Fixpoint read_list (n : nat) (buffer i lpn : Z) (lpa : Z -> ppa) : list op_page :=
  match n with
  | O => []
  | S n' =>
      (if chn (lpa lpn) =? 255 then [] else [OpPage (lpa lpn) (buffer + i * PS)]) ++
      read_list n' buffer (i + 1) (lpn + 1) lpa
  end.

Fixpoint zero_fill (n : nat) (buffer i lpn : Z) (lpa : Z -> ppa) (m : mem) : mem :=
  match n with
  | O => m
  | S n' =>
      zero_fill n' buffer (i + 1) (lpn + 1) lpa
        (if chn (lpa lpn) =? 255 then memset32 (buffer + i * PS) 0 (HOST_PAGE_SIZE g / 4) m else m)
  end.

(** The page of a buffer an address lies in. *)
Definition page_ix (buffer b : Z) : Z := (b - buffer) / PS.

Lemma page_ix_iff buffer i b :
  buffer + i * PS <= b < buffer + i * PS + PS <-> page_ix buffer b = i.
Proof using Hg Heq.
  destruct page_size_pos as (Hp & _). unfold page_ix.
  pose proof (Z_div_mod_eq_full (b - buffer) PS). pose proof (Z.mod_pos_bound (b - buffer) PS ltac:(lia)).
  split; [|intros <-; nia]. intros Hb. symmetry. apply Z.div_unique with (b - buffer - PS * i); lia.
Qed.

Lemma zero_fill_get n buffer i lpn lpa m b :
  zero_fill n buffer i lpn lpa m b =
    if in_range (Z.of_nat n) (page_ix buffer b - i) && (chn (lpa (lpn + (page_ix buffer b - i))) =? 255)
    then 0 else m b.
Proof using Hg Heq.
  destruct page_size_pos as (Hp & Hq & Hh & _).
  revert i lpn m. induction n as [|n IH]; intros i lpn m; cbn [zero_fill].
  - unfold in_range. case_if; [zify_bools; lia|done].
  - rewrite IH. rewrite Nat2Z.inj_succ. unfold Z.succ.
    pose proof (page_ix_iff buffer i b) as Hx.
    assert (Hz : forall m, memset32 (buffer + i * PS) 0 (HOST_PAGE_SIZE g / 4) m b =
      if page_ix buffer b =? i then 0 else m b).
    { intros m'. unfold memset32. rewrite memset32_zero.
      rewrite Z2Nat.id by (apply Z.div_pos; lia).
      replace (4 * (0 + HOST_PAGE_SIZE g / 4)) with PS by lia. rewrite Z.mul_0_r, Z.add_0_r.
      replace ((buffer + i * PS <=? b) && (b <? buffer + i * PS + PS)) with (page_ix buffer b =? i); [done|].
      apply eq_true_iff_eq. rewrite andb_true_iff, Z.leb_le, Z.ltb_lt, Z.eqb_eq. lia. }
    replace (lpn + 1 + (page_ix buffer b - (i + 1))) with (lpn + (page_ix buffer b - i)) by lia.
    destruct (Z.eqb_spec (page_ix buffer b) i) as [E|E].
    + rewrite E, Z.sub_diag, Z.add_0_r. unfold in_range. replace (i - (i + 1)) with (-1) by lia. zb. cbn [andb].
      by case_if; [rewrite Hz|].
    + replace (in_range (Z.of_nat n + 1) (page_ix buffer b - i)) with (in_range (Z.of_nat n) (page_ix buffer b - (i + 1)))
        by (apply eq_true_iff_eq; rewrite !in_range_true; lia).
      destruct (chn (lpa lpn) =? 255); [rewrite Hz|]; done.
Qed.

Lemma read_pages_app page l1 l2 m :
  read_pages g page (l1 ++ l2) m = read_pages g page l2 (read_pages g page l1 m).
Proof. apply fold_left_app. Qed.

Lemma read_list_get n buffer i lpn lpa page m b :
  read_pages g page (read_list n buffer i lpn lpa) m b =
    if in_range (Z.of_nat n) (page_ix buffer b - i) && negb (chn (lpa (lpn + (page_ix buffer b - i))) =? 255)
    then page (key_of (lpa (lpn + (page_ix buffer b - i)))) ((b - buffer) mod PS) else m b.
Proof using Hg Heq.
  destruct page_size_pos as (Hp & _).
  revert i lpn m. induction n as [|n IH]; intros i lpn m; cbn [read_list].
  - unfold in_range. case_if; [zify_bools; lia|done].
  - rewrite read_pages_app, IH.
    rewrite Nat2Z.inj_succ. unfold Z.succ. pose proof (page_ix_iff buffer i b) as Hx.
    replace (lpn + 1 + (page_ix buffer b - (i + 1))) with (lpn + (page_ix buffer b - i)) by lia.
    destruct (Z.eqb_spec (page_ix buffer b) i) as [E|E].
    + rewrite E, Z.sub_diag, Z.add_0_r. unfold in_range. replace (i - (i + 1)) with (-1) by lia. zb. cbn [andb].
      case_if; [done|]. cbn [negb read_pages fold_left]. unfold read_page; cbn [pg_ssd_addr pg_ppa].
      apply Hx in E. zb. cbn [andb]. f_equal. apply Z.mod_unique with i; lia.
    + replace (in_range (Z.of_nat n + 1) (page_ix buffer b - i)) with (in_range (Z.of_nat n) (page_ix buffer b - (i + 1)))
        by (apply eq_true_iff_eq; rewrite !in_range_true; lia).
      assert (Em : read_pages g page
        (if chn (lpa lpn) =? 255 then [] else [OpPage (lpa lpn) (buffer + i * PS)]) m b = m b); [|by rewrite Em].
      destruct (chn (lpa lpn) =? 255); cbn [read_pages fold_left]; [done|]. unfold read_page; cbn [pg_ssd_addr].
      case_if; [|done]. zify_bools. destruct E. apply Hx. lia.
Qed.

Lemma zero_fill_ok n buffer i lpn lpa m : mem_ok m -> mem_ok (zero_fill n buffer i lpn lpa m).
Proof using Hg Heq.
  intros Hm b. rewrite zero_fill_get. case_if; [split; [lia|done]|apply Hm].
Qed.

Lemma read_list_in n buffer i lpn k s :
  map_inv g k s -> 0 <= lpn -> lpn + Z.of_nat n <= TOTAL -> 0 <= i -> 0 <= buffer ->
  buffer + (i + Z.of_nat n) * PS <= 2 ^ 32 ->
  pages_placed g (read_list n buffer i lpn (lpa_table s)) /\
  (length (read_list n buffer i lpn (lpa_table s)) <= n)%nat.
Proof using Hg Heq.
  destruct page_size_pos as (Hp & _). intros Hi. revert i lpn.
  induction n as [|n IH]; intros i lpn Hl Hn Hi0 Hb Hm; cbn [read_list]; [by split; [apply Forall_nil_2|]|].
  destruct (IH (i + 1) (lpn + 1)) as (IH1 & IH2); [lia|lia|lia|lia|lia|].
  destruct (Z.eqb_spec (chn (lpa_table s lpn)) 255) as [E|E]; cbn [app length].
  - split; [done|lia].
  - split; [|lia]. apply Forall_cons_2; [|done]. split; [by apply (mi_lpa _ _ _ Hi lpn ltac:(lia))|]. cbn [pg_ssd_addr]. nia.
Qed.

(** Each page goes to its own part of the buffer. *)
Lemma read_list_apart n buffer i lpn lpa : buffers_apart g (read_list n buffer i lpn lpa).
Proof using Hg Heq.
  assert (Hx : forall x, In x (read_list n buffer i lpn lpa) -> exists j, x = OpPage (lpa (lpn + (j - i))) (buffer + j * PS)).
  { revert i lpn. induction n as [|n IH]; intros i lpn x; cbn [read_list]; [by intros []|]. rewrite in_app_iff. intros [Hx|Hx].
    - destruct (_ =? 255); [done|]. destruct Hx as [<-|[]]. exists i. by rewrite Z.sub_diag, Z.add_0_r.
    - destruct (IH _ _ _ Hx) as (j & ->). exists j. do 2 f_equal. lia. }
  intros x y a (j & ->)%Hx (j' & ->)%Hx. cbn [pg_ssd_addr]. rewrite !in_range_true. intros H1 H2.
  assert (E1 : page_ix buffer a = j) by (apply page_ix_iff; lia). assert (E2 : page_ix buffer a = j') by (apply page_ix_iff; lia).
  by subst j j'.
Qed.

(** The read loop clears the unmapped pages and collects the others. *)
Lemma sync_read_loop_ok F n buffer i lpn l0 rop k (s : drive D) :
  map_inv g k (d_ftl s) -> 0 <= lpn -> lpn + Z.of_nat n <= TOTAL -> 0 <= i -> 0 <= buffer ->
  buffer + (i + Z.of_nat n) * PS <= 2 ^ 32 -> (length l0 + n <= 128)%nat ->
  op_open RD F rop l0 (d_pools s) -> exists p',
    sync_read_loop g n rop buffer i lpn s =
      Ok (Drive (d_ftl s) p' (d_nand s) (zero_fill n buffer i lpn (lpa_table (d_ftl s)) (d_mem s)) (d_kernel s)) /\
    op_open RD F rop (l0 ++ read_list n buffer i lpn (lpa_table (d_ftl s))) p' /\
    same_side PR (d_pools s) p'.
Proof using Hg Heq.
  pose proof (dims g Hg) as (_ & _ & _ & _ & _ & _ & HT). destruct page_size_pos as (Hp & _).
  revert i lpn l0 s. induction n as [|n IH]; intros i lpn l0 s Hi Hl Hn Hi0 Hb Hbm Hlen Ho.
  - exists (d_pools s). cbn. rewrite app_nil_r. by destruct s.
  - cbn [sync_read_loop]. unfold read_lpn, IS_UNMAPPED_LPA, GET_MAPPED_PPA.
    rewrite (proj2 (in_range_true _ _)) by lia. cbn [obind].
    rewrite page_addr_ok by (try lia; nia). rewrite u32_id by lia.
    cbn [zero_fill read_list]. destruct (chn (lpa_table (d_ftl s) lpn) =? 255) eqn:Eu; cbn [obind].
    + destruct (IH (i + 1) (lpn + 1) l0 (set_d_mem (memset32 (buffer + i * PS) 0 (HOST_PAGE_SIZE g / 4) (d_mem s)) s))
        as (p' & E & Ho' & Hs'); try done; try lia. by exists p'.
    + unfold d_add_page.
      destruct (add_op_page_spec RD F rop l0 (d_pools s) (lpa_table (d_ftl s) lpn) (buffer + i * PS) Ho ltac:(lia))
        as (p1 & E1 & Ho1 & Hs1). rewrite E1. cbn [obind].
      destruct (IH (i + 1) (lpn + 1) (l0 ++ [OpPage (lpa_table (d_ftl s) lpn) (buffer + i * PS)]) (set_d_pools p1 s))
        as (p' & E & Ho' & Hs'); try done; try lia; [rewrite length_app; simpl; lia|].
      exists p'. split; [exact E|]. rewrite <- app_assoc in Ho'. split; [exact Ho'|].
      by eapply same_side_trans.
Qed.

(** What a read delivers at an address of the memory. *)
Definition read_result (dk : disk) (start n buffer : Z) (m : mem) : mem :=
  fun b => if in_range n (page_ix buffer b) then dk (start + page_ix buffer b) ((b - buffer) mod PS) else m b.

(** The batch of a read loop, once its loop is known. *)
Lemma read_batch_end F k dk start n buffer rop p' (s : drive D) :
  disk_rel k dk s -> 0 <= start -> start + Z.of_nat n <= TOTAL ->
  0 <= buffer -> buffer + Z.of_nat n * PS <= 2 ^ 32 ->
  op_open RD F rop (read_list n buffer 0 start (lpa_table (d_ftl s))) p' ->
  exists s', d_end_read g rop (Drive (d_ftl s) p' (d_nand s)
      (zero_fill n buffer 0 start (lpa_table (d_ftl s)) (d_mem s)) (d_kernel s)) = Ok s' /\
    (forall b, d_mem s' b = read_result dk start (Z.of_nat n) buffer (d_mem s) b) /\
    d_ftl s' = d_ftl s /\ d_kernel s' = d_kernel s /\ disk_rel k dk s' /\
    pool_idle RD F (d_pools s') /\ same_side PR p' (d_pools s').
Proof using Hg Heq.
  intros [Hi Hp Hm Hr Hrd] Hs Hn Hb Hbm Ho.
  destruct (read_list_in n buffer 0 start k _ Hi Hs Hn) as (Hin & _); [done|done|lia|].
  pose proof (zero_fill_ok n buffer 0 start (lpa_table (d_ftl s)) (d_mem s) Hm) as Hm0.
  destruct (sync_end_read_spec g Hg F rop _ p' (d_nand s) _ Ho Hrd Hin (read_list_apart _ _ _ _ _) Hm0 Hp)
    as (p3 & d3 & m3 & E3 & Hp3 & Hs3 & Hrd3 & Hd3 & Hm3).
  exists (Drive (d_ftl s) p3 d3 m3 (d_kernel s)). unfold d_end_read. cbn [d_pools d_nand d_mem d_ftl d_kernel].
  rewrite E3. cbn [obind]. split; [done|].
  assert (Hmem : forall b, m3 b = read_result dk start (Z.of_nat n) buffer (d_mem s) b).
  { intros b. rewrite Hm3, read_list_get, zero_fill_get, Z.sub_0_r. unfold read_result.
    destruct (in_range (Z.of_nat n) (page_ix buffer b)) eqn:Er; cbn [andb]; [|done].
    apply in_range_true in Er. rewrite (Hr (start + page_ix buffer b)); [|lia|].
    - by destruct (chn _ =? 255).
    - destruct page_size_pos as (? & _). apply Z.mod_pos_bound. lia. }
  split; [done|]. split_and!; try done. split; cbn [d_ftl d_nand d_mem]; [done| | | |done].
  - intros kk b. rewrite Hd3. apply Hp.
  - intros b. rewrite Hm3, read_list_get. case_if; [apply Hp|apply Hm0].
  - intros lpn off Hl Hoff. rewrite Hd3. by apply Hr.
Qed.

(** C8: reading logical pages: [__sync_read_pages] of at most 128 pages fills the
    buffer with the contents of these pages of the disk, zeros for the ones
    never written, leaves the rest of the memory alone and changes neither
    tables, nor disk, nor queues. *)
Theorem sync_read_pages_reads F k dk start n buffer (s : drive D) :
  disk_rel k dk s -> 0 <= start -> start + n <= TOTAL -> 0 <= n <= 128 ->
  0 <= buffer -> buffer + n * PS <= 2 ^ 32 -> pool_ready RD F (d_pools s) ->
  exists s', sync_read_pages g start n buffer s = Ok (n, s') /\
    (forall b, d_mem s' b = read_result dk start n buffer (d_mem s) b) /\
    disk_rel k dk s' /\ d_ftl s' = d_ftl s /\ d_kernel s' = d_kernel s /\
    pool_idle RD F (d_pools s') /\ same_side PR (d_pools s) (d_pools s').
Proof using Hg Heq.
  intros Hr Hs Hn1 Hn Hb Hbm Hpool.
  destruct (begin_op_spec RD F (d_pools s) Hpool) as (rop & p1 & E1 & Ho & Hs1).
  destruct (sync_read_loop_ok F (Z.to_nat n) buffer 0 start [] rop k (set_d_pools p1 s))
    as (p2 & E2 & Ho2 & Hs2); [apply Hr|done|lia|done|done|rewrite Z2Nat.id by lia; lia|simpl; lia|done|].
  destruct (read_batch_end F k dk start (Z.to_nat n) buffer rop p2 s Hr Hs ltac:(lia) Hb ltac:(rewrite Z2Nat.id by lia; lia) Ho2)
    as (s' & E3 & Hm & Hf & Hk & Hr' & Hp & Hs3).
  exists s'. unfold sync_read_pages, d_begin_read.
  change (begin_read_op (d_pools s)) with (begin_op (type_of RD) (d_pools s)). rewrite E1. cbn [obind].
  rewrite E2. cbn [obind set_d_pools d_ftl d_nand d_mem d_kernel]. rewrite E3. cbn [obind].
  rewrite Z2Nat.id in Hm by lia. split_and!; try done.
  eapply same_side_trans; [exact Hs1|]. by eapply same_side_trans.
Qed.

(** ** Host reads *)

Lemma read_io_loop_ok n rop i lpn req (s : drive D) :
  0 <= i -> i + Z.of_nat n <= Z.of_nat (length (rq_meta_lpn req)) ->
  0 <= lpn -> lpn + Z.of_nat n <= 2 ^ 30 -> exists meta,
    length meta = length (rq_meta_lpn req) /\
    (forall j, 0 <= j < i -> arr_get meta j = arr_get (rq_meta_lpn req) j) /\
    (forall j, i <= j < i + Z.of_nat n -> arr_get meta j = Ok (lpn + (j - i))) /\
    read_io_loop g n rop i lpn req s =
      (let! s' := sync_read_loop g n rop (buffer_addr (rq_dma req)) i lpn s in Ok (set_meta_lpn meta req, s')).
Proof.
  revert i lpn req s. induction n as [|n IH]; intros i lpn req s Hi Hlen Hl Hl2.
  - exists (rq_meta_lpn req). split_and!; try done; [intros; lia|]. cbn. by destruct req.
  - cbn [read_io_loop sync_read_loop].
    pose proof (arr_set_Ok (rq_meta_lpn req) i lpn ltac:(lia)) as Es. rewrite Es. cbn [obind].
    set (req1 := set_meta_lpn (<[Z.to_nat i := lpn]> (rq_meta_lpn req)) req).
    assert (Hl1 : length (rq_meta_lpn req1) = length (rq_meta_lpn req)) by (cbn; apply length_insert).
    assert (Hall : forall s1 : drive D, exists meta,
      length meta = length (rq_meta_lpn req) /\
      (forall j, 0 <= j < i + 1 -> arr_get meta j = arr_get (rq_meta_lpn req1) j) /\
      (forall j, i + 1 <= j < i + 1 + Z.of_nat n -> arr_get meta j = Ok (lpn + 1 + (j - (i + 1)))) /\
      read_io_loop g n rop (i + 1) (lpn + 1) req1 s1 =
        (let! s' := sync_read_loop g n rop (buffer_addr (rq_dma req)) (i + 1) (lpn + 1) s1 in
         Ok (set_meta_lpn meta req1, s'))).
    { intros s1. rewrite <- Hl1. apply (IH (i + 1) (lpn + 1) req1 s1); lia. }
    rewrite u32_id by lia. change (buffer_addr (rq_dma req1)) with (buffer_addr (rq_dma req)).
    destruct (read_lpn g rop (buffer_addr (rq_dma req)) i lpn s) as [s1|]; cbn [obind].
    + destruct (Hall s1) as (meta & Hm1 & Hm2 & Hm3 & ->). exists meta. split_and!; try done.
      * intros j Hj. rewrite Hm2 by lia. eapply arr_get_set_ne; [|exact Es]. lia.
      * intros j Hj. destruct (Z.eq_dec j i) as [->|Hne].
        -- rewrite Hm2 by lia. rewrite Z.sub_diag, Z.add_0_r. exact (arr_get_set_eq _ _ _ _ Es).
        -- rewrite Hm3 by lia. f_equal. lia.
    + destruct (Hall s) as (meta & Hm1 & Hm2 & Hm3 & _). exists meta. split_and!; try done.
      * intros j Hj. rewrite Hm2 by lia. eapply arr_get_set_ne; [|exact Es]. lia.
      * intros j Hj. destruct (Z.eq_dec j i) as [->|Hne].
        -- rewrite Hm2 by lia. rewrite Z.sub_diag, Z.add_0_r. exact (arr_get_set_eq _ _ _ _ Es).
        -- rewrite Hm3 by lia. f_equal. lia.
Qed.

Lemma ftl_read_io_ok F k dk req_ptr req (s : drive D) :
  disk_rel k dk s -> length (rq_meta_lpn req) = 16%nat -> io_nlbs req <= 15 ->
  io_slba req + io_nlbs req + 1 <= TOTAL ->
  0 <= buffer_addr (rq_dma req) -> buffer_addr (rq_dma req) + (io_nlbs req + 1) * PS <= 2 ^ 32 ->
  pool_ready RD F (d_pools s) ->
  queue_ok (d_kernel s) FTL_MODULE_OUT_Q -> (length (queue_contents (d_kernel s) FTL_MODULE_OUT_Q) < 255)%nat ->
  exists req' s', ftl_process_read_io g req_ptr req s = Ok (req', s') /\
    (forall b, d_mem s' b =
       read_result dk (io_slba req) (io_nlbs req + 1) (buffer_addr (rq_dma req)) (d_mem s) b) /\
    disk_rel k dk s' /\ d_ftl s' = d_ftl s /\ rq_nand_io_complete req' = true /\
    rq_stage req' = REQ_STAGE_READING_FLASH /\ rq_dma req' = rq_dma req /\
    (forall i, 0 <= i <= io_nlbs req -> arr_get (rq_meta_lpn req') i = Ok (io_slba req + i)) /\
    queue_contents (d_kernel s') FTL_MODULE_OUT_Q =
      queue_contents (d_kernel s) FTL_MODULE_OUT_Q ++ [ObjEntry req_ptr (rq_type req)] /\
    pool_idle RD F (d_pools s') /\
    same_side PR (d_pools s) (d_pools s') /\
    sys_push_to_nvme req_ptr (rq_type req) (d_kernel s) = Ok (d_kernel s') /\
    (exists meta, length meta = 16%nat /\
       req' = set_nand_io_complete true (set_stage REQ_STAGE_READING_FLASH (set_meta_lpn meta req))).
Proof using Hg Heq.
  intros Hr Hlen Hnl Htot Hb Hbm Hpool Hq Hql.
  pose proof (dims g Hg) as (_ & _ & _ & _ & _ & _ & HT).
  assert (Hsl : fits 64 (io_slba req)) by (apply (field_fits NvmeIOSCmd 8); [auto with cint|reflexivity]).
  assert (Hnf : fits 16 (io_nlbs req)) by (apply (field_fits NvmeIOSCmd 9); [auto with cint|reflexivity]).
  unfold fits in *. set (n := Z.to_nat (io_nlbs req + 1)).
  destruct (begin_op_spec RD F (d_pools s) Hpool) as (rop & p1 & E1 & Ho & Hs1).
  destruct (read_io_loop_ok n rop 0 (io_slba req) (set_stage REQ_STAGE_FTL req) (set_d_pools p1 s))
    as (meta & Hm1 & _ & Hm3 & El); [lia|cbn; lia|lia|lia|].
  change (buffer_addr (rq_dma (set_stage REQ_STAGE_FTL req))) with (buffer_addr (rq_dma req)) in El.
  destruct (sync_read_loop_ok F n (buffer_addr (rq_dma req)) 0 (io_slba req) [] rop k (set_d_pools p1 s))
    as (p2 & E2 & Ho2 & Hs2); [apply Hr|lia|lia|done|done|unfold n; rewrite Z2Nat.id by lia; lia|simpl; lia|done|].
  rewrite E2 in El. cbn [obind set_d_pools d_ftl d_nand d_mem d_kernel] in *.
  destruct (read_batch_end F k dk (io_slba req) n (buffer_addr (rq_dma req)) rop p2 s Hr ltac:(lia) ltac:(lia) Hb ltac:(unfold n; rewrite Z2Nat.id by lia; lia) Ho2)
    as (s' & E3 & Hm & Hf & Hk & Hr' & Hp & Hs3).
  destruct (push_obj_to_queue_spec (d_kernel s) FTL_MODULE_OUT_Q req_ptr (rq_type req) Hq)
    as (k' & _ & _ & _ & _ & [(_ & Ep & Hc)|(Hbad & _)]); [|lia].
  eexists _, (set_d_kernel k' s'). unfold ftl_process_read_io, d_begin_read.
  change (begin_read_op (d_pools s)) with (begin_op (type_of RD) (d_pools s)). rewrite E1. cbn [obind].
  assert (Hu : u32 (io_slba (set_stage REQ_STAGE_FTL req)) = io_slba req) by (apply u32_id; change (io_slba (set_stage REQ_STAGE_FTL req)) with (io_slba req); lia).
  rewrite Hu. change (Z.to_nat (io_nlbs (set_stage REQ_STAGE_FTL req) + 1)) with n. rewrite El. cbn [obind].
  rewrite E3. cbn [obind]. unfold sys_push_to_nvme. rewrite Hk.
  cbn [set_nand_io_complete set_stage set_meta_lpn rq_type]. rewrite Ep. cbn [obind].
  split; [reflexivity|]. cbn [set_d_kernel d_mem d_ftl d_kernel d_pools].
  unfold n in *. rewrite Z2Nat.id in * by lia. split_and!; try done.
  - by destruct Hr'.
  - intros i Hi. cbn [rq_meta_lpn]. rewrite Hm3 by lia. f_equal. lia.
  - eapply same_side_trans; [exact Hs1|]. by eapply same_side_trans.
  - exists meta. split; [by rewrite Hm1|done].
Qed.

(** C11: a host read: for a request of at most 16 pages inside the drive,
    [ftl_process_read_io] fills the request's buffer with the contents of the
    logical pages, records their numbers in the request, marks the flash part
    complete, and sends the request to the NVMe thread's queue. *)
Theorem ftl_process_read_io_reads F k dk req_ptr req (s : drive D) :
  disk_rel k dk s -> length (rq_meta_lpn req) = 16%nat -> io_nlbs req <= 15 ->
  io_slba req + io_nlbs req + 1 <= TOTAL ->
  0 <= buffer_addr (rq_dma req) -> buffer_addr (rq_dma req) + (io_nlbs req + 1) * PS <= 2 ^ 32 ->
  pool_ready RD F (d_pools s) ->
  queue_ok (d_kernel s) FTL_MODULE_OUT_Q -> (length (queue_contents (d_kernel s) FTL_MODULE_OUT_Q) < 255)%nat ->
  exists req' s', ftl_process_read_io g req_ptr req s = Ok (req', s') /\
    (forall b, d_mem s' b =
       read_result dk (io_slba req) (io_nlbs req + 1) (buffer_addr (rq_dma req)) (d_mem s) b) /\
    disk_rel k dk s' /\ d_ftl s' = d_ftl s /\ rq_nand_io_complete req' = true /\
    rq_stage req' = REQ_STAGE_READING_FLASH /\ rq_dma req' = rq_dma req /\
    (forall i, 0 <= i <= io_nlbs req -> arr_get (rq_meta_lpn req') i = Ok (io_slba req + i)) /\
    queue_contents (d_kernel s') FTL_MODULE_OUT_Q =
      queue_contents (d_kernel s) FTL_MODULE_OUT_Q ++ [ObjEntry req_ptr (rq_type req)] /\
    pool_idle RD F (d_pools s').
Proof using Hg Heq.
  intros. destruct (ftl_read_io_ok F k dk req_ptr req s) as (req' & s' & E & H'); [done..|].
  exists req', s'. tauto.
Qed.

(** ** Flushing the write-back cache *)

Definition wbc_list (pages : list wbc_page) : list (Z * Z) :=
  flat_map (fun pg => if wp_valid pg =? 0 then [] else [(wp_lpn pg, wp_ssd_addr pg)]) pages.

(** A page of the request as the loop leaves it: no NAND operation of a valid page
    is complete, an invalid page is skipped. *)
Definition started (pg : wbc_page) : wbc_page :=
  if wp_valid pg =? 0 then pg else WbcPage (wp_lpn pg) (wp_ssd_addr pg) (wp_valid pg) 0.

Lemma wbc_list_started pages : wbc_list (map started pages) = wbc_list pages.
Proof.
  induction pages as [|pg l IH]; [done|]. cbn [map wbc_list flat_map]. unfold started at 1 2 3.
  unfold wbc_list in IH. destruct (wp_valid pg =? 0) eqn:E; cbn [wp_valid wp_lpn wp_ssd_addr]; rewrite E, IH; done.
Qed.

Lemma wbc_loop_ok n pop i w (s : drive D) :
  0 <= i -> i + Z.of_nat n = WBC_PAGES -> length (wb_pages w) = 16%nat -> 0 < wb_num_program_pgs w ->
  wbc_loop g (S fuel) n pop i 0 w s =
    (let! s' := program_list (wbc_list (drop (Z.to_nat i) (wb_pages w))) pop s in
     Ok (set_wb_pages (take (Z.to_nat i) (wb_pages w) ++ map started (drop (Z.to_nat i) (wb_pages w))) w, s')).
Proof.
  revert i w s. induction n as [|n IH]; intros i w s Hi Hn Hlen Hnum.
  - unfold WBC_PAGES, MDTS_PAGES, MAX_LP_TX in *. rewrite drop_ge, take_ge by lia. cbn. rewrite app_nil_r. by destruct w.
  - unfold WBC_PAGES, MDTS_PAGES, MAX_LP_TX in *.
    destruct (arr_get_lookup (wb_pages w) i) as (pg & Eg & Hlk); [lia|].
    cbn [wbc_loop]. unfold WBC_PAGES, MDTS_PAGES, MAX_LP_TX. zb. cbn [andb]. rewrite Eg. cbn [obind].
    rewrite (drop_S _ pg) by done. cbn [wbc_list flat_map map]. unfold started at 1.
    destruct (Z.eqb_spec (wp_valid pg) 0) as [Ev|Ev].
    + cbn [app]. rewrite IH by lia. replace (Z.to_nat (i + 1)) with (S (Z.to_nat i)) by lia.
      by rewrite (take_S_r _ _ pg), <- app_assoc by done.
    + set (pg' := WbcPage (wp_lpn pg) (wp_ssd_addr pg) (wp_valid pg) 0).
      cbn [app program_list]. unfold program_lpn.
      destruct (IS_UNMAPPED_LPA g (wp_lpn pg) (d_ftl s)) as [u|]; cbn [obind]; [|done].
      replace (if u then d_new_mapping g (S fuel) (wp_lpn pg) s else d_new_mapping g (S fuel) (wp_lpn pg) s)
        with (d_new_mapping g (S fuel) (wp_lpn pg) s) by (by destruct u).
      destruct (d_new_mapping g (S fuel) (wp_lpn pg) s) as [[new s1]|]; cbn [obind]; [|done].
      rewrite (arr_set_Ok (wb_pages w) i pg') by lia. cbn [obind].
      destruct (d_add_page pop new (wp_ssd_addr pg) s1) as [s2|]; cbn [obind]; [|done].
      rewrite IH by (cbn [set_wb_pages wb_pages wb_num_program_pgs]; rewrite ?length_insert; lia).
      cbn [set_wb_pages wb_pages]. replace (Z.to_nat (i + 1)) with (S (Z.to_nat i)) by lia.
      rewrite drop_insert_lt by lia. rewrite (take_S_r _ _ pg') by (by rewrite list_lookup_insert_eq by lia).
      by rewrite take_insert_ge, <- app_assoc by lia.
Qed.

Lemma process_wbc_ok F k dk wbc_ptr w (s : drive D) :
  disk_rel k dk s -> length (wb_pages w) = 16%nat -> 0 < wb_num_program_pgs w ->
  writes_ok (wbc_list (wb_pages w)) ->
  k + Z.of_nat (length (wbc_list (wb_pages w))) <= TOTAL -> pool_ready PR F (d_pools s) ->
  queue_ok (d_kernel s) FTL_MODULE_OUT_Q -> (length (queue_contents (d_kernel s) FTL_MODULE_OUT_Q) < 255)%nat ->
  exists w' s', process_wbc g (S fuel) wbc_ptr w s = Ok (w', s') /\
    disk_rel (k + Z.of_nat (length (wbc_list (wb_pages w)))) (write_pages (d_mem s) (wbc_list (wb_pages w)) dk) s' /\
    (count_inv g k (d_ftl s) -> count_inv g (k + Z.of_nat (length (wbc_list (wb_pages w)))) (d_ftl s')) /\
    wb_nand_io_complete w' = true /\ wb_pages w' = map started (wb_pages w) /\
    (forall b, d_mem s' b = d_mem s b) /\
    queue_contents (d_kernel s') FTL_MODULE_OUT_Q =
      queue_contents (d_kernel s) FTL_MODULE_OUT_Q ++ [ObjEntry wbc_ptr (wb_type w)] /\
    pool_idle PR F (d_pools s') /\
    same_side RD (d_pools s) (d_pools s') /\
    sys_push_to_nvme wbc_ptr (wb_type w) (d_kernel s) = Ok (d_kernel s') /\
    wb_type w' = wb_type w /\ length (wb_pages w') = 16%nat.
Proof using Hg.
  intros Hr Hlen Hnum Hall Hk Hpool Hq Hql.
  assert (Hl16 : (length (wbc_list (wb_pages w)) <= 128)%nat).
  { assert (Hx : forall l, (length (wbc_list l) <= length l)%nat); [|specialize (Hx (wb_pages w)); lia].
    clear. induction l as [|x l IH]; cbn [wbc_list flat_map length]; [lia|].
    rewrite length_app. unfold wbc_list in IH. case_if; simpl; lia. }
  destruct (program_list_batch F k dk _ s Hr Hall Hk Hl16 Hpool)
    as (pop & s1 & s2 & s3 & E1 & Ef1 & E2 & E3 & Hr3 & Hc3 & Hp3 & Hs3 & Hm3 & Hk2 & Hk3).
  pose proof (wbc_loop_ok 16 pop 0 (set_wb_complete false w) s1 ltac:(lia) eq_refl Hlen Hnum) as El.
  cbn [set_wb_complete wb_pages] in El. change (drop (Z.to_nat 0) ?x) with x in El.
  change (take (Z.to_nat 0) ?x) with (@nil wbc_page) in El. cbn [app] in El.
  rewrite E2 in El. cbn [obind] in El.
  destruct (push_obj_to_queue_spec (d_kernel s) FTL_MODULE_OUT_Q wbc_ptr (wb_type w) Hq)
    as (k' & _ & _ & _ & _ & [(_ & Ep & Hc)|(Hbad & _)]); [|lia].
  eexists _, (set_d_kernel k' s3). unfold process_wbc. rewrite E1. cbn [obind].
  change (Z.to_nat WBC_PAGES) with 16%nat. rewrite El. cbn [obind]. rewrite E3. cbn [obind].
  unfold sys_push_to_nvme. rewrite Hk3. cbn [set_wb_complete set_wb_pages wb_type]. rewrite Ep. cbn [obind].
  split; [reflexivity|]. cbn [set_d_kernel d_mem d_ftl d_kernel d_pools wb_pages wb_nand_io_complete].
  split_and!; try done; [by destruct Hr3|]. cbn [set_wb_complete set_wb_pages wb_pages]. by rewrite length_map.
Qed.

(** C10: flushing the write-back cache: [process_wbc] stores the buffer of every
    valid page of the request in its logical page, in order, touching no other
    page, clears the completion flag of every valid page (the descriptors are
    otherwise unchanged, those of invalid pages entirely), marks the request complete and
    sends it to the NVMe thread's queue. *)
Theorem process_wbc_writes F k dk wbc_ptr w (s : drive D) :
  disk_rel k dk s -> length (wb_pages w) = 16%nat -> 0 < wb_num_program_pgs w ->
  writes_ok (wbc_list (wb_pages w)) ->
  k + Z.of_nat (length (wbc_list (wb_pages w))) <= TOTAL -> pool_ready PR F (d_pools s) ->
  queue_ok (d_kernel s) FTL_MODULE_OUT_Q -> (length (queue_contents (d_kernel s) FTL_MODULE_OUT_Q) < 255)%nat ->
  exists w' s', process_wbc g (S fuel) wbc_ptr w s = Ok (w', s') /\
    disk_rel (k + Z.of_nat (length (wbc_list (wb_pages w)))) (write_pages (d_mem s) (wbc_list (wb_pages w)) dk) s' /\
    (count_inv g k (d_ftl s) -> count_inv g (k + Z.of_nat (length (wbc_list (wb_pages w)))) (d_ftl s')) /\
    wb_nand_io_complete w' = true /\ wbc_list (wb_pages w') = wbc_list (wb_pages w) /\
    wb_pages w' = map (fun pg => if wp_valid pg =? 0 then pg
                                 else WbcPage (wp_lpn pg) (wp_ssd_addr pg) (wp_valid pg) 0) (wb_pages w) /\
    (forall b, d_mem s' b = d_mem s b) /\
    queue_contents (d_kernel s') FTL_MODULE_OUT_Q =
      queue_contents (d_kernel s) FTL_MODULE_OUT_Q ++ [ObjEntry wbc_ptr (wb_type w)] /\
    pool_idle PR F (d_pools s').
Proof using Hg.
  intros. destruct (process_wbc_ok F k dk wbc_ptr w s) as (w' & s' & E & Hx1 & Hx2 & Hx3 & Ep & H'); [done..|].
  exists w', s'. do 4 (split; [assumption|]). split; [rewrite Ep; apply wbc_list_started|]. split; [exact Ep|]. tauto.
Qed.

(** A drive on a new medium represents the all-zero disk, whatever the flash holds. *)
Lemma new_medium_disk tables_len ps (d : D) m k :
  pages_ok (nand_page d) -> nand_ready g d -> mem_ok m ->
  exists f, new_media g tables_len ftl0 = Ok f /\
    disk_rel 1 (fun _ _ => 0) (Drive (start_search f) ps d m k) /\ count_inv g 1 (start_search f).
Proof using Hg.
  intros Hd Hrd Hm. destruct (new_media_ok g Hg tables_len) as (f & E & Hi & Hc).
  exists f. split; [done|]. split; [|done]. split; cbn [d_ftl d_nand d_mem]; [done..| |done].
  intros lpn off Hl _. assert (El : lpa_table (start_search f) = lpa_table ftl0).
  { unfold new_media in E.
    destruct (SET_RESERVED_PPA _ _ _) as [s1|] eqn:E1; cbn [obind] in E; [|done].
    destruct (INC_VALID_PAGES _ _ s1) as [s2|] eqn:E2; cbn [obind] in E; [|done].
    unfold SET_RESERVED_PPA, SET_MAPPED_LPA in E1. unfold INC_VALID_PAGES, upd_blk in E2.
    repeat case_match; simplify_eq. done. }
  rewrite El. reflexivity.
Qed.

End disk.

(** ** Examples on a small drive with the virtual flash array *)

Definition demo_mem : mem := fun a => u8 a.
Definition demo_drive (f : ftl) : drive vnand :=
  Drive (start_search f) init_pools (VNand (fun _ _ => 0)) demo_mem kernel0.

Lemma demo_drive_ok : exists f, new_media tiny 100 ftl0 = Ok f /\
  disk_rel tiny 1 (fun _ _ => 0) (demo_drive f) /\ count_inv tiny 1 (start_search f).
Proof.
  apply new_medium_disk; [apply tiny_ok|intros k a; exact (u8_fits 0)|exact I|intros a; apply u8_fits].
Qed.

Lemma kernel0_queue_ok qid : 0 <= qid < 16 -> queue_ok kernel0 qid /\ queue_contents kernel0 qid = [].
Proof.
  intros Hq. assert (Hg : arr_get (queues kernel0) qid = Ok obj_queue0).
  { cbn [kernel0 queues]. apply arr_get_Ok. split; [lia|]. apply lookup_replicate_2. lia. }
  split.
  - exists obj_queue0. split; [exact Hg|]. split; [|reflexivity]. vm_compute. repeat split; congruence.
  - unfold queue_contents. rewrite Hg. reflexivity.
Qed.

Lemma sync_program_pages_writes_witness :
  exists f s', sync_program_pages tiny 1 3 2 4096 (demo_drive f) = Ok (2, s') /\
    d_mem s' 5000 = 136 /\ count_inv tiny 3 (d_ftl s').
Proof.
  destruct demo_drive_ok as (f & _ & Hr & Hc).
  destruct (sync_program_pages_writes tiny tiny_ok eq_refl 0 False 1 _ 3 2 4096 (demo_drive f) Hr)
    as (s' & E & Hr' & Hc' & _ & _ & Hm & _).
  - lia.
  - vm_compute. congruence.
  - lia.
  - vm_compute. congruence.
  - lia.
  - vm_compute. congruence.
  - exact init_pools_program.
  - exists f, s'. split; [exact E|]. split; [rewrite Hm; reflexivity|exact (Hc' Hc)].
Defined.

Lemma sync_read_pages_reads_witness :
  exists f s', sync_read_pages tiny 3 2 4096 (demo_drive f) = Ok (2, s') /\
    d_mem s' 4100 = 0 /\ d_mem s' 4095 = 255.
Proof.
  destruct demo_drive_ok as (f & _ & Hr & Hc).
  destruct (sync_read_pages_reads tiny tiny_ok eq_refl True 1 _ 3 2 4096 (demo_drive f) Hr)
    as (s' & E & Hm & _).
  - lia.
  - vm_compute. congruence.
  - lia.
  - lia.
  - vm_compute. congruence.
  - exact init_pools_read.
  - exists f, s'. split; [exact E|]. rewrite !Hm. split; vm_compute; reflexivity.
Defined.

(** A read request for logical pages 3 and 4. *)
Definition demo_read_req : io_req :=
  set_queue_info 1 1 0 (set_field NvmeIOSCmd 9 1 (set_field NvmeIOSCmd 8 3 0)) 0 0
    (set_type_index READ_IO_REQUEST 1 (set_req_dma (set_buffer_addr 4096 dma0) io_req0)).

Lemma ftl_process_read_io_reads_witness :
  exists f req' s', ftl_process_read_io tiny 900 demo_read_req (demo_drive f) = Ok (req', s') /\
    arr_get (rq_meta_lpn req') 1 = Ok 4 /\ queue_contents (d_kernel s') FTL_MODULE_OUT_Q = [ObjEntry 900 2].
Proof.
  destruct demo_drive_ok as (f & _ & Hr & Hc).
  destruct (kernel0_queue_ok FTL_MODULE_OUT_Q) as (Hq & Hqc); [unfold FTL_MODULE_OUT_Q; lia|].
  destruct (ftl_process_read_io_reads tiny tiny_ok eq_refl True 1 _ 900 demo_read_req (demo_drive f) Hr)
    as (req' & s' & E & _ & _ & _ & _ & _ & _ & Hmeta & Hq' & _).
  - reflexivity.
  - vm_compute. congruence.
  - vm_compute. congruence.
  - vm_compute. congruence.
  - vm_compute. congruence.
  - exact init_pools_read.
  - exact Hq.
  - cbn [demo_drive d_kernel]. rewrite Hqc. simpl. lia.
  - exists f, req', s'. split; [exact E|]. split; [exact (Hmeta 1 ltac:(split; vm_compute; congruence))|].
    rewrite Hq'. cbn [demo_drive d_kernel]. rewrite Hqc. reflexivity.
Defined.

(** A cache with two valid pages. *)
Definition demo_wbc : wbc_req :=
  WbcReq WBC_FLUSH_REQUEST 1 0 2 false
    (WbcPage 5 4096 1 0 :: WbcPage 6 4608 1 0 :: replicate 14 (WbcPage 0 0 0 0)).

Lemma process_wbc_writes_witness :
  exists f w' s', process_wbc tiny 1 700 demo_wbc (demo_drive f) = Ok (w', s') /\
    wb_nand_io_complete w' = true /\ count_inv tiny 3 (d_ftl s').
Proof.
  destruct demo_drive_ok as (f & _ & Hr & Hc).
  destruct (kernel0_queue_ok FTL_MODULE_OUT_Q) as (Hq & Hqc); [unfold FTL_MODULE_OUT_Q; lia|].
  destruct (process_wbc_writes tiny tiny_ok 0 False 1 _ 700 demo_wbc (demo_drive f) Hr)
    as (w' & s' & E & _ & Hc' & Hw & _).
  - reflexivity.
  - reflexivity.
  - repeat (apply Forall_cons_2; [vm_compute; repeat split; congruence|]). apply Forall_nil_2.
  - vm_compute. congruence.
  - exact init_pools_program.
  - exact Hq.
  - cbn [demo_drive d_kernel]. rewrite Hqc. simpl. lia.
  - exists f, w', s'. split; [exact E|]. split; [exact Hw|exact (Hc' Hc)].
Defined.
