(* ===== verification/HostIf.v ===== *)
(** * The host interface (include/host_ssd_interface.h, include/iSSDHostIntCmdReg.h,
    SSD_hw_platforms/gem5/extra_sim_objects/iSSDHostInterface.cc, the QEMU patch)

    The circular queues of the memory the simulator shares with the host, the
    command registers, and the transfer protocol between the simulated device
    (its events) and the host's message thread, as two step functions whose
    interleavings are the behaviours of a transfer.  The copy engines of gem5
    ([dmaRead], [dmaWrite]) and of QEMU ([pci_dma_read], [pci_dma_write]) are
    the operations of the class [DmaEngines]. *)

From Stdlib Require Import ZArith Lia Bool List.
From stdpp Require Import base tactics option list functions relations.
From S2P Require Import Prelude CTypes MemUtil.

(** ** Circular queues of the shared memory *)

Record shm_ring (A : Type) := ShmRing { sr_tail : Z; sr_head : Z; sr_list : Z -> A }.
Arguments ShmRing {A}.
Arguments sr_tail {A}.
Arguments sr_head {A}.
Arguments sr_list {A}.

Definition dbUpdateQueueSize : Z := Z.shiftl 1 22.
Definition SSDMsgQueueSize : Z := Z.shiftl 1 10.
Definition INTERFACE_DMA_PAGE_COUNT : Z := SSDMsgQueueSize.
Definition INTERFACE_DMA_PAGE_SIZE : Z := Z.shiftl 1 16.

(** The part the three queues share: the test for room and the two index
    updates.  [fill] is what the queue writes into the slot. *)
Definition shm_full {A} (size : Z) (q : shm_ring A) : bool :=
  sr_head q =? Z.rem (sr_tail q + 1) size.

Definition shm_enQueue {A} (size : Z) (fill : A -> A) (q : shm_ring A) : option Z * shm_ring A :=
  if shm_full size q then (None, q)
  else
    let ix := sr_tail q in
    (Some ix, ShmRing (Z.rem (sr_tail q + 1) size) (sr_head q) (<[ix := fill (sr_list q ix)]> (sr_list q))).

Definition shm_deQueue {A} (size : Z) (q : shm_ring A) : option Z * shm_ring A :=
  if sr_head q =? sr_tail q then (None, q)
  else (Some (sr_head q), ShmRing (sr_tail q) (Z.rem (sr_head q + 1) size) (sr_list q)).

(** ** Command registers *)

Inductive hreg :=
| R_cmd | R_cmdStatus | R_dbUpdate | R_dma_addr_lo | R_dma_addr_hi | R_size | R_buffMgtID
| R_ssdAddr | R_bytesRemaining | R_squeue | R_sqe | R_sqAddr | R_sqeDmaAddr_lo | R_sqeDmaAddr_hi
| R_cqueue | R_cqe | R_cqAddr | R_cqeDmaAddr_lo | R_cqeDmaAddr_hi | R_cqIntVector | R_isr_notify.

#[export] Instance hreg_eq_dec : EqDecision hreg.
Proof. solve_decision. Defined.

Abbreviation hostCmdReg := (hreg -> Z).
Definition hostCmdReg0 : hostCmdReg := fun _ => 0.

(** The [raw] view of the 64-bit registers *)
Definition dma_addr_raw (r : hostCmdReg) : Z := r R_dma_addr_lo + 2 ^ 32 * r R_dma_addr_hi.
Definition sqeDmaAddr_raw (r : hostCmdReg) : Z := r R_sqeDmaAddr_lo + 2 ^ 32 * r R_sqeDmaAddr_hi.
Definition cqeDmaAddr_raw (r : hostCmdReg) : Z := r R_cqeDmaAddr_lo + 2 ^ 32 * r R_cqeDmaAddr_hi.
Definition set_dma_addr_raw (v : Z) (r : hostCmdReg) : hostCmdReg :=
  <[R_dma_addr_lo := lbits v]> (<[R_dma_addr_hi := hbits v]> r).

Definition PCI_DMA_READ : Z := 0x10.
Definition PCI_DMA_WRITE : Z := 0x20.
Definition PCI_DMA_SQ_READ : Z := 0x30.
Definition PCI_DMA_CQ_WRITE : Z := 0x40.
Definition PCI_ENABLE_MSIX_VECTOR : Z := 0x50.

Definition PROCESSING : Z := 0x20000.
Definition COMPLETE : Z := 0x30000.

(** ** Messages, pages and door bells *)

Record ssd_msg := SsdMsg { m_regs : hostCmdReg; msg_ready : bool; m_page_index : Z; msg_index : Z }.
Definition ssd_msg0 : ssd_msg := SsdMsg hostCmdReg0 false 0 0.

(** Only the first [INTERFACE_DMA_PAGE_SIZE] bytes of [page_bytes] exist: the steps
    below refuse a transfer that is longer ([page_over]). *)
Record page_reg := PageReg { data_status : Z; page_index : Z; page_bytes : Z -> Z }.
Definition page_reg0 : page_reg := PageReg 0 0 (fun _ => 0).
Definition data_status_free : Z := 0.
Definition data_status_ready : Z := 1.
Definition data_status_used : Z := 2.
Definition set_data_status v p := PageReg v (page_index p) (page_bytes p).
Definition set_page_bytes v p := PageReg (data_status p) (page_index p) v.

Record dbUpdate := DbUpdate { DoorBell : Z; Qindex : Z; db_value : Z }.

Definition enQueueDBUpdate (item : dbUpdate) (q : shm_ring dbUpdate) : option Z * shm_ring dbUpdate :=
  shm_enQueue dbUpdateQueueSize (fun _ => item) q.
Definition deQueueDBUpdate (q : shm_ring dbUpdate) : option Z * shm_ring dbUpdate :=
  shm_deQueue dbUpdateQueueSize q.

Definition enQueueSSDMsg (command : Z) (q : shm_ring ssd_msg) : option Z * shm_ring ssd_msg :=
  shm_enQueue SSDMsgQueueSize
    (fun m => SsdMsg (<[R_cmd := command]> (m_regs m)) false (m_page_index m) (sr_tail q + 1)) q.
Definition deQueueSSDMsg (q : shm_ring ssd_msg) : option Z * shm_ring ssd_msg :=
  shm_deQueue SSDMsgQueueSize q.

(** [enQueuePageRegister] always hands out the first page: the statements after
    its first [return] are not reached. *)
Definition enQueuePageRegister (l : Z -> page_reg) : Z * (Z -> page_reg) :=
  (0, <[0 := PageReg data_status_free 1 (page_bytes (l 0))]> l).

Definition deQueuePageRegister (q : shm_ring page_reg) : option Z * shm_ring page_reg :=
  shm_deQueue INTERFACE_DMA_PAGE_COUNT q.

Definition getPageRegister (page_index : Z) : option Z :=
  if (page_index <=? 0) || (INTERFACE_DMA_PAGE_COUNT <? page_index) then None
  else Some (page_index - 1).

(** ** The copy engines *)

(** Bytes [addr, addr + size) of a memory, written over the first [size] bytes
    of a page, and the converse. *)
Class DmaEngines := {
  pci_dma_read : mem -> Z -> Z -> (Z -> Z) -> (Z -> Z);
  pci_dma_write : mem -> Z -> (Z -> Z) -> Z -> mem;
  dmaRead : mem -> Z -> Z -> (Z -> Z) -> (Z -> Z);
  dmaWrite : mem -> Z -> (Z -> Z) -> Z -> mem;
  pci_dma_read_bytes h addr size page i :
    pci_dma_read h addr size page i = if in_range size i then h (addr + i) else page i;
  pci_dma_write_bytes h addr page size a :
    pci_dma_write h addr page size a = if in_range size (a - addr) then page (a - addr) else h a;
  dmaRead_bytes m addr size page i :
    dmaRead m addr size page i = if in_range size i then m (addr + i) else page i;
  dmaWrite_bytes m addr page size a :
    dmaWrite m addr page size a = if in_range size (a - addr) then page (a - addr) else m a }.

(** ** The device and the host's message thread *)

(** The device event that is scheduled, with the message slot it carries. *)
Inductive dev_event :=
| DevIdle
| Event_read_host_complete (msg : Z)
| Event_write_ssd_complete (msg : Z)
| Event_read_ssd_complete (msg : Z)
| Event_write_host_complete (msg : Z).

(** Where the host's [ssd_msg_check_thread] is: polling the queue, or holding a
    message. *)
Inductive host_thread := HPolling | HGot (msg : Z).

Record hif := Hif {
  hi_regs : hostCmdReg; hi_msgs : shm_ring ssd_msg; hi_pages : Z -> page_reg;
  hi_ssd : mem; hi_host : mem; hi_dev : dev_event; hi_thr : host_thread;
  hi_irqs : list Z }.

Definition set_regs v h := Hif v (hi_msgs h) (hi_pages h) (hi_ssd h) (hi_host h) (hi_dev h) (hi_thr h) (hi_irqs h).
Definition set_page (i : Z) (p : page_reg) h :=
  Hif (hi_regs h) (hi_msgs h) (<[i := p]> (hi_pages h)) (hi_ssd h) (hi_host h) (hi_dev h) (hi_thr h) (hi_irqs h).
Definition set_ssd v h := Hif (hi_regs h) (hi_msgs h) (hi_pages h) v (hi_host h) (hi_dev h) (hi_thr h) (hi_irqs h).
Definition set_host v h := Hif (hi_regs h) (hi_msgs h) (hi_pages h) (hi_ssd h) v (hi_dev h) (hi_thr h) (hi_irqs h).
Definition set_dev v h := Hif (hi_regs h) (hi_msgs h) (hi_pages h) (hi_ssd h) (hi_host h) v (hi_thr h) (hi_irqs h).
Definition set_thr v h := Hif (hi_regs h) (hi_msgs h) (hi_pages h) (hi_ssd h) (hi_host h) (hi_dev h) v (hi_irqs h).
Definition set_msgs v h := Hif (hi_regs h) v (hi_pages h) (hi_ssd h) (hi_host h) (hi_dev h) (hi_thr h) (hi_irqs h).
Definition add_irq v h :=
  Hif (hi_regs h) (hi_msgs h) (hi_pages h) (hi_ssd h) (hi_host h) (hi_dev h) (hi_thr h) (hi_irqs h ++ [v]).
Definition set_reg (r : hreg) (v : Z) h := set_regs (<[r := v]> (hi_regs h)) h.

Definition msg_at (h : hif) (ix : Z) : ssd_msg := sr_list (hi_msgs h) ix.

(** The registers a message carries, by the command that sends it. *)
Definition msg_registers (R : hostCmdReg) (m : hostCmdReg) : outcome hostCmdReg :=
  let cmd := m R_cmd in
  if (cmd =? PCI_DMA_READ) || (cmd =? PCI_DMA_WRITE) then
    Ok (<[R_size := R R_size]> (<[R_ssdAddr := R R_ssdAddr]> (set_dma_addr_raw (dma_addr_raw R) m)))
  else if cmd =? PCI_DMA_SQ_READ then
    Ok (<[R_sqe := R R_sqe]> (<[R_squeue := R R_squeue]> (<[R_size := 64]>
         (<[R_ssdAddr := R R_sqAddr]>
            (set_dma_addr_raw (u64 (sqeDmaAddr_raw R + u32 (R R_sqe * 64))) m)))))
  else if cmd =? PCI_DMA_CQ_WRITE then
    Ok (<[R_isr_notify := R R_isr_notify]> (<[R_cqIntVector := R R_cqIntVector]>
         (<[R_cqueue := R R_cqueue]> (<[R_cqe := R R_cqe]> (<[R_size := 16]>
           (<[R_ssdAddr := R R_cqAddr]>
              (set_dma_addr_raw (u64 (cqeDmaAddr_raw R + u32 (R R_cqe * 16))) m)))))))
  else Fault FShutdown.

(** [start_read_host] and [start_write_host]; a full message queue panics. *)
Definition start_host (event : Z -> dev_event) (h : hif) : outcome hif :=
  let '(pg, pages) := enQueuePageRegister (hi_pages h) in
  match enQueueSSDMsg (hi_regs h R_cmd) (hi_msgs h) with
  | (None, _) => Fault FShutdown
  | (Some ix, q) =>
      let m := sr_list q ix in
      let! regs := msg_registers (hi_regs h) (m_regs m) in
      let m' := SsdMsg regs true (page_index (pages pg)) (msg_index m) in
      Ok (Hif (<[R_cmdStatus := PROCESSING]> (hi_regs h))
            (ShmRing (sr_tail q) (sr_head q) (<[ix := m']> (sr_list q)))
            pages (hi_ssd h) (hi_host h) (event ix) (hi_thr h) (hi_irqs h))
  end.

Definition enable_msix_on_hostcpu (h : hif) : outcome hif :=
  match enQueueSSDMsg (hi_regs h R_cmd) (hi_msgs h) with
  | (None, _) => Fault FShutdown
  | (Some ix, q) =>
      let m := sr_list q ix in
      let m' := SsdMsg (<[R_cqIntVector := hi_regs h R_cqIntVector]> (m_regs m)) true
                  (m_page_index m) (msg_index m) in
      Ok (set_reg R_cmdStatus COMPLETE
            (set_msgs (ShmRing (sr_tail q) (sr_head q) (<[ix := m']> (sr_list q))) h))
  end.

(** A register write of the firmware.  [INIT] and [HOST_CONNECTION_STATUS] are
    boot commands and are not part of this model. *)
Definition write (r : hreg) (data : Z) (h : hif) : outcome hif :=
  let h := set_reg r (u32 data) h in
  match r with
  | R_cmd =>
      let cmd := u32 data in
      if (cmd =? PCI_DMA_READ) || (cmd =? PCI_DMA_SQ_READ) then start_host Event_read_host_complete h
      else if (cmd =? PCI_DMA_WRITE) || (cmd =? PCI_DMA_CQ_WRITE) then
        start_host Event_read_ssd_complete h
      else if cmd =? PCI_ENABLE_MSIX_VECTOR then enable_msix_on_hostcpu h
      else Fault FShutdown
  | _ => Ok h
  end.

Section steps.
Context `{DmaEngines}.

Definition msg_page (m : ssd_msg) (h : hif) : option (Z * page_reg) :=
  match getPageRegister (m_page_index m) with
  | Some i => Some (i, hi_pages h i)
  | None => None
  end.

(** [data] of a page register has [INTERFACE_DMA_PAGE_SIZE] bytes, and no copy
    checks the size the message names: a longer one has no defined result, so
    that neither thread has a step for it. *)
Definition page_over (m : ssd_msg) : bool := INTERFACE_DMA_PAGE_SIZE <? m_regs m R_size.

(** The scheduled event of the device.  [None]: nothing is scheduled, the event
    spins on the page's status, or the copy would leave the page. *)
Definition dev_step (h : hif) : option hif :=
  match hi_dev h with
  | DevIdle => None
  | Event_read_host_complete ix =>
      let m := msg_at h ix in
      match msg_page m h with
      | Some (_, p) =>
          if data_status p =? data_status_ready then
            if page_over m then None
            else
              Some (set_dev (Event_write_ssd_complete ix)
                      (set_ssd (dmaWrite (hi_ssd h) (m_regs m R_ssdAddr) (page_bytes p) (m_regs m R_size)) h))
          else None
      | None => None
      end
  | Event_write_ssd_complete ix =>
      match msg_page (msg_at h ix) h with
      | Some (i, p) =>
          Some (set_dev DevIdle (set_reg R_cmdStatus COMPLETE
                  (set_page i (set_data_status data_status_used p) h)))
      | None => None
      end
  | Event_read_ssd_complete ix =>
      let m := msg_at h ix in
      match msg_page m h with
      | Some (i, p) =>
          let data := dmaRead (hi_ssd h) (m_regs m R_ssdAddr) (m_regs m R_size) (page_bytes p) in
          if page_over m then None
          else
            Some (set_dev (Event_write_host_complete ix)
                    (set_page i (set_data_status data_status_ready (set_page_bytes data p)) h))
      | None => None
      end
  | Event_write_host_complete ix =>
      match msg_page (msg_at h ix) h with
      | Some (_, p) =>
          if data_status p =? data_status_used then
            Some (set_dev DevIdle (set_reg R_cmdStatus COMPLETE h))
          else None
      | None => None
      end
  end.

(** The host thread: take a message, or serve the one it holds. *)
Definition host_step (h : hif) : option hif :=
  match hi_thr h with
  | HPolling =>
      match deQueueSSDMsg (hi_msgs h) with
      | (None, _) => None
      | (Some ix, q) => Some (set_thr (HGot ix) (set_msgs q h))
      end
  | HGot ix =>
      let m := msg_at h ix in
      let cmd := m_regs m R_cmd in
      if negb (msg_ready m) then None
      else if (cmd =? PCI_DMA_READ) || (cmd =? PCI_DMA_SQ_READ) then
        match msg_page m h with
        | Some (i, p) =>
            let data := pci_dma_read (hi_host h) (dma_addr_raw (m_regs m)) (m_regs m R_size) (page_bytes p) in
            if page_over m then None
            else
              Some (set_thr HPolling
                      (set_page i (set_data_status data_status_ready (set_page_bytes data p)) h))
        | None => None
        end
      else if (cmd =? PCI_DMA_WRITE) || (cmd =? PCI_DMA_CQ_WRITE) then
        match msg_page m h with
        | Some (i, p) =>
            if page_over m then None
            else if data_status p =? data_status_ready then
              let h := set_host (pci_dma_write (hi_host h) (dma_addr_raw (m_regs m)) (page_bytes p)
                                   (m_regs m R_size)) h in
              let h := set_page i (set_data_status data_status_used p) h in
              let h := if (cmd =? PCI_DMA_CQ_WRITE) && negb (m_regs m R_isr_notify =? 0) then
                         add_irq (m_regs m R_cqIntVector) h else h in
              Some (set_thr HPolling h)
            else None
        | None => None
        end
      else Some (set_thr HPolling h)
  end.

#[local] Arguments page_over : simpl never.

Inductive step : hif -> hif -> Prop :=
| step_dev h h' : dev_step h = Some h' -> step h h'
| step_host h h' : host_step h = Some h' -> step h h'.

(** ** The firmware's polling loop

    [getReg(cmdStatus)] until [COMPLETE], the device and the host running
    between two reads.  [sched] chooses which of them runs: [true] the device. *)
Definition env_step (dev_first : bool) (h : hif) : hif :=
  if dev_first then default h (dev_step h) else default h (host_step h).

Fixpoint wait_complete (sched : list bool) (h : hif) : outcome hif :=
  if hi_regs h R_cmdStatus =? COMPLETE then Ok h
  else
    match sched with
    | [] => Fault FFuel
    | b :: sched => wait_complete sched (env_step b h)
    end.

End steps.

(** ** Phases of a transfer

    What holds of the interface between two steps of a transfer that began in
    [h0]: where the device and the host thread are, whether the message [M] is
    still queued in slot [ix], the status and bytes of the page, both memories,
    the interrupts raised and the command status. *)
Record at_phase (h0 : hif) (ix : Z) (M : ssd_msg) (dev : dev_event) (thr : host_thread) (queued : bool)
  (pst : Z) (bytes_ok : (Z -> Z) -> Prop) (ssd host : Z -> Z) (irqs : list Z) (st : Z) (h : hif) : Prop := {
  ap_dev : hi_dev h = dev;
  ap_thr : hi_thr h = thr;
  ap_msg : msg_at h ix = M;
  ap_tail : sr_tail (hi_msgs h) = Z.rem (ix + 1) SSDMsgQueueSize;
  ap_head : sr_head (hi_msgs h) = if queued then ix else Z.rem (ix + 1) SSDMsgQueueSize;
  ap_status : data_status (hi_pages h 0) = pst;
  ap_bytes : bytes_ok (page_bytes (hi_pages h 0));
  ap_ssd : forall a, hi_ssd h a = ssd a;
  ap_host : forall a, hi_host h a = host a;
  ap_irqs : hi_irqs h = irqs;
  ap_cmdStatus : hi_regs h R_cmdStatus = st;
  ap_regs : forall r, r <> R_cmdStatus -> hi_regs h r = hi_regs h0 r }.

Definition msg_addr (M : ssd_msg) : Z := dma_addr_raw (m_regs M).
Definition msg_ssd (M : ssd_msg) : Z := m_regs M R_ssdAddr.
Definition msg_size (M : ssd_msg) : Z := m_regs M R_size.

(** The memories after [M] has been carried out. *)
Definition moved (src : mem) (from to size : Z) (dst : mem) (a : Z) : Z :=
  if in_range size (a - to) then src (from + (a - to)) else dst a.
Definition ssd_after (h0 : hif) (M : ssd_msg) : Z -> Z :=
  moved (hi_host h0) (msg_addr M) (msg_ssd M) (msg_size M) (hi_ssd h0).
Definition host_after (h0 : hif) (M : ssd_msg) : Z -> Z :=
  moved (hi_ssd h0) (msg_ssd M) (msg_addr M) (msg_size M) (hi_host h0).
Definition irqs_after (h0 : hif) (M : ssd_msg) : list Z :=
  if (m_regs M R_cmd =? PCI_DMA_CQ_WRITE) && negb (m_regs M R_isr_notify =? 0)
  then hi_irqs h0 ++ [m_regs M R_cqIntVector] else hi_irqs h0.

Definition page_holds (src : mem) (from size : Z) (bytes : Z -> Z) : Prop :=
  forall i, in_range size i = true -> bytes i = src (from + i).
Definition any_bytes (_ : Z -> Z) : Prop := True.

(** [n] is the number of steps that are left. *)
Definition read_phase (h0 : hif) (ix : Z) (M : ssd_msg) (n : nat) : hif -> Prop :=
  let ph := at_phase h0 ix M in
  let filled := page_holds (hi_host h0) (msg_addr M) (msg_size M) in
  match n with
  | 4%nat => ph (Event_read_host_complete ix) HPolling true data_status_free any_bytes
               (hi_ssd h0) (hi_host h0) (hi_irqs h0) PROCESSING
  | 3%nat => ph (Event_read_host_complete ix) (HGot ix) false data_status_free any_bytes
               (hi_ssd h0) (hi_host h0) (hi_irqs h0) PROCESSING
  | 2%nat => ph (Event_read_host_complete ix) HPolling false data_status_ready filled
               (hi_ssd h0) (hi_host h0) (hi_irqs h0) PROCESSING
  | 1%nat => ph (Event_write_ssd_complete ix) HPolling false data_status_ready any_bytes
               (ssd_after h0 M) (hi_host h0) (hi_irqs h0) PROCESSING
  | 0%nat => ph DevIdle HPolling false data_status_used any_bytes
               (ssd_after h0 M) (hi_host h0) (hi_irqs h0) COMPLETE
  | _ => fun _ => False
  end.

Definition write_phase (h0 : hif) (ix : Z) (M : ssd_msg) (n : nat) (h : hif) : Prop :=
  let ph := at_phase h0 ix M in
  let filled := page_holds (hi_ssd h0) (msg_ssd M) (msg_size M) in
  match n with
  | 4%nat => ph (Event_read_ssd_complete ix) HPolling true data_status_free any_bytes
               (hi_ssd h0) (hi_host h0) (hi_irqs h0) PROCESSING h
  | 3%nat => ph (Event_read_ssd_complete ix) (HGot ix) false data_status_free any_bytes
               (hi_ssd h0) (hi_host h0) (hi_irqs h0) PROCESSING h
             \/ ph (Event_write_host_complete ix) HPolling true data_status_ready filled
               (hi_ssd h0) (hi_host h0) (hi_irqs h0) PROCESSING h
  | 2%nat => ph (Event_write_host_complete ix) (HGot ix) false data_status_ready filled
               (hi_ssd h0) (hi_host h0) (hi_irqs h0) PROCESSING h
  | 1%nat => ph (Event_write_host_complete ix) HPolling false data_status_used any_bytes
               (hi_ssd h0) (host_after h0 M) (irqs_after h0 M) PROCESSING h
  | 0%nat => ph DevIdle HPolling false data_status_used any_bytes
               (hi_ssd h0) (host_after h0 M) (irqs_after h0 M) COMPLETE h
  | _ => False
  end.

Definition msg_wf (ix : Z) (M : ssd_msg) : Prop :=
  in_range SSDMsgQueueSize ix = true /\ m_page_index M = 1 /\ msg_ready M = true.
Definition is_read_cmd (c : Z) : bool := (c =? PCI_DMA_READ) || (c =? PCI_DMA_SQ_READ).
Definition is_write_cmd (c : Z) : bool := (c =? PCI_DMA_WRITE) || (c =? PCI_DMA_CQ_WRITE).

Lemma next_slot_ne ix : in_range SSDMsgQueueSize ix = true -> Z.rem (ix + 1) SSDMsgQueueSize <> ix.
Proof.
  intros Hr. apply in_range_true in Hr. change SSDMsgQueueSize with 1024 in *.
  destruct (Z.eq_dec ix 1023) as [->|Hne]; [vm_compute; discriminate|].
  rewrite Z.rem_small by lia. lia.
Qed.

Section phases.
Context `{DmaEngines}.
Context (h0 : hif) (ix : Z) (M : ssd_msg) (Hwf : msg_wf ix M).

Lemma msg_page_M h : msg_at h ix = M -> msg_page (msg_at h ix) h = Some (0, hi_pages h 0).
Proof.
  intros ->. destruct Hwf as (_ & Hp & _). unfold msg_page. by rewrite Hp.
Qed.


Lemma step_cases h h' : step h h' -> dev_step h = Some h' \/ host_step h = Some h'.
Proof. destruct 1; auto. Qed.

(** [queued] decides whether the host thread finds the message. *)
Lemma deQueue_M h q :
  sr_tail (hi_msgs h) = Z.rem (ix + 1) SSDMsgQueueSize ->
  sr_head (hi_msgs h) = (if q : bool then ix else Z.rem (ix + 1) SSDMsgQueueSize) ->
  deQueueSSDMsg (hi_msgs h) =
    if q then (Some ix, ShmRing (sr_tail (hi_msgs h)) (Z.rem (ix + 1) SSDMsgQueueSize) (sr_list (hi_msgs h)))
    else (None, hi_msgs h).
Proof.
  intros Ht Hh. unfold deQueueSSDMsg, shm_deQueue. rewrite Ht, Hh. destruct q.
  - destruct (Z.eqb_spec ix (Z.rem (ix + 1) SSDMsgQueueSize)) as [E|E]; [|done].
    destruct Hwf as (Hr & _). pose proof (next_slot_ne ix Hr). congruence.
  - by rewrite Z.eqb_refl.
Qed.

Ltac in_phase P :=
  destruct P as [Pdev Pthr Pmsg Ptail Phead Pst Pbytes Pssd Phost Pirqs Pcmd Pregs].

Ltac eval_step Hs :=
  unfold dev_step, host_step in Hs;
  repeat first
    [ match goal with Hd : hi_dev _ = _ |- _ => rewrite Hd in Hs end
    | match goal with Ht : hi_thr _ = _ |- _ => rewrite Ht in Hs end
    | match goal with Hm : msg_at _ _ = _ |- _ => rewrite (msg_page_M _ Hm) in Hs end
    | match goal with Hm : msg_at _ _ = _ |- _ => rewrite Hm in Hs end
    | match goal with Hp : data_status _ = _ |- _ => rewrite Hp in Hs end
    | match goal with
      | Ht : sr_tail (hi_msgs _) = _, Hh : sr_head (hi_msgs _) = Z.rem _ _ |- _ =>
          rewrite (deQueue_M _ false Ht Hh) in Hs
      | Ht : sr_tail (hi_msgs _) = _, Hh : sr_head (hi_msgs _) = ix |- _ =>
          rewrite (deQueue_M _ true Ht Hh) in Hs
      end
    | rewrite Z.eqb_refl in Hs
    | progress simpl in Hs ].

Ltac split_over E :=
  try match type of E with context [page_over ?m] => destruct (page_over m); [discriminate E|] end.

Ltac close_phase :=
  split; simpl; unfold any_bytes, msg_at, set_reg, set_regs in *; simpl;
  rewrite ?fn_lookup_insert; simpl; try done;
  try (intros; rewrite fn_lookup_insert_ne by congruence; auto).

Lemma read_step n h h' :
  is_read_cmd (m_regs M R_cmd) = true ->
  read_phase h0 ix M (S n) h -> step h h' -> read_phase h0 ix M n h'.
Proof.
  intros Hc Hp Hs. unfold is_read_cmd in Hc.
  destruct Hwf as (_ & _ & Hready).
  destruct n as [|[|[|[|n]]]]; [..|done].
  all: in_phase Hp; apply step_cases in Hs as [E|E]; eval_step E; try discriminate E;
    rewrite ?Hready, ?Hc in E; eval_step E; try discriminate E;
    split_over E; eval_step E; try discriminate E; injection E as <-.
  - close_phase.
  - close_phase. intros a. rewrite dmaWrite_bytes. unfold ssd_after, moved.
    destruct (in_range _ _) eqn:R; [apply Pbytes, R|apply Pssd].
  - close_phase. intros i R. rewrite pci_dma_read_bytes. change (m_regs M R_size) with (msg_size M).
    rewrite R. apply Phost.
  - close_phase.
Qed.

Lemma write_not_read c : is_write_cmd c = true -> (c =? PCI_DMA_READ) || (c =? PCI_DMA_SQ_READ) = false.
Proof.
  unfold is_write_cmd. rewrite orb_true_iff, !Z.eqb_eq. by intros [-> | ->].
Qed.

Lemma write_step n h h' :
  is_write_cmd (m_regs M R_cmd) = true ->
  write_phase h0 ix M (S n) h -> step h h' -> write_phase h0 ix M n h'.
Proof.
  intros Hc Hp Hs. pose proof (write_not_read _ Hc) as Hc'. unfold is_write_cmd in Hc.
  destruct Hwf as (_ & _ & Hready).
  destruct n as [|[|[|[|n]]]]; [..|done].
  3: destruct Hp as [Hp|Hp].
  all: in_phase Hp; apply step_cases in Hs as [E|E]; eval_step E; try discriminate E;
    rewrite ?Hready, ?Hc', ?Hc in E; eval_step E; try discriminate E;
    split_over E; eval_step E; try discriminate E; injection E as <-.
  - close_phase.
  - destruct (_ && _) eqn:B; close_phase; rewrite ?Pirqs; try by (unfold irqs_after; rewrite B).
    all: intros a; rewrite pci_dma_write_bytes; unfold host_after, moved;
      change (dma_addr_raw (m_regs M)) with (msg_addr M);
      change (m_regs M R_size) with (msg_size M);
      destruct (in_range _ _) eqn:R; [apply Pbytes, R|apply Phost].
  - close_phase. intros i R. rewrite dmaRead_bytes. change (m_regs M R_size) with (msg_size M).
    rewrite R. apply Pssd.
  - close_phase.
  - right. close_phase. intros i R. rewrite dmaRead_bytes. change (m_regs M R_size) with (msg_size M).
    rewrite R. apply Pssd.
  - left. close_phase.
Qed.

Ltac show_step :=
  repeat first
    [ match goal with Hov : page_over _ = false |- _ => rewrite Hov end
    | match goal with Hd : hi_dev _ = _ |- _ => rewrite Hd end
    | match goal with Ht : hi_thr _ = _ |- _ => rewrite Ht end
    | match goal with Hm : msg_at _ _ = _ |- _ => rewrite (msg_page_M _ Hm) end
    | match goal with Hm : msg_at _ _ = _ |- _ => rewrite Hm end
    | match goal with Hp : data_status _ = _ |- _ => rewrite Hp end
    | match goal with
      | Ht : sr_tail (hi_msgs _) = _, Hh : sr_head (hi_msgs _) = ix |- _ =>
          rewrite (deQueue_M _ true Ht Hh)
      end
    | rewrite Z.eqb_refl
    | progress simpl ].

Lemma read_progress n h :
  is_read_cmd (m_regs M R_cmd) = true -> page_over M = false ->
  read_phase h0 ix M (S n) h -> exists h', step h h'.
Proof.
  intros Hc Hov Hp. unfold is_read_cmd in Hc. destruct Hwf as (_ & _ & Hready).
  destruct n as [|[|[|[|n]]]]; [..|done]; in_phase Hp; eexists.
  - apply step_dev. unfold dev_step. show_step. done.
  - apply step_dev. unfold dev_step. show_step. done.
  - apply step_host. unfold host_step. show_step. rewrite Hready, Hc. show_step. done.
  - apply step_host. unfold host_step. show_step. done.
Qed.

Lemma write_progress n h :
  is_write_cmd (m_regs M R_cmd) = true -> page_over M = false ->
  write_phase h0 ix M (S n) h -> exists h', step h h'.
Proof.
  intros Hc Hov Hp. pose proof (write_not_read _ Hc) as Hc'. unfold is_write_cmd in Hc.
  destruct Hwf as (_ & _ & Hready).
  destruct n as [|[|[|[|n]]]]; [..|done].
  3: destruct Hp as [Hp|Hp].
  all: in_phase Hp; eexists.
  - apply step_dev. unfold dev_step. show_step. done.
  - apply step_host. unfold host_step. show_step. rewrite Hready, Hc', Hc. show_step. done.
  - apply step_dev. unfold dev_step. show_step. done.
  - apply step_host. unfold host_step. show_step. done.
  - apply step_dev. unfold dev_step. show_step. done.
Qed.

(** Once the command is complete nothing moves. *)
Lemma done_no_step bytes ssd host irqs h h' :
  at_phase h0 ix M DevIdle HPolling false data_status_used bytes ssd host irqs COMPLETE h -> ~ step h h'.
Proof.
  intros Hp Hs. in_phase Hp. apply step_cases in Hs as [E|E]; eval_step E; discriminate.
Qed.

End phases.

(** ** From the command write to its completion *)

Definition quiescent (h : hif) : Prop :=
  hi_dev h = DevIdle /\ hi_thr h = HPolling /\ sr_head (hi_msgs h) = sr_tail (hi_msgs h)
  /\ in_range SSDMsgQueueSize (sr_tail (hi_msgs h)) = true /\ (forall r, fits 32 (hi_regs h r)).

(** What a command transfers: host address, address in the drive, bytes. *)
Definition cmd_xfer (R : hostCmdReg) (c : Z) : Z * Z * Z :=
  if c =? PCI_DMA_SQ_READ then (u64 (sqeDmaAddr_raw R + u32 (R R_sqe * 64)), R R_sqAddr, 64)
  else if c =? PCI_DMA_CQ_WRITE then (u64 (cqeDmaAddr_raw R + u32 (R R_cqe * 16)), R R_cqAddr, 16)
  else (dma_addr_raw R, R R_ssdAddr, R R_size).

(** What fits the page the two threads share. *)
Definition xfer_fits (c : Z) (R : hostCmdReg) : Prop := snd (cmd_xfer R c) <= INTERFACE_DMA_PAGE_SIZE.

(** The entries of the queues do. *)
Lemma xfer_fits_sq R : xfer_fits PCI_DMA_SQ_READ R.
Proof. unfold xfer_fits, cmd_xfer. rewrite Z.eqb_refl. vm_compute. congruence. Qed.

Lemma xfer_fits_cq R : xfer_fits PCI_DMA_CQ_WRITE R.
Proof.
  unfold xfer_fits, cmd_xfer. change (PCI_DMA_CQ_WRITE =? PCI_DMA_SQ_READ) with false. rewrite Z.eqb_refl.
  vm_compute. congruence.
Qed.

Record dma_done (c : Z) (h h' : hif) : Prop := {
  dd_quiescent : quiescent h';
  dd_complete : hi_regs h' R_cmdStatus = COMPLETE;
  dd_regs : forall r, r <> R_cmdStatus -> r <> R_cmd -> hi_regs h' r = hi_regs h r;
  dd_ssd : forall a, hi_ssd h' a =
    (let '(addr, ssd, size) := cmd_xfer (hi_regs h) c in
     if is_read_cmd c then moved (hi_host h) addr ssd size (hi_ssd h) a else hi_ssd h a);
  dd_host : forall a, hi_host h' a =
    (let '(addr, ssd, size) := cmd_xfer (hi_regs h) c in
     if is_write_cmd c then moved (hi_ssd h) ssd addr size (hi_host h) a else hi_host h a);
  dd_irqs : hi_irqs h' =
    if (c =? PCI_DMA_CQ_WRITE) && negb (hi_regs h R_isr_notify =? 0)
    then hi_irqs h ++ [hi_regs h R_cqIntVector] else hi_irqs h }.

Lemma fits_raw64 lo hi : fits 32 lo -> fits 32 hi -> fits 64 (lo + 2 ^ 32 * hi).
Proof. unfold fits. lia. Qed.

Lemma raw_lo_hi v : fits 64 v -> lbits v + 2 ^ 32 * hbits v = v.
Proof.
  unfold fits, lbits, hbits, field. intros Hv. simpl.
  rewrite (Z.mod_small (v / _)) by (split; [apply Z.div_pos; lia|apply Z.div_lt_upper_bound; lia]).
  pose proof (Z.div_mod v (2 ^ 32) ltac:(lia)). lia.
Qed.

Lemma set_dma_addr_raw_raw v R : fits 64 v -> dma_addr_raw (set_dma_addr_raw v R) = v.
Proof.
  intros Hv. unfold dma_addr_raw, set_dma_addr_raw.
  rewrite fn_lookup_insert, fn_lookup_insert_ne, fn_lookup_insert by discriminate.
  by apply raw_lo_hi.
Qed.

Ltac regs_simpl :=
  repeat first [ rewrite fn_lookup_insert | rewrite fn_lookup_insert_ne by discriminate ].

Lemma dma_addr_raw_other r v R :
  r <> R_dma_addr_lo -> r <> R_dma_addr_hi -> dma_addr_raw (<[r := v]> R) = dma_addr_raw R.
Proof. intros. unfold dma_addr_raw. by rewrite !fn_lookup_insert_ne. Qed.

Definition is_dma_cmd (c : Z) : bool := is_read_cmd c || is_write_cmd c.

Lemma dma_cmd_cases c : is_dma_cmd c = true ->
  c = PCI_DMA_READ \/ c = PCI_DMA_SQ_READ \/ c = PCI_DMA_WRITE \/ c = PCI_DMA_CQ_WRITE.
Proof. unfold is_dma_cmd, is_read_cmd, is_write_cmd. rewrite !orb_true_iff, !Z.eqb_eq. tauto. Qed.

Lemma msg_registers_cmd (R old : hostCmdReg) c :
  is_dma_cmd c = true -> (forall r, fits 32 (R r)) ->
  exists m, msg_registers R (<[R_cmd := c]> old) = Ok m /\ m R_cmd = c
    /\ (dma_addr_raw m, m R_ssdAddr, m R_size) = cmd_xfer R c
    /\ (c = PCI_DMA_CQ_WRITE ->
        m R_isr_notify = R R_isr_notify /\ m R_cqIntVector = R R_cqIntVector).
Proof.
  intros Hc HR. unfold msg_registers. rewrite fn_lookup_insert.
  assert (Hraw : fits 64 (dma_addr_raw R)) by (apply fits_raw64; apply HR).
  apply dma_cmd_cases in Hc as [-> | [-> | [-> | ->]]]; simpl;
    (eexists; split; [reflexivity|]);
    rewrite ?dma_addr_raw_other by discriminate;
    rewrite set_dma_addr_raw_raw by auto with cint;
    unfold set_dma_addr_raw; regs_simpl; (split; [done|]); (split; [done|]); done.
Qed.

(** The message the command puts into the queue. *)
Lemma start_host_msg ev h c :
  quiescent h -> is_dma_cmd c = true -> hi_regs h R_cmd = c ->
  exists M h1, start_host ev h = Ok h1
    /\ msg_wf (sr_tail (hi_msgs h)) M /\ m_regs M R_cmd = c
    /\ (msg_addr M, msg_ssd M, msg_size M) = cmd_xfer (hi_regs h) c
    /\ irqs_after h M =
       (if (c =? PCI_DMA_CQ_WRITE) && negb (hi_regs h R_isr_notify =? 0)
        then hi_irqs h ++ [hi_regs h R_cqIntVector] else hi_irqs h)
    /\ at_phase h (sr_tail (hi_msgs h)) M (ev (sr_tail (hi_msgs h))) HPolling true data_status_free
         any_bytes (hi_ssd h) (hi_host h) (hi_irqs h) PROCESSING h1.
Proof.
  intros (Hd & Ht & Hq & Hr & HR) Hc Hcmd. set (ix := sr_tail (hi_msgs h)) in *.
  destruct (msg_registers_cmd (hi_regs h) (m_regs (sr_list (hi_msgs h) ix)) c Hc HR)
    as (m & Em & Ecmd & Ex & Ecq).
  exists (SsdMsg m true 1 (ix + 1)).
  unfold start_host, enQueuePageRegister, enQueueSSDMsg, shm_enQueue, shm_full. fold ix.
  rewrite Hq. destruct (Z.eqb_spec ix (Z.rem (ix + 1) SSDMsgQueueSize)) as [E|_];
    [by apply eq_sym, next_slot_ne in E|].
  simpl. rewrite fn_lookup_insert. simpl. rewrite Hcmd, Em. simpl. rewrite ?fn_lookup_insert. simpl.
  eexists. split; [reflexivity|]. split; [done|]. split; [done|]. split; [done|]. split.
  - unfold irqs_after. simpl. rewrite Ecmd. destruct (Z.eqb_spec c PCI_DMA_CQ_WRITE) as [E|]; [|done].
    destruct (Ecq E) as [-> ->]. done.
  - split; simpl; rewrite ?fn_lookup_insert; try done.
    + unfold msg_at. simpl. by rewrite fn_lookup_insert.
    + intros r Hne. by rewrite fn_lookup_insert_ne by congruence.
Qed.

Section transfer.
Context `{DmaEngines}.

(** [n] steps after the write of the command register. *)
Definition in_transfer (c : Z) (h : hif) (n : nat) (h2 : hif) : Prop :=
  exists M, msg_wf (sr_tail (hi_msgs h)) M /\ m_regs M R_cmd = c
    /\ (msg_addr M, msg_ssd M, msg_size M) = cmd_xfer (hi_regs h) c
    /\ irqs_after h M =
       (if (c =? PCI_DMA_CQ_WRITE) && negb (hi_regs h R_isr_notify =? 0)
        then hi_irqs h ++ [hi_regs h R_cqIntVector] else hi_irqs h)
    /\ (if is_read_cmd c then read_phase h (sr_tail (hi_msgs h)) M n h2
        else write_phase h (sr_tail (hi_msgs h)) M n h2).

Lemma read_or_write c : is_dma_cmd c = true -> is_read_cmd c = negb (is_write_cmd c).
Proof. intros Hc. by apply dma_cmd_cases in Hc as [-> | [-> | [-> | ->]]]. Qed.

Lemma transfer_start c h :
  quiescent h -> is_dma_cmd c = true ->
  exists h1, write R_cmd c h = Ok h1 /\ in_transfer c (set_reg R_cmd c h) 4 h1.
Proof.
  intros Hq Hc. set (h0 := set_reg R_cmd c h).
  assert (Hu : u32 c = c) by (by apply dma_cmd_cases in Hc as [-> | [-> | [-> | ->]]]).
  assert (Hq0 : quiescent h0).
  { destruct Hq as (? & ? & ? & ? & HR). split_and!; try done. intros r. subst h0. simpl.
    destruct (decide (r = R_cmd)) as [->|]; rewrite ?fn_lookup_insert, ?fn_lookup_insert_ne by done;
      [rewrite <- Hu; auto with cint|apply HR]. }
  assert (Hcmd : hi_regs h0 R_cmd = c) by (subst h0; simpl; by rewrite fn_lookup_insert).
  destruct (start_host_msg (if is_read_cmd c then Event_read_host_complete else Event_read_ssd_complete)
              h0 c Hq0 Hc Hcmd) as (M & h1 & E & Hwf & HM & Hx & Hi & Hp).
  exists h1. split.
  - unfold write. rewrite Hu. fold h0. rewrite <- E.
    by apply dma_cmd_cases in Hc as [-> | [-> | [-> | ->]]].
  - exists M. split_and!; try done. by destruct (is_read_cmd c).
Qed.

Lemma transfer_step c h n h2 h3 :
  is_dma_cmd c = true -> in_transfer c h (S n) h2 -> step h2 h3 -> in_transfer c h n h3.
Proof.
  intros Hc (M & Hwf & HM & Hx & Hi & Hp) Hs. exists M. split_and!; try done.
  pose proof (read_or_write c Hc) as Hrw. destruct (is_read_cmd c) eqn:R.
  - eapply read_step; eauto. congruence.
  - eapply write_step; eauto. rewrite HM. by destruct (is_write_cmd c).
Qed.

Lemma transfer_progress c h n h2 :
  is_dma_cmd c = true -> xfer_fits c (hi_regs h) -> in_transfer c h (S n) h2 -> exists h3, step h2 h3.
Proof.
  intros Hc Hf (M & Hwf & HM & Hx & Hi & Hp).
  assert (Hov : page_over M = false).
  { unfold page_over. change (m_regs M R_size) with (msg_size M). unfold xfer_fits in Hf. rewrite <- Hx in Hf. cbn [snd] in Hf.
    by apply Z.ltb_ge. }
  pose proof (read_or_write c Hc) as Hrw. destruct (is_read_cmd c) eqn:R.
  - eapply read_progress; eauto. congruence.
  - eapply write_progress; eauto. rewrite HM. by destruct (is_write_cmd c).
Qed.

Lemma transfer_end_no_step c h h2 h3 : in_transfer c h 0 h2 -> ~ step h2 h3.
Proof.
  intros (M & Hwf & _ & _ & _ & Hp). destruct (is_read_cmd c); eapply done_no_step; eauto.
Qed.

Lemma transfer_status c h n h2 :
  in_transfer c h n h2 -> hi_regs h2 R_cmdStatus = match n with O => COMPLETE | _ => PROCESSING end.
Proof.
  intros (M & _ & _ & _ & _ & Hp). destruct (is_read_cmd c);
    destruct n as [|[|[|[|[|n]]]]]; simpl in Hp; try done; try destruct Hp as [Hp|Hp]; apply Hp.
Qed.

Lemma dma_cmd_fits c : is_dma_cmd c = true -> fits 32 c.
Proof. intros Hc. apply dma_cmd_cases in Hc as [-> | [-> | [-> | ->]]]; by unfold fits. Qed.

(** The state after the last step, for either direction. *)
Lemma end_phase_done c h h2 ix M ssd host irqs :
  quiescent h -> is_dma_cmd c = true -> in_range SSDMsgQueueSize ix = true ->
  at_phase (set_reg R_cmd c h) ix M DevIdle HPolling false data_status_used any_bytes ssd host irqs COMPLETE h2 ->
  quiescent h2 /\ hi_regs h2 R_cmdStatus = COMPLETE
  /\ (forall r, r <> R_cmdStatus -> r <> R_cmd -> hi_regs h2 r = hi_regs h r).
Proof.
  intros (_ & _ & _ & _ & HR) Hc Hix [Pdev Pthr Pmsg Ptail Phead Pst Pbytes Pssd Phost Pirqs Pcmd Pregs].
  assert (Hregs : forall r, r <> R_cmdStatus -> r <> R_cmd -> hi_regs h2 r = hi_regs h r).
  { intros r H1 H2. rewrite Pregs by done. simpl. by rewrite fn_lookup_insert_ne by congruence. }
  split_and!; try done.
  - split_and!; try done; [congruence|..].
    + rewrite Ptail. apply in_range_true in Hix. apply in_range_true.
      change SSDMsgQueueSize with 1024 in *. apply Z.rem_bound_pos; lia.
    + intros r. destruct (decide (r = R_cmdStatus)) as [->|H1]; [rewrite Pcmd; by unfold fits|].
      destruct (decide (r = R_cmd)) as [->|H2]; [|rewrite Hregs by done; apply HR].
      rewrite Pregs by done. simpl. rewrite fn_lookup_insert. by apply dma_cmd_fits.
Qed.

Lemma cmd_xfer_set_cmd c h : cmd_xfer (hi_regs (set_reg R_cmd c h)) c = cmd_xfer (hi_regs h) c.
Proof.
  unfold cmd_xfer, sqeDmaAddr_raw, cqeDmaAddr_raw, set_reg. simpl.
  rewrite dma_addr_raw_other by discriminate. by regs_simpl.
Qed.

Lemma transfer_end c h h2 :
  is_dma_cmd c = true -> quiescent h -> in_transfer c (set_reg R_cmd c h) 0 h2 -> dma_done c h h2.
Proof.
  intros Hc Hq (M & Hwf & HM & Hx & Hi & Hp).
  pose proof (read_or_write c Hc) as Hrw. pose proof Hwf as [Hix _].
  rewrite (cmd_xfer_set_cmd c h) in Hx.
  change (hi_irqs (set_reg R_cmd c h)) with (hi_irqs h) in Hi. simpl in Hi.
  rewrite !fn_lookup_insert_ne in Hi by discriminate.
  destruct (is_read_cmd c) eqn:R; simpl in Hp;
    destruct (end_phase_done c h h2 _ _ _ _ _ Hq Hc Hix Hp) as (Hq2 & Hst & Hregs);
    split; try done; try (intros a; rewrite <- Hx, ?R).
  - apply Hp.
  - destruct (is_write_cmd c); [done|]. apply Hp.
  - rewrite (ap_irqs _ _ _ _ _ _ _ _ _ _ _ _ _ Hp).
    destruct (Z.eqb_spec c PCI_DMA_CQ_WRITE) as [->|]; [discriminate R|done].
  - apply Hp.
  - destruct (is_write_cmd c); [|done]. apply Hp.
  - rewrite <- Hi. apply Hp.
Qed.

(** Any run of the device and the host. *)
Lemma transfer_nsteps c h n m h1 h2 :
  is_dma_cmd c = true -> in_transfer c h m h1 -> nsteps step n h1 h2 ->
  (n <= m)%nat /\ in_transfer c h (m - n) h2.
Proof.
  intros Hc Hp Hn. revert m Hp. induction Hn as [h1|n h1 h2 h3 Hs Hn IH]; intros m Hp.
  - rewrite Nat.sub_0_r. split; [lia|done].
  - destruct m as [|m]; [by destruct (transfer_end_no_step _ _ _ _ Hp Hs)|].
    destruct (IH m) as [Hle Hp3]; [by eapply transfer_step|]. split; [lia|done].
Qed.


(** *** The polling loop *)

(** A schedule in which both sides run, [n] times over. *)
Inductive fair : nat -> list bool -> Prop :=
| fair_0 l : fair 0 l
| fair_S n l1 l2 : true ∈ l1 -> false ∈ l1 -> fair n l2 -> fair (S n) (l1 ++ l2).

Lemma env_step_cases b h : env_step b h = h \/ step h (env_step b h).
Proof.
  unfold env_step. destruct b.
  - destruct (dev_step h) eqn:E; simpl; [right; by apply step_dev|by left].
  - destruct (host_step h) eqn:E; simpl; [right; by apply step_host|by left].
Qed.

Lemma wait_transfer c h n h2 sched h3 :
  is_dma_cmd c = true -> in_transfer c h n h2 -> wait_complete sched h2 = Ok h3 -> in_transfer c h 0 h3.
Proof.
  intros Hc. revert n h2. induction sched as [|b sched IH]; intros n h2 Hp E; simpl in E;
    rewrite (transfer_status _ _ _ _ Hp) in E; destruct n as [|n]; simpl in E; try discriminate;
    try by injection E as <-.
  destruct (env_step_cases b h2) as [Eb|Hs].
  - rewrite Eb in E. eauto.
  - eapply (IH n); [|done]. by eapply transfer_step.
Qed.

Definition side (b : bool) (h : hif) : option hif := if b then dev_step h else host_step h.

Lemma side_step b h h' : side b h = Some h' -> step h h'.
Proof. destruct b; [apply step_dev|apply step_host]. Qed.

(** The side that can move does so once it is scheduled. *)
Lemma wait_moves c h n b h2 h' l1 l2 :
  is_dma_cmd c = true -> in_transfer c h (S n) h2 -> side b h2 = Some h' -> b ∈ l1 ->
  exists h3 l, in_transfer c h n h3 /\ wait_complete (l1 ++ l2) h2 = wait_complete (l ++ l2) h3.
Proof.
  intros Hc Hp Hb. induction l1 as [|b1 l1 IH]; intros Hin; [by apply elem_of_nil in Hin|].
  simpl. rewrite (transfer_status _ _ _ _ Hp). simpl.
  assert (Ee : env_step b1 h2 = default h2 (side b1 h2)) by (by destruct b1).
  rewrite Ee. destruct (side b1 h2) as [h1|] eqn:E1; simpl.
  - exists h1, l1. split; [|done]. eapply transfer_step; [done..|by eapply side_step].
  - apply IH. apply elem_of_cons in Hin as [->|Hin]; [congruence|done].
Qed.

Lemma fair_app n l l2 : fair n l2 -> fair n (l ++ l2).
Proof.
  destruct 1 as [l2|n a b Ht Hf Hb]; [constructor|]. rewrite app_assoc.
  constructor; [apply elem_of_app; by right|apply elem_of_app; by right|done].
Qed.

Lemma wait_fair c h n sched : forall m h2,
  is_dma_cmd c = true -> xfer_fits c (hi_regs h) -> in_transfer c h m h2 -> (m <= n)%nat -> fair n sched ->
  exists h3, wait_complete sched h2 = Ok h3.
Proof.
  revert sched. induction n as [|n IH]; intros sched m h2 Hc Hfit Hp Hm Hf.
  all: destruct m as [|m]; [exists h2; destruct sched; simpl;
    by rewrite (transfer_status _ _ _ _ Hp)|].
  { lia. }
  inversion Hf as [|n' l1 l2 Ht Hfa Hf2]; subst.
  destruct (transfer_progress _ _ _ _ Hc Hfit Hp) as [h' Hs].
  assert (exists b, side b h2 = Some h') as [b Hb] by (destruct Hs; [by exists true|by exists false]).
  destruct (wait_moves c h m b h2 h' l1 l2 Hc Hp Hb) as (h3 & l & Hp3 & ->); [by destruct b|].
  eapply IH; [done|done|done|lia|by apply fair_app].
Qed.

(** Issue a command and poll until it completes. *)
Definition dma_command (c : Z) (sched : list bool) (h : hif) : outcome hif :=
  let! h := write R_cmd c h in wait_complete sched h.

Lemma dma_command_done c sched h h' :
  quiescent h -> is_dma_cmd c = true -> dma_command c sched h = Ok h' -> dma_done c h h'.
Proof.
  intros Hq Hc E. destruct (transfer_start c h Hq Hc) as (h1 & E1 & Hp).
  unfold dma_command in E. rewrite E1 in E. simpl in E.
  apply transfer_end; [done..|]. by eapply wait_transfer.
Qed.

Lemma dma_command_total c sched h :
  quiescent h -> is_dma_cmd c = true -> xfer_fits c (hi_regs h) -> fair 4 sched ->
  exists h', dma_command c sched h = Ok h'.
Proof.
  intros Hq Hc Hfit Hf. destruct (transfer_start c h Hq Hc) as (h1 & E1 & Hp).
  unfold dma_command. rewrite E1. simpl. eapply wait_fair; [done| |done|done|done].
  unfold xfer_fits. by rewrite cmd_xfer_set_cmd.
Qed.

End transfer.

(** ** An instance of the copy engines, and an idle interface *)

Definition bytes_of_mem (m : mem) (addr size : Z) (page : Z -> Z) (i : Z) : Z :=
  if in_range size i then m (addr + i) else page i.
Definition bytes_to_mem (m : mem) (addr : Z) (page : Z -> Z) (size : Z) (a : Z) : Z :=
  if in_range size (a - addr) then page (a - addr) else m a.

#[export] Instance plain_engines : DmaEngines := {
  pci_dma_read := bytes_of_mem; pci_dma_write := bytes_to_mem;
  dmaRead := bytes_of_mem; dmaWrite := bytes_to_mem;
  pci_dma_read_bytes _ _ _ _ _ := eq_refl; pci_dma_write_bytes _ _ _ _ _ := eq_refl;
  dmaRead_bytes _ _ _ _ _ := eq_refl; dmaWrite_bytes _ _ _ _ _ := eq_refl }.

Definition hif0 (ssd host : mem) : hif :=
  Hif hostCmdReg0 (ShmRing 0 0 (fun _ => ssd_msg0)) (fun _ => page_reg0) ssd host DevIdle HPolling [].

Lemma hif0_quiescent ssd host : quiescent (hif0 ssd host).
Proof. split_and!; try done. Qed.


(** ** The circular queues are bounded FIFOs *)

Section shm_fifo.
Context {A : Type} (size : Z).

Definition shm_ok (q : shm_ring A) : Prop :=
  in_range size (sr_tail q) = true /\ in_range size (sr_head q) = true.
Definition shm_count (q : shm_ring A) : Z :=
  if sr_head q <=? sr_tail q then sr_tail q - sr_head q else sr_tail q - sr_head q + size.
Definition shm_slot (q : shm_ring A) (i : nat) : Z :=
  if sr_head q + Z.of_nat i <? size then sr_head q + Z.of_nat i else sr_head q + Z.of_nat i - size.
(** The queued entries, oldest first. *)
Definition shm_items (q : shm_ring A) : list A :=
  map (fun i => sr_list q (shm_slot q i)) (seq 0 (Z.to_nat (shm_count q))).

Lemma rem_next t : in_range size t = true -> Z.rem (t + 1) size = if t + 1 =? size then 0 else t + 1.
Proof.
  intros H%in_range_true. destruct (Z.eqb_spec (t + 1) size) as [<-|].
  - apply Z.rem_same. lia.
  - apply Z.rem_small. lia.
Qed.

Ltac shm_cases :=
  repeat match goal with
  | H : in_range _ _ = true |- _ => apply in_range_true in H
  | |- context [?a <=? ?b] => destruct (Z.leb_spec a b)
  | |- context [?a <? ?b] => destruct (Z.ltb_spec a b)
  | |- context [?a =? ?b] => destruct (Z.eqb_spec a b)
  end.

Lemma shm_items_length q : shm_ok q -> Z.of_nat (length (shm_items q)) = shm_count q.
Proof.
  intros [Ht Hh]. unfold shm_items. rewrite length_map, length_seq.
  unfold shm_count. shm_cases; lia.
Qed.

Lemma shm_full_count q : shm_ok q -> shm_full size q = (shm_count q =? size - 1).
Proof.
  intros [Ht Hh]. unfold shm_full, shm_count. rewrite rem_next by done.
  destruct (Z.eqb_spec (sr_tail q + 1) size); shm_cases; lia.
Qed.

Lemma shm_enQueue_spec fill q :
  shm_ok q ->
  if shm_count q =? size - 1 then shm_enQueue size fill q = (None, q)
  else exists q', shm_enQueue size fill q = (Some (sr_tail q), q') /\ shm_ok q'
         /\ shm_items q' = shm_items q ++ [fill (sr_list q (sr_tail q))].
Proof.
  intros Hok. unfold shm_enQueue. rewrite shm_full_count by done.
  destruct (Z.eqb_spec (shm_count q) (size - 1)) as [_|Hne]; [done|].
  destruct Hok as [Ht Hh]. eexists. split; [done|].
  rewrite rem_next by done. unfold shm_count in Hne. split.
  - split; simpl; [|done]. apply in_range_true. shm_cases; lia.
  - unfold shm_items at 1. unfold shm_count at 1. simpl.
    assert (Hc : (if sr_head q <=? (if sr_tail q + 1 =? size then 0 else sr_tail q + 1)
                  then (if sr_tail q + 1 =? size then 0 else sr_tail q + 1) - sr_head q
                  else (if sr_tail q + 1 =? size then 0 else sr_tail q + 1) - sr_head q + size)
                 = shm_count q + 1).
    { revert Hne. unfold shm_count. destruct (Z.eqb_spec (sr_tail q + 1) size); shm_cases; lia. }
    rewrite Hc. assert (0 <= shm_count q) by (unfold shm_count; shm_cases; lia).
    rewrite Z2Nat.inj_add by lia. change (Z.to_nat 1) with 1%nat.
    rewrite Nat.add_1_r, seq_S, map_app. simpl. f_equal.
    + apply map_ext_in. intros i Hi%in_seq. unfold shm_slot. simpl.
      rewrite fn_lookup_insert_ne; [done|]. revert Hi Hne. unfold shm_count. shm_cases; lia.
    + unfold shm_slot. simpl. rewrite Z2Nat.id by lia.
      assert (Es : (if sr_head q + shm_count q <? size then sr_head q + shm_count q
                    else sr_head q + shm_count q - size) = sr_tail q)
        by (unfold shm_count; shm_cases; lia).
      rewrite Es. by rewrite fn_lookup_insert.
Qed.

Lemma shm_deQueue_spec q :
  shm_ok q ->
  match shm_items q with
  | [] => shm_deQueue size q = (None, q)
  | x :: rest =>
      exists q', shm_deQueue size q = (Some (sr_head q), q') /\ shm_ok q'
        /\ sr_list q (sr_head q) = x /\ sr_list q' = sr_list q /\ shm_items q' = rest
  end.
Proof.
  intros [Ht Hh]. unfold shm_deQueue, shm_items.
  destruct (Z.eqb_spec (sr_head q) (sr_tail q)) as [E|Hne].
  - unfold shm_count. rewrite E, Z.leb_refl, Z.sub_diag. done.
  - assert (Hpos : 0 < shm_count q) by (unfold shm_count; shm_cases; lia).
    destruct (Z.to_nat (shm_count q)) as [|n] eqn:En; [lia|]. simpl.
    eexists. split; [done|]. rewrite rem_next by done. split; [|split; [|split; [done|]]].
    + split; simpl; [done|]. apply in_range_true. shm_cases; lia.
    + unfold shm_slot. f_equal. simpl. shm_cases; lia.
    + simpl. rewrite <- seq_shift, map_map.
      assert (Hc : shm_count (ShmRing (sr_tail q) (if sr_head q + 1 =? size then 0 else sr_head q + 1)
                     (sr_list q)) = shm_count q - 1).
      { revert Hne. unfold shm_count. simpl.
        destruct (Z.eqb_spec (sr_head q + 1) size); shm_cases; lia. }
      rewrite Hc. replace (Z.to_nat (shm_count q - 1)) with n by lia.
      apply map_ext_in. intros i Hi%in_seq. f_equal. unfold shm_slot. simpl.
      assert (shm_count q <= size - 1) by (unfold shm_count; shm_cases; lia).
      destruct (Z.eqb_spec (sr_head q + 1) size); shm_cases; lia.
Qed.

End shm_fifo.

(** the door bell queue between the host and the firmware is a FIFO that
    holds up to [dbUpdateQueueSize - 1] updates: an update is appended at the
    end, or refused without change when the queue is full; the firmware takes
    the oldest one, or finds the queue empty. *)
Theorem db_queue_fifo (q : shm_ring dbUpdate) (item : dbUpdate) :
  shm_ok dbUpdateQueueSize q ->
  let items := shm_items dbUpdateQueueSize q in
  (Z.of_nat (length items) < dbUpdateQueueSize)
  /\ (Z.of_nat (length items) = dbUpdateQueueSize - 1 -> enQueueDBUpdate item q = (None, q))
  /\ (Z.of_nat (length items) < dbUpdateQueueSize - 1 ->
      exists q', enQueueDBUpdate item q = (Some (sr_tail q), q') /\ shm_ok dbUpdateQueueSize q'
        /\ shm_items dbUpdateQueueSize q' = items ++ [item])
  /\ (items = [] -> deQueueDBUpdate q = (None, q))
  /\ (forall x rest, items = x :: rest ->
      exists q', deQueueDBUpdate q = (Some (sr_head q), q') /\ shm_ok dbUpdateQueueSize q'
        /\ sr_list q (sr_head q) = x /\ shm_items dbUpdateQueueSize q' = rest).
Proof.
  intros Hok items. subst items. rewrite (shm_items_length _ q Hok).
  pose proof (shm_enQueue_spec _ (fun _ => item) q Hok) as He.
  pose proof (shm_deQueue_spec _ q Hok) as Hd.
  split_and!.
  - destruct Hok as [Ht Hh]. apply in_range_true in Ht, Hh. unfold shm_count.
    destruct (Z.leb_spec (sr_head q) (sr_tail q)); lia.
  - intros E. apply Z.eqb_eq in E. by rewrite E in He.
  - intros E. destruct (Z.eqb_spec (shm_count dbUpdateQueueSize q) (dbUpdateQueueSize - 1)); [lia|done].
  - intros E. by rewrite E in Hd.
  - intros x rest E. rewrite E in Hd. destruct Hd as (q' & ? & ? & ? & ? & ?). eauto.
Qed.

Lemma db_queue_fifo_witness :
  let q : shm_ring dbUpdate := ShmRing 0 (dbUpdateQueueSize - 1) (fun i => DbUpdate 1 0 i) in
  exists q', deQueueDBUpdate q = (Some (dbUpdateQueueSize - 1), q') /\ shm_items dbUpdateQueueSize q' = [].
Proof.
  pose (q := ShmRing 0 (dbUpdateQueueSize - 1) (fun i => DbUpdate 1 0 i)).
  destruct (db_queue_fifo q (DbUpdate 1 0 0) ltac:(split; reflexivity)) as (_ & _ & _ & _ & H).
  destruct (H _ _ ltac:(reflexivity)) as (q' & E & _ & _ & Hr). exists q'. split; [exact E|exact Hr].
Defined.
