(* ===== verification/HostDma.v ===== *)
(** * Host DMA (firmware/host_dma.c, firmware/host_dma.h)

    The thread that drives the host interface's registers: reading a submission
    entry, posting a completion entry and moving the pages of an I/O or ISP
    request, one PRP entry after the other.  The state is the host interface of
    [HostIf]; a wait takes the next schedule of a list of schedules. *)

From Stdlib Require Import ZArith Lia Bool List.
From stdpp Require Import base tactics option list functions relations.
From S2P Require Import Prelude CTypes MemUtil Kernel HostIf Requests.

Definition SYNC_DMA_Q : Z := 10.
Definition READ_IO_DMA_OPERATION : Z := 0x60.
Definition WRITE_IO_DMA_OPERATION : Z := 0x70.

(** The global [sync_dma], the argument of the queue synchronous commands.
    [data_size], [op], [list], [read_req] and [write_req] are never used. *)
Record sync_dma_t := SyncDma {
  sd_dma_type : Z; sd_status : Z; sd_ssd_addr : Z; sd_host_p_addr : Z;
  sd_sqid : Z; sd_sqe : Z; sd_num_of_entries : Z; sd_cqid : Z; sd_cqe : Z;
  sd_vector : Z; sd_irq_enabled : Z }.

Definition sync_dma0 : sync_dma_t := SyncDma 0 0 0 0 0 0 0 0 0 0 0.

Definition set_sd_status v s :=
  SyncDma (sd_dma_type s) v (sd_ssd_addr s) (sd_host_p_addr s) (sd_sqid s) (sd_sqe s)
    (sd_num_of_entries s) (sd_cqid s) (sd_cqe s) (sd_vector s) (sd_irq_enabled s).

Record dma_world := DmaWorld {
  dw_hif : hif; dw_sync : sync_dma_t; dw_scheds : list (list bool) }.
Definition set_dw_hif v w := DmaWorld v (dw_sync w) (dw_scheds w).
Definition set_dw_sync v w := DmaWorld (dw_hif w) v (dw_scheds w).

(** [init_host_dma] *)
Definition init_host_dma (sync_dma_cbk_ptr : Z) (k : kernel) : outcome (Z * kernel) :=
  let! '(id, k) := sys_add_thread_function HOST_DMA_THREAD sync_dma_cbk_ptr k in
  let! '(_, k) := sys_create_obj_queue SYNC_DMA_Q NVME_DRIVER_THREAD id k in
  Ok (0, k).

(** The requests of the other threads: the fields they store in [sync_dma]
    before they push it to [SYNC_DMA_Q]. *)
Definition sync_read_scmd (sqid sqe host_p_addr ssd_addr ncmds : Z) (s : sync_dma_t) : sync_dma_t :=
  SyncDma PCI_DMA_SQ_READ 0 ssd_addr host_p_addr sqid sqe ncmds (sd_cqid s) (sd_cqe s)
    (sd_vector s) (sd_irq_enabled s).

Definition sync_post_ccmd (cqid cqe host_p_addr ssd_addr ncmds vector irq_enabled : Z)
    (s : sync_dma_t) : sync_dma_t :=
  SyncDma PCI_DMA_CQ_WRITE 0 ssd_addr host_p_addr (sd_sqid s) (sd_sqe s) ncmds cqid cqe
    vector irq_enabled.

Section engine.
Context `{DmaEngines}.

(** [setReg] and [setReg64] *)
Definition setReg (r : hreg) (value : Z) (w : dma_world) : outcome dma_world :=
  let! h := write r value (dw_hif w) in Ok (set_dw_hif h w).

Definition setReg64 (r_lo r_hi : hreg) (value : Z) (w : dma_world) : outcome dma_world :=
  let! w := setReg r_lo (lbits value) w in
  setReg r_hi (hbits value) w.

(** [while (1) { getReg(cmdStatus); if COMPLETE break; sys_yield_cpu(); }] *)
Definition wait_cmdStatus (w : dma_world) : outcome dma_world :=
  match dw_scheds w with
  | [] => Fault FFuel
  | sched :: scheds =>
      let! h := wait_complete sched (dw_hif w) in Ok (DmaWorld h (dw_sync w) scheds)
  end.

Definition do_sync_read_scmd (w : dma_world) : outcome (Z * dma_world) :=
  let s := dw_sync w in
  let! w := setReg64 R_sqeDmaAddr_lo R_sqeDmaAddr_hi (sd_host_p_addr s) w in
  let! w := setReg R_squeue (sd_sqid s) w in
  let! w := setReg R_sqe (sd_sqe s) w in
  let! w := setReg R_sqAddr (sd_ssd_addr s) w in
  let! w := setReg R_cmd PCI_DMA_SQ_READ w in
  let! w := wait_cmdStatus w in
  Ok (0, set_dw_sync (set_sd_status 1 (dw_sync w)) w).

Definition do_sync_post_ccmd (w : dma_world) : outcome (Z * dma_world) :=
  let s := dw_sync w in
  let! w := setReg R_cqueue (sd_cqid s) w in
  let! w := setReg R_cqe (sd_cqe s) w in
  let! w := setReg R_cqAddr (sd_ssd_addr s) w in
  let! w := setReg64 R_cqeDmaAddr_lo R_cqeDmaAddr_hi (sd_host_p_addr s) w in
  let! w := setReg R_cqIntVector (sd_vector s) w in
  let! w := setReg R_isr_notify (sd_irq_enabled s) w in
  let! w := setReg R_cmd PCI_DMA_CQ_WRITE w in
  let! w := wait_cmdStatus w in
  Ok (0, set_dw_sync (set_sd_status 1 (dw_sync w)) w).

(** One transfer of the two loops below. *)
Definition dma_one (op host_p_addr next_ssd_addr len : Z) (w : dma_world) : outcome dma_world :=
  let! w := setReg64 R_dma_addr_lo R_dma_addr_hi host_p_addr w in
  let! w := setReg R_size len w in
  let! w := setReg R_buffMgtID 0 w in
  let! w := setReg R_ssdAddr next_ssd_addr w in
  let! w := setReg R_cmd op w in
  wait_cmdStatus w.

Fixpoint rw_io_loop (n : nat) (ix next_ssd_addr op : Z) (list : list dma_op_t) (w : dma_world)
  : outcome dma_world :=
  match n with
  | O => Ok w
  | S n' =>
      let! e := arr_get list ix in
      let! w := dma_one op (do_host_p_addr e) next_ssd_addr (do_len e) w in
      rw_io_loop n' (ix + 1) (u32 (next_ssd_addr + do_len e)) op list w
  end.

Definition do_sync_rw_io_dma_operation (dma : dma_t) (op : Z) (w : dma_world)
  : outcome (dma_t * dma_world) :=
  let! w := rw_io_loop (Z.to_nat (n_ops dma)) 0 (buffer_addr dma) op (dma_list dma) w in
  Ok (set_dma_complete true dma, w).

(** The loop over the PRP entries from page [ix], until [r_len] bytes are done. *)
Fixpoint dma_operation_loop (n : nat) (ix next_ssd_addr r_len op : Z) (list : list dma_op_t)
    (w : dma_world) : outcome dma_world :=
  match n with
  | O => Ok w
  | S n' =>
      if r_len =? 0 then Ok w
      else
        let! e := arr_get list ix in
        let tran_len := Z.min (do_len e) r_len in
        let! w := dma_one op (do_host_p_addr e) next_ssd_addr tran_len w in
        dma_operation_loop n' (ix + 1) (u32 (next_ssd_addr + tran_len)) (r_len - tran_len) op list w
  end.

Definition do_sync_dma_operation (dma : dma_t) (op : Z) (w : dma_world) : outcome (dma_t * dma_world) :=
  let r_len := if c_op_len dma =? 0 then data_size dma else c_op_len dma in
  let ix := c_op_smem_pg dma in
  let! w := dma_operation_loop (Z.to_nat (n_ops dma - ix)) ix (buffer_addr dma) r_len op (dma_list dma) w in
  Ok (set_dma_complete true (set_c_op 0 0 dma), w).

(** [sync_dma_cbk]: the object is the global [sync_dma], the transfer of a read
    or write request, or a transfer of its own. *)
Definition sync_dma_cbk (obj : dma_t) (obj_type : Z) (w : dma_world) : outcome (dma_t * dma_world) :=
  if obj_type =? PCI_DMA_SQ_READ then
    let! '(_, w) := do_sync_read_scmd w in Ok (obj, w)
  else if obj_type =? PCI_DMA_CQ_WRITE then
    let! '(_, w) := do_sync_post_ccmd w in Ok (obj, w)
  else if obj_type =? READ_IO_DMA_OPERATION then do_sync_rw_io_dma_operation obj PCI_DMA_WRITE w
  else if obj_type =? WRITE_IO_DMA_OPERATION then do_sync_rw_io_dma_operation obj PCI_DMA_READ w
  else if (obj_type =? PCI_DMA_READ) || (obj_type =? PCI_DMA_WRITE) then do_sync_dma_operation obj obj_type w
  else Ok (obj, w).

End engine.

(** ** One transfer *)

Definition quiet (w : dma_world) : Prop := quiescent (dw_hif w).
Definition ready_for (n : nat) (w : dma_world) : Prop :=
  (n <= length (dw_scheds w))%nat /\ Forall (fair 4) (dw_scheds w).

Definition is_rw_op (op : Z) : Prop := op = PCI_DMA_READ \/ op = PCI_DMA_WRITE.

(** [len] bytes moved between [host_p_addr] and [ssd_addr], from the host
    ([PCI_DMA_READ]) or to it ([PCI_DMA_WRITE]). *)
Record moved_by (op host_p_addr ssd_addr len : Z) (w w' : dma_world) : Prop := {
  mb_quiet : quiet w';
  mb_sync : dw_sync w' = dw_sync w;
  mb_scheds : exists s, dw_scheds w = s :: dw_scheds w';
  mb_irqs : hi_irqs (dw_hif w') = hi_irqs (dw_hif w);
  mb_ssd : forall a, hi_ssd (dw_hif w') a =
    if op =? PCI_DMA_READ
    then moved (hi_host (dw_hif w)) host_p_addr ssd_addr len (hi_ssd (dw_hif w)) a
    else hi_ssd (dw_hif w) a;
  mb_host : forall a, hi_host (dw_hif w') a =
    if op =? PCI_DMA_READ then hi_host (dw_hif w) a
    else moved (hi_ssd (dw_hif w)) ssd_addr host_p_addr len (hi_host (dw_hif w)) a }.

Section correct.
Context `{DmaEngines}.

Lemma write_plain r v h : r <> R_cmd -> write r v h = Ok (set_reg r (u32 v) h).
Proof. by destruct r. Qed.

Lemma set_reg_quiescent r v h : quiescent h -> fits 32 v -> quiescent (set_reg r v h).
Proof.
  intros (? & ? & ? & ? & HR) Hv. split_and!; try done. intros r'. simpl.
  destruct (decide (r' = r)) as [->|]; [by rewrite fn_lookup_insert|].
  by rewrite fn_lookup_insert_ne by congruence.
Qed.

Lemma setReg_plain r v w :
  r <> R_cmd -> setReg r v w = Ok (set_dw_hif (set_reg r (u32 v) (dw_hif w)) w).
Proof. intros Hr. unfold setReg. by rewrite write_plain. Qed.

(** The interface with the registers of a command set, before the command. *)
Definition with_regs (rs : list (hreg * Z)) (h : hif) : hif :=
  foldl (fun h rv => set_reg (fst rv) (u32 (snd rv)) h) h rs.

Lemma with_regs_quiescent rs h : quiescent h -> quiescent (with_regs rs h).
Proof.
  revert h. induction rs as [|rv rs IH]; intros h Hq; [done|].
  apply IH, set_reg_quiescent; [done|auto with cint].
Qed.

Lemma with_regs_mem rs h :
  hi_ssd (with_regs rs h) = hi_ssd h /\ hi_host (with_regs rs h) = hi_host h
  /\ hi_irqs (with_regs rs h) = hi_irqs h.
Proof.
  revert h. induction rs as [|rv rs IH]; intros h; [done|]. simpl.
  destruct (IH (set_reg (fst rv) (u32 (snd rv)) h)) as (-> & -> & ->). done.
Qed.

(** Set registers, write the command, wait. *)
Lemma command_cases rs c w :
  quiet w -> is_dma_cmd c = true ->
  let m := let! w := setReg R_cmd c (set_dw_hif (with_regs rs (dw_hif w)) w) in wait_cmdStatus w in
  (forall w', m = Ok w' ->
     dma_done c (with_regs rs (dw_hif w)) (dw_hif w') /\ dw_sync w' = dw_sync w
     /\ exists s, dw_scheds w = s :: dw_scheds w')
  /\ (ready_for 1 w -> xfer_fits c (hi_regs (with_regs rs (dw_hif w))) -> exists w', m = Ok w').
Proof.
  intros Hq Hc m. pose proof (with_regs_quiescent rs _ Hq) as Hq'.
  destruct (transfer_start c _ Hq' Hc) as (h1 & E1 & _).
  subst m. unfold setReg. cbn [dw_hif set_dw_hif]. rewrite E1. cbn [obind]. unfold wait_cmdStatus. simpl.
  destruct (dw_scheds w) as [|s ss] eqn:Es.
  - split; [discriminate|]. intros [Hn _] _. rewrite Es in Hn. simpl in Hn. lia.
  - assert (Ec : dma_command c s (with_regs rs (dw_hif w)) = wait_complete s h1)
      by (unfold dma_command; by rewrite E1).
    split.
    + intros w' E. apply obind_Ok in E as (h2 & E2 & E). injection E as <-. simpl.
      split; [|split; [done|by exists s]]. eapply dma_command_done; [done|done|by rewrite Ec].
    + intros [_ Hf] Hfit. rewrite Es in Hf. apply Forall_cons in Hf as [Hf _].
      destruct (dma_command_total c s _ Hq' Hc Hfit Hf) as (h2 & E2). rewrite Ec in E2. rewrite E2. simpl. eauto.
Qed.

Definition rw_regs (host_p_addr ssd_addr len : Z) : list (hreg * Z) :=
  [(R_dma_addr_lo, lbits host_p_addr); (R_dma_addr_hi, hbits host_p_addr); (R_size, len);
   (R_buffMgtID, 0); (R_ssdAddr, ssd_addr)].

Lemma lbits_fits v : fits 32 (lbits v).
Proof. apply (field_fits reg64_layout 0); [repeat constructor; lia|done]. Qed.
Lemma hbits_fits v : fits 32 (hbits v).
Proof. apply (field_fits reg64_layout 1); [repeat constructor; lia|done]. Qed.

Lemma u32_fits_id v : fits 32 v -> u32 v = v.
Proof. intros Hv. apply u32_id. unfold fits in Hv. lia. Qed.

Lemma dma_one_eq op a s l w :
  dma_one op a s l w =
  (let! w := setReg R_cmd op (set_dw_hif (with_regs (rw_regs a s l) (dw_hif w)) w) in wait_cmdStatus w).
Proof.
  match goal with |- _ = ?R => set (rhs := R) end. unfold dma_one, setReg64.
  do 5 (rewrite setReg_plain by discriminate; cbn [obind]). reflexivity.
Qed.

Lemma rw_xfer op a s l h :
  is_rw_op op -> fits 64 a -> fits 32 s -> fits 32 l ->
  cmd_xfer (hi_regs (with_regs (rw_regs a s l) h)) op = (a, s, l).
Proof.
  intros Hop Ha Hs Hl. unfold cmd_xfer.
  replace (op =? PCI_DMA_SQ_READ) with false by (by destruct Hop as [-> | ->]).
  replace (op =? PCI_DMA_CQ_WRITE) with false by (by destruct Hop as [-> | ->]).
  simpl. unfold dma_addr_raw. regs_simpl.
  rewrite (u32_fits_id _ (lbits_fits a)), (u32_fits_id _ (hbits_fits a)), (u32_fits_id s Hs),
    (u32_fits_id l Hl), raw_lo_hi by done. done.
Qed.

Lemma rw_op_cmd op : is_rw_op op ->
  is_dma_cmd op = true /\ is_read_cmd op = (op =? PCI_DMA_READ)
  /\ is_write_cmd op = negb (op =? PCI_DMA_READ) /\ (op =? PCI_DMA_CQ_WRITE) = false.
Proof. by intros [-> | ->]. Qed.

(** A length one page of the shared memory takes. *)
Definition page_len (l : Z) : Prop := 0 <= l <= INTERFACE_DMA_PAGE_SIZE.

Lemma page_len_fits l : page_len l -> fits 32 l.
Proof. unfold page_len, fits. change INTERFACE_DMA_PAGE_SIZE with 65536. lia. Qed.

Lemma dma_one_spec op a s l w :
  quiet w -> is_rw_op op -> fits 64 a -> fits 32 s -> page_len l ->
  (forall w', dma_one op a s l w = Ok w' -> moved_by op a s l w w')
  /\ (ready_for 1 w -> exists w', dma_one op a s l w = Ok w').
Proof.
  intros Hq Hop Ha Hs Hpl. pose proof (page_len_fits l Hpl) as Hl. destruct (rw_op_cmd op Hop) as (Hc & Hr & Hw & Hcq).
  rewrite dma_one_eq. destruct (command_cases (rw_regs a s l) op w Hq Hc) as [Hd Ht].
  split; [|intros Hr1; apply Ht; [done|]; unfold xfer_fits; rewrite rw_xfer by done; apply Hpl]. intros w' E. destruct (Hd w' E) as ([D1 D2 D3 D4 D5 D6] & Hsync & Hsched).
  destruct (with_regs_mem (rw_regs a s l) (dw_hif w)) as (Es & Eh & Ei).
  rewrite rw_xfer in D4, D5 by done. rewrite Es, Eh in *.
  split; try done.
  - rewrite D6, Ei, Hcq. done.
  - intros x. by rewrite D4, Hr.
  - intros x. rewrite D5, Hw. by destruct (op =? PCI_DMA_READ).
Qed.

(** ** A list of transfers *)

Fixpoint move_list (op ssd_addr : Z) (es : list (Z * Z)) (w : dma_world) : outcome dma_world :=
  match es with
  | [] => Ok w
  | (a, l) :: es =>
      let! w := dma_one op a ssd_addr l w in move_list op (u32 (ssd_addr + l)) es w
  end.

Definition seg_of (e : dma_op_t) : Z * Z := (do_host_p_addr e, do_len e).
Definition total (es : list (Z * Z)) : Z := foldr (fun e n => snd e + n) 0 es.
Definition seg_ok (e : Z * Z) : Prop := fits 64 (fst e) /\ page_len (snd e).

Lemma total_nonneg es : Forall seg_ok es -> 0 <= total es.
Proof.
  induction 1 as [|e es [_ Hl] _ IH]; [done|]. unfold total in *. simpl. unfold page_len in Hl. lia.
Qed.

(** The host address of byte [off] of the list. *)
Fixpoint seg_addr (es : list (Z * Z)) (off : Z) : Z :=
  match es with
  | [] => 0
  | (a, l) :: es => if off <? l then a + off else seg_addr es (off - l)
  end.

(** Host memory after the list has been written from [ssd_addr]. *)
Fixpoint scatter (es : list (Z * Z)) (ssd_addr : Z) (ssd host : mem) : mem :=
  match es with
  | [] => host
  | (a, l) :: es => scatter es (ssd_addr + l) ssd (moved ssd ssd_addr a l host)
  end.

Record list_moved (op ssd_addr : Z) (es : list (Z * Z)) (w w' : dma_world) : Prop := {
  lm_quiet : quiet w';
  lm_sync : dw_sync w' = dw_sync w;
  lm_irqs : hi_irqs (dw_hif w') = hi_irqs (dw_hif w);
  lm_ssd : forall a, hi_ssd (dw_hif w') a =
    if (op =? PCI_DMA_READ) && in_range (total es) (a - ssd_addr)
    then hi_host (dw_hif w) (seg_addr es (a - ssd_addr)) else hi_ssd (dw_hif w) a;
  lm_host : forall a, hi_host (dw_hif w') a =
    if op =? PCI_DMA_READ then hi_host (dw_hif w) a
    else scatter es ssd_addr (hi_ssd (dw_hif w)) (hi_host (dw_hif w)) a }.

Lemma scatter_ext es s ssd ssd' host host' a :
  (forall x, ssd x = ssd' x) -> (forall x, host x = host' x) ->
  scatter es s ssd host a = scatter es s ssd' host' a.
Proof.
  intros Hs. revert s host host'. induction es as [|[b l] es IH]; intros s host host' Hh; simpl; [done|].
  apply IH. intros x. unfold moved. rewrite Hs, Hh. done.
Qed.

Lemma move_list_spec op : is_rw_op op -> forall es s w,
  quiet w -> Forall seg_ok es -> 0 <= s -> s + total es < 2 ^ 32 ->
  (forall w', move_list op s es w = Ok w' -> list_moved op s es w w')
  /\ (ready_for (length es) w -> exists w', move_list op s es w = Ok w').
Proof.
  intros Hop es. induction es as [|[b l] es IH]; intros s w Hq Hes Hs0 Hs1.
  { split; [|intros _; by exists w]. intros w' E. injection E as <-. split; try done.
    - intros a. unfold total, in_range. simpl.
      destruct (Z.leb_spec 0 (a - s)), (Z.ltb_spec (a - s) 0); rewrite ?andb_false_r; lia || done.
    - intros a. by destruct (op =? PCI_DMA_READ). }
  apply Forall_cons in Hes as [[Hb Hl] Hes]. simpl in Hb, Hl.
  pose proof (total_nonneg es Hes) as Ht0.
  assert (Htot : total ((b, l) :: es) = l + total es) by done. rewrite Htot in *.
  assert (Hl' : 0 <= l <= 65536) by exact Hl.
  destruct (dma_one_spec op b s l w Hq Hop Hb ltac:(unfold fits; lia) Hl) as [Hone Hgo]. simpl.
  rewrite u32_id by lia. split.
  - intros w' E. apply obind_Ok in E as (w1 & E1 & E2). destruct (Hone w1 E1) as [M1 M2 M3 M4 M5 M6].
    destruct (IH (s + l) w1 M1 Hes ltac:(lia) ltac:(lia)) as [IH1 _].
    destruct (IH1 w' E2) as [L1 L2 L3 L4 L5]. split; try congruence.
    + intros a. rewrite L4, M5, M6. rewrite Htot. destruct (op =? PCI_DMA_READ) eqn:R; simpl; [|done].
      unfold moved, in_range.
      replace (a - (s + l)) with (a - s - l) by lia.
      destruct (Z.leb_spec 0 (a - s)), (Z.ltb_spec (a - s) l), (Z.leb_spec 0 (a - s - l)),
        (Z.ltb_spec (a - s - l) (total es)), (Z.ltb_spec (a - s) (l + total es)); simpl; lia || done.
    + intros a. rewrite L5. destruct (op =? PCI_DMA_READ) eqn:R; [by rewrite M6|].
      simpl. apply scatter_ext; intros x; [apply M5|apply M6].
  - intros [Hn Hf]. simpl in Hn.
    destruct (dw_scheds w) as [|sc scs] eqn:Es; [simpl in Hn; lia|].
    destruct Hgo as [w1 E1]; [split; rewrite Es; [simpl; lia|done]|].
    destruct (Hone w1 E1) as [M1 M2 [s' M3] M4 M5 M6].
    destruct (IH (s + l) w1 M1 Hes ltac:(lia) ltac:(lia)) as [_ IH2].
    destruct IH2 as [w' E2].
    { rewrite Es in M3. injection M3 as -> ->. simpl in Hn. apply Forall_cons in Hf as [_ Hf].
      split; [lia|done]. }
    exists w'. rewrite E1. simpl. done.
Qed.

End correct.

(** ** The loops over the PRP entries *)

Definition entries (n : nat) (ix : Z) (l : list dma_op_t) : list (Z * Z) :=
  map seg_of (take n (drop (Z.to_nat ix) l)).

(** The entries cut off after [r] bytes: what [do_sync_dma_operation] moves. *)
Fixpoint chunks (r : Z) (es : list (Z * Z)) : list (Z * Z) :=
  match es with
  | [] => []
  | (a, l) :: es => if r =? 0 then [] else (a, Z.min l r) :: chunks (r - Z.min l r) es
  end.

Lemma entries_cons n ix l e :
  0 <= ix -> arr_get l ix = Ok e -> entries (S n) ix l = seg_of e :: entries n (ix + 1) l.
Proof.
  intros Hix E. apply arr_get_Ok in E as [_ E]. unfold entries.
  rewrite (drop_S _ _ _ E). simpl. f_equal. by rewrite Z2Nat.inj_add, Nat.add_1_r by lia.
Qed.

Section loops.
Context `{DmaEngines}.

Lemma rw_io_loop_eq n ix s op l w :
  0 <= ix -> ix + Z.of_nat n <= Z.of_nat (length l) ->
  rw_io_loop n ix s op l w = move_list op s (entries n ix l) w.
Proof.
  revert ix s w. induction n as [|n IH]; intros ix s w Hix Hn; [by unfold entries; rewrite take_0|].
  destruct (arr_get_lookup l ix) as (e & E & _); [lia|].
  rewrite (entries_cons n ix l e Hix E). simpl. rewrite E. simpl.
  destruct (dma_one _ _ _ _ w) as [w1|]; [|done]. simpl. apply IH; lia.
Qed.

Lemma dma_operation_loop_eq n ix s r op l w :
  0 <= ix -> ix + Z.of_nat n <= Z.of_nat (length l) ->
  dma_operation_loop n ix s r op l w = move_list op s (chunks r (entries n ix l)) w.
Proof.
  revert ix s r w. induction n as [|n IH]; intros ix s r w Hix Hn; [by unfold entries; rewrite take_0|].
  destruct (arr_get_lookup l ix) as (e & E & _); [lia|].
  rewrite (entries_cons n ix l e Hix E). simpl. destruct (r =? 0); [done|]. rewrite E. simpl.
  destruct (dma_one _ _ _ _ w) as [w1|]; [|done]. simpl. apply IH; lia.
Qed.

End loops.

Lemma chunks_total es r : Forall seg_ok es -> 0 <= r -> total (chunks r es) = Z.min r (total es).
Proof.
  intros Hes. revert r. induction Hes as [|[a l] es [_ Hl] Hes IH]; intros r Hr; [unfold total; simpl; lia|].
  pose proof (total_nonneg es Hes) as Ht. assert (Hl' : 0 <= l <= 65536) by exact Hl.
  assert (Htot : total ((a, l) :: es) = l + total es) by done. rewrite Htot. simpl.
  destruct (Z.eqb_spec r 0) as [->|Hne]; [unfold total at 1; simpl; lia|].
  assert (Htc : total ((a, Z.min l r) :: chunks (r - Z.min l r) es)
                = Z.min l r + total (chunks (r - Z.min l r) es)) by done.
  rewrite Htc, IH by lia. lia.
Qed.

Lemma chunks_ok es r : Forall seg_ok es -> 0 <= r -> Forall seg_ok (chunks r es).
Proof.
  intros Hes. revert r. induction Hes as [|[a l] es [Ha Hl] Hes IH]; intros r Hr; simpl; [done|].
  assert (Hl' : 0 <= l <= 65536) by exact Hl.
  destruct (r =? 0); [done|]. constructor; [|apply IH; lia]. split; [done|]. unfold page_len. change INTERFACE_DMA_PAGE_SIZE with 65536. simpl. lia.
Qed.

Lemma chunks_length es r : (length (chunks r es) <= length es)%nat.
Proof.
  revert r. induction es as [|[a l] es IH]; intros r; simpl; [lia|].
  destruct (r =? 0); simpl; [lia|]. specialize (IH (r - Z.min l r)). lia.
Qed.

(** Cutting the list does not move its bytes. *)
Lemma chunks_addr es r off :
  Forall seg_ok es -> 0 <= off < Z.min r (total es) -> seg_addr (chunks r es) off = seg_addr es off.
Proof.
  intros Hes. revert r off. induction Hes as [|[a l] es [_ Hl] Hes IH]; intros r off Hoff.
  { unfold total in Hoff. simpl in Hoff. lia. }
  assert (Hl' : 0 <= l <= 65536) by exact Hl.
  assert (Htot : total ((a, l) :: es) = l + total es) by done. rewrite Htot in Hoff. simpl.
  destruct (Z.eqb_spec r 0); [lia|]. simpl.
  destruct (Z.ltb_spec off (Z.min l r)), (Z.ltb_spec off l); try lia.
  replace (Z.min l r) with l by lia. apply IH. lia.
Qed.

Lemma scatter_other es s ssd host a :
  (forall off, 0 <= off < total es -> a <> seg_addr es off) -> Forall seg_ok es ->
  scatter es s ssd host a = host a.
Proof.
  intros Hne Hes. revert s host Hne. induction Hes as [|[b l] es [_ Hl] Hes IH]; intros s host Hne; [done|].
  assert (Hl' : 0 <= l <= 65536) by exact Hl. pose proof (total_nonneg es Hes) as Ht.
  assert (Htot : total ((b, l) :: es) = l + total es) by done. rewrite Htot in Hne. simpl in *.
  rewrite IH.
  - unfold moved. destruct (in_range l (a - b)) eqn:R; [|done]. apply in_range_true in R.
    destruct (Hne (a - b)); [lia|]. destruct (Z.ltb_spec (a - b) l); lia.
  - intros off Ho. specialize (Hne (l + off) ltac:(lia)).
    destruct (Z.ltb_spec (l + off) l); [lia|]. by replace (l + off - l) with off in Hne by lia.
Qed.

(** No two bytes of the list share a host address. *)
Definition segs_disjoint (es : list (Z * Z)) : Prop :=
  forall o1 o2, 0 <= o1 < total es -> 0 <= o2 < total es -> seg_addr es o1 = seg_addr es o2 -> o1 = o2.

Lemma segs_disjoint_tail a l es :
  0 <= l -> segs_disjoint ((a, l) :: es) -> segs_disjoint es.
Proof.
  intros Hl Hd o1 o2 H1 H2 E. assert (Htot : total ((a, l) :: es) = l + total es) by done.
  specialize (Hd (l + o1) (l + o2)). rewrite Htot in Hd. simpl in Hd.
  destruct (Z.ltb_spec (l + o1) l), (Z.ltb_spec (l + o2) l); try lia.
  replace (l + o1 - l) with o1 in Hd by lia. replace (l + o2 - l) with o2 in Hd by lia.
  specialize (Hd ltac:(lia) ltac:(lia) E). lia.
Qed.

Lemma scatter_at es s ssd host off :
  segs_disjoint es -> Forall seg_ok es -> 0 <= off < total es ->
  scatter es s ssd host (seg_addr es off) = ssd (s + off).
Proof.
  intros Hd Hes. revert s host off Hd. induction Hes as [|[b l] es [_ Hl] Hes IH]; intros s host off Hd Ho.
  { unfold total in Ho. simpl in Ho. lia. }
  assert (Hl' : 0 <= l <= 65536) by exact Hl. pose proof (total_nonneg es Hes) as Ht.
  assert (Htot : total ((b, l) :: es) = l + total es) by done. rewrite Htot in Ho. simpl.
  destruct (Z.ltb_spec off l) as [Hlt|Hge].
  - rewrite scatter_other; [|intros o2 Ho2 E|done].
    + unfold moved. replace (b + off - b) with off by lia.
      by rewrite (proj2 (in_range_true l off)) by lia.
    + specialize (Hd off (l + o2)). rewrite Htot in Hd. simpl in Hd.
      destruct (Z.ltb_spec off l), (Z.ltb_spec (l + o2) l); try lia.
      replace (l + o2 - l) with o2 in Hd by lia. specialize (Hd ltac:(lia) ltac:(lia) E). lia.
  - rewrite IH; [f_equal; lia| |lia]. eapply segs_disjoint_tail; [|done]. lia.
Qed.

(** ** The properties of the thread *)

(** A transfer the driver builds: its entries are in the list, their lengths
    and addresses are machine words and the buffer does not wrap around. *)
Definition dma_ok (dma : dma_t) (es : list (Z * Z)) : Prop :=
  Forall seg_ok es /\ 0 <= n_ops dma <= Z.of_nat (length (dma_list dma))
  /\ 0 <= buffer_addr dma /\ buffer_addr dma + total es < 2 ^ 32.

Definition io_entries (dma : dma_t) : list (Z * Z) := entries (Z.to_nat (n_ops dma)) 0 (dma_list dma).

Section properties.
Context `{DmaEngines}.

Lemma rw_io_dma dma op w :
  quiet w -> is_rw_op op -> dma_ok dma (io_entries dma) ->
  (forall dma' w', do_sync_rw_io_dma_operation dma op w = Ok (dma', w') ->
     dma' = set_dma_complete true dma /\ list_moved op (buffer_addr dma) (io_entries dma) w w')
  /\ (ready_for (length (io_entries dma)) w ->
      exists w', do_sync_rw_io_dma_operation dma op w = Ok (set_dma_complete true dma, w')).
Proof.
  intros Hq Hop (Hes & Hn & Hb & Ht). unfold do_sync_rw_io_dma_operation.
  rewrite rw_io_loop_eq by lia. fold (io_entries dma).
  destruct (move_list_spec op Hop (io_entries dma) (buffer_addr dma) w Hq Hes Hb Ht) as [Hd Hg].
  split.
  - intros dma' w' E. apply obind_Ok in E as (w1 & E1 & E2). injection E2 as <- <-. auto.
  - intros Hr. destruct (Hg Hr) as [w1 ->]. simpl. eauto.
Qed.

Lemma write_io_ok dma w :
  quiet w -> dma_ok dma (io_entries dma) ->
  (forall dma' w', sync_dma_cbk dma WRITE_IO_DMA_OPERATION w = Ok (dma', w') ->
     dma' = set_dma_complete true dma
     /\ (forall off, 0 <= off < total (io_entries dma) ->
         hi_ssd (dw_hif w') (buffer_addr dma + off) = hi_host (dw_hif w) (seg_addr (io_entries dma) off))
     /\ (forall a, ~ (buffer_addr dma <= a < buffer_addr dma + total (io_entries dma)) ->
         hi_ssd (dw_hif w') a = hi_ssd (dw_hif w) a)
     /\ (forall a, hi_host (dw_hif w') a = hi_host (dw_hif w) a) /\ quiet w')
  /\ (ready_for (length (io_entries dma)) w ->
      exists w', sync_dma_cbk dma WRITE_IO_DMA_OPERATION w = Ok (set_dma_complete true dma, w')).
Proof.
  intros Hq Hok. change (sync_dma_cbk dma WRITE_IO_DMA_OPERATION w)
    with (do_sync_rw_io_dma_operation dma PCI_DMA_READ w).
  destruct (rw_io_dma dma PCI_DMA_READ w Hq (or_introl eq_refl) Hok) as [Hd Hg]. split; [|done].
  intros dma' w' E. destruct (Hd dma' w' E) as (-> & [L1 L2 L3 L4 L5]). split_and!; try done.
  - intros off Ho. rewrite L4. simpl. replace (buffer_addr dma + off - buffer_addr dma) with off by lia.
    by rewrite (proj2 (in_range_true _ off) Ho).
  - intros a Ha. rewrite L4. simpl. destruct (in_range _ _) eqn:R; [|done].
    apply in_range_true in R. lia.
Qed.

(** C21: the transfer of a write request fetches the host's data into the
    request's buffer: byte [off] of the buffer is the byte at offset [off] of
    the PRP list, nothing else of the drive's memory and nothing of the host's
    changes, and the request is marked complete; it returns under every
    scheduling of the device and the host that is fair to both. *)
Theorem write_io_dma_fetches dma w :
  quiet w -> dma_ok dma (io_entries dma) ->
  (forall dma' w', sync_dma_cbk dma WRITE_IO_DMA_OPERATION w = Ok (dma', w') ->
     dma' = set_dma_complete true dma
     /\ (forall off, 0 <= off < total (io_entries dma) ->
         hi_ssd (dw_hif w') (buffer_addr dma + off) = hi_host (dw_hif w) (seg_addr (io_entries dma) off))
     /\ (forall a, ~ (buffer_addr dma <= a < buffer_addr dma + total (io_entries dma)) ->
         hi_ssd (dw_hif w') a = hi_ssd (dw_hif w) a)
     /\ (forall a, hi_host (dw_hif w') a = hi_host (dw_hif w) a) /\ quiet w')
  /\ (ready_for (length (io_entries dma)) w ->
      exists w', sync_dma_cbk dma WRITE_IO_DMA_OPERATION w = Ok (set_dma_complete true dma, w')).
Proof. apply write_io_ok. Qed.

Lemma read_io_ok dma w :
  quiet w -> dma_ok dma (io_entries dma) -> segs_disjoint (io_entries dma) ->
  (forall dma' w', sync_dma_cbk dma READ_IO_DMA_OPERATION w = Ok (dma', w') ->
     dma' = set_dma_complete true dma
     /\ (forall off, 0 <= off < total (io_entries dma) ->
         hi_host (dw_hif w') (seg_addr (io_entries dma) off) = hi_ssd (dw_hif w) (buffer_addr dma + off))
     /\ (forall a, (forall off, 0 <= off < total (io_entries dma) -> a <> seg_addr (io_entries dma) off) ->
         hi_host (dw_hif w') a = hi_host (dw_hif w) a)
     /\ (forall a, hi_ssd (dw_hif w') a = hi_ssd (dw_hif w) a) /\ quiet w')
  /\ (ready_for (length (io_entries dma)) w ->
      exists w', sync_dma_cbk dma READ_IO_DMA_OPERATION w = Ok (set_dma_complete true dma, w')).
Proof.
  intros Hq Hok Hdis. change (sync_dma_cbk dma READ_IO_DMA_OPERATION w)
    with (do_sync_rw_io_dma_operation dma PCI_DMA_WRITE w).
  destruct (rw_io_dma dma PCI_DMA_WRITE w Hq (or_intror eq_refl) Hok) as [Hd Hg]. split; [|done].
  destruct Hok as (Hes & _). intros dma' w' E. destruct (Hd dma' w' E) as (-> & [L1 L2 L3 L4 L5]).
  split_and!; try done.
  - intros off Ho. rewrite L5. simpl. by apply scatter_at.
  - intros a Ha. rewrite L5. simpl. by apply scatter_other.
Qed.

(** C23: the transfer of a read request delivers the request's buffer to the
    host: when no two bytes of the PRP list share an address, the host byte at
    offset [off] of the list becomes byte [off] of the buffer, every other host
    byte and the drive's memory are unchanged, and the request is marked
    complete; it returns under every fair scheduling. *)
Theorem read_io_dma_delivers dma w :
  quiet w -> dma_ok dma (io_entries dma) -> segs_disjoint (io_entries dma) ->
  (forall dma' w', sync_dma_cbk dma READ_IO_DMA_OPERATION w = Ok (dma', w') ->
     dma' = set_dma_complete true dma
     /\ (forall off, 0 <= off < total (io_entries dma) ->
         hi_host (dw_hif w') (seg_addr (io_entries dma) off) = hi_ssd (dw_hif w) (buffer_addr dma + off))
     /\ (forall a, (forall off, 0 <= off < total (io_entries dma) -> a <> seg_addr (io_entries dma) off) ->
         hi_host (dw_hif w') a = hi_host (dw_hif w) a)
     /\ (forall a, hi_ssd (dw_hif w') a = hi_ssd (dw_hif w) a) /\ quiet w')
  /\ (ready_for (length (io_entries dma)) w ->
      exists w', sync_dma_cbk dma READ_IO_DMA_OPERATION w = Ok (set_dma_complete true dma, w')).
Proof. apply read_io_ok. Qed.

End properties.

Section queue_commands.
Context `{DmaEngines}.

(** A resumed transfer from the host. *)
Lemma dma_operation_reads dma w :
  let rest := entries (Z.to_nat (n_ops dma - c_op_smem_pg dma)) (c_op_smem_pg dma) (dma_list dma) in
  let r_len := if c_op_len dma =? 0 then data_size dma else c_op_len dma in
  let len := Z.min r_len (total rest) in
  quiet w -> Forall seg_ok rest -> 0 <= c_op_smem_pg dma <= n_ops dma ->
  n_ops dma <= Z.of_nat (length (dma_list dma)) -> 0 <= r_len ->
  0 <= buffer_addr dma -> buffer_addr dma + len < 2 ^ 32 ->
  (forall dma' w', do_sync_dma_operation dma PCI_DMA_READ w = Ok (dma', w') ->
     dma' = set_dma_complete true (set_c_op 0 0 dma)
     /\ (forall off, 0 <= off < len ->
         hi_ssd (dw_hif w') (buffer_addr dma + off) = hi_host (dw_hif w) (seg_addr rest off))
     /\ (forall a, ~ (buffer_addr dma <= a < buffer_addr dma + len) ->
         hi_ssd (dw_hif w') a = hi_ssd (dw_hif w) a)
     /\ (forall a, hi_host (dw_hif w') a = hi_host (dw_hif w) a) /\ quiet w')
  /\ (ready_for (length rest) w -> exists w',
      do_sync_dma_operation dma PCI_DMA_READ w = Ok (set_dma_complete true (set_c_op 0 0 dma), w')).
Proof.
  intros rest r_len len Hq Hes Hix Hn Hr Hb Ht.
  unfold do_sync_dma_operation. fold r_len. rewrite dma_operation_loop_eq by lia. fold rest.
  pose proof (chunks_total rest r_len Hes Hr) as Htot. fold len in Htot.
  destruct (move_list_spec PCI_DMA_READ (or_introl eq_refl) (chunks r_len rest) (buffer_addr dma) w Hq
              (chunks_ok rest r_len Hes Hr) Hb ltac:(lia)) as [Hd Hg].
  split.
  - intros dma' w' E. apply obind_Ok in E as (w1 & E1 & E2). injection E2 as <- <-.
    destruct (Hd w1 E1) as [L1 L2 L3 L4 L5]. rewrite Htot in L4. split_and!; try done.
    + intros off Ho. rewrite L4. simpl. replace (buffer_addr dma + off - buffer_addr dma) with off by lia.
      rewrite (proj2 (in_range_true _ off) Ho). f_equal. by apply chunks_addr.
    + intros a Ha. rewrite L4. simpl. destruct (in_range _ _) eqn:R; [|done].
      apply in_range_true in R. lia.
  - intros [Hl Hf]. pose proof (chunks_length rest r_len).
    destruct Hg as [w1 ->]; [split; [lia|done]|]. simpl. eauto.
Qed.

(** an ISP transfer resumes at PRP entry [c_op_smem_pg] and moves exactly
    the requested bytes, [c_op_len] of them or the whole data size when it is
    zero, but never more than the remaining entries hold: the bytes come, in
    order, from the host addresses of the remaining entries into the buffer
    (for [PCI_DMA_READ]) and nothing else of the drive's memory changes; the
    resume fields are cleared, so that the next transfer starts at the first
    entry; it returns under every fair scheduling. *)
Theorem dma_operation_resumes dma w :
  let rest := entries (Z.to_nat (n_ops dma - c_op_smem_pg dma)) (c_op_smem_pg dma) (dma_list dma) in
  let r_len := if c_op_len dma =? 0 then data_size dma else c_op_len dma in
  let len := Z.min r_len (total rest) in
  quiet w -> Forall seg_ok rest -> 0 <= c_op_smem_pg dma <= n_ops dma ->
  n_ops dma <= Z.of_nat (length (dma_list dma)) -> 0 <= r_len ->
  0 <= buffer_addr dma -> buffer_addr dma + len < 2 ^ 32 ->
  (forall dma' w', sync_dma_cbk dma PCI_DMA_READ w = Ok (dma', w') ->
     dma' = set_dma_complete true (set_c_op 0 0 dma)
     /\ (forall off, 0 <= off < len ->
         hi_ssd (dw_hif w') (buffer_addr dma + off) = hi_host (dw_hif w) (seg_addr rest off))
     /\ (forall a, ~ (buffer_addr dma <= a < buffer_addr dma + len) ->
         hi_ssd (dw_hif w') a = hi_ssd (dw_hif w) a)
     /\ (forall a, hi_host (dw_hif w') a = hi_host (dw_hif w) a) /\ quiet w')
  /\ (ready_for (length rest) w -> exists w',
      sync_dma_cbk dma PCI_DMA_READ w = Ok (set_dma_complete true (set_c_op 0 0 dma), w')).
Proof. exact (dma_operation_reads dma w). Qed.

Definition scmd_regs (s : sync_dma_t) : list (hreg * Z) :=
  [(R_sqeDmaAddr_lo, lbits (sd_host_p_addr s)); (R_sqeDmaAddr_hi, hbits (sd_host_p_addr s));
   (R_squeue, sd_sqid s); (R_sqe, sd_sqe s); (R_sqAddr, sd_ssd_addr s)].
Definition ccmd_regs (s : sync_dma_t) : list (hreg * Z) :=
  [(R_cqueue, sd_cqid s); (R_cqe, sd_cqe s); (R_cqAddr, sd_ssd_addr s);
   (R_cqeDmaAddr_lo, lbits (sd_host_p_addr s)); (R_cqeDmaAddr_hi, hbits (sd_host_p_addr s));
   (R_cqIntVector, sd_vector s); (R_isr_notify, sd_irq_enabled s)].

Lemma do_sync_read_scmd_eq w :
  do_sync_read_scmd w =
  (let! w := (let! w := setReg R_cmd PCI_DMA_SQ_READ
                (set_dw_hif (with_regs (scmd_regs (dw_sync w)) (dw_hif w)) w) in wait_cmdStatus w) in
   Ok (0, set_dw_sync (set_sd_status 1 (dw_sync w)) w)).
Proof.
  match goal with |- _ = ?R => set (rhs := R) end. unfold do_sync_read_scmd, setReg64.
  do 5 (rewrite setReg_plain by discriminate; cbn [obind]). subst rhs.
  by destruct (setReg R_cmd _ _).
Qed.

Lemma do_sync_post_ccmd_eq w :
  do_sync_post_ccmd w =
  (let! w := (let! w := setReg R_cmd PCI_DMA_CQ_WRITE
                (set_dw_hif (with_regs (ccmd_regs (dw_sync w)) (dw_hif w)) w) in wait_cmdStatus w) in
   Ok (0, set_dw_sync (set_sd_status 1 (dw_sync w)) w)).
Proof.
  match goal with |- _ = ?R => set (rhs := R) end. unfold do_sync_post_ccmd, setReg64.
  do 7 (rewrite setReg_plain by discriminate; cbn [obind]). subst rhs.
  by destruct (setReg R_cmd _ _).
Qed.

Lemma entry_addr p i k : fits 64 p -> 0 <= i < 2 ^ 16 -> 0 <= k <= 64 -> p + i * k < 2 ^ 64 ->
  u64 (lbits p + 2 ^ 32 * hbits p + u32 (u32 i * k)) = p + i * k.
Proof.
  intros Hp Hi Hk Hb. rewrite raw_lo_hi by done. rewrite (u32_id i) by lia.
  unfold fits in Hp. rewrite u32_id by nia. apply u64_id. nia.
Qed.

(** Reading a submission entry. *)
Lemma read_scmd_ok sqid sqe host_p_addr ssd_addr ncmds obj w :
  quiet w -> 0 <= sqe < 2 ^ 16 -> fits 64 host_p_addr -> host_p_addr + sqe * 64 < 2 ^ 64 ->
  fits 32 ssd_addr ->
  let wr := set_dw_sync (sync_read_scmd sqid sqe host_p_addr ssd_addr ncmds (dw_sync w)) w in
  let type := sd_dma_type (dw_sync wr) in
  (forall obj' w', sync_dma_cbk obj type wr = Ok (obj', w') ->
     obj' = obj /\ sd_status (dw_sync w') = 1
     /\ (forall i, 0 <= i < 64 ->
         hi_ssd (dw_hif w') (ssd_addr + i) = hi_host (dw_hif w) (host_p_addr + sqe * 64 + i))
     /\ (forall a, ~ (ssd_addr <= a < ssd_addr + 64) -> hi_ssd (dw_hif w') a = hi_ssd (dw_hif w) a)
     /\ (forall a, hi_host (dw_hif w') a = hi_host (dw_hif w) a) /\ quiet w'
     /\ (exists sc, dw_scheds w = sc :: dw_scheds w'))
  /\ (ready_for 1 w -> exists w', sync_dma_cbk obj type wr = Ok (obj, w')).
Proof.
  intros Hq Hsqe Hp Hb Hs wr type. unfold type, sync_dma_cbk. simpl sd_dma_type. cbv iota beta.
  rewrite Z.eqb_refl, do_sync_read_scmd_eq.
  destruct (command_cases (scmd_regs (dw_sync wr)) PCI_DMA_SQ_READ wr Hq eq_refl) as [Hd Hg].
  split.
  - intros obj' w' E. apply obind_Ok in E as ([r w1] & E1 & E2). injection E2 as <- <-.
    apply obind_Ok in E1 as (w2 & E2 & E3). injection E3 as <- <-.
    destruct (Hd w2 E2) as ([D1 D2 D3 D4 D5 D6] & _ & Hsc).
    destruct (with_regs_mem (scmd_regs (dw_sync wr)) (dw_hif wr)) as (Es & Eh & _).
    assert (Ex : cmd_xfer (hi_regs (with_regs (scmd_regs (dw_sync wr)) (dw_hif wr))) PCI_DMA_SQ_READ
                 = (host_p_addr + sqe * 64, ssd_addr, 64)).
    { unfold cmd_xfer. rewrite Z.eqb_refl. simpl hi_regs. unfold sqeDmaAddr_raw. regs_simpl.
      rewrite (u32_fits_id _ (lbits_fits _)), (u32_fits_id _ (hbits_fits _)), (u32_fits_id _ Hs).
      rewrite entry_addr by lia || done. done. }
    rewrite Ex, Es, Eh in *. simpl in D4, D5. split_and!; try done.
    + intros i Hi. simpl. rewrite D4. unfold moved.
      replace (ssd_addr + i - ssd_addr) with i by lia. by rewrite (proj2 (in_range_true _ i) Hi).
    + intros a Ha. simpl. rewrite D4. unfold moved. destruct (in_range _ _) eqn:R; [|done].
      apply in_range_true in R. lia.
  - intros Hr. destruct (Hg Hr (xfer_fits_sq _)) as [w1 ->]. simpl. eauto.
Qed.

(** Reading a submission entry copies the 64 bytes of entry [sqe] of the
    queue at [host_p_addr] to the buffer of the drive, changes nothing else, and
    sets the status the caller waits for; it returns under every fair
    scheduling. *)
Theorem sync_read_scmd_reads sqid sqe host_p_addr ssd_addr ncmds obj w :
  quiet w -> 0 <= sqe < 2 ^ 16 -> fits 64 host_p_addr -> host_p_addr + sqe * 64 < 2 ^ 64 ->
  fits 32 ssd_addr ->
  let wr := set_dw_sync (sync_read_scmd sqid sqe host_p_addr ssd_addr ncmds (dw_sync w)) w in
  let type := sd_dma_type (dw_sync wr) in
  (forall obj' w', sync_dma_cbk obj type wr = Ok (obj', w') ->
     obj' = obj /\ sd_status (dw_sync w') = 1
     /\ (forall i, 0 <= i < 64 ->
         hi_ssd (dw_hif w') (ssd_addr + i) = hi_host (dw_hif w) (host_p_addr + sqe * 64 + i))
     /\ (forall a, ~ (ssd_addr <= a < ssd_addr + 64) -> hi_ssd (dw_hif w') a = hi_ssd (dw_hif w) a)
     /\ (forall a, hi_host (dw_hif w') a = hi_host (dw_hif w) a) /\ quiet w'
     /\ (exists sc, dw_scheds w = sc :: dw_scheds w'))
  /\ (ready_for 1 w -> exists w', sync_dma_cbk obj type wr = Ok (obj, w')).
Proof. apply read_scmd_ok. Qed.

(** Posting a completion entry. *)
Lemma post_ccmd_ok cqid cqe host_p_addr ssd_addr ncmds vector irq_enabled obj w :
  quiet w -> 0 <= cqe < 2 ^ 16 -> fits 64 host_p_addr -> host_p_addr + cqe * 16 < 2 ^ 64 ->
  fits 32 ssd_addr -> fits 32 vector -> fits 32 irq_enabled ->
  let wr := set_dw_sync (sync_post_ccmd cqid cqe host_p_addr ssd_addr ncmds vector irq_enabled
                           (dw_sync w)) w in
  let type := sd_dma_type (dw_sync wr) in
  (forall obj' w', sync_dma_cbk obj type wr = Ok (obj', w') ->
     obj' = obj /\ sd_status (dw_sync w') = 1
     /\ (forall i, 0 <= i < 16 ->
         hi_host (dw_hif w') (host_p_addr + cqe * 16 + i) = hi_ssd (dw_hif w) (ssd_addr + i))
     /\ (forall a, ~ (host_p_addr + cqe * 16 <= a < host_p_addr + cqe * 16 + 16) ->
         hi_host (dw_hif w') a = hi_host (dw_hif w) a)
     /\ (forall a, hi_ssd (dw_hif w') a = hi_ssd (dw_hif w) a)
     /\ hi_irqs (dw_hif w') =
        (if irq_enabled =? 0 then hi_irqs (dw_hif w) else hi_irqs (dw_hif w) ++ [vector])
     /\ quiet w' /\ (exists sc, dw_scheds w = sc :: dw_scheds w'))
  /\ (ready_for 1 w -> exists w', sync_dma_cbk obj type wr = Ok (obj, w')).
Proof.
  intros Hq Hcqe Hp Hb Hs Hv Hi wr type. unfold type, sync_dma_cbk. simpl sd_dma_type. cbv iota beta.
  change (PCI_DMA_CQ_WRITE =? PCI_DMA_SQ_READ) with false. rewrite Z.eqb_refl, do_sync_post_ccmd_eq.
  destruct (command_cases (ccmd_regs (dw_sync wr)) PCI_DMA_CQ_WRITE wr Hq eq_refl) as [Hd Hg].
  split.
  - intros obj' w' E. apply obind_Ok in E as ([r w1] & E1 & E2). injection E2 as <- <-.
    apply obind_Ok in E1 as (w2 & E2 & E3). injection E3 as <- <-.
    destruct (Hd w2 E2) as ([D1 D2 D3 D4 D5 D6] & _ & Hsc).
    destruct (with_regs_mem (ccmd_regs (dw_sync wr)) (dw_hif wr)) as (Es & Eh & Ei).
    assert (Ex : cmd_xfer (hi_regs (with_regs (ccmd_regs (dw_sync wr)) (dw_hif wr))) PCI_DMA_CQ_WRITE
                 = (host_p_addr + cqe * 16, ssd_addr, 16)).
    { unfold cmd_xfer. simpl hi_regs. unfold cqeDmaAddr_raw.
      change (PCI_DMA_CQ_WRITE =? PCI_DMA_SQ_READ) with false. rewrite Z.eqb_refl. regs_simpl.
      rewrite (u32_fits_id _ (lbits_fits _)), (u32_fits_id _ (hbits_fits _)), (u32_fits_id _ Hs).
      rewrite entry_addr by lia || done. done. }
    assert (Eirq : hi_regs (with_regs (ccmd_regs (dw_sync wr)) (dw_hif wr)) R_isr_notify = irq_enabled
                   /\ hi_regs (with_regs (ccmd_regs (dw_sync wr)) (dw_hif wr)) R_cqIntVector = vector).
    { simpl. regs_simpl. by rewrite (u32_fits_id _ Hv), (u32_fits_id _ Hi). }
    destruct Eirq as [E1 E3]. rewrite Ex, Es, Eh, Ei, E1, E3 in *. simpl in D4, D5, D6.
    split_and!; try done.
    + intros i Ho. simpl. rewrite D5. unfold moved.
      replace (host_p_addr + cqe * 16 + i - (host_p_addr + cqe * 16)) with i by lia.
      by rewrite (proj2 (in_range_true _ i) Ho).
    + intros a Ha. simpl. rewrite D5. unfold moved. destruct (in_range _ _) eqn:R; [|done].
      apply in_range_true in R. lia.
    + simpl. rewrite D6. by destruct (irq_enabled =? 0).
  - intros Hr. destruct (Hg Hr (xfer_fits_cq _)) as [w1 ->]. simpl. eauto.
Qed.

(** Posting a completion entry copies 16 bytes from the drive to entry [cqe]
    of the host's completion queue, changes nothing else, and raises the queue's
    interrupt vector exactly when the queue has interrupts enabled; it returns
    under every fair scheduling. *)
Theorem sync_post_ccmd_posts cqid cqe host_p_addr ssd_addr ncmds vector irq_enabled obj w :
  quiet w -> 0 <= cqe < 2 ^ 16 -> fits 64 host_p_addr -> host_p_addr + cqe * 16 < 2 ^ 64 ->
  fits 32 ssd_addr -> fits 32 vector -> fits 32 irq_enabled ->
  let wr := set_dw_sync (sync_post_ccmd cqid cqe host_p_addr ssd_addr ncmds vector irq_enabled
                           (dw_sync w)) w in
  let type := sd_dma_type (dw_sync wr) in
  (forall obj' w', sync_dma_cbk obj type wr = Ok (obj', w') ->
     obj' = obj /\ sd_status (dw_sync w') = 1
     /\ (forall i, 0 <= i < 16 ->
         hi_host (dw_hif w') (host_p_addr + cqe * 16 + i) = hi_ssd (dw_hif w) (ssd_addr + i))
     /\ (forall a, ~ (host_p_addr + cqe * 16 <= a < host_p_addr + cqe * 16 + 16) ->
         hi_host (dw_hif w') a = hi_host (dw_hif w) a)
     /\ (forall a, hi_ssd (dw_hif w') a = hi_ssd (dw_hif w) a)
     /\ hi_irqs (dw_hif w') =
        (if irq_enabled =? 0 then hi_irqs (dw_hif w) else hi_irqs (dw_hif w) ++ [vector])
     /\ quiet w' /\ (exists sc, dw_scheds w = sc :: dw_scheds w'))
  /\ (ready_for 1 w -> exists w', sync_dma_cbk obj type wr = Ok (obj, w')).
Proof. apply post_ccmd_ok. Qed.

End queue_commands.

(** ** A world in which the properties apply *)

Definition turns : list bool := [true; false; true; false; false; true; true; true; false].

Lemma turns_fair : fair 4 turns.
Proof.
  apply (fair_S 3 [true; false]); [set_solver..|].
  apply (fair_S 2 [true; false]); [set_solver..|].
  apply (fair_S 1 [false; true]); [set_solver..|].
  apply (fair_S 0 [true; true; false] []); [set_solver..|constructor].
Qed.

(** Host memory holds its addresses modulo 256. *)
Definition demo_dma_world (n : nat) : dma_world :=
  DmaWorld (hif0 (fun _ => 0) (fun a => a mod 256)) sync_dma0 (replicate n turns).

Lemma demo_dma_world_quiet n : quiet (demo_dma_world n).
Proof. apply hif0_quiescent. Qed.

Lemma demo_dma_world_ready n : ready_for n (demo_dma_world n).
Proof.
  split; simpl; [by rewrite length_replicate|]. apply Forall_replicate, turns_fair.
Qed.

(** A transfer of 20 bytes to [0x100]: 12 from [0x2004] and 8 from [0x9000]. *)
Definition demo_dma : dma_t :=
  Dma 20 2 false 0x100 0 0 [DmaOp 0 12 0x2004 false; DmaOp 0 8 0x9000 false].

(** [Forall seg_ok] of a concrete list. *)
Ltac segs_ok :=
  repeat (apply Forall_cons_2; [split; simpl; unfold fits, page_len; change INTERFACE_DMA_PAGE_SIZE with 65536; lia|]);
  apply Forall_nil_2.

Lemma demo_dma_ok : dma_ok demo_dma (io_entries demo_dma).
Proof.
  split_and!; simpl; try (unfold total; simpl; lia).
  segs_ok.
Qed.

Lemma demo_dma_disjoint : segs_disjoint (io_entries demo_dma).
Proof.
  intros o1 o2 H1 H2. unfold total in *. simpl in *.
  destruct (Z.ltb_spec o1 12), (Z.ltb_spec o2 12), (Z.ltb_spec (o1 - 12) 8), (Z.ltb_spec (o2 - 12) 8); lia.
Qed.

Lemma write_io_dma_fetches_witness :
  exists w', sync_dma_cbk demo_dma WRITE_IO_DMA_OPERATION (demo_dma_world 2)
             = Ok (set_dma_complete true demo_dma, w')
    /\ hi_ssd (dw_hif w') (0x100 + 13) = 1.
Proof.
  destruct (write_io_dma_fetches demo_dma (demo_dma_world 2) (demo_dma_world_quiet 2) demo_dma_ok)
    as [Hd Hg].
  destruct (Hg (demo_dma_world_ready 2)) as [w' E]. exists w'. split; [exact E|].
  destruct (Hd _ _ E) as (_ & Hs & _). apply (Hs 13). unfold total. simpl. lia.
Defined.

Lemma read_io_dma_delivers_witness :
  exists w', sync_dma_cbk demo_dma READ_IO_DMA_OPERATION (demo_dma_world 2)
             = Ok (set_dma_complete true demo_dma, w')
    /\ hi_host (dw_hif w') 0x9001 = 0 /\ hi_host (dw_hif w') 0x9010 = 0x10.
Proof.
  destruct (read_io_dma_delivers demo_dma (demo_dma_world 2) (demo_dma_world_quiet 2) demo_dma_ok
              demo_dma_disjoint) as [Hd Hg].
  destruct (Hg (demo_dma_world_ready 2)) as [w' E]. exists w'. split; [exact E|].
  destruct (Hd _ _ E) as (_ & Hh & Ho & _). split.
  - apply (Hh 13). unfold total. simpl. lia.
  - rewrite Ho; [reflexivity|]. intros off H. unfold total in H. simpl in *.
    destruct (Z.ltb_spec off 12), (Z.ltb_spec (off - 12) 8); lia.
Defined.

Lemma dma_operation_resumes_witness :
  exists w', sync_dma_cbk (set_c_op 1 3 demo_dma) PCI_DMA_READ (demo_dma_world 2)
             = Ok (set_dma_complete true demo_dma, w')
    /\ hi_ssd (dw_hif w') 0x102 = 2 /\ hi_ssd (dw_hif w') 0x103 = 0.
Proof.
  destruct (dma_operation_resumes (set_c_op 1 3 demo_dma) (demo_dma_world 2)) as [Hd Hg].
  - apply demo_dma_world_quiet.
  - segs_ok.
  - simpl. lia.
  - simpl. lia.
  - simpl. lia.
  - simpl. lia.
  - unfold total. simpl. lia.
  - destruct Hg as [w' E].
    { split; simpl; [lia|]. apply (Forall_replicate _ 2%nat), turns_fair. }
    exists w'. split; [exact E|]. destruct (Hd _ _ E) as (_ & Hs & Ho & _). split.
    + apply (Hs 2). unfold total. simpl. lia.
    + rewrite Ho; [reflexivity|]. unfold total. simpl. lia.
Defined.

Lemma sync_read_scmd_reads_witness :
  exists w', sync_dma_cbk dma0 PCI_DMA_SQ_READ
      (set_dw_sync (sync_read_scmd 1 2 0x3000 0x40 1 sync_dma0) (demo_dma_world 1)) = Ok (dma0, w')
    /\ hi_ssd (dw_hif w') 0x45 = 0x85.
Proof.
  destruct (sync_read_scmd_reads 1 2 0x3000 0x40 1 dma0 (demo_dma_world 1)) as [Hd Hg];
    [apply demo_dma_world_quiet|unfold fits; lia..|].
  destruct (Hg (demo_dma_world_ready 1)) as [w' E]. exists w'. split; [exact E|].
  destruct (Hd _ _ E) as (_ & _ & Hs & _). apply (Hs 5). lia.
Defined.

Lemma sync_post_ccmd_posts_witness :
  exists w', sync_dma_cbk dma0 PCI_DMA_CQ_WRITE
      (set_dw_sync (sync_post_ccmd 1 3 0x3000 0x40 1 7 1 sync_dma0) (demo_dma_world 1)) = Ok (dma0, w')
    /\ hi_host (dw_hif w') 0x3031 = 0 /\ hi_irqs (dw_hif w') = [7].
Proof.
  destruct (sync_post_ccmd_posts 1 3 0x3000 0x40 1 7 1 dma0 (demo_dma_world 1)) as [Hd Hg];
    [apply demo_dma_world_quiet|unfold fits; lia..|].
  destruct (Hg (demo_dma_world_ready 1)) as [w' E]. exists w'. split; [exact E|].
  destruct (Hd _ _ E) as (_ & _ & Hh & _ & _ & Hi & _). split; [|exact Hi]. apply (Hh 1). lia.
Defined.
