(* ===== verification/NandCtrl.v ===== *)
(** * The flash controller (SSD_hw_platforms/gem5/extra_sim_objects/iSSDNandCtrl.hh,
    iSSDNandCtrl.cc)

    A controller has two channels of flash chips and one DMA engine.  A channel
    queues the commands the firmware writes to its registers and executes them in
    order; it waits while the chip of the next command is busy or its own DMA is
    under way.  Completions are events, which fire in any order the schedule of
    the simulator gives; the ticks of an event are kept but not used to order it,
    so that what is proved holds for every latency.  The contents of the chips
    are one image shared by the controllers.

    Not modelled: the loading of the image from its file and its shared copy
    ([loadImgProcess], [shutdown]), statistics, and the page data packets, which
    nothing uses. *)

From Stdlib Require Import ZArith Lia Bool List.
From stdpp Require Import base tactics option list functions.
From S2P Require Import Prelude CTypes Queue MemUtil Geom HostIf.

(** ** Registers and operations (include/iSSDNandCtrlCmdReg.h) *)

Definition CHANNEL_0_BASE_ADDR : Z := 1024.
Definition CHANNEL_1_BASE_ADDR : Z := 2048.
Definition CHIP_SELECT_REG : Z := 0.
Definition CMD_PHASE_CMD_REG : Z := 4.
Definition ADDRESS_CYCLE_REG_1 : Z := 8.
Definition ADDRESS_CYCLE_REG_2 : Z := 12.
Definition DMA_PHASE_CMD_REG : Z := 16.
Definition DMA_RAM_PTR : Z := 20.
Definition CHIP_STATUS : Z := 24.
Definition WAITING_ROOM_CMD_COUNT : Z := 28.
Definition ACTIVE_OPERATION_COUNT : Z := 32.

Definition INIT_NAND_CTRL : Z := 0x10.
Definition NAND_CTRL_SHUTDOWN : Z := 4.
Definition READ_NAND : Z := 0x80003000.
Definition PROGRAM_NAND : Z := 0x80001080.
Definition ERASE_NAND : Z := 0x8000D060.
Definition READ_DMA : Z := 1.
Definition WRITE_DMA : Z := 2.

(** Byte [i] of the address cycles, and the first two bytes of a command. *)
Definition address_cycle_bytes : list Z := [8; 8; 8; 8; 8; 8; 8; 8].
Definition cycle_byte (i : nat) (a : Z) : Z := field address_cycle_bytes i a.
Definition nand_start_cmd (cmd : Z) : Z := field dword_bytes 0 cmd.
Definition nand_end_cmd (cmd : Z) : Z := field dword_bytes 1 cmd.

(** ** Latencies *)

Inductive media_type := SLC | MLC | TLC | QLC.

Record nand_ltcy := NandLtcy {
  lt_media : media_type; ltcy_read_page : Z; ltcy_program_page : Z; ltcy_erase_block : Z;
  read_msb_page : Z; read_lsb_page : Z; program_msb_page : Z; program_lsb_page : Z;
  read_csb_page : Z; program_csb_page : Z; read_chsb_page : Z; read_clsb_page : Z;
  program_chsb_page : Z; program_clsb_page : Z }.

Definition get_read_ltcy (l : nand_ltcy) (page_index : Z) : Z :=
  match lt_media l with
  | SLC => ltcy_read_page l
  | MLC => if negb (page_index mod 2 =? 0) then read_msb_page l else read_lsb_page l
  | TLC =>
      let page_type := page_index mod 3 in
      if page_type =? 0 then read_lsb_page l
      else if page_type =? 1 then read_csb_page l else read_msb_page l
  | QLC =>
      let page_type := page_index mod 4 in
      if page_type =? 0 then read_lsb_page l
      else if page_type =? 1 then read_clsb_page l
      else if page_type =? 2 then read_chsb_page l else read_msb_page l
  end.

Definition get_program_ltcy (l : nand_ltcy) (page_index : Z) : Z :=
  match lt_media l with
  | SLC => ltcy_program_page l
  | MLC => if negb (page_index mod 2 =? 0) then program_msb_page l else program_lsb_page l
  | TLC =>
      let page_type := page_index mod 3 in
      if page_type =? 0 then program_lsb_page l
      else if page_type =? 1 then program_csb_page l else program_msb_page l
  | QLC =>
      let page_type := page_index mod 4 in
      if page_type =? 0 then program_lsb_page l
      else if page_type =? 1 then program_clsb_page l
      else if page_type =? 2 then program_chsb_page l else program_msb_page l
  end.

(** ** Data *)

(** [NC_Command]; [nk_chip] is the index behind [chip_enabled]. *)
Record nc_command := NcCommand {
  nk_cmd : Z; nk_chip : option Z; nk_address : Z; nk_ram_ptr : Z; nk_op : Z; nk_data_phase_required : bool }.

Definition set_nk_cmd v k := NcCommand v (nk_chip k) (nk_address k) (nk_ram_ptr k) (nk_op k) (nk_data_phase_required k).
Definition set_nk_chip v k := NcCommand (nk_cmd k) v (nk_address k) (nk_ram_ptr k) (nk_op k) (nk_data_phase_required k).
Definition set_nk_address v k := NcCommand (nk_cmd k) (nk_chip k) v (nk_ram_ptr k) (nk_op k) (nk_data_phase_required k).
Definition set_nk_ram v k := NcCommand (nk_cmd k) (nk_chip k) (nk_address k) v (nk_op k) (nk_data_phase_required k).
Definition set_nk_op v b k := NcCommand (nk_cmd k) (nk_chip k) (nk_address k) (nk_ram_ptr k) v b.

(** [NC_Chip]; the page register is read up to the page size only. *)
Record nc_chip := NcChip {
  ch_cmd_1 : Z; ch_cmd_2 : Z; ch_address : list Z; ch_address_count : Z; ch_busy : bool;
  ch_page_reg : mem; ch_pending : option nc_command }.

Definition set_ch_cmd_1 v c := NcChip v (ch_cmd_2 c) (ch_address c) (ch_address_count c) (ch_busy c) (ch_page_reg c) (ch_pending c).
Definition set_ch_cmd_2 v c := NcChip (ch_cmd_1 c) v (ch_address c) (ch_address_count c) (ch_busy c) (ch_page_reg c) (ch_pending c).
Definition set_ch_address v n c := NcChip (ch_cmd_1 c) (ch_cmd_2 c) v n (ch_busy c) (ch_page_reg c) (ch_pending c).
Definition set_ch_busy v c := NcChip (ch_cmd_1 c) (ch_cmd_2 c) (ch_address c) (ch_address_count c) v (ch_page_reg c) (ch_pending c).
Definition set_ch_page_reg v c := NcChip (ch_cmd_1 c) (ch_cmd_2 c) (ch_address c) (ch_address_count c) (ch_busy c) v (ch_pending c).
Definition set_ch_pending v c := NcChip (ch_cmd_1 c) (ch_cmd_2 c) (ch_address c) (ch_address_count c) (ch_busy c) (ch_page_reg c) v.

(** [Simple_FiFo] of commands; an entry never written is [None]. *)
Record simple_fifo := SimpleFifo {
  ff_tail : Z; ff_head : Z; ff_items : Z; ff_isEmpty : bool; ff_isFull : bool;
  ff_entries : list (option nc_command) }.
Definition en_size : Z := 1024.
Definition fifo_new : simple_fifo := SimpleFifo 0 0 0 true false (replicate 1024 None).

(** The last test compares with [tail + 1] before it wraps. *)
Definition fifo_push (data : nc_command) (f : simple_fifo) : outcome simple_fifo :=
  if ff_isFull f then Ok f
  else
    let! entries := arr_set (ff_entries f) (ff_tail f) (Some data) in
    let tail := u32 (ff_tail f + 1) mod en_size in
    Ok (SimpleFifo tail (ff_head f) (u32 (ff_items f + 1)) false (ff_head f =? tail + 1) entries).

Definition fifo_front (f : simple_fifo) : outcome (option nc_command) :=
  if ff_isEmpty f then Ok None else arr_get (ff_entries f) (ff_head f).

Definition fifo_pop_front (f : simple_fifo) : simple_fifo :=
  if ff_isEmpty f then f
  else
    let head := u32 (ff_head f + 1) mod en_size in
    SimpleFifo (ff_tail f) head (u32 (ff_items f - 1)) (if head =? ff_tail f then true else ff_isEmpty f) false
      (ff_entries f).

(** [NC_Channel] *)
Record nc_channel := NcChannel {
  nh_index : Z; nh_chips : list nc_chip; nh_new_cmd : nc_command; nh_room : simple_fifo;
  nh_active : Z; nh_wait : bool; nh_read_dma : bool; nh_write_dma : bool; nh_ram_ptr : Z; nh_dma_chip : option Z }.

Definition set_nh_chips v h := NcChannel (nh_index h) v (nh_new_cmd h) (nh_room h) (nh_active h) (nh_wait h) (nh_read_dma h)
  (nh_write_dma h) (nh_ram_ptr h) (nh_dma_chip h).
Definition set_nh_new_cmd v h := NcChannel (nh_index h) (nh_chips h) v (nh_room h) (nh_active h) (nh_wait h) (nh_read_dma h)
  (nh_write_dma h) (nh_ram_ptr h) (nh_dma_chip h).
Definition set_nh_room v h := NcChannel (nh_index h) (nh_chips h) (nh_new_cmd h) v (nh_active h) (nh_wait h) (nh_read_dma h)
  (nh_write_dma h) (nh_ram_ptr h) (nh_dma_chip h).
Definition set_nh_active v h := NcChannel (nh_index h) (nh_chips h) (nh_new_cmd h) (nh_room h) v (nh_wait h) (nh_read_dma h)
  (nh_write_dma h) (nh_ram_ptr h) (nh_dma_chip h).
Definition set_nh_dma wait rd wr ram chip h := NcChannel (nh_index h) (nh_chips h) (nh_new_cmd h) (nh_room h) (nh_active h)
  wait rd wr ram chip.

(** The two completion events; [ev_ticks] is the delay they are scheduled with.
    A DMA event carries the arguments of [dmaRead] or [dmaWrite]. *)
Inductive sel := Ch0 | Ch1.
Inductive nc_event :=
| EvDma (rd : bool) (ram : Z) (i : sel) (chip : Z)
| EvChip (i : sel) (chip : Z) (ev_ticks : Z).

#[export] Instance sel_eq_dec : EqDecision sel.
Proof. solve_decision. Defined.

(** One controller: its channels, its DMA engine, the events under way and the
    status register. *)
Record nctrl := NCtrl {
  nc_channel_0 : nc_channel; nc_channel_1 : nc_channel; nc_toggle : bool; nc_current : option sel;
  nc_events : list nc_event; nc_cmdStatus : Z }.

Definition get_chn (i : sel) (c : nctrl) : nc_channel := match i with Ch0 => nc_channel_0 c | Ch1 => nc_channel_1 c end.
Definition put_chn (i : sel) (h : nc_channel) (c : nctrl) : nctrl :=
  match i with
  | Ch0 => NCtrl h (nc_channel_1 c) (nc_toggle c) (nc_current c) (nc_events c) (nc_cmdStatus c)
  | Ch1 => NCtrl (nc_channel_0 c) h (nc_toggle c) (nc_current c) (nc_events c) (nc_cmdStatus c)
  end.
Definition upd_chn (i : sel) (f : nc_channel -> nc_channel) (c : nctrl) : nctrl := put_chn i (f (get_chn i c)) c.
Definition set_engine t cur c := NCtrl (nc_channel_0 c) (nc_channel_1 c) t cur (nc_events c) (nc_cmdStatus c).
Definition set_events v c := NCtrl (nc_channel_0 c) (nc_channel_1 c) (nc_toggle c) (nc_current c) v (nc_cmdStatus c).
Definition schedule (e : nc_event) (c : nctrl) : nctrl := set_events (nc_events c ++ [e]) c.
Definition set_cmdStatus v c := NCtrl (nc_channel_0 c) (nc_channel_1 c) (nc_toggle c) (nc_current c) (nc_events c) v.

(** A controller, the image and the memory of the drive. *)
Record nworld := NWorld { nw_ctrl : nctrl; nw_image : mem; nw_ram : mem }.
Definition on_ctrl (f : nctrl -> nctrl) (w : nworld) : nworld := NWorld (f (nw_ctrl w)) (nw_image w) (nw_ram w).
Definition wchn (i : sel) (w : nworld) : nc_channel := get_chn i (nw_ctrl w).

Section controller.
Context `{DmaEngines} (g : geom) (lt : nand_ltcy) (junk : Z).

(** What [new NC_Command()] leaves: the members without an initialiser hold
    [junk], the pointer is not valid. *)
Definition new_command : nc_command := NcCommand junk None junk junk junk false.

(** ** Chips *)

Definition page_size : Z := NAND_PAGE_SIZE g.
Definition planes_per_chn : Z := u32 (DIES_PER_CHANNEL g * PLANES_PER_DIE g).
Definition pages_per_plane : Z := u32 (BLOCKS_PER_PLANE g * PAGES_PER_BLOCK g).
Definition pages_per_chn : Z := u32 (planes_per_chn * pages_per_plane).

Definition image_page (chn_index chip_index row_block row_page : Z) : Z :=
  u32 (chn_index * pages_per_chn + chip_index * pages_per_plane + row_block * PAGES_PER_BLOCK g + row_page).

(** [page * page_size]: a product of two 32-bit numbers *)
Definition image_ofs (page : Z) : Z := u32 (page * page_size).

(** The first four address bytes as two 16-bit numbers: page and block. *)
Definition decode_address_cycles (c : nc_chip) : outcome (Z * Z) :=
  let! b0 := arr_get (ch_address c) 0 in
  let! b1 := arr_get (ch_address c) 1 in
  let! b2 := arr_get (ch_address c) 2 in
  let! b3 := arr_get (ch_address c) 3 in
  Ok (b0 + 256 * b1, b2 + 256 * b3).

(** [memcpy] of [n] bytes between two objects *)
Definition copy_bytes (n : Z) (dst : mem) (dst_ofs : Z) (src : mem) (src_ofs : Z) : mem :=
  fun a => if in_range n (a - dst_ofs) then src (src_ofs + (a - dst_ofs)) else dst a.

Definition do_read (chn_index chip_index : Z) (c : nc_chip) (img : mem) : outcome (Z * nc_chip * mem) :=
  let! '(row_page, row_block) := decode_address_cycles c in
  let src := image_ofs (image_page chn_index chip_index row_block row_page) in
  Ok (get_read_ltcy lt row_page,
      set_ch_page_reg (copy_bytes page_size (ch_page_reg c) 0 img src) (set_ch_busy true c), img).

Definition do_program (chn_index chip_index : Z) (c : nc_chip) (img : mem) : outcome (Z * nc_chip * mem) :=
  let! '(row_page, row_block) := decode_address_cycles c in
  let dst := image_ofs (image_page chn_index chip_index row_block row_page) in
  Ok (get_program_ltcy lt row_page, set_ch_busy true c, copy_bytes page_size img dst (ch_page_reg c) 0).

(** The size of the block is also a 32-bit product. *)
Definition do_erase (chn_index chip_index : Z) (c : nc_chip) (img : mem) : outcome (Z * nc_chip * mem) :=
  let! '(_, row_block) := decode_address_cycles c in
  let dst := image_ofs (image_page chn_index chip_index row_block 0) in
  Ok (ltcy_erase_block lt, set_ch_busy true c,
      copy_bytes (u32 (page_size * PAGES_PER_BLOCK g)) img dst (fun _ => 0) 0).

Definition clear_address (c : nc_chip) : nc_chip := set_ch_address [0; 0; 0; 0; 0] 0 c.

Definition write_command_cycle (chn_index chip_index nand_cmd : Z) (c : nc_chip) (img : mem)
  : outcome (Z * nc_chip * mem) :=
  if (nand_cmd =? 0x80) || (nand_cmd =? 0x00) || (nand_cmd =? 0x60) then
    Ok (0, set_ch_cmd_1 nand_cmd (clear_address c), img)
  else if nand_cmd =? 0x30 then do_read chn_index chip_index (set_ch_cmd_2 nand_cmd c) img
  else if nand_cmd =? 0x10 then do_program chn_index chip_index (set_ch_cmd_2 nand_cmd c) img
  else if nand_cmd =? 0xD0 then do_erase chn_index chip_index (set_ch_cmd_2 nand_cmd c) img
  else Ok (0, c, img).

Definition write_address_cycle (address_byte : Z) (c : nc_chip) : outcome nc_chip :=
  let! l := arr_set (ch_address c) (ch_address_count c) address_byte in
  Ok (set_ch_address l (ch_address_count c + 1) c).

(** The five address cycles of a command *)
Definition write_addresses (a : Z) (c : nc_chip) : outcome nc_chip :=
  let! c := write_address_cycle (cycle_byte 0 a) c in
  let! c := write_address_cycle (cycle_byte 1 a) c in
  let! c := write_address_cycle (cycle_byte 2 a) c in
  let! c := write_address_cycle (cycle_byte 3 a) c in
  write_address_cycle (cycle_byte 4 a) c.

Definition get_chip (i : sel) (ci : Z) (w : nworld) : outcome nc_chip := arr_get (nh_chips (wchn i w)) ci.
Definition put_chip (i : sel) (ci : Z) (c : nc_chip) (w : nworld) : outcome nworld :=
  let! l := arr_set (nh_chips (wchn i w)) ci c in Ok (on_ctrl (upd_chn i (set_nh_chips l)) w).

Definition inc_active (d : Z) (h : nc_channel) : nc_channel := set_nh_active (u8 (nh_active h + d)) h.

(** ** The DMA engine *)

Definition run_dma (w : nworld) : outcome nworld :=
  let c := nw_ctrl w in
  let '(first, second) := if nc_toggle c then (Ch0, Ch1) else (Ch1, Ch0) in
  let cur := if nh_wait (get_chn first c) then Some first
             else if nh_wait (get_chn second c) then Some second else nc_current c in
  let w := on_ctrl (set_engine (negb (nc_toggle c)) cur) w in
  match cur with
  | None => Ok w
  | Some i =>
      let h := wchn i w in
      let! chip := deref (nh_dma_chip h) in
      if nh_read_dma h then Ok (on_ctrl (schedule (EvDma true (nh_ram_ptr h) i chip)) w)
      else if nh_write_dma h then Ok (on_ctrl (schedule (EvDma false (nh_ram_ptr h) i chip)) w)
      else Ok w
  end.

Definition process_dma (w : nworld) : outcome nworld :=
  match nc_current (nw_ctrl w) with Some _ => Ok w | None => run_dma w end.

(** ** The waiting room *)

(** The five address cycles between the start command and, for [READ_NAND] and
    [ERASE_NAND], the end command. *)
Definition start_operation (i : sel) (ci : Z) (cmd : nc_command) (w : nworld) : outcome (Z * nc_chip * mem) :=
  let! chip := get_chip i ci w in
  let! '(t1, chip, img) := write_command_cycle (nh_index (wchn i w)) ci (nand_start_cmd (nk_cmd cmd)) chip (nw_image w) in
  let! chip := write_addresses (nk_address cmd) chip in
  Ok (t1, chip, img).

Definition nand_operation (i : sel) (ci : Z) (cmd : nc_command) (w : nworld) : outcome nworld :=
  let! '(t1, chip, img) := start_operation i ci cmd w in
  let! '(t3, chip, img) := write_command_cycle (nh_index (wchn i w)) ci (nand_end_cmd (nk_cmd cmd)) chip img in
  let! w := put_chip i ci chip (NWorld (nw_ctrl w) img (nw_ram w)) in
  Ok (on_ctrl (fun c => schedule (EvChip i ci (t1 + t3)) (upd_chn i (inc_active 1) c)) w).

Definition execute_cmd (i : sel) (ci : Z) (cmd : nc_command) (w : nworld) : outcome nworld :=
  if nk_op cmd =? READ_NAND then nand_operation i ci cmd w
  else if nk_op cmd =? PROGRAM_NAND then
    let! '(_, chip, img) := start_operation i ci cmd w in
    put_chip i ci (set_ch_pending (Some cmd) chip) (NWorld (nw_ctrl w) img (nw_ram w))
  else if nk_op cmd =? ERASE_NAND then nand_operation i ci cmd w
  else if nk_op cmd =? READ_DMA then
    process_dma (on_ctrl (upd_chn i (fun h =>
      set_nh_dma true true (nh_write_dma h) (nk_ram_ptr cmd) (Some ci) (inc_active 1 h))) w)
  else if nk_op cmd =? WRITE_DMA then
    process_dma (on_ctrl (upd_chn i (fun h =>
      set_nh_dma true (nh_read_dma h) true (nk_ram_ptr cmd) (Some ci) (inc_active 1 h))) w)
  else Ok w.

(** The recursion takes one command off the queue at a time. *)
Fixpoint process_waiting_room_cmd (fuel : nat) (i : sel) (w : nworld) : outcome nworld :=
  match fuel with
  | O => Fault FFuel
  | S fuel =>
      let h := wchn i w in
      if nh_wait h then Ok w
      else if ff_isEmpty (nh_room h) then Ok w
      else
        let! en := fifo_front (nh_room h) in
        let! cmd := deref en in
        let! ci := deref (nk_chip cmd) in
        let! chip := get_chip i ci w in
        if ch_busy chip then Ok w
        else
          let! w := execute_cmd i ci cmd w in
          let w := on_ctrl (upd_chn i (fun h => set_nh_room (fifo_pop_front (nh_room h)) h)) w in
          process_waiting_room_cmd fuel i w
  end.

Definition room_fuel (i : sel) (w : nworld) : nat := S (Z.to_nat (ff_items (nh_room (wchn i w)))).
Definition process_room (i : sel) (w : nworld) : outcome nworld := process_waiting_room_cmd (room_fuel i w) i w.

(** ** Completions *)

Definition dma_complete_call_back (w : nworld) : outcome nworld :=
  let! i := deref (nc_current (nw_ctrl w)) in
  let w := on_ctrl (upd_chn i (inc_active (-1))) w in
  let h := wchn i w in
  let! w :=
    if nh_read_dma h then
      let! ci := deref (nh_dma_chip h) in
      let! chip := get_chip i ci w in
      match ch_pending chip with
      | Some cmd =>
          let! '(t1, chip, img) := write_command_cycle (nh_index h) ci (nand_end_cmd (nk_cmd cmd))
                                     (set_ch_pending None chip) (nw_image w) in
          let! w := put_chip i ci chip (NWorld (nw_ctrl w) img (nw_ram w)) in
          Ok (on_ctrl (fun c => schedule (EvChip i ci t1) (upd_chn i (fun h =>
                set_nh_dma (nh_wait h) false (nh_write_dma h) (nh_ram_ptr h) (nh_dma_chip h) (inc_active 1 h)) c)) w)
      | None => Ok w
      end
    else if nh_write_dma h then
      Ok (on_ctrl (upd_chn i (fun h => set_nh_dma (nh_wait h) (nh_read_dma h) false (nh_ram_ptr h) (nh_dma_chip h) h)) w)
    else Ok w in
  let w := on_ctrl (fun c => set_engine (nc_toggle c) None c) w in
  let w := on_ctrl (upd_chn i (fun h => set_nh_dma false (nh_read_dma h) (nh_write_dma h) 0 None h)) w in
  let! w := run_dma w in
  process_room i w.

Definition operation_complete_call_back (i : sel) (ci : Z) (w : nworld) : outcome nworld :=
  let w := on_ctrl (upd_chn i (inc_active (-1))) w in
  let! chip := get_chip i ci w in
  let! w := put_chip i ci (set_ch_busy false chip) w in
  process_room i w.

(** An event fires; the transfer of a DMA event has then been done. *)
Definition fire_event (e : nc_event) (w : nworld) : outcome nworld :=
  match e with
  | EvDma true ram i ci =>
      let! chip := get_chip i ci w in
      let! w := put_chip i ci (set_ch_page_reg (dmaRead (nw_ram w) ram page_size (ch_page_reg chip)) chip) w in
      dma_complete_call_back w
  | EvDma false ram i ci =>
      let! chip := get_chip i ci w in
      dma_complete_call_back (NWorld (nw_ctrl w) (nw_image w) (dmaWrite (nw_ram w) ram (ch_page_reg chip) page_size))
  | EvChip i ci _ => operation_complete_call_back i ci w
  end.

(** The event at position [n] of those under way. *)
Definition fire_nth (n : nat) (w : nworld) : outcome nworld :=
  match nc_events (nw_ctrl w) !! n with
  | Some e => fire_event e (on_ctrl (fun c => set_events (delete n (nc_events c)) c) w)
  | None => Ok w
  end.

(** ** Registers *)

(** The channel an offset belongs to, and the offset in its registers. *)
Definition decode_offset (offset : Z) : option (sel * Z) :=
  if CHANNEL_1_BASE_ADDR <=? offset then Some (Ch1, offset - CHANNEL_1_BASE_ADDR)
  else if CHANNEL_0_BASE_ADDR <=? offset then Some (Ch0, offset - CHANNEL_0_BASE_ADDR)
  else None.

Definition active_count (h : nc_channel) : Z := u32 (nh_active h + ff_items (nh_room h)).

(** [read]: the registers of a channel; a register without a case leaves the
    packet as it is, and of the registers outside the channels only [cmdStatus] is
    ever written: the others hold [junk]. *)
Definition nc_read (offset : Z) (c : nctrl) : Z :=
  match decode_offset offset with
  | Some (i, off) =>
      if off =? CHIP_STATUS then 0
      else if off =? WAITING_ROOM_CMD_COUNT then ff_items (nh_room (get_chn i c))
      else if off =? ACTIVE_OPERATION_COUNT then active_count (get_chn i c)
      else junk
  | None => if offset =? 4 then nc_cmdStatus c else junk
  end.

(** [add_cmd_phase] and [add_data_phase] set the operation and queue the command. *)
Definition add_cmd_phase (cmd : nc_command) (f : simple_fifo) : outcome simple_fifo :=
  let op := Z.lor (Z.land 0x0000FFFF (nk_cmd cmd)) 0x80000000 in
  fifo_push (set_nk_op op (if op =? PROGRAM_NAND then true else nk_data_phase_required cmd) cmd) f.
Definition add_data_phase (cmd : nc_command) (f : simple_fifo) : outcome simple_fifo :=
  fifo_push (set_nk_op (nk_cmd cmd) (nk_data_phase_required cmd) cmd) f.

(** Writing a command register: the waiting room is processed if it was empty. *)
Definition submit (add : nc_command -> simple_fifo -> outcome simple_fifo) (i : sel) (data : Z) (w : nworld)
  : outcome nworld :=
  let h := wchn i w in
  let room_is_empty := ff_isEmpty (nh_room h) in
  let! room := add (set_nk_cmd data (nh_new_cmd h)) (nh_room h) in
  let w := on_ctrl (upd_chn i (set_nh_room room)) w in
  let! w := if room_is_empty then process_room i w else Ok w in
  Ok (on_ctrl (upd_chn i (set_nh_new_cmd new_command)) w).

Definition upd_cmd (i : sel) (f : nc_command -> nc_command) (w : nworld) : nworld :=
  on_ctrl (upd_chn i (fun h => set_nh_new_cmd (f (nh_new_cmd h)) h)) w.

(** [write]; a chip number above the count stops the simulator, the count itself
    reads past the chips. *)
Definition nc_write (offset data : Z) (w : nworld) : outcome nworld :=
  match decode_offset offset with
  | Some (i, off) =>
      if off =? CHIP_SELECT_REG then
        if Z.of_nat (length (nh_chips (wchn i w))) <? data then Fault FShutdown
        else let! _ := get_chip i data w in Ok (upd_cmd i (set_nk_chip (Some data)) w)
      else if off =? ADDRESS_CYCLE_REG_1 then
        Ok (upd_cmd i (fun k => set_nk_address (set_field address_cycle_addr 0 data (nk_address k)) k) w)
      else if off =? ADDRESS_CYCLE_REG_2 then
        Ok (upd_cmd i (fun k => set_nk_address (set_field address_cycle_addr 1 data (nk_address k)) k) w)
      else if off =? DMA_RAM_PTR then Ok (upd_cmd i (set_nk_ram data) w)
      else if off =? CMD_PHASE_CMD_REG then submit add_cmd_phase i data w
      else if off =? DMA_PHASE_CMD_REG then submit add_data_phase i data w
      else Ok w
  | None =>
      if (offset =? 0) && ((data =? INIT_NAND_CTRL) || (data =? NAND_CTRL_SHUTDOWN)) then
        Ok (on_ctrl (set_cmdStatus COMPLETE) w)
      else Ok w
  end.

(** ** A new controller *)

(** A chip before its first command; [reg] is what its page register holds. *)
Definition new_chip (reg : mem) : nc_chip := NcChip 0 0 [0; 0; 0; 0; 0] 0 false reg None.

Definition new_channel (index : Z) (reg : mem) : nc_channel :=
  NcChannel index (replicate (Z.to_nat (DIES_PER_CHANNEL g * PLANES_PER_DIE g)) (new_chip reg)) new_command fifo_new
    0 false false false 0 None.

(** [toggle] is not initialised. *)
Definition new_ctrl (chn_0_index chn_1_index : Z) (reg : mem) (toggle : bool) : nctrl :=
  NCtrl (new_channel chn_0_index reg) (new_channel chn_1_index reg) toggle None [] 0.

End controller.
