(* ===== verification/NandInv.v ===== *)
(** * The flash controller executes the commands of a batch

    The layout of the image, the invariant of a controller that works on a batch
    of reads or of programs, and its preservation by every completion and every
    register access.  What a channel has still to do is a list of pages; a
    completion may take the first page off that list and does then exactly what
    the page asks for. *)

From Stdlib Require Import ZArith Lia Bool List.
From stdpp Require Import base tactics option list functions.
From S2P Require Import Prelude CTypes Queue MemUtil Geom NandIo HostIf NandCtrl.

(** ** The image *)

(** The configurations that the hardware supports: channels in pairs, at most 128
    chips on a channel, an image addressed with 32 bits. *)
Definition hw_ok (g : geom) : Prop :=
  NUM_CHANNELS g = 2 * (NUM_CHANNELS g / 2) /\ DIES_PER_CHANNEL g * PLANES_PER_DIE g <= 128 /\
  TOTAL_NUM_OF_PAGES g * NAND_PAGE_SIZE g <= 2 ^ 32.

Section image.
Context (g : geom) (Hg : geom_ok g) (Hw : hw_ok g).

Abbreviation PS := (NAND_PAGE_SIZE g) (only parsing).

Definition num_chips : Z := DIES_PER_CHANNEL g * PLANES_PER_DIE g.
Definition chip_of (p : ppa) : Z := die p * PLANES_PER_DIE g + plane p.

(** The number of a page in the image and the offset of its bytes. *)
Definition key_page (k : page_key) : Z :=
  let '(c, d, l, b, p) := k in
  ((c * num_chips + (d * PLANES_PER_DIE g + l)) * BLOCKS_PER_PLANE g + b) * PAGES_PER_BLOCK g + p.
Definition key_ofs (k : page_key) : Z := key_page k * PS.

Definition key_in (k : page_key) : bool :=
  let '(c, d, l, b, p) := k in
  plane_in g c d l && in_range (BLOCKS_PER_PLANE g) b && in_range (PAGES_PER_BLOCK g) p.

Lemma key_in_ppa p : key_in (key_of p) = ppa_in g p.
Proof. reflexivity. Qed.

Lemma chip_range p : ppa_in g p = true -> 0 <= chip_of p < num_chips /\ num_chips <= 128.
Proof using Hw.
  rewrite ppa_in_spec, plane_in_spec. intros ((_ & Hd & Hl) & _). unfold chip_of, num_chips.
  destruct Hw as (_ & ? & _). split; [nia|lia].
Qed.

Lemma mixed_range a b m n : 0 <= a < m -> 0 <= b < n -> 0 <= a * n + b < m * n.
Proof. nia. Qed.
Lemma mixed_inj a b a' b' n : 0 <= b < n -> 0 <= b' < n -> a * n + b = a' * n + b' -> a = a' /\ b = b'.
Proof. intros. assert (a = a') by nia. lia. Qed.

Lemma key_page_range k : key_in k = true -> 0 <= key_page k < TOTAL_NUM_OF_PAGES g.
Proof.
  destruct k as [[[[c d] l] b] p]. unfold key_in, key_page. rewrite !andb_true_iff, plane_in_spec, !in_range_true.
  intros (((Hc & Hd & Hl) & Hb) & Hp). rewrite pages_product, planes_product. unfold PAGES_PER_PLANE.
  pose proof (mixed_range d l _ _ Hd Hl). pose proof (mixed_range c _ _ _ Hc H). fold num_chips in *.
  pose proof (mixed_range _ b _ _ H0 Hb). pose proof (mixed_range _ p _ _ H1 Hp).
  unfold num_chips in *. rewrite !Z.mul_assoc in *. lia.
Qed.

Lemma key_page_inj k k' : key_in k = true -> key_in k' = true -> key_page k = key_page k' -> k = k'.
Proof.
  destruct k as [[[[c d] l] b] p], k' as [[[[c' d'] l'] b'] p']. unfold key_in, key_page.
  rewrite !andb_true_iff, !plane_in_spec, !in_range_true.
  intros (((Hc & Hd & Hl) & Hb) & Hp) (((Hc' & Hd' & Hl') & Hb') & Hp') E.
  apply mixed_inj in E as [E ->]; [|done..]. apply mixed_inj in E as [E ->]; [|done..].
  apply mixed_inj in E as [-> E]; [|by apply mixed_range..]. by apply mixed_inj in E as [-> ->].
Qed.

Lemma page_size_range : 512 <= PS <= 2 ^ 29.
Proof using Hg.
  destruct Hg as (_ & _ & _ & _ & _ & H9 & _). unfold NAND_PAGE_SIZE. rewrite Z.shiftl_1_l.
  split; [change 512 with (2 ^ 9)|]; apply Z.pow_le_mono_r; lia.
Qed.

(** The bytes of a page lie in the image; pages that meet are the same. *)
Lemma key_ofs_range k : key_in k = true -> 0 <= key_ofs k /\ key_ofs k + PS <= 2 ^ 32.
Proof using Hg Hw.
  intros Hk. pose proof (key_page_range k Hk). pose proof page_size_range. destruct Hw as (_ & _ & Ht).
  unfold key_ofs. split; nia.
Qed.

Lemma key_ofs_inj k k' o o' :
  key_in k = true -> key_in k' = true -> 0 <= o < PS -> 0 <= o' < PS ->
  key_ofs k + o = key_ofs k' + o' -> k = k'.
Proof.
  unfold key_ofs. intros Hk Hk' Ho Ho' E. apply key_page_inj; [done..|]. by apply mixed_inj in E as [? _].
Qed.

(** The address the controller computes, without wrap-around. *)
Lemma image_ofs_key p :
  ppa_in g p = true ->
  image_ofs g (image_page g (chn p) (chip_of p) (block p) (page p)) = key_ofs (key_of p).
Proof using Hg Hw.
  intros Hp. pose proof (key_page_range (key_of p) Hp) as Hk. pose proof (key_ofs_range (key_of p) Hp) as Ho.
  pose proof page_size_range. destruct Hw as (_ & H128 & Ht). fold num_chips in H128.
  unfold image_ofs, image_page, page_size. rewrite <- (Z.mod_small (key_ofs (key_of p)) (2 ^ 32)) by lia.
  unfold u32. rewrite Zmult_mod_idemp_l. f_equal. unfold key_ofs. f_equal.
  unfold pages_per_chn, planes_per_chn, pages_per_plane, key_of, key_page. fold num_chips.
  rewrite ppa_in_spec, plane_in_spec in Hp. pose proof (geom_pos g Hg) as (_ & _ & _ & HB & HP & _).
  assert (Hc0 : 0 < num_chips).
  { unfold num_chips. pose proof (geom_pos g Hg) as (_ & ? & ? & _). nia. }
  assert (Htot : TOTAL_NUM_OF_PAGES g = NUM_CHANNELS g * (num_chips * (BLOCKS_PER_PLANE g * PAGES_PER_BLOCK g))).
  { rewrite pages_product, planes_product. unfold PAGES_PER_PLANE, num_chips. ring. }
  destruct Hg as (_ & _ & _ & _ & _ & _ & _ & H30). rewrite Htot in H30.
  set (bp := BLOCKS_PER_PLANE g * PAGES_PER_BLOCK g) in *. assert (0 < bp) by (unfold bp; nia).
  assert (1 <= NUM_CHANNELS g) by lia. assert (num_chips * bp <= 2 ^ 30) by nia. assert (bp <= 2 ^ 30) by nia.
  rewrite (u32_id num_chips), (u32_id bp) by lia. rewrite u32_id by nia. unfold chip_of, bp. ring.
Qed.

End image.

(** ** The waiting room *)

Definition fifo_ring (f : simple_fifo) : queue_t (option nc_command) :=
  Queue (ff_tail f) (ff_head f) en_size (ff_entries f).

(** The room holds the commands [l]. *)
Record fifo_ok (f : simple_fifo) (l : list nc_command) : Prop := FifoOk {
  fo_wf : q_wf (fifo_ring f);
  fo_contents : q_contents (fifo_ring f) = map Some l;
  fo_items : ff_items f = Z.of_nat (length l);
  fo_empty : ff_isEmpty f = match l with [] => true | _ => false end;
  fo_full : ff_isFull f = false }.

Lemma fifo_new_ok : fifo_ok fifo_new [].
Proof. split; try reflexivity. vm_compute. split_and!; congruence. Qed.

Lemma fifo_length f l : fifo_ok f l -> Z.of_nat (length l) = (ff_tail f - ff_head f) mod en_size /\ (length l < 1024)%nat.
Proof.
  intros [Hwf Hc _ _ _]. pose proof (q_contents_length _ Hwf) as E. pose proof (q_count_bound _ Hwf) as Hb.
  rewrite Hc, length_map in E. unfold q_count in *. cbn [fifo_ring q_tail q_head q_size] in *. unfold en_size in *.
  pose proof (Z.mod_pos_bound (ff_tail f - ff_head f) 1024 ltac:(lia)). split; lia.
Qed.

Lemma fifo_push_ok f l a :
  fifo_ok f l -> (length l < 1022)%nat -> exists f', fifo_push a f = Ok f' /\ fifo_ok f' (l ++ [a]).
Proof.
  intros Hok Hl. pose proof (fifo_length f l Hok) as (Hlen & _). destruct Hok as [Hwf Hc Hi He Hf].
  pose proof (q_contents_length _ Hwf) as Hq. rewrite Hc, length_map in Hq.
  destruct (put_tail_spec (fifo_ring f) (Some a) Hwf) as (q' & E & Hwf' & Hs & Hh & Hc').
  { rewrite <- Hq. cbn [fifo_ring q_size]. unfold en_size. lia. }
  pose proof Hwf as (_ & _ & Hhr & Htr). cbn [fifo_ring q_head q_tail q_size] in Hhr, Htr. unfold en_size in *.
  unfold put_tail, c_mod in E. cbn [fifo_ring q_objs q_tail q_size] in E.
  unfold fifo_push. rewrite Hf. destruct (arr_set _ _ (Some a)) as [en|]; cbn [obind] in *; [|done].
  unfold en_size in *. change (1024 =? 0) with false in E. cbn [obind] in E. injection E as <-.
  rewrite (u32_id (ff_tail f + 1)) by lia.
  eexists. split; [reflexivity|]. split; cbn [ff_items ff_isEmpty ff_isFull].
  - exact Hwf'.
  - rewrite map_app. etransitivity; [exact Hc'|]. by rewrite Hc.
  - rewrite Hi, length_app, u32_id by lia. cbn [length]. lia.
  - by destruct l.
  - apply Z.eqb_neq. intros E.
    pose proof (Z.div_mod (ff_tail f + 1) 1024 ltac:(lia)). pose proof (Z.mod_pos_bound (ff_tail f + 1) 1024 ltac:(lia)).
    rewrite E in Hlen. set (t := (ff_tail f + 1) mod 1024) in *. set (k := (ff_tail f + 1) / 1024) in *.
    replace (ff_tail f - (t + 1)) with (1022 + (k - 1) * 1024) in Hlen by lia.
    rewrite Z_mod_plus_full in Hlen. change (1022 mod 1024) with 1022 in Hlen. lia.
Qed.

Lemma fifo_front_ok f a l : fifo_ok f (a :: l) -> fifo_front f = Ok (Some a).
Proof.
  intros [Hwf Hc _ He _]. unfold fifo_front. rewrite He.
  destruct (take_head_spec (fifo_ring f) Hwf) as (x & q' & E & _ & _ & _ & Hx).
  { rewrite <- (q_contents_length _ Hwf), Hc. done. }
  rewrite Hc in Hx. cbn [map] in Hx. injection Hx as <- _.
  unfold take_head in E. cbn [fifo_ring q_objs q_head] in E. destruct (arr_get _ _); cbn [obind] in E; [|done].
  unfold c_mod, en_size in E. cbn in E. by injection E as -> _.
Qed.

Lemma fifo_pop_ok f a l : fifo_ok f (a :: l) -> fifo_ok (fifo_pop_front f) l.
Proof.
  intros Hok. pose proof (fifo_length f _ Hok) as (Hlen & Hl). destruct Hok as [Hwf Hc Hi He Hf].
  destruct (take_head_spec (fifo_ring f) Hwf) as (x & q' & E & Hwf' & Hs & Ht & Hx).
  { rewrite <- (q_contents_length _ Hwf), Hc. done. }
  pose proof Hwf as (_ & _ & Hhr & Htr). cbn [fifo_ring q_head q_tail q_size] in Hhr, Htr. unfold en_size in *.
  unfold take_head in E. cbn [fifo_ring q_objs q_head q_size q_tail] in E.
  destruct (arr_get _ _) as [y|]; cbn [obind] in E; [|done]. unfold c_mod, en_size in E.
  change (1024 =? 0) with false in E. cbn [obind] in E. injection E as -> <-.
  rewrite Hc in Hx. cbn [map length] in *. injection Hx as <- Hx.
  unfold fifo_pop_front. rewrite He. unfold en_size. rewrite (u32_id (ff_head f + 1)) by lia.
  assert (Hnew : Z.of_nat (length l) = (ff_tail f - (ff_head f + 1) mod 1024) mod 1024).
  { rewrite Zminus_mod_idemp_r. replace (ff_tail f - (ff_head f + 1)) with (ff_tail f - ff_head f - 1) by lia.
    rewrite <- Zminus_mod_idemp_l, <- Hlen. rewrite Z.mod_small by lia. lia. }
  split; cbn [ff_items ff_isEmpty ff_isFull]; [exact Hwf'|done| | |done].
  - rewrite Hi. rewrite u32_id by lia. lia.
  - pose proof (Z.mod_pos_bound (ff_head f + 1) 1024 ltac:(lia)). destruct (Z.eqb_spec ((ff_head f + 1) mod 1024) (ff_tail f)) as [Eq|Ne].
    + rewrite Eq, Z.sub_diag in Hnew. destruct l; [done|]. cbn [length] in Hnew. rewrite Zmod_0_l in Hnew. lia.
    + destruct l; [|done]. cbn [length] in Hnew. exfalso. apply Ne.
      apply (mod_inj_range 0 1024); [lia| |lia|lia]. rewrite !Z.add_0_l.
      assert (Hd : (ff_tail f - (ff_head f + 1) mod 1024) mod 1024 = 0) by lia.
      apply Z.mod_divide in Hd as [q Hq]; [|lia]. replace (ff_tail f) with ((ff_head f + 1) mod 1024 + q * 1024) by lia.
      by rewrite Z_mod_plus_full.
Qed.

(** ** Commands of a batch *)

Inductive batch_mode := MRead | MProg.
Definition nand_op_of (md : batch_mode) : Z := match md with MRead => READ_NAND | MProg => PROGRAM_NAND end.
Definition dma_op_of (md : batch_mode) : Z := match md with MRead => WRITE_DMA | MProg => READ_DMA end.

(** Two bytes at a time, four bytes of the address cycles. *)
Lemma cycle_bytes a n :
  0 <= n -> (a / 256 ^ n) mod 256 + 256 * ((a / 256 ^ (n + 1)) mod 256) = (a / 256 ^ n) mod 65536.
Proof.
  intros Hn. rewrite Z.pow_add_r by lia. rewrite Z.pow_1_r. rewrite <- Z.div_div by (try apply Z.pow_nonzero; lia).
  change 65536 with (256 * 256). by rewrite Z.rem_mul_r by lia.
Qed.

Lemma cycle_byte_spec a i : (i < 5)%nat -> cycle_byte i a = (a / 256 ^ Z.of_nat i) mod 256.
Proof.
  intros Hi. unfold cycle_byte, field, address_cycle_bytes. change (256) with (2 ^ 8).
  do 5 (destruct i as [|i]; [cbn [unpack nth]; rewrite ?Z.div_div by (vm_compute; congruence); by rewrite ?Z.div_1_r|]). lia.
Qed.

Section commands.
Context (g : geom) (md : batch_mode).

(** The command of the command phase and of the data phase for a page. *)
Record is_nand (x : op_page) (a : nc_command) : Prop := {
  ia_cmd : nk_cmd a = nand_op_of md;
  ia_op : nk_op a = nand_op_of md;
  ia_chip : nk_chip a = Some (chip_of g (pg_ppa x));
  ia_address : nk_address a mod 2 ^ 32 = page (pg_ppa x) + 65536 * block (pg_ppa x) }.

Record is_dma (x : op_page) (d : nc_command) : Prop := {
  id_op : nk_op d = dma_op_of md;
  id_chip : nk_chip d = Some (chip_of g (pg_ppa x));
  id_ram : nk_ram_ptr d = pg_ssd_addr x }.

(** The commands for the pages [todo]; of a page [half] only the first was sent. *)
Inductive cmds : list op_page -> option op_page -> list nc_command -> Prop :=
| cmds_nil : cmds [] None []
| cmds_half x a : is_nand x a -> cmds [] (Some x) [a]
| cmds_cons x todo half a d l : is_nand x a -> is_dma x d -> cmds todo half l -> cmds (x :: todo) half (a :: d :: l).

Lemma cmds_length todo half l :
  cmds todo half l -> length l = (2 * length todo + match half with Some _ => 1 | None => 0 end)%nat.
Proof. induction 1; cbn [length]; lia. Qed.

Lemma cmds_send_nand todo l x a : is_nand x a -> cmds todo None l -> cmds todo (Some x) (l ++ [a]).
Proof.
  intros Ha H. remember None as h eqn:Eh. induction H; [by apply cmds_half|done|]. cbn [app]. by apply cmds_cons; [| |apply IHcmds].
Qed.

Lemma cmds_send_dma todo l x d : is_dma x d -> cmds todo (Some x) l -> cmds (todo ++ [x]) None (l ++ [d]).
Proof.
  intros Hd H. remember (Some x) as h eqn:Eh. induction H; [done| |].
  - injection Eh as ->. cbn [app]. apply cmds_cons; [done..|apply cmds_nil].
  - cbn [app]. by apply cmds_cons; [| |apply IHcmds].
Qed.

(** ** Chips *)

Definition chip_wf (c : nc_chip) : Prop := length (ch_address c) = 5%nat.

Lemma write_addresses_ok a c c0 :
  c0 = clear_address c -> exists c', write_addresses a c0 = Ok c' /\ chip_wf c' /\ ch_busy c' = ch_busy c
    /\ ch_page_reg c' = ch_page_reg c /\ ch_pending c' = ch_pending c /\ ch_cmd_1 c' = ch_cmd_1 c
    /\ decode_address_cycles c' = Ok (a mod 65536, (a / 65536) mod 65536).
Proof.
  intros ->. eexists. split; [reflexivity|]. split_and!; try reflexivity.
  transitivity (Ok (cycle_byte 0 a + 256 * cycle_byte 1 a, cycle_byte 2 a + 256 * cycle_byte 3 a)); [reflexivity|].
  f_equal. f_equal.
  - rewrite !cycle_byte_spec by lia. change (Z.of_nat 0) with 0. change (Z.of_nat 1) with (0 + 1).
    rewrite cycle_bytes by lia. by rewrite Z.pow_0_r, Z.div_1_r.
  - rewrite !cycle_byte_spec by lia. change (Z.of_nat 3) with (Z.of_nat 2 + 1). by rewrite cycle_bytes by lia.
Qed.

Lemma address_parts a p b : 0 <= p < 65536 -> 0 <= b < 65536 -> a mod 2 ^ 32 = p + 65536 * b ->
  a mod 65536 = p /\ (a / 65536) mod 65536 = b.
Proof.
  intros Hp Hb E. change (2 ^ 32) with (65536 * 65536) in E. rewrite Z.rem_mul_r in E by lia.
  pose proof (Z.mod_pos_bound a 65536). pose proof (Z.mod_pos_bound (a / 65536) 65536). lia.
Qed.

(** A chip has been told the page [x]. *)
Definition addressed (x : op_page) (c : nc_chip) : Prop :=
  decode_address_cycles c = Ok (page (pg_ppa x), block (pg_ppa x)).

Lemma set_page_reg_addressed x r c : addressed x c -> addressed x (set_ch_page_reg r c).
Proof. done. Qed.
End commands.

Lemma addressed_same x c c' : ch_address c' = ch_address c -> addressed x c -> addressed x c'.
Proof. intros E. unfold addressed, decode_address_cycles. by rewrite E. Qed.

(** ** One channel of a controller *)

(** A controller with channel [i], the events, the engine, the image and the memory
    given: every step of a channel has a result of this form. *)
Definition at_chn (i : sel) (h : nc_channel) (evs : list nc_event) (t : bool) (cur : option sel) (img ram : mem) (w : nworld)
  : nworld := NWorld (set_engine t cur (set_events evs (put_chn i h (nw_ctrl w)))) img ram.

Definition other_chn (i : sel) : sel := match i with Ch0 => Ch1 | Ch1 => Ch0 end.

Lemma at_chn_self i w :
  w = at_chn i (wchn i w) (nc_events (nw_ctrl w)) (nc_toggle (nw_ctrl w)) (nc_current (nw_ctrl w)) (nw_image w) (nw_ram w) w.
Proof. by destruct w as [[] ? ?], i. Qed.
Lemma at_chn_twice i h evs t cur img ram h' evs' t' cur' img' ram' w :
  at_chn i h' evs' t' cur' img' ram' (at_chn i h evs t cur img ram w) = at_chn i h' evs' t' cur' img' ram' w.
Proof. by destruct w as [[] ? ?], i. Qed.
Lemma wchn_at i h evs t cur img ram w : wchn i (at_chn i h evs t cur img ram w) = h.
Proof. by destruct i. Qed.
Lemma wchn_at_other i h evs t cur img ram w : wchn (other_chn i) (at_chn i h evs t cur img ram w) = wchn (other_chn i) w.
Proof. by destruct i. Qed.
Lemma upd_at i h evs t cur img ram w f :
  on_ctrl (upd_chn i f) (at_chn i h evs t cur img ram w) = at_chn i (f h) evs t cur img ram w.
Proof. by destruct i. Qed.
Lemma upd_self i f w :
  on_ctrl (upd_chn i f) w = at_chn i (f (wchn i w)) (nc_events (nw_ctrl w)) (nc_toggle (nw_ctrl w)) (nc_current (nw_ctrl w))
    (nw_image w) (nw_ram w) w.
Proof. by destruct w as [[] ? ?], i. Qed.
Lemma schedule_upd_at i h evs t cur img ram w f e :
  on_ctrl (fun c => schedule e (upd_chn i f c)) (at_chn i h evs t cur img ram w) = at_chn i (f h) (evs ++ [e]) t cur img ram w.
Proof. by destruct i. Qed.
Lemma image_at i h evs t cur img ram w img' ram' :
  NWorld (nw_ctrl (at_chn i h evs t cur img ram w)) img' ram' = at_chn i h evs t cur img' ram' w.
Proof. done. Qed.
Lemma get_chip_at i ci h evs t cur img ram w : get_chip i ci (at_chn i h evs t cur img ram w) = arr_get (nh_chips h) ci.
Proof. unfold get_chip. by rewrite wchn_at. Qed.
Lemma put_chip_at i ci c c0 h evs t cur img ram w :
  arr_get (nh_chips h) ci = Ok c0 ->
  put_chip i ci c (at_chn i h evs t cur img ram w)
    = Ok (at_chn i (set_nh_chips (<[Z.to_nat ci := c]> (nh_chips h)) h) evs t cur img ram w).
Proof.
  intros Hc. apply arr_get_Ok in Hc as [Hr Hc]. apply lookup_lt_Some in Hc.
  unfold put_chip. rewrite wchn_at, arr_set_Ok by lia. cbn [obind]. by rewrite upd_at.
Qed.

(** The chips a channel waits for, and the transfers under way. *)
Definition busy_chips (i : sel) (evs : list nc_event) : list Z :=
  flat_map (fun e => match e with EvChip j ci _ => if decide (j = i) then [ci] else [] | _ => [] end) evs.
Definition dma_events (evs : list nc_event) : list nc_event :=
  List.filter (fun e => match e with EvDma _ _ _ _ => true | _ => false end) evs.

Lemma busy_chips_app i l1 l2 : busy_chips i (l1 ++ l2) = busy_chips i l1 ++ busy_chips i l2.
Proof. apply flat_map_app. Qed.
Lemma dma_events_app l1 l2 : dma_events (l1 ++ l2) = dma_events l1 ++ dma_events l2.
Proof. apply List.filter_app. Qed.
Lemma busy_chips_chip i ci t : busy_chips i [EvChip i ci t] = [ci].
Proof. cbn. by rewrite decide_True. Qed.
Lemma busy_chips_other i ci t : busy_chips (other_chn i) [EvChip i ci t] = [].
Proof. by destruct i. Qed.

Section channel.
Context `{DmaEngines} (g : geom) (Hg : geom_ok g) (Hw : hw_ok g) (lt : nand_ltcy) (md : batch_mode).

Abbreviation PS := (NAND_PAGE_SIZE g) (only parsing).
Abbreviation chip_ix x := (chip_of g (pg_ppa x)) (only parsing).

(** A page of a batch that goes to channel [n] *)
Record page_ok (n : Z) (x : op_page) : Prop := {
  po_in : ppa_in g (pg_ppa x) = true;
  po_chn : chn (pg_ppa x) = n;
  po_ram : 0 <= pg_ssd_addr x < 2 ^ 32 }.

(** The chip is ready for the data phase of page [x]: what was read is in its
    page register, or the programming waits for the data. *)
Definition prepped (img : mem) (x : op_page) (c : nc_chip) : Prop :=
  match md with
  | MRead => forall o, 0 <= o < PS -> ch_page_reg c o = img (key_ofs g (key_of (pg_ppa x)) + o)
  | MProg => addressed x c /\ exists a, ch_pending c = Some a /\ is_nand g md x a
  end.
Definition prepped_at (img : mem) (h : nc_channel) (x : op_page) : Prop :=
  exists c, arr_get (nh_chips h) (chip_ix x) = Ok c /\ prepped img x c.

Definition no_dma (h : nc_channel) : Prop := nh_wait h = false /\ nh_read_dma h = false /\ nh_write_dma h = false.

(** Where a channel is in its work: nothing begun, between the phases of a page (the
    command of the data phase sent or not), in the data phase. *)
Inductive phase (img : mem) (h : nc_channel) : list op_page -> option op_page -> list nc_command -> Prop :=
| ph_free todo half l : no_dma h -> cmds g md todo half l -> phase img h todo half l
| ph_loaded x todo half d l :
    no_dma h -> is_dma g md x d -> cmds g md todo half l -> prepped_at img h x ->
    phase img h (x :: todo) half (d :: l)
| ph_half x : no_dma h -> prepped_at img h x -> phase img h [] (Some x) []
| ph_dma x todo half l c :
    nh_wait h = true -> nh_read_dma h = match md with MRead => false | MProg => true end ->
    nh_write_dma h = negb (nh_read_dma h) -> nh_ram_ptr h = pg_ssd_addr x -> nh_dma_chip h = Some (chip_ix x) ->
    arr_get (nh_chips h) (chip_ix x) = Ok c -> prepped img x c -> ch_busy c = false ->
    cmds g md todo half l -> phase img h (x :: todo) half l.

Record chan_ok (i : sel) (h : nc_channel) (evs : list nc_event) (img : mem) (todo : list op_page) (half : option op_page)
    (l : list nc_command) : Prop := {
  ck_room : fifo_ok (nh_room h) l;
  ck_phase : phase img h todo half l;
  ck_pages : Forall (page_ok (nh_index h)) todo;
  ck_half : forall x, half = Some x -> page_ok (nh_index h) x;
  ck_chips : Z.of_nat (length (nh_chips h)) = num_chips g;
  ck_active : nh_active h = Z.of_nat (length (busy_chips i evs)) + (if nh_wait h then 1 else 0);
  ck_busy : forall ci c, arr_get (nh_chips h) ci = Ok c -> (ch_busy c = true <-> ci ∈ busy_chips i evs);
  ck_nodup : base.NoDup (busy_chips i evs);
  ck_range : Forall (fun ci => 0 <= ci < num_chips g) (busy_chips i evs) }.

(** Nothing to do before the next completion or the next command. *)
Definition settled (h : nc_channel) (l : list nc_command) : Prop :=
  nh_wait h = true \/ l = [] \/
  exists a l' ci c, l = a :: l' /\ nk_chip a = Some ci /\ arr_get (nh_chips h) ci = Ok c /\ ch_busy c = true.

(** The DMA engine serves the channel it says, and some channel if one waits. *)
Definition engine_ok (w : nworld) : Prop :=
  match nc_current (nw_ctrl w) with
  | None => dma_events (nc_events (nw_ctrl w)) = [] /\ forall i, nh_wait (wchn i w) = false
  | Some i => nh_wait (wchn i w) = true /\ exists ci, nh_dma_chip (wchn i w) = Some ci /\
      dma_events (nc_events (nw_ctrl w)) = [EvDma (nh_read_dma (wchn i w)) (nh_ram_ptr (wchn i w)) i ci]
  end.

Lemma busy_bound l :
  base.NoDup l -> Forall (fun ci => 0 <= ci < num_chips g) l -> (length l <= Z.to_nat (num_chips g))%nat.
Proof.
  intros Hn Hr. rewrite <- (length_map Z.to_nat l). rewrite <- (length_seq (Z.to_nat (num_chips g)) 0).
  apply NoDup_incl_length.
  - apply NoDup_ListNoDup. clear - Hn Hr. induction Hn as [|x l Hx Hn IH]; [apply NoDup_nil_2|].
    inversion Hr as [|? ? Hx0 Hr']; subst. cbn [map]. apply NoDup_cons_2; [|by apply IH].
    intros Hi. apply list_elem_of_fmap in Hi as (y & E & Hy). rewrite Forall_forall in Hr'. specialize (Hr' y (proj1 (list_elem_of_In _ _) Hy)).
    replace x with y in Hx by lia. done.
  - intros n Hn'. apply in_map_iff in Hn' as (y & <- & Hy). rewrite Forall_forall in Hr.
    specialize (Hr y Hy). apply in_seq. lia.
Qed.

Lemma active_bound i h evs img todo half l :
  chan_ok i h evs img todo half l -> 0 <= nh_active h <= 129.
Proof using Hw.
  intros [_ _ _ _ Hc Ha _ Hn Hr]. pose proof (busy_bound _ Hn Hr). destruct Hw as (_ & H128 & _). unfold num_chips in *.
  destruct (nh_wait h); lia.
Qed.

(** ** The command phase *)

Lemma start_operation_ok i ci x a c h evs t cur img ram w :
  is_nand g md x a -> ppa_in g (pg_ppa x) = true -> arr_get (nh_chips h) ci = Ok c ->
  exists c', start_operation g lt i ci a (at_chn i h evs t cur img ram w) = Ok (0, c', img) /\ addressed x c'
    /\ ch_busy c' = ch_busy c /\ ch_pending c' = ch_pending c.
Proof using Hg.
  intros [Ecmd _ _ Ead] Hin Hc. unfold start_operation. rewrite get_chip_at, Hc. cbn [obind].
  assert (Es : forall n img0, write_command_cycle g lt n ci (nand_start_cmd (nk_cmd a)) c img0
    = Ok (0, set_ch_cmd_1 (nand_start_cmd (nk_cmd a)) (clear_address c), img0)) by (rewrite Ecmd; by destruct md).
  rewrite Es. cbn [obind].
  destruct (write_addresses_ok (nk_address a) (set_ch_cmd_1 (nand_start_cmd (nk_cmd a)) c) _ eq_refl)
    as (c' & Ew & _ & Hb & _ & Hp & _ & Hd).
  assert (E0 : clear_address (set_ch_cmd_1 (nand_start_cmd (nk_cmd a)) c)
    = set_ch_cmd_1 (nand_start_cmd (nk_cmd a)) (clear_address c)) by done.
  rewrite E0 in Ew. rewrite Ew. cbn [obind]. exists c'. split; [done|]. split; [|by rewrite Hb, Hp].
  unfold addressed. rewrite Hd. rewrite ppa_in_spec in Hin. destruct Hin as (_ & Hb1 & Hp1).
  destruct Hg as (_ & _ & _ & ? & ? & _). unfold BLOCKS_PER_PLANE, PAGES_PER_BLOCK in *.
  destruct (address_parts (nk_address a) (page (pg_ppa x)) (block (pg_ppa x))) as [-> ->]; [lia|lia|done|done].
Qed.

(** Reading begins at once; programming waits for the data. *)
Lemma execute_nand_ok i x a c h evs t cur img ram w :
  is_nand g md x a -> page_ok (nh_index h) x -> arr_get (nh_chips h) (chip_ix x) = Ok c -> ch_busy c = false ->
  exists c', prepped img x c' /\
    let h' := set_nh_chips (<[Z.to_nat (chip_ix x) := c']> (nh_chips h)) h in
    match md with
    | MRead => ch_busy c' = true /\ exists tk, execute_cmd g lt i (chip_ix x) a (at_chn i h evs t cur img ram w)
        = Ok (at_chn i (inc_active 1 h') (evs ++ [EvChip i (chip_ix x) tk]) t cur img ram w)
    | MProg => ch_busy c' = false /\ execute_cmd g lt i (chip_ix x) a (at_chn i h evs t cur img ram w)
        = Ok (at_chn i h' evs t cur img ram w)
    end.
Proof using Hg Hw.
  intros Ha [Hin Hch _] Hc Hb.
  destruct (start_operation_ok i (chip_ix x) x a c h evs t cur img ram w Ha Hin Hc) as (c1 & E1 & Had & Hb1 & Hp1).
  pose proof (ia_op _ _ _ _ Ha) as Eop. unfold execute_cmd. rewrite Eop. unfold prepped. destruct md; cbn [nand_op_of].
  - change (READ_NAND =? READ_NAND) with true. cbn iota. unfold nand_operation. rewrite E1. cbn [obind].
    rewrite wchn_at. rewrite (ia_cmd _ _ _ _ Ha). change (nand_end_cmd (nand_op_of MRead)) with 0x30.
    unfold write_command_cycle, do_read. cbn [Z.eqb Pos.eqb orb].
    rewrite (addressed_same x c1 (set_ch_cmd_2 0x30 c1) eq_refl Had). cbn [obind].
    rewrite image_at, (put_chip_at _ _ _ c) by done. cbn [obind]. rewrite schedule_upd_at.
    eexists. split; [|split; [|eexists; reflexivity]]; [|done].
    intros o Ho. cbn [ch_page_reg set_ch_page_reg]. unfold copy_bytes. rewrite Z.sub_0_r.
    rewrite (proj2 (in_range_true (page_size g) o)) by done. f_equal. f_equal. rewrite <- Hch. by apply image_ofs_key.
  - change (PROGRAM_NAND =? READ_NAND) with false. change (PROGRAM_NAND =? PROGRAM_NAND) with true. cbn iota.
    rewrite E1. cbn [obind]. rewrite image_at, (put_chip_at _ _ _ c) by done.
    eexists. split; [|split; [|reflexivity]]; [|by cbn [ch_busy set_ch_pending]; rewrite Hb1].
    split; [done|]. by exists a.
Qed.

(** ** The DMA engine *)

Definition same_dma (h h' : nc_channel) : Prop :=
  nh_wait h' = nh_wait h /\ nh_read_dma h' = nh_read_dma h /\ nh_ram_ptr h' = nh_ram_ptr h /\ nh_dma_chip h' = nh_dma_chip h.

Lemma engine_at i h evs t cur img ram w :
  engine_ok (at_chn i h evs t cur img ram w) <->
  match cur with
  | None => dma_events evs = [] /\ nh_wait h = false /\ nh_wait (wchn (other_chn i) w) = false
  | Some j => let h' := if decide (j = i) then h else wchn (other_chn i) w in
      nh_wait h' = true /\ exists ci, nh_dma_chip h' = Some ci /\
      dma_events evs = [EvDma (nh_read_dma h') (nh_ram_ptr h') j ci]
  end.
Proof.
  unfold engine_ok. destruct w as [[c0 c1 t0 cur0 evs0 st] img0 ram0], i; cbn.
  - destruct cur as [[]|]; cbn; [done|done|]. split; [intros [? Hx]; split; [done|]; exact (conj (Hx Ch0) (Hx Ch1))|].
    intros (? & ? & ?). split; [done|]. by intros [].
  - destruct cur as [[]|]; cbn; [done|done|]. split; [intros [? Hx]; split; [done|]; exact (conj (Hx Ch1) (Hx Ch0))|].
    intros (? & ? & ?). split; [done|]. by intros [].
Qed.

Lemma engine_same i h h' evs evs' t t' cur img ram img' ram' w :
  same_dma h h' -> dma_events evs' = dma_events evs ->
  engine_ok (at_chn i h evs t cur img ram w) -> engine_ok (at_chn i h' evs' t' cur img' ram' w).
Proof.
  intros (E1 & E2 & E3 & E4) Ee. rewrite !engine_at, Ee, E1. destruct cur as [j|]; [|done].
  cbn zeta. destruct (decide (j = i)); [by rewrite E1, E2, E3, E4|done].
Qed.

(** The engine takes up the only channel that waits, or none. *)
Lemma run_dma_one i h evs t cur img ram w ci :
  nh_wait h = true -> nh_wait (wchn (other_chn i) w) = false -> nh_dma_chip h = Some ci ->
  nh_write_dma h = negb (nh_read_dma h) ->
  run_dma (at_chn i h evs t cur img ram w)
    = Ok (at_chn i h (evs ++ [EvDma (nh_read_dma h) (nh_ram_ptr h) i ci]) (negb t) (Some i) img ram w).
Proof.
  intros Hi Ho Hc Hwr. destruct w as [[c0 c1 t0 cur0 evs0 st] img0 ram0]. unfold run_dma.
  destruct i; cbn in Ho |- *; (destruct t; cbn; rewrite ?Hi, ?Ho, ?Hi; cbn; rewrite Hc; cbn;
    unfold wchn; cbn; rewrite Hwr; destruct (nh_read_dma h); reflexivity).
Qed.

Lemma run_dma_none i h evs t img ram w :
  nh_wait h = false -> nh_wait (wchn (other_chn i) w) = false ->
  run_dma (at_chn i h evs t None img ram w) = Ok (at_chn i h evs (negb t) None img ram w).
Proof.
  intros Hi Ho. destruct w as [[c0 c1 t0 cur0 evs0 st] img0 ram0]. unfold run_dma.
  destruct i; cbn in Ho |- *; destruct t; cbn; rewrite ?Hi, ?Ho; reflexivity.
Qed.

(** The data phase of page [x] begins. *)
Definition dma_started (x : op_page) (h : nc_channel) : nc_channel :=
  set_nh_dma true (match md with MRead => false | MProg => true end) (match md with MRead => true | MProg => false end)
    (pg_ssd_addr x) (Some (chip_ix x)) (inc_active 1 h).

Lemma execute_dma_ok i x d h evs t cur img ram w :
  is_dma g md x d -> no_dma h -> engine_ok (at_chn i h evs t cur img ram w) ->
  exists evs' t' cur', execute_cmd g lt i (chip_ix x) d (at_chn i h evs t cur img ram w)
      = Ok (at_chn i (dma_started x h) evs' t' cur' img ram w)
    /\ engine_ok (at_chn i (dma_started x h) evs' t' cur' img ram w)
    /\ forall j, busy_chips j evs' = busy_chips j evs.
Proof.
  intros [Eop _ Eram] (Ew & Er & Ewr) He.
  assert (E : execute_cmd g lt i (chip_ix x) d (at_chn i h evs t cur img ram w)
    = process_dma (at_chn i (dma_started x h) evs t cur img ram w)).
  { unfold execute_cmd. rewrite Eop. unfold dma_started. destruct md; cbn [dma_op_of]; rewrite !upd_at, Eram, ?Er, ?Ewr;
      reflexivity. }
  rewrite E. unfold process_dma. cbn [nw_ctrl at_chn nc_current set_engine].
  apply engine_at in He. destruct cur as [j|]; cbn zeta in He.
  - exists evs, t, (Some j). split; [done|]. split; [|done]. apply engine_at. cbn zeta.
    destruct (decide (j = i)); [destruct He as (He & _); congruence|done].
  - destruct He as (Ee & _ & Ho).
    rewrite (run_dma_one i (dma_started x h) evs t None img ram w (chip_ix x)) by (unfold dma_started; by destruct md).
    do 3 eexists. split; [reflexivity|]. split.
    + apply engine_at. rewrite decide_True by done. split; [by destruct md|]. exists (chip_ix x). split; [by destruct md|].
      rewrite dma_events_app, Ee. reflexivity.
    + intros j. rewrite busy_chips_app. apply app_nil_r.
Qed.

(** ** The waiting room is worked off *)

Lemma arr_get_insert {A} (l : list A) i j c c0 :
  arr_get l i = Ok c0 -> arr_get (<[Z.to_nat i := c]> l) j = if decide (j = i) then Ok c else arr_get l j.
Proof.
  intros Hi. assert (Hr : 0 <= i < Z.of_nat (length l)).
  { apply arr_get_Ok in Hi as [? Hi]. apply lookup_lt_Some in Hi. lia. }
  pose proof (arr_set_Ok l i c Hr) as Es. destruct (decide (j = i)) as [->|Hne].
  - exact (arr_get_set_eq _ _ _ _ Es).
  - apply (arr_get_set_ne _ _ i j c); [lia|exact Es].
Qed.

Lemma busy_insert (chips : list nc_chip) (busy busy' : list Z) i c c0 :
  arr_get chips i = Ok c0 -> (ch_busy c = true <-> i ∈ busy') -> (forall j, j <> i -> j ∈ busy' <-> j ∈ busy) ->
  (forall ci c, arr_get chips ci = Ok c -> (ch_busy c = true <-> ci ∈ busy)) ->
  forall ci c1, arr_get (<[Z.to_nat i := c]> chips) ci = Ok c1 -> (ch_busy c1 = true <-> ci ∈ busy').
Proof.
  intros Hc Hi Hj Hb ci c1. rewrite (arr_get_insert _ _ _ _ _ Hc). destruct (decide (ci = i)) as [->|Hne].
  - by intros [= <-].
  - intros E. rewrite Hj by done. by apply Hb.
Qed.

Definition pop_room (h : nc_channel) : nc_channel := set_nh_room (fifo_pop_front (nh_room h)) h.

(** A chip of the batch is there. *)
Lemma chip_there i h evs img todo half l x :
  chan_ok i h evs img todo half l -> page_ok (nh_index h) x -> exists c, arr_get (nh_chips h) (chip_ix x) = Ok c.
Proof using Hw.
  intros Hk [Hin _ _]. destruct (chip_range g Hw (pg_ppa x) Hin) as (Hr & _).
  destruct (arr_get_lookup (nh_chips h) (chip_ix x)) as (c & Hc & _); [by rewrite (ck_chips _ _ _ _ _ _ _ Hk)|]. by exists c.
Qed.

(** After the command phase of [x]. *)
Lemma chan_after_nand i h evs img todo half a l x c c' evs' (act : Z) todo' :
  chan_ok i h evs img todo half (a :: l) -> no_dma h -> is_nand g md x a -> page_ok (nh_index h) x ->
  arr_get (nh_chips h) (chip_ix x) = Ok c -> ch_busy c = false -> prepped img x c' ->
  (half = Some x /\ todo = [] /\ l = [] \/
   exists d l', l = d :: l' /\ todo = x :: todo' /\ is_dma g md x d /\ cmds g md todo' half l') ->
  (ch_busy c' = true /\ act = 1 /\ busy_chips i evs' = busy_chips i evs ++ [chip_ix x] \/
   ch_busy c' = false /\ act = 0 /\ busy_chips i evs' = busy_chips i evs) ->
  let h' := set_nh_active (u8 (nh_active h + act)) (set_nh_chips (<[Z.to_nat (chip_ix x) := c']> (nh_chips h)) h) in
  chan_ok i (pop_room h') evs' img todo half l.
Proof using Hw.
  intros Hk Hn Ha Hx Hc Hb Hp Hph Hev h'. pose proof (active_bound _ _ _ _ _ _ _ Hk) as Hact.
  destruct (chip_range g Hw (pg_ppa x) (po_in _ _ Hx)) as (Hcr & _).
  assert (Hnin : chip_ix x ∉ busy_chips i evs) by (rewrite <- (ck_busy _ _ _ _ _ _ _ Hk _ _ Hc); congruence).
  assert (Hprep : prepped_at img (pop_room h') x).
  { exists c'. split; [|done]. cbn. rewrite (arr_get_insert _ _ _ _ _ Hc). by rewrite decide_True. }
  destruct Hn as (Hn1 & Hn2 & Hn3). destruct Hk as [Hroom Hphase Hpages Hhalf Hchips Hactive Hbusy Hnd Hrange].
  split; cbn [pop_room h' set_nh_room set_nh_active set_nh_chips nh_index nh_chips nh_room nh_active nh_wait].
  - by eapply fifo_pop_ok.
  - destruct Hph as [(-> & -> & ->)|(d & l' & -> & -> & Hd & Hcm)].
    + by apply ph_half.
    + by apply ph_loaded.
  - done.
  - done.
  - by rewrite length_insert.
  - rewrite Hn1 in *. destruct Hev as [(_ & -> & ->)|(_ & -> & ->)]; rewrite u8_id by lia; rewrite ?length_app; cbn [length]; lia.
  - apply (busy_insert _ (busy_chips i evs) _ _ _ c); [done| | |done].
    + destruct Hev as [(-> & _ & ->)|(-> & _ & ->)]; [|split; [done|by intros]]. rewrite elem_of_app, list_elem_of_singleton. tauto.
    + intros j Hj. destruct Hev as [(_ & _ & ->)|(_ & _ & ->)]; [|done]. rewrite elem_of_app, list_elem_of_singleton. tauto.
  - destruct Hev as [(_ & _ & ->)|(_ & _ & ->)]; [|done]. apply list.NoDup_app. split; [done|]. split; [|by apply NoDup_singleton].
    intros y Hy. rewrite list_elem_of_singleton. by intros ->.
  - destruct Hev as [(_ & _ & ->)|(_ & _ & ->)]; [|done]. apply Forall_app. split; [done|]. by apply Forall_singleton.
Qed.

(** After the command of the data phase was taken. *)
Lemma chan_after_dma i h evs img todo half d l x c evs' :
  chan_ok i h evs img (x :: todo) half (d :: l) -> no_dma h -> cmds g md todo half l ->
  arr_get (nh_chips h) (chip_ix x) = Ok c -> ch_busy c = false -> prepped img x c ->
  busy_chips i evs' = busy_chips i evs -> chan_ok i (pop_room (dma_started x h)) evs' img (x :: todo) half l.
Proof using Hw.
  intros Hk (Hn1 & _) Hcm Hc Hb Hp Hev. pose proof (active_bound _ _ _ _ _ _ _ Hk) as Hact.
  destruct Hk as [Hroom Hphase Hpages Hhalf Hchips Hactive Hbusy Hnd Hrange].
  split; cbn [pop_room dma_started inc_active set_nh_dma set_nh_room set_nh_active nh_index nh_chips nh_room nh_active nh_wait];
    rewrite ?Hev; try done.
  - by eapply fifo_pop_ok.
  - by apply (ph_dma _ _ x todo half l c); try done; cbn; destruct md.
  - rewrite Hn1 in Hactive. rewrite u8_id by lia. lia.
Qed.

(** What a channel may still have completed: four for a command, two for a transfer,
    one for a busy chip. *)
Definition weight (i : sel) (h : nc_channel) (evs : list nc_event) : nat :=
  (4 * Z.to_nat (ff_items (nh_room h)) + (if nh_wait h then 2 else 0) + length (busy_chips i evs))%nat.

(** A channel with its commands taken as far as possible, and what else may change. *)
Record worked (i : sel) (h : nc_channel) (evs : list nc_event) (img : mem) (todo : list op_page) (half : option op_page)
    (h' : nc_channel) (evs' : list nc_event) (t' : bool) (cur' : option sel) (ram : mem) (w : nworld) : Prop := {
  wk_chan : exists l, chan_ok i h' evs' img todo half l /\ settled h' l;
  wk_engine : engine_ok (at_chn i h' evs' t' cur' img ram w);
  wk_new_cmd : nh_new_cmd h' = nh_new_cmd h;
  wk_index : nh_index h' = nh_index h;
  wk_other : busy_chips (other_chn i) evs' = busy_chips (other_chn i) evs;
  wk_weight : (weight i h' evs' <= weight i h evs)%nat }.

Lemma worked_step i h evs img todo half h1 evs1 h' evs' t' cur' ram w :
  nh_new_cmd h1 = nh_new_cmd h -> nh_index h1 = nh_index h ->
  busy_chips (other_chn i) evs1 = busy_chips (other_chn i) evs -> (weight i h1 evs1 <= weight i h evs)%nat ->
  worked i h1 evs1 img todo half h' evs' t' cur' ram w -> worked i h evs img todo half h' evs' t' cur' ram w.
Proof. intros E1 E2 E3 E4 [W1 W2 W3 W4 W5 W6]. split; [done|done|congruence|congruence|congruence|lia]. Qed.

Lemma worked_here i h evs img todo half t cur ram w l :
  chan_ok i h evs img todo half l -> settled h l -> engine_ok (at_chn i h evs t cur img ram w) ->
  worked i h evs img todo half h evs t cur ram w.
Proof. intros. split; try done. by exists l. Qed.

(** The front command, when there is one: its chip and what it does. *)
Lemma weight_pop i h h' evs evs' a l img todo half k :
  chan_ok i h evs img todo half (a :: l) -> nh_room h' = fifo_pop_front (nh_room h) ->
  length (busy_chips i evs') = (length (busy_chips i evs) + k)%nat -> (k <= 1)%nat -> nh_wait h = false ->
  (weight i h' evs' <= weight i h evs)%nat.
Proof.
  intros Hk Er El Hk1 Hw0. unfold weight. rewrite Er, El, Hw0.
  pose proof (fifo_pop_ok _ _ _ (ck_room _ _ _ _ _ _ _ Hk)) as Hp.
  rewrite (fo_items _ _ Hp), (fo_items _ _ (ck_room _ _ _ _ _ _ _ Hk)). cbn [length]. destruct (nh_wait h'); lia.
Qed.

Lemma process_unfold fuel i h evs t cur img ram w a l ci c :
  fifo_ok (nh_room h) (a :: l) -> nh_wait h = false -> nk_chip a = Some ci -> arr_get (nh_chips h) ci = Ok c ->
  process_waiting_room_cmd g lt (S fuel) i (at_chn i h evs t cur img ram w) =
    if ch_busy c then Ok (at_chn i h evs t cur img ram w)
    else let! w1 := execute_cmd g lt i ci a (at_chn i h evs t cur img ram w) in
         process_waiting_room_cmd g lt fuel i (on_ctrl (upd_chn i pop_room) w1).
Proof.
  intros Hr Hw0 Hci Hc. cbn [process_waiting_room_cmd]. rewrite wchn_at, Hw0, (fo_empty _ _ Hr).
  rewrite (fifo_front_ok _ _ _ Hr). cbn [obind deref]. rewrite Hci. cbn [obind deref]. by rewrite get_chip_at, Hc.
Qed.

(** The command of the command phase is at the front. *)
Lemma process_nand i fuel h evs t cur img ram w todo half a l x todo' :
  (forall h evs t cur l, chan_ok i h evs img todo half l -> engine_ok (at_chn i h evs t cur img ram w) ->
     (length l < fuel)%nat -> exists h' evs' t' cur',
       process_waiting_room_cmd g lt fuel i (at_chn i h evs t cur img ram w) = Ok (at_chn i h' evs' t' cur' img ram w)
       /\ worked i h evs img todo half h' evs' t' cur' ram w) ->
  chan_ok i h evs img todo half (a :: l) -> engine_ok (at_chn i h evs t cur img ram w) -> (length (a :: l) < S fuel)%nat ->
  no_dma h -> is_nand g md x a -> page_ok (nh_index h) x ->
  (half = Some x /\ todo = [] /\ l = [] \/
   exists d l', l = d :: l' /\ todo = x :: todo' /\ is_dma g md x d /\ cmds g md todo' half l') ->
  exists h' evs' t' cur',
    process_waiting_room_cmd g lt (S fuel) i (at_chn i h evs t cur img ram w) = Ok (at_chn i h' evs' t' cur' img ram w)
    /\ worked i h evs img todo half h' evs' t' cur' ram w.
Proof using Hg Hw.
  intros IH Hk He Hlen Hn Ha Hx Hph. destruct (chip_there _ _ _ _ _ _ _ x Hk Hx) as (c & Hc).
  rewrite (process_unfold fuel i h evs t cur img ram w a l (chip_ix x) c (ck_room _ _ _ _ _ _ _ Hk) (proj1 Hn)
             (ia_chip _ _ _ _ Ha) Hc).
  destruct (ch_busy c) eqn:Hb.
  { exists h, evs, t, cur. split; [done|]. apply (worked_here _ _ _ _ _ _ _ _ _ _ (a :: l)); [done| |done].
    right. right. exists a, l, (chip_ix x), c. split; [done|]. split; [apply Ha|done]. }
  destruct (execute_nand_ok i x a c h evs t cur img ram w Ha Hx Hc Hb) as (c' & Hp & Hex).
  assert (Hcont : forall act evs1, 
    (ch_busy c' = true /\ act = 1 /\ busy_chips i evs1 = busy_chips i evs ++ [chip_ix x] \/
     ch_busy c' = false /\ act = 0 /\ busy_chips i evs1 = busy_chips i evs) ->
    busy_chips (other_chn i) evs1 = busy_chips (other_chn i) evs -> dma_events evs1 = dma_events evs ->
    exists h' evs' t' cur', process_waiting_room_cmd g lt fuel i (at_chn i (pop_room (set_nh_active (u8 (nh_active h + act))
        (set_nh_chips (<[Z.to_nat (chip_ix x) := c']> (nh_chips h)) h))) evs1 t cur img ram w)
        = Ok (at_chn i h' evs' t' cur' img ram w) /\ worked i h evs img todo half h' evs' t' cur' ram w).
  { intros act evs1 Hev Ho Hd. pose proof (chan_after_nand i h evs img todo half a l x c c' evs1 act todo'
      Hk Hn Ha Hx Hc Hb Hp Hph Hev) as Hk1. cbv zeta in Hk1.
    destruct (IH _ evs1 t cur l Hk1) as (h' & evs' & t' & cur' & E & Hwk).
    - apply (engine_same i h _ evs evs1 t t cur img ram img ram); done.
    - cbn [length] in Hlen. lia.
    - exists h', evs', t', cur'. split; [exact E|]. eapply worked_step; [| | | |exact Hwk]; [done|done|done|].
      eapply (weight_pop i h _ evs evs1 a l img todo half (if ch_busy c' then 1 else 0)%nat Hk);
        [reflexivity| |destruct (ch_busy c'); lia|apply Hn].
      destruct Hev as [(-> & _ & ->)|(-> & _ & ->)]; [rewrite length_app; done|lia]. }
  destruct md; destruct Hex as (Hb' & Hex).
  - destruct Hex as (tk & ->). cbn [obind]. rewrite upd_at. apply (Hcont 1).
    + left. split; [done|]. split; [done|]. by rewrite busy_chips_app, busy_chips_chip.
    + by rewrite busy_chips_app, busy_chips_other, app_nil_r.
    + by rewrite dma_events_app, app_nil_r.
  - rewrite Hex. cbn [obind]. rewrite upd_at.
    pose proof (active_bound _ _ _ _ _ _ _ Hk) as Hact.
    specialize (Hcont 0 evs). rewrite Z.add_0_r, u8_id in Hcont by lia. destruct h. apply Hcont; [by right|done|done].
Qed.

Lemma process_ok i fuel h evs t cur img ram w todo half l :
  chan_ok i h evs img todo half l -> engine_ok (at_chn i h evs t cur img ram w) -> (length l < fuel)%nat ->
  exists h' evs' t' cur',
    process_waiting_room_cmd g lt fuel i (at_chn i h evs t cur img ram w) = Ok (at_chn i h' evs' t' cur' img ram w)
    /\ worked i h evs img todo half h' evs' t' cur' ram w.
Proof using Hg Hw.
  revert h evs t cur l. induction fuel as [|fuel IH]; intros h evs t cur l Hk He Hlen; [lia|].
  destruct l as [|a l].
  { exists h, evs, t, cur. cbn [process_waiting_room_cmd]. rewrite wchn_at.
    split; [|apply (worked_here _ _ _ _ _ _ _ _ _ _ []); [done|by right; left|done]].
    rewrite (fo_empty _ _ (ck_room _ _ _ _ _ _ _ Hk)). by destruct (nh_wait h). }
  pose proof (ck_phase _ _ _ _ _ _ _ Hk) as Hph. inversion Hph as [? ? ? Hn Hcm|x todo0 ? d ? Hn Hd Hcm Hp| |x todo0 ? ? c Hwt]; subst.
  - inversion Hcm as [|x ? Ha|x todo0 ? ? d l' Ha Hd Hcm']; subst.
    + eapply (process_nand i fuel h evs t cur img ram w [] (Some x) a [] x []); try done; [by apply (ck_half _ _ _ _ _ _ _ Hk)|].
      by left.
    + eapply (process_nand i fuel h evs t cur img ram w (x :: todo0) half a (d :: l') x todo0); try done.
      * pose proof (ck_pages _ _ _ _ _ _ _ Hk) as Hpg. by inversion Hpg.
      * right. by exists d, l'.
  - destruct Hp as (c & Hc & Hp).
    rewrite (process_unfold fuel i h evs t cur img ram w a l (chip_ix x) c (ck_room _ _ _ _ _ _ _ Hk) (proj1 Hn)
               (id_chip _ _ _ _ Hd) Hc).
    destruct (ch_busy c) eqn:Hb.
    { exists h, evs, t, cur. split; [done|]. apply (worked_here _ _ _ _ _ _ _ _ _ _ (a :: l)); [done| |done].
      right. right. exists a, l, (chip_ix x), c. split; [done|]. split; [apply Hd|done]. }
    destruct (execute_dma_ok i x a h evs t cur img ram w Hd Hn He) as (evs1 & t1 & cur1 & E1 & He1 & Hev1).
    rewrite E1. cbn [obind]. rewrite upd_at. destruct fuel as [|fuel]; [cbn [length] in Hlen; lia|].
    cbn [process_waiting_room_cmd]. rewrite wchn_at. change (nh_wait (pop_room (dma_started x h))) with true. cbn iota.
    exists (pop_room (dma_started x h)), evs1, t1, cur1. split; [done|].
    apply (worked_step i h evs img (x :: todo0) half (pop_room (dma_started x h)) evs1); [done|done|apply Hev1| |].
    + pose proof (fifo_pop_ok _ _ _ (ck_room _ _ _ _ _ _ _ Hk)) as Hpo. unfold weight. cbn [pop_room dma_started nh_room nh_wait
        set_nh_room set_nh_dma inc_active set_nh_active]. rewrite (fo_items _ _ Hpo), (fo_items _ _ (ck_room _ _ _ _ _ _ _ Hk)), Hev1.
      cbn [length]. destruct (nh_wait h); lia.
    + apply (worked_here _ _ _ _ _ _ _ _ _ _ l); [|by left|].
      * by apply (chan_after_dma i h evs img todo0 half a l x c evs1).
      * revert He1. by apply engine_same.
  - exists h, evs, t, cur. cbn [process_waiting_room_cmd]. rewrite wchn_at, Hwt. split; [done|].
    apply (worked_here _ _ _ _ _ _ _ _ _ _ (a :: l)); [done|by left|done].
Qed.

(** ** A controller between two steps *)

Record ctrl_ok (w : nworld) (todo : sel -> list op_page) (half : sel -> option op_page) : Prop := {
  cc_chan : forall i, exists l,
    chan_ok i (wchn i w) (nc_events (nw_ctrl w)) (nw_image w) (todo i) (half i) l /\ settled (wchn i w) l;
  cc_engine : engine_ok w }.

Definition total_weight (w : nworld) : nat :=
  (weight Ch0 (wchn Ch0 w) (nc_events (nw_ctrl w)) + weight Ch1 (wchn Ch1 w) (nc_events (nw_ctrl w)))%nat.

Definition chan_weight (j : sel) (w : nworld) : nat := weight j (wchn j w) (nc_events (nw_ctrl w)).

(** A completion makes the controller lighter and no channel heavier. *)
Definition lighter (w w' : nworld) : Prop :=
  (total_weight w' < total_weight w)%nat /\ forall j, (chan_weight j w' <= chan_weight j w)%nat.

(** What the completions leave alone. *)
Definition keeps (w w' : nworld) : Prop :=
  forall i, nh_new_cmd (wchn i w') = nh_new_cmd (wchn i w) /\ nh_index (wchn i w') = nh_index (wchn i w).

Lemma total_weight_at i w :
  total_weight w = (weight i (wchn i w) (nc_events (nw_ctrl w))
                    + weight (other_chn i) (wchn (other_chn i) w) (nc_events (nw_ctrl w)))%nat.
Proof. unfold total_weight. destruct i; cbn [other_chn]; lia. Qed.

Lemma sel_other i j : j = i \/ j = other_chn i.
Proof. destruct i, j; auto. Qed.

Lemma total_chan_weight i w : total_weight w = (chan_weight i w + chan_weight (other_chn i) w)%nat.
Proof. apply total_weight_at. Qed.

Lemma lighter_from i w w' :
  (chan_weight i w' < chan_weight i w)%nat -> chan_weight (other_chn i) w' = chan_weight (other_chn i) w -> lighter w w'.
Proof.
  intros H1 H2. split; [rewrite !(total_chan_weight i); lia|]. intros j. destruct (sel_other i j) as [-> | ->]; lia.
Qed.

Lemma chan_ok_evs i h evs evs' img todo half l :
  busy_chips i evs' = busy_chips i evs -> chan_ok i h evs img todo half l -> chan_ok i h evs' img todo half l.
Proof. intros E []. split; rewrite ?E; done. Qed.

(** The controller after a channel was worked off. *)
Lemma worked_ctrl i h evs img todo half h' evs' t' cur' ram w lo :
  worked i h evs img (todo i) (half i) h' evs' t' cur' ram w ->
  chan_ok (other_chn i) (wchn (other_chn i) w) evs img (todo (other_chn i)) (half (other_chn i)) lo ->
  settled (wchn (other_chn i) w) lo ->
  ctrl_ok (at_chn i h' evs' t' cur' img ram w) todo half
  /\ (chan_weight i (at_chn i h' evs' t' cur' img ram w) <= weight i h evs)%nat
  /\ chan_weight (other_chn i) (at_chn i h' evs' t' cur' img ram w) = weight (other_chn i) (wchn (other_chn i) w) evs.
Proof.
  intros [(l & Hk & Hs) He _ _ Ho Hwt] Hko Hso. split.
  - split; [|done]. intros j. change (nc_events (nw_ctrl (at_chn i h' evs' t' cur' img ram w))) with evs'.
    change (nw_image (at_chn i h' evs' t' cur' img ram w)) with img.
    destruct (sel_other i j) as [-> | ->]; [rewrite wchn_at; by exists l|]. rewrite wchn_at_other. exists lo.
    split; [|done]. by apply (chan_ok_evs _ _ evs).
  - unfold chan_weight. rewrite wchn_at, wchn_at_other. change (nc_events (nw_ctrl (at_chn i h' evs' t' cur' img ram w))) with evs'.
    split; [done|]. unfold weight. by rewrite Ho.
Qed.

Lemma process_room_ok i h evs t cur img ram w todo half l :
  chan_ok i h evs img todo half l -> engine_ok (at_chn i h evs t cur img ram w) ->
  exists h' evs' t' cur', process_room g lt i (at_chn i h evs t cur img ram w) = Ok (at_chn i h' evs' t' cur' img ram w)
    /\ worked i h evs img todo half h' evs' t' cur' ram w.
Proof using Hg Hw.
  intros Hk He. apply (process_ok i _ h evs t cur img ram w todo half l Hk He). unfold room_fuel.
  rewrite wchn_at, (fo_items _ _ (ck_room _ _ _ _ _ _ _ Hk)). lia.
Qed.

(** Removing an event from those under way. *)
Lemma delete_event (evs : list nc_event) n e :
  evs !! n = Some e -> exists l1 l2, evs = l1 ++ e :: l2 /\ delete n evs = l1 ++ l2.
Proof.
  intros Hn. exists (take n evs), (drop (S n) evs). rewrite delete_take_drop. by rewrite take_drop_middle.
Qed.

Lemma drop_event_at i n w :
  on_ctrl (fun c => set_events (delete n (nc_events c)) c) w
  = at_chn i (wchn i w) (delete n (nc_events (nw_ctrl w))) (nc_toggle (nw_ctrl w)) (nc_current (nw_ctrl w))
      (nw_image w) (nw_ram w) w.
Proof. by destruct w as [[] ? ?], i. Qed.

Lemma keeps_at i h evs t cur img ram w :
  nh_new_cmd h = nh_new_cmd (wchn i w) -> nh_index h = nh_index (wchn i w) ->
  keeps w (at_chn i h evs t cur img ram w).
Proof. intros E1 E2 j. destruct (sel_other i j) as [-> | ->]; [by rewrite wchn_at|by rewrite wchn_at_other]. Qed.

(** A chip has finished. *)
Lemma fire_chip w todo half n i ci tk :
  ctrl_ok w todo half -> nc_events (nw_ctrl w) !! n = Some (EvChip i ci tk) ->
  exists w', fire_nth g lt n w = Ok w' /\ ctrl_ok w' todo half /\ nw_image w' = nw_image w /\ nw_ram w' = nw_ram w
    /\ lighter w w' /\ keeps w w'.
Proof using Hg Hw.
  intros [Hch He] Hn. unfold fire_nth. rewrite Hn.
  destruct (delete_event _ _ _ Hn) as (l1 & l2 & El & Ed). rewrite (drop_event_at i), Ed. clear Ed.
  set (evs := nc_events (nw_ctrl w)) in *. set (t := nc_toggle (nw_ctrl w)). set (cur := nc_current (nw_ctrl w)).
  destruct (Hch i) as (l & Hk & _). destruct (Hch (other_chn i)) as (lo & Hko & Hso).
  assert (Eb : busy_chips i evs = busy_chips i l1 ++ ci :: busy_chips i l2).
  { rewrite El, busy_chips_app. cbn [busy_chips flat_map]. by rewrite decide_True. }
  assert (Ebo : busy_chips (other_chn i) evs = busy_chips (other_chn i) (l1 ++ l2)).
  { rewrite El, !busy_chips_app. cbn [busy_chips flat_map]. by rewrite decide_False by (by destruct i). }
  assert (Hci : 0 <= ci < num_chips g).
  { pose proof (ck_range _ _ _ _ _ _ _ Hk) as Hr. fold evs in Hr. rewrite Eb in Hr. apply Forall_app in Hr as [_ Hr].
    by inversion Hr. }
  destruct (arr_get_lookup (nh_chips (wchn i w)) ci) as (c & Hc & _); [by rewrite (ck_chips _ _ _ _ _ _ _ Hk)|].
  pose proof (active_bound _ _ _ _ _ _ _ Hk) as Hact.
  cbn [fire_event]. unfold operation_complete_call_back. rewrite upd_at, get_chip_at.
  change (nh_chips (inc_active (-1) (wchn i w))) with (nh_chips (wchn i w)). rewrite Hc. cbn [obind].
  rewrite (put_chip_at _ _ _ c) by done. cbn [obind].
  set (h1 := set_nh_chips _ _). 
  assert (Hk1 : chan_ok i h1 (l1 ++ l2) (nw_image w) (todo i) (half i) l).
  { destruct Hk as [Hroom Hphase Hpages Hhalf Hchips Hactive Hbusy Hnd Hrange]. fold evs in Hactive, Hbusy, Hnd, Hrange.
    rewrite Eb in *. apply list.NoDup_app in Hnd as (Hn1 & Hn2 & Hn3). inversion Hn3 as [|? ? Hn4 Hn5]; subst.
    apply Forall_app in Hrange as (Hr1 & Hr2). inversion Hr2 as [|? ? _ Hr3]; subst.
    rewrite length_app in Hactive. cbn [length] in Hactive.
    split; cbn [h1 set_nh_chips inc_active set_nh_active nh_room nh_index nh_chips nh_active nh_wait]; rewrite ?busy_chips_app.
    - done.
    - assert (Hpp : forall x, prepped_at (nw_image w) (wchn i w) x -> prepped_at (nw_image w) h1 x).
      { intros x (c0 & Hc0 & Hp0). unfold prepped_at. cbn [h1 set_nh_chips inc_active set_nh_active nh_chips].
        rewrite (arr_get_insert _ _ _ _ _ Hc). destruct (decide _) as [E|_]; [|by exists c0].
        rewrite E, Hc in Hc0. injection Hc0 as <-. by eexists. }
      destruct Hphase as [? ? ? ? Hcm|x todo0 ? d ? ? ? ? Hp|x ? Hp|x todo0 ? ? c0 ? ? ? ? ? Hc0 Hp Hb0 ?].
      + by apply ph_free.
      + apply ph_loaded; auto.
      + apply ph_half; auto.
      + destruct (decide (chip_ix x = ci)) as [E|E].
        * rewrite E, Hc in Hc0. injection Hc0 as <-. apply (ph_dma _ _ x todo0 _ _ (set_ch_busy false c)); try done.
          cbn. rewrite (arr_get_insert _ _ _ _ _ Hc). by rewrite decide_True.
        * apply (ph_dma _ _ x todo0 _ _ c0); try done. cbn. rewrite (arr_get_insert _ _ _ _ _ Hc). by rewrite decide_False.
    - done.
    - done.
    - by rewrite length_insert.
    - destruct (nh_wait (wchn i w)); rewrite u8_id by lia; rewrite length_app; lia.
    - apply (busy_insert _ (busy_chips i l1 ++ ci :: busy_chips i l2) _ _ _ c); [done| | |done].
      + split; [done|]. intros Hin. apply elem_of_app in Hin as [Hin|Hin]; [by apply Hn2 in Hin; rewrite not_elem_of_cons in Hin; destruct Hin|done].
      + intros j Hj. rewrite !elem_of_app, elem_of_cons. tauto.
    - apply list.NoDup_app. split; [done|]. split; [|done]. intros y Hy Hy2. apply (Hn2 y Hy). by right.
    - by apply Forall_app. }
  assert (He1 : engine_ok (at_chn i h1 (l1 ++ l2) t cur (nw_image w) (nw_ram w) w)).
  { apply (engine_same i (wchn i w) h1 evs (l1 ++ l2) t t cur (nw_image w) (nw_ram w)); [done| |].
    - rewrite El, !dma_events_app. done.
    - unfold evs, t, cur. by rewrite <- at_chn_self. }
  destruct (process_room_ok i h1 (l1 ++ l2) t cur (nw_image w) (nw_ram w) w _ _ l Hk1 He1) as (h' & evs' & t' & cur' & E & Hwk).
  rewrite E. eexists. split; [reflexivity|].
  destruct (worked_ctrl i h1 (l1 ++ l2) (nw_image w) todo half h' evs' t' cur' (nw_ram w) w lo Hwk) as (Hok & Hwt & Hwo).
  { by apply (chan_ok_evs _ _ evs). }
  { done. }
  split; [exact Hok|]. split; [done|]. split; [done|]. split.
  - apply (lighter_from i); [|rewrite Hwo; unfold chan_weight, weight; fold evs; by rewrite Ebo].
    eapply Nat.le_lt_trans; [exact Hwt|]. unfold chan_weight, weight. fold evs. rewrite Eb.
    rewrite busy_chips_app, !length_app. cbn [length h1 set_nh_chips inc_active set_nh_active nh_room nh_wait]. lia.
  - apply keeps_at; [rewrite (wk_new_cmd _ _ _ _ _ _ _ _ _ _ _ _ Hwk)|rewrite (wk_index _ _ _ _ _ _ _ _ _ _ _ _ Hwk)]; done.
Qed.

(** The transfer under way is the one of the channel whose DMA phase runs. *)
Lemma dma_event_unique w n rd ra i ci :
  engine_ok w -> nc_events (nw_ctrl w) !! n = Some (EvDma rd ra i ci) ->
  nc_current (nw_ctrl w) = Some i /\ nh_wait (wchn i w) = true /\ nh_dma_chip (wchn i w) = Some ci
  /\ rd = nh_read_dma (wchn i w) /\ ra = nh_ram_ptr (wchn i w)
  /\ dma_events (delete n (nc_events (nw_ctrl w))) = []
  /\ forall j, busy_chips j (delete n (nc_events (nw_ctrl w))) = busy_chips j (nc_events (nw_ctrl w)).
Proof.
  intros He Hn. destruct (delete_event _ _ _ Hn) as (l1 & l2 & El & ->). unfold engine_ok in He. rewrite El in *.
  assert (Ed : dma_events (l1 ++ EvDma rd ra i ci :: l2) = dma_events l1 ++ EvDma rd ra i ci :: dma_events l2)
    by apply dma_events_app.
  assert (Eb : forall j, busy_chips j (l1 ++ l2) = busy_chips j (l1 ++ EvDma rd ra i ci :: l2))
    by (intros j; by rewrite !busy_chips_app).
  rewrite Ed in He. destruct (nc_current (nw_ctrl w)) as [i'|].
  - destruct He as (Hwt & ci' & Hci & E). rewrite dma_events_app.
    destruct (dma_events l1) as [|y l1'] eqn:E1; cbn [app] in E.
    + injection E as E3 E4 E5 E6 E2. subst i' ci'. by rewrite E2.
    + injection E as _ E2. by destruct l1'.
  - destruct He as (E & _). by destruct (dma_events l1).
Qed.

Lemma run_dma_other i h evs t img ram w ci :
  nh_wait h = false -> nh_wait (wchn (other_chn i) w) = true -> nh_dma_chip (wchn (other_chn i) w) = Some ci ->
  nh_write_dma (wchn (other_chn i) w) = negb (nh_read_dma (wchn (other_chn i) w)) ->
  run_dma (at_chn i h evs t None img ram w)
    = Ok (at_chn i h (evs ++ [EvDma (nh_read_dma (wchn (other_chn i) w)) (nh_ram_ptr (wchn (other_chn i) w)) (other_chn i) ci])
            (negb t) (Some (other_chn i)) img ram w).
Proof.
  intros Hi Ho Hc Hwr. destruct w as [[c0 c1 t0 cur0 evs0 st] img0 ram0]. unfold run_dma.
  destruct i; cbn in Ho, Hc, Hwr |- *; (destruct t; cbn; rewrite ?Hi, ?Ho, ?Hi; cbn; unfold wchn; cbn; rewrite Hc; cbn;
    rewrite Hwr; destruct (nh_read_dma _); reflexivity).
Qed.

(** The engine takes up what waits on the other channel, if anything. *)
Lemma run_next i h evs t img ram w todo half l img' evs0 :
  nh_wait h = false -> dma_events evs = [] ->
  chan_ok (other_chn i) (wchn (other_chn i) w) evs0 img' todo half l ->
  exists evs' t' cur', run_dma (at_chn i h evs t None img ram w) = Ok (at_chn i h evs' t' cur' img ram w)
    /\ engine_ok (at_chn i h evs' t' cur' img ram w) /\ forall j, busy_chips j evs' = busy_chips j evs.
Proof.
  intros Hi Ed Hk. destruct (nh_wait (wchn (other_chn i) w)) eqn:Ho.
  - assert (Hx : exists ci, nh_dma_chip (wchn (other_chn i) w) = Some ci
      /\ nh_write_dma (wchn (other_chn i) w) = negb (nh_read_dma (wchn (other_chn i) w))).
    { destruct (ck_phase _ _ _ _ _ _ _ Hk) as [? ? ? Hn|? ? ? ? ? Hn|? Hn|]; try (destruct Hn; congruence). eexists. split; [eassumption|done]. }
    destruct Hx as (ci & Hc & Hwr). rewrite (run_dma_other i h evs t img ram w ci) by done.
    do 3 eexists. split; [reflexivity|]. split.
    + apply engine_at. rewrite decide_False by (by destruct i). split; [done|]. exists ci. split; [done|].
      by rewrite dma_events_app, Ed.
    + intros j. rewrite busy_chips_app. apply app_nil_r.
  - rewrite run_dma_none by done. do 3 eexists. split; [reflexivity|]. split; [|done]. by apply engine_at.
Qed.

Lemma engine_upd_at i h evs t cur img ram w :
  on_ctrl (fun c => set_engine (nc_toggle c) None c) (at_chn i h evs t cur img ram w) = at_chn i h evs t None img ram w.
Proof. by destruct i. Qed.

(** The last part of the completion of a transfer: the engine goes on and the
    channel works off its room. *)
Lemma transfer_ended i h evs t img ram w todo half l to ho lo :
  chan_ok i h evs img todo half l -> nh_wait h = false -> dma_events evs = [] ->
  chan_ok (other_chn i) (wchn (other_chn i) w) evs img to ho lo ->
  exists h' evs' t' cur',
    (let! w := run_dma (at_chn i h evs t None img ram w) in process_room g lt i w) = Ok (at_chn i h' evs' t' cur' img ram w)
    /\ worked i h evs img todo half h' evs' t' cur' ram w.
Proof using Hg Hw.
  intros Hk Hwt Hd Hko. destruct (run_next i h evs t img ram w to ho lo img evs Hwt Hd Hko) as (evs1 & t1 & cur1 & -> & He & Hb).
  cbn [obind]. destruct (process_room_ok i h evs1 t1 cur1 img ram w todo half l) as (h' & evs' & t' & cur' & E & Hwk); [|done|].
  - by apply (chan_ok_evs _ _ evs).
  - exists h', evs', t', cur'. split; [done|]. apply (worked_step i h evs img todo half h evs1); [done|done|apply Hb| |done].
    unfold weight. by rewrite Hb.
Qed.

(** The data phase of [x] ends on its channel. *)
Definition dma_ended (h : nc_channel) : nc_channel := set_nh_dma false false false 0 None h.

(** A page arrives in the memory. *)
Lemma chan_after_read i h evs evs' img x todo half l :
  chan_ok i h evs img (x :: todo) half l -> nh_wait h = true -> busy_chips i evs' = busy_chips i evs ->
  md = MRead -> chan_ok i (dma_ended (inc_active (-1) h)) evs' img todo half l.
Proof using Hw.
  intros Hk Hwt Hev _. pose proof (active_bound _ _ _ _ _ _ _ Hk) as Hact.
  destruct Hk as [Hroom Hphase Hpages Hhalf Hchips Hactive Hbusy Hnd Hrange].
  inversion Hphase as [? ? ? (Hn & _)|? ? ? ? ? (Hn & _)| |? ? ? ? ? _ _ _ _ _ _ _ _ Hcm]; subst; try congruence.
  split; cbn [dma_ended set_nh_dma inc_active set_nh_active nh_room nh_index nh_chips nh_active nh_wait]; rewrite ?Hev; try done.
  - by apply ph_free.
  - by inversion Hpages.
  - rewrite Hwt in Hactive. rewrite u8_id by lia. lia.
Qed.

(** A page goes to its chip, which starts to program it. *)
Lemma chan_after_program i h evs evs' img img' x todo half l c c' :
  chan_ok i h evs img (x :: todo) half l -> nh_wait h = true ->
  arr_get (nh_chips h) (chip_ix x) = Ok c -> ch_busy c = false -> ch_busy c' = true ->
  busy_chips i evs' = busy_chips i evs ++ [chip_ix x] ->
  chan_ok i (dma_ended (inc_active 1 (inc_active (-1) (set_nh_chips (<[Z.to_nat (chip_ix x) := c']> (nh_chips h)) h)))) evs' img'
    todo half l.
Proof using Hw.
  intros Hk Hwt Hc Hb Hb' Hev. pose proof (active_bound _ _ _ _ _ _ _ Hk) as Hact.
  assert (Hnin : chip_ix x ∉ busy_chips i evs) by (rewrite <- (ck_busy _ _ _ _ _ _ _ Hk _ _ Hc); congruence).
  destruct Hk as [Hroom Hphase Hpages Hhalf Hchips Hactive Hbusy Hnd Hrange].
  inversion Hphase as [? ? ? (Hn & _)|? ? ? ? ? (Hn & _)| |? ? ? ? ? _ _ _ _ _ _ _ _ Hcm]; subst; try congruence.
  inversion Hpages as [|? ? Hx Hpages']; subst.
  split; cbn [dma_ended set_nh_dma inc_active set_nh_active set_nh_chips nh_room nh_index nh_chips nh_active nh_wait];
    rewrite ?Hev; try done.
  - by apply ph_free.
  - by rewrite length_insert.
  - rewrite Hwt in Hactive. rewrite (u8_id (nh_active h + -1)), u8_id by lia. rewrite length_app. cbn [length]. lia.
  - apply (busy_insert _ (busy_chips i evs) _ _ _ c); [done| | |done].
    + rewrite elem_of_app, list_elem_of_singleton. tauto.
    + intros j Hj. rewrite elem_of_app, list_elem_of_singleton. tauto.
  - apply list.NoDup_app. split; [done|]. split; [|by apply NoDup_singleton].
    intros y Hy. rewrite list_elem_of_singleton. by intros ->.
  - apply Forall_app. split; [done|]. apply Forall_singleton.
    by destruct (chip_range g Hw (pg_ppa x) (po_in _ _ Hx)).
Qed.

(** What the data phase of a page does to the memory or to the image. *)
Definition page_read (img : mem) (x : op_page) (ram : mem) : mem :=
  copy_bytes PS ram (pg_ssd_addr x) img (key_ofs g (key_of (pg_ppa x))).
Definition page_programmed (ram : mem) (x : op_page) (img : mem) : mem :=
  copy_bytes PS img (key_ofs g (key_of (pg_ppa x))) ram (pg_ssd_addr x).

Lemma end_of_read i h evs t img ram w :
  nh_read_dma h = false -> nh_write_dma h = true ->
  dma_complete_call_back g lt (at_chn i h evs t (Some i) img ram w)
  = let! w := run_dma (at_chn i (dma_ended (inc_active (-1) h)) evs t None img ram w) in process_room g lt i w.
Proof.
  intros Hr Hwr. unfold dma_complete_call_back. change (nc_current _) with (Some i). cbn [deref obind].
  rewrite upd_at, wchn_at. cbn [inc_active set_nh_active nh_read_dma nh_write_dma]. rewrite Hr, Hwr. cbn [obind].
  rewrite !upd_at, engine_upd_at, upd_at. destruct h; cbn in Hr, Hwr. by subst.
Qed.

Lemma end_of_program_transfer i h evs t img ram w x c a :
  nh_read_dma h = true -> nh_dma_chip h = Some (chip_ix x) -> nh_write_dma h = false ->
  page_ok (nh_index h) x -> arr_get (nh_chips h) (chip_ix x) = Ok c -> addressed x c -> ch_pending c = Some a ->
  nk_cmd a = PROGRAM_NAND ->
  exists c' tk, ch_busy c' = true /\
  dma_complete_call_back g lt (at_chn i h evs t (Some i) img ram w)
  = let! w := run_dma (at_chn i (dma_ended (inc_active 1 (inc_active (-1)
        (set_nh_chips (<[Z.to_nat (chip_ix x) := c']> (nh_chips h)) h)))) (evs ++ [EvChip i (chip_ix x) tk]) t None
        (copy_bytes PS img (key_ofs g (key_of (pg_ppa x))) (ch_page_reg c) 0) ram w) in process_room g lt i w.
Proof using Hg Hw.
  intros Hr Hc Hwr [Hin Hch _] Hg1 Had Hpe Ecmd. unfold dma_complete_call_back. change (nc_current _) with (Some i).
  cbn [deref obind].
  rewrite upd_at, wchn_at. cbn [inc_active set_nh_active nh_read_dma nh_dma_chip nh_index]. rewrite Hr, Hc. cbn [obind deref].
  rewrite get_chip_at. cbn [inc_active set_nh_active nh_chips]. rewrite Hg1. cbn [obind]. rewrite Hpe, Ecmd.
  change (nand_end_cmd PROGRAM_NAND) with 0x10. unfold write_command_cycle, do_program. cbn [Z.eqb Pos.eqb orb].
  rewrite (addressed_same x c (set_ch_cmd_2 0x10 (set_ch_pending None c)) eq_refl Had). cbn [obind].
  rewrite image_at, (put_chip_at _ _ _ c) by done. cbn [obind]. rewrite schedule_upd_at. rewrite engine_upd_at, upd_at.
  rewrite <- Hch, (image_ofs_key g Hg Hw) by done. change (nw_image _) with img.
  do 2 eexists. split; [|destruct h; cbn in Hr, Hwr; subst; reflexivity]. done.
Qed.

(** A channel that programs does not look at the image. *)
Lemma chan_ok_img i h evs img img' todo half l :
  md = MProg -> chan_ok i h evs img todo half l -> chan_ok i h evs img' todo half l.
Proof.
  intros E [? Hp ? ? ? ? ? ? ?]. split; [done| |done..].
  assert (Hpp : forall x c, prepped img x c -> prepped img' x c) by (intros x c; unfold prepped; by rewrite E).
  assert (Hpa : forall x, prepped_at img h x -> prepped_at img' h x) by (intros x (c & ? & ?); exists c; auto).
  inversion Hp; subst; [by apply ph_free|apply ph_loaded; auto|apply ph_half; auto|eapply ph_dma; eauto].
Qed.

(** The end of a transfer, with what it did given. *)
Lemma transfer_closed i h1 evs2 t img1 ram1 w todo half x rest lo :
  todo i = x :: rest ->
  chan_ok i h1 evs2 img1 rest (half i) lo -> nh_wait h1 = false -> dma_events evs2 = [] ->
  busy_chips (other_chn i) evs2 = busy_chips (other_chn i) (nc_events (nw_ctrl w)) ->
  (exists l, chan_ok (other_chn i) (wchn (other_chn i) w) (nc_events (nw_ctrl w)) img1 (todo (other_chn i)) (half (other_chn i)) l
     /\ settled (wchn (other_chn i) w) l) ->
  (weight i h1 evs2 < weight i (wchn i w) (nc_events (nw_ctrl w)))%nat ->
  nh_new_cmd h1 = nh_new_cmd (wchn i w) -> nh_index h1 = nh_index (wchn i w) ->
  exists w', (let! w := run_dma (at_chn i h1 evs2 t None img1 ram1 w) in process_room g lt i w) = Ok w'
    /\ ctrl_ok w' (fun j => if decide (j = i) then rest else todo j) half
    /\ nw_image w' = img1 /\ nw_ram w' = ram1 /\ lighter w w' /\ keeps w w'.
Proof using Hg Hw.
  intros Et Hk Hwt Hd Hb (l & Hko & Hso) Hlt En Ei. apply (chan_ok_evs _ _ _ evs2) in Hko; [|done].
  destruct (transfer_ended i h1 evs2 t img1 ram1 w rest (half i) lo _ _ l Hk Hwt Hd Hko) as (h' & evs' & t' & cur' & -> & Hwk).
  eexists. split; [reflexivity|].
  destruct (worked_ctrl i h1 evs2 img1 (fun j => if decide (j = i) then rest else todo j) half h' evs' t' cur' ram1 w l) as (Hok & Hwt' & Hwo).
  { by rewrite decide_True. }
  { by rewrite decide_False by (by destruct i). }
  { done. }
  split; [exact Hok|]. split; [done|]. split; [done|]. split.
  - apply (lighter_from i); [unfold chan_weight at 2; lia|]. rewrite Hwo. unfold chan_weight, weight. by rewrite Hb.
  - apply keeps_at; [rewrite (wk_new_cmd _ _ _ _ _ _ _ _ _ _ _ _ Hwk)|rewrite (wk_index _ _ _ _ _ _ _ _ _ _ _ _ Hwk)]; done.
Qed.

(** A transfer has finished: the first page of its channel is done. *)
Lemma fire_dma w todo half n rd ra i ci :
  ctrl_ok w todo half -> nc_events (nw_ctrl w) !! n = Some (EvDma rd ra i ci) ->
  exists x rest w', todo i = x :: rest /\ fire_nth g lt n w = Ok w'
    /\ ctrl_ok w' (fun j => if decide (j = i) then rest else todo j) half
    /\ match md with
       | MRead => nw_image w' = nw_image w /\ forall b, nw_ram w' b = page_read (nw_image w) x (nw_ram w) b
       | MProg => nw_ram w' = nw_ram w /\ forall a, nw_image w' a = page_programmed (nw_ram w) x (nw_image w) a
       end
    /\ lighter w w' /\ keeps w w'.
Proof using Hg Hw.
  intros [Hch He] Hn. destruct (dma_event_unique _ _ _ _ _ _ He Hn) as (Ecur & Hwt & Hdc & -> & -> & Ede & Ebu).
  unfold fire_nth. rewrite Hn, (drop_event_at i). rewrite Ecur.
  set (evs := nc_events (nw_ctrl w)) in *. set (evs1 := delete n evs) in *. set (t := nc_toggle (nw_ctrl w)).
  destruct (Hch i) as (l & Hk & _). destruct (Hch (other_chn i)) as (lo & Hko & Hso). fold evs in Hk, Hko.
  set (h := wchn i w) in *.
  pose proof (ck_phase _ _ _ _ _ _ _ Hk) as Hph.
  inversion Hph as [? ? ? (Hx & _)|? ? ? ? ? (Hx & _)|? (Hx & _)|x rest ? ? c _ Hrd Hwr Hra Hdc' Hc Hp Hb Hcm E1 E2 E3]; try congruence.
  subst. rewrite Hdc in Hdc'. injection Hdc' as ->. exists x, rest. rewrite Hra.
  pose proof (ck_pages _ _ _ _ _ _ _ Hk) as Hpg. rewrite <- E1 in Hpg. inversion Hpg as [|? ? Hx _]; subst.
  rewrite <- E1 in Hk.
  unfold prepped in Hp. destruct md eqn:Emd; cbn [fire_event]; rewrite Hrd; rewrite get_chip_at, Hc; cbn [obind].
  - rewrite image_at, end_of_read by (rewrite ?Hwr, Hrd; done).
    edestruct (transfer_closed i (dma_ended (inc_active (-1) h)) evs1 t (nw_image w)) as (w' & -> & Hok & Ei & Er & Hl & Hkp);
      [done|apply (chan_after_read i h evs evs1 _ x rest _ l); done|done|done|apply Ebu|by exists lo| |done|done|].
    { unfold weight. rewrite Ebu. fold h evs. rewrite Hwt. cbn. lia. }
    exists w'. split_and!; try done. intros b. rewrite Er, dmaWrite_bytes. unfold page_read, copy_bytes, page_size.
    destruct (in_range PS (b - pg_ssd_addr x)) eqn:Eb; [|done]. apply in_range_true in Eb. by apply Hp.
  - destruct Hp as (Had & a & Hpe & Ha). rewrite (put_chip_at _ _ _ c) by done. cbn [obind].
    set (c1 := set_ch_page_reg _ c).
    destruct (end_of_program_transfer i (set_nh_chips (<[Z.to_nat (chip_ix x) := c1]> (nh_chips h)) h) evs1 t
      (nw_image w) (nw_ram w) w x c1 a) as (c' & tk & Hb' & E); try done.
    { cbn. by rewrite Hwr, Hrd. }
    { cbn. rewrite (arr_get_insert _ _ _ _ _ Hc). by rewrite decide_True. }
    { apply Ha. }
    cbn [inc_active set_nh_active set_nh_chips nh_chips nh_index nh_active nh_room] in E.
    rewrite list_insert_insert_eq in E.
    rewrite E. clear E.
    edestruct (transfer_closed i (dma_ended (inc_active 1 (inc_active (-1)
        (set_nh_chips (<[Z.to_nat (chip_ix x) := c']> (nh_chips h)) h)))) (evs1 ++ [EvChip i (chip_ix x) tk]) t
        (copy_bytes PS (nw_image w) (key_ofs g (key_of (pg_ppa x))) (ch_page_reg c1) 0)) as (w' & E & Hok & Ei & Er & Hl & Hkp);
      [done|apply (chan_after_program i h evs _ (nw_image w) _ x rest _ l c); try done|done| | | | |done|done|].
    { by rewrite busy_chips_app, busy_chips_chip, Ebu. }
    { by rewrite dma_events_app, Ede. }
    { by rewrite busy_chips_app, busy_chips_other, app_nil_r, Ebu. }
    { exists lo. split; [|done]. by apply (chan_ok_img _ _ _ (nw_image w)). }
    { unfold weight. rewrite busy_chips_app, busy_chips_chip, length_app, Ebu. fold h evs. rewrite Hwt. cbn. lia. }
    exists w'. split_and!; try done. intros b. rewrite Ei. unfold page_programmed, copy_bytes.
    destruct (in_range PS (b - key_ofs g (key_of (pg_ppa x)))) eqn:Eb; [|done]. cbn [c1 set_ch_page_reg ch_page_reg].
    rewrite dmaRead_bytes, Z.add_0_l. unfold page_size. by rewrite Eb.
Qed.
(** ** The registers *)

Context (junk : Z).

Lemma ctrl_ok_ext w todo half todo' half' :
  (forall i, todo' i = todo i) -> (forall i, half' i = half i) -> ctrl_ok w todo half -> ctrl_ok w todo' half'.
Proof. intros Et Eh [Hc He]. split; [|done]. intros i. destruct (Hc i) as (l & Hk & Hs). exists l. by rewrite Et, Eh. Qed.

(** Of a channel, the command under construction does not matter. *)
Definition same_work (h h' : nc_channel) : Prop :=
  nh_room h' = nh_room h /\ nh_index h' = nh_index h /\ nh_chips h' = nh_chips h /\ nh_active h' = nh_active h /\
  nh_write_dma h' = nh_write_dma h /\ same_dma h h'.

Lemma chan_ok_same i h h' evs img todo half l :
  same_work h h' -> chan_ok i h evs img todo half l -> chan_ok i h' evs img todo half l.
Proof.
  intros (E1 & E2 & E3 & E4 & E5 & E6 & E7 & E8 & E9) [? Hp ? ? ? ? ? ? ?].
  assert (Hn : no_dma h -> no_dma h') by (unfold no_dma; by rewrite E5, E6, E7).
  assert (Hpa : forall x, prepped_at img h x -> prepped_at img h' x) by (unfold prepped_at; by rewrite E3).
  split; rewrite ?E1, ?E2, ?E3, ?E4, ?E6; try done.
  inversion Hp; subst; [by apply ph_free; auto|apply ph_loaded; auto|apply ph_half; auto|].
  eapply ph_dma; rewrite ?E3, ?E5, ?E6, ?E7, ?E8, ?E9; eauto.
Qed.

(** What a register access may change besides the work of channel [i]. *)
Record accessed (i : sel) (w w' : nworld) : Prop := {
  ac_image : nw_image w' = nw_image w;
  ac_ram : nw_ram w' = nw_ram w;
  ac_index : forall j, nh_index (wchn j w') = nh_index (wchn j w);
  ac_other : nh_new_cmd (wchn (other_chn i) w') = nh_new_cmd (wchn (other_chn i) w) }.

Lemma upd_cmd_ok i f w todo half :
  ctrl_ok w todo half ->
  ctrl_ok (upd_cmd i f w) todo half /\ total_weight (upd_cmd i f w) = total_weight w /\ accessed i w (upd_cmd i f w)
  /\ nh_new_cmd (wchn i (upd_cmd i f w)) = f (nh_new_cmd (wchn i w)).
Proof.
  intros [Hc He]. unfold upd_cmd. rewrite upd_self. split; [split|split; [|split]].
  - intros j. destruct (sel_other i j) as [-> | ->].
    + destruct (Hc i) as (l & Hk & Hs). exists l. rewrite wchn_at. split; [by apply (chan_ok_same _ (wchn i w))|done].
    + destruct (Hc (other_chn i)) as (l & Hk & Hs). exists l. by rewrite wchn_at_other.
  - revert He. rewrite (at_chn_self i w) at 1. by apply engine_same.
  - rewrite !(total_weight_at i), wchn_at, wchn_at_other. done.
  - split; [done|done| |by rewrite wchn_at_other]. intros j.
    destruct (sel_other i j) as [-> | ->]; [by rewrite wchn_at|by rewrite wchn_at_other].
  - by rewrite wchn_at.
Qed.

Lemma submit_ok add i data w todo half a todo' half' :
  ctrl_ok w todo half ->
  (forall f, add (set_nk_cmd data (nh_new_cmd (wchn i w))) f = fifo_push a f) ->
  (forall l, chan_ok i (wchn i w) (nc_events (nw_ctrl w)) (nw_image w) (todo i) (half i) l -> (length l < 1022)%nat) ->
  (forall l f, chan_ok i (wchn i w) (nc_events (nw_ctrl w)) (nw_image w) (todo i) (half i) l -> fifo_ok f (l ++ [a]) ->
     chan_ok i (set_nh_room f (wchn i w)) (nc_events (nw_ctrl w)) (nw_image w) todo' half' (l ++ [a])) ->
  exists w', submit g lt junk add i data w = Ok w'
    /\ ctrl_ok w' (fun j => if decide (j = i) then todo' else todo j) (fun j => if decide (j = i) then half' else half j)
    /\ (total_weight w' <= total_weight w + 4)%nat /\ accessed i w w'.
Proof using Hg Hw.
  intros [Hch He] Hadd Hlen Hnew. destruct (Hch i) as (l & Hk & Hs). destruct (Hch (other_chn i)) as (lo & Hko & Hso).
  set (evs := nc_events (nw_ctrl w)) in *. set (h := wchn i w) in *.
  destruct (fifo_push_ok (nh_room h) l a (ck_room _ _ _ _ _ _ _ Hk) (Hlen l Hk)) as (f & Ef & Hf).
  pose proof (Hnew l f Hk Hf) as Hk1. set (h1 := set_nh_room f h) in *.
  unfold submit. rewrite Hadd. fold h. rewrite Ef. cbn [obind].
  rewrite upd_self. fold h. fold evs h1.
  assert (He1 : engine_ok (at_chn i h1 evs (nc_toggle (nw_ctrl w)) (nc_current (nw_ctrl w)) (nw_image w) (nw_ram w) w)).
  { revert He. rewrite (at_chn_self i w) at 1. by apply engine_same. }
  assert (Hstep : exists h' evs' t' cur',
    (if ff_isEmpty (nh_room h) then process_room g lt i (at_chn i h1 evs (nc_toggle (nw_ctrl w)) (nc_current (nw_ctrl w)) (nw_image w) (nw_ram w) w)
     else Ok (at_chn i h1 evs (nc_toggle (nw_ctrl w)) (nc_current (nw_ctrl w)) (nw_image w) (nw_ram w) w))
      = Ok (at_chn i h' evs' t' cur' (nw_image w) (nw_ram w) w)
    /\ worked i h1 evs (nw_image w) todo' half' h' evs' t' cur' (nw_ram w) w).
  { destruct (ff_isEmpty (nh_room h)) eqn:Ee; [exact (process_room_ok i h1 evs _ _ _ _ w todo' half' (l ++ [a]) Hk1 He1)|]. do 4 eexists. split; [reflexivity|].
    apply (worked_here _ _ _ _ _ _ _ _ _ _ (l ++ [a])); [done| |done].
    rewrite (fo_empty _ _ (ck_room _ _ _ _ _ _ _ Hk)) in Ee.
    destruct Hs as [Hs|[Hs|(a0 & l0 & ci & c & -> & Hs)]]; [by left|by subst|]. right. right. by exists a0, (l0 ++ [a]), ci, c. }
  destruct Hstep as (h' & evs' & t' & cur' & -> & Hwk). cbn [obind].
  destruct (worked_ctrl i h1 evs (nw_image w) (fun j => if decide (j = i) then todo' else todo j)
    (fun j => if decide (j = i) then half' else half j) h' evs' t' cur' (nw_ram w) w lo) as (Hok & Hwt' & Hwo).
  { by rewrite !decide_True. }
  { by rewrite !decide_False by (by destruct i). }
  { done. }
  set (w1 := at_chn i h' evs' t' cur' (nw_image w) (nw_ram w) w) in *.
  change (on_ctrl _ w1) with (upd_cmd i (fun _ => new_command junk) w1). eexists. split; [reflexivity|].
  destruct (upd_cmd_ok i (fun _ => new_command junk) w1 _ _ Hok) as (Hok' & Ew & Hac & _).
  split; [done|]. split.
  - rewrite Ew, (total_chan_weight i w1), Hwo. fold w1 in Hwt'. rewrite (total_weight_at i w). fold evs h.
    enough (weight i h1 evs <= weight i h evs + 4)%nat by lia. unfold weight.
    cbn [h1 set_nh_room nh_room nh_wait]. rewrite (fo_items _ _ Hf), (fo_items _ _ (ck_room _ _ _ _ _ _ _ Hk)).
    rewrite length_app. cbn [length]. lia.
  - destruct Hac as [H1 H2 H3 H4]. split; [by rewrite H1|by rewrite H2| |rewrite H4; unfold w1; by rewrite wchn_at_other].
    intros j. rewrite H3. unfold w1. destruct (sel_other i j) as [-> | ->]; [|by rewrite wchn_at_other].
    rewrite wchn_at, (wk_index _ _ _ _ _ _ _ _ _ _ _ _ Hwk). done.
Qed.

Lemma phase_length img h todo half l :
  phase img h todo half l -> (length l <= 2 * length todo + match half with Some _ => 1 | None => 0 end)%nat.
Proof.
  destruct 1; cbn [length]; try lia;
    match goal with Hc : cmds _ _ _ _ _ |- _ => apply cmds_length in Hc; lia end.
Qed.

(** The command of the command phase of [x] is sent. *)
Lemma send_nand_ok i x w todo half :
  ctrl_ok w todo half -> half i = None -> (2 * length (todo i) < 1022)%nat -> page_ok (nh_index (wchn i w)) x ->
  nk_chip (nh_new_cmd (wchn i w)) = Some (chip_ix x) ->
  nk_address (nh_new_cmd (wchn i w)) mod 2 ^ 32 = page (pg_ppa x) + 65536 * block (pg_ppa x) ->
  exists w', submit g lt junk add_cmd_phase i (nand_op_of md) w = Ok w'
    /\ ctrl_ok w' todo (fun j => if decide (j = i) then Some x else half j)
    /\ (total_weight w' <= total_weight w + 4)%nat /\ accessed i w w'.
Proof using Hg Hw.
  intros Hok Hh Hlen Hx Hchip Had.
  destruct (submit_ok add_cmd_phase i (nand_op_of md) w todo half
    (set_nk_op (nand_op_of md) (match md with MRead => nk_data_phase_required (nh_new_cmd (wchn i w)) | MProg => true end)
       (set_nk_cmd (nand_op_of md) (nh_new_cmd (wchn i w)))) (todo i) (Some x) Hok) as (w' & E & Hok' & Hr).
  - intros f. unfold add_cmd_phase. by destruct md.
  - intros l Hk. pose proof (phase_length _ _ _ _ _ (ck_phase _ _ _ _ _ _ _ Hk)) as Hl. rewrite Hh in Hl. lia.
  - intros l f Hk Hf. rewrite Hh in Hk.
    assert (Ha : is_nand g md x (set_nk_op (nand_op_of md) (match md with MRead => nk_data_phase_required (nh_new_cmd (wchn i w)) | MProg => true end)
       (set_nk_cmd (nand_op_of md) (nh_new_cmd (wchn i w))))) by done.
    destruct Hk as [Hroom Hphase Hpages Hhalf Hchips Hactive Hbusy Hnd Hrange]. split; try done.
    + inversion Hphase; subst.
      * apply ph_free; [done|]. by apply cmds_send_nand.
      * cbn [app]. apply ph_loaded; try done. by apply cmds_send_nand.
      * eapply ph_dma; eauto. by apply cmds_send_nand.
    + by intros ? [= <-].
  - exists w'. split; [done|]. split; [|done]. revert Hok'. apply ctrl_ok_ext; [|done]. intros j. by case_decide; subst.
Qed.

(** The command of the data phase of [x] is sent. *)
Lemma send_dma_ok i x w todo half :
  ctrl_ok w todo half -> half i = Some x -> (2 * length (todo i) < 1000)%nat ->
  nk_chip (nh_new_cmd (wchn i w)) = Some (chip_ix x) -> nk_ram_ptr (nh_new_cmd (wchn i w)) = pg_ssd_addr x ->
  exists w', submit g lt junk add_data_phase i (dma_op_of md) w = Ok w'
    /\ ctrl_ok w' (fun j => if decide (j = i) then todo i ++ [x] else todo j) (fun j => if decide (j = i) then None else half j)
    /\ (total_weight w' <= total_weight w + 4)%nat /\ accessed i w w'.
Proof using Hg Hw.
  intros Hok Hh Hlen Hchip Hram.
  apply (submit_ok add_data_phase i (dma_op_of md) w todo half
    (set_nk_op (dma_op_of md) (nk_data_phase_required (nh_new_cmd (wchn i w))) (set_nk_cmd (dma_op_of md) (nh_new_cmd (wchn i w))))
    (todo i ++ [x]) None Hok); [done| |].
  - intros l Hk. pose proof (phase_length _ _ _ _ _ (ck_phase _ _ _ _ _ _ _ Hk)) as Hl. rewrite Hh in Hl. lia.
  - intros l f Hk Hf. rewrite Hh in Hk.
    assert (Ha : is_dma g md x (set_nk_op (dma_op_of md) (nk_data_phase_required (nh_new_cmd (wchn i w)))
      (set_nk_cmd (dma_op_of md) (nh_new_cmd (wchn i w))))) by done.
    destruct Hk as [Hroom Hphase Hpages Hhalf Hchips Hactive Hbusy Hnd Hrange].
    pose proof (Hhalf x eq_refl) as Hx. split; try done.
    + inversion Hphase; subst; cbn [app].
      * apply ph_free; [done|]. by apply cmds_send_dma.
      * apply ph_loaded; try done. by apply cmds_send_dma.
      * apply ph_loaded; try done. apply cmds_nil.
      * eapply ph_dma; eauto. by apply cmds_send_dma.
    + apply Forall_app. split; [done|]. by apply Forall_singleton.
Qed.

(** ** Idle controllers *)

Lemma count_bound i h evs img todo half l :
  chan_ok i h evs img todo half l -> 0 <= nh_active h + ff_items (nh_room h) <= 130 + 2 * Z.of_nat (length todo).
Proof using Hw.
  intros Hk. pose proof (active_bound _ _ _ _ _ _ _ Hk). pose proof (phase_length _ _ _ _ _ (ck_phase _ _ _ _ _ _ _ Hk)).
  rewrite (fo_items _ _ (ck_room _ _ _ _ _ _ _ Hk)). destruct half; lia.
Qed.

(** A channel that counts nothing has done its pages. *)
Lemma count_zero i h evs img todo half l :
  chan_ok i h evs img todo half l -> nh_active h + ff_items (nh_room h) = 0 -> todo = [].
Proof using Hw.
  intros Hk E. pose proof (active_bound _ _ _ _ _ _ _ Hk) as Ha. rewrite (fo_items _ _ (ck_room _ _ _ _ _ _ _ Hk)) in E.
  destruct l; [|cbn [length] in E; lia]. pose proof (ck_active _ _ _ _ _ _ _ Hk) as Hac.
  pose proof (ck_phase _ _ _ _ _ _ _ Hk) as Hp.
  inversion Hp as [? ? ? ? Hc|?|?|? ? ? ? ? Hwt]; subst; [|done|rewrite Hwt in Hac; lia].
  apply cmds_length in Hc. destruct todo; [done|]. cbn [length] in *. destruct half; lia.
Qed.

(** Without an event under way nothing is left to count. *)
Lemma quiet_counts w todo half i :
  ctrl_ok w todo half -> nc_events (nw_ctrl w) = [] -> nh_active (wchn i w) + ff_items (nh_room (wchn i w)) = 0.
Proof.
  intros [Hc He] Ev. destruct (Hc i) as (l & Hk & Hs). unfold engine_ok in He. rewrite Ev in *.
  assert (Hwt : nh_wait (wchn i w) = false).
  { destruct (nc_current (nw_ctrl w)); [|by apply He]. by destruct He as (_ & ? & _ & ?). }
  rewrite (ck_active _ _ _ _ _ _ _ Hk), (fo_items _ _ (ck_room _ _ _ _ _ _ _ Hk)), Hwt.
  destruct Hs as [Hs|[->|(a & l' & ci & c & -> & _ & Hci & Hb)]]; [congruence|done|].
  apply (ck_busy _ _ _ _ _ _ _ Hk _ _ Hci) in Hb. by apply not_elem_of_nil in Hb.
Qed.

Lemma fire_nth_none w n : nc_events (nw_ctrl w) !! n = None -> fire_nth g lt n w = Ok w.
Proof. unfold fire_nth. by intros ->. Qed.
End channel.

Lemma ctrl_ok_env g md c img ram img' ram' todo half :
  md = MProg \/ img' = img -> ctrl_ok g md (NWorld c img ram) todo half -> ctrl_ok g md (NWorld c img' ram') todo half.
Proof.
  intros Hm [Hc He]. split; [|done]. intros i. destruct (Hc i) as (l & Hk & Hs). exists l. split; [|done].
  destruct Hm as [->| ->]; [|done]. by apply (chan_ok_img _ _ _ _ _ img).
Qed.

(** Without pages to do the invariant is the same for reading and programming. *)
Lemma ctrl_ok_idle g md md' c img ram img' ram' :
  ctrl_ok g md (NWorld c img ram) (fun _ => []) (fun _ => None) -> ctrl_ok g md' (NWorld c img' ram') (fun _ => []) (fun _ => None).
Proof.
  intros [Hc He]. split; [|done]. intros i. destruct (Hc i) as (l & [Hr Hp ? ? ? ? ? ? ?] & Hs). exists l. split; [|done].
  split; try done. inversion Hp as [? ? ? Hn Hcm| | |]; subst. inversion Hcm; subst. apply ph_free; [done|apply cmds_nil].
Qed.

(** A controller that has just been made is idle. *)
Lemma new_ctrl_ok g junk md n0 n1 reg t img ram :
  geom_ok g -> ctrl_ok g md (NWorld (new_ctrl g junk n0 n1 reg t) img ram) (fun _ => []) (fun _ => None).
Proof.
  intros Hg. pose proof (geom_pos g Hg) as (_ & Hd & Hl & _). split; [|split; [done|by intros []]].
  intros i. exists []. split; [|by right; left].
  assert (E : exists n, wchn i (NWorld (new_ctrl g junk n0 n1 reg t) img ram) = new_channel g junk n reg) by (destruct i; by eexists).
  destruct E as (n & ->). split; cbn.
  - apply fifo_new_ok.
  - apply ph_free; [done|apply cmds_nil].
  - done.
  - done.
  - rewrite length_replicate. unfold num_chips. lia.
  - done.
  - intros ci c Hci. apply arr_get_Ok in Hci as [_ Hci]. apply lookup_replicate in Hci as [-> _]. cbn.
    split; [done|]. by intros ?%not_elem_of_nil.
  - apply NoDup_nil_2.
  - done.
Qed.

(** ** Limits of the device *)

(** The offset of a page is computed with 32 bits: from 4 GiB on pages share their
    bytes with others. *)
Lemma image_ofs_wraps g n : geom_ok g -> image_ofs g (n + 2 ^ (32 - nand_page_size g)) = image_ofs g n.
Proof.
  intros (_ & _ & _ & _ & _ & H9 & _). unfold image_ofs, page_size, NAND_PAGE_SIZE, u32. rewrite Z.shiftl_1_l.
  rewrite Z.mul_add_distr_r, <- Z.pow_add_r by lia. replace (32 - nand_page_size g + nand_page_size g) with 32 by lia.
  replace (2 ^ 32) with (1 * 2 ^ 32) at 1 by lia. by rewrite Z_mod_plus_full.
Qed.

Fixpoint push_commands (n : nat) (f : simple_fifo) : outcome simple_fifo :=
  match n with
  | O => Ok f
  | S n => let! f := push_commands n f in fifo_push (NcCommand (Z.of_nat n) None 0 0 0 false) f
  end.

(** The test for a full room misses the last place: the 1025th command goes where
    the first one waits. *)
Lemma fifo_overrun :
  exists f, push_commands 1025 fifo_new = Ok f /\ ff_items f = 1025
    /\ fifo_front f = Ok (Some (NcCommand 1024 None 0 0 0 false)).
Proof. eexists. split; [vm_compute; reflexivity|]. split; vm_compute; reflexivity. Qed.
