(* ===== verification/NandHw.v ===== *)
(** * Driving the flash controllers (firmware/low_level_nand_io.c 35-209)

    The firmware writes the commands of a batch to the registers of the channels
    and polls their operation counts.  The flash is a list of controllers of
    NandCtrl.v that share one image; completions fire between the accesses of the
    firmware as an oracle says, and at least one of those under way between two
    polls. *)

From Stdlib Require Import ZArith Lia Bool List.
From stdpp Require Import base tactics option list functions.
From S2P Require Import Prelude CTypes Queue MemUtil Geom NandIo Boot HostIf NandCtrl.

(** [nf_oracle t]: the events to fire at time [t], each a number that selects one
    of those under way. *)
Record nflash := NFlash {
  nf_geom : geom; nf_ltcy : nand_ltcy; nf_junk : Z; nf_ctrls : list nctrl; nf_image : mem;
  nf_oracle : nat -> list nat; nf_time : nat }.

Definition set_nf_ctrls v img f := NFlash (nf_geom f) (nf_ltcy f) (nf_junk f) v img (nf_oracle f) (nf_time f).
Definition tick f := NFlash (nf_geom f) (nf_ltcy f) (nf_junk f) (nf_ctrls f) (nf_image f) (nf_oracle f) (S (nf_time f)).

Section hardware.
Context `{DmaEngines}.

Definition flash_state : Type := nflash * mem.

(** One controller acts on the image and the memory. *)
Definition with_ctrl (k : Z) (op : nworld -> outcome nworld) (s : flash_state) : outcome flash_state :=
  let '(f, m) := s in
  let! c := arr_get (nf_ctrls f) k in
  let! w := op (NWorld c (nf_image f) m) in
  let! l := arr_set (nf_ctrls f) k (nw_ctrl w) in
  Ok (set_nf_ctrls l (nw_image w) f, nw_ram w).

(** ** Completions *)

(** The events under way: controller and position. *)
Definition ctrl_events (k : nat) (c : nctrl) : list (Z * nat) :=
  map (fun j => (Z.of_nat k, j)) (seq 0 (length (nc_events c))).
Definition under_way (f : nflash) : list (Z * nat) := concat (imap ctrl_events (nf_ctrls f)).

Definition fire_one (n : nat) (s : flash_state) : outcome flash_state :=
  let l := under_way (fst s) in
  match l !! (n mod length l)%nat with
  | Some (k, j) => with_ctrl k (fire_nth (nf_geom (fst s)) (nf_ltcy (fst s)) j) s
  | None => Ok s
  end.

Fixpoint fire_all (l : list nat) (s : flash_state) : outcome flash_state :=
  match l with
  | [] => Ok s
  | n :: l => let! s := fire_one n s in fire_all l s
  end.

Definition advance (least : list nat) (s : flash_state) : outcome flash_state :=
  let '(f, m) := s in
  let l := nf_oracle f (nf_time f) in
  fire_all (if (length l =? 0)%nat then least else l) (tick f, m).

(** ** Registers on the bus *)

Definition NAND_CTRL_REG_SIZE : Z := 0x1000.

(** The controller and the offset behind an address. *)
Definition bus_route (addr : Z) : Z * Z :=
  let d := addr - get_dev_address DEV_NAND_CTRL in (d / NAND_CTRL_REG_SIZE, d mod NAND_CTRL_REG_SIZE).

(** A store or a load of the firmware; other things may happen before it. *)
Definition bus_write (addr data : Z) (s : flash_state) : outcome flash_state :=
  let! s := advance [] s in
  let '(k, offset) := bus_route addr in
  with_ctrl k (nc_write (nf_geom (fst s)) (nf_ltcy (fst s)) (nf_junk (fst s)) offset (u32 data)) s.

Definition bus_read (addr : Z) (s : flash_state) : outcome (Z * flash_state) :=
  let! s := advance [] s in
  let '(k, offset) := bus_route addr in
  let! c := arr_get (nf_ctrls (fst s)) k in
  Ok (nc_read (nf_junk (fst s)) offset c, s).

(** ** The driver *)

Definition NUM_NAND_CTRLS (g : geom) : Z := NUM_CHANNELS g / 2.

(** [chn_bass_addr], from [init_nand_io_module] *)
Definition chn_bass_addr (g : geom) : list Z :=
  flat_map (fun ictrl => let c := get_dev_address DEV_NAND_CTRL + Z.of_nat ictrl * NAND_CTRL_REG_SIZE in
                         [c + CHANNEL_0_BASE_ADDR; c + CHANNEL_1_BASE_ADDR])
    (seq 0 (Z.to_nat (NUM_NAND_CTRLS g))).

(** [addr_cycle.addr.addr_1] after the two shorts were stored *)
Definition addr_cycle_of (p : ppa) : Z :=
  field address_cycle_addr 0 (set_field address_cycle_shorts 1 (block p) (set_field address_cycle_shorts 0 (page p) 0)).

(** The body of the loops: the two phases of one page. *)
Definition issue_page (g : geom) (nand_op dma_op : Z) (p : op_page) (s : flash_state) : outcome flash_state :=
  let ppa := pg_ppa p in
  let! base_addr := arr_get (chn_bass_addr g) (chn ppa) in
  let chip_index := u32 (die ppa * PLANES_PER_DIE g + plane ppa) in
  let! s := bus_write (base_addr + CHIP_SELECT_REG) chip_index s in
  let! s := bus_write (base_addr + ADDRESS_CYCLE_REG_1) (addr_cycle_of ppa) s in
  let! s := bus_write (base_addr + ADDRESS_CYCLE_REG_2) 0 s in
  let! s := bus_write (base_addr + CMD_PHASE_CMD_REG) nand_op s in
  let! s := bus_write (base_addr + CHIP_SELECT_REG) chip_index s in
  let! s := bus_write (base_addr + DMA_RAM_PTR) (pg_ssd_addr p) s in
  bus_write (base_addr + DMA_PHASE_CMD_REG) dma_op s.

Fixpoint issue_pages (g : geom) (nand_op dma_op : Z) (n : nat) (ix : Z) (op : op_t) (s : flash_state)
  : outcome flash_state :=
  match n with
  | O => Ok s
  | S n =>
      let! p := arr_get (op_pages op) ix in
      let! s := issue_page g nand_op dma_op p s in
      issue_pages g nand_op dma_op n (ix + 1) op s
  end.

(** [for (ichn = chn_start; ichn <= chn_end; ichn++) cmdStatus += ...] *)
Fixpoint sum_counts (addrs : list Z) (cmdStatus : Z) (s : flash_state) : outcome (Z * flash_state) :=
  match addrs with
  | [] => Ok (cmdStatus, s)
  | a :: addrs =>
      let! '(v, s) := bus_read (a + ACTIVE_OPERATION_COUNT) s in
      sum_counts addrs (u32 (cmdStatus + v)) s
  end.

Fixpoint poll_counts (fuel : nat) (g : geom) (s : flash_state) : outcome flash_state :=
  match fuel with
  | O => Fault FFuel
  | S fuel =>
      let! '(cmdStatus, s) := sum_counts (chn_bass_addr g) 0 s in
      if cmdStatus =? 0 then Ok s
      else
        let! s := advance [O] s in
        poll_counts fuel g s
  end.

(** Every page is two commands, and every command is worth at most four events. *)
Definition poll_fuel (op : op_t) : nat := S (8 * Z.to_nat (op_nop op)).

Definition hw_transfer (nand_op dma_op : Z) (g : geom) (op : op_t) (f : nflash) (m : mem) : outcome (nflash * mem) :=
  if op_nop op =? 0 then Ok (f, m)
  else
    let! s := issue_pages g nand_op dma_op (Z.to_nat (op_nop op)) 0 op (f, m) in
    poll_counts (poll_fuel op) g s.

Definition hw_do_sync_flash_read : geom -> op_t -> nflash -> mem -> outcome (nflash * mem) :=
  hw_transfer READ_NAND WRITE_DMA.
Definition hw_do_sync_flash_program : geom -> op_t -> nflash -> mem -> outcome (nflash * mem) :=
  hw_transfer PROGRAM_NAND READ_DMA.

(** [initialize_nand_ctrl]: every controller is told to initialise and answers at
    once. *)
Fixpoint initialize_nand_ctrl (n : nat) (ictrl : Z) (s : flash_state) : outcome flash_state :=
  match n with
  | O => Ok s
  | S n =>
      let base := get_dev_address DEV_NAND_CTRL + ictrl * NAND_CTRL_REG_SIZE in
      let! s := bus_write base INIT_NAND_CTRL s in
      let! '(cmdStatus, s) := bus_read (base + 4) s in
      if cmdStatus =? COMPLETE then initialize_nand_ctrl n (ictrl + 1) s else Fault FFuel
  end.

(** [shutdown_nand_io_driver]: only the first controller is told. *)
Definition shutdown_nand_io_driver (s : flash_state) : outcome flash_state :=
  let base := get_dev_address DEV_NAND_CTRL in
  let! s := bus_write base NAND_CTRL_SHUTDOWN s in
  let! '(cmdStatus, s) := bus_read (base + 4) s in
  if cmdStatus =? COMPLETE then Ok s else Fault FFuel.

End hardware.

(** ** The controllers of a platform (SSD_hw_platforms/gem5/issd_fs_mcore.py)

    One controller for two channels, the channels numbered in order.  [reg] and
    [toggle] are what their memory holds. *)
Definition new_ctrls (g : geom) (junk : Z) (reg : mem) (toggle : bool) : list nctrl :=
  map (fun k => new_ctrl g junk (2 * Z.of_nat k) (2 * Z.of_nat k + 1) reg toggle) (seq 0 (Z.to_nat (NUM_NAND_CTRLS g))).
