(* ===== verification/NandBatch.v ===== *)
(** * A batch on the flash controllers

    The driver of NandHw.v executes a batch on the controllers of NandCtrl.v for
    every schedule of the completions: the invariant of all controllers and of the
    data they move, its preservation by the driver's register accesses, and the end
    of the polling. *)

From Stdlib Require Import ZArith Lia Bool List.
From stdpp Require Import base tactics option list functions.
From S2P Require Import Prelude CTypes Queue MemUtil Geom NandIo Boot HostIf NandCtrl NandInv NandHw.

(** ** The data a batch moves *)

Section moves.
Context (g : geom) (md : batch_mode).

(** A read goes from the image to the memory, a program operation the other way. *)
Definition page_dst (x : op_page) : Z := match md with MRead => pg_ssd_addr x | MProg => key_ofs g (key_of (pg_ppa x)) end.
Definition page_src (x : op_page) : Z := match md with MRead => key_ofs g (key_of (pg_ppa x)) | MProg => pg_ssd_addr x end.
Definition covers (x : op_page) (a : Z) : bool := in_range (NAND_PAGE_SIZE g) (a - page_dst x).

Definition move (src : mem) (x : op_page) (cur : mem) : mem :=
  copy_bytes (NAND_PAGE_SIZE g) cur (page_dst x) src (page_src x).
Definition moves (src : mem) (l : list op_page) (cur : mem) : mem := fold_left (fun c x => move src x c) l cur.

Lemma moves_local src l c c' a : c a = c' a -> moves src l c a = moves src l c' a.
Proof.
  revert c c'. induction l as [|x l IH]; intros c c' E; [done|]. cbn [moves fold_left]. apply IH.
  unfold move, copy_bytes. by destruct (in_range _ _).
Qed.

Lemma move_out src x c a : covers x a = false -> move src x c a = c a.
Proof. unfold covers, move, copy_bytes. by intros ->. Qed.

Lemma moves_app src l l' c : moves src (l ++ l') c = moves src l' (moves src l c).
Proof. unfold moves. by rewrite fold_left_app. Qed.

Lemma moves_out src l c a : (forall x, In x l -> covers x a = false) -> moves src l c a = c a.
Proof.
  revert c. induction l as [|x l IH]; intros c Hl; [done|]. cbn [moves fold_left].
  transitivity (move src x c a); [apply IH; intros y Hy; apply Hl; by right|]. apply move_out, Hl. by left.
Qed.

Definition target_of (f : nflash) (m : mem) : mem := match md with MRead => m | MProg => nf_image f end.
Definition source_of (f : nflash) (m : mem) : mem := match md with MRead => nf_image f | MProg => m end.

(** Pages of different channels go to different places. *)
Definition apart (l : list op_page) : Prop :=
  forall x y a, In x l -> In y l -> covers x a = true -> covers y a = true -> chn (pg_ppa x) = chn (pg_ppa y).
End moves.

(** ** The channels on the bus *)

Definition sel_of (n : Z) : sel := if n mod 2 =? 0 then Ch0 else Ch1.
Definition sel_ix (i : sel) : Z := match i with Ch0 => 0 | Ch1 => 1 end.
Definition chn_no (k : nat) (i : sel) : Z := 2 * Z.of_nat k + sel_ix i.
Definition ctrl_no (n : Z) : nat := Z.to_nat (n / 2).
Definition chn_ofs (i : sel) : Z := match i with Ch0 => CHANNEL_0_BASE_ADDR | Ch1 => CHANNEL_1_BASE_ADDR end.
Definition chn_base (n : Z) : Z := get_dev_address DEV_NAND_CTRL + (n / 2) * NAND_CTRL_REG_SIZE + chn_ofs (sel_of n).

Lemma chn_no_split n : 0 <= n -> chn_no (ctrl_no n) (sel_of n) = n.
Proof.
  intros Hn. unfold chn_no, ctrl_no, sel_of, sel_ix. pose proof (Z.div_mod n 2). pose proof (Z.mod_pos_bound n 2).
  assert (0 <= n / 2) by (apply Z.div_pos; lia). destruct (Z.eqb_spec (n mod 2) 0); lia.
Qed.

Lemma chn_no_inj k k' i i' : chn_no k i = chn_no k' i' -> k = k' /\ i = i'.
Proof. unfold chn_no, sel_ix. destruct i, i'; intros; split; (done || lia). Qed.

Lemma bass_addr_get m s k i :
  (k < m)%nat ->
  arr_get (flat_map (fun ictrl => let c := get_dev_address DEV_NAND_CTRL + Z.of_nat ictrl * NAND_CTRL_REG_SIZE in
                         [c + CHANNEL_0_BASE_ADDR; c + CHANNEL_1_BASE_ADDR]) (seq s m)) (chn_no k i)
  = Ok (get_dev_address DEV_NAND_CTRL + Z.of_nat (s + k) * NAND_CTRL_REG_SIZE + chn_ofs i).
Proof.
  revert s k. induction m as [|m IH]; intros s k Hk; [lia|]. cbn [seq flat_map]. destruct k as [|k].
  - rewrite Nat.add_0_r. apply arr_get_Ok. by destruct i.
  - specialize (IH (S s) k ltac:(lia)). replace (S s + k)%nat with (s + S k)%nat in IH by lia.
    apply arr_get_Ok in IH as [_ IH]. apply arr_get_Ok. unfold chn_no in *.
    split; [destruct i; cbn; lia|]. rewrite <- IH.
    by replace (Z.to_nat (2 * Z.of_nat (S k) + sel_ix i)) with (S (S (Z.to_nat (2 * Z.of_nat k + sel_ix i)))) by (destruct i; cbn; lia).
Qed.

Lemma chn_base_get g n :
  geom_ok g -> hw_ok g -> 0 <= n < NUM_CHANNELS g -> arr_get (chn_bass_addr g) n = Ok (chn_base n).
Proof.
  intros Hg (He & _) Hn. rewrite <- (chn_no_split n) at 1 by lia.
  assert (Hk : (ctrl_no n < Z.to_nat (NUM_NAND_CTRLS g))%nat).
  { unfold ctrl_no, NUM_NAND_CTRLS. pose proof (Z.div_le_mono n (NUM_CHANNELS g - 1) 2).
    assert (n / 2 < NUM_CHANNELS g / 2); [|lia]. apply Z.div_lt_upper_bound; lia. }
  assert (Hb : chn_base n = get_dev_address DEV_NAND_CTRL + Z.of_nat (ctrl_no n) * NAND_CTRL_REG_SIZE + chn_ofs (sel_of n)).
  { unfold chn_base, ctrl_no. rewrite Z2Nat.id by (apply Z.div_pos; lia). done. }
  rewrite Hb. unfold chn_bass_addr. by apply (bass_addr_get _ 0).
Qed.

Lemma bus_route_chn n off :
  0 <= n -> 0 <= off < 64 -> bus_route (chn_base n + off) = (n / 2, chn_ofs (sel_of n) + off).
Proof.
  intros Hn Ho. unfold bus_route, chn_base, NAND_CTRL_REG_SIZE.
  assert (0 <= chn_ofs (sel_of n) <= 2048) by (unfold chn_ofs; destruct (sel_of n); vm_compute; split; congruence).
  f_equal; [symmetry; apply (Z.div_unique _ _ _ (chn_ofs (sel_of n) + off)); lia|].
  symmetry; apply (Z.mod_unique _ _ (n / 2)); lia.
Qed.

Lemma decode_chn i off : 0 <= off < 64 -> decode_offset (chn_ofs i + off) = Some (i, off).
Proof.
  intros Ho. unfold decode_offset, chn_ofs, CHANNEL_0_BASE_ADDR, CHANNEL_1_BASE_ADDR.
  destruct i; zb; do 2 f_equal; lia.
Qed.

(** ** The invariant *)

Definition ctrl_weight (c : nctrl) : nat := total_weight (NWorld c (fun _ => 0) (fun _ => 0)).
Definition flash_weight (s : flash_state) : nat := sum_list (map ctrl_weight (nf_ctrls (fst s))).

(** The share of channel [n] *)
Definition chn_weight (n : Z) (s : flash_state) : nat :=
  match nf_ctrls (fst s) !! ctrl_no n with
  | Some c => chan_weight (sel_of n) (NWorld c (fun _ => 0) (fun _ => 0))
  | None => O
  end.

Lemma sum_list_insert (l : list nat) k x y :
  l !! k = Some x -> (sum_list (<[k := y]> l) + x = sum_list l + y)%nat.
Proof.
  revert k. induction l as [|z l IH]; intros k Hk; [done|]. destruct k as [|k]; cbn in Hk |- *.
  - injection Hk as ->. lia.
  - specialize (IH k Hk). change (insert k y l) with (<[k := y]> l). lia.
Qed.

Lemma sum_list_elem (l : list nat) k x : l !! k = Some x -> (x <= sum_list l)%nat.
Proof. intros Hk. pose proof (sum_list_insert l k x O Hk). lia. Qed.

(** The command under construction on a channel *)
Definition cmd_of (n : Z) (s : flash_state) : option nc_command :=
  (fun c => nh_new_cmd (get_chn (sel_of n) c)) <$> nf_ctrls (fst s) !! ctrl_no n.

Section batch.
Context `{DmaEngines} (g : geom) (Hg : geom_ok g) (Hw : hw_ok g) (md : batch_mode).

Abbreviation NC := (NUM_CHANNELS g) (only parsing).

(** The controllers, with what each channel has to do. *)
Record flash_ok (s : flash_state) (todo : Z -> list op_page) (half : Z -> option op_page) : Prop := {
  fk_geom : nf_geom (fst s) = g;
  fk_length : Z.of_nat (length (nf_ctrls (fst s))) = NUM_NAND_CTRLS g;
  fk_ctrl : forall k c, nf_ctrls (fst s) !! k = Some c ->
    ctrl_ok g md (NWorld c (nf_image (fst s)) (snd s)) (fun i => todo (chn_no k i)) (fun i => half (chn_no k i))
    /\ forall i, nh_index (get_chn i c) = chn_no k i }.

(** Of the pages [L] of a batch, begun in [s0], those in [sent] were sent: what is
    still to do makes of the data what all of them would have made. *)
Record batch_ok (L : list op_page) (s0 : flash_state) (sent : list op_page) (s : flash_state)
    (todo : Z -> list op_page) (half : Z -> option op_page) : Prop := {
  bo_flash : flash_ok s todo half;
  bo_source : source_of md (fst s) (snd s) = source_of md (fst s0) (snd s0);
  bo_todo : forall n x, In x (todo n) -> In x L;
  bo_length : forall n, (length (todo n) <= length sent)%nat;
  bo_data : forall n a, (forall y, In y L -> covers g md y a = true -> chn (pg_ppa y) = n) ->
    moves g md (source_of md (fst s0) (snd s0)) (todo n) (target_of md (fst s) (snd s)) a
    = moves g md (source_of md (fst s0) (snd s0)) sent (target_of md (fst s0) (snd s0)) a }.

Lemma flash_ok_ext s todo half todo' half' :
  (forall n, todo' n = todo n) -> (forall n, half' n = half n) -> flash_ok s todo half -> flash_ok s todo' half'.
Proof.
  intros Et Eh [? ? Hc]. split; [done|done|]. intros k c Hk. destruct (Hc k c Hk) as (Hok & Hi). split; [|done].
  revert Hok. by apply ctrl_ok_ext.
Qed.

(** One controller has taken a step of channel [n]. *)
Lemma flash_ok_step s todo half n c w' t h :
  flash_ok s todo half -> 0 <= n -> nf_ctrls (fst s) !! ctrl_no n = Some c ->
  ctrl_ok g md w' (fun j => if decide (j = sel_of n) then t else todo (chn_no (ctrl_no n) j))
    (fun j => if decide (j = sel_of n) then h else half (chn_no (ctrl_no n) j)) ->
  (forall j, nh_index (wchn j w') = nh_index (get_chn j c)) -> (md = MProg \/ nw_image w' = nf_image (fst s)) ->
  flash_ok (set_nf_ctrls (<[ctrl_no n := nw_ctrl w']> (nf_ctrls (fst s))) (nw_image w') (fst s), nw_ram w')
    (<[n := t]> todo) (<[n := h]> half).
Proof.
  intros [Hge Hlen Hctrl] Hn Hc Hok Hix Him. split; cbn [fst snd set_nf_ctrls nf_geom nf_ctrls nf_image]; [done|by rewrite length_insert|].
  intros k c1 Hk. pose proof (chn_no_split n Hn) as En. destruct (decide (k = ctrl_no n)) as [->|Hne].
  - rewrite list_lookup_insert_eq in Hk by (by apply lookup_lt_Some in Hc). injection Hk as <-.
    destruct (Hctrl _ c Hc) as (_ & Hi). split; [|intros i; etransitivity; [apply (Hix i)|apply Hi]].
    destruct w' as [c' img' ram']. cbn [nw_ctrl nw_image nw_ram] in *. revert Hok. apply ctrl_ok_ext; intros i; cbn beta.
    + destruct (decide (i = sel_of n)) as [->|Hne]; [by rewrite En, fn_lookup_insert|]. rewrite fn_lookup_insert_ne; [done|].
      rewrite <- En at 1. by intros [_ ?]%chn_no_inj.
    + destruct (decide (i = sel_of n)) as [->|Hne]; [by rewrite En, fn_lookup_insert|]. rewrite fn_lookup_insert_ne; [done|].
      rewrite <- En at 1. by intros [_ ?]%chn_no_inj.
  - rewrite list_lookup_insert_ne in Hk by done. destruct (Hctrl k c1 Hk) as (Hok1 & Hi). split; [|done].
    apply (ctrl_ok_env _ _ _ (nf_image (fst s)) (snd s)); [done|]. revert Hok1.
    apply ctrl_ok_ext; intros i; (rewrite fn_lookup_insert_ne; [done|]); rewrite <- En at 1; by intros [? _]%chn_no_inj.
Qed.

Lemma with_ctrl_step n op s c w' :
  0 <= n -> nf_ctrls (fst s) !! ctrl_no n = Some c -> op (NWorld c (nf_image (fst s)) (snd s)) = Ok w' ->
  with_ctrl (n / 2) op s
    = Ok (set_nf_ctrls (<[ctrl_no n := nw_ctrl w']> (nf_ctrls (fst s))) (nw_image w') (fst s), nw_ram w').
Proof.
  intros Hn Hc E. destruct s as [f m]. cbn [fst snd] in *. pose proof (Z.div_pos n 2 Hn) as Hp.
  pose proof (lookup_lt_Some _ _ _ Hc) as Hl. unfold ctrl_no in *. unfold with_ctrl.
  rewrite (proj2 (arr_get_Ok _ _ c)) by (split; [lia|done]). cbn [obind]. rewrite E. cbn [obind].
  by rewrite arr_set_Ok by lia.
Qed.

Lemma weight_step s k c w' img ram :
  nf_ctrls (fst s) !! k = Some c ->
  (flash_weight (set_nf_ctrls (<[k := nw_ctrl w']> (nf_ctrls (fst s))) img (fst s), ram) + ctrl_weight c
   = flash_weight s + total_weight w')%nat.
Proof.
  intros Hc. unfold flash_weight. cbn [fst set_nf_ctrls nf_ctrls]. rewrite list_fmap_insert.
  apply (sum_list_insert _ k (ctrl_weight c)). by rewrite list_lookup_fmap, Hc.
Qed.

(** ** Completions *)

(** What may happen between two accesses: [wt'] tells whether anything did. *)
Record passed (s s' : flash_state) (todo todo' : Z -> list op_page) : Prop := {
  ps_shrinks : forall n, (length (todo' n) <= length (todo n))%nat;
  ps_cmds : forall n, cmd_of n s' = cmd_of n s;
  ps_chn : forall n, (chn_weight n s' <= chn_weight n s)%nat;
  ps_weight : (flash_weight s' < flash_weight s)%nat \/ nf_ctrls (fst s') = nf_ctrls (fst s) }.

Lemma passed_refl s s' todo : nf_ctrls (fst s') = nf_ctrls (fst s) -> passed s s' todo todo.
Proof. intros E. split; [done|unfold cmd_of; by rewrite E|unfold chn_weight; by rewrite E|by right]. Qed.

Lemma weight_same s s' : nf_ctrls (fst s') = nf_ctrls (fst s) -> flash_weight s' = flash_weight s.
Proof. unfold flash_weight. by intros ->. Qed.

Lemma passed_weight s s' todo todo' : passed s s' todo todo' -> (flash_weight s' <= flash_weight s)%nat.
Proof. intros [_ _ _ [?|E]]; [lia|]. by rewrite (weight_same _ _ E). Qed.

Lemma passed_trans s1 s2 s3 t1 t2 t3 : passed s1 s2 t1 t2 -> passed s2 s3 t2 t3 -> passed s1 s3 t1 t3.
Proof.
  intros P1 P2. pose proof (passed_weight _ _ _ _ P1). pose proof (passed_weight _ _ _ _ P2).
  destruct P1 as [A1 B1 D1 C1], P2 as [A2 B2 D2 C2]. split.
  - intros n. specialize (A1 n). specialize (A2 n). lia.
  - intros n. by rewrite B2.
  - intros n. specialize (D1 n). specialize (D2 n). lia.
  - destruct C1 as [?|E1]; [left; lia|]. destruct C2 as [?|E2]; [left; lia|]. right. by rewrite E2.
Qed.

Lemma under_way_elem f k j : (k, j) ∈ under_way f -> exists c, 0 <= k /\ nf_ctrls f !! Z.to_nat k = Some c /\ (j < length (nc_events c))%nat.
Proof.
  unfold under_way. intros (l & Hl & Hi)%list_elem_of_In%in_concat. apply list_elem_of_In, elem_of_lookup_imap in Hl as (k' & c & -> & Hc).
  unfold ctrl_events in Hi. apply in_map_iff in Hi as (j' & E & Hj). injection E as <- <-. apply in_seq in Hj.
  exists c. rewrite Nat2Z.id. split; [lia|]. split; [done|lia].
Qed.

Lemma under_way_nil f : under_way f = [] -> forall k c, nf_ctrls f !! k = Some c -> nc_events c = [].
Proof.
  intros E k c Hc. destruct (nc_events c) as [|e l] eqn:Ee; [done|].
  assert (Hin : In (Z.of_nat k, O) (under_way f)); [|by rewrite E in Hin].
  unfold under_way. apply in_concat. exists (ctrl_events k c). split.
  - apply list_elem_of_In, elem_of_lookup_imap. by exists k, c.
  - unfold ctrl_events. rewrite Ee. apply in_map_iff. exists O. split; [done|]. apply in_seq. cbn [length]. lia.
Qed.

Lemma chn_no_parts k i : ctrl_no (chn_no k i) = k /\ sel_of (chn_no k i) = i /\ 0 <= chn_no k i.
Proof.
  unfold ctrl_no, sel_of, chn_no. assert (Hi : 0 <= sel_ix i < 2) by (destruct i; cbn; lia).
  rewrite <- (Z.div_unique (2 * Z.of_nat k + sel_ix i) 2 (Z.of_nat k) (sel_ix i)) by lia.
  rewrite <- (Z.mod_unique (2 * Z.of_nat k + sel_ix i) 2 (Z.of_nat k) (sel_ix i)) by lia.
  split; [lia|]. split; [by destruct i|lia].
Qed.

(** Either kind of event, seen from the data. *)
Lemma fire_nth_ok lt w todo half j e :
  ctrl_ok g md w todo half -> nc_events (nw_ctrl w) !! j = Some e ->
  exists w' i t, fire_nth g lt j w = Ok w'
    /\ ctrl_ok g md w' (fun j => if decide (j = i) then t else todo j) (fun j => if decide (j = i) then half i else half j) /\ keeps w w' /\ lighter w w' /\ (md = MProg \/ nw_image w' = nw_image w) /\
    ((t = todo i /\ nw_image w' = nw_image w /\ nw_ram w' = nw_ram w) \/
     exists x, todo i = x :: t /\ chn (pg_ppa x) = nh_index (wchn i w) /\
       match md with
       | MRead => nw_image w' = nw_image w /\ forall a, nw_ram w' a = move g md (nw_image w) x (nw_ram w) a
       | MProg => nw_ram w' = nw_ram w /\ forall a, nw_image w' a = move g md (nw_ram w) x (nw_image w) a
       end).
Proof using Hg Hw.
  intros Hok He. destruct e as [rd ra i ci|i ci tk].
  - destruct (fire_dma g Hg Hw lt md w todo half j rd ra i ci Hok He) as (x & t & w' & Et & E & Hok' & Hd & Hwt & Hkp).
    exists w', i, t. split_and!; try done.
    + revert Hok'. apply ctrl_ok_ext; [done|]. intros j'. by destruct (decide (j' = i)) as [->|].
    + destruct md; [right; apply Hd|by left].
    + right. exists x. split; [done|]. split.
      { destruct (cc_chan _ _ _ _ _ Hok i) as (l & Hk & _). pose proof (ck_pages _ _ _ _ _ _ _ _ _ Hk) as Hp.
        rewrite Et in Hp. inversion Hp as [|? ? [] _]. done. }
      unfold move, page_dst, page_src. destruct md; exact Hd.
  - destruct (fire_chip g Hg Hw lt md w todo half j i ci tk Hok He) as (w' & E & Hok' & Hi & Hr & Hwt & Hkp).
    exists w', i, (todo i). split_and!; try done; [|by right|by left]. revert Hok'.
    apply ctrl_ok_ext; intros j'; by destruct (decide (j' = i)) as [->|].
Qed.

Lemma insert_same {A} (f : Z -> A) n m : (<[n := f n]> f) m = f m.
Proof. destruct (decide (n = m)) as [->|Hne]; [by rewrite fn_lookup_insert|by rewrite fn_lookup_insert_ne]. Qed.

Lemma fire_one_ok L s0 sent s todo half n :
  batch_ok L s0 sent s todo half ->
  exists s' todo', fire_one n s = Ok s' /\ batch_ok L s0 sent s' todo' half /\ passed s s' todo todo'
    /\ (under_way (fst s) <> [] -> (flash_weight s' < flash_weight s)%nat).
Proof using Hg Hw.
  intros Hok. unfold fire_one. set (l := under_way (fst s)). destruct (l !! (n mod length l)%nat) as [[k j]|] eqn:El.
  2: { exists s, todo. split; [done|]. split; [done|]. split; [by apply passed_refl|]. intros Hne.
       apply lookup_ge_None in El. pose proof (Nat.mod_upper_bound n (length l)) as Hb. destruct l; [done|]. cbn [length] in *. lia. }
  apply list_elem_of_lookup_2, under_way_elem in El as (c & Hk0 & Hc & Hj).
  destruct Hok as [Hf Hsrc Htodo Hlen Hdata]. pose proof Hf as [Hge _ Hctrl].
  destruct (Hctrl _ c Hc) as (Hcok & Hix). apply lookup_lt_is_Some_2 in Hj as (e & He).
  set (k' := Z.to_nat k) in *. 
  destruct (fire_nth_ok (nf_ltcy (fst s)) (NWorld c (nf_image (fst s)) (snd s)) _ _ j e Hcok He)
    as (w' & i & t & E & Hcok' & Hkp & (Hwt & Hwc) & Him & Hd).
  cbn [nw_image nw_ram nw_ctrl] in *. destruct (chn_no_parts k' i) as (Ek & Ei & Hn).
  set (n0 := chn_no k' i) in *.
  pose proof (flash_ok_step s todo half n0 c w' t (half n0) Hf Hn) as Hstep. rewrite Ek, Ei in Hstep.
  specialize (Hstep Hc Hcok' (fun j => proj2 (Hkp j)) Him).
  pose proof (with_ctrl_step n0 (fire_nth g (nf_ltcy (fst s)) j) s c w' Hn) as Ew. rewrite Ek in Ew. specialize (Ew Hc E).
  assert (Ekn : n0 / 2 = k). { unfold ctrl_no in Ek. pose proof (Z.div_pos n0 2 Hn). lia. }
  rewrite Ekn in Ew. rewrite <- Hge in Ew at 1. rewrite Ew.
  pose proof (weight_step s k' c w' (nw_image w') (nw_ram w') Hc) as Hws.
  change (total_weight (NWorld c (nf_image (fst s)) (snd s))) with (ctrl_weight c) in Hwt.
  set (s' := (set_nf_ctrls _ _ _, _)) in *. exists s', (<[n0 := t]> todo). split; [done|].
  assert (Hlt : (flash_weight s' < flash_weight s)%nat) by lia.
  assert (Hsh : forall m, (length ((<[n0 := t]> todo) m) <= length (todo m))%nat).
  { intros m. destruct (decide (n0 = m)) as [<-|Hne]; [rewrite fn_lookup_insert|by rewrite fn_lookup_insert_ne].
    destruct Hd as [(-> & _)|(x & -> & _)]; cbn [length]; lia. }
  split; [|split; [|done]].
  - split.
    + revert Hstep. apply flash_ok_ext; [done|]. intros m. by rewrite insert_same.
    + rewrite <- Hsrc. unfold source_of. cbn [s' fst snd set_nf_ctrls nf_image].
      destruct Hd as [(_ & Ei' & Er')|(x & _ & _ & Hd)]; destruct md; try done; apply Hd.
    + intros m y. destruct (decide (n0 = m)) as [<-|Hne]; [rewrite fn_lookup_insert|rewrite fn_lookup_insert_ne by done; apply Htodo].
      intros Hy. apply (Htodo n0). destruct Hd as [(-> & _)|(x & -> & _)]; [done|by right].
    + intros m. eapply Nat.le_trans; [apply Hsh|apply Hlen].
    + intros m a Hown. rewrite <- (Hdata m a Hown). destruct Hd as [(-> & Ei' & Er')|(x & Et & Ech & Hd)].
      { rewrite insert_same. cbn [s' fst snd]. by unfold target_of; cbn [set_nf_ctrls nf_image]; rewrite Ei', Er'. }
      assert (Hmv : target_of md (fst s') (snd s') a = move g md (source_of md (fst s0) (snd s0)) x (target_of md (fst s) (snd s)) a).
      { rewrite <- Hsrc. unfold target_of, source_of. cbn [s' fst snd set_nf_ctrls nf_image]. destruct md; apply Hd. }
      destruct (decide (n0 = m)) as [<-|Hne].
      * rewrite fn_lookup_insert, Et. cbn [moves fold_left]. by apply moves_local.
      * rewrite fn_lookup_insert_ne by done. apply moves_local. rewrite Hmv. apply move_out.
        destruct (covers g md x a) eqn:Ecv; [|done]. exfalso. apply Hne. transitivity (chn (pg_ppa x)); [etransitivity; [symmetry; apply (Hix i)|symmetry; exact Ech]|]. apply (Hown x); [|done]. apply (Htodo n0). rewrite Et. by left.
  - split; [done| | |by left].
    2: { intros m. unfold chn_weight. cbn [s' fst set_nf_ctrls nf_ctrls]. destruct (decide (k' = ctrl_no m)) as [<-|Hne];
         [rewrite list_lookup_insert_eq by (by apply lookup_lt_Some in Hc); rewrite Hc; apply (Hwc (sel_of m))|by rewrite list_lookup_insert_ne]. }
    intros m. unfold cmd_of. cbn [s' fst set_nf_ctrls nf_ctrls].
    destruct (decide (k' = ctrl_no m)) as [<-|Hne]; [|by rewrite list_lookup_insert_ne].
    rewrite list_lookup_insert_eq by (by apply lookup_lt_Some in Hc). rewrite Hc. cbn. f_equal. apply (Hkp (sel_of m)).
Qed.

Lemma fire_all_ok L s0 sent l s todo half :
  batch_ok L s0 sent s todo half ->
  exists s' todo', fire_all l s = Ok s' /\ batch_ok L s0 sent s' todo' half /\ passed s s' todo todo'
    /\ (l <> [] -> under_way (fst s) <> [] -> (flash_weight s' < flash_weight s)%nat).
Proof using Hg Hw.
  revert s todo. induction l as [|n l IH]; intros s todo Hok.
  { exists s, todo. split; [done|]. split; [done|]. split; [by apply passed_refl|done]. }
  destruct (fire_one_ok L s0 sent s todo half n Hok) as (s1 & t1 & E1 & Hok1 & P1 & W1).
  destruct (IH s1 t1 Hok1) as (s2 & t2 & E2 & Hok2 & P2 & _). exists s2, t2. cbn [fire_all]. rewrite E1. cbn [obind].
  split; [done|]. split; [done|]. split; [by eapply passed_trans|]. intros _ Hu. pose proof (passed_weight _ _ _ _ P2).
  specialize (W1 Hu). lia.
Qed.

Lemma batch_tick L s0 sent f m todo half :
  batch_ok L s0 sent (f, m) todo half -> batch_ok L s0 sent (tick f, m) todo half.
Proof. intros [[Hge Hlen Hc] ? ? ? ?]. split; [split|..]; done. Qed.

(** Time passes: whatever the schedule, the batch goes on. *)
Lemma advance_ok L s0 sent least s todo half :
  batch_ok L s0 sent s todo half ->
  exists s' todo', advance least s = Ok s' /\ batch_ok L s0 sent s' todo' half /\ passed s s' todo todo'
    /\ (least <> [] -> under_way (fst s) <> [] -> (flash_weight s' < flash_weight s)%nat).
Proof using Hg Hw.
  destruct s as [f m]. intros Hok%batch_tick. unfold advance. set (l := if (_ =? 0)%nat then _ else _).
  destruct (fire_all_ok L s0 sent l (tick f, m) todo half Hok) as (s' & t' & E & Hok' & P & W).
  exists s', t'. split; [done|]. split; [done|]. split; [by destruct P|]. intros Hl Hu. apply W; [|done].
  unfold l. destruct (Nat.eqb_spec (length (nf_oracle f (nf_time f))) 0) as [|Hne]; [done|]. by destruct (nf_oracle f (nf_time f)).
Qed.

(** ** Register accesses *)

(** A command on the way to channel [n] changes what that channel has to do. *)
Lemma write_chn_ok L s0 sent s todo half n off data (P : nc_command -> Prop) (Q : nc_command -> Prop)
    (sent' : list op_page) (add : list op_page) (h : option op_page) (cost : nat) :
  batch_ok L s0 sent s todo half -> 0 <= n < NC -> 0 <= off < 64 ->
  (forall cmd, cmd_of n s = Some cmd -> P cmd) ->
  (forall w td hf lt junk, ctrl_ok g md w td hf -> nh_index (wchn (sel_of n) w) = n -> hf (sel_of n) = half n ->
     (length (td (sel_of n)) <= length sent)%nat -> P (nh_new_cmd (wchn (sel_of n) w)) ->
     exists w', nc_write g lt junk (chn_ofs (sel_of n) + off) (u32 data) w = Ok w'
       /\ ctrl_ok g md w' (fun j => if decide (j = sel_of n) then td (sel_of n) ++ add else td j)
            (fun j => if decide (j = sel_of n) then h else hf j)
       /\ (total_weight w' <= total_weight w + cost)%nat /\ accessed (sel_of n) w w' /\ Q (nh_new_cmd (wchn (sel_of n) w'))) ->
  sent' = sent ++ add -> (forall x, In x add -> In x L /\ chn (pg_ppa x) = n) ->
  exists s' todo', bus_write (chn_base n + off) data s = Ok s' /\ batch_ok L s0 sent' s' todo' (<[n := h]> half)
    /\ (flash_weight s' <= flash_weight s + cost)%nat /\ (forall cmd, cmd_of n s' = Some cmd -> Q cmd).
Proof using Hg Hw.
  intros Hok Hn Hoff HP Hwr -> Hadd. destruct (advance_ok L s0 sent [] s todo half Hok) as (s1 & t1 & E1 & Hok1 & Pa & _).
  unfold bus_write. rewrite E1. cbn [obind]. rewrite bus_route_chn by lia.
  pose proof Hok1 as [Hf Hsrc Htodo Hlen Hdata]. pose proof Hf as [Hge Hl Hctrl].
  pose proof (chn_no_split n ltac:(lia)) as En.
  destruct (lookup_lt_is_Some_2 (nf_ctrls (fst s1)) (ctrl_no n)) as (c & Hc).
  { unfold ctrl_no. destruct Hw as (He & _). unfold NUM_NAND_CTRLS in Hl.
    assert (n / 2 < NUM_CHANNELS g / 2) by (apply Z.div_lt_upper_bound; lia). lia. }
  destruct (Hctrl _ c Hc) as (Hcok & Hix).
  destruct (Hwr _ _ _ (nf_ltcy (fst s1)) (nf_junk (fst s1)) Hcok) as (w' & E & Hcok' & Hwt & [Ai Ar Ax Ao] & HQ).
  { etransitivity; [apply Hix|exact En]. }
  { by rewrite En. }
  { rewrite En. apply Hlen. }
  { apply HP. rewrite <- (ps_cmds _ _ _ _ Pa). unfold cmd_of. by rewrite Hc. }
  cbn beta in Hcok'. rewrite En in Hcok'. cbn [nw_image nw_ram] in *.
  pose proof (with_ctrl_step n _ s1 c w' ltac:(lia) Hc E) as Ew. rewrite Hge. rewrite Ew.
  pose proof (weight_step s1 (ctrl_no n) c w' (nw_image w') (nw_ram w') Hc) as Hws.
  change (total_weight (NWorld c (nf_image (fst s1)) (snd s1))) with (ctrl_weight c) in Hwt.
  pose proof (flash_ok_step s1 t1 half n c w' (t1 n ++ add) h Hf ltac:(lia) Hc Hcok' Ax (or_intror Ai)) as Hstep.
  set (s' := (set_nf_ctrls _ _ _, _)) in *. exists s', (<[n := t1 n ++ add]> t1). split; [done|].
  assert (Et : target_of md (fst s') (snd s') = target_of md (fst s1) (snd s1)).
  { unfold target_of. cbn [s' fst snd set_nf_ctrls nf_image]. by rewrite Ai, Ar. }
  assert (Es : source_of md (fst s') (snd s') = source_of md (fst s1) (snd s1)).
  { unfold source_of. cbn [s' fst snd set_nf_ctrls nf_image]. by rewrite Ai, Ar. }
  split; [split|split].
  - done.
  - by rewrite Es.
  - intros m x. destruct (decide (n = m)) as [<-|Hne]; [rewrite fn_lookup_insert|rewrite fn_lookup_insert_ne by done; apply Htodo].
    rewrite in_app_iff. intros [Hx|Hx]; [by apply (Htodo n)|by apply Hadd].
  - intros m. rewrite length_app. specialize (Hlen m). destruct (decide (n = m)) as [<-|Hne];
      [rewrite fn_lookup_insert, length_app; lia|rewrite fn_lookup_insert_ne by done; lia].
  - intros m a Hown. rewrite Et, moves_app. specialize (Hdata m a Hown). destruct (decide (n = m)) as [<-|Hne].
    + rewrite fn_lookup_insert, moves_app. by apply moves_local.
    + rewrite fn_lookup_insert_ne by done. rewrite Hdata. symmetry. apply moves_out. intros x Hx.
      destruct (covers g md x a) eqn:Ecv; [|done]. exfalso. apply Hne. destruct (Hadd x Hx) as (HxL & <-). by apply Hown.
  - pose proof (passed_weight _ _ _ _ Pa). lia.
  - intros cmd. unfold cmd_of. cbn [s' fst set_nf_ctrls nf_ctrls].
    rewrite list_lookup_insert_eq by (by apply lookup_lt_Some in Hc). cbn. by intros [= <-].
Qed.

(** A register of the command under construction. *)
Lemma write_cmd_ok L s0 sent s todo half n off data f (P Q : nc_command -> Prop) :
  batch_ok L s0 sent s todo half -> 0 <= n < NC -> 0 <= off < 64 ->
  (forall cmd, cmd_of n s = Some cmd -> P cmd) -> (forall cmd, P cmd -> Q (f cmd)) ->
  (forall w lt junk, Z.of_nat (length (nh_chips (wchn (sel_of n) w))) = num_chips g ->
     nc_write g lt junk (chn_ofs (sel_of n) + off) (u32 data) w = Ok (upd_cmd (sel_of n) f w)) ->
  exists s' todo', bus_write (chn_base n + off) data s = Ok s' /\ batch_ok L s0 sent s' todo' half
    /\ (flash_weight s' <= flash_weight s)%nat /\ (forall cmd, cmd_of n s' = Some cmd -> Q cmd).
Proof using Hg Hw.
  intros Hok Hn Hoff HP HQ Hwr.
  destruct (write_chn_ok L s0 sent s todo half n off data P Q (sent ++ []) [] (half n) 0 Hok Hn Hoff HP)
    as (s' & todo' & E & Hok' & Hwt & Hc); [|done|done|].
  - intros w td hf lt junk Hcok _ Eh _ Hp. exists (upd_cmd (sel_of n) f w). split.
    { apply Hwr. destruct (cc_chan _ _ _ _ _ Hcok (sel_of n)) as (l & Hk & _). apply (ck_chips _ _ _ _ _ _ _ _ _ Hk). }
    destruct (upd_cmd_ok g md (sel_of n) f w td hf Hcok) as (Hcok' & Ew & Ha & Ec).
    split; [|split; [lia|split; [done|rewrite Ec; by apply HQ]]]. revert Hcok'.
    apply ctrl_ok_ext; intros j; destruct (decide (j = sel_of n)) as [->|]; [by rewrite app_nil_r|done|by rewrite Eh|done].
  - exists s', todo'. rewrite app_nil_r in Hok'. split; [done|]. split; [|split; [lia|done]].
    destruct Hok' as [Hf ? ? ? ?]. split; try done. revert Hf. apply flash_ok_ext; [done|]. intros m. by rewrite insert_same.
Qed.

Lemma chip_select_write n p w lt junk :
  ppa_in g p = true -> Z.of_nat (length (nh_chips (wchn (sel_of n) w))) = num_chips g ->
  nc_write g lt junk (chn_ofs (sel_of n) + CHIP_SELECT_REG) (u32 (u32 (die p * PLANES_PER_DIE g + plane p))) w
  = Ok (upd_cmd (sel_of n) (set_nk_chip (Some (chip_of g p))) w).
Proof using Hw.
  intros Hp Hl. pose proof (chip_range g Hw p Hp) as Hr. fold (chip_of g p). rewrite !(u32_id (chip_of g p)) by lia.
  unfold nc_write. rewrite decode_chn by done. change (CHIP_SELECT_REG =? CHIP_SELECT_REG) with true. cbn iota.
  rewrite Hl. zb. unfold get_chip.
  destruct (arr_get_lookup (nh_chips (wchn (sel_of n) w)) (chip_of g p)) as (c & -> & _); [lia|done].
Qed.

Lemma addr_cycle_spec p :
  ppa_in g p = true -> addr_cycle_of p = page p + 65536 * block p /\ 0 <= addr_cycle_of p < 2 ^ 32.
Proof using Hg.
  intros Hp. rewrite ppa_in_spec in Hp. destruct Hp as (_ & Hb & Hpp). destruct Hg as (_ & _ & _ & HB & HP & _).
  unfold BLOCKS_PER_PLANE, PAGES_PER_BLOCK in *.
  assert (E : addr_cycle_of p = page p + 65536 * block p).
  { unfold addr_cycle_of.
    set (d := set_field address_cycle_shorts 0 (page p) 0).
    assert (E : field address_cycle_addr 0 (set_field address_cycle_shorts 1 (block p) d)
      = field address_cycle_shorts 0 (set_field address_cycle_shorts 1 (block p) d)
        + 65536 * field address_cycle_shorts 1 (set_field address_cycle_shorts 1 (block p) d)).
    { generalize (set_field address_cycle_shorts 1 (block p) d). intros a. unfold field, address_cycle_addr, address_cycle_shorts.
      cbn [unpack nth]. change (2 ^ 32) with (2 ^ 16 * 2 ^ 16). rewrite Z.rem_mul_r by (vm_compute; congruence). done. }
    assert (Hwk : widths_ok address_cycle_shorts) by (repeat constructor; vm_compute; congruence).
    rewrite E, field_set_ne by (done || (cbn; lia)). unfold d.
    rewrite !field_set_eq by (done || (cbn; lia) || (unfold fits; cbn [nth address_cycle_shorts]; lia)). done. }
  rewrite E. split; [done|lia].
Qed.

Lemma issue_page_ok L s0 sent s todo half x :
  batch_ok L s0 sent s todo half -> (forall n, half n = None) -> (length sent < 400)%nat ->
  In x L -> ppa_in g (pg_ppa x) = true -> 0 <= pg_ssd_addr x < 2 ^ 32 ->
  exists s' todo' half', issue_page g (nand_op_of md) (dma_op_of md) x s = Ok s'
    /\ batch_ok L s0 (sent ++ [x]) s' todo' half' /\ (forall n, half' n = None)
    /\ (flash_weight s' <= flash_weight s + 8)%nat.
Proof using Hg Hw.
  intros Hok Hh Hlen HxL Hx Hram. set (n := chn (pg_ppa x)).
  assert (Hn : 0 <= n < NC). { rewrite ppa_in_spec, plane_in_spec in Hx. apply Hx. }
  assert (Hpo : page_ok g n x) by done.
  unfold issue_page. fold n. rewrite (chn_base_get g n Hg Hw Hn). cbn [obind].
  set (sel_ok := fun cmd => nk_chip cmd = Some (chip_of g (pg_ppa x))).
  set (addr_ok := fun cmd => sel_ok cmd /\ nk_address cmd mod 2 ^ 32 = page (pg_ppa x) + 65536 * block (pg_ppa x)).
  set (ram_ok := fun cmd => sel_ok cmd /\ nk_ram_ptr cmd = pg_ssd_addr x).
  destruct (addr_cycle_spec _ Hx) as (Eac & Hac).
  destruct (write_cmd_ok L s0 sent s todo half n CHIP_SELECT_REG (u32 (die (pg_ppa x) * PLANES_PER_DIE g + plane (pg_ppa x)))
    (set_nk_chip (Some (chip_of g (pg_ppa x))))
    (fun _ => True) sel_ok Hok Hn ltac:(done) ltac:(done) ltac:(done) (fun w lt j => chip_select_write n _ w lt j Hx))
    as (s1 & t1 & E1 & Hok1 & W1 & C1). rewrite E1. cbn [obind]. clear E1.
  destruct (write_cmd_ok L s0 sent s1 t1 half n ADDRESS_CYCLE_REG_1 (addr_cycle_of (pg_ppa x))
    (fun k => set_nk_address (set_field address_cycle_addr 0 (addr_cycle_of (pg_ppa x)) (nk_address k)) k) sel_ok addr_ok Hok1 Hn)
    as (s2 & t2 & E2 & Hok2 & W2 & C2); [done|exact C1| | |rewrite E2; cbn [obind]; clear E2].
  { intros cmd Hs. split; [exact Hs|]. cbn [nk_address set_nk_address]. rewrite <- Eac.
    apply (field_set_eq address_cycle_addr 0 (addr_cycle_of (pg_ppa x))); [repeat constructor; vm_compute; congruence|cbn; lia|exact Hac]. }
  { intros w lt junk _. rewrite u32_id by lia. unfold nc_write. by rewrite decode_chn. }
  destruct (write_cmd_ok L s0 sent s2 t2 half n ADDRESS_CYCLE_REG_2 0
    (fun k => set_nk_address (set_field address_cycle_addr 1 0 (nk_address k)) k) addr_ok addr_ok Hok2 Hn)
    as (s3 & t3 & E3 & Hok3 & W3 & C3); [done|exact C2| | |rewrite E3; cbn [obind]; clear E3].
  { intros cmd (Hs & Ha). split; [exact Hs|]. cbn [nk_address set_nk_address]. rewrite <- Ha.
    apply (field_set_ne address_cycle_addr 1 0 0); [repeat constructor; vm_compute; congruence|cbn; lia|done]. }
  { intros w lt junk _. unfold nc_write. by rewrite decode_chn. }
  destruct (write_chn_ok L s0 sent s3 t3 half n CMD_PHASE_CMD_REG (nand_op_of md) addr_ok (fun _ => True) (sent ++ []) [] (Some x) 4
    Hok3 Hn) as (s4 & t4 & E4 & Hok4 & W4 & _); [done|exact C3| |done|done|rewrite E4; cbn [obind]; clear E4].
  { intros w td hf lt junk Hcok Hix Ehf Htd (Hs & Ha).
    destruct (send_nand_ok g Hg Hw lt md junk (sel_of n) x w td hf Hcok) as (w' & E & Hcok' & Hwt & Hac'); [by rewrite Ehf|lia|by rewrite Hix|done|done|].
    exists w'. split; [|split; [|done]].
    - unfold nc_write. rewrite decode_chn by done. rewrite <- E. by destruct md.
    - revert Hcok'. apply ctrl_ok_ext; [|done]. intros j. destruct (decide (j = sel_of n)) as [->|]; [by rewrite app_nil_r|done]. }
  rewrite app_nil_r in Hok4.
  destruct (write_cmd_ok L s0 sent s4 t4 _ n CHIP_SELECT_REG (u32 (die (pg_ppa x) * PLANES_PER_DIE g + plane (pg_ppa x)))
    (set_nk_chip (Some (chip_of g (pg_ppa x))))
    (fun _ => True) sel_ok Hok4 Hn ltac:(done) ltac:(done) ltac:(done) (fun w lt j => chip_select_write n _ w lt j Hx))
    as (s5 & t5 & E5 & Hok5 & W5 & C5). rewrite E5. cbn [obind]. clear E5.
  destruct (write_cmd_ok L s0 sent s5 t5 _ n DMA_RAM_PTR (pg_ssd_addr x) (set_nk_ram (pg_ssd_addr x)) sel_ok ram_ok Hok5 Hn)
    as (s6 & t6 & E6 & Hok6 & W6 & C6); [done|exact C5|done| |rewrite E6; cbn [obind]; clear E6].
  { intros w lt junk _. rewrite u32_id by lia. unfold nc_write. by rewrite decode_chn. }
  destruct (write_chn_ok L s0 sent s6 t6 _ n DMA_PHASE_CMD_REG (dma_op_of md) ram_ok (fun _ => True) (sent ++ [x]) [x] None 4
    Hok6 Hn) as (s7 & t7 & E7 & Hok7 & W7 & _); [done|exact C6| |done| |].
  { intros w td hf lt junk Hcok Hix Ehf Htd (Hs & Ha). rewrite fn_lookup_insert in Ehf.
    destruct (send_dma_ok g Hg Hw lt md junk (sel_of n) x w td hf Hcok) as (w' & E & Hcok' & Hwt & Hac'); [done|lia|done|done|].
    exists w'. split; [|done]. unfold nc_write. rewrite decode_chn by done. rewrite <- E. by destruct md. }
  { intros y [<-|[]]. done. }
  exists s7, t7, (<[n := None]> (<[n := Some x]> half)). split; [exact E7|]. split; [exact Hok7|]. split; [|lia].
  intros m. destruct (decide (n = m)) as [<-|Hne]; [by rewrite fn_lookup_insert|by rewrite !fn_lookup_insert_ne by done].
Qed.

Lemma issue_pages_ok L s0 n ix op sent s todo half :
  batch_ok L s0 sent s todo half -> (forall n, half n = None) -> (length sent + n <= 400)%nat -> 0 <= ix ->
  ix + Z.of_nat n <= Z.of_nat (length (op_pages op)) ->
  Forall (fun x => In x L /\ ppa_in g (pg_ppa x) = true /\ 0 <= pg_ssd_addr x < 2 ^ 32) (take n (drop (Z.to_nat ix) (op_pages op))) ->
  exists s' todo' half', issue_pages g (nand_op_of md) (dma_op_of md) n ix op s = Ok s'
    /\ batch_ok L s0 (sent ++ take n (drop (Z.to_nat ix) (op_pages op))) s' todo' half' /\ (forall n, half' n = None)
    /\ (flash_weight s' <= flash_weight s + 8 * n)%nat.
Proof using Hg Hw.
  revert ix sent s todo half. induction n as [|n IH]; intros ix sent s todo half Hok Hh Hlen Hix Hn Hall.
  { exists s, todo, half. rewrite take_0, app_nil_r. split; [done|]. split; [done|]. split; [done|lia]. }
  destruct (arr_get_lookup (op_pages op) ix) as (p & Hp & _); [lia|].
  rewrite (drop_cons_get _ _ _ _ Hix Hp) in *. inversion_clear Hall as [|? ? (HpL & Hin & Hram) Hall'].
  cbn [issue_pages]. rewrite Hp. cbn [obind].
  destruct (issue_page_ok L s0 sent s todo half p Hok Hh ltac:(lia) HpL Hin Hram) as (s1 & t1 & h1 & -> & Hok1 & Hh1 & W1).
  cbn [obind]. destruct (IH (ix + 1) (sent ++ [p]) s1 t1 h1 Hok1 Hh1) as (s2 & t2 & h2 & -> & Hok2 & Hh2 & W2);
    [rewrite length_app; cbn [length]; lia|lia|lia|done|].
  exists s2, t2, h2. rewrite <- app_assoc in Hok2. split; [done|]. split; [exact Hok2|]. split; [done|lia].
Qed.

(** ** Polling *)

Lemma bass_addrs : chn_bass_addr g = map (fun n => chn_base (Z.of_nat n)) (seq 0 (Z.to_nat NC)).
Proof using Hg Hw.
  assert (Hl : length (chn_bass_addr g) = Z.to_nat NC).
  { unfold chn_bass_addr, NUM_NAND_CTRLS. destruct Hw as (He & _). rewrite He at 2. generalize (NC / 2). intros m.
    assert (E : forall s n, length (flat_map (fun ictrl => let c := get_dev_address DEV_NAND_CTRL + Z.of_nat ictrl * NAND_CTRL_REG_SIZE in
                         [c + CHANNEL_0_BASE_ADDR; c + CHANNEL_1_BASE_ADDR]) (seq s n)) = (2 * n)%nat).
    { intros s n. revert s. induction n as [|n IH]; intros s; [done|]. cbn [seq flat_map]. rewrite length_app, IH. cbn [length]. lia. }
    rewrite E. lia. }
  apply list_eq. intros i. rewrite list_lookup_fmap. destruct (decide (i < Z.to_nat NC)%nat) as [Hi|Hi].
  - rewrite lookup_seq_lt by done. cbn [fmap option_fmap option_map Nat.add].
    pose proof (chn_base_get g (Z.of_nat i) Hg Hw ltac:(lia)) as E. apply arr_get_Ok in E as [_ E]. by rewrite Nat2Z.id in E.
  - rewrite !lookup_ge_None_2; [done|rewrite length_seq; lia|lia].
Qed.

(** A channel's count: zero means that it is done and stays so, otherwise an event
    is under way. *)
Lemma bus_read_ok L s0 sent s todo half n :
  batch_ok L s0 sent s todo half -> 0 <= n < NC -> (length sent <= 400)%nat ->
  exists v s' todo', bus_read (chn_base n + ACTIVE_OPERATION_COUNT) s = Ok (v, s') /\ batch_ok L s0 sent s' todo' half
    /\ passed s s' todo todo' /\ 0 <= v <= 1000 /\ (v = 0 -> todo' n = [] /\ chn_weight n s' = O)
    /\ (v <> 0 -> under_way (fst s') <> []).
Proof using Hg Hw.
  intros Hok Hn Hls. destruct (advance_ok L s0 sent [] s todo half Hok) as (s1 & t1 & E1 & Hok1 & Pa & _).
  unfold bus_read. rewrite E1. cbn [obind]. rewrite bus_route_chn by (lia || done).
  pose proof Hok1 as [Hf _ _ Hlen _]. pose proof Hf as [_ Hl Hctrl]. pose proof (chn_no_split n ltac:(lia)) as En.
  destruct (lookup_lt_is_Some_2 (nf_ctrls (fst s1)) (ctrl_no n)) as (c & Hc).
  { unfold ctrl_no. destruct Hw as (He & _). unfold NUM_NAND_CTRLS in Hl.
    assert (n / 2 < NUM_CHANNELS g / 2) by (apply Z.div_lt_upper_bound; lia). lia. }
  destruct (Hctrl _ c Hc) as (Hcok & Hix). pose proof (Z.div_pos n 2 ltac:(lia)).
  rewrite (proj2 (arr_get_Ok _ _ c)) by (split; [lia|exact Hc]). cbn [obind].
  unfold nc_read. rewrite decode_chn by done. change (ACTIVE_OPERATION_COUNT =? CHIP_STATUS) with false.
  change (ACTIVE_OPERATION_COUNT =? WAITING_ROOM_CMD_COUNT) with false.
  change (ACTIVE_OPERATION_COUNT =? ACTIVE_OPERATION_COUNT) with true. cbn iota. unfold active_count.
  destruct (cc_chan _ _ _ _ _ Hcok (sel_of n)) as (l & Hk & _). cbn beta in Hk. rewrite En in Hk.
  change (wchn (sel_of n) (NWorld c (nf_image (fst s1)) (snd s1))) with (get_chn (sel_of n) c) in Hk.
  pose proof (count_bound g Hw md _ _ _ _ _ _ _ Hk) as Hb. specialize (Hlen n). rewrite u32_id by lia.
  do 3 eexists. split; [reflexivity|]. split; [done|]. split; [done|]. split; [lia|]. split.
  - intros Ez. split; [by apply (count_zero g Hw md _ _ _ _ _ _ _ Hk)|]. unfold chn_weight. rewrite Hc.
    unfold chan_weight, weight. change (wchn (sel_of n) (NWorld c (fun _ => 0) (fun _ => 0))) with (get_chn (sel_of n) c).
    pose proof (fo_items _ _ (ck_room _ _ _ _ _ _ _ _ _ Hk)) as Hi. pose proof (ck_active _ _ _ _ _ _ _ _ _ Hk) as Ha.
    cbn [nw_ctrl] in *. destruct (nh_wait _); lia.
  - intros Hnz Hu. apply Hnz. apply (quiet_counts g md _ _ _ (sel_of n) Hcok). by apply (under_way_nil (fst s1) Hu (ctrl_no n)).
Qed.

Definition chn_done (n : Z) (s : flash_state) (todo : Z -> list op_page) : Prop := todo n = [] /\ chn_weight n s = O.

Lemma chn_done_passed s s' todo todo' n : passed s s' todo todo' -> chn_done n s todo -> chn_done n s' todo'.
Proof.
  intros P (Et & Ew). pose proof (ps_shrinks _ _ _ _ P n) as Hs. pose proof (ps_chn _ _ _ _ P n) as Hc. rewrite Et in Hs.
  split; [destruct (todo' n); [done|cbn [length] in Hs; lia]|lia].
Qed.

Lemma sum_counts_ok L s0 sent half ns cmd s todo :
  batch_ok L s0 sent s todo half -> Forall (fun n => 0 <= Z.of_nat n < NC) ns -> (length sent <= 400)%nat ->
  0 <= cmd -> cmd + 1000 * Z.of_nat (length ns) < 2 ^ 32 ->
  exists v s' todo', sum_counts (map (fun n => chn_base (Z.of_nat n)) ns) cmd s = Ok (cmd + v, s') /\
    batch_ok L s0 sent s' todo' half /\ passed s s' todo todo' /\ 0 <= v <= 1000 * Z.of_nat (length ns) /\
    (v = 0 -> forall n, In n ns -> chn_done (Z.of_nat n) s' todo') /\
    (v <> 0 -> (flash_weight s' < flash_weight s)%nat \/ under_way (fst s') <> []).
Proof using Hg Hw.
  intros Hok Hr Hls. revert cmd s todo Hok. induction Hr as [|n ns Hn _ IH]; intros cmd s todo Hok Hc Hb.
  { exists 0, s, todo. rewrite Z.add_0_r. split; [done|]. split; [done|]. split; [by apply passed_refl|].
    split; [done|]. split; [|done]. intros _ n []. }
  cbn [map sum_counts length] in *.
  destruct (bus_read_ok L s0 sent s todo half (Z.of_nat n) Hok Hn Hls) as (v1 & s1 & t1 & -> & Hok1 & P1 & Hv1 & Z1 & N1).
  cbn [obind]. rewrite u32_id by lia.
  destruct (IH (cmd + v1) s1 t1 Hok1 ltac:(lia) ltac:(lia)) as (v2 & s2 & t2 & -> & Hok2 & P2 & Hv2 & Z2 & N2).
  exists (v1 + v2), s2, t2. rewrite Z.add_assoc. split; [done|]. split; [done|]. split; [by eapply passed_trans|]. split; [lia|]. split.
  - intros Ez m [<-|Hm]; [|apply Z2; [lia|done]]. apply (chn_done_passed s1 s2 t1 t2); [done|]. apply Z1. lia.
  - intros Hnz. pose proof (passed_weight _ _ _ _ P1). destruct (Z.eq_dec v2 0) as [E2|E2].
    + assert (Hu : under_way (fst s1) <> []) by (apply N1; lia). pose proof (passed_weight _ _ _ _ P2).
      destruct (ps_weight _ _ _ _ P2) as [?|Ec]; [left; lia|]. right. unfold under_way. by rewrite Ec.
    + destruct (N2 E2) as [?|?]; [left; lia|by right].
Qed.

(** The polling ends: every round that finds something to do makes the controllers
    lighter. *)
Lemma poll_counts_ok L s0 sent half fuel s todo :
  batch_ok L s0 sent s todo half -> (length sent <= 400)%nat -> (flash_weight s < fuel)%nat ->
  exists s' todo', poll_counts fuel g s = Ok s' /\ batch_ok L s0 sent s' todo' half /\
    forall n, 0 <= n < NC -> chn_done n s' todo'.
Proof using Hg Hw.
  intros Hok Hls. revert s todo Hok. induction fuel as [|fuel IH]; intros s todo Hok Hf; [lia|].
  cbn [poll_counts]. rewrite bass_addrs. pose proof Hg as (Hnc & _). fold (NUM_CHANNELS g) in Hnc.
  destruct (sum_counts_ok L s0 sent half (seq 0 (Z.to_nat NC)) 0 s todo Hok) as (v & s1 & t1 & -> & Hok1 & P1 & Hv & Z1 & N1);
    [|done|lia|rewrite length_seq; lia|].
  { apply Forall_forall. intros n Hn%in_seq. lia. }
  cbn [obind]. rewrite Z.add_0_l. destruct (Z.eqb_spec v 0) as [Ev|Ev].
  - exists s1, t1. split; [done|]. split; [done|]. intros n Hn. rewrite <- (Z2Nat.id n) by lia. apply Z1; [done|].
    apply in_seq. lia.
  - destruct (advance_ok L s0 sent [O] s1 t1 half Hok1) as (s2 & t2 & -> & Hok2 & P2 & W2). cbn [obind].
    apply (IH s2 t2 Hok2). pose proof (passed_weight _ _ _ _ P1). pose proof (passed_weight _ _ _ _ P2).
    destruct (N1 Ev) as [?|Hu]; [lia|]. specialize (W2 ltac:(done) Hu). lia.
Qed.

(** Between batches: nothing to do and nothing under way. *)
Definition flash_idle (s : flash_state) : Prop :=
  flash_ok s (fun _ => []) (fun _ => None) /\ flash_weight s = O.

Lemma weight_zero s todo half :
  flash_ok s todo half -> (forall n, 0 <= n < NC -> chn_weight n s = O) -> flash_weight s = O.
Proof using Hw.
  intros [_ Hl _] Hz. unfold flash_weight. 
  assert (Hx : forall k c, nf_ctrls (fst s) !! k = Some c -> ctrl_weight c = O).
  { intros k c Hc. destruct Hw as (He & _). apply lookup_lt_Some in Hc as Hk. unfold NUM_NAND_CTRLS in Hl.
    unfold ctrl_weight. rewrite (total_chan_weight Ch0). cbn [other_chn].
    assert (H0 : forall i, chan_weight i (NWorld c (fun _ => 0) (fun _ => 0)) = O).
    { intros i. destruct (chn_no_parts k i) as (E1 & E2 & E3). specialize (Hz (chn_no k i)). unfold chn_weight in Hz.
      rewrite E1, E2, Hc in Hz. apply Hz. split; [done|]. unfold chn_no. destruct i; cbn [sel_ix]; lia. }
    by rewrite !H0. }
  revert Hx. generalize (nf_ctrls (fst s)). intros l Hx. induction l as [|c l IH]; [done|].
  change (ctrl_weight c + sum_list (map ctrl_weight l) = 0)%nat. rewrite (Hx O c eq_refl), IH; [done|]. intros k c' Hk. by apply (Hx (S k)).
Qed.

Lemma flash_ok_done s todo half :
  flash_ok s todo half -> (forall n, 0 <= n < NC -> todo n = []) -> (forall n, half n = None) ->
  flash_ok s (fun _ => []) (fun _ => None).
Proof using Hw.
  intros [Hge Hl Hc] Ht Hh. split; [done|done|]. intros k c Hk. destruct (Hc k c Hk) as (Hok & Hi). split; [|done].
  revert Hok. apply ctrl_ok_ext; intros i; [|done]. rewrite Ht; [done|]. destruct Hw as (He & _).
  apply lookup_lt_Some in Hk. unfold NUM_NAND_CTRLS in Hl. unfold chn_no. destruct i; cbn [sel_ix]; lia.
Qed.

(** A batch is begun. *)
Lemma batch_begin L s : flash_ok s (fun _ => []) (fun _ => None) -> batch_ok L s [] s (fun _ => []) (fun _ => None).
Proof. intros Hf. split; [done|done|by intros n x []|done|done]. Qed.

(** The driver executes the batch. *)
Lemma hw_transfer_ok op f m :
  let L := op_list op in
  flash_idle (f, m) -> 0 <= op_nop op <= Z.of_nat (length (op_pages op)) -> op_nop op <= MAX_OPS ->
  Forall (fun x => ppa_in g (pg_ppa x) = true /\ 0 <= pg_ssd_addr x < 2 ^ 32) L -> apart g md L ->
  exists f' m', hw_transfer (nand_op_of md) (dma_op_of md) g op f m = Ok (f', m') /\ flash_idle (f', m') /\
    source_of md f' m' = source_of md f m /\
    forall a, target_of md f' m' a = moves g md (source_of md f m) L (target_of md f m) a.
Proof using Hg Hw.
  intros L (Hf & Hz) Hn Hm Hall Hap. unfold hw_transfer. destruct (Z.eqb_spec (op_nop op) 0) as [E0|E0].
  { exists f, m. split; [done|]. split; [done|]. split; [done|]. intros a. unfold L, op_list. by rewrite E0. }
  unfold MAX_OPS in Hm.
  destruct (issue_pages_ok L (f, m) (Z.to_nat (op_nop op)) 0 op [] (f, m) _ _ (batch_begin L _ Hf) ltac:(done))
    as (s1 & t1 & h1 & -> & Hok1 & Hh1 & W1); [cbn [length]; lia|lia|lia| |].
  { change (drop (Z.to_nat 0) (op_pages op)) with (op_pages op). fold (op_list op). fold L.
    rewrite Forall_forall in Hall |- *. intros x Hx. split; [done|by apply Hall]. }
  change (drop (Z.to_nat 0) (op_pages op)) with (op_pages op) in Hok1. fold (op_list op) in Hok1. cbn [app obind] in *. fold L in Hok1.
  assert (HlenL : (length L <= 128)%nat) by (unfold L, op_list; rewrite length_take; lia).
  destruct (poll_counts_ok L (f, m) L h1 (poll_fuel op) s1 t1 Hok1) as ([f2 m2] & t2 & -> & Hok2 & Hd); [lia|unfold poll_fuel; lia|].
  exists f2, m2. split; [done|].
  pose proof Hok2 as [Hf2 Hsrc _ _ Hdata]. split; [split|split].
  - apply (flash_ok_done _ t2 h1); [done|intros n Hnr; by apply Hd|done].
  - apply (weight_zero _ t2 h1); [done|]. intros n Hnr. by apply Hd.
  - exact Hsrc.
  - intros a. assert (Hown : exists n, 0 <= n < NC /\ forall y, In y L -> covers g md y a = true -> chn (pg_ppa y) = n).
    { destruct (find (fun y => covers g md y a) L) as [y|] eqn:Ef.
      - apply find_some in Ef as (Hy & Hcy). exists (chn (pg_ppa y)). split.
        + rewrite Forall_forall in Hall. destruct (Hall y Hy) as (Hin & _). rewrite ppa_in_spec, plane_in_spec in Hin. apply Hin.
        + intros y' Hy' Hcy'. by apply (Hap y' y a).
      - exists 0. pose proof (geom_pos g Hg) as (? & _). split; [lia|]. intros y Hy Hcy.
        pose proof (find_none _ _ Ef y Hy) as Hno. cbn beta in Hno. congruence. }
    destruct Hown as (n & Hnr & Hown). destruct (Hd n Hnr) as (Et & _). specialize (Hdata n a Hown). rewrite Et in Hdata. exact Hdata.
Qed.

End batch.

(** ** The controllers as a flash array *)

Definition hw_page (f : nflash) (k : page_key) : mem :=
  fun off => if key_in (nf_geom f) k && in_range (NAND_PAGE_SIZE (nf_geom f)) off
             then nf_image f (key_ofs (nf_geom f) k + off) else 0.

Definition hw_ready (g : geom) (f : nflash) : Prop := hw_ok g /\ flash_idle g MRead (f, fun _ => 0).

Lemma flash_idle_any g md md' f m m' : flash_idle g md (f, m) -> flash_idle g md' (f, m').
Proof.
  intros ([Hge Hl Hc] & Hwt). split; [|done]. split; [done|done|]. intros k c Hk. destruct (Hc k c Hk) as (Hok & Hi).
  split; [|done]. revert Hok. apply ctrl_ok_idle.
Qed.

Lemma flash_idle_geom g md f m : flash_idle g md (f, m) -> nf_geom f = g.
Proof. intros (Hf & _). apply (fk_geom _ _ _ _ _ Hf). Qed.

Section array.
Context (g : geom) (Hg : geom_ok g) (Hw : hw_ok g).

Abbreviation PS := (NAND_PAGE_SIZE g) (only parsing).

(** Reading pages is moving their bytes to the memory ... *)
Lemma moves_read f l m a :
  nf_geom f = g -> pages_placed g l ->
  moves g MRead (nf_image f) l m a = read_pages g (hw_page f) l m a.
Proof.
  intros Hge Hall. revert m. induction Hall as [|x l (Hx & _) _ IH]; intros m; [done|].
  change (moves g MRead (nf_image f) l (move g MRead (nf_image f) x m) a
    = read_pages g (hw_page f) l (read_page g (hw_page f) m x) a). rewrite <- IH. apply moves_local.
  unfold move, copy_bytes, read_page, hw_page, page_dst, page_src. rewrite Hge, key_in_ppa, Hx. cbn [andb].
  destruct (in_range PS (a - pg_ssd_addr x)) eqn:Er.
  - pose proof Er as Er'. apply in_range_true in Er'. zb. done.
  - unfold in_range in Er. destruct (Z.leb_spec (pg_ssd_addr x) a); cbn [andb]; [|done].
    destruct (Z.ltb_spec a (pg_ssd_addr x + PS)); [|done]. exfalso. zify_bools; lia.
Qed.

(** ... and programming them moving the memory's bytes to their places. *)
Lemma moves_program f f' l m :
  nf_geom f = g -> nf_geom f' = g -> pages_placed g l ->
  (forall a, nf_image f' a = moves g MProg m l (nf_image f) a) ->
  forall k off, hw_page f' k off = program_pages g m l (hw_page f) k off.
Proof using Hg Hw.
  intros Hge Hge' Hall Hf'. 
  assert (Hgen : forall img (pg : page_key -> mem), (forall k off, pg k off = if key_in g k && in_range PS off then img (key_ofs g k + off) else 0) ->
    forall k off, (if key_in g k && in_range PS off then moves g MProg m l img (key_ofs g k + off) else 0)
                  = program_pages g m l pg k off).
  { clear f f' Hge Hge' Hf'. induction Hall as [|x l (Hx & _) _ IH]; intros img pg Hpg k off; [by rewrite Hpg|].
    cbn [moves program_pages fold_left]. apply IH. clear IH k off. intros k off.
    unfold program_page, move, copy_bytes, page_dst, page_src. rewrite Hpg.
    destruct (key_in g k) eqn:Hk; cbn [andb].
    2: { rewrite bool_decide_false; [done|]. intros ->. by rewrite key_in_ppa, Hx in Hk. }
    destruct (in_range PS off) eqn:Ho; cbn [andb]; [|by rewrite andb_false_r]. apply in_range_true in Ho.
    case_bool_decide as Ek.
    - subst k. replace (key_ofs g (key_of (pg_ppa x)) + off - key_ofs g (key_of (pg_ppa x))) with off by lia.
      by rewrite (proj2 (in_range_true _ _) Ho).
    - destruct (in_range PS (key_ofs g k + off - key_ofs g (key_of (pg_ppa x)))) eqn:Er; [|done].
      apply in_range_true in Er. exfalso. apply Ek.
      apply (key_ofs_inj g k (key_of (pg_ppa x)) off (key_ofs g k + off - key_ofs g (key_of (pg_ppa x)))); [done|done|done|done|lia]. }
  intros k off. unfold hw_page at 1. rewrite Hge', Hf'. apply Hgen. intros k' off'. unfold hw_page. by rewrite Hge.
Qed.

(** Pages of different channels are never the same page, nor do their buffers meet. *)
Lemma apart_program l : pages_placed g l -> apart g MProg l.
Proof using Hg Hw.
  intros Hall x y a Hx Hy. unfold covers, page_dst. rewrite !in_range_true. intros H1 H2.
  unfold pages_placed in Hall. rewrite Forall_forall in Hall. destruct (Hall x Hx) as (Hxi & _), (Hall y Hy) as (Hyi & _).
  rewrite <- key_in_ppa in Hxi, Hyi.
  assert (E : key_of (pg_ppa x) = key_of (pg_ppa y)).
  { apply (key_ofs_inj g _ _ (a - key_ofs g (key_of (pg_ppa x))) (a - key_ofs g (key_of (pg_ppa y)))); [done|done|done|done|lia]. }
  unfold key_of in E. by injection E.
Qed.

Lemma apart_read l : buffers_apart g l -> apart g MRead l.
Proof. intros Hl x y a Hx Hy H1 H2. by rewrite (Hl x y a Hx Hy H1 H2). Qed.
End array.

Lemma hw_read_ok `{DmaEngines} g o f m :
  geom_ok g -> hw_ready g f -> 0 <= op_nop o <= MAX_OPS -> length (op_pages o) = 128%nat ->
  pages_placed g (op_list o) -> buffers_apart g (op_list o) ->
  exists f' m', hw_do_sync_flash_read g o f m = Ok (f', m') /\ hw_ready g f' /\
    (forall k off, hw_page f' k off = hw_page f k off) /\
    (forall b, m' b = read_pages g (hw_page f) (op_list o) m b).
Proof.
  intros Hg (Hw & Hid) Hn Hl Hall Hap. pose proof (flash_idle_any _ _ MRead _ _ m Hid) as Hi.
  destruct (hw_transfer_ok g Hg Hw MRead o f m Hi) as (f' & m' & E & Hi' & Es & Hm);
    [unfold MAX_OPS in Hn; lia|lia|done|by apply apart_read|].
  cbn [source_of target_of] in *. pose proof (flash_idle_geom _ _ _ _ Hi) as Ef. pose proof (flash_idle_geom _ _ _ _ Hi') as Ef'.
  exists f', m'. split; [exact E|]. split; [split; [done|by apply (flash_idle_any _ MRead _ _ m')]|]. split.
  - intros k off. unfold hw_page. by rewrite Ef, Ef', Es.
  - intros b. rewrite Hm. by apply moves_read.
Qed.

Lemma hw_program_ok `{DmaEngines} g o f m :
  geom_ok g -> hw_ready g f -> 0 <= op_nop o <= MAX_OPS -> length (op_pages o) = 128%nat ->
  pages_placed g (op_list o) ->
  exists f' m', hw_do_sync_flash_program g o f m = Ok (f', m') /\ hw_ready g f' /\
    (forall b, m' b = m b) /\
    (forall k off, hw_page f' k off = program_pages g m (op_list o) (hw_page f) k off).
Proof.
  intros Hg (Hw & Hid) Hn Hl Hall. pose proof (flash_idle_any _ _ MProg _ _ m Hid) as Hi.
  destruct (hw_transfer_ok g Hg Hw MProg o f m Hi) as (f' & m' & E & Hi' & Es & Hm);
    [unfold MAX_OPS in Hn; lia|lia|done|by apply apart_program|].
  cbn [source_of target_of] in *. pose proof (flash_idle_geom _ _ _ _ Hi) as Ef. pose proof (flash_idle_geom _ _ _ _ Hi') as Ef'.
  exists f', m'. split; [exact E|]. split; [split; [done|by apply (flash_idle_any _ MProg _ _ m')]|]. split; [by rewrite Es|].
  by apply moves_program.
Qed.

(** New controllers wait for a batch. *)
Lemma new_ctrls_ready g lt junk reg toggle img oracle t :
  geom_ok g -> hw_ok g -> hw_ready g (NFlash g lt junk (new_ctrls g junk reg toggle) img oracle t).
Proof.
  intros Hg Hw. split; [done|].
  assert (Hk : forall k c, new_ctrls g junk reg toggle !! k = Some c ->
    c = new_ctrl g junk (2 * Z.of_nat k) (2 * Z.of_nat k + 1) reg toggle).
  { intros k c Hk. unfold new_ctrls in Hk. apply list_lookup_fmap_Some in Hk as (k' & -> & Hk').
    apply lookup_seq in Hk' as (-> & _). done. }
  assert (Hf : flash_ok g MRead (NFlash g lt junk (new_ctrls g junk reg toggle) img oracle t, fun _ => 0)
                 (fun _ => []) (fun _ => None)).
  { split; cbn [fst snd nf_geom nf_ctrls nf_image]; [done| |].
    - unfold new_ctrls. rewrite length_map, length_seq. pose proof (geom_pos g Hg) as (? & _). unfold NUM_NAND_CTRLS.
      pose proof (Z.div_pos (NUM_CHANNELS g) 2). lia.
    - intros k c ->%Hk. split; [by apply new_ctrl_ok|]. intros i. unfold chn_no. destruct i; cbn; lia. }
  split; [done|]. apply (weight_zero g Hw MRead _ _ _ Hf). intros n _. unfold chn_weight. cbn [fst nf_ctrls].
  destruct (new_ctrls g junk reg toggle !! ctrl_no n) as [c|] eqn:E; [|done]. apply Hk in E as ->. by destruct (sel_of n).
Qed.

#[export, refine] Instance hw_flash `{DmaEngines} : NandFlash nflash := {|
  nand_page := hw_page;
  nand_ready := hw_ready;
  do_sync_flash_read := hw_do_sync_flash_read;
  do_sync_flash_program := hw_do_sync_flash_program |}.
Proof.
  - intros g o d m Hg Hr Hn Hl Hall Hap _ _. by apply hw_read_ok.
  - intros g o d m Hg Hr Hn Hl Hall _ _. by apply hw_program_ok.
Defined.

(** ** Start and end of the driver *)

Lemma idle_advance `{DmaEngines} g s :
  geom_ok g -> hw_ok g -> flash_idle g MRead s ->
  exists s', advance [] s = Ok s' /\ flash_idle g MRead s' /\ nf_ctrls (fst s') = nf_ctrls (fst s).
Proof.
  intros Hg Hw (Hf & Hz).
  destruct (advance_ok g Hg Hw MRead [] s [] [] s _ _ (batch_begin g MRead [] s Hf)) as (s' & t' & E & Hok & P & _).
  exists s'. split; [done|]. pose proof (passed_weight _ _ _ _ P) as Hwt. split.
  - split; [|lia]. apply (flash_ok_done g Hw MRead _ t' (fun _ => None)); [apply Hok| |done]. intros n _.
    pose proof (ps_shrinks _ _ _ _ P n) as Hs. destruct (t' n); [done|cbn [length] in Hs; lia].
  - destruct (ps_weight _ _ _ _ P) as [?|Ec]; [lia|done].
Qed.

(** The status register has no part in the work. *)
Lemma flash_idle_status g f m k c v :
  flash_idle g MRead (f, m) -> nf_ctrls f !! k = Some c ->
  flash_idle g MRead (set_nf_ctrls (<[k := set_cmdStatus v c]> (nf_ctrls f)) (nf_image f) f, m).
Proof.
  intros ([Hge Hl Hc] & Hz) Hk. cbn [fst snd] in *. split.
  - split; cbn [fst snd set_nf_ctrls nf_geom nf_ctrls nf_image]; [done|by rewrite length_insert|]. intros k' c' Hk'.
    destruct (decide (k = k')) as [<-|Hne]; [|by rewrite list_lookup_insert_ne in Hk' by done; apply Hc].
    rewrite list_lookup_insert_eq in Hk' by (by apply lookup_lt_Some in Hk). injection Hk' as <-.
    destruct (Hc k c Hk) as ([Hch He] & Hi). split; [|by intros []; apply (Hi Ch0) || apply (Hi Ch1)].
    destruct c. split; [|revert He; unfold engine_ok; cbn; by destruct nc_current].
    intros []; [exact (Hch Ch0)|exact (Hch Ch1)].
  - pose proof (weight_step (f, m) k c (NWorld (set_cmdStatus v c) (nf_image f) m) (nf_image f) m Hk) as Hws.
    cbn [fst nw_ctrl] in Hws. rewrite Hz in Hws.
    assert (E : total_weight (NWorld (set_cmdStatus v c) (nf_image f) m) = ctrl_weight c) by (by destruct c). lia.
Qed.

(** A command to controller [k] itself is answered at once. *)
Lemma bus_command_ok `{DmaEngines} g s k data :
  geom_ok g -> hw_ok g -> flash_idle g MRead s -> 0 <= k < NUM_NAND_CTRLS g ->
  data = INIT_NAND_CTRL \/ data = NAND_CTRL_SHUTDOWN ->
  let base := get_dev_address DEV_NAND_CTRL + k * NAND_CTRL_REG_SIZE in
  exists s1 s2, bus_write base data s = Ok s1 /\ bus_read (base + 4) s1 = Ok (COMPLETE, s2) /\ flash_idle g MRead s2.
Proof.
  intros Hg Hw Hi Hk Hd base.
  assert (Hroute : forall o, 0 <= o < 8 -> bus_route (base + o) = (k, o)).
  { intros o Ho. unfold bus_route, base, NAND_CTRL_REG_SIZE. f_equal;
      [symmetry; apply (Z.div_unique _ _ _ o); lia|symmetry; apply (Z.mod_unique _ _ k); lia]. }
  destruct (idle_advance g s Hg Hw Hi) as ([f m] & E1 & Hi1 & _). unfold bus_write. rewrite E1. cbn [obind fst].
  pose proof (Hroute 0 ltac:(lia)) as Hr0. rewrite Z.add_0_r in Hr0. rewrite Hr0.
  pose proof Hi1 as ([_ Hl _] & _). cbn [fst] in Hl.
  destruct (arr_get_lookup (nf_ctrls f) k) as (c & Hc & Hlk); [lia|].
  assert (Ew : forall gg lt j, nc_write gg lt j 0 (u32 data) (NWorld c (nf_image f) m)
    = Ok (on_ctrl (set_cmdStatus COMPLETE) (NWorld c (nf_image f) m))) by (intros; destruct Hd as [-> | ->]; reflexivity).
  unfold with_ctrl. rewrite Hc. cbn [obind]. rewrite Ew. cbn [obind]. rewrite arr_set_Ok by lia. cbn [obind].
  eexists. 
  pose proof (flash_idle_status g f m (Z.to_nat k) c COMPLETE Hi1 Hlk) as Hi2.
  destruct (idle_advance g _ Hg Hw Hi2) as (s2 & E2 & Hi3 & Ec). exists s2. split; [reflexivity|]. split; [|done].
  unfold bus_read. cbn [nw_ctrl on_ctrl nw_image nw_ram]. rewrite E2. cbn [obind]. rewrite (Hroute 4) by lia. rewrite Ec.
  cbn [fst set_nf_ctrls nf_ctrls].
  rewrite (proj2 (arr_get_Ok _ k (set_cmdStatus COMPLETE c))); [reflexivity|]. split; [lia|]. apply list_lookup_insert_eq. lia.
Qed.

(** [initialize_nand_ctrl] and [shutdown_nand_io_driver] find every answer at the
    first look and leave the controllers ready. *)
Lemma initialize_nand_ctrl_ok `{DmaEngines} g n k s :
  geom_ok g -> hw_ok g -> flash_idle g MRead s -> 0 <= k -> k + Z.of_nat n <= NUM_NAND_CTRLS g ->
  exists s', initialize_nand_ctrl n k s = Ok s' /\ flash_idle g MRead s'.
Proof.
  intros Hg Hw. revert k s. induction n as [|n IH]; intros k s Hi Hk Hn; [by exists s|]. cbn [initialize_nand_ctrl].
  destruct (bus_command_ok g s k INIT_NAND_CTRL Hg Hw Hi) as (s1 & s2 & -> & E2 & Hi2); [lia|by left|].
  cbn [obind]. rewrite E2. cbn [obind]. change (COMPLETE =? COMPLETE) with true. cbn iota. apply IH; [done|lia|lia].
Qed.

Lemma shutdown_nand_io_driver_ok `{DmaEngines} g s :
  geom_ok g -> hw_ok g -> flash_idle g MRead s -> exists s', shutdown_nand_io_driver s = Ok s' /\ flash_idle g MRead s'.
Proof.
  intros Hg Hw Hi. destruct (bus_command_ok g s 0 NAND_CTRL_SHUTDOWN Hg Hw Hi) as (s1 & s2 & E1 & E2 & Hi2); [|by right|].
  { pose proof (geom_pos g Hg) as (? & _). destruct Hw as (He & _). unfold NUM_NAND_CTRLS. lia. }
  unfold shutdown_nand_io_driver. rewrite Z.mul_0_l, Z.add_0_r in E1, E2. rewrite E1. cbn [obind]. rewrite E2. cbn [obind].
  by exists s2.
Qed.

(** C5: the controllers are a flash array: for every schedule of the completions
    the driver executes a batch of reads or of programs whose pages lie in the
    array, its polling ends, and the controllers are ready for the next batch.
    Reads deliver the pages to their buffers; programs store the buffers in the
    pages. *)
Theorem hw_executes `{DmaEngines} g o f m :
  geom_ok g -> hw_ready g f -> 0 <= op_nop o <= MAX_OPS -> length (op_pages o) = 128%nat ->
  pages_placed g (op_list o) ->
  (buffers_apart g (op_list o) ->
     exists f' m', hw_do_sync_flash_read g o f m = Ok (f', m') /\ hw_ready g f' /\
       (forall k off, hw_page f' k off = hw_page f k off) /\
       (forall b, m' b = read_pages g (hw_page f) (op_list o) m b)) /\
  exists f' m', hw_do_sync_flash_program g o f m = Ok (f', m') /\ hw_ready g f' /\
    (forall b, m' b = m b) /\
    (forall k off, hw_page f' k off = program_pages g m (op_list o) (hw_page f) k off).
Proof.
  intros Hg Hr Hn Hl Hall. split; [intros Hap; by apply hw_read_ok|by apply hw_program_ok].
Qed.

(** The default drive with a program and a read of two pages on different channels. *)
Definition demo_ltcy : nand_ltcy := NandLtcy MLC 1 2 3 4 5 6 7 8 9 10 11 12 13.
Definition demo_flash : nflash :=
  NFlash H4k_N4k_256mb demo_ltcy 7 (new_ctrls H4k_N4k_256mb 7 (fun _ => 9) true) (fun _ => 0) (fun t => [t; 2 * t]%nat) 0.

Lemma demo_hw_ok : hw_ok H4k_N4k_256mb.
Proof. split_and!; vm_compute; congruence. Qed.

Lemma demo_flash_ready : hw_ready H4k_N4k_256mb demo_flash.
Proof. apply new_ctrls_ready; [apply H4k_N4k_256mb_ok|apply demo_hw_ok]. Qed.

Definition demo_batch : op_t :=
  Op FLASH_PROGRAM_OPERATION 1 2
    (OpPage (page_at H4k_N4k_256mb 0 5) 4096 :: OpPage (page_at H4k_N4k_256mb 1 7) 8192 :: replicate 126 op_page0).

Lemma hw_executes_witness :
  exists f' m', hw_do_sync_flash_program H4k_N4k_256mb demo_batch demo_flash (fun a => a mod 256) = Ok (f', m')
    /\ hw_page f' (key_of (page_at H4k_N4k_256mb 1 7)) 13 = 13.
Proof.
  destruct (hw_executes H4k_N4k_256mb demo_batch demo_flash (fun a => a mod 256) H4k_N4k_256mb_ok demo_flash_ready)
    as (_ & f' & m' & E & _ & _ & Hp).
  - vm_compute. split; congruence.
  - reflexivity.
  - repeat (apply Forall_cons_2; [split; [vm_compute; reflexivity|vm_compute; split; congruence]|]). apply Forall_nil_2.
  - exists f', m'. split; [exact E|]. rewrite Hp. vm_compute. reflexivity.
Defined.
