(* ===== verification/Prp.v ===== *)
(** * PRP lists (firmware/nvme_driver.c 455-551)

    Decoding the two PRP fields of a command into the list of host pages a
    transfer covers, fetching the list page from the host when more than two
    pages are needed. *)

From Stdlib Require Import ZArith Lia Bool List.
From stdpp Require Import base tactics option list functions.
From S2P Require Import Prelude CTypes MemUtil Kernel HostIf HostDma Requests.

(** The settings [initialize_nvme] derives from CC.MPS, and the address of the
    buffer for list pages. *)
Record prp_config := PrpConfig { hostPageBits : Z; prp_list : Z }.
Definition hostMemPageSize (c : prp_config) : Z := Z.shiftl 1 (hostPageBits c).
Definition maxPrpEntries (c : prp_config) : Z := hostMemPageSize c / 8.

(** The driver's own transfer object [dma] and the DMA thread. *)
Record prp_world := PrpWorld { pw_dma : dma_t; pw_world : dma_world }.

Section prp.
Context `{DmaEngines} (c : prp_config).

(** [sync_host_dma]: the DMA thread runs the transfer while the caller waits. *)
Definition sync_host_dma (dma : dma_t) (op : Z) (w : dma_world) : outcome (dma_t * dma_world) :=
  sync_dma_cbk (set_dma_complete false dma) op w.

Definition get_prp_page (host_p_addr ssd_addr len : Z) (w : prp_world) : outcome prp_world :=
  let d := set_buffer_addr ssd_addr (set_data_size len (set_n_ops 1 (pw_dma w))) in
  let! e := arr_get (dma_list d) 0 in
  let! l := arr_set (dma_list d) 0 (DmaOp (do_ssd_addr e) len host_p_addr (do_host_dma_complete e)) in
  let! '(d, dw) := sync_host_dma (set_dma_list l d) PCI_DMA_READ (pw_world w) in
  Ok (PrpWorld d dw).

(** The list of a transfer has 16 entries; a store past its end is a fault. *)
Definition add_dma_entry (dma_obj : dma_t) (host_p_addr len : Z) : outcome dma_t :=
  let! e := arr_get (dma_list dma_obj) (n_ops dma_obj) in
  let! l := arr_set (dma_list dma_obj) (n_ops dma_obj)
              (DmaOp (do_ssd_addr e) len host_p_addr (do_host_dma_complete e)) in
  Ok (set_n_ops (u32 (n_ops dma_obj + 1)) (set_dma_list l dma_obj)).

Definition prp_entry (i : Z) (w : prp_world) : Z :=
  load_le 8 (prp_list c + 8 * i) (hi_ssd (dw_hif (pw_world w))).

Definition misaligned (prp_ent : Z) : bool :=
  (prp_ent =? 0) || negb (Z.land prp_ent (hostMemPageSize c - 1) =? 0).

Definition prp_trans (len : Z) : Z :=
  u32 (Z.min (maxPrpEntries c) (Z.shiftr (u32 (len + hostMemPageSize c - 1)) (hostPageBits c)) * 8).

(** [while (len != 0)]: the entries of the list page, a full page chaining to
    the next one through its last entry. *)
Fixpoint prp_loop (fuel : nat) (i len : Z) (dma_obj : dma_t) (w : prp_world)
  : outcome (Z * dma_t * prp_world) :=
  if len =? 0 then Ok (0, dma_obj, w)
  else
    match fuel with
    | O => Fault FFuel
    | S fuel =>
        let entry prp_ent i w :=
          if misaligned prp_ent then Ok (-1, dma_obj, w)
          else
            let trans_len := Z.min len (hostMemPageSize c) in
            let! dma_obj := add_dma_entry dma_obj prp_ent trans_len in
            prp_loop fuel (i + 1) (len - trans_len) dma_obj w in
        let prp_ent := prp_entry i w in
        if (i =? maxPrpEntries c - 1) && (hostMemPageSize c <? len) then
          if misaligned prp_ent then Ok (-1, dma_obj, w)
          else
            let! w := get_prp_page prp_ent (prp_list c) (prp_trans len) w in
            entry (prp_entry 0 w) 0 w
        else entry prp_ent i w
    end.

(** The list has 16 entries, so that the loop adds at most 16 before a fault. *)
Definition prp_fuel : nat := 17.

Definition decode_prp (prp1 prp2 : Z) (dma_obj : dma_t) (w : prp_world)
  : outcome (Z * dma_t * prp_world) :=
  if prp1 =? 0 then Ok (-1, dma_obj, w)
  else
    let len := data_size dma_obj in
    let dma_obj := set_n_ops 0 dma_obj in
    let trans_len := Z.min len (u32 (hostMemPageSize c - prp1 mod hostMemPageSize c)) in
    let! dma_obj := add_dma_entry dma_obj prp1 trans_len in
    let len := len - trans_len in
    if len =? 0 then Ok (0, dma_obj, w)
    else if prp2 =? 0 then Ok (-1, dma_obj, w)
    else if hostMemPageSize c <? len then
      let! w := get_prp_page prp2 (prp_list c) (prp_trans len) w in
      prp_loop prp_fuel 0 len dma_obj w
    else if negb (Z.land prp2 (hostMemPageSize c - 1) =? 0) then Ok (-1, dma_obj, w)
    else let! dma_obj := add_dma_entry dma_obj prp2 len in Ok (0, dma_obj, w).

(** The result of [decode_prp] is not used. *)
Definition do_sync_dma (prp1 prp2 : Z) (dma : dma_t) (ssd_addr dma_operation : Z) (w : prp_world)
  : outcome (dma_t * prp_world) :=
  let! '(_, dma, w) := decode_prp prp1 prp2 dma w in
  let dma := set_c_op 0 0 (set_buffer_addr ssd_addr dma) in
  let! '(dma, dw) := sync_host_dma dma dma_operation (pw_world w) in
  Ok (dma, PrpWorld (pw_dma w) dw).

End prp.

(** ** The address rule of the NVMe specification

    Byte [off] of the data lies in page [(prp1 mod page + off) / page] of the
    sequence [prp1], [P 0], [P 1], ... *)
Definition prp_spec_addr (page prp1 : Z) (P : Z -> Z) (off : Z) : Z :=
  let o := prp1 mod page + off in
  if o <? page then prp1 + off else P (o / page - 1) + o mod page.

(** The entries for [len] bytes of whole pages, from page [i] of [P] on. *)
Fixpoint page_entries (page : Z) (P : Z -> Z) (n : nat) (i len : Z) : list (Z * Z) :=
  match n with
  | O => []
  | S n => (P i, Z.min len page) :: page_entries page P n (i + 1) (len - Z.min len page)
  end.

Definition pages_of (page len : Z) : Z := (len + page - 1) / page.

Lemma pages_step page len : 0 < page -> 0 < len -> pages_of page len = 1 + pages_of page (len - Z.min len page).
Proof.
  intros Hp Hl. unfold pages_of. destruct (Z.le_gt_cases len page) as [Hle|Hgt].
  - rewrite Z.min_l, Z.sub_diag by lia.
    replace (len + page - 1) with (1 * page + (len - 1)) by lia. rewrite Z.div_add_l by lia.
    rewrite !Z.div_small by lia. lia.
  - rewrite Z.min_r by lia. replace (len + page - 1) with (1 * page + (len - page + page - 1)) by lia.
    by rewrite Z.div_add_l by lia.
Qed.

Lemma pages_of_0 page : 0 < page -> pages_of page 0 = 0.
Proof. intros. unfold pages_of. apply Z.div_small. lia. Qed.

Lemma pages_of_nonneg page len : 0 < page -> 0 <= len -> 0 <= pages_of page len.
Proof. intros. unfold pages_of. apply Z.div_pos; lia. Qed.

Lemma pages_of_le page len : 0 < page -> 0 <= len -> len <= page * pages_of page len.
Proof.
  intros. unfold pages_of. pose proof (Z.mul_succ_div_gt (len + page - 1) page). lia.
Qed.

Lemma pages_of_pos page len : 0 < page -> 0 < len -> 0 < pages_of page len.
Proof. intros. rewrite pages_step by lia. pose proof (pages_of_nonneg page (len - Z.min len page)). lia. Qed.

Lemma page_entries_total page P n : forall i len,
  0 < page -> 0 <= len -> pages_of page len = Z.of_nat n -> total (page_entries page P n i len) = len.
Proof.
  induction n as [|n IH]; intros i len Hp Hl Hn.
  - destruct (Z.eq_dec len 0) as [->|]; [done|]. pose proof (pages_of_pos page len). lia.
  - simpl page_entries. unfold total. simpl.
    destruct (Z.eq_dec len 0) as [->|]; [rewrite pages_of_0 in Hn; lia|].
    rewrite pages_step in Hn by lia. fold (total (page_entries page P n (i + 1) (len - Z.min len page))).
    rewrite IH by lia. lia.
Qed.

Lemma page_entries_addr page P n : forall i len off,
  0 < page -> pages_of page len = Z.of_nat n -> 0 <= off < len ->
  seg_addr (page_entries page P n i len) off = P (i + off / page) + off mod page.
Proof.
  induction n as [|n IH]; intros i len off Hp Hn Ho.
  - pose proof (pages_of_pos page len). lia.
  - simpl. rewrite pages_step in Hn by lia.
    destruct (Z.ltb_spec off (Z.min len page)) as [Hlt|Hge].
    + rewrite Z.div_small, Z.mod_small by lia. f_equal. f_equal. lia.
    + rewrite IH by lia. replace (Z.min len page) with page by lia.
      replace off with (off - page + 1 * page) at 3 4 by lia.
      rewrite Z.div_add, Z.mod_add by lia. f_equal. f_equal. lia.
Qed.

Lemma seg_addr_cons a l es off :
  seg_addr ((a, l) :: es) off = if off <? l then a + off else seg_addr es (off - l).
Proof. done. Qed.

Lemma forallb_false_exists {A} (f : A -> bool) l : forallb f l = false -> exists x, In x l /\ f x = false.
Proof.
  induction l as [|a l IH]; simpl; [discriminate|]. destruct (f a) eqn:E; simpl.
  - intros H. destruct (IH H) as (x & ? & ?). eauto.
  - eauto.
Qed.

(** ** Adding entries *)

(** [d'] is [d] with the entries [es] appended to its list. *)
Record dma_ext (d d' : dma_t) (es : list (Z * Z)) : Prop := {
  de_size : data_size d' = data_size d;
  de_buffer : buffer_addr d' = buffer_addr d;
  de_n_ops : n_ops d' = n_ops d + Z.of_nat (length es);
  de_length : length (dma_list d') = length (dma_list d);
  de_entries : io_entries d' = io_entries d ++ es }.

Lemma dma_ext_nil d : dma_ext d d [].
Proof. split; try done; [simpl; lia|by rewrite app_nil_r]. Qed.

Lemma dma_ext_trans d1 d2 d3 es1 es2 :
  dma_ext d1 d2 es1 -> dma_ext d2 d3 es2 -> dma_ext d1 d3 (es1 ++ es2).
Proof.
  intros [] []. split; try congruence.
  - rewrite length_app. lia.
  - rewrite app_assoc. congruence.
Qed.

Lemma take_insert_snoc {A} (l : list A) n x :
  (n < length l)%nat -> take (S n) (<[n := x]> l) = take n l ++ [x].
Proof.
  intros Hn. rewrite (take_S_r _ _ x) by (by apply list_lookup_insert_eq).
  by rewrite take_insert_ge by lia.
Qed.

Lemma add_dma_entry_spec d a l :
  0 <= n_ops d < Z.of_nat (length (dma_list d)) -> Z.of_nat (length (dma_list d)) < 2 ^ 32 ->
  exists d', add_dma_entry d a l = Ok d' /\ dma_ext d d' [(a, l)].
Proof.
  intros Hn Hl. unfold add_dma_entry. destruct (arr_get_lookup _ _ Hn) as (e & -> & _). simpl.
  rewrite arr_set_Ok by done. simpl. eexists. split; [done|].
  rewrite u32_id by lia. split; simpl; try done.
  - by rewrite length_insert.
  - unfold io_entries, entries. simpl. rewrite Z2Nat.inj_add, Nat.add_1_r by lia.
    rewrite !drop_0, take_insert_snoc by lia. by rewrite map_app.
Qed.

Lemma add_dma_entry_full d a l :
  Z.of_nat (length (dma_list d)) <= n_ops d -> add_dma_entry d a l = Fault FBounds.
Proof. intros Hn. unfold add_dma_entry. by rewrite arr_get_oob by lia. Qed.

Section decode.
Context `{DmaEngines} (c : prp_config).
Context (Hbits : 12 <= hostPageBits c <= 16).

Abbreviation page := (hostMemPageSize c).

Lemma page_pow : page = 2 ^ hostPageBits c.
Proof. unfold hostMemPageSize. rewrite Z.shiftl_mul_pow2 by lia. lia. Qed.

Lemma page_bounds : 4096 <= page <= 65536.
Proof.
  rewrite page_pow. change 4096 with (2 ^ 12). change 65536 with (2 ^ 16).
  split; apply Z.pow_le_mono_r; lia.
Qed.

Lemma max_bounds : 512 <= maxPrpEntries c <= 8192.
Proof.
  unfold maxPrpEntries. pose proof page_bounds.
  split; [apply Z.div_le_lower_bound|apply Z.div_le_upper_bound]; lia.
Qed.

(** The offset part of an address is zero exactly for multiples of the page. *)
Lemma misaligned_false a : 0 <= a -> misaligned c a = false <-> a <> 0 /\ a mod page = 0.
Proof.
  intros Ha. unfold misaligned.
  assert (E : Z.land a (page - 1) = a mod page).
  { rewrite page_pow, <- Z.land_ones by lia. f_equal. rewrite Z.ones_equiv. lia. }
  rewrite E, orb_false_iff, negb_false_iff, Z.eqb_neq, Z.eqb_eq. done.
Qed.

(** *** The loop over the list page *)

Lemma prp_loop_valid fuel : forall i len d w,
  0 <= len -> 0 <= i -> i + pages_of page len <= maxPrpEntries c ->
  0 <= n_ops d -> n_ops d + pages_of page len <= Z.of_nat (length (dma_list d)) ->
  Z.of_nat (length (dma_list d)) < 2 ^ 32 -> pages_of page len <= Z.of_nat fuel ->
  (forall j, i <= j < i + pages_of page len -> misaligned c (prp_entry c j w) = false) ->
  exists d', prp_loop c fuel i len d w = Ok (0, d', w)
    /\ dma_ext d d' (page_entries page (fun j => prp_entry c j w) (Z.to_nat (pages_of page len)) i len).
Proof.
  pose proof page_bounds as Hp.
  induction fuel as [|fuel IH]; intros i len d w Hl Hi Hmax Hn0 Hn Hsmall Hf Hv.
  all: simpl; destruct (Z.eqb_spec len 0) as [->|Hne];
    [rewrite pages_of_0 by lia; exists d; split; [done|apply dma_ext_nil]|].
  { pose proof (pages_of_pos page len). lia. }
  pose proof (pages_step page len ltac:(lia) ltac:(lia)) as Hstep.
  pose proof (pages_of_nonneg page (len - Z.min len page) ltac:(lia) ltac:(lia)) as Hr0.
  assert (Hchain : (i =? maxPrpEntries c - 1) && (page <? len) = false).
  { destruct (Z.eqb_spec i (maxPrpEntries c - 1)), (Z.ltb_spec page len); try done.
    pose proof (pages_of_pos page (len - Z.min len page) ltac:(lia) ltac:(lia)). lia. }
  rewrite Hchain, Hv by lia.
  destruct (add_dma_entry_spec d (prp_entry c i w) (Z.min len page) ltac:(lia) Hsmall) as (d1 & -> & Hd1).
  simpl. pose proof (de_n_ops _ _ _ Hd1) as En. pose proof (de_length _ _ _ Hd1) as El. simpl in En.
  destruct (IH (i + 1) (len - Z.min len page) d1 w) as (d' & -> & Hd'); try lia.
  { intros j Hj. apply Hv. lia. }
  exists d'. split; [done|].
  rewrite Hstep, Z2Nat.inj_add by lia. simpl. exact (dma_ext_trans _ _ _ [_] _ Hd1 Hd').
Qed.

Lemma prp_loop_invalid fuel : forall i len d w j,
  0 <= len -> 0 <= i -> i + pages_of page len <= maxPrpEntries c ->
  0 <= n_ops d -> n_ops d + pages_of page len <= Z.of_nat (length (dma_list d)) ->
  Z.of_nat (length (dma_list d)) < 2 ^ 32 -> pages_of page len <= Z.of_nat fuel ->
  i <= j < i + pages_of page len -> misaligned c (prp_entry c j w) = true ->
  exists d', prp_loop c fuel i len d w = Ok (-1, d', w).
Proof.
  pose proof page_bounds as Hp.
  induction fuel as [|fuel IH]; intros i len d w j Hl Hi Hmax Hn0 Hn Hsmall Hf Hj Hm; simpl; [lia|].
  destruct (Z.eqb_spec len 0) as [->|Hne]; [rewrite pages_of_0 in Hj; lia|].
  pose proof (pages_step page len ltac:(lia) ltac:(lia)) as Hstep.
  pose proof (pages_of_nonneg page (len - Z.min len page) ltac:(lia) ltac:(lia)) as Hr0.
  assert (Hchain : (i =? maxPrpEntries c - 1) && (page <? len) = false).
  { destruct (Z.eqb_spec i (maxPrpEntries c - 1)), (Z.ltb_spec page len); try done.
    pose proof (pages_of_pos page (len - Z.min len page) ltac:(lia) ltac:(lia)). lia. }
  rewrite Hchain. destruct (misaligned c (prp_entry c i w)) eqn:Ei; [eauto|].
  destruct (add_dma_entry_spec d (prp_entry c i w) (Z.min len page) ltac:(lia) Hsmall) as (d1 & -> & Hd1).
  simpl. pose proof (de_n_ops _ _ _ Hd1) as En. pose proof (de_length _ _ _ Hd1) as El. simpl in En.
  assert (i <> j) by congruence. apply (IH _ _ _ _ j); lia || done.
Qed.

(** More pages than the list has room for. *)
Lemma prp_loop_overflow fuel : forall i len d w,
  0 <= len -> 0 <= i -> i + pages_of page len <= maxPrpEntries c ->
  0 <= n_ops d <= Z.of_nat (length (dma_list d)) ->
  Z.of_nat (length (dma_list d)) < n_ops d + pages_of page len ->
  Z.of_nat (length (dma_list d)) < 2 ^ 32 ->
  Z.of_nat (length (dma_list d)) - n_ops d < Z.of_nat fuel ->
  (forall j, i <= j < i + pages_of page len -> misaligned c (prp_entry c j w) = false) ->
  prp_loop c fuel i len d w = Fault FBounds.
Proof.
  pose proof page_bounds as Hp.
  induction fuel as [|fuel IH]; intros i len d w Hl Hi Hmax Hn0 Hn Hsmall Hf Hv; simpl; [lia|].
  destruct (Z.eqb_spec len 0) as [->|Hne]; [rewrite pages_of_0 in Hn; lia|].
  pose proof (pages_step page len ltac:(lia) ltac:(lia)) as Hstep.
  pose proof (pages_of_nonneg page (len - Z.min len page) ltac:(lia) ltac:(lia)) as Hr0.
  assert (Hchain : (i =? maxPrpEntries c - 1) && (page <? len) = false).
  { destruct (Z.eqb_spec i (maxPrpEntries c - 1)), (Z.ltb_spec page len); try done.
    pose proof (pages_of_pos page (len - Z.min len page) ltac:(lia) ltac:(lia)). lia. }
  rewrite Hchain, Hv by lia.
  destruct (Z.eq_dec (n_ops d) (Z.of_nat (length (dma_list d)))) as [E|E].
  { by rewrite add_dma_entry_full by lia. }
  destruct (add_dma_entry_spec d (prp_entry c i w) (Z.min len page) ltac:(lia) Hsmall) as (d1 & -> & Hd1).
  simpl. pose proof (de_n_ops _ _ _ Hd1) as En. pose proof (de_length _ _ _ Hd1) as El. simpl in En.
  apply IH; try lia. intros j Hj. apply Hv. lia.
Qed.

(** *** Fetching the list page *)

(** The driver's transfer object between two uses. *)
Definition prp_idle (w : prp_world) : Prop :=
  quiet (pw_world w) /\ c_op_len (pw_dma w) = 0 /\ c_op_smem_pg (pw_dma w) = 0
  /\ (1 <= length (dma_list (pw_dma w)))%nat.

Lemma get_prp_page_spec a s l w :
  prp_idle w -> fits 64 a -> page_len l -> 0 <= s -> s + l < 2 ^ 32 -> ready_for 1 (pw_world w) ->
  exists w', get_prp_page a s l w = Ok w' /\ prp_idle w'
    /\ (forall o, 0 <= o < l -> hi_ssd (dw_hif (pw_world w')) (s + o) = hi_host (dw_hif (pw_world w)) (a + o))
    /\ (forall x, ~ (s <= x < s + l) -> hi_ssd (dw_hif (pw_world w')) x = hi_ssd (dw_hif (pw_world w)) x)
    /\ (forall x, hi_host (dw_hif (pw_world w')) x = hi_host (dw_hif (pw_world w)) x).
Proof.
  intros (Hq & Hc1 & Hc2 & Hlen) Ha Hlp Hs Hsl Hready. unfold get_prp_page. simpl.
  assert (Hl : 0 <= l) by apply Hlp.
  destruct (arr_get_lookup (dma_list (pw_dma w)) 0) as (e & -> & _); [lia|]. simpl.
  rewrite arr_set_Ok by lia. simpl. unfold sync_host_dma.
  match goal with |- context [sync_dma_cbk ?d _ _] => set (d1 := d) end.
  change (sync_dma_cbk d1 PCI_DMA_READ (pw_world w)) with (do_sync_dma_operation d1 PCI_DMA_READ (pw_world w)).
  assert (Hrest : entries (Z.to_nat (n_ops d1 - c_op_smem_pg d1)) (c_op_smem_pg d1) (dma_list d1) = [(a, l)]).
  { unfold d1. simpl. rewrite Hc2. unfold entries. simpl. rewrite drop_0.
    destruct (dma_list (pw_dma w)) as [|e0 es]; [simpl in Hlen; lia|]. done. }
  assert (Hrl : (if c_op_len d1 =? 0 then data_size d1 else c_op_len d1) = l)
    by (unfold d1; simpl; by rewrite Hc1).
  assert (Hlfits : fits 32 l) by (unfold fits; lia).
  pose proof (dma_operation_reads d1 (pw_world w)) as Hop. rewrite Hrest, Hrl in Hop. cbv zeta in Hop.
  assert (Htot : total [(a, l)] = l) by (unfold total; simpl; lia). rewrite Htot, Z.min_id in Hop.
  destruct Hop as [Hd Hg]; try done; try (unfold d1; simpl; rewrite ?length_insert; lia).
  { constructor; [by split|by constructor]. }
  destruct (Hg Hready) as [w1 E1]. rewrite E1. simpl.
  destruct (Hd _ _ E1) as (_ & Hs1 & Ho1 & Hh1 & Hq1).
  eexists. split; [done|]. split; [|split; [|split]].
  - split_and!; simpl; try done. unfold d1. simpl. rewrite length_insert. lia.
  - intros o Ho. simpl. unfold d1 in Hs1. simpl in Hs1. rewrite Hs1 by lia.
    destruct (Z.ltb_spec o l); [done|lia].
  - intros x Hx. simpl. apply Ho1. unfold d1. simpl. lia.
  - intros x. apply Hh1.
Qed.

(** *** Decoding *)

Definition prp_first (prp1 len : Z) : Z := Z.min len (page - prp1 mod page).
Definition prp_rest (prp1 len : Z) : Z := len - prp_first prp1 len.
(** What the driver takes for page [j] after the first: [prp2] itself, or the words
    that follow each other from [prp2] on. *)
Definition prp_page (host : mem) (prp2 rest j : Z) : Z :=
  if rest <=? page then prp2 else load_le 8 (prp2 + 8 * j) host.

(** What the driver checks of the two fields and of these words. *)
Definition prp_valid (host : mem) (prp1 prp2 len : Z) : bool :=
  let rest := prp_rest prp1 len in
  negb (prp1 =? 0)
  && ((rest =? 0)
      || negb (prp2 =? 0)
         && forallb (fun j => negb (misaligned c (prp_page host prp2 rest (Z.of_nat j))))
              (seq 0 (Z.to_nat (pages_of page rest)))).

Definition prp_segs (host : mem) (prp1 prp2 len : Z) : list (Z * Z) :=
  let rest := prp_rest prp1 len in
  (prp1, prp_first prp1 len)
  :: page_entries page (prp_page host prp2 rest) (Z.to_nat (pages_of page rest)) 0 rest.

Lemma prp_first_bounds prp1 len : 0 < len -> 0 < prp_first prp1 len <= len.
Proof.
  intros. unfold prp_first. pose proof page_bounds.
  pose proof (Z.mod_pos_bound prp1 page ltac:(lia)). lia.
Qed.

Lemma prp_segs_total host prp1 prp2 len : 0 < len -> total (prp_segs host prp1 prp2 len) = len.
Proof.
  intros Hl. pose proof page_bounds. pose proof (prp_first_bounds prp1 len Hl) as Hf.
  unfold prp_segs, total. simpl.
  fold (total (page_entries page (prp_page host prp2 (prp_rest prp1 len))
                 (Z.to_nat (pages_of page (prp_rest prp1 len))) 0 (prp_rest prp1 len))).
  rewrite page_entries_total; [unfold prp_rest; lia|lia|unfold prp_rest; lia|].
  rewrite Z2Nat.id; [done|]. apply pages_of_nonneg; unfold prp_rest; lia.
Qed.

Lemma prp_segs_addr host prp1 prp2 len off :
  0 <= off < len ->
  seg_addr (prp_segs host prp1 prp2 len) off
  = prp_spec_addr page prp1 (prp_page host prp2 (prp_rest prp1 len)) off.
Proof.
  intros Ho. pose proof page_bounds. pose proof (Z.mod_pos_bound prp1 page ltac:(lia)) as Hm.
  pose proof (prp_first_bounds prp1 len ltac:(lia)) as Hf.
  unfold prp_segs, prp_spec_addr. rewrite seg_addr_cons.
  destruct (Z.ltb_spec off (prp_first prp1 len)) as [Hlt|Hge].
  - destruct (Z.ltb_spec (prp1 mod page + off) page); [done|]. unfold prp_first in Hlt. lia.
  - assert (Ef : prp_first prp1 len = page - prp1 mod page) by (unfold prp_first in *; lia).
    destruct (Z.ltb_spec (prp1 mod page + off) page); [lia|].
    rewrite page_entries_addr; [|lia|rewrite Z2Nat.id; [done|apply pages_of_nonneg; unfold prp_rest; lia]
      |unfold prp_rest; lia].
    replace (prp1 mod page + off) with (off - prp_first prp1 len + 1 * page) by lia.
    rewrite Z.div_add, Z.mod_add by lia. f_equal. f_equal. lia.
Qed.

Lemma load_le_ext n a b m m' :
  (forall o, 0 <= o < Z.of_nat n -> m (a + o) = m' (b + o)) -> load_le n a m = load_le n b m'.
Proof.
  revert a b. induction n as [|n IH]; intros a b Hm; [done|]. simpl. f_equal.
  - specialize (Hm 0 ltac:(lia)). by rewrite !Z.add_0_r in Hm.
  - f_equal. apply IH. intros o Ho. specialize (Hm (1 + o) ltac:(lia)). by rewrite !Z.add_assoc in Hm.
Qed.

Lemma prp_page_fits host prp2 rest j : mem_ok host -> fits 64 prp2 -> fits 64 (prp_page host prp2 rest j).
Proof.
  intros Hm Hp. unfold prp_page. destruct (rest <=? page); [done|]. exact (load_le_fits 8 _ _ Hm).
Qed.

Lemma page_entries_ok P n : forall i len,
  (forall j, fits 64 (P j)) -> 0 <= len < 2 ^ 32 -> Forall seg_ok (page_entries page P n i len).
Proof.
  pose proof page_bounds.
  induction n as [|n IH]; intros i len HP Hl; simpl; [done|].
  constructor; [|apply IH; [done|lia]]. split; [apply HP|]. unfold page_len. change INTERFACE_DMA_PAGE_SIZE with 65536. simpl. lia.
Qed.

Lemma prp_segs_ok host prp1 prp2 len :
  mem_ok host -> fits 64 prp1 -> fits 64 prp2 -> 0 < len < 2 ^ 32 -> Forall seg_ok (prp_segs host prp1 prp2 len).
Proof.
  intros Hm H1 H2 Hl. pose proof (prp_first_bounds prp1 len ltac:(lia)). constructor.
  - split; [done|]. unfold page_len. change INTERFACE_DMA_PAGE_SIZE with 65536. simpl. unfold prp_first in *.
    pose proof page_bounds. pose proof (Z.mod_pos_bound prp1 page ltac:(lia)). lia.
  - apply page_entries_ok; [intros; by apply prp_page_fits|unfold prp_rest; lia].
Qed.

(** The number of list entries of a transfer of [len] bytes. *)
Definition prp_count (prp1 len : Z) : Z := 1 + pages_of page (prp_rest prp1 len).

Lemma valid_forall host prp1 prp2 len : prp_rest prp1 len <> 0 ->
  prp_valid host prp1 prp2 len = true <->
  prp1 <> 0 /\ prp2 <> 0 /\
  (forall j, 0 <= j < pages_of page (prp_rest prp1 len) ->
     misaligned c (prp_page host prp2 (prp_rest prp1 len) j) = false).
Proof.
  intros Hr. unfold prp_valid. apply Z.eqb_neq in Hr. rewrite Hr. simpl.
  rewrite !andb_true_iff, !negb_true_iff, !Z.eqb_neq, forallb_forall.
  split; intros (H1 & H2 & H3); (split; [done|split; [done|]]).
  - intros j Hj. specialize (H3 (Z.to_nat j)). rewrite Z2Nat.id in H3 by lia.
    apply negb_true_iff, H3, in_seq. lia.
  - intros j Hj%in_seq. apply negb_true_iff, H3. lia.
Qed.

(** What a run of [decode_prp] leaves untouched. *)
Definition prp_frame (n : Z) (w w' : prp_world) : Prop :=
  prp_idle w'
  /\ (forall x, ~ (prp_list c <= x < prp_list c + 8 * n) ->
      hi_ssd (dw_hif (pw_world w')) x = hi_ssd (dw_hif (pw_world w)) x)
  /\ (forall x, hi_host (dw_hif (pw_world w')) x = hi_host (dw_hif (pw_world w)) x)
  /\ (mem_ok (hi_ssd (dw_hif (pw_world w))) -> mem_ok (hi_host (dw_hif (pw_world w))) ->
      mem_ok (hi_ssd (dw_hif (pw_world w')))).

Lemma prp_trans_eq len : 0 <= len -> pages_of page len <= 16 ->
  prp_trans c len = 8 * pages_of page len.
Proof.
  intros Hl Hp. pose proof page_bounds. pose proof max_bounds.
  pose proof (pages_of_le page len ltac:(lia) Hl). unfold prp_trans.
  rewrite Z.shiftr_div_pow2 by lia. rewrite <- page_pow.
  rewrite (u32_id (len + page - 1)) by nia. fold (pages_of page len).
  pose proof (pages_of_nonneg page len ltac:(lia) Hl).
  rewrite Z.min_r by lia. rewrite u32_id by lia. lia.
Qed.

(** Fetching the list makes its entries those of the host's page. *)
Lemma fetch_list prp2 len w :
  prp_idle w -> fits 64 prp2 -> 0 <= len -> pages_of page len <= 16 -> page < len ->
  0 <= prp_list c -> prp_list c + 128 < 2 ^ 32 -> ready_for 1 (pw_world w) ->
  exists w', get_prp_page prp2 (prp_list c) (prp_trans c len) w = Ok w'
    /\ prp_frame (pages_of page len) w w'
    /\ forall j, 0 <= j < pages_of page len ->
         prp_entry c j w' = prp_page (hi_host (dw_hif (pw_world w))) prp2 len j.
Proof.
  intros Hi Hp Hl Hn Hgt Hb Hb2 Hready. rewrite prp_trans_eq by done. pose proof page_bounds.
  pose proof (pages_of_nonneg page len ltac:(lia) Hl).
  destruct (get_prp_page_spec prp2 (prp_list c) (8 * pages_of page len) w Hi Hp ltac:(unfold page_len; change INTERFACE_DMA_PAGE_SIZE with 65536; lia) Hb ltac:(lia) Hready)
    as (w' & E & Hi' & Hin & Hout & Hh).
  exists w'. split; [done|]. split.
  { split_and!; try done. intros Hs Ho x.
    destruct (decide (prp_list c <= x < prp_list c + 8 * pages_of page len)) as [Hx|Hx]; [|by rewrite Hout].
    replace x with (prp_list c + (x - prp_list c)) by lia. rewrite Hin by lia. apply Ho. }
  intros j Hj. unfold prp_entry, prp_page. destruct (Z.leb_spec len page); [lia|].
  apply load_le_ext. intros o Ho. rewrite <- !Z.add_assoc. apply Hin. lia.
Qed.

(** The first entry is always written; the rest follows the size of what is left. *)
Lemma decode_prp_first prp1 prp2 d w :
  prp1 <> 0 -> 0 < data_size d < 2 ^ 31 -> length (dma_list d) = 16%nat ->
  exists d1, dma_ext (set_n_ops 0 d) d1 [(prp1, prp_first prp1 (data_size d))]
    /\ n_ops d1 = 1
    /\ decode_prp c prp1 prp2 d w =
       (let rest := prp_rest prp1 (data_size d) in
        if rest =? 0 then Ok (0, d1, w)
        else if prp2 =? 0 then Ok (-1, d1, w)
        else if page <? rest then
          let! w := get_prp_page prp2 (prp_list c) (prp_trans c rest) w in
          prp_loop c prp_fuel 0 rest d1 w
        else if negb (Z.land prp2 (page - 1) =? 0) then Ok (-1, d1, w)
        else let! d2 := add_dma_entry d1 prp2 rest in Ok (0, d2, w)).
Proof.
  intros H1 Hl Hlen. unfold decode_prp. apply Z.eqb_neq in H1. rewrite H1. pose proof page_bounds.
  pose proof (Z.mod_pos_bound prp1 page ltac:(lia)). rewrite (u32_id (page - prp1 mod page)) by lia.
  fold (prp_first prp1 (data_size d)).
  destruct (add_dma_entry_spec (set_n_ops 0 d) prp1 (prp_first prp1 (data_size d))) as (d1 & E & Hd1);
    [simpl; rewrite Hlen; lia..|].
  exists d1. split; [done|]. split; [by rewrite (de_n_ops _ _ _ Hd1)|]. rewrite E. done.
Qed.

Lemma io_entries_first d d1 es : dma_ext (set_n_ops 0 d) d1 es -> io_entries d1 = es.
Proof. intros [_ _ _ _ E]. rewrite E. done. Qed.

Lemma page_entries_length P n : forall i len, length (page_entries page P n i len) = n.
Proof. induction n as [|n IH]; intros; simpl; [done|]. by rewrite IH. Qed.

Lemma page_entries_ext P Q n : forall i len,
  (forall j, i <= j < i + Z.of_nat n -> P j = Q j) -> page_entries page P n i len = page_entries page Q n i len.
Proof.
  induction n as [|n IH]; intros i len E; simpl; [done|]. rewrite E by lia. f_equal.
  apply IH. intros j Hj. apply E. lia.
Qed.

(** The result of a successful decoding. *)
Record decoded (host : mem) (prp1 prp2 : Z) (d d' : dma_t) : Prop := {
  dc_size : data_size d' = data_size d;
  dc_n_ops : n_ops d' = prp_count prp1 (data_size d);
  dc_total : total (io_entries d') = data_size d;
  dc_length : length (dma_list d') = length (dma_list d);
  dc_segs : io_entries d' = prp_segs host prp1 prp2 (data_size d);
  dc_addr : forall off, 0 <= off < data_size d ->
    seg_addr (io_entries d') off
    = prp_spec_addr page prp1 (prp_page host prp2 (prp_rest prp1 (data_size d))) off }.

Lemma decoded_of_ext host prp1 prp2 d d' :
  0 < data_size d ->
  dma_ext (set_n_ops 0 d) d' (prp_segs host prp1 prp2 (data_size d)) -> decoded host prp1 prp2 d d'.
Proof.
  intros Hl Hd. pose proof page_bounds. pose proof (prp_first_bounds prp1 _ Hl).
  split; rewrite ?(io_entries_first _ _ _ Hd).
  - by rewrite (de_size _ _ _ Hd).
  - rewrite (de_n_ops _ _ _ Hd). unfold prp_count, prp_segs. simpl. rewrite page_entries_length.
    pose proof (pages_of_nonneg page (prp_rest prp1 (data_size d)) ltac:(lia) ltac:(unfold prp_rest; lia)). lia.
  - by apply prp_segs_total.
  - by rewrite (de_length _ _ _ Hd).
  - done.
  - intros off Ho. by apply prp_segs_addr.
Qed.

Lemma not_valid_exists host prp1 prp2 len :
  prp1 <> 0 -> prp2 <> 0 -> prp_valid host prp1 prp2 len = false ->
  exists j, 0 <= j < pages_of page (prp_rest prp1 len)
    /\ misaligned c (prp_page host prp2 (prp_rest prp1 len) j) = true.
Proof.
  intros H1 H2 Hv. unfold prp_valid in Hv. apply Z.eqb_neq in H1, H2. rewrite H1, H2 in Hv. simpl in Hv.
  apply orb_false_iff in Hv as [_ (j & Hj%in_seq & Hm)%forallb_false_exists].
  exists (Z.of_nat j). split; [lia|]. by apply negb_false_iff in Hm.
Qed.

(** The last case of [decode_prp]: the list page. *)
Lemma decode_list prp1 prp2 d d1 w :
  let host := hi_host (dw_hif (pw_world w)) in
  let len := data_size d in
  let rest := prp_rest prp1 len in
  prp_idle w -> ready_for 1 (pw_world w) -> prp1 <> 0 -> prp2 <> 0 -> fits 64 prp2 ->
  0 < len < 2 ^ 31 -> length (dma_list d) = 16%nat -> prp_count prp1 len <= 16 ->
  0 <= prp_list c -> prp_list c + 128 < 2 ^ 32 -> page < rest ->
  dma_ext (set_n_ops 0 d) d1 [(prp1, prp_first prp1 len)] ->
  exists d' w',
    (let! w := get_prp_page prp2 (prp_list c) (prp_trans c rest) w in prp_loop c prp_fuel 0 rest d1 w)
      = Ok (if prp_valid host prp1 prp2 len then 0 else -1, d', w')
    /\ prp_frame (pages_of page rest) w w'
    /\ (prp_valid host prp1 prp2 len = true -> decoded host prp1 prp2 d d').
Proof.
  intros host len rest Hi Hready H1 H2 Hp2 Hl Hlen Hcount Hb Hb2 Hgt Hd1.
  pose proof page_bounds as Hpb. unfold prp_count in Hcount. fold rest in Hcount.
  pose proof (pages_of_pos page rest ltac:(lia) ltac:(lia)) as Hpos. pose proof max_bounds as Hmax.
  assert (Hn1 : n_ops d1 = 1) by (by rewrite (de_n_ops _ _ _ Hd1)).
  assert (Hl1 : length (dma_list d1) = 16%nat) by (rewrite (de_length _ _ _ Hd1); done).
  destruct (fetch_list prp2 rest w Hi Hp2 ltac:(lia) ltac:(lia) Hgt Hb Hb2 Hready) as (w1 & -> & Hf1 & Hent).
  cbn [obind]. fold host in Hent. destruct (prp_valid host prp1 prp2 len) eqn:Hv.
  - apply valid_forall in Hv as (_ & _ & Hv); [|fold rest; lia]. fold rest in Hv.
    destruct (prp_loop_valid prp_fuel 0 rest d1 w1) as (d2 & -> & Hd2);
      try (rewrite ?Hl1, ?Hn1; unfold prp_fuel; lia).
    { intros j Hj. rewrite Hent by lia. apply Hv. lia. }
    exists d2, w1. split; [done|]. split; [done|]. intros _. apply decoded_of_ext; [lia|].
    rewrite (page_entries_ext _ (prp_page host prp2 rest)) in Hd2 by (intros; apply Hent; lia).
    exact (dma_ext_trans _ _ _ _ _ Hd1 Hd2).
  - destruct (not_valid_exists _ _ _ _ H1 H2 Hv) as (j & Hj & Hm).
    destruct (prp_loop_invalid prp_fuel 0 rest d1 w1 j) as (d2 & ->);
      try (rewrite ?Hl1, ?Hn1; unfold prp_fuel; lia); [done| |].
    { fold rest in Hm. by rewrite Hent by done. }
    exists d2, w1. split; [done|]. split; [done|discriminate].
Qed.

(** Two pages: [prp2] is the second one. *)
Lemma decode_pair host prp1 prp2 d d1 (w : prp_world) :
  let len := data_size d in
  let rest := prp_rest prp1 len in
  prp1 <> 0 -> prp2 <> 0 -> 0 < len -> length (dma_list d) = 16%nat -> 0 < rest <= page ->
  dma_ext (set_n_ops 0 d) d1 [(prp1, prp_first prp1 len)] ->
  exists d',
    (if negb (Z.land prp2 (page - 1) =? 0) then Ok (-1, d1, w)
     else let! d2 := add_dma_entry d1 prp2 rest in Ok (0, d2, w))
      = Ok (if prp_valid host prp1 prp2 len then 0 else -1, d', w)
    /\ (prp_valid host prp1 prp2 len = true -> decoded host prp1 prp2 d d').
Proof.
  intros len rest H1 H2 Hl Hlen Hr Hd1. pose proof page_bounds as Hpb.
  assert (Hone : pages_of page rest = 1).
  { rewrite pages_step by lia. rewrite Z.min_l, Z.sub_diag, pages_of_0 by lia. done. }
  assert (EP : prp_page host prp2 rest 0 = prp2).
  { unfold prp_page. destruct (Z.leb_spec rest page); [done|lia]. }
  assert (Hv : prp_valid host prp1 prp2 len = negb (negb (Z.land prp2 (page - 1) =? 0))).
  { unfold prp_valid. fold rest. rewrite Hone. change (Z.to_nat 1) with 1%nat. cbn [forallb seq].
    change (Z.of_nat 0) with 0. rewrite EP. unfold misaligned.
    replace (rest =? 0) with false by (symmetry; apply Z.eqb_neq; lia).
    apply Z.eqb_neq in H1, H2. rewrite H1, H2. simpl. by rewrite andb_true_r. }
  rewrite Hv. destruct (negb (Z.land prp2 (page - 1) =? 0)); simpl; [by exists d1|].
  assert (Hn1 : n_ops d1 = 1) by (by rewrite (de_n_ops _ _ _ Hd1)).
  assert (Hl1 : length (dma_list d1) = 16%nat) by (rewrite (de_length _ _ _ Hd1); done).
  destruct (add_dma_entry_spec d1 prp2 rest) as (d2 & -> & Hd2); [lia|lia|]. simpl.
  exists d2. split; [done|]. intros _. apply decoded_of_ext; [lia|].
  unfold prp_segs. fold len rest. rewrite Hone. simpl. rewrite EP, Z.min_l by lia.
  exact (dma_ext_trans _ _ _ [_] _ Hd1 Hd2).
Qed.

(** Decoding, in all cases. *)
Lemma decode_prp_ok prp1 prp2 d w :
  let host := hi_host (dw_hif (pw_world w)) in
  let len := data_size d in
  prp_idle w -> ready_for 1 (pw_world w) -> fits 64 prp1 -> fits 64 prp2 ->
  0 < len < 2 ^ 31 -> length (dma_list d) = 16%nat -> prp_count prp1 len <= 16 ->
  0 <= prp_list c -> prp_list c + 128 < 2 ^ 32 ->
  exists d' w', decode_prp c prp1 prp2 d w = Ok (if prp_valid host prp1 prp2 len then 0 else -1, d', w')
    /\ prp_frame (pages_of page (prp_rest prp1 len)) w w'
    /\ (prp_valid host prp1 prp2 len = true -> decoded host prp1 prp2 d d').
Proof.
  intros host len Hi Hready Hp1 Hp2 Hl Hlen Hcount Hb Hb2. set (rest := prp_rest prp1 len).
  assert (Hframe : prp_frame (pages_of page rest) w w) by (split_and!; done).
  destruct (Z.eq_dec prp1 0) as [->|H1].
  { exists d, w. split; [done|]. split; [done|]. intros Hv. discriminate Hv. }
  destruct (decode_prp_first prp1 prp2 d w H1 Hl Hlen) as (d1 & Hd1 & _ & ->). fold len. fold rest.
  cbv zeta. pose proof page_bounds as Hpb. pose proof (prp_first_bounds prp1 len ltac:(lia)) as Hfb.
  assert (Hr0 : 0 <= rest) by (unfold rest, prp_rest; lia).
  destruct (Z.eqb_spec rest 0) as [Er|Er].
  { assert (Hv : prp_valid host prp1 prp2 len = true).
    { unfold prp_valid. fold rest. rewrite Er. apply Z.eqb_neq in H1. by rewrite H1. }
    rewrite Hv. exists d1, w. split; [done|]. split; [done|]. intros _. apply decoded_of_ext; [lia|].
    unfold prp_segs. fold len rest. rewrite Er, pages_of_0 by lia. done. }
  destruct (Z.eqb_spec prp2 0) as [Ep|Ep].
  { assert (Hv : prp_valid host prp1 prp2 len = false).
    { apply not_true_iff_false. intros (_ & ? & _)%valid_forall; done. }
    rewrite Hv. exists d1, w. split; [done|]. split; [done|discriminate]. }
  destruct (Z.ltb_spec page rest) as [Hgt|Hle].
  - by apply decode_list.
  - destruct (decode_pair host prp1 prp2 d d1 w H1 Ep ltac:(lia) Hlen ltac:(fold len rest; lia) Hd1)
      as (d' & E & Hd). exists d', w. by split.
Qed.

(** *** The PRP lists of the NVMe specification

    A list pointer may point into a list page, at a multiple of eight bytes.  The
    list goes on to the end of that page; when the transfer needs more entries than
    are left there, the last one points to the next list page instead. *)
Definition list_room (p : Z) : Z := (page - p mod page) / 8.

(** Entry [j] of the [n] entries of the list at [p]. *)
Fixpoint nvme_entry (fuel : nat) (host : mem) (p n j : Z) : Z :=
  match fuel with
  | O => 0
  | S fuel =>
      if n <=? list_room p then load_le 8 (p + 8 * j) host
      else
        let last := list_room p - 1 in
        if j <? last then load_le 8 (p + 8 * j) host
        else nvme_entry fuel host (load_le 8 (p + 8 * last) host) (n - last) (j - last)
  end.

(** Page [j] after the first; the fuel is one list page per entry, and the page
    of the pointer. *)
Definition nvme_page (host : mem) (prp2 rest j : Z) : Z :=
  if rest <=? page then prp2
  else nvme_entry (S (Z.to_nat (pages_of page rest))) host prp2 (pages_of page rest) j.

(** The fields and the pages they name are there and begin at page boundaries. *)
Definition nvme_valid (host : mem) (prp1 prp2 len : Z) : bool :=
  let rest := prp_rest prp1 len in
  negb (prp1 =? 0)
  && ((rest =? 0)
      || negb (prp2 =? 0)
         && forallb (fun j => negb (misaligned c (nvme_page host prp2 rest (Z.of_nat j))))
              (seq 0 (Z.to_nat (pages_of page rest)))).

(** The whole list lies in the page of the pointer. *)
Definition list_inside (prp2 rest : Z) : Prop :=
  page < rest -> prp2 mod 8 = 0 /\ pages_of page rest <= list_room prp2.

Lemma nvme_page_inside host prp2 rest j : list_inside prp2 rest -> nvme_page host prp2 rest j = prp_page host prp2 rest j.
Proof.
  intros Hi. unfold nvme_page, prp_page. destruct (Z.leb_spec rest page) as [?|Hgt]; [done|].
  destruct (Hi Hgt) as (_ & Hn). cbn [nvme_entry]. by rewrite (proj2 (Z.leb_le _ _) Hn).
Qed.

Lemma nvme_valid_inside host prp1 prp2 len : list_inside prp2 (prp_rest prp1 len) ->
  nvme_valid host prp1 prp2 len = prp_valid host prp1 prp2 len.
Proof.
  intros Hi. unfold nvme_valid, prp_valid. do 3 f_equal. generalize (seq 0 (Z.to_nat (pages_of page (prp_rest prp1 len)))).
  induction l as [|j l IH]; [done|]. cbn [forallb]. by rewrite IH, nvme_page_inside.
Qed.

(** C17: decoding the PRP fields of a command follows the address rule of the NVMe
    specification for a transfer of at most 16 host pages whose list, if it needs
    one, lies in one list page: [decode_prp] returns, with 0 when the fields and
    the list are valid for the specification and with -1 otherwise; when they
    are, the entries cover exactly [data_size] bytes and byte [off] of them is the
    host byte the specification assigns to it.  Only the buffer of list pages is
    written.  (A 17th page is the subject of the overflow theorem, a list that
    goes on in another page that of the chain theorem.) *)
Theorem decode_prp_correct prp1 prp2 d w :
  let host := hi_host (dw_hif (pw_world w)) in
  let len := data_size d in
  prp_idle w -> ready_for 1 (pw_world w) -> fits 64 prp1 -> fits 64 prp2 ->
  0 < len < 2 ^ 31 -> length (dma_list d) = 16%nat -> prp_count prp1 len <= 16 ->
  list_inside prp2 (prp_rest prp1 len) ->
  0 <= prp_list c -> prp_list c + 128 < 2 ^ 32 ->
  exists d' w', decode_prp c prp1 prp2 d w = Ok (if nvme_valid host prp1 prp2 len then 0 else -1, d', w')
    /\ prp_frame (pages_of page (prp_rest prp1 len)) w w'
    /\ (nvme_valid host prp1 prp2 len = true ->
        data_size d' = len /\ n_ops d' = prp_count prp1 len /\ total (io_entries d') = len /\
        forall off, 0 <= off < len ->
          seg_addr (io_entries d') off = prp_spec_addr page prp1 (nvme_page host prp2 (prp_rest prp1 len)) off).
Proof.
  intros host len Hi Hr H1 H2 Hl Hlen Hc Hin Hb Hb2. rewrite nvme_valid_inside by done.
  destruct (decode_prp_ok prp1 prp2 d w Hi Hr H1 H2 Hl Hlen Hc Hb Hb2) as (d' & w' & E & Hf & Hd).
  exists d', w'. split; [exact E|]. split; [exact Hf|]. intros Hv. destruct (Hd Hv) as [Ds Dn Dt _ _ Da].
  split_and!; try done. intros off Ho. rewrite (Da off Ho). unfold prp_spec_addr. cbv zeta.
  by rewrite nvme_page_inside.
Qed.

Lemma page_entries_lookup P n i r k : (k < n)%nat ->
  exists l, page_entries page P n i r !! k = Some (P (i + Z.of_nat k), l).
Proof.
  revert i r k. induction n as [|n IH]; intros i r k Hk; [lia|]. destruct k as [|k].
  - exists (Z.min r page). simpl. by rewrite Z.add_0_r.
  - destruct (IH (i + 1) (r - Z.min r page) k ltac:(lia)) as (l & E). exists l. simpl. rewrite E. do 3 f_equal. lia.
Qed.

Lemma prp_segs_lookup host prp1 prp2 len j : 0 <= j < pages_of page (prp_rest prp1 len) ->
  exists l, prp_segs host prp1 prp2 len !! S (Z.to_nat j) = Some (prp_page host prp2 (prp_rest prp1 len) j, l).
Proof.
  intros Hj. destruct (page_entries_lookup (prp_page host prp2 (prp_rest prp1 len))
    (Z.to_nat (pages_of page (prp_rest prp1 len))) 0 (prp_rest prp1 len) (Z.to_nat j) ltac:(lia)) as (l & E).
  exists l. rewrite Z.add_0_l, Z2Nat.id in E by lia. exact E.
Qed.

(** C19: a PRP list that goes on in another page is misread: when the list pointer
    leaves room for fewer entries than the transfer needs, the last of them is the
    pointer to the next list page, but [decode_prp] lists that pointer as a page of
    the transfer, where the specification means the first entry of the next list
    page: the data go to, or come from, the host's list. *)
Theorem decode_prp_lists_chain prp1 prp2 d w :
  let host := hi_host (dw_hif (pw_world w)) in
  let len := data_size d in
  let last := list_room prp2 - 1 in
  let next := load_le 8 (prp2 + 8 * last) host in
  prp_idle w -> ready_for 1 (pw_world w) -> fits 64 prp1 -> fits 64 prp2 ->
  0 < len < 2 ^ 31 -> length (dma_list d) = 16%nat -> prp_count prp1 len <= 16 ->
  0 <= prp_list c -> prp_list c + 128 < 2 ^ 32 ->
  page < prp_rest prp1 len -> 0 <= last -> list_room prp2 < pages_of page (prp_rest prp1 len) ->
  pages_of page (prp_rest prp1 len) - last <= list_room next ->
  prp_valid host prp1 prp2 len = true ->
  exists d' w' l, decode_prp c prp1 prp2 d w = Ok (0, d', w') /\
    io_entries d' !! S (Z.to_nat last) = Some (next, l) /\
    nvme_page host prp2 (prp_rest prp1 len) last = load_le 8 next host.
Proof.
  intros host len last next Hi Hr H1 H2 Hl Hlen Hc Hb Hb2 Hgt Hk0 Hk Hnext Hv.
  destruct (decode_prp_ok prp1 prp2 d w Hi Hr H1 H2 Hl Hlen Hc Hb Hb2) as (d' & w' & E & _ & Hd). fold host len in E, Hd.
  rewrite Hv in E. destruct (prp_segs_lookup host prp1 prp2 len last ltac:(lia)) as (l & El).
  exists d', w', l. split; [exact E|]. rewrite (dc_segs _ _ _ _ _ (Hd Hv)). fold len.
  assert (Hlast : forall x, list_room x - 1 = last -> (pages_of page (prp_rest prp1 len) <=? list_room x) = false)
    by (intros x Hx; apply Z.leb_gt; unfold last in *; lia).
  split.
  - rewrite El. unfold prp_page. destruct (Z.leb_spec (prp_rest prp1 len) page); [lia|done].
  - unfold nvme_page. destruct (Z.leb_spec (prp_rest prp1 len) page); [lia|].
    destruct (Z.to_nat (pages_of page (prp_rest prp1 len))) as [|n] eqn:En; [unfold last in *; lia|].
    cbn [nvme_entry]. rewrite (Hlast prp2 eq_refl). fold last. rewrite Z.ltb_irrefl. fold next.
    rewrite (proj2 (Z.leb_le _ _) Hnext), Z.sub_diag, Z.mul_0_r, Z.add_0_r. done.
Qed.

(** C18: a transfer that touches 17 host pages overruns the 16 entries of
    [dma_list_t]: with a well-formed list the 17th store is out of bounds.  A
    64 KiB command whose first PRP is not page aligned is one. *)
Theorem decode_prp_overflow prp1 prp2 d w :
  let host := hi_host (dw_hif (pw_world w)) in
  let len := data_size d in
  prp_idle w -> ready_for 1 (pw_world w) -> fits 64 prp2 ->
  0 < len < 2 ^ 31 -> length (dma_list d) = 16%nat -> prp_count prp1 len = 17 ->
  0 <= prp_list c -> prp_list c + 128 < 2 ^ 32 ->
  prp_valid host prp1 prp2 len = true ->
  decode_prp c prp1 prp2 d w = Fault FBounds.
Proof.
  intros host len Hi Hready Hp2 Hl Hlen Hcount Hb Hb2 Hv. pose proof page_bounds as Hpb.
  unfold prp_count in Hcount. set (rest := prp_rest prp1 len) in *.
  assert (Hr0 : page < rest).
  { destruct (Z.le_gt_cases rest page) as [Hle|]; [|lia]. exfalso.
    destruct (Z.le_gt_cases rest 0) as [H0|H0].
    - assert (rest = 0) as Er by (pose proof (prp_first_bounds prp1 len ltac:(lia)); unfold rest, prp_rest in *; lia).
      rewrite Er, pages_of_0 in Hcount by lia. lia.
    - rewrite pages_step, Z.min_l, Z.sub_diag, pages_of_0 in Hcount by lia. lia. }
  apply valid_forall in Hv as (H1 & H2 & Hv); [|fold rest; lia]. fold rest in Hv.
  destruct (decode_prp_first prp1 prp2 d w H1 Hl Hlen) as (d1 & Hd1 & Hn1 & ->). fold len. fold rest. cbv zeta.
  destruct (Z.eqb_spec rest 0); [lia|]. destruct (Z.eqb_spec prp2 0); [done|].
  destruct (Z.ltb_spec page rest); [|lia].
  destruct (fetch_list prp2 rest w Hi Hp2 ltac:(lia) ltac:(lia) Hr0 Hb Hb2 Hready) as (w1 & -> & Hf1 & Hent).
  cbn [obind]. assert (Hl1 : length (dma_list d1) = 16%nat) by (rewrite (de_length _ _ _ Hd1); done).
  pose proof max_bounds. apply prp_loop_overflow; try (rewrite ?Hl1, ?Hn1; unfold prp_fuel; lia).
  intros j Hj. fold host in Hent. rewrite Hent by lia. apply Hv. lia.
Qed.

End decode.

(** ** A host with a list page at [0x10000] naming pages [0x20000], [0x21000], ... *)

Definition demo_prp_config : prp_config := PrpConfig 12 0x8000.
Definition demo_prp_host (a : Z) : Z :=
  let o := a - 0x10000 in
  if in_range 4096 o then u8 ((0x20000 + 4096 * (o / 8)) / 256 ^ (o mod 8)) else 0.
Definition demo_prp_world : prp_world :=
  PrpWorld dma0 (DmaWorld (hif0 (fun _ => 0) demo_prp_host) sync_dma0 [turns]).

Lemma demo_prp_idle : prp_idle demo_prp_world.
Proof. split_and!; try done; apply hif0_quiescent || (simpl; lia). Qed.

Lemma demo_prp_ready : ready_for 1 (pw_world demo_prp_world).
Proof. split; simpl; [lia|]. constructor; [apply turns_fair|done]. Qed.

(** 64 KiB from the page-aligned [0x5000] on. *)
Lemma decode_prp_correct_witness :
  exists d' w', decode_prp demo_prp_config 0x5000 0x10000 (set_data_size 65536 dma0) demo_prp_world
                = Ok (0, d', w')
    /\ n_ops d' = 16 /\ seg_addr (io_entries d') 0x3004 = 0x22004.
Proof.
  destruct (decode_prp_correct demo_prp_config ltac:(simpl; lia) 0x5000 0x10000
              (set_data_size 65536 dma0) demo_prp_world demo_prp_idle demo_prp_ready)
    as (d' & w' & E & _ & Hd); try (unfold fits; simpl; lia); try reflexivity.
  { intros _. split; [reflexivity|]. vm_compute. discriminate. }
  assert (Hv : nvme_valid demo_prp_config demo_prp_host 0x5000 0x10000 65536 = true) by (vm_compute; reflexivity).
  change (hi_host (dw_hif (pw_world demo_prp_world))) with demo_prp_host in E, Hd.
  change (data_size (set_data_size 65536 dma0)) with 65536 in E, Hd. rewrite Hv in E.
  exists d', w'. split; [exact E|]. destruct (Hd Hv) as (_ & Hn & _ & Ha).
  split; [rewrite Hn; vm_compute; reflexivity|]. rewrite (Ha 0x3004) by (simpl; lia). vm_compute. reflexivity.
Defined.

(** A host whose list goes on: the pointer [0x10FF0] leaves room for two entries,
    so the second one, the word at [0x10FF8], points to the next list page. *)
Definition demo_chain_host (a : Z) : Z :=
  let o := a - 0x10000 in
  let word := if o / 8 =? 511 then 0x11000 else 0x20000 + 4096 * (o / 8) in
  if in_range 8192 o then u8 (word / 256 ^ (o mod 8)) else 0.
Definition demo_chain_world : prp_world :=
  PrpWorld dma0 (DmaWorld (hif0 (fun _ => 0) demo_chain_host) sync_dma0 [turns]).

(** 64 KiB from [0x5000] on: the third page is [0x220000], the driver uses the
    list page [0x11000] as the third one. *)
Lemma decode_prp_lists_chain_witness :
  exists d' w' l, decode_prp demo_prp_config 0x5000 0x10FF0 (set_data_size 65536 dma0) demo_chain_world = Ok (0, d', w')
    /\ io_entries d' !! 2%nat = Some (0x11000, l)
    /\ nvme_page demo_prp_config demo_chain_host 0x10FF0 61440 1 = 0x220000.
Proof.
  assert (Hi : prp_idle demo_chain_world) by (split_and!; try done; apply hif0_quiescent || (simpl; lia)).
  assert (Hr : ready_for 1 (pw_world demo_chain_world)) by (split; simpl; [lia|]; constructor; [apply turns_fair|done]).
  destruct (decode_prp_lists_chain demo_prp_config ltac:(simpl; lia) 0x5000 0x10FF0
              (set_data_size 65536 dma0) demo_chain_world Hi Hr) as (d' & w' & l & E & El & En);
    [first [by vm_compute | split; by vm_compute] ..|].
  exists d', w', l. split; [exact E|]. split; [exact El|]. vm_compute. reflexivity.
Defined.

(** 64 KiB from [0x5010] on. *)
Lemma decode_prp_overflow_witness :
  decode_prp demo_prp_config 0x5010 0x10000 (set_data_size 65536 dma0) demo_prp_world = Fault FBounds.
Proof.
  apply (decode_prp_overflow demo_prp_config ltac:(simpl; lia) 0x5010 0x10000
           (set_data_size 65536 dma0) demo_prp_world demo_prp_idle demo_prp_ready);
    try (unfold fits; simpl; lia); vm_compute; reflexivity.
Defined.
