(* ===== verification/ReqAlloc.v ===== *)
(** * Request objects (firmware/issd_kernel_mem_alloc.c)

    Three pools of request objects, each with a circular queue of its free
    objects: reads, writes and the 1 KiB blocks every other request type is
    placed in. *)

From Stdlib Require Import ZArith Lia Bool List.
From stdpp Require Import base tactics option list.
From S2P Require Import Prelude CTypes Queue Requests.

Definition R_SIZE : Z := 256.
Definition W_SIZE : Z := 256.
Definition O_SIZE : Z := 128.

(** A pointer to a request object. *)
Inductive req_ptr := RPtr (i : Z) | WPtr (i : Z) | OPtr (i : Z).

#[export] Instance req_ptr_eq_dec : EqDecision req_ptr.
Proof. solve_decision. Defined.

(** What a block holds: raw memory behind the common fields, or a request. *)
Inductive req_obj :=
| ORaw (type index stage : Z)
| OIo (r : io_req)
| OAdmin (a : admin_req)
| ONand (o : isp_nand_op)
| OHostDma (o : isp_host_dma).

(** The fields every request begins with. *)
Definition o_type (o : req_obj) : Z :=
  match o with
  | ORaw t _ _ => t | OIo r => rq_type r | OAdmin a => ar_type a
  | ONand n => no_type n | OHostDma h => hd_type h
  end.
Definition o_index (o : req_obj) : Z :=
  match o with
  | ORaw _ i _ => i | OIo r => rq_index r | OAdmin a => ar_index a
  | ONand n => no_index n | OHostDma h => hd_index h
  end.
Definition o_stage (o : req_obj) : Z :=
  match o with
  | ORaw _ _ s => s | OIo r => rq_stage r | OAdmin a => ar_stage a
  | ONand n => no_stage n | OHostDma h => hd_stage h
  end.

Definition set_common (t i s : Z) (o : req_obj) : req_obj :=
  match o with
  | ORaw _ _ _ => ORaw t i s
  | OIo r => OIo (set_stage s (set_type_index t i r))
  | OAdmin a => OAdmin (set_ar_common t i s a)
  | ONand n => ONand (IspNandOp t i s (no_status n) (no_start_lpn n) (no_num_of_lpn n)
                        (no_ssd_addr n) (no_cbk_ftn_id n))
  | OHostDma h => OHostDma (IspHostDma t i s (hd_ssd_addr h) (hd_start_mem_page h) (hd_size h)
                        (hd_tx_type h) (hd_request_code h) (hd_exec_thrd h) (hd_transfered_size h)
                        (hd_ctrl_cmd_index h) (hd_status h))
  end.
Definition set_o_type t o := set_common t (o_index o) (o_stage o) o.
Definition set_o_index i o := set_common (o_type o) i (o_stage o) o.
Definition set_o_stage s o := set_common (o_type o) (o_index o) s o.

Record req_alloc := ReqAlloc {
  r_req : list req_obj; w_req : list req_obj; other_req_alloc : list req_obj;
  free_r_req_objs : queue_t req_ptr; free_w_req_objs : queue_t req_ptr; free_req_objs : queue_t req_ptr }.

Definition get_obj (p : req_ptr) (a : req_alloc) : outcome req_obj :=
  match p with
  | RPtr i => arr_get (r_req a) i
  | WPtr i => arr_get (w_req a) i
  | OPtr i => arr_get (other_req_alloc a) i
  end.

Definition set_obj (p : req_ptr) (o : req_obj) (a : req_alloc) : outcome req_alloc :=
  match p with
  | RPtr i => let! l := arr_set (r_req a) i o in
      Ok (ReqAlloc l (w_req a) (other_req_alloc a) (free_r_req_objs a) (free_w_req_objs a) (free_req_objs a))
  | WPtr i => let! l := arr_set (w_req a) i o in
      Ok (ReqAlloc (r_req a) l (other_req_alloc a) (free_r_req_objs a) (free_w_req_objs a) (free_req_objs a))
  | OPtr i => let! l := arr_set (other_req_alloc a) i o in
      Ok (ReqAlloc (r_req a) (w_req a) l (free_r_req_objs a) (free_w_req_objs a) (free_req_objs a))
  end.

Definition upd_obj (f : req_obj -> req_obj) (p : req_ptr) (a : req_alloc) : outcome req_alloc :=
  let! o := get_obj p a in set_obj p (f o) a.

(** The free queue of a pool *)
Inductive pool := PoolR | PoolW | PoolO.
Definition free_q (k : pool) (a : req_alloc) : queue_t req_ptr :=
  match k with PoolR => free_r_req_objs a | PoolW => free_w_req_objs a | PoolO => free_req_objs a end.
Definition set_free_q (k : pool) (q : queue_t req_ptr) (a : req_alloc) : req_alloc :=
  match k with
  | PoolR => ReqAlloc (r_req a) (w_req a) (other_req_alloc a) q (free_w_req_objs a) (free_req_objs a)
  | PoolW => ReqAlloc (r_req a) (w_req a) (other_req_alloc a) (free_r_req_objs a) q (free_req_objs a)
  | PoolO => ReqAlloc (r_req a) (w_req a) (other_req_alloc a) (free_r_req_objs a) (free_w_req_objs a) q
  end.
Definition pool_ptr (k : pool) (i : Z) : req_ptr :=
  match k with PoolR => RPtr i | PoolW => WPtr i | PoolO => OPtr i end.

(** [while ((req = enQueue(&free, &objs[i++])))]: until the queue is full. *)
Fixpoint init_pool (fuel : nat) (k : pool) (i : Z) (mark : Z -> req_obj -> req_obj) (a : req_alloc)
  : outcome req_alloc :=
  match fuel with
  | O => Fault FFuel
  | S fuel =>
      let! '(req, q) := enQueue (free_q k a) (pool_ptr k i) in
      match req with
      | None => Ok a
      | Some p =>
          let! a := upd_obj (mark (i + 1)) p (set_free_q k q a) in
          init_pool fuel k (i + 1) mark a
      end
  end.

Definition init_req_obj (a : req_alloc) : outcome req_alloc :=
  let! a := init_pool 257 PoolR 0 (fun i o => set_common READ_IO_REQUEST i REQ_STAGE_FREE o) a in
  let! a := init_pool 257 PoolW 0 (fun i o => set_common WRITE_IO_REQUEST i REQ_STAGE_FREE o) a in
  init_pool 129 PoolO 0 (fun i o => set_o_stage REQ_STAGE_FREE (set_o_index i o)) a.

(** The state at reset: zeroed arrays, empty queues. *)
Definition empty_queue (n : Z) : queue_t req_ptr := Queue 0 0 n (replicate (Z.to_nat n) (RPtr 0)).
Definition req_alloc0 : req_alloc :=
  ReqAlloc (replicate 256 (OIo io_req0)) (replicate 256 (OIo io_req0)) (replicate 128 (ORaw 0 0 0))
    (empty_queue R_SIZE) (empty_queue W_SIZE) (empty_queue O_SIZE).

(** The pool a request type lives in. *)
Definition pool_of (req_type : Z) : option pool :=
  if req_type =? READ_IO_REQUEST then Some PoolR
  else if req_type =? WRITE_IO_REQUEST then Some PoolW
  else if (req_type =? ADMIN_REQUEST) || (req_type =? FLUSH_IO_REQUEST) || (req_type =? ISP_IO_REQUEST)
       || (req_type =? ISP_READ_PAGES_REQUEST) || (req_type =? ISP_PROGRAM_PAGES_REQUEST)
       || (req_type =? ISP_HOST_DMA_REQUEST) || (req_type =? TRIM_IO_REQUEST) then Some PoolO
  else None.

(** The result NULL is [None].  With an empty free queue the code prints an
    error and then stores through the NULL pointer. *)
Definition sys_malloc_req_obj (req_type : Z) (a : req_alloc) : outcome (option req_ptr * req_alloc) :=
  match pool_of req_type with
  | None => Ok (None, a)
  | Some k =>
      let! '(req, q) := deQueue (free_q k a) in
      let! p := deref req in
      let a := set_free_q k q a in
      let! a := match k with
                | PoolO => upd_obj (set_o_type req_type) p a
                | _ => Ok a
                end in
      let! a := upd_obj (set_o_stage REQ_STAGE_INUSE) p a in
      Ok (Some p, a)
  end.

(** [sys_free_req_obj]: a request that is not completed is reported, and freed
    all the same; the result of [enQueue] is not used. *)
Definition sys_free_req_obj (req_obj : option req_ptr) (a : req_alloc) : outcome req_alloc :=
  match req_obj with
  | None => Ok a
  | Some p =>
      let! o := get_obj p a in
      match pool_of (o_type o) with
      | None => Ok a
      | Some k =>
          let! '(_, q) := enQueue (free_q k a) p in
          upd_obj (set_o_stage REQ_STAGE_FREE) p (set_free_q k q a)
      end
  end.

(** [sys_find_io_request]: the first object with the given queue and command
    identifiers, whether it is in use or not. *)
Definition io_match (sqid cid : Z) (o : req_obj) : bool :=
  match o with OIo r => (rq_sqid r =? sqid) && (io_cid r =? cid) | _ => false end.
Definition is_other_io (o : req_obj) : bool :=
  (o_type o =? FLUSH_IO_REQUEST) || (o_type o =? ISP_IO_REQUEST) || (o_type o =? TRIM_IO_REQUEST).

Fixpoint find_index {A} (f : A -> bool) (i : Z) (l : list A) : option Z :=
  match l with
  | [] => None
  | x :: l => if f x then Some i else find_index f (i + 1) l
  end.

Definition sys_find_io_request (sqid cid : Z) (a : req_alloc) : option req_ptr :=
  match find_index (io_match sqid cid) 0 (r_req a) with
  | Some i => Some (RPtr i)
  | None =>
      match find_index (io_match sqid cid) 0 (w_req a) with
      | Some i => Some (WPtr i)
      | None =>
          match find_index (fun o => is_other_io o && io_match sqid cid o) 0 (other_req_alloc a) with
          | Some i => Some (OPtr i)
          | None => None
          end
      end
  end.

(** ** Reading and writing objects *)

Definition ptr_pool (p : req_ptr) : pool :=
  match p with RPtr _ => PoolR | WPtr _ => PoolW | OPtr _ => PoolO end.
Definition ptr_index (p : req_ptr) : Z := match p with RPtr i | WPtr i | OPtr i => i end.
Definition objs (k : pool) (a : req_alloc) : list req_obj :=
  match k with PoolR => r_req a | PoolW => w_req a | PoolO => other_req_alloc a end.
Definition pool_size (k : pool) : Z := match k with PoolR => R_SIZE | PoolW => W_SIZE | PoolO => O_SIZE end.

#[export] Instance pool_eq_dec : EqDecision pool.
Proof. solve_decision. Defined.

Lemma ptr_eta p : pool_ptr (ptr_pool p) (ptr_index p) = p.
Proof. by destruct p. Qed.

Lemma get_obj_eq p a : get_obj p a = arr_get (objs (ptr_pool p) a) (ptr_index p).
Proof. by destruct p. Qed.

Lemma set_obj_spec p o a :
  0 <= ptr_index p < Z.of_nat (length (objs (ptr_pool p) a)) ->
  exists a', set_obj p o a = Ok a' /\ get_obj p a' = Ok o
    /\ (forall p', p' <> p -> get_obj p' a' = get_obj p' a)
    /\ (forall k, free_q k a' = free_q k a) /\ (forall k, length (objs k a') = length (objs k a)).
Proof.
  intros Hi. assert (Hne : forall (l : list req_obj) i j, 0 <= j < Z.of_nat (length l) -> i <> j ->
      arr_get (<[Z.to_nat j := o]> l) i = arr_get l i).
  { intros l i j Hj Hij. unfold arr_get. rewrite length_insert. destruct (in_range _ i) eqn:R; [|done].
    apply in_range_true in R. by rewrite list_lookup_insert_ne by lia. }
  destruct p as [i|i|i]; simpl in *; rewrite arr_set_Ok by done; simpl; eexists; (split; [done|]); simpl;
    (split; [apply arr_get_Ok; split; [lia|apply list_lookup_insert_eq; lia]|]);
    (split; [|split; [by intros []|intros []; simpl; by rewrite ?length_insert]]).
  all: intros [j|j|j] Hj; simpl; try done; apply Hne; congruence || done.
Qed.

Lemma upd_obj_spec f p a :
  0 <= ptr_index p < Z.of_nat (length (objs (ptr_pool p) a)) ->
  exists o a', upd_obj f p a = Ok a' /\ get_obj p a = Ok o /\ get_obj p a' = Ok (f o)
    /\ (forall p', p' <> p -> get_obj p' a' = get_obj p' a)
    /\ (forall k, free_q k a' = free_q k a) /\ (forall k, length (objs k a') = length (objs k a)).
Proof.
  intros Hi. destruct (arr_get_lookup _ _ Hi) as (o & E & _). unfold upd_obj. rewrite get_obj_eq, E. simpl.
  destruct (set_obj_spec p (f o) a Hi) as (a' & H). exists o, a'. tauto.
Qed.

Lemma free_q_set k q a : free_q k (set_free_q k q a) = q.
Proof. by destruct k. Qed.
Lemma free_q_set_ne k k' q a : k' <> k -> free_q k' (set_free_q k q a) = free_q k' a.
Proof. by destruct k, k'. Qed.
Lemma get_obj_set_free p k q a : get_obj p (set_free_q k q a) = get_obj p a.
Proof. by destruct k, p. Qed.
Lemma objs_set_free k' k q a : objs k' (set_free_q k q a) = objs k' a.
Proof. by destruct k, k'. Qed.

(** ** Who owns the objects *)

Definition pool_ptrs (k : pool) : list req_ptr :=
  map (fun i => pool_ptr k (Z.of_nat i)) (seq 0 (Z.to_nat (pool_size k - 1))).
Definition used_in (k : pool) (used : list req_ptr) : list req_ptr :=
  filter (fun p => ptr_pool p = k) used.

(** Objects of the first two pools are I/O requests of the pool's type; a block
    in use has a type that is served from the blocks. *)
Definition obj_ok (p : req_ptr) (in_use : Prop) (o : req_obj) : Prop :=
  match ptr_pool p with
  | PoolR => o_type o = READ_IO_REQUEST /\ exists r, o = OIo r
  | PoolW => o_type o = WRITE_IO_REQUEST /\ exists r, o = OIo r
  | PoolO => in_use -> pool_of (o_type o) = Some PoolO
  end.

(** Every object but the last of each pool is either in the pool's free queue or
    in use, and never both or twice. *)
Record alloc_inv (a : req_alloc) (used : list req_ptr) : Prop := {
  ai_len : forall k, Z.of_nat (length (objs k a)) = pool_size k;
  ai_wf : forall k, q_wf (free_q k a) /\ q_size (free_q k a) = pool_size k;
  ai_perm : forall k, Permutation (q_contents (free_q k a) ++ used_in k used) (pool_ptrs k);
  ai_obj : forall p o, p ∈ pool_ptrs (ptr_pool p) -> get_obj p a = Ok o -> obj_ok p (p ∈ used) o }.

Lemma pool_ptrs_range k p : p ∈ pool_ptrs k -> ptr_pool p = k /\ 0 <= ptr_index p < pool_size k - 1.
Proof.
  intros (i & -> & Hi)%list_elem_of_fmap. apply elem_of_seq in Hi.
  assert (0 < pool_size k) by (by destruct k). destruct k; simpl in *; split; done || lia.
Qed.

Lemma pool_ptrs_NoDup k : NoDup (pool_ptrs k).
Proof.
  apply NoDup_fmap_2; [|apply NoDup_seq].
  intros i j E. destruct k; simpl in E; injection E; lia.
Qed.

Lemma pool_ptrs_elem p k : ptr_pool p = k -> 0 <= ptr_index p < pool_size k - 1 -> p ∈ pool_ptrs k.
Proof.
  intros <- Hi. apply list_elem_of_fmap. exists (Z.to_nat (ptr_index p)). split.
  - rewrite Z2Nat.id by lia. by rewrite ptr_eta.
  - apply elem_of_seq. lia.
Qed.

Section inv.
Context (a : req_alloc) (used : list req_ptr) (Hinv : alloc_inv a used).

Lemma inv_ptr k p : p ∈ q_contents (free_q k a) ++ used_in k used ->
  ptr_pool p = k /\ 0 <= ptr_index p < Z.of_nat (length (objs (ptr_pool p) a)).
Proof using Hinv.
  intros Hp. rewrite (ai_perm _ _ Hinv k) in Hp. apply pool_ptrs_range in Hp as [E Hr].
  split; [done|]. rewrite (ai_len _ _ Hinv), E. lia.
Qed.

Lemma inv_free_not_used k p : p ∈ q_contents (free_q k a) -> p ∉ used.
Proof using Hinv.
  intros Hp Hu. pose proof (pool_ptrs_NoDup k) as Hnd. rewrite <- (ai_perm _ _ Hinv k) in Hnd.
  apply NoDup_app in Hnd as (_ & Hd & _). apply (Hd p Hp). apply list_elem_of_filter.
  split; [|done]. apply (inv_ptr k). apply elem_of_app. by left.
Qed.

(** The number of objects of a pool that are in use bounds the free queue. *)
Lemma inv_count k :
  Z.of_nat (length (q_contents (free_q k a))) + Z.of_nat (length (used_in k used)) = pool_size k - 1.
Proof using Hinv.
  pose proof (Permutation_length (ai_perm _ _ Hinv k)) as E. unfold pool_ptrs in E.
  rewrite length_app, length_map, length_seq in E.
  assert (0 < pool_size k) by (by destruct k). lia.
Qed.
End inv.

Lemma o_type_common t i s o : o_type (set_common t i s o) = t.
Proof. by destruct o. Qed.
Lemma o_stage_common t i s o : o_stage (set_common t i s o) = s.
Proof. by destruct o. Qed.
Lemma set_common_io t i s r : exists r', set_common t i s (OIo r) = OIo r'.
Proof. simpl. eauto. Qed.

Lemma used_in_cons k p used :
  used_in k (p :: used) = if decide (ptr_pool p = k) then p :: used_in k used else used_in k used.
Proof. unfold used_in. by rewrite filter_cons. Qed.

(** Moving one object: a change of the free queue of [k] and of the object [p]. *)
Lemma alloc_inv_change a used a' used' k p o o' :
  alloc_inv a used -> ptr_pool p = k -> get_obj p a = Ok o -> get_obj p a' = Ok o' ->
  (forall p', p' <> p -> get_obj p' a' = get_obj p' a) ->
  (forall k', k' <> k -> free_q k' a' = free_q k' a) ->
  (forall k', length (objs k' a') = length (objs k' a)) ->
  q_wf (free_q k a') -> q_size (free_q k a') = pool_size k ->
  Permutation (q_contents (free_q k a') ++ used_in k used') (pool_ptrs k) ->
  (forall k', k' <> k -> used_in k' used' = used_in k' used) ->
  (forall p', p' <> p -> p' ∈ used' -> p' ∈ used) ->
  obj_ok p (p ∈ used') o' ->
  alloc_inv a' used'.
Proof.
  intros Hinv Hk Ho Ho' Hother Hfree Hlen Hwf Hsz Hperm Hused Hin Hok. split.
  - intros k'. rewrite Hlen. apply Hinv.
  - intros k'. destruct (decide (k' = k)) as [->|Hne]; [done|]. rewrite Hfree by done. apply Hinv.
  - intros k'. destruct (decide (k' = k)) as [->|Hne]; [done|]. rewrite Hfree, Hused by done. apply Hinv.
  - intros p' o1 Hp' Ho1. destruct (decide (p' = p)) as [->|Hne]; [rewrite Ho' in Ho1; by injection Ho1 as <-|].
    rewrite Hother in Ho1 by done. pose proof (ai_obj _ _ Hinv p' o1 Hp' Ho1) as H.
    unfold obj_ok in *. destruct (ptr_pool p'); auto.
Qed.


Lemma set_common_twice t i s t' i' s' o : set_common t i s (set_common t' i' s' o) = set_common t i s o.
Proof. by destruct o. Qed.

Lemma pool_of_R ty : pool_of ty = Some PoolR -> ty = READ_IO_REQUEST.
Proof.
  unfold pool_of. destruct (Z.eqb_spec ty READ_IO_REQUEST) as [->|]; [done|].
  destruct (ty =? WRITE_IO_REQUEST); [done|]. by destruct (_ || _).
Qed.
Lemma pool_of_W ty : pool_of ty = Some PoolW -> ty = WRITE_IO_REQUEST.
Proof.
  unfold pool_of. destruct (ty =? READ_IO_REQUEST); [done|].
  destruct (Z.eqb_spec ty WRITE_IO_REQUEST) as [->|]; [done|]. by destruct (_ || _).
Qed.

Lemma obj_ok_common p P Q o ty i s :
  pool_of ty = Some (ptr_pool p) -> obj_ok p P o -> obj_ok p Q (set_common ty i s o).
Proof.
  unfold obj_ok. destruct (ptr_pool p) eqn:E; intros Hty.
  - intros (_ & r & ->). apply pool_of_R in Hty as ->. split; [done|]. simpl. eauto.
  - intros (_ & r & ->). apply pool_of_W in Hty as ->. split; [done|]. simpl. eauto.
  - intros _ _. by rewrite o_type_common.
Qed.

(** The stores of [sys_malloc_req_obj] into the object it takes. *)
Lemma malloc_stores ty k p o a :
  pool_of ty = Some k -> ptr_pool p = k -> get_obj p a = Ok o ->
  (k <> PoolO -> o_type o = ty) -> 0 <= ptr_index p < Z.of_nat (length (objs (ptr_pool p) a)) ->
  exists a', (let! a := (match k with PoolO => upd_obj (set_o_type ty) p a | _ => Ok a end) in
              upd_obj (set_o_stage REQ_STAGE_INUSE) p a) = Ok a'
    /\ get_obj p a' = Ok (set_common ty (o_index o) REQ_STAGE_INUSE o)
    /\ (forall p', p' <> p -> get_obj p' a' = get_obj p' a)
    /\ (forall k, free_q k a' = free_q k a) /\ (forall k, length (objs k a') = length (objs k a)).
Proof.
  intros Hty Hk Ho Ht Hi. destruct (decide (k = PoolO)) as [->|Hne].
  - destruct (upd_obj_spec (set_o_type ty) p a Hi) as (o1 & a1 & -> & E1 & G1 & H2 & H3 & H4). simpl.
    rewrite Ho in E1. injection E1 as <-.
    destruct (upd_obj_spec (set_o_stage REQ_STAGE_INUSE) p a1) as (o2 & a2 & -> & E2 & G2 & H5 & H6 & H7);
      [by rewrite H4|]. rewrite G1 in E2. injection E2 as <-.
    exists a2. split; [done|]. split; [|split; [|split]].
    + rewrite G2. unfold set_o_stage, set_o_type. rewrite set_common_twice, o_type_common.
      by destruct o.
    + intros p' Hp'. by rewrite H5, H2.
    + intros k. by rewrite H6.
    + intros k. by rewrite H7.
  - destruct (upd_obj_spec (set_o_stage REQ_STAGE_INUSE) p a Hi) as (o1 & a1 & E & E1 & G1 & H2 & H3 & H4).
    rewrite Ho in E1. injection E1 as <-. exists a1.
    replace (match k with PoolO => upd_obj (set_o_type ty) p a | _ => Ok a end) with (Ok a) by (by destruct k).
    split; [done|]. split; [|done]. rewrite G1. unfold set_o_stage. by rewrite (Ht Hne).
Qed.

(** [sys_malloc_req_obj] on a pool with and without free objects. *)
Lemma malloc_ok a used ty k :
  alloc_inv a used -> pool_of ty = Some k ->
  if Z.of_nat (length (used_in k used)) <? pool_size k - 1 then
    exists p o a', sys_malloc_req_obj ty a = Ok (Some p, a') /\ (p ∉ used) /\ ptr_pool p = k
      /\ get_obj p a' = Ok o /\ o_type o = ty /\ o_stage o = REQ_STAGE_INUSE
      /\ (forall p', p' <> p -> get_obj p' a' = get_obj p' a) /\ alloc_inv a' (p :: used)
  else sys_malloc_req_obj ty a = Fault FNull.
Proof.
  intros Hinv Hty. pose proof (inv_count a used Hinv k) as Hcount.
  destruct (ai_wf _ _ Hinv k) as [Hwf Hsz].
  unfold sys_malloc_req_obj. rewrite Hty.
  destruct (deQueue_spec (free_q k a) Hwf) as (q' & Hwf' & Hsz' & [(E & -> & _)|(p & E & ->)]); simpl;
    rewrite E in Hcount; simpl in Hcount;
    destruct (Z.ltb_spec (Z.of_nat (length (used_in k used))) (pool_size k - 1)); try lia; [done|].
  assert (Hpin : p ∈ q_contents (free_q k a) ++ used_in k used) by (rewrite E; left).
  destruct (inv_ptr a used Hinv k p Hpin) as [Hpk Hpi].
  pose proof (inv_free_not_used a used Hinv k p ltac:(rewrite E; left)) as Hnu.
  destruct (arr_get_lookup _ _ Hpi) as (o & Eo & _). rewrite <- get_obj_eq in Eo.
  assert (Hok : obj_ok p (p ∈ used) o).
  { apply (ai_obj _ _ Hinv); [|done]. rewrite Hpk. by rewrite <- (ai_perm _ _ Hinv k). }
  set (a1 := set_free_q k q' a).
  destruct (malloc_stores ty k p o a1) as (a2 & E2 & G2 & Hoth & Hfree & Hlen); try done.
  { unfold a1. by rewrite get_obj_set_free. }
  { intros Hne. unfold obj_ok in Hok. rewrite Hpk in Hok.
    destruct k; [|by apply pool_of_W in Hty as ->; apply Hok|done].
    apply pool_of_R in Hty as ->. apply Hok. }
  { unfold a1. by rewrite objs_set_free. }
  apply obind_Ok in E2 as (a3 & E3 & E4). fold a1. rewrite E3. cbn [obind]. rewrite E4. cbn [obind].
  exists p, (set_common ty (o_index o) REQ_STAGE_INUSE o), a2.
  split; [done|]. split; [done|]. split; [done|]. split; [done|].
  split; [apply o_type_common|]. split; [apply o_stage_common|].
  assert (Hoth2 : forall p', p' <> p -> get_obj p' a2 = get_obj p' a)
    by (intros p' Hp'; rewrite Hoth by done; unfold a1; by rewrite get_obj_set_free).
  split; [done|].
  eapply (alloc_inv_change a used a2 (p :: used) k p o); try done.
  - intros k' Hk'. rewrite Hfree. unfold a1. by rewrite free_q_set_ne.
  - intros k'. rewrite Hlen. unfold a1. by rewrite objs_set_free.
  - rewrite Hfree. unfold a1. by rewrite free_q_set.
  - rewrite Hfree. unfold a1. rewrite free_q_set. congruence.
  - rewrite Hfree. unfold a1. rewrite free_q_set, used_in_cons, decide_True by done.
    rewrite <- (ai_perm _ _ Hinv k), E. simpl. symmetry. apply Permutation_middle.
  - intros k' Hk'. rewrite used_in_cons, decide_False by congruence. done.
  - intros p' Hne [->|Hin]%elem_of_cons; done.
  - eapply obj_ok_common; [by rewrite Hpk|done].
Qed.

(** C35: the request allocator hands out each object at most once.  While not all
    objects of the pool are in use, [sys_malloc_req_obj] returns one that no one
    else holds, with the requested type and stage, leaves every other object
    alone and keeps the accounting; when they are all in use it stores through a
    NULL pointer. *)
Theorem sys_malloc_req_obj_correct a used ty k :
  alloc_inv a used -> pool_of ty = Some k ->
  if Z.of_nat (length (used_in k used)) <? pool_size k - 1 then
    exists p o a', sys_malloc_req_obj ty a = Ok (Some p, a') /\ (p ∉ used) /\ ptr_pool p = k
      /\ get_obj p a' = Ok o /\ o_type o = ty /\ o_stage o = REQ_STAGE_INUSE
      /\ (forall p', p' <> p -> get_obj p' a' = get_obj p' a) /\ alloc_inv a' (p :: used)
  else sys_malloc_req_obj ty a = Fault FNull.
Proof. apply malloc_ok. Qed.

(** [sys_free_req_obj] of an object in use. *)
Lemma free_ok a used p o :
  alloc_inv a (p :: used) -> get_obj p a = Ok o ->
  exists a', sys_free_req_obj (Some p) a = Ok a' /\ alloc_inv a' used /\ (p ∉ used)
    /\ get_obj p a' = Ok (set_o_stage REQ_STAGE_FREE o)
    /\ (forall p', p' <> p -> get_obj p' a' = get_obj p' a)
    /\ q_contents (free_q (ptr_pool p) a') = q_contents (free_q (ptr_pool p) a) ++ [p].
Proof.
  intros Hinv Ho. remember (ptr_pool p) as k eqn:Hk. pose proof (inv_count a _ Hinv k) as Hcount.
  rewrite used_in_cons, decide_True in Hcount by done. simpl in Hcount.
  assert (Hpin : p ∈ q_contents (free_q k a) ++ used_in k (p :: used)).
  { rewrite used_in_cons, decide_True by done. apply elem_of_app. right. left. }
  destruct (inv_ptr a _ Hinv k p Hpin) as [_ Hpi].
  assert (Hnp : p ∉ used).
  { pose proof (pool_ptrs_NoDup k) as Hnd. rewrite <- (ai_perm _ _ Hinv k) in Hnd.
    rewrite used_in_cons, decide_True in Hnd by done.
    apply NoDup_app in Hnd as (_ & _ & Hnd). apply NoDup_cons in Hnd as [Hni _].
    intros Hu. apply Hni. by apply list_elem_of_filter. }
  assert (Hok : obj_ok p (p ∈ p :: used) o).
  { apply (ai_obj _ _ Hinv); [|done]. rewrite <- Hk. by rewrite <- (ai_perm _ _ Hinv k). }
  assert (Hpool : pool_of (o_type o) = Some k).
  { unfold obj_ok in Hok. rewrite <- Hk in Hok. destruct k; [by destruct Hok as [-> _]|by destruct Hok as [-> _]|].
    apply Hok. left. }
  destruct (ai_wf _ _ Hinv k) as [Hwf Hsz]. unfold sys_free_req_obj. rewrite Ho. simpl. rewrite Hpool.
  destruct (enQueue_spec (free_q k a) p Hwf) as (q' & Hwf' & Hsz' & [(Hlt & -> & Hc)|(Hlt & _)]); [|lia].
  simpl. destruct (upd_obj_spec (set_o_stage REQ_STAGE_FREE) p (set_free_q k q' a))
    as (o1 & a' & -> & E1 & G1 & Hoth & Hfree & Hlen); [by rewrite objs_set_free|].
  rewrite get_obj_set_free, Ho in E1. injection E1 as <-.
  assert (Hoth2 : forall p', p' <> p -> get_obj p' a' = get_obj p' a)
    by (intros p' Hp'; rewrite Hoth by done; by rewrite get_obj_set_free).
  exists a'. split; [done|]. split; [|split_and!; try done; by rewrite Hfree, free_q_set].
  eapply (alloc_inv_change a (p :: used) a' used k p o); try done.
  - intros k' Hk'. rewrite Hfree. by rewrite free_q_set_ne.
  - intros k'. rewrite Hlen. by rewrite objs_set_free.
  - rewrite Hfree. by rewrite free_q_set.
  - rewrite Hfree, free_q_set. congruence.
  - rewrite Hfree, free_q_set, Hc. rewrite <- (ai_perm _ _ Hinv k), used_in_cons, decide_True by done.
    rewrite <- app_assoc. done.
  - intros k' Hk'. rewrite used_in_cons, decide_False by congruence. done.
  - intros p' Hne Hin. by right.
  - unfold set_o_stage. unfold obj_ok in *. rewrite <- Hk in *.
    destruct k; [destruct Hok as (? & r & ->); split; [done|simpl; eauto]..|]. done.
Qed.

(** freeing a request in use puts its object back, so that it can be handed
    out again, and leaves every other object alone. *)
Theorem sys_free_req_obj_correct a used p o :
  alloc_inv a (p :: used) -> get_obj p a = Ok o ->
  exists a', sys_free_req_obj (Some p) a = Ok a' /\ alloc_inv a' used /\ (p ∉ used)
    /\ get_obj p a' = Ok (set_o_stage REQ_STAGE_FREE o)
    /\ (forall p', p' <> p -> get_obj p' a' = get_obj p' a)
    /\ q_contents (free_q (ptr_pool p) a') = q_contents (free_q (ptr_pool p) a) ++ [p].
Proof. apply free_ok. Qed.

(** ** Initialisation *)

(** What [init_req_obj] establishes for pool [k], as a test. *)
Definition pool_ready_b (k : pool) (a : req_alloc) : bool :=
  let q := free_q k a in
  bool_decide (q_contents q = pool_ptrs k)
  && bool_decide (q_size q = pool_size k /\ Z.of_nat (length (q_objs q)) = q_size q
                  /\ 0 <= q_head q < q_size q /\ 0 <= q_tail q < q_size q
                  /\ Z.of_nat (length (objs k a)) = pool_size k)
  && forallb (fun i =>
       match get_obj (pool_ptr k (Z.of_nat i)) a with
       | Ok o =>
           (o_stage o =? REQ_STAGE_FREE) && (o_index o =? Z.of_nat i + 1)
           && match k, o with
              | PoolR, OIo _ => o_type o =? READ_IO_REQUEST
              | PoolW, OIo _ => o_type o =? WRITE_IO_REQUEST
              | PoolO, _ => true
              | _, _ => false
              end
       | Fault _ => false
       end) (seq 0 (Z.to_nat (pool_size k - 1))).

Lemma pool_ready_obj k a i o :
  pool_ready_b k a = true -> 0 <= i < pool_size k - 1 -> get_obj (pool_ptr k i) a = Ok o ->
  o_stage o = REQ_STAGE_FREE /\ o_index o = i + 1 /\ obj_ok (pool_ptr k i) False o.
Proof.
  unfold pool_ready_b. rewrite !andb_true_iff, forallb_forall. intros [_ Hf] Hi Ho.
  specialize (Hf (Z.to_nat i)). rewrite Z2Nat.id, Ho in Hf by lia.
  specialize (Hf ltac:(apply in_seq; lia)). rewrite !andb_true_iff, !Z.eqb_eq in Hf.
  destruct Hf as [[Hs Hx] Ht]. split; [done|]. split; [done|].
  unfold obj_ok. destruct k; simpl; [| |done].
  all: destruct o; try discriminate; apply Z.eqb_eq in Ht; eauto.
Qed.

Lemma pool_ready_get k a i :
  pool_ready_b k a = true -> 0 <= i < pool_size k - 1 -> exists o, get_obj (pool_ptr k i) a = Ok o.
Proof.
  unfold pool_ready_b. rewrite !andb_true_iff, forallb_forall. intros [_ Hf] Hi.
  specialize (Hf (Z.to_nat i)). rewrite Z2Nat.id in Hf by lia.
  specialize (Hf ltac:(apply in_seq; lia)). destruct (get_obj _ a) as [o|]; [by exists o|done].
Qed.

Lemma pools_ready_inv a : (forall k, pool_ready_b k a = true) -> alloc_inv a [].
Proof.
  intros Hk. assert (Hb : forall k, q_contents (free_q k a) = pool_ptrs k
    /\ q_size (free_q k a) = pool_size k /\ Z.of_nat (length (q_objs (free_q k a))) = q_size (free_q k a)
    /\ 0 <= q_head (free_q k a) < q_size (free_q k a) /\ 0 <= q_tail (free_q k a) < q_size (free_q k a)
    /\ Z.of_nat (length (objs k a)) = pool_size k).
  { intros k. specialize (Hk k). unfold pool_ready_b in Hk. rewrite !andb_true_iff in Hk.
    destruct Hk as [[H1%bool_decide_eq_true H2%bool_decide_eq_true] _]. done. }
  split.
  - intros k. apply Hb.
  - intros k. destruct (Hb k) as (_ & H1 & H2 & H3 & H4 & _). split; [|done].
    assert (0 < pool_size k) by (by destruct k). split_and!; lia.
  - intros k. destruct (Hb k) as (-> & _). by rewrite app_nil_r.
  - intros p o Hp Ho. apply pool_ptrs_range in Hp as [_ Hp]. rewrite <- (ptr_eta p) in Ho.
    destruct (pool_ready_obj _ _ _ _ (Hk (ptr_pool p)) Hp Ho) as (_ & _ & Hok). rewrite ptr_eta in Hok.
    unfold obj_ok in *. destruct (ptr_pool p); try done. intros Hin. by apply elem_of_nil in Hin.
Qed.

Lemma init_req_obj_ready :
  match init_req_obj req_alloc0 with
  | Ok a => pool_ready_b PoolR a && pool_ready_b PoolW a && pool_ready_b PoolO a
  | Fault _ => false
  end = true.
Proof. vm_compute. reflexivity. Qed.

(** [init_req_obj] terminates, and leaves every object but the last of each
    pool free and none in use, with its type, its index (from 1) and the stage
    "free". *)
Theorem init_req_obj_correct :
  exists a, init_req_obj req_alloc0 = Ok a /\ alloc_inv a []
    /\ forall k i, 0 <= i < pool_size k - 1 ->
         exists o, get_obj (pool_ptr k i) a = Ok o /\ o_stage o = REQ_STAGE_FREE /\ o_index o = i + 1.
Proof.
  pose proof init_req_obj_ready as H. destruct (init_req_obj req_alloc0) as [a|] eqn:E; [|done].
  exists a. split; [reflexivity|]. clear E.
  rewrite !andb_true_iff in H. destruct H as [[HR HW] HO].
  assert (Hk : forall k, pool_ready_b k a = true) by (by intros []). split; [by apply pools_ready_inv|].
  intros k i Hi. destruct (pool_ready_get k a i (Hk k) Hi) as [o Ho].
  exists o. split; [done|]. destruct (pool_ready_obj k a i o (Hk k) Hi Ho) as (? & ? & _). done.
Qed.

(** The allocator after initialisation, for concrete runs. *)
Definition ready_alloc : req_alloc := from_ok req_alloc0 (init_req_obj req_alloc0).

Lemma ready_alloc_inv : alloc_inv ready_alloc [].
Proof.
  pose proof init_req_obj_ready as H. unfold ready_alloc.
  destruct (init_req_obj req_alloc0) as [a|]; [|done].
  rewrite !andb_true_iff in H. destruct H as [[HR HW] HO]. apply pools_ready_inv. by intros [].
Qed.

Lemma sys_malloc_req_obj_correct_witness :
  exists p o a', sys_malloc_req_obj READ_IO_REQUEST ready_alloc = Ok (Some p, a') /\ (p ∉ []) /\ ptr_pool p = PoolR
    /\ get_obj p a' = Ok o /\ o_type o = READ_IO_REQUEST /\ o_stage o = REQ_STAGE_INUSE
    /\ (forall p', p' <> p -> get_obj p' a' = get_obj p' ready_alloc) /\ alloc_inv a' [p].
Proof.
  pose proof (sys_malloc_req_obj_correct ready_alloc [] READ_IO_REQUEST PoolR ready_alloc_inv) as H.
  change (Z.of_nat (length (used_in PoolR [])) <? pool_size PoolR - 1) with true in H.
  apply H. reflexivity.
Defined.

(** Taking an object, to give it back. *)
Definition one_taken : option req_ptr * req_alloc :=
  from_ok (None, req_alloc0) (sys_malloc_req_obj READ_IO_REQUEST ready_alloc).

Lemma sys_free_req_obj_correct_witness :
  exists p o a', one_taken.1 = Some p /\ get_obj p one_taken.2 = Ok o
    /\ sys_free_req_obj (Some p) one_taken.2 = Ok a' /\ alloc_inv a' [].
Proof.
  pose proof (malloc_ok ready_alloc [] READ_IO_REQUEST PoolR ready_alloc_inv) as H.
  change (Z.of_nat (length (used_in PoolR [])) <? pool_size PoolR - 1) with true in H.
  destruct (H ltac:(reflexivity)) as (p & o & a & E & _ & _ & Ho & _ & _ & _ & Hinv).
  assert (Ht : one_taken = (Some p, a)) by (unfold one_taken; rewrite E; reflexivity).
  rewrite Ht. destruct (sys_free_req_obj_correct a [] p o Hinv Ho) as (a' & E' & Hinv' & _).
  exists p, o, a'. split; [reflexivity|]. split; [exact Ho|]. split; [exact E'|exact Hinv'].
Defined.

