(* ===== verification/BufferMgt.v ===== *)
(** * The page buffer and the write-back cache (firmware/buffer_mgt_1wbc-r.c)

    One buffer of 16 pages serves reads, writes and the ISP driver in turn; the
    write-back cache request [wbc] describes the pages of the write that owns it. *)

From Stdlib Require Import ZArith Lia Bool List.
From stdpp Require Import base tactics option list list_numbers.
From S2P Require Import Prelude CTypes Kernel Boot Geom Requests HostDma FtlDisk.

Record buffer_mgt := BufferMgt {
  page_buffer : Z; page_buffer_inuse : bool; wbc : wbc_req }.

Definition set_inuse v b := BufferMgt (page_buffer b) v (wbc b).
Definition set_wbc v b := BufferMgt (page_buffer b) (page_buffer_inuse b) v.

Definition set_wp_valid v p := WbcPage (wp_lpn p) (wp_ssd_addr p) v (wp_nand_io_complete p).

Section buffer.
Context (g : geom).

(** [for (icache = 0; icache < WBC_PAGES; icache++) wbc.pages[icache].valid = 0;] *)
Fixpoint invalidate_pages (n : nat) (icache : Z) (pages : list wbc_page) : outcome (list wbc_page) :=
  match n with
  | O => Ok pages
  | S n =>
      let! p := arr_get pages icache in
      let! pages := arr_set pages icache (set_wp_valid 0 p) in
      invalidate_pages n (icache + 1) pages
  end.

Definition init_buffer_mgt (w : wbc_req) (h : uc_heap) : outcome (buffer_mgt * uc_heap) :=
  let! '(buf, h) := get_uncacheable_ram (u32 (MDTS_PAGES * HOST_PAGE_SIZE g)) h in
  let! pages := invalidate_pages (Z.to_nat WBC_PAGES) 0 (wb_pages w) in
  Ok (BufferMgt buf false
        (WbcReq WBC_FLUSH_REQUEST 1 (wb_stage w) (wb_num_program_pgs w) (wb_nand_io_complete w) pages), h).

(** [page_buffer + (i << HOST_DS)] *)
Definition buffer_page (b : buffer_mgt) (i : Z) : Z := u32 (page_buffer b + Z.shiftl i (HOST_DS g)).

Definition set_ssd_addr (i addr : Z) (l : list dma_op_t) : outcome (list dma_op_t) :=
  let! e := arr_get l i in
  arr_set l i (DmaOp addr (do_len e) (do_host_p_addr e) (do_host_dma_complete e)).

(** The loop of the getters over the request's pages; a write also describes
    each page in the cache. *)
Fixpoint read_pages_loop (n : nat) (i : Z) (b : buffer_mgt) (l : list dma_op_t) : outcome (list dma_op_t) :=
  match n with
  | O => Ok l
  | S n =>
      let! l := set_ssd_addr i (buffer_page b i) l in
      read_pages_loop n (i + 1) b l
  end.

Fixpoint write_pages_loop (n : nat) (i lpn : Z) (b : buffer_mgt) (l : list dma_op_t) (pages : list wbc_page)
  : outcome (list dma_op_t * list wbc_page) :=
  match n with
  | O => Ok (l, pages)
  | S n =>
      let! l := set_ssd_addr i (buffer_page b i) l in
      let! pages := arr_set pages i (WbcPage lpn (buffer_page b i) 1 0) in
      write_pages_loop n (i + 1) (u32 (lpn + 1)) b l pages
  end.

Definition get_read_io_buffer (req : io_req) (b : buffer_mgt) : outcome (Z * io_req * buffer_mgt) :=
  if page_buffer_inuse b then Ok (-1, req, b)
  else
    let d := set_buffer_addr (page_buffer b) (rq_dma req) in
    let! l := read_pages_loop (Z.to_nat (io_nlbs req + 1)) 0 b (dma_list d) in
    Ok (0, set_req_dma (set_dma_list l d) req, set_inuse true b).

Definition get_write_io_buffer (req : io_req) (b : buffer_mgt) : outcome (Z * io_req * buffer_mgt) :=
  if page_buffer_inuse b then Ok (-1, req, b)
  else
    let d := set_buffer_addr (page_buffer b) (rq_dma req) in
    let! '(l, pages) := write_pages_loop (Z.to_nat (io_nlbs req + 1)) 0 (u32 (io_slba req)) b
                          (dma_list d) (wb_pages (wbc b)) in
    let w := set_wb_num (io_nlbs req + 1) (set_wb_complete false (set_wb_pages pages (wbc b))) in
    Ok (0, set_req_dma (set_dma_list l d) req, set_inuse true (set_wbc w b)).

(** The address of the buffer, or NULL. *)
Definition get_page_buffer (b : buffer_mgt) : option Z * buffer_mgt :=
  if page_buffer_inuse b then (None, b) else (Some (page_buffer b), set_inuse true b).

Definition free_read_io_buffer (b : buffer_mgt) : Z * buffer_mgt := (0, set_inuse false b).
Definition free_page_buffer (b : buffer_mgt) : Z * buffer_mgt := (0, set_inuse false b).

(** The cache request is pushed to the FTL by its address. *)
Definition flush_all_wbc (wbc_ptr : Z) (k : kernel) : outcome (Z * kernel) :=
  let! k := sys_push_to_ftl wbc_ptr WBC_FLUSH_REQUEST k in Ok (0, k).
Definition free_write_io_buffer (wbc_ptr : Z) (k : kernel) : outcome (Z * kernel) :=
  let! '(_, k) := flush_all_wbc wbc_ptr k in Ok (0, k).

Definition free_wbc_buffer (b : buffer_mgt) : outcome buffer_mgt :=
  let b := set_inuse false b in
  let! pages := invalidate_pages (Z.to_nat WBC_PAGES) 0 (wb_pages (wbc b)) in
  Ok (set_wbc (set_wb_pages pages (wbc b)) b).

(** ** The loops *)

Lemma invalidate_pages_spec n i pages :
  0 <= i -> i + Z.of_nat n = Z.of_nat (length pages) ->
  invalidate_pages n i pages = Ok (take (Z.to_nat i) pages ++ map (set_wp_valid 0) (drop (Z.to_nat i) pages)).
Proof.
  revert i pages. induction n as [|n IH]; intros i pages Hi Hn; simpl.
  - rewrite drop_ge, take_ge by lia. by rewrite app_nil_r.
  - destruct (arr_get_lookup pages i) as (p & -> & E); [lia|]. simpl. rewrite arr_set_Ok by lia. simpl.
    rewrite IH by (rewrite ?length_insert; lia). rewrite Z2Nat.inj_add, Nat.add_1_r by lia.
    pose proof (lookup_lt_Some _ _ _ E) as Hl.
    rewrite (take_S_r _ _ (set_wp_valid 0 p)) by (by apply list_lookup_insert_eq).
    rewrite take_insert_ge, drop_insert_lt, (drop_S pages p _ E) by lia. simpl. by rewrite <- app_assoc.
Qed.

Definition write_page (b : buffer_mgt) (s j : Z) : wbc_page := WbcPage (u32 (s + j)) (buffer_page b j) 1 0.

Lemma set_ssd_addr_spec i addr l :
  0 <= i < Z.of_nat (length l) ->
  exists l', set_ssd_addr i addr l = Ok l' /\ map seg_of l' = map seg_of l /\ length l' = length l
    /\ (forall e, l' !! Z.to_nat i = Some e -> do_ssd_addr e = addr)
    /\ (forall j, j <> Z.to_nat i -> l' !! j = l !! j).
Proof.
  intros Hi. unfold set_ssd_addr. destruct (arr_get_lookup l i Hi) as (e & -> & E). simpl.
  rewrite arr_set_Ok by done. eexists. split; [done|]. split; [|split; [by rewrite length_insert|split]].
  - change (map seg_of) with (fmap (M := list) seg_of). rewrite list_fmap_insert.
    apply list_insert_id. rewrite list_lookup_fmap, E. done.
  - intros e' E'. rewrite list_lookup_insert_eq in E' by lia. by injection E' as <-.
  - intros j Hj. by rewrite list_lookup_insert_ne by congruence.
Qed.

(** The page addresses of entries [i, i + n) and nothing else are written. *)
Record addressed (b : buffer_mgt) (i : Z) (n : nat) (l l' : list dma_op_t) : Prop := {
  ad_segs : map seg_of l' = map seg_of l;
  ad_length : length l' = length l;
  ad_in : forall j e, i <= j < i + Z.of_nat n -> l' !! Z.to_nat j = Some e -> do_ssd_addr e = buffer_page b j;
  ad_out : forall j, ~ (i <= Z.of_nat j < i + Z.of_nat n) -> l' !! j = l !! j }.

Lemma read_pages_loop_spec b n : forall i l,
  0 <= i -> i + Z.of_nat n <= Z.of_nat (length l) ->
  exists l', read_pages_loop n i b l = Ok l' /\ addressed b i n l l'.
Proof.
  induction n as [|n IH]; intros i l Hi Hn; simpl.
  - exists l. split; [done|]. split; try done. lia.
  - destruct (set_ssd_addr_spec i (buffer_page b i) l ltac:(lia)) as (l1 & -> & Hs & Hl & Hin & Hout). simpl.
    destruct (IH (i + 1) l1) as (l' & -> & [A1 A2 A3 A4]); [lia..|].
    exists l'. split; [done|]. split; [congruence|congruence|..].
    + intros j e Hj E. destruct (Z.eq_dec j i) as [->|]; [|apply (A3 j e); lia || done].
      rewrite A4 in E by lia. by apply Hin.
    + intros j Hj. rewrite A4 by lia. apply Hout. lia.
Qed.

Lemma write_pages_loop_spec b s n : forall i l pages,
  0 <= i -> i + Z.of_nat n <= Z.of_nat (length l) -> length pages = length l ->
  exists l', read_pages_loop n i b l = Ok l'
    /\ write_pages_loop n i (u32 (s + i)) b l pages
       = Ok (l', take (Z.to_nat i) pages ++ map (write_page b s) (seqZ i (Z.of_nat n))
                 ++ drop (Z.to_nat i + n) pages).
Proof.
  induction n as [|n IH]; intros i l pages Hi Hn Hp; cbn [read_pages_loop write_pages_loop].
  - exists l. split; [done|]. rewrite Nat.add_0_r. simpl. by rewrite take_drop.
  - destruct (set_ssd_addr_spec i (buffer_page b i) l ltac:(lia)) as (l1 & -> & _ & Hl & _). cbn [obind].
    rewrite arr_set_Ok by lia. cbn [obind].
    assert (Eu : u32 (u32 (s + i) + 1) = u32 (s + (i + 1))).
    { unfold u32. rewrite Z.add_mod_idemp_l by lia. f_equal. lia. }
    rewrite Eu. destruct (IH (i + 1) l1 (<[Z.to_nat i := WbcPage (u32 (s + i)) (buffer_page b i) 1 0]> pages))
      as (l' & -> & ->); [lia|lia|rewrite length_insert; lia|].
    exists l'. split; [done|]. f_equal. f_equal.
    rewrite Z2Nat.inj_add, Nat.add_1_r by lia.
    rewrite (take_S_r _ _ (write_page b s i)) by (apply list_lookup_insert_eq; lia).
    rewrite take_insert_ge, drop_insert_lt by lia. rewrite Nat2Z.inj_succ.
    rewrite (seqZ_cons i) by lia. simpl. rewrite <- app_assoc. simpl. f_equal. f_equal. f_equal.
    + rewrite <- Z.add_1_r. f_equal. f_equal. lia.
    + f_equal. lia.
Qed.

(** ** The buffer has one owner at a time *)

Definition all_invalid (pages : list wbc_page) : Prop := Forall (fun p => wp_valid p = 0) pages.

(** Between two owners the buffer is free and the cache describes no page. *)
Definition buffer_idle (b : buffer_mgt) : Prop :=
  page_buffer_inuse b = false /\ length (wb_pages (wbc b)) = 16%nat /\ all_invalid (wb_pages (wbc b)).

Lemma wbc_list_invalid pages : all_invalid pages -> wbc_list pages = [].
Proof. induction 1 as [|p pages E _ IH]; [done|]. unfold wbc_list in *. simpl. by rewrite E. Qed.

Lemma wbc_list_app l1 l2 : wbc_list (l1 ++ l2) = wbc_list l1 ++ wbc_list l2.
Proof. unfold wbc_list. apply flat_map_app. Qed.

(** The pages of a request, as the flush takes them: logical page and address. *)
Definition request_pages (b : buffer_mgt) (req : io_req) : list (Z * Z) :=
  map (fun j => (u32 (io_slba req + j), buffer_page b j)) (seqZ 0 (io_nlbs req + 1)).

Lemma wbc_list_write_pages b s l :
  wbc_list (map (write_page b s) l) = map (fun j => (u32 (s + j), buffer_page b j)) l.
Proof. induction l as [|j l IH]; [done|]. unfold wbc_list in *. simpl. by rewrite IH. Qed.

(** The getters, with the buffer taken and free. *)
Lemma write_buffer_ok req b :
  length (dma_list (rq_dma req)) = 16%nat -> 0 <= io_nlbs req < 16 -> length (wb_pages (wbc b)) = 16%nat ->
  if page_buffer_inuse b then
    get_write_io_buffer req b = Ok (-1, req, b) /\ get_read_io_buffer req b = Ok (-1, req, b)
    /\ get_page_buffer b = (None, b)
  else
    exists l b', get_write_io_buffer req b
        = Ok (0, set_req_dma (set_dma_list l (set_buffer_addr (page_buffer b) (rq_dma req))) req, b')
      /\ addressed b 0 (Z.to_nat (io_nlbs req + 1)) (dma_list (rq_dma req)) l
      /\ page_buffer_inuse b' = true /\ page_buffer b' = page_buffer b
      /\ wb_num_program_pgs (wbc b') = io_nlbs req + 1 /\ length (wb_pages (wbc b')) = 16%nat
      /\ wb_type (wbc b') = wb_type (wbc b)
      /\ (all_invalid (wb_pages (wbc b)) -> wbc_list (wb_pages (wbc b')) = request_pages b req).
Proof.
  intros Hl Hn Hp. unfold get_write_io_buffer, get_read_io_buffer, get_page_buffer.
  destruct (page_buffer_inuse b); [done|].
  destruct (read_pages_loop_spec b (Z.to_nat (io_nlbs req + 1)) 0 (dma_list (rq_dma req)))
    as (l & El & Ha); [lia|lia|].
  destruct (write_pages_loop_spec b (io_slba req) (Z.to_nat (io_nlbs req + 1)) 0 (dma_list (rq_dma req))
              (wb_pages (wbc b))) as (l' & El' & E); [lia|lia|congruence|].
  rewrite El in El'. injection El' as <-. rewrite Z.add_0_r in E. simpl dma_list. rewrite E. cbn [obind].
  exists l. eexists. split; [done|]. split; [done|]. split; [done|]. split; [done|]. split; [done|].
  cbn [set_inuse set_wbc wbc set_wb_num set_wb_pages set_wb_complete wb_num_program_pgs wb_pages wb_type].
  change (Z.to_nat 0) with 0%nat. rewrite take_0, app_nil_l, Nat.add_0_l.
  rewrite Z2Nat.id by lia. split; [|split; [done|]].
  - rewrite length_app, length_map, length_seqZ, length_drop. lia.
  - intros Hinv. rewrite wbc_list_app, wbc_list_write_pages.
    rewrite (wbc_list_invalid (drop _ _)), app_nil_r; [done|]. by apply Forall_drop.
Qed.

(** while the buffer is owned no one else gets it; a write request that gets
    it finds its 16-page buffer at its disposal, its DMA list unchanged but for
    the page addresses, and the cache request describing exactly the pages of
    the request: logical page [slba + j] at [page_buffer + (j << HOST_DS)], for
    [j] up to [nlbs]. *)
Theorem get_write_io_buffer_correct req b :
  length (dma_list (rq_dma req)) = 16%nat -> 0 <= io_nlbs req < 16 -> length (wb_pages (wbc b)) = 16%nat ->
  if page_buffer_inuse b then
    get_write_io_buffer req b = Ok (-1, req, b) /\ get_read_io_buffer req b = Ok (-1, req, b)
    /\ get_page_buffer b = (None, b)
  else
    exists l b', get_write_io_buffer req b
        = Ok (0, set_req_dma (set_dma_list l (set_buffer_addr (page_buffer b) (rq_dma req))) req, b')
      /\ addressed b 0 (Z.to_nat (io_nlbs req + 1)) (dma_list (rq_dma req)) l
      /\ page_buffer_inuse b' = true /\ page_buffer b' = page_buffer b
      /\ wb_num_program_pgs (wbc b') = io_nlbs req + 1 /\ length (wb_pages (wbc b')) = 16%nat
      /\ wb_type (wbc b') = wb_type (wbc b)
      /\ (all_invalid (wb_pages (wbc b)) -> wbc_list (wb_pages (wbc b')) = request_pages b req).
Proof. apply write_buffer_ok. Qed.

(** [free_wbc_buffer] on a cache of 16 pages. *)
Lemma free_wbc_ok b :
  length (wb_pages (wbc b)) = 16%nat ->
  exists b', free_wbc_buffer b = Ok b' /\ buffer_idle b' /\ page_buffer b' = page_buffer b
    /\ wb_type (wbc b') = wb_type (wbc b).
Proof.
  intros Hl. unfold free_wbc_buffer. change (Z.to_nat WBC_PAGES) with 16%nat.
  cbn [set_inuse wbc wb_pages]. rewrite invalidate_pages_spec by lia. cbn [obind]. eexists. split; [done|].
  split; [|done]. split; [done|]. simpl. split; [by rewrite length_map|].
  apply Forall_map. by apply Forall_true.
Qed.

(** the flush of the cache ends the write's ownership: [free_wbc_buffer]
    leaves the buffer idle, so that the next request gets it. *)
Theorem free_wbc_buffer_idle b :
  length (wb_pages (wbc b)) = 16%nat ->
  exists b', free_wbc_buffer b = Ok b' /\ buffer_idle b' /\ page_buffer b' = page_buffer b
    /\ wb_type (wbc b') = wb_type (wbc b).
Proof. apply free_wbc_ok. Qed.

End buffer.

(** ** A write of three pages from logical page 7 *)

Definition demo_wbc : wbc_req := WbcReq WBC_FLUSH_REQUEST 1 0 0 false (replicate 16 (WbcPage 0 0 0 0)).
Definition demo_buffer : buffer_mgt := BufferMgt 0x100000 false demo_wbc.
Definition demo_write_req : io_req :=
  set_queue_info 1 1 0 (set_field NvmeIOSCmd 9 2 (set_field NvmeIOSCmd 8 7 0)) 0 0 io_req0.

Lemma get_write_io_buffer_correct_witness :
  exists r b', get_write_io_buffer H4k_N4k_256mb demo_write_req demo_buffer = Ok (0, r, b')
    /\ wbc_list (wb_pages (wbc b')) = [(7, 0x100000); (8, 0x101000); (9, 0x102000)].
Proof.
  destruct (get_write_io_buffer_correct H4k_N4k_256mb demo_write_req demo_buffer)
    as (l & b' & E & _ & _ & _ & _ & _ & _ & Hw); [reflexivity|vm_compute; split; [discriminate|reflexivity]|reflexivity|].
  eexists _, b'. split; [exact E|]. rewrite Hw by (repeat constructor). vm_compute. reflexivity.
Defined.

Lemma free_wbc_buffer_idle_witness :
  exists b', free_wbc_buffer (set_inuse true demo_buffer) = Ok b' /\ buffer_idle b'.
Proof.
  destruct (free_wbc_buffer_idle (set_inuse true demo_buffer) eq_refl) as (b' & E & H & _).
  exists b'. split; [exact E|exact H].
Defined.
