(* ===== verification/NvmeQueues.v ===== *)
(** * The NVMe driver's queues (firmware/nvme_driver.h, firmware/nvme_driver.c 12-68,
    319-452, 1022-1065, 1431-1445)

    Submission and completion queues as the drive sees them, the queues of
    completions that wait for room in a host queue, posting completions, and the
    queues of requests that wait for the page buffer. *)

From Stdlib Require Import ZArith Lia Bool List.
From stdpp Require Import base tactics option list functions.
From S2P Require Import Prelude CTypes Queue Kernel MemUtil HostIf HostDma Prp ReqAlloc BufferMgt Requests.

Definition MAX_IO_SQCQ_PAIRS : Z := 4.
Definition MAX_IO_SQCQ_ENTRIES : Z := 128.
Definition INTERNAL_IO_REQ_QUEUE : Z := 128.

Record NvmeSQueue := SQueue {
  sq_sqid : Z; sq_cqid : Z; sq_head : Z; sq_tail : Z; sq_tailBDReg : Z; sq_size : Z; sq_hostAddr : Z }.

Record NvmeCQueue := CQueue {
  cq_phase : Z; cq_irq_enabled : Z; cq_cqid : Z; cq_head : Z; cq_headBDReg : Z; cq_tail : Z;
  cq_vector : Z; cq_size : Z; cq_hostAddr : Z; cq_pending : queue_t req_ptr }.

(** Zero-initialised globals; the queues' pending arrays hold 128 entries. *)
Definition squeue0 : NvmeSQueue := SQueue 0 0 0 0 0 0 0.
Definition cqueue0 : NvmeCQueue := CQueue 0 0 0 0 0 0 0 0 0 (Queue 0 0 0 (replicate 128 (RPtr 0))).

Definition set_sq_head v q :=
  SQueue (sq_sqid q) (sq_cqid q) v (sq_tail q) (sq_tailBDReg q) (sq_size q) (sq_hostAddr q).
Definition set_sq_tail v q :=
  SQueue (sq_sqid q) (sq_cqid q) (sq_head q) v (sq_tailBDReg q) (sq_size q) (sq_hostAddr q).
Definition set_cq_head v q :=
  CQueue (cq_phase q) (cq_irq_enabled q) (cq_cqid q) v (cq_headBDReg q) (cq_tail q) (cq_vector q)
    (cq_size q) (cq_hostAddr q) (cq_pending q).
Definition set_cq_tail ph t q :=
  CQueue ph (cq_irq_enabled q) (cq_cqid q) (cq_head q) (cq_headBDReg q) t (cq_vector q)
    (cq_size q) (cq_hostAddr q) (cq_pending q).
Definition set_pending v q :=
  CQueue (cq_phase q) (cq_irq_enabled q) (cq_cqid q) (cq_head q) (cq_headBDReg q) (cq_tail q)
    (cq_vector q) (cq_size q) (cq_hostAddr q) v.

(** [inc_cq_tail]: past the last entry the tail returns to 0 and the phase flips. *)
Definition inc_cq_tail (cq : NvmeCQueue) : NvmeCQueue :=
  let tail := u32 (cq_tail cq + 1) in
  if cq_size cq <=? tail then set_cq_tail (if cq_phase cq =? 0 then 1 else 0) 0 cq
  else set_cq_tail (cq_phase cq) tail cq.

Definition inc_sq_head (sq : NvmeSQueue) : outcome NvmeSQueue :=
  let! h := c_mod (u32 (sq_head sq + 1)) (sq_size sq) in Ok (set_sq_head h sq).

Definition nvme_cq_full (cq : NvmeCQueue) : outcome bool :=
  let! t := c_mod (u32 (cq_tail cq + 1)) (cq_size cq) in Ok (t =? cq_head cq).

(** ** Requests waiting for the page buffer *)

Record buf_q := BufQ { bq_tail : Z; bq_head : Z; bq_empty : bool; bq_objs : list req_ptr }.
Definition R_BUFFER_Q_SIZE : Z := MAX_IO_SQCQ_ENTRIES.
Definition buf_q0 : buf_q := BufQ 0 0 true (replicate 128 (RPtr 0)).

(** [push_r_buf_q] and [push_w_buf_q] *)
Definition push_buf_q (req : req_ptr) (q : buf_q) : outcome buf_q :=
  let! l := arr_set (bq_objs q) (bq_tail q) req in
  Ok (BufQ ((bq_tail q + 1) mod R_BUFFER_Q_SIZE) (bq_head q) false l).

(** [pop_r_buf_q] and [pop_w_buf_q] *)
Definition pop_buf_q (q : buf_q) : outcome (req_ptr * buf_q) :=
  let head := (bq_head q + 1) mod R_BUFFER_Q_SIZE in
  let empty := if head =? bq_tail q then true else bq_empty q in
  let! p := arr_get (bq_objs q) (bq_head q) in
  Ok (p, BufQ (bq_tail q) head empty (bq_objs q)).

(** ** The state of the driver *)

Record nvme := Nvme {
  nv_sqs : list NvmeSQueue; nv_cqs : list NvmeCQueue; nv_iosqCount : Z; nv_iocqCount : Z;
  nv_idle : Z; nv_rbuf : buf_q; nv_wbuf : buf_q; nv_alloc : req_alloc; nv_buffer : buffer_mgt;
  nv_prp : prp_world; nv_kernel : kernel; nv_code_size : Z }.

Definition set_sqs v s := Nvme v (nv_cqs s) (nv_iosqCount s) (nv_iocqCount s) (nv_idle s) (nv_rbuf s)
  (nv_wbuf s) (nv_alloc s) (nv_buffer s) (nv_prp s) (nv_kernel s) (nv_code_size s).
Definition set_cqs v s := Nvme (nv_sqs s) v (nv_iosqCount s) (nv_iocqCount s) (nv_idle s) (nv_rbuf s)
  (nv_wbuf s) (nv_alloc s) (nv_buffer s) (nv_prp s) (nv_kernel s) (nv_code_size s).
Definition set_counts sqn cqn s := Nvme (nv_sqs s) (nv_cqs s) sqn cqn (nv_idle s) (nv_rbuf s)
  (nv_wbuf s) (nv_alloc s) (nv_buffer s) (nv_prp s) (nv_kernel s) (nv_code_size s).
Definition set_idle v s := Nvme (nv_sqs s) (nv_cqs s) (nv_iosqCount s) (nv_iocqCount s) v (nv_rbuf s)
  (nv_wbuf s) (nv_alloc s) (nv_buffer s) (nv_prp s) (nv_kernel s) (nv_code_size s).
Definition set_bufs r w s := Nvme (nv_sqs s) (nv_cqs s) (nv_iosqCount s) (nv_iocqCount s) (nv_idle s) r
  w (nv_alloc s) (nv_buffer s) (nv_prp s) (nv_kernel s) (nv_code_size s).
Definition set_alloc v s := Nvme (nv_sqs s) (nv_cqs s) (nv_iosqCount s) (nv_iocqCount s) (nv_idle s)
  (nv_rbuf s) (nv_wbuf s) v (nv_buffer s) (nv_prp s) (nv_kernel s) (nv_code_size s).
Definition set_nv_buffer v s := Nvme (nv_sqs s) (nv_cqs s) (nv_iosqCount s) (nv_iocqCount s) (nv_idle s)
  (nv_rbuf s) (nv_wbuf s) (nv_alloc s) v (nv_prp s) (nv_kernel s) (nv_code_size s).
Definition set_prp v s := Nvme (nv_sqs s) (nv_cqs s) (nv_iosqCount s) (nv_iocqCount s) (nv_idle s)
  (nv_rbuf s) (nv_wbuf s) (nv_alloc s) (nv_buffer s) v (nv_kernel s) (nv_code_size s).
Definition set_nv_kernel v s := Nvme (nv_sqs s) (nv_cqs s) (nv_iosqCount s) (nv_iocqCount s) (nv_idle s)
  (nv_rbuf s) (nv_wbuf s) (nv_alloc s) (nv_buffer s) (nv_prp s) v (nv_code_size s).
Definition set_code_size v s := Nvme (nv_sqs s) (nv_cqs s) (nv_iosqCount s) (nv_iocqCount s) (nv_idle s)
  (nv_rbuf s) (nv_wbuf s) (nv_alloc s) (nv_buffer s) (nv_prp s) (nv_kernel s) v.

Definition nv_dma (s : nvme) : dma_world := pw_world (nv_prp s).
Definition set_nv_dma (w : dma_world) (s : nvme) : nvme := set_prp (PrpWorld (pw_dma (nv_prp s)) w) s.
Definition nv_ssd (s : nvme) : mem := hi_ssd (dw_hif (nv_dma s)).
Definition nv_host (s : nvme) : mem := hi_host (dw_hif (nv_dma s)).

(** A store of the driver into the drive's memory. *)
Definition ssd_store (n : nat) (a v : Z) (s : nvme) : nvme :=
  let w := nv_dma s in
  set_nv_dma (set_dw_hif (set_ssd (store_le n a v (hi_ssd (dw_hif w))) (dw_hif w)) w) s.

Definition upd_cq (f : NvmeCQueue -> NvmeCQueue) (i : Z) (s : nvme) : outcome nvme :=
  let! q := arr_get (nv_cqs s) i in
  let! l := arr_set (nv_cqs s) i (f q) in Ok (set_cqs l s).

Definition upd_req (f : req_obj -> req_obj) (p : req_ptr) (s : nvme) : outcome nvme :=
  let! a := upd_obj f p (nv_alloc s) in Ok (set_alloc a s).

(** A block that held a request of another type is read through the new type:
    what its memory then says beyond the common fields is left open. *)
Class MemoryViews := {
  raw_admin : req_obj -> admin_req; raw_io : req_obj -> io_req;
  raw_nand : req_obj -> isp_nand_op; raw_host_dma : req_obj -> isp_host_dma }.

Section queues.
Context `{DmaEngines} `{MemoryViews} (ccmd_buf : Z).

Definition as_admin (o : req_obj) : admin_req :=
  match o with OAdmin a => a | _ => set_ar_common (o_type o) (o_index o) (o_stage o) (raw_admin o) end.
Definition as_io (o : req_obj) : io_req :=
  match o with OIo r => r | _ => set_stage (o_stage o) (set_type_index (o_type o) (o_index o) (raw_io o)) end.

(** ** Posting completions *)

(** [sync_post_ccmd]: the DMA thread copies the entry while the driver waits. *)
Definition post_ccmd (cq : NvmeCQueue) (s : nvme) : outcome nvme :=
  let w := nv_dma s in
  let w := set_dw_sync (sync_post_ccmd (cq_cqid cq) (cq_tail cq) (cq_hostAddr cq) ccmd_buf 1
                          (cq_vector cq) (cq_irq_enabled cq) (dw_sync w)) w in
  let! '(_, w) := sync_dma_cbk dma0 PCI_DMA_CQ_WRITE w in
  Ok (set_nv_dma w s).

(** [cdw0], [sqhd], [cid] and [status_p] of the completion entry; [sqid] and the
    reserved dword are not stored. *)
Definition store_ccmd (e : NvmeCCmd) (s : nvme) : nvme :=
  ssd_store 2 (ccmd_buf + 14) (cc_status_p e)
    (ssd_store 2 (ccmd_buf + 12) (cc_cid e)
       (ssd_store 2 (ccmd_buf + 8) (cc_sqhd e) (ssd_store 4 ccmd_buf (cc_cdw0 e) s))).

(** [(status << 1) | phase] in 16 bits *)
Definition status_phase (status phase : Z) : Z := u16 (Z.lor (Z.shiftl status 1) phase).

Definition admin_ccmd (sq : NvmeSQueue) (cq : NvmeCQueue) (r : admin_req) : NvmeCCmd :=
  MkCCmd (ar_ccmd_cdw0 r) (u16 (sq_head sq)) (field NvmeSCmd 2 (ar_scmd r))
    (status_phase (ar_status r) (cq_phase cq)).
Definition io_ccmd (sq : NvmeSQueue) (cq : NvmeCQueue) (r : io_req) : NvmeCCmd :=
  MkCCmd (rq_ccmd_dw0 r) (u16 (sq_head sq)) (io_cid r) (status_phase (rq_status r) (cq_phase cq)).

(** The part of the posting loops that follows the completion entry. *)
Definition post_and_free (cqid : Z) (p : req_ptr) (s : nvme) : outcome nvme :=
  let! cq := arr_get (nv_cqs s) cqid in
  let! s := post_ccmd cq s in
  let! s := upd_req (set_o_stage CCMD_POSTED) p s in
  let! s := upd_cq inc_cq_tail cqid s in
  let! a := sys_free_req_obj (Some p) (nv_alloc s) in
  Ok (set_alloc a s).

(** One round of the loops: [None] when there is nothing to post or no room. *)
Definition pop_pending (cqid : Z) (s : nvme) : outcome (option (req_ptr * nvme)) :=
  let! cq := arr_get (nv_cqs s) cqid in
  if q_head (cq_pending cq) =? q_tail (cq_pending cq) then Ok None
  else
    let! full := nvme_cq_full cq in
    if full then Ok None
    else
      let! '(p, pend) := take_head (cq_pending cq) in
      let! l := arr_set (nv_cqs s) cqid (set_pending pend cq) in
      Ok (Some (p, set_cqs l s)).

Fixpoint post_admin_ccmds (fuel : nat) (s : nvme) : outcome nvme :=
  match fuel with
  | O => Fault FFuel
  | S fuel =>
      let! r := pop_pending 0 s in
      match r with
      | None => Ok s
      | Some (p, s) =>
          let! o := get_obj p (nv_alloc s) in
          let! sq := arr_get (nv_sqs s) 0 in
          let! cq := arr_get (nv_cqs s) 0 in
          let s := store_ccmd (admin_ccmd sq cq (as_admin o)) s in
          let! s := post_and_free 0 p s in
          post_admin_ccmds fuel s
      end
  end.

Fixpoint post_io_ccmds (fuel : nat) (cqid : Z) (s : nvme) : outcome nvme :=
  match fuel with
  | O => Fault FFuel
  | S fuel =>
      let! r := pop_pending cqid s in
      match r with
      | None => Ok s
      | Some (p, s) =>
          let! o := get_obj p (nv_alloc s) in
          let! sq := arr_get (nv_sqs s) (rq_sqid (as_io o)) in
          let! cq := arr_get (nv_cqs s) cqid in
          let s := store_ccmd (io_ccmd sq cq (as_io o)) s in
          let! s := post_and_free cqid p s in
          post_io_ccmds fuel cqid s
      end
  end.

(** A pass posts each pending completion at most once: the queue size is enough. *)
Definition post_fuel (cqid : Z) (s : nvme) : nat :=
  match arr_get (nv_cqs s) cqid with Ok cq => Z.to_nat (q_size (cq_pending cq)) | Fault _ => 1%nat end.

(** [enqueue_admin_ccmd]: no test for a full queue. *)
Definition enqueue_admin_ccmd (req : req_ptr) (s : nvme) : outcome nvme :=
  let! cq := arr_get (nv_cqs s) 0 in
  let! pend := put_tail (cq_pending cq) req in
  let! l := arr_set (nv_cqs s) 0 (set_pending pend cq) in
  let s := set_cqs l s in
  post_admin_ccmds (post_fuel 0 s) s.

Definition enqueue_io_ccmd (cqid : Z) (req : req_ptr) (s : nvme) : outcome nvme :=
  let! cq := arr_get (nv_cqs s) cqid in
  let! '(r, pend) := enQueue (cq_pending cq) req in
  match r with
  | None => Ok s
  | Some _ =>
      let! l := arr_set (nv_cqs s) cqid (set_pending pend cq) in
      let! s := upd_req (set_o_stage PENDING_CCMD_POST) req (set_cqs l s) in
      post_io_ccmds (post_fuel cqid s) cqid s
  end.

(** [checkSQID]: not called by the driver. *)
Definition checkSQID (sqid : Z) (s : nvme) : outcome Z :=
  if sqid =? 0 then Ok 1
  else
    let! sq := arr_get (nv_sqs s) sqid in
    if sq_sqid sq =? 0 then Ok 0
    else
      let! cq := arr_get (nv_cqs s) (sq_cqid sq) in
      Ok (if cq_cqid cq =? 0 then 0 else 1).

End queues.
