(* ===== verification/NvmePost.v ===== *)
(** * Posting completions

    The completion queues of NvmeQueues.v: the position of the [N]-th entry, the
    room the host leaves, one completion, and a pass over the pending ones. *)

From Stdlib Require Import ZArith Lia Bool List.
From stdpp Require Import base tactics option list functions.
From S2P Require Import Prelude CTypes Queue Kernel MemUtil HostIf HostDma Prp ReqAlloc BufferMgt Requests NvmeQueues.

(** ** Words in memory *)

Lemma load_le_out n a v k b m :
  (forall i, 0 <= i < Z.of_nat n -> ~ (a <= b + i < a + Z.of_nat k)) ->
  load_le n b (store_le k a v m) = load_le n b m.
Proof.
  revert b. induction n as [|n IH]; intros b Hd; simpl; [done|].
  rewrite store_le_out by (specialize (Hd 0); lia). f_equal. f_equal. apply IH.
  intros i Hi. specialize (Hd (i + 1) ltac:(lia)). lia.
Qed.

Lemma load_store_same n a v m : 0 <= v < 2 ^ (8 * Z.of_nat n) -> load_le n a (store_le n a v m) = v.
Proof.
  revert a v m. induction n as [|n IH]; intros a v m Hv; simpl; [simpl in Hv; lia|].
  rewrite store_le_out by lia. rewrite fn_lookup_insert.
  replace (8 * Z.of_nat (S n)) with (8 + 8 * Z.of_nat n) in Hv by lia. rewrite Z.pow_add_r in Hv by lia.
  rewrite IH.
  - unfold u8. pose proof (Z.div_mod v (2 ^ 8) ltac:(lia)). lia.
  - split; [apply Z.div_pos; lia|]. apply Z.div_lt_upper_bound; lia.
Qed.

(** ** The tail of a completion queue

    The [N]-th completion ever posted goes to slot [N mod size] and carries the
    phase of its round: 1 in the first, then alternating. *)
Definition phase_of (size N : Z) : Z := if Z.even (N / size) then 1 else 0.

Definition cq_at (N : Z) (cq : NvmeCQueue) : Prop :=
  0 <= N /\ 0 < cq_size cq <= 2 ^ 16 /\ cq_tail cq = N mod cq_size cq /\ cq_phase cq = phase_of (cq_size cq) N.

Lemma inc_cq_tail_at N cq :
  cq_at N cq ->
  cq_at (N + 1) (inc_cq_tail cq)
  /\ inc_cq_tail cq = set_cq_tail (phase_of (cq_size cq) (N + 1)) ((N + 1) mod cq_size cq) cq.
Proof.
  intros (HN & Hs & Ht & Hp). pose proof (Z.mod_pos_bound N (cq_size cq) ltac:(lia)) as Hb.
  pose proof (Z.div_mod N (cq_size cq) ltac:(lia)) as Hdm.
  assert (E : inc_cq_tail cq = set_cq_tail (phase_of (cq_size cq) (N + 1)) ((N + 1) mod cq_size cq) cq).
  { unfold inc_cq_tail. rewrite u32_id by lia. rewrite Ht. destruct (Z.leb_spec (cq_size cq) (N mod cq_size cq + 1)).
    - assert (Em : N + 1 = (N / cq_size cq + 1) * cq_size cq) by lia.
      rewrite Em, Z.mod_mul by lia. unfold phase_of at 1. rewrite Z.div_mul by lia.
      rewrite Hp. unfold phase_of. rewrite Z.add_1_r, Z.even_succ, <- Z.negb_even.
      by destruct (Z.even (N / cq_size cq)).
    - assert (Em : N + 1 = (N / cq_size cq) * cq_size cq + (N mod cq_size cq + 1)) by lia.
      assert (Ed : (N + 1) / cq_size cq = N / cq_size cq)
        by (symmetry; apply (Z.div_unique _ _ _ (N mod cq_size cq + 1)); lia).
      assert (Er : (N + 1) mod cq_size cq = N mod cq_size cq + 1)
        by (symmetry; apply (Z.mod_unique _ _ (N / cq_size cq)); lia).
      rewrite Er. unfold phase_of. rewrite Ed. by rewrite Hp. }
  rewrite E. split; [|done]. split_and!; simpl; try done; lia.
Qed.

(** The number of entries the host has not consumed, and the room that is left. *)
Definition cq_used (cq : NvmeCQueue) : Z := (cq_tail cq - cq_head cq) mod cq_size cq.
Definition cq_room (cq : NvmeCQueue) : Z := cq_size cq - 1 - cq_used cq.

Definition cq_head_ok (cq : NvmeCQueue) : Prop := 0 <= cq_head cq < cq_size cq.

Lemma nvme_cq_full_room N cq : cq_at N cq -> cq_head_ok cq -> nvme_cq_full cq = Ok (cq_room cq =? 0).
Proof.
  intros (HN & Hs & Ht & _) Hh. unfold cq_head_ok in Hh.
  pose proof (Z.mod_pos_bound N (cq_size cq) ltac:(lia)) as Hb. rewrite <- Ht in Hb.
  unfold nvme_cq_full, c_mod. destruct (Z.eqb_spec (cq_size cq) 0); [lia|]. simpl. f_equal.
  rewrite u32_id by lia. unfold cq_room, cq_used.
  pose (q := Queue (cq_tail cq) (cq_head cq) (cq_size cq) (replicate (Z.to_nat (cq_size cq)) 0)).
  assert (Hwf : q_wf q) by (unfold q_wf, q; simpl; rewrite length_replicate; lia).
  pose proof (full_iff q Hwf) as Hf. unfold q_count in Hf. simpl in Hf.
  pose proof (Z.mod_pos_bound (cq_tail cq - cq_head cq) (cq_size cq) ltac:(lia)).
  rewrite Z2Nat.id in Hf by lia. rewrite Z.eqb_sym, Hf.
  destruct (Z.eqb_spec ((cq_tail cq - cq_head cq) mod cq_size cq) (cq_size cq - 1)),
    (Z.eqb_spec (cq_size cq - 1 - (cq_tail cq - cq_head cq) mod cq_size cq) 0); lia.
Qed.

Lemma cq_room_inc N cq : cq_at N cq -> cq_head_ok cq -> cq_room cq <> 0 ->
  cq_room (inc_cq_tail cq) = cq_room cq - 1.
Proof.
  intros Hat Hh Hr. destruct (inc_cq_tail_at N cq Hat) as [_ ->]. destruct Hat as (HN & Hs & Ht & _).
  unfold cq_room, cq_used in *. simpl. unfold cq_head_ok in Hh.
  pose proof (Z.mod_pos_bound (cq_tail cq - cq_head cq) (cq_size cq) ltac:(lia)).
  assert (E : ((N + 1) mod cq_size cq - cq_head cq) mod cq_size cq
              = (cq_tail cq - cq_head cq) mod cq_size cq + 1).
  { rewrite <- (mod_sub_succ (cq_tail cq) (cq_head cq) (cq_size cq)) by lia.
    rewrite Ht. by rewrite Z.add_mod_idemp_l by lia. }
  rewrite E. lia.
Qed.

(** Slots the host has not consumed are not written. *)
Definition unread_slot (cq : NvmeCQueue) (i : Z) : Prop :=
  exists k, 0 <= k < cq_used cq /\ i = (cq_head cq + k) mod cq_size cq.

Lemma tail_slot_read N cq : cq_at N cq -> cq_head_ok cq -> cq_room cq <> 0 ->
  ~ unread_slot cq (cq_tail cq).
Proof.
  intros (HN & Hs & Ht & _) Hh Hr (k & Hk & E). unfold cq_head_ok in Hh. unfold cq_room in Hr.
  unfold cq_used in *. pose proof (Z.mod_pos_bound (cq_tail cq - cq_head cq) (cq_size cq) ltac:(lia)).
  assert (E2 : (cq_head cq + (cq_tail cq - cq_head cq) mod cq_size cq) mod cq_size cq = cq_tail cq).
  { rewrite Z.add_mod_idemp_r by lia. replace (cq_head cq + (cq_tail cq - cq_head cq)) with (cq_tail cq) by lia.
    rewrite Ht. by apply Z.mod_mod; lia. }
  rewrite E in E2 at 2. apply mod_inj_range in E2; lia.
Qed.

(** ** One completion *)

(** The completion entry at [addr], as the host reads it. *)
Definition entry_at (m : mem) (addr : Z) (e : NvmeCCmd) : Prop :=
  load_le 4 addr m = cc_cdw0 e /\ load_le 2 (addr + 8) m = cc_sqhd e
  /\ load_le 2 (addr + 12) m = cc_cid e /\ load_le 2 (addr + 14) m = cc_status_p e.

Definition ccmd_fits (e : NvmeCCmd) : Prop :=
  fits 32 (cc_cdw0 e) /\ fits 16 (cc_sqhd e) /\ fits 16 (cc_cid e) /\ fits 16 (cc_status_p e).

(** A completion queue in use: the [N] entries posted so far determine its tail
    and phase, and its settings are machine words. *)
Record cq_valid (N : Z) (cq : NvmeCQueue) : Prop := {
  cv_at : cq_at N cq;
  cv_head : cq_head_ok cq;
  cv_addr : fits 64 (cq_hostAddr cq);
  cv_end : cq_hostAddr cq + 16 * cq_size cq < 2 ^ 64;
  cv_vector : fits 32 (cq_vector cq);
  cv_irq : fits 32 (cq_irq_enabled cq);
  cv_pending : q_wf (cq_pending cq) }.

Lemma cq_valid_tail N cq : cq_valid N cq -> 0 <= cq_tail cq < cq_size cq.
Proof. intros []. destruct cv_at0 as (_ & Hs & -> & _). apply Z.mod_pos_bound. lia. Qed.

(** The slot address of the next completion. *)
Definition slot_addr (cq : NvmeCQueue) (i : Z) : Z := cq_hostAddr cq + i * 16.

(** What posting never touches. *)
Record frame (s s' : nvme) : Prop := {
  fr_sqs : nv_sqs s' = nv_sqs s;
  fr_counts : nv_iosqCount s' = nv_iosqCount s /\ nv_iocqCount s' = nv_iocqCount s;
  fr_idle : nv_idle s' = nv_idle s;
  fr_bufs : nv_rbuf s' = nv_rbuf s /\ nv_wbuf s' = nv_wbuf s;
  fr_buffer : nv_buffer s' = nv_buffer s;
  fr_kernel : nv_kernel s' = nv_kernel s;
  fr_code : nv_code_size s' = nv_code_size s;
  fr_dma : pw_dma (nv_prp s') = pw_dma (nv_prp s) }.

Lemma frame_refl s : frame s s.
Proof. by split. Qed.
Lemma frame_trans s1 s2 s3 : frame s1 s2 -> frame s2 s3 -> frame s1 s3.
Proof.
  intros [A1 [A2 A2'] A3 [A4 A4'] A5 A6 A7 A8] [B1 [B2 B2'] B3 [B4 B4'] B5 B6 B7 B8].
  split; try split; congruence.
Qed.

(** Changing the stage of an object keeps the accounting. *)
Lemma alloc_inv_stage a used p o st :
  alloc_inv a used -> get_obj p a = Ok o ->
  exists a', upd_obj (set_o_stage st) p a = Ok a' /\ alloc_inv a' used
    /\ get_obj p a' = Ok (set_o_stage st o) /\ (forall p', p' <> p -> get_obj p' a' = get_obj p' a).
Proof.
  intros Hinv Ho.
  assert (Hpi : 0 <= ptr_index p < Z.of_nat (length (objs (ptr_pool p) a)))
    by (rewrite get_obj_eq in Ho; by eapply arr_get_range).
  destruct (upd_obj_spec (set_o_stage st) p a Hpi) as (o1 & a' & E & E1 & G1 & H2 & H3 & H4).
  rewrite Ho in E1. injection E1 as <-. exists a'. split; [done|]. split; [|done].
  split.
  - intros k. rewrite H4. apply Hinv.
  - intros k. rewrite H3. apply Hinv.
  - intros k. rewrite H3. apply Hinv.
  - intros p' o1 Hp' Ho1. destruct (decide (p' = p)) as [->|Hne].
    + rewrite G1 in Ho1. injection Ho1 as <-. pose proof (ai_obj _ _ Hinv p o Hp' Ho) as Hok.
      unfold obj_ok, set_o_stage in *. rewrite o_type_common.
      destruct (ptr_pool p); [destruct Hok as (? & r & ->); split; [done|simpl; eauto]..|done].
    + rewrite H2 in Ho1 by done. by apply (ai_obj _ _ Hinv).
Qed.

Section posting.
Context `{DmaEngines} `{MemoryViews} (ccmd_buf : Z).
Context (Hbuf : 0 <= ccmd_buf) (Hbuf2 : ccmd_buf + 16 < 2 ^ 32).

Lemma nv_ssd_store n a v s : nv_ssd (ssd_store n a v s) = store_le n a v (nv_ssd s).
Proof. done. Qed.

Lemma store_ccmd_ssd e s :
  ccmd_fits e ->
  entry_at (nv_ssd (store_ccmd ccmd_buf e s)) ccmd_buf e
  /\ (forall a, ~ (ccmd_buf <= a < ccmd_buf + 16) -> nv_ssd (store_ccmd ccmd_buf e s) a = nv_ssd s a).
Proof.
  intros (H1 & H2 & H3 & H4). unfold store_ccmd. rewrite !nv_ssd_store. split.
  - split_and!.
    + do 3 (rewrite (load_le_out 4) by lia). by apply load_store_same.
    + do 2 (rewrite (load_le_out 2 _ _ 2 (ccmd_buf + 8)) by lia). by apply load_store_same.
    + rewrite (load_le_out 2 _ _ 2 (ccmd_buf + 12)) by lia. by apply load_store_same.
    + by apply load_store_same.
  - intros a Ha. by do 4 (rewrite store_le_out by lia).
Qed.

Lemma entry_at_ext m m' a b e :
  (forall i, 0 <= i < 16 -> m (a + i) = m' (b + i)) -> entry_at m' b e -> entry_at m a e.
Proof.
  intros Hm (E1 & E2 & E3 & E4). unfold entry_at. rewrite <- E1, <- E2, <- E3, <- E4.
  assert (Hw : forall n o, 0 <= o -> o + Z.of_nat n <= 16 -> load_le n (a + o) m = load_le n (b + o) m').
  { intros n o Ho Hn. apply load_le_ext. intros i Hi. rewrite <- !Z.add_assoc. apply Hm. lia. }
  split_and!; try (apply Hw; lia). rewrite <- (Z.add_0_r a), <- (Z.add_0_r b). apply Hw; lia.
Qed.

(** Posting the entry in the drive's buffer to the host. *)
Lemma post_ccmd_host N cq s :
  cq_valid N cq -> quiet (nv_dma s) -> ready_for 1 (nv_dma s) ->
  exists w', post_ccmd ccmd_buf cq s = Ok (set_nv_dma w' s)
    /\ (forall i, 0 <= i < 16 ->
         hi_host (dw_hif w') (slot_addr cq (cq_tail cq) + i) = nv_ssd s (ccmd_buf + i))
    /\ (forall a, ~ (slot_addr cq (cq_tail cq) <= a < slot_addr cq (cq_tail cq) + 16) ->
         hi_host (dw_hif w') a = nv_host s a)
    /\ (forall a, hi_ssd (dw_hif w') a = nv_ssd s a)
    /\ hi_irqs (dw_hif w') = (if cq_irq_enabled cq =? 0 then hi_irqs (dw_hif (nv_dma s))
                              else hi_irqs (dw_hif (nv_dma s)) ++ [cq_vector cq])
    /\ quiet w' /\ exists sc, dw_scheds (nv_dma s) = sc :: dw_scheds w'.
Proof.
  intros Hv Hq Hr. pose proof (cq_valid_tail N cq Hv) as Ht. destruct Hv as [Hat Hh Ha He Hvec Hirq Hp].
  pose proof Hat as (_ & Hs & _).
  destruct (post_ccmd_ok (cq_cqid cq) (cq_tail cq) (cq_hostAddr cq) ccmd_buf 1 (cq_vector cq)
              (cq_irq_enabled cq) dma0 (nv_dma s)) as [Hd Hg]; try done; try (unfold fits; lia).
  destruct (Hg Hr) as [w' E]. exists w'. destruct (Hd _ _ E) as (_ & _ & H1 & H2 & H3 & H4 & H5 & H6).
  unfold post_ccmd. change (sd_dma_type _) with PCI_DMA_CQ_WRITE in E. rewrite E. simpl. done.
Qed.

(** The settings of a queue that posting keeps. *)
Definition same_queue (cq cq' : NvmeCQueue) : Prop :=
  cq_size cq' = cq_size cq /\ cq_head cq' = cq_head cq /\ cq_hostAddr cq' = cq_hostAddr cq
  /\ cq_cqid cq' = cq_cqid cq /\ q_size (cq_pending cq') = q_size (cq_pending cq).

Lemma same_queue_trans q1 q2 q3 : same_queue q1 q2 -> same_queue q2 q3 -> same_queue q1 q3.
Proof. intros (? & ? & ? & ? & ?) (? & ? & ? & ? & ?). split_and!; congruence. Qed.

(** Objects change in their stage only. *)
Definition staged (a a' : req_alloc) : Prop :=
  forall p o', get_obj p a' = Ok o' -> exists o, get_obj p a = Ok o /\ (o' = o \/ exists st, o' = set_o_stage st o).

Lemma staged_refl a : staged a a.
Proof. intros p o E. eauto. Qed.

Lemma set_o_stage_twice st st' o : set_o_stage st (set_o_stage st' o) = set_o_stage st o.
Proof. by destruct o. Qed.

Lemma staged_trans a1 a2 a3 : staged a1 a2 -> staged a2 a3 -> staged a1 a3.
Proof.
  intros H1 H2 p o' E. destruct (H2 p o' E) as (o2 & E2 & Ho2). destruct (H1 p o2 E2) as (o1 & E1 & Ho1).
  exists o1. split; [done|]. destruct Ho1 as [->|[st1 ->]], Ho2 as [->|[st2 ->]]; eauto.
  right. exists st2. apply set_o_stage_twice.
Qed.

Lemma staged_one p o st a a' :
  get_obj p a = Ok o -> get_obj p a' = Ok (set_o_stage st o) ->
  (forall p', p' <> p -> get_obj p' a' = get_obj p' a) -> staged a a'.
Proof.
  intros Ho Ho' Hoth p' o' E. destruct (decide (p' = p)) as [->|Hne].
  - exists o. rewrite Ho' in E. injection E as <-. eauto.
  - rewrite Hoth in E by done. eauto.
Qed.

(** The state after one completion [e] of [p] has been posted from [s] with the
    queue [cq], whose other pending requests are [ps]. *)
Record posted_one (cqid N : Z) (cq : NvmeCQueue) (p : req_ptr) (ps : list req_ptr) (e : NvmeCCmd)
  (used : list req_ptr) (s s' : nvme) : Prop := {
  po_cq : exists cq', arr_get (nv_cqs s') cqid = Ok cq' /\ cq_valid (N + 1) cq'
    /\ q_contents (cq_pending cq') = ps /\ same_queue cq cq' /\ cq_room cq' = cq_room cq - 1;
  po_cqs : length (nv_cqs s') = length (nv_cqs s)
    /\ forall i, i <> cqid -> arr_get (nv_cqs s') i = arr_get (nv_cqs s) i;
  po_alloc : alloc_inv (nv_alloc s') used;
  po_objs : forall p', p' <> p -> get_obj p' (nv_alloc s') = get_obj p' (nv_alloc s);
  po_staged : staged (nv_alloc s) (nv_alloc s');
  po_frame : frame s s';
  po_entry : entry_at (nv_host s') (slot_addr cq (N mod cq_size cq)) e;
  po_host : forall a, ~ (slot_addr cq (N mod cq_size cq) <= a < slot_addr cq (N mod cq_size cq) + 16) ->
    nv_host s' a = nv_host s a;
  po_ssd : forall a, ~ (ccmd_buf <= a < ccmd_buf + 16) -> nv_ssd s' a = nv_ssd s a;
  po_mem : mem_ok (nv_ssd s) -> mem_ok (nv_ssd s') /\ (mem_ok (nv_host s) -> mem_ok (nv_host s'));
  po_quiet : quiet (nv_dma s');
  po_scheds : exists sc, dw_scheds (nv_dma s) = sc :: dw_scheds (nv_dma s');
  po_irqs : hi_irqs (dw_hif (nv_dma s')) =
    if cq_irq_enabled cq =? 0 then hi_irqs (dw_hif (nv_dma s))
    else hi_irqs (dw_hif (nv_dma s)) ++ [cq_vector cq] }.

Lemma pop_pending_some cqid N s cq p ps :
  arr_get (nv_cqs s) cqid = Ok cq -> cq_valid N cq -> q_contents (cq_pending cq) = p :: ps ->
  cq_room cq <> 0 ->
  exists pend l, pop_pending cqid s = Ok (Some (p, set_cqs l s))
    /\ arr_set (nv_cqs s) cqid (set_pending pend cq) = Ok l
    /\ q_wf pend /\ q_contents pend = ps /\ q_size pend = q_size (cq_pending cq).
Proof.
  intros Hc Hv Hp Hr. pose proof (cv_pending _ _ Hv) as Hwf. unfold pop_pending. rewrite Hc. simpl.
  rewrite (empty_iff _ Hwf). rewrite <- (q_contents_length _ Hwf), Hp. simpl.
  rewrite (nvme_cq_full_room N) by apply Hv. simpl. apply Z.eqb_neq in Hr. rewrite Hr.
  destruct (take_head_spec (cq_pending cq) Hwf) as (a & q' & -> & Hwf' & Hs & _ & Hc').
  { rewrite <- (q_contents_length _ Hwf), Hp. done. }
  rewrite Hp in Hc'. injection Hc' as <- Hps. simpl.
  destruct (arr_set_Ok_ex (nv_cqs s) cqid (set_pending q' cq) (arr_get_range _ _ _ Hc)) as [l El].
  rewrite El. simpl. exists q', l. done.
Qed.

Lemma pop_pending_none cqid N s cq :
  arr_get (nv_cqs s) cqid = Ok cq -> cq_valid N cq ->
  q_contents (cq_pending cq) = [] \/ cq_room cq = 0 -> pop_pending cqid s = Ok None.
Proof.
  intros Hc Hv Hor. pose proof (cv_pending _ _ Hv) as Hwf. unfold pop_pending. rewrite Hc. simpl.
  rewrite (empty_iff _ Hwf). rewrite <- (q_contents_length _ Hwf).
  destruct (Nat.eqb_spec (length (q_contents (cq_pending cq))) 0) as [E|E]; [done|].
  destruct Hor as [Hn|Hz]; [by destruct E; rewrite Hn|].
  rewrite (nvme_cq_full_room N) by apply Hv. simpl. by rewrite Hz.
Qed.

(** The common end of both loops' rounds. *)
Lemma post_round cqid N s cq p ps e o used pend l :
  arr_get (nv_cqs s) cqid = Ok cq -> cq_valid N cq -> cq_room cq <> 0 ->
  arr_set (nv_cqs s) cqid (set_pending pend cq) = Ok l ->
  q_wf pend -> q_contents pend = ps -> q_size pend = q_size (cq_pending cq) ->
  alloc_inv (nv_alloc s) (p :: used) -> get_obj p (nv_alloc s) = Ok o -> ccmd_fits e ->
  quiet (nv_dma s) -> ready_for 1 (nv_dma s) ->
  exists s', post_and_free ccmd_buf cqid p (store_ccmd ccmd_buf e (set_cqs l s)) = Ok s'
    /\ posted_one cqid N cq p ps e used s s'.
Proof.
  intros Hc Hv Hroom Hl Hwf Hps Hsz Hinv Ho He Hq Hr.
  set (s1 := store_ccmd ccmd_buf e (set_cqs l s)).
  destruct (store_ccmd_ssd e (set_cqs l s) He) as [Hent Hout]. fold s1 in Hent, Hout.
  pose proof (arr_get_set_eq _ _ _ _ Hl) as Hc1.
  set (cq1 := set_pending pend cq) in *.
  assert (Hv1 : cq_valid N cq1) by (destruct Hv; by split).
  assert (Hq1 : quiet (nv_dma s1)).
  { destruct Hq as (? & ? & ? & ? & ?). by split_and!. }
  destruct (post_ccmd_host N cq1 s1 Hv1 Hq1 Hr) as (w' & Ew & Hh1 & Hh2 & Hs1 & Hi1 & Hq' & Hsc).
  unfold post_and_free. change (nv_cqs s1) with l. rewrite Hc1. cbn [obind]. rewrite Ew. cbn [obind].
  set (s2 := set_nv_dma w' s1).
  (* the stage *)
  assert (Hpi : 0 <= ptr_index p < Z.of_nat (length (objs (ptr_pool p) (nv_alloc s)))).
  { rewrite get_obj_eq in Ho. by eapply arr_get_range. }
  unfold upd_req. change (nv_alloc s2) with (nv_alloc s).
  destruct (alloc_inv_stage (nv_alloc s) (p :: used) p o CCMD_POSTED Hinv Ho) as (a3 & -> & Hinv3 & Ho3 & Hoth3).
  cbn [obind].
  (* the tail *)
  unfold upd_cq. change (nv_cqs (set_alloc a3 s2)) with l. rewrite Hc1. cbn [obind].
  pose proof (arr_get_range _ _ _ Hc1) as Hrange.
  destruct (arr_set_Ok_ex l cqid (inc_cq_tail cq1) Hrange) as [l4 El4]. rewrite El4. cbn [obind].
  change (nv_alloc (set_cqs l4 (set_alloc a3 s2))) with a3.
  destruct (free_ok a3 used p _ Hinv3 Ho3) as (a5 & -> & Hinv5 & Hnp & Ho5 & Hoth5 & _). cbn [obind].
  eexists. split; [done|].
  destruct (inc_cq_tail_at N cq1 (cv_at _ _ Hv1)) as [Hat Einc].
  assert (Haddr : slot_addr cq1 (cq_tail cq1) = slot_addr cq (N mod cq_size cq)).
  { destruct (cv_at _ _ Hv) as (_ & _ & Et & _). unfold slot_addr. simpl. by rewrite Et. }
  split; simpl.
  - exists (inc_cq_tail cq1). split; [by eapply arr_get_set_eq|].
    pose proof (cq_room_inc N cq1 (cv_at _ _ Hv1) (cv_head _ _ Hv1) Hroom) as Hri.
    rewrite Einc in *. destruct Hv1 as [? Hh ? ? ? ? ?]. pose proof (cv_at _ _ Hv) as (_ & ? & _).
    split_and!; try done; by split_and!.
  - split.
    + rewrite <- (arr_set_length _ _ _ _ Hl). by eapply arr_set_length.
    + intros i Hi. rewrite (arr_get_set_ne _ _ _ _ _ (not_eq_sym Hi) El4).
      by rewrite (arr_get_set_ne _ _ _ _ _ (not_eq_sym Hi) Hl).
  - done.
  - intros p' Hp'. rewrite Hoth5, Hoth3 by done. done.
  - apply (staged_trans _ a3).
    + by eapply staged_one.
    + by eapply staged_one.
  - by split.
  - rewrite <- Haddr. eapply entry_at_ext; [exact Hh1|exact Hent].
  - intros a Ha. rewrite <- Haddr in Ha. exact (Hh2 a Ha).
  - intros a Ha. change (hi_ssd (dw_hif w') a = nv_ssd s a). rewrite Hs1. exact (Hout a Ha).
  - intros Hm. assert (Hm1 : mem_ok (nv_ssd s1))
      by (unfold s1, store_ccmd; rewrite !nv_ssd_store; do 4 apply store_le_ok; exact Hm).
    split; [intros a; change (fits 8 (hi_ssd (dw_hif w') a)); rewrite Hs1; apply Hm1|].
    intros Hmh a. change (fits 8 (hi_host (dw_hif w') a)).
    set (lo := slot_addr cq1 (cq_tail cq1)) in *.
    destruct (decide (lo <= a < lo + 16)) as [Ha|Ha]; [|rewrite Hh2 by exact Ha; apply Hmh].
    replace a with (lo + (a - lo)) by lia. rewrite Hh1 by lia. apply Hm1.
  - done.
  - exact Hsc.
  - exact Hi1.
Qed.

End posting.

(** ** A pass over the pending completions *)

Definition in_slot (cq : NvmeCQueue) (j a : Z) : Prop := slot_addr cq j <= a < slot_addr cq j + 16.

Lemma in_slot_inj cq i j a : in_slot cq i a -> in_slot cq j a -> i = j.
Proof. unfold in_slot, slot_addr. lia. Qed.

(** The entry of the [n]-th completion of the queue, for request [r] whose
    submission queue is [sq]. *)
Definition io_entry (size n : Z) (sq : NvmeSQueue) (r : io_req) : NvmeCCmd :=
  MkCCmd (rq_ccmd_dw0 r) (u16 (sq_head sq)) (io_cid r) (status_phase (rq_status r) (phase_of size n)).

Lemma io_ccmd_entry N cq sq r : cq_at N cq -> io_ccmd sq cq r = io_entry (cq_size cq) N sq r.
Proof. intros (_ & _ & _ & E). unfold io_ccmd, io_entry. by rewrite E. Qed.

Lemma io_cid_fits r : fits 16 (io_cid r).
Proof. apply (field_fits NvmeIOSCmd 2); [repeat constructor; lia|done]. Qed.

Lemma io_entry_fits size n sq r : fits 32 (rq_ccmd_dw0 r) -> ccmd_fits (io_entry size n sq r).
Proof. intros. split_and!; simpl; auto using io_cid_fits; [apply u16_fits|apply u16_fits]. Qed.

Section pass.
Context `{DmaEngines} `{MemoryViews} (ccmd_buf : Z).
Context (Hbuf : 0 <= ccmd_buf) (Hbuf2 : ccmd_buf + 16 < 2 ^ 32).

(** The request at [p] is [r], of a submission queue [sq] that exists. *)
Definition io_pending (s : nvme) (p : req_ptr) (r : io_req) (sq : NvmeSQueue) : Prop :=
  get_obj p (nv_alloc s) = Ok (OIo r) /\ arr_get (nv_sqs s) (rq_sqid r) = Ok sq /\ fits 32 (rq_ccmd_dw0 r).

(** The state after the first [m] of the pending requests [ps] have been posted. *)
Record posted (cqid N : Z) (cq : NvmeCQueue) (ps : list req_ptr) (m : nat) (used : list req_ptr)
  (s s' : nvme) : Prop := {
  pt_cq : exists cq', arr_get (nv_cqs s') cqid = Ok cq' /\ cq_valid (N + Z.of_nat m) cq'
    /\ q_contents (cq_pending cq') = drop m ps /\ same_queue cq cq';
  pt_cqs : forall i, i <> cqid -> arr_get (nv_cqs s') i = arr_get (nv_cqs s) i;
  pt_alloc : alloc_inv (nv_alloc s') (drop m ps ++ used);
  pt_objs : forall p, p ∉ take m ps -> get_obj p (nv_alloc s') = get_obj p (nv_alloc s);
  pt_staged : staged (nv_alloc s) (nv_alloc s');
  pt_frame : frame s s';
  pt_entries : forall k p r sq, (k < m)%nat -> ps !! k = Some p -> io_pending s p r sq ->
    entry_at (nv_host s') (slot_addr cq ((N + Z.of_nat k) mod cq_size cq))
      (io_entry (cq_size cq) (N + Z.of_nat k) sq r);
  pt_host : forall a, (forall k, (k < m)%nat -> ~ in_slot cq ((N + Z.of_nat k) mod cq_size cq) a) ->
    nv_host s' a = nv_host s a;
  pt_ssd : forall a, ~ (ccmd_buf <= a < ccmd_buf + 16) -> nv_ssd s' a = nv_ssd s a;
  pt_mem : mem_ok (nv_ssd s) -> mem_ok (nv_ssd s') /\ (mem_ok (nv_host s) -> mem_ok (nv_host s'));
  pt_quiet : quiet (nv_dma s');
  pt_scheds : dw_scheds (nv_dma s') = drop m (dw_scheds (nv_dma s)) }.

Lemma posted_nil cqid N cq ps used s :
  arr_get (nv_cqs s) cqid = Ok cq -> cq_valid N cq -> q_contents (cq_pending cq) = ps ->
  alloc_inv (nv_alloc s) (ps ++ used) -> quiet (nv_dma s) -> posted cqid N cq ps 0 used s s.
Proof.
  intros Hc Hv Hp Hinv Hq. split; try done.
  - exists cq. rewrite Z.add_0_r. done.
  - apply staged_refl.
  - lia.
Qed.

(** One more completion in front. *)
Lemma posted_cons cqid N cq p ps e m used s s1 s' cq1 :
  cq_valid N cq -> Z.of_nat (S m) < cq_size cq -> p ∉ ps ->
  posted_one ccmd_buf cqid N cq p ps e (ps ++ used) s s1 ->
  same_queue cq cq1 ->
  (forall r sq, io_pending s p r sq -> e = io_entry (cq_size cq) N sq r) ->
  posted cqid (N + 1) cq1 ps m used s1 s' -> posted cqid N cq (p :: ps) (S m) used s s'.
Proof.
  intros Hv Hm Hnp H1 Hsq He H2. destruct H2 as [B1 B2 B3 B4 B4s B5 B6 B7 B8 B8m B9 B10].
  pose proof Hsq as (Hsz & Hhd & Had & _).
  pose proof (cv_at _ _ Hv) as (HN & Hs & _).
  assert (Hslot : forall j, slot_addr cq1 j = slot_addr cq j) by (intros; unfold slot_addr; by rewrite Had).
  assert (Hidx : forall k, N + 1 + Z.of_nat k = N + Z.of_nat (S k)) by lia.
  split.
  - destruct B1 as (cq' & ? & Hv' & ? & Hs'). exists cq'. rewrite <- Hidx. split; [done|].
    split; [done|]. split; [done|]. by eapply same_queue_trans.
  - intros i Hi. rewrite B2 by done. by apply (po_cqs _ _ _ _ _ _ _ _ _ _ H1).
  - done.
  - intros p' Hp'. apply not_elem_of_cons in Hp' as [Hne Hni].
    rewrite B4 by done. by apply (po_objs _ _ _ _ _ _ _ _ _ _ H1).
  - eapply staged_trans; [|done]. apply H1.
  - eapply frame_trans; [|done]. apply H1.
  - intros [|k] p' r sq Hk E Hpend; simpl in E.
    + injection E as <-. rewrite Z.add_0_r. rewrite <- (He _ _ Hpend).
      eapply entry_at_ext; [|exact (po_entry _ _ _ _ _ _ _ _ _ _ H1)].
      intros i Hi. apply B7. intros k Hk' Hin. unfold in_slot in Hin. rewrite Hslot, Hsz, Hidx in Hin.
      unfold slot_addr in Hin. assert (N mod cq_size cq = (N + Z.of_nat (S k)) mod cq_size cq) as E2 by lia.
      rewrite <- (Z.add_0_r N) in E2 at 1. apply mod_inj_range in E2; lia.
    + rewrite <- Hidx, <- Hslot, <- Hsz. apply (B6 k p'); [lia|done|].
      destruct Hpend as (G & Gs & Gd). split; [|split; [|done]].
      * rewrite (po_objs _ _ _ _ _ _ _ _ _ _ H1); [done|]. intros ->. apply Hnp.
        by eapply list_elem_of_lookup_2.
      * rewrite (fr_sqs _ _ (po_frame _ _ _ _ _ _ _ _ _ _ H1)). done.
  - intros a Ha. rewrite B7.
    + apply (po_host _ _ _ _ _ _ _ _ _ _ H1). specialize (Ha 0%nat ltac:(lia)). rewrite Z.add_0_r in Ha. exact Ha.
    + intros k Hk. unfold in_slot. rewrite Hslot, Hsz, Hidx. apply (Ha (S k)). lia.
  - intros a Ha. rewrite B8 by done. by apply (po_ssd _ _ _ _ _ _ _ _ _ _ H1).
  - intros Hmem. destruct (po_mem _ _ _ _ _ _ _ _ _ _ H1 Hmem) as [M1 M2].
    destruct (B8m M1) as [M3 M4]. split; [exact M3|]. intros Hh. apply M4, M2, Hh.
  - done.
  - rewrite B10. destruct (po_scheds _ _ _ _ _ _ _ _ _ _ H1) as [sc ->]. done.
Qed.

(** How many of [n] pending completions fit. *)
Definition post_count (n : nat) (cq : NvmeCQueue) : nat := Nat.min n (Z.to_nat (cq_room cq)).

Lemma cq_room_bounds N cq : cq_valid N cq -> 0 <= cq_room cq < cq_size cq.
Proof.
  intros Hv. destruct (cv_at _ _ Hv) as (_ & Hs & _). unfold cq_room, cq_used.
  pose proof (Z.mod_pos_bound (cq_tail cq - cq_head cq) (cq_size cq) ltac:(lia)). lia.
Qed.

Lemma post_io_ccmds_ok cqid : forall ps fuel s cq N used,
  arr_get (nv_cqs s) cqid = Ok cq -> cq_valid N cq -> q_contents (cq_pending cq) = ps ->
  alloc_inv (nv_alloc s) (ps ++ used) -> (forall p, p ∈ ps -> exists r sq, io_pending s p r sq) ->
  quiet (nv_dma s) -> ready_for (length ps) (nv_dma s) -> (length ps < fuel)%nat ->
  exists s', post_io_ccmds ccmd_buf fuel cqid s = Ok s'
    /\ posted cqid N cq ps (post_count (length ps) cq) used s s'.
Proof.
  intros ps. induction ps as [|p ps IH]; intros fuel s cq N used Hc Hv Hp Hinv Hpend Hq Hr Hf;
    (destruct fuel as [|fuel]; [lia|]); cbn [post_io_ccmds].
  { rewrite (pop_pending_none cqid N s cq) by auto. cbn [obind]. exists s. split; [done|].
    by apply posted_nil. }
  destruct (Z.eq_dec (cq_room cq) 0) as [Hz|Hnz].
  { rewrite (pop_pending_none cqid N s cq) by auto. cbn [obind]. exists s. split; [done|].
    unfold post_count. rewrite Hz, Nat.min_0_r. by apply posted_nil. }
  pose proof (cq_room_bounds N cq Hv) as Hrb.
  destruct (pop_pending_some cqid N s cq p ps Hc Hv Hp Hnz) as (pend & l & -> & El & Hwf & Hps & Hsz).
  cbn [obind]. destruct (Hpend p ltac:(left)) as (r & sq & Ho & Hsq & Hdw).
  change (nv_alloc (set_cqs l s)) with (nv_alloc s). rewrite Ho. cbn [obind as_io].
  change (nv_sqs (set_cqs l s)) with (nv_sqs s). rewrite Hsq. cbn [obind].
  change (nv_cqs (set_cqs l s)) with l. rewrite (arr_get_set_eq _ _ _ _ El). cbn [obind].
  assert (He : io_ccmd sq (set_pending pend cq) r = io_entry (cq_size cq) N sq r)
    by (rewrite <- (io_ccmd_entry N cq sq r (cv_at _ _ Hv)); done).
  rewrite He. destruct Hr as [Hlen Hfair]. simpl in Hlen.
  destruct (post_round ccmd_buf Hbuf Hbuf2 cqid N s cq p ps (io_entry (cq_size cq) N sq r) (OIo r) (ps ++ used)
              pend l Hc Hv Hnz El Hwf Hps Hsz Hinv Ho (io_entry_fits _ _ _ _ Hdw) Hq ltac:(split; [lia|done]))
    as (s1 & -> & H1).
  cbn [obind]. pose proof H1 as [(cq1 & Hc1 & Hv1 & Hp1 & Hsame & Er) _ Hal1 Hob1 _ Hfr1 _ _ _ _ Hq1 [sc Hsc] _].
  destruct (free_ok _ _ _ _ Hinv Ho) as (_ & _ & _ & Hnp & _).
  assert (Hnps : p ∉ ps) by (intros Hin; apply Hnp; apply elem_of_app; by left).
  destruct (IH fuel s1 cq1 (N + 1) used Hc1 Hv1 Hp1 Hal1) as (s' & -> & H2).
  - intros p' Hp'. destruct (Hpend p' ltac:(by right)) as (r' & sq' & Ho' & Hsq' & Hdw').
    exists r', sq'. split; [|split; [|done]].
    + rewrite Hob1; [done|]. congruence.
    + by rewrite (fr_sqs _ _ Hfr1).
  - done.
  - rewrite Hsc in Hlen, Hfair. simpl in Hlen. inversion Hfair; subst. split; [lia|done].
  - simpl in Hf. lia.
  - exists s'. split; [done|].
    assert (Hcnt : post_count (length (p :: ps)) cq = S (post_count (length ps) cq1))
      by (unfold post_count; rewrite Er; cbn [length]; lia).
    rewrite Hcnt. eapply posted_cons; try done.
    + unfold post_count. rewrite Er. lia.
    + intros r' sq' (Ho' & Hsq' & _). rewrite Ho in Ho'. injection Ho' as <-. congruence.
Qed.


(** The slots written in a pass are slots the host has consumed. *)
Lemma written_slot_read N cq k : cq_valid N cq -> 0 <= k < cq_room cq ->
  ~ unread_slot cq ((N + k) mod cq_size cq).
Proof.
  intros Hv Hk (j & Hj & E). pose proof (cq_room_bounds N cq Hv) as Hrb.
  destruct (cv_at _ _ Hv) as (HN & Hs & Ht & _). unfold cq_room, cq_used in *.
  pose proof (Z.mod_pos_bound (cq_tail cq - cq_head cq) (cq_size cq) ltac:(lia)) as Hu.
  set (u := (cq_tail cq - cq_head cq) mod cq_size cq) in *.
  assert (E2 : (cq_head cq + (u + k)) mod cq_size cq = (N + k) mod cq_size cq).
  { rewrite Z.add_assoc, <- Z.add_mod_idemp_l by lia. unfold u. rewrite Z.add_mod_idemp_r by lia.
    replace (cq_head cq + (cq_tail cq - cq_head cq)) with (cq_tail cq) by lia.
    rewrite Ht, Z.mod_mod by lia. by rewrite Z.add_mod_idemp_l by lia. }
  rewrite <- E2 in E. apply mod_inj_range in E; lia.
Qed.

Lemma unread_slot_range cq j : cq_valid 0 cq \/ 0 < cq_size cq -> unread_slot cq j -> 0 <= j < cq_size cq.
Proof.
  intros Hs (k & _ & ->). apply Z.mod_pos_bound. destruct Hs as [Hv|]; [|done].
  destruct (cv_at _ _ Hv) as (_ & ? & _). lia.
Qed.

Lemma post_fuel_enough cqid s cq :
  arr_get (nv_cqs s) cqid = Ok cq -> q_wf (cq_pending cq) ->
  (length (q_contents (cq_pending cq)) < post_fuel cqid s)%nat.
Proof.
  intros Hc Hwf. unfold post_fuel. rewrite Hc. rewrite q_contents_length by done.
  pose proof (q_count_bound _ Hwf). lia.
Qed.

Lemma enqueue_posts cqid s cq N ps req r sq used :
  arr_get (nv_cqs s) cqid = Ok cq -> cq_valid N cq -> q_contents (cq_pending cq) = ps ->
  alloc_inv (nv_alloc s) (ps ++ req :: used) ->
  (forall p, p ∈ ps -> exists r sq, io_pending s p r sq) -> io_pending s req r sq ->
  Z.of_nat (length ps) + 1 < q_size (cq_pending cq) ->
  quiet (nv_dma s) -> ready_for (S (length ps)) (nv_dma s) ->
  exists s1 s', upd_req (set_o_stage PENDING_CCMD_POST) req s = Ok s1
    /\ enqueue_io_ccmd ccmd_buf cqid req s = Ok s'
    /\ posted cqid N cq (ps ++ [req]) (Nat.min (S (length ps)) (Z.to_nat (cq_room cq))) used s1 s'
    /\ (forall j a, unread_slot cq j -> in_slot cq j a -> nv_host s' a = nv_host s a).
Proof.
  intros Hc Hv Hp Hinv Hpend (Ho & Hsq & Hdw) Hroom Hq Hr.
  pose proof (cv_pending _ _ Hv) as Hwf. pose proof (q_contents_length _ Hwf) as Hlen. rewrite Hp in Hlen.
  unfold enqueue_io_ccmd. rewrite Hc. cbn [obind].
  destruct (enQueue_spec (cq_pending cq) req Hwf) as (q' & Hwf' & Hsz & [(_ & -> & Hcont)|(Hfull & _)]);
    [|rewrite Hp in Hfull; lia].
  cbn [obind].
  destruct (arr_set_Ok_ex (nv_cqs s) cqid (set_pending q' cq) (arr_get_range _ _ _ Hc)) as [l El].
  rewrite El. cbn [obind]. unfold upd_req. change (nv_alloc (set_cqs l s)) with (nv_alloc s).
  destruct (alloc_inv_stage (nv_alloc s) (ps ++ req :: used) req _ PENDING_CCMD_POST Hinv Ho)
    as (a1 & -> & Hinv1 & Ho1 & Hoth1).
  cbn [obind]. set (s1 := set_alloc a1 s). set (s2 := set_alloc a1 (set_cqs l s)).
  assert (Hc2 : arr_get (nv_cqs s2) cqid = Ok (set_pending q' cq)) by exact (arr_get_set_eq _ _ _ _ El).
  assert (Hv2 : cq_valid N (set_pending q' cq)) by (destruct Hv; by split).
  rewrite Hp in Hcont.
  pose proof (post_fuel_enough cqid s2 _ Hc2 Hwf') as Hfuel. cbn [set_pending cq_pending] in Hfuel.
  rewrite Hcont in Hfuel.
  destruct (post_io_ccmds_ok cqid (ps ++ [req]) (post_fuel cqid s2) s2 (set_pending q' cq) N used Hc2 Hv2 Hcont)
    as (s' & E & Hpost).
  - change (nv_alloc s2) with a1. by rewrite <- app_assoc.
  - intros p Hin. destruct (decide (p = req)) as [->|Hne].
    + exists (set_stage PENDING_CCMD_POST r), sq. by split.
    + apply elem_of_app in Hin as [Hin|Hin]; [|by apply list_elem_of_singleton in Hin].
      destruct (Hpend p Hin) as (r' & sq' & Ho' & ?). exists r', sq'. split; [|done].
      change (get_obj p a1 = Ok (OIo r')). by rewrite Hoth1.
  - done.
  - rewrite length_app. simpl. by rewrite Nat.add_1_r.
  - done.
  - exists s1, s'. split; [done|]. split; [exact E|].
    replace (post_count (length (ps ++ [req])) (set_pending q' cq))
      with (Nat.min (S (length ps)) (Z.to_nat (cq_room cq))) in Hpost
      by (unfold post_count; rewrite length_app, Nat.add_1_r; done).
    set (m := Nat.min _ _) in *. destruct Hpost as [B1 B2 B3 B4 B4s B5 B6 B7 B8 B8m B9 B10]. split; [split; try done; try (destruct B5; by split)|].
    + destruct B1 as (cq' & ? & ? & ? & Hs'). exists cq'. split; [done|]. split; [done|]. split; [done|].
      destruct Hs' as (? & ? & ? & ? & Es). split_and!; try done. by rewrite <- Hsz.
    + intros i Hi. rewrite B2 by done. exact (arr_get_set_ne _ _ _ _ _ (not_eq_sym Hi) El).
    + intros j a Hj Ha. change (nv_host s a) with (nv_host s2 a). apply B7. intros k Hk Hin.
      pose proof (in_slot_inj _ _ _ _ Ha Hin) as ->.
      eapply (written_slot_read N cq (Z.of_nat k)); [done|lia|exact Hj].
Qed.

(** C22: [enqueue_io_ccmd] on a completion queue that has taken [N] completions:
    the request joins the pending completions, and as many of them as the host's
    queue has room for are posted, oldest first and each once.  The [k]-th goes
    to slot [(N + k) mod size] with the command's identifier, result and status,
    the submission queue's head and the phase of its round; no slot that the
    host has not consumed is written, the posted requests return to their pools
    and the rest stay queued in order. *)
Theorem enqueue_io_ccmd_posts cqid s cq N ps req r sq used :
  arr_get (nv_cqs s) cqid = Ok cq -> cq_valid N cq -> q_contents (cq_pending cq) = ps ->
  alloc_inv (nv_alloc s) (ps ++ req :: used) ->
  (forall p, p ∈ ps -> exists r sq, io_pending s p r sq) -> io_pending s req r sq ->
  Z.of_nat (length ps) + 1 < q_size (cq_pending cq) ->
  quiet (nv_dma s) -> ready_for (S (length ps)) (nv_dma s) ->
  exists s1 s', upd_req (set_o_stage PENDING_CCMD_POST) req s = Ok s1
    /\ enqueue_io_ccmd ccmd_buf cqid req s = Ok s'
    /\ posted cqid N cq (ps ++ [req]) (Nat.min (S (length ps)) (Z.to_nat (cq_room cq))) used s1 s'
    /\ (forall j a, unread_slot cq j -> in_slot cq j a -> nv_host s' a = nv_host s a).
Proof. apply enqueue_posts. Qed.

End pass.

(** ** A world in which the properties apply *)

#[export] Instance demo_views : MemoryViews :=
  {| raw_admin := fun _ => AdminReq 0 0 0 0 0 dma0 0 0; raw_io := fun _ => io_req0;
     raw_nand := fun _ => IspNandOp 0 0 0 0 0 0 0 0;
     raw_host_dma := fun _ => IspHostDma 0 0 0 0 0 0 0 0 0 0 0 0 |}.

(** A completion queue of four entries at [0x8000] in the host's memory, that
    interrupts through vector 7. *)
Definition demo_cq : NvmeCQueue := CQueue 1 1 1 0 0 0 7 4 0x8000 (Queue 0 0 4 (replicate 128 (RPtr 0))).

Definition demo_nvme (dma_runs : nat) (al : req_alloc) : nvme :=
  Nvme (replicate 5 squeue0) (<[1%nat := demo_cq]> (replicate 5 cqueue0)) 1 1 1 buf_q0 buf_q0 al
    demo_buffer (PrpWorld dma0 (demo_dma_world dma_runs)) kernel0 0.

Lemma demo_cq_valid : cq_valid 0 demo_cq.
Proof. split; try (unfold fits, cq_head_ok, q_wf; simpl; lia). split_and!; simpl; try lia; reflexivity. Qed.

(** A request as [init_req_obj] left it. *)
Lemma one_taken_zero :
  match one_taken.1 with
  | Some p =>
      match get_obj p one_taken.2 with
      | Ok (OIo r) => (rq_ccmd_dw0 r =? 0) && (rq_sqid r =? 0) && (rq_status r =? 0)
      | _ => false
      end
  | None => false
  end = true.
Proof. vm_compute. reflexivity. Qed.

Lemma enqueue_io_ccmd_posts_witness :
  exists p s', one_taken.1 = Some p
    /\ enqueue_io_ccmd 0x600 1 p (demo_nvme 1 one_taken.2) = Ok s'
    /\ load_le 2 (0x8000 + 14) (nv_host s') = 1.
Proof.
  pose proof (malloc_ok ready_alloc [] READ_IO_REQUEST PoolR ready_alloc_inv) as H.
  change (Z.of_nat (length (used_in PoolR [])) <? pool_size PoolR - 1) with true in H.
  destruct (H ltac:(reflexivity)) as (p & o & a & E & _ & _ & Ho & _ & _ & _ & Hinv).
  assert (Ht : one_taken = (Some p, a)) by (unfold one_taken; rewrite E; reflexivity).
  exists p. rewrite Ht.
  pose proof one_taken_zero as Hr. rewrite Ht in Hr. cbn [fst snd] in Hr.
  destruct (get_obj p a) as [[|r| | |]|] eqn:Hr0; try discriminate Hr.
  rewrite !andb_true_iff, !Z.eqb_eq in Hr. destruct Hr as [[Hdw Hsq] Hst]. rename Hr0 into Hr.
  destruct (enqueue_io_ccmd_posts 0x600 ltac:(lia) ltac:(lia) 1 (demo_nvme 1 a) demo_cq 0 [] p r squeue0 [])
    as (s1 & s' & E1 & E2 & Hpost & _).
  - reflexivity.
  - apply demo_cq_valid.
  - reflexivity.
  - exact Hinv.
  - intros ? Hin. apply not_elem_of_nil in Hin. destruct Hin.
  - split; [exact Hr|]. rewrite Hdw, Hsq. split; [reflexivity|unfold fits; lia].
  - simpl. lia.
  - apply demo_dma_world_quiet.
  - apply demo_dma_world_ready.
  - exists s'. split; [reflexivity|]. split; [exact E2|].
    assert (Ho1 : get_obj p (nv_alloc s1) = Ok (OIo (set_stage PENDING_CCMD_POST r))).
    { clear - E1 Hr Hinv. unfold upd_req in E1.
      destruct (alloc_inv_stage a [p] p _ PENDING_CCMD_POST Hinv Hr) as (a1 & Ea & _ & Ho & _).
      change (nv_alloc (demo_nvme 1 a)) with a in E1. rewrite Ea in E1. injection E1 as <-. exact Ho. }
    destruct (pt_entries _ _ _ _ _ _ _ _ _ Hpost 0%nat p (set_stage PENDING_CCMD_POST r) squeue0 ltac:(vm_compute; lia) eq_refl)
      as (_ & _ & _ & He).
    + split; [exact Ho1|]. change (rq_sqid (set_stage PENDING_CCMD_POST r)) with (rq_sqid r).
      change (rq_ccmd_dw0 (set_stage PENDING_CCMD_POST r)) with (rq_ccmd_dw0 r). rewrite Hdw, Hsq.
      split; [|unfold fits; lia]. unfold upd_req in E1. destruct (upd_obj _ _ _) in E1; [|discriminate]. injection E1 as <-. reflexivity.
    + etransitivity; [exact He|]. cbn [io_entry cc_status_p].
      change (rq_status (set_stage PENDING_CCMD_POST r)) with (rq_status r). rewrite Hst. reflexivity.
Defined.
