(* ===== verification/Firmware.v ===== *)
(** * The state shared by the NVMe driver and the ISP driver

    firmware/isp.c 38-88 (the ISP threads), firmware/global.h 19-25 and the
    globals of firmware/nvme_driver.c: one record for the machine both drivers
    run on, the settings fixed at start-up, and the addresses the linker gives to
    the objects whose pointers travel through the kernel's queues. *)

From Stdlib Require Import ZArith Lia Bool List.
From stdpp Require Import base tactics option list functions.
From S2P Require Import Prelude CTypes Queue Kernel MemUtil Geom HostIf HostDma Prp ReqAlloc BufferMgt Requests NvmeQueues.

(** ** ISP threads *)

Definition MAX_ISP_THREADS : Z := 4.
Definition ISP_Q_START_INDEX : Z := 7.
Definition PENDING_DMA_QUEUE_SIZE : Z := 8.

Record isp_ftn_thread_t := IspThread {
  it_index : Z; it_isp_thrd_id : Z; it_thrd_id : Z; it_applet_id : Z; it_ftn_id : Z; it_arg_size : Z;
  it_arg_buffer : Z; it_cbk_ftn : Z; it_msg_in_q : Z; it_msg_out_q : Z;
  it_ctrl_cmd_req : option req_ptr; it_sync_nand_op_req : option req_ptr;
  it_pending_dma : queue_t req_ptr; it_cmplt_dma : queue_t req_ptr;
  it_active_dma_req : list (option req_ptr);
  it_function_rtn : Z; it_function_exited : bool }.

Definition set_it_command app ftn arg_size t :=
  IspThread (it_index t) (it_isp_thrd_id t) (it_thrd_id t) app ftn arg_size (it_arg_buffer t) (it_cbk_ftn t)
    (it_msg_in_q t) (it_msg_out_q t) (it_ctrl_cmd_req t) (it_sync_nand_op_req t) (it_pending_dma t)
    (it_cmplt_dma t) (it_active_dma_req t) (it_function_rtn t) false.
Definition set_it_ctrl v t :=
  IspThread (it_index t) (it_isp_thrd_id t) (it_thrd_id t) (it_applet_id t) (it_ftn_id t) (it_arg_size t)
    (it_arg_buffer t) (it_cbk_ftn t) (it_msg_in_q t) (it_msg_out_q t) v (it_sync_nand_op_req t)
    (it_pending_dma t) (it_cmplt_dma t) (it_active_dma_req t) (it_function_rtn t) (it_function_exited t).
Definition set_it_nand v t :=
  IspThread (it_index t) (it_isp_thrd_id t) (it_thrd_id t) (it_applet_id t) (it_ftn_id t) (it_arg_size t)
    (it_arg_buffer t) (it_cbk_ftn t) (it_msg_in_q t) (it_msg_out_q t) (it_ctrl_cmd_req t) v
    (it_pending_dma t) (it_cmplt_dma t) (it_active_dma_req t) (it_function_rtn t) (it_function_exited t).
Definition set_it_pending v t :=
  IspThread (it_index t) (it_isp_thrd_id t) (it_thrd_id t) (it_applet_id t) (it_ftn_id t) (it_arg_size t)
    (it_arg_buffer t) (it_cbk_ftn t) (it_msg_in_q t) (it_msg_out_q t) (it_ctrl_cmd_req t)
    (it_sync_nand_op_req t) v (it_cmplt_dma t) (it_active_dma_req t) (it_function_rtn t) (it_function_exited t).
Definition set_it_cmplt v t :=
  IspThread (it_index t) (it_isp_thrd_id t) (it_thrd_id t) (it_applet_id t) (it_ftn_id t) (it_arg_size t)
    (it_arg_buffer t) (it_cbk_ftn t) (it_msg_in_q t) (it_msg_out_q t) (it_ctrl_cmd_req t)
    (it_sync_nand_op_req t) (it_pending_dma t) v (it_active_dma_req t) (it_function_rtn t) (it_function_exited t).
Definition set_it_active v t :=
  IspThread (it_index t) (it_isp_thrd_id t) (it_thrd_id t) (it_applet_id t) (it_ftn_id t) (it_arg_size t)
    (it_arg_buffer t) (it_cbk_ftn t) (it_msg_in_q t) (it_msg_out_q t) (it_ctrl_cmd_req t)
    (it_sync_nand_op_req t) (it_pending_dma t) (it_cmplt_dma t) v (it_function_rtn t) (it_function_exited t).
Definition set_it_exit rtn t :=
  IspThread (it_index t) (it_isp_thrd_id t) (it_thrd_id t) (it_applet_id t) (it_ftn_id t) (it_arg_size t)
    (it_arg_buffer t) (it_cbk_ftn t) (it_msg_in_q t) (it_msg_out_q t) (it_ctrl_cmd_req t)
    (it_sync_nand_op_req t) (it_pending_dma t) (it_cmplt_dma t) (it_active_dma_req t) rtn true.

(** [header], [threads], [nand_op_buffer] and [current_ofs] *)
Record isp := Isp { is_header : Z; is_threads : list isp_ftn_thread_t; is_nand_op_buffer : Z; is_current_ofs : Z }.

Definition set_header v i := Isp v (is_threads i) (is_nand_op_buffer i) (is_current_ofs i).
Definition set_threads v i := Isp (is_header i) v (is_nand_op_buffer i) (is_current_ofs i).
Definition set_current_ofs v i := Isp (is_header i) (is_threads i) (is_nand_op_buffer i) v.

(** ** Controller registers of the shared memory *)
Record ctrl_regs := CtrlRegs {
  cr_cap_lo : Z; cr_cap_hi : Z; cr_vs : Z; cr_intms : Z; cr_intmc : Z; cr_cc : Z; cr_csts : Z;
  cr_aqa : Z; cr_asq : Z; cr_acq : Z }.
Definition set_csts v c :=
  CtrlRegs (cr_cap_lo c) (cr_cap_hi c) (cr_vs c) (cr_intms c) (cr_intmc c) (cr_cc c) v (cr_aqa c)
    (cr_asq c) (cr_acq c).
(** The registers the firmware writes while it initialises; CC, AQA, ASQ and ACQ
    belong to the host. *)
Definition set_caps lo hi vs intms intmc c :=
  CtrlRegs lo hi vs intms intmc (cr_cc c) (cr_csts c) (cr_aqa c) (cr_asq c) (cr_acq c).
Definition set_cc v c :=
  CtrlRegs (cr_cap_lo c) (cr_cap_hi c) (cr_vs c) (cr_intms c) (cr_intmc c) v (cr_csts c) (cr_aqa c)
    (cr_asq c) (cr_acq c).

(** ** The machine

    [fw_shutdowns] counts the calls of [sys_host_shutdown], whose work belongs to
    the FTL. *)
Record fw := Fw {
  fw_nvme : nvme; fw_isp : isp; fw_db : shm_ring dbUpdate; fw_ctrl : ctrl_regs; fw_shutdowns : nat }.

Definition set_nvme v w := Fw v (fw_isp w) (fw_db w) (fw_ctrl w) (fw_shutdowns w).
Definition set_isp v w := Fw (fw_nvme w) v (fw_db w) (fw_ctrl w) (fw_shutdowns w).
Definition set_db v w := Fw (fw_nvme w) (fw_isp w) v (fw_ctrl w) (fw_shutdowns w).
Definition set_ctrl v w := Fw (fw_nvme w) (fw_isp w) (fw_db w) v (fw_shutdowns w).
Definition set_shutdowns v w := Fw (fw_nvme w) (fw_isp w) (fw_db w) (fw_ctrl w) v.

(** The settings fixed when the firmware starts: the geometry, the host page
    size, the buffers taken from the uncacheable memory, the string literals of
    the identify data, the ids of the callback functions, and whether errors
    are printed ([VERBOSE_ERROR]). *)
Record fw_cfg := FwCfg {
  cf_geom : geom; cf_prp : prp_config; cf_nsze : Z; cf_ncap : Z; cf_nuse : Z;
  cf_scmd_buf : Z; cf_ccmd_buf : Z; cf_idCtrlBuf : Z; cf_idNsBuf : Z; cf_NvmeIdNSBuf : Z;
  cf_external_code_buffer : Z; cf_lit_mn : Z; cf_lit_fr : Z; cf_lit_sn : Z;
  cf_check_door_ftn_id : Z; cf_recycle_ftn_id : Z; cf_verbose_error : bool }.

(** The addresses of the objects handed to the kernel's queues. *)
Class Addresses := {
  req_addr : req_ptr -> Z; wbc_addr : Z; thread_addr : Z -> Z;
  req_addr_inj : Inj (=) (=) req_addr }.
#[export] Existing Instance req_addr_inj.

(** ** Lifting the operations of the parts *)

Definition on_nvme (f : nvme -> outcome nvme) (w : fw) : outcome fw :=
  let! s := f (fw_nvme w) in Ok (set_nvme s w).
Definition on_kernel (f : kernel -> outcome (Z * kernel)) (w : fw) : outcome fw :=
  let! '(_, k) := f (nv_kernel (fw_nvme w)) in Ok (set_nvme (set_nv_kernel k (fw_nvme w)) w).
Definition on_alloc (f : req_alloc -> outcome req_alloc) (w : fw) : outcome fw :=
  let! a := f (nv_alloc (fw_nvme w)) in Ok (set_nvme (set_alloc a (fw_nvme w)) w).

(** [threads[i]], read and written back *)
Definition get_thread (i : Z) (w : fw) : outcome isp_ftn_thread_t := arr_get (is_threads (fw_isp w)) i.
Definition put_thread (i : Z) (t : isp_ftn_thread_t) (w : fw) : outcome fw :=
  let! l := arr_set (is_threads (fw_isp w)) i t in Ok (set_isp (set_threads l (fw_isp w)) w).

Definition fw_ssd (w : fw) : mem := nv_ssd (fw_nvme w).
Definition fw_store (n : nat) (a v : Z) (w : fw) : fw := set_nvme (ssd_store n a v (fw_nvme w)) w.

(** The drive's memory after a function of MemUtil.v *)
Definition on_ssd (f : mem -> mem) (w : fw) : fw :=
  let d := nv_dma (fw_nvme w) in
  set_nvme (set_nv_dma (set_dw_hif (set_ssd (f (hi_ssd (dw_hif d))) (dw_hif d)) d) (fw_nvme w)) w.

Section views.
Context `{MemoryViews}.

Definition as_nand (o : req_obj) : isp_nand_op :=
  match o with
  | ONand n => n
  | _ => let n := raw_nand o in
         IspNandOp (o_type o) (o_index o) (o_stage o) (no_status n) (no_start_lpn n) (no_num_of_lpn n)
           (no_ssd_addr n) (no_cbk_ftn_id n)
  end.
Definition as_host_dma (o : req_obj) : isp_host_dma :=
  match o with
  | OHostDma d => d
  | _ => let d := raw_host_dma o in
         IspHostDma (o_type o) (o_index o) (o_stage o) (hd_ssd_addr d) (hd_start_mem_page d) (hd_size d)
           (hd_tx_type d) (hd_request_code d) (hd_exec_thrd d) (hd_transfered_size d) (hd_ctrl_cmd_index d)
           (hd_status d)
  end.

Definition get_io (p : req_ptr) (w : fw) : outcome io_req :=
  let! o := get_obj p (nv_alloc (fw_nvme w)) in Ok (as_io o).
Definition put_io (p : req_ptr) (r : io_req) (w : fw) : outcome fw := on_alloc (set_obj p (OIo r)) w.
Definition get_admin (p : req_ptr) (w : fw) : outcome admin_req :=
  let! o := get_obj p (nv_alloc (fw_nvme w)) in Ok (as_admin o).
Definition put_admin (p : req_ptr) (a : admin_req) (w : fw) : outcome fw := on_alloc (set_obj p (OAdmin a)) w.
Definition get_host_dma (p : req_ptr) (w : fw) : outcome isp_host_dma :=
  let! o := get_obj p (nv_alloc (fw_nvme w)) in Ok (as_host_dma o).
Definition put_host_dma (p : req_ptr) (d : isp_host_dma) (w : fw) : outcome fw :=
  on_alloc (set_obj p (OHostDma d)) w.
Definition get_nand (p : req_ptr) (w : fw) : outcome isp_nand_op :=
  let! o := get_obj p (nv_alloc (fw_nvme w)) in Ok (as_nand o).
Definition put_nand (p : req_ptr) (n : isp_nand_op) (w : fw) : outcome fw := on_alloc (set_obj p (ONand n)) w.

(** [sys_malloc_req_obj]; NULL is dereferenced by every caller. *)
Definition malloc_req (ty : Z) (w : fw) : outcome (req_ptr * fw) :=
  let! '(p, a) := sys_malloc_req_obj ty (nv_alloc (fw_nvme w)) in
  let! p := deref p in
  Ok (p, set_nvme (set_alloc a (fw_nvme w)) w).

(** [req->req_stage = stage; sys_free_req_obj(req);] *)
Definition complete_and_free (p : req_ptr) (w : fw) : outcome fw :=
  let! w := on_alloc (upd_obj (set_o_stage REQ_COMPLETED) p) w in
  on_alloc (sys_free_req_obj (Some p)) w.

End views.
