(* ===== verification/Isp.v ===== *)
(** * The in-storage-processing driver (firmware/isp.c)

    The commands the host sends for an applet, the messages of the applet's
    thread, and the system calls an applet makes.  A call that waits for another
    thread is split into the part before the wait, the condition waited for and
    the part after it.  The code of an applet is not part of the repository: it is
    the argument [initialize_ftn] of [add_applet]. *)

From Stdlib Require Import ZArith Lia Bool List.
From stdpp Require Import base tactics option list functions.
From S2P Require Import Prelude CTypes Queue Kernel Boot MemUtil Geom HostIf HostDma Prp ReqAlloc BufferMgt Requests.
From S2P Require Import NvmeQueues Firmware.

Definition MSG_IN_EXECUTE_FTN : Z := 1.
Definition SYNC_CALL : Z := -1.
Definition ISP_APPLET_READ_DTX : Z := 1.
Definition ISP_APPLET_WRITE_DTX : Z := 3.
Definition DTX_BIT_MASK : Z := 3.
Definition ISP_APPLET_ABR_MSG_RC : Z := 0x102.
Definition CTRL_MSG_DTX_SPAGE_BITS : Z := 12.
Definition CTRL_MSG_DTX_SPAGE_MAX : Z := 0xFFF.
Definition CTRL_MSG_DTX_SIZE_MAX : Z := 0x3FFFF.
Definition ISP_MAX_APPLET_FUNCTIONS : Z := 64.

(** [scmdarg.cdw10] .. [scmdarg.cdw15] *)
Definition isp_arg (i : nat) (scmd : Z) : Z := field NvmeISPSCmd (13 + i) scmd.

(** [SET_CBK_MSG], [GET_CBK_MSG] and the thread index of [GET_MSG_CBK_THRD] *)
Definition SET_CBK_MSG (t : isp_ftn_thread_t) (msg : Z) : Z :=
  u32 (Z.lor (Z.shiftl (it_index t) 8) msg).
Definition GET_CBK_MSG (arg_0 : Z) : Z := Z.land arg_0 0xFF.
Definition GET_MSG_CBK_THRD (arg_0 : Z) : Z := Z.shiftr (Z.land arg_0 0xFF00) 8.

(** ** Start-up *)

Definition isp_thread_init (i : Z) (t : isp_ftn_thread_t) : isp_ftn_thread_t :=
  let empty q := Queue 0 0 PENDING_DMA_QUEUE_SIZE (q_objs q) in
  IspThread i (i + 1) (ISP_THREAD_START_INDEX + i) 0 0 0 0 (it_cbk_ftn t)
    (ISP_Q_START_INDEX + i * 2) (ISP_Q_START_INDEX + i * 2 + 1) None None
    (empty (it_pending_dma t)) (empty (it_cmplt_dma t)) (it_active_dma_req t) (it_function_rtn t) true.

Fixpoint isp_threads_init (n : nat) (i : Z) (l : list isp_ftn_thread_t) : outcome (list isp_ftn_thread_t) :=
  match n with
  | O => Ok l
  | S n =>
      let! t := arr_get l i in
      let! l := arr_set l i (isp_thread_init i t) in
      isp_threads_init n (i + 1) l
  end.

Section driver.
Context `{DmaEngines} `{MemoryViews} `{Addresses} (cf : fw_cfg).

Definition MAX_TX_SIZE : Z := u32 (Z.shiftl MAX_LP_TX (HOST_DS (cf_geom cf))).

(** [init_isp_driver]: also the id of the callback [recycle_control_command]. *)
Definition init_isp_driver (msg_cbk recycle_control_command thrd_cbk : Z) (i : isp) (k : kernel) (h : uc_heap)
  : outcome (Z * isp * kernel * uc_heap) :=
  let! '(msg_cbk_ftn, k) := sys_add_thread_function NVME_DRIVER_THREAD msg_cbk k in
  let! '(recycle_id, k) := sys_add_thread_function NVME_DRIVER_THREAD recycle_control_command k in
  let! l := isp_threads_init (Z.to_nat MAX_ISP_THREADS) 0 (is_threads i) in
  let! '(buf, h) := get_uncacheable_ram MAX_TX_SIZE h in
  let! t := arr_get l 0 in
  let! '(_, k) := sys_create_thread (it_thrd_id t) k in
  let! '(cbk_ftn, k) := sys_add_thread_function (it_thrd_id t) thrd_cbk k in
  let! '(_, k) := sys_create_obj_queue (it_msg_in_q t) NVME_DRIVER_THREAD cbk_ftn k in
  let! '(_, k) := sys_create_obj_queue (it_msg_out_q t) (it_thrd_id t) msg_cbk_ftn k in
  let t := IspThread (it_index t) (it_isp_thrd_id t) (it_thrd_id t) (it_applet_id t) (it_ftn_id t)
             (it_arg_size t) buf cbk_ftn (it_msg_in_q t) (it_msg_out_q t) (it_ctrl_cmd_req t)
             (it_sync_nand_op_req t) (it_pending_dma t) (it_cmplt_dma t) (it_active_dma_req t)
             (it_function_rtn t) (it_function_exited t) in
  let! l := arr_set l 0 t in
  let! '(nand_buf, h) := get_uncacheable_ram (Z.shiftl 1 24) h in
  Ok (recycle_id, Isp (is_header i) l nand_buf (is_current_ofs i), k, h).

(** ** Commands of the host *)

(** Posting the completion of an I/O request with a result. *)
Definition complete_io (req : req_ptr) (dw0 : Z) (w : fw) : outcome fw :=
  let! r := get_io req w in
  let! w := put_io req (set_ccmd_dw0 dw0 r) w in
  on_nvme (enqueue_io_ccmd (cf_ccmd_buf cf) (rq_cqid r) req) w.

Definition free_ctrl (t : isp_ftn_thread_t) (w : fw) : outcome fw :=
  match it_ctrl_cmd_req t with Some p => complete_and_free p w | None => Ok w end.
Definition free_nand (t : isp_ftn_thread_t) (w : fw) : outcome fw :=
  match it_sync_nand_op_req t with Some p => complete_and_free p w | None => Ok w end.

(** [while ((dma_req = deQueue(cmplt_dma)))] *)
Fixpoint drain_cmplt (fuel : nat) (q : queue_t req_ptr) (w : fw) : outcome (queue_t req_ptr * fw) :=
  match fuel with
  | O => Fault FFuel
  | S fuel =>
      let! '(dma_req, q) := deQueue q in
      match dma_req with
      | None => Ok (q, w)
      | Some p => let! w := complete_and_free p w in drain_cmplt fuel q w
      end
  end.

(** [for (i = 0; i < PENDING_DMA_QUEUE_SIZE; i++)]: an object the queue has no
    room for is freed again. *)
Fixpoint fill_cmplt (n : nat) (q : queue_t req_ptr) (w : fw) : outcome (queue_t req_ptr * fw) :=
  match n with
  | O => Ok (q, w)
  | S n =>
      let! '(p, w) := malloc_req ISP_HOST_DMA_REQUEST w in
      let! '(r, q) := enQueue q p in
      let! w := match r with None => complete_and_free p w | Some _ => Ok w end in
      fill_cmplt n q w
  end.

(** The argument of the applet: from the host's pages when it is longer than
    24 bytes, else the six words of the command ([cdw11] is taken from [cdw12]). *)
Definition fetch_argument (scmd : Z) (req : req_ptr) (t : isp_ftn_thread_t) (w : fw) : outcome fw :=
  if 24 <? it_arg_size t then
    let! r := get_io req w in
    let s := fw_nvme w in
    let dma := set_data_size (it_arg_size t) (rq_dma r) in
    let! '(_, dma, pw) := decode_prp (cf_prp cf) (field NvmeIOSCmd 6 (rq_scmd r))
                            (field NvmeIOSCmd 7 (rq_scmd r)) dma (nv_prp s) in
    let dma := set_c_op 0 (it_arg_size t) (set_buffer_addr (it_arg_buffer t) dma) in
    let! '(dma, dw) := sync_host_dma dma PCI_DMA_READ (pw_world pw) in
    let w := set_nvme (set_prp (PrpWorld (pw_dma pw) dw) s) w in
    put_io req (set_req_dma dma r) w
  else
    let a := it_arg_buffer t in
    Ok (fw_store 4 (a + 20) (isp_arg 5 scmd) (fw_store 4 (a + 16) (isp_arg 4 scmd)
         (fw_store 4 (a + 12) (isp_arg 3 scmd) (fw_store 4 (a + 8) (isp_arg 2 scmd)
           (fw_store 4 (a + 4) (isp_arg 2 scmd) (fw_store 4 a (isp_arg 0 scmd) w)))))).

Definition execute_command (scmd : Z) (req : req_ptr) (w : fw) : outcome fw :=
  let! t := get_thread 0 w in
  let t := set_it_command (field NvmeISPSCmd 2 scmd) (field NvmeISPSCmd 6 scmd) (field NvmeISPSCmd 9 scmd) t in
  let! w := free_ctrl t w in
  let t := set_it_ctrl None t in
  let! '(q, w) := drain_cmplt (Z.to_nat PENDING_DMA_QUEUE_SIZE) (it_cmplt_dma t) w in
  let! '(q, w) := fill_cmplt (Z.to_nat PENDING_DMA_QUEUE_SIZE) q w in
  let t := set_it_cmplt q t in
  let! w := free_nand t w in
  let! '(p, w) := malloc_req ISP_READ_PAGES_REQUEST w in
  let t := set_it_nand (Some p) t in
  let! w := put_thread 0 t w in
  let! w := fetch_argument scmd req t w in
  let! w := on_kernel (push_obj_to_queue (it_msg_in_q t) (thread_addr 0) MSG_IN_EXECUTE_FTN) w in
  complete_io req (it_isp_thrd_id t) w.

Definition post_dma_msg (t : Z) (dma_req ctrl_cmd_req : req_ptr) (w : fw) : outcome fw :=
  let! d := get_host_dma dma_req w in
  let! c := get_io ctrl_cmd_req w in
  let! w := put_io ctrl_cmd_req (set_ccmd_dw0 (hd_request_code d) c) w in
  let! w := put_host_dma dma_req
    (IspHostDma (hd_type d) (hd_index d) (hd_stage d) (hd_ssd_addr d) (hd_start_mem_page d) (hd_size d)
       (hd_tx_type d) (hd_request_code d) (hd_exec_thrd d) (hd_transfered_size d) (rq_ctrl_cmd_index c)
       (hd_status d)) w in
  let! th := get_thread t w in
  let! l := arr_set (it_active_dma_req th) 0 (Some dma_req) in
  let! w := put_thread t (set_it_active l th) w in
  on_nvme (enqueue_io_ccmd (cf_ccmd_buf cf) (rq_cqid c) ctrl_cmd_req) w.

(** [deQueue(t->pending_dma)] *)
Definition take_pending (t : Z) (w : fw) : outcome (option req_ptr * fw) :=
  let! th := get_thread t w in
  let! '(p, q) := deQueue (it_pending_dma th) in
  let! w := put_thread t (set_it_pending q th) w in
  Ok (p, w).

Definition clear_ctrl (t : Z) (w : fw) : outcome fw :=
  let! th := get_thread t w in put_thread t (set_it_ctrl None th) w.

Definition recycle_control_command (t : Z) (w : fw) : outcome fw :=
  let! th := get_thread t w in
  match it_ctrl_cmd_req th with
  | None => Ok w
  | Some ctrl =>
      let! '(p, w) := take_pending t w in
      let! w :=
        match p with
        | Some dma_req => post_dma_msg t dma_req ctrl w
        | None =>
            if it_function_exited th then complete_io ctrl 0 w
            else complete_io ctrl ISP_APPLET_ABR_MSG_RC w
        end in
      clear_ctrl t w
  end.

Definition control_command (scmd : Z) (req : req_ptr) (w : fw) : outcome fw :=
  let t := 0 in
  let! r := get_io req w in
  let! w := put_io req (set_ctrl_cmd_index (isp_arg 0 scmd) r) w in
  let! th := get_thread t w in
  if it_function_exited th then complete_io req 0 w
  else
    let! '(p, w) := take_pending t w in
    match p with
    | Some dma_req => post_dma_msg t dma_req req w
    | None =>
        let! th := get_thread t w in
        let! w := put_thread t (set_it_ctrl (Some req) th) w in
        on_kernel (sys_add_callback_ftn (cf_recycle_ftn_id cf) (thread_addr t)) w
    end.

(** A transfer type other than the two is not transferred, and counted all the same. *)
Definition transfer (tx_type : Z) (dma : dma_t) (w : dma_world) : outcome (dma_t * dma_world) :=
  if tx_type =? ISP_APPLET_READ_DTX then sync_host_dma dma PCI_DMA_READ w
  else if tx_type =? ISP_APPLET_WRITE_DTX then sync_host_dma dma PCI_DMA_WRITE w
  else Ok (dma, w).

Definition data_transfer_command (scmd : Z) (req : req_ptr) (w : fw) : outcome fw :=
  let! th := get_thread 0 w in
  let! a := arr_get (it_active_dma_req th) 0 in
  let! dma_req := deref a in
  let! r := get_io req w in
  let s := fw_nvme w in
  let dma := set_data_size (isp_arg 1 scmd) (rq_dma r) in
  let! '(_, dma, pw) := decode_prp (cf_prp cf) (field NvmeISPSCmd 11 scmd) (field NvmeISPSCmd 12 scmd)
                          dma (nv_prp s) in
  let! d := get_host_dma dma_req w in
  let dma := set_c_op 0 (data_size dma) (set_buffer_addr (hd_ssd_addr d) dma) in
  let size := data_size dma in
  let! '(dma, dw) := transfer (hd_tx_type d) dma (pw_world pw) in
  let w := set_nvme (set_prp (PrpWorld (pw_dma pw) dw) s) w in
  let! w := put_io req (set_req_dma dma r) w in
  let! w := put_host_dma dma_req
    (IspHostDma (hd_type d) (hd_index d) ISP_HOST_DMA_REQ_TX_ON (hd_ssd_addr d) (hd_start_mem_page d)
       (hd_size d) (hd_tx_type d) (hd_request_code d) (hd_exec_thrd d) (u32 (hd_transfered_size d + size))
       (hd_ctrl_cmd_index d) (hd_status d)) w in
  let! w := on_nvme (enqueue_io_ccmd (cf_ccmd_buf cf) (rq_cqid r) req) w in
  (* both branches of the comparison of the sizes set the stage *)
  on_alloc (upd_obj (set_o_stage ISP_HOST_DMA_REQ_CMPT) dma_req) w.

Definition ISP_IO_OPCODE : Z := 0x80.
Definition ISP_CTRL_OPCODE : Z := 0x81.
Definition ISP_DATA_TX_OPCODE : Z := 0x82.

Definition isp_io (scmd : Z) (req : req_ptr) (w : fw) : outcome fw :=
  let opcode := field NvmeIOSCmd 0 scmd in
  let stage st w := let! r := get_io req w in put_io req (set_stage st r) w in
  if opcode =? ISP_IO_OPCODE then
    let! w := stage ISP_EXEC_PENDING_POST w in execute_command scmd req w
  else if opcode =? ISP_CTRL_OPCODE then
    let! w := stage ISP_CTRL_PENDING_MSG w in control_command scmd req w
  else if opcode =? ISP_DATA_TX_OPCODE then
    let! w := stage ISP_DATA_TRANSFERING w in data_transfer_command scmd req w
  else Ok w.

(** ** System calls of an applet *)

(** [do_sync_nand_op] up to its wait, and the condition it waits for. *)
Definition do_sync_nand_op_start (start_lpn num_of_lpn ssd_addr type : Z) (w : fw) : outcome fw :=
  let! t := get_thread 0 w in
  let! p := deref (it_sync_nand_op_req t) in
  let! n := get_nand p w in
  let! w := put_nand p (IspNandOp type (no_index n) ISP_NAND_OP_INIT 0 start_lpn num_of_lpn ssd_addr
                          (u32 SYNC_CALL)) w in
  on_kernel (push_obj_to_queue (it_msg_out_q t) (req_addr p) type) w.

Definition nand_op_done (w : fw) : outcome bool :=
  let! t := get_thread 0 w in
  let! p := deref (it_sync_nand_op_req t) in
  let! n := get_nand p w in
  Ok (no_stage n =? ISP_NAND_OP_CMPLT).

(** The word sent to the host: the size above 12 bits of page number and the type. *)
Definition request_code (start_mem_page size tx_type : Z) : Z :=
  Z.lor (Z.lor (u32 (Z.shiftl size (CTRL_MSG_DTX_SPAGE_BITS + 2))) (u32 (Z.shiftl start_mem_page 2))) tx_type.

(** [_do_sync_host_dma_] up to its wait.  A full queue of pending requests is
    reported and ignored. *)
Definition sync_host_dma_start (start_mem_page ssd_addr size tx_type : Z) (w : fw) : outcome (req_ptr * fw) :=
  let! t := get_thread 0 w in
  let! '(p, q) := deQueue (it_cmplt_dma t) in
  let! dma_req := deref p in
  let! d := get_host_dma dma_req w in
  let! w := put_host_dma dma_req
    (IspHostDma (hd_type d) (hd_index d) ISP_HOST_DMA_REQ_INIT ssd_addr start_mem_page size tx_type
       (request_code start_mem_page size tx_type) (thread_addr 0) 0 (hd_ctrl_cmd_index d) (hd_status d)) w in
  let! '(_, pend) := enQueue (it_pending_dma t) dma_req in
  let! w := put_thread 0 (set_it_pending pend (set_it_cmplt q t)) w in
  let! w := on_kernel (push_obj_to_queue (it_msg_out_q t) (req_addr dma_req) ISP_HOST_DMA_REQUEST) w in
  Ok (dma_req, w).

Definition host_dma_done (dma_req : req_ptr) (w : fw) : outcome bool :=
  let! d := get_host_dma dma_req w in Ok (hd_stage d =? ISP_HOST_DMA_REQ_CMPT).

(** After the wait: the size moved; the request returns to the free ones. *)
Definition sync_host_dma_finish (dma_req : req_ptr) (w : fw) : outcome (Z * fw) :=
  let! d := get_host_dma dma_req w in
  let! t := get_thread 0 w in
  let! '(_, q) := enQueue (it_cmplt_dma t) dma_req in
  let! w := put_thread 0 (set_it_cmplt q t) w in
  Ok (hd_transfered_size d, w).

(** The requests [do_sync_host_dma] makes, one after the other: page, address
    and size of each. *)
Record tx := Tx { tx_page : Z; tx_addr : Z; tx_size : Z }.

Fixpoint host_dma_loop (n : nat) (next_start_page next_ssd_addr remaining_tx_size : Z) : list tx :=
  match n with
  | O => []
  | S n =>
      let next_tx_size := Z.min MAX_TX_SIZE remaining_tx_size in
      Tx next_start_page next_ssd_addr next_tx_size
      :: host_dma_loop n (u32 (next_start_page + next_tx_size / hostMemPageSize (cf_prp cf)))
           (u32 (next_ssd_addr + next_tx_size)) (remaining_tx_size - next_tx_size)
  end.

Definition num_host_dma_op (size : Z) : Z :=
  size / MAX_TX_SIZE + (if size mod MAX_TX_SIZE =? 0 then 0 else 1).

Definition do_sync_host_dma (start_mem_page ssd_addr size : Z) : list tx :=
  host_dma_loop (Z.to_nat (num_host_dma_op size)) start_mem_page ssd_addr size.

Definition alloc_page_buffer (num_of_lpn : Z) (i : isp) : Z * isp :=
  let bytes := u32 (Z.shiftl num_of_lpn (HOST_DS (cf_geom cf))) in
  if Z.shiftl 1 24 <? u32 (is_current_ofs i + bytes) then (0, i)
  else (u32 (is_nand_op_buffer i + is_current_ofs i), set_current_ofs (u32 (is_current_ofs i + bytes)) i).

Definition free_all_page_buffer (i : isp) : isp := set_current_ofs 0 i.

(** ** Applets *)

(** The header at the start of an applet: its first byte, the address of its
    initialisation function and of function [ix]. *)
Definition hdr_magic (header ix : Z) (m : mem) : Z := m (header + ix).
Definition hdr_initialize_ftn (header : Z) (m : mem) : Z := load_le 4 (header + 88) m.
Definition hdr_entry_address (header ix : Z) (m : mem) : Z := load_le 4 (u32 (header + 100 + 68 * ix)) m.

(** The loop compares byte 0 with byte 0 eight times; [0x73] is the letter s. *)
Fixpoint magic_loop (n : nat) (header mis_match : Z) (m : mem) : Z :=
  match n with
  | O => mis_match
  | S n => magic_loop n header (if 0x73 =? hdr_magic header 0 m then mis_match else mis_match + 1) m
  end.

(** [add_applet]; [initialize_ftn] is the code at the applet's entry point. *)
Definition add_applet (initialize_ftn : Z -> fw -> outcome (Z * fw)) (applet_ptr size : Z) (w : fw)
  : outcome (Z * fw) :=
  let w := set_isp (set_header applet_ptr (fw_isp w)) w in
  if negb (magic_loop 8 applet_ptr 0 (fw_ssd w) =? 0) then Ok (5, w)
  else
    let! '(err, w) := initialize_ftn (hdr_initialize_ftn applet_ptr (fw_ssd w)) w in
    if negb (err =? 0) then Ok (6, w) else Ok (0, w).

(** [thrd_cbk]: the entry point called for [MSG_IN_EXECUTE_FTN], and the
    statements after the function returns. *)
Definition thrd_cbk_entry (t : Z) (arg_1 : Z) (w : fw) : outcome (option Z) :=
  if arg_1 =? MSG_IN_EXECUTE_FTN then
    let! th := get_thread t w in
    Ok (Some (hdr_entry_address (is_header (fw_isp w)) (it_ftn_id th - 1) (fw_ssd w)))
  else Ok None.

Definition thrd_cbk_exit (t function_rtn : Z) (w : fw) : outcome fw :=
  let w := set_isp (free_all_page_buffer (fw_isp w)) w in
  let! th := get_thread t w in
  let! w := put_thread t (set_it_exit function_rtn th) w in
  on_kernel (push_obj_to_queue (it_msg_out_q th) (thread_addr t) ISP_EXECUTION_EXIT) w.

(** [msg_cbk]: the messages of the applet's thread; [exec_thrd] of a host
    transfer is thread 0. *)
Inductive isp_msg := MsgHostDma (p : req_ptr) | MsgNand (p : req_ptr) (type : Z) | MsgExit (t : Z).

Definition msg_cbk (m : isp_msg) (w : fw) : outcome fw :=
  match m with
  | MsgHostDma dma_req =>
      let! th := get_thread 0 w in
      match it_ctrl_cmd_req th with
      | Some ctrl => let! w := post_dma_msg 0 dma_req ctrl w in clear_ctrl 0 w
      | None => Ok w
      end
  | MsgNand p type =>
      on_kernel (fun k => let! k := sys_push_to_ftl (req_addr p) type k in Ok (0, k)) w
  | MsgExit t =>
      let! th := get_thread t w in
      match it_ctrl_cmd_req th with
      | Some ctrl => let! w := complete_io ctrl 0 w in clear_ctrl t w
      | None => Ok w
      end
  end.

End driver.
