(* ===== verification/Nvme.v ===== *)
(** * The NVMe driver (firmware/nvme_driver.c 97-244, 553-1527)

    Initialisation, the admin commands, the read, write, flush and ISP commands,
    the completion of requests by the FTL and the door bell poll. *)

From Stdlib Require Import ZArith Lia Bool List.
From stdpp Require Import base tactics option list functions.
From S2P Require Import Prelude CTypes Queue Kernel Boot MemUtil Geom HostIf HostDma Prp ReqAlloc BufferMgt Requests.
From S2P Require Import NvmeQueues Firmware Isp.

Definition NUM_NS : Z := 1.
Definition IdDataSize : Z := 4096.
Definition AdminDBTail_OFFSET : Z := 0x1000.
Definition AdminDBHead_OFFSET : Z := 0x1004.
Definition NVME_CTRL_OF : Z := 0x200.
Definition NVME_SC_INVALID_OPCODE : Z := 1.
Definition NVME_SC_INVALID_FIELD : Z := 2.
Definition NVME_SC_DNR : Z := 0x4000.

(** ** The identify structures: sizes of their members in bytes *)

Definition NvmeIdController : list Z :=
  [2; 2; 20; 40; 8; 1; 3; 1; 1; 178; 2; 1; 1; 1; 1; 1; 1; 248; 1; 1; 2; 4; 2; 2; 1; 1; 2; 2; 174; 1344;
   1024; 1024].
Definition NvmePSD : list Z := [2; 2; 4; 4; 1; 1; 1; 1; 16].
Definition NvmeIdNameSpace : list Z := [8; 8; 8; 1; 1; 1; 1; 1; 1; 98; 64; 192; 3712].
Definition NvmeLBAF : list Z := [2; 1; 1].

(** The offset of member [i] *)
Definition offset (sizes : list Z) (i : nat) : Z := foldr Z.add 0 (take i sizes).

(** [while (mdts_cal > 1) { mdts_cal >>= 1; mdts++; }] *)
Fixpoint mdts_loop (fuel : nat) (mdts_cal mdts : Z) : outcome Z :=
  if 1 <? mdts_cal then
    match fuel with
    | O => Fault FFuel
    | S fuel => mdts_loop fuel (Z.shiftr mdts_cal 1) (u8 (mdts + 1))
    end
  else Ok mdts.

(** A copy of eight-byte words [ix] of a command: the struct [nvmescmd_cp]. *)
Definition copy_fields (ix : list nat) (from to : Z) : Z :=
  fold_left (fun to i => set_field nvmescmd_cp i (field nvmescmd_cp i from) to) ix to.

Section driver.
Context `{DmaEngines} `{MemoryViews} `{Addresses} (cf : fw_cfg).

Definition ctrl_member (i : nat) : Z := cf_idCtrlBuf cf + offset NvmeIdController i.
Definition ns_member (i : nat) : Z := cf_idNsBuf cf + offset NvmeIdNameSpace i.

(** ** Admin commands *)

Definition enqueue_admin (req : req_ptr) (w : fw) : outcome fw :=
  on_nvme (enqueue_admin_ccmd (cf_ccmd_buf cf) req) w.

(** The stores of the identify controller data, in the order of the source. *)
Definition identify_controller (mdts : Z) (m : mem) : mem :=
  let put n i v m := store_le n (ctrl_member i) v m in
  let m := put 2%nat 0%nat 0x8086 m in
  let m := put 2%nat 1%nat 0x1af4 m in
  let m := strpadcpy (ctrl_member 3) 40 (cf_lit_mn cf) 0x20 m in
  let m := strpadcpy (ctrl_member 4) 8 (cf_lit_fr cf) 0x20 m in
  let m := strpadcpy (ctrl_member 2) 20 (cf_lit_sn cf) 0x20 m in
  let m := put 1%nat 5%nat 6 m in
  let m := store_le 1 (ctrl_member 6) 0x00 m in
  let m := store_le 1 (ctrl_member 6 + 1) 0x02 m in
  let m := store_le 1 (ctrl_member 6 + 2) 0xb3 m in
  let m := put 2%nat 10%nat 0 m in
  let m := put 1%nat 13%nat (Z.shiftl 7 1) m in
  let m := put 1%nat 14%nat (Z.shiftl 1 0) m in
  let m := put 1%nat 18%nat (Z.lor (Z.shiftl 6 4) 6) m in
  let m := put 1%nat 19%nat (Z.lor (Z.shiftl 4 4) 4) m in
  let m := put 4%nat 21%nat NUM_NS m in
  let m := put 2%nat 22%nat 0 m in
  let m := store_le 2 (ctrl_member 30 + offset NvmePSD 0) 0x9c4 m in
  let m := store_le 4 (ctrl_member 30 + offset NvmePSD 2) 0x10 m in
  let m := store_le 4 (ctrl_member 30 + offset NvmePSD 3) 0x4 m in
  let m := put 1%nat 25%nat 1 m in
  put 1%nat 8%nat mdts m.

Definition identify_namespace (m : mem) : mem :=
  let put n i v m := store_le n (ns_member i) v m in
  let m := put 1%nat 3%nat 0 m in
  let m := put 1%nat 4%nat 0 m in
  let m := put 1%nat 5%nat 0 m in
  let m := put 1%nat 6%nat 0 m in
  let m := put 1%nat 7%nat 0 m in
  let m := put 1%nat 8%nat 0 m in
  let m := store_le 1 (ns_member 10 + offset NvmeLBAF 1) (HOST_DS (cf_geom cf)) m in
  let m := put 8%nat 1%nat (cf_ncap cf) m in
  let m := put 8%nat 2%nat (cf_nuse cf) m in
  put 8%nat 0%nat (cf_nsze cf) m.

(** The loop over the namespaces ([NUM_NS] is 1) after clearing the list. *)
Fixpoint ns_list_loop (n : nat) (i j min_nsid : Z) (m : mem) : mem :=
  match n with
  | O => m
  | S n =>
      if i <? min_nsid then ns_list_loop n (i + 1) j min_nsid m
      else
        let m := store_le 4 (cf_NvmeIdNSBuf cf + 4 * j) (i + 1) m in
        if j + 1 =? IdDataSize / 4 then m else ns_list_loop n (i + 1) (j + 1) min_nsid m
  end.
Definition identify_ns_list (min_nsid : Z) (m : mem) : mem :=
  ns_list_loop (Z.to_nat NUM_NS) 0 0 min_nsid (memset32 (cf_NvmeIdNSBuf cf) 0 (IdDataSize / 4) m).

(** [req->dma.data_size = size; do_sync_dma(prp1, prp2, &req->dma, buf, op);] *)
Definition admin_dma (req : req_ptr) (size buf op : Z) (w : fw) : outcome fw :=
  let! a := get_admin req w in
  let s := fw_nvme w in
  let! '(dma, pw) := do_sync_dma (cf_prp cf) (field NvmeSCmd 6 (ar_scmd a)) (field NvmeSCmd 7 (ar_scmd a))
                       (set_data_size size (ar_dma a)) buf op (nv_prp s) in
  put_admin req (set_ar_dma dma a) (set_nvme (set_prp pw s) w).

Definition MDTS_SIZE : Z := u32 (Z.shiftl MAX_LP_TX (HOST_DS (cf_geom cf))).

(** [cns] is a field of two bits; 3 is not handled and not completed. *)
Definition nvme_identify (req : req_ptr) (w : fw) : outcome fw :=
  let! a := get_admin req w in
  let cmd := ar_scmd a in
  let cns := field NvmeIdentifyCmd 8 cmd in
  if cns =? 1 then
    let! mdts := mdts_loop 32 (Z.shiftr MDTS_SIZE 12) 0 in
    let w := on_ssd (identify_controller mdts) w in
    let! w := admin_dma req 4096 (cf_idCtrlBuf cf) PCI_DMA_WRITE w in
    enqueue_admin req w
  else if cns =? 0 then
    let w := on_ssd identify_namespace w in
    let! w := admin_dma req 4096 (cf_idNsBuf cf) PCI_DMA_WRITE w in
    enqueue_admin req w
  else if cns =? 2 then
    let w := on_ssd (identify_ns_list (field NvmeIdentifyCmd 3 cmd)) w in
    let! w := admin_dma req IdDataSize (cf_NvmeIdNSBuf cf) PCI_DMA_WRITE w in
    enqueue_admin req w
  else Ok w.

Definition set_cdw0_words (w0 w1 : Z) (a : admin_req) : admin_req :=
  set_ar_cdw0 (set_field Dword_words 1 w1 (set_field Dword_words 0 w0 (ar_ccmd_cdw0 a))) a.

Definition nvme_set_feature (req : req_ptr) (w : fw) : outcome fw :=
  let! a := get_admin req w in
  let cmd := ar_scmd a in
  let fid := field NvmeSetFeatureCmd 8 cmd in
  if fid =? 7 then
    let nsq := field NvmeSetFeatureCmd 10 cmd in
    let ncq := field NvmeSetFeatureCmd 11 cmd in
    let! w := put_admin req (set_cdw0_words (Z.min nsq MAX_IO_SQCQ_PAIRS) (Z.min ncq MAX_IO_SQCQ_PAIRS) a) w in
    enqueue_admin req w
  else if fid =? 6 then enqueue_admin req w
  else
    let! w := put_admin req (set_ar_status (Z.lor NVME_SC_INVALID_FIELD NVME_SC_DNR) a) w in
    enqueue_admin req w.

Definition nvme_get_feature (req : req_ptr) (w : fw) : outcome fw :=
  let! a := get_admin req w in
  let fid := field NvmeSetFeatureCmd 8 (ar_scmd a) in
  if fid =? 7 then
    let s := fw_nvme w in
    let! w := put_admin req (set_cdw0_words (u16 (nv_iosqCount s)) (u16 (nv_iocqCount s)) a) w in
    enqueue_admin req w
  else if fid =? 6 then enqueue_admin req w
  else
    let! w := put_admin req (set_ar_status (Z.lor NVME_SC_INVALID_FIELD NVME_SC_DNR) a) w in
    enqueue_admin req w.

Definition nvme_fw_download (req : req_ptr) (w : fw) : outcome fw :=
  let! a := get_admin req w in
  let cmd := ar_scmd a in
  let size := u32 (Z.shiftl (field NvmefwdlCmd 8 cmd + 1) 2) in
  let off := u32 (Z.shiftl (field NvmefwdlCmd 9 cmd) 2) in
  let! w := admin_dma req size (u32 (cf_external_code_buffer cf + off)) PCI_DMA_READ w in
  let w := set_nvme (set_code_size (u32 (off + size)) (fw_nvme w)) w in
  enqueue_admin req w.

(** The result of [add_applet] is not used. *)
Definition nvme_fw_activate (initialize_ftn : Z -> fw -> outcome (Z * fw)) (req : req_ptr) (w : fw)
  : outcome fw :=
  let! '(_, w) := add_applet initialize_ftn (cf_external_code_buffer cf) (nv_code_size (fw_nvme w)) w in
  enqueue_admin req w.

(** [host_int_base_reg + NVME_CTRL_OF + offset] *)
Definition db_reg (off : Z) : Z := u32 (get_dev_address DEV_HOST_INT + NVME_CTRL_OF + off).

Definition upd_sqs (i : Z) (q : NvmeSQueue) (s : nvme) : outcome nvme :=
  let! l := arr_set (nv_sqs s) i q in Ok (set_sqs l s).
Definition upd_cqs (i : Z) (q : NvmeCQueue) (s : nvme) : outcome nvme :=
  let! l := arr_set (nv_cqs s) i q in Ok (set_cqs l s).
Definition count_sq (d : Z) (s : nvme) : nvme := set_counts (u32 (nv_iosqCount s + d)) (nv_iocqCount s) s.
Definition count_cq (d : Z) (s : nvme) : nvme := set_counts (nv_iosqCount s) (u32 (nv_iocqCount s + d)) s.

Definition nvme_create_sq (req : req_ptr) (w : fw) : outcome fw :=
  let! a := get_admin req w in
  let cmd := ar_scmd a in
  let index := field NvmeCreateSQCmd 8 cmd in
  let tailDBoffset := u32 (AdminDBTail_OFFSET + index * 8) in
  let sq := SQueue index (field NvmeCreateSQCmd 13 cmd) 0 0 (db_reg tailDBoffset)
              (field NvmeCreateSQCmd 9 cmd + 1) (field NvmeCreateSQCmd 6 cmd) in
  let! w := on_nvme (upd_sqs index sq) w in
  enqueue_admin req (set_nvme (count_sq 1 (fw_nvme w)) w).

(** [setReg(cqIntVector, vector); setReg(cmd, PCI_ENABLE_MSIX_VECTOR);] *)
Definition enable_vector (vector : Z) (w : fw) : outcome fw :=
  let! d := setReg R_cqIntVector vector (nv_dma (fw_nvme w)) in
  let! d := setReg R_cmd PCI_ENABLE_MSIX_VECTOR d in
  Ok (set_nvme (set_nv_dma d (fw_nvme w)) w).

Definition nvme_create_cq (req : req_ptr) (w : fw) : outcome fw :=
  let! a := get_admin req w in
  let cmd := ar_scmd a in
  let index := field NvmeCreateCQCmd 8 cmd in
  let db := u32 (AdminDBHead_OFFSET + index * 8) in
  let size := field NvmeCreateCQCmd 9 cmd + 1 in
  let! old := arr_get (nv_cqs (fw_nvme w)) index in
  let cq := CQueue 1 (field NvmeCreateCQCmd 11 cmd) index 0 (db_reg db) 0 (field NvmeCreateCQCmd 13 cmd)
              size (field NvmeCreateCQCmd 6 cmd) (Queue 0 0 size (q_objs (cq_pending old))) in
  let! w := on_nvme (upd_cqs index cq) w in
  let! w := if cq_irq_enabled cq =? 0 then Ok w else enable_vector (cq_vector cq) w in
  enqueue_admin req (set_nvme (count_cq 1 (fw_nvme w)) w).

Definition nvme_delete_sq (req : req_ptr) (w : fw) : outcome fw :=
  let! a := get_admin req w in
  let index := field NvmeCreateSQCmd 8 (ar_scmd a) in
  let! old := arr_get (nv_sqs (fw_nvme w)) index in
  let! w := on_nvme (upd_sqs index (SQueue 0 (sq_cqid old) 0 (sq_tail old) 0 0 0)) w in
  enqueue_admin req (set_nvme (count_sq (-1) (fw_nvme w)) w).

(** The tail and the pending completions are kept. *)
Definition nvme_delete_cq (req : req_ptr) (w : fw) : outcome fw :=
  let! a := get_admin req w in
  let index := field NvmeCreateCQCmd 8 (ar_scmd a) in
  let! old := arr_get (nv_cqs (fw_nvme w)) index in
  let! w := on_nvme (upd_cqs index (CQueue 0 0 0 0 0 (cq_tail old) 0 0 0 (cq_pending old))) w in
  enqueue_admin req (set_nvme (count_cq (-1) (fw_nvme w)) w).

(** With [VERBOSE_ERROR] the request found is read for the message. *)
Definition nvme_adort_cmd (req : req_ptr) (w : fw) : outcome fw :=
  let! a := get_admin req w in
  let cdw10 := field NvmeSCmd 8 (ar_scmd a) in
  let io_req := sys_find_io_request (field dword_words 0 cdw10) (field dword_words 1 cdw10)
                  (nv_alloc (fw_nvme w)) in
  let! _ := if cf_verbose_error cf then let! _ := deref io_req in Ok tt else Ok tt in
  enqueue_admin req w.

Definition nvme_unimplemented_cmd (req : req_ptr) (w : fw) : outcome fw :=
  let! a := get_admin req w in
  let! w := put_admin req (set_ar_status (Z.lor NVME_SC_INVALID_OPCODE NVME_SC_DNR) a) w in
  enqueue_admin req w.

(** ** Fetching commands *)

(** [&scmd_buf[head]]: 64 bytes each; the buffer has 128 entries. *)
Definition scmd_addr (head : Z) : Z := u32 (cf_scmd_buf cf + 64 * head).

Definition read_scmd (sqid sqe host_p_addr : Z) (s : nvme) : outcome nvme :=
  let d := nv_dma s in
  let d := set_dw_sync (sync_read_scmd sqid sqe host_p_addr (scmd_addr sqe) 1 (dw_sync d)) d in
  let! '(_, d) := sync_dma_cbk dma0 PCI_DMA_SQ_READ d in
  Ok (set_nv_dma d s).

Definition scmd_at (sqe : Z) (w : fw) : Z := load_le 64 (scmd_addr sqe) (fw_ssd w).

Definition advance_sq (sqid : Z) (s : nvme) : outcome nvme :=
  let! sq := arr_get (nv_sqs s) sqid in
  let! sq := inc_sq_head sq in
  upd_sqs sqid sq s.

(** The dispatch of [process_admin_cmd] *)
Definition admin_dispatch (initialize_ftn : Z -> fw -> outcome (Z * fw)) (req : req_ptr) (opcode : Z) (w : fw)
  : outcome fw :=
  if opcode =? 0x06 then nvme_identify req w
  else if opcode =? 0x09 then nvme_set_feature req w
  else if opcode =? 0x0a then nvme_get_feature req w
  else if opcode =? 0x01 then nvme_create_sq req w
  else if opcode =? 0x05 then nvme_create_cq req w
  else if opcode =? 0x00 then nvme_delete_sq req w
  else if opcode =? 0x04 then nvme_delete_cq req w
  else if opcode =? 0x11 then nvme_fw_download req w
  else if opcode =? 0x10 then nvme_fw_activate initialize_ftn req w
  else if opcode =? 0x08 then nvme_adort_cmd req w
  else nvme_unimplemented_cmd req w.

Definition process_admin_cmd (initialize_ftn : Z -> fw -> outcome (Z * fw)) (w : fw) : outcome fw :=
  let! sq := arr_get (nv_sqs (fw_nvme w)) 0 in
  let! '(req, w) := malloc_req ADMIN_REQUEST w in
  let! w := on_nvme (read_scmd 0 (sq_head sq) (sq_hostAddr sq)) w in
  let from := scmd_at (sq_head sq) w in
  let! a := get_admin req w in
  let a := set_ar_scmd (copy_fields [0; 3; 4; 5]%nat from (ar_scmd a)) (sq_head sq)
             (set_ar_cdw0 0 (set_ar_status 0 a)) in
  let! w := put_admin req a w in
  let! w := on_nvme (advance_sq 0) w in
  admin_dispatch initialize_ftn req (field NvmeSCmd 0 (ar_scmd a)) w.

(** ** I/O commands *)

(** The sum is taken in 64 bits; [-1] rejects the command. *)
Definition verify_rw_param (scmd : Z) : Z :=
  let slba := field NvmeIOSCmd 8 scmd in
  let nlbs := field NvmeIOSCmd 9 scmd in
  if NUM_NS <? field NvmeIOSCmd 3 scmd then -1
  else if cf_nsze cf <? u64 (slba + nlbs) then -1
  else if MDTS_PAGES <=? nlbs then -1
  else 0.

Definition on_rbuf (f : buf_q -> outcome buf_q) (w : fw) : outcome fw :=
  let s := fw_nvme w in
  let! q := f (nv_rbuf s) in Ok (set_nvme (set_bufs q (nv_wbuf s) s) w).
Definition on_wbuf (f : buf_q -> outcome buf_q) (w : fw) : outcome fw :=
  let s := fw_nvme w in
  let! q := f (nv_wbuf s) in Ok (set_nvme (set_bufs (nv_rbuf s) q s) w).
Definition pop_q (q : buf_q) : outcome buf_q := let! '(_, q) := pop_buf_q q in Ok q.

Definition push_to_ftl (p ty : Z) (w : fw) : outcome fw :=
  on_kernel (fun k => let! k := sys_push_to_ftl p ty k in Ok (0, k)) w.
Definition add_check_door (w : fw) : outcome fw :=
  on_kernel (sys_add_callback_ftn (cf_check_door_ftn_id cf) 0) w.

(** The loops of the second steps: at most one round finds the buffer free. *)
Definition buf_fuel : nat := 129.

Fixpoint process_read_ios_step_2 (fuel : nat) (w : fw) : outcome fw :=
  match fuel with
  | O => Fault FFuel
  | S fuel =>
      let s := fw_nvme w in
      if bq_empty (nv_rbuf s) then Ok w
      else
        let! req := arr_get (bq_objs (nv_rbuf s)) (bq_head (nv_rbuf s)) in
        let! r := get_io req w in
        let! '(res, r, b) := get_read_io_buffer (cf_geom cf) r (nv_buffer s) in
        if res =? -1 then Ok w
        else
          let! w := put_io req r (set_nvme (set_nv_buffer b s) w) in
          let! w := on_rbuf pop_q w in
          let! w := push_to_ftl (req_addr req) READ_IO_REQUEST w in
          process_read_ios_step_2 fuel w
  end.

(** [sync_read_io_dma] and [sync_write_io_dma] *)
Definition sync_io_dma (op : Z) (req : req_ptr) (w : fw) : outcome fw :=
  let! r := get_io req w in
  let s := fw_nvme w in
  let! '(dma, d) := sync_dma_cbk (set_dma_complete false (rq_dma r)) op (nv_dma s) in
  put_io req (set_req_dma dma (set_stage REQ_STAGE_DMA r)) (set_nvme (set_nv_dma d s) w).
Definition sync_read_io_dma := sync_io_dma READ_IO_DMA_OPERATION.
Definition sync_write_io_dma := sync_io_dma WRITE_IO_DMA_OPERATION.

(** [enqueue_io_ccmd(req->cqid, req)] *)
Definition enqueue_io (req : req_ptr) (w : fw) : outcome fw :=
  let! r := get_io req w in on_nvme (enqueue_io_ccmd (cf_ccmd_buf cf) (rq_cqid r) req) w.

Fixpoint process_write_ios_step_2 (fuel : nat) (w : fw) : outcome fw :=
  match fuel with
  | O => Fault FFuel
  | S fuel =>
      let s := fw_nvme w in
      if bq_empty (nv_wbuf s) then Ok w
      else
        let! req := arr_get (bq_objs (nv_wbuf s)) (bq_head (nv_wbuf s)) in
        let! r := get_io req w in
        let! '(res, r, b) := get_write_io_buffer (cf_geom cf) r (nv_buffer s) in
        if res =? -1 then Ok w
        else
          let! w := put_io req r (set_nvme (set_nv_buffer b s) w) in
          let! w := on_wbuf pop_q w in
          let! w := sync_write_io_dma req w in
          let! w := on_kernel (free_write_io_buffer wbc_addr) w in
          let! w := enqueue_io req w in
          process_write_ios_step_2 fuel w
  end.

(** The common part of the handlers: the queues, a request object of the given
    type and the copy of words [ix] of the command. *)
Definition new_io_req (ty sqid sqe scmd : Z) (copy : Z -> Z) (w : fw) : outcome (req_ptr * fw) :=
  let! sq := arr_get (nv_sqs (fw_nvme w)) sqid in
  let! cq := arr_get (nv_cqs (fw_nvme w)) (sq_cqid sq) in
  let! '(req, w) := malloc_req ty w in
  let! r := get_io req w in
  let! w := put_io req (set_queue_info sqid (cq_cqid cq) sqe (copy (rq_scmd r)) 0 (rq_ccmd_dw0 r) r) w in
  Ok (req, w).

(** [setup_io_req]: of the command only cid, nsid, prp1 and prp2 are copied. *)
Definition setup_io_req (sqid sqe scmd req_type : Z) (w : fw) : outcome (req_ptr * fw) :=
  new_io_req req_type sqid sqe scmd
    (fun to => fold_left (fun to i => set_field NvmeIOSCmd i (field NvmeIOSCmd i scmd) to) [2; 3; 6; 7]%nat to) w.

(** [dma.data_size = (nlbs + 1) << HOST_DS; decode_prp(prp1, prp2, &dma);] *)
Definition setup_rw_dma (req : req_ptr) (w : fw) : outcome fw :=
  let! r := get_io req w in
  let s := fw_nvme w in
  let d := set_data_size (u32 (Z.shiftl (io_nlbs r + 1) (HOST_DS (cf_geom cf))))
             (set_dma_complete false (rq_dma r)) in
  let! '(_, d, pw) := decode_prp (cf_prp cf) (field NvmeIOSCmd 6 (rq_scmd r)) (field NvmeIOSCmd 7 (rq_scmd r))
                        d (nv_prp s) in
  put_io req (set_req_dma d r) (set_nvme (set_prp pw s) w).

Definition process_read_io (sqid sqe scmd : Z) (w : fw) : outcome fw :=
  let! '(req, w) := new_io_req READ_IO_REQUEST sqid sqe scmd (copy_fields [0; 3; 4; 5; 6; 7]%nat scmd) w in
  if verify_rw_param scmd =? -1 then enqueue_io req w
  else
    let! r := get_io req w in
    let! w := put_io req (set_nand_io_complete false r) w in
    let! w := setup_rw_dma req w in
    let! w := on_rbuf (push_buf_q req) w in
    process_read_ios_step_2 buf_fuel w.

Definition process_write_io (sqid sqe scmd : Z) (w : fw) : outcome fw :=
  let! '(req, w) := new_io_req WRITE_IO_REQUEST sqid sqe scmd (copy_fields [0; 3; 4; 5; 6; 7]%nat scmd) w in
  if verify_rw_param scmd =? -1 then enqueue_io req w
  else
    let! w := setup_rw_dma req w in
    let! w := on_wbuf (push_buf_q req) w in
    process_write_ios_step_2 buf_fuel w.

Definition process_flush_io (sqid sqe scmd : Z) (w : fw) : outcome fw :=
  let! '(req, w) := new_io_req FLUSH_IO_REQUEST sqid sqe scmd (copy_fields [0]%nat scmd) w in
  let! w := enqueue_io req w in
  add_check_door w.

(** [process_dsm_io]: its body is commented out. *)
Definition process_dsm_io (sqid sqe scmd : Z) (w : fw) : outcome fw := Ok w.

Definition process_isp_io (sqid sqe scmd : Z) (w : fw) : outcome fw :=
  let! '(req, w) := setup_io_req sqid sqe scmd ISP_IO_REQUEST w in
  let! w := isp_io cf scmd req w in
  add_check_door w.

Definition unknown_io_cmd (sqid sqe scmd : Z) (w : fw) : outcome fw := add_check_door w.

Definition io_dispatch (sqid sqe scmd : Z) (w : fw) : outcome fw :=
  let opcode := field NvmeIOSCmd 0 scmd in
  if opcode =? 0x02 then process_read_io sqid sqe scmd w
  else if opcode =? 0x01 then process_write_io sqid sqe scmd w
  else if opcode =? 0x00 then process_flush_io sqid sqe scmd w
  else if (opcode =? ISP_IO_OPCODE) || (opcode =? ISP_DATA_TX_OPCODE) || (opcode =? ISP_CTRL_OPCODE) then
    process_isp_io sqid sqe scmd w
  else unknown_io_cmd sqid sqe scmd w.

Definition process_io_cmd (sqid : Z) (w : fw) : outcome fw :=
  let! sq := arr_get (nv_sqs (fw_nvme w)) sqid in
  let sqe := sq_head sq in
  let! w := on_nvme (read_scmd sqid sqe (sq_hostAddr sq)) w in
  let! w := on_nvme (advance_sq sqid) w in
  io_dispatch sqid sqe (scmd_at sqe w) w.

(** [completed_req_cbk]: the object is a read request or the cache request. *)
Definition completed_req_cbk (req : option req_ptr) (type : Z) (w : fw) : outcome fw :=
  if type =? READ_IO_REQUEST then
    let! req := deref req in
    let! w := sync_read_io_dma req w in
    let s := fw_nvme w in
    let w := set_nvme (set_nv_buffer (snd (free_read_io_buffer (nv_buffer s))) s) w in
    let! w := enqueue_io req w in
    let! w := process_read_ios_step_2 buf_fuel w in
    let! w := process_write_ios_step_2 buf_fuel w in
    add_check_door w
  else if type =? WBC_FLUSH_REQUEST then
    let! b := free_wbc_buffer (nv_buffer (fw_nvme w)) in
    let w := set_nvme (set_nv_buffer b (fw_nvme w)) w in
    let! w := process_write_ios_step_2 buf_fuel w in
    let! w := process_read_ios_step_2 buf_fuel w in
    add_check_door w
  else Ok w.

(** ** The door bell poll *)

(** Reading [dbUpdate]: the oldest door bell, or zero. *)
Definition read_dbUpdate (w : fw) : dbUpdate * fw :=
  match deQueueDBUpdate (fw_db w) with
  | (Some ix, q) => (sr_list (fw_db w) ix, set_db q w)
  | (None, q) => (DbUpdate 0 0 0, set_db q w)
  end.

(** [for (i = 1; i <= iocqCount; i++) post_io_ccmds(i);] *)
Fixpoint post_all (n : nat) (i : Z) (s : nvme) : outcome nvme :=
  match n with
  | O => Ok s
  | S n => let! s := post_io_ccmds (cf_ccmd_buf cf) (post_fuel i s) i s in post_all n (i + 1) s
  end.
Definition post_all_io (w : fw) : outcome fw :=
  on_nvme (fun s => post_all (Z.to_nat (nv_iocqCount s)) 1 s) w.

Definition set_sq_tail_at (i v : Z) (s : nvme) : outcome nvme :=
  let! q := arr_get (nv_sqs s) i in upd_sqs i (set_sq_tail v q) s.
Definition set_cq_head_at (i v : Z) (s : nvme) : outcome nvme :=
  let! q := arr_get (nv_cqs s) i in upd_cqs i (set_cq_head v q) s.

(** Every 10000 idle polls: the pending completions and CC.SHN. *)
Definition idle_poll (w : fw) : outcome fw :=
  let! w := add_check_door w in
  let idle := u32 (nv_idle (fw_nvme w) + 1) in
  if 10000 <=? idle then
    let w := set_nvme (set_idle 0 (fw_nvme w)) w in
    let! w := post_all_io w in
    if field cc_register 5 (cr_cc (fw_ctrl w)) =? 1 then
      let c := set_csts (set_field csts_register 2 2 (cr_csts (fw_ctrl w))) (fw_ctrl w) in
      Ok (set_shutdowns (S (fw_shutdowns w)) (set_ctrl c w))
    else Ok w
  else Ok (set_nvme (set_idle idle (fw_nvme w)) w).

Definition check_door_bell (initialize_ftn : Z -> fw -> outcome (Z * fw)) (w : fw) : outcome fw :=
  let '(dbu, w) := read_dbUpdate w in
  if DoorBell dbu =? isSQ_DB then
    let! w := on_nvme (set_sq_tail_at (Qindex dbu) (db_value dbu)) w in
    if negb (Qindex dbu =? 0) then process_io_cmd (Qindex dbu) w
    else
      let! w := process_admin_cmd initialize_ftn w in
      add_check_door w
  else if DoorBell dbu =? isCQ_DB then
    let! w := on_nvme (set_cq_head_at (Qindex dbu) (db_value dbu)) w in
    let! w := post_all_io w in
    add_check_door w
  else idle_poll w.

(** ** Initialisation

    The waits for the host (device connection, namespace set-up, CC.EN) are the
    caller's: [initialize_nvme_caps] is the part before the wait for CC.EN,
    [initialize_nvme_queues] the part after it. *)

Definition cap_lo_value : Z :=
  set_field cap_lo_register 4 0xf (set_field cap_lo_register 2 1 (set_field cap_lo_register 1 1
    (set_field cap_lo_register 0 3 0))).
Definition cap_hi_value : Z :=
  set_field cap_hi_register 6 4 (set_field cap_hi_register 5 0 (set_field cap_hi_register 2 1 0)).

Definition initialize_nvme_caps (w : fw) : fw :=
  let w := set_nvme (set_counts 0 0 (fw_nvme w)) w in
  let c := set_csts 0 (set_cc 0 (set_caps 0 0 0 0 0 (fw_ctrl w))) in
  set_ctrl (set_caps cap_lo_value cap_hi_value 0x00010100 0 0 c) w.

(** The settings derived from CC.MPS; the page list buffer is kept. *)
Definition prp_config_of (cc prp_list : Z) : prp_config := PrpConfig (field cc_register 3 cc + 12) prp_list.

Definition initialize_nvme_queues (w : fw) : outcome fw :=
  let c := fw_ctrl w in
  let s := fw_nvme w in
  let! cq := arr_get (nv_cqs s) 0 in
  let size := field aqa_register 2 (cr_aqa c) + 1 in
  let! s := upd_cqs 0 (CQueue 1 1 0 0 (db_reg AdminDBHead_OFFSET) 0 0 size (cr_acq c)
                         (Queue 0 0 size (q_objs (cq_pending cq)))) s in
  let! sq := arr_get (nv_sqs s) 0 in
  let! s := upd_sqs 0 (SQueue 0 0 0 0 (sq_tailBDReg sq) (field aqa_register 0 (cr_aqa c) + 1) (cr_asq c)) s in
  let! w := enable_vector 0 (set_nvme s w) in
  let c := fw_ctrl w in
  let w := set_ctrl (set_csts (set_field csts_register 0 1 (cr_csts c)) c) w in
  add_check_door w.

End driver.
