(* ===== verification/NvmeIo.v ===== *)
(** * I/O commands from the submission queue to the flash and back

    The read, write and flush commands of Nvme.v: how many runs of the host
    interface each transfer takes, request objects, the transfer of a command,
    and what a write, a read and the two completions of the FTL do. *)

From Stdlib Require Import ZArith Lia Bool List.
From stdpp Require Import base tactics option list list_numbers functions.
From S2P Require Import Prelude CTypes Queue Kernel MemUtil Geom HostIf HostDma Prp ReqAlloc BufferMgt Requests.
From S2P Require Import FtlDisk NvmeQueues NvmePost Firmware Isp Nvme.

(** ** Runs of the host interface *)

(** From [w] to [w'] at most [n] schedules have been used. *)
Definition uses (n : nat) (w w' : dma_world) : Prop :=
  exists m, (m <= n)%nat /\ dw_scheds w' = drop m (dw_scheds w).

Lemma uses_0 w w' : dw_scheds w' = dw_scheds w -> uses 0 w w'.
Proof. intros E. exists 0%nat. by rewrite drop_0. Qed.

Lemma uses_trans n m w1 w2 w3 : uses n w1 w2 -> uses m w2 w3 -> uses (n + m) w1 w3.
Proof.
  intros (a & Ha & E1) (b & Hb & E2). exists (a + b)%nat. split; [lia|].
  by rewrite E2, E1, drop_drop.
Qed.

Lemma uses_le n m w w' : (n <= m)%nat -> uses n w w' -> uses m w w'.
Proof. intros H (a & Ha & E). exists a. split; [lia|done]. Qed.

Lemma uses_ready n m w w' : uses n w w' -> ready_for (n + m) w -> ready_for m w'.
Proof.
  intros (a & Ha & E) [Hl Hf]. unfold ready_for. rewrite E, length_drop. split; [lia|].
  by apply Forall_drop.
Qed.

Lemma ready_le n m w : (n <= m)%nat -> ready_for m w -> ready_for n w.
Proof. intros H [Hl Hf]. split; [lia|done]. Qed.

Section runs.
Context `{DmaEngines}.

Lemma setReg_uses r v w w' : setReg r v w = Ok w' -> uses 0 w w'.
Proof. unfold setReg. intros (h & _ & E)%obind_Ok. injection E as <-. by apply uses_0. Qed.

Lemma wait_uses w w' : wait_cmdStatus w = Ok w' -> uses 1 w w'.
Proof.
  unfold wait_cmdStatus. destruct (dw_scheds w) as [|s l] eqn:E; [discriminate|].
  intros (h & _ & E')%obind_Ok. injection E' as <-. exists 1%nat. split; [lia|]. by rewrite E.
Qed.

Ltac runs :=
  repeat match goal with
  | E : obind _ _ = Ok _ |- _ => apply obind_Ok in E as (? & ? & ?)
  | E : Ok _ = Ok _ |- _ => injection E as <- || injection E as <- <-
  | E : setReg _ _ _ = Ok _ |- _ => apply setReg_uses in E
  | E : setReg64 _ _ _ _ = Ok _ |- _ => unfold setReg64 in E
  | E : wait_cmdStatus _ = Ok _ |- _ => apply wait_uses in E
  end.

Lemma dma_one_uses op h s l w w' : dma_one op h s l w = Ok w' -> uses 1 w w'.
Proof.
  unfold dma_one. intros E. runs. do 6 (eapply (uses_trans 0); [eassumption|]). eassumption.
Qed.

Lemma rw_io_loop_uses n ix s op l w w' : rw_io_loop n ix s op l w = Ok w' -> uses n w w'.
Proof.
  revert ix s w. induction n as [|n IH]; intros ix s w E; cbn [rw_io_loop] in E.
  - injection E as <-. by apply uses_0.
  - apply obind_Ok in E as (e & _ & E). apply obind_Ok in E as (w1 & E1 & E2).
    apply (uses_trans 1 n _ w1); [by eapply dma_one_uses|by eapply IH].
Qed.

Lemma dma_operation_loop_uses n ix s r op l w w' : dma_operation_loop n ix s r op l w = Ok w' -> uses n w w'.
Proof.
  revert ix s r w. induction n as [|n IH]; intros ix s r w E; cbn [dma_operation_loop] in E.
  - injection E as <-. by apply uses_0.
  - destruct (r =? 0); [injection E as <-; apply (uses_le 0); [lia|by apply uses_0]|].
    apply obind_Ok in E as (e & _ & E). apply obind_Ok in E as (w1 & E1 & E2).
    apply (uses_trans 1 n _ w1); [by eapply dma_one_uses|by eapply IH].
Qed.

Lemma rw_io_uses dma op w dma' w' :
  sync_dma_cbk dma op w = Ok (dma', w') -> op = READ_IO_DMA_OPERATION \/ op = WRITE_IO_DMA_OPERATION ->
  uses (Z.to_nat (n_ops dma)) w w'.
Proof.
  intros E Hop. assert (exists o, do_sync_rw_io_dma_operation dma o w = Ok (dma', w')) as (o & E').
  { destruct Hop as [-> | ->]; eexists; exact E. }
  clear E. unfold do_sync_rw_io_dma_operation in E'. apply obind_Ok in E' as (w1 & E1 & E2).
  injection E2 as _ <-. by eapply rw_io_loop_uses.
Qed.

Lemma host_dma_uses dma w dma' w' :
  sync_host_dma dma PCI_DMA_READ w = Ok (dma', w') -> uses (Z.to_nat (n_ops dma - c_op_smem_pg dma)) w w'.
Proof.
  change (sync_host_dma dma PCI_DMA_READ w) with (do_sync_dma_operation (set_dma_complete false dma) PCI_DMA_READ w).
  unfold do_sync_dma_operation. intros (w1 & E1 & E2)%obind_Ok. injection E2 as _ <-.
  by eapply dma_operation_loop_uses.
Qed.

Lemma get_prp_page_uses a s l w w' :
  prp_idle w -> get_prp_page a s l w = Ok w' -> uses 1 (pw_world w) (pw_world w') /\ c_op_smem_pg (pw_dma w') = 0.
Proof.
  intros (_ & _ & Hc & _) E. unfold get_prp_page in E. apply obind_Ok in E as (e & _ & E).
  apply obind_Ok in E as (li & _ & E). apply obind_Ok in E as ([d dw] & E1 & E2). injection E2 as <-.
  pose proof (host_dma_uses _ _ _ _ E1) as Hu. simpl in Hu. rewrite Hc in Hu. split; [exact Hu|].
  change (sync_host_dma ?d PCI_DMA_READ ?w) with (do_sync_dma_operation (set_dma_complete false d) PCI_DMA_READ w) in E1.
  unfold do_sync_dma_operation in E1. apply obind_Ok in E1 as (w1 & _ & E1). by injection E1 as <- _.
Qed.

Lemma prp_loop_uses c fuel : forall i len d w r d' w',
  c_op_smem_pg (pw_dma w) = 0 -> prp_loop c fuel i len d w = Ok (r, d', w') ->
  0 <= i -> i + Z.of_nat fuel < maxPrpEntries c -> w' = w.
Proof.
  induction fuel as [|fuel IH]; intros i len d w r d' w' Hc E Hi0 Hm; cbn [prp_loop] in E;
    (destruct (len =? 0); [by injection E as _ _ <-|]); [done|].
  assert (Hne : (i =? maxPrpEntries c - 1) = false) by (apply Z.eqb_neq; lia).
  rewrite Hne in E. cbn [andb] in E. destruct (misaligned c (prp_entry c i w)); [by injection E as _ _ <-|].
  apply obind_Ok in E as (d1 & _ & E). eapply IH; [done|exact E|lia|lia].
Qed.

(** Decoding fetches at most one page of the list. *)
Lemma decode_prp_uses c p1 p2 d w r d' w' :
  12 <= hostPageBits c <= 16 -> prp_idle w -> decode_prp c p1 p2 d w = Ok (r, d', w') ->
  uses 1 (pw_world w) (pw_world w').
Proof.
  intros Hb Hi E. unfold decode_prp in E.
  assert (H0 : forall w', w' = w -> uses 1 (pw_world w) (pw_world w'))
    by (intros ? ->; apply (uses_le 0); [lia|by apply uses_0]).
  destruct (p1 =? 0); [injection E as _ _ <-; by apply H0|].
  apply obind_Ok in E as (d1 & _ & E).
  destruct (_ =? 0) in E; [injection E as _ _ <-; by apply H0|].
  destruct (p2 =? 0); [injection E as _ _ <-; by apply H0|].
  destruct (_ <? _) in E.
  - apply obind_Ok in E as (w1 & E1 & E2).
    destruct (get_prp_page_uses _ _ _ _ _ Hi E1) as [Hu Hc].
    apply (prp_loop_uses c prp_fuel) in E2; [by subst|done|lia|].
    pose proof (max_bounds c Hb). unfold prp_fuel. lia.
  - destruct (negb _) in E; [injection E as _ _ <-; by apply H0|].
    apply obind_Ok in E as (d2 & _ & E). injection E as _ _ <-. by apply H0.
Qed.

End runs.

(** ** Request objects *)

(** The arrays of a request have the sizes of the source. *)
Record io_shape (r : io_req) : Prop := {
  sh_dma : length (dma_list (rq_dma r)) = 16%nat;
  sh_meta : length (rq_meta_lpn r) = 16%nat;
  sh_dw0 : fits 32 (rq_ccmd_dw0 r) }.

Definition shapes_ok (a : req_alloc) : Prop := forall p r, get_obj p a = Ok (OIo r) -> io_shape r.

(** Replacing an object by a request of the same type. *)
Lemma alloc_inv_put a used p o r' :
  alloc_inv a used -> get_obj p a = Ok o -> rq_type r' = o_type o ->
  exists a', set_obj p (OIo r') a = Ok a' /\ alloc_inv a' used /\ get_obj p a' = Ok (OIo r')
    /\ (forall p', p' <> p -> get_obj p' a' = get_obj p' a).
Proof.
  intros Hinv Ho Hty.
  assert (Hpi : 0 <= ptr_index p < Z.of_nat (length (objs (ptr_pool p) a)))
    by (rewrite get_obj_eq in Ho; by eapply arr_get_range).
  destruct (set_obj_spec p (OIo r') a Hpi) as (a' & E & G1 & H2 & H3 & H4).
  exists a'. split; [done|]. split; [|done]. split.
  - intros k. rewrite H4. apply Hinv.
  - intros k. rewrite H3. apply Hinv.
  - intros k. rewrite H3. apply Hinv.
  - intros p' o1 Hp' Ho1. destruct (decide (p' = p)) as [->|Hne].
    + rewrite G1 in Ho1. injection Ho1 as <-. pose proof (ai_obj _ _ Hinv p o Hp' Ho) as Hok.
      unfold obj_ok in *. cbn [o_type]. rewrite Hty.
      destruct (ptr_pool p); [destruct Hok as (? & ?); split; [done|eauto]..|done].
    + rewrite H2 in Ho1 by done. by apply (ai_obj _ _ Hinv).
Qed.

Lemma shapes_put a a' p r' :
  shapes_ok a -> io_shape r' -> get_obj p a' = Ok (OIo r') ->
  (forall p', p' <> p -> get_obj p' a' = get_obj p' a) -> shapes_ok a'.
Proof.
  intros Hs Hr Hp Ho p' r E. destruct (decide (p' = p)) as [->|Hne].
  - rewrite Hp in E. by injection E as <-.
  - rewrite Ho in E by done. by eapply Hs.
Qed.

Lemma set_common_shape t i s o r : set_common t i s o = OIo r -> exists r0, o = OIo r0 /\ (io_shape r0 -> io_shape r).
Proof.
  destruct o; try discriminate. simpl. intros E. injection E as <-. eexists. split; [done|].
  intros []. by split.
Qed.

(** What the allocator changes in an object are the common fields. *)
Lemma free_shapes a a' p o :
  shapes_ok a -> get_obj p a = Ok o -> get_obj p a' = Ok (set_o_stage REQ_STAGE_FREE o) ->
  (forall p', p' <> p -> get_obj p' a' = get_obj p' a) -> shapes_ok a'.
Proof.
  intros Hs Ho Hp Hoth p' r E. destruct (decide (p' = p)) as [->|Hne].
  - rewrite Hp in E. injection E as E. apply set_common_shape in E as (r0 & -> & Hr). apply Hr. by eapply Hs.
  - rewrite Hoth in E by done. by eapply Hs.
Qed.

Lemma malloc_object ty p a a' :
  sys_malloc_req_obj ty a = Ok (Some p, a') ->
  exists o t i s, get_obj p a = Ok o /\ get_obj p a' = Ok (set_common t i s o).
Proof.
  unfold sys_malloc_req_obj. destruct (pool_of ty) as [k|]; [|discriminate].
  intros E. apply obind_Ok in E as ([q1 q2] & _ & E). apply obind_Ok in E as (p1 & _ & E).
  assert (Hupd : forall f (a1 a2 : req_alloc) o, upd_obj f p1 a1 = Ok a2 -> get_obj p1 a1 = Ok o -> get_obj p1 a2 = Ok (f o)).
  { clear. intros f a1 a2 o E Ho. unfold upd_obj in E. rewrite Ho in E. simpl in E.
    assert (Hpi : 0 <= ptr_index p1 < Z.of_nat (length (objs (ptr_pool p1) a1)))
      by (rewrite get_obj_eq in Ho; by eapply arr_get_range).
    destruct (set_obj_spec p1 (f o) a1 Hpi) as (a3 & E3 & G & _). congruence. }
  apply obind_Ok in E as (a2 & E2 & E). apply obind_Ok in E as (a3 & E3 & E). injection E as <- <-.
  assert (Hget : exists o, get_obj p1 a = Ok o).
  { unfold upd_obj in E3. apply obind_Ok in E3 as (o3 & G3 & _). destruct k.
    - assert (a2 = set_free_q PoolR q2 a) as -> by congruence. rewrite get_obj_set_free in G3. eauto.
    - assert (a2 = set_free_q PoolW q2 a) as -> by congruence. rewrite get_obj_set_free in G3. eauto.
    - unfold upd_obj in E2. apply obind_Ok in E2 as (o2 & G2 & _). rewrite get_obj_set_free in G2. eauto. }
  destruct Hget as (o & Ho). pose proof Ho as Ho'. rewrite <- (get_obj_set_free p1 k q2 a) in Ho'.
  destruct k.
  - assert (a2 = set_free_q PoolR q2 a) as -> by congruence. pose proof (Hupd _ _ _ _ E3 Ho') as G. exists o. by do 3 eexists.
  - assert (a2 = set_free_q PoolW q2 a) as -> by congruence. pose proof (Hupd _ _ _ _ E3 Ho') as G. exists o. by do 3 eexists.
  - pose proof (Hupd _ _ _ _ E2 Ho') as G2. pose proof (Hupd _ _ _ _ E3 G2) as G3.
    unfold set_o_stage, set_o_type in G3. rewrite set_common_twice in G3. exists o. by do 3 eexists.
Qed.

Lemma malloc_shapes ty p a a' :
  sys_malloc_req_obj ty a = Ok (Some p, a') -> shapes_ok a ->
  (forall p', p' <> p -> get_obj p' a' = get_obj p' a) -> shapes_ok a'.
Proof.
  intros E Hs Hoth p' r Er. destruct (decide (p' = p)) as [->|Hne].
  - destruct (malloc_object ty p a a' E) as (o & t & i & s & Ho & Ho'). rewrite Ho' in Er. injection Er as Er.
    apply set_common_shape in Er as (r0 & -> & Hr). apply Hr. by eapply Hs.
  - rewrite Hoth in Er by done. by eapply Hs.
Qed.

(** A request of a command: the handlers differ in the words they copy. *)
Section requests.
Context `{DmaEngines} `{MemoryViews} `{Addresses} (cf : fw_cfg).

Lemma new_io_req_ok ty k sqid sqe scmd copy w used sq cq :
  let s := fw_nvme w in
  pool_of ty = Some k -> k <> PoolO -> alloc_inv (nv_alloc s) used -> shapes_ok (nv_alloc s) ->
  Z.of_nat (length (used_in k used)) < pool_size k - 1 ->
  arr_get (nv_sqs s) sqid = Ok sq -> arr_get (nv_cqs s) (sq_cqid sq) = Ok cq ->
  exists req r0 a', let r := set_queue_info sqid (cq_cqid cq) sqe (copy (rq_scmd r0)) 0 (rq_ccmd_dw0 r0) r0 in
    new_io_req ty sqid sqe scmd copy w = Ok (req, set_nvme (set_alloc a' s) w)
    /\ get_obj req a' = Ok (OIo r) /\ rq_type r = ty /\ alloc_inv a' (req :: used) /\ shapes_ok a'
    /\ io_shape r /\ (req ∉ used) /\ ptr_pool req = k
    /\ (forall p, p <> req -> get_obj p a' = get_obj p (nv_alloc s)).
Proof.
  intros s Hty Hk Hinv Hsh Hroom Hsq Hcq.
  pose proof (malloc_ok (nv_alloc s) used ty k Hinv Hty) as Hm. apply Z.ltb_lt in Hroom. rewrite Hroom in Hm.
  destruct Hm as (req & o & a1 & E1 & Hnu & Hpk & Ho1 & Hot & _ & Hoth1 & Hinv1).
  pose proof (malloc_shapes _ _ _ _ E1 Hsh Hoth1) as Hsh1.
  assert (Hio : exists r0, o = OIo r0).
  { assert (Hpp : req ∈ pool_ptrs (ptr_pool req)).
    { rewrite <- (ai_perm _ _ Hinv1 (ptr_pool req)). apply elem_of_app. right. rewrite used_in_cons, decide_True by done. left. }
    pose proof (ai_obj _ _ Hinv1 req o Hpp Ho1) as Hok. unfold obj_ok in Hok. rewrite Hpk in Hok.
    destruct k; [apply Hok|apply Hok|done]. }
  destruct Hio as (r0 & ->). pose proof (Hsh1 _ _ Ho1) as Hr0.
  destruct (alloc_inv_put a1 (req :: used) req _
              (set_queue_info sqid (cq_cqid cq) sqe (copy (rq_scmd r0)) 0 (rq_ccmd_dw0 r0) r0) Hinv1 Ho1 eq_refl)
    as (a2 & E2 & Hinv2 & G2 & Hoth2).
  exists req, r0, a2. cbv zeta.
  assert (Hshape : io_shape (set_queue_info sqid (cq_cqid cq) sqe (copy (rq_scmd r0)) 0 (rq_ccmd_dw0 r0) r0))
    by (destruct Hr0; by split).
  split.
  - unfold new_io_req. fold s. rewrite Hsq. cbn [obind]. rewrite Hcq. cbn [obind]. unfold malloc_req. fold s.
    rewrite E1. cbn [obind deref]. unfold get_io. cbn [set_nvme fw_nvme set_alloc nv_alloc]. rewrite Ho1.
    cbn [obind as_io]. unfold put_io, on_alloc. cbn [set_nvme fw_nvme set_alloc nv_alloc]. rewrite E2. done.
  - split_and!; try done.
    + by eapply shapes_put.
    + intros p Hp. rewrite Hoth2 by done. by apply Hoth1.
Qed.

Lemma copy_fields_field ix from to i :
  Forall (fun j => (j < 8)%nat) ix ->
  field nvmescmd_cp i (copy_fields ix from to)
  = if bool_decide (i ∈ ix) then field nvmescmd_cp i from else field nvmescmd_cp i to.
Proof.
  intros Hix. unfold copy_fields. revert to. induction Hix as [|j ix Hj Hix IH]; intros to; cbn [fold_left].
  { by rewrite bool_decide_false by apply not_elem_of_nil. }
  rewrite IH. destruct (decide (i = j)) as [->|Hne].
  - rewrite (bool_decide_true (j ∈ j :: ix)) by left. case_bool_decide; [done|].
    apply field_set_eq; [auto with cint|done|]. destruct (nth_lookup_Some nvmescmd_cp j 0 Hj). 
    apply field_fits; [auto with cint|]. by apply nth_lookup_Some.
  - rewrite field_set_ne by (auto with cint || congruence).
    assert (Hiff : i ∈ j :: ix <-> i ∈ ix) by (rewrite elem_of_cons; tauto).
    by rewrite (bool_decide_ext _ _ Hiff).
Qed.

End requests.

(** ** Copying a command *)

(** The members of a command inside the eight-byte words that are copied. *)
Lemma io_field_word d :
  field NvmeIOSCmd 2 d = bits 16 16 (field nvmescmd_cp 0 d)
  /\ field NvmeIOSCmd 6 d = bits 0 64 (field nvmescmd_cp 3 d)
  /\ field NvmeIOSCmd 7 d = bits 0 64 (field nvmescmd_cp 4 d)
  /\ field NvmeIOSCmd 8 d = bits 0 64 (field nvmescmd_cp 5 d)
  /\ field NvmeIOSCmd 9 d = bits 0 16 (field nvmescmd_cp 6 d).
Proof.
  split_and!; rewrite field_sub by (auto with cint || (cbn; lia)); rewrite field_bits by (auto with cint || (cbn; lia));
    reflexivity.
Qed.

(** Of a read or a write the identifier, both PRPs, the start and the number of
    blocks arrive in the request. *)
Lemma copied_fields from to :
  let scmd := copy_fields [0; 3; 4; 5; 6; 7]%nat from to in
  field NvmeIOSCmd 2 scmd = field NvmeIOSCmd 2 from /\ field NvmeIOSCmd 6 scmd = field NvmeIOSCmd 6 from
  /\ field NvmeIOSCmd 7 scmd = field NvmeIOSCmd 7 from /\ field NvmeIOSCmd 8 scmd = field NvmeIOSCmd 8 from
  /\ field NvmeIOSCmd 9 scmd = field NvmeIOSCmd 9 from.
Proof.
  intros scmd. destruct (io_field_word scmd) as (-> & -> & -> & -> & ->).
  destruct (io_field_word from) as (-> & -> & -> & -> & ->).
  assert (Hw : forall i, i ∈ [0; 3; 4; 5; 6; 7]%nat -> field nvmescmd_cp i scmd = field nvmescmd_cp i from).
  { intros i Hi. unfold scmd. rewrite copy_fields_field by (repeat constructor; lia).
    by rewrite bool_decide_true. }
  rewrite !Hw by (rewrite !elem_of_cons; tauto). done.
Qed.
