(* ===== verification/NvmeRw.v ===== *)
(** * Reads and writes of the NVMe driver

    What the handlers of Nvme.v do for a read or a write command: the transfer is
    set up from the PRP fields, the page buffer is taken, the data is moved, the
    FTL is told and the completion is posted; and what the driver does when the
    FTL has finished. *)

From Stdlib Require Import ZArith Lia Bool List.
From stdpp Require Import base tactics option list list_numbers functions.
From S2P Require Import Prelude CTypes Queue Kernel KernelRun MemUtil Geom HostIf HostDma Prp ReqAlloc BufferMgt Requests.
From S2P Require Import FtlDisk NvmeQueues NvmePost Firmware Isp Nvme NvmeIo.

(** The settings: page sizes, and the buffers the firmware took at start-up. *)
Record cfg_ok (cf : fw_cfg) : Prop := {
  co_ds : 9 <= HOST_DS (cf_geom cf) <= 16;
  co_bits : 12 <= hostPageBits (cf_prp cf) <= 16;
  co_list : 0 <= prp_list (cf_prp cf);
  co_list_end : prp_list (cf_prp cf) + 128 < 2 ^ 32;
  co_ccmd : 0 <= cf_ccmd_buf cf;
  co_ccmd_end : cf_ccmd_buf cf + 16 < 2 ^ 32;
  co_scmd : 0 <= cf_scmd_buf cf;
  co_scmd_end : cf_scmd_buf cf + 64 * 128 < 2 ^ 32 }.

(** The page buffer holds 16 pages apart from the buffers above. *)
Record page_buffer_ok (cf : fw_cfg) (buf : Z) : Prop := {
  pb_pos : 0 <= buf;
  pb_end : buf + 16 * 2 ^ HOST_DS (cf_geom cf) < 2 ^ 32;
  pb_list : buf + 16 * 2 ^ HOST_DS (cf_geom cf) <= prp_list (cf_prp cf) \/ prp_list (cf_prp cf) + 128 <= buf;
  pb_ccmd : buf + 16 * 2 ^ HOST_DS (cf_geom cf) <= cf_ccmd_buf cf \/ cf_ccmd_buf cf + 16 <= buf }.

(** The requests waiting for the page buffer: none. *)
Record buf_q_idle (q : buf_q) : Prop := {
  bi_length : length (bq_objs q) = 128%nat;
  bi_head : 0 <= bq_head q < 128;
  bi_tail : bq_tail q = bq_head q;
  bi_empty : bq_empty q = true }.

Lemma push_pop_idle req q :
  buf_q_idle q ->
  exists q1 q2, push_buf_q req q = Ok q1 /\ bq_empty q1 = false
    /\ arr_get (bq_objs q1) (bq_head q1) = Ok req /\ pop_q q1 = Ok q2 /\ buf_q_idle q2.
Proof.
  intros [Hl Hh Ht He]. unfold push_buf_q. rewrite arr_set_Ok by lia. cbn [obind].
  do 2 eexists. split; [done|]. split; [done|]. cbn [bq_objs bq_head].
  set (l := <[Z.to_nat (bq_tail q) := req]> (bq_objs q)).
  assert (Hll : length l = 128%nat) by (unfold l; by rewrite length_insert).
  assert (Hg : arr_get l (bq_head q) = Ok req).
  { destruct (arr_get_lookup l (bq_head q)) as (p & -> & Hp); [lia|]. unfold l in Hp. rewrite Ht in Hp.
    rewrite list_lookup_insert_eq in Hp by lia. congruence. }
  split; [done|]. unfold pop_q, pop_buf_q. cbn [bq_objs bq_head bq_tail]. rewrite Hg. cbn [obind].
  split; [done|]. clearbody l. rewrite Ht, Z.eqb_refl. split; cbn [bq_objs bq_head bq_tail bq_empty]; try done.
  { by rewrite length_insert. }
  change R_BUFFER_Q_SIZE with 128. apply Z.mod_pos_bound. lia.
Qed.

Lemma set_nvme_twice u v w : set_nvme u (set_nvme v w) = set_nvme u w.
Proof. done. Qed.
Lemma fw_nvme_set v w : fw_nvme (set_nvme v w) = v.
Proof. done. Qed.

Lemma forallb_eq {A} (f h : A -> bool) l : (forall x, f x = h x) -> forallb f l = forallb h l.
Proof. intros E. induction l as [|x l IH]; simpl; [done|]. by rewrite E, IH. Qed.

(** ** Objects *)

(** [a'] is [a] with the request at [p] replaced by [r]. *)
Record put_at (p : req_ptr) (r : io_req) (used : list req_ptr) (a a' : req_alloc) : Prop := {
  pa_inv : alloc_inv a' used;
  pa_shapes : shapes_ok a';
  pa_get : get_obj p a' = Ok (OIo r);
  pa_other : forall p', p' <> p -> get_obj p' a' = get_obj p' a }.

Lemma put_at_trans p r1 r2 used a1 a2 a3 : put_at p r1 used a1 a2 -> put_at p r2 used a2 a3 -> put_at p r2 used a1 a3.
Proof.
  intros [] [? ? ? Ho]. split; try done. intros p' Hp. rewrite Ho by done. auto.
Qed.

Section objects.
Context `{DmaEngines} `{MemoryViews} `{Addresses}.

Lemma put_io_ok p r r' used w :
  let a := nv_alloc (fw_nvme w) in
  alloc_inv a used -> shapes_ok a -> get_obj p a = Ok (OIo r) -> rq_type r' = rq_type r -> io_shape r' ->
  exists a', put_io p r' w = Ok (set_nvme (set_alloc a' (fw_nvme w)) w) /\ put_at p r' used a a'.
Proof.
  intros a Hinv Hsh Ho Ht Hr. destruct (alloc_inv_put a used p _ r' Hinv Ho Ht) as (a' & E & Hi' & Ho' & Hoth).
  exists a'. split.
  - unfold put_io, on_alloc. fold a. by rewrite E.
  - split; try done. by eapply shapes_put.
Qed.

Lemma get_io_ok p r w : get_obj p (nv_alloc (fw_nvme w)) = Ok (OIo r) -> get_io p w = Ok r.
Proof. intros E. unfold get_io. by rewrite E. Qed.

End objects.

(** ** The transfer of a command *)

Section rw.
Context `{DmaEngines} `{MemoryViews} `{Addresses} (cf : fw_cfg) (Hcf : cfg_ok cf).

(** The bytes a read or write moves, and its PRP fields. *)
Definition rw_nlbs (scmd : Z) : Z := field NvmeIOSCmd 9 scmd.
Definition rw_slba (scmd : Z) : Z := field NvmeIOSCmd 8 scmd.
Definition rw_len (scmd : Z) : Z := Z.shiftl (rw_nlbs scmd + 1) (HOST_DS (cf_geom cf)).
Definition rw_prp1 (scmd : Z) : Z := field NvmeIOSCmd 6 scmd.
Definition rw_prp2 (scmd : Z) : Z := field NvmeIOSCmd 7 scmd.

(** At most 16 blocks, in at most 16 well-formed host pages. *)
Record rw_ok (host : mem) (c : Z) : Prop := {
  ro_nlbs : rw_nlbs c < 16;
  ro_valid : prp_valid (cf_prp cf) host (rw_prp1 c) (rw_prp2 c) (rw_len c) = true;
  ro_count : prp_count (cf_prp cf) (rw_prp1 c) (rw_len c) <= 16 }.

Lemma io_rw_len r : Z.shiftl (io_nlbs r + 1) (HOST_DS (cf_geom cf)) = rw_len (rq_scmd r).
Proof. unfold rw_len, rw_nlbs, io_nlbs. reflexivity. Qed.
Lemma io_rw_nlbs r : io_nlbs r = rw_nlbs (rq_scmd r).
Proof. unfold rw_nlbs, io_nlbs. reflexivity. Qed.

Lemma rw_nlbs_fits c : fits 16 (rw_nlbs c).
Proof. apply (field_fits NvmeIOSCmd 9); [auto with cint|reflexivity]. Qed.

Lemma rw_len_bounds c : rw_nlbs c < 16 ->
  rw_len c = (rw_nlbs c + 1) * 2 ^ HOST_DS (cf_geom cf) /\ 0 < rw_len c <= 2 ^ 20
  /\ rw_len c <= 16 * 2 ^ HOST_DS (cf_geom cf).
Proof using Hcf.
  intros Hn. pose proof (rw_nlbs_fits c) as Hf. unfold fits in Hf. pose proof (co_ds _ Hcf) as Hds.
  unfold rw_len. rewrite Z.shiftl_mul_pow2 by lia.
  assert (2 ^ 9 <= 2 ^ HOST_DS (cf_geom cf) <= 2 ^ 16) by (split; apply Z.pow_le_mono_r; lia).
  change (2 ^ 9) with 512 in *. change (2 ^ 16) with 65536 in *. change (2 ^ 20) with 1048576. nia.
Qed.

(** The request's transfer after decoding. *)
Record dma_set (host : mem) (c : Z) (d : dma_t) : Prop := {
  ds_length : length (dma_list d) = 16%nat;
  ds_n_ops : n_ops d = prp_count (cf_prp cf) (rw_prp1 c) (rw_len c);
  ds_segs : io_entries d = prp_segs (cf_prp cf) host (rw_prp1 c) (rw_prp2 c) (rw_len c) }.

(** What decoding changes in the driver. *)
Record prp_step (n : nat) (s s' : nvme) : Prop := {
  pp_idle : prp_idle (nv_prp s');
  pp_host : forall a, nv_host s' a = nv_host s a;
  pp_ssd : forall a, ~ (prp_list (cf_prp cf) <= a < prp_list (cf_prp cf) + 128) -> nv_ssd s' a = nv_ssd s a;
  pp_mem : mem_ok (nv_ssd s) -> mem_ok (nv_host s) -> mem_ok (nv_ssd s');
  pp_uses : uses n (nv_dma s) (nv_dma s') }.

Lemma setup_rw_dma_ok w req r used :
  let s := fw_nvme w in
  alloc_inv (nv_alloc s) used -> shapes_ok (nv_alloc s) -> get_obj req (nv_alloc s) = Ok (OIo r) ->
  prp_idle (nv_prp s) -> ready_for 1 (nv_dma s) -> rw_ok (nv_host s) (rq_scmd r) ->
  exists d a' pw, setup_rw_dma cf req w = Ok (set_nvme (set_alloc a' (set_prp pw s)) w)
    /\ put_at req (set_req_dma d r) used (nv_alloc s) a'
    /\ dma_set (nv_host s) (rq_scmd r) d /\ prp_step 1 s (set_prp pw s).
Proof using Hcf.
  intros s Hinv Hsh Ho Hi Hr [Hn Hv Hc]. destruct (rw_len_bounds (rq_scmd r) Hn) as (El & Hlen & _).
  pose proof (Hsh _ _ Ho) as [Hs1 Hs2 Hs3]. change (2 ^ 20) with 1048576 in Hlen.
  unfold setup_rw_dma. rewrite (get_io_ok _ _ _ Ho). cbn [obind]. fold s.
  rewrite io_rw_len.
  rewrite (u32_id (rw_len (rq_scmd r))) by lia. fold (rw_prp1 (rq_scmd r)) (rw_prp2 (rq_scmd r)).
  set (d0 := set_data_size (rw_len (rq_scmd r)) (set_dma_complete false (rq_dma r))).
  assert (Hp1 : fits 64 (rw_prp1 (rq_scmd r))) by (apply (field_fits NvmeIOSCmd 6); [auto with cint|reflexivity]).
  assert (Hp2 : fits 64 (rw_prp2 (rq_scmd r))) by (apply (field_fits NvmeIOSCmd 7); [auto with cint|reflexivity]).
  destruct (decode_prp_ok (cf_prp cf) (co_bits _ Hcf) (rw_prp1 (rq_scmd r)) (rw_prp2 (rq_scmd r)) d0 (nv_prp s) Hi Hr Hp1 Hp2)
    as (d & pw & E & (Hi' & Hout & Hhost & Hmem) & Hd);
    [cbn [d0 set_data_size data_size]; lia|done|done|apply Hcf|apply Hcf|].
  change (data_size d0) with (rw_len (rq_scmd r)) in *. change (hi_host (dw_hif (pw_world (nv_prp s)))) with (nv_host s) in *.
  rewrite Hv in E. specialize (Hd Hv). rewrite E. cbn [obind].
  destruct (put_io_ok req r (set_req_dma d r) used (set_nvme (set_prp pw s) w) Hinv Hsh Ho eq_refl)
    as (a' & -> & Hput).
  { split; cbn [set_req_dma rq_dma rq_meta_lpn rq_ccmd_dw0]; try done. by rewrite (dc_length _ _ _ _ _ _ Hd). }
  exists d, a', pw. split; [done|]. split; [done|]. split.
  - split; [by rewrite (dc_length _ _ _ _ _ _ Hd)|exact (dc_n_ops _ _ _ _ _ _ Hd)|exact (dc_segs _ _ _ _ _ _ Hd)].
  - split; try done.
    + intros a Ha. apply Hout. unfold prp_count in Hc.
      pose proof (pages_of_nonneg (hostMemPageSize (cf_prp cf)) (prp_rest (cf_prp cf) (rw_prp1 (rq_scmd r)) (rw_len (rq_scmd r)))).
      lia.
    + exact (decode_prp_uses (cf_prp cf) _ _ _ _ _ _ _ (co_bits _ Hcf) Hi E).
Qed.

(** *** The transfer with its buffer *)

Lemma entries_segs n ix l l' : map seg_of l' = map seg_of l -> entries n ix l' = entries n ix l.
Proof. intros E. unfold entries. by rewrite <- !firstn_map, <- !skipn_map, E. Qed.

(** [d] once the page buffer of [b] has been given to it. *)
Definition with_buffer (b : buffer_mgt) (l : list dma_op_t) (d : dma_t) : dma_t :=
  set_dma_list l (set_buffer_addr (page_buffer b) d).

Lemma with_buffer_ok host c d b l n :
  mem_ok host -> rw_ok host c -> dma_set host c d -> page_buffer_ok cf (page_buffer b) ->
  addressed (cf_geom cf) b 0 n (dma_list d) l ->
  io_entries (with_buffer b l d) = prp_segs (cf_prp cf) host (rw_prp1 c) (rw_prp2 c) (rw_len c)
  /\ dma_ok (with_buffer b l d) (io_entries (with_buffer b l d))
  /\ total (io_entries (with_buffer b l d)) = rw_len c
  /\ (length (io_entries (with_buffer b l d)) <= 16)%nat
  /\ length (dma_list (with_buffer b l d)) = 16%nat.
Proof using Hcf.
  intros Hm [Hn Hv Hc] [D1 D2 D3] [P1 P2 _ _] Ha. destruct (rw_len_bounds c Hn) as (El & Hlen & Hmax).
  change (2 ^ 20) with 1048576 in Hlen.
  pose proof (co_bits _ Hcf) as Hbits.
  assert (E : io_entries (with_buffer b l d) = prp_segs (cf_prp cf) host (rw_prp1 c) (rw_prp2 c) (rw_len c)).
  { rewrite <- D3. unfold io_entries. apply entries_segs. apply Ha. }
  assert (Hl : length (dma_list (with_buffer b l d)) = 16%nat)
    by (etransitivity; [apply Ha|done]).
  assert (Hno : 0 <= n_ops d <= 16).
  { rewrite D2. unfold prp_count in *. split; [|done].
    pose proof (page_bounds (cf_prp cf) Hbits). pose proof (prp_first_bounds (cf_prp cf) Hbits (rw_prp1 c) (rw_len c)).
    pose proof (pages_of_nonneg (hostMemPageSize (cf_prp cf)) (prp_rest (cf_prp cf) (rw_prp1 c) (rw_len c)) ltac:(lia)).
    unfold prp_rest in *. lia. }
  pose proof (prp_segs_total (cf_prp cf) Hbits host (rw_prp1 c) (rw_prp2 c) (rw_len c) ltac:(lia)) as Ht.
  split; [done|]. unfold dma_ok. rewrite E, Ht. split_and!; try done.
  - apply (prp_segs_ok (cf_prp cf) Hbits); [done| | |lia].
    + by apply (field_fits NvmeIOSCmd 6); auto with cint.
    + by apply (field_fits NvmeIOSCmd 7); auto with cint.
  - rewrite ?Hl. cbn [with_buffer set_dma_list set_buffer_addr n_ops]. lia.
  - rewrite ?Hl. cbn [with_buffer set_dma_list set_buffer_addr n_ops]. lia.
  - cbn [with_buffer set_dma_list set_buffer_addr buffer_addr]. lia.
  - rewrite <- E. unfold io_entries, entries. rewrite length_map, length_take.
    cbn [with_buffer set_dma_list set_buffer_addr n_ops]. lia.
Qed.

(** Moving the data of a write into the page buffer. *)
Lemma sync_write_ok w req r used :
  let s := fw_nvme w in
  let d := rq_dma r in
  alloc_inv (nv_alloc s) used -> shapes_ok (nv_alloc s) -> get_obj req (nv_alloc s) = Ok (OIo r) ->
  prp_idle (nv_prp s) -> dma_ok d (io_entries d) -> (length (io_entries d) <= 16)%nat -> ready_for 16 (nv_dma s) ->
  exists a' dw, let s' := set_nv_dma dw s in
    sync_write_io_dma req w = Ok (set_nvme (set_alloc a' s') w)
    /\ put_at req (set_req_dma (set_dma_complete true d) (set_stage REQ_STAGE_DMA r)) used (nv_alloc s) a'
    /\ prp_idle (nv_prp s') /\ uses 16 (nv_dma s) (nv_dma s')
    /\ (forall off, 0 <= off < total (io_entries d) ->
        nv_ssd s' (buffer_addr d + off) = nv_host s (seg_addr (io_entries d) off))
    /\ (forall a, ~ (buffer_addr d <= a < buffer_addr d + total (io_entries d)) -> nv_ssd s' a = nv_ssd s a)
    /\ (forall a, nv_host s' a = nv_host s a).
Proof.
  intros s d Hinv Hsh Ho (Hq & Hi1 & Hi2 & Hi3) Hd Hn Hr.
  destruct (write_io_ok (set_dma_complete false d) (nv_dma s) Hq Hd) as [Hp Hg].
  destruct (Hg (ready_le (length (io_entries d)) 16 _ Hn Hr)) as [dw E].
  destruct (Hp _ _ E) as (_ & Hin & Hout & Hhost & Hq').
  destruct (put_io_ok req r (set_req_dma (set_dma_complete true d) (set_stage REQ_STAGE_DMA r)) used
              (set_nvme (set_nv_dma dw s) w) Hinv Hsh Ho eq_refl) as (a' & E2 & Hput).
  { pose proof (Hsh _ _ Ho) as []. by split. }
  exists a', dw. intros s'. split.
  - unfold sync_write_io_dma, sync_io_dma. rewrite (get_io_ok _ _ _ Ho). cbn [obind]. fold s. fold d. rewrite E.
    cbn [obind]. exact E2.
  - split_and!; try done.
    pose proof (rw_io_uses _ _ _ _ _ E ltac:(by right)) as Hu. eapply uses_le; [|exact Hu].
    unfold io_entries, entries in Hn. rewrite length_map, length_take, length_drop in Hn.
    destruct Hd as (_ & Hnd & _). cbn [set_dma_complete n_ops]. lia.
Qed.

(** Moving the data of a read out of it. *)
Lemma sync_read_ok w req r used :
  let s := fw_nvme w in
  let d := rq_dma r in
  alloc_inv (nv_alloc s) used -> shapes_ok (nv_alloc s) -> get_obj req (nv_alloc s) = Ok (OIo r) ->
  prp_idle (nv_prp s) -> dma_ok d (io_entries d) -> segs_disjoint (io_entries d) ->
  (length (io_entries d) <= 16)%nat -> ready_for 16 (nv_dma s) ->
  exists a' dw, let s' := set_nv_dma dw s in
    sync_read_io_dma req w = Ok (set_nvme (set_alloc a' s') w)
    /\ put_at req (set_req_dma (set_dma_complete true d) (set_stage REQ_STAGE_DMA r)) used (nv_alloc s) a'
    /\ prp_idle (nv_prp s') /\ uses 16 (nv_dma s) (nv_dma s')
    /\ (forall off, 0 <= off < total (io_entries d) ->
        nv_host s' (seg_addr (io_entries d) off) = nv_ssd s (buffer_addr d + off))
    /\ (forall a, (forall off, 0 <= off < total (io_entries d) -> a <> seg_addr (io_entries d) off) ->
        nv_host s' a = nv_host s a)
    /\ (forall a, nv_ssd s' a = nv_ssd s a).
Proof.
  intros s d Hinv Hsh Ho (Hq & Hi1 & Hi2 & Hi3) Hd Hdis Hn Hr.
  destruct (read_io_ok (set_dma_complete false d) (nv_dma s) Hq Hd Hdis) as [Hp Hg].
  destruct (Hg (ready_le (length (io_entries d)) 16 _ Hn Hr)) as [dw E].
  destruct (Hp _ _ E) as (_ & Hin & Hout & Hssd & Hq').
  destruct (put_io_ok req r (set_req_dma (set_dma_complete true d) (set_stage REQ_STAGE_DMA r)) used
              (set_nvme (set_nv_dma dw s) w) Hinv Hsh Ho eq_refl) as (a' & E2 & Hput).
  { pose proof (Hsh _ _ Ho) as []. by split. }
  exists a', dw. intros s'. split.
  - unfold sync_read_io_dma, sync_io_dma. rewrite (get_io_ok _ _ _ Ho). cbn [obind]. fold s. fold d. rewrite E.
    cbn [obind]. exact E2.
  - split_and!; try done.
    pose proof (rw_io_uses _ _ _ _ _ E ltac:(by left)) as Hu. eapply uses_le; [|exact Hu].
    unfold io_entries, entries in Hn. rewrite length_map, length_take, length_drop in Hn.
    destruct Hd as (_ & Hnd & _). cbn [set_dma_complete n_ops]. lia.
Qed.

(** *** The completion of a request *)

Lemma staged_shapes a a' : staged a a' -> shapes_ok a -> shapes_ok a'.
Proof.
  intros Hst Hs p r' E. destruct (Hst p _ E) as (o & Ho & [<-|[st Eq]]); [by eapply Hs|].
  symmetry in Eq. apply set_common_shape in Eq as (r0 & -> & Hr). apply Hr. by eapply Hs.
Qed.

(** The only completion waiting in a queue with room is posted: the state after
    request [r] at [req] has been completed as the queue's [N]-th entry. *)
Record io_posted (N : Z) (cq : NvmeCQueue) (sq : NvmeSQueue) (req : req_ptr) (r : io_req)
  (used : list req_ptr) (s s' : nvme) : Prop := {
  ip_cq : exists cq', arr_get (nv_cqs s') (rq_cqid r) = Ok cq' /\ cq_valid (N + 1) cq'
    /\ q_contents (cq_pending cq') = [] /\ same_queue cq cq';
  ip_cqs : forall i, i <> rq_cqid r -> arr_get (nv_cqs s') i = arr_get (nv_cqs s) i;
  ip_inv : alloc_inv (nv_alloc s') used;
  ip_shapes : shapes_ok (nv_alloc s');
  ip_objs : forall p, p <> req -> get_obj p (nv_alloc s') = get_obj p (nv_alloc s);
  ip_frame : frame s s';
  ip_entry : entry_at (nv_host s') (slot_addr cq (N mod cq_size cq)) (io_entry (cq_size cq) N sq r);
  ip_host : forall a, ~ in_slot cq (N mod cq_size cq) a -> nv_host s' a = nv_host s a;
  ip_ssd : forall a, ~ (cf_ccmd_buf cf <= a < cf_ccmd_buf cf + 16) -> nv_ssd s' a = nv_ssd s a;
  ip_mem : mem_ok (nv_ssd s) -> mem_ok (nv_ssd s') /\ (mem_ok (nv_host s) -> mem_ok (nv_host s'));
  ip_quiet : quiet (nv_dma s');
  ip_uses : uses 1 (nv_dma s) (nv_dma s') }.

(** A completion queue with nothing waiting and room for one entry. *)
Record cq_ready (N : Z) (cq : NvmeCQueue) : Prop := {
  cr_valid : cq_valid N cq;
  cr_pending : q_contents (cq_pending cq) = [];
  cr_room : cq_room cq <> 0;
  cr_size : 1 < q_size (cq_pending cq) }.

Lemma enqueue_io_ok w req r sq cq N used :
  let s := fw_nvme w in
  arr_get (nv_cqs s) (rq_cqid r) = Ok cq -> cq_ready N cq -> arr_get (nv_sqs s) (rq_sqid r) = Ok sq ->
  alloc_inv (nv_alloc s) (req :: used) -> shapes_ok (nv_alloc s) -> get_obj req (nv_alloc s) = Ok (OIo r) ->
  quiet (nv_dma s) -> ready_for 1 (nv_dma s) ->
  exists s', enqueue_io cf req w = Ok (set_nvme s' w) /\ io_posted N cq sq req r used s s'.
Proof using Hcf.
  intros s Hc [Hv Hp Hroom Hsz] Hsq Hinv Hsh Ho Hq Hr. pose proof (cq_room_bounds N cq Hv) as Hrb.
  pose proof (Hsh _ _ Ho) as [_ _ Hdw].
  destruct (enqueue_posts (cf_ccmd_buf cf) (co_ccmd _ Hcf) (co_ccmd_end _ Hcf) (rq_cqid r) s cq N [] req r sq used
              Hc Hv Hp Hinv) as (s1 & s' & E1 & E2 & Hpost & _);
    [intros p Hin; by apply not_elem_of_nil in Hin|by split|done|done|done|].
  replace (Nat.min (S (length (@nil req_ptr))) (Z.to_nat (cq_room cq))) with 1%nat in Hpost by (cbn [length]; lia).
  destruct (alloc_inv_stage (nv_alloc s) (req :: used) req _ PENDING_CCMD_POST Hinv Ho)
    as (a1 & Ea & Hinv1 & Ho1 & Hoth1).
  unfold upd_req in E1. rewrite Ea in E1. injection E1 as <-.
  assert (Hst : staged (nv_alloc s) a1) by (by eapply staged_one).
  exists s'. split.
  { unfold enqueue_io. rewrite (get_io_ok _ _ _ Ho). cbn [obind]. unfold on_nvme. fold s. by rewrite E2. }
  destruct Hpost as [B1 B2 B3 B4 B4s B5 B6 B7 B8 B8m B9 B10].
  split; try done.
  - eapply staged_shapes; [exact B4s|]. by eapply staged_shapes.
  - intros p Hne. rewrite B4; [by apply Hoth1|]. intros Hin. by apply list_elem_of_singleton in Hin.
  - destruct B5. by split.
  - specialize (B6 0%nat req (set_stage PENDING_CCMD_POST r) sq ltac:(lia) eq_refl).
    rewrite Z.add_0_r in B6. apply B6. by split.
  - intros a Ha. apply B7. intros k Hk. assert (k = 0%nat) as -> by lia. by rewrite Z.add_0_r.
  - exists 1%nat. split; [lia|]. exact B10.
Qed.

(** ** The driver between two commands *)

Record drv_ok (used : list req_ptr) (s : nvme) : Prop := {
  dk_inv : alloc_inv (nv_alloc s) used;
  dk_shapes : shapes_ok (nv_alloc s);
  dk_prp : prp_idle (nv_prp s);
  dk_rbuf : buf_q_idle (nv_rbuf s);
  dk_wbuf : buf_q_idle (nv_wbuf s);
  dk_pages : length (wb_pages (wbc (nv_buffer s))) = 16%nat;
  dk_type : wb_type (wbc (nv_buffer s)) = WBC_FLUSH_REQUEST;
  dk_page_buffer : page_buffer_ok cf (page_buffer (nv_buffer s));
  dk_ssd : mem_ok (nv_ssd s);
  dk_host : mem_ok (nv_host s) }.

(** The completion entry of command [scmd], without error. *)
Definition success_entry (cq : NvmeCQueue) (N : Z) (sq : NvmeSQueue) (scmd dw0 : Z) : NvmeCCmd :=
  MkCCmd dw0 (u16 (sq_head sq)) (field NvmeIOSCmd 2 scmd) (status_phase 0 (phase_of (cq_size cq) N)).

(** From [s] to [s'] the command was completed as the [N]-th of its queue. *)
Record completed (N : Z) (cq : NvmeCQueue) (sq : NvmeSQueue) (scmd : Z) (s s' : nvme) : Prop := {
  cd_cq : exists cq', arr_get (nv_cqs s') (sq_cqid sq) = Ok cq' /\ cq_valid (N + 1) cq'
    /\ q_contents (cq_pending cq') = [] /\ same_queue cq cq';
  cd_cqs : forall i, i <> sq_cqid sq -> arr_get (nv_cqs s') i = arr_get (nv_cqs s) i;
  cd_sqs : nv_sqs s' = nv_sqs s;
  cd_entry : exists dw0, entry_at (nv_host s') (slot_addr cq (N mod cq_size cq)) (success_entry cq N sq scmd dw0) }.

Definition PAGE : Z := 2 ^ HOST_DS (cf_geom cf).

(** The pages the flush of write command [scmd] takes: logical page, address. *)
Definition cmd_pages (b : buffer_mgt) (scmd : Z) : list (Z * Z) :=
  map (fun j => (u32 (rw_slba scmd + j), page_buffer b + j * PAGE)) (seqZ 0 (rw_nlbs scmd + 1)).

Lemma mem_ok_update m m' f lo n :
  mem_ok m -> (forall off, 0 <= off < n -> fits 8 (f off)) ->
  (forall off, 0 <= off < n -> m' (lo + off) = f off) -> (forall a, ~ (lo <= a < lo + n) -> m' a = m a) -> mem_ok m'.
Proof.
  intros Hm Hf Hin Hout a. destruct (decide (lo <= a < lo + n)) as [Ha|Ha]; [|by rewrite Hout].
  replace a with (lo + (a - lo)) by lia. rewrite Hin by lia. apply Hf. lia.
Qed.

(** The address of byte [off] of the command's data in the host. *)
Definition data_addr (host : mem) (scmd off : Z) : Z :=
  prp_spec_addr (hostMemPageSize (cf_prp cf)) (rw_prp1 scmd)
    (prp_page (cf_prp cf) host (rw_prp2 scmd) (prp_rest (cf_prp cf) (rw_prp1 scmd) (rw_len scmd))) off.

(** *** Commands that agree on the members that are copied *)

Record same_cmd (c c' : Z) : Prop := {
  sc_cid : field NvmeIOSCmd 2 c' = field NvmeIOSCmd 2 c;
  sc_prp1 : rw_prp1 c' = rw_prp1 c;
  sc_prp2 : rw_prp2 c' = rw_prp2 c;
  sc_slba : rw_slba c' = rw_slba c;
  sc_nlbs : rw_nlbs c' = rw_nlbs c }.

Lemma same_cmd_copied c to : same_cmd c (copy_fields [0; 3; 4; 5; 6; 7]%nat c to).
Proof. destruct (copied_fields c to) as (? & ? & ? & ? & ?). by split. Qed.

Lemma same_cmd_len c c' : same_cmd c c' -> rw_len c' = rw_len c.
Proof. intros []. unfold rw_len. congruence. Qed.

Lemma same_cmd_rw_ok host c c' : same_cmd c c' -> rw_ok host c -> rw_ok host c'.
Proof.
  intros Hs [A1 A2 A3]. pose proof (same_cmd_len _ _ Hs) as El. destruct Hs.
  split; congruence.
Qed.

Lemma same_cmd_addr host c c' off : same_cmd c c' -> data_addr host c' off = data_addr host c off.
Proof. intros Hs. pose proof (same_cmd_len _ _ Hs) as El. destruct Hs. unfold data_addr. congruence. Qed.

(** The request of a read or write command that has just been taken. *)
Record fresh_req (sqid sqe scmd : Z) (cq : NvmeCQueue) (ty : Z) (r : io_req) : Prop := {
  fr_type : rq_type r = ty;
  fr_sqid : rq_sqid r = sqid;
  fr_cqid : rq_cqid r = cq_cqid cq;
  fr_status : rq_status r = 0;
  fr_cmd : same_cmd scmd (rq_scmd r) }.

Lemma new_rw_req_ok ty k sqid sqe scmd w used sq cq :
  let s := fw_nvme w in
  pool_of ty = Some k -> k <> PoolO -> alloc_inv (nv_alloc s) used -> shapes_ok (nv_alloc s) ->
  Z.of_nat (length (used_in k used)) < pool_size k - 1 ->
  arr_get (nv_sqs s) sqid = Ok sq -> arr_get (nv_cqs s) (sq_cqid sq) = Ok cq ->
  exists req r a', new_io_req ty sqid sqe scmd (copy_fields [0; 3; 4; 5; 6; 7]%nat scmd) w
      = Ok (req, set_nvme (set_alloc a' s) w)
    /\ put_at req r (req :: used) (nv_alloc s) a' /\ fresh_req sqid sqe scmd cq ty r
    /\ (req ∉ used) /\ ptr_pool req = k.
Proof.
  intros s Hty Hk Hinv Hsh Hroom Hsq Hcq.
  destruct (new_io_req_ok ty k sqid sqe scmd (copy_fields [0; 3; 4; 5; 6; 7]%nat scmd) w used sq cq
              Hty Hk Hinv Hsh Hroom Hsq Hcq) as (req & r0 & a' & E & Ho & Ht & Hinv' & Hsh' & Hr & Hnu & Hpk & Hoth).
  eexists req, _, a'. split; [exact E|]. split; [by split|]. split; [|done].
  split; try done. apply same_cmd_copied.
Qed.

(** From the request to its transfer: the steps of both handlers before the
    page buffer. *)
Lemma prepared_data host scmd r d b l n off :
  mem_ok host -> rw_ok host (rq_scmd r) -> same_cmd scmd (rq_scmd r) -> dma_set host (rq_scmd r) d ->
  page_buffer_ok cf (page_buffer b) -> addressed (cf_geom cf) b 0 n (dma_list d) l ->
  0 <= off < rw_len scmd ->
  seg_addr (io_entries (with_buffer b l d)) off = data_addr host scmd off.
Proof using Hcf.
  intros Hm Hrw Hs Hd Hb Ha Hoff. pose proof (same_cmd_len _ _ Hs) as El.
  destruct (with_buffer_ok host (rq_scmd r) d b l n Hm Hrw Hd Hb Ha) as (-> & _).
  rewrite prp_segs_addr; [|apply Hcf|lia]. rewrite <- (same_cmd_addr host _ _ off Hs). done.
Qed.

(** Taking the page buffer for a write of [r]. *)
Lemma take_write_buffer r b :
  length (dma_list (rq_dma r)) = 16%nat -> rw_nlbs (rq_scmd r) < 16 -> buffer_idle b ->
  exists l b', get_write_io_buffer (cf_geom cf) r b = Ok (0, set_req_dma (with_buffer b l (rq_dma r)) r, b')
    /\ addressed (cf_geom cf) b 0 (Z.to_nat (rw_nlbs (rq_scmd r) + 1)) (dma_list (rq_dma r)) l
    /\ page_buffer_inuse b' = true /\ page_buffer b' = page_buffer b
    /\ wb_num_program_pgs (wbc b') = rw_nlbs (rq_scmd r) + 1 /\ length (wb_pages (wbc b')) = 16%nat
    /\ wb_type (wbc b') = wb_type (wbc b)
    /\ (page_buffer_ok cf (page_buffer b) -> wbc_list (wb_pages (wbc b')) = cmd_pages b (rq_scmd r)).
Proof using Hcf.
  intros Hl Hn (Hu & Hp & Hinv). pose proof (rw_nlbs_fits (rq_scmd r)) as Hf. unfold fits in Hf.
  pose proof (write_buffer_ok (cf_geom cf) r b Hl ltac:(unfold rw_nlbs, io_nlbs in *; lia) Hp) as Hw.
  rewrite Hu in Hw. destruct Hw as (l & b' & E & Ha & A1 & A2 & A3 & A4 & A5 & A6).
  exists l, b'. rewrite <- io_rw_nlbs. do 7 (split; [assumption|]). intros [P1 P2 _ _]. rewrite (A6 Hinv). unfold request_pages, cmd_pages.
  rewrite <- io_rw_nlbs. apply map_ext_in. intros j Hj%list_elem_of_In%elem_of_seqZ.
  unfold buffer_page. rewrite Z.shiftl_mul_pow2 by (pose proof (co_ds _ Hcf); lia).
  fold PAGE. fold PAGE in P2. assert (0 < PAGE) by (apply Z.pow_pos_nonneg; pose proof (co_ds _ Hcf); lia).
  assert (0 <= j * PAGE <= 15 * PAGE) by (split; [|apply Z.mul_le_mono_nonneg_r]; unfold rw_nlbs, io_nlbs in *; nia).
  rewrite (u32_id (page_buffer b + _)) by lia. unfold rw_slba, io_slba. reflexivity.
Qed.

(** ** A write command *)

(** After the command: it is completed, the page buffer holds the data, the
    cache request describes its pages and the FTL has been told to flush it. *)
Record write_done (n : nat) (N : Z) (cq : NvmeCQueue) (sq : NvmeSQueue) (scmd : Z) (used : list req_ptr)
  (s s' : nvme) : Prop := {
  wd_completed : completed N cq sq scmd s s';
  wd_drv : drv_ok used s';
  wd_inuse : page_buffer_inuse (nv_buffer s') = true;
  wd_buffer : page_buffer (nv_buffer s') = page_buffer (nv_buffer s);
  wd_pages : wbc_list (wb_pages (wbc (nv_buffer s'))) = cmd_pages (nv_buffer s) scmd;
  wd_num : wb_num_program_pgs (wbc (nv_buffer s')) = rw_nlbs scmd + 1;
  wd_data : forall off, 0 <= off < rw_len scmd ->
    nv_ssd s' (page_buffer (nv_buffer s) + off) = nv_host s (data_addr (nv_host s) scmd off);
  wd_kernel : kernel_push FTL_MODULE_IN_Q (ObjEntry wbc_addr WBC_FLUSH_REQUEST) (nv_kernel s) (nv_kernel s');
  wd_host : forall a, ~ in_slot cq (N mod cq_size cq) a -> nv_host s' a = nv_host s a;
  wd_uses : uses n (nv_dma s) (nv_dma s') }.

(** The queues of a command and their completion queue. *)
Record queues_ok (N : Z) (cq : NvmeCQueue) (sq : NvmeSQueue) (sqid : Z) (s : nvme) : Prop := {
  qo_sq : arr_get (nv_sqs s) sqid = Ok sq;
  qo_cq : arr_get (nv_cqs s) (sq_cqid sq) = Ok cq;
  qo_cqid : cq_cqid cq = sq_cqid sq;
  qo_ready : cq_ready N cq }.

Lemma success_entry_eq cq N sq scmd sqid sqe ty r :
  fresh_req sqid sqe scmd cq ty r -> io_entry (cq_size cq) N sq r = success_entry cq N sq scmd (rq_ccmd_dw0 r).
Proof.
  intros [F1 F2 F3 F4 [F5 _ _ _ _]]. unfold io_entry, success_entry, io_cid. by rewrite F5, F4.
Qed.


(** One round of the second step, for the request at the head. *)
Lemma write_step_ok f w req r scmd sqid sqe used sq cq N q2 :
  let s := fw_nvme w in
  alloc_inv (nv_alloc s) (req :: used) -> shapes_ok (nv_alloc s) -> get_obj req (nv_alloc s) = Ok (OIo r) ->
  fresh_req sqid sqe scmd cq WRITE_IO_REQUEST r -> dma_set (nv_host s) (rq_scmd r) (rq_dma r) ->
  rw_ok (nv_host s) scmd -> prp_idle (nv_prp s) -> buf_q_idle (nv_rbuf s) ->
  bq_empty (nv_wbuf s) = false -> arr_get (bq_objs (nv_wbuf s)) (bq_head (nv_wbuf s)) = Ok req ->
  pop_q (nv_wbuf s) = Ok q2 -> buf_q_idle q2 -> buffer_idle (nv_buffer s) ->
  wb_type (wbc (nv_buffer s)) = WBC_FLUSH_REQUEST -> page_buffer_ok cf (page_buffer (nv_buffer s)) ->
  mem_ok (nv_ssd s) -> mem_ok (nv_host s) -> queues_ok N cq sq sqid s ->
  queue_ok (nv_kernel s) FTL_MODULE_IN_Q -> (length (queue_contents (nv_kernel s) FTL_MODULE_IN_Q) < 255)%nat ->
  ready_for 17 (nv_dma s) ->
  exists s', process_write_ios_step_2 cf (S (S f)) w = Ok (set_nvme s' w) /\ write_done 17 N cq sq scmd used s s'.
Proof using Hcf.
  intros s Hinv Hsh Ho Hfr Hds Hrw Hi Hrq Hne Hhead Hpop Hq2 Hbi Hwt Hpb Hms Hmh [Hsq Hcq Hcid Hcr] Hkq Hkl Hready.
  pose proof Hfr as [F1 F2 F3 F4 Fc]. pose proof (same_cmd_rw_ok _ _ _ Fc Hrw) as Hrw'.
  pose proof (same_cmd_len _ _ Fc) as El. destruct (rw_len_bounds _ (ro_nlbs _ _ Hrw)) as (_ & Hlen & Hmax).
  destruct (take_write_buffer r (nv_buffer s) (ds_length _ _ _ Hds) (ro_nlbs _ _ Hrw') Hbi)
    as (l & b' & Eb & Hal & B1 & B2 & B3 & B4 & B5 & B6).
  set (d := with_buffer (nv_buffer s) l (rq_dma r)) in *.
  destruct (with_buffer_ok _ _ _ _ _ _ Hmh Hrw' Hds Hpb Hal) as (_ & Hdok & Htot & Hdl & Hll). fold d in Hdok, Htot, Hdl, Hll.
  set (r1 := set_req_dma d r) in *.
  cbn [process_write_ios_step_2]. fold s. rewrite Hne, Hhead. cbn [obind].
  rewrite (get_io_ok _ _ _ Ho). cbn [obind]. rewrite Eb. cbn [obind]. change (0 =? -1) with false. cbv iota.
  destruct (put_io_ok req r r1 (req :: used) (set_nvme (set_nv_buffer b' s) w) Hinv Hsh Ho eq_refl)
    as (a1 & -> & Ha1); [pose proof (Hsh _ _ Ho) as []; by split|].
  cbn [obind]. set (s1 := set_alloc a1 (set_nv_buffer b' s)).
  rewrite !fw_nvme_set, !set_nvme_twice. fold s1.
  assert (Ew : on_wbuf pop_q (set_nvme s1 w) = Ok (set_nvme (set_bufs (nv_rbuf s) q2 s1) w))
    by (unfold on_wbuf; rewrite fw_nvme_set; change (nv_wbuf s1) with (nv_wbuf s); by rewrite Hpop).
  rewrite Ew. cbn [obind].
  set (s2 := set_bufs (nv_rbuf s) q2 s1).
  destruct (sync_write_ok (set_nvme s2 w) req r1 (req :: used) (pa_inv _ _ _ _ _ Ha1) (pa_shapes _ _ _ _ _ Ha1)
              (pa_get _ _ _ _ _ Ha1) Hi Hdok Hdl ltac:(by apply (ready_le 16 17); [lia|]))
    as (a2 & dw & -> & Ha2 & Hi2 & Hu2 & Hin2 & Hout2 & Hhost2).
  cbn [obind]. rewrite !fw_nvme_set, !set_nvme_twice in *. set (s3 := set_alloc a2 (set_nv_dma dw s2)).
  destruct (push_ok FTL_MODULE_IN_Q wbc_addr WBC_FLUSH_REQUEST (nv_kernel s) Hkq Hkl) as (k' & Ek & Hk').
  assert (Ew3 : on_kernel (free_write_io_buffer wbc_addr) (set_nvme s3 w)
                = Ok (set_nvme (set_nv_kernel k' s3) w)).
  { unfold on_kernel, free_write_io_buffer, flush_all_wbc, sys_push_to_ftl.
    rewrite fw_nvme_set. change (nv_kernel s3) with (nv_kernel s). by rewrite Ek. }
  rewrite Ew3. cbn [obind]. set (s4 := set_nv_kernel k' s3).
  set (r2 := set_req_dma (set_dma_complete true (rq_dma r1)) (set_stage REQ_STAGE_DMA r1)) in *.
  destruct (enqueue_io_ok (set_nvme s4 w) req r2 sq cq N used) as (s' & -> & Hip).
  { cbn [set_nvme fw_nvme]. change (rq_cqid r2) with (rq_cqid r). by rewrite F3, Hcid. }
  { done. }
  { change (rq_sqid r2) with (rq_sqid r). by rewrite F2. }
  { apply Ha2. }
  { apply Ha2. }
  { apply Ha2. }
  { apply Hi2. }
  { exact (uses_ready 16 1 _ _ Hu2 Hready). }
  cbn [obind]. exists s'. rewrite fw_nvme_set in Hip. destruct Hip as [I1 I2 I3 I4 I5 I6 I7 I8 I9 I10 I11 I12].
  pose proof I6 as [G1 G2 G3 [G4 G5] G6 G7 G8 G9].
  cbn [process_write_ios_step_2]. rewrite fw_nvme_set, G5. change (nv_wbuf s4) with q2.
  rewrite (bi_empty _ Hq2), !set_nvme_twice. split; [done|].
  assert (Hfr2 : fresh_req sqid sqe scmd cq WRITE_IO_REQUEST r2) by (by split).
  change (rq_cqid r2) with (rq_cqid r) in I1, I2. rewrite F3, Hcid in I1, I2.
  rewrite (success_entry_eq _ _ _ _ _ _ _ _ Hfr2) in I7.
  assert (Hms4 : mem_ok (nv_ssd s4)).
  { eapply (mem_ok_update (nv_ssd s) _ _ (page_buffer (nv_buffer s)) (total (io_entries d)));
      [exact Hms| |exact Hin2|exact Hout2]. intros off _. apply Hmh. }
  destruct (I10 Hms4) as [Hms' Hmh'].
  change (rq_dma r1) with d in Hin2, Hout2. change (buffer_addr d) with (page_buffer (nv_buffer s)) in Hin2, Hout2.
  rewrite Htot, El in Hin2, Hout2. pose proof Hpb as [P1 P2 P3 P4].
  assert (Hh4 : forall a, nv_host s4 a = nv_host s a) by exact Hhost2.
  assert (Hd4 : forall off, 0 <= off < rw_len scmd ->
    nv_ssd s4 (page_buffer (nv_buffer s) + off) = nv_host s (seg_addr (io_entries d) off)) by exact Hin2.
  split.
  - split; try done. by exists (rq_ccmd_dw0 r2).
  - split; try done.
    + destruct Hi2 as (_ & ?). split; [done|]. by rewrite G9.
    + by rewrite G4.
    + by rewrite G5.
    + by rewrite G6.
    + rewrite G6. change (nv_buffer s4) with b'. by rewrite B5.
    + rewrite G6. change (nv_buffer s4) with b'. by rewrite B2.
    + apply Hmh'. intros a. rewrite Hh4. apply Hmh.
  - by rewrite G6.
  - rewrite G6. exact B2.
  - rewrite G6. change (nv_buffer s4) with b'. rewrite (B6 Hpb). unfold cmd_pages.
    by rewrite (sc_slba _ _ Fc), (sc_nlbs _ _ Fc).
  - rewrite G6. change (nv_buffer s4) with b'. by rewrite B3, (sc_nlbs _ _ Fc).
  - intros off Hoff. rewrite I9 by lia. rewrite Hd4 by lia. f_equal.
    by eapply prepared_data.
  - by rewrite G7.
  - intros a Ha. rewrite I8 by done. apply Hh4.
  - exact (uses_trans 16 1 _ _ _ Hu2 I12).
Qed.

(** An idle driver and its queue to the FTL. *)
Record idle_ok (used : list req_ptr) (s : nvme) : Prop := {
  io_drv : drv_ok used s;
  io_buffer : buffer_idle (nv_buffer s);
  io_queue : queue_ok (nv_kernel s) FTL_MODULE_IN_Q;
  io_queue_len : (length (queue_contents (nv_kernel s) FTL_MODULE_IN_Q) < 255)%nat }.

(** From the command to the transfer in the request's pending list. *)
Lemma setup_req_ok w req r used :
  let s := fw_nvme w in
  put_at req r (req :: used) (nv_alloc s) (nv_alloc s) -> prp_idle (nv_prp s) -> ready_for 1 (nv_dma s) ->
  rw_ok (nv_host s) (rq_scmd r) ->
  exists d a' pw, let s' := set_alloc a' (set_prp pw s) in
    setup_rw_dma cf req w = Ok (set_nvme s' w)
    /\ put_at req (set_req_dma d r) (req :: used) (nv_alloc s) a'
    /\ dma_set (nv_host s') (rq_scmd r) d /\ prp_step 1 s s' /\ rw_ok (nv_host s') (rq_scmd r)
    /\ (forall c, rw_ok (nv_host s) c -> rw_ok (nv_host s') c)
    /\ (forall c off, data_addr (nv_host s') c off = data_addr (nv_host s) c off).
Proof using Hcf.
  intros s [Hinv Hsh Ho _] Hi Hr Hrw.
  destruct (setup_rw_dma_ok w req r (req :: used) Hinv Hsh Ho Hi Hr Hrw) as (d & a' & pw & E & Hput & Hds & Hp).
  exists d, a', pw. intros s'.
  assert (Hhost : forall a, nv_host s' a = nv_host s a) by apply Hp.
  assert (Hpage : forall p2 rest j, prp_page (cf_prp cf) (nv_host s') p2 rest j = prp_page (cf_prp cf) (nv_host s) p2 rest j).
  { intros. unfold prp_page. destruct (_ <=? _); [done|]. apply load_le_ext. intros. apply Hhost. }
  assert (Hrw2 : forall c, rw_ok (nv_host s) c -> rw_ok (nv_host s') c).
  { intros c [A1 A2 A3]. split; [done| |done]. rewrite <- A2. unfold prp_valid. f_equal. f_equal. f_equal.
    apply forallb_eq. intros j. by rewrite Hpage. }
  split; [exact E|]. split; [done|]. split.
  - destruct Hds as [D1 D2 D3]. split; try done. rewrite D3. unfold prp_segs. f_equal.
    apply page_entries_ext. intros. by rewrite Hpage.
  - split; [destruct Hp; by split|]. split; [by apply Hrw2|]. split; [done|].
    intros c off. unfold data_addr, prp_spec_addr. destruct (_ <? _); [done|]. by rewrite Hpage.
Qed.

Lemma process_write_ok w sqid sqe scmd used sq cq N :
  let s := fw_nvme w in
  idle_ok used s -> queues_ok N cq sq sqid s -> rw_ok (nv_host s) scmd -> verify_rw_param cf scmd <> -1 ->
  Z.of_nat (length (used_in PoolW used)) < W_SIZE - 1 -> ready_for 18 (nv_dma s) ->
  exists s', process_write_io cf sqid sqe scmd w = Ok (set_nvme s' w) /\ write_done 18 N cq sq scmd used s s'.
Proof using Hcf.
  intros s [[Hinv Hsh Hi Hrb Hwb Hpg Hty Hpb Hms Hmh] Hbi Hkq Hkl] Hq Hrw Hver Hroom Hready.
  pose proof Hq as [Hsq Hcq Hcid Hcr].
  destruct (new_rw_req_ok WRITE_IO_REQUEST PoolW sqid sqe scmd w used sq cq eq_refl ltac:(done) Hinv Hsh Hroom Hsq Hcq)
    as (req & r & a1 & E1 & Hput1 & Hfr & Hnu & _).
  unfold process_write_io. rewrite E1. cbn [obind]. fold s. apply Z.eqb_neq in Hver. rewrite Hver.
  set (s1 := set_alloc a1 s).
  assert (Hp1 : put_at req r (req :: used) (nv_alloc s1) (nv_alloc s1)) by (destruct Hput1; by split).
  destruct (setup_req_ok (set_nvme s1 w) req r used Hp1 Hi ltac:(by apply (ready_le 1 18); [lia|])
              (same_cmd_rw_ok _ _ _ (fr_cmd _ _ _ _ _ _ Hfr) Hrw)) as (d & a2 & pw & H2).
  cbv zeta in H2. rewrite !fw_nvme_set, !set_nvme_twice in H2. destruct H2 as (-> & Hput2 & Hds & Hps & Hrw2 & Hrwc & Hdac).
  cbn [obind]. set (s2 := set_alloc a2 (set_prp pw s1)) in *. set (r1 := set_req_dma d r) in *.
  destruct (push_pop_idle req (nv_wbuf s) Hwb) as (q1 & q2 & Ep & Hne & Hhead & Hpop & Hq2).
  assert (E3 : on_wbuf (push_buf_q req) (set_nvme s2 w) = Ok (set_nvme (set_bufs (nv_rbuf s) q1 s2) w))
    by (unfold on_wbuf; rewrite fw_nvme_set; change (nv_wbuf s2) with (nv_wbuf s); by rewrite Ep).
  rewrite E3. cbn [obind]. set (s3 := set_bufs (nv_rbuf s) q1 s2). destruct Hps as [S1 S2 S3 S4 S5].
  change buf_fuel with (S (S 127)).
  destruct (write_step_ok 127 (set_nvme s3 w) req r1 scmd sqid sqe used sq cq N q2) as (s' & E & Hd);
    try done; rewrite ?fw_nvme_set; try apply Hput2; try done.
  - destruct Hfr. by split.
  - by apply Hrwc.
  - apply S4; done.
  - intros a. change (fits 8 (nv_host s2 a)). rewrite S2. apply Hmh.
  - exact (uses_ready 1 17 _ _ S5 Hready).
  - exists s'. split; [exact E|]. rewrite fw_nvme_set in Hd. destruct Hd as [W1 W2 W3 W4 W5 W6 W7 W8 W9 W10].
    split; try done.
    + destruct W1. by split.
    + intros off Hoff. etransitivity; [exact (W7 off Hoff)|]. change (nv_host s3) with (nv_host s2).
      rewrite Hdac. apply S2.
    + intros a Ha. rewrite (W9 a Ha). apply S2.
    + exact (uses_trans 1 17 _ _ _ S5 W10).
Qed.

(** ** A read command *)

(** The pieces of the command's data in the host. *)
Definition cmd_segs (host : mem) (scmd : Z) : list (Z * Z) :=
  prp_segs (cf_prp cf) host (rw_prp1 scmd) (rw_prp2 scmd) (rw_len scmd).

Lemma same_cmd_segs host c c' : same_cmd c c' -> cmd_segs host c' = cmd_segs host c.
Proof. intros Hs. pose proof (same_cmd_len _ _ Hs) as El. destruct Hs. unfold cmd_segs. congruence. Qed.

Lemma cmd_segs_host host host' c : (forall a, host' a = host a) -> cmd_segs host' c = cmd_segs host c.
Proof.
  intros E. unfold cmd_segs, prp_segs. f_equal. apply page_entries_ext. intros.
  unfold prp_page. destruct (_ <=? _); [done|]. apply load_le_ext. intros. apply E.
Qed.

(** The transfer of the read: the host addresses of [scmd] by the lists in
    [host], from the page buffer at [buf]. *)
Record transfer_ok (host : mem) (scmd buf : Z) (d : dma_t) : Prop := {
  to_dma : dma_ok d (io_entries d);
  to_total : total (io_entries d) = rw_len scmd;
  to_length : (length (io_entries d) <= 16)%nat;
  to_addr : forall off, 0 <= off < rw_len scmd -> seg_addr (io_entries d) off = data_addr host scmd off;
  to_buffer : buffer_addr d = buf;
  to_segs : io_entries d = cmd_segs host scmd }.

(** The read has the page buffer and waits for the FTL. *)
Record read_started (n : nat) (scmd sqid sqe : Z) (cq : NvmeCQueue) (req : req_ptr) (r : io_req)
  (used : list req_ptr) (s s' : nvme) : Prop := {
  rs_obj : get_obj req (nv_alloc s') = Ok (OIo r);
  rs_fresh : fresh_req sqid sqe scmd cq READ_IO_REQUEST r;
  rs_transfer : transfer_ok (nv_host s) scmd (page_buffer (nv_buffer s)) (rq_dma r);
  rs_drv : drv_ok (req :: used) s';
  rs_pool : ptr_pool req = PoolR;
  rs_buffer : nv_buffer s' = set_inuse true (nv_buffer s);
  rs_sqs : nv_sqs s' = nv_sqs s;
  rs_cqs : nv_cqs s' = nv_cqs s;
  rs_kernel : kernel_push FTL_MODULE_IN_Q (ObjEntry (req_addr req) READ_IO_REQUEST) (nv_kernel s) (nv_kernel s');
  rs_host : forall a, nv_host s' a = nv_host s a;
  rs_uses : uses n (nv_dma s) (nv_dma s') }.

Lemma take_read_buffer r b :
  length (dma_list (rq_dma r)) = 16%nat -> rw_nlbs (rq_scmd r) < 16 -> page_buffer_inuse b = false ->
  exists l, get_read_io_buffer (cf_geom cf) r b = Ok (0, set_req_dma (with_buffer b l (rq_dma r)) r, set_inuse true b)
    /\ addressed (cf_geom cf) b 0 (Z.to_nat (rw_nlbs (rq_scmd r) + 1)) (dma_list (rq_dma r)) l.
Proof.
  intros Hl Hn Hu. pose proof (rw_nlbs_fits (rq_scmd r)) as Hf. unfold fits in Hf. rewrite <- io_rw_nlbs in *.
  unfold get_read_io_buffer. rewrite Hu.
  destruct (read_pages_loop_spec (cf_geom cf) b (Z.to_nat (io_nlbs r + 1)) 0 (dma_list (rq_dma r)))
    as (l & El & Ha); [lia|lia|].
  exists l. split; [|exact Ha]. cbn [set_buffer_addr dma_list]. rewrite El. reflexivity.
Qed.

Lemma read_step_ok f w req r scmd sqid sqe used cq q2 :
  let s := fw_nvme w in
  alloc_inv (nv_alloc s) (req :: used) -> shapes_ok (nv_alloc s) -> get_obj req (nv_alloc s) = Ok (OIo r) ->
  ptr_pool req = PoolR ->
  fresh_req sqid sqe scmd cq READ_IO_REQUEST r -> dma_set (nv_host s) (rq_scmd r) (rq_dma r) ->
  rw_ok (nv_host s) scmd -> prp_idle (nv_prp s) -> buf_q_idle (nv_wbuf s) ->
  bq_empty (nv_rbuf s) = false -> arr_get (bq_objs (nv_rbuf s)) (bq_head (nv_rbuf s)) = Ok req ->
  pop_q (nv_rbuf s) = Ok q2 -> buf_q_idle q2 -> buffer_idle (nv_buffer s) ->
  wb_type (wbc (nv_buffer s)) = WBC_FLUSH_REQUEST -> page_buffer_ok cf (page_buffer (nv_buffer s)) ->
  mem_ok (nv_ssd s) -> mem_ok (nv_host s) ->
  queue_ok (nv_kernel s) FTL_MODULE_IN_Q -> (length (queue_contents (nv_kernel s) FTL_MODULE_IN_Q) < 255)%nat ->
  exists r' s', process_read_ios_step_2 cf (S (S f)) w = Ok (set_nvme s' w)
    /\ read_started 0 scmd sqid sqe cq req r' used s s'.
Proof using Hcf.
  intros s Hinv Hsh Ho Hpool Hfr Hds Hrw Hi Hwq Hne Hhead Hpop Hq2 (Hbu & Hbl & Hbv) Hwt Hpb Hms Hmh Hkq Hkl.
  pose proof Hfr as [F1 F2 F3 F4 Fc]. pose proof (same_cmd_rw_ok _ _ _ Fc Hrw) as Hrw'.
  pose proof (same_cmd_len _ _ Fc) as El.
  destruct (take_read_buffer r (nv_buffer s) (ds_length _ _ _ Hds) (ro_nlbs _ _ Hrw') Hbu) as (l & Eb & Hal).
  set (d := with_buffer (nv_buffer s) l (rq_dma r)) in *.
  destruct (with_buffer_ok _ _ _ _ _ _ Hmh Hrw' Hds Hpb Hal) as (Hsegs & Hdok & Htot & Hdl & Hll).
  fold d in Hsegs, Hdok, Htot, Hdl, Hll.
  set (r1 := set_req_dma d r) in *.
  cbn [process_read_ios_step_2]. fold s. rewrite Hne, Hhead. cbn [obind].
  rewrite (get_io_ok _ _ _ Ho). cbn [obind]. rewrite Eb. cbn [obind]. change (0 =? -1) with false. cbv iota.
  set (b' := set_inuse true (nv_buffer s)).
  destruct (put_io_ok req r r1 (req :: used) (set_nvme (set_nv_buffer b' s) w) Hinv Hsh Ho eq_refl)
    as (a1 & -> & Ha1); [pose proof (Hsh _ _ Ho) as []; by split|].
  cbn [obind]. set (s1 := set_alloc a1 (set_nv_buffer b' s)). rewrite !fw_nvme_set, !set_nvme_twice. fold s1.
  assert (Ew : on_rbuf pop_q (set_nvme s1 w) = Ok (set_nvme (set_bufs q2 (nv_wbuf s) s1) w))
    by (unfold on_rbuf; rewrite fw_nvme_set; change (nv_rbuf s1) with (nv_rbuf s); by rewrite Hpop).
  rewrite Ew. cbn [obind]. set (s2 := set_bufs q2 (nv_wbuf s) s1).
  destruct (push_ok FTL_MODULE_IN_Q (req_addr req) READ_IO_REQUEST (nv_kernel s) Hkq Hkl) as (k' & Ek & Hk').
  assert (Ew2 : push_to_ftl (req_addr req) READ_IO_REQUEST (set_nvme s2 w) = Ok (set_nvme (set_nv_kernel k' s2) w)).
  { unfold push_to_ftl, on_kernel, sys_push_to_ftl. rewrite fw_nvme_set.
    change (nv_kernel s2) with (nv_kernel s). by rewrite Ek. }
  rewrite Ew2. cbn [obind]. exists r1, (set_nv_kernel k' s2).
  split; [rewrite fw_nvme_set; change (nv_rbuf (set_nv_kernel k' s2)) with q2; by rewrite (bi_empty _ Hq2)|].
  destruct Ha1 as [P1 P2 P3 P4]. split; try done.
  - split; try done; [change (total (io_entries d) = rw_len scmd); by rewrite Htot| |].
    + intros off Hoff. by eapply prepared_data.
    + change (io_entries d = cmd_segs (nv_host s) scmd). rewrite Hsegs. by apply same_cmd_segs.
  - exists 0%nat. split; [lia|]. by rewrite drop_0.
Qed.

Lemma process_read_ok w sqid sqe scmd used sq cq N :
  let s := fw_nvme w in
  idle_ok used s -> queues_ok N cq sq sqid s -> rw_ok (nv_host s) scmd -> verify_rw_param cf scmd <> -1 ->
  Z.of_nat (length (used_in PoolR used)) < R_SIZE - 1 -> ready_for 1 (nv_dma s) ->
  exists req r s', process_read_io cf sqid sqe scmd w = Ok (set_nvme s' w)
    /\ read_started 1 scmd sqid sqe cq req r used s s'.
Proof using Hcf.
  intros s [[Hinv Hsh Hi Hrb Hwb Hpg Hty Hpb Hms Hmh] Hbi Hkq Hkl] Hq Hrw Hver Hroom Hready.
  pose proof Hq as [Hsq Hcq Hcid Hcr].
  destruct (new_rw_req_ok READ_IO_REQUEST PoolR sqid sqe scmd w used sq cq eq_refl ltac:(done) Hinv Hsh Hroom Hsq Hcq)
    as (req & r & a1 & E1 & Hput1 & Hfr & Hnu & Hpool).
  unfold process_read_io. rewrite E1. cbn [obind]. fold s. apply Z.eqb_neq in Hver. rewrite Hver.
  set (s1 := set_alloc a1 s). destruct Hput1 as [P1 P2 P3 P4].
  rewrite (get_io_ok req r (set_nvme s1 w) P3). cbn [obind].
  destruct (put_io_ok req r (set_nand_io_complete false r) (req :: used) (set_nvme s1 w) P1 P2 P3 eq_refl)
    as (a2 & -> & Hput2); [pose proof (P2 _ _ P3) as []; by split|].
  cbn [obind]. rewrite !fw_nvme_set, !set_nvme_twice in *. set (s2 := set_alloc a2 s1).
  set (r2 := set_nand_io_complete false r) in *.
  assert (Hfr2 : fresh_req sqid sqe scmd cq READ_IO_REQUEST r2) by (destruct Hfr; by split).
  assert (Hp2 : put_at req r2 (req :: used) (nv_alloc s2) (nv_alloc s2)) by (destruct Hput2; by split).
  destruct (setup_req_ok (set_nvme s2 w) req r2 used Hp2 Hi Hready
              (same_cmd_rw_ok _ _ _ (fr_cmd _ _ _ _ _ _ Hfr2) Hrw)) as (d & a3 & pw & H3).
  cbv zeta in H3. rewrite !fw_nvme_set, !set_nvme_twice in H3. destruct H3 as (-> & Hput3 & Hds & Hps & Hrw3 & Hrwc & Hdac).
  cbn [obind]. set (s3 := set_alloc a3 (set_prp pw s2)) in *. set (r3 := set_req_dma d r2) in *.
  destruct (push_pop_idle req (nv_rbuf s) Hrb) as (q1 & q2 & Ep & Hne & Hhead & Hpop & Hq2).
  assert (E3 : on_rbuf (push_buf_q req) (set_nvme s3 w) = Ok (set_nvme (set_bufs q1 (nv_wbuf s) s3) w))
    by (unfold on_rbuf; rewrite fw_nvme_set; change (nv_rbuf s3) with (nv_rbuf s); by rewrite Ep).
  rewrite E3. cbn [obind]. set (s4 := set_bufs q1 (nv_wbuf s) s3). destruct Hps as [S1 S2 S3 S4 S5].
  change buf_fuel with (S (S 127)).
  destruct (read_step_ok 127 (set_nvme s4 w) req r3 scmd sqid sqe used cq q2) as (r' & s' & E & Hd);
    try done; rewrite ?fw_nvme_set; try apply Hput3; try done.
  - destruct Hfr2. by split.
  - by apply Hrwc.
  - apply S4; done.
  - intros a. change (fits 8 (nv_host s3 a)). rewrite S2. apply Hmh.
  - exists req, r', s'. split; [exact E|]. rewrite fw_nvme_set in Hd. destruct Hd as [W1 W2 W3 W4 W5 W6 W7 W8 W9 W10 W11].
    split; try done.
    + destruct W3 as [T1 T2 T3 T4 T5 T6]. split; try done; [intros off Hoff; rewrite (T4 off Hoff); apply Hdac|].
      rewrite T6. by apply cmd_segs_host.
    + intros a. etransitivity; [apply W10|]. apply S2.
    + exact (uses_trans 1 0 _ _ _ S5 W11).
Qed.

End rw.

(** ** The FTL has finished *)

Section finished.
Context `{DmaEngines} `{MemoryViews} `{Addresses} (cf : fw_cfg) (Hcf : cfg_ok cf).

(** The door bell poll is registered for the driver's thread. *)
Definition door_ok (k : kernel) : Prop :=
  (exists ptr, ftn_ok k (cf_check_door_ftn_id cf) NVME_DRIVER_THREAD ptr)
  /\ (length (cbk_contents k NVME_DRIVER_THREAD) < 255)%nat.

Lemma step_2_idle w :
  buf_q_idle (nv_rbuf (fw_nvme w)) -> buf_q_idle (nv_wbuf (fw_nvme w)) ->
  process_read_ios_step_2 cf buf_fuel w = Ok w /\ process_write_ios_step_2 cf buf_fuel w = Ok w.
Proof.
  intros [_ _ _ Er] [_ _ _ Ew]. change buf_fuel with (S 128).
  cbn [process_read_ios_step_2 process_write_ios_step_2]. by rewrite Er, Ew.
Qed.

(** The cache has been flushed: the buffer is free again and the driver polls. *)
Record flush_done (used : list req_ptr) (s s' : nvme) : Prop := {
  fd_drv : drv_ok cf used s';
  fd_idle : buffer_idle (nv_buffer s');
  fd_sqs : nv_sqs s' = nv_sqs s;
  fd_cqs : nv_cqs s' = nv_cqs s;
  fd_prp : nv_prp s' = nv_prp s;
  fd_buffer : page_buffer (nv_buffer s') = page_buffer (nv_buffer s);
  fd_kernel : callback_added (cf_check_door_ftn_id cf) NVME_DRIVER_THREAD (nv_kernel s) (nv_kernel s') }.

Lemma completed_wbc_ok w req used :
  let s := fw_nvme w in
  drv_ok cf used s -> door_ok (nv_kernel s) ->
  exists s', completed_req_cbk cf req WBC_FLUSH_REQUEST w = Ok (set_nvme s' w) /\ flush_done used s s'.
Proof.
  intros s [Hinv Hsh Hi Hrb Hwb Hpg Hty Hpb Hms Hmh] ((ptr & Hf) & Hlen).
  destruct (free_wbc_ok (nv_buffer s) Hpg) as (b' & Eb & Hidle & Hpb' & Hty').
  destruct (add_callback_ok _ _ _ _ Hf Hlen) as (k' & Ek & Hk).
  unfold completed_req_cbk. change (WBC_FLUSH_REQUEST =? READ_IO_REQUEST) with false.
  change (WBC_FLUSH_REQUEST =? WBC_FLUSH_REQUEST) with true. cbv iota. fold s. rewrite Eb. cbn [obind].
  destruct (step_2_idle (set_nvme (set_nv_buffer b' s) w) Hrb Hwb) as [Er Ew].
  rewrite Ew. cbn [obind]. rewrite Er. cbn [obind]. unfold add_check_door, on_kernel. rewrite fw_nvme_set.
  change (nv_kernel (set_nv_buffer b' s)) with (nv_kernel s). rewrite Ek. cbn [obind].
  exists (set_nv_kernel k' (set_nv_buffer b' s)). split; [done|]. split; try done.
  split; try done; cbn [set_nv_kernel set_nv_buffer nv_buffer].
  - apply Hidle.
  - by rewrite Hty'.
  - by rewrite Hpb'.
Qed.

(** The data of a read has arrived at the host, with its completion. *)
Record read_done (n : nat) (N : Z) (cq : NvmeCQueue) (sq : NvmeSQueue) (scmd : Z) (host : mem) (used : list req_ptr)
  (s s' : nvme) : Prop := {
  rd_completed : completed N cq sq scmd s s';
  rd_drv : drv_ok cf used s';
  rd_idle : buffer_idle (nv_buffer s');
  rd_buffer : page_buffer (nv_buffer s') = page_buffer (nv_buffer s);
  rd_data : forall off, 0 <= off < rw_len cf scmd ->
    nv_host s' (data_addr cf host scmd off) = nv_ssd s (page_buffer (nv_buffer s) + off);
  rd_host : forall a, ~ in_slot cq (N mod cq_size cq) a ->
    (forall off, 0 <= off < rw_len cf scmd -> a <> data_addr cf host scmd off) -> nv_host s' a = nv_host s a;
  rd_kernel : callback_added (cf_check_door_ftn_id cf) NVME_DRIVER_THREAD (nv_kernel s) (nv_kernel s');
  rd_uses : uses n (nv_dma s) (nv_dma s') }.

Lemma completed_read_ok w req r sqid sqe scmd host used sq cq N :
  let s := fw_nvme w in
  drv_ok cf (req :: used) s -> get_obj req (nv_alloc s) = Ok (OIo r) ->
  fresh_req sqid sqe scmd cq READ_IO_REQUEST r ->
  transfer_ok cf host scmd (page_buffer (nv_buffer s)) (rq_dma r) -> segs_disjoint (io_entries (rq_dma r)) ->
  all_invalid (wb_pages (wbc (nv_buffer s))) -> queues_ok N cq sq sqid s -> door_ok (nv_kernel s) ->
  (forall off, 0 <= off < rw_len cf scmd -> ~ in_slot cq (N mod cq_size cq) (data_addr cf host scmd off)) ->
  ready_for 17 (nv_dma s) ->
  exists s', completed_req_cbk cf (Some req) READ_IO_REQUEST w = Ok (set_nvme s' w)
    /\ read_done 17 N cq sq scmd host used s s'.
Proof using Hcf.
  intros s [Hinv Hsh Hi Hrb Hwb Hpg Hty Hpb Hms Hmh] Ho Hfr [T1 T2 T3 T4 T5 _] Hdis Hall [Hsq Hcq Hcid Hcr]
    ((ptr & Hf) & Hlen) Hslot Hready.
  pose proof Hfr as [F1 F2 F3 F4 Fc].
  unfold completed_req_cbk. change (READ_IO_REQUEST =? READ_IO_REQUEST) with true. cbv iota. cbn [deref obind].
  destruct (sync_read_ok w req r (req :: used) Hinv Hsh Ho Hi T1 Hdis T3 ltac:(by apply (ready_le 16 17); [lia|]))
    as (a2 & dw & -> & Ha2 & Hi2 & Hu2 & Hin2 & Hout2 & Hssd2).
  cbn [obind]. fold s in Ha2, Hi2, Hu2, Hin2, Hout2, Hssd2 |- *.
  set (s1 := set_alloc a2 (set_nv_dma dw s)). rewrite !fw_nvme_set, !set_nvme_twice. fold s1.
  unfold free_read_io_buffer. cbn [snd]. change (nv_buffer s1) with (nv_buffer s).
  set (b' := set_inuse false (nv_buffer s)). set (s2 := set_nv_buffer b' s1).
  set (r2 := set_req_dma (set_dma_complete true (rq_dma r)) (set_stage REQ_STAGE_DMA r)) in *.
  destruct (enqueue_io_ok cf Hcf (set_nvme s2 w) req r2 sq cq N used) as (s3 & -> & Hip).
  { rewrite fw_nvme_set. change (rq_cqid r2) with (rq_cqid r). by rewrite F3, Hcid. }
  { done. }
  { rewrite fw_nvme_set. change (rq_sqid r2) with (rq_sqid r). by rewrite F2. }
  { apply Ha2. }
  { apply Ha2. }
  { apply Ha2. }
  { apply Hi2. }
  { exact (uses_ready 16 1 _ _ Hu2 Hready). }
  rewrite fw_nvme_set in Hip. destruct Hip as [I1 I2 I3 I4 I5 I6 I7 I8 I9 I10 I11 I12].
  pose proof I6 as [G1 G2 G3 [G4 G5] G6 G7 G8 G9]. cbn [obind]. rewrite set_nvme_twice.
  destruct (step_2_idle (set_nvme s3 w)) as [Er Ew]; [rewrite fw_nvme_set, ?G4, ?G5; done..|].
  rewrite Er. cbn [obind]. rewrite Ew. cbn [obind]. unfold add_check_door, on_kernel. rewrite fw_nvme_set.
  rewrite G7. change (nv_kernel s2) with (nv_kernel s).
  destruct (add_callback_ok _ _ _ _ Hf Hlen) as (k' & -> & Hk). cbn [obind].
  assert (Hfr2 : fresh_req sqid sqe scmd cq READ_IO_REQUEST r2) by (by split).
  change (rq_cqid r2) with (rq_cqid r) in I1, I2. rewrite F3, Hcid in I1, I2.
  rewrite (success_entry_eq _ _ _ _ _ _ _ _ Hfr2) in I7. rewrite T2, T5 in Hin2. rewrite T2 in Hout2.
  assert (Hs2 : forall a, nv_ssd s2 a = nv_ssd s a) by exact Hssd2.
  assert (Hd2 : forall off, 0 <= off < rw_len cf scmd ->
    nv_host s2 (data_addr cf host scmd off) = nv_ssd s (page_buffer (nv_buffer s) + off))
    by (intros off Hoff; rewrite <- (T4 off Hoff); exact (Hin2 off Hoff)).
  assert (Ho2 : forall a, (forall off, 0 <= off < rw_len cf scmd -> a <> data_addr cf host scmd off) ->
    nv_host s2 a = nv_host s a)
    by (intros a Ha; apply Hout2; intros off Hoff; rewrite (T4 off Hoff); by apply Ha).
  assert (Hmh2 : mem_ok (nv_host s2)).
  { intros a. destruct (decide (Exists (fun off => a = data_addr cf host scmd off) (seqZ 0 (rw_len cf scmd)))) as [He|Hn].
    - apply Exists_exists in He as (off & Hoff%list_elem_of_In%elem_of_seqZ & ->). rewrite Hd2 by lia. apply Hms.
    - rewrite Ho2; [apply Hmh|]. intros off Hoff ->. apply Hn. apply Exists_exists. exists off.
      split; [apply list_elem_of_In, elem_of_seqZ; lia|done]. }
  destruct (I10 ltac:(intros a; rewrite Hs2; apply Hms)) as [Hms' Hmh'].
  exists (set_nv_kernel k' s3). split; [done|]. split; try done.
  - split; try done. by exists (rq_ccmd_dw0 r2).
  - split; cbn [set_nv_kernel nv_alloc nv_prp nv_rbuf nv_wbuf nv_buffer]; rewrite ?G6; try done.
    + split; [done|]. rewrite G9. apply Hi2.
    + by rewrite G4.
    + by rewrite G5.
    + by apply Hmh'.
  - cbn [set_nv_kernel nv_buffer]. rewrite G6. by split.
  - cbn [set_nv_kernel nv_buffer]. by rewrite G6.
  - intros off Hoff. rewrite <- (Hd2 off Hoff). apply I8. by apply Hslot.
  - intros a Ha Hb. rewrite <- (Ho2 a Hb). by apply I8.
  - exact (uses_trans 16 1 _ _ _ Hu2 I12).
Qed.

End finished.
