(* ===== verification/System.v ===== *)
(** * The firmware as a whole

    The machine the threads share, the functions their queues and callbacks call,
    and runs of the NVMe and the FTL thread (kernel, nvme_driver.c, isp.c and
    ftl_page_mapping/ together).

    The kernel calls functions and hands objects over by address; [call] finds
    the function and the object behind the addresses. *)

From Stdlib Require Import ZArith Lia Bool List.
From stdpp Require Import base tactics option list list_numbers functions.
From S2P Require Import Prelude CTypes Queue Kernel KernelRun MemUtil Geom NandIo Ftl FtlInv Requests FtlIo FtlDisk.
From S2P Require Import HostIf HostDma Prp ReqAlloc BufferMgt NvmeQueues Firmware Isp Nvme.

(** The addresses of the functions registered with the kernel. *)
Class Functions := {
  fp_check_door_bell : Z; fp_completed_req_cbk : Z; fp_process_req_cbk : Z;
  fp_recycle_control_command : Z; fp_msg_cbk : Z;
  fp_thrd_cbk : Z; fp_sync_dma_cbk : Z; fp_initialize_nvme : Z; fp_initialize_nand_ctrl : Z;
  fp_initialize_ftl : Z;
  fp_distinct : NoDup [fp_check_door_bell; fp_completed_req_cbk; fp_process_req_cbk;
                       fp_recycle_control_command; fp_msg_cbk; fp_thrd_cbk; fp_sync_dma_cbk;
                       fp_initialize_nvme; fp_initialize_nand_ctrl; fp_initialize_ftl] }.

(** The drivers' state together with the FTL's tables, its batches and the flash. *)
Record machine (D : Type) := Machine { m_fw : fw; m_ftl : ftl; m_pools : op_pools; m_nand : D }.
Arguments Machine {D}.
Arguments m_fw {D}.
Arguments m_ftl {D}.
Arguments m_pools {D}.
Arguments m_nand {D}.

Definition set_m_fw {D} v (m : machine D) := Machine v (m_ftl m) (m_pools m) (m_nand m).
Definition m_nvme {D} (m : machine D) : nvme := fw_nvme (m_fw m).
Definition set_m_nvme {D} v (m : machine D) := set_m_fw (set_nvme v (m_fw m)) m.
Definition m_kernel {D} (m : machine D) : kernel := nv_kernel (m_nvme m).
Definition set_m_kernel {D} k (m : machine D) := set_m_nvme (set_nv_kernel k (m_nvme m)) m.

(** What the FTL sees: memory and kernel are those of the drivers. *)
Definition drive_of {D} (m : machine D) : drive D :=
  Drive (m_ftl m) (m_pools m) (m_nand m) (nv_ssd (m_nvme m)) (m_kernel m).

Definition set_nv_ssd (v : mem) (s : nvme) : nvme :=
  set_nv_dma (set_dw_hif (set_ssd v (dw_hif (nv_dma s))) (nv_dma s)) s.

Definition put_drive {D} (s : drive D) (m : machine D) : machine D :=
  Machine (set_nvme (set_nv_kernel (d_kernel s) (set_nv_ssd (d_mem s) (m_nvme m))) (m_fw m))
    (d_ftl s) (d_pools s) (d_nand s).

(** The request object at an address. *)
Definition all_requests : list req_ptr :=
  map RPtr (seqZ 0 R_SIZE) ++ map WPtr (seqZ 0 W_SIZE) ++ map OPtr (seqZ 0 O_SIZE).

Section system.
Context {D : Type} `{NandFlash D} `{DmaEngines} `{MemoryViews} `{Addresses} `{Functions}.
Context (cf : fw_cfg) (fuel : nat).  (* of the search for a free page *)

Definition request_at (a : Z) : option req_ptr := List.find (fun p => req_addr p =? a) all_requests.
Definition thread_at (a : Z) : option Z := List.find (fun t => thread_addr t =? a) (seqZ 0 MAX_ISP_THREADS).

(** ** The FTL's callback *)

(** The object handed to [process_req_cbk] and where it is put back. *)
Definition ftl_object (a type : Z) (w : fw) : outcome ftl_obj :=
  if type =? WBC_FLUSH_REQUEST then
    if a =? wbc_addr then Ok (FWbc (wbc (nv_buffer (fw_nvme w)))) else Fault FBounds
  else
    let! p := deref (request_at a) in
    if type =? READ_IO_REQUEST then let! r := get_io p w in Ok (FRead r)
    else let! n := get_nand p w in Ok (FIsp n).

Definition put_ftl_object (a : Z) (o : ftl_obj) (w : fw) : outcome fw :=
  match o with
  | FWbc v => Ok (set_nvme (set_nv_buffer (set_wbc v (nv_buffer (fw_nvme w))) (fw_nvme w)) w)
  | FRead r => let! p := deref (request_at a) in put_io p r w
  | FIsp n => let! p := deref (request_at a) in put_nand p n w
  end.

Definition ftl_callback (a type : Z) (m : machine D) : outcome (machine D) :=
  if (type =? READ_IO_REQUEST) || (type =? WBC_FLUSH_REQUEST) || (type =? ISP_READ_PAGES_REQUEST)
     || (type =? ISP_PROGRAM_PAGES_REQUEST) then
    let! o := ftl_object a type (m_fw m) in
    let! '(o, s) := process_req_cbk (cf_geom cf) fuel a o type (drive_of m) in
    let m := put_drive s m in
    let! w := put_ftl_object a o (m_fw m) in
    Ok (set_m_fw w m)
  else Ok m.

(** ** The callbacks of the NVMe thread *)

Definition on_fw (f : fw -> outcome fw) (m : machine D) : outcome (machine D) :=
  let! w := f (m_fw m) in Ok (set_m_fw w m).

Definition isp_message (a type : Z) (w : fw) : outcome fw :=
  if type =? ISP_HOST_DMA_REQUEST then let! p := deref (request_at a) in msg_cbk cf (MsgHostDma p) w
  else if (type =? ISP_READ_PAGES_REQUEST) || (type =? ISP_PROGRAM_PAGES_REQUEST) then
    let! p := deref (request_at a) in msg_cbk cf (MsgNand p type) w
  else if type =? ISP_EXECUTION_EXIT then let! t := deref (thread_at a) in msg_cbk cf (MsgExit t) w
  else Ok w.

(** The function at an address, called with two arguments.  [applet_ftn] is the
    initialisation function of an applet, [other_ftn] what other addresses do:
    the initialisation functions and the callback of the applet's thread. *)
Definition call (applet_ftn : Z -> fw -> outcome (Z * fw)) (other_ftn : Z -> Z -> Z -> machine D -> outcome (machine D))
    (ptr arg_0 arg_1 : Z) (m : machine D) : outcome (machine D) :=
  if ptr =? fp_check_door_bell then on_fw (check_door_bell cf applet_ftn) m
  else if ptr =? fp_completed_req_cbk then on_fw (completed_req_cbk cf (request_at arg_0) arg_1) m
  else if ptr =? fp_process_req_cbk then ftl_callback arg_0 arg_1 m
  else if ptr =? fp_recycle_control_command then
    let! t := deref (thread_at arg_0) in on_fw (recycle_control_command cf t) m
  else if ptr =? fp_msg_cbk then on_fw (isp_message arg_0 arg_1) m
  else other_ftn ptr arg_0 arg_1 m.

(** A run of thread [thrd]: one callback, then one message of each queue. *)
Definition run (applet_ftn : Z -> fw -> outcome (Z * fw)) (other_ftn : Z -> Z -> Z -> machine D -> outcome (machine D))
    (thrd : Z) (m : machine D) : outcome (machine D) :=
  run_thread m_kernel set_m_kernel (call applet_ftn other_ftn) thrd m.

(** ** Reading the machine *)

Lemma m_get_set k (m : machine D) : m_kernel (set_m_kernel k m) = k.
Proof. done. Qed.

Lemma m_set_get (m : machine D) : set_m_kernel (m_kernel m) m = m.
Proof. destruct m as [w f p n]. unfold set_m_kernel, m_kernel, m_nvme, set_m_nvme, set_m_fw. cbn. by destruct w as [[] ? ? ? ?]. Qed.

Lemma request_at_addr k p : p ∈ pool_ptrs k -> request_at (req_addr p) = Some p.
Proof.
  intros Hp. apply pool_ptrs_range in Hp as [Hk Hr]. unfold request_at.
  assert (Hin : p ∈ all_requests).
  { unfold all_requests. rewrite !elem_of_app, !list_elem_of_fmap. destruct p as [i|i|i]; cbn [ptr_pool ptr_index] in *;
      subst k; cbn [pool_size] in Hr; [left|right; left|right; right]; exists i; rewrite elem_of_seqZ; (split; [done|lia]). }
  destruct (List.find _ all_requests) as [q|] eqn:E.
  - apply find_some in E as [_ E]. apply Z.eqb_eq in E. by apply (inj req_addr) in E as ->.
  - apply list_elem_of_In in Hin. pose proof (find_none _ _ E _ Hin) as Hx. cbn in Hx. by rewrite Z.eqb_refl in Hx.
Qed.

Lemma call_check_door applet other a b m :
  call applet other fp_check_door_bell a b m = on_fw (check_door_bell cf applet) m.
Proof. unfold call. by rewrite Z.eqb_refl. Qed.

Lemma functions_differ :
  (fp_completed_req_cbk =? fp_check_door_bell) = false /\ (fp_process_req_cbk =? fp_check_door_bell) = false
  /\ (fp_process_req_cbk =? fp_completed_req_cbk) = false.
Proof.
  pose proof fp_distinct as Hd. inversion_clear Hd as [|? ? N1 Hd1]. inversion_clear Hd1 as [|? ? N2 _].
  rewrite !Z.eqb_neq. split_and!; intros E; [apply N1|apply N1|apply N2]; rewrite <- E; repeat constructor.
Qed.

Lemma call_completed applet other a b m :
  call applet other fp_completed_req_cbk a b m = on_fw (completed_req_cbk cf (request_at a) b) m.
Proof. destruct functions_differ as (E1 & _). unfold call. by rewrite E1, Z.eqb_refl. Qed.

Lemma call_process applet other a b m : call applet other fp_process_req_cbk a b m = ftl_callback a b m.
Proof. destruct functions_differ as (_ & E1 & E2). unfold call. by rewrite E1, E2, Z.eqb_refl. Qed.

End system.
