(* ===== verification/SysRun.v ===== *)
(** * Runs of the NVMe and the FTL thread

    The wiring that [init_firmware_ftn] sets up between the two threads, what is
    waiting in their rings, and the shape of a run that serves one callback or
    one message. *)

From Stdlib Require Import ZArith Lia Bool List.
From stdpp Require Import base tactics option list list_numbers functions.
From S2P Require Import Prelude CTypes Queue Kernel KernelRun MemUtil Geom NandIo Ftl FtlInv Requests FtlIo FtlDisk.
From S2P Require Import HostIf HostDma Prp ReqAlloc BufferMgt NvmeQueues Firmware Isp Nvme System.

(** The queue of messages from the applet's thread. *)
Definition ISP_MSG_OUT_Q : Z := ISP_Q_START_INDEX + 1.

(** What is waiting: callbacks of the NVMe thread, messages to and from the FTL. *)
Record waiting (k : kernel) (cbs : list cbk_entry) (inq outq : list obj_entry) : Prop := {
  wa_nvme : cbk_contents k NVME_DRIVER_THREAD = cbs;
  wa_ftl : cbk_contents k FTL_MODULE_THREAD = [];
  wa_in : queue_contents k FTL_MODULE_IN_Q = inq;
  wa_out : queue_contents k FTL_MODULE_OUT_Q = outq;
  wa_isp : queue_contents k ISP_MSG_OUT_Q = [] }.

Lemma contents_queues k k' j : arr_get (queues k') j = arr_get (queues k) j -> queue_contents k' j = queue_contents k j.
Proof. intros E. unfold queue_contents. by rewrite E. Qed.
Lemma contents_thrds k k' j : arr_get (thrds k') j = arr_get (thrds k) j -> cbk_contents k' j = cbk_contents k j.
Proof. intros E. unfold cbk_contents. by rewrite E. Qed.

Ltac waits :=
  first [ apply contents_queues; congruence | apply contents_thrds; congruence ].

Lemma waiting_callback_taken k k' e cbs inq outq :
  callback_taken NVME_DRIVER_THREAD k k' -> waiting k (e :: cbs) inq outq -> waiting k' cbs inq outq.
Proof.
  intros [_ Hq Ho Hc] [W1 W2 W3 W4 W5]. split.
  - by rewrite Hc, W1.
  - by rewrite Ho.
  - rewrite <- W3. waits.
  - rewrite <- W4. waits.
  - rewrite <- W5. waits.
Qed.

Lemma waiting_taken_in k k' cbs e inq outq :
  message_taken FTL_MODULE_IN_Q k k' -> waiting k cbs (e :: inq) outq -> waiting k' cbs inq outq.
Proof.
  intros [_ Ht Ho Hc] [W1 W2 W3 W4 W5]. split.
  - rewrite <- W1. waits.
  - rewrite <- W2. waits.
  - by rewrite Hc, W3.
  - by rewrite Ho.
  - by rewrite Ho.
Qed.

Lemma waiting_taken_out k k' cbs inq e outq :
  message_taken FTL_MODULE_OUT_Q k k' -> waiting k cbs inq (e :: outq) -> waiting k' cbs inq outq.
Proof.
  intros [_ Ht Ho Hc] [W1 W2 W3 W4 W5]. split.
  - rewrite <- W1. waits.
  - rewrite <- W2. waits.
  - by rewrite Ho.
  - by rewrite Hc, W4.
  - by rewrite Ho.
Qed.

Lemma waiting_pushed_in k k' cbs inq outq e :
  kernel_push FTL_MODULE_IN_Q e k k' -> waiting k cbs inq outq -> waiting k' cbs (inq ++ [e]) outq.
Proof.
  intros [_ Hc Ht _ _ Ho] [W1 W2 W3 W4 W5]. split.
  - rewrite <- W1. waits.
  - rewrite <- W2. waits.
  - by rewrite Hc, W3.
  - rewrite <- W4. apply contents_queues. by apply Ho.
  - rewrite <- W5. apply contents_queues. by apply Ho.
Qed.

Lemma waiting_pushed_out k k' cbs inq outq e :
  kernel_push FTL_MODULE_OUT_Q e k k' -> waiting k cbs inq outq -> waiting k' cbs inq (outq ++ [e]).
Proof.
  intros [_ Hc Ht _ _ Ho] [W1 W2 W3 W4 W5]. split.
  - rewrite <- W1. waits.
  - rewrite <- W2. waits.
  - rewrite <- W3. apply contents_queues. by apply Ho.
  - by rewrite Hc, W4.
  - rewrite <- W5. apply contents_queues. by apply Ho.
Qed.

Lemma waiting_callback_added k k' id cbs inq outq :
  callback_added id NVME_DRIVER_THREAD k k' -> waiting k cbs inq outq ->
  waiting k' (cbs ++ [CbkEntry id 0]) inq outq.
Proof.
  intros [Hq _ Ho _ Hc] [W1 W2 W3 W4 W5]. split.
  - by rewrite Hc, W1.
  - rewrite <- W2. apply contents_thrds. by apply Ho.
  - rewrite <- W3. waits.
  - rewrite <- W4. waits.
  - rewrite <- W5. waits.
Qed.

Lemma waiting_done thrd k k' cbs inq outq :
  thread_done thrd k k' -> waiting k cbs inq outq -> waiting k' cbs inq outq.
Proof.
  intros [_ Hq Hc _] [W1 W2 W3 W4 W5]. split.
  - by rewrite Hc.
  - by rewrite Hc.
  - rewrite <- W3. waits.
  - rewrite <- W4. waits.
  - rewrite <- W5. waits.
Qed.

Section wiring.
Context `{Functions} (cf : fw_cfg).

(** The threads, queues and functions as they were registered. *)
Record kern_ok (k : kernel) : Prop := {
  ko_door : ftn_ok k (cf_check_door_ftn_id cf) NVME_DRIVER_THREAD fp_check_door_bell;
  ko_in : served_by k FTL_MODULE_IN_Q fp_process_req_cbk;
  ko_out : served_by k FTL_MODULE_OUT_Q fp_completed_req_cbk;
  ko_isp : queue_ok k ISP_MSG_OUT_Q;
  ko_nvme : thread_ok k NVME_DRIVER_THREAD [ISP_MSG_OUT_Q; FTL_MODULE_OUT_Q];
  ko_ftl : thread_ok k FTL_MODULE_THREAD [FTL_MODULE_IN_Q] }.

Lemma kern_ok_wired k k' : wired k k' -> kern_ok k -> kern_ok k'.
Proof.
  intros Hw []. split; eauto using ftn_ok_wired, served_by_wired, queue_ok_wired, thread_ok_wired.
Qed.

(** The entry that polls the door bell. *)
Definition door_entry : cbk_entry := CbkEntry (cf_check_door_ftn_id cf) 0.

End wiring.

Section system_runs.
Context {D : Type} `{NandFlash D} `{DmaEngines} `{MemoryViews} `{Addresses} `{Functions}.
Context (cf : fw_cfg) (fuel : nat).
Context (applet_ftn : Z -> fw -> outcome (Z * fw)) (other_ftn : Z -> Z -> Z -> machine D -> outcome (machine D)).

Abbreviation run := (run cf fuel applet_ftn other_ftn).
Abbreviation call := (call cf fuel applet_ftn other_ftn).

Lemma fold_set_m_fw w (m : machine D) : m_kernel (set_m_fw w m) = nv_kernel (fw_nvme w).
Proof. done. Qed.

(** The NVMe thread polls the door bell; no message waits for it. *)
Lemma run_door (m : machine D) cbs inq :
  kern_ok cf (m_kernel m) -> waiting (m_kernel m) (door_entry cf :: cbs) inq [] ->
  exists k', callback_taken NVME_DRIVER_THREAD (m_kernel m) k'
    /\ forall w1 cbs' inq', check_door_bell cf applet_ftn (m_fw (set_m_kernel k' m)) = Ok w1 ->
       kern_ok cf (nv_kernel (fw_nvme w1)) -> waiting (nv_kernel (fw_nvme w1)) cbs' inq' [] ->
       exists k2, thread_done NVME_DRIVER_THREAD (nv_kernel (fw_nvme w1)) k2
         /\ run NVME_DRIVER_THREAD m = Ok (set_m_kernel k2 (set_m_fw w1 m)).
Proof.
  intros Hk Hw.
  destruct (run_callback_call m_kernel set_m_kernel call m_get_set _ _ m _ _ _ (ko_nvme _ _ Hk) (wa_nvme _ _ _ _ Hw)
              (proj1 (ko_door _ _ Hk))) as (k' & Hk' & E).
  exists k'. split; [done|]. intros w1 cbs' inq' Ed Hk1 Hw1. cbn [f_ftn_ptr door_entry ce_arg0] in E.
  rewrite call_check_door in E. unfold on_fw in E. rewrite Ed in E. cbn [obind] in E.
  change (set_m_fw w1 (set_m_kernel k' m)) with (set_m_fw w1 m) in E.
  destruct (run_thread_parts m_kernel set_m_kernel call NVME_DRIVER_THREAD _ m _ _ E
              (run_queues_idle m_kernel set_m_kernel call m_set_get 16 0 _ _ (set_m_fw w1 m) (ko_nvme _ _ Hk1)
                 ltac:(lia) ltac:(simpl; lia) ltac:(repeat constructor; try apply Hk1; try apply Hw1;
                   by apply (served_by_ok _ _ fp_completed_req_cbk), Hk1))
              (ko_nvme _ _ Hk1)) as (k2 & Hd & Er).
  by exists k2.
Qed.

(** The FTL thread serves a request. *)
Lemma run_ftl (m : machine D) cbs e inq outq :
  kern_ok cf (m_kernel m) -> waiting (m_kernel m) cbs (e :: inq) outq ->
  exists k', message_taken FTL_MODULE_IN_Q (m_kernel m) k'
    /\ forall m1, ftl_callback cf fuel (oe_obj_ptr e) (oe_obj_type e) (set_m_kernel k' m) = Ok m1 ->
       kern_ok cf (m_kernel m1) ->
       exists k2, thread_done FTL_MODULE_THREAD (m_kernel m1) k2 /\ run FTL_MODULE_THREAD m = Ok (set_m_kernel k2 m1).
Proof.
  intros Hk Hw.
  destruct (run_queue_call m_kernel set_m_kernel call m_get_set _ _ m _ _ (ko_in _ _ Hk) (wa_in _ _ _ _ Hw))
    as (k' & Hk' & E).
  exists k'. split; [done|]. intros m1 Ef Hk1. rewrite call_process, Ef in E.
  destruct (run_thread_parts m_kernel set_m_kernel call FTL_MODULE_THREAD [FTL_MODULE_IN_Q] m m m1
              (run_callback_idle m_kernel set_m_kernel call m_set_get _ _ m (ko_ftl _ _ Hk) (wa_ftl _ _ _ _ Hw)))
    as (k2 & Hd & Er); [|apply Hk1|by exists k2].
  apply (run_queues_one m_kernel set_m_kernel call m_set_get 16 0 FTL_MODULE_THREAD [] FTL_MODULE_IN_Q []);
    [apply Hk|simpl; lia|simpl; lia|constructor|exact E|apply Hk1|constructor].
Qed.

(** The NVMe thread, with nothing to poll, serves a completion of the FTL. *)
Lemma run_completed (m : machine D) inq e outq :
  kern_ok cf (m_kernel m) -> waiting (m_kernel m) [] inq (e :: outq) ->
  exists k', message_taken FTL_MODULE_OUT_Q (m_kernel m) k'
    /\ forall w1, completed_req_cbk cf (request_at (oe_obj_ptr e)) (oe_obj_type e) (m_fw (set_m_kernel k' m)) = Ok w1 ->
       kern_ok cf (nv_kernel (fw_nvme w1)) ->
       exists k2, thread_done NVME_DRIVER_THREAD (nv_kernel (fw_nvme w1)) k2
         /\ run NVME_DRIVER_THREAD m = Ok (set_m_kernel k2 (set_m_fw w1 m)).
Proof.
  intros Hk Hw.
  destruct (run_queue_call m_kernel set_m_kernel call m_get_set _ _ m _ _ (ko_out _ _ Hk) (wa_out _ _ _ _ Hw))
    as (k' & Hk' & E).
  exists k'. split; [done|]. intros w1 Ec Hk1. rewrite call_completed in E. unfold on_fw in E. rewrite Ec in E.
  cbn [obind] in E. change (set_m_fw w1 (set_m_kernel k' m)) with (set_m_fw w1 m) in E.
  destruct (run_thread_parts m_kernel set_m_kernel call NVME_DRIVER_THREAD [ISP_MSG_OUT_Q; FTL_MODULE_OUT_Q] m m
              (set_m_fw w1 m)
              (run_callback_idle m_kernel set_m_kernel call m_set_get _ _ m (ko_nvme _ _ Hk) (wa_nvme _ _ _ _ Hw)))
    as (k2 & Hd & Er); [|apply Hk1|by exists k2].
  apply (run_queues_one m_kernel set_m_kernel call m_set_get 16 0 NVME_DRIVER_THREAD [ISP_MSG_OUT_Q] FTL_MODULE_OUT_Q []);
    [apply Hk|simpl; lia|simpl; lia| |exact E|apply Hk1|constructor].
  constructor; [|constructor]. split; [apply Hk|apply Hw].
Qed.

End system_runs.
