(* ===== verification/Start.v ===== *)
(** * Starting the firmware (issd_kernel.c, init_firmware_ftn)

    The routines the primary core calls before the threads run: every module
    takes its buffers from the uncacheable memory and registers its functions,
    callbacks and queues.  Host pages as large as flash pages; the formatted
    print-out of the memory map and the name tables of the printing module are
    left out. *)

From Stdlib Require Import ZArith Lia Bool List.
From stdpp Require Import base tactics option list list_numbers functions.
From S2P Require Import Prelude CTypes Queue Kernel KernelRun Boot MemUtil Geom NandIo Requests ReqAlloc BufferMgt.
From S2P Require Import NandHw HostDma Prp NvmeQueues Firmware Isp Nvme NvmeIo NvmeRw System SysRun.

(** What the start-up routines build; [st_cfg] collects the buffers and the ids
    of functions the modules keep in globals. *)
Record start := Start {
  st_kernel : kernel; st_heap : uc_heap; st_alloc : req_alloc; st_isp : isp; st_buffer : buffer_mgt;
  st_pools : op_pools; st_chn_bass_addr : list Z; st_private_pg_buff : Z; st_load_mp_buffer : Z; st_cfg : fw_cfg }.

Definition SYNC_DMA_Q : Z := 10.

(** The structs of the identify commands and of submission and completion. *)
Definition sizeof_NvmeIdController : Z := 4096.
Definition sizeof_NvmeIdNameSpace : Z := 4096.
Definition sizeof_NvmeSCmd : Z := 64.
Definition sizeof_NvmeCCmd : Z := 16.

Section start.
Context `{Functions} (cf : fw_cfg).

Definition init_host_dma (k : kernel) : outcome kernel :=
  let! '(id, k) := sys_add_thread_function HOST_DMA_THREAD fp_sync_dma_cbk k in
  let! '(_, k) := sys_create_obj_queue SYNC_DMA_Q NVME_DRIVER_THREAD id k in
  Ok k.

Definition init_nand_io_module (k : kernel) (ps : op_pools) : outcome (list Z * kernel * op_pools) :=
  let! '(ftn_id, k) := sys_add_thread_function FTL_MODULE_THREAD fp_initialize_nand_ctrl k in
  let! '(_, k) := sys_add_callback_ftn ftn_id 0 k in
  let! ps := init_op_obj ps in
  Ok (chn_bass_addr (cf_geom cf), k, ps).

(** [idCtrlBuf], [idNsBuf], [NvmeIdNSBuf], [prp_list], [scmd_buf], [ccmd_buf] and
    the ids of [completed_req_cbk] and [check_door_bell] *)
Definition init_nvme_driver (k : kernel) (h : uc_heap) : outcome (list Z * Z * Z * kernel * uc_heap) :=
  let! '(bufs, h) := alloc_seq [sizeof_NvmeIdController; sizeof_NvmeIdNameSpace; Boot.IdDataSize / 4; PrpListSize;
                                sizeof_NvmeSCmd * MAX_IO_SQCQ_ENTRIES; sizeof_NvmeCCmd * MAX_IO_SQCQ_ENTRIES] h in
  let! '(completed_req_cbk_ftn_id, k) := sys_add_thread_function NVME_DRIVER_THREAD fp_completed_req_cbk k in
  let! '(ftn_id, k) := sys_add_thread_function NVME_DRIVER_THREAD fp_initialize_nvme k in
  let! '(_, k) := sys_add_callback_ftn ftn_id 0 k in
  let! '(check_door_ftn_id, k) := sys_add_thread_function NVME_DRIVER_THREAD fp_check_door_bell k in
  Ok (bufs, completed_req_cbk_ftn_id, check_door_ftn_id, k, h).

(** [private_pg_buff], [load_mp_buffer] and the id of [process_req_cbk] *)
Definition init_ftl_module (k : kernel) (h : uc_heap) : outcome (Z * Z * Z * kernel * uc_heap) :=
  let! '(private_pg_buff, h) := get_uncacheable_ram (NAND_PAGE_SIZE (cf_geom cf) * 4) h in
  let! '(load_mp_buffer, h) := get_uncacheable_ram (Z.shiftl 1 16) h in
  let! '(process_req_cbk_ftn_id, k) := sys_add_thread_function FTL_MODULE_THREAD fp_process_req_cbk k in
  let! '(ftn_id, k) := sys_add_thread_function FTL_MODULE_THREAD fp_initialize_ftl k in
  let! '(_, k) := sys_add_callback_ftn ftn_id 0 k in
  Ok (private_pg_buff, load_mp_buffer, process_req_cbk_ftn_id, k, h).

(** Element [i] of the buffers [init_nvme_driver] took. *)
Definition buf (i : nat) (bufs : list Z) : Z := nth i bufs 0.

(** From the values of the globals; [cf] gives the settings that do not depend on the
    start-up (the string literals and the verbosity). *)
Definition init_firmware_ftn (k : kernel) (h : uc_heap) (a : req_alloc) (i : isp) (w : wbc_req)
    (ps : op_pools) : outcome start :=
  let! '(external_code_buffer, h) := get_uncacheable_ram ISP_MAX_APPLET_BIN_SIZE h in
  let! '(_print_request, h) := get_uncacheable_ram (4 * 4) h in
  let! a := init_req_obj a in
  let! '(_, k) := sys_create_thread HOST_DMA_THREAD k in
  let! '(_, k) := sys_create_thread NVME_DRIVER_THREAD k in
  let! '(_, k) := sys_create_thread FTL_MODULE_THREAD k in
  let! '(recycle_id, i, k, h) := init_isp_driver cf fp_msg_cbk fp_recycle_control_command fp_thrd_cbk i k h in
  let! k := init_host_dma k in
  let! '(channels, k, ps) := init_nand_io_module k ps in
  let! '(bufs, completed_id, door_id, k, h) := init_nvme_driver k h in
  let! '(b, h) := init_buffer_mgt (cf_geom cf) w h in
  let! '(private_pg_buff, load_mp_buffer, process_id, k, h) := init_ftl_module k h in
  let! '(_, k) := sys_create_obj_queue FTL_MODULE_IN_Q NVME_DRIVER_THREAD process_id k in
  let! '(_, k) := sys_create_obj_queue FTL_MODULE_OUT_Q FTL_MODULE_THREAD completed_id k in
  Ok (Start k h a i b ps channels private_pg_buff load_mp_buffer
        (FwCfg (cf_geom cf) (PrpConfig (hostPageBits (cf_prp cf)) (buf 3 bufs)) (cf_nsze cf) (cf_ncap cf) (cf_nuse cf)
           (buf 4 bufs) (buf 5 bufs) (buf 0 bufs) (buf 1 bufs) (buf 2 bufs) external_code_buffer
           (cf_lit_mn cf) (cf_lit_fr cf) (cf_lit_sn cf) door_id recycle_id (cf_verbose_error cf))).

End start.

(** ** The state after start-up *)

(** The globals at reset, of a drive with geometry [g]. *)
Definition isp_thread0 : isp_ftn_thread_t :=
  IspThread 0 0 0 0 0 0 0 0 0 0 None None (Queue 0 0 0 (replicate 8 (RPtr 0))) (Queue 0 0 0 (replicate 8 (RPtr 0)))
    [None] 0 false.
Definition isp0 : isp := Isp 0 (replicate 4 isp_thread0) 0 0.
Definition wbc0 : wbc_req := WbcReq 0 0 0 0 false (replicate 16 (WbcPage 0 0 0 0)).
Definition cfg0 (g : geom) : fw_cfg := FwCfg g (PrpConfig 0 0) 0 0 0 0 0 0 0 0 0 0 0 0 0 0 false.

(** The settings with the page size the host chooses in CC.MPS. *)
Definition set_page_bits (bits : Z) (cf : fw_cfg) : fw_cfg :=
  FwCfg (cf_geom cf) (PrpConfig bits (prp_list (cf_prp cf))) (cf_nsze cf) (cf_ncap cf) (cf_nuse cf)
    (cf_scmd_buf cf) (cf_ccmd_buf cf) (cf_idCtrlBuf cf) (cf_idNsBuf cf) (cf_NvmeIdNSBuf cf)
    (cf_external_code_buffer cf) (cf_lit_mn cf) (cf_lit_fr cf) (cf_lit_sn cf) (cf_check_door_ftn_id cf)
    (cf_recycle_ftn_id cf) (cf_verbose_error cf).

(** The functions waiting in a thread's ring. *)
Definition callback_ptrs (k : kernel) (thrd : Z) : list (outcome Z) :=
  map (fun e => let! f := arr_get (all_thrds_ftns k) (ce_ftn_id e) in Ok (f_ftn_ptr f)) (cbk_contents k thrd).

Section started.
Context `{Functions}.

Definition firmware_start : outcome start :=
  init_firmware_ftn (cfg0 H4k_N4k_256mb) kernel0 init_heap req_alloc0 isp0 wbc0 op_pools0.

End started.

(** The state after start-up: the heap begins at section 2264, and the two object
    pools are what [init_req_obj] and [init_op_obj] leave. *)
Lemma init_op_obj_total : exists ps, init_op_obj op_pools0 = Ok ps.
Proof.
  assert (E : (let! _ := init_op_obj op_pools0 in Ok tt) = Ok tt) by (vm_compute; reflexivity).
  destruct (init_op_obj op_pools0) as [ps|]; [by exists ps|discriminate].
Qed.

(** Computes [firmware_start] with the pools as variables. *)
Ltac run_start :=
  let a := fresh "a" in let ps := fresh "ps" in let Ea := fresh "Ea" in let Ep := fresh "Ep" in
  destruct init_req_obj_correct as (a & Ea & _); destruct init_op_obj_total as [ps Ep]; eexists; split;
  [unfold firmware_start, init_firmware_ftn, init_nand_io_module; rewrite init_heap_value, Ea, Ep;
   clear Ea Ep; vm_compute; reflexivity|clear Ea Ep].

Ltac small_ring := vm_compute; repeat split; discriminate.

(** The buffers the modules took, in 4 KiB pages. *)
Definition start_buffers (st : start) : Z * Z * Z * Z * Z :=
  (HOST_DS (cf_geom (st_cfg st)), prp_list (cf_prp (st_cfg st)), cf_scmd_buf (st_cfg st), cf_ccmd_buf (st_cfg st),
   page_buffer (st_buffer st)).

Lemma started_buffers st bits :
  start_buffers st = (12, 2659263504, 2659271696, 2659279888, 2659281936) -> 12 <= bits <= 16 ->
  cfg_ok (set_page_bits bits (st_cfg st)) /\ page_buffer_ok (set_page_bits bits (st_cfg st)) (page_buffer (st_buffer st)).
Proof.
  intros Ev Hb. injection Ev as E1 E2 E3 E4 E5.
  split; split; cbn [set_page_bits cf_geom cf_prp cf_scmd_buf cf_ccmd_buf prp_list hostPageBits];
    rewrite ?E1, ?E2, ?E3, ?E4, ?E5; lia.
Qed.

(** after [init_firmware_ftn] from zeroed globals, in the default geometry:
    the door bell poll and the completion callback belong to the NVMe thread, the
    FTL's queue is served by [process_req_cbk] and the NVMe thread's by
    [completed_req_cbk]; the NVMe thread will run [initialize_nvme] first, the
    FTL thread [initialize_nand_ctrl] and then [initialize_ftl], and no message
    waits; and whatever page size the host chooses, the buffers of commands,
    completions, PRP lists and pages lie apart. *)
Theorem firmware_start_wired `{Functions} :
  exists st, firmware_start = Ok st /\ kern_ok (st_cfg st) (st_kernel st)
    /\ callback_ptrs (st_kernel st) NVME_DRIVER_THREAD = [Ok fp_initialize_nvme]
    /\ callback_ptrs (st_kernel st) FTL_MODULE_THREAD = [Ok fp_initialize_nand_ctrl; Ok fp_initialize_ftl]
    /\ (forall q, In q [FTL_MODULE_IN_Q; FTL_MODULE_OUT_Q; ISP_MSG_OUT_Q; SYNC_DMA_Q; ISP_Q_START_INDEX] ->
          queue_contents (st_kernel st) q = [])
    /\ (forall bits, 12 <= bits <= 16 -> cfg_ok (set_page_bits bits (st_cfg st))
          /\ page_buffer_ok (set_page_bits bits (st_cfg st)) (page_buffer (st_buffer st))).
Proof.
  destruct H as [p1 p2 p3 p4 p5 p6 p7 p8 p9 p10 Hd].
  run_start. split_and!.
  - split.
    + split; [reflexivity|]. eexists. split; [reflexivity|small_ring].
    + eexists _, _. split; [reflexivity|]. split; [small_ring|by split].
    + eexists _, _. split; [reflexivity|]. split; [small_ring|by split].
    + eexists. split; [reflexivity|small_ring].
    + eexists. split; [reflexivity|]. split; [small_ring|by split].
    + eexists. split; [reflexivity|]. split; [small_ring|by split].
  - reflexivity.
  - reflexivity.
  - intros q Hq. cbn [In] in Hq. repeat (destruct Hq as [<-|Hq]; [reflexivity|]). destruct Hq.
  - intros bits. apply started_buffers. reflexivity.
Qed.
