(* ===== verification/SysIo.v ===== *)
(** * A command from the door bell to its completion

    The NVMe thread fetches the command that a door bell announces, moves its
    data and tells the FTL; the FTL thread stores or loads the pages; the NVMe
    thread ends the command.  The drive as a block device: what the three runs of
    a read and of a write do to the disk of FtlDisk.v and to the host's memory. *)

From Stdlib Require Import ZArith Lia Bool List.
From stdpp Require Import base tactics option list list_numbers functions.
From S2P Require Import Prelude CTypes Queue Kernel KernelRun MemUtil Geom NandIo Ftl FtlInv Requests FtlIo FtlDisk.
From S2P Require Import HostIf HostDma Prp ReqAlloc BufferMgt NvmeQueues NvmePost Firmware Isp Nvme NvmeIo NvmeRw.
From S2P Require Import System SysRun.

(** ** Fetching *)

(** The entry at the head of the queue in the host's memory. *)
Definition entry_addr (sq : NvmeSQueue) : Z := sq_hostAddr sq + sq_head sq * 64.

(** At most 128 entries, the size of the drive's buffer for commands. *)
Record sq_ready (sq : NvmeSQueue) : Prop := {
  sr_head_ok : 0 <= sq_head sq < sq_size sq;
  sr_size : sq_size sq <= 128;
  sr_addr : fits 64 (sq_hostAddr sq);
  sr_end : sq_hostAddr sq + 64 * sq_size sq < 2 ^ 64 }.

(** The queue after the door bell and the fetch. *)
Definition taken (v : Z) (sq : NvmeSQueue) : NvmeSQueue :=
  set_sq_head ((sq_head sq + 1) mod sq_size sq) (set_sq_tail v sq).

(** The next door bell says that queue [sqid] has a new tail. *)
Definition door_rung (sqid v : Z) (w : fw) : Prop :=
  shm_ok dbUpdateQueueSize (fw_db w)
  /\ exists rest, shm_items dbUpdateQueueSize (fw_db w) = DbUpdate isSQ_DB sqid v :: rest.

(** Only the queue, the command buffer and the host interface have changed. *)
Record fetched (cf : fw_cfg) (sqid v : Z) (sq : NvmeSQueue) (s s' : nvme) : Prop := {
  fe_state : exists l dw, s' = set_sqs l (set_nv_dma dw s)
    /\ (forall i, i <> sqid -> arr_get l i = arr_get (nv_sqs s) i);
  fe_sq : arr_get (nv_sqs s') sqid = Ok (taken v sq);
  fe_prp : prp_idle (nv_prp s');
  fe_host : forall a, nv_host s' a = nv_host s a;
  fe_mem : mem_ok (nv_ssd s) -> mem_ok (nv_host s) -> mem_ok (nv_ssd s');
  fe_uses : uses 1 (nv_dma s) (nv_dma s') }.

Section fetch.
Context `{DmaEngines} `{MemoryViews} `{Addresses} (cf : fw_cfg) (Hcf : cfg_ok cf).
Context (applet_ftn : Z -> fw -> outcome (Z * fw)).

Lemma process_io_cmd_fetch sqid v sq w :
  let s := fw_nvme w in
  arr_get (nv_sqs s) sqid = Ok (set_sq_tail v sq) -> sq_ready sq -> prp_idle (nv_prp s) -> ready_for 1 (nv_dma s) ->
  exists s', process_io_cmd cf sqid w
      = io_dispatch cf sqid (sq_head sq) (load_le 64 (entry_addr sq) (nv_host s)) (set_nvme s' w)
    /\ fetched cf sqid v sq s s'.
Proof using Hcf.
  intros s Hsq [Hh Hsz Hf He] (Hq & Hi1 & Hi2 & Hi3) Hr.
  assert (Ha : scmd_addr cf (sq_head sq) = cf_scmd_buf cf + 64 * sq_head sq)
    by (unfold scmd_addr; apply u32_id; pose proof (co_scmd _ Hcf); pose proof (co_scmd_end _ Hcf); lia).
  destruct (read_scmd_ok sqid (sq_head sq) (sq_hostAddr sq) (scmd_addr cf (sq_head sq)) 1 dma0 (nv_dma s)
              Hq ltac:(lia) Hf ltac:(lia)) as [Hp Hg];
    [rewrite Ha; unfold fits; pose proof (co_scmd _ Hcf); pose proof (co_scmd_end _ Hcf); lia|].
  destruct (Hg Hr) as [dw E]. destruct (Hp _ _ E) as (_ & _ & Hin & Hout & Hhost & Hq' & (sc & Hsc)).
  cbn [sync_read_scmd dw_sync set_dw_sync sd_dma_type] in E.
  destruct (arr_set_Ok_ex (nv_sqs s) sqid (taken v sq) (arr_get_range _ _ _ Hsq)) as [l El].
  set (s1 := set_nv_dma dw s). exists (set_sqs l s1). split.
  - unfold process_io_cmd. fold s. rewrite Hsq. cbn [obind]. unfold on_nvme, read_scmd.
    change (sq_head (set_sq_tail v sq)) with (sq_head sq).
    change (sq_hostAddr (set_sq_tail v sq)) with (sq_hostAddr sq). fold s. rewrite E. cbn [obind].
    rewrite fw_nvme_set. fold s1. unfold advance_sq. change (nv_sqs s1) with (nv_sqs s).
    rewrite Hsq. cbn [obind]. unfold inc_sq_head, c_mod.
    change (sq_head (set_sq_tail v sq)) with (sq_head sq). change (sq_size (set_sq_tail v sq)) with (sq_size sq).
    rewrite (u32_id (sq_head sq + 1)) by lia. rewrite (proj2 (Z.eqb_neq _ _)) by lia. cbn [obind].
    unfold upd_sqs. fold (taken v sq). change (nv_sqs s1) with (nv_sqs s). rewrite El. cbn [obind].
    rewrite set_nvme_twice. f_equal. unfold scmd_at, fw_ssd. rewrite fw_nvme_set.
    apply load_le_ext. intros o Ho. change (nv_ssd (set_sqs l s1)) with (hi_ssd (dw_hif dw)).
    rewrite Hin by lia. unfold entry_addr. f_equal. 
  - split.
    + exists l, dw. split; [done|]. intros i Hi. by eapply arr_get_set_ne; [|exact El].
    + by eapply arr_get_set_eq.
    + done.
    + exact Hhost.
    + intros Hms Hmh. eapply (mem_ok_update (nv_ssd s) _ _ (scmd_addr cf (sq_head sq)) 64); [exact Hms| |exact Hin|exact Hout].
      intros off _. apply Hmh.
    + exists 1%nat. split; [lia|]. change (dw_scheds dw = drop 1 (dw_scheds (nv_dma s))).
      cbn [set_dw_sync dw_scheds] in Hsc. by rewrite Hsc.
Qed.

(** The poll that finds a door bell of an I/O queue. *)
Lemma check_door_fetch sqid v sq w :
  let s := fw_nvme w in
  door_rung sqid v w -> sqid <> 0 -> arr_get (nv_sqs s) sqid = Ok sq -> sq_ready sq ->
  prp_idle (nv_prp s) -> ready_for 1 (nv_dma s) ->
  exists s' db, check_door_bell cf applet_ftn w
      = io_dispatch cf sqid (sq_head sq) (load_le 64 (entry_addr sq) (nv_host s)) (set_nvme s' (set_db db w))
    /\ fetched cf sqid v sq s s'
    /\ shm_ok dbUpdateQueueSize db
    /\ shm_items dbUpdateQueueSize (fw_db w) = DbUpdate isSQ_DB sqid v :: shm_items dbUpdateQueueSize db.
Proof using Hcf.
  intros s (Hdb & rest & Hrest) Hne Hsq Hr Hi Hrd.
  pose proof (shm_deQueue_spec _ _ Hdb) as Hd. rewrite Hrest in Hd. destruct Hd as (db & Ed & Hdb' & Hx & _ & Hrest').
  destruct (arr_set_Ok_ex (nv_sqs s) sqid (set_sq_tail v sq) (arr_get_range _ _ _ Hsq)) as [l El].
  set (s1 := set_sqs l s).
  assert (Hg1 : arr_get (nv_sqs s1) sqid = Ok (set_sq_tail v sq)) by (by eapply arr_get_set_eq).
  destruct (process_io_cmd_fetch sqid v sq (set_nvme s1 (set_db db w)) Hg1 Hr Hi Hrd) as (s' & E & Hf).
  exists s', db. split; [|split; [|split; [done|by rewrite Hrest, Hrest']]].
  - unfold check_door_bell, read_dbUpdate, deQueueDBUpdate. rewrite Ed, Hx. cbn [DoorBell Qindex db_value].
    rewrite Z.eqb_refl. unfold on_nvme, set_sq_tail_at. change (fw_nvme (set_db db w)) with s. rewrite Hsq. cbn [obind].
    unfold upd_sqs. rewrite El. cbn [obind]. apply Z.eqb_neq in Hne. rewrite Hne. cbn [negb]. exact E.
  - destruct Hf as [(l' & dw & E' & Hoth) F2 F3 F4 F5 F6]. split; try done.
    exists l', dw. split; [by rewrite E'|]. intros i Hi'. rewrite Hoth by done. by eapply arr_get_set_ne; [|exact El].
Qed.

End fetch.

(** ** The drive as a block device *)

(** [n] pages from [start] on hold [data]. *)
Definition write_blocks (page start n : Z) (data : Z -> Z) (dk : disk) : disk :=
  fun lpn off => if (start <=? lpn) && (lpn <? start + n) then data ((lpn - start) * page + off) else dk lpn off.

Section system.
Context {D : Type} `{NandFlash D} `{DmaEngines} `{MemoryViews} `{Addresses} `{Functions}.
Context (cf : fw_cfg) (Hcf : cfg_ok cf) (Hg : geom_ok (cf_geom cf)) (fuel : nat).
Context (Heq : host_page_size (cf_geom cf) = nand_page_size (cf_geom cf)).
Context (applet_ftn : Z -> fw -> outcome (Z * fw)) (other_ftn : Z -> Z -> Z -> machine D -> outcome (machine D)).

Abbreviation run := (run cf (S fuel) applet_ftn other_ftn).
Abbreviation TOTAL := (TOTAL_NUM_OF_PAGES (cf_geom cf)) (only parsing).
Abbreviation PS := (NAND_PAGE_SIZE (cf_geom cf)) (only parsing).

(** Between two commands: the drivers are idle, the NVMe thread polls the door
    bell, and the tables and the flash hold the disk [dk]. *)
Record sys_idle (k : Z) (dk : disk) (used : list req_ptr) (m : machine D) : Prop := {
  si_drv : drv_ok cf used (m_nvme m);
  si_buffer : buffer_idle (nv_buffer (m_nvme m));
  si_kern : kern_ok cf (m_kernel m);
  si_wait : waiting (m_kernel m) [door_entry cf] [] [];
  si_disk : disk_rel (cf_geom cf) k dk (drive_of m);
  si_reads : pool_ready RD True (m_pools m) }.

(** The host has put [scmd] at the head of queue [sqid] and rung its door bell;
    the completion queue has room. *)
Record submitted (sqid v N : Z) (sq : NvmeSQueue) (cq : NvmeCQueue) (scmd : Z) (m : machine D) : Prop := {
  su_sqid : sqid <> 0;
  su_door : door_rung sqid v (m_fw m);
  su_sq : arr_get (nv_sqs (m_nvme m)) sqid = Ok sq;
  su_sq_ready : sq_ready sq;
  su_cq : arr_get (nv_cqs (m_nvme m)) (sq_cqid sq) = Ok cq;
  su_cqid : cq_cqid cq = sq_cqid sq;
  su_cq_ready : cq_ready N cq;
  su_cmd : load_le 64 (entry_addr sq) (nv_host (m_nvme m)) = scmd }.

(** A read or write of blocks the namespace has. *)
Record rw_cmd (opcode scmd : Z) (m : machine D) : Prop := {
  rc_opcode : field NvmeIOSCmd 0 scmd = opcode;
  rc_nsid : field NvmeIOSCmd 3 scmd <= NUM_NS;
  rc_rw : rw_ok cf (nv_host (m_nvme m)) scmd;
  rc_blocks : rw_slba scmd + rw_nlbs scmd + 1 <= cf_nsze cf;
  rc_nsze : cf_nsze cf <= TOTAL }.

(** The command has been completed without error as the [N]-th of its queue. *)
Record ended (n : nat) (sqid v N : Z) (sq : NvmeSQueue) (cq : NvmeCQueue) (scmd : Z) (m m' : machine D) : Prop := {
  en_sq : arr_get (nv_sqs (m_nvme m')) sqid = Ok (taken v sq);
  en_cq : exists cq', arr_get (nv_cqs (m_nvme m')) (sq_cqid sq) = Ok cq' /\ cq_valid (N + 1) cq'
    /\ q_contents (cq_pending cq') = [] /\ same_queue cq cq';
  en_entry : exists dw0, entry_at (nv_host (m_nvme m')) (slot_addr cq (N mod cq_size cq))
                           (success_entry cq N (taken v sq) scmd dw0);
  en_door : shm_items dbUpdateQueueSize (fw_db (m_fw m)) =
            DbUpdate isSQ_DB sqid v :: shm_items dbUpdateQueueSize (fw_db (m_fw m'));
  en_shm : shm_ok dbUpdateQueueSize (fw_db (m_fw m'));
  en_buffer : page_buffer (nv_buffer (m_nvme m')) = page_buffer (nv_buffer (m_nvme m));
  en_uses : uses n (nv_dma (m_nvme m)) (nv_dma (m_nvme m')) }.

(** *** The kernel's part of the state *)

Lemma drv_ok_kernel used k s : drv_ok cf used s -> drv_ok cf used (set_nv_kernel k s).
Proof. intros []. by split. Qed.

Lemma disk_rel_kernel k dk kn (m : machine D) :
  disk_rel (cf_geom cf) k dk (drive_of m) -> disk_rel (cf_geom cf) k dk (drive_of (set_m_kernel kn m)).
Proof. intros []. by split. Qed.

Lemma disk_rel_ext k dk dk' (s : drive D) :
  (forall lpn off, 0 <= lpn < TOTAL -> 0 <= off < PS -> dk lpn off = dk' lpn off) ->
  disk_rel (cf_geom cf) k dk s -> disk_rel (cf_geom cf) k dk' s.
Proof. intros E [H1' H2' H3' H4']. split; try done. intros lpn off Hl Ho. rewrite <- E by done. by apply H4'. Qed.

(** The flash and the tables are not the drivers'. *)
Lemma disk_rel_memory k dk (m m' : machine D) :
  m_ftl m' = m_ftl m -> m_nand m' = m_nand m -> mem_ok (nv_ssd (m_nvme m')) ->
  disk_rel (cf_geom cf) k dk (drive_of m) -> disk_rel (cf_geom cf) k dk (drive_of m').
Proof.
  intros Ef En Hm [A1 A2 A3 A4]. unfold drive_of in *. cbn [d_ftl d_nand d_mem] in *. rewrite Ef, En.
  by split.
Qed.

Lemma verify_accepts scmd opcode m : rw_cmd opcode scmd m -> verify_rw_param cf scmd <> -1.
Proof using Hg.
  intros [_ Hn [Hr _ _] Hb Ht]. unfold verify_rw_param. unfold rw_slba, rw_nlbs in *.
  assert (Hf8 : fits 64 (field NvmeIOSCmd 8 scmd)) by (apply (field_fits NvmeIOSCmd 8); [auto with cint|reflexivity]).
  assert (Hf9 : fits 16 (field NvmeIOSCmd 9 scmd)) by (apply (field_fits NvmeIOSCmd 9); [auto with cint|reflexivity]).
  unfold fits in Hf8, Hf9.
  pose proof (dims (cf_geom cf) Hg) as (_ & _ & _ & _ & _ & _ & HT).
  rewrite (u64_id (_ + _)) by lia. change MDTS_PAGES with 16.
  repeat (case_match; zify_bools; try lia).
Qed.

(** The commands and their lists read the same bytes. *)
Lemma prp_page_host h h' p2 rest j :
  (forall a, h' a = h a) -> prp_page (cf_prp cf) h' p2 rest j = prp_page (cf_prp cf) h p2 rest j.
Proof. intros E. unfold prp_page. destruct (_ <=? _); [done|]. by apply load_le_ext. Qed.

Lemma rw_ok_host h h' c : (forall a, h' a = h a) -> rw_ok cf h c -> rw_ok cf h' c.
Proof.
  intros E [A1 A2 A3]. split; [done| |done]. rewrite <- A2. unfold prp_valid. f_equal. f_equal. f_equal.
  apply forallb_eq. intros j. by rewrite (prp_page_host h h').
Qed.

Lemma data_addr_host h h' c off : (forall a, h' a = h a) -> data_addr cf h' c off = data_addr cf h c off.
Proof. intros E. unfold data_addr, prp_spec_addr. destruct (_ <? _); [done|]. by rewrite (prp_page_host h h'). Qed.

(** *** The write: the NVMe thread takes the command and its data *)

(** The data is in the page buffer, the FTL has been told. *)
Record write_pending (dk : Z * disk) (used : list req_ptr) (scmd : Z) (m m' : machine D) : Prop := {
  wp_drv : drv_ok cf used (m_nvme m');
  wp_kern : kern_ok cf (m_kernel m');
  wp_wait : waiting (m_kernel m') [] [ObjEntry wbc_addr WBC_FLUSH_REQUEST] [];
  wp_pages : wbc_list (wb_pages (wbc (nv_buffer (m_nvme m')))) = cmd_pages cf (nv_buffer (m_nvme m)) scmd;
  wp_num : wb_num_program_pgs (wbc (nv_buffer (m_nvme m'))) = rw_nlbs scmd + 1;
  wp_data : forall off, 0 <= off < rw_len cf scmd ->
    nv_ssd (m_nvme m') (page_buffer (nv_buffer (m_nvme m)) + off)
    = nv_host (m_nvme m) (data_addr cf (nv_host (m_nvme m)) scmd off);
  wp_disk : disk_rel (cf_geom cf) (fst dk) (snd dk) (drive_of m');
  wp_pools : m_pools m' = m_pools m }.

Lemma write_taken k dk used sqid v N sq cq scmd (m : machine D) :
  sys_idle k dk used m -> submitted sqid v N sq cq scmd m -> rw_cmd 1 scmd m ->
  Z.of_nat (length (used_in PoolW used)) < W_SIZE - 1 -> ready_for 19 (nv_dma (m_nvme m)) ->
  exists m', run NVME_DRIVER_THREAD m = Ok m' /\ write_pending (k, dk) used scmd m m'
    /\ ended 19 sqid v N sq cq scmd m m'
    /\ (forall a, ~ in_slot cq (N mod cq_size cq) a -> nv_host (m_nvme m') a = nv_host (m_nvme m) a).
Proof using Hcf Hg.
  intros [Sd Sb Sk Sw Sdisk Sr] [U1 U2 U3 U4 U5 U6 U7 U8] Hcmd Hroom Hready.
  pose proof (verify_accepts _ _ _ Hcmd) as Hver. pose proof Hcmd as [R1 R2 R3 R4 R5].
  destruct (run_door cf (S fuel) applet_ftn other_ftn m _ _ Sk Sw) as (k1 & Hk1 & Hrun).
  destruct (check_door_fetch cf Hcf applet_ftn sqid v sq (m_fw (set_m_kernel k1 m)) U2 U1 U3 U4 (dk_prp _ _ _ Sd)
              ltac:(by apply (ready_le 1 19); [lia|])) as (s1 & db & Ed & [Fs F2 F3 F4 F5 F6] & Hdb & Hitems).
  destruct Fs as (l & dw & -> & Hoth). set (s1 := set_sqs l _) in *.
  change (fw_nvme (m_fw (set_m_kernel k1 m))) with (set_nv_kernel k1 (m_nvme m)) in *.
  change (nv_host (set_nv_kernel k1 (m_nvme m))) with (nv_host (m_nvme m)) in *.
  rewrite U8 in Ed. unfold io_dispatch in Ed. rewrite R1 in Ed. change (1 =? 0x02) with false in Ed.
  change (1 =? 0x01) with true in Ed. cbv iota in Ed.
  set (w1 := set_nvme s1 (set_db db (m_fw (set_m_kernel k1 m)))) in *.
  pose proof (kern_ok_wired _ _ _ (ct_wired _ _ _ Hk1) Sk) as Hko1.
  pose proof (waiting_callback_taken _ _ _ _ _ _ Hk1 Sw) as Hw1.
  assert (Hidle : idle_ok cf used s1).
  { destruct Sd. split; [split|..]; try done; [apply F5; done|intros a; rewrite F4; done|by eapply served_by_ok, ko_in|].
    change (nv_kernel s1) with k1. rewrite (wa_in _ _ _ _ Hw1). simpl. lia. }
  assert (Hq : queues_ok N cq (taken v sq) sqid s1) by (by split).
  destruct (process_write_ok cf Hcf w1 sqid (sq_head sq) scmd used (taken v sq) cq N Hidle Hq
              (rw_ok_host _ _ _ F4 R3) Hver Hroom (uses_ready 1 18 _ _ F6 Hready)) as (s2 & Ep & Hwd).
  rewrite Ep in Ed. destruct Hwd as [W1 W2 W3 W4 W5 W6 W7 W8 W9 W10].
  change (fw_nvme w1) with s1 in *. change (nv_kernel s1) with k1 in *.
  change (nv_buffer s1) with (nv_buffer (m_nvme m)) in *.
  assert (Hko2 : kern_ok cf (nv_kernel s2)).
  { eapply kern_ok_wired; [|exact Hko1]. eapply push_wired; [|exact W8]. by eapply served_by_ok, ko_in. }
  pose proof (waiting_pushed_in _ _ _ _ _ _ W8 Hw1) as Hw2.
  destruct (Hrun _ _ _ Ed Hko2 Hw2) as (k2 & Hk2 & Er).
  eexists. split; [exact Er|]. change (fw_nvme (set_nvme s2 w1)) with s2 in *.
  split; [|split].
  - split; try done.
    + by apply drv_ok_kernel.
    + eapply kern_ok_wired; [apply Hk2|exact Hko2].
    + by eapply waiting_done.
    + intros off Hoff. etransitivity; [exact (W7 off Hoff)|]. rewrite F4. f_equal. by apply data_addr_host.
    + apply (disk_rel_memory k dk m); [done|done|apply W2|exact Sdisk].
  - destruct W1 as [C1 C2 C3 C4]. split; try done.
    + change (arr_get (nv_sqs s2) sqid = Ok (taken v sq)). by rewrite C3.
    + exact (uses_trans 1 18 _ _ _ F6 W10).
  - intros a Ha. etransitivity; [exact (W9 a Ha)|]. apply F4.
Qed.

(** *** The write: the FTL stores the pages *)

Lemma write_pages_seq mm start buf page n (dk : disk) lpn off :
  write_pages mm (map (fun j => (start + j, buf + j * page)) (seqZ 0 (Z.of_nat n))) dk lpn off
  = if (start <=? lpn) && (lpn <? start + Z.of_nat n) then mm (buf + (lpn - start) * page + off) else dk lpn off.
Proof.
  induction n as [|n IH].
  - change (seqZ 0 (Z.of_nat 0)) with (@nil Z). change (Z.of_nat 0) with 0. cbn [map write_pages fold_left].
    destruct (Z.leb_spec start lpn), (Z.ltb_spec lpn (start + 0)); done || lia.
  - rewrite seqZ_S, map_app, Nat2Z.inj_succ. unfold write_pages. rewrite fold_left_app.
    unfold write_pages in IH. cbn [map fold_left]. unfold FtlDisk.write_page at 1. cbn [fst snd]. rewrite IH.
    destruct (Z.eqb_spec lpn (start + (0 + Z.of_nat n))) as [->|Hne].
    + rewrite (proj2 (Z.leb_le _ _)), (proj2 (Z.ltb_lt _ _)) by lia. cbn [andb]. f_equal. f_equal. lia.
    + destruct (Z.leb_spec start lpn); cbn [andb]; [|done].
      destruct (Z.ltb_spec lpn (start + Z.of_nat n)), (Z.ltb_spec lpn (start + Z.succ (Z.of_nat n))); done || lia.
Qed.

(** Nothing the host sees has changed. *)
Record same_io (m m' : machine D) : Prop := {
  so_sqs : nv_sqs (m_nvme m') = nv_sqs (m_nvme m);
  so_cqs : nv_cqs (m_nvme m') = nv_cqs (m_nvme m);
  so_host : forall a, nv_host (m_nvme m') a = nv_host (m_nvme m) a;
  so_db : fw_db (m_fw m') = fw_db (m_fw m);
  so_page_buffer : page_buffer (nv_buffer (m_nvme m')) = page_buffer (nv_buffer (m_nvme m));
  so_scheds : dw_scheds (nv_dma (m_nvme m')) = dw_scheds (nv_dma (m_nvme m)) }.

Lemma entry_at_host h h' a e : (forall b, h' b = h b) -> entry_at h a e -> entry_at h' a e.
Proof.
  intros E (E1 & E2 & E3 & E4). unfold entry_at.
  rewrite (load_le_ext 4 a a h' h), (load_le_ext 2 (a + 8) (a + 8) h' h), (load_le_ext 2 (a + 12) (a + 12) h' h),
    (load_le_ext 2 (a + 14) (a + 14) h' h) by (intros; apply E). done.
Qed.

Lemma ended_same n sqid v N sq cq scmd m m1 m2 :
  ended n sqid v N sq cq scmd m m1 -> same_io m1 m2 -> ended n sqid v N sq cq scmd m m2.
Proof.
  intros [E1 E2 (dw0 & E3) E4 E5 E6 E7] [O1 O2 O3 O4 O5 O6]. split; try congruence.
  - by rewrite O2.
  - exists dw0. by eapply entry_at_host.
  - destruct E7 as (j & Hj & E). exists j. split; [done|]. congruence.
Qed.

Definition on_flash (k : Z) (dk : disk) (used : list req_ptr) (outq : list obj_entry) (m : machine D) : Prop :=
  drv_ok cf used (m_nvme m) /\ kern_ok cf (m_kernel m) /\ waiting (m_kernel m) [] [] outq
  /\ disk_rel (cf_geom cf) k dk (drive_of m).

Lemma pushed_to_nvme p ty k k' :
  queue_ok k FTL_MODULE_OUT_Q -> (length (queue_contents k FTL_MODULE_OUT_Q) < 255)%nat ->
  sys_push_to_nvme p ty k = Ok k' -> kernel_push FTL_MODULE_OUT_Q (ObjEntry p ty) k k'.
Proof.
  intros Hq Hl E. destruct (push_ok FTL_MODULE_OUT_Q p ty k Hq Hl) as (k2 & Ep & Hk).
  unfold sys_push_to_nvme in E. rewrite Ep in E. cbn [obind] in E. by injection E as <-.
Qed.

Lemma write_flushed k dk used scmd F m0 (m : machine D) :
  write_pending (k, dk) used scmd m0 m -> rw_cmd 1 scmd m0 -> page_buffer_ok cf (page_buffer (nv_buffer (m_nvme m0))) ->
  k + rw_nlbs scmd + 1 <= TOTAL -> pool_ready PR F (m_pools m) ->
  exists m', run FTL_MODULE_THREAD m = Ok m' /\ same_io m m'
    /\ on_flash (k + (rw_nlbs scmd + 1))
         (write_blocks PS (rw_slba scmd) (rw_nlbs scmd + 1)
            (fun off => nv_host (m_nvme m0) (data_addr cf (nv_host (m_nvme m0)) scmd off)) dk)
         used [ObjEntry wbc_addr WBC_FLUSH_REQUEST] m'
    /\ pool_idle PR F (m_pools m') /\ same_side RD (m_pools m) (m_pools m').
Proof using Hcf Hg Heq.
  intros [Wd Wk Ww Wp Wn Wdata Wdisk Wpool] [R1 R2 [R3 _ _] R4 R5] Hbuf Hk Hpool. cbn [fst snd] in Wdisk.
  pose proof (dims (cf_geom cf) Hg) as (_ & _ & _ & _ & _ & _ & HT).
  pose proof (rw_nlbs_fits scmd) as Hnf. unfold fits in Hnf.
  assert (Hsf : fits 64 (rw_slba scmd)) by (apply (field_fits NvmeIOSCmd 8); [auto with cint|reflexivity]). unfold fits in Hsf.
  destruct (run_ftl cf (S fuel) applet_ftn other_ftn m _ _ _ _ Wk Ww) as (k1 & Hk1 & Hrun).
  set (m1 := set_m_kernel k1 m) in *. cbn [oe_obj_ptr oe_obj_type] in Hrun.
  pose proof (kern_ok_wired _ _ _ (mt_wired _ _ _ Hk1) Wk) as Hko1.
  pose proof (waiting_taken_in _ _ _ _ _ _ Hk1 Ww) as Hw1.
  assert (Ews : cmd_pages cf (nv_buffer (m_nvme m0)) scmd
    = map (fun j => (rw_slba scmd + j, page_buffer (nv_buffer (m_nvme m0)) + j * PAGE cf)) (seqZ 0 (Z.of_nat (Z.to_nat (rw_nlbs scmd + 1))))).
  { unfold cmd_pages. rewrite Z2Nat.id by lia. apply map_ext_in. intros j Hj%list_elem_of_In%elem_of_seqZ.
    rewrite u32_id by lia. done. }
  assert (Hout : queue_ok (d_kernel (drive_of m1)) FTL_MODULE_OUT_Q) by (eapply served_by_ok, Hko1).
  assert (Houtl : (length (queue_contents (d_kernel (drive_of m1)) FTL_MODULE_OUT_Q) < 255)%nat).
  { change (d_kernel (drive_of m1)) with k1. rewrite (wa_out _ _ _ _ Hw1). simpl. lia. }
  assert (Hlen : Z.of_nat (length (cmd_pages cf (nv_buffer (m_nvme m0)) scmd)) = rw_nlbs scmd + 1)
    by (rewrite Ews, length_map, length_seqZ; lia).
  destruct (process_wbc_ok (cf_geom cf) Hg fuel F k dk wbc_addr (wbc (nv_buffer (m_nvme m1))) (drive_of m1))
    as (w' & d' & E & Hr & _ & Hcmp & Hwl & Hmem & _ & Hpi & Hside & Hpush & Hty & Hwlen).
  - by apply disk_rel_kernel.
  - apply Wd.
  - change (nv_buffer (m_nvme m1)) with (nv_buffer (m_nvme m)). rewrite Wn. lia.
  - change (nv_buffer (m_nvme m1)) with (nv_buffer (m_nvme m)). rewrite Wp, Ews.
    apply Forall_forall. intros [a b] Hab. apply list_elem_of_In, list_elem_of_fmap in Hab as (j & Ej & Hj%elem_of_seqZ).
    injection Ej as -> ->. cbn [fst snd]. split; [lia|]. destruct Hbuf as [Hb0 Hb1 _ _]. fold (PAGE cf) in Hb1.
    assert (0 < PAGE cf) by (apply Z.pow_pos_nonneg; [lia|pose proof (co_ds _ Hcf); lia]). nia.
  - change (nv_buffer (m_nvme m1)) with (nv_buffer (m_nvme m)). rewrite Wp, Hlen. lia.
  - exact Hpool.
  - exact Hout.
  - exact Houtl.
  - change (nv_buffer (m_nvme m1)) with (nv_buffer (m_nvme m)) in *. rewrite Wp in *. rewrite Hlen in Hr.
    set (m2 := put_drive d' m1).
    set (w2 := set_nvme (set_nv_buffer (set_wbc w' (nv_buffer (m_nvme m2))) (m_nvme m2)) (m_fw m2)).
    assert (Hkp : kernel_push FTL_MODULE_OUT_Q (ObjEntry wbc_addr WBC_FLUSH_REQUEST) k1 (d_kernel d')).
    { rewrite <- (dk_type _ _ _ Wd). by apply pushed_to_nvme. }
    assert (Hko2 : kern_ok cf (m_kernel (set_m_fw w2 m2)))
      by (eapply kern_ok_wired; [by eapply push_wired|exact Hko1]).
    destruct (Hrun (set_m_fw w2 m2)) as (k2 & Hk2 & Er); [|exact Hko2|].
    { unfold ftl_callback. change (WBC_FLUSH_REQUEST =? READ_IO_REQUEST) with false.
      change (WBC_FLUSH_REQUEST =? WBC_FLUSH_REQUEST) with true. cbn [orb]. unfold ftl_object.
      change (WBC_FLUSH_REQUEST =? WBC_FLUSH_REQUEST) with true. cbv iota. rewrite Z.eqb_refl. cbn [obind].
      unfold process_req_cbk. change (WBC_FLUSH_REQUEST =? READ_IO_REQUEST) with false.
      change (WBC_FLUSH_REQUEST =? WBC_FLUSH_REQUEST) with true. cbv iota.
      change (fw_nvme (m_fw m1)) with (m_nvme m1). change (nv_buffer (m_nvme m1)) with (nv_buffer (m_nvme m)).
      rewrite E. cbn [obind]. reflexivity. }
    eexists. split; [exact Er|]. split; [by split|]. split; [|by split].
    destruct Wd as [D1 D2 D3 D4 D5 D6 D7 D8 D9 D10]. split_and!.
    + apply drv_ok_kernel. split; try done.
      * change (wb_type w' = WBC_FLUSH_REQUEST). congruence.
      * intros a. change (fits 8 (d_mem d' a)). rewrite Hmem. apply D9.
    + eapply kern_ok_wired; [apply Hk2|exact Hko2].
    + eapply waiting_done; [exact Hk2|]. by apply (waiting_pushed_out k1 _ [] [] []).
    + destruct Hr as [A1 A2 A3 A4]. split; try done. intros lpn off Hl Ho. rewrite <- A4 by done.
      rewrite Ews, write_pages_seq. unfold write_blocks. rewrite Z2Nat.id by lia.
      destruct (Z.leb_spec (rw_slba scmd) lpn); cbn [andb]; [|done].
      destruct (Z.ltb_spec lpn (rw_slba scmd + (rw_nlbs scmd + 1))); [|done].
      destruct (page_size_pos (cf_geom cf) Hg Heq) as (_ & _ & EP & EQ).
      assert (Ep : PAGE cf = PS) by (unfold PAGE, HOST_DS; by rewrite Heq, EQ).
      rewrite Ep, <- Z.add_assoc. symmetry. apply Wdata.
      unfold rw_len. rewrite Z.shiftl_mul_pow2 by (pose proof (co_ds _ Hcf); lia).
      fold (PAGE cf). rewrite Ep. nia.
Qed.

(** *** The write: the NVMe thread ends the flush *)

Lemma door_ok_kern k : kern_ok cf k -> (length (cbk_contents k NVME_DRIVER_THREAD) < 255)%nat -> door_ok cf k.
Proof. intros Hk Hl. split; [|done]. exists fp_check_door_bell. apply Hk. Qed.

Lemma write_finished k dk used (m : machine D) :
  on_flash k dk used [ObjEntry wbc_addr WBC_FLUSH_REQUEST] m -> pool_ready RD True (m_pools m) ->
  exists m', run NVME_DRIVER_THREAD m = Ok m' /\ same_io m m' /\ sys_idle k dk used m' /\ m_pools m' = m_pools m.
Proof using Hcf.
  intros (Hd & Hk & Hw & Hr) Hpool.
  destruct (run_completed cf (S fuel) applet_ftn other_ftn m _ _ _ Hk Hw) as (k1 & Hk1 & Hrun).
  set (m1 := set_m_kernel k1 m) in *. cbn [oe_obj_ptr oe_obj_type] in Hrun.
  pose proof (kern_ok_wired _ _ _ (mt_wired _ _ _ Hk1) Hk) as Hko1.
  pose proof (waiting_taken_out _ _ _ _ _ _ Hk1 Hw) as Hw1.
  destruct (completed_wbc_ok cf (m_fw m1) (request_at wbc_addr) used) as (s' & E & [F1 F2 F3 F4 F5 F6 F7]).
  - by apply drv_ok_kernel.
  - apply door_ok_kern; [exact Hko1|]. change (nv_kernel (fw_nvme (m_fw m1))) with k1.
    rewrite (wa_nvme _ _ _ _ Hw1). simpl. lia.
  - change (fw_nvme (m_fw m1)) with (m_nvme m1) in *. change (nv_kernel (m_nvme m1)) with k1 in F7.
    assert (Hko2 : kern_ok cf (nv_kernel s'))
      by (eapply kern_ok_wired; [by eapply callback_wired, F7; apply Hko1|exact Hko1]).
    destruct (Hrun _ E Hko2) as (k2 & Hk2 & Er). eexists. split; [exact Er|].
    change (fw_nvme (set_nvme s' (m_fw m1))) with s' in *. split; [|split; [|done]].
    + split; try done; try (by cbn; rewrite ?F3, ?F4, ?F6).
      * intros a. change (hi_host (dw_hif (pw_world (nv_prp s'))) a = nv_host (m_nvme m) a). by rewrite F5.
      * change (dw_scheds (pw_world (nv_prp s')) = dw_scheds (nv_dma (m_nvme m))). by rewrite F5.
    + split; try done.
      * by apply drv_ok_kernel.
      * eapply kern_ok_wired; [apply Hk2|exact Hko2].
      * eapply waiting_done; [exact Hk2|]. by apply (waiting_callback_added k1 _ _ [] [] []).
      * apply (disk_rel_memory k dk m); [done|done|apply F1|exact Hr].
Qed.

(** *** The write as a whole *)

(** What the three runs of a command do. *)
Definition three_runs (m m' : machine D) : Prop :=
  exists m1 m2, run NVME_DRIVER_THREAD m = Ok m1 /\ run FTL_MODULE_THREAD m1 = Ok m2
    /\ run NVME_DRIVER_THREAD m2 = Ok m'.

Lemma write_ok k dk used sqid v N sq cq scmd F (m : machine D) :
  sys_idle k dk used m -> submitted sqid v N sq cq scmd m -> rw_cmd 1 scmd m ->
  Z.of_nat (length (used_in PoolW used)) < W_SIZE - 1 -> k + rw_nlbs scmd + 1 <= TOTAL ->
  pool_ready PR F (m_pools m) -> ready_for 19 (nv_dma (m_nvme m)) ->
  exists m', three_runs m m'
    /\ sys_idle (k + (rw_nlbs scmd + 1))
         (write_blocks PS (rw_slba scmd) (rw_nlbs scmd + 1)
            (fun off => nv_host (m_nvme m) (data_addr cf (nv_host (m_nvme m)) scmd off)) dk) used m'
    /\ ended 19 sqid v N sq cq scmd m m'
    /\ (forall a, ~ in_slot cq (N mod cq_size cq) a -> nv_host (m_nvme m') a = nv_host (m_nvme m) a)
    /\ pool_idle PR F (m_pools m').
Proof using Hcf Hg Heq.
  intros Hs Hsub Hcmd Hroom Hk Hpool Hready.
  destruct (write_taken k dk used sqid v N sq cq scmd m Hs Hsub Hcmd Hroom Hready) as (m1 & E1 & Hp & He & Hh).
  destruct (write_flushed k dk used scmd F m m1 Hp Hcmd (dk_page_buffer _ _ _ (si_drv _ _ _ _ Hs)) Hk)
    as (m2 & E2 & Hio & Hfl & Hpi & Hside); [by rewrite (wp_pools _ _ _ _ _ Hp)|].
  destruct (write_finished _ _ used m2 Hfl) as (m3 & E3 & Hio3 & Hs3 & Hp3).
  { eapply pool_ready_same; [exact Hside|]. rewrite (wp_pools _ _ _ _ _ Hp). apply Hs. }
  exists m3. split; [by exists m1, m2|]. split; [exact Hs3|]. split; [by eapply ended_same, Hio3; eapply ended_same|].
  split; [|by rewrite Hp3]. intros a Ha. rewrite (so_host _ _ Hio3), (so_host _ _ Hio). by apply Hh.
Qed.

(** *** The read *)

(** The read waits for the FTL, its buffer taken. *)
Record read_pending (k : Z) (dk : disk) (used : list req_ptr) (sqid sqe N : Z) (cq : NvmeCQueue) (scmd : Z)
  (req : req_ptr) (r : io_req) (outq inq : list obj_entry) (m m' : machine D) : Prop := {
  rp_drv : drv_ok cf (req :: used) (m_nvme m');
  rp_obj : get_obj req (nv_alloc (m_nvme m')) = Ok (OIo r);
  rp_fresh : fresh_req sqid sqe scmd cq READ_IO_REQUEST r;
  rp_transfer : transfer_ok cf (nv_host (m_nvme m)) scmd (page_buffer (nv_buffer (m_nvme m))) (rq_dma r);
  rp_invalid : all_invalid (wb_pages (wbc (nv_buffer (m_nvme m'))));
  rp_kern : kern_ok cf (m_kernel m');
  rp_wait : waiting (m_kernel m') [] inq outq;
  rp_disk : disk_rel (cf_geom cf) k dk (drive_of m') }.

Definition read_entry (req : req_ptr) : obj_entry := ObjEntry (req_addr req) READ_IO_REQUEST.

(** The queues of the command after it was taken, before it is completed. *)
Record in_progress (n : nat) (sqid v : Z) (sq : NvmeSQueue) (m m' : machine D) : Prop := {
  ip_sq : arr_get (nv_sqs (m_nvme m')) sqid = Ok (taken v sq);
  ip_cqs : nv_cqs (m_nvme m') = nv_cqs (m_nvme m);
  ip_door : shm_items dbUpdateQueueSize (fw_db (m_fw m)) =
            DbUpdate isSQ_DB sqid v :: shm_items dbUpdateQueueSize (fw_db (m_fw m'));
  ip_shm : shm_ok dbUpdateQueueSize (fw_db (m_fw m'));
  ip_host : forall a, nv_host (m_nvme m') a = nv_host (m_nvme m) a;
  ip_buffer : page_buffer (nv_buffer (m_nvme m')) = page_buffer (nv_buffer (m_nvme m));
  ip_used : uses n (nv_dma (m_nvme m)) (nv_dma (m_nvme m')) }.

Lemma read_taken k dk used sqid v N sq cq scmd (m : machine D) :
  sys_idle k dk used m -> submitted sqid v N sq cq scmd m -> rw_cmd 2 scmd m ->
  Z.of_nat (length (used_in PoolR used)) < R_SIZE - 1 -> ready_for 2 (nv_dma (m_nvme m)) ->
  exists req r m', run NVME_DRIVER_THREAD m = Ok m'
    /\ read_pending k dk used sqid (sq_head sq) N cq scmd req r [] [read_entry req] m m'
    /\ in_progress 2 sqid v sq m m' /\ m_pools m' = m_pools m.
Proof using Hcf Hg.
  intros [Sd Sb Sk Sw Sdisk Sr] [U1 U2 U3 U4 U5 U6 U7 U8] Hcmd Hroom Hready.
  pose proof (verify_accepts _ _ _ Hcmd) as Hver. pose proof Hcmd as [R1 R2 R3 R4 R5].
  destruct (run_door cf (S fuel) applet_ftn other_ftn m _ _ Sk Sw) as (k1 & Hk1 & Hrun).
  destruct (check_door_fetch cf Hcf applet_ftn sqid v sq (m_fw (set_m_kernel k1 m)) U2 U1 U3 U4 (dk_prp _ _ _ Sd)
              ltac:(by apply (ready_le 1 2); [lia|])) as (s1 & db & Ed & [Fs F2 F3 F4 F5 F6] & Hdb & Hitems).
  destruct Fs as (l & dw & -> & Hoth). set (s1 := set_sqs l _) in *.
  change (fw_nvme (m_fw (set_m_kernel k1 m))) with (set_nv_kernel k1 (m_nvme m)) in *.
  change (nv_host (set_nv_kernel k1 (m_nvme m))) with (nv_host (m_nvme m)) in *.
  rewrite U8 in Ed. unfold io_dispatch in Ed. rewrite R1 in Ed. change (2 =? 0x02) with true in Ed. cbv iota in Ed.
  set (w1 := set_nvme s1 (set_db db (m_fw (set_m_kernel k1 m)))) in *.
  pose proof (kern_ok_wired _ _ _ (ct_wired _ _ _ Hk1) Sk) as Hko1.
  pose proof (waiting_callback_taken _ _ _ _ _ _ Hk1 Sw) as Hw1.
  assert (Hidle : idle_ok cf used s1).
  { destruct Sd. split; [split|..]; try done; [apply F5; done|intros a; rewrite F4; done|by eapply served_by_ok, ko_in|].
    change (nv_kernel s1) with k1. rewrite (wa_in _ _ _ _ Hw1). simpl. lia. }
  assert (Hq : queues_ok N cq (taken v sq) sqid s1) by (by split).
  destruct (process_read_ok cf Hcf w1 sqid (sq_head sq) scmd used (taken v sq) cq N Hidle Hq
              (rw_ok_host _ _ _ F4 R3) Hver Hroom (uses_ready 1 1 _ _ F6 Hready)) as (req & r & s2 & Ep & Hrs).
  rewrite Ep in Ed. destruct Hrs as [W1 W2 W3 W4 W5 W6 W7 W8 W9 W10 W11].
  change (fw_nvme w1) with s1 in *. change (nv_kernel s1) with k1 in *.
  change (nv_buffer s1) with (nv_buffer (m_nvme m)) in *.
  assert (Hko2 : kern_ok cf (nv_kernel s2)).
  { eapply kern_ok_wired; [|exact Hko1]. eapply push_wired; [|exact W9]. by eapply served_by_ok, ko_in. }
  pose proof (waiting_pushed_in _ _ _ _ _ _ W9 Hw1) as Hw2.
  destruct (Hrun _ _ _ Ed Hko2 Hw2) as (k2 & Hk2 & Er).
  exists req, r. eexists. split; [exact Er|]. change (fw_nvme (set_nvme s2 w1)) with s2 in *.
  split; [|split; [|done]].
  - split; try done.
    + by apply drv_ok_kernel.
    + destruct W3 as [T1 T2 T3 T4 T5 T6]. split; try done.
      * intros off Hoff. rewrite T4 by done. by apply data_addr_host.
      * rewrite T6. by apply cmd_segs_host.
    + change (all_invalid (wb_pages (wbc (nv_buffer s2)))). rewrite W6. apply Sb.
    + eapply kern_ok_wired; [apply Hk2|exact Hko2].
    + by eapply waiting_done.
    + apply (disk_rel_memory k dk m); [done|done|apply W4|exact Sdisk].
  - split; try done.
    + change (arr_get (nv_sqs s2) sqid = Ok (taken v sq)). by rewrite W7.
    + intros a. change (nv_host s2 a = nv_host (m_nvme m) a). by rewrite W10.
    + change (page_buffer (nv_buffer s2) = page_buffer (nv_buffer (m_nvme m))). by rewrite W6.
    + exact (uses_trans 1 1 _ _ _ F6 W11).
Qed.

Lemma request_in_use p used a : alloc_inv a (p :: used) -> request_at (req_addr p) = Some p.
Proof.
  intros Hi. apply (request_at_addr (ptr_pool p)). rewrite <- (ai_perm _ _ Hi (ptr_pool p)).
  apply elem_of_app. right. apply list_elem_of_filter. split; [done|]. constructor.
Qed.

Lemma read_loaded k dk used sqid sqe N cq scmd req r m0 (m : machine D) :
  read_pending k dk used sqid sqe N cq scmd req r [] [read_entry req] m0 m -> rw_cmd 2 scmd m0 ->
  page_buffer_ok cf (page_buffer (nv_buffer (m_nvme m0))) -> pool_ready RD True (m_pools m) ->
  exists r' m', run FTL_MODULE_THREAD m = Ok m' /\ same_io m m'
    /\ read_pending k dk used sqid sqe N cq scmd req r' [read_entry req] [] m0 m'
    /\ (forall off, 0 <= off < rw_len cf scmd ->
          nv_ssd (m_nvme m') (page_buffer (nv_buffer (m_nvme m0)) + off) = dk (rw_slba scmd + off / PS) (off mod PS))
    /\ pool_ready RD True (m_pools m') /\ same_side PR (m_pools m) (m_pools m').
Proof using Hcf Hg Heq.
  intros [P1 P2 P3 P4 P5 P6 P7 P8] [R1 R2 [R3 _ _] R4 R5] [B1 B2 _ _] Hpool.
  pose proof (dims (cf_geom cf) Hg) as (_ & _ & _ & _ & _ & _ & HT).
  destruct (page_size_pos (cf_geom cf) Hg Heq) as (HPS & _ & EP & EQ).
  assert (Ep : 2 ^ HOST_DS (cf_geom cf) = PS) by (unfold HOST_DS; by rewrite Heq, EQ). rewrite Ep in B2.
  pose proof (rw_nlbs_fits scmd) as Hnf. unfold fits in Hnf.
  assert (Hsf : fits 64 (rw_slba scmd)) by (apply (field_fits NvmeIOSCmd 8); [auto with cint|reflexivity]). unfold fits in Hsf.
  pose proof P3 as [F1 F2 F3 F4 [C1 C2 C3 C4 C5]]. pose proof P4 as [T1 T2 T3 T4 T5 T6].
  destruct (run_ftl cf (S fuel) applet_ftn other_ftn m _ _ _ _ P6 P7) as (k1 & Hk1 & Hrun).
  set (m1 := set_m_kernel k1 m) in *. cbn [oe_obj_ptr oe_obj_type read_entry] in Hrun.
  pose proof (kern_ok_wired _ _ _ (mt_wired _ _ _ Hk1) P6) as Hko1.
  pose proof (waiting_taken_in _ _ _ _ _ _ Hk1 P7) as Hw1.
  pose proof (request_in_use req used _ (dk_inv _ _ _ P1)) as Hreq.
  pose proof (dk_shapes _ _ _ P1 _ _ P2) as [S1 S2 S3].
  assert (En : io_nlbs r = rw_nlbs scmd) by (rewrite <- C5; symmetry; apply io_rw_nlbs).
  assert (Es : io_slba r = rw_slba scmd) by exact C4.
  destruct (ftl_read_io_ok (cf_geom cf) Hg Heq True k dk (req_addr req) r (drive_of m1))
    as (r' & d' & E & Hmem & Hr & Hftl & _ & _ & Hdma & _ & _ & Hpi & Hside & Hpush & (meta & Hml & Er'));
    [by apply disk_rel_kernel|done|lia|lia|rewrite T5; lia|rewrite T5; nia|exact Hpool
    |by eapply served_by_ok, Hko1
    |change (d_kernel (drive_of m1)) with k1; rewrite (wa_out _ _ _ _ Hw1); simpl; lia|].
  set (m2 := put_drive d' m1). change (d_kernel (drive_of m1)) with k1 in Hpush. rewrite F1 in Hpush.
  destruct (put_io_ok req r r' (req :: used) (m_fw m2) (dk_inv _ _ _ P1) (dk_shapes _ _ _ P1) P2)
    as (a' & Eput & [A1 A2 A3 A4]); [by rewrite Er'|by rewrite Er'; split|].
  set (w2 := set_nvme (set_alloc a' (fw_nvme (m_fw m2))) (m_fw m2)) in *.
  assert (Hkp : kernel_push FTL_MODULE_OUT_Q (read_entry req) k1 (d_kernel d')).
  { apply pushed_to_nvme; [by eapply served_by_ok, Hko1|rewrite (wa_out _ _ _ _ Hw1); simpl; lia|done]. }
  assert (Hko2 : kern_ok cf (m_kernel (set_m_fw w2 m2))).
  { eapply kern_ok_wired; [eapply push_wired; [|exact Hkp]|exact Hko1]. by eapply served_by_ok, Hko1. }
  destruct (Hrun (set_m_fw w2 m2)) as (k2 & Hk2 & Er2); [|exact Hko2|].
  { unfold ftl_callback. change (READ_IO_REQUEST =? READ_IO_REQUEST) with true. cbn [orb]. unfold ftl_object.
    change (READ_IO_REQUEST =? WBC_FLUSH_REQUEST) with false. cbv iota. rewrite Hreq. cbn [deref obind].
    change (READ_IO_REQUEST =? READ_IO_REQUEST) with true. cbv iota.
    rewrite (get_io_ok req r (m_fw m1) P2). cbn [obind]. unfold process_req_cbk.
    change (READ_IO_REQUEST =? READ_IO_REQUEST) with true. cbv iota. rewrite E. cbn [obind put_ftl_object].
    rewrite Hreq. cbn [deref obind]. fold m2. by rewrite Eput. }
  exists r'. eexists. split; [exact Er2|]. split; [by split|]. destruct P1 as [D1 D2 D3 D4 D5 D6 D7 D8 D9 D10].
  assert (Hmo : mem_ok (d_mem d')) by apply Hr.
  split; [|split; [|split; [|exact Hside]]].
  - split; try done.
    + rewrite Er'. by split.
    + rewrite Er'. by split.
    + eapply kern_ok_wired; [apply Hk2|exact Hko2].
    + eapply waiting_done; [exact Hk2|]. by apply (waiting_pushed_out k1 _ [] [] []).
    + destruct Hr as [Q1 Q2 Q3 Q4]. by split.
  - intros off Hoff. change (d_mem d' (page_buffer (nv_buffer (m_nvme m0)) + off) = dk (rw_slba scmd + off / PS) (off mod PS)).
    rewrite Hmem, T5, En, Es. unfold read_result, page_ix.
    replace (page_buffer (nv_buffer (m_nvme m0)) + off - page_buffer (nv_buffer (m_nvme m0))) with off by lia.
    replace (in_range _ _) with true; [done|]. symmetry. apply in_range_true.
    unfold rw_len in Hoff. rewrite Z.shiftl_mul_pow2 in Hoff by (pose proof (co_ds _ Hcf); lia). rewrite Ep in Hoff.
    split; [apply Z.div_pos; lia|apply Z.div_lt_upper_bound; lia].
  - by apply pool_idle_ready.
Qed.

(** The host's pages of the command are apart from each other and from the slot
    of its completion. *)
Record read_target (N : Z) (cq : NvmeCQueue) (scmd : Z) (m : machine D) : Prop := {
  rt_disjoint : segs_disjoint (cmd_segs cf (nv_host (m_nvme m)) scmd);
  rt_slot : forall off, 0 <= off < rw_len cf scmd ->
    ~ in_slot cq (N mod cq_size cq) (data_addr cf (nv_host (m_nvme m)) scmd off) }.

Lemma read_finished k dk used sqid v N sq cq scmd req r n m0 (m : machine D) :
  read_pending k dk used sqid (sq_head sq) N cq scmd req r [read_entry req] [] m0 m ->
  in_progress n sqid v sq m0 m -> submitted sqid v N sq cq scmd m0 -> read_target N cq scmd m0 ->
  pool_ready RD True (m_pools m) -> ready_for 17 (nv_dma (m_nvme m)) ->
  exists m', run NVME_DRIVER_THREAD m = Ok m' /\ sys_idle k dk used m' /\ ended (n + 17) sqid v N sq cq scmd m0 m'
    /\ (forall off, 0 <= off < rw_len cf scmd ->
          nv_host (m_nvme m') (data_addr cf (nv_host (m_nvme m0)) scmd off)
          = nv_ssd (m_nvme m) (page_buffer (nv_buffer (m_nvme m0)) + off))
    /\ (forall a, ~ in_slot cq (N mod cq_size cq) a ->
          (forall off, 0 <= off < rw_len cf scmd -> a <> data_addr cf (nv_host (m_nvme m0)) scmd off) ->
          nv_host (m_nvme m') a = nv_host (m_nvme m0) a)
    /\ m_pools m' = m_pools m.
Proof using Hcf.
  intros [P1 P2 P3 P4 P5 P6 P7 P8] [I1 I2 I3 I4 I5 I6 I7] [U1 U2 U3 U4 U5 U6 U7 U8] [Hdis Hslot] Hpool Hready.
  destruct (run_completed cf (S fuel) applet_ftn other_ftn m _ _ _ P6 P7) as (k1 & Hk1 & Hrun).
  set (m1 := set_m_kernel k1 m) in *. cbn [oe_obj_ptr oe_obj_type read_entry] in Hrun.
  pose proof (kern_ok_wired _ _ _ (mt_wired _ _ _ Hk1) P6) as Hko1.
  pose proof (waiting_taken_out _ _ _ _ _ _ Hk1 P7) as Hw1.
  rewrite (request_in_use req used _ (dk_inv _ _ _ P1)) in Hrun.
  destruct (completed_read_ok cf Hcf (m_fw m1) req r sqid (sq_head sq) scmd (nv_host (m_nvme m0)) used (taken v sq) cq N)
    as (s' & E & [D1 D2 D3 D4 D5 D6 D7 D8]); change (fw_nvme (m_fw m1)) with (m_nvme m1) in *;
    change (page_buffer (nv_buffer (m_nvme m1))) with (page_buffer (nv_buffer (m_nvme m))) in *; rewrite ?I6 in *.
  - by apply drv_ok_kernel.
  - exact P2.
  - exact P3.
  - exact P4.
  - rewrite (to_segs _ _ _ _ _ P4). exact Hdis.
  - exact P5.
  - split; try done. change (arr_get (nv_cqs (m_nvme m)) (sq_cqid sq) = Ok cq). by rewrite I2.
  - apply door_ok_kern; [exact Hko1|]. change (nv_kernel (m_nvme m1)) with k1.
    rewrite (wa_nvme _ _ _ _ Hw1). simpl. lia.
  - exact Hslot.
  - exact Hready.
  - change (nv_kernel (m_nvme m1)) with k1 in D7.
    assert (Hko2 : kern_ok cf (nv_kernel s'))
      by (eapply kern_ok_wired; [by eapply callback_wired, D7; apply Hko1|exact Hko1]).
    destruct (Hrun _ E Hko2) as (k2 & Hk2 & Er). eexists. split; [exact Er|].
    change (fw_nvme (set_nvme s' (m_fw m1))) with s' in *. split; [|split; [|split; [|split; [|done]]]].
    + split; try done.
      * by apply drv_ok_kernel.
      * eapply kern_ok_wired; [apply Hk2|exact Hko2].
      * eapply waiting_done; [exact Hk2|]. by apply (waiting_callback_added k1 _ _ [] [] []).
      * apply (disk_rel_memory k dk m); [done|done|apply D2|exact P8].
    + destruct D1 as [C1 C2 C3 C4]. split; try done.
      * change (arr_get (nv_sqs s') sqid = Ok (taken v sq)). by rewrite C3.
      * exact (uses_trans n 17 _ _ _ I7 D8).
    + exact D5.
    + intros a Ha Hb. rewrite <- I5. by apply D6.
Qed.

Lemma read_ok k dk used sqid v N sq cq scmd (m : machine D) :
  sys_idle k dk used m -> submitted sqid v N sq cq scmd m -> rw_cmd 2 scmd m -> read_target N cq scmd m ->
  Z.of_nat (length (used_in PoolR used)) < R_SIZE - 1 -> ready_for 19 (nv_dma (m_nvme m)) ->
  exists m', three_runs m m' /\ sys_idle k dk used m' /\ ended 19 sqid v N sq cq scmd m m'
    /\ (forall off, 0 <= off < rw_len cf scmd ->
          nv_host (m_nvme m') (data_addr cf (nv_host (m_nvme m)) scmd off)
          = dk (rw_slba scmd + off / PS) (off mod PS))
    /\ (forall a, ~ in_slot cq (N mod cq_size cq) a ->
          (forall off, 0 <= off < rw_len cf scmd -> a <> data_addr cf (nv_host (m_nvme m)) scmd off) ->
          nv_host (m_nvme m') a = nv_host (m_nvme m) a)
    /\ same_side PR (m_pools m) (m_pools m').
Proof using Hcf Hg Heq.
  intros Hs Hsub Hcmd Ht Hroom Hready.
  destruct (read_taken k dk used sqid v N sq cq scmd m Hs Hsub Hcmd Hroom ltac:(by apply (ready_le 2 19); [lia|]))
    as (req & r & m1 & E1 & Hp & Hip & Hpool).
  destruct (read_loaded k dk used sqid _ N cq scmd req r m m1 Hp Hcmd (dk_page_buffer _ _ _ (si_drv _ _ _ _ Hs)))
    as (r' & m2 & E2 & Hio & Hp2 & Hdata & Hpool2 & Hside); [rewrite Hpool; apply Hs|].
  assert (Hip2 : in_progress 2 sqid v sq m m2).
  { destruct Hip as [I1 I2 I3 I4 I5 I6 (j & Hj & I7)], Hio as [O1 O2 O3 O4 O5 O6]. split; try congruence.
    exists j. split; [done|]. congruence. }
  destruct (read_finished k dk used sqid v N sq cq scmd req r' 2 m m2 Hp2 Hip2 Hsub Ht Hpool2)
    as (m3 & E3 & Hs3 & He & Hd & Hh & Hpl).
  { exact (uses_ready 2 17 _ _ (ip_used _ _ _ _ _ _ Hip2) Hready). }
  exists m3. split; [by exists m1, m2|]. split; [done|]. split; [done|]. split.
  - intros off Hoff. rewrite Hd by done. by apply Hdata.
  - split; [done|]. by rewrite Hpl, <- Hpool.
Qed.

End system.
