(* ===== verification/SysProps.v ===== *)
(** * The drive as a block device

    What the host may rely on for one command and for a write followed by a read,
    and what becomes of a write when the FTL has no program batch left. *)

From Stdlib Require Import ZArith Lia Bool List.
From stdpp Require Import base tactics option list list_numbers functions.
From S2P Require Import Prelude CTypes Queue Kernel KernelRun MemUtil Geom NandIo Ftl FtlInv Requests FtlIo FtlDisk.
From S2P Require Import HostIf HostDma Prp ReqAlloc BufferMgt NvmeQueues NvmePost Firmware Isp Nvme NvmeIo NvmeRw.
From S2P Require Import System SysRun SysIo.

(** ** The host's turn

    Between two commands the host changes its own memory and rings door bells;
    the host interface is at rest. *)
Record host_turn {D} (m m' : machine D) : Prop := {
  ht_ftl : m_ftl m' = m_ftl m;
  ht_pools : m_pools m' = m_pools m;
  ht_nand : m_nand m' = m_nand m;
  ht_nvme : exists dw, m_nvme m' = set_nv_dma dw (m_nvme m);
  ht_ssd : forall a, nv_ssd (m_nvme m') a = nv_ssd (m_nvme m) a;
  ht_quiet : quiet (nv_dma (m_nvme m'));
  ht_host : mem_ok (nv_host (m_nvme m')) }.

(** The pool of program batches hands out NULL next. *)
Definition no_program_batch (ps : op_pools) : Prop :=
  q_size (free_pop_objs ps) <> 0
  /\ arr_get (q_objs (free_pop_objs ps)) (q_head (free_pop_objs ps)) = Ok None.

Section props.
Context {D : Type} `{NandFlash D} `{DmaEngines} `{MemoryViews} `{Addresses} `{Functions}.
Context (cf : fw_cfg) (Hcf : cfg_ok cf) (Hg : geom_ok (cf_geom cf)) (fuel : nat).
Context (Heq : host_page_size (cf_geom cf) = nand_page_size (cf_geom cf)).
Context (applet_ftn : Z -> fw -> outcome (Z * fw)) (other_ftn : Z -> Z -> Z -> machine D -> outcome (machine D)).

Abbreviation run := (run cf (S fuel) applet_ftn other_ftn).
Abbreviation three_runs := (three_runs cf fuel applet_ftn other_ftn).
Abbreviation TOTAL := (TOTAL_NUM_OF_PAGES (cf_geom cf)) (only parsing).
Abbreviation PS := (NAND_PAGE_SIZE (cf_geom cf)) (only parsing).

Lemma sys_idle_host k dk used (m m' : machine D) :
  sys_idle cf k dk used m -> host_turn m m' -> sys_idle cf k dk used m'.
Proof.
  intros [Sd Sb Sk Sw [A1 A2 A3 A4] Sr] [T1 T2 T3 (dw & T4) T5 T6 T7].
  destruct Sd as [D1 D2 (Q1 & Q2 & Q3 & Q4) D4 D5 D6 D7 D8 D9 D10].
  assert (Hms : mem_ok (nv_ssd (m_nvme m'))) by (intros a; rewrite T5; apply D9).
  assert (Hk : m_kernel m' = m_kernel m) by (unfold m_kernel; by rewrite T4).
  split; rewrite ?Hk, ?T2; try done.
  - split; try done; rewrite ?T4; try done. split; [|done]. by rewrite <- T4.
  - by rewrite T4.
  - apply (disk_rel_memory cf k dk m); done.
Qed.

(** C1: a write command stores its data: when the host has put a write of up to
    16 blocks of the namespace, with well-formed PRP fields, in a submission
    queue and rung the door bell, then one run each of the NVMe thread, the FTL
    thread and the NVMe thread again takes the command, puts the bytes its PRP
    pages hold into the blocks [slba] to [slba + nlbs] of the disk, changes no
    other block and nothing in the host's memory but one completion entry, which
    reports success, and leaves the drive ready for the next command. *)
Theorem write_command_stores k dk used sqid v N sq cq scmd F (m : machine D) :
  sys_idle cf k dk used m -> submitted sqid v N sq cq scmd m -> rw_cmd cf 1 scmd m ->
  Z.of_nat (length (used_in PoolW used)) < W_SIZE - 1 -> k + rw_nlbs scmd + 1 <= TOTAL ->
  pool_ready PR F (m_pools m) -> ready_for 19 (nv_dma (m_nvme m)) ->
  exists m', three_runs m m'
    /\ sys_idle cf (k + (rw_nlbs scmd + 1))
         (write_blocks PS (rw_slba scmd) (rw_nlbs scmd + 1)
            (fun off => nv_host (m_nvme m) (data_addr cf (nv_host (m_nvme m)) scmd off)) dk) used m'
    /\ ended 19 sqid v N sq cq scmd m m'
    /\ (forall a, ~ in_slot cq (N mod cq_size cq) a -> nv_host (m_nvme m') a = nv_host (m_nvme m) a)
    /\ pool_idle PR F (m_pools m').
Proof using Hcf Hg Heq. by apply write_ok. Qed.

(** C2: a read command returns the disk: under the same conditions, for PRP pages
    that are apart from each other and from the completion entry, the three runs
    put the contents of the blocks into the host's pages, byte [off] of the
    transfer where the PRP fields say it belongs, change nothing else in the
    host's memory but one completion entry, which reports success, and leave the
    disk as it was. *)
Theorem read_command_returns k dk used sqid v N sq cq scmd (m : machine D) :
  sys_idle cf k dk used m -> submitted sqid v N sq cq scmd m -> rw_cmd cf 2 scmd m -> read_target cf N cq scmd m ->
  Z.of_nat (length (used_in PoolR used)) < R_SIZE - 1 -> ready_for 19 (nv_dma (m_nvme m)) ->
  exists m', three_runs m m' /\ sys_idle cf k dk used m' /\ ended 19 sqid v N sq cq scmd m m'
    /\ (forall off, 0 <= off < rw_len cf scmd ->
          nv_host (m_nvme m') (data_addr cf (nv_host (m_nvme m)) scmd off)
          = dk (rw_slba scmd + off / PS) (off mod PS))
    /\ (forall a, ~ in_slot cq (N mod cq_size cq) a ->
          (forall off, 0 <= off < rw_len cf scmd -> a <> data_addr cf (nv_host (m_nvme m)) scmd off) ->
          nv_host (m_nvme m') a = nv_host (m_nvme m) a)
    /\ same_side PR (m_pools m) (m_pools m').
Proof using Hcf Hg Heq. by apply read_ok. Qed.

(** C3: what was written is read back: after a write command, and whatever the
    host then does with its own memory, a read command for the same blocks
    delivers to its PRP pages, byte for byte, what the write's PRP pages held. *)
Theorem write_then_read k dk used sqid v N sq cq scmd F (m : machine D) :
  sys_idle cf k dk used m -> submitted sqid v N sq cq scmd m -> rw_cmd cf 1 scmd m ->
  Z.of_nat (length (used_in PoolW used)) < W_SIZE - 1 -> Z.of_nat (length (used_in PoolR used)) < R_SIZE - 1 ->
  k + rw_nlbs scmd + 1 <= TOTAL -> pool_ready PR F (m_pools m) -> ready_for 19 (nv_dma (m_nvme m)) ->
  exists m1, three_runs m m1 /\ ended 19 sqid v N sq cq scmd m m1
    /\ (forall a, ~ in_slot cq (N mod cq_size cq) a -> nv_host (m_nvme m1) a = nv_host (m_nvme m) a)
    /\ sys_idle cf (k + (rw_nlbs scmd + 1)) 
         (write_blocks PS (rw_slba scmd) (rw_nlbs scmd + 1)
            (fun off => nv_host (m_nvme m) (data_addr cf (nv_host (m_nvme m)) scmd off)) dk) used m1
    /\ forall m2 sqid2 v2 N2 sq2 cq2 scmd2,
       host_turn m1 m2 -> submitted sqid2 v2 N2 sq2 cq2 scmd2 m2 -> rw_cmd cf 2 scmd2 m2 ->
       read_target cf N2 cq2 scmd2 m2 -> rw_slba scmd2 = rw_slba scmd -> rw_nlbs scmd2 = rw_nlbs scmd ->
       ready_for 19 (nv_dma (m_nvme m2)) ->
       exists m3, three_runs m2 m3 /\ ended 19 sqid2 v2 N2 sq2 cq2 scmd2 m2 m3
         /\ forall off, 0 <= off < rw_len cf scmd ->
            nv_host (m_nvme m3) (data_addr cf (nv_host (m_nvme m2)) scmd2 off)
            = nv_host (m_nvme m) (data_addr cf (nv_host (m_nvme m)) scmd off).
Proof using Hcf Hg Heq.
  intros Hs Hsub Hcmd Hw Hr Hk Hpool Hready.
  destruct (write_ok cf Hcf Hg fuel Heq applet_ftn other_ftn k dk used sqid v N sq cq scmd F m) as
    (m1 & E1 & Hs1 & He1 & Hh1 & _); [done..|].
  exists m1. do 4 (split; [done|]). intros m2 sqid2 v2 N2 sq2 cq2 scmd2 Ht Hsub2 Hcmd2 Htg Eslba Enlbs Hready2.
  pose proof (sys_idle_host _ _ _ _ _ Hs1 Ht) as Hs2.
  destruct (read_ok cf Hcf Hg fuel Heq applet_ftn other_ftn _ _ used sqid2 v2 N2 sq2 cq2 scmd2 m2 Hs2 Hsub2 Hcmd2 Htg Hr Hready2)
    as (m3 & E3 & _ & He3 & Hd & _).
  exists m3. do 2 (split; [done|]). intros off Hoff.
  assert (El : rw_len cf scmd2 = rw_len cf scmd) by (unfold rw_len; by rewrite Enlbs).
  rewrite Hd by lia. rewrite Eslba.
  destruct (page_size_pos (cf_geom cf) Hg Heq) as (HPS & _ & EP & EQ).
  assert (Ep : 2 ^ HOST_DS (cf_geom cf) = PS) by (unfold HOST_DS; by rewrite Heq, EQ).
  unfold rw_len in Hoff. rewrite Z.shiftl_mul_pow2, Ep in Hoff by (pose proof (co_ds _ Hcf); lia).
  assert (0 <= off / PS < rw_nlbs scmd + 1) by (split; [apply Z.div_pos|apply Z.div_lt_upper_bound]; lia).
  unfold write_blocks. rewrite (proj2 (Z.leb_le _ _)), (proj2 (Z.ltb_lt _ _)) by lia. cbn [andb].
  do 2 f_equal. pose proof (Z.div_mod off PS). lia.
Qed.

(** C4: a write is acknowledged before it is stored: when the pool of program
    batches is exhausted - with [init_op_obj] as it is, from the second write on -
    the NVMe thread still completes the command with success, and the FTL thread
    then dereferences NULL. *)
Theorem acknowledged_write_lost k dk used sqid v N sq cq scmd (m : machine D) :
  sys_idle cf k dk used m -> submitted sqid v N sq cq scmd m -> rw_cmd cf 1 scmd m ->
  Z.of_nat (length (used_in PoolW used)) < W_SIZE - 1 -> no_program_batch (m_pools m) ->
  ready_for 19 (nv_dma (m_nvme m)) ->
  exists m1, run NVME_DRIVER_THREAD m = Ok m1 /\ ended 19 sqid v N sq cq scmd m m1
    /\ run FTL_MODULE_THREAD m1 = Fault FNull.
Proof using Hcf Hg.
  intros Hs Hsub Hcmd Hw (Hsz & Hnull) Hready.
  destruct (write_taken cf Hcf Hg fuel applet_ftn other_ftn k dk used sqid v N sq cq scmd m Hs Hsub Hcmd Hw Hready)
    as (m1 & E1 & [P1 P2 P3 P4 P5 P6 P7 P8] & He & _).
  exists m1. do 2 (split; [done|]).
  destruct (run_queue_call m_kernel set_m_kernel (call cf (S fuel) applet_ftn other_ftn) m_get_set _ _ m1 _ _
              (ko_in _ _ P2) (wa_in _ _ _ _ P3)) as (k1 & Hk1 & E).
  rewrite call_process in E. cbn [oe_obj_ptr oe_obj_type] in E.
  assert (Ef : ftl_callback cf (S fuel) wbc_addr WBC_FLUSH_REQUEST (set_m_kernel k1 m1) = Fault FNull).
  { unfold ftl_callback, ftl_object, process_req_cbk. change (WBC_FLUSH_REQUEST =? READ_IO_REQUEST) with false.
    change (WBC_FLUSH_REQUEST =? WBC_FLUSH_REQUEST) with true. cbn [orb]. rewrite Z.eqb_refl. cbn [obind].
    unfold process_wbc, d_begin_program. change (d_pools (drive_of (set_m_kernel k1 m1))) with (m_pools m1). rewrite P8.
    unfold begin_program_op, begin_op, malloc_op_obj.
    change (FLASH_PROGRAM_OPERATION =? FLASH_READ_OPERATION) with false.
    change (FLASH_PROGRAM_OPERATION =? FLASH_PROGRAM_OPERATION) with true. cbv iota.
    unfold take_head, c_mod. rewrite Hnull. cbn [obind]. rewrite (proj2 (Z.eqb_neq _ _)) by done. reflexivity. }
  rewrite Ef in E. unfold run, run_thread. 
  rewrite (run_callback_idle m_kernel set_m_kernel _ m_set_get _ _ m1 (ko_ftl _ _ P2) (wa_ftl _ _ _ _ P3)). cbn [obind].
  pose proof (ko_ftl _ _ P2) as (t & Ht & _ & Hn & Hq). cbn [run_queues]. rewrite Ht. cbn [obind]. rewrite Hn.
  change (0 <? Z.of_nat (length [FTL_MODULE_IN_Q])) with true. cbv iota.
  assert (Eg : arr_get (t_msg_queues t) 0 = Ok FTL_MODULE_IN_Q).
  { destruct (t_msg_queues t) as [|x l]; [discriminate|]. cbn [length take] in Hq. by injection Hq as ->. }
  rewrite Eg. cbn [obind]. by rewrite E.
Qed.

End props.
