(* ===== verification/SysDemo.v ===== *)
(** * A drive in which the properties of SysProps.v apply

    A drive of the default geometry with the flash controllers of NandHw.v, whose
    kernel is the one the firmware builds at start-up, with one submission queue that holds a write and a read of the
    same two blocks, and both door bells rung. *)

From Stdlib Require Import ZArith Lia Bool List.
From stdpp Require Import base tactics option list list_numbers functions.
From S2P Require Import Prelude CTypes Queue Kernel KernelRun MemUtil Geom NandIo Ftl FtlInv Requests FtlIo FtlDisk.
From S2P Require Import HostIf HostDma NandCtrl NandInv NandHw NandBatch Prp ReqAlloc BufferMgt NvmeQueues NvmePost Firmware Isp Nvme NvmeIo NvmeRw.
From S2P Require Import System SysRun Start SysIo SysProps.

#[export, refine] Instance demo_functions : Functions := {|
  fp_check_door_bell := 1; fp_completed_req_cbk := 2; fp_process_req_cbk := 3; fp_recycle_control_command := 4;
  fp_msg_cbk := 5; fp_thrd_cbk := 6; fp_sync_dma_cbk := 7; fp_initialize_nvme := 8; fp_initialize_nand_ctrl := 9;
  fp_initialize_ftl := 10 |}.
Proof. by apply (bool_decide_unpack _). Defined.

(** Requests at addresses 0 to 2 modulo 3, the other objects below zero. *)
Definition demo_req_addr (p : req_ptr) : Z :=
  match p with RPtr i => 3 * i | WPtr i => 3 * i + 1 | OPtr i => 3 * i + 2 end.
Lemma demo_req_addr_inj : Inj (=) (=) demo_req_addr.
Proof. intros [i|i|i] [j|j|j] E; cbn in E; try (exfalso; lia); f_equal; lia. Qed.
#[export] Instance demo_addresses : Addresses :=
  {| req_addr := demo_req_addr; wbc_addr := -1; thread_addr := fun t => -2 - t; req_addr_inj := demo_req_addr_inj |}.

Definition demo_cfg : fw_cfg :=
  FwCfg H4k_N4k_256mb (PrpConfig 12 0x200000) 60000 60000 60000 0x210000 0x220000 0x230000 0x231000 0x232000
    0x300000 0 0 0 7 1 false.

Lemma demo_cfg_ok : cfg_ok demo_cfg.
Proof. split; cbn; lia. Qed.

(** The kernel with the threads, functions and queues that the modules register
    at start-up, in their order; the door bell is polled. *)
Definition demo_ftns : list (Z * Z) :=
  [(NVME_DRIVER_THREAD, fp_msg_cbk); (NVME_DRIVER_THREAD, fp_recycle_control_command); (ISP_THREAD_START_INDEX, fp_thrd_cbk);
   (HOST_DMA_THREAD, fp_sync_dma_cbk); (FTL_MODULE_THREAD, fp_initialize_nand_ctrl);
   (NVME_DRIVER_THREAD, fp_completed_req_cbk); (NVME_DRIVER_THREAD, fp_initialize_nvme);
   (NVME_DRIVER_THREAD, fp_check_door_bell); (FTL_MODULE_THREAD, fp_process_req_cbk)].

Fixpoint add_ftns (l : list (Z * Z)) (k : kernel) : outcome kernel :=
  match l with
  | [] => Ok k
  | (t, f) :: l => let! '(_, k) := sys_add_thread_function t f k in add_ftns l k
  end.

Definition demo_kernel : kernel :=
  from_ok kernel0 (
    let! '(_, k) := sys_create_thread HOST_DMA_THREAD kernel0 in
    let! '(_, k) := sys_create_thread NVME_DRIVER_THREAD k in
    let! '(_, k) := sys_create_thread FTL_MODULE_THREAD k in
    let! '(_, k) := sys_create_thread ISP_THREAD_START_INDEX k in
    let! k := add_ftns demo_ftns k in
    let! '(_, k) := sys_create_obj_queue ISP_Q_START_INDEX NVME_DRIVER_THREAD 2 k in
    let! '(_, k) := sys_create_obj_queue ISP_MSG_OUT_Q ISP_THREAD_START_INDEX 0 k in
    let! '(_, k) := sys_create_obj_queue FTL_MODULE_IN_Q NVME_DRIVER_THREAD 8 k in
    let! '(_, k) := sys_create_obj_queue FTL_MODULE_OUT_Q FTL_MODULE_THREAD 5 k in
    let! '(_, k) := sys_add_callback_ftn 7 0 k in
    Ok k).

Lemma demo_kern_ok : kern_ok demo_cfg demo_kernel.
Proof.
  split.
  - split; [vm_compute; reflexivity|]. eexists. split; [vm_compute; reflexivity|small_ring].
  - eexists _, _. split; [vm_compute; reflexivity|]. split; [small_ring|split; vm_compute; reflexivity].
  - eexists _, _. split; [vm_compute; reflexivity|]. split; [small_ring|split; vm_compute; reflexivity].
  - eexists. split; [vm_compute; reflexivity|small_ring].
  - eexists. split; [vm_compute; reflexivity|]. split; [small_ring|split; vm_compute; reflexivity].
  - eexists. split; [vm_compute; reflexivity|]. split; [small_ring|split; vm_compute; reflexivity].
Qed.

Lemma demo_waiting : waiting demo_kernel [door_entry demo_cfg] [] [].
Proof. split; vm_compute; reflexivity. Qed.

(** Reading or writing blocks 5 and 6, from or to two pages of the host. *)
Definition demo_rw (opcode cid prp1 prp2 : Z) : Z :=
  set_field NvmeIOSCmd 0 opcode (set_field NvmeIOSCmd 2 cid (set_field NvmeIOSCmd 3 1
    (set_field NvmeIOSCmd 6 prp1 (set_field NvmeIOSCmd 7 prp2 (set_field NvmeIOSCmd 8 5 (set_field NvmeIOSCmd 9 1 0)))))).
Definition demo_write : Z := demo_rw 1 17 0x40000 0x50000.
Definition demo_read : Z := demo_rw 2 18 0x60000 0x70000.

Definition demo_host : mem := store_le 64 0x10040 demo_read (store_le 64 0x10000 demo_write (fun a => a mod 256)).

Lemma demo_host_ok : mem_ok demo_host.
Proof. apply store_le_ok, store_le_ok. intros a. split; [apply Z.mod_pos_bound|apply Z.mod_pos_bound]; lia. Qed.

(** Submission queue 1: 64 entries from [0x10000] of the host's memory on. *)
Definition demo_sq (head : Z) : NvmeSQueue := SQueue 1 1 head 0 0 64 0x10000.
Definition demo_sys_nvme (head : Z) (runs : nat) : nvme :=
  Nvme (<[1%nat := demo_sq head]> (replicate 5 squeue0)) (<[1%nat := demo_cq]> (replicate 5 cqueue0)) 1 1 0 buf_q0 buf_q0
    ready_alloc demo_buffer
    (PrpWorld dma0 (DmaWorld (hif0 (fun _ => 0) demo_host) sync_dma0 (replicate runs turns))) demo_kernel 0.

Definition demo_db : shm_ring dbUpdate := ShmRing 2 0 (fun i => DbUpdate isSQ_DB 1 (i + 1)).
Definition demo_fw (head : Z) (runs : nat) : fw :=
  Fw (demo_sys_nvme head runs) isp0 demo_db (CtrlRegs 0 0 0 0 0 0 0 0 0 0) 0.

Definition demo_machine (head : Z) (runs : nat) (ps : op_pools) (f : ftl) : machine nflash :=
  Machine (demo_fw head runs) (start_search f) ps demo_flash.

(** Every request has its arrays. *)
Definition io_shape_b (o : req_obj) : bool :=
  match o with
  | OIo r => (length (dma_list (rq_dma r)) =? 16)%nat && (length (rq_meta_lpn r) =? 16)%nat && (rq_ccmd_dw0 r =? 0)
  | _ => true
  end.

Lemma demo_shapes : shapes_ok ready_alloc.
Proof.
  assert (Hall : forallb io_shape_b (r_req ready_alloc ++ w_req ready_alloc ++ other_req_alloc ready_alloc) = true)
    by (vm_compute; reflexivity).
  revert Hall. generalize ready_alloc as a. intros a Hall.
  rewrite forallb_forall in Hall. intros p r Hp.
  assert (Hin : In (OIo r) (r_req a ++ w_req a ++ other_req_alloc a)).
  { apply list_elem_of_In. destruct p; cbn [get_obj] in Hp; apply arr_get_Ok in Hp as [_ Hp]; apply list_elem_of_lookup_2 in Hp;
      rewrite !elem_of_app; tauto. }
  apply Hall in Hin. cbn [io_shape_b] in Hin. rewrite !andb_true_iff, !Nat.eqb_eq, Z.eqb_eq in Hin.
  destruct Hin as [[? ?] E]. split; [done..|]. rewrite E. done.
Qed.

#[local] Opaque demo_kernel ready_alloc demo_host demo_flash.

Lemma demo_drv_ok head runs : drv_ok demo_cfg [] (demo_sys_nvme head runs).
Proof.
  split.
  - exact ready_alloc_inv.
  - exact demo_shapes.
  - split; [apply hif0_quiescent|]. repeat split. cbn. lia.
  - split; cbn; try done; lia.
  - split; cbn; try done; lia.
  - reflexivity.
  - reflexivity.
  - split; cbn; lia.
  - intros a. done.
  - apply demo_host_ok.
Qed.

Lemma demo_pages_ok : pages_ok (nand_page demo_flash).
Proof. intros k a. cbn [nand_page hw_flash]. unfold hw_page. by destruct (_ && _). Qed.

Lemma demo_idle head runs ps :
  pool_ready RD True ps -> exists f, sys_idle demo_cfg 1 (fun _ _ => 0) [] (demo_machine head runs ps f).
Proof.
  intros Hps. destruct (new_medium_disk H4k_N4k_256mb H4k_N4k_256mb_ok 100 ps demo_flash
              (nv_ssd (demo_sys_nvme head runs)) demo_kernel) as (f & _ & Hr & _).
  - apply demo_pages_ok.
  - exact demo_flash_ready.
  - intros a. done.
  - exists f. split.
    + apply demo_drv_ok.
    + split; [done|]. split; [done|]. apply Forall_replicate. done.
    + apply demo_kern_ok.
    + apply demo_waiting.
    + exact Hr.
    + exact Hps.
Qed.

Lemma demo_ready head runs n ps f : (n <= runs)%nat -> ready_for n (nv_dma (m_nvme (demo_machine head runs ps f))).
Proof. intros Hn. split; cbn; [by rewrite length_replicate|]. apply Forall_replicate, turns_fair. Qed.

(** Fields, by computation. *)
Lemma demo_rw_ok cid op p1 p2 (m : machine nflash) :
  In (op, cid, p1, p2) [(1, 17, 0x40000, 0x50000); (2, 18, 0x60000, 0x70000)] ->
  rw_cmd demo_cfg op (demo_rw op cid p1 p2) m.
Proof.
  intros [E|[E|[]]]; injection E as <- <- <- <-.
  all: split; [vm_compute; reflexivity|vm_compute; discriminate| |vm_compute; discriminate|vm_compute; discriminate].
  all: split; [vm_compute; reflexivity|vm_compute; reflexivity|vm_compute; discriminate].
Qed.

Lemma demo_cq_ready : cq_ready 0 demo_cq.
Proof. split; [apply demo_cq_valid|reflexivity|by vm_compute|reflexivity]. Qed.

Lemma demo_sq_ready v head : 0 <= head < 2 -> sq_ready (demo_sq head) /\ sq_ready (taken v (demo_sq 0)).
Proof.
  intros Hh. split; (split; [|vm_compute; discriminate|vm_compute; split; congruence|vm_compute; reflexivity]).
  - cbn. lia.
  - vm_compute. split; congruence.
Qed.

Definition demo_cmd (head : Z) : Z := if head =? 0 then demo_write else demo_read.

Lemma demo_submitted head runs ps f :
  head = 0 \/ head = 1 -> submitted 1 1 0 (demo_sq head) demo_cq (demo_cmd head) (demo_machine head runs ps f).
Proof.
  intros Hh. split.
  - done.
  - split; [by split|]. eexists. reflexivity.
  - reflexivity.
  - apply (demo_sq_ready 1). lia.
  - reflexivity.
  - reflexivity.
  - apply demo_cq_ready.
  - destruct Hh as [-> | ->]; vm_compute; reflexivity.
Qed.

(** The pages of the read do not meet each other or the completion queue. *)
Lemma demo_read_addr h off : data_addr demo_cfg h demo_read off =
  if off <? 4096 then 0x60000 + off else 0x70000 + off mod 4096.
Proof.
  unfold data_addr, prp_spec_addr. change (rw_prp1 demo_read) with 0x60000.
  change (hostMemPageSize (cf_prp demo_cfg)) with 4096. change (0x60000 mod 4096) with 0. rewrite Z.add_0_l. done.
Qed.

Lemma demo_read_segs h : cmd_segs demo_cfg h demo_read = [(0x60000, 4096); (0x70000, 4096)].
Proof. reflexivity. Qed.

Lemma demo_read_target N (m : machine nflash) cq :
  cq_hostAddr cq = 0x8000 -> cq_size cq = 4 -> read_target demo_cfg N cq demo_read m.
Proof.
  intros Ha Hz. split.
  - rewrite demo_read_segs. intros o1 o2 H1 H2. cbn in H1, H2 |- *.
    repeat (case_match; zify_bools); lia.
  - intros off Hoff. rewrite demo_read_addr. unfold in_slot, slot_addr. rewrite Ha, Hz.
    pose proof (Z.mod_pos_bound N 4). pose proof (Z.mod_pos_bound off 4096). destruct (_ <? _); lia.
Qed.

Definition no_applet (a : Z) (w : fw) : outcome (Z * fw) := Fault FNull.
Definition no_other (f a b : Z) (m : machine nflash) : outcome (machine nflash) := Fault FNull.

Lemma write_command_stores_witness :
  exists f m', three_runs demo_cfg 0 no_applet no_other (demo_machine 0 19 init_pools f) m'
    /\ exists dk, sys_idle demo_cfg 3 dk [] m' /\ dk 6 100 = 100 /\ dk 7 100 = 0.
Proof.
  destruct (demo_idle 0 19 init_pools init_pools_read) as (f & Hs).
  destruct (write_command_stores demo_cfg demo_cfg_ok H4k_N4k_256mb_ok 0 eq_refl no_applet no_other
              1 (fun _ _ => 0) [] 1 1 0 (demo_sq 0) demo_cq demo_write False (demo_machine 0 19 init_pools f))
    as (m' & E & Hi & _).
  - exact Hs.
  - apply (demo_submitted 0). by left.
  - apply (demo_rw_ok 17 1). by left.
  - done.
  - vm_compute. discriminate.
  - apply init_pools_program.
  - by apply demo_ready.
  - exists f, m'. split; [exact E|]. eexists. split; [exact Hi|]. split; vm_compute; reflexivity.
Defined.

Lemma read_command_returns_witness :
  exists f m', three_runs demo_cfg 0 no_applet no_other (demo_machine 1 19 init_pools f) m'
    /\ nv_host (m_nvme m') 0x60007 = 0 /\ nv_host (m_nvme m') 0x50007 = 7.
Proof.
  destruct (demo_idle 1 19 init_pools init_pools_read) as (f & Hs).
  destruct (read_command_returns demo_cfg demo_cfg_ok H4k_N4k_256mb_ok 0 eq_refl no_applet no_other
              1 (fun _ _ => 0) [] 1 1 0 (demo_sq 1) demo_cq demo_read (demo_machine 1 19 init_pools f))
    as (m' & E & _ & _ & Hd & Hh & _).
  - exact Hs.
  - apply (demo_submitted 1). by right.
  - apply (demo_rw_ok 18 2). right. by left.
  - by apply demo_read_target.
  - done.
  - by apply demo_ready.
  - exists f, m'. split; [exact E|]. split.
    + specialize (Hd 7 ltac:(vm_compute; split; congruence)). rewrite demo_read_addr in Hd. exact Hd.
    + rewrite Hh.
      * vm_compute. reflexivity.
      * intros [H1 H2]. vm_compute in H1, H2. by apply H1.
      * intros off Hoff. rewrite demo_read_addr. pose proof (Z.mod_pos_bound off 4096). destruct (_ <? _); lia.
Defined.

(** The pools after their only program batch was handed out. *)
Definition demo_spent_pools : op_pools :=
  from_ok op_pools0 (let! '(_, ps) := malloc_op_obj FLASH_PROGRAM_OPERATION init_pools in Ok ps).

Lemma acknowledged_write_lost_witness :
  exists f m1, run demo_cfg 1 no_applet no_other NVME_DRIVER_THREAD (demo_machine 0 19 demo_spent_pools f) = Ok m1
    /\ (exists dw0, entry_at (nv_host (m_nvme m1)) 0x8000 (MkCCmd dw0 1 17 1))
    /\ run demo_cfg 1 no_applet no_other FTL_MODULE_THREAD m1 = Fault FNull.
Proof.
  destruct (demo_idle 0 19 demo_spent_pools) as (f & Hs).
  { apply (pool_ready_same RD True init_pools); [|exact init_pools_read]. split; vm_compute; reflexivity. }
  destruct (acknowledged_write_lost demo_cfg demo_cfg_ok H4k_N4k_256mb_ok 0 no_applet no_other
              1 (fun _ _ => 0) [] 1 1 0 (demo_sq 0) demo_cq demo_write (demo_machine 0 19 demo_spent_pools f))
    as (m1 & E & He & Ef).
  - exact Hs.
  - apply (demo_submitted 0). by left.
  - apply (demo_rw_ok 17 1). by left.
  - done.
  - split; vm_compute; [discriminate|reflexivity].
  - by apply demo_ready.
  - exists f, m1. split; [exact E|]. split; [|exact Ef]. destruct (en_entry _ _ _ _ _ _ _ _ _ He) as (dw0 & Hent).
    exists dw0. exact Hent.
Defined.

(** The second door bell, after the write: the read is next in the queue. *)
Lemma demo_second_command runs f (m1 : machine nflash) :
  ended 19 1 1 0 (demo_sq 0) demo_cq demo_write (demo_machine 0 runs init_pools f) m1 ->
  (forall a, ~ in_slot demo_cq 0 a -> nv_host (m_nvme m1) a = demo_host a) ->
  exists cq, submitted 1 2 1 (taken 1 (demo_sq 0)) cq demo_read m1 /\ cq_hostAddr cq = 0x8000 /\ cq_size cq = 4.
Proof.
  intros [E1 (cq & Hcq & Hv & Hp & Q1 & Q2 & Q3 & Q4 & Q5) _ E4 E5 _ _] Hh.
  change (fw_db (m_fw (demo_machine 0 runs init_pools f))) with demo_db in E4.
  change (shm_items dbUpdateQueueSize demo_db) with [DbUpdate isSQ_DB 1 1; DbUpdate isSQ_DB 1 2] in E4.
  injection E4 as E4. change (cq_size demo_cq) with 4 in Q1. change (cq_head demo_cq) with 0 in Q2.
  change (q_size (cq_pending demo_cq)) with 4 in Q5. change (cq_cqid demo_cq) with 1 in Q4.
  exists cq. split; [|by split].
  split.
  - done.
  - split; [done|]. exists []. by rewrite <- E4.
  - exact E1.
  - apply (demo_sq_ready 1 0). lia.
  - exact Hcq.
  - exact Q4.
  - split; [done|done| |by rewrite Q5].
    destruct (cv_at _ _ Hv) as (_ & _ & Ht & _). rewrite Q1 in Ht. unfold cq_room, cq_used. rewrite Ht, Q1, Q2. by vm_compute.
  - transitivity (load_le 64 0x10040 demo_host); [|vm_compute; reflexivity].
    apply load_le_ext. intros o Ho. apply Hh. unfold in_slot, slot_addr. change (cq_hostAddr demo_cq) with 0x8000.
    change (entry_addr (taken 1 (demo_sq 0))) with 0x10040. lia.
Qed.

Lemma write_then_read_witness :
  exists f m1 m3, three_runs demo_cfg 0 no_applet no_other (demo_machine 0 38 init_pools f) m1
    /\ three_runs demo_cfg 0 no_applet no_other m1 m3
    /\ nv_host (m_nvme m3) 0x60007 = 7 /\ nv_host (m_nvme m3) 0x70009 = 9.
Proof.
  destruct (demo_idle 0 38 init_pools init_pools_read) as (f & Hs).
  destruct (write_then_read demo_cfg demo_cfg_ok H4k_N4k_256mb_ok 0 eq_refl no_applet no_other
              1 (fun _ _ => 0) [] 1 1 0 (demo_sq 0) demo_cq demo_write False (demo_machine 0 38 init_pools f))
    as (m1 & E & He & Hh & Hs1 & Hnext).
  - exact Hs.
  - apply (demo_submitted 0). by left.
  - apply (demo_rw_ok 17 1). by left.
  - done.
  - done.
  - vm_compute. discriminate.
  - apply init_pools_program.
  - by apply demo_ready; lia.
  - destruct (demo_second_command 38 f m1 He Hh) as (cq & Hsub & Ha & Hz).
    destruct (Hnext m1 1 2 1 (taken 1 (demo_sq 0)) cq demo_read) as (m3 & E3 & _ & Hd).
    + split; try done; [|apply Hs1|apply Hs1]. exists (nv_dma (m_nvme m1)).
      destruct (m_nvme m1) as [? ? ? ? ? ? ? ? ? [] ? ?]. reflexivity.
    + exact Hsub.
    + apply (demo_rw_ok 18 2). right. by left.
    + by apply demo_read_target.
    + reflexivity.
    + reflexivity.
    + apply (uses_ready 19 19 _ _ (en_uses _ _ _ _ _ _ _ _ _ He)). by apply demo_ready.
    + exists f, m1, m3. split; [exact E|]. split; [exact E3|]. split.
      * specialize (Hd 7 ltac:(vm_compute; split; congruence)). rewrite demo_read_addr in Hd.
        change (nv_host (m_nvme m3) 0x60007 = demo_host (data_addr demo_cfg demo_host demo_write 7)) in Hd.
        rewrite Hd. vm_compute. reflexivity.
      * specialize (Hd 4105 ltac:(vm_compute; split; congruence)). rewrite demo_read_addr in Hd.
        change (nv_host (m_nvme m3) 0x70009 = demo_host (data_addr demo_cfg demo_host demo_write 4105)) in Hd.
        rewrite Hd. vm_compute. reflexivity.
Defined.
