(* ===== verification/FtlUneq.v ===== *)
(** firmware/ftl_page_mapping/unequal.pages.c: reading and programming logical
    pages when a NAND page holds several host pages.  A write of part of a NAND
    page reads the old page into a buffer of its own, puts the new host pages in
    their places and programs the result; a read fetches the NAND page into a
    temporary buffer and copies the host pages asked for from it.  The file
    replaces equal.pages.c in ftl.c when [HOST_2_NAND_DS] is not 0. *)

From Stdlib Require Import ZArith Lia Bool List.
From stdpp Require Import base tactics option list functions.
From S2P Require Import Prelude CTypes MemUtil Kernel Boot Geom NandIo Ftl FtlInv Requests FtlIo FtlDisk.

Definition DIRECT_FROM_WBC : Z := 2.
Definition TEMP_RMP_BUFFER : Z := 3.

(** [program_pages_t] and [read_pages_t] differ in the name of the last field
    only ([mod_host_pages], [read_host_pages]).  A NULL pointer is 0. *)
Record page_info := PageInfo {
  pi_nand_page : Z; pi_is_unmapped : bool; pi_current_ppa : ppa; pi_new_ppa : ppa;
  pi_data_src : Z; pi_temp_buffer : Z; pi_host_page : list Z; pi_host_page_ptrs : list Z;
  pi_host_pages : Z }.

(** The file's global variables. *)
Record uneq := Uneq {
  program_pages : list page_info; program_pages_count : Z; rmp_buffer : list Z;
  read_pages : list page_info; read_pages_count : Z; temp_read_buffer : list Z }.

Definition set_program_pages v u :=
  Uneq v (program_pages_count u) (rmp_buffer u) (read_pages u) (read_pages_count u) (temp_read_buffer u).
Definition set_program_count v u :=
  Uneq (program_pages u) v (rmp_buffer u) (read_pages u) (read_pages_count u) (temp_read_buffer u).
Definition set_rmp_buffer v u :=
  Uneq (program_pages u) (program_pages_count u) v (read_pages u) (read_pages_count u) (temp_read_buffer u).
Definition set_read_pages v u :=
  Uneq (program_pages u) (program_pages_count u) (rmp_buffer u) v (read_pages_count u) (temp_read_buffer u).
Definition set_read_count v u :=
  Uneq (program_pages u) (program_pages_count u) (rmp_buffer u) (read_pages u) v (temp_read_buffer u).
Definition set_temp_read_buffer v u :=
  Uneq (program_pages u) (program_pages_count u) (rmp_buffer u) (read_pages u) (read_pages_count u) v.

(** Assignments to fields of an entry. *)
Definition pi_set_data_src v e :=
  PageInfo (pi_nand_page e) (pi_is_unmapped e) (pi_current_ppa e) (pi_new_ppa e) v (pi_temp_buffer e)
    (pi_host_page e) (pi_host_page_ptrs e) (pi_host_pages e).
Definition pi_set_unmapped e :=
  PageInfo (pi_nand_page e) true (pi_current_ppa e) (pi_new_ppa e) (pi_data_src e) (pi_temp_buffer e)
    (pi_host_page e) (pi_host_page_ptrs e) (pi_host_pages e).
Definition pi_set_mapped cur buf e :=
  PageInfo (pi_nand_page e) false cur (pi_new_ppa e) (pi_data_src e) buf
    (pi_host_page e) (pi_host_page_ptrs e) (pi_host_pages e).

Definition ppa0 : ppa := Ppa 0 0 0 0 0 0.

Section uneq_model.
Context {D : Type} `{NandFlash D} (g : geom).
(** ftl.c: the buffer of zeros, the first page of [private_pg_buff]. *)
Context (ZERO_BUFFER : Z).

Definition HOST_PER_NAND_PAGES : Z := Z.shiftl 1 (HOST_2_NAND_DS g).

Definition nand_page_of (lpn : Z) : Z := Z.shiftr lpn (HOST_2_NAND_DS g).
Definition host_offset (lpn : Z) : Z := lpn mod HOST_PER_NAND_PAGES.

(** The globals before start-up: C zeroes them. *)
Definition page_info0 : page_info :=
  let zeros := replicate (Z.to_nat HOST_PER_NAND_PAGES) 0 in
  PageInfo 0 false ppa0 ppa0 0 0 zeros zeros 0.

Definition uneq0 : uneq :=
  let infos := replicate (Z.to_nat MDTS_PAGES) page_info0 in
  let nulls := replicate (Z.to_nat MDTS_PAGES) 0 in
  Uneq infos 0 nulls infos 0 nulls.

(** A NAND page from the uncacheable heap for each entry of an array. *)
Fixpoint alloc_pages (n : nat) (i : Z) (bufs : list Z) (h : uc_heap) : outcome (list Z * uc_heap) :=
  match n with
  | O => Ok (bufs, h)
  | S n' =>
      let! '(p, h) := get_uncacheable_ram (NAND_PAGE_SIZE g) h in
      let! bufs := arr_set bufs i p in
      alloc_pages n' (i + 1) bufs h
  end.

Definition init_ftl_module_unequal_pages (u : uneq) (h : uc_heap) : outcome (uneq * uc_heap) :=
  let! '(rmp, h) := alloc_pages (Z.to_nat MDTS_PAGES) 0 (rmp_buffer u) h in
  let! '(tmp, h) := alloc_pages (Z.to_nat MDTS_PAGES) 0 (temp_read_buffer u) h in
  Ok (set_temp_read_buffer tmp (set_rmp_buffer rmp u), h).

(** [info->...] on entry [ix] of one of the arrays. *)
Definition upd_info (ix : Z) (f : page_info -> page_info) (l : list page_info) : outcome (list page_info) :=
  let! e := arr_get l ix in arr_set l ix (f e).

(** The loops that forget the entries of the last request. *)
Definition reset_info (program : bool) (e : page_info) : page_info :=
  PageInfo 0xffffffff (pi_is_unmapped e) ppa0 (if program then ppa0 else pi_new_ppa e) (pi_data_src e)
    (pi_temp_buffer e) (pi_host_page e) (pi_host_page_ptrs e) 0.

Fixpoint reset_pages (program : bool) (n : nat) (ix : Z) (l : list page_info) : outcome (list page_info) :=
  match n with
  | O => Ok l
  | S n' => let! l := upd_info ix (reset_info program) l in reset_pages program n' (ix + 1) l
  end.

Definition reset_program_pages (u : uneq) : outcome uneq :=
  let! l := reset_pages true (Z.to_nat (program_pages_count u)) 0 (program_pages u) in
  Ok (set_program_count 0 (set_program_pages l u)).

Definition reset_read_pages (u : uneq) : outcome uneq :=
  let! l := reset_pages false (Z.to_nat (read_pages_count u)) 0 (read_pages u) in
  Ok (set_read_count 0 (set_read_pages l u)).

(** The search for a NAND page among the first [n] entries: the last one wins. *)
Fixpoint find_info (n : nat) (ix nand_page : Z) (l : list page_info) (found : option Z) : outcome (option Z) :=
  match n with
  | O => Ok found
  | S n' =>
      let! e := arr_get l ix in
      find_info n' (ix + 1) nand_page l (if nand_page =? pi_nand_page e then Some ix else found)
  end.

(** [host_page[offset] = lpn; host_page_ptrs[offset] = ptr; ..._host_pages++] *)
Definition put_host_page (offset lpn ptr : Z) (e : page_info) : outcome page_info :=
  let! host_page := arr_set (pi_host_page e) offset lpn in
  let! ptrs := arr_set (pi_host_page_ptrs e) offset ptr in
  Ok (PageInfo (pi_nand_page e) (pi_is_unmapped e) (pi_current_ppa e) (pi_new_ppa e) (pi_data_src e)
        (pi_temp_buffer e) host_page ptrs (u32 (pi_host_pages e + 1))).

Definition put_info (ix offset lpn ptr : Z) (l : list page_info) : outcome (list page_info) :=
  let! e := arr_get l ix in
  let! e := put_host_page offset lpn ptr e in
  arr_set l ix e.

(** ** Programming *)

Context (fuel : nat).  (** of the search for a free page *)

(** A new entry: the page is mapped to a free flash page at once. *)
Definition new_program_info (nand_page : Z) (u : uneq) (s : drive D) : outcome (uneq * drive D) :=
  let ix := program_pages_count u in
  let! e := arr_get (program_pages u) ix in
  let! unmapped := IS_UNMAPPED_LPA g nand_page (d_ftl s) in
  let! current_ppa := if unmapped then Ok (pi_current_ppa e) else GET_MAPPED_PPA g nand_page (d_ftl s) in
  let! '(new_ppa, s) := d_new_mapping g fuel nand_page s in
  let! temp_buffer := arr_get (rmp_buffer u) ix in
  let! l := arr_set (program_pages u) ix
    (PageInfo nand_page unmapped current_ppa new_ppa (pi_data_src e) temp_buffer (pi_host_page e)
       (map (fun _ => 0) (pi_host_page_ptrs e)) 0) in
  Ok (set_program_count (u32 (ix + 1)) (set_program_pages l u), s).

(** The body of the collecting loops: one host page to write. *)
Definition collect_write (lpn ptr : Z) (u : uneq) (s : drive D) : outcome (uneq * drive D) :=
  let nand_page := nand_page_of lpn in
  let offset := host_offset lpn in
  let! found := find_info (Z.to_nat (program_pages_count u)) 0 nand_page (program_pages u) None in
  let! '(ix, u, s) :=
    match found with
    | Some ix => Ok (ix, u, s)
    | None => let! '(u', s) := new_program_info nand_page u s in Ok (program_pages_count u, u', s)
    end in
  let! l := put_info ix offset lpn ptr (program_pages u) in
  Ok (set_program_pages l u, s).

(** The read of the old pages: pages written for the first time and pages
    written as a whole are not read. *)
Fixpoint rmp_read_loop (n : nat) (ix : Z) (rop : op_ptr) (u : uneq) (s : drive D) : outcome (uneq * drive D) :=
  match n with
  | O => Ok (u, s)
  | S n' =>
      let! e := arr_get (program_pages u) ix in
      if pi_is_unmapped e || (HOST_PER_NAND_PAGES <=? pi_host_pages e) then
        let! l := upd_info ix (pi_set_data_src DIRECT_FROM_WBC) (program_pages u) in
        rmp_read_loop n' (ix + 1) rop (set_program_pages l u) s
      else
        let! l := upd_info ix (pi_set_data_src TEMP_RMP_BUFFER) (program_pages u) in
        let! s := d_add_page rop (pi_current_ppa e) (pi_temp_buffer e) s in
        rmp_read_loop n' (ix + 1) rop (set_program_pages l u) s
  end.

(** The address of host page [ih] in a buffer. *)
Definition slot_addr (temp_buffer ih : Z) : Z := u32 (temp_buffer + ih * HOST_PAGE_SIZE g).

(** The new host pages into the buffer. *)
Fixpoint gather_slots (n : nat) (ih : Z) (e : page_info) (m : mem) : outcome mem :=
  match n with
  | O => Ok m
  | S n' =>
      let! src := arr_get (pi_host_page_ptrs e) ih in
      if src =? 0 then gather_slots n' (ih + 1) e m
      else gather_slots n' (ih + 1) e
             (memcpy_sysbitw (slot_addr (pi_temp_buffer e) ih) src (HOST_PAGE_SIZE g / 4) m)
  end.

Fixpoint rmp_program_loop (n : nat) (ix : Z) (pop : op_ptr) (u : uneq) (s : drive D) : outcome (drive D) :=
  match n with
  | O => Ok s
  | S n' =>
      let! e := arr_get (program_pages u) ix in
      let! m := gather_slots (Z.to_nat HOST_PER_NAND_PAGES) 0 e (d_mem s) in
      let! s := d_add_page pop (pi_new_ppa e) (pi_temp_buffer e) (set_d_mem m s) in
      rmp_program_loop n' (ix + 1) pop u s
  end.

(** Read, modify and program the pages collected. *)
Definition flush_pages (u : uneq) (s : drive D) : outcome (uneq * drive D) :=
  let n := Z.to_nat (program_pages_count u) in
  let! '(rop, s) := d_begin_read s in
  let! '(u, s) := rmp_read_loop n 0 rop u s in
  let! s := d_end_read g rop s in
  let! '(pop, s) := d_begin_program s in
  let! s := rmp_program_loop n 0 pop u s in
  let! s := d_end_program g pop s in
  Ok (u, s).

(** The pages of the cache, as many valid ones as it announces. *)
Fixpoint wbc_loop (n : nat) (icache num_program_pgs : Z) (wbc : wbc_req) (u : uneq) (s : drive D)
  : outcome (wbc_req * uneq * drive D) :=
  match n with
  | O => Ok (wbc, u, s)
  | S n' =>
      if (icache <? WBC_PAGES) && (num_program_pgs <? wb_num_program_pgs wbc) then
        let! pg := arr_get (wb_pages wbc) icache in
        if wp_valid pg =? 0 then wbc_loop n' (icache + 1) num_program_pgs wbc u s
        else
          let! pages := arr_set (wb_pages wbc) icache
            (WbcPage (wp_lpn pg) (wp_ssd_addr pg) (wp_valid pg) 0) in
          let wbc := set_wb_pages pages wbc in
          let! '(u, s) := collect_write (wp_lpn pg) (wp_ssd_addr pg) u s in
          wbc_loop n' (icache + 1) (u32 (num_program_pgs + 1)) wbc u s
      else Ok (wbc, u, s)
  end.

Definition process_wbc (wbc_ptr : Z) (wbc : wbc_req) (u : uneq) (s : drive D)
  : outcome (wbc_req * uneq * drive D) :=
  let! u := reset_program_pages u in
  let wbc := set_wb_complete false wbc in
  let! '(wbc, u, s) := wbc_loop (Z.to_nat WBC_PAGES) 0 0 wbc u s in
  let! '(u, s) := flush_pages u s in
  let wbc := set_wb_complete true wbc in
  let! k := sys_push_to_nvme wbc_ptr (wb_type wbc) (d_kernel s) in
  Ok (wbc, u, set_d_kernel k s).

Fixpoint collect_program_loop (n : nat) (ssd_addr lpn_index lpn : Z) (u : uneq) (s : drive D)
  : outcome (uneq * drive D) :=
  match n with
  | O => Ok (u, s)
  | S n' =>
      let! '(u, s) := collect_write lpn (page_addr g ssd_addr lpn_index) u s in
      collect_program_loop n' ssd_addr (lpn_index + 1) (u32 (lpn + 1)) u s
  end.

(** The result counts NAND pages. *)
Definition sync_program_pages (start_lpn num_of_lpn ssd_addr : Z) (u : uneq) (s : drive D)
  : outcome (Z * uneq * drive D) :=
  let! u := reset_program_pages u in
  let! '(u, s) := collect_program_loop (Z.to_nat num_of_lpn) ssd_addr 0 start_lpn u s in
  let! '(u, s) := flush_pages u s in
  Ok (program_pages_count u, u, s).

(** ** Reading *)

(** A new entry of [read_pages], before the mapping is looked at. *)
Definition start_read_info (nand_page : Z) (u : uneq) : outcome uneq :=
  let! l := upd_info (read_pages_count u) (fun e =>
      PageInfo nand_page (pi_is_unmapped e) (pi_current_ppa e) (pi_new_ppa e) (pi_data_src e)
        (pi_temp_buffer e) (map (fun _ => 0) (pi_host_page e)) (map (fun _ => 0) (pi_host_page_ptrs e)) 0)
    (read_pages u) in
  Ok (set_read_pages l u).

(** ... and of a page that is mapped: it is added to the batch. *)
Definition mapped_read_info (rop : op_ptr) (nand_page : Z) (u : uneq) (s : drive D)
  : outcome (uneq * drive D) :=
  let ix := read_pages_count u in
  let! current_ppa := GET_MAPPED_PPA g nand_page (d_ftl s) in
  let! temp_buffer := arr_get (temp_read_buffer u) ix in
  let! l := upd_info ix (pi_set_mapped current_ppa temp_buffer) (read_pages u) in
  let! s := d_add_page rop current_ppa temp_buffer s in
  Ok (set_read_pages l u, s).

(** The host pages of one entry from its buffer to where they are wanted. *)
Fixpoint scatter_slots (n : nat) (ih : Z) (e : page_info) (m : mem) : outcome mem :=
  match n with
  | O => Ok m
  | S n' =>
      let! dst := arr_get (pi_host_page_ptrs e) ih in
      if dst =? 0 then scatter_slots n' (ih + 1) e m
      else scatter_slots n' (ih + 1) e
             (memcpy_sysbitw dst (slot_addr (pi_temp_buffer e) ih) (HOST_PAGE_SIZE g / 4) m)
  end.

Fixpoint scatter_loop (n : nat) (ix : Z) (l : list page_info) (m : mem) : outcome mem :=
  match n with
  | O => Ok m
  | S n' =>
      let! e := arr_get l ix in
      if pi_is_unmapped e then scatter_loop n' (ix + 1) l m
      else
        let! m := scatter_slots (Z.to_nat HOST_PER_NAND_PAGES) 0 e m in
        scatter_loop n' (ix + 1) l m
  end.

Definition deliver_pages (u : uneq) (s : drive D) : outcome (drive D) :=
  let! m := scatter_loop (Z.to_nat (read_pages_count u)) 0 (read_pages u) (d_mem s) in
  Ok (set_d_mem m s).

(** The entry of a page of a host read, found or new. *)
Definition find_read_info (rop : op_ptr) (nand_page : Z) (u : uneq) (s : drive D)
  : outcome (Z * uneq * drive D) :=
  let! found := find_info (Z.to_nat (read_pages_count u)) 0 nand_page (read_pages u) None in
  match found with
  | Some ix => Ok (ix, u, s)
  | None =>
      let ix := read_pages_count u in
      let! u := start_read_info nand_page u in
      let! unmapped := IS_UNMAPPED_LPA g nand_page (d_ftl s) in
      let! '(u, s) :=
        if unmapped then let! l := upd_info ix pi_set_unmapped (read_pages u) in Ok (set_read_pages l u, s)
        else mapped_read_info rop nand_page u s in
      Ok (ix, set_read_count (u32 (ix + 1)) u, s)
  end.

(** [dma.list[i].ssd_addr = addr] *)
Definition set_ssd_addr (i addr : Z) (d : dma_t) : outcome dma_t :=
  let! op := arr_get (dma_list d) i in
  let! l := arr_set (dma_list d) i
    (DmaOp addr (do_len op) (do_host_p_addr op) (do_host_dma_complete op)) in
  Ok (set_dma_list l d).

(** The body of the loop of a host read.  The completion marks of the single
    pages ([read_page_meta[].nand_io_complete]), which nothing reads, are left out. *)
Definition collect_read (rop : op_ptr) (lpn_index lpn : Z) (req : io_req) (u : uneq) (s : drive D)
  : outcome (io_req * uneq * drive D) :=
  let! meta := arr_set (rq_meta_lpn req) lpn_index lpn in
  let req := set_meta_lpn meta req in
  let! '(ix, u, s) := find_read_info rop (nand_page_of lpn) u s in
  let! e := arr_get (read_pages u) ix in
  if pi_is_unmapped e then
    let! d := set_ssd_addr lpn_index ZERO_BUFFER (rq_dma req) in
    Ok (set_req_dma d req, u, s)
  else
    let! op := arr_get (dma_list (rq_dma req)) lpn_index in
    let! l := put_info ix (host_offset lpn) lpn (do_ssd_addr op) (read_pages u) in
    Ok (req, set_read_pages l u, s).

Fixpoint read_io_loop (n : nat) (rop : op_ptr) (lpn_index lpn : Z) (req : io_req) (u : uneq) (s : drive D)
  : outcome (io_req * uneq * drive D) :=
  match n with
  | O => Ok (req, u, s)
  | S n' =>
      let! '(req, u, s) := collect_read rop lpn_index lpn req u s in
      read_io_loop n' rop (lpn_index + 1) (u32 (lpn + 1)) req u s
  end.

Definition ftl_process_read_io (req_ptr : Z) (req : io_req) (u : uneq) (s : drive D)
  : outcome (io_req * uneq * drive D) :=
  let! '(rop, s) := d_begin_read s in
  let! u := reset_read_pages u in
  let! '(req, u, s) :=
    read_io_loop (Z.to_nat (io_nlbs req + 1)) rop 0 (u32 (io_slba req)) req u s in
  let! s := d_end_read g rop s in
  let! s := deliver_pages u s in
  let req := set_nand_io_complete true req in
  let! k := sys_push_to_nvme req_ptr (rq_type req) (d_kernel s) in
  Ok (req, u, set_d_kernel k s).

(** The loop of [__sync_read_pages]: [false] when it meets an unmapped page. *)
Fixpoint sync_read_loop (n : nat) (rop : op_ptr) (ssd_addr lpn_index lpn : Z) (u : uneq) (s : drive D)
  : outcome (bool * uneq * drive D) :=
  match n with
  | O => Ok (true, u, s)
  | S n' =>
      let nand_page := nand_page_of lpn in
      let! found := find_info (Z.to_nat (read_pages_count u)) 0 nand_page (read_pages u) None in
      let! r :=
        match found with
        | Some ix => Ok (Some ix, u, s)
        | None =>
            let ix := read_pages_count u in
            let! u := start_read_info nand_page u in
            let! unmapped := IS_UNMAPPED_LPA g nand_page (d_ftl s) in
            if unmapped then Ok (None, u, s)
            else
              let! '(u, s) := mapped_read_info rop nand_page u s in
              Ok (Some ix, set_read_count (u32 (ix + 1)) u, s)
        end in
      match r with
      | (None, u, s) => Ok (false, u, s)
      | (Some ix, u, s) =>
          let! l := put_info ix (host_offset lpn) lpn (page_addr g ssd_addr lpn_index) (read_pages u) in
          sync_read_loop n' rop ssd_addr (lpn_index + 1) (u32 (lpn + 1)) (set_read_pages l u) s
      end
  end.

(** The early return leaves the batch object allocated. *)
Definition sync_read_pages (start_lpn num_of_pgs ssd_addr : Z) (u : uneq) (s : drive D)
  : outcome (Z * uneq * drive D) :=
  let! '(rop, s) := d_begin_read s in
  let! u := reset_read_pages u in
  let! '(all_mapped, u, s) := sync_read_loop (Z.to_nat num_of_pgs) rop ssd_addr 0 start_lpn u s in
  if all_mapped : bool then
    let! s := d_end_read g rop s in
    let! s := deliver_pages u s in
    Ok (read_pages_count u, u, s)
  else Ok (0, u, s).

End uneq_model.
