(* ===== verification/UneqDisk.v ===== *)
(** The read-modify-program path of FtlUneq.v implements a disk of host pages:
    the lemmas on copies between buffers, on the entries collected for a request,
    and the refinement of the flush, program and read operations. *)

From Stdlib Require Import ZArith Lia Bool List.
From stdpp Require Import base tactics option list functions.
From S2P Require Import Prelude CTypes Queue MemUtil Kernel Boot Geom NandIo Ftl FtlInv Requests FtlIo FtlDisk FtlUneq.

(** A disk of flash pages seen as host pages of [hps] bytes, [r] to a flash page. *)
Definition host_disk (r hps : Z) (dk : disk) : disk :=
  fun lpn off => dk (lpn / r) ((lpn mod r) * hps + off).

(** ** Copies of host pages *)

Section jobs.
Context (hps : Z) (Hhps : 0 < hps) (Hw : hps = 4 * (hps / 4)).

(** Copies [(destination, source)] one after the other. *)
Definition run_jobs (jobs : list (Z * Z)) (m : mem) : mem :=
  fold_left (fun m j => memcpy_sysbitw (fst j) (snd j) (hps / 4) m) jobs m.

(** Different destinations do not meet, and no destination meets a source. *)
Definition jobs_ok (jobs : list (Z * Z)) : Prop :=
  forall x y, In x jobs -> In y jobs ->
    (x = y \/ disjoint_blocks (fst x) (fst y) hps) /\ disjoint_blocks (fst x) (snd y) hps.

Lemma memcpy_block dst src m b :
  mem_ok m -> disjoint_blocks dst src hps ->
  memcpy_sysbitw dst src (hps / 4) m b = if (dst <=? b) && (b <? dst + hps) then m (src + (b - dst)) else m b.
Proof using Hhps Hw.
  intros Hm Hd. unfold memcpy_sysbitw, sysByteWidth.
  assert (E : Z.of_nat 4 * (0 + Z.of_nat (Z.to_nat (hps / 4))) = hps) by lia.
  rewrite copy_loop_spec by (done || lia || by rewrite E). rewrite E. by rewrite Z.mul_0_r, Z.add_0_r.
Qed.

Lemma run_jobs_spec jobs m :
  mem_ok m -> jobs_ok jobs ->
  mem_ok (run_jobs jobs m) /\
  (forall d s o, In (d, s) jobs -> 0 <= o < hps -> run_jobs jobs m (d + o) = m (s + o)) /\
  (forall b, (forall d s, In (d, s) jobs -> ~ d <= b < d + hps) -> run_jobs jobs m b = m b).
Proof using Hhps Hw.
  revert m. induction jobs as [|[d s] r IH]; intros m Hm Hj; [done|].
  cbn [run_jobs fold_left fst snd]. set (m1 := memcpy_sysbitw d s (hps / 4) m).
  assert (Hm1 : mem_ok m1) by (apply copy_loop_ok, Hm).
  destruct (Hj (d, s) (d, s) (or_introl eq_refl) (or_introl eq_refl)) as (_ & Hds). cbn [fst snd] in Hds.
  pose proof (memcpy_block d s m) as Hget. specialize (fun b => Hget b Hm Hds). fold m1 in Hget.
  destruct (IH m1 Hm1) as (Hok & Hin & Hout); [intros x y Hx Hy; exact (Hj x y (or_intror Hx) (or_intror Hy))|]. fold (run_jobs r m1).
  split; [done|]. split.
  - intros d' s' o Hx Ho.
    assert (Hsrc : m1 (s' + o) = m (s' + o)).
    { rewrite Hget. destruct (Hj (d, s) (d', s') (or_introl eq_refl) Hx) as (_ & Hd). unfold disjoint_blocks in Hd.
      cbn [fst snd] in Hd. case_if; [zify_bools; lia|done]. }
    destruct (in_dec (fun a b => decide (a = b)) (d', s') r) as [Hr|Hr]; [by rewrite (Hin d' s')|].
    destruct Hx as [[= -> ->]|Hx]; [|done]. rewrite Hout.
    + rewrite Hget. zb. cbn [andb]. f_equal. lia.
    + intros d2 s2 H2. destruct (Hj (d', s') (d2, s2) (or_introl eq_refl) (or_intror H2)) as ([E|Hd] & _);
        [by rewrite E in Hr|]. unfold disjoint_blocks in Hd. cbn [fst] in Hd. lia.
  - intros b Hb. rewrite Hout by (intros d' s' ?; apply (Hb d' s'); by right). rewrite Hget.
    pose proof (Hb d s (or_introl eq_refl)). case_if; [zify_bools; lia|done].
Qed.

(** The copies that fill the slots of a buffer from pointers, and back. *)
Fixpoint slot_jobs (to_buffer : bool) (ih buf : Z) (ptrs : list Z) : list (Z * Z) :=
  match ptrs with
  | [] => []
  | p :: r =>
      (if p =? 0 then [] else [if to_buffer then (buf + ih * hps, p) else (p, buf + ih * hps)]) ++
      slot_jobs to_buffer (ih + 1) buf r
  end.

Lemma in_slot_jobs to_buffer ih buf ptrs x :
  In x (slot_jobs to_buffer ih buf ptrs) <->
  exists j p, ptrs !! j = Some p /\ p <> 0 /\
    x = if to_buffer then (buf + (ih + Z.of_nat j) * hps, p) else (p, buf + (ih + Z.of_nat j) * hps).
Proof.
  revert ih. induction ptrs as [|p r IH]; intros ih; cbn [slot_jobs].
  - split; [done|]. by intros (j & p & Hj & _).
  - rewrite in_app_iff, IH. split.
    + intros [Hx|(j & q & Hj & Hq & ->)].
      * destruct (Z.eqb_spec p 0); [done|]. destruct Hx as [<-|[]]. exists O, p. by rewrite Z.add_0_r.
      * exists (S j), q. split; [done|]. split; [done|].
        by replace (ih + Z.of_nat (S j)) with (ih + 1 + Z.of_nat j) by lia.
    + intros ([|j] & q & Hj & Hq & ->); cbn in Hj.
      * simplify_eq. left. rewrite Z.add_0_r. destruct (Z.eqb_spec q 0); [done|by left].
      * right. exists j, q. split; [done|]. split; [done|].
        by replace (ih + Z.of_nat (S j)) with (ih + 1 + Z.of_nat j) by lia.
Qed.

End jobs.

(** How many pointers of an entry are set. *)
Definition set_slots (ptrs : list Z) : nat := length (filter (fun p => p <> 0) ptrs).

Lemma set_slots_cons q r : set_slots (q :: r) = (if decide (q <> 0) then S (set_slots r) else set_slots r).
Proof. unfold set_slots. rewrite filter_cons. by case_decide. Qed.

Lemma set_slots_insert ptrs i p :
  ptrs !! i = Some 0 -> p <> 0 -> set_slots (<[i := p]> ptrs) = S (set_slots ptrs).
Proof.
  intros Hi Hp. revert i Hi. induction ptrs as [|q r IH]; intros [|i] Hi; [done..| |]; cbn in Hi.
  - simplify_eq. change (<[O := p]> (0 :: r)) with (p :: r). rewrite !set_slots_cons.
    by repeat case_decide.
  - change (<[S i := p]> (q :: r)) with (q :: <[i := p]> r). rewrite !set_slots_cons, (IH i Hi).
    by case_decide.
Qed.

Lemma set_slots_le ptrs : (set_slots ptrs <= length ptrs)%nat.
Proof. induction ptrs as [|q r IH]; [done|]. rewrite set_slots_cons. cbn [length]. case_decide; lia. Qed.

Lemma set_slots_full ptrs : set_slots ptrs = length ptrs -> Forall (fun p => p <> 0) ptrs.
Proof.
  induction ptrs as [|q r IH]; intros E; [apply Forall_nil_2|]. rewrite set_slots_cons in E. cbn [length] in E.
  pose proof (set_slots_le r). case_decide; [|lia]. apply Forall_cons_2; [done|]. apply IH. lia.
Qed.

Lemma set_slots_zero n : set_slots (replicate n 0) = O.
Proof. induction n; [done|]. cbn [replicate]. rewrite set_slots_cons. by case_decide. Qed.

(** The pointer a list of writes [(lpn, pointer)] leaves for a host page. *)
Definition slot_of (ws : list (Z * Z)) (lpn : Z) : Z :=
  fold_left (fun p w => if fst w =? lpn then snd w else p) ws 0.

Lemma slot_of_snoc ws w lpn :
  slot_of (ws ++ [w]) lpn = if fst w =? lpn then snd w else slot_of ws lpn.
Proof. unfold slot_of. by rewrite fold_left_app. Qed.

Lemma slot_of_notin ws lpn : ~ In lpn (map fst ws) -> slot_of ws lpn = 0.
Proof.
  induction ws as [|w ws IH] using rev_ind; [done|]. rewrite map_app, in_app_iff. intros Hn.
  rewrite slot_of_snoc. destruct (Z.eqb_spec (fst w) lpn) as [<-|]; [destruct Hn; right; by left|].
  apply IH. tauto.
Qed.

Lemma slot_of_in ws lpn p : NoDup (map fst ws) -> In (lpn, p) ws -> slot_of ws lpn = p.
Proof.
  induction ws as [|w ws IH] using rev_ind; intros Hnd Hin; [done|].
  rewrite map_app in Hnd. apply list.NoDup_app in Hnd as (Hnd & Hx & _). rewrite slot_of_snoc.
  apply in_app_iff in Hin as [Hin|[->|[]]]; [|cbn; by rewrite Z.eqb_refl].
  destruct (Z.eqb_spec (fst w) lpn) as [<-|]; [|by apply IH].
  exfalso. apply (Hx (fst w)); [|apply list_elem_of_singleton; reflexivity].
  apply list_elem_of_In, in_map_iff. by exists (fst w, p).
Qed.

Lemma slot_of_some ws lpn : slot_of ws lpn <> 0 -> In (lpn, slot_of ws lpn) ws.
Proof.
  induction ws as [|[l p] ws IH] using rev_ind; [done|]. rewrite slot_of_snoc, in_app_iff. cbn [fst snd].
  destruct (Z.eqb_spec l lpn) as [->|]; [intros _; right; by left|]. intros Hn. left. by apply IH.
Qed.

(** ** The entries of a request *)

Section entries.
Context {D : Type} `{NandFlash D} (g : geom) (Hg : geom_ok g).

Abbreviation TOTAL := (TOTAL_NUM_OF_PAGES g) (only parsing).
Abbreviation PS := (NAND_PAGE_SIZE g) (only parsing).
Abbreviation HPS := (HOST_PAGE_SIZE g) (only parsing).
Abbreviation R := (HOST_PER_NAND_PAGES g) (only parsing).

Lemma uneq_sizes :
  0 < R /\ 512 <= HPS /\ HPS = 4 * (HPS / 4) /\ PS = R * HPS /\ R < 2 ^ 30 /\ HPS = 2 ^ host_page_size g /\
  PS < 2 ^ 30.
Proof using Hg.
  destruct Hg as (_ & _ & _ & _ & _ & Hn & Hh & _).
  unfold HOST_PER_NAND_PAGES, HOST_PAGE_SIZE, NAND_PAGE_SIZE, HOST_2_NAND_DS, NAND_DS, HOST_DS.
  rewrite !Z.shiftl_1_l. set (n := nand_page_size g) in *. set (h := host_page_size g) in *.
  assert (0 < 2 ^ (n - h)) by (apply Z.pow_pos_nonneg; lia).
  assert (2 ^ (n - h) < 2 ^ 30) by (apply Z.pow_lt_mono_r; lia).
  assert (2 ^ n < 2 ^ 30) by (apply Z.pow_lt_mono_r; lia).
  assert (2 ^ 9 <= 2 ^ h) by (apply Z.pow_le_mono_r; lia).
  assert (E4 : 2 ^ h = 4 * 2 ^ (h - 2)) by (change 4 with (2 ^ 2); rewrite <- Z.pow_add_r by lia; f_equal; lia).
  split_and!; try done; [|rewrite <- Z.pow_add_r by lia; f_equal; lia].
  rewrite E4 at 2. rewrite (Z.mul_comm 4 (2 ^ (h - 2))), Z.div_mul by lia. lia.
Qed.

Lemma nand_page_of_div lpn : nand_page_of g lpn = lpn / R.
Proof using Hg.
  unfold nand_page_of, HOST_PER_NAND_PAGES, HOST_2_NAND_DS, NAND_DS, HOST_DS.
  destruct Hg as (_ & _ & _ & _ & _ & Hn & Hh & _). by rewrite Z.shiftl_1_l, Z.shiftr_div_pow2 by lia.
Qed.

Lemma host_page_split lpn : lpn = lpn / R * R + host_offset g lpn /\ 0 <= host_offset g lpn < R.
Proof using Hg.
  destruct uneq_sizes as (HR & _). unfold host_offset. pose proof (Z.div_mod lpn R). 
  pose proof (Z.mod_pos_bound lpn R HR). lia.
Qed.

Lemma slot_addr_ok buf ih : 0 <= buf -> buf + PS <= 2 ^ 32 -> 0 <= ih < R -> slot_addr g buf ih = buf + ih * HPS.
Proof using Hg.
  intros Hb Hm Hi. destruct uneq_sizes as (HR & Hh & _ & E & _). unfold slot_addr. apply u32_id. nia.
Qed.

(** The search finds an entry of the page, if there is one. *)
Lemma find_info_spec n ix np l found :
  (ix + n <= length l)%nat -> exists r, find_info n (Z.of_nat ix) np l found = Ok r /\
    ((exists j e, (ix <= j < ix + n)%nat /\ l !! j = Some e /\ pi_nand_page e = np /\ r = Some (Z.of_nat j)) \/
     ((forall j e, (ix <= j < ix + n)%nat -> l !! j = Some e -> pi_nand_page e <> np) /\ r = found)).
Proof.
  revert ix found. induction n as [|n IH]; intros ix found Hl.
  - exists found. split; [done|]. right. split; [lia|done].
  - destruct (arr_get_lookup l (Z.of_nat ix)) as (e & Eg & Hlk); [lia|]. rewrite Nat2Z.id in Hlk.
    cbn [find_info]. rewrite Eg. cbn [obind]. replace (Z.of_nat ix + 1) with (Z.of_nat (S ix)) by lia.
    destruct (IH (S ix) (if np =? pi_nand_page e then Some (Z.of_nat ix) else found)) as (r & Er & Hr); [lia|].
    exists r. split; [done|]. destruct Hr as [(j & e' & Hj & Hlj & Hn & ->)|(Hnone & ->)].
    + left. exists j, e'. split_and!; try done; lia.
    + destruct (Z.eqb_spec np (pi_nand_page e)) as [->|Hne].
      * left. exists ix, e. split_and!; try done; lia.
      * right. split; [|done]. intros j e' Hj Hlj. destruct (decide (j = ix)) as [->|]; [congruence|].
        apply (Hnone j e'); [lia|done].
Qed.

(** Arrays of the right lengths. *)
Definition entry_wf (e : page_info) : Prop :=
  length (pi_host_page e) = Z.to_nat R /\ length (pi_host_page_ptrs e) = Z.to_nat R.

Definition infos_wf (n : Z) (l : list page_info) : Prop :=
  length l = 16%nat /\ Forall entry_wf l /\ 0 <= n <= 16.

(** The entries in use. *)
Definition in_use (n : Z) (l : list page_info) : list page_info := take (Z.to_nat n) l.

(** What the search and the entry of a page say about each other. *)
Lemma find_in_use n l np :
  infos_wf n l -> exists r, find_info (Z.to_nat n) 0 np l None = Ok r /\
    match r with
    | Some ix => 0 <= ix < n /\ exists e, in_use n l !! Z.to_nat ix = Some e /\ l !! Z.to_nat ix = Some e /\ pi_nand_page e = np
    | None => ~ In np (map pi_nand_page (in_use n l))
    end.
Proof.
  intros (Hl & _ & Hn). destruct (find_info_spec (Z.to_nat n) 0 np l None) as (r & E & Hr); [lia|].
  exists r. split; [done|]. destruct Hr as [(j & e & Hj & Hlk & Hnp & ->)|(Hnone & ->)].
  - split; [lia|]. exists e. rewrite Nat2Z.id. split; [|done]. unfold in_use. rewrite lookup_take_lt by lia. done.
  - rewrite in_map_iff. intros (e & Hnp & (j & Hj)%list_elem_of_In%list_elem_of_lookup).
    pose proof (lookup_lt_Some _ _ _ Hj) as Hlt. unfold in_use in *. rewrite length_take in Hlt.
    rewrite lookup_take_lt in Hj by lia. apply (Hnone j e); [lia|done|done].
Qed.

Lemma put_host_page_ok o lpn ptr e :
  entry_wf e -> 0 <= o < R -> put_host_page o lpn ptr e =
    Ok (PageInfo (pi_nand_page e) (pi_is_unmapped e) (pi_current_ppa e) (pi_new_ppa e) (pi_data_src e)
          (pi_temp_buffer e) (<[Z.to_nat o := lpn]> (pi_host_page e))
          (<[Z.to_nat o := ptr]> (pi_host_page_ptrs e)) (u32 (pi_host_pages e + 1))).
Proof. intros (H1 & H2) Ho. unfold put_host_page. rewrite !arr_set_Ok by lia. done. Qed.

(** Entry [i] of a request for the writes or reads [ws] so far, on the tables
    [lpa]; [bufs] are the buffers of the entries. *)
Record entry_ok (lpa : Z -> ppa) (bufs : list Z) (ws : list (Z * Z)) (i : nat) (e : page_info) : Prop := EntryOk {
  en_range : 0 <= pi_nand_page e < TOTAL;
  en_unmapped : pi_is_unmapped e = (chn (lpa (pi_nand_page e)) =? 255);
  en_current : pi_is_unmapped e = false -> pi_current_ppa e = lpa (pi_nand_page e);
  en_buffer : pi_is_unmapped e = false -> bufs !! i = Some (pi_temp_buffer e);
  en_ptrs : forall o, 0 <= o < R -> pi_host_page_ptrs e !! Z.to_nat o = Some (slot_of ws (pi_nand_page e * R + o));
  en_count : pi_host_pages e = Z.of_nat (set_slots (pi_host_page_ptrs e)) }.

(** One entry for each NAND page of the request. *)
Record entries_ok (lpa : Z -> ppa) (bufs : list Z) (ws : list (Z * Z)) (l : list page_info) : Prop := EntriesOk {
  es_nodup : NoDup (map pi_nand_page l);
  es_entry : forall i e, l !! i = Some e -> entry_ok lpa bufs ws i e;
  es_cover : forall w, In w ws -> In (fst w / R) (map pi_nand_page l) }.

(** Entries that differ in the host pages only. *)
Definition same_page (e e' : page_info) : Prop :=
  pi_nand_page e' = pi_nand_page e /\ pi_is_unmapped e' = pi_is_unmapped e /\
  pi_current_ppa e' = pi_current_ppa e /\ pi_new_ppa e' = pi_new_ppa e /\ pi_temp_buffer e' = pi_temp_buffer e.

Lemma entry_wf_lookup n l i e : infos_wf n l -> in_use n l !! i = Some e ->
  entry_wf e /\ l !! i = Some e /\ (i < Z.to_nat n)%nat.
Proof.
  intros (Hl & Hf & Hn) Hi. pose proof (lookup_lt_Some _ _ _ Hi) as Hlt.
  unfold in_use in *. rewrite length_take in Hlt. rewrite lookup_take_lt in Hi by lia.
  split; [|split; [done|lia]]. rewrite Forall_lookup in Hf. by eapply Hf.
Qed.

Lemma in_use_insert n l i e : infos_wf n l -> (i < Z.to_nat n)%nat -> entry_wf e ->
  infos_wf n (<[i := e]> l) /\ in_use n (<[i := e]> l) = <[i := e]> (in_use n l).
Proof.
  intros (Hl & Hf & Hn) Hi He. split.
  - split; [by rewrite length_insert|]. split; [by apply Forall_insert|done].
  - unfold in_use. by rewrite take_insert_lt by lia.
Qed.

(** A new entry goes to the end. *)
Lemma entries_new lpa bufs ws n l e :
  infos_wf n l -> n < 16 -> entries_ok lpa bufs ws (in_use n l) -> entry_wf e ->
  ~ In (pi_nand_page e) (map pi_nand_page (in_use n l)) ->
  0 <= pi_nand_page e < TOTAL -> pi_is_unmapped e = (chn (lpa (pi_nand_page e)) =? 255) ->
  (pi_is_unmapped e = false -> pi_current_ppa e = lpa (pi_nand_page e)) ->
  (pi_is_unmapped e = false -> bufs !! Z.to_nat n = Some (pi_temp_buffer e)) ->
  pi_host_page_ptrs e = replicate (Z.to_nat R) 0 -> pi_host_pages e = 0 ->
  infos_wf (n + 1) (<[Z.to_nat n := e]> l) /\
  in_use (n + 1) (<[Z.to_nat n := e]> l) = in_use n l ++ [e] /\
  entries_ok lpa bufs ws (in_use n l ++ [e]).
Proof using Hg.
  intros (Hl & Hf & Hn) Hn16 [Hnd Hen Hco] Hwf Hnew Hr Hu Hc Hb Hp Hz.
  assert (Hlen : length (in_use n l) = Z.to_nat n) by (unfold in_use; rewrite length_take; lia).
  split_and!.
  - split; [by rewrite length_insert|]. split; [by apply Forall_insert|lia].
  - unfold in_use. replace (Z.to_nat (n + 1)) with (S (Z.to_nat n)) by lia.
    rewrite (take_S_r _ _ e) by (apply list_lookup_insert_eq; lia). by rewrite take_insert_ge by lia.
  - split.
    + rewrite map_app. apply list.NoDup_app. split; [done|]. split; [|apply NoDup_singleton].
      intros x Hx Hx'. apply list_elem_of_singleton in Hx'. subst x. by apply Hnew, list_elem_of_In.
    + intros i e' Hi. apply lookup_snoc_Some in Hi as [[_ Hi]|[-> <-]]; [by apply Hen|].
      rewrite Hlen. split; try done; [|by rewrite Hp, set_slots_zero].
      intros o Ho. rewrite Hp, lookup_replicate_2 by lia. rewrite slot_of_notin; [done|].
      rewrite in_map_iff. intros (w & Hw & Hin). apply Hnew. specialize (Hco w Hin).
      destruct uneq_sizes as (HR & _). rewrite Hw, Z.div_add_l, Z.div_small, Z.add_0_r in Hco by lia. done.
    + intros w Hw. rewrite map_app, in_app_iff. left. by apply Hco.
Qed.

(** A host page is put into the entry of its page. *)
Lemma entries_put lpa bufs ws n l ix e lpn ptr :
  infos_wf n l -> entries_ok lpa bufs ws (in_use n l) -> in_use n l !! ix = Some e ->
  pi_nand_page e = lpn / R -> ptr <> 0 -> ~ In lpn (map fst ws) ->
  exists l' e', put_info (Z.of_nat ix) (host_offset g lpn) lpn ptr l = Ok l' /\ infos_wf n l' /\
    in_use n l' = <[ix := e']> (in_use n l) /\ same_page e e' /\
    entries_ok lpa bufs (ws ++ [(lpn, ptr)]) (in_use n l').
Proof using Hg.
  intros Hwf [Hnd Hen Hco] Hi Hnp Hptr Hnin.
  destruct (entry_wf_lookup _ _ _ _ Hwf Hi) as (He & Hli & Hin). destruct uneq_sizes as (HR & _ & _ & _ & HRb & _).
  destruct (host_page_split lpn) as (Hsplit & Ho). destruct (Hen _ _ Hi) as [Er Eu Ec Eb Ep En].
  set (e' := PageInfo (pi_nand_page e) (pi_is_unmapped e) (pi_current_ppa e) (pi_new_ppa e) (pi_data_src e)
    (pi_temp_buffer e) (<[Z.to_nat (host_offset g lpn) := lpn]> (pi_host_page e))
    (<[Z.to_nat (host_offset g lpn) := ptr]> (pi_host_page_ptrs e)) (u32 (pi_host_pages e + 1))).
  assert (He' : entry_wf e') by (split; cbn; rewrite length_insert; apply He).
  destruct (in_use_insert n l ix e' Hwf Hin He') as (Hwf' & Huse).
  exists (<[ix := e']> l), e'. split.
  { unfold put_info. rewrite (proj2 (arr_get_Ok l (Z.of_nat ix) e)) by (split; [lia|by rewrite Nat2Z.id]).
    cbn [obind]. rewrite put_host_page_ok by done. cbn [obind]. destruct Hwf as (Hl & _).
    rewrite arr_set_Ok by (apply lookup_lt_Some in Hli; lia). by rewrite Nat2Z.id. }
  assert (H0 : pi_host_page_ptrs e !! Z.to_nat (host_offset g lpn) = Some 0).
  { rewrite Ep by done. f_equal. rewrite Hnp, <- Hsplit. by apply slot_of_notin. }
  assert (Hlt : (ix < length (in_use n l))%nat) by (by apply lookup_lt_Some in Hi).
  assert (Hmap : map pi_nand_page (<[ix := e']> (in_use n l)) = map pi_nand_page (in_use n l)).
  { change (map pi_nand_page) with (fmap (M := list) pi_nand_page). rewrite list_fmap_insert.
    apply list_insert_id. by rewrite list_lookup_fmap, Hi. }
  split; [done|]. split; [done|]. split; [done|]. rewrite Huse. split.
  - by rewrite Hmap.
  - intros j x Hj. destruct (decide (ix = j)) as [<-|Hne].
    + rewrite list_lookup_insert_eq in Hj by done. injection Hj as <-. split; try done.
      * intros o Hoo. cbn [pi_host_page_ptrs pi_nand_page e']. rewrite slot_of_snoc. cbn [fst snd].
        destruct (decide (o = host_offset g lpn)) as [->|Hno].
        -- rewrite list_lookup_insert_eq by (destruct He as (_ & ->); lia). rewrite Hnp, <- Hsplit, Z.eqb_refl. done.
        -- rewrite list_lookup_insert_ne by lia. rewrite Ep by done.
           destruct (Z.eqb_spec lpn (pi_nand_page e * R + o)); [lia|done].
      * cbn [pi_host_pages pi_host_page_ptrs e']. rewrite (set_slots_insert _ _ _ H0 Hptr), En.
        pose proof (set_slots_le (pi_host_page_ptrs e)). destruct He as (_ & HL). rewrite u32_id by lia. lia.
    + rewrite list_lookup_insert_ne in Hj by done. destruct (Hen _ _ Hj) as [Xr Xu Xc Xb Xp Xn]. split; try done.
      intros o Hoo. rewrite slot_of_snoc. cbn [fst snd]. rewrite Xp by done.
      destruct (Z.eqb_spec lpn (pi_nand_page x * R + o)) as [E|]; [|done]. exfalso. apply Hne.
      eapply (NoDup_lookup (map pi_nand_page (in_use n l)) ix j (lpn / R) Hnd);
        change (map pi_nand_page) with (fmap (M := list) pi_nand_page); rewrite list_lookup_fmap.
      * rewrite Hi. cbn. by rewrite Hnp.
      * rewrite Hj. cbn. f_equal. subst lpn. by rewrite Z.div_add_l, Z.div_small, Z.add_0_r by lia.
  - intros w. rewrite in_app_iff, Hmap. intros [Hw|[<-|[]]]; [by apply Hco|]. cbn [fst].
    rewrite <- Hnp. apply in_map, list_elem_of_In, list_elem_of_lookup. by exists ix.
Qed.

End entries.

(** ** Collecting the pages to write *)

(** Clearing the completion mark of a page of the cache. *)
Lemma wbc_page_set pages i pg :
  pages !! i = Some pg ->
  Forall2 (fun a b => wp_lpn a = wp_lpn b /\ wp_ssd_addr a = wp_ssd_addr b /\ wp_valid a = wp_valid b)
    pages (<[i := WbcPage (wp_lpn pg) (wp_ssd_addr pg) (wp_valid pg) 0]> pages).
Proof.
  intros Hi. apply Forall2_same_length_lookup. split; [by rewrite length_insert|]. intros j a b Ha Hb.
  destruct (decide (i = j)) as [<-|Hne].
  - rewrite list_lookup_insert_eq in Hb by (by apply lookup_lt_Some in Hi). by simplify_eq.
  - rewrite list_lookup_insert_ne in Hb by done. by simplify_eq.
Qed.

Lemma wbc_list_same pages pages' :
  Forall2 (fun a b => wp_lpn a = wp_lpn b /\ wp_ssd_addr a = wp_ssd_addr b /\ wp_valid a = wp_valid b) pages pages' ->
  wbc_list pages' = wbc_list pages.
Proof.
  induction 1 as [|a b la lb (Ha & Hb & Hc) _ IH]; [done|]. cbn [wbc_list flat_map].
  rewrite Ha, Hb, Hc. unfold wbc_list in IH. by rewrite IH.
Qed.

Section writes.
Context {D : Type} `{NandFlash D} (g : geom) (Hg : geom_ok g) (fuel : nat).

Abbreviation TOTAL := (TOTAL_NUM_OF_PAGES g) (only parsing).
Abbreviation PS := (NAND_PAGE_SIZE g) (only parsing).
Abbreviation HPS := (HOST_PAGE_SIZE g) (only parsing).
Abbreviation R := (HOST_PER_NAND_PAGES g) (only parsing).

Definition write_infos (u : uneq) : list page_info := in_use (program_pages_count u) (program_pages u).
Definition op_of (e : page_info) : op_page := OpPage (pi_new_ppa e) (pi_temp_buffer e).
Definition write_of (e : page_info) : Z * Z := (pi_nand_page e, pi_temp_buffer e).

(** Everything but the entries of the program side. *)
Definition same_globals (u u' : uneq) : Prop :=
  rmp_buffer u' = rmp_buffer u /\ read_pages u' = read_pages u /\ read_pages_count u' = read_pages_count u /\
  temp_read_buffer u' = temp_read_buffer u.

(** The entries for the writes [ws], and the tables, in which their NAND pages
    are mapped already: once every entry's buffer is programmed, the array
    represents the disk with these NAND pages written. *)
Record collected (k : Z) (s0 : drive D) (ws : list (Z * Z)) (u : uneq) (s : drive D) : Prop := Collected {
  co_wf : infos_wf g (program_pages_count u) (program_pages u);
  co_entries : entries_ok g (lpa_table (d_ftl s0)) (rmp_buffer u) ws (write_infos u);
  co_new : forall i e, write_infos u !! i = Some e ->
    rmp_buffer u !! i = Some (pi_temp_buffer e) /\ ppa_in g (pi_new_ppa e) = true;
  co_map : map_inv g (k + program_pages_count u) (d_ftl s);
  co_counts : count_inv g k (d_ftl s0) -> count_inv g (k + program_pages_count u) (d_ftl s);
  co_drive : d_pools s = d_pools s0 /\ d_nand s = d_nand s0 /\ d_mem s = d_mem s0 /\ d_kernel s = d_kernel s0;
  co_same : forall np, ~ In np (map pi_nand_page (write_infos u)) ->
    lpa_table (d_ftl s) np = lpa_table (d_ftl s0) np;
  co_rep : forall m page dk, represents g page (lpa_table (d_ftl s0)) dk ->
    represents g (NandIo.program_pages g m (map op_of (write_infos u)) page) (lpa_table (d_ftl s))
      (write_pages m (map write_of (write_infos u)) dk) }.

Lemma map_insert_same {B} (f : page_info -> B) (l : list page_info) i e e' :
  l !! i = Some e -> f e' = f e -> map f (<[i := e']> l) = map f l.
Proof.
  intros Hi He. change (map f) with (fmap (M := list) f). rewrite list_fmap_insert.
  apply list_insert_id. by rewrite list_lookup_fmap, Hi, He.
Qed.

(** Replacing an entry by one of the same page keeps all but the host pages. *)
Lemma collected_replace k s0 ws ws' u s l' i e e' :
  collected k s0 ws u s -> write_infos u !! i = Some e -> same_page e e' ->
  infos_wf g (program_pages_count u) l' ->
  in_use (program_pages_count u) l' = <[i := e']> (write_infos u) ->
  entries_ok g (lpa_table (d_ftl s0)) (rmp_buffer u) ws' (in_use (program_pages_count u) l') ->
  collected k s0 ws' (set_program_pages l' u) s.
Proof.
  intros [Hwf Hen Hnew Hm Hc Hd Hs Hr] Hi (S1 & S2 & S3 & S4 & S5) Hwf' Hl' Hen'.
  split; try done; unfold write_infos in *; cbn [set_program_pages program_pages program_pages_count rmp_buffer] in *; rewrite Hl'.
  - intros j x Hj. destruct (decide (i = j)) as [<-|Hne].
    + rewrite list_lookup_insert_eq in Hj by (by apply lookup_lt_Some in Hi). injection Hj as <-.
      rewrite S4, S5. by apply Hnew.
    + rewrite list_lookup_insert_ne in Hj by done. by apply Hnew.
  - intros np. rewrite (map_insert_same _ _ _ _ _ Hi S1). apply Hs.
  - intros m page dk Hrep. rewrite (map_insert_same op_of _ _ _ _ Hi), (map_insert_same write_of _ _ _ _ Hi);
      [by apply Hr|unfold write_of; by rewrite S1, S5|unfold op_of; by rewrite S4, S5].
Qed.

(** Every entry has a write. *)
Definition used (ws : list (Z * Z)) (u : uneq) : Prop :=
  incl (map pi_nand_page (write_infos u)) (map (fun w => fst w / R) ws).

Lemma used_count k s0 ws u s : collected k s0 ws u s -> used ws u -> program_pages_count u <= Z.of_nat (length ws).
Proof using.
  intros Hco Hu. destruct (co_entries _ _ _ _ _ Hco) as [Hnd _ _]. destruct (co_wf _ _ _ _ _ Hco) as (Hl & _ & Hn).
  apply NoDup_ListNoDup in Hnd. pose proof (List.NoDup_incl_length Hnd Hu) as Hx. rewrite !length_map in Hx.
  unfold write_infos, in_use in Hx. rewrite length_take in Hx. lia.
Qed.

(** A new entry is mapped to the next free page. *)
Lemma new_program_info_ok k s0 ws u s np :
  collected k s0 ws u s -> length (rmp_buffer u) = 16%nat -> program_pages_count u < 16 ->
  k + program_pages_count u < TOTAL -> 0 <= np < TOTAL ->
  ~ In np (map pi_nand_page (write_infos u)) ->
  exists u' s' e, new_program_info g (S fuel) np u s = Ok (u', s') /\
    collected k s0 ws u' s' /\ same_globals u u' /\ program_pages_count u' = program_pages_count u + 1 /\
    write_infos u' !! Z.to_nat (program_pages_count u) = Some e /\ pi_nand_page e = np /\
    write_infos u' = write_infos u ++ [e].
Proof using Hg.
  intros Hco Hbl Hc16 Hk Hnp Hnin. pose proof Hco as [Hwf Hen Hnew Hm Hcn (D1 & D2 & D3 & D4) Hs Hr].
  set (n := program_pages_count u) in *. pose proof Hwf as (Hl & Hf & Hn). pose proof (Hs np Hnin) as Elpa.
  destruct (arr_get_lookup (program_pages u) n) as (e0 & Eg0 & Hlk0); [lia|].
  destruct (arr_get_lookup (rmp_buffer u) n) as (b & Egb & Hlkb); [lia|].
  destruct (make_new_mapping_ok g Hg (k + n) np (d_ftl s) fuel Hm ltac:(lia) Hnp) as (f' & Ef & Hm' & Hc' & Hl').
  set (un := chn (lpa_table (d_ftl s) np) =? 255).
  set (e := PageInfo np un (if un then pi_current_ppa e0 else lpa_table (d_ftl s) np)
    (nth_page g (k + n)) (pi_data_src e0) b (pi_host_page e0) (map (fun _ => 0) (pi_host_page_ptrs e0)) 0).
  assert (Hwf0 : entry_wf g e0) by (rewrite Forall_lookup in Hf; by eapply Hf).
  assert (Hz : map (fun _ : Z => 0) (pi_host_page_ptrs e0) = replicate (Z.to_nat R) 0).
  { destruct Hwf0 as (_ & <-). clear. by induction (pi_host_page_ptrs e0) as [|x l IH]; cbn; [|rewrite IH]. }
  destruct (entries_new g Hg (lpa_table (d_ftl s0)) (rmp_buffer u) ws n (program_pages u) e) as (Hwf' & Huse & Hen'); try done.
  { split; cbn; [apply Hwf0|]. rewrite Hz. apply length_replicate. }
  { cbn. unfold un. by rewrite Elpa. }
  { cbn. intros ->. done. }
  exists (set_program_count (n + 1) (set_program_pages (<[Z.to_nat n := e]> (program_pages u)) u)), (set_d_ftl f' s), e.
  split.
  { unfold new_program_info. fold n. rewrite Eg0. cbn [obind]. unfold IS_UNMAPPED_LPA, GET_MAPPED_PPA.
    rewrite (proj2 (in_range_true _ _) Hnp). cbn [obind]. fold un.
    assert (E : (if un then Ok (pi_current_ppa e0) else Ok (lpa_table (d_ftl s) np)) =
      Ok (if un then pi_current_ppa e0 else lpa_table (d_ftl s) np)) by (by destruct un).
    rewrite E. cbn [obind]. unfold d_new_mapping. rewrite Ef. cbn [obind]. rewrite Egb. cbn [obind].
    rewrite arr_set_Ok by lia. cbn [obind]. rewrite u32_id by lia. done. }
  assert (Hlen : length (write_infos u) = Z.to_nat n) by (unfold write_infos, in_use; rewrite length_take; fold n; lia).
  assert (Hinf : write_infos (set_program_count (n + 1) (set_program_pages (<[Z.to_nat n := e]> (program_pages u)) u))
    = write_infos u ++ [e]) by exact Huse.
  split; [|split; [done|]; split; [done|]; split; [rewrite Hinf, <- Hlen; by apply list_lookup_middle|]; done].
  split; try rewrite Hinf; cbn [set_program_count set_program_pages program_pages program_pages_count rmp_buffer
    set_d_ftl d_ftl d_pools d_nand d_mem d_kernel]; try done.
  - intros i x Hi. apply lookup_snoc_Some in Hi as [[_ Hi]|[-> <-]]; [by apply Hnew|]. rewrite Hlen. split; [done|].
    apply (new_page_free g Hg (k + n) (d_ftl s) Hm ltac:(lia)).
  - by rewrite Z.add_assoc.
  - intros Hc0. rewrite Z.add_assoc. by apply Hc', Hcn.
  - intros x. rewrite map_app, in_app_iff. intros Hx. rewrite Hl', fn_lookup_insert_ne; [apply Hs; tauto|].
    intros <-. apply Hx. right. by left.
  - intros m page dk Hrep. unfold NandIo.program_pages, write_pages. rewrite !map_app, !fold_left_app.
    eapply (represents_write g Hg (k + n) np b m (d_ftl s) f'); [done|lia|done|done|]. by apply Hr.
Qed.

(** One write. *)
Lemma collect_write_ok k s0 ws u s lpn ptr :
  collected k s0 ws u s -> length (rmp_buffer u) = 16%nat ->
  used ws u -> (length ws < 16)%nat -> k + Z.of_nat (length ws) < TOTAL ->
  0 <= lpn < TOTAL * R -> ptr <> 0 -> ~ In lpn (map fst ws) ->
  exists u' s', collect_write g (S fuel) lpn ptr u s = Ok (u', s') /\
    collected k s0 (ws ++ [(lpn, ptr)]) u' s' /\ same_globals u u' /\ used (ws ++ [(lpn, ptr)]) u'.
Proof using Hg.
  intros Hco Hbl Hus Hlen Hk Hlpn Hptr Hnin. destruct (uneq_sizes g Hg) as (HR & _).
  pose proof (used_count _ _ _ _ _ Hco Hus) as Hcnt.
  assert (Hnp : 0 <= lpn / R < TOTAL) by (split; [apply Z.div_pos; lia|apply Z.div_lt_upper_bound; lia]).
  unfold collect_write. rewrite (nand_page_of_div g Hg).
  destruct (find_in_use g _ _ (lpn / R) (co_wf _ _ _ _ _ Hco)) as (r & Ef & Hfound). rewrite Ef. cbn [obind].
  assert (Hput : forall u1 s1 i e, collected k s0 ws u1 s1 -> same_globals u u1 ->
      incl (map pi_nand_page (write_infos u1)) (map (fun w => fst w / R) (ws ++ [(lpn, ptr)])) ->
      write_infos u1 !! i = Some e -> pi_nand_page e = lpn / R ->
      exists u' s', (let! l := put_info (Z.of_nat i) (host_offset g lpn) lpn ptr (program_pages u1) in
                     Ok (set_program_pages l u1, s1)) = Ok (u', s') /\
        collected k s0 (ws ++ [(lpn, ptr)]) u' s' /\ same_globals u u' /\ used (ws ++ [(lpn, ptr)]) u').
  { intros u1 s1 i e H1 Hsg Hc1 Hi He.
    destruct (entries_put g Hg _ _ _ _ _ _ _ lpn ptr (co_wf _ _ _ _ _ H1) (co_entries _ _ _ _ _ H1) Hi He Hptr Hnin)
      as (l' & e' & El & Hwf' & Huse & Hsame & Hen). rewrite El. cbn [obind].
    exists (set_program_pages l' u1), s1. split; [done|]. split; [by eapply collected_replace|]. split; [done|].
    unfold used, write_infos in *. cbn [set_program_pages program_pages program_pages_count]. rewrite Huse.
    destruct Hsame as (S1 & _). by rewrite (map_insert_same _ _ _ _ _ Hi S1). }
  destruct r as [ix|]; cbn [obind].
  - destruct Hfound as (Hix & e & Hi & _ & He). rewrite <- (Z2Nat.id ix) by lia.
    apply (Hput u s (Z.to_nat ix) e); try done. rewrite map_app. by apply incl_appl.
  - destruct (new_program_info_ok k s0 ws u s (lpn / R) Hco) as (u1 & s1 & e & E1 & H1 & Hsg & Hc1 & Hi & He & Hw); try done; try lia.
    rewrite E1. cbn [obind]. destruct (co_wf _ _ _ _ _ Hco) as (_ & _ & Hn).
    rewrite <- (Z2Nat.id (program_pages_count u)) by lia. apply (Hput u1 s1 _ e); try done.
    rewrite Hw, !map_app. cbn [map fst]. rewrite He. apply incl_app; [apply incl_appl, Hus|apply incl_appr, incl_refl].
Qed.

(** A list of writes. *)
Fixpoint collect_list (ws : list (Z * Z)) (u : uneq) (s : drive D) : outcome (uneq * drive D) :=
  match ws with
  | [] => Ok (u, s)
  | (lpn, ptr) :: r => let! '(u, s) := collect_write g (S fuel) lpn ptr u s in collect_list r u s
  end.

Lemma collect_list_ok k s0 ws ws0 u s :
  collected k s0 ws0 u s -> length (rmp_buffer u) = 16%nat ->
  used ws0 u -> (length (ws0 ++ ws) <= 16)%nat ->
  k + Z.of_nat (length (ws0 ++ ws)) <= TOTAL -> NoDup (map fst (ws0 ++ ws)) ->
  Forall (fun w => 0 <= fst w < TOTAL * R /\ snd w <> 0) ws ->
  exists u' s', collect_list ws u s = Ok (u', s') /\ collected k s0 (ws0 ++ ws) u' s' /\ same_globals u u' /\
    used (ws0 ++ ws) u'.
Proof using Hg.
  revert ws0 u s. induction ws as [|[lpn ptr] ws IH]; intros ws0 u s Hco Hbl Hc Hlen Hk Hnd Hall.
  - rewrite app_nil_r in *. exists u, s. done.
  - apply Forall_cons_1 in Hall as ((Hl & Hp) & Hall). cbn [fst snd] in *. cbn [collect_list].
    rewrite length_app in *. cbn [length] in *.
    destruct (collect_write_ok k s0 ws0 u s lpn ptr Hco) as (u1 & s1 & E1 & H1 & Hsg & Hc1); try done; try lia.
    { rewrite map_app in Hnd. apply list.NoDup_app in Hnd as (_ & Hx & _). intros Hin%list_elem_of_In.
      apply (Hx _ Hin), list_elem_of_In. by left. }
    rewrite E1. cbn [obind]. destruct (IH (ws0 ++ [(lpn, ptr)]) u1 s1) as (u' & s' & E & H' & Hsg' & Hc'); rewrite <- ?app_assoc; try done.
    + destruct Hsg as (-> & _). done.
    + rewrite length_app. cbn [app length]. lia.
    + rewrite length_app. cbn [app length]. lia.
    + exists u', s'. rewrite <- app_assoc in H', Hc'. cbn [app] in H', Hc'. split; [done|]. split; [done|]. split; [|done].
      destruct Hsg as (A1 & A2 & A3 & A4), Hsg' as (B1 & B2 & B3 & B4). split_and!; congruence.
Qed.

(** ** Reading the old pages *)

Definition core (e : page_info) : page_info := pi_set_data_src 0 e.

Lemma map_core {B} (f : page_info -> B) l l' :
  (forall e, f (core e) = f e) -> map core l' = map core l -> map f l' = map f l.
Proof.
  intros Hf Hc. rewrite <- (map_ext _ _ Hf), <- (map_map core f), Hc, map_map. by apply map_ext.
Qed.

Lemma core_lookup l l' i e' :
  map core l' = map core l -> l' !! i = Some e' -> exists e, l !! i = Some e /\ core e = core e'.
Proof.
  intros Hc Hi. assert (Hx : map core l' !! i = Some (core e')).
  { change (map core) with (fmap (M := list) core). by rewrite list_lookup_fmap, Hi. }
  rewrite Hc in Hx. change (map core) with (fmap (M := list) core) in Hx. rewrite list_lookup_fmap in Hx.
  destruct (l !! i) as [e|]; [|done]. exists e. split; [done|]. by apply (inj Some) in Hx.
Qed.

(** Only [data_src] may change. *)
Lemma collected_core k s0 ws u s l' :
  collected k s0 ws u s -> infos_wf g (program_pages_count u) l' ->
  map core (in_use (program_pages_count u) l') = map core (write_infos u) ->
  collected k s0 ws (set_program_pages l' u) s.
Proof.
  intros [Hwf [Hnd Hen Hcov] Hnew Hm Hc Hd Hs Hr] Hwf' Hl'.
  assert (Enp : map pi_nand_page (in_use (program_pages_count u) l') = map pi_nand_page (write_infos u)) by (by apply map_core).
  split; try done; unfold write_infos in *;
    cbn [set_program_pages program_pages program_pages_count rmp_buffer] in *.
  - split; [by rewrite Enp| |by rewrite Enp]. intros i e' (e & Hi & E)%(core_lookup _ _ _ _ Hl').
    destruct (Hen _ _ Hi) as [N1 N2 N3 N4 N5 N6]. unfold core, pi_set_data_src in E.
    injection E as E1 E2 E3 E4 E5 E6 E7 E8. split; rewrite <- ?E1, <- ?E2, <- ?E3, <- ?E5, <- ?E7, <- ?E8; done.
  - intros i e' (e & Hi & E)%(core_lookup _ _ _ _ Hl'). destruct (Hnew _ _ Hi) as (N1 & N2).
    unfold core, pi_set_data_src in E. injection E as E1 E2 E3 E4 E5 E6 E7 E8. by rewrite <- E4, <- E5.
  - by rewrite Enp.
  - intros m page dk Hrep. rewrite (map_core op_of _ _ ltac:(done) Hl'), (map_core write_of _ _ ltac:(done) Hl').
    by apply Hr.
Qed.

(** The entries whose old page is read. *)
Definition needs_read (e : page_info) : bool := negb (pi_is_unmapped e) && (pi_host_pages e <? R).

Definition old_reads (l : list page_info) : list op_page :=
  flat_map (fun e => if needs_read e then [OpPage (pi_current_ppa e) (pi_temp_buffer e)] else []) l.

Lemma old_reads_core l l' : map core l' = map core l -> old_reads l' = old_reads l.
Proof. intros Hc. unfold old_reads. rewrite !flat_map_concat_map. f_equal. by apply map_core. Qed.

Lemma rmp_read_loop_ok F n i rop u (s : drive D) l0 :
  infos_wf g (program_pages_count u) (program_pages u) -> Z.of_nat (i + n) = program_pages_count u ->
  op_open RD F rop l0 (d_pools s) -> (length l0 + n <= 128)%nat ->
  exists l' p', rmp_read_loop g n (Z.of_nat i) rop u s = Ok (set_program_pages l' u, set_d_pools p' s) /\
    infos_wf g (program_pages_count u) l' /\
    map core (in_use (program_pages_count u) l') = map core (write_infos u) /\
    op_open RD F rop (l0 ++ old_reads (drop i (write_infos u))) p' /\ same_side PR (d_pools s) p'.
Proof using Hg.
  revert i u s l0. induction n as [|n IH]; intros i u s l0 Hwf Hn Ho Hlen.
  - exists (program_pages u), (d_pools s). cbn [rmp_read_loop]. rewrite drop_ge by
      (destruct Hwf as (? & _); unfold write_infos, in_use; rewrite length_take; lia).
    cbn [old_reads flat_map]. rewrite app_nil_r. destruct u, s. done.
  - pose proof Hwf as (Hl & Hf & Hc).
    destruct (arr_get_lookup (program_pages u) (Z.of_nat i)) as (e & Eg & Hlk); [lia|]. rewrite Nat2Z.id in Hlk.
    assert (Hin : write_infos u !! i = Some e) by (unfold write_infos, in_use; by rewrite lookup_take_lt by lia).
    cbn [rmp_read_loop]. rewrite Eg. cbn [obind]. rewrite (drop_S _ e) by done. cbn [old_reads flat_map].
    assert (Hupd : forall v (s1 : drive D) l1, op_open RD F rop l1 (d_pools s1) -> (length l1 + n <= 128)%nat ->
      exists l' p', rmp_read_loop g n (Z.of_nat i + 1) rop
          (set_program_pages (<[i := pi_set_data_src v e]> (program_pages u)) u) s1 =
        Ok (set_program_pages l' u, set_d_pools p' s1) /\
      infos_wf g (program_pages_count u) l' /\
      map core (in_use (program_pages_count u) l') = map core (write_infos u) /\
      op_open RD F rop (l1 ++ old_reads (drop (S i) (write_infos u))) p' /\ same_side PR (d_pools s1) p').
    { intros v s1 l1 Ho1 Hl1. destruct (entry_wf_lookup g _ _ _ _ Hwf Hin) as (He & _ & Hi).
      destruct (in_use_insert g _ _ i (pi_set_data_src v e) Hwf Hi He) as (Hwf1 & Huse1).
      destruct (IH (S i) (set_program_pages (<[i := pi_set_data_src v e]> (program_pages u)) u) s1 l1)
        as (l' & p' & E & Hwf' & Hco & Ho' & Hs'); [exact Hwf1|cbn [program_pages_count set_program_pages]; lia|done|done|].
      assert (Hcore : map core (in_use (program_pages_count u) (<[i := pi_set_data_src v e]> (program_pages u))) =
        map core (write_infos u)) by (rewrite Huse1; by eapply map_insert_same).
      exists l', p'. replace (Z.of_nat i + 1) with (Z.of_nat (S i)) by lia. rewrite E. split; [done|].
      split; [done|]. unfold write_infos in *. cbn [set_program_pages program_pages program_pages_count] in *.
      split; [by rewrite Hco|]. split; [|done]. rewrite Huse1 in Ho'. by rewrite drop_insert_lt in Ho' by lia. }
    unfold upd_info. rewrite Eg. cbn [obind]. rewrite !arr_set_Ok by lia. cbn [obind]. rewrite !Nat2Z.id.
    assert (Enr : pi_is_unmapped e || (R <=? pi_host_pages e) = negb (needs_read e)).
    { unfold needs_read. rewrite negb_andb, negb_involutive. f_equal. by rewrite Z.leb_antisym. }
    rewrite Enr. destruct (needs_read e); cbn [negb].
    + destruct (add_op_page_spec RD F rop l0 (d_pools s) (pi_current_ppa e) (pi_temp_buffer e) Ho ltac:(lia))
        as (p1 & E1 & Ho1 & Hs1). unfold d_add_page. rewrite E1. cbn [obind].
      destruct (Hupd TEMP_RMP_BUFFER (set_d_pools p1 s) _ Ho1) as (l' & p' & E & Hw & Hco & Ho' & Hs');
        [rewrite length_app; cbn [length]; lia|].
      exists l', p'. rewrite E. rewrite <- app_assoc in Ho'. split_and!; try done. by eapply same_side_trans.
    + by apply (Hupd DIRECT_FROM_WBC s l0 Ho ltac:(lia)).
Qed.

(** ** Filling and programming the buffers *)

Lemma gather_slots_ok n ih e m :
  entry_wf g e -> 0 <= pi_temp_buffer e -> pi_temp_buffer e + PS <= 2 ^ 32 -> Z.of_nat (ih + n) = R ->
  gather_slots g n (Z.of_nat ih) e m =
    Ok (run_jobs HPS (slot_jobs HPS true (Z.of_nat ih) (pi_temp_buffer e) (drop ih (pi_host_page_ptrs e))) m).
Proof using Hg.
  intros (_ & Hp) Hb Hm. revert ih m. induction n as [|n IH]; intros ih m Hn.
  - rewrite drop_ge by lia. done.
  - destruct (arr_get_lookup (pi_host_page_ptrs e) (Z.of_nat ih)) as (p & Eg & Hlk); [lia|]. rewrite Nat2Z.id in Hlk.
    cbn [gather_slots]. rewrite Eg. cbn [obind]. rewrite (drop_S _ p) by done. cbn [slot_jobs].
    replace (Z.of_nat ih + 1) with (Z.of_nat (S ih)) by lia.
    destruct (p =? 0); rewrite IH by lia; [done|]. rewrite slot_addr_ok by (done || lia). done.
Qed.

Definition write_jobs (l : list page_info) : list (Z * Z) :=
  flat_map (fun e => slot_jobs HPS true 0 (pi_temp_buffer e) (pi_host_page_ptrs e)) l.

Lemma rmp_program_loop_ok F n i pop u (s : drive D) l0 :
  infos_wf g (program_pages_count u) (program_pages u) -> Z.of_nat (i + n) = program_pages_count u ->
  (forall j e, write_infos u !! j = Some e -> 0 <= pi_temp_buffer e /\ pi_temp_buffer e + PS <= 2 ^ 32) ->
  op_open PR F pop l0 (d_pools s) -> (length l0 + n <= 128)%nat ->
  exists p', rmp_program_loop g n (Z.of_nat i) pop u s =
      Ok (set_d_pools p' (set_d_mem (run_jobs HPS (write_jobs (drop i (write_infos u))) (d_mem s)) s)) /\
    op_open PR F pop (l0 ++ map op_of (drop i (write_infos u))) p' /\ same_side RD (d_pools s) p'.
Proof using Hg.
  intros Hwf Hn Hb. pose proof Hwf as (Hl & _ & Hc). destruct (uneq_sizes g Hg) as (HR & _).
  revert i s l0 Hn. induction n as [|n IH]; intros i s l0 Hn Ho Hlen.
  - exists (d_pools s). cbn [rmp_program_loop]. rewrite drop_ge by
      (unfold write_infos, in_use; rewrite length_take; lia). cbn. rewrite app_nil_r. by destruct s.
  - destruct (arr_get_lookup (program_pages u) (Z.of_nat i)) as (e & Eg & Hlk); [lia|]. rewrite Nat2Z.id in Hlk.
    assert (Hin : write_infos u !! i = Some e) by (unfold write_infos, in_use; by rewrite lookup_take_lt by lia).
    cbn [rmp_program_loop]. rewrite Eg. cbn [obind]. rewrite (drop_S _ e) by done. cbn [write_jobs flat_map map].
    destruct (entry_wf_lookup g _ _ _ _ Hwf Hin) as (He & _). destruct (Hb _ _ Hin) as (Hb1 & Hb2).
    pose proof (gather_slots_ok (Z.to_nat R) 0 e (d_mem s) He Hb1 Hb2 ltac:(lia)) as Egs.
    change (Z.of_nat 0) with 0 in Egs. rewrite Egs. cbn [obind]. change (drop 0 ?x) with x.
    set (m1 := run_jobs _ _ _).
    destruct (add_op_page_spec PR F pop l0 (d_pools s) (pi_new_ppa e) (pi_temp_buffer e) Ho ltac:(lia))
      as (p1 & E1 & Ho1 & Hs1). unfold d_add_page. cbn [set_d_mem d_pools]. rewrite E1. cbn [obind].
    replace (Z.of_nat i + 1) with (Z.of_nat (S i)) by lia.
    destruct (IH (S i) (set_d_pools p1 (set_d_mem m1 s)) (l0 ++ [op_of e])) as (p' & E & Ho' & Hs');
      [lia|done|rewrite length_app; cbn [length]; lia|].
    exists p'. unfold set_d_mem, set_d_pools in *. cbn [d_pools d_mem d_ftl d_nand d_kernel] in *. rewrite E.
    rewrite <- app_assoc in Ho'. split_and!; [|done|by eapply same_side_trans].
    unfold m1, run_jobs. by rewrite fold_left_app.
Qed.

(** ** The whole flush *)

Lemma read_pages_get page l m x o :
  buffers_apart g l -> In x l -> 0 <= o < PS ->
  NandIo.read_pages g page l m (pg_ssd_addr x + o) = page (key_of (pg_ppa x)) o.
Proof using Hg.
  intros Hap Hin Ho. unfold NandIo.read_pages.
  induction l as [|y l IH] using rev_ind; [done|]. rewrite fold_left_app. cbn [fold_left]. unfold read_page at 1.
  destruct ((pg_ssd_addr y <=? pg_ssd_addr x + o) && (pg_ssd_addr x + o <? pg_ssd_addr y + PS)) eqn:E.
  - zify_bools. assert (x = y) as <-; [|f_equal; lia].
    apply (Hap x y (pg_ssd_addr x + o)); [done|apply in_app_iff; right; by left|apply in_range_true; lia..].
  - apply IH.
    + intros a b c Ha Hb. apply Hap; apply in_app_iff; by left.
    + apply in_app_iff in Hin as [Hin|[->|[]]]; [done|]. apply andb_false_iff in E as [E|E]; zify_bools; lia.
Qed.

Lemma read_pages_out page l m b :
  (forall x, In x l -> ~ pg_ssd_addr x <= b < pg_ssd_addr x + PS) -> NandIo.read_pages g page l m b = m b.
Proof using.
  unfold NandIo.read_pages. induction l as [|y l IH] using rev_ind; intros Hb; [done|].
  rewrite fold_left_app. cbn [fold_left]. unfold read_page at 1.
  pose proof (Hb y ltac:(apply in_app_iff; right; by left)). case_if; [zify_bools; lia|].
  apply IH. intros x Hx. apply Hb, in_app_iff. by left.
Qed.

Lemma read_pages_ok page l m : pages_ok page -> mem_ok m -> mem_ok (NandIo.read_pages g page l m).
Proof using.
  intros Hp. revert m. induction l as [|x l IH]; intros m Hm; [done|]. apply IH. intros b. unfold read_page.
  case_if; [apply Hp|apply Hm].
Qed.

Lemma program_pages_ok page l m : pages_ok page -> mem_ok m -> pages_ok (NandIo.program_pages g m l page).
Proof using.
  intros Hp Hm. revert page Hp. induction l as [|x l IH]; intros page Hp; [done|]. apply IH. intros q b.
  unfold program_page. case_if; [apply Hm|apply Hp].
Qed.

Lemma write_pages_get m ws dk np a off :
  NoDup (map fst ws) -> In (np, a) ws -> write_pages m ws dk np off = m (a + off).
Proof using.
  unfold write_pages. induction ws as [|[x b] ws IH] using rev_ind; intros Hnd Hin; [done|].
  rewrite fold_left_app. cbn [fold_left]. unfold write_page at 1. cbn [fst snd].
  rewrite map_app in Hnd. apply list.NoDup_app in Hnd as (Hnd & Hx & _).
  apply in_app_iff in Hin as [Hin|[[= -> ->]|[]]]; [|by rewrite Z.eqb_refl].
  destruct (Z.eqb_spec np x) as [->|]; [|by apply IH]. exfalso.
  apply (Hx x); apply list_elem_of_In; [by apply (in_map fst _ (x, a))|by left].
Qed.

Lemma write_pages_out m ws dk np off : ~ In np (map fst ws) -> write_pages m ws dk np off = dk np off.
Proof using.
  unfold write_pages. induction ws as [|[x b] ws IH] using rev_ind; intros Hn; [done|].
  rewrite fold_left_app. cbn [fold_left]. unfold write_page at 1. cbn [fst snd]. rewrite map_app, in_app_iff in Hn.
  destruct (Z.eqb_spec np x) as [->|]; [destruct Hn; right; by left|]. apply IH. tauto.
Qed.

(** The buffers of the entries lie in 32 bits and do not meet. *)
Record bufs_ok (bufs : list Z) : Prop := BufsOk {
  bo_len : length bufs = 16%nat;
  bo_placed : forall i b, bufs !! i = Some b -> 0 <= b /\ b + PS <= 2 ^ 32;
  bo_apart : forall i j a b, bufs !! i = Some a -> bufs !! j = Some b -> i <> j -> disjoint_blocks a b PS }.

(** ... nor the host pages given or wanted. *)
Definition apart_from (bufs : list Z) (ws : list (Z * Z)) : Prop :=
  forall lpn p i b, In (lpn, p) ws -> bufs !! i = Some b -> p + HPS <= b \/ b + PS <= p.

(** What a flush makes of the host pages. *)
Record flushed (lpa : Z -> ppa) (bufs : list Z) (ws : list (Z * Z)) (m : mem) (dk dk' : disk) : Prop := Flushed {
  fl_new : forall lpn p off, In (lpn, p) ws -> 0 <= off < HPS ->
    host_disk R HPS dk' lpn off = m (p + off);
  fl_kept : forall lpn off, 0 <= lpn < TOTAL * R -> 0 <= off < HPS -> ~ In lpn (map fst ws) ->
    chn (lpa (lpn / R)) <> 255 \/ ~ In (lpn / R) (map (fun w => fst w / R) ws) ->
    host_disk R HPS dk' lpn off = host_disk R HPS dk lpn off;
  fl_stale : forall lpn off, 0 <= lpn < TOTAL * R -> 0 <= off < HPS -> ~ In lpn (map fst ws) ->
    chn (lpa (lpn / R)) = 255 -> In (lpn / R) (map (fun w => fst w / R) ws) ->
    exists i buf, bufs !! i = Some buf /\
      host_disk R HPS dk' lpn off = m (buf + host_offset g lpn * HPS + off) }.

Section flush.
Context (k : Z) (s0 : drive D) (ws : list (Z * Z)) (u : uneq) (s : drive D).
Context (Hco : collected k s0 ws u s) (Hused : used ws u) (Hb : bufs_ok (rmp_buffer u)) (Hap : apart_from (rmp_buffer u) ws).
Abbreviation L := (write_infos u) (only parsing).

Lemma write_jobs_in d src :
  In (d, src) (write_jobs L) <-> exists i e o, L !! i = Some e /\ 0 <= o < R /\ src <> 0 /\
    src = slot_of ws (pi_nand_page e * R + o) /\ d = pi_temp_buffer e + o * HPS.
Proof using Hg Hco.
  destruct Hco as [Hwf [Hnd Hen _] _ _ _ _ _ _]. unfold write_jobs. rewrite in_flat_map. split.
  - intros (e & (i & Hi)%list_elem_of_In%list_elem_of_lookup & (j & p & Hj & Hp & [= -> ->])%in_slot_jobs).
    destruct (entry_wf_lookup g _ _ _ _ Hwf Hi) as ((_ & Hl) & _). pose proof (lookup_lt_Some _ _ _ Hj).
    exists i, e, (Z.of_nat j). split; [done|]. split; [lia|]. split; [done|]. split; [|f_equal; lia].
    pose proof (en_ptrs _ _ _ _ _ _ (Hen _ _ Hi) (Z.of_nat j) ltac:(lia)) as E. rewrite Nat2Z.id, Hj in E. by injection E.
  - intros (i & e & o & Hi & Ho & Hn & Hs & ->). exists e. split; [apply list_elem_of_In, list_elem_of_lookup; by exists i|].
    apply in_slot_jobs. exists (Z.to_nat o), src. split; [|split; [done|by rewrite Z2Nat.id by lia]].
    rewrite Hs. by apply (en_ptrs _ _ _ _ _ _ (Hen _ _ Hi)).
Qed.

(** Addresses in the buffers of two entries. *)
Lemma buffers_meet i j e e' a : L !! i = Some e -> L !! j = Some e' ->
  0 <= a - pi_temp_buffer e < PS -> 0 <= a - pi_temp_buffer e' < PS -> i = j.
Proof using Hco Hb.
  intros Hi Hj Ha Ha'. destruct (decide (i = j)) as [|Hne]; [done|].
  destruct (co_new _ _ _ _ _ Hco _ _ Hi) as (B1 & _). destruct (co_new _ _ _ _ _ Hco _ _ Hj) as (B2 & _).
  destruct (bo_apart _ Hb _ _ _ _ B1 B2 Hne); lia.
Qed.

Lemma slot_src_apart e i o j b : L !! i = Some e -> 0 <= o < R -> slot_of ws (pi_nand_page e * R + o) <> 0 ->
  rmp_buffer u !! j = Some b ->
  slot_of ws (pi_nand_page e * R + o) + HPS <= b \/ b + PS <= slot_of ws (pi_nand_page e * R + o).
Proof using Hap. intros Hi Ho Hn Hj. by eapply Hap; [apply slot_of_some|]. Qed.

Lemma write_jobs_ok : jobs_ok HPS (write_jobs L).
Proof using Hg Hco Hb Hap.
  destruct (uneq_sizes g Hg) as (HR & Hh & _ & HPSE & _).
  intros [d1 s1] [d2 s2] (i & e & o & Hi & Ho & Hn & Hs & Hd)%write_jobs_in
    (j & e' & o' & Hj & Ho' & Hn' & Hs' & Hd')%write_jobs_in. cbn [fst snd].
  destruct (co_new _ _ _ _ _ Hco _ _ Hi) as (B1 & _). destruct (co_new _ _ _ _ _ Hco _ _ Hj) as (B2 & _). split.
  - destruct (decide (i = j)) as [<-|Hne].
    + rewrite Hi in Hj. injection Hj as <-. destruct (decide (o = o')) as [<-|]; [left; congruence|].
      right. unfold disjoint_blocks. nia.
    + right. pose proof (bo_apart _ Hb _ _ _ _ B1 B2 Hne) as Hx. unfold disjoint_blocks in *. nia.
  - rewrite Hs' in Hn' |- *. pose proof (slot_src_apart _ _ _ _ _ Hj Ho' Hn' B1) as Hx. unfold disjoint_blocks. nia.
Qed.

Lemma old_reads_in x : In x (old_reads L) <->
  exists i e, L !! i = Some e /\ needs_read e = true /\ x = OpPage (pi_current_ppa e) (pi_temp_buffer e).
Proof using.
  unfold old_reads. rewrite in_flat_map. split.
  - intros (e & (i & Hi)%list_elem_of_In%list_elem_of_lookup & Hx). exists i, e.
    destruct (needs_read e); [|done]. by destruct Hx as [<-|[]].
  - intros (i & e & Hi & Hn & ->). exists e. rewrite Hn. split; [|by left].
    apply list_elem_of_In, list_elem_of_lookup. by exists i.
Qed.

Lemma old_reads_placed : map_inv g k (d_ftl s0) -> pages_placed g (old_reads L) /\ buffers_apart g (old_reads L) /\
  (length (old_reads L) <= 128)%nat.
Proof using Hg Hco Hb.
  intros Hm. destruct (uneq_sizes g Hg) as (HR & Hh & _ & HPSE & _).
  pose proof Hco as [Hwf [_ Hen _] Hnew _ _ _ _ _]. split_and!.
  - apply Forall_forall. intros x (i & e & Hi & Hn & ->)%old_reads_in. cbn [pg_ppa pg_ssd_addr].
    destruct (Hen _ _ Hi) as [E1 E2 E3 _ _ _]. destruct (Hnew _ _ Hi) as (B & _). destruct (bo_placed _ Hb _ _ B).
    unfold needs_read in Hn. apply andb_true_iff in Hn as (Hu & _). apply negb_true_iff in Hu.
    rewrite E3 by done. split; [|nia].
    apply (mi_lpa _ _ _ Hm _ E1). rewrite Hu in E2. symmetry in E2. by apply Z.eqb_neq.
  - intros x y a (i & e & Hi & _ & ->)%old_reads_in (j & e' & Hj & _ & ->)%old_reads_in.
    cbn [pg_ssd_addr]. rewrite !in_range_true. intros Ha Ha'.
    pose proof (buffers_meet _ _ _ _ _ Hi Hj Ha Ha') as <-. rewrite Hi in Hj. by injection Hj as <-.
  - assert (Hx : forall l, (length (old_reads l) <= length l)%nat).
    { induction l as [|e l IH]; cbn [old_reads flat_map length]; [lia|]. rewrite length_app.
      unfold old_reads in IH. destruct (needs_read e); cbn [length]; lia. }
    specialize (Hx L). destruct Hwf as (Hl & _ & Hn). unfold write_infos, in_use in *. rewrite length_take in Hx. lia.
Qed.

(** What lies in slot [o] of entry [i]'s buffer when it is programmed. *)
Lemma buffer_contents page dk m3 i e o off :
  (forall b, m3 b = NandIo.read_pages g page (old_reads L) (d_mem s0) b) ->
  map_inv g k (d_ftl s0) -> represents g page (lpa_table (d_ftl s0)) dk ->
  mem_ok (d_mem s0) -> pages_ok page ->
  L !! i = Some e -> 0 <= o < R -> 0 <= off < HPS ->
  run_jobs HPS (write_jobs L) m3 (pi_temp_buffer e + o * HPS + off) =
    let src := slot_of ws (pi_nand_page e * R + o) in
    if negb (src =? 0) then d_mem s0 (src + off)
    else if chn (lpa_table (d_ftl s0) (pi_nand_page e)) =? 255
         then d_mem s0 (pi_temp_buffer e + o * HPS + off) else dk (pi_nand_page e) (o * HPS + off).
Proof using Hg Hco Hb Hap.
  intros Em3 Hm Hrep Hmem Hpages Hi Ho Hoff. destruct (uneq_sizes g Hg) as (HR & Hh & Hw & HPSE & _).
  pose proof Hco as [Hwf [_ Hen _] Hnew _ _ _ _ _]. destruct (Hen _ _ Hi) as [E1 E2 E3 _ E5 E6].
  destruct (old_reads_placed Hm) as (_ & Hba & _).
  assert (Hm3 : mem_ok m3) by (intros b; rewrite Em3; by apply read_pages_ok).
  destruct (run_jobs_spec HPS ltac:(lia) Hw (write_jobs L) m3 Hm3 write_jobs_ok) as (_ & Hin & Hout).
  cbv zeta. set (src := slot_of ws (pi_nand_page e * R + o)). destruct (Z.eqb_spec src 0) as [Hz|Hnz]; cbn [negb].
  - rewrite Hout.
    2: { intros d s1 (j & e' & o' & Hj & Ho' & Hn' & Hs' & ->)%write_jobs_in Hin'.
         assert (i = j) as <- by (eapply (buffers_meet _ _ e e' (pi_temp_buffer e + o * HPS + off)); [done|done|nia|nia]).
         rewrite Hi in Hj. injection Hj as <-. assert (o = o') as <- by nia. by apply Hn'; rewrite Hs'. }
    assert (Hnr : needs_read e = negb (chn (lpa_table (d_ftl s0) (pi_nand_page e)) =? 255)).
    { unfold needs_read. rewrite E2. destruct (_ =? 255); [done|]. cbn [negb andb]. apply Z.ltb_lt.
      destruct (entry_wf_lookup g _ _ _ _ Hwf Hi) as ((_ & Hl) & _).
      pose proof (set_slots_le (pi_host_page_ptrs e)).
      destruct (decide (set_slots (pi_host_page_ptrs e) = length (pi_host_page_ptrs e))) as [Heq|]; [|lia].
      apply set_slots_full in Heq. rewrite Forall_lookup in Heq. by destruct (Heq _ _ (E5 o Ho)). }
    destruct (chn _ =? 255) eqn:Ec; cbn [negb] in Hnr.
    + rewrite Em3. apply read_pages_out. intros x (j & e' & Hj & Hn & ->)%old_reads_in Hx. cbn [pg_ssd_addr] in Hx.
      assert (i = j) as <- by (eapply (buffers_meet _ _ e e' (pi_temp_buffer e + o * HPS + off)); [done|done|nia|lia]).
      rewrite Hi in Hj. injection Hj as <-. congruence.
    + rewrite Em3, <- Z.add_assoc.
      etransitivity; [apply (read_pages_get page _ _ (OpPage (pi_current_ppa e) (pi_temp_buffer e))); [done| |nia]|].
      * apply old_reads_in. exists i, e. done.
      * cbn [pg_ppa]. rewrite (Hrep _ (o * HPS + off) E1) by nia. rewrite Ec, E3; [done|]. by rewrite E2.
  - rewrite (Hin _ src) by (done || (apply write_jobs_in; exists i, e, o; done)).
    rewrite Em3. apply read_pages_out. intros x (j & e' & Hj & Hn & ->)%old_reads_in. cbn [pg_ssd_addr].
    destruct (Hnew _ _ Hj) as (B & _). pose proof (slot_src_apart _ _ _ _ _ Hi Ho Hnz B) as Hx. unfold src in *. lia.
Qed.

(** Programming the buffers makes the disk that [flushed] describes. *)
Lemma flushed_ok page dk m3 :
  (forall b, m3 b = NandIo.read_pages g page (old_reads L) (d_mem s0) b) ->
  map_inv g k (d_ftl s0) -> represents g page (lpa_table (d_ftl s0)) dk ->
  mem_ok (d_mem s0) -> pages_ok page -> NoDup (map fst ws) -> Forall (fun w => snd w <> 0) ws ->
  flushed (lpa_table (d_ftl s0)) (rmp_buffer u) ws (d_mem s0) dk
    (write_pages (run_jobs HPS (write_jobs L) m3) (map write_of L) dk).
Proof using Hg Hco Hb Hap Hused.
  intros Em3 Hm Hrep Hmem Hpages Hnd Hnz. destruct (uneq_sizes g Hg) as (HR & _).
  pose proof Hco as [Hwf [Hnp Hen Hcov] Hnew _ _ _ _ _].
  assert (Efst : map fst (map write_of L) = map pi_nand_page L) by (rewrite map_map; by apply map_ext).
  assert (Hget : forall lpn off, 0 <= off < HPS -> In (lpn / R) (map pi_nand_page L) -> exists i e,
    L !! i = Some e /\ pi_nand_page e = lpn / R /\
    host_disk R HPS (write_pages (run_jobs HPS (write_jobs L) m3) (map write_of L) dk) lpn off =
      let src := slot_of ws lpn in
      if negb (src =? 0) then d_mem s0 (src + off)
      else if chn (lpa_table (d_ftl s0) (lpn / R)) =? 255
           then d_mem s0 (pi_temp_buffer e + host_offset g lpn * HPS + off) else host_disk R HPS dk lpn off).
  { intros lpn off Hoff (e & He & (i & Hi)%list_elem_of_In%list_elem_of_lookup)%in_map_iff.
    exists i, e. split; [done|]. split; [done|]. destruct (host_page_split g Hg lpn) as (Hsplit & Ho).
    unfold host_disk. fold (host_offset g lpn).
    rewrite (write_pages_get _ _ _ _ (pi_temp_buffer e)).
    - rewrite Z.add_assoc, (buffer_contents page dk m3 i e (host_offset g lpn) off) by done.
      by rewrite He, <- Hsplit.
    - by rewrite Efst.
    - apply in_map_iff. exists e. split; [unfold write_of; by rewrite He|].
      apply list_elem_of_In, list_elem_of_lookup. by exists i. }
  split.
  - intros lpn p off Hin Hoff. destruct (Hget lpn off Hoff (Hcov _ Hin)) as (i & e & _ & _ & ->).
    rewrite (slot_of_in ws lpn p Hnd Hin). cbv zeta. rewrite Forall_forall in Hnz. specialize (Hnz _ Hin). cbn [snd] in Hnz. by zb.
  - intros lpn off Hl Hoff Hnin Hor.
    destruct (in_dec Z.eq_dec (lpn / R) (map pi_nand_page L)) as [Hin|Hout].
    + destruct (Hget lpn off Hoff Hin) as (i & e & Hi & He & ->). rewrite (slot_of_notin ws lpn Hnin). cbn [Z.eqb negb].
      destruct (Z.eqb_spec (chn (lpa_table (d_ftl s0) (lpn / R))) 255) as [Hu|]; [|done]. exfalso.
      destruct Hor as [Hne|Hne]; [done|]. by apply Hne, Hused.
    + unfold host_disk. apply write_pages_out. by rewrite Efst.
  - intros lpn off Hl Hoff Hnin Hu Hin. apply in_map_iff in Hin as (w & Hw & Hin).
    destruct (Hget lpn off Hoff) as (i & e & Hi & He & ->); [rewrite <- Hw; by apply Hcov|].
    exists i, (pi_temp_buffer e). split; [by apply Hnew|]. rewrite (slot_of_notin ws lpn Hnin), Hu. done.
Qed.

End flush.

(** Reading, filling and programming the entries, on a drive that represents a
    disk. *)
Lemma flush_pages_ok F F' k dk ws u (s0 s : drive D) :
  collected k s0 ws u s -> used ws u -> bufs_ok (rmp_buffer u) -> apart_from (rmp_buffer u) ws ->
  disk_rel g k dk s0 -> NoDup (map fst ws) -> Forall (fun w => snd w <> 0) ws ->
  pool_ready RD F (d_pools s0) -> pool_ready PR F' (d_pools s0) ->
  exists u' s' dk', flush_pages g u s = Ok (u', s') /\
    disk_rel g (k + program_pages_count u) dk' s' /\
    flushed (lpa_table (d_ftl s0)) (rmp_buffer u) ws (d_mem s0) dk dk' /\ d_ftl s' = d_ftl s /\
    (forall b, (forall i a, rmp_buffer u !! i = Some a -> ~ a <= b < a + PS) -> d_mem s' b = d_mem s0 b) /\
    d_kernel s' = d_kernel s0 /\ pool_idle RD F (d_pools s') /\ pool_idle PR F' (d_pools s') /\
    same_globals u u' /\ program_pages_count u' = program_pages_count u /\
    infos_wf g (program_pages_count u') (program_pages u').
Proof using Hg.
  intros Hco Hus Hb Hap [Hi Hp Hm Hrep Hrd] Hnd Hnz Hrp Hpp.
  pose proof Hco as [Hwf _ _ Hmi _ (D1 & D2 & D3 & D4) _ _]. pose proof Hwf as (Hl & _ & Hn).
  destruct (begin_op_spec RD F (d_pools s0) Hrp) as (rop & p1 & E1 & Ho1 & Hs1).
  destruct (rmp_read_loop_ok F (Z.to_nat (program_pages_count u)) 0 rop u (set_d_pools p1 s) [] Hwf ltac:(lia) Ho1)
    as (l' & p2 & E2 & Hwf' & Hcore & Ho2 & Hs2); [cbn [length]; lia|].
  cbn [app d_pools set_d_pools] in Ho2, Hs2. change (drop 0 ?x) with x in Ho2.
  pose proof (collected_core _ _ _ _ _ _ Hco Hwf' Hcore) as Hco'.
  set (u' := set_program_pages l' u) in *. rewrite <- (old_reads_core _ _ Hcore) in Ho2.
  change (in_use (program_pages_count u) l') with (write_infos u') in Ho2.
  assert (Hus' : used ws u') by (unfold used; change (write_infos u') with (in_use (program_pages_count u) l'); by rewrite (map_core pi_nand_page _ _ ltac:(done) Hcore)).
  destruct (old_reads_placed k s0 ws u' s Hco' Hb Hi) as (Hpl & Hba & _).
  destruct (sync_end_read_spec g Hg F rop _ p2 (d_nand s0) (d_mem s0) Ho2 Hrd Hpl Hba Hm Hp)
    as (p3 & d3 & m3 & E3 & Hi3 & Hs3 & Hrd3 & Hd3 & Hm3).
  assert (Hmok3 : mem_ok m3) by (intros b; rewrite Hm3; by apply read_pages_ok).
  assert (Hp3 : pages_ok (nand_page d3)) by (intros q b; rewrite Hd3; apply Hp).
  assert (Hs13 : same_side PR (d_pools s0) p3) by (eapply same_side_trans; [exact Hs1|by eapply same_side_trans]).
  destruct (begin_op_spec PR F' p3 (pool_ready_same _ _ _ _ Hs13 Hpp)) as (pop & p4 & E4 & Ho4 & Hs4).
  destruct (rmp_program_loop_ok F' (Z.to_nat (program_pages_count u)) 0 pop u' (Drive (d_ftl s) p4 d3 m3 (d_kernel s)) [] Hwf' ltac:(cbn; lia))
    as (p5 & E5 & Ho5 & Hs5); [|exact Ho4|cbn [length]; lia|].
  { intros j e Hj. by eapply bo_placed, (co_new _ _ _ _ _ Hco'). }
  cbn [app d_pools d_mem set_d_mem set_d_pools d_nand d_ftl d_kernel] in *. change (drop 0 ?x) with x in E5, Ho5.
  set (m4 := run_jobs HPS (write_jobs (write_infos u')) m3) in *.
  destruct (run_jobs_spec HPS ltac:(destruct (uneq_sizes g Hg); lia) (proj1 (proj2 (proj2 (uneq_sizes g Hg))))
    (write_jobs (write_infos u')) m3 Hmok3 (write_jobs_ok k s0 ws u' s Hco' Hb Hap)) as (Hmok4 & _ & Hout4). fold m4 in Hmok4, Hout4.
  destruct (sync_end_program_spec g Hg F' pop _ p5 d3 m4 Ho5 Hrd3) as (p6 & d6 & m6 & E6 & Hi6 & Hs6 & Hrd6 & Hm6 & Hd6);
    [|done|done|].
  { apply Forall_forall. intros x (e & <- & (i & He)%list_elem_of_In%list_elem_of_lookup)%in_map_iff. cbn [op_of pg_ppa pg_ssd_addr].
    destruct (co_new _ _ _ _ _ Hco' _ _ He) as (B & Hin). destruct (bo_placed _ Hb _ _ B). split; [done|].
    destruct (uneq_sizes g Hg) as (? & ? & _ & ? & _). nia. }
  exists u', (Drive (d_ftl s) p6 d6 m6 (d_kernel s)), (write_pages m4 (map write_of (write_infos u')) dk).
  split.
  { unfold flush_pages, d_begin_read. change (begin_read_op (d_pools s)) with (begin_op (type_of RD) (d_pools s)).
    rewrite D1, E1. cbn [obind]. change 0 with (Z.of_nat 0). rewrite E2. cbn [obind]. unfold d_end_read.
    cbn [d_pools d_nand d_mem d_ftl d_kernel set_d_pools]. rewrite D2, D3, E3. cbn [obind]. unfold d_begin_program.
    cbn [d_pools]. change (begin_program_op p3) with (begin_op (type_of PR) p3). rewrite E4. cbn [obind].
    change (set_d_pools p4 _) with (Drive (d_ftl s) p4 d3 m3 (d_kernel s)). rewrite E5. cbn [obind]. unfold d_end_program. cbn [d_pools d_nand d_mem d_ftl d_kernel set_d_pools set_d_mem]. rewrite E6. done. }
  split_and!; cbn [d_pools d_mem d_kernel]; try done.
  - split; cbn [d_ftl d_nand d_mem]; [exact Hmi| | | |exact Hrd6].
    + intros q b. rewrite Hd6. by apply program_pages_ok.
    + intros b. by rewrite Hm6.
    + intros lpn off Hlr Hor. rewrite (co_rep _ _ _ _ _ Hco' m4 _ _ Hrep lpn off Hlr Hor).
      destruct (chn _ =? 255); [done|]. symmetry. rewrite Hd6. by apply program_pages_ext.
  - by apply (flushed_ok k s0 ws u' s Hco' Hus' Hb Hap (nand_page (d_nand s0)) dk m3).
  - intros b Hbo. rewrite Hm6, Hout4.
    + rewrite Hm3. apply read_pages_out. intros x (i & e & He & _ & ->)%old_reads_in. cbn [pg_ssd_addr].
      by eapply Hbo, (co_new _ _ _ _ _ Hco').
    + intros d src (i & e & o & He & Ho & _ & _ & ->)%(write_jobs_in _ _ _ _ _ Hco').
      destruct (co_new _ _ _ _ _ Hco' _ _ He) as (B & _). pose proof (Hbo _ _ B).
      destruct (uneq_sizes g Hg) as (? & ? & _ & ? & _). nia.
  - eapply pool_idle_same; [|exact Hi3]. eapply same_side_trans; [exact Hs4|]. by eapply same_side_trans.
Qed.

(** ** Requests *)

Lemma reset_pages_ok b n ix l :
  (ix + n <= length l)%nat -> Forall (entry_wf g) l -> exists l',
    reset_pages b n (Z.of_nat ix) l = Ok l' /\ length l' = length l /\ Forall (entry_wf g) l'.
Proof using.
  revert ix l. induction n as [|n IH]; intros ix l Hl Hf; [by exists l|].
  destruct (arr_get_lookup l (Z.of_nat ix)) as (e & Eg & Hlk); [lia|].
  cbn [reset_pages]. unfold upd_info. rewrite Eg. cbn [obind]. rewrite arr_set_Ok by lia. cbn [obind].
  replace (Z.of_nat ix + 1) with (Z.of_nat (S ix)) by lia. rewrite Nat2Z.id in *.
  destruct (IH (S ix) (<[ix := reset_info b e]> l)) as (l' & E & Hl' & Hf').
  - rewrite length_insert. lia.
  - apply Forall_insert; [done|]. rewrite Forall_lookup in Hf. exact (Hf _ _ Hlk).
  - exists l'. rewrite length_insert in Hl'. done.
Qed.

(** A request starts with no entries. *)
Lemma collected_none k dk u (s : drive D) :
  infos_wf g (program_pages_count u) (program_pages u) -> disk_rel g k dk s ->
  exists u0, reset_program_pages u = Ok u0 /\ collected k s [] u0 s /\ used [] u0 /\ same_globals u u0.
Proof using Hg.
  intros (Hl & Hf & Hn) [Hi _ _ _ _].
  destruct (reset_pages_ok true (Z.to_nat (program_pages_count u)) 0 (program_pages u)) as (l' & E & Hl' & Hf'); [lia|done|].
  exists (set_program_count 0 (set_program_pages l' u)). unfold reset_program_pages. change 0 with (Z.of_nat 0) at 1.
  rewrite E. split; [done|]. split; [|split; [exact (incl_nil_l _)|by split]].
  split; unfold write_infos; cbn [set_program_count set_program_pages program_pages program_pages_count in_use take map]; rewrite ?Z.add_0_r; try done.
  - split; [lia|]. by split.
  - split; [apply NoDup_nil_2|done|done].
Qed.

(** All the pages of a cache request. *)
Lemma wbc_loop_collect n i num w u (s : drive D) u' s' :
  0 <= i -> i + Z.of_nat n = WBC_PAGES -> length (wb_pages w) = 16%nat -> 0 <= num ->
  num + Z.of_nat (length (wbc_list (drop (Z.to_nat i) (wb_pages w)))) <= wb_num_program_pgs w ->
  num + Z.of_nat n <= 16 ->
  collect_list (wbc_list (drop (Z.to_nat i) (wb_pages w))) u s = Ok (u', s') ->
  exists pages, length pages = 16%nat /\
    Forall2 (fun a b => wp_lpn a = wp_lpn b /\ wp_ssd_addr a = wp_ssd_addr b /\ wp_valid a = wp_valid b)
      (wb_pages w) pages /\
    FtlUneq.wbc_loop g (S fuel) n i num w u s = Ok (set_wb_pages pages w, u', s').
Proof using.
  revert i num w u s. induction n as [|n IH]; intros i num w u s Hi Hn Hlen H0 Hnum Hn16 Hc.
  - exists (wb_pages w). split; [done|]. split; [by apply Forall_Forall2_diag, Forall_true|].
    rewrite drop_ge in Hc by (unfold WBC_PAGES, MDTS_PAGES, MAX_LP_TX in *; lia). cbn in Hc |- *.
    injection Hc as -> ->. by destruct w.
  - unfold WBC_PAGES, MDTS_PAGES, MAX_LP_TX in *.
    destruct (arr_get_lookup (wb_pages w) i) as (pg & Eg & Hlk); [lia|].
    cbn [FtlUneq.wbc_loop]. unfold WBC_PAGES, MDTS_PAGES, MAX_LP_TX. replace (i <? 16) with true by (symmetry; apply Z.ltb_lt; lia).
    cbn [andb]. destruct (Z.ltb_spec num (wb_num_program_pgs w)) as [Hlt|Hge].
    + rewrite Eg. cbn [obind]. rewrite (drop_S _ pg) in Hc, Hnum by done. cbn [wbc_list flat_map] in Hc, Hnum.
      replace (S (Z.to_nat i)) with (Z.to_nat (i + 1)) in * by lia.
      destruct (Z.eqb_spec (wp_valid pg) 0) as [Ev|Ev].
      * apply (IH (i + 1) num w u s); try done; lia.
      * cbn [app length collect_list] in Hc, Hnum. rewrite arr_set_Ok by lia. cbn [obind].
        destruct (collect_write g (S fuel) (wp_lpn pg) (wp_ssd_addr pg) u s) as [[u1 s1]|]; cbn [obind] in Hc |- *; [|done].
        set (pg' := WbcPage (wp_lpn pg) (wp_ssd_addr pg) (wp_valid pg) 0).
        set (w1 := set_wb_pages (<[Z.to_nat i := pg']> (wb_pages w)) w).
        assert (Hd : drop (Z.to_nat (i + 1)) (wb_pages w1) = drop (Z.to_nat (i + 1)) (wb_pages w))
          by (cbn; rewrite drop_insert_lt by lia; done).
        rewrite u32_id by lia. unfold wbc_list in Hnum, Hc.
        destruct (IH (i + 1) (num + 1) w1 u1 s1) as (pages & Hpl & Hpf & E); rewrite ?Hd; try done; try (cbn; lia).
        -- cbn. by rewrite length_insert.
        -- unfold wbc_list. cbn [w1 set_wb_pages wb_num_program_pgs]. lia.
        -- exists pages. split; [done|]. split; [|exact E]. eapply Forall2_trans; [|apply (wbc_page_set _ _ _ Hlk)|exact Hpf].
           intros a b c (-> & -> & ->). done.
    + exists (wb_pages w). split; [done|]. split; [by apply Forall_Forall2_diag, Forall_true|].
      assert (E0 : wbc_list (drop (Z.to_nat i) (wb_pages w)) = []) by (apply length_zero_iff_nil; lia).
      rewrite E0 in Hc. injection Hc as -> ->. by destruct w.
Qed.

(** The parts of a flush that both kinds of request share. *)
Lemma write_request_ok F F' k dk ws u (s : drive D) :
  disk_rel g k dk s -> infos_wf g (program_pages_count u) (program_pages u) -> bufs_ok (rmp_buffer u) ->
  apart_from (rmp_buffer u) ws -> Forall (fun w => 0 <= fst w < TOTAL * R /\ snd w <> 0) ws ->
  NoDup (map fst ws) -> (length ws <= 16)%nat -> k + Z.of_nat (length ws) <= TOTAL ->
  pool_ready RD F (d_pools s) -> pool_ready PR F' (d_pools s) ->
  exists u0 u1 s1 u' s' dk', reset_program_pages u = Ok u0 /\ collect_list ws u0 s = Ok (u1, s1) /\
    flush_pages g u1 s1 = Ok (u', s') /\
    0 <= program_pages_count u' <= Z.of_nat (length ws) /\
    disk_rel g (k + program_pages_count u') dk' s' /\
    flushed (lpa_table (d_ftl s)) (rmp_buffer u) ws (d_mem s) dk dk' /\
    (count_inv g k (d_ftl s) -> count_inv g (k + program_pages_count u') (d_ftl s')) /\
    (forall b, (forall i a, rmp_buffer u !! i = Some a -> ~ a <= b < a + PS) -> d_mem s' b = d_mem s b) /\
    d_kernel s' = d_kernel s /\ pool_idle RD F (d_pools s') /\ pool_idle PR F' (d_pools s') /\
    same_globals u u' /\ infos_wf g (program_pages_count u') (program_pages u').
Proof using Hg.
  intros Hr Hwf Hb Hap Hall Hnd Hlen Hk Hrp Hpp.
  destruct (collected_none k dk u s Hwf Hr) as (u0 & E0 & Hco0 & Hus0 & Hsg0).
  assert (Eb0 : rmp_buffer u0 = rmp_buffer u) by apply Hsg0.
  destruct (collect_list_ok k s ws [] u0 s Hco0) as (u1 & s1 & E1 & Hco1 & Hsg1 & Hus1); try done.
  { rewrite Eb0. apply Hb. }
  cbn [app] in *. assert (Eb1 : rmp_buffer u1 = rmp_buffer u) by (rewrite <- Eb0; apply Hsg1).
  destruct (flush_pages_ok F F' k dk ws u1 s s1 Hco1 Hus1) as (u' & s' & dk' & E2 & Hr' & Hfl & Hf & Hm & Hker & Hri & Hpi & Hsg' & Hcnt & Hwf');
    rewrite ?Eb1; try done.
  { eapply Forall_impl; [|exact Hall]. by intros w (_ & ?). }
  rewrite Eb1 in *. exists u0, u1, s1, u', s', dk'. pose proof (used_count _ _ _ _ _ Hco1 Hus1).
  destruct (co_wf _ _ _ _ _ Hco1) as (_ & _ & ? & _). rewrite Hcnt in *. split_and!; try done.
  - rewrite Hf. apply (co_counts _ _ _ _ _ Hco1).
  - destruct Hsg0 as (A1 & A2 & A3 & A4), Hsg1 as (B1 & B2 & B3 & B4), Hsg' as (C1 & C2 & C3 & C4).
    split_and!; congruence.
Qed.

(** C15: flushing the cache when a flash page holds several host pages: for a
    request of at most 16 different host pages, [process_wbc] stores every one
    of them; of the host pages that share a flash page with them, those of a
    flash page written before keep their contents, and those of a flash page
    never written get what the read-modify-program buffer held; all other host
    pages are unchanged.  As many flash pages are used up as NAND pages are
    touched, no memory outside the buffers changes, and the request is marked
    complete and sent to the NVMe thread's queue. *)
Theorem unequal_process_wbc_writes F F' k dk wbc_ptr w u (s : drive D) :
  disk_rel g k dk s -> infos_wf g (program_pages_count u) (program_pages u) -> bufs_ok (rmp_buffer u) ->
  length (wb_pages w) = 16%nat -> Z.of_nat (length (wbc_list (wb_pages w))) <= wb_num_program_pgs w ->
  Forall (fun x => 0 <= fst x < TOTAL * R /\ snd x <> 0) (wbc_list (wb_pages w)) ->
  NoDup (map fst (wbc_list (wb_pages w))) -> apart_from (rmp_buffer u) (wbc_list (wb_pages w)) ->
  k + Z.of_nat (length (wbc_list (wb_pages w))) <= TOTAL ->
  pool_ready RD F (d_pools s) -> pool_ready PR F' (d_pools s) ->
  queue_ok (d_kernel s) FTL_MODULE_OUT_Q -> (length (queue_contents (d_kernel s) FTL_MODULE_OUT_Q) < 255)%nat ->
  exists w' u' s' dk', FtlUneq.process_wbc g (S fuel) wbc_ptr w u s = Ok (w', u', s') /\
    0 <= program_pages_count u' <= Z.of_nat (length (wbc_list (wb_pages w))) /\
    disk_rel g (k + program_pages_count u') dk' s' /\
    flushed (lpa_table (d_ftl s)) (rmp_buffer u) (wbc_list (wb_pages w)) (d_mem s) dk dk' /\
    (count_inv g k (d_ftl s) -> count_inv g (k + program_pages_count u') (d_ftl s')) /\
    (forall b, (forall i a, rmp_buffer u !! i = Some a -> ~ a <= b < a + PS) -> d_mem s' b = d_mem s b) /\
    wb_nand_io_complete w' = true /\ wbc_list (wb_pages w') = wbc_list (wb_pages w) /\
    queue_contents (d_kernel s') FTL_MODULE_OUT_Q =
      queue_contents (d_kernel s) FTL_MODULE_OUT_Q ++ [ObjEntry wbc_ptr (wb_type w)] /\
    pool_idle RD F (d_pools s') /\ pool_idle PR F' (d_pools s') /\ rmp_buffer u' = rmp_buffer u /\
    infos_wf g (program_pages_count u') (program_pages u').
Proof using Hg.
  intros Hr Hwf Hb Hlen Hnum Hall Hnd Hap Hk Hrp Hpp Hq Hql.
  assert (Hl16 : (length (wbc_list (wb_pages w)) <= 16)%nat).
  { assert (Hx : forall l, (length (wbc_list l) <= length l)%nat); [|specialize (Hx (wb_pages w)); lia].
    clear. induction l as [|x l IH]; cbn [wbc_list flat_map length]; [lia|].
    rewrite length_app. unfold wbc_list in IH. case_if; simpl; lia. }
  destruct (write_request_ok F F' k dk _ u s Hr Hwf Hb Hap Hall Hnd Hl16 Hk Hrp Hpp)
    as (u0 & u1 & s1 & u' & s' & dk' & E0 & E1 & E2 & Hc & Hr' & Hfl & Hci & Hm & Hker & Hri & Hpi & (Hsg & _) & Hwf').
  destruct (wbc_loop_collect 16 0 0 (set_wb_complete false w) u0 s u1 s1) as (pages & Hpl & Hpf & El); try done.
  destruct (push_obj_to_queue_spec (d_kernel s) FTL_MODULE_OUT_Q wbc_ptr (wb_type w) Hq)
    as (k' & _ & _ & _ & _ & [(_ & Ep & Hqc)|(Hbad & _)]); [|lia].
  eexists _, u', (set_d_kernel k' s'), dk'. unfold FtlUneq.process_wbc. rewrite E0. cbn [obind].
  change (Z.to_nat WBC_PAGES) with 16%nat. rewrite El. cbn [obind]. rewrite E2. cbn [obind].
  unfold sys_push_to_nvme. rewrite Hker. cbn [set_wb_complete set_wb_pages wb_type]. rewrite Ep. cbn [obind].
  split; [reflexivity|]. cbn [set_d_kernel d_mem d_ftl d_kernel d_pools wb_pages wb_nand_io_complete].
  split_and!; try done; [lia|lia|by destruct Hr'|by apply wbc_list_same].
Qed.

(** The host pages of a buffer. *)
Definition host_run (start buffer : Z) (n : nat) : list (Z * Z) :=
  map (fun i => (start + Z.of_nat i, buffer + Z.of_nat i * HPS)) (seq 0 n).

Lemma host_page_addr buffer i :
  0 <= buffer -> 0 <= i -> buffer + (i + 1) * HPS <= 2 ^ 32 -> page_addr g buffer i = buffer + i * HPS.
Proof using Hg.
  intros Hb Hi Hm. destruct (uneq_sizes g Hg) as (_ & Hh & _ & _ & _ & E & _).
  unfold page_addr, HOST_DS. rewrite Z.shiftl_mul_pow2 by (destruct Hg as (_ & _ & _ & _ & _ & _ & ? & _); lia).
  rewrite <- E. rewrite (u32_id (i * _)) by nia. apply u32_id. nia.
Qed.

Lemma collect_program_loop_list start buffer n i u (s : drive D) :
  0 <= start -> start + Z.of_nat (i + n) < 2 ^ 32 -> 0 <= buffer -> buffer + Z.of_nat (i + n) * HPS <= 2 ^ 32 ->
  collect_program_loop g (S fuel) n buffer (Z.of_nat i) (start + Z.of_nat i) u s =
  collect_list (map (fun j => (start + Z.of_nat j, buffer + Z.of_nat j * HPS)) (seq i n)) u s.
Proof using Hg.
  intros Hs. destruct (uneq_sizes g Hg) as (_ & Hh & _). revert i u s.
  induction n as [|n IH]; intros i u s Hn Hb Hm; [done|]. cbn [seq map collect_program_loop collect_list].
  rewrite host_page_addr by (lia || nia).
  destruct (collect_write _ _ _ _ u s) as [[u1 s1]|]; cbn [obind]; [|done].
  rewrite u32_id by lia. specialize (IH (S i) u1 s1).
  replace (start + Z.of_nat (S i)) with (start + Z.of_nat i + 1) in IH by lia.
  replace (Z.of_nat (S i)) with (Z.of_nat i + 1) in IH by lia. apply IH; [lia|lia|].
  by replace (S i + n)%nat with (i + S n)%nat by lia.
Qed.

(** Programming a run of at most 16 host pages; the result counts NAND pages. *)
Lemma unequal_sync_program_pages_writes F F' k dk start n buffer u (s : drive D) :
  disk_rel g k dk s -> infos_wf g (program_pages_count u) (program_pages u) -> bufs_ok (rmp_buffer u) ->
  0 <= start -> start + n <= TOTAL * R -> TOTAL * R < 2 ^ 32 -> 0 <= n <= 16 -> k + n <= TOTAL ->
  0 < buffer -> buffer + n * HPS <= 2 ^ 32 ->
  apart_from (rmp_buffer u) (host_run start buffer (Z.to_nat n)) ->
  pool_ready RD F (d_pools s) -> pool_ready PR F' (d_pools s) ->
  exists c u' s' dk', FtlUneq.sync_program_pages g (S fuel) start n buffer u s = Ok (c, u', s') /\
    0 <= c <= n /\ disk_rel g (k + c) dk' s' /\
    flushed (lpa_table (d_ftl s)) (rmp_buffer u) (host_run start buffer (Z.to_nat n)) (d_mem s) dk dk' /\
    d_kernel s' = d_kernel s /\ pool_idle RD F (d_pools s') /\ pool_idle PR F' (d_pools s') /\ same_globals u u'.
Proof using Hg.
  intros Hr Hwf Hb Hs Hn1 HT Hn Hk Hbuf Hbm Hap Hrp Hpp. destruct (uneq_sizes g Hg) as (HR & Hh & _).
  set (ws := host_run start buffer (Z.to_nat n)) in *.
  assert (Hlen : length ws = Z.to_nat n) by (unfold ws, host_run; by rewrite length_map, length_seq).
  destruct (write_request_ok F F' k dk ws u s Hr Hwf Hb Hap)
    as (u0 & u1 & s1 & u' & s' & dk' & E0 & E1 & E2 & Hc & Hr' & Hfl & Hci & Hm & Hker & Hri & Hpi & Hsg & Hwf'); try done; try lia.
  - apply Forall_forall. intros w (i & <- & Hi%in_seq)%in_map_iff. cbn [fst snd]. nia.
  - unfold ws, host_run. rewrite map_map. cbn [fst]. apply (NoDup_fmap_2_strong _ (seq 0 (Z.to_nat n))).
    + intros; lia.
    + apply NoDup_seq.
  - exists (program_pages_count u'), u', s', dk'. split; [|split_and!; done || lia].
    unfold FtlUneq.sync_program_pages. rewrite E0. cbn [obind].
    pose proof (collect_program_loop_list start buffer (Z.to_nat n) 0 u0 s) as El. cbn [Nat.add] in El.
    change (Z.of_nat 0) with 0 in El. rewrite Z.add_0_r in El. rewrite El by lia.
    fold (host_run start buffer (Z.to_nat n)). fold ws. rewrite E1. cbn [obind]. by rewrite E2.
Qed.

End writes.

(** ** Reads *)

Section reads.
Context {D : Type} `{NandFlash D} (g : geom) (Hg : geom_ok g) (zero_buffer : Z).

Abbreviation TOTAL := (TOTAL_NUM_OF_PAGES g) (only parsing).
Abbreviation PS := (NAND_PAGE_SIZE g) (only parsing).
Abbreviation HPS := (HOST_PAGE_SIZE g) (only parsing).
Abbreviation R := (HOST_PER_NAND_PAGES g) (only parsing).

Definition read_infos (u : uneq) : list page_info := in_use (read_pages_count u) (read_pages u).

Definition flash_reads (l : list page_info) : list op_page :=
  flat_map (fun e => if pi_is_unmapped e then [] else [OpPage (pi_current_ppa e) (pi_temp_buffer e)]) l.

Lemma flash_reads_in l x : In x (flash_reads l) <->
  exists i e, l !! i = Some e /\ pi_is_unmapped e = false /\ x = OpPage (pi_current_ppa e) (pi_temp_buffer e).
Proof.
  unfold flash_reads. rewrite in_flat_map. split.
  - intros (e & (i & Hi)%list_elem_of_In%list_elem_of_lookup & Hx). exists i, e.
    destruct (pi_is_unmapped e); [done|]. by destruct Hx as [<-|[]].
  - intros (i & e & Hi & Hn & ->). exists e. rewrite Hn. split; [|by left].
    apply list_elem_of_In, list_elem_of_lookup. by exists i.
Qed.

Lemma flash_reads_snoc l e : flash_reads (l ++ [e]) =
  flash_reads l ++ (if pi_is_unmapped e then [] else [OpPage (pi_current_ppa e) (pi_temp_buffer e)]).
Proof. unfold flash_reads. rewrite flat_map_app. cbn [flat_map]. by rewrite app_nil_r. Qed.

Lemma flash_reads_length l : (length (flash_reads l) <= length l)%nat.
Proof.
  induction l as [|e l IH]; cbn [flash_reads flat_map length]; [lia|]. rewrite length_app.
  unfold flash_reads in IH. destruct (pi_is_unmapped e); cbn [length]; lia.
Qed.

(** The entries for the host pages [ws] wanted from mapped NAND pages, among the
    pages [lpns] seen, and the batch that reads them. *)
Record reading (F : Prop) (rop : op_ptr) (bufs : list Z) (s0 : drive D) (lpns : list Z) (ws : list (Z * Z))
    (u : uneq) (s : drive D) : Prop := Reading {
  rd_wf : infos_wf g (read_pages_count u) (read_pages u);
  rd_entries : entries_ok g (lpa_table (d_ftl s0)) bufs ws (read_infos u);
  rd_seen : incl (map pi_nand_page (read_infos u)) (map (fun l => l / R) lpns);
  rd_bufs : temp_read_buffer u = bufs;
  rd_open : op_open RD F rop (flash_reads (read_infos u)) (d_pools s);
  rd_side : same_side PR (d_pools s0) (d_pools s);
  rd_drive : d_ftl s = d_ftl s0 /\ d_nand s = d_nand s0 /\ d_mem s = d_mem s0 /\ d_kernel s = d_kernel s0 }.

Lemma reading_count F rop bufs s0 lpns ws u s :
  reading F rop bufs s0 lpns ws u s -> read_pages_count u <= Z.of_nat (length lpns).
Proof using.
  intros [(Hl & _ & Hn) [Hnd _ _] Hs _ _ _ _]. apply NoDup_ListNoDup in Hnd.
  pose proof (List.NoDup_incl_length Hnd Hs) as Hx. rewrite !length_map in Hx.
  unfold read_infos, in_use in Hx. rewrite length_take in Hx. lia.
Qed.

(** A new entry, unmapped or with its page added to the batch. *)
Lemma reading_new F rop bufs s0 lpns ws u s e p' lpn :
  reading F rop bufs s0 lpns ws u s -> read_pages_count u < 16 -> entry_wf g e ->
  ~ In (lpn / R) (map pi_nand_page (read_infos u)) -> pi_nand_page e = lpn / R -> 0 <= lpn / R < TOTAL ->
  pi_is_unmapped e = (chn (lpa_table (d_ftl s0) (pi_nand_page e)) =? 255) ->
  (pi_is_unmapped e = false -> pi_current_ppa e = lpa_table (d_ftl s0) (pi_nand_page e)) ->
  (pi_is_unmapped e = false -> bufs !! Z.to_nat (read_pages_count u) = Some (pi_temp_buffer e)) ->
  pi_host_page_ptrs e = replicate (Z.to_nat R) 0 -> pi_host_pages e = 0 ->
  op_open RD F rop (flash_reads (read_infos u) ++
    (if pi_is_unmapped e then [] else [OpPage (pi_current_ppa e) (pi_temp_buffer e)])) p' ->
  same_side PR (d_pools s) p' ->
  reading F rop bufs s0 (lpns ++ [lpn]) ws
    (set_read_count (read_pages_count u + 1) (set_read_pages (<[Z.to_nat (read_pages_count u) := e]> (read_pages u)) u))
    (set_d_pools p' s) /\
  in_use (read_pages_count u + 1) (<[Z.to_nat (read_pages_count u) := e]> (read_pages u)) = read_infos u ++ [e].
Proof using Hg.
  intros [Hwf Hen Hseen Hbu Hop Hsi Hd] Hn Hew Hnin Hnp Hr Hu Hc Hb Hp Hz Ho Hs.
  destruct (entries_new g Hg (lpa_table (d_ftl s0)) bufs ws (read_pages_count u) (read_pages u) e Hwf Hn Hen Hew)
    as (Hwf' & Huse & Hen'); try done; [by rewrite Hnp|by rewrite Hnp|].
  split; [|done].
  split; unfold read_infos; cbn [set_read_count set_read_pages read_pages read_pages_count temp_read_buffer set_d_pools d_pools d_ftl d_nand d_mem d_kernel];
    rewrite ?Huse; try done.
  - rewrite !map_app. cbn [map]. rewrite Hnp. apply incl_app; [apply incl_appl, Hseen|apply incl_appr, incl_refl].
  - by rewrite flash_reads_snoc.
  - by eapply same_side_trans.
Qed.

Lemma start_read_info_ok u np :
  infos_wf g (read_pages_count u) (read_pages u) -> read_pages_count u < 16 -> exists e,
    start_read_info np u = Ok (set_read_pages (<[Z.to_nat (read_pages_count u) := e]> (read_pages u)) u) /\
    pi_nand_page e = np /\ entry_wf g e /\ pi_host_page_ptrs e = replicate (Z.to_nat R) 0 /\ pi_host_pages e = 0.
Proof using.
  intros (Hl & Hf & Hn) Hn16. destruct (arr_get_lookup (read_pages u) (read_pages_count u)) as (e0 & Eg & Hlk); [lia|].
  unfold start_read_info, upd_info. rewrite Eg. cbn [obind]. rewrite arr_set_Ok by lia. cbn [obind].
  eexists. split; [reflexivity|]. rewrite Forall_lookup in Hf. destruct (Hf _ _ Hlk) as (H1 & H2).
  assert (Hz : map (fun _ : Z => 0) (pi_host_page_ptrs e0) = replicate (Z.to_nat R) 0).
  { rewrite <- H2. clear. by induction (pi_host_page_ptrs e0) as [|x l IH]; cbn; [|rewrite IH]. }
  split_and!; try done. split; cbn; by rewrite length_map.
Qed.

Lemma reading_drive F rop bufs s0 lpns ws u s : reading F rop bufs s0 lpns ws u s -> d_ftl s = d_ftl s0.
Proof. intros Hr. apply Hr. Qed.

(** A page met for the first time. *)
Lemma new_mapped_ok F rop bufs s0 lpns ws u s e lpn :
  reading F rop bufs s0 lpns ws u s -> length bufs = 16%nat -> read_pages_count u < 16 ->
  ~ In (lpn / R) (map pi_nand_page (read_infos u)) -> 0 <= lpn / R < TOTAL ->
  chn (lpa_table (d_ftl s0) (lpn / R)) <> 255 ->
  pi_nand_page e = lpn / R -> entry_wf g e -> pi_host_page_ptrs e = replicate (Z.to_nat R) 0 -> pi_host_pages e = 0 ->
  exists u' s' e', mapped_read_info g rop (lpn / R)
      (set_read_pages (<[Z.to_nat (read_pages_count u) := e]> (read_pages u)) u) s = Ok (u', s') /\
    read_pages_count u' = read_pages_count u /\
    reading F rop bufs s0 (lpns ++ [lpn]) ws (set_read_count (read_pages_count u + 1) u') s' /\
    read_infos (set_read_count (read_pages_count u + 1) u') = read_infos u ++ [e'] /\ pi_nand_page e' = lpn / R /\
    pi_is_unmapped e' = false.
Proof using Hg.
  intros Hrd Hbl Hn Hnin Hr Hm Hnp Hew Hp Hz. pose proof Hrd as [(Hl & Hf & Hn0) Hen _ Hbu Hop _ (D1 & _)].
  set (n := read_pages_count u) in *.
  destruct (arr_get_lookup bufs n) as (b & Egb & Hlkb); [lia|].
  assert (Elen : length (read_infos u) = Z.to_nat n) by (unfold read_infos, in_use; rewrite length_take; fold n; lia).
  pose proof (flash_reads_length (read_infos u)) as Hfl.
  destruct (add_op_page_spec RD F rop _ (d_pools s) (lpa_table (d_ftl s0) (lpn / R)) b Hop ltac:(lia)) as (p1 & E1 & Ho1 & Hs1).
  set (e' := pi_set_mapped (lpa_table (d_ftl s0) (lpn / R)) b e).
  destruct (reading_new F rop bufs s0 lpns ws u s e' p1 lpn Hrd Hn) as (Hrd' & Huse); try done.
  { change (pi_nand_page e') with (pi_nand_page e). rewrite Hnp. by destruct (Z.eqb_spec (chn (lpa_table (d_ftl s0) (lpn / R))) 255). }
  { intros _. change (pi_nand_page e') with (pi_nand_page e). by rewrite Hnp. }
  exists (set_read_pages (<[Z.to_nat n := e']> (read_pages u)) u), (set_d_pools p1 s), e'. split; [|done].
  unfold mapped_read_info, GET_MAPPED_PPA. rewrite (proj2 (in_range_true _ _) Hr). cbn [obind set_read_pages read_pages_count temp_read_buffer read_pages].
  rewrite Hbu. fold n. rewrite Egb. cbn [obind]. unfold upd_info.
  rewrite (proj2 (arr_get_Ok (<[Z.to_nat n := e]> (read_pages u)) n e)) by (split; [lia|apply list_lookup_insert_eq; lia]).
  cbn [obind]. rewrite arr_set_Ok by (rewrite length_insert; lia). cbn [obind]. unfold d_add_page. rewrite D1, E1. cbn [obind].
  by rewrite list_insert_insert_eq.
Qed.

(** A host page is put into an entry. *)
Lemma reading_put F rop bufs s0 lpns ws u s ix e lpn ptr :
  reading F rop bufs s0 lpns ws u s -> read_infos u !! ix = Some e -> pi_nand_page e = lpn / R -> ptr <> 0 ->
  ~ In lpn (map fst ws) -> exists l', put_info (Z.of_nat ix) (host_offset g lpn) lpn ptr (read_pages u) = Ok l' /\
    reading F rop bufs s0 lpns (ws ++ [(lpn, ptr)]) (set_read_pages l' u) s.
Proof using Hg.
  intros [Hwf Hen Hseen Hbu Hop Hsi Hd] Hi He Hp Hnin.
  destruct (entries_put g Hg _ _ _ _ _ _ _ lpn ptr Hwf Hen Hi He Hp Hnin) as (l' & e' & E & Hwf' & Huse & (S1 & S2 & S3 & _ & S5) & Hen').
  exists l'. split; [done|]. split; unfold read_infos in *; cbn [set_read_pages read_pages read_pages_count temp_read_buffer]; try done.
  - by rewrite Huse, (map_insert_same _ _ _ _ _ Hi S1).
  - replace (flash_reads (in_use (read_pages_count u) l')) with (flash_reads (in_use (read_pages_count u) (read_pages u))); [done|].
    unfold flash_reads. rewrite !flat_map_concat_map, Huse. f_equal. symmetry.
    by rewrite (map_insert_same _ _ _ _ _ Hi) by (by rewrite S2, S3, S5).
Qed.

(** ** Delivering the pages *)

Lemma scatter_slots_ok n ih e m :
  entry_wf g e -> 0 <= pi_temp_buffer e -> pi_temp_buffer e + PS <= 2 ^ 32 -> Z.of_nat (ih + n) = R ->
  scatter_slots g n (Z.of_nat ih) e m =
    Ok (run_jobs HPS (slot_jobs HPS false (Z.of_nat ih) (pi_temp_buffer e) (drop ih (pi_host_page_ptrs e))) m).
Proof using Hg.
  intros (_ & Hp) Hb Hm. revert ih m. induction n as [|n IH]; intros ih m Hn.
  - rewrite drop_ge by lia. done.
  - destruct (arr_get_lookup (pi_host_page_ptrs e) (Z.of_nat ih)) as (p & Eg & Hlk); [lia|]. rewrite Nat2Z.id in Hlk.
    cbn [scatter_slots]. rewrite Eg. cbn [obind]. rewrite (drop_S _ p) by done. cbn [slot_jobs].
    replace (Z.of_nat ih + 1) with (Z.of_nat (S ih)) by lia.
    destruct (p =? 0); rewrite IH by lia; [done|]. rewrite slot_addr_ok by (done || lia). done.
Qed.

Definition read_jobs (l : list page_info) : list (Z * Z) :=
  flat_map (fun e => if pi_is_unmapped e then [] else slot_jobs HPS false 0 (pi_temp_buffer e) (pi_host_page_ptrs e)) l.

Lemma scatter_loop_ok n i c l m :
  infos_wf g c l -> Z.of_nat (i + n) = c ->
  (forall j e, in_use c l !! j = Some e -> pi_is_unmapped e = false -> 0 <= pi_temp_buffer e /\ pi_temp_buffer e + PS <= 2 ^ 32) ->
  scatter_loop g n (Z.of_nat i) l m = Ok (run_jobs HPS (read_jobs (drop i (in_use c l))) m).
Proof using Hg.
  intros Hwf Hn Hb. pose proof Hwf as (Hl & _ & Hc). destruct (uneq_sizes g Hg) as (HR & _).
  revert i m Hn. induction n as [|n IH]; intros i m Hn.
  - rewrite drop_ge by (unfold in_use; rewrite length_take; lia). done.
  - destruct (arr_get_lookup l (Z.of_nat i)) as (e & Eg & Hlk); [lia|]. rewrite Nat2Z.id in Hlk.
    assert (Hin : in_use c l !! i = Some e) by (unfold in_use; by rewrite lookup_take_lt by lia).
    cbn [scatter_loop]. rewrite Eg. cbn [obind]. rewrite (drop_S _ e) by done. cbn [read_jobs flat_map].
    replace (Z.of_nat i + 1) with (Z.of_nat (S i)) by lia.
    destruct (pi_is_unmapped e) eqn:Eu; [by rewrite IH by lia|].
    destruct (entry_wf_lookup g _ _ _ _ Hwf Hin) as (He & _). destruct (Hb _ _ Hin Eu) as (Hb1 & Hb2).
    pose proof (scatter_slots_ok (Z.to_nat R) 0 e m He Hb1 Hb2 ltac:(lia)) as Egs.
    change (Z.of_nat 0) with 0 in Egs. rewrite Egs. cbn [obind]. change (drop 0 ?x) with x.
    rewrite IH by lia. unfold run_jobs. by rewrite fold_left_app.
Qed.

(** Where the host pages go: no two to overlapping places. *)
Definition dests_apart (ws : list (Z * Z)) : Prop :=
  forall w w', In w ws -> In w' ws -> w = w' \/ disjoint_blocks (snd w) (snd w') HPS.

Section deliver.
Context (F : Prop) (rop : op_ptr) (bufs : list Z) (s0 : drive D) (lpns : list Z) (ws : list (Z * Z)) (u : uneq) (s : drive D).
Context (Hrd : reading F rop bufs s0 lpns ws u s) (Hb : bufs_ok g bufs) (Hap : apart_from g bufs ws).
Context (Hd : dests_apart ws) (Hmapped : Forall (fun w => chn (lpa_table (d_ftl s0) (fst w / R)) <> 255 /\ snd w <> 0) ws).
Context (Hnd : NoDup (map fst ws)).
Abbreviation L := (read_infos u) (only parsing).

Lemma read_buffers_meet i j e e' a : L !! i = Some e -> L !! j = Some e' ->
  pi_is_unmapped e = false -> pi_is_unmapped e' = false ->
  0 <= a - pi_temp_buffer e < PS -> 0 <= a - pi_temp_buffer e' < PS -> e = e'.
Proof using Hrd Hb.
  intros Hi Hj Hu Hu' Ha Ha'. pose proof (rd_entries _ _ _ _ _ _ _ _ Hrd) as [_ Hen _].
  destruct (decide (i = j)) as [<-|Hne]; [rewrite Hi in Hj; by injection Hj|].
  pose proof (en_buffer _ _ _ _ _ _ (Hen _ _ Hi) Hu) as B1. pose proof (en_buffer _ _ _ _ _ _ (Hen _ _ Hj) Hu') as B2.
  destruct (bo_apart _ _ Hb _ _ _ _ B1 B2 Hne); lia.
Qed.

(** A job copies a host page of [ws] from its slot in its entry's buffer. *)
Lemma read_jobs_in d src : In (d, src) (read_jobs L) <->
  exists i e lpn, L !! i = Some e /\ In (lpn, d) ws /\ pi_nand_page e = lpn / R /\ pi_is_unmapped e = false /\
    src = pi_temp_buffer e + host_offset g lpn * HPS.
Proof using Hg Hrd Hmapped Hnd.
  pose proof Hrd as [Hwf [Hnp Hen Hcov] _ _ _ _ _]. destruct (uneq_sizes g Hg) as (HR & _).
  unfold read_jobs. rewrite in_flat_map. split.
  - intros (e & (i & Hi)%list_elem_of_In%list_elem_of_lookup & Hx).
    destruct (pi_is_unmapped e) eqn:Eu; [done|]. apply in_slot_jobs in Hx as (j & p & Hj & Hp & [= -> ->]).
    destruct (entry_wf_lookup g _ _ _ _ Hwf Hi) as ((_ & Hl) & _). pose proof (lookup_lt_Some _ _ _ Hj).
    pose proof (en_ptrs _ _ _ _ _ _ (Hen _ _ Hi) (Z.of_nat j) ltac:(lia)) as E. rewrite Nat2Z.id, Hj in E.
    injection E as E. exists i, e, (pi_nand_page e * R + Z.of_nat j). split; [done|]. split; [rewrite E in Hp |- *; by apply slot_of_some|].
    rewrite Z.div_add_l, Z.div_small by lia. split; [lia|]. split; [done|].
    unfold host_offset. rewrite (Z.add_comm (pi_nand_page e * R)), Z_mod_plus_full, Z.mod_small by lia. f_equal; lia.
  - intros (i & e & lpn & Hi & Hin & He & Hu & ->). exists e. rewrite Hu. split; [apply list_elem_of_In, list_elem_of_lookup; by exists i|].
    destruct (host_page_split g Hg lpn) as (Hs & Ho).
    apply in_slot_jobs. exists (Z.to_nat (host_offset g lpn)), d. split; [|split; [|by rewrite Z2Nat.id by lia]].
    + rewrite (en_ptrs _ _ _ _ _ _ (Hen _ _ Hi)) by done. f_equal. rewrite He, <- Hs. by apply slot_of_in.
    + rewrite Forall_forall in Hmapped. by apply (Hmapped _ Hin).
Qed.

Lemma read_jobs_ok : jobs_ok HPS (read_jobs L).
Proof using Hg Hrd Hb Hap Hd Hmapped Hnd.
  pose proof (rd_entries _ _ _ _ _ _ _ _ Hrd) as [Hnp Hen _]. destruct (uneq_sizes g Hg) as (HR & Hh & _ & HPSE & _).
  intros [d1 s1] [d2 s2] (i & e & l & Hi & Hin & He & Hu & Hs)%read_jobs_in
    (j & e' & l' & Hj & Hin' & He' & Hu' & Hs')%read_jobs_in. cbn [fst snd]. split.
  - destruct (Hd _ _ Hin Hin') as [[= <- <-]|]; [left|by right]. f_equal. rewrite Hs, Hs'. f_equal.
    assert (i = j) as <-; [|rewrite Hi in Hj; by injection Hj as <-].
    apply (NoDup_lookup (map pi_nand_page L) i j (l / R) Hnp); change (map pi_nand_page) with (fmap (M := list) pi_nand_page);
      rewrite list_lookup_fmap; [rewrite Hi|rewrite Hj]; cbn; congruence.
  - pose proof (en_buffer _ _ _ _ _ _ (Hen _ _ Hj) Hu') as B. pose proof (Hap _ _ _ _ Hin B) as Hx.
    destruct (host_page_split g Hg l') as (_ & Ho). unfold disjoint_blocks. nia.
Qed.

Lemma flash_reads_placed k : map_inv g k (d_ftl s0) -> pages_placed g (flash_reads L) /\ buffers_apart g (flash_reads L).
Proof using Hg Hrd Hb.
  intros Hm. destruct (uneq_sizes g Hg) as (HR & Hh & _ & HPSE & _).
  pose proof (rd_entries _ _ _ _ _ _ _ _ Hrd) as [_ Hen _]. split.
  - apply Forall_forall. intros x (i & e & Hi & Hu & ->)%flash_reads_in. cbn [pg_ppa pg_ssd_addr].
    destruct (Hen _ _ Hi) as [E1 E2 E3 E4 _ _]. destruct (bo_placed _ _ Hb _ _ (E4 Hu)).
    rewrite E3 by done. split; [|nia]. apply (mi_lpa _ _ _ Hm _ E1). rewrite Hu in E2. symmetry in E2. by apply Z.eqb_neq.
  - intros x y a (i & e & Hi & Hu & ->)%flash_reads_in (j & e' & Hj & Hu' & ->)%flash_reads_in.
    cbn [pg_ssd_addr]. rewrite !in_range_true. intros Ha Ha'.
    by rewrite (read_buffers_meet _ _ _ _ _ Hi Hj Hu Hu' Ha Ha').
Qed.

(** The batch and the copies bring every host page wanted to its place. *)
Lemma deliver_ok k dk :
  disk_rel g k dk s0 -> exists s1 s', d_end_read g rop s = Ok s1 /\ deliver_pages g u s1 = Ok s' /\
    (forall lpn p off, In (lpn, p) ws -> 0 <= off < HPS -> d_mem s' (p + off) = host_disk R HPS dk lpn off) /\
    (forall b, (forall i a, bufs !! i = Some a -> ~ a <= b < a + PS) ->
       (forall lpn p, In (lpn, p) ws -> ~ p <= b < p + HPS) -> d_mem s' b = d_mem s0 b) /\
    disk_rel g k dk s' /\ d_ftl s' = d_ftl s0 /\ d_kernel s' = d_kernel s0 /\
    pool_idle RD F (d_pools s') /\ same_side PR (d_pools s0) (d_pools s').
Proof using Hg Hrd Hb Hap Hd Hmapped Hnd.
  intros [Hi Hp Hm Hrep Hready]. destruct (uneq_sizes g Hg) as (HR & Hh & Hw & HPSE & _).
  pose proof Hrd as [Hwf [_ Hen Hcov] _ Hbu Ho Hsi (D1 & D2 & D3 & D4)].
  destruct (flash_reads_placed k Hi) as (Hpl & Hba).
  destruct (sync_end_read_spec g Hg F rop _ (d_pools s) (d_nand s0) (d_mem s0) Ho Hready Hpl Hba Hm Hp)
    as (p3 & d3 & m3 & E3 & Hi3 & Hs3 & Hrd3 & Hd3 & Hm3).
  assert (Hmok3 : mem_ok m3) by (intros b; rewrite Hm3; by apply read_pages_ok).
  assert (Hbp : forall j e, L !! j = Some e -> pi_is_unmapped e = false -> 0 <= pi_temp_buffer e /\ pi_temp_buffer e + PS <= 2 ^ 32).
  { intros j e Hj Hu. eapply bo_placed; [exact Hb|]. apply (en_buffer _ _ _ _ _ _ (Hen _ _ Hj) Hu). }
  destruct (run_jobs_spec HPS ltac:(lia) Hw (read_jobs L) m3 Hmok3 read_jobs_ok) as (Hmok4 & Hin4 & Hout4).
  set (m4 := run_jobs HPS (read_jobs L) m3) in *.
  exists (Drive (d_ftl s) p3 d3 m3 (d_kernel s)), (Drive (d_ftl s) p3 d3 m4 (d_kernel s)).
  split. { unfold d_end_read. by rewrite D2, D3, E3. }
  split.
  { unfold deliver_pages. cbn [d_mem]. pose proof Hwf as (_ & _ & Hn).
    pose proof (scatter_loop_ok (Z.to_nat (read_pages_count u)) 0 _ _ m3 Hwf ltac:(lia) Hbp) as E.
    change (Z.of_nat 0) with 0 in E. rewrite E. done. }
  cbn [d_mem d_ftl d_kernel d_pools]. split_and!; try done; try congruence.
  - intros lpn p off Hin Hoff. pose proof (Hcov _ Hin) as Hc. cbn [fst] in Hc.
    apply in_map_iff in Hc as (e & He & (i & Hie)%list_elem_of_In%list_elem_of_lookup).
    destruct (Hen _ _ Hie) as [E1 E2 E3' E4 _ _]. destruct (proj1 (Forall_forall _ _) Hmapped _ Hin) as (Hch & _).
    cbn [fst] in Hch. assert (Hu : pi_is_unmapped e = false) by (rewrite E2, He; by apply Z.eqb_neq).
    destruct (host_page_split g Hg lpn) as (Hs & Hof).
    rewrite (Hin4 p (pi_temp_buffer e + host_offset g lpn * HPS)) by (done || (apply read_jobs_in; exists i, e, lpn; done)).
    rewrite Hm3, <- Z.add_assoc.
    etransitivity; [apply (read_pages_get g Hg _ _ _ (OpPage (pi_current_ppa e) (pi_temp_buffer e))); [done| |nia]|].
    + apply flash_reads_in. by exists i, e.
    + cbn [pg_ppa]. unfold host_disk. fold (host_offset g lpn). rewrite (Hrep (lpn / R)) by (rewrite <- ?He; done || nia).
      rewrite E3' by done. rewrite He. by zb.
  - intros b Hb1 Hb2. rewrite Hout4.
    + rewrite Hm3. apply read_pages_out. intros x (i & e & He & Hu & ->)%flash_reads_in. cbn [pg_ssd_addr].
      eapply Hb1. apply (en_buffer _ _ _ _ _ _ (Hen _ _ He) Hu).
    + intros d src (i & e & lpn & _ & Hin & _)%read_jobs_in. by eapply Hb2.
  - split; cbn [d_ftl d_nand d_mem]; [by rewrite D1| |done| |done].
    + intros q b. rewrite Hd3. apply Hp.
    + intros lpn off Hl Hoff. rewrite Hd3, D1. by apply Hrep.
  - by eapply same_side_trans.
Qed.

End deliver.

(** ** Host reads *)

Lemma set_ssd_addr_ok d pre op r a : dma_list d = pre ++ op :: r ->
  set_ssd_addr (Z.of_nat (length pre)) a d =
    Ok (set_dma_list (pre ++ DmaOp a (do_len op) (do_host_p_addr op) (do_host_dma_complete op) :: r) d).
Proof.
  intros E. unfold set_ssd_addr. rewrite E.
  rewrite (proj2 (arr_get_Ok (pre ++ op :: r) (Z.of_nat (length pre)) op))
    by (split; [lia|rewrite Nat2Z.id; by apply list_lookup_middle]).
  cbn [obind]. rewrite arr_set_Ok by (rewrite length_app; cbn [length]; lia). cbn [obind]. rewrite Nat2Z.id.
  by rewrite insert_app_r_alt, Nat.sub_diag by lia.
Qed.

Lemma reading_seen F rop bufs s0 lpns ws u s lpn :
  reading F rop bufs s0 lpns ws u s -> reading F rop bufs s0 (lpns ++ [lpn]) ws u s.
Proof using. intros [Hwf Hen Hseen Hbu Hop Hsi Hd]. split; try done. rewrite map_app. by apply incl_appl. Qed.

(** The entry of a page, found or new. *)
Lemma find_read_info_ok F rop bufs s0 lpns ws u s lpn :
  reading F rop bufs s0 lpns ws u s -> length bufs = 16%nat -> (length lpns < 16)%nat -> 0 <= lpn / R < TOTAL ->
  exists i e u' s', find_read_info g rop (lpn / R) u s = Ok (Z.of_nat i, u', s') /\
    reading F rop bufs s0 (lpns ++ [lpn]) ws u' s' /\ read_infos u' !! i = Some e /\ pi_nand_page e = lpn / R /\
    read_pages u' !! i = Some e.
Proof using Hg.
  intros Hrd Hbl Hlen Hr. pose proof (reading_count _ _ _ _ _ _ _ _ Hrd) as Hcnt.
  pose proof Hrd as [Hwf Hen Hseen Hbu Hop Hsi (D1 & _)]. unfold find_read_info.
  destruct (find_in_use g _ _ (lpn / R) Hwf) as (r & Ef & Hfound). rewrite Ef. cbn [obind].
  destruct r as [ix|].
  { destruct Hfound as (Hix & e & Hi & Hi' & He). exists (Z.to_nat ix), e, u, s. rewrite Z2Nat.id by lia.
    split; [done|]. split; [by apply reading_seen|done]. }
  pose proof Hwf as (Hl & Hf & Hn). set (n := read_pages_count u) in *.
  destruct (start_read_info_ok u (lpn / R) Hwf ltac:(fold n; lia)) as (e & E1 & He & Hew & Hp & Hz). fold n in E1.
  rewrite E1. cbn [obind]. unfold IS_UNMAPPED_LPA, GET_MAPPED_PPA. rewrite (proj2 (in_range_true _ _) Hr). cbn [obind].
  assert (Elen : length (read_infos u) = Z.to_nat n) by (unfold read_infos, in_use; rewrite length_take; fold n; lia).
  assert (Hlk : forall u' e', infos_wf g (read_pages_count u') (read_pages u') ->
    read_infos u' = read_infos u ++ [e'] ->
    read_infos u' !! Z.to_nat n = Some e' /\ read_pages u' !! Z.to_nat n = Some e').
  { intros u' e' Hwf' Ei. assert (Hx : read_infos u' !! Z.to_nat n = Some e') by (rewrite Ei, <- Elen; by apply list_lookup_middle).
    split; [done|]. by destruct (entry_wf_lookup g _ _ _ _ Hwf' Hx) as (_ & ? & _). }
  rewrite D1. destruct (Z.eqb_spec (chn (lpa_table (d_ftl s0) (lpn / R))) 255) as [Hu|Hu].
  - set (e' := pi_set_unmapped e). destruct (reading_new F rop bufs s0 lpns ws u s e' (d_pools s) lpn Hrd) as (Hrd' & Huse); try done.
    { fold n. lia. } { change (pi_nand_page e') with (pi_nand_page e). by rewrite He, Hu. }
    { by rewrite app_nil_r. }
    fold n in Hrd', Huse. exists (Z.to_nat n), e', (set_read_count (n + 1) (set_read_pages (<[Z.to_nat n := e']> (read_pages u)) u)), s.
    split.
    { cbn [set_read_pages read_pages obind]. unfold upd_info.
      rewrite (proj2 (arr_get_Ok (<[Z.to_nat n := e]> (read_pages u)) n e)) by (split; [lia|apply list_lookup_insert_eq; lia]).
      cbn [obind]. rewrite arr_set_Ok by (rewrite length_insert; lia). cbn [obind]. rewrite list_insert_insert_eq, Z2Nat.id, u32_id by lia. done. }
    replace (set_d_pools (d_pools s) s) with s in Hrd' by (by destruct s). split; [done|].
    destruct (Hlk _ e' (rd_wf _ _ _ _ _ _ _ _ Hrd') Huse). done.
  - destruct (new_mapped_ok F rop bufs s0 lpns ws u s e lpn Hrd Hbl ltac:(fold n; lia) Hfound Hr Hu He Hew Hp Hz)
      as (u' & s' & e' & E2 & Hc & Hrd' & Hinf & He' & Hu'). fold n in E2, Hc, Hrd', Hinf. rewrite E2. cbn [obind].
    exists (Z.to_nat n), e', (set_read_count (n + 1) u'), s'. rewrite Z2Nat.id, u32_id by lia.
    split; [done|]. split; [done|]. destruct (Hlk _ e' (rd_wf _ _ _ _ _ _ _ _ Hrd') Hinf). done.
Qed.

(** The host pages of a run that lie in mapped NAND pages, with their places. *)
Fixpoint wanted (lpa : Z -> ppa) (dsts : list Z) (lpn : Z) : list (Z * Z) :=
  match dsts with
  | [] => []
  | p :: r => (if chn (lpa (lpn / R)) =? 255 then [] else [(lpn, p)]) ++ wanted lpa r (lpn + 1)
  end.

(** The places where the host finds a run. *)
Fixpoint answered (lpa : Z -> ppa) (ops : list dma_op_t) (lpn : Z) : list dma_op_t :=
  match ops with
  | [] => []
  | op :: r =>
      (if chn (lpa (lpn / R)) =? 255 then DmaOp zero_buffer (do_len op) (do_host_p_addr op) (do_host_dma_complete op)
       else op) :: answered lpa r (lpn + 1)
  end.

Lemma wanted_in lpa dsts lpn l p : In (l, p) (wanted lpa dsts lpn) <->
  exists j, dsts !! j = Some p /\ l = lpn + Z.of_nat j /\ chn (lpa (l / R)) <> 255.
Proof.
  revert lpn. induction dsts as [|d r IH]; intros lpn; cbn [wanted]; [split; [done|by intros (j & ? & _)]|].
  rewrite in_app_iff, IH. split.
  - intros [Hx|(j & Hj & -> & Hm)].
    + destruct (Z.eqb_spec (chn (lpa (lpn / R))) 255); [done|]. destruct Hx as [[= -> ->]|[]]. exists O.
      split; [done|]. split; [lia|done].
    + exists (S j). split; [done|]. split; [lia|done].
  - intros ([|j] & Hj & -> & Hm); cbn in Hj.
    + injection Hj as ->. left. rewrite Z.add_0_r in *. destruct (Z.eqb_spec (chn (lpa (lpn / R))) 255); [done|by left].
    + right. exists j. split; [done|]. split; [lia|done].
Qed.

Lemma wanted_nodup lpa dsts lpn : NoDup (map fst (wanted lpa dsts lpn)).
Proof.
  revert lpn. induction dsts as [|d r IH]; intros lpn; cbn [wanted]; [apply NoDup_nil_2|].
  rewrite map_app. apply list.NoDup_app. split; [|split; [|apply IH]].
  - destruct (_ =? 255); [apply NoDup_nil_2|apply NoDup_singleton].
  - intros x Hx Hx'. destruct (_ =? 255); [by apply not_elem_of_nil in Hx|]. apply list_elem_of_singleton in Hx. cbn in Hx. subst x.
    apply list_elem_of_In, in_map_iff in Hx' as ([l p] & El & (j & _ & -> & _)%wanted_in). cbn in El. lia.
Qed.

Lemma answered_lookup lpa ops lpn j : answered lpa ops lpn !! j =
  (fun op => if chn (lpa ((lpn + Z.of_nat j) / R)) =? 255
             then DmaOp zero_buffer (do_len op) (do_host_p_addr op) (do_host_dma_complete op) else op) <$> ops !! j.
Proof.
  revert lpn j. induction ops as [|op r IH]; intros lpn [|j]; cbn [answered]; [done..| |].
  - cbn. by rewrite Z.add_0_r.
  - cbn. rewrite IH. by replace (lpn + 1 + Z.of_nat j) with (lpn + Z.of_nat (S j)) by lia.
Qed.

Lemma answered_length lpa ops lpn : length (answered lpa ops lpn) = length ops.
Proof. revert lpn. induction ops as [|op r IH]; intros lpn; cbn; [done|]. by rewrite IH. Qed.

(** Consecutive page numbers. *)
Fixpoint lpn_run (n : nat) (lpn : Z) : list Z := match n with O => [] | S n' => lpn :: lpn_run n' (lpn + 1) end.

Lemma lpn_run_lookup n lpn j : (j < n)%nat -> lpn_run n lpn !! j = Some (lpn + Z.of_nat j).
Proof.
  revert lpn j. induction n as [|n IH]; intros lpn [|j] Hj; [lia..| |]; cbn [lpn_run]; cbn; [f_equal; lia|].
  rewrite IH by lia. f_equal. lia.
Qed.

Lemma lpn_run_length n lpn : length (lpn_run n lpn) = n.
Proof. revert lpn. induction n as [|n IH]; intros lpn; cbn; [done|]. by rewrite IH. Qed.

(** One page of a host read. *)
Lemma collect_read_ok F rop bufs s0 lpns ws u s lpn req pre op r mpre x mr :
  reading F rop bufs s0 lpns ws u s -> length bufs = 16%nat -> (length lpns < 16)%nat -> 0 <= lpn < TOTAL * R ->
  (forall w, In w ws -> fst w < lpn) -> do_ssd_addr op <> 0 ->
  dma_list (rq_dma req) = pre ++ op :: r -> rq_meta_lpn req = mpre ++ x :: mr -> length mpre = length pre ->
  exists u' s', collect_read g zero_buffer rop (Z.of_nat (length pre)) lpn req u s =
      Ok (set_req_dma (set_dma_list (pre ++ answered (lpa_table (d_ftl s0)) [op] lpn ++ r) (rq_dma req))
            (set_meta_lpn (mpre ++ lpn :: mr) req), u', s') /\
    reading F rop bufs s0 (lpns ++ [lpn]) (ws ++ wanted (lpa_table (d_ftl s0)) [do_ssd_addr op] lpn) u' s'.
Proof using Hg.
  intros Hrd Hbl Hlen Hl Hws Hop Edma Emeta Hpre. destruct (uneq_sizes g Hg) as (HR & _).
  assert (Hr : 0 <= lpn / R < TOTAL) by (split; [apply Z.div_pos; lia|apply Z.div_lt_upper_bound; lia]).
  destruct (find_read_info_ok F rop bufs s0 lpns ws u s lpn Hrd Hbl Hlen Hr) as (i & e & u1 & s1 & E1 & Hrd1 & Hi & He & Hlk).
  unfold collect_read. rewrite Emeta, arr_set_Ok by (rewrite length_app; cbn [length]; lia). cbn [obind].
  rewrite Nat2Z.id, insert_app_r_alt, <- Hpre, Nat.sub_diag by lia. change (<[O := lpn]> (x :: mr)) with (lpn :: mr).
  rewrite Hpre, (nand_page_of_div g Hg), E1. cbn [obind]. rewrite (proj2 (arr_get_Ok (read_pages u1) (Z.of_nat i) e)) by (split; [lia|by rewrite Nat2Z.id]).
  cbn [obind]. pose proof (rd_entries _ _ _ _ _ _ _ _ Hrd1) as [_ Hen _].
  rewrite (en_unmapped _ _ _ _ _ _ (Hen _ _ Hi)), He. cbn [wanted answered app].
  destruct (chn (lpa_table (d_ftl s0) (lpn / R)) =? 255) eqn:Eu.
  - change (rq_dma (set_meta_lpn ?a req)) with (rq_dma req). rewrite (set_ssd_addr_ok _ pre op r) by done. cbn [obind app].
    exists u1, s1. rewrite app_nil_r. done.
  - change (rq_dma (set_meta_lpn ?a req)) with (rq_dma req). rewrite Edma.
    rewrite (proj2 (arr_get_Ok (pre ++ op :: r) (Z.of_nat (length pre)) op)) by (split; [lia|rewrite Nat2Z.id; by apply list_lookup_middle]).
    cbn [obind]. destruct (reading_put F rop bufs s0 _ ws u1 s1 i e lpn (do_ssd_addr op) Hrd1 Hi He Hop) as (l' & E2 & Hrd2).
    { intros (w & Hw & Hin)%in_map_iff. specialize (Hws _ Hin). lia. }
    rewrite E2. cbn [obind app]. exists (set_read_pages l' u1), s1. split; [|done]. f_equal. f_equal. f_equal.
    rewrite <- Edma. by destruct req as [? ? ? ? ? ? ? ? ? [] ? ? ?].
Qed.

Lemma unequal_read_io_loop_ok F rop bufs s0 ops : forall lpns ws u s lpn req pre tail mpre mrest mtail,
  reading F rop bufs s0 lpns ws u s -> length bufs = 16%nat -> (length lpns + length ops <= 16)%nat ->
  0 <= lpn -> lpn + Z.of_nat (length ops) <= TOTAL * R -> TOTAL * R < 2 ^ 32 ->
  (forall w, In w ws -> fst w < lpn) -> Forall (fun op => do_ssd_addr op <> 0) ops ->
  dma_list (rq_dma req) = pre ++ ops ++ tail -> rq_meta_lpn req = mpre ++ mrest ++ mtail ->
  length mpre = length pre -> length mrest = length ops ->
  exists u' s' lpns', FtlUneq.read_io_loop g zero_buffer (length ops) rop (Z.of_nat (length pre)) lpn req u s =
      Ok (set_req_dma (set_dma_list (pre ++ answered (lpa_table (d_ftl s0)) ops lpn ++ tail) (rq_dma req))
            (set_meta_lpn (mpre ++ lpn_run (length ops) lpn ++ mtail) req), u', s') /\
    reading F rop bufs s0 lpns' (ws ++ wanted (lpa_table (d_ftl s0)) (map do_ssd_addr ops) lpn) u' s'.
Proof using Hg.
  induction ops as [|op ops IH]; intros lpns ws u s lpn req pre tail mpre mrest mtail Hrd Hbl Hlen Hl Hl2 HT Hws Hall Edma Emeta Hmp Hmr.
  - destruct mrest; [|done]. exists u, s, lpns. cbn [length FtlUneq.read_io_loop answered lpn_run map wanted app] in *.
    rewrite app_nil_r, <- Edma, <- Emeta. split; [|done]. by destruct req as [? ? ? ? ? ? ? ? ? [] ? ? ?].
  - destruct mrest as [|x mrest]; [done|]. apply Forall_cons_1 in Hall as (Hop & Hall). cbn [length app] in *.
    destruct (collect_read_ok F rop bufs s0 lpns ws u s lpn req pre op (ops ++ tail) mpre x (mrest ++ mtail) Hrd Hbl ltac:(lia) ltac:(lia) Hws Hop Edma Emeta Hmp)
      as (u1 & s1 & E1 & Hrd1).
    cbn [FtlUneq.read_io_loop]. rewrite E1. cbn [obind]. rewrite u32_id by lia.
    cbn [answered app] in E1 |- *. set (op' := if _ =? 255 then _ else op).
    edestruct (IH (lpns ++ [lpn]) _ u1 s1 (lpn + 1)
      (set_req_dma (set_dma_list (pre ++ op' :: ops ++ tail) (rq_dma req)) (set_meta_lpn (mpre ++ lpn :: mrest ++ mtail) req))
      (pre ++ [op']) tail (mpre ++ [lpn]) mrest mtail Hrd1) as (u' & s' & lpns' & E & Hrd');
      try done; rewrite ?length_app; cbn [length]; try lia; try (rewrite <- app_assoc; done).
    + intros w [Hw|Hw]%in_app_iff; [specialize (Hws _ Hw); lia|]. destruct w as [l p].
      apply wanted_in in Hw as ([|j] & Hj & -> & _); [cbn; lia|done].
    + exists u', s', lpns'. rewrite length_app in E. cbn [length] in E.
      replace (Z.of_nat (length pre) + 1) with (Z.of_nat (length pre + 1)) by lia. rewrite E.
      split; [rewrite <- !app_assoc; done|]. rewrite <- app_assoc in Hrd'. cbn [wanted map app] in Hrd' |- *.
      by rewrite app_nil_r in Hrd'.
Qed.

(** A read starts with no entries. *)
Lemma reading_none F rop u (s0 s : drive D) :
  infos_wf g (read_pages_count u) (read_pages u) -> op_open RD F rop [] (d_pools s) ->
  same_side PR (d_pools s0) (d_pools s) ->
  d_ftl s = d_ftl s0 /\ d_nand s = d_nand s0 /\ d_mem s = d_mem s0 /\ d_kernel s = d_kernel s0 ->
  exists u0, reset_read_pages u = Ok u0 /\ reading F rop (temp_read_buffer u) s0 [] [] u0 s.
Proof using.
  intros (Hl & Hf & Hn) Ho Hs Hd.
  destruct (reset_pages_ok g false (Z.to_nat (read_pages_count u)) 0 (read_pages u)) as (l' & E & Hl' & Hf'); [lia|done|].
  exists (set_read_count 0 (set_read_pages l' u)). unfold reset_read_pages. change 0 with (Z.of_nat 0) at 1.
  rewrite E. split; [done|].
  split; unfold read_infos; cbn [set_read_count set_read_pages read_pages read_pages_count temp_read_buffer in_use take map flash_reads flat_map]; try done.
  - split; [lia|]. by split.
  - split; [apply NoDup_nil_2|done|done].
  - apply incl_nil_l.
Qed.

(** The places a read names: set, apart from each other and from the buffers. *)
Record places_ok (bufs dsts : list Z) : Prop := PlacesOk {
  po_set : Forall (fun p => p <> 0) dsts;
  po_apart : forall i j p q, dsts !! i = Some p -> dsts !! j = Some q -> i <> j -> disjoint_blocks p q HPS;
  po_bufs : forall i j p b, dsts !! i = Some p -> bufs !! j = Some b -> p + HPS <= b \/ b + PS <= p }.

Lemma places_wanted bufs dsts lpa lpn : places_ok bufs dsts ->
  apart_from g bufs (wanted lpa dsts lpn) /\ dests_apart (wanted lpa dsts lpn) /\
  Forall (fun w => chn (lpa (fst w / R)) <> 255 /\ snd w <> 0) (wanted lpa dsts lpn).
Proof using.
  intros [Hset Hap Hb]. split_and!.
  - intros l p i b (j & Hj & _ & _)%wanted_in Hi. by eapply Hb.
  - intros [l p] [l' p'] (j & Hj & -> & _)%wanted_in (j' & Hj' & -> & _)%wanted_in.
    destruct (decide (j = j')) as [<-|Hne]; [left; rewrite Hj in Hj'; by injection Hj' as <-|right; by eapply Hap].
  - apply List.Forall_forall. intros [l p] (j & Hj & _ & Hm)%wanted_in. split; [done|].
    rewrite Forall_lookup in Hset. by eapply Hset.
Qed.

(** C16: reading when a flash page holds several host pages: for a request of at
    most 16 host pages inside the drive, with a place of its own for each,
    [ftl_process_read_io] makes every transfer entry name memory that holds its
    host page: its own place, filled from the flash page, or the buffer of zeros
    for a flash page never written; the rest of every entry, the tables, the disk,
    the threads and the queues of others are left alone, and the request goes to
    the NVMe thread marked complete. *)
Theorem unequal_read_io_reads F k dk req_ptr req u (s : drive D) ops tail :
  disk_rel g k dk s -> infos_wf g (read_pages_count u) (read_pages u) -> bufs_ok g (temp_read_buffer u) ->
  dma_list (rq_dma req) = ops ++ tail -> Z.of_nat (length ops) = io_nlbs req + 1 -> io_nlbs req <= 15 ->
  length (rq_meta_lpn req) = 16%nat ->
  io_slba req + io_nlbs req + 1 <= TOTAL * R -> TOTAL * R < 2 ^ 32 ->
  places_ok (temp_read_buffer u) (map do_ssd_addr ops) ->
  (forall off, 0 <= off < HPS -> d_mem s (zero_buffer + off) = 0) ->
  (forall p, In p (map do_ssd_addr ops) -> disjoint_blocks zero_buffer p HPS) ->
  (forall i b, temp_read_buffer u !! i = Some b -> zero_buffer + HPS <= b \/ b + PS <= zero_buffer) ->
  pool_ready RD F (d_pools s) ->
  queue_ok (d_kernel s) FTL_MODULE_OUT_Q -> (length (queue_contents (d_kernel s) FTL_MODULE_OUT_Q) < 255)%nat ->
  exists req' u' s', FtlUneq.ftl_process_read_io g zero_buffer req_ptr req u s = Ok (req', u', s') /\
    (forall j, 0 <= j <= io_nlbs req -> exists op0 op, ops !! Z.to_nat j = Some op0 /\
       arr_get (dma_list (rq_dma req')) j = Ok op /\
       op = (if chn (lpa_table (d_ftl s) ((io_slba req + j) / R)) =? 0xFF
             then DmaOp zero_buffer (do_len op0) (do_host_p_addr op0) (do_host_dma_complete op0) else op0) /\
       forall off, 0 <= off < HPS -> d_mem s' (do_ssd_addr op + off) = host_disk R HPS dk (io_slba req + j) off) /\
    (forall j, 0 <= j <= io_nlbs req -> arr_get (rq_meta_lpn req') j = Ok (io_slba req + j)) /\
    (forall b, (forall i a, temp_read_buffer u !! i = Some a -> ~ a <= b < a + PS) ->
       (forall p, In p (map do_ssd_addr ops) -> ~ p <= b < p + HPS) -> d_mem s' b = d_mem s b) /\
    disk_rel g k dk s' /\ d_ftl s' = d_ftl s /\ rq_nand_io_complete req' = true /\
    queue_contents (d_kernel s') FTL_MODULE_OUT_Q =
      queue_contents (d_kernel s) FTL_MODULE_OUT_Q ++ [ObjEntry req_ptr (rq_type req)] /\
    (forall qid, qid <> FTL_MODULE_OUT_Q -> queue_contents (d_kernel s') qid = queue_contents (d_kernel s) qid) /\
    thrds (d_kernel s') = thrds (d_kernel s) /\
    pool_idle RD F (d_pools s') /\ same_side PR (d_pools s) (d_pools s').
Proof using Hg.
  intros Hr Hwf Hb Edma Hops Hnl Hmeta Hin HT Hpl Hz Hz1 Hz2 Hrp Hq Hql. destruct (uneq_sizes g Hg) as (HR & Hh & _ & HPSE & _).
  assert (Hsl : fits 64 (io_slba req)) by (apply (field_fits NvmeIOSCmd 8); [auto with cint|reflexivity]).
  assert (Hnf : fits 16 (io_nlbs req)) by (apply (field_fits NvmeIOSCmd 9); [auto with cint|reflexivity]).
  unfold fits in Hsl, Hnf.
  destruct (begin_op_spec RD F (d_pools s) Hrp) as (rop & p1 & E1 & Ho1 & Hs1).
  destruct (reading_none F rop u s (set_d_pools p1 s) Hwf Ho1 Hs1) as (u0 & E0 & Hrd0); [done|].
  assert (Hset : Forall (fun op => do_ssd_addr op <> 0) ops).
  { pose proof (po_set _ _ Hpl) as Hx. apply List.Forall_forall. intros op Hop. rewrite List.Forall_forall in Hx. by apply Hx, in_map. }
  destruct (unequal_read_io_loop_ok F rop (temp_read_buffer u) s ops [] [] u0 (set_d_pools p1 s) (io_slba req) req [] tail []
      (take (length ops) (rq_meta_lpn req)) (drop (length ops) (rq_meta_lpn req)) Hrd0)
    as (u1 & s1 & lpns & E2 & Hrd1); try done; try (cbn [length]; lia); [apply Hb|cbn [app]; by rewrite take_drop|rewrite length_take; lia|].
  cbn [app length] in E2, Hrd1. change (Z.of_nat 0) with 0 in E2.
  set (lpa := lpa_table (d_ftl s)) in *. set (ws := wanted lpa (map do_ssd_addr ops) (io_slba req)) in *.
  destruct (places_wanted _ _ lpa (io_slba req) Hpl) as (Hap & Hda & Hmp). fold ws in Hap, Hda, Hmp.
  destruct (deliver_ok F rop _ s lpns ws u1 s1 Hrd1 Hb Hap Hda Hmp (wanted_nodup _ _ _) k dk Hr)
    as (s2 & s3 & E3 & E4 & Hnew & Hold & Hr3 & Hf3 & Hk3 & Hp3 & Hs3).
  set (req1 := set_req_dma _ _) in *.
  destruct (push_obj_to_queue_spec (d_kernel s) FTL_MODULE_OUT_Q req_ptr (rq_type req) Hq)
    as (k' & _ & Hth & _ & Hqo & [(_ & Ep & Hqc)|(Hbad & _)]); [|lia].
  exists (set_nand_io_complete true req1), u1, (set_d_kernel k' s3).
  split.
  { unfold FtlUneq.ftl_process_read_io, d_begin_read.
    change (begin_read_op (d_pools s)) with (begin_op (type_of RD) (d_pools s)). rewrite E1. cbn [obind].
    rewrite E0. cbn [obind]. rewrite u32_id by lia. replace (Z.to_nat (io_nlbs req + 1)) with (length ops) by lia.
    rewrite E2. cbn [obind]. rewrite E3. cbn [obind]. rewrite E4. cbn [obind]. unfold sys_push_to_nvme. rewrite Hk3.
    change (rq_type (set_nand_io_complete true req1)) with (rq_type req). by rewrite Ep. }
  cbn [set_d_kernel d_mem d_ftl d_kernel d_pools]. split_and!; try done.
  - intros j Hj. destruct (lookup_lt_is_Some_2 ops (Z.to_nat j)) as (op & Hop); [lia|].
    assert (Hpj : map do_ssd_addr ops !! Z.to_nat j = Some (do_ssd_addr op)).
    { change (map do_ssd_addr) with (fmap (M := list) do_ssd_addr). by rewrite list_lookup_fmap, Hop. }
    assert (Hans : answered lpa ops (io_slba req) !! Z.to_nat j = Some
      (if chn (lpa ((io_slba req + j) / R)) =? 255
       then DmaOp zero_buffer (do_len op) (do_host_p_addr op) (do_host_dma_complete op) else op))
      by (rewrite answered_lookup, Hop, Z2Nat.id by lia; done).
    exists op. eexists. split; [done|]. split; [|split; [reflexivity|]].
    { apply arr_get_Ok. split; [lia|]. unfold req1. cbn [rq_dma set_nand_io_complete set_req_dma dma_list set_dma_list].
      rewrite lookup_app_l by (rewrite answered_length; apply lookup_lt_Some in Hop; lia). exact Hans. }
    intros off Hoff. destruct (Z.eqb_spec (chn (lpa ((io_slba req + j) / R))) 255) as [Hu|Hu].
    + cbn [do_ssd_addr]. rewrite Hold.
      * rewrite Hz by done. unfold host_disk. destruct Hr as [_ _ _ Hrep _]. rewrite (Hrep ((io_slba req + j) / R)).
        -- unfold lpa in Hu. by rewrite Hu.
        -- split; [apply Z.div_pos; lia|apply Z.div_lt_upper_bound; lia].
        -- pose proof (Z.mod_pos_bound (io_slba req + j) R HR). nia.
      * intros i b Hi. pose proof (Hz2 _ _ Hi). lia.
      * intros l p (j' & Hj' & _ & _)%wanted_in. pose proof (Hz1 p) as Hx. unfold disjoint_blocks in Hx.
        destruct Hx; [|lia..]. apply list_elem_of_In, list_elem_of_lookup. by exists j'.
    + apply (Hnew (io_slba req + j) (do_ssd_addr op) off); [|done]. apply wanted_in. exists (Z.to_nat j). split; [done|]. split; [lia|done].
  - intros j Hj. apply arr_get_Ok. split; [lia|]. unfold req1. cbn [rq_meta_lpn set_nand_io_complete set_req_dma set_meta_lpn].
    rewrite lookup_app_l by (rewrite lpn_run_length; lia). rewrite lpn_run_lookup by lia. f_equal. lia.
  - intros b Hb1 Hb2. apply Hold; [done|]. intros l p (j & Hj & _ & _)%wanted_in. apply Hb2.
    apply list_elem_of_In, list_elem_of_lookup. by exists j.
  - by destruct Hr3.
  - intros qid Hne. unfold queue_contents. by rewrite Hqo.
Qed.

(** ** Reads of the ISP driver *)

(** A run of mapped pages is collected whole. *)
Lemma unequal_sync_read_loop_ok F rop bufs s0 buffer n : forall i lpns ws u s lpn,
  reading F rop bufs s0 lpns ws u s -> length bufs = 16%nat -> (length lpns + n <= 16)%nat ->
  0 <= lpn -> lpn + Z.of_nat n <= TOTAL * R -> TOTAL * R < 2 ^ 32 -> 0 < buffer -> 0 <= i ->
  buffer + (i + Z.of_nat n) * HPS <= 2 ^ 32 -> (forall w, In w ws -> fst w < lpn) ->
  (forall j, lpn <= j < lpn + Z.of_nat n -> chn (lpa_table (d_ftl s0) (j / R)) <> 255) ->
  exists u' s' lpns', FtlUneq.sync_read_loop g n rop buffer i lpn u s = Ok (true, u', s') /\
    reading F rop bufs s0 lpns'
      (ws ++ map (fun j => (lpn + Z.of_nat j, buffer + (i + Z.of_nat j) * HPS)) (seq 0 n)) u' s'.
Proof using Hg.
  destruct (uneq_sizes g Hg) as (HR & Hh & _).
  induction n as [|n IH]; intros i lpns ws u s lpn Hrd Hbl Hlen Hl Hl2 HT Hbuf Hi Hbm Hws Hm.
  { exists u, s, lpns. cbn [FtlUneq.sync_read_loop seq map]. by rewrite app_nil_r. }
  assert (Hr : 0 <= lpn / R < TOTAL) by (split; [apply Z.div_pos; lia|apply Z.div_lt_upper_bound; lia]).
  pose proof (Hm lpn ltac:(lia)) as Hml. pose proof (reading_count _ _ _ _ _ _ _ _ Hrd) as Hcnt.
  pose proof Hrd as [Hwf _ _ _ _ _ (D1 & _)]. cbn [FtlUneq.sync_read_loop]. rewrite (nand_page_of_div g Hg).
  destruct (find_in_use g _ _ (lpn / R) Hwf) as (r & Ef & Hfound). rewrite Ef. cbn [obind].
  rewrite host_page_addr by (try done; try lia; nia).
  assert (Hput : forall u1 s1 ix e, reading F rop bufs s0 (lpns ++ [lpn]) ws u1 s1 ->
    read_infos u1 !! ix = Some e -> pi_nand_page e = lpn / R ->
    exists u' s' lpns', (let! l := put_info (Z.of_nat ix) (host_offset g lpn) lpn (buffer + i * HPS) (read_pages u1) in
        FtlUneq.sync_read_loop g n rop buffer (i + 1) (u32 (lpn + 1)) (set_read_pages l u1) s1) = Ok (true, u', s') /\
      reading F rop bufs s0 lpns'
        (ws ++ map (fun j => (lpn + Z.of_nat j, buffer + (i + Z.of_nat j) * HPS)) (seq 0 (S n))) u' s').
  { intros u1 s1 ix e Hrd1 Hix He.
    destruct (reading_put F rop bufs s0 _ ws u1 s1 ix e lpn (buffer + i * HPS) Hrd1 Hix He) as (l' & E & Hrd2); [nia| |].
    { intros (w & Hw & Hin)%in_map_iff. specialize (Hws _ Hin). lia. }
    rewrite E. cbn [obind]. rewrite u32_id by lia.
    destruct (IH (i + 1) (lpns ++ [lpn]) _ _ s1 (lpn + 1) Hrd2) as (u' & s' & lpns' & E' & Hrd'); try done; try lia.
    - rewrite length_app. cbn [length]. lia.
    - intros w [Hw|[<-|[]]]%in_app_iff; [specialize (Hws _ Hw); lia|cbn; lia].
    - intros j Hj. apply Hm. lia.
    - exists u', s', lpns'. split; [done|]. rewrite <- app_assoc in Hrd'. cbn [app seq map] in Hrd' |- *.
      rewrite !Z.add_0_r. rewrite <- seq_shift, map_map.
      erewrite map_ext; [exact Hrd'|]. intros j. cbn. f_equal; [lia|]. f_equal. f_equal. lia. }
  destruct r as [ix|].
  - destruct Hfound as (Hix & e & Hie & _ & He). cbn [obind].
    rewrite <- (Z2Nat.id ix) by lia. apply (Hput u s _ e); [by apply reading_seen|done|done].
  - destruct (start_read_info_ok u (lpn / R) Hwf ltac:(lia)) as (e & E1 & He & Hew & Hp & Hz).
    rewrite E1. cbn [obind]. unfold IS_UNMAPPED_LPA, GET_MAPPED_PPA at 1. rewrite (proj2 (in_range_true _ _) Hr). cbn [obind].
    rewrite D1. apply Z.eqb_neq in Hml as Hml'. rewrite Hml'.
    destruct (new_mapped_ok F rop bufs s0 lpns ws u s e lpn Hrd Hbl ltac:(lia) Hfound Hr Hml He Hew Hp Hz)
      as (u' & s' & e' & E2 & Hc & Hrd' & Hinf & He' & Hu'). rewrite E2. cbn [obind].
    destruct Hwf as (_ & _ & Hn). rewrite (u32_id (read_pages_count u + 1)) by lia.
    replace (put_info (read_pages_count u)) with (put_info (Z.of_nat (Z.to_nat (read_pages_count u)))) by (by rewrite Z2Nat.id by lia).
    apply (Hput (set_read_count (read_pages_count u + 1) u') s' (Z.to_nat (read_pages_count u)) e'); [done| |done].
    rewrite Hinf. pose proof Hrd as [(Hl0 & _) _ _ _ _ _ _].
    replace (Z.to_nat (read_pages_count u)) with (length (read_infos u)); [by apply list_lookup_middle|].
    unfold read_infos, in_use. rewrite length_take. lia.
Qed.

(** Reading a run of at most 16 host pages of mapped NAND pages fills the buffer. *)
Lemma unequal_sync_read_pages_reads F k dk start n buffer u (s : drive D) :
  disk_rel g k dk s -> infos_wf g (read_pages_count u) (read_pages u) -> bufs_ok g (temp_read_buffer u) ->
  0 <= start -> start + n <= TOTAL * R -> TOTAL * R < 2 ^ 32 -> 0 <= n <= 16 ->
  0 < buffer -> buffer + n * HPS <= 2 ^ 32 ->
  apart_from g (temp_read_buffer u) (host_run g start buffer (Z.to_nat n)) ->
  (forall j, start <= j < start + n -> chn (lpa_table (d_ftl s) (j / R)) <> 255) ->
  pool_ready RD F (d_pools s) ->
  exists c u' s', FtlUneq.sync_read_pages g start n buffer u s = Ok (c, u', s') /\
    (forall i off, 0 <= i < n -> 0 <= off < HPS ->
       d_mem s' (buffer + i * HPS + off) = host_disk R HPS dk (start + i) off) /\
    disk_rel g k dk s' /\ d_ftl s' = d_ftl s /\ d_kernel s' = d_kernel s /\
    pool_idle RD F (d_pools s') /\ same_side PR (d_pools s) (d_pools s').
Proof using Hg.
  intros Hr Hwf Hb Hs Hn1 HT Hn Hbuf Hbm Hap Hm Hrp. destruct (uneq_sizes g Hg) as (HR & Hh & _).
  destruct (begin_op_spec RD F (d_pools s) Hrp) as (rop & p1 & E1 & Ho1 & Hs1).
  destruct (reading_none F rop u s (set_d_pools p1 s) Hwf Ho1 Hs1) as (u0 & E0 & Hrd0); [done|].
  destruct (unequal_sync_read_loop_ok F rop (temp_read_buffer u) s buffer (Z.to_nat n) 0 [] [] u0 (set_d_pools p1 s) start Hrd0)
    as (u1 & s1 & lpns & E2 & Hrd1); try done; try (cbn [length]; lia); [apply Hb|intros j Hj; apply Hm; lia|].
  cbn [app] in Hrd1. change (map _ (seq 0 (Z.to_nat n))) with (host_run g start buffer (Z.to_nat n)) in Hrd1.
  set (ws := host_run g start buffer (Z.to_nat n)) in *.
  assert (Hws : forall l p, In (l, p) ws <-> exists i, 0 <= i < n /\ l = start + i /\ p = buffer + i * HPS).
  { intros l p. unfold ws, host_run. rewrite in_map_iff. split.
    - intros (i & [= <- <-] & Hi%in_seq). exists (Z.of_nat i). split; [lia|done].
    - intros (i & Hi & -> & ->). exists (Z.to_nat i). rewrite Z2Nat.id by lia. split; [done|]. apply in_seq. lia. }
  destruct (deliver_ok F rop _ s lpns ws u1 s1 Hrd1 Hb Hap) with (k := k) (dk := dk)
    as (s2 & s3 & E3 & E4 & Hnew & Hold & Hr3 & Hf3 & Hk3 & Hp3 & Hs3); [| | |done|].
  - intros [l p] [l' p'] (i & Hi & -> & ->)%Hws (i' & Hi' & -> & ->)%Hws. unfold disjoint_blocks. cbn [snd].
    destruct (decide (i = i')) as [<-|]; [by left|right; nia].
  - apply List.Forall_forall. intros [l p] (i & Hi & -> & ->)%Hws. cbn [fst snd]. split; [apply Hm; lia|nia].
  - unfold ws, host_run. rewrite map_map. cbn [fst]. apply (NoDup_fmap_2_strong _ (seq 0 (Z.to_nat n))); [intros; lia|apply NoDup_seq].
  - exists (read_pages_count u1), u1, s3. split.
    { unfold FtlUneq.sync_read_pages, d_begin_read.
      change (begin_read_op (d_pools s)) with (begin_op (type_of RD) (d_pools s)). rewrite E1. cbn [obind].
      rewrite E0. cbn [obind]. rewrite E2. cbn [obind]. rewrite E3. cbn [obind]. by rewrite E4. }
    split; [|done]. intros i off Hi Hoff. apply Hnew; [|done]. apply Hws. by exists i.
Qed.

(** A run that starts in a NAND page never written returns 0 at once: nothing is
    read, and the batch object taken from the pool is not given back. *)
Lemma unequal_sync_read_unmapped F k dk start n buffer u (s : drive D) :
  disk_rel g k dk s -> infos_wf g (read_pages_count u) (read_pages u) ->
  0 <= start < TOTAL * R -> 0 < n -> chn (lpa_table (d_ftl s) (start / R)) = 255 -> pool_ready RD F (d_pools s) ->
  exists rop u' s', FtlUneq.sync_read_pages g start n buffer u s = Ok (0, u', s') /\
    d_mem s' = d_mem s /\ op_open RD F rop [] (d_pools s').
Proof using Hg.
  intros Hr Hwf Hs Hn Hu Hrp. destruct (uneq_sizes g Hg) as (HR & _).
  assert (Hnp : 0 <= start / R < TOTAL) by (split; [apply Z.div_pos; lia|apply Z.div_lt_upper_bound; lia]).
  destruct (begin_op_spec RD F (d_pools s) Hrp) as (rop & p1 & E1 & Ho1 & Hs1).
  destruct Hwf as (Hl & Hf & Hc).
  destruct (reset_pages_ok g false (Z.to_nat (read_pages_count u)) 0 (read_pages u)) as (l' & E & Hl' & Hf'); [lia|done|].
  set (u0 := set_read_count 0 (set_read_pages l' u)).
  destruct (start_read_info_ok u0 (start / R)) as (e & E2 & _); [split; [cbn; lia|split; [exact Hf'|cbn; lia]]|cbn; lia|].
  exists rop, (set_read_pages (<[O := e]> l') u0), (set_d_pools p1 s). split; [|done].
  unfold FtlUneq.sync_read_pages, d_begin_read.
  change (begin_read_op (d_pools s)) with (begin_op (type_of RD) (d_pools s)). rewrite E1. cbn [obind].
  unfold reset_read_pages. change (Z.of_nat 0) with 0 in E. rewrite E. cbn [obind]. fold u0.
  destruct (Z.to_nat n) as [|n'] eqn:En; [lia|]. cbn [FtlUneq.sync_read_loop]. change (Z.to_nat (read_pages_count u0)) with O.
  cbn [find_info obind]. rewrite (nand_page_of_div g Hg), E2. cbn [obind].
  unfold IS_UNMAPPED_LPA, GET_MAPPED_PPA. rewrite (proj2 (in_range_true _ _) Hnp). cbn [obind set_d_pools d_ftl].
  rewrite Hu. cbn [Z.eqb Pos.eqb obind]. done.
Qed.

End reads.

(** ** The buffers the start-up allocates *)

Section start_up.
Context (g : geom) (Hg : geom_ok g).
Abbreviation PS := (NAND_PAGE_SIZE g) (only parsing).

Lemma bufs_run bufs base :
  length bufs = 16%nat -> (forall i, (i < 16)%nat -> bufs !! i = Some (base + Z.of_nat i * PS)) ->
  0 <= base -> base + 16 * PS <= 2 ^ 32 -> bufs_ok g bufs.
Proof using Hg.
  intros Hl Hb H0 Hm. destruct (uneq_sizes g Hg) as (HR & Hh & _ & HPSE & _).
  assert (Hx : forall i b, bufs !! i = Some b -> (i < 16)%nat /\ b = base + Z.of_nat i * PS).
  { intros i b Hi. pose proof (lookup_lt_Some _ _ _ Hi). split; [lia|]. rewrite Hb in Hi by lia. congruence. }
  split; [done| |].
  - intros i b (Hi & ->)%Hx. split; nia.
  - intros i j a b (Hi & ->)%Hx (Hj & ->)%Hx Hne. unfold disjoint_blocks. nia.
Qed.

Lemma alloc_pages_ok n : forall i bufs h,
  heap_ok h -> (i + n <= length bufs)%nat -> uncacheable_next_ptr h + Z.of_nat n * PS <= uncached_ram_end h ->
  exists bufs' h', alloc_pages g n (Z.of_nat i) bufs h = Ok (bufs', h') /\ heap_ok h' /\ length bufs' = length bufs /\
    uncacheable_next_ptr h' = uncacheable_next_ptr h + Z.of_nat n * PS /\ uncached_ram_end h' = uncached_ram_end h /\
    (forall j, (j < i)%nat -> bufs' !! j = bufs !! j) /\
    (forall j, (i <= j < i + n)%nat -> bufs' !! j = Some (uncacheable_next_ptr h + (Z.of_nat j - Z.of_nat i) * PS)).
Proof using Hg.
  destruct (uneq_sizes g Hg) as (HR & Hh & _ & HPSE & _).
  assert (HP : 0 < PS) by nia.
  induction n as [|n IH]; intros i bufs h Hok Hl Hn.
  { exists bufs, h. split_and!; try done; [lia|]. intros j Hj. lia. }
  pose proof Hok as (O1 & O2). cbn [alloc_pages].
  rewrite get_uncacheable_ram_spec by (try done; nia). replace (uncached_ram_end h <? uncacheable_next_ptr h + PS) with false
    by (symmetry; apply Z.ltb_ge; nia).
  cbn [obind]. rewrite arr_set_Ok by lia. cbn [obind]. rewrite Nat2Z.id. replace (Z.of_nat i + 1) with (Z.of_nat (S i)) by lia.
  set (h1 := UcHeap _ _ _).
  destruct (IH (S i) (<[i := uncacheable_next_ptr h]> bufs) h1) as (bufs' & h' & E & Hok' & Hl' & Hnx & He & Hlo & Hhi).
  - split; cbn; lia || nia.
  - rewrite length_insert. lia.
  - cbn [h1 uncacheable_next_ptr uncached_ram_end]. nia.
  - exists bufs', h'. rewrite E. rewrite length_insert in Hl'. cbn [h1 uncacheable_next_ptr uncached_ram_end] in *.
    split_and!; try done; [nia| |].
    + intros j Hj. rewrite Hlo by lia. apply list_lookup_insert_ne. lia.
    + intros j Hj. destruct (decide (j = i)) as [->|].
      * rewrite Hlo by lia. rewrite list_lookup_insert_eq by lia. f_equal. lia.
      * rewrite Hhi by lia. f_equal. nia.
Qed.

(** With room for 32 flash pages in the heap, the start-up gives every entry a
    buffer of its own, on both sides. *)
Lemma init_unequal_ok u h :
  heap_ok h -> length (rmp_buffer u) = 16%nat -> length (temp_read_buffer u) = 16%nat ->
  uncacheable_next_ptr h + 32 * PS <= uncached_ram_end h ->
  exists u' h', init_ftl_module_unequal_pages g u h = Ok (u', h') /\
    bufs_ok g (rmp_buffer u') /\ bufs_ok g (temp_read_buffer u') /\
    (forall i j a b, rmp_buffer u' !! i = Some a -> temp_read_buffer u' !! j = Some b -> disjoint_blocks a b PS) /\
    program_pages u' = program_pages u /\ program_pages_count u' = program_pages_count u /\
    read_pages u' = read_pages u /\ read_pages_count u' = read_pages_count u.
Proof using Hg.
  intros Hok Hl1 Hl2 Hroom. destruct (uneq_sizes g Hg) as (HR & Hh & _ & HPSE & _). pose proof Hok as (O1 & O2).
  assert (HP : 0 < PS) by nia.
  destruct (alloc_pages_ok 16 0 (rmp_buffer u) h Hok) as (b1 & h1 & E1 & Hok1 & L1 & N1 & R1 & _ & B1); [lia|nia|].
  destruct (alloc_pages_ok 16 0 (temp_read_buffer u) h1 Hok1) as (b2 & h2 & E2 & Hok2 & L2 & N2 & R2 & _ & B2); [lia|nia|].
  rewrite N1 in B2.
  exists (set_temp_read_buffer b2 (set_rmp_buffer b1 u)), h2. unfold init_ftl_module_unequal_pages.
  change (Z.to_nat MDTS_PAGES) with 16%nat. change (Z.of_nat 0) with 0 in E1, E2. rewrite E1. cbn [obind]. rewrite E2.
  split; [done|]. cbn [set_temp_read_buffer set_rmp_buffer rmp_buffer temp_read_buffer]. split_and!; try done.
  - apply (bufs_run b1 (uncacheable_next_ptr h)); [lia| |lia|nia]. intros i Hi. rewrite B1 by lia. f_equal. lia.
  - apply (bufs_run b2 (uncacheable_next_ptr h + 16 * PS)); [lia| |nia|nia]. intros i Hi. rewrite B2 by lia. f_equal. lia.
  - intros i j a b Hi Hj. pose proof (lookup_lt_Some _ _ _ Hi). pose proof (lookup_lt_Some _ _ _ Hj).
    rewrite B1 in Hi by lia. rewrite B2 in Hj by lia. injection Hi as <-. injection Hj as <-. left. nia.
Qed.

End start_up.

(** ** Examples: two host pages to a flash page *)

Definition tiny2 : geom := Geom 2 1 1 1 2 2 10 9 0.

Lemma tiny2_ok : geom_ok tiny2.
Proof. vm_compute. repeat split; congruence. Qed.

Definition demo_uneq : uneq :=
  fst (from_ok (uneq0 tiny2, UcHeap 0 0 0)
    (init_ftl_module_unequal_pages tiny2 (uneq0 tiny2) (UcHeap 65536 1048576 65536))).

Lemma demo_uneq_ok :
  infos_wf tiny2 (program_pages_count demo_uneq) (program_pages demo_uneq) /\
  infos_wf tiny2 (read_pages_count demo_uneq) (read_pages demo_uneq) /\
  bufs_ok tiny2 (rmp_buffer demo_uneq) /\ bufs_ok tiny2 (temp_read_buffer demo_uneq).
Proof.
  assert (Hwf : infos_wf tiny2 0 (replicate 16 (page_info0 tiny2))).
  { split; [done|]. split; [|lia]. by apply Forall_replicate. }
  destruct (init_unequal_ok tiny2 tiny2_ok (uneq0 tiny2) (UcHeap 65536 1048576 65536)) as (u & h & E & H1 & H2 & _ & H3 & H4 & H5 & H6);
    [vm_compute; repeat split; congruence|done|done|vm_compute; congruence|].
  unfold demo_uneq. rewrite E. cbn [from_ok fst]. rewrite H3, H4, H5, H6.
  split; [exact Hwf|]. split; [exact Hwf|]. split; [exact H1|exact H2].
Qed.

Lemma demo_drive2_ok : exists f, new_media tiny2 100 ftl0 = Ok f /\
  disk_rel tiny2 1 (fun _ _ => 0) (demo_drive f) /\ count_inv tiny2 1 (start_search f).
Proof.
  apply new_medium_disk; [apply tiny2_ok|intros k a; exact (u8_fits 0)|exact I|intros a; apply u8_fits].
Qed.

(** Half of two flash pages. *)
Definition demo_wbc2 : wbc_req :=
  WbcReq WBC_FLUSH_REQUEST 1 0 2 false
    (WbcPage 5 4096 1 0 :: WbcPage 6 4608 1 0 :: replicate 14 (WbcPage 0 0 0 0)).

Lemma demo_apart bufs ws :
  (forall i b, bufs !! i = Some b -> 65536 <= b) -> (forall l p, In (l, p) ws -> p + 512 <= 65536) ->
  apart_from tiny2 bufs ws.
Proof.
  intros Hb Hw l p i b Hin Hi. left. pose proof (Hb _ _ Hi). pose proof (Hw _ _ Hin).
  change (HOST_PAGE_SIZE tiny2) with 512. lia.
Qed.

Lemma demo_buffers_high i b :
  rmp_buffer demo_uneq !! i = Some b \/ temp_read_buffer demo_uneq !! i = Some b -> 65536 <= b.
Proof.
  assert (Hx : Forall (fun b => 65536 <= b) (rmp_buffer demo_uneq ++ temp_read_buffer demo_uneq)).
  { apply List.Forall_forall. intros x Hx.
    assert (Hc : forallb (fun b => 65536 <=? b) (rmp_buffer demo_uneq ++ temp_read_buffer demo_uneq) = true) by (vm_compute; reflexivity).
    rewrite forallb_forall in Hc. by apply Z.leb_le, Hc. }
  apply Forall_app in Hx as (H1 & H2). rewrite Forall_lookup in H1, H2. intros [Hi|Hi]; [by eapply H1|by eapply H2].
Qed.

Lemma unequal_process_wbc_writes_witness :
  exists f w' u' s' dk', FtlUneq.process_wbc tiny2 1 700 demo_wbc2 demo_uneq (demo_drive f) = Ok (w', u', s') /\
    host_disk 2 512 dk' 5 7 = 7 /\ host_disk 2 512 dk' 9 7 = 0 /\ wb_nand_io_complete w' = true.
Proof.
  destruct demo_drive2_ok as (f & _ & Hr & Hc). destruct demo_uneq_ok as (Hwf & _ & Hb & _).
  destruct (kernel0_queue_ok FTL_MODULE_OUT_Q) as (Hq & Hqc); [unfold FTL_MODULE_OUT_Q; lia|].
  destruct (unequal_process_wbc_writes tiny2 tiny2_ok 0 True False 1 _ 700 demo_wbc2 demo_uneq (demo_drive f) Hr Hwf Hb)
    as (w' & u' & s' & dk' & E & _ & _ & [Fn Fk _] & _ & _ & Hw & _).
  - reflexivity.
  - vm_compute. congruence.
  - repeat (apply Forall_cons_2; [vm_compute; repeat split; congruence|]). apply Forall_nil_2.
  - apply (bool_decide_unpack _). vm_compute. exact I.
  - apply demo_apart.
    + intros i b Hi. eapply demo_buffers_high. by left.
    + intros l p [[= <- <-]|[[= <- <-]|[]]]; lia.
  - vm_compute. congruence.
  - exact init_pools_read.
  - exact init_pools_program.
  - exact Hq.
  - cbn [demo_drive d_kernel]. rewrite Hqc. simpl. lia.
  - exists f, w', u', s', dk'. split; [exact E|]. split; [|split; [|exact Hw]].
    + refine (eq_trans (Fn 5 4096 7 _ _) _); [by left|vm_compute; split; congruence|vm_compute; reflexivity].
    + refine (eq_trans (Fk 9 7 _ _ _ _) _); [vm_compute; split; congruence..| | |reflexivity].
      * intros [E1|[E1|[]]]; discriminate E1.
      * right. intros [E1|[E1|[]]]; vm_compute in E1; discriminate E1.
Defined.

(** A host read of pages 5 and 6, each with its own place. *)
Definition demo_ops2 : list dma_op_t := [DmaOp 4096 512 0 false; DmaOp 4608 512 0 false].
Definition demo_read_req2 : io_req :=
  set_queue_info 1 1 0 (set_field NvmeIOSCmd 9 1 (set_field NvmeIOSCmd 8 5 0)) 0 0
    (set_type_index READ_IO_REQUEST 1 (set_req_dma (set_dma_list (demo_ops2 ++ replicate 14 dma_op0) dma0) io_req0)).

Lemma demo_place i p : map do_ssd_addr demo_ops2 !! i = Some p -> (i < 2)%nat /\ p = 4096 + Z.of_nat i * 512.
Proof.
  destruct i as [|[|i]]; intros [= <-]; split; lia.
Qed.

(** Memory with a page of zeros at 32768. *)
Definition demo_mem2 : mem := fun a => if (32768 <=? a) && (a <? 33280) then 0 else u8 a.
Definition demo_drive3 (f : ftl) : drive vnand :=
  Drive (start_search f) init_pools (VNand (fun _ _ => 0)) demo_mem2 kernel0.

Lemma unequal_read_io_reads_witness :
  exists f req' u' s' op, FtlUneq.ftl_process_read_io tiny2 32768 900 demo_read_req2 demo_uneq (demo_drive3 f) = Ok (req', u', s') /\
    arr_get (dma_list (rq_dma req')) 1 = Ok op /\ d_mem s' (do_ssd_addr op + 5) = 0 /\
    arr_get (rq_meta_lpn req') 1 = Ok 6.
Proof.
  destruct (new_medium_disk tiny2 tiny2_ok 100 init_pools (VNand (fun _ _ => 0)) demo_mem2 kernel0) as (f & _ & Hr & _);
    [intros k a; exact (u8_fits 0)|exact I|intros a; unfold demo_mem2; case_if; [exact (u8_fits 0)|apply u8_fits]|].
  destruct demo_uneq_ok as (_ & Hwf & _ & Hb).
  assert (Hhigh : forall i b, temp_read_buffer demo_uneq !! i = Some b -> 65536 <= b) by (intros i b Hi; eapply demo_buffers_high; by right).
  destruct (kernel0_queue_ok FTL_MODULE_OUT_Q) as (Hq & Hqc); [unfold FTL_MODULE_OUT_Q; lia|].
  destruct (unequal_read_io_reads tiny2 tiny2_ok 32768 True 1 _ 900 demo_read_req2 demo_uneq (demo_drive3 f) demo_ops2 (replicate 14 dma_op0) Hr Hwf Hb)
    as (req' & u' & s' & E & Hd & Hm & _).
  - reflexivity.
  - vm_compute. reflexivity.
  - vm_compute. congruence.
  - reflexivity.
  - vm_compute. congruence.
  - vm_compute. congruence.
  - split.
    + repeat (apply Forall_cons_2; [vm_compute; congruence|]). apply Forall_nil_2.
    + intros i j p q Hi Hj Hne. change (HOST_PAGE_SIZE tiny2) with 512. unfold disjoint_blocks.
      destruct (demo_place _ _ Hi) as (Hi1 & ->), (demo_place _ _ Hj) as (Hj1 & ->). lia.
    + intros i j p b Hi Hj. pose proof (Hhigh _ _ Hj). change (HOST_PAGE_SIZE tiny2) with 512.
      destruct (demo_place _ _ Hi) as (Hi1 & ->). lia.
  - intros off Hoff. change (HOST_PAGE_SIZE tiny2) with 512 in Hoff. cbn [demo_drive3 d_mem]. unfold demo_mem2. by zb.
  - intros p [<-|[<-|[]]]; right; vm_compute; congruence.
  - intros i b Hi. left. pose proof (Hhigh _ _ Hi). change (HOST_PAGE_SIZE tiny2) with 512. lia.
  - exact init_pools_read.
  - exact Hq.
  - cbn [demo_drive3 d_kernel]. rewrite Hqc. simpl. lia.
  - destruct (Hd 1) as (op0 & op & _ & Eop & _ & Hget); [vm_compute; split; congruence|].
    exists f, req', u', s', op. split; [exact E|]. split; [exact Eop|]. split.
    + refine (eq_trans (Hget 5 _) _); [vm_compute; split; congruence|reflexivity].
    + exact (Hm 1 ltac:(vm_compute; split; congruence)).
Defined.
