(* ===== verification/Persist.v ===== *)
(** The mapping tables on flash: [initialize_ftl], [store_mapping_tables],
    [restore_mapping_tables] and [shutdown_ftl_module] of
    firmware/ftl_page_mapping/ftl.c.

    The tables are C arrays in a section of their own, which the linker bounds by
    [_mapping_table_start_] and [_mapping_table_end_]; the code copies the bytes of
    that section and of the global [ftl_config] to flash and back.  The model keeps
    the tables as functions and turns them into bytes, one [cell] after the other,
    where the code looks at them as bytes.  The order in which the linker lays
    out the cells is a parameter. *)

From Stdlib Require Import ZArith Lia Bool List.
From stdpp Require Import base tactics option list functions.
From S2P Require Import Prelude CTypes MemUtil Kernel Geom NandIo Ftl Requests FtlIo.

(** ** The bytes of the globals *)

(** One number of a table or of the configuration. *)
Inductive cell :=
| CLpa (lpn : Z) | CPpa (k : page_key)
| CInvalid (b : blk_key) | CValid (b : blk_key) | CErase (b : blk_key)
| CLastPage (k : plane_key)
| CWord (i : nat) | CSelected | CTable (i : nat).

#[export] Instance cell_eq_dec : EqDecision cell.
Proof. solve_decision. Defined.

(** Its size in bytes. *)
Definition cell_width (c : cell) : nat :=
  match c with
  | CLpa _ | CLastPage _ | CSelected | CTable _ => 8
  | CPpa _ | CErase _ | CWord _ => 4
  | CInvalid _ | CValid _ => 2
  end.

(** The words of [ftl_config_t] before [last_selected_ppa]. *)
Definition config_words (c : ftl_config_t) : list Z :=
  [fc_nand_ds c; fc_host_ds c; fc_pages_per_block c; fc_total_pages c; rpp_ovp c; rpp_map_tables c;
   total_rpp c; total_logical_pages c; total_invalid_pages c; total_valid_pages c; total_free_pages c].

Definition set_words (w : list Z) (c : ftl_config_t) : ftl_config_t :=
  let word i := nth i w 0 in
  FtlConfig (word 0%nat) (word 1%nat) (word 2%nat) (word 3%nat) (word 4%nat) (word 5%nat) (word 6%nat)
    (word 7%nat) (word 8%nat) (word 9%nat) (word 10%nat) (last_selected_ppa c) (mapping_tables c).

Definition cell_get (c : cell) (f : ftl) : Z :=
  match c with
  | CLpa l => ppa_data (lpa_table f l)
  | CPpa k => ppa_table f k
  | CInvalid b => invalid_pgs (blk_table f b)
  | CValid b => valid_pgs (blk_table f b)
  | CErase b => erase_count (blk_table f b)
  | CLastPage k => ppa_data (last_page_per_plane f k)
  | CWord i => nth i (config_words (ftl_config f)) 0
  | CSelected => ppa_data (last_selected_ppa (ftl_config f))
  | CTable i => ppa_data (nth i (mapping_tables (ftl_config f)) (Ppa 0 0 0 0 0 0))
  end.

Definition set_blk_entry (b : blk_key) (v : block_meta) (f : ftl) : ftl := set_blk (<[b := v]> (blk_table f)) f.

Definition cell_put (c : cell) (v : Z) (f : ftl) : ftl :=
  match c with
  | CLpa l => set_lpa (<[l := ppa_path v]> (lpa_table f)) f
  | CPpa k => set_ppa_table (<[k := v]> (ppa_table f)) f
  | CInvalid b => let e := blk_table f b in set_blk_entry b (BlockMeta v (valid_pgs e) (erase_count e)) f
  | CValid b => let e := blk_table f b in set_blk_entry b (BlockMeta (invalid_pgs e) v (erase_count e)) f
  | CErase b => let e := blk_table f b in set_blk_entry b (BlockMeta (invalid_pgs e) (valid_pgs e) v) f
  | CLastPage k => set_lpp (<[k := ppa_path v]> (last_page_per_plane f)) f
  | CWord i => set_config (set_words (<[i := v]> (config_words (ftl_config f))) (ftl_config f)) f
  | CSelected => set_config (set_last_selected (ppa_path v) (ftl_config f)) f
  | CTable i => set_config (set_mapping_tables (<[i := ppa_path v]> (mapping_tables (ftl_config f))) (ftl_config f)) f
  end.

(** [ftl_config_t]: [ppa_t] is packed, so that no field is padded. *)
Definition config_cells : list cell := map CWord (seq 0 11) ++ CSelected :: map CTable (seq 0 1224).

Definition cells_bytes (l : list cell) : Z := foldr (fun c n => Z.of_nat (cell_width c) + n) 0 l.

Definition sizeof_ftl_config : Z := cells_bytes config_cells.

(** The cells of a global at address [a], into memory and out of it. *)
Fixpoint spill (l : list cell) (a : Z) (f : ftl) (m : mem) : mem :=
  match l with
  | [] => m
  | c :: r => spill r (a + Z.of_nat (cell_width c)) f (store_le (cell_width c) a (cell_get c f) m)
  end.

Fixpoint fill (l : list cell) (a : Z) (m : mem) (f : ftl) : ftl :=
  match l with
  | [] => f
  | c :: r => fill r (a + Z.of_nat (cell_width c)) m (cell_put c (load_le (cell_width c) a m) f)
  end.

(** ** Storing and loading *)

Section persist.
Context {D : Type} `{NandFlash D} (g : geom) (fuel : nat).  (** of the search for a free page *)

(** The buffers the module allocates, the address of [ftl_config], the bounds of
    the section of the tables and the cells the linker puts there. *)
Context (private_pg_buff load_mp_buffer ftl_config_addr table_start table_end : Z) (table_cells : list cell).

Abbreviation PS := (NAND_PAGE_SIZE g) (only parsing).
Definition load_mp_buffer_size : Z := Z.shiftl 1 16.
Definition load_mp_buffer_pages : Z := Z.shiftl 1 16 / PS.
Definition ZERO_BUFFER : Z := private_pg_buff.

(** The globals as the memory shows them. *)
Definition globals_to_mem (s : drive D) : drive D :=
  set_d_mem (spill table_cells table_start (d_ftl s) (spill config_cells ftl_config_addr (d_ftl s) (d_mem s))) s.

(** What the memory says about the configuration, and about the tables. *)
Definition config_from_mem (s : drive D) : drive D := set_d_ftl (fill config_cells ftl_config_addr (d_mem s) (d_ftl s)) s.
Definition tables_from_mem (s : drive D) : drive D := set_d_ftl (fill table_cells table_start (d_mem s) (d_ftl s)) s.

Definition first_page : ppa := Ppa 0 0 0 0 0 0.

(** The pages that will hold the tables are taken out of the free pages. *)
Fixpoint reserve_table_pages (n : nat) (i : Z) (f : ftl) : outcome ftl :=
  match n with
  | O => Ok f
  | S n' =>
      let! '(free_page, f) := get_free_ppa g fuel f in
      let! tables := arr_set (mapping_tables (ftl_config f)) i free_page in
      let f := set_config (set_mapping_tables tables (ftl_config f)) f in
      let! f := SET_INVALID_PPA g free_page f in
      let! f := INC_INVALID_PAGES g free_page f in
      let! f := DEC_VALID_PAGES g free_page f in
      reserve_table_pages n' (i + 1) f
  end.

(** One page of tables after the other through the buffer, a batch for each. *)
Fixpoint store_loop (n : nat) (bytes_remaining current_addr current_pg_index : Z) (s : drive D) : outcome (drive D) :=
  if 0 <? bytes_remaining then
    match n with
    | O => Fault FFuel
    | S n' =>
        let '(m, current_data_len) :=
          if bytes_remaining <? PS
          then (memset8 (private_pg_buff + bytes_remaining) 0 (PS - bytes_remaining) (d_mem s), bytes_remaining)
          else (d_mem s, PS) in
        let s := set_d_mem (memcpy8 private_pg_buff current_addr current_data_len m) s in
        let! '(pop, s) := d_begin_program s in
        let! p := arr_get (mapping_tables (ftl_config (d_ftl s))) current_pg_index in
        let! s := d_add_page pop p private_pg_buff s in
        let! s := d_end_program g pop s in
        store_loop n' (bytes_remaining - current_data_len) (current_addr + current_data_len) (current_pg_index + 1) s
    end
  else Ok s.

Definition table_bytes : Z := u32 (table_end - table_start).
Definition table_fuel : nat := Z.to_nat (table_bytes / PS + 1).

Definition store_mapping_tables (s : drive D) : outcome (drive D) :=
  let! f := reserve_table_pages (Z.to_nat (rpp_map_tables (ftl_config (d_ftl s)))) 0 (d_ftl s) in
  let s := globals_to_mem (set_d_ftl f s) in
  let! s := store_loop table_fuel table_bytes table_start 0 s in
  let s := set_d_mem (memcpy8 private_pg_buff ftl_config_addr sizeof_ftl_config (d_mem s)) s in
  let! '(pop_2, s) := d_begin_program s in
  let! s := d_add_page pop_2 first_page private_pg_buff s in
  let! s := d_add_page pop_2 (inc_page first_page) (private_pg_buff + PS) s in
  let! s := d_add_page pop_2 (inc_page (inc_page first_page)) (private_pg_buff + PS + PS) s in
  d_end_program g pop_2 s.

(** The pages of one load batch. *)
Fixpoint load_pages (n : nat) (i current_pg_index : Z) (rop : op_ptr) (s : drive D) : outcome (drive D) :=
  match n with
  | O => Ok s
  | S n' =>
      let! p := arr_get (mapping_tables (ftl_config (d_ftl s))) current_pg_index in
      let! s := d_add_page rop p (load_mp_buffer + i * PS) s in
      load_pages n' (i + 1) (current_pg_index + 1) rop s
  end.

Fixpoint restore_loop (n : nat) (bytes_remaining current_addr current_pg_index : Z) (s : drive D) : outcome (drive D) :=
  if 0 <? bytes_remaining then
    match n with
    | O => Fault FFuel
    | S n' =>
        let '(current_data_len, current_page_count) :=
          if bytes_remaining <? load_mp_buffer_size then
            let count := bytes_remaining / PS in
            (bytes_remaining, if count * PS <? bytes_remaining then count + 1 else count)
          else (load_mp_buffer_size, load_mp_buffer_pages) in
        let! '(rop, s) := d_begin_read s in
        let! s := load_pages (Z.to_nat current_page_count) 0 current_pg_index rop s in
        let! s := d_end_read g rop s in
        let s := set_d_mem (memcpy8 current_addr load_mp_buffer current_data_len (d_mem s)) s in
        restore_loop n' (bytes_remaining - current_data_len) (current_addr + current_data_len)
          (current_pg_index + current_page_count) s
    end
  else Ok s.

Definition restore_mapping_tables (s : drive D) : outcome (drive D) :=
  let! '(rop_2, s) := d_begin_read s in
  let! s := d_add_page rop_2 first_page load_mp_buffer s in
  let! s := d_add_page rop_2 (inc_page first_page) (load_mp_buffer + PS) s in
  let! s := d_add_page rop_2 (inc_page (inc_page first_page)) (load_mp_buffer + PS + PS) s in
  let! s := d_end_read g rop_2 s in
  let s := config_from_mem (set_d_mem (memcpy8 ftl_config_addr load_mp_buffer sizeof_ftl_config (d_mem s)) s) in
  let! s := restore_loop table_fuel table_bytes table_start 0 s in
  Ok (tables_from_mem s).

(** The configuration as the first flash page has it; the buffer is cleared. *)
Definition read_config (s : drive D) : outcome (drive D) :=
  let! '(rop, s) := d_begin_read s in
  let! s := d_add_page rop first_page ZERO_BUFFER s in
  let! s := d_end_read g rop s in
  let s := config_from_mem (set_d_mem (memcpy8 ftl_config_addr ZERO_BUFFER sizeof_ftl_config (d_mem s)) s) in
  Ok (set_d_mem (memset32 ZERO_BUFFER 0 (PS / 4) (d_mem s)) s).

(** It decides whether the medium is new; the result is the number of logical
    pages and the page size that go to [ssd_config]. *)
Definition initialize_ftl (s : drive D) : outcome (Z * Z * drive D) :=
  let! s := read_config s in
  let! s :=
    if fc_nand_ds (ftl_config (d_ftl s)) <? 9 then
      let! f := new_media g (table_end - table_start) (d_ftl s) in Ok (set_d_ftl f s)
    else restore_mapping_tables s in
  let c := ftl_config (d_ftl s) in
  Ok (total_logical_pages c, fc_host_ds c, set_d_ftl (start_search (d_ftl s)) s).

Definition shutdown_ftl_module (s : drive D) : outcome (Z * drive D) :=
  let! s := store_mapping_tables s in Ok (0, s).

End persist.
