(* ===== verification/PowerCycle.v ===== *)
(** The start and the shutdown of the FTL: the bytes of the globals and what is read
    back from them, the pages that hold the tables, and the theorems that a start
    on an image of a drive restores it, that a start without one makes an empty
    drive, and that the shutdown does not get to write an image. *)

From Stdlib Require Import ZArith Lia Bool List.
From stdpp Require Import base tactics option list functions.
From S2P Require Import Prelude CTypes Queue MemUtil Kernel Boot Geom NandIo Ftl FtlInv Requests FtlIo FtlDisk UneqDisk Persist.

(** ** Widths *)

Definition block_fits (b : block_meta) : Prop :=
  fits 16 (invalid_pgs b) /\ fits 16 (valid_pgs b) /\ fits 32 (erase_count b).

Definition config_fits (c : ftl_config_t) : Prop :=
  Forall (fits 32) (config_words c) /\ ppa_fits (last_selected_ppa c) /\ Forall ppa_fits (mapping_tables c).

(** Every number of the tables has the width its C type gives it. *)
Record tables_fit (f : ftl) : Prop := TablesFit {
  tf_lpa : forall l, ppa_fits (lpa_table f l);
  tf_ppa : forall k, fits 32 (ppa_table f k);
  tf_blk : forall b, block_fits (blk_table f b);
  tf_last : forall k, ppa_fits (last_page_per_plane f k);
  tf_searched : ppa_fits (last_searched_channel f);
  tf_config : config_fits (ftl_config f) }.

Lemma ppa_data_fits p : ppa_fits p -> fits 64 (ppa_data p).
Proof.
  intros (H1 & H2 & H3 & H4 & H5 & H6). unfold fits in *.
  unfold ppa_data, ppa_layout. cbn [zip zip_with pack fst snd]. lia.
Qed.

Lemma ppa0_fits : ppa_fits (Ppa 0 0 0 0 0 0).
Proof. unfold ppa_fits, fits. cbn. lia. Qed.

Lemma inc_page_fits p : ppa_fits p -> ppa_fits (inc_page p).
Proof. intros (H1 & H2 & H3 & H4 & H5 & H6). unfold inc_page, ppa_fits. cbn. split_and!; try done. apply u16_fits. Qed.

Lemma fn_fits {K A} `{EqDecision K} (P : A -> Prop) (t : K -> A) k v :
  (forall j, P (t j)) -> P v -> forall j, P ((<[k := v]> t) j).
Proof. intros Ht Hv j. destruct (decide (k = j)) as [<-|Hne]; [by rewrite fn_lookup_insert|by rewrite fn_lookup_insert_ne]. Qed.

(** A list of known elements, one fact for each. *)
Ltac split_forall :=
  repeat match goal with H : Forall _ (_ :: _) |- _ => apply Forall_cons_1 in H as [? H] end.

(** ** The operations of the FTL keep the widths *)

Section widths.
Context (g : geom).

Lemma set_ppa_fits v p f f' : fits 32 v -> tables_fit f -> SET_MAPPED_LPA g v p f = Ok f' -> tables_fit f'.
Proof.
  intros Hv [T1 T2 T3 T4 T5 T6]. unfold SET_MAPPED_LPA. case_if; [|done]. intros [= <-].
  split; try done. by apply fn_fits.
Qed.

Lemma upd_blk_fits h p f f' : (forall b, block_fits b -> block_fits (h b)) ->
  tables_fit f -> upd_blk g h p f = Ok f' -> tables_fit f'.
Proof.
  intros Hh [T1 T2 T3 T4 T5 T6]. unfold upd_blk. case_if; [|done]. intros [= <-].
  split; try done. apply fn_fits; [done|]. apply Hh, T3.
Qed.

Lemma add_valid_fits n b : block_fits b -> block_fits (add_valid n b).
Proof. intros (H1 & H2 & H3). split_and!; try done. apply u16_fits. Qed.

Lemma add_invalid_fits n b : block_fits b -> block_fits (add_invalid n b).
Proof. intros (H1 & H2 & H3). split_and!; try done. apply u16_fits. Qed.

Lemma set_totals_fits a b c f : fits 32 a -> fits 32 b -> fits 32 c ->
  tables_fit f -> tables_fit (set_config (set_totals a b c (ftl_config f)) f).
Proof.
  intros Ha Hb Hc [T1 T2 T3 T4 T5 (T6 & T7 & T8)]. split; try done. split; [|done].
  cbn [set_config set_totals ftl_config config_words fc_nand_ds fc_host_ds fc_pages_per_block fc_total_pages rpp_ovp
    rpp_map_tables total_rpp total_logical_pages total_invalid_pages total_valid_pages total_free_pages] in *.
  unfold config_words in T6. split_forall. repeat (apply Forall_cons_2; [done|]). apply Forall_nil_2.
Qed.

Lemma scan_pages_fits n q f r q' : ppa_fits q -> scan_pages g n q f = Ok (r, q') -> ppa_fits q'.
Proof.
  revert q. induction n as [|n IH]; intros q Hq; cbn [scan_pages].
  - case_if; [done|]. by intros [= <- <-].
  - case_if; [|by intros [= <- <-]]. destruct (IS_FREE_PPA g q f) as [fr|]; cbn [obind]; [|done].
    destruct fr; [by intros [= <- <-]|]. apply IH, inc_page_fits, Hq.
Qed.

Lemma next_block_fits q : ppa_fits q -> ppa_fits (next_block g q).
Proof.
  intros (H1 & H2 & H3 & H4 & H5 & H6). unfold next_block, ppa_fits. cbn. split_and!; try done.
  case_if; [done|apply u16_fits].
Qed.

Lemma scan_blocks_fits n q f r q' : ppa_fits q -> scan_blocks g n q f = Ok (r, q') -> ppa_fits q'.
Proof.
  revert q. induction n as [|n IH]; intros q Hq; cbn [scan_blocks]; [by intros [= <- <-]|].
  destruct (scan_pages g _ q f) as [[fr q1]|] eqn:E; cbn [obind]; [|done]. apply scan_pages_fits in E; [|done].
  destruct fr; [by intros [= <- <-]|]. by apply IH, next_block_fits.
Qed.

Lemma set_selected_fits q f : ppa_fits q -> tables_fit f -> tables_fit (set_config (set_last_selected q (ftl_config f)) f).
Proof. intros Hq [T1 T2 T3 T4 T5 (T6 & T7 & T8)]. split; try done. Qed.

Lemma find_free_page_fits f r f' : tables_fit f -> find_free_page g f = Ok (r, f') ->
  tables_fit f' /\ match r with Some p => ppa_fits p | None => True end.
Proof.
  intros Hf. unfold find_free_page. destruct (next_plane_of g _) as [[c d] l]. case_if; [|done].
  destruct (scan_blocks _ _ _ f) as [[fr q]|] eqn:Es; cbn [obind]; [|done].
  apply scan_blocks_fits in Es; [|apply Hf]. destruct fr; intros [= <- <-].
  - split; [|done]. pose proof (set_selected_fits _ _ (inc_page_fits _ Es) Hf) as [T1 T2 T3 T4 T5 T6].
    split; try done; [|by apply inc_page_fits]. apply fn_fits; [done|by apply inc_page_fits].
  - split; [|done]. destruct Hf as [T1 T2 T3 T4 T5 T6]. by split.
Qed.

Lemma get_free_ppa_fits n f p f' : tables_fit f -> get_free_ppa g n f = Ok (p, f') -> tables_fit f' /\ ppa_fits p.
Proof.
  revert f. induction n as [|n IH]; intros f Hf; cbn [get_free_ppa]; [done|].
  destruct (find_free_page g f) as [[r f1]|] eqn:E; cbn [obind]; [|done].
  destruct (find_free_page_fits _ _ _ Hf E) as (Hf1 & Hr). destruct r; [by intros [= <- <-]|by apply IH].
Qed.

Lemma map_lpa_and_ppa_fits l p f f' : fits 32 l -> ppa_fits p -> tables_fit f ->
  MAP_LPA_AND_PPA g l p f = Ok f' -> tables_fit f'.
Proof.
  intros Hl Hp [T1 T2 T3 T4 T5 T6]. unfold MAP_LPA_AND_PPA, SET_MAPPED_PPA. case_if; [|done]. cbn [obind].
  apply set_ppa_fits; [done|]. split; try done. by apply fn_fits.
Qed.

Lemma make_new_mapping_widths fuel lpn f p f' :
  fits 32 lpn -> tables_fit f -> make_new_mapping g fuel lpn f = Ok (p, f') -> tables_fit f' /\ ppa_fits p.
Proof.
  intros Hl Hf. unfold make_new_mapping.
  destruct (get_free_ppa g fuel f) as [[q f1]|] eqn:E1; cbn [obind]; [|done].
  destruct (get_free_ppa_fits _ _ _ _ Hf E1) as (Hf1 & Hq).
  destruct (IS_UNMAPPED_LPA g lpn f1) as [un|]; cbn [obind]; [|done]. destruct un.
  - destruct (MAP_LPA_AND_PPA g lpn q f1) as [f2|] eqn:E2; cbn [obind]; [|done].
    pose proof (map_lpa_and_ppa_fits _ _ _ _ Hl Hq Hf1 E2) as Hf2.
    destruct (INC_VALID_PAGES g q f2) as [f3|] eqn:E3; cbn [obind]; [|done].
    pose proof (upd_blk_fits _ _ _ _ (add_valid_fits 1) Hf2 E3) as Hf3. intros [= <- <-]. split; [|done].
    apply set_totals_fits; [|apply u32_fits..|done]. destruct (tf_config _ Hf3) as (W & _).
    rewrite List.Forall_forall in W. apply W. cbn. tauto.
  - destruct (GET_MAPPED_PPA g lpn f1) as [cur|]; cbn [obind]; [|done].
    destruct (SET_INVALID_PPA g cur f1) as [f2|] eqn:E2; cbn [obind]; [|done].
    pose proof (set_ppa_fits INVALID_PPA _ _ _ ltac:(unfold fits, INVALID_PPA; lia) Hf1 E2) as Hf2.
    destruct (INC_INVALID_PAGES g cur f2) as [f3|] eqn:E3; cbn [obind]; [|done].
    pose proof (upd_blk_fits _ _ _ _ (add_invalid_fits 1) Hf2 E3) as Hf3.
    destruct (DEC_VALID_PAGES g cur f3) as [f4|] eqn:E4; cbn [obind]; [|done].
    pose proof (upd_blk_fits _ _ _ _ (add_valid_fits (-1)) Hf3 E4) as Hf4.
    destruct (MAP_LPA_AND_PPA g lpn q f4) as [f5|] eqn:E5; cbn [obind]; [|done].
    pose proof (map_lpa_and_ppa_fits _ _ _ _ Hl Hq Hf4 E5) as Hf5.
    destruct (INC_VALID_PAGES g q f5) as [f6|] eqn:E6; cbn [obind]; [|done].
    pose proof (upd_blk_fits _ _ _ _ (add_valid_fits 1) Hf5 E6) as Hf6. intros [= <- <-]. split; [|done].
    apply set_totals_fits; [apply u32_fits| |apply u32_fits|done]. destruct (tf_config _ Hf6) as (W & _).
    rewrite List.Forall_forall in W. apply W. cbn. tauto.
Qed.

(** The start of a new medium, too. *)
Lemma fold_fits {A B} (P : B -> Prop) (h : B -> A -> B) (l : list A) b :
  (forall b a, In a l -> P b -> P (h b a)) -> P b -> P (fold_left h l b).
Proof using.
  revert b. induction l as [|a l IH]; intros b Hh Hb; [done|]. cbn [fold_left]. apply IH.
  - intros b' a' Ha'. apply Hh. by right.
  - apply Hh; [by left|done].
Qed.

Lemma reset_planes_fits t : geom_ok g -> (forall k, ppa_fits (t k)) -> forall k, ppa_fits (reset_planes g t k).
Proof using.
  intros (Hc & Hd & Hl & _) Ht. unfold reset_planes.
  apply (fold_fits (fun t : plane_key -> ppa => forall k, ppa_fits (t k))); [|done]. intros t1 c Hci%elem_zseq Ht1.
  apply (fold_fits (fun t : plane_key -> ppa => forall k, ppa_fits (t k))); [|done]. intros t2 d Hdi%elem_zseq Ht2.
  apply (fold_fits (fun t : plane_key -> ppa => forall k, ppa_fits (t k))); [|done]. intros t3 l Hli%elem_zseq Ht3.
  unfold reset_plane. apply fn_fits; [done|]. destruct (Ht3 (c, d, l)) as (_ & _ & _ & _ & _ & Hr).
  unfold NUM_CHANNELS, PLANES_PER_DIE in *. unfold ppa_fits, fits. cbn. split_and!; try lia; apply Hr.
Qed.

Lemma new_media_fits len f f' : geom_ok g -> tables_fit f -> new_media g len f = Ok f' -> tables_fit (start_search f').
Proof using.
  intros Hg [T1 T2 T3 T4 T5 (T6 & T7 & T8)]. unfold new_media.
  match goal with |- context [SET_RESERVED_PPA g _ ?s] => set (f1 := s) end.
  assert (Hf1 : tables_fit f1).
  { split; try done; [by apply reset_planes_fits|]. split; [|done]. pose proof (dims g Hg) as Hdims. destruct Hg as (_ & _ & _ & _ & Hp & Hn & Hh & Ht).
    unfold config_words in T6 |- *. split_forall.
    repeat (apply Forall_cons_2; [try apply u32_fits; try done|]); try apply Forall_nil_2.
    all: unfold f1; cbn; unfold NAND_DS, HOST_DS, PAGES_PER_BLOCK, fits; try lia. }
  clearbody f1. destruct (SET_RESERVED_PPA g _ f1) as [f2|] eqn:E2; cbn [obind]; [|done].
  pose proof (set_ppa_fits RESERVED_PPA _ _ _ ltac:(unfold fits, RESERVED_PPA; lia) Hf1 E2) as Hf2.
  destruct (INC_VALID_PAGES g _ f2) as [f3|] eqn:E3; cbn [obind]; [|done].
  pose proof (upd_blk_fits _ _ _ _ (add_valid_fits 1) Hf2 E3) as Hf3.
  case_if; [|done]. intros [= <-].
  assert (Hq : ppa_fits (inc_page (Ppa 0 0 0 0 0 0))) by apply inc_page_fits, ppa0_fits.
  assert (Hf4 : tables_fit (set_config (set_totals 0 1 (u32 (TOTAL_NUM_OF_PAGES g - 1)) (ftl_config f3)) f3))
    by (apply set_totals_fits; try apply u32_fits; try done; unfold fits; lia).
  pose proof (set_selected_fits _ _ Hq Hf4) as [U1 U2 U3 U4 U5 U6]. split; try done.
  by apply fn_fits.
Qed.

End widths.

Lemma ftl0_fits : tables_fit ftl0.
Proof.
  split.
  - intros l. apply ppa_path_fits.
  - intros k. unfold fits. cbn. unfold FREE_PPA. lia.
  - intros b. unfold block_fits, fits. cbn. lia.
  - intros k. apply ppa0_fits.
  - apply ppa0_fits.
  - split; [|split; [apply ppa0_fits|apply Forall_replicate, ppa0_fits]].
    apply List.Forall_forall. intros x Hx. cbn in Hx. unfold fits. lia.
Qed.

(** ** Cells *)

Definition is_table (c : cell) : bool :=
  match c with CWord _ | CSelected | CTable _ => false | _ => true end.

(** The cells of the configuration that exist. *)
Definition cell_in (c : cell) (f : ftl) : Prop :=
  match c with
  | CWord i => (i < 11)%nat
  | CTable i => (i < length (mapping_tables (ftl_config f)))%nat
  | _ => True
  end.

Definition cell_value (c : cell) (v : Z) : Prop := 0 <= v < 2 ^ (8 * Z.of_nat (cell_width c)).

Lemma nth_fits w i : Forall (fits 32) w -> fits 32 (nth i w 0).
Proof.
  intros Hw. destruct (nth_in_or_default i w 0) as [Hin| ->]; [|unfold fits; lia].
  rewrite List.Forall_forall in Hw. by apply Hw.
Qed.

Lemma nth_ppa_fits l i : Forall ppa_fits l -> ppa_fits (nth i l (Ppa 0 0 0 0 0 0)).
Proof.
  intros Hl. destruct (nth_in_or_default i l (Ppa 0 0 0 0 0 0)) as [Hin| ->]; [|apply ppa0_fits].
  rewrite List.Forall_forall in Hl. by apply Hl.
Qed.

Lemma cell_get_value c f : tables_fit f -> cell_value c (cell_get c f).
Proof.
  intros [T1 T2 T3 T4 T5 (T6 & T7 & T8)]. unfold cell_value.
  destruct c; cbn [cell_get cell_width]; try (apply ppa_data_fits; auto; by apply nth_ppa_fits); try (by apply T2).
  all: try (destruct (T3 b) as (H1 & H2 & H3); unfold fits in *; cbn in *; lia).
  by apply nth_fits.
Qed.

Lemma config_words_set w c : length w = 11%nat -> config_words (set_words w c) = w.
Proof. intros Hw. do 11 (destruct w as [|? w]; [done|]). by destruct w. Qed.

Lemma set_words_same c : set_words (config_words c) c = c.
Proof. by destruct c. Qed.

Lemma nth_insert {A} (d : A) l i j v : (i < length l)%nat -> nth j (<[i := v]> l) d = if decide (i = j) then v else nth j l d.
Proof.
  intros Hi. rewrite !nth_lookup. destruct (decide (i = j)) as [<-|Hne].
  - by rewrite list_lookup_insert_eq.
  - by rewrite list_lookup_insert_ne.
Qed.

(** Writing a cell, and reading it or another one. *)
Lemma cell_get_put c v f : cell_in c f -> cell_value c v -> cell_get c (cell_put c v f) = v.
Proof.
  unfold cell_value. destruct c; cbn [cell_in cell_get cell_put cell_width set_lpa set_ppa_table set_blk_entry set_blk set_lpp set_config
    lpa_table ppa_table blk_table last_page_per_plane ftl_config set_last_selected last_selected_ppa set_mapping_tables mapping_tables];
    intros Hi Hv; rewrite ?fn_lookup_insert; try done; try (by apply ppa_data_path).
  - rewrite config_words_set by (by rewrite length_insert). rewrite nth_insert by (cbn; lia). by rewrite decide_True.
  - rewrite nth_insert by done. rewrite decide_True by done. by apply ppa_data_path.
Qed.

Lemma cell_get_put_ne c c' v f : c <> c' -> cell_in c f -> cell_get c' (cell_put c v f) = cell_get c' f.
Proof.
  intros Hne Hi. destruct c, c'; try done; cbn [cell_in cell_get cell_put set_lpa set_ppa_table set_blk_entry set_blk set_lpp set_config
    lpa_table ppa_table blk_table last_page_per_plane ftl_config set_last_selected last_selected_ppa set_mapping_tables mapping_tables] in *;
    try (by rewrite fn_lookup_insert_ne by congruence);
    try (unfold set_blk_entry; cbn; destruct (decide (b = b0)) as [<-|?]; [by rewrite fn_lookup_insert|by rewrite fn_lookup_insert_ne]).
  - rewrite config_words_set by (by rewrite length_insert). rewrite nth_insert by (cbn; lia). rewrite decide_False by congruence. done.
  - rewrite nth_insert by done. by rewrite decide_False by congruence.
Qed.

Lemma cell_in_put c c' v f : cell_in c' (cell_put c v f) <-> cell_in c' f.
Proof.
  destruct c, c'; cbn [cell_in cell_put set_lpa set_ppa_table set_blk_entry set_blk set_lpp set_config ftl_config
    set_last_selected set_mapping_tables mapping_tables set_words]; try done. by rewrite length_insert.
Qed.

Lemma cell_put_fits c v f : cell_in c f -> cell_value c v -> tables_fit f -> tables_fit (cell_put c v f).
Proof.
  intros Hi Hv [T1 T2 T3 T4 T5 (T6 & T7 & T8)]. unfold cell_value in Hv.
  destruct c; cbn [cell_put cell_width cell_in] in *; split; try done;
    try (apply fn_fits; [done|]); try apply ppa_path_fits; try done;
    try (destruct (T3 b) as (H1 & H2 & H3); split_and!; done).
  - cbn [set_config ftl_config]. split; [|done]. rewrite config_words_set by (by rewrite length_insert).
    by apply Forall_insert.
  - split; [done|]. split; [apply ppa_path_fits|done].
  - split; [done|]. split; [done|]. apply Forall_insert; [done|apply ppa_path_fits].
Qed.

(** ** Cells in memory *)

Lemma load_le_same n a b m1 m2 :
  (forall o, 0 <= o < Z.of_nat n -> m1 (a + o) = m2 (b + o)) -> load_le n a m1 = load_le n b m2.
Proof.
  revert a b. induction n as [|n IH]; intros a b He; [done|]. cbn [load_le]. f_equal.
  - specialize (He 0). rewrite !Z.add_0_r in He. apply He. lia.
  - f_equal. apply IH. intros o Ho. specialize (He (1 + o)). rewrite !Z.add_assoc in He. apply He. lia.
Qed.

Lemma load_store_le n a v m : 0 <= v < 2 ^ (8 * Z.of_nat n) -> load_le n a (store_le n a v m) = v.
Proof.
  revert a v m. induction n as [|n IH]; intros a v m Hv; cbn [load_le store_le]; [cbn in Hv; lia|].
  rewrite store_le_out by lia. rewrite fn_lookup_insert, IH.
  - unfold u8. pose proof (Z.div_mod v (2 ^ 8)). lia.
  - replace (8 * Z.of_nat (S n)) with (8 + 8 * Z.of_nat n) in Hv by lia. rewrite Z.pow_add_r in Hv by lia.
    split; [apply Z.div_pos; lia|apply Z.div_lt_upper_bound; lia].
Qed.

Lemma cells_bytes_nonneg l : 0 <= cells_bytes l.
Proof. induction l as [|c l IH]; cbn [cells_bytes foldr]; [lia|]. unfold cells_bytes in IH. lia. Qed.

Lemma spill_out l a f m b : b < a \/ a + cells_bytes l <= b -> spill l a f m b = m b.
Proof.
  revert a m. induction l as [|c l IH]; intros a m Hb; [done|]. cbn [spill cells_bytes foldr] in *.
  fold (cells_bytes l) in *. pose proof (cells_bytes_nonneg l). rewrite IH by lia. apply store_le_out. lia.
Qed.

Lemma spill_ok l a f m : mem_ok m -> mem_ok (spill l a f m).
Proof. revert a m. induction l as [|c l IH]; intros a m Hm; [done|]. cbn [spill]. by apply IH, store_le_ok. Qed.

(** The cells at [a] hold the values of [f]. *)
Fixpoint cells_hold (l : list cell) (a : Z) (m : mem) (f : ftl) : Prop :=
  match l with
  | [] => True
  | c :: r => load_le (cell_width c) a m = cell_get c f /\ cells_hold r (a + Z.of_nat (cell_width c)) m f
  end.

Lemma spill_hold l a b f m m2 :
  tables_fit f -> (forall o, 0 <= o < cells_bytes l -> m2 (b + o) = spill l a f m (a + o)) -> cells_hold l b m2 f.
Proof.
  intros Hf. revert a b m. induction l as [|c l IH]; intros a b m He; [done|]. cbn [spill cells_bytes foldr cells_hold] in *.
  fold (cells_bytes l) in *. pose proof (cells_bytes_nonneg l). split.
  - rewrite <- (load_store_le (cell_width c) a (cell_get c f) m) by (by apply cell_get_value).
    apply load_le_same. intros o Ho. rewrite He by lia. apply spill_out. lia.
  - apply (IH (a + Z.of_nat (cell_width c)) (b + Z.of_nat (cell_width c)) (store_le (cell_width c) a (cell_get c f) m)).
    intros o Ho. rewrite <- !Z.add_assoc. rewrite He by lia. done.
Qed.

(** Reading the cells back sets them, and only them. *)
Lemma fill_get l a m f f0 :
  cells_hold l a m f -> tables_fit f -> (forall c, In c l -> cell_in c f0) -> tables_fit f0 ->
  tables_fit (fill l a m f0) /\ (forall c, cell_in c (fill l a m f0) <-> cell_in c f0) /\
  last_searched_channel (fill l a m f0) = last_searched_channel f0 /\
  (forall c, In c l -> cell_get c (fill l a m f0) = cell_get c f) /\
  (forall c, ~ In c l -> cell_get c (fill l a m f0) = cell_get c f0).
Proof.
  intros Hh Hf. revert a f0 Hh. induction l as [|x l IH]; intros a f0 Hh Hin H0; [done|].
  cbn [cells_hold fill] in *. destruct Hh as (Hx & Hh). rewrite Hx.
  pose proof (cell_get_value x f Hf) as Hv. pose proof (Hin x (or_introl eq_refl)) as Hxi.
  destruct (IH (a + Z.of_nat (cell_width x)) (cell_put x (cell_get x f) f0) Hh) as (F1 & F2 & F3 & F4 & F5).
  { intros c Hc. apply cell_in_put, Hin. by right. }
  { by apply cell_put_fits. }
  split; [done|]. split; [intros c; by rewrite F2, cell_in_put|]. split; [rewrite F3; by destruct x|]. split.
  - intros c [<-|Hc]; [|by apply F4]. destruct (in_dec (fun a b => decide (a = b)) x l) as [Hl|Hl]; [by apply F4|].
    rewrite F5 by done. by apply cell_get_put.
  - intros c Hc. rewrite F5 by (intros Hl; apply Hc; by right). apply cell_get_put_ne; [|done].
    intros ->. apply Hc. by left.
Qed.

(** Whatever the memory holds, the cells keep their widths. *)
Lemma fill_keep l a m f0 :
  mem_ok m -> tables_fit f0 -> (forall c, In c l -> cell_in c f0) ->
  tables_fit (fill l a m f0) /\ (forall c, cell_in c (fill l a m f0) <-> cell_in c f0) /\
  (forall c, ~ In c l -> cell_get c (fill l a m f0) = cell_get c f0).
Proof.
  intros Hm. revert a f0. induction l as [|x l IH]; intros a f0 H0 Hin; [done|]. cbn [fill].
  pose proof (Hin x (or_introl eq_refl)) as Hxi. pose proof (load_le_fits (cell_width x) a m Hm) as Hv.
  destruct (IH (a + Z.of_nat (cell_width x)) (cell_put x (load_le (cell_width x) a m) f0)) as (F1 & F2 & F3).
  { by apply cell_put_fits. }
  { intros c Hc. apply cell_in_put, Hin. by right. }
  split; [done|]. split; [intros c; by rewrite F2, cell_in_put|].
  intros c Hc. rewrite F3 by (intros Hl; apply Hc; by right). apply cell_get_put_ne; [|done].
  intros ->. apply Hc. by left.
Qed.

Lemma config_cells_in f : (1224 <= length (mapping_tables (ftl_config f)))%nat -> forall c, In c config_cells -> cell_in c f.
Proof.
  intros Hl c Hc. unfold config_cells in Hc. apply in_app_iff in Hc as [Hc|[<-|Hc]]; [| done |];
    apply in_map_iff in Hc as (i & <- & Hi); apply in_seq in Hi; cbn [cell_in]; lia.
Qed.

Lemma config_cells_not_table c : In c config_cells -> is_table c = false.
Proof.
  intros Hc. unfold config_cells in Hc. apply in_app_iff in Hc as [Hc|[<-|Hc]]; [| done |];
    apply in_map_iff in Hc as (i & <- & _); done.
Qed.

Definition config_rest : list cell := map CWord (seq 1 10) ++ CSelected :: map CTable (seq 0 1224).

Lemma config_cells_cons : config_cells = CWord 0 :: config_rest.
Proof. reflexivity. Qed.

Lemma config_rest_no_ds : ~ In (CWord 0) config_rest.
Proof.
  unfold config_rest. intros Hc. apply in_app_iff in Hc as [Hc|[Hc|Hc]]; [|done|];
    apply in_map_iff in Hc as (i & Hi & Hs); [|done]. apply in_seq in Hs. simplify_eq. lia.
Qed.

Lemma fill_cons c r a m f : fill (c :: r) a m f = fill r (a + Z.of_nat (cell_width c)) m (cell_put c (load_le (cell_width c) a m) f).
Proof. reflexivity. Qed.

Lemma spill_cons c r a f m : spill (c :: r) a f m = spill r (a + Z.of_nat (cell_width c)) f (store_le (cell_width c) a (cell_get c f) m).
Proof. reflexivity. Qed.

Lemma cell_ds f : cell_get (CWord 0) f = fc_nand_ds (ftl_config f).
Proof. reflexivity. Qed.

(** The first word tells whether the flash holds a configuration. *)
Lemma fill_config_ds m1 m2 a b f f0 :
  tables_fit f -> tables_fit f0 -> (1224 <= length (mapping_tables (ftl_config f0)))%nat -> mem_ok m2 ->
  (forall o, 0 <= o < 4 -> m2 (b + o) = spill config_cells a f m1 (a + o)) ->
  fc_nand_ds (ftl_config (fill config_cells b m2 f0)) = fc_nand_ds (ftl_config f).
Proof.
  intros Hf H0 Hl Hm He. rewrite <- !cell_ds.
  rewrite config_cells_cons, fill_cons. rewrite config_cells_cons in He. change (cell_width (CWord 0)) with 4%nat.
  assert (Hv : load_le 4 b m2 = cell_get (CWord 0) f).
  { rewrite <- (load_store_le 4 a (cell_get (CWord 0) f) m1) by (exact (cell_get_value (CWord 0) f Hf)).
    apply load_le_same. intros o Ho. rewrite He, spill_cons by lia. apply spill_out. change (cell_width (CWord 0)) with 4%nat. lia. }
  rewrite Hv.
  assert (Hin : forall c, In c config_rest -> cell_in c f0)
    by (intros c Hc; apply (config_cells_in f0 Hl); rewrite config_cells_cons; by right).
  assert (Hin0 : cell_in (CWord 0) f0) by (cbn; lia).
  destruct (fill_keep config_rest (b + Z.of_nat 4) m2 (cell_put (CWord 0) (cell_get (CWord 0) f) f0)) as (_ & _ & ->).
  - done.
  - apply cell_put_fits; [done|by apply cell_get_value|done].
  - intros c Hc. by apply cell_in_put, Hin.
  - apply cell_get_put; [done|by apply cell_get_value].
  - apply config_rest_no_ds.
Qed.

Lemma ppa_data_inj p q : ppa_fits p -> ppa_fits q -> ppa_data p = ppa_data q -> p = q.
Proof. intros Hp Hq E. by rewrite <- (ppa_path_data p Hp), E, ppa_path_data. Qed.

(** [f] with its configuration and its tables, in every cell. *)
Definition same_cells (l : list cell) (f f' : ftl) : Prop := forall c, In c l -> cell_get c f' = cell_get c f.

Lemma same_table i f f' p : tables_fit f -> tables_fit f' -> (1224 <= length (mapping_tables (ftl_config f')))%nat ->
  same_cells config_cells f f' -> 0 <= i < 1224 ->
  arr_get (mapping_tables (ftl_config f)) i = Ok p -> arr_get (mapping_tables (ftl_config f')) i = Ok p.
Proof.
  intros Hf Hf' Hl Hs Hi Hp. apply arr_get_Ok in Hp as (Hi0 & Hp). apply arr_get_Ok. split; [done|].
  destruct (lookup_lt_is_Some_2 (mapping_tables (ftl_config f')) (Z.to_nat i)) as (q & Hq); [lia|]. rewrite Hq. f_equal.
  assert (E : cell_get (CTable (Z.to_nat i)) f' = cell_get (CTable (Z.to_nat i)) f).
  { apply Hs. unfold config_cells. apply in_app_iff. right. right. apply in_map, in_seq. lia. }
  cbn [cell_get] in E. rewrite !nth_lookup, Hp, Hq in E. cbn in E.
  destruct Hf as [_ _ _ _ _ (_ & _ & Hf)], Hf' as [_ _ _ _ _ (_ & _ & Hf')].
  exact (ppa_data_inj q p (Forall_lookup_1 _ _ _ _ Hf' Hq) (Forall_lookup_1 _ _ _ _ Hf Hp) E).
Qed.

(** ** The pages of the tables *)

Section store.
Context {D : Type} `{NandFlash D} (g : geom) (Hg : geom_ok g) (fuel : nat).

Abbreviation TOTAL := (TOTAL_NUM_OF_PAGES g) (only parsing).
Abbreviation PS := (NAND_PAGE_SIZE g) (only parsing).
Abbreviation P := (TOTAL_NUM_OF_PLANES g) (only parsing).

(** Taking the next page out of the free ones keeps the tables consistent. *)
Lemma reserve_one k i f :
  map_inv g k f -> k < TOTAL -> 0 <= i < Z.of_nat (length (mapping_tables (ftl_config f))) -> tables_fit f ->
  exists f', (let! '(free_page, f) := get_free_ppa g (S fuel) f in
              let! tables := arr_set (mapping_tables (ftl_config f)) i free_page in
              let f := set_config (set_mapping_tables tables (ftl_config f)) f in
              let! f := SET_INVALID_PPA g free_page f in
              let! f := INC_INVALID_PAGES g free_page f in
              DEC_VALID_PAGES g free_page f) = Ok f' /\
    map_inv g (k + 1) f' /\ lpa_table f' = lpa_table f /\ tables_fit f' /\
    mapping_tables (ftl_config f') = <[Z.to_nat i := nth_page g k]> (mapping_tables (ftl_config f)) /\
    config_words (ftl_config f') = config_words (ftl_config f) /\
    last_selected_ppa (ftl_config f') = last_searched_channel f'.
Proof using Hg.
  intros Hi Hk Hix Hf. rewrite (get_free_ppa_ok g Hg fuel k f Hi Hk). cbn [obind].
  destruct (new_page_free g Hg k f Hi Hk) as (Hin & Hfree).
  pose proof (get_free_ppa_fits g (S fuel) f _ _ Hf (get_free_ppa_ok g Hg fuel k f Hi Hk)) as (Hf1 & Hpf).
  set (n := nth_page g k) in *. set (f1 := found_state g k f) in *.
  rewrite arr_set_Ok by exact Hix. cbn [obind].
  set (f2 := set_config (set_mapping_tables (<[Z.to_nat i := n]> (mapping_tables (ftl_config f1))) (ftl_config f1)) f1).
  assert (Hf2 : tables_fit f2).
  { destruct Hf1 as [T1 T2 T3 T4 T5 (T6 & T7 & T8)]. split; try done. split; [done|]. split; [done|]. by apply Forall_insert. }
  assert (E3 : SET_INVALID_PPA g n f2 = Ok (set_ppa_table (<[key_of n := INVALID_PPA]> (ppa_table f)) f2)).
  { unfold SET_INVALID_PPA, SET_MAPPED_LPA. by rewrite Hin. }
  pose proof (set_ppa_fits g INVALID_PPA n _ _ ltac:(unfold fits, INVALID_PPA; lia) Hf2 E3) as Hf3.
  rewrite E3. cbn [obind]. unfold INC_INVALID_PAGES, DEC_VALID_PAGES.
  pose proof (upd_blk_fits g (add_invalid 1) n _ _ (add_invalid_fits 1) Hf3 (upd_blk_ok g _ n _ Hin)) as Hf4.
  rewrite upd_blk_ok by done. cbn [obind].
  pose proof (upd_blk_fits g (add_valid (-1)) n _ _ (add_valid_fits (-1)) Hf4 (upd_blk_ok g _ n _ Hin)) as Hf5.
  rewrite upd_blk_ok by done.
  eexists. split; [reflexivity|]. split; [|split_and!; done].
  assert (Hne : forall l, 0 <= l < TOTAL -> chn (lpa_table f l) <> 255 -> key_of (lpa_table f l) <> key_of n).
  { intros l Hl Hc E. destruct (mi_lpa _ _ _ Hi l Hl Hc) as (_ & Ho). rewrite E, Hfree in Ho.
    destruct (lpn_values g Hg l Hl) as (Hv & _). by rewrite <- Ho in Hv. }
  apply (map_inv_step g Hg k f); try done; cbn [set_blk set_ppa_table ppa_table lpa_table f2 f1 set_config found_state set_lpp set_last_searched].
  - rewrite fn_lookup_insert. unfold INVALID_PPA, FREE_PPA. lia.
  - intros p _ Hp. by rewrite fn_lookup_insert_ne.
  - intros l Hl Hc. destruct (mi_lpa _ _ _ Hi l Hl Hc) as (Hpin & Ho). split; [done|].
    rewrite fn_lookup_insert_ne; [done|]. intros E. by apply (Hne l).
  - intros p Hp. destruct (decide (key_of n = key_of p)) as [<-|Hnp]; [rewrite fn_lookup_insert; right; by left|].
    rewrite fn_lookup_insert_ne by done. apply (mi_ppa _ _ _ Hi p Hp).
Qed.

Lemma reserve_table_pages_ok n : forall k i f,
  map_inv g k f -> k + Z.of_nat n <= TOTAL -> 0 <= i ->
  i + Z.of_nat n <= Z.of_nat (length (mapping_tables (ftl_config f))) -> tables_fit f ->
  (0 < n)%nat ->
  exists f', reserve_table_pages g (S fuel) n i f = Ok f' /\
    map_inv g (k + Z.of_nat n) f' /\ lpa_table f' = lpa_table f /\ tables_fit f' /\
    length (mapping_tables (ftl_config f')) = length (mapping_tables (ftl_config f)) /\
    (forall j, 0 <= j < i -> arr_get (mapping_tables (ftl_config f')) j = arr_get (mapping_tables (ftl_config f)) j) /\
    (forall j, 0 <= j < Z.of_nat n -> arr_get (mapping_tables (ftl_config f')) (i + j) = Ok (nth_page g (k + j))) /\
    config_words (ftl_config f') = config_words (ftl_config f) /\
    last_selected_ppa (ftl_config f') = last_searched_channel f'.
Proof using Hg.
  induction n as [|n IH]; intros k i f Hi Hk Hi0 Hil Hf Hn; [lia|].
  destruct (reserve_one k i f Hi ltac:(lia) ltac:(lia) Hf) as (f1 & E1 & Hi1 & Hl1 & Hf1 & Hm1 & Hw1 & Hs1).
  assert (Es : reserve_table_pages g (S fuel) (S n) i f = reserve_table_pages g (S fuel) n (i + 1) f1).
  { cbn [reserve_table_pages]. destruct (get_free_ppa g (S fuel) f) as [[p f2]|]; cbn [obind] in E1 |- *; [|done].
    destruct (arr_set _ i p) as [t|]; cbn [obind] in E1 |- *; [|done].
    destruct (SET_INVALID_PPA g p _) as [f3|]; cbn [obind] in E1 |- *; [|done].
    destruct (INC_INVALID_PAGES g p f3) as [f4|]; cbn [obind] in E1 |- *; [|done]. by rewrite E1. }
  rewrite Es. assert (Hlen1 : length (mapping_tables (ftl_config f1)) = length (mapping_tables (ftl_config f))) by (by rewrite Hm1, length_insert).
  pose proof (arr_set_Ok (mapping_tables (ftl_config f)) i (nth_page g k) ltac:(lia)) as Eset. rewrite <- Hm1 in Eset.
  destruct n as [|n].
  - exists f1. cbn [reserve_table_pages]. split; [done|]. split; [done|]. split; [done|]. split; [done|]. split; [done|]. split; [|split; [|done]].
    + intros j Hj. eapply arr_get_set_ne; [|exact Eset]; lia.
    + intros j Hj. replace j with 0 by lia. rewrite !Z.add_0_r. exact (arr_get_set_eq _ _ _ _ Eset).
  - destruct (IH (k + 1) (i + 1) f1 Hi1) as (f' & E & Hi' & Hl' & Hf' & Hlen & Hlo & Hhi & Hw & Hs); try done; try lia.
    exists f'. split; [done|]. split; [by replace (k + Z.of_nat (S (S n))) with (k + 1 + Z.of_nat (S n)) by lia|].
    split; [congruence|]. split; [done|]. split; [congruence|]. split; [|split; [|split; [congruence|done]]].
    + intros j Hj. rewrite Hlo by lia. eapply arr_get_set_ne; [|exact Eset]; lia.
    + intros j Hj. destruct (decide (j = 0)) as [->|Hj0].
      * rewrite !Z.add_0_r. rewrite Hlo by lia. exact (arr_get_set_eq _ _ _ _ Eset).
      * replace (i + j) with (i + 1 + (j - 1)) by lia. rewrite Hhi by lia. f_equal. f_equal. lia.
Qed.

(** ** Batches *)

Fixpoint d_add_list (op : op_ptr) (l : list op_page) (s : drive D) : outcome (drive D) :=
  match l with
  | [] => Ok s
  | x :: l' => let! s := d_add_page op (pg_ppa x) (pg_ssd_addr x) s in d_add_list op l' s
  end.

Definition run_program (l : list op_page) (s : drive D) : outcome (drive D) :=
  let! '(pop, s) := d_begin_program s in let! s := d_add_list pop l s in d_end_program g pop s.

Definition run_read (l : list op_page) (s : drive D) : outcome (drive D) :=
  let! '(rop, s) := d_begin_read s in let! s := d_add_list rop l s in d_end_read g rop s.

Lemma d_add_list_ok k F op l : forall l0 (s : drive D),
  op_open k F op l0 (d_pools s) -> (length l0 + length l <= 128)%nat ->
  exists p', d_add_list op l s = Ok (set_d_pools p' s) /\ op_open k F op (l0 ++ l) p' /\ same_side (other k) (d_pools s) p'.
Proof using.
  induction l as [|x l IH]; intros l0 s Ho Hlen; cbn [d_add_list length] in *.
  - exists (d_pools s). rewrite app_nil_r. by destruct s.
  - destruct (add_op_page_spec k F op l0 (d_pools s) (pg_ppa x) (pg_ssd_addr x) Ho ltac:(lia)) as (p1 & E1 & Ho1 & Hs1).
    unfold d_add_page. rewrite E1. cbn [obind].
    destruct (IH (l0 ++ [OpPage (pg_ppa x) (pg_ssd_addr x)]) (set_d_pools p1 s) Ho1) as (p2 & E2 & Ho2 & Hs2).
    { rewrite length_app. cbn [length]. lia. }
    exists p2. rewrite <- app_assoc in Ho2. destruct x. split; [exact E2|]. split; [exact Ho2|].
    by eapply same_side_trans.
Qed.

(** What a batch needs of the drive, and what it leaves. *)
Record drive_ready (s : drive D) : Prop := DriveReady {
  dy_read : pool_ready RD True (d_pools s);
  dy_nand : nand_ready g (d_nand s);
  dy_mem : mem_ok (d_mem s);
  dy_pages : pages_ok (nand_page (d_nand s)) }.

Lemma drive_ready_mem m (s : drive D) : drive_ready s -> mem_ok m -> drive_ready (set_d_mem m s).
Proof using. intros [H1 H2 H3 H4] Hm. exact (DriveReady (set_d_mem m s) H1 H2 Hm H4). Qed.

Lemma drive_ready_ftl f (s : drive D) : drive_ready s -> drive_ready (set_d_ftl f s).
Proof using. intros [H1 H2 H3 H4]. exact (DriveReady (set_d_ftl f s) H1 H2 H3 H4). Qed.

Lemma run_program_once F l (s : drive D) :
  drive_ready s -> pool_ready PR F (d_pools s) -> pages_placed g l -> (length l <= 128)%nat ->
  exists s', run_program l s = Ok s' /\ drive_ready s' /\ pool_idle PR F (d_pools s') /\
    d_ftl s' = d_ftl s /\ d_kernel s' = d_kernel s /\ (forall b, d_mem s' b = d_mem s b) /\
    forall q off, nand_page (d_nand s') q off = program_pages g (d_mem s) l (nand_page (d_nand s)) q off.
Proof using Hg.
  intros [Hrd Hn Hm Hp] Hpr Hpl Hlen. destruct (begin_op_spec PR F (d_pools s) Hpr) as (op & p1 & E1 & Ho1 & Hs1).
  destruct (d_add_list_ok PR F op l [] (set_d_pools p1 s) Ho1 Hlen) as (p2 & E2 & Ho2 & Hs2).
  destruct (sync_end_program_spec g Hg F op l p2 (d_nand s) (d_mem s) Ho2 Hn Hpl Hm Hp)
    as (p3 & d3 & m3 & E3 & Hi3 & Hs3 & Hn3 & Hm3 & Hd3).
  exists (Drive (d_ftl s) p3 d3 m3 (d_kernel s)). unfold run_program, d_begin_program.
  change (begin_program_op (d_pools s)) with (begin_op (type_of PR) (d_pools s)). rewrite E1. cbn [obind].
  rewrite E2. cbn [obind]. unfold d_end_program. cbn [set_d_pools d_pools d_nand d_mem d_ftl d_kernel]. rewrite E3. cbn [obind].
  split; [done|]. cbn [d_pools d_nand d_mem d_ftl d_kernel]. split; [|by split_and!].
  split; cbn [d_pools d_nand d_mem]; [|done| |].
  - eapply pool_ready_same; [|exact Hrd]. eapply same_side_trans; [exact Hs1|]. by eapply same_side_trans.
  - intros b. rewrite Hm3. apply Hm.
  - intros q b. rewrite Hd3. by apply program_pages_ok.
Qed.

Lemma run_program_ok l (s : drive D) :
  drive_ready s -> pool_ready PR True (d_pools s) -> pages_placed g l -> (length l <= 128)%nat ->
  exists s', run_program l s = Ok s' /\ drive_ready s' /\ pool_ready PR True (d_pools s') /\
    d_ftl s' = d_ftl s /\ d_kernel s' = d_kernel s /\ (forall b, d_mem s' b = d_mem s b) /\
    forall q off, nand_page (d_nand s') q off = program_pages g (d_mem s) l (nand_page (d_nand s)) q off.
Proof using Hg.
  intros Hdr Hpr Hpl Hlen. destruct (run_program_once True l s Hdr Hpr Hpl Hlen) as (s' & E & Hdr' & Hi & H').
  exists s'. split; [done|]. split; [done|]. split; [by apply pool_idle_ready|done].
Qed.

Lemma run_read_ok l (s : drive D) :
  drive_ready s -> pages_placed g l -> buffers_apart g l -> (length l <= 128)%nat ->
  exists s', run_read l s = Ok s' /\ drive_ready s' /\ same_side PR (d_pools s) (d_pools s') /\
    d_ftl s' = d_ftl s /\ d_kernel s' = d_kernel s /\
    (forall b, d_mem s' b = read_pages g (nand_page (d_nand s)) l (d_mem s) b) /\
    forall q off, nand_page (d_nand s') q off = nand_page (d_nand s) q off.
Proof using Hg.
  intros [Hrd Hn Hm Hp] Hpl Hap Hlen. destruct (begin_op_spec RD True (d_pools s) Hrd) as (op & p1 & E1 & Ho1 & Hs1).
  destruct (d_add_list_ok RD True op l [] (set_d_pools p1 s) Ho1 Hlen) as (p2 & E2 & Ho2 & Hs2).
  destruct (sync_end_read_spec g Hg True op l p2 (d_nand s) (d_mem s) Ho2 Hn Hpl Hap Hm Hp)
    as (p3 & d3 & m3 & E3 & Hi3 & Hs3 & Hn3 & Hd3 & Hm3).
  exists (Drive (d_ftl s) p3 d3 m3 (d_kernel s)). unfold run_read, d_begin_read.
  change (begin_read_op (d_pools s)) with (begin_op (type_of RD) (d_pools s)). rewrite E1. cbn [obind].
  rewrite E2. cbn [obind]. unfold d_end_read. cbn [set_d_pools d_pools d_nand d_mem d_ftl d_kernel]. rewrite E3. cbn [obind].
  split; [done|]. cbn [d_pools d_nand d_mem d_ftl d_kernel]. split; [|split_and!; try done].
  - split; cbn [d_pools d_nand d_mem]; [by apply pool_idle_ready|done| |].
    + intros b. rewrite Hm3. by apply read_pages_ok.
    + intros q b. rewrite Hd3. apply Hp.
  - eapply same_side_trans; [exact Hs1|]. by eapply same_side_trans.
Qed.

Lemma program_pages_out m l page q off :
  (forall x, In x l -> key_of (pg_ppa x) <> q) -> program_pages g m l page q off = page q off.
Proof using.
  unfold program_pages. induction l as [|y l IH] using rev_ind; intros Hq; [done|].
  rewrite fold_left_app. cbn [fold_left]. unfold program_page at 1. rewrite bool_decide_false.
  - apply IH. intros x Hx. apply Hq, in_app_iff. by left.
  - intros ->. apply (Hq y); [apply in_app_iff; right; by left|done].
Qed.

Lemma program_pages_get m l page x off :
  NoDup (map (fun x => key_of (pg_ppa x)) l) -> In x l -> 0 <= off < PS ->
  program_pages g m l page (key_of (pg_ppa x)) off = m (pg_ssd_addr x + off).
Proof using.
  unfold program_pages. intros Hnd Hin Ho. induction l as [|y l IH] using rev_ind; [done|].
  rewrite fold_left_app. cbn [fold_left]. unfold program_page at 1.
  rewrite map_app in Hnd. apply list.NoDup_app in Hnd as (Hnd & Hx & _).
  rewrite (proj2 (in_range_true _ _) Ho), andb_true_r.
  apply in_app_iff in Hin as [Hin|[->|[]]]; [|by rewrite bool_decide_true].
  rewrite bool_decide_false; [by apply IH|]. intros E.
  apply (Hx (key_of (pg_ppa x))); apply list_elem_of_In; [by apply (in_map (fun x => key_of (pg_ppa x)) l x)|].
  left. done.
Qed.

(** ** Where the buffers, the configuration and the tables lie *)

Lemma memcpy8_get dst src n m b : mem_ok m -> 0 <= n -> disjoint_blocks dst src n ->
  memcpy8 dst src n m b = if (dst <=? b) && (b <? dst + n) then m (src + (b - dst)) else m b.
Proof using.
  intros Hm Hn Hd. unfold memcpy8. rewrite copy_loop_spec by (try done; rewrite Z2Nat.id by lia; by rewrite Z.mul_1_l).
  rewrite Z2Nat.id by lia. change (Z.of_nat 1) with 1. by rewrite !Z.mul_1_l, Z.add_0_r, Z.add_0_l.
Qed.

Lemma memcpy8_ok dst src n m : mem_ok m -> mem_ok (memcpy8 dst src n m).
Proof using. apply copy_loop_ok. Qed.

Lemma memset32_bytes p v n m : mem_ok m -> mem_ok (memset32 p v n m).
Proof using.
  unfold memset32. generalize 0. revert m. induction (Z.to_nat n) as [|n' IH]; intros m i Hm; [done|].
  cbn [memset32_loop]. by apply IH, store_le_ok.
Qed.

Lemma nth_page_key a b : 0 <= a < TOTAL -> 0 <= b < TOTAL -> key_of (nth_page g a) = key_of (nth_page g b) -> a = b.
Proof using Hg.
  intros Ha Hb E. apply (page_no_key g) in E.
  destruct (nth_page_in g Hg a Ha) as (_ & <-). by destruct (nth_page_in g Hg b Hb) as (_ & <-).
Qed.

Lemma ps_pos : 512 <= PS.
Proof using Hg.
  destruct Hg as (_ & _ & _ & _ & _ & Hp & _). unfold NAND_PAGE_SIZE. rewrite Z.shiftl_1_l.
  change 512 with (2 ^ 9). apply Z.pow_le_mono_r; lia.
Qed.

Definition areas_apart (a n b m : Z) : Prop := a + n <= b \/ b + m <= a.

Context (B L C T : Z) (cells : list cell).

(** [B]: [private_pg_buff], [L]: [load_mp_buffer], [C]: [ftl_config], [T]: the
    section of the tables.  Three flash pages have to fit the load buffer and to
    hold the configuration. *)
Record layout_ok : Prop := LayoutOk {
  lo_buff : 0 <= B /\ B + 3 * PS <= 2 ^ 32;
  lo_load : 0 <= L /\ L + 65536 <= 2 ^ 32;
  lo_pages : sizeof_ftl_config <= 3 * PS <= 65536;
  lo_buff_config : areas_apart B (3 * PS) C sizeof_ftl_config;
  lo_buff_tables : areas_apart B (3 * PS) T (cells_bytes cells);
  lo_load_config : areas_apart L 65536 C sizeof_ftl_config;
  lo_load_tables : areas_apart L 65536 T (cells_bytes cells);
  lo_config_tables : areas_apart C sizeof_ftl_config T (cells_bytes cells);
  lo_len : cells_bytes cells < 2 ^ 32 }.

Abbreviation len := (cells_bytes cells) (only parsing).

Lemma placed_one p a : ppa_in g p = true -> 0 <= a < 2 ^ 32 -> pages_placed g [OpPage p a].
Proof using. intros Hp Ha. apply Forall_cons_2; [done|apply Forall_nil_2]. Qed.

(** The buffer that is programmed when [r] bytes from [a] on are left. *)
Definition store_len (r : Z) : Z := if r <? PS then r else PS.

Definition store_buffer (r a : Z) (m : mem) : mem :=
  memcpy8 B a (store_len r) (if r <? PS then memset8 (B + r) 0 (PS - r) m else m).

(** One turn of the loop of [store_mapping_tables]. *)
Lemma store_step n r a j p (s : drive D) : 0 < r ->
  arr_get (mapping_tables (ftl_config (d_ftl s))) j = Ok p ->
  store_loop g B (S n) r a j s =
    (let! s := run_program [OpPage p B] (set_d_mem (store_buffer r a (d_mem s)) s) in
     store_loop g B n (r - store_len r) (a + store_len r) (j + 1) s).
Proof using.
  intros Hr Hp. cbn [store_loop]. zb.
  replace (if r <? PS then (memset8 (B + r) 0 (PS - r) (d_mem s), r) else (d_mem s, PS))
    with (if r <? PS then memset8 (B + r) 0 (PS - r) (d_mem s) else d_mem s, store_len r) by (unfold store_len; by case_if).
  fold (store_buffer r a (d_mem s)). unfold run_program.
  destruct (d_begin_program (set_d_mem (store_buffer r a (d_mem s)) s)) as [[pop s2]|] eqn:Eb; cbn [obind]; [|done].
  assert (Hs2 : d_ftl s2 = d_ftl s).
  { unfold d_begin_program in Eb. destruct (begin_program_op _) as [[? ?]|]; cbn [obind] in Eb; simplify_eq. done. }
  rewrite Hs2, Hp. cbn [obind d_add_list pg_ppa pg_ssd_addr].
  by destruct (d_add_page pop p B s2) as [s3|]; cbn [obind].
Qed.

Lemma store_buffer_ok r a m : areas_apart B PS a (store_len r) -> 0 < r -> mem_ok m ->
  mem_ok (store_buffer r a m) /\ (forall b, ~ B <= b < B + PS -> store_buffer r a m b = m b) /\
  forall off, 0 <= off < store_len r -> store_buffer r a m (B + off) = m (a + off).
Proof using Hg.
  intros Hap Hr Hm. pose proof ps_pos as Hps. unfold areas_apart in Hap. unfold store_buffer.
  assert (Hl : 0 < store_len r <= PS /\ store_len r <= r) by (unfold store_len; case_if; zify_bools; lia).
  set (m0 := if r <? PS then memset8 (B + r) 0 (PS - r) m else m).
  assert (Hm0 : mem_ok m0 /\ forall b, ~ B <= b < B + PS -> m0 b = m b).
  { unfold m0, memset8. case_if; [|done]. zify_bools. split.
    - intros b. rewrite memset8_loop_spec. case_if; [apply u8_fits|apply Hm].
    - intros b Hb. rewrite memset8_loop_spec. case_if; [zify_bools; lia|done]. }
  destruct Hm0 as (Hm0 & Hm0o). split; [by apply memcpy8_ok|].
  split; [intros b Hb|intros off Ho]; rewrite memcpy8_get by (try done; try lia; unfold disjoint_blocks; lia).
  - case_if; [zify_bools; lia|by apply Hm0o].
  - zb. cbn [andb]. rewrite Hm0o by lia. f_equal. lia.
Qed.

(** The whole loop: page [i] of the tables goes to page [k + i] of the drive. *)
Lemma store_loop_ok (k N : Z) : layout_ok -> 0 <= k -> k + N <= TOTAL -> len <= N * PS -> forall n j (s : drive D),
  drive_ready s -> pool_ready PR True (d_pools s) -> 0 <= j -> len - j * PS <= Z.of_nat n * PS ->
  (forall i, 0 <= i < N -> arr_get (mapping_tables (ftl_config (d_ftl s))) i = Ok (nth_page g (k + i))) ->
  exists s', store_loop g B n (len - j * PS) (T + j * PS) j s = Ok s' /\
    drive_ready s' /\ pool_ready PR True (d_pools s') /\ d_ftl s' = d_ftl s /\ d_kernel s' = d_kernel s /\
    (forall b, ~ B <= b < B + PS -> d_mem s' b = d_mem s b) /\
    (forall q off, (forall i, j <= i < N -> key_of (nth_page g (k + i)) <> q) ->
       nand_page (d_nand s') q off = nand_page (d_nand s) q off) /\
    (forall i off, j <= i -> 0 <= off < PS -> i * PS + off < len ->
       nand_page (d_nand s') (key_of (nth_page g (k + i))) off = d_mem s (T + i * PS + off)).
Proof using Hg.
  intros [[HB1 HB2] _ Hpg _ Hbt _ _ _ _] Hk HkN HlN. pose proof ps_pos as Hps. unfold areas_apart in Hbt.
  induction n as [|n IH]; intros j s Hdr Hpr Hj Hfuel Hmt.
  { cbn [store_loop]. destruct (Z.ltb_spec 0 (len - j * PS)); [lia|]. exists s. split_and!; try done. intros i off Hi Ho Hlt. nia. }
  destruct (Z.lt_ge_cases 0 (len - j * PS)) as [Hr|Hr];
    [|cbn [store_loop]; zb; exists s; split_and!; try done; intros i off Hi Ho Hlt; nia].
  assert (HjN : j < N) by nia. rewrite (store_step n _ _ j _ s Hr (Hmt j ltac:(lia))).
  assert (Hsl : (store_len (len - j * PS) = len - j * PS /\ len - j * PS < PS) \/ (store_len (len - j * PS) = PS /\ PS <= len - j * PS))
    by (unfold store_len; case_if; zify_bools; lia).
  destruct (store_buffer_ok (len - j * PS) (T + j * PS) (d_mem s)) as (Hb1 & Hb2 & Hb3);
    [unfold areas_apart; nia|done|apply Hdr|]. set (cur := store_len (len - j * PS)) in *. set (m1 := store_buffer _ _ _) in *.
  destruct (nth_page_in g Hg (k + j) ltac:(lia)) as (Hin & _).
  destruct (run_program_ok [OpPage (nth_page g (k + j)) B] (set_d_mem m1 s) (drive_ready_mem _ _ Hdr Hb1) Hpr) as (s1 & E1 & Hdr2 & Hpr2 & Hf2 & Hk2 & Hm2 & Hp2);
    [apply placed_one; [done|lia]|cbn; lia|]. rewrite E1. cbn [obind].
  cbn [set_d_mem d_ftl d_kernel d_mem d_nand] in Hf2, Hk2, Hm2, Hp2.
  assert (Hpage : forall off, 0 <= off < PS -> j * PS + off < len ->
    nand_page (d_nand s1) (key_of (nth_page g (k + j))) off = d_mem s (T + j * PS + off)).
  { intros off Ho Hlt. rewrite Hp2, <- Hb3 by lia.
    apply (program_pages_get m1 [OpPage (nth_page g (k + j)) B] _ (OpPage (nth_page g (k + j)) B) off);
      [apply NoDup_singleton|by left|done]. }
  assert (Hother : forall q off, key_of (nth_page g (k + j)) <> q -> nand_page (d_nand s1) q off = nand_page (d_nand s) q off).
  { intros q off Hq. rewrite Hp2. apply program_pages_out. intros x [<-|[]]. done. }
  destruct Hsl as [(Ec & Hlast)|(Ec & Hmore)]; rewrite Ec.
  - rewrite Z.sub_diag. exists s1. split; [by destruct n|]. split_and!; try done.
    + intros b Hb. rewrite Hm2. by apply Hb2.
    + intros q off Hq. apply Hother, Hq. lia.
    + intros i off Hi Ho Hlt. assert (i = j) as -> by nia. by apply Hpage.
  - replace (len - j * PS - PS) with (len - (j + 1) * PS) by lia. replace (T + j * PS + PS) with (T + (j + 1) * PS) by lia.
    destruct (IH (j + 1) s1 Hdr2 Hpr2 ltac:(lia) ltac:(lia)) as (s' & E & Hdr' & Hpr' & Hf' & Hk' & Hm' & Ho' & Hp').
    { intros i Hi. rewrite Hf2. by apply Hmt. }
    exists s'. split; [done|]. split; [done|]. split; [done|]. split; [congruence|]. split; [congruence|]. split; [|split].
    + intros b Hb. rewrite Hm' by done. rewrite Hm2. by apply Hb2.
    + intros q off Hq. rewrite Ho' by (intros i Hi; apply Hq; lia). apply Hother, Hq. lia.
    + intros i off Hi Ho Hlt. destruct (decide (i = j)) as [->|Hne].
      * rewrite Ho'; [by apply Hpage|]. intros i Hi' E'. assert (i * PS < N * PS) by nia. apply nth_page_key in E'; lia.
      * rewrite Hp' by lia. rewrite Hm2. apply Hb2. nia.
Qed.

(** ** Storing *)

(** The three pages of the configuration. *)
Definition config_page (i : Z) : ppa := Ppa i 0 0 0 0 0.

Definition config_key (q : page_key) : Prop := exists i, 0 <= i < 3 /\ q = key_of (config_page i).

(** Everything the flash must hold of [f]. *)
Definition saved (k : Z) (f : ftl) (page : page_key -> mem) : Prop :=
  (exists m, forall i off, 0 <= i < 3 -> 0 <= off < PS -> i * PS + off < sizeof_ftl_config ->
     page (key_of (config_page i)) off = spill config_cells C f m (C + (i * PS + off))) /\
  (exists m, forall i off, 0 <= i -> 0 <= off < PS -> i * PS + off < len ->
     page (key_of (nth_page g (k + i))) off = spill cells T f m (T + (i * PS + off))).

Lemma config_page_in i : 3 <= PAGES_PER_BLOCK g -> 0 <= i < 3 -> ppa_in g (config_page i) = true.
Proof using Hg.
  intros Hp Hi. destruct Hg as (H1 & H2 & H3 & H4 & _). unfold NUM_CHANNELS, PLANES_PER_DIE, BLOCKS_PER_PLANE in *.
  apply ppa_in_spec. cbn. rewrite plane_in_spec. unfold NUM_CHANNELS, PLANES_PER_DIE, BLOCKS_PER_PLANE. lia.
Qed.

Lemma config_page_ne i a : 0 <= i < 3 -> 2 * P < a < TOTAL -> key_of (config_page i) <> key_of (nth_page g a).
Proof using Hg.
  intros Hi Ha E. apply (page_no_key g) in E. destruct (dims g Hg) as (HP & _).
  destruct (nth_page_in g Hg a ltac:(lia)) as (_ & Hn). rewrite Hn in E. unfold page_no, config_page, Geom.slot_of, offset_of, Geom.slot in E.
  cbn in E. nia.
Qed.

Definition config_batch (a : Z) : list op_page :=
  [OpPage (config_page 0) a; OpPage (config_page 1) (a + PS); OpPage (config_page 2) (a + PS + PS)].

Lemma config_batch_placed a : 3 <= PAGES_PER_BLOCK g -> 0 <= a -> a + 3 * PS <= 2 ^ 32 -> pages_placed g (config_batch a).
Proof using Hg.
  intros Hp Ha Hb. pose proof ps_pos. repeat (apply Forall_cons_2; [split; [apply config_page_in; lia|cbn [pg_ssd_addr]; lia]|]).
  apply Forall_nil_2.
Qed.

Lemma config_batch_elem a i : 0 <= i < 3 -> In (OpPage (config_page i) (a + i * PS)) (config_batch a).
Proof using.
  intros Hi. assert (i = 0 \/ i = 1 \/ i = 2) as [->|[->| ->]] by lia; cbn [In config_batch].
  - left. f_equal. lia.
  - right. left. f_equal. lia.
  - right. right. left. f_equal. lia.
Qed.

Lemma config_batch_nodup a : NoDup (map (fun x => key_of (pg_ppa x)) (config_batch a)).
Proof using. apply (bool_decide_unpack _). vm_compute. done. Qed.

Lemma config_batch_program a (s : drive D) :
  (let! '(pop_2, s) := d_begin_program s in
   let! s := d_add_page pop_2 first_page a s in
   let! s := d_add_page pop_2 (inc_page first_page) (a + PS) s in
   let! s := d_add_page pop_2 (inc_page (inc_page first_page)) (a + PS + PS) s in
   d_end_program g pop_2 s) = run_program (config_batch a) s.
Proof using.
  unfold run_program. destruct (d_begin_program s) as [[pop s1]|]; cbn [obind]; [|done].
  cbn [d_add_list config_batch pg_ppa pg_ssd_addr]. change (inc_page first_page) with (config_page 1).
  change (inc_page (config_page 1)) with (config_page 2). change first_page with (config_page 0).
  destruct (d_add_page pop (config_page 0) a s1) as [s2|]; cbn [obind]; [|done].
  destruct (d_add_page pop (config_page 1) _ s2) as [s3|]; cbn [obind]; [|done].
  by destruct (d_add_page pop (config_page 2) _ s3) as [s4|]; cbn [obind].
Qed.

Lemma config_batch_read a (s : drive D) :
  (let! '(rop_2, s) := d_begin_read s in
   let! s := d_add_page rop_2 first_page a s in
   let! s := d_add_page rop_2 (inc_page first_page) (a + PS) s in
   let! s := d_add_page rop_2 (inc_page (inc_page first_page)) (a + PS + PS) s in
   d_end_read g rop_2 s) = run_read (config_batch a) s.
Proof using.
  unfold run_read. destruct (d_begin_read s) as [[pop s1]|]; cbn [obind]; [|done].
  cbn [d_add_list config_batch pg_ppa pg_ssd_addr]. change (inc_page first_page) with (config_page 1).
  change (inc_page (config_page 1)) with (config_page 2). change first_page with (config_page 0).
  destruct (d_add_page pop (config_page 0) a s1) as [s2|]; cbn [obind]; [|done].
  destruct (d_add_page pop (config_page 1) _ s2) as [s3|]; cbn [obind]; [|done].
  by destruct (d_add_page pop (config_page 2) _ s3) as [s4|]; cbn [obind].
Qed.

Lemma sizeof_config : 0 <= sizeof_ftl_config.
Proof using. apply cells_bytes_nonneg. Qed.

(** [n] bytes at [C] go to the three pages. *)
Lemma store_config_ok n (s : drive D) :
  0 <= B -> B + 3 * PS <= 2 ^ 32 -> 3 <= PAGES_PER_BLOCK g -> 0 <= n <= 3 * PS -> areas_apart B (3 * PS) C n ->
  drive_ready s -> pool_ready PR True (d_pools s) ->
  exists s', run_program (config_batch B) (set_d_mem (memcpy8 B C n (d_mem s)) s) = Ok s' /\
    drive_ready s' /\ d_ftl s' = d_ftl s /\
    (forall i off, 0 <= i < 3 -> 0 <= off < PS -> i * PS + off < n ->
       nand_page (d_nand s') (key_of (config_page i)) off = d_mem s (C + (i * PS + off))) /\
    (forall q off, ~ config_key q -> nand_page (d_nand s') q off = nand_page (d_nand s) q off).
Proof using Hg.
  intros HB1 HB2 Hblk Hn Hap Hdr Hpr. pose proof ps_pos as Hps. unfold areas_apart in Hap.
  pose proof (drive_ready_mem _ s Hdr (memcpy8_ok B C n (d_mem s) (dy_mem _ Hdr))) as Hdr2.
  set (m2 := memcpy8 B C n (d_mem s)) in *.
  destruct (run_program_ok (config_batch B) (set_d_mem m2 s) Hdr2 Hpr (config_batch_placed B Hblk HB1 HB2) ltac:(cbn; lia))
    as (s' & E' & Hdr' & _ & Hf' & _ & _ & Hp'). cbn [set_d_mem d_ftl d_mem d_nand] in Hf', Hp'.
  exists s'. split; [exact E'|]. split; [done|]. split; [done|]. split.
  - intros i off Hi0 Ho Hlt. assert (0 <= i * PS) by nia. rewrite Hp'.
    rewrite (program_pages_get m2 (config_batch B) _ (OpPage (config_page i) (B + i * PS)) off (config_batch_nodup B) (config_batch_elem B i Hi0) Ho).
    cbn [pg_ssd_addr]. unfold m2. rewrite memcpy8_get by (try exact (dy_mem _ Hdr); try lia; unfold disjoint_blocks; lia).
    zb. cbn [andb]. f_equal. lia.
  - intros q off Hq. rewrite Hp'. apply program_pages_out.
    assert (Hcfg : forall x, In x (config_batch B) -> exists i, 0 <= i < 3 /\ pg_ppa x = config_page i).
    { intros x [<-|[<-|[<-|[]]]]; [exists 0|exists 1|exists 2]; (split; [lia|done]). }
    intros x Hx E. destruct (Hcfg x Hx) as (i & Hi0 & Ei). apply Hq. exists i. by rewrite <- Ei.
Qed.

(** What the module relies on when it stores: the number of pages in the
    configuration is that of the tables, and there is room for them. *)
Record storable (k : Z) (f : ftl) : Prop := Storable {
  sb_inv : map_inv g k f;
  sb_fits : tables_fit f;
  sb_pages : rpp_map_tables (ftl_config f) = len / PS + 1;
  sb_array : length (mapping_tables (ftl_config f)) = 1224%nat;
  sb_small : len / PS + 1 <= 1224;
  sb_room : k + (len / PS + 1) <= TOTAL;
  sb_first : 2 * P < k;
  sb_block : 3 <= PAGES_PER_BLOCK g }.

Lemma store_mapping_tables_ok k (s : drive D) :
  layout_ok -> storable k (d_ftl s) -> drive_ready s -> pool_ready PR True (d_pools s) ->
  exists s', store_mapping_tables g (S fuel) B C T (T + len) cells s = Ok s' /\
    drive_ready s' /\ map_inv g (k + (len / PS + 1)) (d_ftl s') /\ lpa_table (d_ftl s') = lpa_table (d_ftl s) /\
    tables_fit (d_ftl s') /\ config_words (ftl_config (d_ftl s')) = config_words (ftl_config (d_ftl s)) /\
    last_selected_ppa (ftl_config (d_ftl s')) = last_searched_channel (d_ftl s') /\
    (forall j, 0 <= j < len / PS + 1 -> arr_get (mapping_tables (ftl_config (d_ftl s'))) j = Ok (nth_page g (k + j))) /\
    saved k (d_ftl s') (nand_page (d_nand s')) /\
    (forall q off, ~ config_key q -> (forall i, 0 <= i < len / PS + 1 -> key_of (nth_page g (k + i)) <> q) ->
       nand_page (d_nand s') q off = nand_page (d_nand s) q off).
Proof using Hg.
  intros Hlo [Hi Hf Hn Harr Hsm Hroom Hfirst Hblk] Hdr Hpr. pose proof ps_pos as Hps. pose proof (cells_bytes_nonneg cells) as Hlen.
  set (N := len / PS + 1) in *.
  assert (HN : 0 < N /\ len < N * PS).
  { pose proof (Z.div_mod len PS ltac:(lia)). pose proof (Z.mod_pos_bound len PS ltac:(lia)).
    pose proof (Z.div_pos len PS). unfold N. nia. }
  pose proof (mi_range _ _ _ Hi) as Hk.
  destruct (reserve_table_pages_ok (Z.to_nat N) k 0 (d_ftl s) Hi) as (f & Er & Hi' & Hl & Hff & Hlenm & _ & Hmt & Hw & Hsel);
    [rewrite Z2Nat.id by lia; lia|lia|rewrite Z2Nat.id, Harr by lia; lia|done|lia|].
  rewrite Z2Nat.id in Hi', Hmt by lia. unfold store_mapping_tables. rewrite Hn, Er. cbn [obind].
  set (s0 := globals_to_mem C T cells (set_d_ftl f s)).
  pose proof Hdr as [Hd1 Hd2 Hd3 Hd4].
  assert (Hdr0 : drive_ready s0) by (split; try done; by apply spill_ok, spill_ok).
  pose proof Hlo as [[HB1 HB2] _ Hpg Hbc Hbt _ _ Hct Hl32]. unfold areas_apart in *.
  pose proof sizeof_config as Hsz.
  assert (Htb : table_bytes T (T + len) = len) by (unfold table_bytes; rewrite u32_id by lia; lia).
  unfold table_fuel. rewrite Htb. fold N.
  destruct (store_loop_ok k N Hlo ltac:(lia) ltac:(lia) ltac:(lia) (Z.to_nat N) 0 s0 Hdr0 Hpr ltac:(lia)) as
    (s1 & E1 & Hdr1 & Hpr1 & Hf1 & Hk1 & Hm1 & Ho1 & Hp1).
  { rewrite Z2Nat.id by lia. lia. }
  { intros i Hi0. apply (Hmt i Hi0). }
  rewrite Z.mul_0_l, Z.sub_0_r, Z.add_0_r in E1. rewrite E1. cbn [obind]. rewrite config_batch_program.
  destruct (store_config_ok sizeof_ftl_config s1 HB1 HB2 Hblk ltac:(lia) Hbc Hdr1 Hpr1) as (s' & E' & Hdr' & Hf' & Hc' & Hout).
  exists s'. split; [exact E'|]. rewrite Hf', Hf1. change (d_ftl s0) with f.
  split; [done|]. split; [done|]. split; [done|]. split; [done|]. split; [done|]. split; [done|]. split; [exact Hmt|].
  split; [split|].
  - exists (d_mem s). intros i off Hi0 Ho Hlt. assert (0 <= i * PS) by nia. rewrite Hc' by done. rewrite Hm1 by lia.
    unfold s0, globals_to_mem. cbn [set_d_mem set_d_ftl d_mem d_ftl]. rewrite spill_out by lia. done.
  - exists (spill config_cells C f (d_mem s)). intros i off Hi0 Ho Hlt. rewrite Hout.
    + rewrite Hp1 by lia. by rewrite <- Z.add_assoc.
    + intros (i' & Hr' & E). symmetry in E. apply config_page_ne in E; [done|done|]. nia.
  - intros q off Hq Hq2. rewrite Hout by done. rewrite Ho1; [done|]. intros i Hi0. apply Hq2. lia.
Qed.

(** ** Loading *)

(** Pages [k + j] and following of the drive, to pages [i] and following of the
    load buffer. *)
Fixpoint load_list (k : Z) (n : nat) (i j : Z) : list op_page :=
  match n with
  | O => []
  | S n' => OpPage (nth_page g (k + j)) (L + i * PS) :: load_list k n' (i + 1) (j + 1)
  end.

Lemma length_load_list k n : forall i j, length (load_list k n i j) = n.
Proof using. induction n as [|n IH]; intros i j; cbn [load_list length]; [done|]. by rewrite IH. Qed.

Lemma load_list_elem k n : forall i j x, In x (load_list k n i j) <->
  exists t, 0 <= t < Z.of_nat n /\ x = OpPage (nth_page g (k + (j + t))) (L + (i + t) * PS).
Proof using.
  induction n as [|n IH]; intros i j x; cbn [load_list In]; [split; [done|intros (t & Ht & _); lia]|]. rewrite IH. split.
  - intros [<-|(t & Ht & ->)]; [exists 0; split; [lia|by rewrite !Z.add_0_r]|].
    exists (t + 1). split; [lia|]. f_equal; [f_equal; lia|f_equal; f_equal; lia].
  - intros (t & Ht & ->). destruct (decide (t = 0)) as [->|Hne]; [left; by rewrite !Z.add_0_r|].
    right. exists (t - 1). split; [lia|]. f_equal; [f_equal; lia|f_equal; f_equal; lia].
Qed.

Lemma d_add_page_ftl op p a (s s' : drive D) : d_add_page op p a s = Ok s' -> d_ftl s' = d_ftl s.
Proof using. unfold d_add_page. destruct (add_op_page _ _ _ _) as [[? ?]|]; cbn [obind]; intros; by simplify_eq. Qed.

Lemma load_pages_list k N n rop : forall i j (s : drive D),
  (forall i, 0 <= i < N -> arr_get (mapping_tables (ftl_config (d_ftl s))) i = Ok (nth_page g (k + i))) ->
  0 <= j -> j + Z.of_nat n <= N ->
  load_pages g L n i j rop s = d_add_list rop (load_list k n i j) s.
Proof using.
  induction n as [|n IH]; intros i j s Hmt Hj HjN; cbn [load_pages load_list d_add_list]; [done|].
  rewrite Hmt by lia. cbn [obind pg_ppa pg_ssd_addr].
  destruct (d_add_page rop (nth_page g (k + j)) (L + i * PS) s) as [s1|] eqn:E; cbn [obind]; [|done].
  apply IH; [|lia|lia]. by rewrite (d_add_page_ftl _ _ _ _ _ E).
Qed.

(** The pages one batch brings in. *)
Lemma load_chunk_ok k N cnt j (V : mem) (s : drive D) :
  0 <= L -> L + 65536 <= 2 ^ 32 -> 0 <= cnt <= 128 -> cnt * PS <= 65536 -> 0 <= k -> 0 <= j -> j + cnt <= N -> k + N <= TOTAL ->
  drive_ready s ->
  (forall i off, 0 <= i -> 0 <= off < PS -> i * PS + off < len ->
     nand_page (d_nand s) (key_of (nth_page g (k + i))) off = V (i * PS + off)) ->
  exists s1, run_read (load_list k (Z.to_nat cnt) 0 j) s = Ok s1 /\ drive_ready s1 /\
    same_side PR (d_pools s) (d_pools s1) /\ d_ftl s1 = d_ftl s /\ d_kernel s1 = d_kernel s /\
    (forall q off, nand_page (d_nand s1) q off = nand_page (d_nand s) q off) /\
    (forall o, 0 <= o < cnt * PS -> j * PS + o < len -> d_mem s1 (L + o) = V (j * PS + o)) /\
    (forall b, ~ L <= b < L + cnt * PS -> d_mem s1 b = d_mem s b).
Proof using Hg.
  intros HL1 HL2 Hc Hcp Hk Hj HjN HkN Hdr HV. pose proof ps_pos as Hps.
  assert (Hap : buffers_apart g (load_list k (Z.to_nat cnt) 0 j)).
  { intros x y a (t & Ht & ->)%load_list_elem (t' & Ht' & ->)%load_list_elem. cbn [pg_ssd_addr].
    rewrite !in_range_true. intros H1 H2. assert (t = t') as <- by nia. done. }
  destruct (run_read_ok (load_list k (Z.to_nat cnt) 0 j) s Hdr) as (s1 & E & Hdr1 & Hs1 & Hf1 & Hk1 & Hm1 & Hp1).
  - apply List.Forall_forall. intros x (t & Ht & ->)%load_list_elem. cbn [pg_ppa pg_ssd_addr].
    split; [apply (nth_page_in g Hg); lia|nia].
  - done.
  - rewrite length_load_list. lia.
  - exists s1. split_and!; try done.
    + intros o Ho Hlt. rewrite Hm1. pose proof (Z.div_mod o PS ltac:(lia)) as Hd. pose proof (Z.mod_pos_bound o PS ltac:(lia)) as Hmod.
      set (t := o / PS) in *. set (off := o mod PS) in *. assert (Ht : 0 <= t < cnt) by nia.
      replace (L + o) with (pg_ssd_addr (OpPage (nth_page g (k + (j + t))) (L + (0 + t) * PS)) + off) by (cbn [pg_ssd_addr]; lia).
      rewrite (read_pages_get g Hg); [|done|apply load_list_elem; exists t; split; [lia|done]|done].
      cbn [pg_ppa]. rewrite HV by nia. f_equal. lia.
    + intros b Hb. rewrite Hm1. apply read_pages_out. intros x (t & Ht & ->)%load_list_elem. cbn [pg_ssd_addr]. nia.
Qed.

Lemma load_pages_run k N cnt j (s : drive D) :
  (forall i, 0 <= i < N -> arr_get (mapping_tables (ftl_config (d_ftl s))) i = Ok (nth_page g (k + i))) ->
  0 <= cnt -> 0 <= j -> j + cnt <= N -> forall h : drive D -> outcome (drive D),
  (let! '(rop, s) := d_begin_read s in
   let! s := load_pages g L (Z.to_nat cnt) 0 j rop s in
   let! s := d_end_read g rop s in h s) =
  obind (run_read (load_list k (Z.to_nat cnt) 0 j) s) h.
Proof using.
  intros Hmt Hc Hj HjN h. unfold run_read. destruct (d_begin_read s) as [[rop s2]|] eqn:Eb; cbn [obind]; [|done].
  assert (Hs2 : d_ftl s2 = d_ftl s).
  { unfold d_begin_read in Eb. destruct (begin_read_op _) as [[? ?]|]; cbn [obind] in Eb; simplify_eq. done. }
  rewrite (load_pages_list k N); [|by rewrite Hs2|done|lia].
  by destruct (d_add_list rop _ s2) as [s3|]; cbn [obind].
Qed.

Lemma load_buffer_pages : 3 * PS <= 65536 -> 65536 / PS * PS = 65536 /\ 3 <= 65536 / PS <= 128.
Proof using Hg.
  intros H3. pose proof ps_pos as Hps. destruct Hg as (_ & _ & _ & _ & _ & Hp & _).
  assert (E : 65536 = 2 ^ (16 - nand_page_size g) * PS).
  { unfold NAND_PAGE_SIZE in *. rewrite Z.shiftl_1_l in *. rewrite <- Z.pow_add_r; [|destruct (Z.le_gt_cases (nand_page_size g) 16); [lia|]|lia].
    - replace (16 - nand_page_size g + nand_page_size g) with 16 by lia. done.
    - assert (2 ^ 17 <= 2 ^ nand_page_size g) by (apply Z.pow_le_mono_r; lia). lia. }
  assert (E2 : 65536 / PS = 2 ^ (16 - nand_page_size g)) by (rewrite E at 1; apply Z.div_mul; lia).
  rewrite E2. split; [done|]. nia.
Qed.

(** The number of pages and bytes of the next batch, as the code finds them. *)
Definition chunk (r : Z) : Z * Z :=
  if r <? load_mp_buffer_size then
    let count := r / PS in (r, if count * PS <? r then count + 1 else count)
  else (load_mp_buffer_size, load_mp_buffer_pages g).

Lemma chunk_ok r : 3 * PS <= 65536 -> 0 < r -> exists d cnt, chunk r = (d, cnt) /\
  0 < d <= r /\ 0 < cnt <= 128 /\ cnt * PS <= 65536 /\ d <= cnt * PS /\ cnt * PS < d + PS /\ (d = r \/ d = cnt * PS).
Proof using Hg.
  intros H3 Hr. destruct (load_buffer_pages H3) as (HW1 & HW2). pose proof ps_pos as Hps.
  unfold chunk, load_mp_buffer_size, load_mp_buffer_pages. change (Z.shiftl 1 16) with 65536.
  destruct (Z.ltb_spec r 65536) as [Hs|Hs].
  - pose proof (Z.div_mod r PS ltac:(lia)) as Hd. pose proof (Z.mod_pos_bound r PS ltac:(lia)) as Hm.
    set (W := 65536 / PS) in *. assert (r / PS < W) by nia. assert (0 <= r / PS) by (apply Z.div_pos; lia). eexists _, _. split; [reflexivity|].
    destruct (Z.ltb_spec (r / PS * PS) r); split_and!; try lia; nia.
  - eexists _, _. split; [reflexivity|]. split_and!; lia.
Qed.

(** The loop of [restore_mapping_tables] brings the bytes of the tables back. *)
Lemma restore_loop_ok (k N : Z) (V : mem) : layout_ok -> 0 <= k -> k + N <= TOTAL -> len < N * PS -> forall n j (s : drive D),
  drive_ready s -> 0 <= j -> len - j * PS <= Z.of_nat n * PS ->
  (forall i, 0 <= i < N -> arr_get (mapping_tables (ftl_config (d_ftl s))) i = Ok (nth_page g (k + i))) ->
  (forall i off, 0 <= i -> 0 <= off < PS -> i * PS + off < len ->
     nand_page (d_nand s) (key_of (nth_page g (k + i))) off = V (i * PS + off)) ->
  (forall o, 0 <= o < j * PS -> o < len -> d_mem s (T + o) = V o) ->
  exists s', restore_loop g L n (len - j * PS) (T + j * PS) j s = Ok s' /\ drive_ready s' /\
    d_ftl s' = d_ftl s /\ d_kernel s' = d_kernel s /\ same_side PR (d_pools s) (d_pools s') /\
    (forall q off, nand_page (d_nand s') q off = nand_page (d_nand s) q off) /\
    (forall o, 0 <= o < len -> d_mem s' (T + o) = V o).
Proof using Hg.
  intros [_ [HL1 HL2] [_ H3] _ _ _ Hlt _ _] Hk HkN HlN. pose proof ps_pos as Hps. unfold areas_apart in Hlt.
  induction n as [|n IH]; intros j s Hdr Hj Hfuel Hmt HV HM; cbn [restore_loop].
  { destruct (Z.ltb_spec 0 (len - j * PS)); [lia|]. exists s. split_and!; try done. intros o Ho. apply HM; lia. }
  destruct (Z.ltb_spec 0 (len - j * PS)) as [Hr|Hr];
    [|exists s; split_and!; try done; intros o Ho; apply HM; lia].
  fold (chunk (len - j * PS)). destruct (chunk_ok _ H3 Hr) as (d & cnt & -> & Hd & Hc1 & Hc2 & Hc3 & Hc4 & Hlast).
  assert (HjN : j + cnt <= N) by nia.
  rewrite (load_pages_run k N cnt j s Hmt ltac:(lia) Hj HjN).
  destruct (load_chunk_ok k N cnt j V s HL1 HL2 ltac:(lia) Hc2 Hk Hj HjN HkN Hdr HV)
    as (s1 & E1 & Hdr1 & Hs1 & Hf1 & Hk1 & Hp1 & Hb1 & Ho1). rewrite E1. cbn [obind]. cbv zeta.
  set (m2 := memcpy8 (T + j * PS) L d (d_mem s1)).
  assert (Hm2 : forall b, m2 b = if (T + j * PS <=? b) && (b <? T + j * PS + d) then d_mem s1 (L + (b - (T + j * PS))) else d_mem s1 b)
    by (intros b; apply memcpy8_get; [apply Hdr1|lia|unfold disjoint_blocks; nia]).
  pose proof (drive_ready_mem m2 s1 Hdr1 (memcpy8_ok _ _ _ _ (dy_mem _ Hdr1))) as Hdr2.
  assert (HM2 : forall o, 0 <= o < j * PS + d -> m2 (T + o) = V o).
  { intros o Ho. rewrite Hm2. destruct (Z.lt_ge_cases o (j * PS)); zb; cbn [andb].
    - rewrite Ho1 by nia. apply HM; lia.
    - replace (T + o - (T + j * PS)) with (o - j * PS) by lia. rewrite Hb1 by lia. f_equal. lia. }
  destruct Hlast as [->| ->].
  - rewrite Z.sub_diag. exists (set_d_mem m2 s1). split; [by destruct n|]. split; [done|].
    cbn [set_d_mem d_ftl d_kernel d_pools d_nand d_mem]. split_and!; try done. intros o Ho. apply HM2. lia.
  - replace (len - j * PS - cnt * PS) with (len - (j + cnt) * PS) by lia.
    replace (T + j * PS + cnt * PS) with (T + (j + cnt) * PS) by lia.
    destruct (IH (j + cnt) (set_d_mem m2 s1) Hdr2 ltac:(lia) ltac:(nia)) as (s' & E & Hdr' & Hf' & Hk' & Hs' & Hp' & HM').
    + intros i Hi. cbn [set_d_mem d_ftl]. rewrite Hf1. by apply Hmt.
    + intros i off Hi Ho Hl. cbn [set_d_mem d_nand]. rewrite Hp1. by apply HV.
    + intros o Ho Hl. apply HM2. lia.
    + exists s'. split; [done|]. cbn [set_d_mem d_ftl d_kernel d_pools d_nand] in *.
      split; [done|]. split; [congruence|]. split; [congruence|]. split; [by eapply same_side_trans|].
      split; [|done]. intros q off. by rewrite Hp', Hp1.
Qed.

(** The three pages of the configuration come back to [n] bytes at [C]. *)
Lemma load_config_ok n (V : mem) (s : drive D) :
  0 <= L -> L + 65536 <= 2 ^ 32 -> 3 * PS <= 65536 -> 3 <= PAGES_PER_BLOCK g -> 0 <= n <= 3 * PS -> areas_apart L 65536 C n ->
  drive_ready s ->
  (forall i off, 0 <= i < 3 -> 0 <= off < PS -> i * PS + off < n ->
     nand_page (d_nand s) (key_of (config_page i)) off = V (C + (i * PS + off))) ->
  exists s', run_read (config_batch L) s = Ok s' /\ drive_ready s' /\ d_ftl s' = d_ftl s /\ d_kernel s' = d_kernel s /\
    same_side PR (d_pools s) (d_pools s') /\
    (forall q off, nand_page (d_nand s') q off = nand_page (d_nand s) q off) /\
    (forall o, 0 <= o < n -> memcpy8 C L n (d_mem s') (C + o) = V (C + o)).
Proof using Hg.
  intros HL1 HL2 H3 Hblk Hn Hap Hdr HV. pose proof ps_pos as Hps. unfold areas_apart in Hap.
  assert (Hba : buffers_apart g (config_batch L)).
  { intros x y a Hx Hy. rewrite !in_range_true. intros H1 H2.
    destruct Hx as [<-|[<-|[<-|[]]]], Hy as [<-|[<-|[<-|[]]]]; cbn [pg_ssd_addr] in *; first [done|lia]. }
  destruct (run_read_ok (config_batch L) s Hdr (config_batch_placed L Hblk HL1 ltac:(lia)) Hba ltac:(cbn; lia))
    as (s' & E & Hdr' & Hs' & Hf' & Hk' & Hm' & Hp').
  exists s'. split_and!; try done. intros o Ho.
  rewrite memcpy8_get by (try exact (dy_mem _ Hdr'); try lia; unfold disjoint_blocks; lia). zb. cbn [andb].
  rewrite Hm'. pose proof (Z.div_mod o PS ltac:(lia)) as Hd. pose proof (Z.mod_pos_bound o PS ltac:(lia)) as Hmod.
  set (i := o / PS) in *. set (off := o mod PS) in *. assert (Hi : 0 <= i < 3) by nia.
  replace (L + (C + o - C)) with (pg_ssd_addr (OpPage (config_page i) (L + i * PS)) + off) by (cbn [pg_ssd_addr]; lia).
  rewrite (read_pages_get g Hg); [|done|by apply config_batch_elem|done]. cbn [pg_ppa].
  rewrite HV by lia. f_equal. lia.
Qed.

(** What the flash says about [f] is enough to find its configuration and its
    tables again, whatever the memory and the globals hold. *)
Lemma restore_mapping_tables_ok k (f : ftl) (s : drive D) :
  layout_ok -> 2 * P < k -> k + (len / PS + 1) <= TOTAL -> len / PS + 1 <= 1224 -> 3 <= PAGES_PER_BLOCK g ->
  tables_fit f -> (forall j, 0 <= j < len / PS + 1 -> arr_get (mapping_tables (ftl_config f)) j = Ok (nth_page g (k + j))) ->
  (forall c, In c cells -> is_table c = true) -> saved k f (nand_page (d_nand s)) ->
  drive_ready s -> tables_fit (d_ftl s) -> (1224 <= length (mapping_tables (ftl_config (d_ftl s))))%nat ->
  exists s', restore_mapping_tables g L C T (T + len) cells s = Ok s' /\ drive_ready s' /\ tables_fit (d_ftl s') /\
    same_cells (config_cells ++ cells) f (d_ftl s') /\ same_side PR (d_pools s) (d_pools s') /\
    (forall q off, nand_page (d_nand s') q off = nand_page (d_nand s) q off).
Proof using Hg.
  intros Hlo Hk Hroom Harr Hblk Hf Hmt Htab [(mc & Hc) (mt & Ht)] Hdr H0 Hl. pose proof ps_pos as Hps.
  pose proof (cells_bytes_nonneg cells) as Hlen. destruct (dims g Hg) as (HP & _).
  set (N := len / PS + 1) in *.
  assert (HN : 0 < N /\ len < N * PS).
  { pose proof (Z.div_mod len PS ltac:(lia)). pose proof (Z.mod_pos_bound len PS ltac:(lia)).
    pose proof (Z.div_pos len PS). unfold N. nia. }
  pose proof Hlo as [_ [HL1 HL2] [Hpg H3] _ _ Hlc _ _ Hl32]. pose proof sizeof_config as Hsz.
  destruct (load_config_ok sizeof_ftl_config (spill config_cells C f mc) s HL1 HL2 H3 Hblk ltac:(lia) Hlc Hdr Hc)
    as (s1 & E1 & Hdr1 & Hf1 & Hk1 & Hs1 & Hp1 & Hm1).
  unfold restore_mapping_tables. rewrite <- config_batch_read in E1.
  destruct (d_begin_read s) as [[rop sa]|]; cbn [obind] in E1 |- *; [|done].
  destruct (d_add_page rop first_page L sa) as [sb|]; cbn [obind] in E1 |- *; [|done].
  destruct (d_add_page rop (inc_page first_page) (L + PS) sb) as [sc|]; cbn [obind] in E1 |- *; [|done].
  destruct (d_add_page rop (inc_page (inc_page first_page)) (L + PS + PS) sc) as [sd|]; cbn [obind] in E1 |- *; [|done].
  rewrite E1. cbn [obind].
  pose proof (drive_ready_mem _ s1 Hdr1 (memcpy8_ok C L sizeof_ftl_config (d_mem s1) (dy_mem _ Hdr1))) as Hdr2.
  set (m2 := memcpy8 C L sizeof_ftl_config (d_mem s1)) in *.
  pose proof (spill_hold config_cells C C f mc m2 Hf Hm1) as Hh.
  destruct (fill_get config_cells C m2 f (d_ftl s1) Hh Hf) as (F1 & F2 & _ & F4 & _).
  { rewrite Hf1. by apply config_cells_in. }
  { by rewrite Hf1. }
  unfold config_from_mem. cbn [set_d_mem d_mem d_ftl].
  set (f2 := fill config_cells C m2 (d_ftl s1)) in *.
  assert (Hl2 : (1224 <= length (mapping_tables (ftl_config f2)))%nat).
  { assert (Hin : cell_in (CTable 1223) f2) by (apply F2; rewrite Hf1; cbn [cell_in]; lia). cbn [cell_in] in Hin. lia. }
  clearbody f2. clear Hh Hm1. clearbody m2. set (s3 := set_d_ftl f2 (set_d_mem m2 s1)).
  pose proof (drive_ready_ftl f2 _ Hdr2) as Hdr3. fold s3 in Hdr3.
  assert (Htb : table_bytes T (T + len) = len) by (unfold table_bytes; rewrite u32_id by lia; lia).
  unfold table_fuel. rewrite Htb. fold N.
  destruct (restore_loop_ok k N (fun o => spill cells T f mt (T + o)) Hlo ltac:(lia) ltac:(lia) (proj2 HN) (Z.to_nat N) 0 s3 Hdr3)
    as (s4 & E4 & Hdr4 & Hf4 & Hk4 & Hs4 & Hp4 & Hm4).
  - lia.
  - rewrite Z2Nat.id by lia. lia.
  - intros i Hi. apply (same_table i f f2 _ Hf F1 Hl2); [exact F4|lia|by apply Hmt].
  - intros i off Hi Ho Hlt. cbn [s3 set_d_ftl set_d_mem d_nand]. rewrite Hp1. by apply Ht.
  - intros o Ho. lia.
  - rewrite Z.mul_0_l, Z.sub_0_r, Z.add_0_r in E4. rewrite E4. cbn [obind].
    pose proof (spill_hold cells T T f mt (d_mem s4) Hf Hm4) as Hh4.
    destruct (fill_get cells T (d_mem s4) f (d_ftl s4) Hh4 Hf) as (G1 & G2 & _ & G4 & G5).
    { intros c Hcin. specialize (Htab c Hcin). by destruct c. }
    { rewrite Hf4. exact F1. }
    unfold tables_from_mem. set (f5 := fill cells T (d_mem s4) (d_ftl s4)) in *. clearbody f5. clear Hh4.
    exists (set_d_ftl f5 s4). split; [done|].
    split; [exact (drive_ready_ftl _ s4 Hdr4)|]. split; [exact G1|]. split; [|split].
    + intros c Hcin. apply in_app_iff in Hcin as [Hcin|Hcin]; [|exact (G4 c Hcin)].
      transitivity (cell_get c (d_ftl s4)); [apply G5; intros Hx; pose proof (config_cells_not_table c Hcin) as Hnt; rewrite (Htab c Hx) in Hnt; discriminate|].
      transitivity (cell_get c (d_ftl s3)); [f_equal; exact Hf4|exact (F4 c Hcin)].
    + exact (same_side_trans _ _ _ _ Hs1 Hs4).
    + intros q off. change (d_nand (set_d_ftl f5 s4)) with (d_nand s4). rewrite Hp4. exact (Hp1 q off).
Qed.

(** ** Starting again *)

Lemma start_search_cells f c : cell_get c (start_search f) = cell_get c f.
Proof using. by destruct c. Qed.

Lemma start_search_fits f : tables_fit f -> tables_fit (start_search f).
Proof using. intros [T1 T2 T3 T4 T5 T6]. split; try done. apply T6. Qed.

(** [n] bytes of the first page come to [C]. *)
Lemma read_first_ok n (V : mem) (s : drive D) :
  0 <= B -> B + 3 * PS <= 2 ^ 32 -> 3 <= PAGES_PER_BLOCK g -> 4 <= n -> areas_apart B (3 * PS) C n -> n <= 3 * PS ->
  drive_ready s -> (forall off, 0 <= off < 4 -> nand_page (d_nand s) (key_of first_page) off = V (C + off)) ->
  exists s1, run_read [OpPage first_page B] s = Ok s1 /\ drive_ready s1 /\ d_ftl s1 = d_ftl s /\
    (forall q off, nand_page (d_nand s1) q off = nand_page (d_nand s) q off) /\
    (forall o, 0 <= o < 4 -> memcpy8 C B n (d_mem s1) (C + o) = V (C + o)).
Proof using Hg.
  intros HB1 HB2 Hblk Hn Hbc Hn3 Hdr HV. pose proof ps_pos as Hps. unfold areas_apart in Hbc.
  assert (Hba : buffers_apart g [OpPage first_page B]) by (intros x y a [<-|[]] [<-|[]]; done).
  destruct (run_read_ok [OpPage first_page B] s Hdr) as (s1 & E1 & Hdr1 & _ & Hf1 & _ & Hm1 & Hp1).
  - apply placed_one; [exact (config_page_in 0 Hblk ltac:(lia))|lia].
  - done.
  - cbn. lia.
  - exists s1. split_and!; try done. intros o Ho.
    rewrite memcpy8_get by (try exact (dy_mem _ Hdr1); try lia; unfold disjoint_blocks; lia). zb. cbn [andb].
    rewrite Hm1. replace (B + (C + o - C)) with (pg_ssd_addr (OpPage first_page B) + o) by (cbn [pg_ssd_addr]; lia).
    rewrite (read_pages_get g Hg) by (done || lia || by left). apply HV. lia.
Qed.

Lemma read_config_ok (f : ftl) mc (s : drive D) :
  layout_ok -> 3 <= PAGES_PER_BLOCK g -> tables_fit f ->
  (forall off, 0 <= off < 4 -> nand_page (d_nand s) (key_of first_page) off = spill config_cells C f mc (C + off)) ->
  drive_ready s -> tables_fit (d_ftl s) -> (1224 <= length (mapping_tables (ftl_config (d_ftl s))))%nat ->
  exists s2, read_config g B C s = Ok s2 /\ drive_ready s2 /\ tables_fit (d_ftl s2) /\
    (1224 <= length (mapping_tables (ftl_config (d_ftl s2))))%nat /\
    fc_nand_ds (ftl_config (d_ftl s2)) = fc_nand_ds (ftl_config f) /\
    (forall q off, nand_page (d_nand s2) q off = nand_page (d_nand s) q off).
Proof using Hg.
  intros [[HB1 HB2] _ [Hpg _] Hbc _ _ _ _ _] Hblk Hf Hc Hdr H0 Hl.
  assert (Hsz4 : 4 <= sizeof_ftl_config) by (vm_compute; done).
  destruct (read_first_ok sizeof_ftl_config (spill config_cells C f mc) s HB1 HB2 Hblk Hsz4 Hbc Hpg Hdr Hc)
    as (s1 & E1 & Hdr1 & Hf1 & Hp1 & Hm1).
  unfold run_read in E1. cbn [d_add_list pg_ppa pg_ssd_addr] in E1. unfold read_config, ZERO_BUFFER.
  destruct (d_begin_read s) as [[rop sa]|]; cbn [obind] in E1 |- *; [|done].
  destruct (d_add_page rop first_page B sa) as [sb|]; cbn [obind] in E1 |- *; [|done]. rewrite E1. cbn [obind].
  pose proof (memcpy8_ok C B sizeof_ftl_config (d_mem s1) (dy_mem _ Hdr1)) as Hmc.
  set (m2 := memcpy8 C B sizeof_ftl_config (d_mem s1)) in *. clearbody m2. unfold config_from_mem.
  pose proof (fill_config_ds mc m2 C C f (d_ftl s) Hf H0 Hl Hmc Hm1) as Hds.
  destruct (fill_keep config_cells C m2 (d_ftl s) Hmc H0 (config_cells_in _ Hl)) as (F1 & F2 & _).
  change (d_mem (set_d_mem m2 s1)) with m2. change (d_ftl (set_d_mem m2 s1)) with (d_ftl s1). rewrite Hf1.
  set (f1 := fill config_cells C m2 (d_ftl s)) in *. clearbody f1.
  eexists. split; [reflexivity|].
  split; [apply drive_ready_mem; [apply drive_ready_ftl, drive_ready_mem; done|by apply memset32_bytes]|].
  split; [exact F1|]. split; [|split; [exact Hds|exact Hp1]].
  assert (Hin : cell_in (CTable 1223) f1) by (apply F2; cbn [cell_in]; lia). cbn [cell_in] in Hin. cbn [set_d_mem set_d_ftl d_ftl]. lia.
Qed.

(** A flash that holds a configuration is not taken for a new one. *)
Lemma initialize_ftl_ok k (f : ftl) (s : drive D) :
  layout_ok -> 2 * P < k -> k + (len / PS + 1) <= TOTAL -> len / PS + 1 <= 1224 -> 3 <= PAGES_PER_BLOCK g ->
  tables_fit f -> (forall j, 0 <= j < len / PS + 1 -> arr_get (mapping_tables (ftl_config f)) j = Ok (nth_page g (k + j))) ->
  (forall c, In c cells -> is_table c = true) -> saved k f (nand_page (d_nand s)) -> 9 <= fc_nand_ds (ftl_config f) ->
  drive_ready s -> tables_fit (d_ftl s) -> (1224 <= length (mapping_tables (ftl_config (d_ftl s))))%nat ->
  exists s', initialize_ftl g B L C T (T + len) cells s =
      Ok (total_logical_pages (ftl_config (d_ftl s')), fc_host_ds (ftl_config (d_ftl s')), s') /\
    drive_ready s' /\ tables_fit (d_ftl s') /\ same_cells (config_cells ++ cells) f (d_ftl s') /\
    last_searched_channel (d_ftl s') = last_selected_ppa (ftl_config (d_ftl s')) /\
    (forall q off, nand_page (d_nand s') q off = nand_page (d_nand s) q off).
Proof using Hg.
  intros Hlo Hk Hroom Harr Hblk Hf Hmt Htab Hsv Hds Hdr H0 Hl. pose proof ps_pos as Hps.
  destruct Hsv as [(mc & Hc) (mt & Ht)].
  destruct (read_config_ok f mc s Hlo Hblk Hf) as (s2 & E2 & Hdr2 & F1 & F2 & Hds2 & Hp2); [|done|done|done|].
  { intros off Ho. assert (Hs : 4 <= sizeof_ftl_config) by (vm_compute; done). apply (Hc 0 off); lia. }
  destruct (restore_mapping_tables_ok k f s2 Hlo Hk Hroom Harr Hblk Hf Hmt Htab) as (s3 & E3 & Hdr3 & G1 & G2 & _ & G4);
    [|exact Hdr2|exact F1|exact F2|].
  { split; [exists mc|exists mt]; intros i off Hi Ho Hlt; rewrite Hp2; [by apply Hc|by apply Ht]. }
  unfold initialize_ftl. rewrite E2. cbn [obind]. rewrite Hds2. zb. rewrite E3. cbn [obind].
  exists (set_d_ftl (start_search (d_ftl s3)) s3). split; [reflexivity|].
  split; [by apply drive_ready_ftl|]. split; [by apply start_search_fits|]. split; [|split; [done|]].
  - intros c Hcin. change (cell_get c (start_search (d_ftl s3)) = cell_get c f). rewrite start_search_cells. by apply G2.
  - intros q off. exact (eq_trans (G4 q off) (Hp2 q off)).
Qed.

(** ** The power cycle *)

(** The section of the tables holds numbers of tables, every one of the drive
    among them. *)
Record tables_laid_out : Prop := TablesLaidOut {
  tl_tables : forall c, In c cells -> is_table c = true;
  tl_lpa : forall l, 0 <= l < TOTAL -> In (CLpa l) cells;
  tl_ppa : forall p, ppa_in g p = true -> In (CPpa (key_of p)) cells;
  tl_last : forall c d l, plane_in g c d l = true -> In (CLastPage (c, d, l)) cells }.

(** The invariant only looks at the numbers of the drive's own pages. *)
Lemma map_inv_ext k f f' :
  (forall l, 0 <= l < TOTAL -> lpa_table f' l = lpa_table f l) ->
  (forall p, ppa_in g p = true -> ppa_table f' (key_of p) = ppa_table f (key_of p)) ->
  (forall c d l, plane_in g c d l = true -> last_page_per_plane f' (c, d, l) = last_page_per_plane f (c, d, l)) ->
  last_searched_channel f' = last_searched_channel f -> map_inv g k f -> map_inv g k f'.
Proof using.
  intros El Ep Eb Es [I1 I2 I3 I4 I5 I6]. split; [done|by rewrite Es| | | |].
  - intros c d l Hin. rewrite Eb by done. by apply I3.
  - intros p Hp. rewrite Ep by done. by apply I4.
  - intros l Hl. rewrite El by done. intros Hc. destruct (I5 l Hl Hc) as (Hin & Ho). split; [done|]. by rewrite Ep.
  - intros p Hp. rewrite Ep by done. destruct (I6 p Hp) as [?|[?|[?|(Hr & Hc & Hk)]]]; [tauto..|].
    right. right. right. by rewrite !El.
Qed.

(** A drive with the cells of [f] behaves like [f]. *)
Lemma same_cells_inv k f f' : tables_laid_out -> tables_fit f -> tables_fit f' -> same_cells (config_cells ++ cells) f f' ->
  last_searched_channel f' = last_selected_ppa (ftl_config f') -> last_selected_ppa (ftl_config f) = last_searched_channel f ->
  map_inv g k f -> map_inv g k f' /\ forall l, 0 <= l < TOTAL -> lpa_table f' l = lpa_table f l.
Proof using.
  intros [Ht Hl Hp Hb] Hf Hf' Hs E' E Hi.
  assert (Hc : same_cells cells f f') by (intros c Hc; apply Hs, in_app_iff; by right).
  assert (El : forall l, 0 <= l < TOTAL -> lpa_table f' l = lpa_table f l).
  { intros l Hlr. apply ppa_data_inj; [apply Hf'|apply Hf|]. exact (Hc (CLpa l) (Hl l Hlr)). }
  split; [|exact El]. apply (map_inv_ext k f); try done.
  - intros p Hpin. exact (Hc (CPpa (key_of p)) (Hp p Hpin)).
  - intros c d l Hin. apply ppa_data_inj; [apply Hf'|apply Hf|]. exact (Hc (CLastPage (c, d, l)) (Hb c d l Hin)).
  - rewrite E', <- E. destruct Hf as [_ _ _ _ _ (_ & Hf & _)], Hf' as [_ _ _ _ _ (_ & Hf' & _)].
    apply ppa_data_inj; [done|done|]. apply (Hs CSelected), in_app_iff. left. unfold config_cells.
    apply in_app_iff. right. by left.
Qed.

Lemma config_words_ds c c' : config_words c' = config_words c -> fc_nand_ds c' = fc_nand_ds c.
Proof using. intros E. exact (f_equal (hd 0) E). Qed.

(** A drive that can be shut down, and what the module may find when it starts
    again: any tables of the right widths and any memory. *)
Record shut_ready (k : Z) (dk : disk) (s : drive D) : Prop := ShutReady {
  sh_disk : disk_rel g k dk s;
  sh_store : storable k (d_ftl s);
  sh_ds : fc_nand_ds (ftl_config (d_ftl s)) = NAND_DS g;
  sh_read : pool_ready RD True (d_pools s);
  sh_program : pool_ready PR True (d_pools s) }.

Record boot_ready (f : ftl) (ps : op_pools) (m : mem) : Prop := BootReady {
  bt_fits : tables_fit f;
  bt_array : length (mapping_tables (ftl_config f)) = 1224%nat;
  bt_mem : mem_ok m;
  bt_read : pool_ready RD True ps }.

(** What the flash holds for a drive with the tables [f] and the contents [dk]: the
    configuration in the first three pages of the first block, the bytes of the
    section of the tables in the flash pages that the configuration lists, which
    lie one after the other from page [k0] on, and the data where the tables say. *)
Record holds_image (k k0 : Z) (f : ftl) (dk : disk) (page : page_key -> mem) : Prop := HoldsImage {
  im_inv : map_inv g k f;
  im_fits : tables_fit f;
  im_selected : last_selected_ppa (ftl_config f) = last_searched_channel f;
  im_ds : fc_nand_ds (ftl_config f) = NAND_DS g;
  im_saved : saved k0 f page;
  im_entries : forall j, 0 <= j < len / PS + 1 -> arr_get (mapping_tables (ftl_config f)) j = Ok (nth_page g (k0 + j));
  im_room : 2 * P < k0 /\ k0 + (len / PS + 1) <= TOTAL /\ len / PS + 1 <= 1224;
  im_disk : represents g page (lpa_table f) dk }.

Lemma boot_drive_ready f0 ps0 m0 (d : D) ker0 :
  boot_ready f0 ps0 m0 -> nand_ready g d -> pages_ok (nand_page d) -> drive_ready (Drive f0 ps0 d m0 ker0).
Proof using. intros [_ _ Hm Hp] Hn Hpg. by split. Qed.

(** C12: starting on a flash that holds the image of a drive restores the drive:
    whatever the memory and the globals contain, [initialize_ftl] succeeds,
    reports the stored capacity and page size, makes every number of the
    configuration and of the tables the stored one, puts the search for free
    pages where it stood, represents the contents the image has, and does not
    write the flash.  (What the shutdown makes of it is the subject of the last
    theorem of the section.) *)
Theorem initialize_ftl_restores k k0 f dk (d : D) f0 ps0 m0 ker0 :
  layout_ok -> tables_laid_out -> 3 <= PAGES_PER_BLOCK g -> boot_ready f0 ps0 m0 ->
  nand_ready g d -> pages_ok (nand_page d) -> holds_image k k0 f dk (nand_page d) ->
  exists s', initialize_ftl g B L C T (T + len) cells (Drive f0 ps0 d m0 ker0) =
      Ok (total_logical_pages (ftl_config f), fc_host_ds (ftl_config f), s') /\
    disk_rel g k dk s' /\ same_cells (config_cells ++ cells) f (d_ftl s') /\
    last_searched_channel (d_ftl s') = last_searched_channel f /\
    (forall q off, nand_page (d_nand s') q off = nand_page d q off).
Proof using Hg.
  intros Hlo Htl Hblk Hb Hn Hpg [Hi Hf Hsel Hds Hsv Hen (Hk0 & Hroom & Hsm) Hdk].
  pose proof (boot_drive_ready f0 ps0 m0 d ker0 Hb Hn Hpg) as Hdr. destruct Hb as [B1 B2 _ _].
  destruct (initialize_ftl_ok k0 f (Drive f0 ps0 d m0 ker0) Hlo Hk0 Hroom Hsm Hblk Hf Hen (tl_tables Htl) Hsv)
    as (s' & E & [D1 D2 D3 D4] & Hf' & Hc & Hsel' & Hp); [|exact Hdr|exact B1|cbn [d_ftl]; lia|].
  { rewrite Hds. destruct Hg as (_ & _ & _ & _ & _ & Hnd & _). unfold NAND_DS. lia. }
  destruct (same_cells_inv k f (d_ftl s') Htl Hf Hf' Hc Hsel' Hsel Hi) as (Hi' & El).
  assert (Hw : forall i, (i < 11)%nat -> nth i (config_words (ftl_config (d_ftl s'))) 0 = nth i (config_words (ftl_config f)) 0).
  { intros i Hlt. apply (Hc (CWord i)), in_app_iff. left. unfold config_cells. apply in_app_iff. left. apply in_map, in_seq. lia. }
  exists s'. rewrite E. split.
  { do 3 f_equal; [exact (Hw 7%nat ltac:(lia))|exact (Hw 1%nat ltac:(lia))]. }
  split; [|split; [exact Hc|split; [|exact Hp]]].
  - split; try done. intros l off Hl Ho. rewrite El by done. rewrite (Hdk l off Hl Ho). case_if; [done|by rewrite Hp].
  - rewrite Hsel', <- Hsel. apply ppa_data_inj; [apply Hf'|apply Hf|]. apply (Hc CSelected), in_app_iff. left.
    unfold config_cells. apply in_app_iff. right. by left.
Qed.

(** Filling the configuration leaves the tables alone, and its first word is the
    one in memory. *)
Lemma fill_config_only l a m f : (forall c, In c l -> is_table c = false) -> exists cfg, fill l a m f = set_config cfg f.
Proof using.
  revert a f. induction l as [|c l IH]; intros a f Hl; [exists (ftl_config f); by destruct f|].
  rewrite fill_cons. destruct (IH (a + Z.of_nat (cell_width c)) (cell_put c (load_le (cell_width c) a m) f)) as (cfg & ->).
  - intros c' Hc'. apply Hl. by right.
  - exists cfg. pose proof (Hl c (or_introl eq_refl)) as Hc. by destruct c.
Qed.

Lemma fill_config_word a m f : mem_ok m -> tables_fit f -> (1224 <= length (mapping_tables (ftl_config f)))%nat ->
  fc_nand_ds (ftl_config (fill config_cells a m f)) = load_le 4 a m.
Proof using.
  intros Hm Hf Hl. rewrite <- cell_ds. rewrite config_cells_cons, fill_cons. change (cell_width (CWord 0)) with 4%nat.
  pose proof (load_le_fits 4 a m Hm) as Hv.
  assert (Hin : forall c, In c config_rest -> cell_in c f)
    by (intros c Hc; apply (config_cells_in f Hl); rewrite config_cells_cons; by right).
  assert (Hin0 : cell_in (CWord 0) f) by (cbn; lia).
  destruct (fill_keep config_rest (a + Z.of_nat 4) m (cell_put (CWord 0) (load_le 4 a m) f)) as (_ & _ & ->); [done|..].
  - by apply cell_put_fits.
  - intros c Hc. by apply cell_in_put, Hin.
  - by apply cell_get_put.
  - apply config_rest_no_ds.
Qed.

Lemma new_capacity_value :
  let reserved := TOTAL / 100 * OVP g + (len / PS + 1) in
  0 <= OVP g -> reserved <= TOTAL -> (TOTAL - reserved) * 2 ^ HOST_2_NAND_DS g < 2 ^ 32 ->
  new_capacity g len = (TOTAL - reserved) * 2 ^ HOST_2_NAND_DS g.
Proof using Hg.
  intros reserved Hov Hres Hcap. pose proof ps_pos as Hps. pose proof (dims g Hg) as Hd. destruct Hg as (_ & _ & _ & _ & _ & _ & Hh & _).
  assert (Hm : 0 <= len / PS) by (apply Z.div_pos; [apply cells_bytes_nonneg|lia]).
  assert (Ho : 0 <= TOTAL / 100 * OVP g) by (apply Z.mul_nonneg_nonneg; [apply Z.div_pos; lia|done]).
  unfold reserved in *. unfold new_capacity.
  rewrite Z.shiftl_mul_pow2 by (unfold HOST_2_NAND_DS, NAND_DS, HOST_DS; lia).
  assert (Ht : TOTAL <= 2 ^ 30) by apply Hd. clear Hd Hh Hps reserved. revert Hm Ho Hres Hcap.
  generalize (TOTAL / 100 * OVP g) (len / PS) (2 ^ HOST_2_NAND_DS g) (Z.pow_nonneg 2 (HOST_2_NAND_DS g) ltac:(lia)).
  intros o q r Hr Hm Ho Hres Hcap. rewrite (u32_id o), (u32_id (q + 1)), (u32_id (o + (q + 1))), (u32_id (TOTAL - _)) by lia.
  apply u32_id. split; [apply Z.mul_nonneg_nonneg; lia|exact Hcap].
Qed.

(** C13: starting on a flash without a configuration makes a new drive: when the
    first word of the flash is below 9, [initialize_ftl] reports all pages but the
    over-provisioned ones and those kept for the tables, in host pages, and the
    drive represents the disk of zeros whatever the flash holds; the first page
    is the only one in use, and the flash is not written. *)
Theorem initialize_ftl_new_medium (d : D) ps0 m0 ker0 :
  let reserved := TOTAL / 100 * OVP g + (len / PS + 1) in
  layout_ok -> 3 <= PAGES_PER_BLOCK g -> boot_ready ftl0 ps0 m0 ->
  nand_ready g d -> pages_ok (nand_page d) -> load_le 4 0 (nand_page d (key_of first_page)) < 9 ->
  0 <= OVP g -> reserved <= TOTAL -> (TOTAL - reserved) * 2 ^ HOST_2_NAND_DS g < 2 ^ 32 ->
  exists s', initialize_ftl g B L C T (T + len) cells (Drive ftl0 ps0 d m0 ker0) =
      Ok ((TOTAL - reserved) * 2 ^ HOST_2_NAND_DS g, HOST_DS g, s') /\
    disk_rel g 1 (fun _ _ => 0) s' /\ count_inv g 1 (d_ftl s') /\
    (forall q off, nand_page (d_nand s') q off = nand_page d q off).
Proof using Hg.
  intros reserved Hlo Hblk Hb Hn Hpg Hds Hov Hres Hcap. pose proof ps_pos as Hps.
  pose proof (boot_drive_ready ftl0 ps0 m0 d ker0 Hb Hn Hpg) as Hdr.
  destruct Hlo as [[HB1 HB2] _ [Hsz _] Hbc _ _ _ _ _].
  assert (Hsz4 : 4 <= sizeof_ftl_config) by (vm_compute; done).
  assert (Hf0 : d_ftl (Drive ftl0 ps0 d m0 ker0) = ftl0) by done.
  assert (Hn0 : nand_page (d_nand (Drive ftl0 ps0 d m0 ker0)) = nand_page d) by done.
  set (s0 := Drive ftl0 ps0 d m0 ker0) in *. clearbody s0.
  destruct (read_first_ok sizeof_ftl_config (fun a => nand_page d (key_of first_page) (a - C)) s0
    HB1 HB2 Hblk Hsz4 Hbc Hsz Hdr) as (s1 & E1 & [D1 D2 D3 D4] & Hf1 & Hp1 & Hm1).
  { intros off Ho. rewrite Hn0. f_equal. lia. }
  rewrite Hf0 in Hf1. rewrite Hn0 in Hp1.
  pose proof (memcpy8_ok C B sizeof_ftl_config (d_mem s1) D3) as Hmc.
  set (m2 := memcpy8 C B sizeof_ftl_config (d_mem s1)) in *.
  destruct (fill_config_only config_cells C m2 ftl0 config_cells_not_table) as (cfg & Efill).
  assert (Hword : fc_nand_ds cfg < 9).
  { pose proof (fill_config_word C m2 ftl0 Hmc ftl0_fits ltac:(rewrite (bt_array _ _ _ Hb); lia)) as Hw.
    rewrite Efill in Hw. cbn [set_config ftl_config] in Hw. rewrite Hw.
    rewrite (load_le_same 4 C 0 m2 (nand_page d (key_of first_page))); [done|].
    intros o Ho. rewrite Hm1 by lia. f_equal. lia. }
  destruct (new_media_any g Hg cfg len) as (f & Ef & Hi & Hc & El & Et & Eh).
  exists (set_d_ftl (start_search f) (set_d_mem (memset32 B 0 (PS / 4) m2) s1)). split.
  - unfold initialize_ftl, read_config, ZERO_BUFFER, run_read in *. cbn [d_add_list pg_ppa pg_ssd_addr] in E1.
    destruct (d_begin_read s0) as [[rop sa]|]; cbn [obind] in E1 |- *; [|discriminate E1].
    destruct (d_add_page rop first_page B sa) as [sb|]; cbn [obind] in E1 |- *; [|discriminate E1]. rewrite E1. cbn [obind].
    unfold config_from_mem. cbn [set_d_mem set_d_ftl d_mem d_ftl]. fold m2. rewrite Hf1.
    rewrite Efill. cbn [set_config ftl_config]. rewrite (proj2 (Z.ltb_lt _ _) Hword).
    replace (T + len - T) with len by lia. rewrite Ef. cbn [obind set_d_ftl d_ftl start_search set_last_searched].
    rewrite Et, Eh. do 3 f_equal. by apply new_capacity_value.
  - split; [|split; [exact Hc|exact Hp1]]. split; cbn [set_d_ftl set_d_mem d_ftl d_mem d_nand]; [exact Hi|exact D4| | |exact D2].
    + by apply memset32_bytes.
    + intros l off Hl _. cbn [start_search set_last_searched lpa_table]. by rewrite El.
Qed.

Lemma power_cycle_ok k dk (s : drive D) f0 ps0 m0 ker0 :
  layout_ok -> tables_laid_out -> shut_ready k dk s -> boot_ready f0 ps0 m0 ->
  exists s1 s2,
    store_mapping_tables g (S fuel) B C T (T + len) cells s = Ok s1 /\
    initialize_ftl g B L C T (T + len) cells (Drive f0 ps0 (d_nand s1) m0 ker0) =
      Ok (total_logical_pages (ftl_config (d_ftl s2)), fc_host_ds (ftl_config (d_ftl s2)), s2) /\
    drive_ready s2 /\ tables_fit (d_ftl s2) /\ same_cells (config_cells ++ cells) (d_ftl s1) (d_ftl s2) /\
    map_inv g (k + (len / PS + 1)) (d_ftl s2) /\
    (forall l, 0 <= l < TOTAL -> lpa_table (d_ftl s2) l = lpa_table (d_ftl s) l) /\
    (forall q off, ~ config_key q -> (forall i, 0 <= i < len / PS + 1 -> key_of (nth_page g (k + i)) <> q) ->
       nand_page (d_nand s2) q off = nand_page (d_nand s) q off).
Proof using Hg.
  intros Hlo Htl [[Hi Hp Hm Hr Hrd] Hst Hds Hrp Hpp] [H0 Hl0 Hm0 Hps0].
  destruct (store_mapping_tables_ok k s Hlo Hst (DriveReady s Hrp Hrd Hm Hp) Hpp)
    as (s1 & E1 & Hdr1 & Hi1 & El1 & Hf1 & Hw1 & Hsel1 & Hmt1 & Hsv1 & Hp1).
  destruct Hst as [_ _ _ _ Harr Hroom Hfirst Hblk].
  destruct Hdr1 as [Hrp1 Hrd1 Hm1 Hpg1].
  destruct (initialize_ftl_ok k (d_ftl s1) (Drive f0 ps0 (d_nand s1) m0 ker0) Hlo Hfirst Hroom Harr Hblk Hf1 Hmt1 (tl_tables Htl) Hsv1)
    as (s2 & E2 & Hdr2 & Hf2 & Hc2 & Hsel2 & Hp2).
  - rewrite (config_words_ds _ _ Hw1), Hds. destruct Hg as (_ & _ & _ & _ & _ & Hn & _). unfold NAND_DS. lia.
  - by split.
  - exact H0.
  - cbn [d_ftl]. lia.
  - destruct (same_cells_inv _ _ _ Htl Hf1 Hf2 Hc2 Hsel2 Hsel1 Hi1) as (Hi2 & El2).
    exists s1, s2. split_and!; try done.
    + intros l Hl. by rewrite El2, El1.
    + intros q off Hq1 Hq2. by rewrite Hp2, <- Hp1.
Qed.

(** With every program batch in its pool the disk would survive a power cycle, but
    for two flash pages: after [shutdown_ftl_module] and a new start on the same
    flash, every logical page has its contents again unless it lay in page 1 or 2
    of the first block, where the configuration is written although only page 0
    is kept free for it; the tables take exactly the next free flash pages.  The
    pools [init_op_obj] sets up hold one program batch, see the last theorem of
    the section for what happens then. *)
Theorem power_cycle k dk (s : drive D) f0 ps0 m0 ker0 :
  layout_ok -> tables_laid_out -> shut_ready k dk s -> boot_ready f0 ps0 m0 ->
  exists s1 s2 r dk',
    shutdown_ftl_module g (S fuel) B C T (T + len) cells s = Ok (0, s1) /\
    initialize_ftl g B L C T (T + len) cells (Drive f0 ps0 (d_nand s1) m0 ker0) = Ok (r, s2) /\
    disk_rel g (k + (len / PS + 1)) dk' s2 /\
    forall lpn off, 0 <= lpn < TOTAL -> 0 <= off < PS -> ~ config_key (key_of (lpa_table (d_ftl s) lpn)) ->
      dk' lpn off = dk lpn off.
Proof using Hg.
  intros Hlo Htl Hsh Hb. destruct (power_cycle_ok k dk s f0 ps0 m0 ker0) as (s1 & s2 & E1 & E2 & Hdr2 & _ & _ & Hi2 & El2 & Hp2); [done..|].
  destruct Hsh as [Hr [Hi _ _ _ _ Hroom _ _] _ _ _].
  exists s1, s2. eexists. exists (fun lpn off => if chn (lpa_table (d_ftl s) lpn) =? 255 then 0
                         else nand_page (d_nand s2) (key_of (lpa_table (d_ftl s) lpn)) off).
  unfold shutdown_ftl_module. rewrite E1. split; [done|]. split; [exact E2|].
  split; [destruct Hdr2; split; try done; intros l off Hl Ho; by rewrite El2|].
  intros lpn off Hl Ho Hq. rewrite (dr_rep _ _ _ _ Hr lpn off Hl Ho).
  destruct (Z.eqb_spec (chn (lpa_table (d_ftl s) lpn)) 255) as [Hu|Hu]; [done|]. apply Hp2; [done|].
  intros i Hir E. destruct (mi_lpa _ _ _ Hi lpn Hl Hu) as (_ & Hv). rewrite <- E in Hv.
  pose proof (mi_range _ _ _ Hi) as Hk. destruct (nth_page_in g Hg (k + i) ltac:(lia)) as (Hin & Hno).
  assert (Hfree : ppa_table (d_ftl s) (key_of (nth_page g (k + i))) = FREE_PPA) by (apply (mi_free _ _ _ Hi); [done|lia]).
  destruct (lpn_values g Hg lpn Hl) as (Hv' & _). by rewrite Hfree in Hv.
Qed.

(** ** The pools as the start-up leaves them *)

Lemma second_run_null x l (s s' : drive D) :
  d_pools s = init_pools -> run_program [x] s = Ok s' -> forall m, run_program l (set_d_mem m s') = Fault FNull.
Proof using.
  intros Hp. unfold run_program at 1. unfold d_begin_program. rewrite Hp.
  destruct (begin_program_op init_pools) as [[p q1]|] eqn:E1; cbn [obind]; [|done].
  cbn [d_add_list]. unfold d_add_page. cbn [set_d_pools d_pools].
  destruct (add_op_page p _ _ q1) as [[r q2]|] eqn:E2; cbn [obind]; [|done].
  unfold d_end_program, sync_end_program_op. cbn [set_d_pools d_pools d_nand d_mem].
  destruct (get_op p q2) as [o|]; cbn [obind]; [|done].
  destruct (do_sync_flash_program g o _ _) as [[d' m']|]; cbn [obind]; [|done].
  destruct (free_op_obj p q2) as [q3|] eqn:E3; cbn [obind]; [|done]. intros [= <-] m.
  unfold run_program, d_begin_program. cbn [set_d_mem d_pools]. by rewrite (second_program_null p [x] q1 q2 q3 E1); [|cbn [add_pages]; rewrite E2|].
Qed.

(** C14: the drive cannot be shut down with the pools [init_op_obj] sets up: after
    the first page of the tables [store_mapping_tables] gets a NULL operation
    and dereferences it, so that the tables are never stored. *)
Theorem shutdown_dereferences_null k (s : drive D) :
  layout_ok -> 0 < len -> storable k (d_ftl s) -> d_pools s = init_pools ->
  nand_ready g (d_nand s) -> mem_ok (d_mem s) -> pages_ok (nand_page (d_nand s)) ->
  shutdown_ftl_module g (S fuel) B C T (T + len) cells s = Fault FNull.
Proof using Hg.
  intros Hlo Hlen [Hi Hf Hn Harr Hsm Hroom Hfirst Hblk] Hp Hrd Hm Hpg. pose proof ps_pos as Hps.
  pose proof Hlo as [[HB1 HB2] _ _ _ Hbt _ _ _ Hl32]. unfold areas_apart in Hbt.
  set (N := len / PS + 1) in *. assert (HN : 0 < N) by (pose proof (Z.div_pos len PS); unfold N; lia).
  pose proof (mi_range _ _ _ Hi) as Hk.
  destruct (reserve_table_pages_ok (Z.to_nat N) k 0 (d_ftl s) Hi) as (f & Er & _ & _ & _ & _ & _ & Hmt & _);
    [rewrite Z2Nat.id by lia; lia|lia|rewrite Z2Nat.id, Harr by lia; lia|done|lia|].
  unfold shutdown_ftl_module, store_mapping_tables. rewrite Hn, Er. cbn [obind].
  set (s0 := globals_to_mem C T cells (set_d_ftl f s)).
  assert (Hm0 : mem_ok (d_mem s0)) by (by apply spill_ok, spill_ok).
  assert (Htb : table_bytes T (T + len) = len) by (unfold table_bytes; rewrite u32_id by lia; lia).
  unfold table_fuel. rewrite Htb. fold N. replace (Z.to_nat N) with (S (Z.to_nat (N - 1))) by lia.
  assert (Hg0 : arr_get (mapping_tables (ftl_config (d_ftl s0))) 0 = Ok (nth_page g (k + 0))) by (apply Hmt; lia).
  rewrite (store_step _ len T 0 _ s0 Hlen Hg0). rewrite Z.add_0_r in *.
  assert (Hsl : (store_len len = len /\ len < PS) \/ (store_len len = PS /\ PS <= len)) by (unfold store_len; case_if; zify_bools; lia).
  destruct (store_buffer_ok len T (d_mem s0)) as (Hm1 & _); [unfold areas_apart; lia|done|done|].
  set (m1 := store_buffer len T (d_mem s0)) in *. destruct (nth_page_in g Hg k ltac:(lia)) as (Hin & _).
  assert (Hdr : drive_ready s0) by (split; [change (pool_ready RD True (d_pools s)); rewrite Hp; apply init_pools_read|done..]).
  destruct (run_program_once False [OpPage (nth_page g k) B] (set_d_mem m1 s0)) as (s1 & E1 & _ & _ & Hf1 & _).
  - by apply drive_ready_mem.
  - change (pool_ready PR False (d_pools s)). rewrite Hp. apply init_pools_program.
  - apply placed_one; [done|lia].
  - cbn. lia.
  - rewrite E1. cbn [obind]. change (d_ftl (set_d_mem m1 s0)) with f in Hf1.
    pose proof (fun l => second_run_null (OpPage (nth_page g k) B) l (set_d_mem m1 s0) s1 Hp E1) as Hnull.
    destruct Hsl as [(Ec & Hl)|(Ec & Hl)]; rewrite Ec.
    + rewrite Z.sub_diag. replace (store_loop g B _ 0 _ (0 + 1) s1) with (Ok s1) by (by destruct (Z.to_nat (N - 1))).
      cbn [obind]. by rewrite config_batch_program, Hnull.
    + destruct (Z.lt_ge_cases 0 (len - PS)) as [Hmore|Hend].
      * assert (HN2 : 1 < N) by (assert (1 <= len / PS) by (apply Z.div_le_lower_bound; lia); unfold N; lia).
        replace (Z.to_nat (N - 1)) with (S (Z.to_nat (N - 2))) by lia.
        rewrite (store_step _ _ _ _ (nth_page g (k + 1)) s1 Hmore) by (rewrite Hf1; apply Hmt; lia). by rewrite Hnull.
      * replace (store_loop g B _ (len - PS) _ (0 + 1) s1) with (Ok s1) by (destruct (Z.to_nat (N - 1)); cbn [store_loop]; by zb).
        cbn [obind]. by rewrite config_batch_program, Hnull.
Qed.

End store.

(** ** Examples: a drive of 16 flash pages of 4 KB *)

Definition cyc : geom := Geom 1 1 1 1 2 8 12 12 0.

Lemma cyc_ok : geom_ok cyc.
Proof. unfold geom_ok. repeat split; vm_compute; congruence. Qed.

Definition cyc_cells : list cell :=
  map CInvalid [(0, 0, 0, 0); (0, 0, 0, 1)] ++ map CValid [(0, 0, 0, 0); (0, 0, 0, 1)] ++
  map CErase [(0, 0, 0, 0); (0, 0, 0, 1)] ++ [CLastPage (0, 0, 0)] ++ map CLpa (zseq 16) ++
  map (fun i => CPpa (key_of (page_at cyc 0 i))) (zseq 16).

Lemma cyc_tables : tables_laid_out cyc cyc_cells.
Proof.
  split.
  - intros c Hc. assert (Ha : forallb is_table cyc_cells = true) by reflexivity. rewrite forallb_forall in Ha. by apply Ha.
  - intros l Hl. unfold cyc_cells. do 4 (apply in_app_iff; right). apply in_app_iff. left. apply in_map. by apply elem_zseq.
  - intros p Hp. unfold cyc_cells. do 5 (apply in_app_iff; right).
    apply in_map_iff. exists (offset_of cyc p). pose proof (offset_range cyc p Hp) as Ho. split; [|by apply elem_zseq].
    pose proof (page_at_in cyc cyc_ok 0 (offset_of cyc p) ltac:(vm_compute; split; congruence) Ho) as (Hin & Es & Eo).
    f_equal. apply (key_inj cyc); [done|done| |done]. rewrite Es. apply ppa_in_spec in Hp as (Hp & _).
    pose proof (slot_range cyc _ _ _ Hp) as Hs. change (TOTAL_NUM_OF_PLANES cyc) with 1 in Hs. unfold Geom.slot_of. lia.
  - intros c d l Hin. apply plane_in_spec in Hin. change (NUM_CHANNELS cyc) with 1 in Hin.
    change (DIES_PER_CHANNEL cyc) with 1 in Hin. change (PLANES_PER_DIE cyc) with 1 in Hin.
    assert (c = 0 /\ d = 0 /\ l = 0) as (-> & -> & ->) by lia. unfold cyc_cells. do 3 (apply in_app_iff; right). by left.
Qed.

Lemma cyc_layout : layout_ok cyc 0x100000 0x200000 0x300000 0x310000 cyc_cells.
Proof.
  assert (Hs : sizeof_ftl_config = 9844) by (vm_compute; reflexivity).
  assert (Hp : NAND_PAGE_SIZE cyc = 4096) by reflexivity. assert (Hl : cells_bytes cyc_cells = 216) by reflexivity.
  split; unfold areas_apart; rewrite ?Hs, ?Hp, ?Hl; lia.
Qed.

(** Logical pages 5, 6, 5, 6 and 7 are written, in this order, on a new medium. *)
Definition cyc_ftl : ftl :=
  from_ok ftl0 (let! f := new_media cyc 216 ftl0 in
                let! '(_, f) := make_new_mapping cyc 1 5 (start_search f) in
                let! '(_, f) := make_new_mapping cyc 1 6 f in
                let! '(_, f) := make_new_mapping cyc 1 5 f in
                let! '(_, f) := make_new_mapping cyc 1 6 f in
                let! '(_, f) := make_new_mapping cyc 1 7 f in Ok f).

Definition cyc_flash : vnand := VNand (fun q off => let '(_, _, _, _, i) := q in u8 (4 + i + off)).

Definition cyc_drive (ps : op_pools) : drive vnand := Drive cyc_ftl ps cyc_flash demo_mem kernel0.

Lemma cyc_ftl_ok : map_inv cyc 6 cyc_ftl /\ tables_fit cyc_ftl.
Proof.
  destruct (new_media_ok cyc cyc_ok 216) as (f0 & E0 & Hi0 & _).
  pose proof (new_media_fits cyc 216 ftl0 f0 cyc_ok ftl0_fits E0) as Hf0.
  assert (Hstep : forall k lpn f, map_inv cyc k f -> tables_fit f -> k < 16 -> 0 <= lpn < 16 ->
    exists f', make_new_mapping cyc 1 lpn f = Ok (nth_page cyc k, f') /\ map_inv cyc (k + 1) f' /\ tables_fit f').
  { intros k lpn f Hi Hf Hk Hl. destruct (make_new_mapping_ok cyc cyc_ok k lpn f 0 Hi Hk Hl) as (f' & E & Hi' & _).
    exists f'. split; [done|]. split; [done|]. refine (proj1 (make_new_mapping_widths cyc 1 lpn f _ f' _ Hf E)). unfold fits. lia. }
  destruct (Hstep 1 5 _ Hi0 Hf0 ltac:(lia) ltac:(lia)) as (f1 & E1 & Hi1 & Hf1).
  destruct (Hstep 2 6 _ Hi1 Hf1 ltac:(lia) ltac:(lia)) as (f2 & E2 & Hi2 & Hf2).
  destruct (Hstep 3 5 _ Hi2 Hf2 ltac:(lia) ltac:(lia)) as (f3 & E3 & Hi3 & Hf3).
  destruct (Hstep 4 6 _ Hi3 Hf3 ltac:(lia) ltac:(lia)) as (f4 & E4 & Hi4 & Hf4).
  destruct (Hstep 5 7 _ Hi4 Hf4 ltac:(lia) ltac:(lia)) as (f5 & E5 & Hi5 & Hf5).
  unfold cyc_ftl. rewrite E0. cbn [obind]. rewrite E1. cbn [obind]. rewrite E2. cbn [obind]. rewrite E3. cbn [obind].
  rewrite E4. cbn [obind]. rewrite E5. done.
Qed.

Lemma cyc_storable : storable cyc cyc_cells 6 cyc_ftl.
Proof.
  split; [apply cyc_ftl_ok|apply cyc_ftl_ok|vm_compute; reflexivity|vm_compute; reflexivity|..]; vm_compute; (congruence || reflexivity).
Qed.

Lemma cyc_boot_ready m : mem_ok m -> boot_ready ftl0 init_pools m.
Proof. intros Hm. split; [apply ftl0_fits|apply length_replicate|exact Hm|apply init_pools_read]. Qed.

(** The tables when flash page 6 is set aside for them, and a flash with their image
    and the pages of the drive above. *)
Definition img_ftl : ftl := from_ok ftl0 (reserve_table_pages cyc 1 1 0 cyc_ftl).

Definition img_page (q : page_key) (off : Z) : Z :=
  let '(_, _, _, b, i) := q in
  if (b =? 0) && (i <? 3) then spill config_cells 0x300000 img_ftl (fun _ => 0) (0x300000 + (i * 4096 + off))
  else if (b =? 0) && (i =? 6) then spill cyc_cells 0x310000 img_ftl (fun _ => 0) (0x310000 + off)
  else u8 (4 + i + off).

Definition img_flash : vnand := VNand img_page.

Definition img_disk : disk :=
  fun lpn off => if chn (lpa_table img_ftl lpn) =? 255 then 0 else nand_page img_flash (key_of (lpa_table img_ftl lpn)) off.

Lemma img_ftl_ok : map_inv cyc 7 img_ftl /\ tables_fit img_ftl /\ last_selected_ppa (ftl_config img_ftl) = last_searched_channel img_ftl /\
  arr_get (mapping_tables (ftl_config img_ftl)) 0 = Ok (nth_page cyc 6) /\ config_words (ftl_config img_ftl) = config_words (ftl_config cyc_ftl).
Proof.
  destruct cyc_ftl_ok as (Hi & Hf). destruct (reserve_table_pages_ok cyc cyc_ok 0 1 6 0 cyc_ftl Hi)
    as (f & E & Hi' & _ & Hf' & _ & _ & Hm & Hw & Hs);
    [vm_compute; congruence|lia|vm_compute; congruence|exact Hf|lia|].
  unfold img_ftl. rewrite E. split; [exact Hi'|]. split; [exact Hf'|]. split; [exact Hs|]. split; [exact (Hm 0 ltac:(lia))|exact Hw].
Qed.

Lemma img_flash_ok : pages_ok (nand_page img_flash).
Proof.
  assert (H0 : mem_ok (fun _ => 0)) by (intros a; exact (u8_fits 0)).
  intros [[[[c d] l] b] i] off. change (fits 8 (img_page (c, d, l, b, i) off)). unfold img_page.
  destruct ((b =? 0) && (i <? 3)); [by apply spill_ok|]. destruct ((b =? 0) && (i =? 6)); [by apply spill_ok|apply u8_fits].
Qed.

Lemma img_holds : holds_image cyc 0x300000 0x310000 cyc_cells 7 6 img_ftl img_disk (nand_page img_flash).
Proof.
  destruct img_ftl_ok as (Hi & Hf & Hs & Hm & Hw). assert (Hlen : cells_bytes cyc_cells = 216) by reflexivity.
  assert (Hp : NAND_PAGE_SIZE cyc = 4096) by reflexivity.
  split; rewrite ?Hlen, ?Hp.
  - exact Hi.
  - exact Hf.
  - exact Hs.
  - rewrite (config_words_ds _ _ Hw). vm_compute. reflexivity.
  - split; exists (fun _ => 0).
    + intros i off Hir Ho _. change (nand_page img_flash) with img_page. unfold img_page. cbn [config_page key_of chn die plane block page].
      rewrite Hp, (proj2 (Z.ltb_lt i 3)) by lia. reflexivity.
    + intros i off Hi0 Ho Hlt. rewrite Hp in *. rewrite Hlen in Hlt. assert (i = 0) as -> by lia. reflexivity.
  - intros j Hj. change (216 / 4096 + 1) with 1 in Hj. assert (j = 0) as -> by lia. exact Hm.
  - change (TOTAL_NUM_OF_PLANES cyc) with 1. change (TOTAL_NUM_OF_PAGES cyc) with 16. change (216 / 4096 + 1) with 1. lia.
  - intros lpn off _ _. reflexivity.
Qed.

Lemma initialize_ftl_restores_witness :
  exists s', initialize_ftl cyc 0x100000 0x200000 0x300000 0x310000 (0x310000 + 216) cyc_cells
      (Drive ftl0 init_pools img_flash demo_mem kernel0) = Ok (total_logical_pages (ftl_config img_ftl), 12, s') /\
    disk_rel cyc 7 img_disk s' /\ img_disk 7 100 = 109.
Proof.
  destruct (initialize_ftl_restores cyc cyc_ok 0x100000 0x200000 0x300000 0x310000 cyc_cells 7 6 img_ftl img_disk img_flash
    ftl0 init_pools demo_mem kernel0 cyc_layout cyc_tables ltac:(vm_compute; congruence) (cyc_boot_ready demo_mem u8_fits) I img_flash_ok img_holds)
    as (s' & E & Hr & _).
  exists s'. split; [|split; [exact Hr|vm_compute; reflexivity]].
  refine (eq_trans E _). do 3 f_equal.
Defined.

(** An erased flash of zeros. *)
Lemma initialize_ftl_new_medium_witness :
  exists s', initialize_ftl cyc 0x100000 0x200000 0x300000 0x310000 (0x310000 + 216) cyc_cells
      (Drive ftl0 init_pools (VNand (fun _ _ => 0)) demo_mem kernel0) = Ok (15, 12, s') /\
    disk_rel cyc 1 (fun _ _ => 0) s'.
Proof.
  destruct (initialize_ftl_new_medium cyc cyc_ok 0x100000 0x200000 0x300000 0x310000 cyc_cells (VNand (fun _ _ => 0))
    init_pools demo_mem kernel0 cyc_layout ltac:(vm_compute; congruence) (cyc_boot_ready demo_mem u8_fits) I
    (fun _ _ => u8_fits 0) ltac:(vm_compute; reflexivity) ltac:(vm_compute; congruence) ltac:(vm_compute; congruence)
    ltac:(vm_compute; reflexivity)) as (s' & E & Hr & _).
  exists s'. split; [exact E|exact Hr].
Defined.

Lemma shutdown_dereferences_null_witness :
  shutdown_ftl_module cyc 1 0x100000 0x300000 0x310000 (0x310000 + 216) cyc_cells (cyc_drive init_pools) = Fault FNull.
Proof.
  apply (shutdown_dereferences_null cyc cyc_ok 0 0x100000 0x200000 0x300000 0x310000 cyc_cells 6 (cyc_drive init_pools)).
  - exact cyc_layout.
  - vm_compute. reflexivity.
  - exact cyc_storable.
  - reflexivity.
  - exact I.
  - intros a. apply u8_fits.
  - intros [[[[c d] l] b] i] off. apply u8_fits.
Defined.
