(* ===== verification/Printf.v ===== *)
(** firmware/util.uart_print.c: [prints], [simple_outputi], [simple_vsprintf] and
    [simple_snprintf], which put text into the buffer of a CPU, and [_sync_print_],
    by which the CPUs take turns at the terminal device.

    A string argument is the list of its bytes before the NUL; it does not lie in
    the buffer that is written.  Characters are bytes, integers 32-bit words. *)

From Stdlib Require Import ZArith Lia Bool List.
From stdpp Require Import base tactics option list functions.
From S2P Require Import Prelude CTypes MemUtil.

(** ** Text *)

(** [out]: the pointer into the buffer and the memory. *)
Definition outp : Type := Z * mem.

Definition simple_outputchar (c : Z) (o : outp) : outp := (fst o + 1, <[fst o := u8 c]> (snd o)).

Definition PAD_ZERO (flags : Z) : bool := Z.testbit flags 0.
Definition PAD_RIGHT (flags : Z) : bool := Z.testbit flags 1.

Definition NUL : Z := 0.
Definition BLANK : Z := 32.
Definition PERCENT : Z := 37.
Definition STAR : Z := 42.
Definition MINUS : Z := 45.
Definition ZERO : Z := 48.
Definition NINE : Z := 57.

(** The two loops that pad, and the one that copies the string. *)
Fixpoint pad_loop (n : nat) (padchar : Z) (pc : Z) (o : outp) : Z * outp :=
  match n with
  | O => (pc, o)
  | S n' => pad_loop n' padchar (pc + 1) (simple_outputchar padchar o)
  end.

Fixpoint string_loop (string : list Z) (pc : Z) (o : outp) : Z * outp :=
  match string with
  | [] => (pc, o)
  | c :: r => string_loop r (pc + 1) (simple_outputchar c o)
  end.

Definition prints (string : list Z) (width flags : Z) (o : outp) : Z * outp :=
  let '(width, padchar) :=
    if 0 <? width then
      let len := Z.of_nat (length string) in
      (if width <=? len then 0 else width - len, if PAD_ZERO flags then ZERO else BLANK)
    else (width, BLANK) in
  let '(pc, width, o) :=
    if PAD_RIGHT flags then (0, width, o)
    else let '(pc, o) := pad_loop (Z.to_nat width) padchar 0 o in (pc, 0, o) in
  let '(pc, o) := string_loop string pc o in
  pad_loop (Z.to_nat width) padchar pc o.

Definition PRINT_BUF_LEN : Z := 64.

(** A 32-bit word as [int]. *)
Definition s32 (z : Z) : Z := let u := u32 z in if u <? 2 ^ 31 then u else u - 2 ^ 32.

(** The loop that writes the digits before [s]; [n] bytes of [print_buf] are left. *)
Fixpoint digit_loop (n : nat) (u base letbase : Z) (s : list Z) : outcome (list Z) :=
  if u =? 0 then Ok s
  else
    match n with
    | O => Fault FBounds
    | S n' =>
        let t := u mod base in
        let t := if 10 <=? t then t + (letbase - ZERO - 10) else t in
        digit_loop n' (u / base) base letbase (u8 (t + ZERO) :: s)
    end.

(** C leaves the negation of INT_MIN, and [width * 10] in the directives when it
    leaves 32 bits, undefined; the model has the wrap-around of the compiler.  The
    text goes wherever the output pointer is: as in the source nothing bounds it. *)
Definition simple_outputi (i base : Z) (sign : bool) (width flags letbase : Z) (o : outp) : outcome (Z * outp) :=
  if i =? 0 then Ok (prints [ZERO] width flags o)
  else
    let neg := sign && (base =? 10) && (i <? 0) in
    let u := if neg then u32 (- i) else u32 i in
    let! s := digit_loop (Z.to_nat (PRINT_BUF_LEN - 1)) u base letbase [] in
    if neg then
      if negb (width =? 0) && PAD_ZERO flags then
        let o := simple_outputchar MINUS o in
        let '(n, o) := prints s (width - 1) flags o in Ok (1 + n, o)
      else if (Z.of_nat (length s) <? PRINT_BUF_LEN - 1) then Ok (prints (MINUS :: s) width flags o)
      else Fault FBounds
    else Ok (prints s width flags o).

(** An argument: a word, or a pointer to a string. *)
Inductive va := VInt (v : Z) | VStr (s : option (list Z)).

Definition va_int (args : list va) : outcome (Z * list va) :=
  match args with VInt v :: r => Ok (u32 v, r) | _ => Fault FBounds end.
Definition va_str (args : list va) : outcome (option (list Z) * list va) :=
  match args with VStr s :: r => Ok (s, r) | _ => Fault FBounds end.

(** The character at the pointer; the end of the list is the NUL. *)
Definition char_at (format : list Z) : Z := match format with c :: _ => c | [] => NUL end.

(** The loop over the zeros of a conversion. *)
Fixpoint skip_zeros (format : list Z) (flags : Z) : list Z * Z :=
  match format with
  | c :: r => if c =? ZERO then skip_zeros r (Z.lor flags 1) else (format, flags)
  | [] => (format, flags)
  end.

Definition is_digit (c : Z) : bool := (ZERO <=? c) && (c <=? NINE).

Fixpoint read_width (format : list Z) (width : Z) : list Z * Z :=
  match format with
  | c :: r => if is_digit c then read_width r (s32 (s32 (width * 10) + (c - ZERO))) else (format, width)
  | [] => (format, width)
  end.

Definition NULL_STRING : list Z := [40; 110; 117; 108; 108; 41].

(** The [switch] over the conversion character. *)
Definition convert (c width flags : Z) (args : list va) (o : outp) : outcome (Z * list va * outp) :=
  let number base (sign : bool) letbase :=
    let! '(v, args) := va_int args in
    let! '(n, o) := simple_outputi (s32 v) base sign width flags letbase o in Ok (n, args, o) in
  if c =? 100 then number 10 true 97           (* 'd' *)
  else if c =? 117 then number 10 false 97     (* 'u' *)
  else if c =? 120 then number 16 false 97     (* 'x' *)
  else if c =? 88 then number 16 false 65      (* 'X' *)
  else if c =? 99 then                         (* 'c' *)
    let! '(v, args) := va_int args in
    let '(n, o) := prints (if u8 v =? NUL then [] else [u8 v]) width flags o in Ok (n, args, o)
  else if c =? 115 then                        (* 's' *)
    let! '(s, args) := va_str args in
    let '(n, o) := prints (match s with Some s => s | None => NULL_STRING end) width flags o in Ok (n, args, o)
  else Ok (0, args, o).

(** The format after '%': flags, width and conversion; the result is the format
    after the conversion character. *)
Definition conversion (format : list Z) (args : list va) (o : outp)
  : outcome (Z * list Z * list va * outp) :=
  let '(format, flags) := if char_at format =? MINUS then (tl format, 2) else (format, 0) in
  let '(format, flags) := skip_zeros format flags in
  let! '(width, format, args) :=
    if char_at format =? STAR then
      let! '(v, args) := va_int args in Ok (s32 v, tl format, args)
    else let '(format, width) := read_width format 0 in Ok (width, format, args) in
  let! '(n, args, o) := convert (char_at format) width flags args o in
  match format with
  | [] => Fault FBounds  (* [++format] steps over the NUL *)
  | _ :: format => Ok (n, format, args, o)
  end.

(** The loop of [simple_vsprintf]; [n]: at least the length of the format. *)
Fixpoint vsprintf_loop (n : nat) (format : list Z) (args : list va) (pc : Z) (o : outp) : outcome (Z * outp) :=
  match n with
  | O => Fault FFuel
  | S n' =>
      match format with
      | [] => Ok (pc, o)
      | c :: format =>
          if c =? PERCENT then
            match format with
            | [] => Ok (pc, o)
            | c :: rest =>
                if c =? PERCENT then vsprintf_loop n' rest args (pc + 1) (simple_outputchar c o)
                else
                  let! '(k, format, args, o) := conversion format args o in
                  vsprintf_loop n' format args (pc + k) o
            end
          else vsprintf_loop n' format args (pc + 1) (simple_outputchar c o)
      end
  end.

Definition simple_vsprintf (format : list Z) (args : list va) (o : outp) : outcome (Z * outp) :=
  let! '(pc, o) := vsprintf_loop (S (length format)) format args 0 o in
  Ok (pc, (fst o, <[fst o := NUL]> (snd o))).

(** [len] is not looked at. *)
Definition simple_snprintf (buf len : Z) (format : list Z) (args : list va) (m : mem) : outcome (Z * mem) :=
  let! '(r, o) := simple_vsprintf format args (buf, m) in Ok (r, snd o).
