(* ===== verification/PrintText.v ===== *)
(** What the formatted output writes: the text of a field, that the text of a
    number reads back as the number, and that [simple_snprintf] writes what a
    format means. *)

From Stdlib Require Import ZArith Lia Bool List.
From stdpp Require Import base tactics option list functions.
From S2P Require Import Prelude CTypes MemUtil Printf.

(** ** Characters in memory *)

Definition emit (l : list Z) (o : outp) : outp := fold_left (fun o c => simple_outputchar c o) l o.

(** [n] bytes from [a] on. *)
Definition text (m : mem) (a : Z) (n : nat) : list Z := map (fun i => m (a + Z.of_nat i)) (seq 0 n).

Definition is_byte (c : Z) : Prop := 0 <= c < 256.

Lemma emit_app l1 l2 o : emit (l1 ++ l2) o = emit l2 (emit l1 o).
Proof. apply fold_left_app. Qed.

Lemma emit_fst l o : fst (emit l o) = fst o + Z.of_nat (length l).
Proof.
  revert o. induction l as [|c l IH]; intros o; cbn [emit fold_left length]; [lia|].
  unfold emit in IH. rewrite IH. cbn [simple_outputchar fst]. lia.
Qed.

Lemma emit_out l o b : b < fst o \/ fst o + Z.of_nat (length l) <= b -> snd (emit l o) b = snd o b.
Proof.
  revert o. induction l as [|c l IH]; intros o Hb; [done|]. cbn [length] in Hb.
  change (snd (emit l (simple_outputchar c o)) b = snd o b).
  rewrite IH by (cbn [simple_outputchar fst]; lia). cbn [simple_outputchar snd]. by rewrite fn_lookup_insert_ne by lia.
Qed.

Lemma emit_get l o i c : Forall is_byte l -> l !! i = Some c -> snd (emit l o) (fst o + Z.of_nat i) = c.
Proof.
  revert o i. induction l as [|d l IH]; intros o i Hl Hi; [done|]. apply Forall_cons_1 in Hl as (Hd & Hl).
  change (snd (emit l (simple_outputchar d o)) (fst o + Z.of_nat i) = c). destruct i as [|i].
  - injection Hi as <-. rewrite emit_out by (cbn [simple_outputchar fst]; lia). cbn [simple_outputchar snd].
    rewrite Z.add_0_r, fn_lookup_insert. apply Z.mod_small. exact Hd.
  - replace (fst o + Z.of_nat (S i)) with (fst (simple_outputchar d o) + Z.of_nat i) by (cbn [simple_outputchar fst]; lia).
    by apply IH.
Qed.

Lemma emit_text l o : Forall is_byte l -> text (snd (emit l o)) (fst o) (length l) = l.
Proof.
  intros Hl. apply list_eq. intros i. unfold text. destruct (l !! i) as [c|] eqn:E.
  - pose proof (lookup_lt_Some _ _ _ E). rewrite list_lookup_fmap, lookup_seq_lt by done. cbn. f_equal. by apply emit_get.
  - apply lookup_ge_None in E. apply lookup_ge_None. by rewrite length_map, length_seq.
Qed.

(** ** Fields *)

Definition padded (s : list Z) (width flags : Z) : list Z :=
  let pad := replicate (Z.to_nat (width - Z.of_nat (length s))) (if PAD_ZERO flags then ZERO else BLANK) in
  if PAD_RIGHT flags then s ++ pad else pad ++ s.

Lemma pad_loop_emit n c pc o : pad_loop n c pc o = (pc + Z.of_nat n, emit (replicate n c) o).
Proof.
  revert pc o. induction n as [|n IH]; intros pc o; cbn [pad_loop replicate]; [by rewrite Z.add_0_r|].
  rewrite IH. f_equal. lia.
Qed.

Lemma string_loop_emit s pc o : string_loop s pc o = (pc + Z.of_nat (length s), emit s o).
Proof.
  revert pc o. induction s as [|c s IH]; intros pc o; cbn [string_loop length]; [by rewrite Z.add_0_r|].
  rewrite IH. f_equal. lia.
Qed.

Lemma prints_emit s width flags o :
  prints s width flags o = (Z.of_nat (length (padded s width flags)), emit (padded s width flags) o).
Proof.
  unfold prints, padded. set (len := Z.of_nat (length s)).
  assert (Hn : forall c, (if 0 <? width then (if width <=? len then 0 else width - len, c) else (width, BLANK)) =
    (if 0 <? width then (if width <=? len then 0 else width - len) else width, if 0 <? width then c else BLANK))
    by (intros c; by case_if).
  rewrite Hn. clear Hn.
  assert (Ew : Z.to_nat (if 0 <? width then (if width <=? len then 0 else width - len) else width) = Z.to_nat (width - len))
    by (repeat case_if; zify_bools; lia).
  assert (Ep : replicate (Z.to_nat (width - len)) (if 0 <? width then if PAD_ZERO flags then ZERO else BLANK else BLANK) =
    replicate (Z.to_nat (width - len)) (if PAD_ZERO flags then ZERO else BLANK)).
  { destruct (Z.ltb_spec 0 width); [done|]. by replace (Z.to_nat (width - len)) with O by lia. }
  set (c := if 0 <? width then _ else BLANK) in *. set (w := if 0 <? width then _ else width) in *.
  destruct (PAD_RIGHT flags).
  - rewrite string_loop_emit. rewrite pad_loop_emit, Ew, Ep, emit_app, length_app, length_replicate. f_equal. unfold len. lia.
  - rewrite pad_loop_emit, string_loop_emit, pad_loop_emit, Ew, Ep, emit_app, length_app, length_replicate.
    cbn [replicate emit fold_left Z.to_nat]. f_equal. unfold len. lia.
Qed.

Lemma padded_length s width flags : Z.of_nat (length (padded s width flags)) = Z.max (Z.of_nat (length s)) width.
Proof. unfold padded. case_if; rewrite length_app, length_replicate; lia. Qed.

Lemma padded_bytes s width flags : Forall is_byte s -> Forall is_byte (padded s width flags).
Proof.
  intros Hs. unfold padded. assert (Hp : is_byte (if PAD_ZERO flags then ZERO else BLANK)) by (case_if; unfold is_byte, ZERO, BLANK; lia).
  case_if; apply Forall_app; split; try done; by apply Forall_replicate.
Qed.

(** ** Digits *)

(** The value of a digit character, if it is one. *)
Definition digit_of (base letbase c : Z) : option Z :=
  let v := if is_digit c then c - ZERO else c - letbase + 10 in
  if (0 <=? v) && (v <? base) && (is_digit c || (letbase <=? c)) then Some v else None.

(** A reader of numbers: digits until something else, blanks before and one
    sign. *)
Fixpoint scan_digits (base letbase acc : Z) (l : list Z) : Z :=
  match l with
  | [] => acc
  | c :: r => match digit_of base letbase c with Some v => scan_digits base letbase (acc * base + v) r | None => acc end
  end.

Fixpoint skip_blanks (l : list Z) : list Z :=
  match l with
  | c :: r => if c =? BLANK then skip_blanks r else l
  | [] => []
  end.

Definition scan (base letbase : Z) (l : list Z) : Z :=
  match skip_blanks l with
  | [] => 0
  | c :: r => if c =? MINUS then - scan_digits base letbase 0 r else scan_digits base letbase 0 (c :: r)
  end.

(** The bases and letters of the four conversions. *)
Definition base_ok (base letbase : Z) : Prop := (base = 10 \/ base = 16) /\ (letbase = 97 \/ letbase = 65).

Definition digit_char (letbase t : Z) : Z := u8 ((if 10 <=? t then t + (letbase - ZERO - 10) else t) + ZERO).

Lemma digit_char_ok base letbase t : base_ok base letbase -> 0 <= t < base ->
  digit_of base letbase (digit_char letbase t) = Some t /\ is_byte (digit_char letbase t) /\
  digit_char letbase t <> BLANK /\ digit_char letbase t <> MINUS /\ 48 <= digit_char letbase t.
Proof.
  intros (Hb & Hl) Ht. unfold digit_of, digit_char, is_digit, is_byte, BLANK, MINUS, ZERO, NINE in *.
  assert (Hc : u8 ((if 10 <=? t then t + (letbase - 48 - 10) else t) + 48) = if 10 <=? t then t + letbase - 10 else t + 48).
  { unfold u8. destruct Hl as [->| ->]; destruct (Z.leb_spec 10 t); rewrite Z.mod_small; lia. }
  rewrite Hc. clear Hc. destruct (Z.leb_spec 10 t) as [H10|H10].
  - replace ((48 <=? t + letbase - 10) && (t + letbase - 10 <=? 57)) with false by (symmetry; apply andb_false_iff; right; apply Z.leb_gt; lia).
    replace (t + letbase - 10 - letbase + 10) with t by lia. cbn [orb].
    rewrite (proj2 (Z.leb_le 0 t)), (proj2 (Z.ltb_lt t base)), (proj2 (Z.leb_le letbase (t + letbase - 10))) by lia. cbn [andb].
    split_and!; try done; lia.
  - replace ((48 <=? t + 48) && (t + 48 <=? 57)) with true by (symmetry; apply andb_true_iff; split; apply Z.leb_le; lia).
    replace (t + 48 - 48) with t by lia. cbn [orb]. rewrite (proj2 (Z.leb_le 0 t)), (proj2 (Z.ltb_lt t base)) by lia. cbn [andb].
    split_and!; try done; lia.
Qed.

Definition number_char (c : Z) : Prop := is_byte c /\ c <> BLANK /\ c <> MINUS /\ 48 <= c.

(** The loop writes at most [n] digits before [s], the value of which is [u]. *)
Lemma digit_loop_ok base letbase n : base_ok base letbase -> forall u s, 0 <= u < base ^ Z.of_nat n ->
  exists ds, digit_loop n u base letbase s = Ok (ds ++ s) /\ (length ds <= n)%nat /\ Forall number_char ds /\
    (u <> 0 -> ds <> []) /\
    forall acc l, scan_digits base letbase acc (ds ++ l) = scan_digits base letbase (acc * base ^ Z.of_nat (length ds) + u) l.
Proof.
  intros Hb. assert (Hb0 : base = 10 \/ base = 16) by apply Hb. induction n as [|n IH]; intros u s Hu; cbn [digit_loop].
  - change (base ^ Z.of_nat 0) with 1 in Hu. replace u with 0 by lia. exists []. cbn [length app].
    split; [done|split; [done|split; [apply Forall_nil_2|split; [done|]]]]. intros acc l. f_equal. rewrite Z.pow_0_r. lia.
  - destruct (Z.eqb_spec u 0) as [->|Hne].
    + exists []. cbn [length app]. split; [done|split; [lia|split; [apply Forall_nil_2|split; [done|]]]]. intros acc l. f_equal. rewrite Z.pow_0_r. lia.
    + rewrite Nat2Z.inj_succ, Z.pow_succ_r in Hu by lia.
      pose proof (Z.div_mod u base ltac:(lia)) as Hd. pose proof (Z.mod_pos_bound u base ltac:(lia)) as Hm.
      assert (Hq : 0 <= u / base < base ^ Z.of_nat n) by (split; [apply Z.div_pos; lia|apply Z.div_lt_upper_bound; lia]).
      fold (digit_char letbase (u mod base)).
      destruct (digit_char_ok base letbase (u mod base) Hb Hm) as (Hv & Hby & Hbl & Hmi & H48).
      set (c := digit_char letbase (u mod base)) in *.
      destruct (IH (u / base) (c :: s) Hq) as (ds & E & Hlen & Hds & _ & Hsc). exists (ds ++ [c]).
      rewrite <- app_assoc, length_app. cbn [length app]. split; [exact E|]. split; [lia|].
      split; [apply Forall_app; split; [done|apply Forall_cons_2; [done|apply Forall_nil_2]]|].
      split; [intros _; by destruct ds|]. intros acc l. rewrite <- app_assoc, Hsc. cbn [app scan_digits]. rewrite Hv. f_equal.
      rewrite Nat2Z.inj_add, Z.pow_add_r by lia. change (base ^ Z.of_nat 1) with (base ^ 1). rewrite Z.pow_1_r. nia.
Qed.

(** 32-bit numbers never fill [print_buf]. *)
Lemma digits_fit base letbase u : base_ok base letbase -> 0 <= u < 2 ^ 32 ->
  exists ds, digit_loop 63 u base letbase [] = Ok ds /\ (length ds <= 10)%nat /\ Forall number_char ds /\ (u <> 0 -> ds <> []) /\
    forall l, scan_digits base letbase 0 (ds ++ l) = scan_digits base letbase u l.
Proof.
  intros Hb Hu. assert (Hu10 : 0 <= u < base ^ Z.of_nat 10).
  { destruct Hb as ([->| ->] & _); [change (10 ^ Z.of_nat 10) with 10000000000|change (16 ^ Z.of_nat 10) with 1099511627776]; lia. }
  destruct (digit_loop_ok base letbase 10 Hb u [] Hu10) as (ds & E & Hlen & Hds & Hne & Hsc). exists ds.
  rewrite app_nil_r in E. split; [|split; [done|split; [done|split; [done|]]]].
  - assert (Hmore : forall n k u s r, digit_loop n u base letbase s = Ok r -> digit_loop (n + k) u base letbase s = Ok r).
    { clear. induction n as [|n IH]; intros k u s r; cbn [digit_loop Nat.add].
      - destruct (Z.eqb_spec u 0) as [->|]; [|done]. destruct k; cbn [digit_loop]; by rewrite ?Z.eqb_refl.
      - case_if; [done|]. apply IH. }
    apply (Hmore 10%nat 53%nat). exact E.
  - intros l. exact (Hsc 0 l).
Qed.

(** ** Numbers *)

(** The text of a number in its field, as [simple_outputi] lays it out. *)
Definition number_field (i base : Z) (sign : bool) (width flags letbase : Z) : list Z :=
  if i =? 0 then padded [ZERO] width flags
  else
    let neg := sign && (base =? 10) && (i <? 0) in
    let ds := from_ok [] (digit_loop 63 (if neg then u32 (- i) else u32 i) base letbase []) in
    if neg then
      if negb (width =? 0) && PAD_ZERO flags then MINUS :: padded ds (width - 1) flags
      else padded (MINUS :: ds) width flags
    else padded ds width flags.

Lemma u32_range z : 0 <= u32 z < 2 ^ 32.
Proof. apply Z.mod_pos_bound. lia. Qed.

Lemma number_chars_bytes ds : Forall number_char ds -> Forall is_byte ds.
Proof. apply Forall_impl. by intros c (? & _). Qed.

Lemma outputi_emit i base sign width flags letbase o : base_ok base letbase ->
  simple_outputi i base sign width flags letbase o =
    Ok (Z.of_nat (length (number_field i base sign width flags letbase)), emit (number_field i base sign width flags letbase) o) /\
  Forall is_byte (number_field i base sign width flags letbase).
Proof.
  intros Hb. unfold simple_outputi, number_field. destruct (i =? 0).
  { rewrite prints_emit. split; [done|]. apply padded_bytes. apply Forall_singleton. unfold is_byte, ZERO. lia. }
  set (neg := sign && (base =? 10) && (i <? 0)). set (u := if neg then u32 (- i) else u32 i).
  assert (Hu : 0 <= u < 2 ^ 32) by (unfold u; case_if; apply u32_range).
  destruct (digits_fit base letbase u Hb Hu) as (ds & E & Hlen & Hds & _).
  change (Z.to_nat (PRINT_BUF_LEN - 1)) with 63%nat. rewrite E. cbn [obind from_ok].
  apply number_chars_bytes in Hds.
  assert (Hm : is_byte MINUS) by (unfold is_byte, MINUS; lia).
  destruct neg; [|rewrite prints_emit; split; [done|by apply padded_bytes]].
  destruct (negb (width =? 0) && PAD_ZERO flags).
  - rewrite prints_emit. split; [|apply Forall_cons_2; [done|by apply padded_bytes]].
    cbn [length emit fold_left]. f_equal. f_equal. lia.
  - unfold PRINT_BUF_LEN. rewrite (proj2 (Z.ltb_lt _ _)) by lia. rewrite prints_emit. split; [done|].
    apply padded_bytes. by apply Forall_cons_2.
Qed.

(** What [scan] makes of a field. *)
Lemma scan_digits_blanks base letbase acc n : base_ok base letbase -> scan_digits base letbase acc (replicate n BLANK) = acc.
Proof.
  intros (Hb & Hl). destruct n as [|n]; [done|]. cbn [replicate scan_digits].
  destruct Hb as [->| ->], Hl as [->| ->]; reflexivity.
Qed.

Lemma scan_digits_zeros base letbase n l : base_ok base letbase ->
  scan_digits base letbase 0 (replicate n ZERO ++ l) = scan_digits base letbase 0 l.
Proof.
  intros (Hb & Hl). induction n as [|n IH]; [done|]. cbn [replicate app scan_digits].
  destruct Hb as [->| ->], Hl as [->| ->]; exact IH.
Qed.

Lemma skip_blanks_pad n l : skip_blanks (replicate n BLANK ++ l) = skip_blanks l.
Proof. by induction n. Qed.

Lemma scan_number base letbase ds l : base_ok base letbase -> Forall number_char ds -> ds <> [] ->
  scan base letbase (ds ++ l) = scan_digits base letbase 0 (ds ++ l).
Proof.
  intros _ Hds Hne. destruct ds as [|c ds]; [done|]. apply Forall_cons_1 in Hds as ((_ & Hb & Hm & _) & _).
  unfold scan. cbn [app skip_blanks]. rewrite (proj2 (Z.eqb_neq c BLANK) Hb). by rewrite (proj2 (Z.eqb_neq c MINUS) Hm).
Qed.

Lemma zeros_number n ds : Forall number_char ds -> Forall number_char (replicate n ZERO ++ ds).
Proof.
  intros Hds. apply Forall_app. split; [|done]. apply Forall_replicate.
  unfold number_char, is_byte, ZERO, BLANK, MINUS. lia.
Qed.

Section field.
Context (base letbase u : Z) (ds : list Z) (Hb : base_ok base letbase) (Hds : Forall number_char ds) (Hne : ds <> [])
  (Hv : forall l, scan_digits base letbase 0 (ds ++ l) = scan_digits base letbase u l).

Lemma scan_positive width flags : PAD_RIGHT flags && PAD_ZERO flags = false -> scan base letbase (padded ds width flags) = u.
Proof using Hb Hds Hne Hv.
  intros Hf. unfold padded. destruct (PAD_RIGHT flags); cbn [andb] in Hf.
  - rewrite Hf, scan_number by done. rewrite Hv. by apply scan_digits_blanks.
  - assert (Hv0 : scan_digits base letbase 0 ds = u) by (rewrite <- (app_nil_r ds), Hv; done).
    destruct (PAD_ZERO flags).
    + rewrite <- (app_nil_r (_ ++ ds)), scan_number; [|done|by apply zeros_number|by destruct (replicate _ _)].
      by rewrite app_nil_r, scan_digits_zeros.
    + unfold scan. rewrite skip_blanks_pad. fold (scan base letbase ds). rewrite <- (app_nil_r ds), scan_number by done.
      by rewrite app_nil_r.
Qed.

Lemma scan_minus l : scan base letbase (MINUS :: l) = - scan_digits base letbase 0 l.
Proof using. reflexivity. Qed.

Lemma scan_negative width flags : PAD_RIGHT flags && PAD_ZERO flags = false ->
  scan base letbase (if negb (width =? 0) && PAD_ZERO flags then MINUS :: padded ds (width - 1) flags
                     else padded (MINUS :: ds) width flags) = - u.
Proof using Hb Hds Hne Hv.
  intros Hf. assert (Hv0 : scan_digits base letbase 0 ds = u) by (rewrite <- (app_nil_r ds), Hv; done).
  destruct (negb (width =? 0) && PAD_ZERO flags) eqn:E; unfold padded.
  - apply andb_true_iff in E as (_ & Ez). rewrite Ez, andb_true_r in Hf. rewrite Hf, Ez, scan_minus. by rewrite scan_digits_zeros, Hv0.
  - destruct (PAD_RIGHT flags); cbn [andb] in Hf.
    + rewrite Hf. cbn [app]. rewrite scan_minus, Hv. by rewrite scan_digits_blanks.
    + destruct (PAD_ZERO flags).
      * rewrite andb_true_r, negb_false_iff in E. apply Z.eqb_eq in E as ->.
        replace (Z.to_nat _) with O by lia. cbn [replicate app]. by rewrite scan_minus, Hv0.
      * unfold scan. rewrite skip_blanks_pad. fold (scan base letbase (MINUS :: ds)). by rewrite scan_minus, Hv0.
Qed.
End field.

(** The number a field stands for. *)
Definition number_value (i base : Z) (sign : bool) : Z := if sign && (base =? 10) then i else u32 i.

Lemma number_field_scans i base sign width flags letbase : base_ok base letbase -> - 2 ^ 31 <= i < 2 ^ 31 ->
  PAD_RIGHT flags && PAD_ZERO flags = false ->
  scan base letbase (number_field i base sign width flags letbase) = number_value i base sign.
Proof.
  intros Hb Hi Hf. unfold number_field, number_value. destruct (Z.eqb_spec i 0) as [->|Hi0].
  { replace (if sign && (base =? 10) then 0 else u32 0) with 0 by (by case_if).
    apply (scan_positive base letbase 0 [ZERO]); try done.
    - apply (zeros_number 1 []). apply Forall_nil_2.
    - intros l. apply (scan_digits_zeros base letbase 1 l Hb). }
  destruct (sign && (base =? 10)) eqn:Es; cbn [andb].
  - destruct (Z.ltb_spec i 0) as [Hn|Hn].
    + rewrite u32_id by lia. destruct (digits_fit base letbase (- i) Hb ltac:(lia)) as (ds & E & _ & Hds & Hne & Hv). rewrite E. cbn [from_ok].
      rewrite (scan_negative base letbase (- i) ds) by (done || apply Hne; lia). lia.
    + rewrite u32_id by lia. destruct (digits_fit base letbase i Hb ltac:(lia)) as (ds & E & _ & Hds & Hne & Hv). rewrite E. cbn [from_ok].
      apply scan_positive; try done. by apply Hne.
  - destruct (digits_fit base letbase (u32 i) Hb (u32_range i)) as (ds & E & _ & Hds & Hne & Hv). rewrite E. cbn [from_ok].
    apply scan_positive; try done. apply Hne. unfold u32. intros E0. apply Z.mod_divide in E0 as (q & ->); lia.
Qed.

(** C26: printed numbers read back: whatever the width and the flags, unless both
    left alignment and zero padding are asked for, [simple_outputi] writes the
    text of a number from the output pointer on, reports its length, which is at
    least the width, writes nothing else, never leaves its buffer of 64
    characters, and the text read as a number of that base is the number: signed
    for signed decimals, even -2147483648, and the 32-bit word otherwise. *)
Theorem outputi_roundtrip i base sign width flags letbase a m : base_ok base letbase -> - 2 ^ 31 <= i < 2 ^ 31 ->
  PAD_RIGHT flags && PAD_ZERO flags = false ->
  exists n m', simple_outputi i base sign width flags letbase (a, m) = Ok (Z.of_nat n, (a + Z.of_nat n, m')) /\
    width <= Z.of_nat n /\ (forall b, b < a \/ a + Z.of_nat n <= b -> m' b = m b) /\
    scan base letbase (text m' a n) = number_value i base sign.
Proof.
  intros Hb Hi Hf. destruct (outputi_emit i base sign width flags letbase (a, m) Hb) as (E & Hby).
  pose proof (number_field_scans i base sign width flags letbase Hb Hi Hf) as Hs.
  set (l := number_field i base sign width flags letbase) in *. exists (length l), (snd (emit l (a, m))).
  rewrite E. pose proof (emit_fst l (a, m)) as Ef. cbn [fst] in Ef.
  split; [by rewrite <- Ef, <- surjective_pairing|]. split; [|split].
  - unfold l, number_field. repeat case_if; cbn [length]; rewrite ?Nat2Z.inj_succ, ?padded_length; lia.
  - intros b Hb'. by rewrite emit_out by (cbn [fst]; lia).
  - pose proof (emit_text l (a, m) Hby) as Ht. cbn [fst] in Ht. by rewrite Ht.
Qed.

Lemma outputi_roundtrip_witness : exists n m',
  simple_outputi (-42) 10 true 7 1 97 (100, fun _ => 0) = Ok (Z.of_nat n, (100 + Z.of_nat n, m')) /\
  7 <= Z.of_nat n /\ scan 10 97 (text m' 100 n) = -42.
Proof.
  destruct (outputi_roundtrip (-42) 10 true 7 1 97 100 (fun _ => 0)) as (n & m' & E & Hw & _ & Hs).
  - unfold base_ok. lia.
  - lia.
  - reflexivity.
  - exists n, m'. split; [exact E|]. split; [exact Hw|exact Hs].
Defined.

(** With both flags the zeros go to the right and change the number. *)
Example padded_right_with_zeros : number_field 12 10 true 5 3 97 = [49; 50; 48; 48; 48].
Proof. reflexivity. Qed.

(** ** Formats *)

(** The parts of a format: a character, or a conversion with its alignment,
    zeros and width. *)
Inductive wspec := WNone | WDigits (ds : list Z) | WArg.
Record cspec := CSpec { c_left : bool; c_zeros : nat; c_width : wspec; c_conv : Z }.
Inductive piece := Lit (c : Z) | Percent | Conv (c : cspec).

Definition render_width (w : wspec) : list Z :=
  match w with WNone => [] | WDigits ds => ds | WArg => [STAR] end.

Definition render (p : piece) : list Z :=
  match p with
  | Lit c => [c]
  | Percent => [PERCENT; PERCENT]
  | Conv c => PERCENT :: (if c_left c then [MINUS] else []) ++ replicate (c_zeros c) ZERO ++ render_width (c_width c) ++ [c_conv c]
  end.

Definition conversions : list Z := [100; 117; 120; 88; 99; 115].  (* d u x X c s *)

(** A width does not start with a zero, which would be a flag. *)
Definition piece_ok (p : piece) : Prop :=
  match p with
  | Lit c => is_byte c /\ c <> PERCENT
  | Percent => True
  | Conv c => In (c_conv c) conversions /\
      match c_width c with
      | WDigits ds => Forall (fun c => is_digit c = true) ds /\ match ds with [] => False | d :: _ => d <> ZERO end
      | _ => True
      end
  end.

(** The meaning of a format: the text it stands for and the arguments it leaves. *)
Definition spec_flags (c : cspec) : Z := (if c_left c then 2 else 0) + (match c_zeros c with O => 0 | _ => 1 end).

Definition digits_value (ds : list Z) : Z := fold_left (fun w c => s32 (s32 (w * 10) + (c - ZERO))) ds 0.

Definition arg_bytes (s : option (list Z)) : list Z := match s with Some s => s | None => NULL_STRING end.

Definition conv_text (conv width flags : Z) (args : list va) : option (list Z * list va) :=
  match args with
  | VInt v :: r =>
      if conv =? 100 then Some (number_field (s32 v) 10 true width flags 97, r)
      else if conv =? 117 then Some (number_field (s32 v) 10 false width flags 97, r)
      else if conv =? 120 then Some (number_field (s32 v) 16 false width flags 97, r)
      else if conv =? 88 then Some (number_field (s32 v) 16 false width flags 65, r)
      else if conv =? 99 then Some (padded (if u8 v =? NUL then [] else [u8 v]) width flags, r)
      else None
  | VStr s :: r => if conv =? 115 then Some (padded (arg_bytes s) width flags, r) else None
  | [] => None
  end.

Definition piece_text (p : piece) (args : list va) : option (list Z * list va) :=
  match p with
  | Lit c => Some ([c], args)
  | Percent => Some ([PERCENT], args)
  | Conv c =>
      match c_width c, args with
      | WNone, _ => conv_text (c_conv c) 0 (spec_flags c) args
      | WDigits ds, _ => conv_text (c_conv c) (digits_value ds) (spec_flags c) args
      | WArg, VInt w :: r => conv_text (c_conv c) (s32 w) (spec_flags c) r
      | WArg, _ => None
      end
  end.

Fixpoint format_text (ps : list piece) (args : list va) : option (list Z) :=
  match ps with
  | [] => Some []
  | p :: r =>
      match piece_text p args with
      | Some (l, args) => match format_text r args with Some l' => Some (l ++ l') | None => None end
      | None => None
      end
  end.

Definition va_ok (a : va) : Prop := match a with VStr (Some s) => Forall is_byte s | _ => True end.

Lemma skip_zeros_ok n l flags : char_at l <> ZERO -> (flags = 0 \/ flags = 2) ->
  skip_zeros (replicate n ZERO ++ l) flags = (l, flags + match n with O => 0 | _ => 1 end).
Proof.
  intros Hl Hf. assert (Hend : forall f, skip_zeros l f = (l, f)).
  { intros f. destruct l as [|c l]; [done|]. cbn [skip_zeros char_at] in *. by rewrite (proj2 (Z.eqb_neq c ZERO) Hl). }
  assert (Hone : forall n f, f = 1 \/ f = 3 -> skip_zeros (replicate n ZERO ++ l) f = (l, f)).
  { clear n. induction n as [|n IH]; intros f Hff; [apply Hend|]. cbn [replicate app skip_zeros]. rewrite Z.eqb_refl.
    replace (Z.lor f 1) with f by (by destruct Hff as [->| ->]). by apply IH. }
  destruct n as [|n]; [rewrite Z.add_0_r; apply Hend|]. cbn [replicate app skip_zeros]. rewrite Z.eqb_refl.
  destruct Hf as [->| ->]; apply Hone; tauto.
Qed.

Lemma read_width_ok ds l w : Forall (fun c => is_digit c = true) ds -> is_digit (char_at l) = false ->
  read_width (ds ++ l) w = (l, fold_left (fun w c => s32 (s32 (w * 10) + (c - ZERO))) ds w).
Proof.
  intros Hds Hl. revert w. induction Hds as [|c ds Hc _ IH]; intros w; cbn [app read_width fold_left].
  - destruct l as [|c l]; [done|]. cbn [read_width char_at] in *. by rewrite Hl.
  - rewrite Hc. apply IH.
Qed.

Lemma s32_range v : - 2 ^ 31 <= s32 v < 2 ^ 31.
Proof. unfold s32. pose proof (u32_range v). case_if; zify_bools; lia. Qed.

Lemma s32_u32 v : s32 (u32 v) = s32 v.
Proof. unfold s32, u32. by rewrite Z.mod_mod by lia. Qed.

Lemma u8_u32 v : u8 (u32 v) = u8 v.
Proof.
  unfold u8, u32. rewrite (Z.div_mod v (2 ^ 32)) at 2 by lia.
  replace (2 ^ 32 * (v / 2 ^ 32) + v mod 2 ^ 32) with (v mod 2 ^ 32 + (2 ^ 24 * (v / 2 ^ 32)) * 2 ^ 8) by lia.
  by rewrite Z.mod_add by lia.
Qed.

Lemma convert_ok c width flags args o l rest : In c conversions -> Forall va_ok args ->
  conv_text c width flags args = Some (l, rest) ->
  convert c width flags args o = Ok (Z.of_nat (length l), rest, emit l o) /\ Forall is_byte l /\ Forall va_ok rest.
Proof.
  intros Hc Hargs. destruct args as [|a args]; [done|]. apply Forall_cons_1 in Hargs as (Ha & Hargs).
  assert (Hnum : forall base sign letbase v o, base_ok base letbase ->
    (let! '(n, o) := simple_outputi (s32 (u32 v)) base sign width flags letbase o in Ok (n, args, o)) =
    Ok (Z.of_nat (length (number_field (s32 v) base sign width flags letbase)), args, emit (number_field (s32 v) base sign width flags letbase) o)
    /\ Forall is_byte (number_field (s32 v) base sign width flags letbase)).
  { intros base sign letbase v o' Hb. rewrite s32_u32. destruct (outputi_emit (s32 v) base sign width flags letbase o' Hb) as (-> & H). done. }
  unfold conv_text, convert.
  destruct Hc as [<-|[<-|[<-|[<-|[<-|[<-|[]]]]]]]; cbn [Z.eqb Pos.eqb]; destruct a as [v|s]; cbn [va_int va_str obind]; try done;
    intros [= <- <-].
  1-4: match goal with |- context [number_field _ ?b ?sg _ _ ?lb] =>
         destruct (Hnum b sg lb v o) as (-> & ?); [unfold base_ok; lia|done] end.
  - rewrite u8_u32, prints_emit. split; [done|]. split; [|done]. apply padded_bytes. case_if; [apply Forall_nil_2|].
    apply Forall_singleton. apply (u8_fits v).
  - rewrite prints_emit. split; [done|]. split; [|done]. apply padded_bytes. destruct s as [s|]; [exact Ha|].
    cbn [arg_bytes]. unfold NULL_STRING, is_byte. repeat (apply Forall_cons_2; [lia|]). apply Forall_nil_2.
Qed.

Lemma conversions_char c : In c conversions ->
  c <> PERCENT /\ c <> ZERO /\ c <> MINUS /\ c <> STAR /\ is_digit c = false.
Proof. intros Hc. repeat (destruct Hc as [<-|Hc]; [by vm_compute|]). done. Qed.

(** The first character of a width and a conversion. *)
Lemma width_char w c : In c conversions -> match w with
    | WDigits ds => Forall (fun c => is_digit c = true) ds /\ match ds with [] => False | d :: _ => d <> ZERO end
    | _ => True end ->
  char_at (render_width w ++ [c]) <> ZERO /\ char_at (render_width w ++ [c]) <> MINUS /\
  (char_at (render_width w ++ [c]) = STAR <-> w = WArg).
Proof.
  intros Hc Hw. destruct (conversions_char c Hc) as (_ & H1 & H2 & H3 & _). destruct w as [|ds|]; cbn [render_width app char_at].
  - split; [done|]. split; [done|]. split; [done|congruence].
  - destruct Hw as (Hd & Hz). destruct ds as [|d ds]; [done|]. apply Forall_cons_1 in Hd as (Hd & _). cbn [app char_at].
    unfold is_digit, MINUS, STAR, ZERO, NINE in *. apply andb_true_iff in Hd as (Hd1 & Hd2). zify_bools. split; [done|]. split; [lia|].
    split; [lia|congruence].
  - unfold ZERO, MINUS. done.
Qed.

Lemma char_at_app l1 l2 l3 : l1 ++ l2 <> [] -> char_at (l1 ++ l2 ++ l3) = char_at (l1 ++ l2).
Proof. intros H. rewrite app_assoc. by destruct (l1 ++ l2). Qed.

Lemma conversion_ok c f args o l rest : piece_ok (Conv c) -> Forall va_ok args ->
  piece_text (Conv c) args = Some (l, rest) ->
  conversion (tl (render (Conv c)) ++ f) args o = Ok (Z.of_nat (length l), f, rest, emit l o) /\ Forall is_byte l /\ Forall va_ok rest.
Proof.
  destruct c as [left zeros w conv]. intros (Hc & Hw) Hargs Ht.
  cbn [render tl piece_text c_left c_zeros c_width c_conv] in *.
  destruct (width_char w conv Hc Hw) as (Hz & Hm & Hs). destruct (conversions_char conv Hc) as (_ & Cz & Cm & Cs & Cd).
  set (body := render_width w ++ [conv]) in *.
  assert (Hb : body <> []) by (unfold body; by destruct (render_width w)).
  assert (Ech : char_at (body ++ f) = char_at body) by (by destruct body).
  unfold conversion. rewrite <- !app_assoc.
  assert (E1 : (if char_at ((if left then [MINUS] else []) ++ replicate zeros ZERO ++ body ++ f) =? MINUS
      then (tl ((if left then [MINUS] else []) ++ replicate zeros ZERO ++ body ++ f), 2)
      else ((if left then [MINUS] else []) ++ replicate zeros ZERO ++ body ++ f, 0)) =
    (replicate zeros ZERO ++ body ++ f, if left then 2 else 0)).
  { destruct left; [done|]. cbn [app]. rewrite (proj2 (Z.eqb_neq _ _)); [done|].
    destruct zeros as [|zeros]; cbn [replicate app char_at]; [by rewrite Ech|done]. }
  replace (render_width w ++ [conv] ++ f) with (body ++ f) by (unfold body; by rewrite <- app_assoc).
  rewrite E1. rewrite skip_zeros_ok by (rewrite ?Ech; destruct left; tauto).
  fold (spec_flags (CSpec left zeros w conv)). set (flags := spec_flags _) in *. rewrite Ech.
  assert (E2 : forall width args, conv_text conv width flags args = Some (l, rest) -> Forall va_ok args ->
    (let! '(n, args, o) := convert (char_at ([conv] ++ f)) width flags args o in
     match [conv] ++ f with [] => Fault FBounds | _ :: format => Ok (n, format, args, o) end) =
    Ok (Z.of_nat (length l), f, rest, emit l o) /\ Forall is_byte l /\ Forall va_ok rest).
  { intros width args' Ht' Ha'. cbn [app char_at]. destruct (convert_ok conv width flags args' o l rest Hc Ha' Ht') as (-> & H). done. }
  destruct w as [|ds|]; cbn [render_width] in *.
  - rewrite (proj2 (Z.eqb_neq _ _)) by (intros E; by apply Hs in E). unfold body. cbn [app].
    pose proof (read_width_ok [] ([conv] ++ f) 0 (Forall_nil_2 _) Cd) as Er. cbn [app fold_left] in Er. rewrite Er. cbn [obind].
    by apply E2.
  - rewrite (proj2 (Z.eqb_neq _ _)) by (intros E; by apply Hs in E). unfold body. rewrite <- app_assoc.
    rewrite (read_width_ok ds ([conv] ++ f) 0 (proj1 Hw) Cd). cbn [obind]. by apply E2.
  - rewrite (proj2 (Z.eqb_eq _ _)) by (by apply Hs). unfold body. cbn [app tl].
    destruct args as [|[v|s] args]; try done. cbn [va_int obind]. rewrite s32_u32.
    apply Forall_cons_1 in Hargs as (_ & Hargs). by apply E2.
Qed.

Lemma vsprintf_loop_ok ps : forall n args pc o l, Forall piece_ok ps -> Forall va_ok args ->
  (length (flat_map render ps) < n)%nat -> format_text ps args = Some l ->
  vsprintf_loop n (flat_map render ps) args pc o = Ok (pc + Z.of_nat (length l), emit l o) /\ Forall is_byte l.
Proof.
  induction ps as [|p ps IH]; intros n args pc o l Hps Hargs Hn Ht.
  { injection Ht as <-. destruct n as [|n]; [lia|]. cbn. rewrite Z.add_0_r. split; [done|apply Forall_nil_2]. }
  apply Forall_cons_1 in Hps as (Hp & Hps). cbn [format_text] in Ht.
  destruct (piece_text p args) as [[l1 args1]|] eqn:E1; [|done].
  destruct (format_text ps args1) as [l2|] eqn:E2; [|done]. injection Ht as <-.
  destruct n as [|n]; [lia|]. cbn [flat_map] in Hn |- *. rewrite length_app in Hn.
  assert (Hlen : Z.of_nat (length (l1 ++ l2)) = Z.of_nat (length l1) + Z.of_nat (length l2)) by (rewrite length_app; lia).
  rewrite Hlen, emit_app. clear Hlen. destruct p as [c| |c].
  - destruct Hp as (Hby & Hpc). injection E1 as <- <-. cbn [render app length] in *. cbn [vsprintf_loop].
    rewrite (proj2 (Z.eqb_neq c PERCENT) Hpc).
    destruct (IH n args (pc + 1) (simple_outputchar c o) l2 Hps Hargs ltac:(lia) E2) as (-> & Hb). split; [|by apply Forall_cons_2].
    f_equal. f_equal. lia.
  - injection E1 as <- <-. cbn [render app length] in *. cbn [vsprintf_loop]. rewrite Z.eqb_refl.
    destruct (IH n args (pc + 1) (simple_outputchar PERCENT o) l2 Hps Hargs ltac:(lia) E2) as (-> & Hb).
    split; [|apply Forall_cons_2; [unfold is_byte, PERCENT; lia|done]]. f_equal. f_equal. cbn [length]. lia.
  - destruct (conversion_ok c (flat_map render ps) args o l1 args1 Hp Hargs E1) as (Ec & Hb1 & Ha1).
    change (render (Conv c)) with (PERCENT :: tl (render (Conv c))) in Hn |- *. cbn [app length] in Hn |- *. cbn [vsprintf_loop].
    rewrite Z.eqb_refl.
    assert (Hne : exists d r, tl (render (Conv c)) ++ flat_map render ps = d :: r /\ d <> PERCENT).
    { destruct c as [left zeros w conv]. destruct Hp as (Hc & Hw). cbn [render tl c_left c_zeros c_width c_conv] in *.
      destruct left; [eexists _, _; split; [reflexivity|done]|]. destruct zeros; [|eexists _, _; split; [reflexivity|done]].
      destruct (conversions_char conv Hc) as (Hcp & _). destruct w as [|ds|]; cbn [render_width app replicate].
      - eexists _, _. split; [reflexivity|done].
      - destruct Hw as (Hd & Hz). destruct ds as [|d ds]; [done|]. apply Forall_cons_1 in Hd as (Hd & _).
        eexists _, _. split; [reflexivity|]. intros ->. done.
      - eexists _, _. split; [reflexivity|done]. }
    destruct Hne as (d & r & Ed & Hd). rewrite Ed in Ec |- *. rewrite (proj2 (Z.eqb_neq d PERCENT) Hd), Ec. cbn [obind].
    destruct (IH n args1 (pc + Z.of_nat (length l1)) (emit l1 o) l2 Hps Ha1 ltac:(lia) E2) as (-> & Hb).
    split; [|by apply Forall_app]. f_equal. f_equal. lia.
Qed.

(** [simple_snprintf] and the bytes it writes. *)
Lemma snprintf_ok buf len ps args l m : Forall piece_ok ps -> Forall va_ok args -> format_text ps args = Some l ->
  exists m', simple_snprintf buf len (flat_map render ps) args m = Ok (Z.of_nat (length l), m') /\
    text m' buf (length l) = l /\ m' (buf + Z.of_nat (length l)) = NUL /\
    (forall b, b < buf \/ buf + Z.of_nat (length l) < b -> m' b = m b) /\ Forall is_byte l.
Proof.
  intros Hps Hargs Ht.
  destruct (vsprintf_loop_ok ps (S (length (flat_map render ps))) args 0 (buf, m) l Hps Hargs (Nat.lt_succ_diag_r _) Ht) as (E & Hb).
  unfold simple_snprintf, simple_vsprintf. rewrite E. cbn [obind snd fst]. rewrite Z.add_0_l.
  pose proof (emit_fst l (buf, m)) as Ef. cbn [fst] in Ef. rewrite Ef. eexists. split; [reflexivity|]. split; [|split; [|split; [|exact Hb]]].
  - transitivity (text (snd (emit l (buf, m))) buf (length l)); [|exact (emit_text l (buf, m) Hb)]. unfold text. apply map_ext_in. intros i Hi. apply in_seq in Hi.
    by rewrite fn_lookup_insert_ne by lia.
  - by rewrite fn_lookup_insert.
  - intros b Hb'. rewrite fn_lookup_insert_ne by lia. apply emit_out. cbn [fst]. lia.
Qed.

(** C25: formatted output: for a format made of characters, double percent signs
    and the conversions d, u, x, X, c and s with alignment, zeros and a width
    written out or taken from the arguments, [simple_snprintf] writes the text
    the format stands for to the buffer, then a NUL, nothing else, and returns
    the length of the text; the length given by the caller plays no part. *)
Theorem snprintf_correct buf len ps args l m : Forall piece_ok ps -> Forall va_ok args -> format_text ps args = Some l ->
  exists m', simple_snprintf buf len (flat_map render ps) args m = Ok (Z.of_nat (length l), m') /\
    text m' buf (length l) = l /\ m' (buf + Z.of_nat (length l)) = NUL /\
    forall b, b < buf \/ buf + Z.of_nat (length l) < b -> m' b = m b.
Proof.
  intros Hps Hargs Ht. destruct (snprintf_ok buf len ps args l m Hps Hargs Ht) as (m' & H1 & H2 & H3 & H4 & _). by exists m'.
Qed.

(** "n=%05d %-4x|%s" *)
Definition demo_format : list piece :=
  [Lit 110; Lit 61; Conv (CSpec false 1 (WDigits [53]) 100); Lit 32; Conv (CSpec true 0 (WDigits [52]) 120); Lit 124;
   Conv (CSpec false 0 WNone 115)].

Lemma snprintf_correct_witness : exists m',
  simple_snprintf 4096 0 (flat_map render demo_format) [VInt (-42); VInt 255; VStr None] (fun _ => 0) = Ok (19, m') /\
  text m' 4096 7 = [110; 61; 45; 48; 48; 52; 50].
Proof.
  destruct (snprintf_correct 4096 0 demo_format [VInt (-42); VInt 255; VStr None]
    [110; 61; 45; 48; 48; 52; 50; 32; 102; 102; 32; 32; 124; 40; 110; 117; 108; 108; 41] (fun _ => 0)) as (m' & E & Ht & _).
  - repeat (apply Forall_cons_2; [cbn; unfold is_byte, PERCENT; try (split; [lia|lia]); try (split; [tauto|done || (split; [|done]; by apply Forall_singleton)])|]).
    apply Forall_nil_2.
  - repeat (apply Forall_cons_2; [exact I|]). apply Forall_nil_2.
  - vm_compute. reflexivity.
  - exists m'. split; [exact E|]. exact (f_equal (take 7) Ht).
Defined.
