(* ===== verification/PrintLock.v ===== *)
(** firmware/util.uart_print.c: how the CPUs take turns at the terminal.
    [_sync_print_] reads the word [print_request], writes the CPU's number to it
    when the device is free and reads it ten more times before it prints.  Every
    access of the word and every call of the device is one step of one CPU; each CPU
    calls [_sync_print_] once. *)

From Stdlib Require Import ZArith Lia Bool List.
From stdpp Require Import base tactics option list functions.
From S2P Require Import Prelude.

(** ** The steps of a CPU *)

Definition DEV_IS_FREE : Z := 0xf.

(** What is handed to the device; [PText] is the buffer of the CPU. *)
Inductive part := PNewline | PCpu | PColon | PText | PAbort.

#[export] Instance part_eq_dec : EqDecision part.
Proof. solve_decision. Defined.

(** The position of a CPU in [_sync_print_]: before the test of the loop, before
    the write, before check [loop_count_2], before the call number [i] of the
    device (the release after the last), before the message of the abort. *)
Inductive position :=
| Waiting (loop_count : Z) | Trying (loop_count : Z) | Checking (loop_count loop_count_2 : Z)
| Using (i : Z) | Aborting | Returned.

Record printer := Printer { print_request : Z; printed : list (Z * part); position_of : Z -> position }.

Definition goto (cpu : Z) (p : position) (s : printer) : printer :=
  Printer (print_request s) (printed s) (<[cpu := p]> (position_of s)).
Definition set_request (v : Z) (s : printer) : printer := Printer v (printed s) (position_of s).
Definition printToDev (cpu : Z) (p : part) (s : printer) : printer :=
  Printer (print_request s) (printed s ++ [(cpu, p)]) (position_of s).

(** Where [init_printing] leaves the word; every CPU is about to print. *)
Definition init_printer : printer := Printer DEV_IS_FREE [] (fun _ => Waiting 0).

Definition sync_print_step (cpu : Z) (s : printer) : printer :=
  match position_of s cpu with
  | Waiting n =>
      if n <? 20000 then
        if print_request s =? DEV_IS_FREE then goto cpu (Trying n) s else goto cpu (Waiting (n + 1)) s
      else goto cpu Aborting s
  | Trying n => goto cpu (Checking n 0) (set_request cpu s)
  | Checking n j =>
      if j <? 10 then
        if print_request s =? cpu then goto cpu (Checking n (j + 1)) s else goto cpu (Waiting n) s
      else goto cpu (Using 0) s
  | Using i =>
      if i =? 0 then goto cpu (Using 1) (printToDev cpu PNewline s)
      else if i =? 1 then goto cpu (Using 2) (printToDev cpu PCpu s)
      else if i =? 2 then goto cpu (Using 3) (printToDev cpu PColon s)
      else if i =? 3 then goto cpu (Using 4) (printToDev cpu PText s)
      else goto cpu Returned (set_request DEV_IS_FREE s)
  | Aborting => goto cpu Returned (printToDev cpu PAbort s)
  | Returned => s
  end.

Definition run_printers (cpus : list Z) (s : printer) : printer := fold_left (fun s cpu => sync_print_step cpu s) cpus s.

(** ** Promptness

    [age b a]: the steps of CPU [a] since CPU [b] read that the device is free.
    A CPU is prompt when no other takes more than ten steps between this read and
    the write that follows it. *)

Definition ages : Type := Z * Z -> Z.

Definition is_trying (p : position) : bool := match p with Trying _ => true | _ => false end.

Definition prompt (a : Z) (s : printer) (age : ages) : bool :=
  forallb (fun b => (b =? a) || negb (is_trying (position_of s b)) || (age (b, a) <? 10)) [0; 1; 2; 3].

Definition tick (a : Z) (age : ages) : ages :=
  fun k => if fst k =? a then 0 else if snd k =? a then age k + 1 else age k.

Fixpoint timed_run (cpus : list Z) (s : printer) (age : ages) : option (printer * ages) :=
  match cpus with
  | [] => Some (s, age)
  | a :: r =>
      if (0 <=? a) && (a <? 4) && prompt a s age then timed_run r (sync_print_step a s) (tick a age) else None
  end.

(** The parts of a line. *)
Definition line (cpu : Z) : list (Z * part) := [(cpu, PNewline); (cpu, PCpu); (cpu, PColon); (cpu, PText)].

Definition no_abort (l : list (Z * part)) : list (Z * part) := List.filter (fun x => negb (bool_decide (snd x = PAbort))) l.

(** ** The invariant of prompt CPUs *)

(** The CPU that may use the device: from the end of its checks on. *)
Definition holds (p : position) : bool := match p with Using _ => true | Checking _ j => 10 <=? j | _ => false end.

Definition parts_done (p : position) : nat := match p with Using i => Z.to_nat i | _ => O end.

Record exclusive (s : printer) (age : ages) : Prop := Exclusive {
  ex_age : forall k, 0 <= age k;
  ex_cpus : forall a, ~ 0 <= a < 4 -> position_of s a = Waiting 0;
  ex_hold : forall a, holds (position_of s a) = true ->
    print_request s = a /\ forall b, is_trying (position_of s b) = false;
  ex_check : forall a n j, position_of s a = Checking n j -> 0 <= j <= 10 /\
    (j < 10 -> print_request s = a -> forall b, b <> a -> is_trying (position_of s b) = true -> j + 1 <= age (b, a));
  ex_using : forall a i, position_of s a = Using i -> 0 <= i <= 4;
  ex_lines : exists cs rest, no_abort (printed s) = flat_map line cs ++ rest /\
    (forall a, holds (position_of s a) = true -> rest = take (parts_done (position_of s a)) (line a)) /\
    ((forall a, holds (position_of s a) = false) -> rest = []) }.

Lemma prompt_ok a s age b : prompt a s age = true -> 0 <= b < 4 -> b <> a -> is_trying (position_of s b) = true -> age (b, a) < 10.
Proof.
  intros Hp Hb Hne Ht. unfold prompt in Hp. rewrite forallb_forall in Hp.
  specialize (Hp b ltac:(cbn [In]; lia)). rewrite (proj2 (Z.eqb_neq b a) Hne), Ht in Hp. cbn in Hp. by apply Z.ltb_lt in Hp.
Qed.

Lemma position_goto a p s b : position_of (goto a p s) b = if decide (a = b) then p else position_of s b.
Proof. unfold goto. cbn [position_of]. case_decide as E; [subst; by rewrite fn_lookup_insert|by rewrite fn_lookup_insert_ne]. Qed.

Lemma tick_ge a age k : (forall k, 0 <= age k) -> 0 <= tick a age k.
Proof. intros H. unfold tick. specialize (H k). repeat case_if; lia. Qed.

Lemma tick_le a age b c : b <> a -> age (b, c) <= tick a age (b, c).
Proof. intros Hb. unfold tick. cbn [fst snd]. rewrite (proj2 (Z.eqb_neq b a) Hb). case_if; lia. Qed.

Lemma tick_own a age b : b <> a -> tick a age (b, a) = age (b, a) + 1.
Proof. intros Hb. unfold tick. cbn [fst snd]. by rewrite (proj2 (Z.eqb_neq b a) Hb), Z.eqb_refl. Qed.

Section moves.
Context (a : Z) (s : printer) (age : ages) (Ha : 0 <= a < 4) (He : exclusive s age).

Lemma hold_not_free : forall b, holds (position_of s b) = true -> print_request s <> DEV_IS_FREE.
Proof using He.
  intros b Hb E. destruct (ex_hold _ _ He b Hb) as (Hr & _). rewrite E in Hr.
  rewrite (ex_cpus _ _ He b) in Hb by (rewrite <- Hr; unfold DEV_IS_FREE; lia). done.
Qed.

Lemma hold_one b c : holds (position_of s b) = true -> holds (position_of s c) = true -> b = c.
Proof using He. intros Hb Hc. destruct (ex_hold _ _ He b Hb) as (<- & _). by destruct (ex_hold _ _ He c Hc) as (<- & _). Qed.

(** A step of a CPU without the device that leaves the word as it is. *)
Lemma wait_move_ok p : holds (position_of s a) = false -> holds p = false ->
  (is_trying p = true -> print_request s = DEV_IS_FREE) ->
  (forall n j, p = Checking n j -> 0 <= j < 10 /\
     (print_request s = a -> forall b, b <> a -> is_trying (position_of s b) = true -> j + 1 <= tick a age (b, a))) ->
  (forall i, p <> Using i) -> exclusive (goto a p s) (tick a age).
Proof using Ha He.
  intros Hh Hp Ht Hc Hu. destruct He as [E1 E2 E3 E4 E5 E6].
  assert (Hhold : forall b, holds (position_of (goto a p s) b) = true -> b <> a /\ holds (position_of s b) = true).
  { intros b. rewrite position_goto. case_decide as E; [by rewrite Hp|]. intros H. by split. }
  split.
  - intros k. by apply tick_ge.
  - intros b Hb. rewrite position_goto. rewrite decide_False by lia. by apply E2.
  - intros b Hb. destruct (Hhold b Hb) as (Hne & Hb'). destruct (E3 b Hb') as (Hr & Hn). split; [done|].
    intros c. rewrite position_goto. case_decide as E; [|apply Hn].
    destruct (is_trying p); [|done]. exfalso. by apply (hold_not_free b Hb'), Ht.
  - intros b n j. rewrite position_goto. case_decide as E.
    + subst b. intros Ep. destruct (Hc n j Ep) as (Hj & Hx). split; [lia|]. intros _ Hr c Hne. rewrite position_goto, decide_False by done. by apply Hx.
    + intros Hb. destruct (E4 b n j Hb) as (Hj & Hx). split; [done|]. intros Hj10 Hr c Hne. rewrite position_goto. case_decide as E'.
      * intros Htr. subst c. exfalso. specialize (Ht Htr). assert (0 <= b < 4).
        { destruct (decide (0 <= b < 4)); [done|]. rewrite E2 in Hb by done. done. }
        cbn [goto print_request] in Hr. rewrite Ht in Hr. unfold DEV_IS_FREE in Hr. lia.
      * intros Htr. specialize (Hx Hj10 Hr c Hne Htr). pose proof (tick_le a age c b ltac:(done)). lia.
  - intros b i. rewrite position_goto. case_decide as E; [intros Ep; by destruct (Hu i)|apply E5].
  - destruct E6 as (cs & rest & El & Er1 & Er2). exists cs, rest. split; [done|]. split.
    + intros b Hb. destruct (Hhold b Hb) as (Hne & Hb'). rewrite position_goto, decide_False by done. by apply Er1.
    + intros Hall. apply Er2. intros b. specialize (Hall b). rewrite position_goto in Hall. case_decide; [by subst|done].
Qed.

(** The write of a CPU that found the device free. *)
Lemma lock_write_ok n : position_of s a = Trying n -> exclusive (goto a (Checking n 0) (set_request a s)) (tick a age).
Proof using Ha He.
  intros Hp. destruct He as [E1 E2 E3 E4 E5 E6].
  assert (Hno : forall b, holds (position_of s b) = false).
  { intros b. destruct (holds (position_of s b)) eqn:Eb; [|done]. destruct (E3 b Eb) as (_ & Hn). specialize (Hn a). by rewrite Hp in Hn. }
  assert (Hno' : forall b, holds (position_of (goto a (Checking n 0) (set_request a s)) b) = false).
  { intros b. rewrite position_goto. case_decide; [done|apply Hno]. }
  split.
  - intros k. by apply tick_ge.
  - intros b Hb. rewrite position_goto, decide_False by lia. by apply E2.
  - intros b Hb. by rewrite Hno' in Hb.
  - intros b m j. rewrite position_goto. case_decide as E.
    + intros [= <- <-]. split; [lia|]. intros _ _ c Hne _. subst b. rewrite tick_own by done. specialize (E1 (c, a)). lia.
    + intros Hb. destruct (E4 b m j Hb) as (Hj & _). split; [done|]. intros _ Hr. cbn in Hr. done.
  - intros b i. rewrite position_goto. case_decide; [done|apply E5].
  - destruct E6 as (cs & rest & El & _ & Er2). exists cs, rest. split; [done|]. split; [intros b Hb; by rewrite Hno' in Hb|].
    intros _. by apply Er2.
Qed.

(** The last check: nobody is left that could still write. *)
Lemma acquire_ok n : position_of s a = Checking n 9 -> print_request s = a -> prompt a s age = true ->
  exclusive (goto a (Checking n 10) s) (tick a age).
Proof using Ha He.
  intros Hp Hr Hpr. destruct (ex_check _ _ He a n 9 Hp) as (_ & Hc).
  assert (Hno : forall b, is_trying (position_of s b) = false).
  { intros b. destruct (is_trying (position_of s b)) eqn:Eb; [|done]. exfalso.
    destruct (decide (b = a)) as [->|Hne]; [by rewrite Hp in Eb|].
    destruct (decide (0 <= b < 4)) as [Hb|Hb]; [|by rewrite (ex_cpus _ _ He b Hb) in Eb].
    pose proof (prompt_ok a s age b Hpr Hb Hne Eb). specialize (Hc ltac:(lia) Hr b Hne Eb). lia. }
  assert (Hfree : forall b, holds (position_of s b) = false).
  { intros b. destruct (holds (position_of s b)) eqn:Eb; [|done]. destruct (ex_hold _ _ He b Eb) as (Hb & _).
    assert (b = a) as -> by congruence. by rewrite Hp in Eb. }
  destruct He as [E1 E2 E3 E4 E5 E6]. split.
  - intros k. by apply tick_ge.
  - intros b Hb. rewrite position_goto, decide_False by lia. by apply E2.
  - intros b. rewrite position_goto. case_decide as E; [|by rewrite Hfree]. intros _. subst b. split; [done|].
    intros c. rewrite position_goto. case_decide; [done|apply Hno].
  - intros b m j. rewrite position_goto. case_decide as E; [intros [= <- <-]; split; [lia|lia]|]. intros Hb.
    destruct (E4 b m j Hb) as (Hj & Hx). split; [done|]. intros _ Hr'. cbn in Hr'. congruence.
  - intros b i. rewrite position_goto. case_decide; [done|apply E5].
  - destruct E6 as (cs & rest & El & _ & Er2). exists cs, rest. rewrite (Er2 Hfree) in *. split; [done|]. split; [|done].
    intros b. rewrite position_goto. case_decide; [done|by rewrite Hfree].
Qed.

(** The holder prints the next part of its line. *)
Lemma use_ok (i : nat) : holds (position_of s a) = true -> parts_done (position_of s a) = i -> (i < 4)%nat ->
  forall x, line a !! i = Some (a, x) -> x <> PAbort ->
  exclusive (goto a (Using (Z.of_nat i + 1)) (printToDev a x s)) (tick a age).
Proof using Ha He.
  intros Hh Hd Hi x Hx Hxa. destruct (ex_hold _ _ He a Hh) as (Hr & Hn). pose proof (fun b => hold_one b a) as Hone.
  destruct He as [E1 E2 E3 E4 E5 E6].
  assert (Hpos : forall b, b <> a -> holds (position_of s b) = false).
  { intros b Hne. destruct (holds (position_of s b)) eqn:Eb; [|done]. by destruct (Hne (Hone b Eb Hh)). }
  split.
  - intros k. by apply tick_ge.
  - intros b Hb. rewrite position_goto, decide_False by lia. by apply E2.
  - intros b. rewrite position_goto. case_decide as E; [intros _; subst b; split; [done|]|intros Hb; change (holds (position_of s b) = true) in Hb; by rewrite Hpos in Hb by done].
    intros c. rewrite position_goto. case_decide; [done|apply Hn].
  - intros b m j. rewrite position_goto. case_decide as E; [done|]. intros Hb. destruct (E4 b m j Hb) as (Hj & _). split; [done|].
    intros _ Hr' . cbn in Hr'. congruence.
  - intros b j. rewrite position_goto. case_decide; [intros [= <-]; lia|apply E5].
  - destruct E6 as (cs & rest & El & Er1 & _). exists cs, (take (S i) (line a)). split; [|split].
    + cbn [goto printToDev printed]. unfold no_abort in *. rewrite filter_app, El, (Er1 a Hh), Hd. cbn [List.filter snd].
      rewrite bool_decide_false by done. cbn [negb]. rewrite <- app_assoc. f_equal. by rewrite (take_S_r _ _ (a, x)).
    + intros b. rewrite position_goto. case_decide as E; [|intros Hb; change (holds (position_of s b) = true) in Hb; by rewrite Hpos in Hb by done].
      intros _. subst b. cbn [parts_done]. by replace (Z.to_nat (Z.of_nat i + 1)) with (S i) by lia.
    + intros Hall. specialize (Hall a). by rewrite position_goto, decide_True in Hall by done.
Qed.

Lemma pass_ok n : position_of s a = Checking n 10 -> exclusive (goto a (Using 0) s) (tick a age).
Proof using Ha He.
  intros Hp. assert (Hh : holds (position_of s a) = true) by (by rewrite Hp).
  destruct (ex_hold _ _ He a Hh) as (Hr & Hn). pose proof (fun b => hold_one b a) as Hone.
  destruct He as [E1 E2 E3 E4 E5 E6]. split.
  - intros k. by apply tick_ge.
  - intros b Hb. rewrite position_goto, decide_False by lia. by apply E2.
  - intros b. rewrite position_goto. case_decide as E; [intros _; subst b; split; [done|]|intros Hb; by destruct (E (eq_sym (Hone b Hb Hh)))].
    intros c. rewrite position_goto. case_decide; [done|apply Hn].
  - intros b m j. rewrite position_goto. case_decide as E; [done|]. intros Hb. destruct (E4 b m j Hb) as (Hj & _). split; [done|].
    intros _ Hr' . cbn in Hr'. congruence.
  - intros b j. rewrite position_goto. case_decide; [intros [= <-]; lia|apply E5].
  - destruct E6 as (cs & rest & El & Er1 & _). exists cs, rest. split; [done|]. split.
    + intros b. rewrite position_goto. case_decide as E; [|apply Er1]. intros _. subst b. specialize (Er1 a Hh). by rewrite Hp in Er1.
    + intros Hall. specialize (Hall a). by rewrite position_goto, decide_True in Hall by done.
Qed.

(** The device is released: the line is whole. *)
Lemma release_ok : position_of s a = Using 4 -> exclusive (goto a Returned (set_request DEV_IS_FREE s)) (tick a age).
Proof using Ha He.
  intros Hp. assert (Hh : holds (position_of s a) = true) by (by rewrite Hp).
  destruct (ex_hold _ _ He a Hh) as (Hr & Hn). pose proof (fun b => hold_one b a) as Hone.
  destruct He as [E1 E2 E3 E4 E5 E6].
  assert (Hno : forall b, holds (position_of (goto a Returned (set_request DEV_IS_FREE s)) b) = false).
  { intros b. rewrite position_goto. case_decide as E; [done|]. destruct (holds (position_of s b)) eqn:Eb; [|done].
    by destruct (E (eq_sym (Hone b Eb Hh))). }
  split.
  - intros k. by apply tick_ge.
  - intros b Hb. rewrite position_goto, decide_False by lia. by apply E2.
  - intros b Hb. by rewrite Hno in Hb.
  - intros b m j. rewrite position_goto. case_decide as E; [done|]. intros Hb. destruct (E4 b m j Hb) as (Hj & _). split; [done|].
    intros _ _ c _. rewrite position_goto. case_decide; [done|]. intros Hc. specialize (Hn c).
    change (is_trying (position_of s c) = true) in Hc. by rewrite Hn in Hc.
  - intros b j. rewrite position_goto. case_decide; [done|apply E5].
  - destruct E6 as (cs & rest & El & Er1 & _). exists (cs ++ [a]), []. split; [|split; [|done]].
    + cbn [goto set_request printed]. rewrite El, (Er1 a Hh), Hp, flat_map_app. cbn [flat_map]. by rewrite !app_nil_r.
    + intros b Hb. by rewrite Hno in Hb.
Qed.

Lemma print_abort_ok (c : Z) t g : exclusive t g -> exclusive (printToDev c PAbort t) g.
Proof using.
  intros [E1 E2 E3 E4 E5 (cs & rest & El & Er)]. split; try done. exists cs, rest. split; [|done].
  cbn [printToDev printed]. unfold no_abort in *. rewrite filter_app, El. cbn. by rewrite app_nil_r.
Qed.

Lemma step_ok : prompt a s age = true -> exclusive (sync_print_step a s) (tick a age).
Proof using Ha He.
  intros Hpr. unfold sync_print_step. destruct (position_of s a) as [n|n|n j|i| |] eqn:Ep.
  - destruct (n <? 20000); [destruct (Z.eqb_spec (print_request s) DEV_IS_FREE) as [Hf|Hf]|];
      (apply wait_move_ok; [by rewrite Ep|done|try done|done|done]).
  - by apply lock_write_ok.
  - destruct (ex_check _ _ He a n j Ep) as (Hj & Hc). destruct (Z.ltb_spec j 10) as [Hl|Hl].
    + assert (Hnh : holds (position_of s a) = false) by (rewrite Ep; cbn [holds]; by apply Z.leb_gt).
      destruct (Z.eqb_spec (print_request s) a) as [Hr|Hr]; [|by apply wait_move_ok].
      destruct (decide (j = 9)) as [->|Hj9]; [by apply acquire_ok|].
      apply wait_move_ok; [done|cbn [holds]; apply Z.leb_gt; lia|done| |done].
      intros m k [= <- <-]. split; [lia|]. intros _ b Hne Ht. rewrite tick_own by done. specialize (Hc Hl Hr b Hne Ht). lia.
    + assert (j = 10) as -> by lia. by apply (pass_ok n).
  - pose proof (ex_using _ _ He a i Ep) as Hi. assert (Hh : holds (position_of s a) = true) by (by rewrite Ep).
    assert (Hd : parts_done (position_of s a) = Z.to_nat i) by (by rewrite Ep).
    assert (i = 0 \/ i = 1 \/ i = 2 \/ i = 3 \/ i = 4) as [->|[->|[->|[->| ->]]]] by lia; cbn [Z.eqb Pos.eqb].
    + by apply (use_ok 0 Hh Hd ltac:(lia)).
    + by apply (use_ok 1 Hh Hd ltac:(lia)).
    + by apply (use_ok 2 Hh Hd ltac:(lia)).
    + by apply (use_ok 3 Hh Hd ltac:(lia)).
    + by apply release_ok.
  - apply (print_abort_ok a (goto a Returned s) (tick a age)). apply wait_move_ok; by rewrite ?Ep.
  - destruct He as [E1 E2 E3 E4 E5 E6]. split; try done; [intros k; by apply tick_ge|].
    intros b m j Hb. destruct (E4 b m j Hb) as (Hj & Hx). split; [done|]. intros Hl Hr c Hne Ht.
    assert (Hca : c <> a) by (intros ->; by rewrite Ep in Ht).
    specialize (Hx Hl Hr c Hne Ht). pose proof (tick_le a age c b Hca). lia.
Qed.
End moves.

Lemma init_exclusive : exclusive init_printer (fun _ => 0).
Proof.
  split; try done. exists [], []. done.
Qed.

Lemma timed_run_ok cpus : forall s age s' age', exclusive s age -> timed_run cpus s age = Some (s', age') -> exclusive s' age'.
Proof.
  induction cpus as [|a cpus IH]; intros s age s' age' He; cbn [timed_run]; [by intros [= <- <-]|].
  destruct (Z.leb_spec 0 a); [|done]. destruct (Z.ltb_spec a 4); [|done]. cbn [andb].
  destruct (prompt a s age) eqn:Ep; [|done]. apply IH. by apply step_ok.
Qed.

(** C27: prompt CPUs take turns: in every interleaving of the four CPUs in which
    none takes more than ten steps between another's reading that the device is
    free and that other's write, at most one CPU uses the device, the word holds
    its number, and what the device got, aside from the messages of CPUs that
    gave up, is a sequence of whole lines followed by the first parts of the line
    of the CPU that uses it. *)
Theorem prompt_printers_take_turns cpus s age : timed_run cpus init_printer (fun _ => 0) = Some (s, age) ->
  (forall a i, position_of s a = Using i -> print_request s = a) /\
  exists cs rest, no_abort (printed s) = flat_map line cs ++ rest /\
    (forall a i, position_of s a = Using i -> rest = take (Z.to_nat i) (line a)) /\
    ((forall a i, position_of s a <> Using i) -> (forall a n, position_of s a <> Checking n 10) -> rest = []).
Proof.
  intros Hr. pose proof (timed_run_ok cpus _ _ _ _ init_exclusive Hr) as [E1 E2 E3 E4 E5 (cs & rest & El & Er1 & Er2)].
  assert (Hh : forall a i, position_of s a = Using i -> holds (position_of s a) = true) by (intros a i Hp; by rewrite Hp).
  split; [intros a i Hp; by apply E3, (Hh a i)|]. exists cs, rest. split; [done|]. split.
  - intros a i Hp. rewrite (Er1 a (Hh a i Hp)). by rewrite Hp.
  - intros Hu Hc. apply Er2. intros a. destruct (position_of s a) as [n|n|n j|i| |] eqn:Ep; try done; cbn [holds].
    + destruct (E4 a n j Ep) as (Hj & _). destruct (Z.leb_spec 10 j); [|done]. assert (j = 10) as -> by lia. by destruct (Hc a n).
    + by destruct (Hu a i).
Qed.

(** CPU 1 finds the device free between the read and the write of CPU 0, which
    then finds the word changed and waits. *)
Definition demo_turns : list Z := [0; 1; 0; 0; 0; 1; 0] ++ replicate 12 1 ++ [0; 1; 1; 1; 1; 0; 1; 0] ++ replicate 12 0.

Definition demo_ends : bool :=
  match timed_run demo_turns init_printer (fun _ => 0) with
  | Some (s, _) => match position_of s 0 with Using 1 => true | _ => false end
  | None => false
  end.

Lemma prompt_printers_take_turns_witness : exists s age,
  timed_run demo_turns init_printer (fun _ => 0) = Some (s, age) /\ position_of s 0 = Using 1 /\ print_request s = 0 /\
  exists cs, no_abort (printed s) = flat_map line cs ++ [(0, PNewline)].
Proof.
  assert (Hd : demo_ends = true) by (vm_compute; reflexivity). unfold demo_ends in Hd.
  destruct (timed_run demo_turns init_printer (fun _ => 0)) as [[s age]|] eqn:E; [|discriminate Hd].
  assert (Hp : position_of s 0 = Using 1) by (clear E; destruct (position_of s 0) as [| | |i| |]; try discriminate Hd; destruct i as [|[]|]; try discriminate Hd; reflexivity).
  clear Hd. destruct (prompt_printers_take_turns demo_turns s age E) as (H1 & cs & rest & El & Er & _).
  exists s, age. split; [reflexivity|]. split; [exact Hp|]. split; [exact (H1 0 1 Hp)|]. exists cs. rewrite El. f_equal. exact (Er 0 1 Hp).
Defined.

(** ** A CPU that is not disturbed *)

Lemma run_app l1 l2 s : run_printers (l1 ++ l2) s = run_printers l2 (run_printers l1 s).
Proof. apply fold_left_app. Qed.

Lemma run_step c n s : run_printers (replicate (S n) c) s = run_printers (replicate n c) (sync_print_step c s).
Proof. done. Qed.

Lemma position_at c p s : position_of (goto c p s) c = p.
Proof. by rewrite position_goto, decide_True. Qed.

(** The checks of a CPU that owns the word. *)
Lemma run_checks c n : forall k j s, position_of s c = Checking n j -> print_request s = c -> j + Z.of_nat k = 10 ->
  exists s', run_printers (replicate k c) s = s' /\ position_of s' c = Checking n 10 /\ print_request s' = c /\ printed s' = printed s.
Proof.
  induction k as [|k IH]; intros j s Hp Hr Hj.
  - exists s. cbn. replace 10 with j by lia. done.
  - rewrite run_step. unfold sync_print_step. rewrite Hp. rewrite (proj2 (Z.ltb_lt j 10)) by lia. rewrite (proj2 (Z.eqb_eq _ _) Hr).
    destruct (IH (j + 1) (goto c (Checking n (j + 1)) s)) as (s' & E & H1 & H2 & H3); [apply position_at|done|lia|].
    by exists s'.
Qed.

Lemma run_line c n s : position_of s c = Waiting n -> n < 20000 -> print_request s = DEV_IS_FREE -> exists s',
  run_printers (replicate 18 c) s = s' /\ position_of s' c = Returned /\ print_request s' = DEV_IS_FREE /\ printed s' = printed s ++ line c.
Proof.
  intros Hp Hn Hr. change 18%nat with (1 + (1 + (10 + 6)))%nat. rewrite !replicate_add, !run_app. change (replicate 1 c) with [c].
  change (run_printers [c] s) with (sync_print_step c s). unfold sync_print_step at 1. rewrite Hp, (proj2 (Z.ltb_lt n 20000) Hn), Hr, Z.eqb_refl.
  set (s1 := goto c (Trying n) s). change (run_printers [c] s1) with (sync_print_step c s1).
  unfold sync_print_step at 1. unfold s1 at 1. rewrite position_at.
  set (s2 := goto c (Checking n 0) (set_request c s1)).
  destruct (run_checks c n 10 0 s2 (position_at _ _ _) eq_refl eq_refl) as (s3 & E & H1 & H2 & H3).
  rewrite E.
  change (printed s2) with (printed s) in H3. eexists. split; [reflexivity|].
  rewrite run_step. unfold sync_print_step. rewrite H1. cbn [Z.ltb Z.compare Pos.compare Pos.compare_cont].
  do 5 (rewrite run_step; unfold sync_print_step; rewrite position_at; cbn [Z.eqb Pos.eqb]).
  split; [apply position_at|]. split; [done|]. unfold line. rewrite <- H3. cbn [replicate run_printers fold_left goto set_request printToDev printed]. by rewrite <- !app_assoc.
Qed.

(** While another CPU has the device the loop counts. *)
Lemma run_waiting c k : forall n s, position_of s c = Waiting n -> print_request s <> DEV_IS_FREE -> n + Z.of_nat k <= 20000 -> exists s',
  run_printers (replicate k c) s = s' /\ position_of s' c = Waiting (n + Z.of_nat k) /\ print_request s' = print_request s /\ printed s' = printed s.
Proof.
  induction k as [|k IH]; intros n s Hp Hr Hn.
  - exists s. cbn [replicate]. by rewrite Z.add_0_r.
  - rewrite run_step. unfold sync_print_step. rewrite Hp, (proj2 (Z.ltb_lt n 20000)), (proj2 (Z.eqb_neq _ _) Hr) by lia.
    destruct (IH (n + 1) (goto c (Waiting (n + 1)) s)) as (s' & E & H1 & H2 & H3); [apply position_at|done|lia|].
    exists s'. split; [done|]. split; [|done]. by replace (n + Z.of_nat (S k)) with (n + 1 + Z.of_nat k) by lia.
Qed.

(** an undisturbed CPU always comes back: if the device is free it prints its
    whole line in 18 steps and frees the device again; if the device is not free
    it gives up after 20000 reads, prints the message of the abort and leaves the
    word to its owner. *)
Theorem undisturbed_printer_returns c s : position_of s c = Waiting 0 ->
  (print_request s = DEV_IS_FREE -> exists s', run_printers (replicate 18 c) s = s' /\ position_of s' c = Returned /\
     print_request s' = DEV_IS_FREE /\ printed s' = printed s ++ line c) /\
  (print_request s <> DEV_IS_FREE -> exists s', run_printers (replicate (Z.to_nat 20002) c) s = s' /\ position_of s' c = Returned /\
     print_request s' = print_request s /\ printed s' = printed s ++ [(c, PAbort)]).
Proof.
  intros Hp. split; [by apply (run_line c 0)|]. intros Hr.
  replace (Z.to_nat 20002) with (Z.to_nat 20000 + 2)%nat by lia. rewrite replicate_add, run_app.
  destruct (run_waiting c (Z.to_nat 20000) 0 s Hp Hr ltac:(lia)) as (s1 & -> & H1 & H2 & H3). rewrite Z2Nat.id, Z.add_0_l in H1 by lia.
  eexists. split; [reflexivity|]. rewrite run_step. unfold sync_print_step. rewrite H1.
  rewrite (proj2 (Z.ltb_ge 20000 20000)) by lia. rewrite run_step. unfold sync_print_step. rewrite position_at.
  split; [apply position_at|]. split; [done|]. rewrite <- H3. cbn [replicate run_printers fold_left goto printToDev printed]. done.
Qed.

Lemma undisturbed_printer_returns_witness : exists s', run_printers (replicate 18 2) init_printer = s' /\
  position_of s' 2 = Returned /\ printed s' = line 2.
Proof.
  destruct (proj1 (undisturbed_printer_returns 2 init_printer eq_refl) eq_refl) as (s' & E & H1 & _ & H2).
  exists s'. split; [exact E|]. split; [exact H1|exact H2].
Defined.

(** ** CPUs that are not prompt *)

Lemma step_other c b s : b <> c -> position_of (sync_print_step c s) b = position_of s b.
Proof.
  intros Hne. assert (Hg : forall p t, position_of (goto c p t) b = position_of t b) by (intros p t; by rewrite position_goto, decide_False).
  unfold sync_print_step. destruct (position_of s c); repeat case_if; try done; by rewrite Hg.
Qed.

Lemma run_other c b k : forall s, b <> c -> position_of (run_printers (replicate k c) s) b = position_of s b.
Proof. induction k as [|k IH]; intros s Hne; [done|]. rewrite run_step, IH by done. by apply step_other. Qed.

(** The CPU that uses the device prints [k] parts of its line. *)
Lemma run_parts c k : forall i s, position_of s c = Using (Z.of_nat i) -> (i + k <= 4)%nat -> exists s',
  run_printers (replicate k c) s = s' /\ position_of s' c = Using (Z.of_nat (i + k)) /\
  print_request s' = print_request s /\ printed s' = printed s ++ take k (drop i (line c)).
Proof.
  induction k as [|k IH]; intros i s Hp Hi.
  - exists s. rewrite Nat.add_0_r, take_0, app_nil_r. done.
  - assert (Hpart : exists x, sync_print_step c s = goto c (Using (Z.of_nat (S i))) (printToDev c x s) /\ line c !! i = Some (c, x)).
    { unfold sync_print_step. rewrite Hp. destruct i as [|[|[|[|i]]]]; [exists PNewline|exists PCpu|exists PColon|exists PText|lia]; done. }
    destruct Hpart as (x & Es & Ex). rewrite run_step, Es.
    destruct (IH (S i) (goto c (Using (Z.of_nat (S i))) (printToDev c x s)) (position_at _ _ _) ltac:(lia)) as (s' & E & H1 & H2 & H3).
    exists s'. split; [done|]. split; [by rewrite H1, Nat.add_succ_r|]. split; [done|].
    rewrite H3, (drop_S _ _ _ Ex). cbn [goto printToDev printed take]. by rewrite <- app_assoc.
Qed.

(** From the read that found the device free on: the write, the checks and [m]
    parts of the line, whatever the word holds. *)
Lemma run_late c n m s : position_of s c = Trying n -> (m <= 4)%nat -> exists s',
  run_printers (replicate (12 + m) c) s = s' /\ position_of s' c = Using (Z.of_nat m) /\ print_request s' = c /\
  printed s' = printed s ++ take m (line c).
Proof.
  intros Hp Hm. change (12 + m)%nat with (1 + (10 + (1 + m)))%nat. rewrite !replicate_add, !run_app.
  change (run_printers (replicate 1 c) s) with (sync_print_step c s). unfold sync_print_step. rewrite Hp.
  set (s2 := goto c (Checking n 0) (set_request c s)).
  destruct (run_checks c n 10 0 s2 (position_at _ _ _) eq_refl eq_refl) as (s3 & -> & H1 & H2 & H3).
  change (run_printers (replicate 1 c) s3) with (sync_print_step c s3). unfold sync_print_step. rewrite H1.
  cbn [Z.ltb Z.compare Pos.compare Pos.compare_cont].
  destruct (run_parts c m 0 (goto c (Using 0) s3) (position_at _ _ _) ltac:(lia)) as (s' & E & P1 & P2 & P3).
  exists s'. split; [done|]. split; [done|]. split; [by rewrite P2|]. rewrite P3. cbn [goto printed]. by rewrite H3.
Qed.

(** C28: ten checks do not exclude a CPU that is late: from every state in which two
    CPUs wait and the device is free, let both read that it is free; then one
    writes its number, passes its checks and prints [i] parts of its line, and
    the other, which comes only now, writes over the word, passes its ten checks
    too and prints [m] parts: both use the device, and the parts of the second
    are in the middle of the line of the first.  When the first is done it
    releases the device under the second. *)
Theorem late_printers_mix a b k l i m s :
  a <> b -> position_of s a = Waiting k -> position_of s b = Waiting l -> k < 20000 -> l < 20000 ->
  print_request s = DEV_IS_FREE -> (i <= 4)%nat -> (m <= 4)%nat ->
  exists s1 s2,
    run_printers ([a; b] ++ replicate (12 + i) a ++ replicate (12 + m) b) s = s1 /\
    position_of s1 a = Using (Z.of_nat i) /\ position_of s1 b = Using (Z.of_nat m) /\ print_request s1 = b /\
    printed s1 = printed s ++ take i (line a) ++ take m (line b) /\
    run_printers (replicate (5 - i) a) s1 = s2 /\
    position_of s2 a = Returned /\ position_of s2 b = Using (Z.of_nat m) /\ print_request s2 = DEV_IS_FREE /\
    printed s2 = printed s ++ take i (line a) ++ take m (line b) ++ drop i (line a).
Proof.
  intros Hne Ha Hb Hk Hl Hf Hi Hm. rewrite !run_app.
  assert (E1 : run_printers [a; b] s = goto b (Trying l) (goto a (Trying k) s)).
  { cbn [run_printers fold_left]. unfold sync_print_step at 2. rewrite Ha, (proj2 (Z.ltb_lt _ _) Hk), Hf, Z.eqb_refl.
    unfold sync_print_step. rewrite position_goto, decide_False, Hb, (proj2 (Z.ltb_lt _ _) Hl) by done.
    cbn [goto print_request]. by rewrite Hf, Z.eqb_refl. }
  rewrite E1. set (s0 := goto b _ _).
  destruct (run_late a k i s0) as (s1 & E2 & P1 & P2 & P3); [|done|].
  { unfold s0. by rewrite position_goto, decide_False, position_at by done. }
  rewrite E2. destruct (run_late b l m s1) as (s2 & E3 & Q1 & Q2 & Q3); [|done|].
  { rewrite <- E2, run_other by done. apply position_at. }
  assert (Qa : position_of s2 a = Using (Z.of_nat i)) by (by rewrite <- E3, run_other).
  destruct (run_parts a (4 - i) i s2 Qa ltac:(lia)) as (s3 & E4 & R1 & R2 & R3).
  rewrite Nat.add_comm, Nat.sub_add in R1 by lia.
  exists s2, (goto a Returned (set_request DEV_IS_FREE s3)). split; [done|]. split; [done|]. split; [done|]. split; [done|].
  change (printed s0) with (printed s) in P3. split; [by rewrite Q3, P3, <- app_assoc|]. split.
  { replace (5 - i)%nat with ((4 - i) + 1)%nat by lia. rewrite replicate_add, run_app, E4.
    change (run_printers (replicate 1 a) s3) with (sync_print_step a s3). unfold sync_print_step. by rewrite R1. }
  split; [apply position_at|]. split; [rewrite position_goto, decide_False by done; change (position_of s3 b = Using (Z.of_nat m));
    by rewrite <- E4, run_other|]. split; [done|].
  change (printed s3 = printed s ++ take i (line a) ++ take m (line b) ++ drop i (line a)).
  rewrite R3, Q3, P3, <- !app_assoc. do 3 f_equal. apply take_ge. rewrite length_drop. cbn. lia.
Qed.

(** CPU 1 prints its whole line after two parts of the line of CPU 0. *)
Lemma late_printers_mix_witness : exists s1 s2,
  run_printers ([0; 1] ++ replicate 14 0 ++ replicate 16 1) init_printer = s1 /\
  position_of s1 0 = Using 2 /\ position_of s1 1 = Using 4 /\
  printed s1 = [(0, PNewline); (0, PCpu)] ++ line 1 /\
  run_printers (replicate 3 0) s1 = s2 /\ print_request s2 = DEV_IS_FREE.
Proof.
  destruct (late_printers_mix 0 1 0 0 2 4 init_printer) as (s1 & s2 & E & P1 & P2 & _ & P3 & E2 & _ & _ & Q & _);
    [discriminate|reflexivity|reflexivity|lia|lia|reflexivity|lia|lia|].
  exists s1, s2. split; [exact E|]. split; [exact P1|]. split; [exact P2|]. split; [exact P3|]. split; [exact E2|exact Q].
Defined.
