(* ===== verification/PrintNames.v ===== *)
(** firmware/util.uart_print.c: [init_printing] and the tables of names it fills,
    which the messages of the firmware index with the type and the stage of a
    request. *)

From Stdlib Require Import ZArith Lia Bool List String.
From stdpp Require Import base tactics option list.
From S2P Require Import Prelude Requests PrintLock.

Local Open Scope string_scope.

(** ** The tables *)

Definition ISP_RESERVE_PAGES_REQUEST : Z := 12.
Definition REQ_STAGE_PROGRAMMING_FLASH : Z := 5.

Definition not_set_string : string := "Not Set".

Definition no_names : list string := replicate 32 not_set_string.

(** The assignments, each inside the table or a fault. *)
Fixpoint set_names (l : list (Z * string)) (names : list string) : outcome (list string) :=
  match l with
  | [] => Ok names
  | (i, s) :: r => let! names := arr_set names i s in set_names r names
  end.

Definition request_types : list (Z * string) :=
  [(ADMIN_REQUEST, "ADMIN_REQUEST"); (READ_IO_REQUEST, "READ_IO_REQUEST"); (WRITE_IO_REQUEST, "WRITE_IO_REQUEST");
   (FLUSH_IO_REQUEST, "FLUSH_IO_REQUEST"); (TRIM_IO_REQUEST, "TRIM_IO_REQUEST"); (ISP_IO_REQUEST, "ISP_IO_REQUEST");
   (WBC_FLUSH_REQUEST, "WBC_FLUSH_REQUEST"); (ISP_READ_PAGES_REQUEST, "ISP_READ_PAGES_REQUEST");
   (ISP_PROGRAM_PAGES_REQUEST, "ISP_PROGRAM_PAGES_REQUEST"); (ISP_RESERVE_PAGES_REQUEST, "ISP_RESERVE_PAGES_REQUEST");
   (ISP_HOST_DMA_REQUEST, "ISP_HOST_DMA_REQUEST")].

Definition request_stages : list (Z * string) :=
  [(REQ_STAGE_FREE, "REQ_STAGE_FREE"); (REQ_STAGE_INUSE, "REQ_STAGE_INUSE"); (REQ_STAGE_FTL, "REQ_STAGE_FTL");
   (REQ_STAGE_READING_FLASH, "REQ_STAGE_READING_FLASH"); (REQ_STAGE_PROGRAMMING_FLASH, "REQ_STAGE_PROGRAMMING_FLASH");
   (REQ_STAGE_DMA, "REQ_STAGE_DMA"); (PENDING_CCMD_POST, "PENDING_CCMD_POST"); (REQ_COMPLETED, "REQ_COMPLETED");
   (ISP_DATA_TRANSFERING, "ISP_DATA_TRANSFERING"); (ISP_CTRL_PENDING_MSG, "ISP_CTRL_PENDING_MSG");
   (ISP_EXEC_PENDING_POST, "ISP_EXEC_PENDING_POST")].

Record names := Names { print_request_word : Z; request_type_string : list string; request_stage_string : list string }.

(** The word of the device comes from the uncacheable heap ([Boot]). *)
Definition init_printing : outcome names :=
  let! types := set_names request_types no_names in
  let! stages := set_names request_stages no_names in
  Ok (Names DEV_IS_FREE types stages).

(** Every name is where its number says, and no assignment leaves the tables. *)
Lemma init_printing_names : exists n, init_printing = Ok n /\ print_request_word n = print_request init_printer /\
  (forall i s, In (i, s) request_types -> arr_get (request_type_string n) i = Ok s) /\
  (forall i s, In (i, s) request_stages -> arr_get (request_stage_string n) i = Ok s).
Proof.
  eexists. split; [reflexivity|]. split; [reflexivity|].
  split; intros i s Hi; cbn [request_types request_stages In] in Hi; repeat destruct Hi as [Hi|Hi]; try done; injection Hi as <- <-; reflexivity.
Qed.
