(* ===== verification/PrintDev.v ===== *)
(** firmware/util.uart_print.c and issd_kernel.c: the message buffer of a core and
    the loop that hands its characters to the device, put together with formatted
    output and the turns of the cores. *)

From Stdlib Require Import ZArith Lia Bool List.
From stdpp Require Import base tactics option list functions.
From S2P Require Import Prelude CTypes MemUtil Printf PrintText PrintLock.

(** ** The buffers and the device *)

(** [sizeof(printing_buffer)], the offset and the size of its [buffer]. *)
Definition sizeof_printing_buffer : Z := 65552.
Definition buffer_offset : Z := 16.
Definition buffer_size : Z := 0x10000.

Section device.
Context (printbuff : Z).

Definition get_buff (cpu : Z) : Z := printbuff + cpu * sizeof_printing_buffer + buffer_offset.

(** The characters the device was given. *)
Fixpoint printToDev (fuel : nat) (s : Z) (m : mem) (dev : list Z) : outcome (list Z) :=
  match fuel with
  | O => Fault FFuel
  | S n => if m s =? NUL then Ok dev else printToDev n (s + 1) m (dev ++ [u8 (m s)])
  end.

Definition printCharToDev (char_ : Z) (dev : list Z) : list Z := dev ++ [u8 char_].

(** "CORE 0" to "CORE 3" *)
Definition cpu_string (cpu : Z) : list Z := [67; 79; 82; 69; 32; 48 + cpu].

(** What a part of a line puts on the device; the text is the buffer of the core,
    which [queue_print] hands over. *)
Definition print_part (m : mem) (p : Z * part) (dev : list Z) : outcome (list Z) :=
  match snd p with
  | PNewline => Ok (dev ++ [10; 32])
  | PCpu => Ok (dev ++ cpu_string (fst p))
  | PColon => Ok (dev ++ [32; 58; 32])
  | PText => printToDev (Z.to_nat (buffer_size + 1)) (get_buff (fst p)) m dev
  | PAbort => Ok (dev ++ [10; 32; 42; 42; 42; 65; 66; 79; 82; 84; 42; 42; 42; 32; 10])
  end.

Fixpoint print_parts (m : mem) (ps : list (Z * part)) (dev : list Z) : outcome (list Z) :=
  match ps with
  | [] => Ok dev
  | p :: r => let! dev := print_part m p dev in print_parts m r dev
  end.

(** ** A message *)

Lemma text_cons m a n : text m a (S n) = m a :: text m (a + 1) n.
Proof.
  unfold text. cbn [seq map]. rewrite Z.add_0_r. f_equal. rewrite <- seq_shift, map_map. apply map_ext. intros i. f_equal. lia.
Qed.

Lemma printToDev_text n : forall fuel s m dev, (n < fuel)%nat -> Forall (fun c => is_byte c /\ c <> NUL) (text m s n) -> m (s + Z.of_nat n) = NUL ->
  printToDev fuel s m dev = Ok (dev ++ text m s n).
Proof.
  induction n as [|n IH]; intros fuel s m dev Hf Hall Hn; destruct fuel as [|fuel]; try lia; cbn [printToDev].
  - rewrite Z.add_0_r in Hn. rewrite Hn, Z.eqb_refl. cbn. by rewrite app_nil_r.
  - rewrite text_cons in Hall |- *. apply Forall_cons_1 in Hall as ((Hb & Hne) & Hall). rewrite (proj2 (Z.eqb_neq _ _) Hne).
    rewrite (IH fuel (s + 1) m) by (try lia; try done; rewrite <- Hn; f_equal; lia). rewrite <- app_assoc. cbn [app].
    unfold is_byte in Hb. by rewrite u8_id by lia.
Qed.

Lemma buffers_apart a b x : a <> b -> get_buff a <= x < get_buff a + buffer_size -> get_buff b <= x < get_buff b + buffer_size -> False.
Proof. unfold get_buff, buffer_size, sizeof_printing_buffer. intros Hne H1 H2. assert (a < b \/ b < a) as [H|H] by lia; nia. Qed.

(** A message that fits its buffer is printed as a line of its core, and formatting
    it leaves the buffers of the other cores alone. *)
Theorem message_printed cpu len ps args l m dev : Forall piece_ok ps -> Forall va_ok args -> format_text ps args = Some l ->
  Forall (fun c => c <> NUL) l -> Z.of_nat (length l) < buffer_size ->
  exists m', simple_snprintf (get_buff cpu) len (flat_map render ps) args m = Ok (Z.of_nat (length l), m') /\
    print_parts m' (line cpu) dev = Ok (dev ++ [10; 32] ++ cpu_string cpu ++ [32; 58; 32] ++ l) /\
    forall b x, b <> cpu -> get_buff b <= x < get_buff b + buffer_size -> m' x = m x.
Proof.
  intros Hps Hargs Ht Hnul Hlen. destruct (snprintf_ok (get_buff cpu) len ps args l m Hps Hargs Ht) as (m' & E & Htx & Hz & Hout & Hby).
  exists m'. split; [done|]. split.
  - cbn [print_parts line print_part fst snd obind]. rewrite (printToDev_text (length l)); [|lia| |done].
    + rewrite Htx. cbn [obind]. by rewrite <- !app_assoc.
    + rewrite Htx. apply Forall_forall. intros c Hc. rewrite Forall_forall in Hby, Hnul. split; [by apply Hby|by apply Hnul].
  - intros b x Hb Hx. apply Hout. destruct (decide (x < get_buff cpu)) as [?|Hlo]; [by left|]. right.
    assert (~ x < get_buff cpu + buffer_size); [|lia]. intros Hhi. apply (buffers_apart b cpu x Hb); [done|lia].
Qed.

End device.
