(* ===== verification/SimBuffer.v ===== *)
(** SSD_hw_platforms/gem5/extra_sim_objects/iSSDBufferMgt.cc: the simulated buffer
    manager between the host interface controller and the flash controllers.  Each
    side has a port; a write on one side puts a 512-byte page in a queue, a read
    on the other takes it out.  A request that cannot be served is refused and
    the port is told to try again when the other side has made room.

    The packets, the event queue and the ports belong to the simulator: a packet is
    a number in a store, [schedule] stops the simulator when the event is already
    scheduled, and what is sent through a port is a list of outputs.  A peer that
    answers a retry with its request at once is a call after the handler returns,
    since the retry is the last thing a handler does. *)

From Stdlib Require Import ZArith Lia Bool List.
From stdpp Require Import base tactics option list functions.
From S2P Require Import Prelude.

(** ** State *)

Record packet := Pkt { pkt_read : bool; pkt_write : bool; pkt_data : list Z }.

Inductive side := NandSide | HostSide.
#[export] Instance side_eq_dec : EqDecision side.
Proof. solve_decision. Defined.

Inductive output := RetryReq (to : side) | TimingResp (to : side) (pkt : Z).

(** A port: the packet seen last, and whether its response is scheduled. *)
Record port := Port { port_packet : option Z; resp_scheduled : bool }.

Record buffer_mgt := Buffers {
  wbufferQ : list (list Z); rbufferQ : list (list Z);
  readBufferSize : Z; writeBufferSize : Z;
  hasBlockedNCWriteReq : bool; hasBlockedNCReadReq : bool;
  hasBlockedHIntReadReq : bool; hasBlockedHintWriteReq : bool;
  ncSide : port; hintSide : port;
  packets : Z -> packet; outputs : list output }.

Definition set_queues w r s := Buffers w r (readBufferSize s) (writeBufferSize s) (hasBlockedNCWriteReq s) (hasBlockedNCReadReq s)
  (hasBlockedHIntReadReq s) (hasBlockedHintWriteReq s) (ncSide s) (hintSide s) (packets s) (outputs s).
Definition set_blocked nw nr hr hw s := Buffers (wbufferQ s) (rbufferQ s) (readBufferSize s) (writeBufferSize s) nw nr hr hw
  (ncSide s) (hintSide s) (packets s) (outputs s).
Definition set_ports n h s := Buffers (wbufferQ s) (rbufferQ s) (readBufferSize s) (writeBufferSize s) (hasBlockedNCWriteReq s)
  (hasBlockedNCReadReq s) (hasBlockedHIntReadReq s) (hasBlockedHintWriteReq s) n h (packets s) (outputs s).
Definition set_packets p s := Buffers (wbufferQ s) (rbufferQ s) (readBufferSize s) (writeBufferSize s) (hasBlockedNCWriteReq s)
  (hasBlockedNCReadReq s) (hasBlockedHIntReadReq s) (hasBlockedHintWriteReq s) (ncSide s) (hintSide s) p (outputs s).
Definition add_output o s := Buffers (wbufferQ s) (rbufferQ s) (readBufferSize s) (writeBufferSize s) (hasBlockedNCWriteReq s)
  (hasBlockedNCReadReq s) (hasBlockedHIntReadReq s) (hasBlockedHintWriteReq s) (ncSide s) (hintSide s) (packets s) (outputs s ++ [o]).

Definition block_nc_write b s := set_blocked b (hasBlockedNCReadReq s) (hasBlockedHIntReadReq s) (hasBlockedHintWriteReq s) s.
Definition block_nc_read b s := set_blocked (hasBlockedNCWriteReq s) b (hasBlockedHIntReadReq s) (hasBlockedHintWriteReq s) s.
Definition block_hint_read b s := set_blocked (hasBlockedNCWriteReq s) (hasBlockedNCReadReq s) b (hasBlockedHintWriteReq s) s.
Definition block_hint_write b s := set_blocked (hasBlockedNCWriteReq s) (hasBlockedNCReadReq s) (hasBlockedHIntReadReq s) b s.

Definition port_of (x : side) (s : buffer_mgt) : port := match x with NandSide => ncSide s | HostSide => hintSide s end.
Definition set_port (x : side) (p : port) (s : buffer_mgt) : buffer_mgt :=
  match x with NandSide => set_ports p (hintSide s) s | HostSide => set_ports (ncSide s) p s end.

(** The constructor; the ports start without a packet. *)
Definition new_buffer_mgt (pk : Z -> packet) : buffer_mgt :=
  Buffers [] [] 32768 32768 false false false false (Port None false) (Port None false) pk [].

(** ** Pages *)

(** [memcpy] of 512 bytes, from a packet and to a packet. *)
Definition page_of_packet (p : packet) : list Z := take 512 (pkt_data p).
Definition page_to_packet (d : list Z) (p : packet) : packet := Pkt (pkt_read p) (pkt_write p) (d ++ drop 512 (pkt_data p)).

(** ** Operations *)

Definition schedule_resp (x : side) (s : buffer_mgt) : outcome buffer_mgt :=
  if resp_scheduled (port_of x s) then Fault FShutdown
  else Ok (set_port x (Port (port_packet (port_of x s)) true) s).

Definition trySendRetry (x : side) (s : buffer_mgt) : buffer_mgt := add_output (RetryReq x) s.

(** The event of a port: the packet becomes a response and is sent. *)
Definition trysendTimingResp (x : side) (s : buffer_mgt) : outcome buffer_mgt :=
  match port_packet (port_of x s) with
  | None => Fault FNull
  | Some p => Ok (add_output (TimingResp x p) (set_port x (Port (Some p) false) s))
  end.

Definition handleNCWrite (pkt : Z) (s : buffer_mgt) : outcome (bool * buffer_mgt) :=
  if readBufferSize s <=? Z.of_nat (length (rbufferQ s)) then Ok (false, block_nc_write true s)
  else
    let pg := page_of_packet (packets s pkt) in
    let s := set_queues (wbufferQ s) (rbufferQ s ++ [pg]) s in
    let s := block_nc_write false s in
    let! s := schedule_resp NandSide s in
    let s := if hasBlockedHIntReadReq s then trySendRetry HostSide s else s in
    Ok (true, s).

Definition handleNCRead (pkt : Z) (s : buffer_mgt) : outcome (bool * buffer_mgt) :=
  match wbufferQ s with
  | [] => Ok (false, block_nc_read true s)
  | pg :: rest =>
      let s := set_packets (<[pkt := page_to_packet pg (packets s pkt)]> (packets s)) s in
      let s := set_queues rest (rbufferQ s) s in
      let s := block_nc_read false s in
      let! s := schedule_resp NandSide s in
      let s := if hasBlockedHintWriteReq s then trySendRetry HostSide s else s in
      Ok (true, s)
  end.

Definition handleHIntWrite (pkt : Z) (s : buffer_mgt) : outcome (bool * buffer_mgt) :=
  if writeBufferSize s <=? Z.of_nat (length (wbufferQ s)) then Ok (false, block_hint_write true s)
  else
    let pg := page_of_packet (packets s pkt) in
    let s := set_queues (wbufferQ s ++ [pg]) (rbufferQ s) s in
    let s := block_hint_write false s in
    let! s := schedule_resp HostSide s in
    let s := if hasBlockedNCReadReq s then trySendRetry NandSide s else s in
    Ok (true, s).

Definition handleHIntRead (pkt : Z) (s : buffer_mgt) : outcome (bool * buffer_mgt) :=
  match rbufferQ s with
  | [] => Ok (false, block_hint_read true s)
  | pg :: rest =>
      let s := set_packets (<[pkt := page_to_packet pg (packets s pkt)]> (packets s)) s in
      let s := set_queues (wbufferQ s) rest s in
      let s := block_hint_read false s in
      let! s := schedule_resp HostSide s in
      let s := if hasBlockedNCWriteReq s then trySendRetry NandSide s else s in
      Ok (true, s)
  end.

(** The packet is noted before it is known whether it can be served. *)
Definition recvTimingReq (x : side) (pkt : Z) (s : buffer_mgt) : outcome (bool * buffer_mgt) :=
  let s := set_port x (Port (Some pkt) (resp_scheduled (port_of x s))) s in
  if pkt_read (packets s pkt) then
    match x with NandSide => handleNCRead pkt s | HostSide => handleHIntRead pkt s end
  else if pkt_write (packets s pkt) then
    match x with NandSide => handleNCWrite pkt s | HostSide => handleHIntWrite pkt s end
  else Ok (false, s).

(** ** Sequences of calls *)

Inductive call := Request (x : side) (pkt : Z) | Respond (x : side).

Definition do_call (c : call) (s : buffer_mgt) : outcome buffer_mgt :=
  match c with
  | Request x pkt => let! '(_, s) := recvTimingReq x pkt s in Ok s
  | Respond x => if resp_scheduled (port_of x s) then trysendTimingResp x s else Fault FShutdown
  end.

(** What went through the two queues so far. *)
Record traffic := Traffic { host_wrote : list (list Z); nand_read : list (list Z); nand_wrote : list (list Z); host_read : list (list Z) }.

(** The page of an accepted request: what the packet of a write held, what the
    packet of a read holds afterwards. *)
Definition note (c : call) (s s' : buffer_mgt) (accepted : bool) (t : traffic) : traffic :=
  match c with
  | Request x pkt =>
      if accepted then
        if pkt_read (packets s pkt) then
          let pg := page_of_packet (packets s' pkt) in
          match x with
          | NandSide => Traffic (host_wrote t) (nand_read t ++ [pg]) (nand_wrote t) (host_read t)
          | HostSide => Traffic (host_wrote t) (nand_read t) (nand_wrote t) (host_read t ++ [pg])
          end
        else
          let pg := page_of_packet (packets s pkt) in
          match x with
          | NandSide => Traffic (host_wrote t) (nand_read t) (nand_wrote t ++ [pg]) (host_read t)
          | HostSide => Traffic (host_wrote t ++ [pg]) (nand_read t) (nand_wrote t) (host_read t)
          end
      else t
  | Respond _ => t
  end.

Definition noted_call (c : call) (s : buffer_mgt) (t : traffic) : outcome (buffer_mgt * traffic) :=
  match c with
  | Request x pkt => let! '(b, s') := recvTimingReq x pkt s in Ok (s', note c s s' b t)
  | Respond x => let! s' := do_call c s in Ok (s', t)
  end.

Fixpoint run_calls (cs : list call) (s : buffer_mgt) (t : traffic) : outcome (buffer_mgt * traffic) :=
  match cs with
  | [] => Ok (s, t)
  | c :: r => let! '(s, t) := noted_call c s t in run_calls r s t
  end.

Definition no_traffic : traffic := Traffic [] [] [] [].

(** ** The queues lose nothing *)

Definition packets_ok (pk : Z -> packet) : Prop := forall p, (512 <= length (pkt_data (pk p)))%nat.

Record buffers_inv (s : buffer_mgt) (t : traffic) : Prop := BuffersInv {
  bi_write : host_wrote t = nand_read t ++ wbufferQ s;
  bi_read : nand_wrote t = host_read t ++ rbufferQ s;
  bi_sizes : readBufferSize s = 32768 /\ writeBufferSize s = 32768;
  bi_bounds : (length (wbufferQ s) <= Z.to_nat 32768)%nat /\ (length (rbufferQ s) <= Z.to_nat 32768)%nat;
  bi_pages : Forall (fun pg => length pg = 512%nat) (wbufferQ s) /\ Forall (fun pg => length pg = 512%nat) (rbufferQ s);
  bi_packets : packets_ok (packets s) }.

Lemma page_length p : (512 <= length (pkt_data p))%nat -> length (page_of_packet p) = 512%nat.
Proof. intros H. unfold page_of_packet. rewrite length_take. lia. Qed.

Lemma page_of_to d p : length d = 512%nat -> page_of_packet (page_to_packet d p) = d.
Proof. intros H. unfold page_of_packet, page_to_packet. cbn [pkt_data]. by rewrite take_app_length'. Qed.

Lemma packets_insert pk k d : packets_ok pk -> length d = 512%nat -> packets_ok (<[k := page_to_packet d (pk k)]> pk).
Proof.
  intros Hp Hd q. destruct (decide (k = q)) as [<-|Hne]; [rewrite fn_lookup_insert|by rewrite fn_lookup_insert_ne].
  cbn [page_to_packet pkt_data]. rewrite length_app. lia.
Qed.

(** Scheduling a response, a retry and noting a packet leave the queues alone. *)
Lemma schedule_resp_ok x s s' : schedule_resp x s = Ok s' ->
  s' = set_port x (Port (port_packet (port_of x s)) true) s /\ resp_scheduled (port_of x s) = false.
Proof. unfold schedule_resp. destruct (resp_scheduled _); [done|]. by intros [= <-]. Qed.

Definition same_queues (s s' : buffer_mgt) : Prop :=
  wbufferQ s' = wbufferQ s /\ rbufferQ s' = rbufferQ s /\ readBufferSize s' = readBufferSize s /\ writeBufferSize s' = writeBufferSize s /\
  packets s' = packets s.

Lemma same_queues_trans s1 s2 s3 : same_queues s1 s2 -> same_queues s2 s3 -> same_queues s1 s3.
Proof. unfold same_queues. intros (-> & -> & -> & -> & ->) (-> & -> & -> & -> & ->). done. Qed.

Lemma set_port_same x p s : same_queues s (set_port x p s).
Proof. by destruct x. Qed.

Lemma retry_same x s (b : bool) : same_queues s (if b then trySendRetry x s else s).
Proof. by destruct b. Qed.

Lemma inv_same s s' t : same_queues s s' -> buffers_inv s t -> buffers_inv s' t.
Proof. intros (E1 & E2 & E3 & E4 & E5) [H1 H2 H3 H4 H5 H6]. split; by rewrite ?E1, ?E2, ?E3, ?E4, ?E5. Qed.

(** A served request, up to its response and its retry. *)
Lemma served x y (b : buffer_mgt -> bool) s0 s' r : (let! s := schedule_resp x s0 in Ok (true, if b s then trySendRetry y s else s)) = Ok (r, s') ->
  r = true /\ same_queues s0 s'.
Proof.
  destruct (schedule_resp x s0) as [s1|] eqn:E; cbn [obind]; [|done]. apply schedule_resp_ok in E as (-> & _). intros [= <- <-].
  split; [done|]. eapply same_queues_trans; [apply set_port_same|apply retry_same].
Qed.

Lemma noted_call_ok c s t s' t' : buffers_inv s t -> noted_call c s t = Ok (s', t') -> buffers_inv s' t'.
Proof.
  intros Hi. destruct c as [x pkt|x]; cbn [noted_call do_call].
  - destruct (recvTimingReq x pkt s) as [[b s1]|] eqn:E; cbn [obind]; [|done]. intros [= <- <-]. unfold note.
    unfold recvTimingReq in E. set (s0 := set_port x _ s) in E.
    assert (Hs0 : same_queues s s0) by apply set_port_same.
    assert (Hpk : packets s0 = packets s) by (by destruct x).
    pose proof (inv_same _ _ _ Hs0 Hi) as Hi0. clearbody s0. pose proof (bi_packets _ _ Hi pkt) as Hlen. clear Hi.
    destruct Hi0 as [H1 H2 (H3 & H3') (H4 & H4') (H5 & H5') H6]. rewrite <- Hpk in Hlen |- *. clear Hpk Hs0.
    destruct (pkt_read (packets s0 pkt)) eqn:Er; [|destruct (pkt_write (packets s0 pkt))].
    + destruct x; cbn [handleNCRead handleHIntRead] in E; unfold handleNCRead, handleHIntRead in E.
      * destruct (wbufferQ s0) as [|pg rest] eqn:Eq; [injection E as <- <-; split; cbn; by rewrite ?Eq|].
        apply Forall_cons_1 in H5 as (Hpg & Hrest). apply (served NandSide HostSide hasBlockedHintWriteReq) in E as (-> & Hs).
        eapply inv_same; [exact Hs|]. destruct Hs as (_ & _ & _ & _ & ->). cbn [packets set_queues set_packets set_blocked block_nc_read].
        rewrite fn_lookup_insert, page_of_to by done. split; cbn; try done; [|split; [|done]; cbn in H4; lia|by apply packets_insert].
        rewrite H1. by rewrite <- app_assoc.
      * destruct (rbufferQ s0) as [|pg rest] eqn:Eq; [injection E as <- <-; split; cbn; by rewrite ?Eq|].
        apply Forall_cons_1 in H5' as (Hpg & Hrest). apply (served HostSide NandSide hasBlockedNCWriteReq) in E as (-> & Hs).
        eapply inv_same; [exact Hs|]. destruct Hs as (_ & _ & _ & _ & ->). cbn [packets set_queues set_packets set_blocked block_hint_read].
        rewrite fn_lookup_insert, page_of_to by done. split; cbn; try done; [|split; [done|]; cbn in H4'; lia|by apply packets_insert].
        rewrite H2. by rewrite <- app_assoc.
    + destruct x; unfold handleNCWrite, handleHIntWrite in E.
      * rewrite H3 in E. destruct (Z.leb_spec 32768 (Z.of_nat (length (rbufferQ s0)))) as [Hf|Hf]; [injection E as <- <-; by split|].
        apply (served NandSide HostSide hasBlockedHIntReadReq) in E as (-> & Hs). eapply inv_same; [exact Hs|].
        split; cbn; try done; [by rewrite H2, app_assoc|split; [done|rewrite length_app; cbn; lia]|].
        split; [done|]. apply Forall_app. split; [done|]. apply Forall_singleton. by apply page_length.
      * rewrite H3' in E. destruct (Z.leb_spec 32768 (Z.of_nat (length (wbufferQ s0)))) as [Hf|Hf]; [injection E as <- <-; by split|].
        apply (served HostSide NandSide hasBlockedNCReadReq) in E as (-> & Hs). eapply inv_same; [exact Hs|].
        split; cbn; try done; [by rewrite H1, app_assoc|split; [rewrite length_app; cbn; lia|done]|].
        split; [|done]. apply Forall_app. split; [done|]. apply Forall_singleton. by apply page_length.
    + injection E as <- <-. by split.
  - destruct (resp_scheduled (port_of x s)); cbn [obind]; [|done]. unfold trysendTimingResp.
    destruct (port_packet (port_of x s)) as [p|]; cbn [obind]; [|done]. intros [= <- <-].
    apply (inv_same s); [|done]. by destruct x.
Qed.

Lemma run_calls_ok cs : forall s t s' t', buffers_inv s t -> run_calls cs s t = Ok (s', t') -> buffers_inv s' t'.
Proof.
  induction cs as [|c cs IH]; intros s t s' t' Hi; cbn [run_calls]; [by intros [= <- <-]|].
  destruct (noted_call c s t) as [[s1 t1]|] eqn:E; cbn [obind]; [|done]. apply IH. by eapply noted_call_ok.
Qed.

(** C32: the buffer manager is two bounded queues: whatever the host side and the
    flash side request and in whatever order, every page the flash side read is a
    page the host side wrote, in the order of the writes, with the pages in
    between still in the write buffer, and likewise from the flash side to the
    host side; neither buffer ever holds more than 32768 pages. *)
Theorem buffers_are_queues cs pk s t : packets_ok pk -> run_calls cs (new_buffer_mgt pk) no_traffic = Ok (s, t) ->
  host_wrote t = nand_read t ++ wbufferQ s /\ nand_wrote t = host_read t ++ rbufferQ s /\
  Z.of_nat (length (wbufferQ s)) <= 32768 /\ Z.of_nat (length (rbufferQ s)) <= 32768.
Proof.
  intros Hpk Hr. destruct (run_calls_ok cs _ _ _ _ (BuffersInv (new_buffer_mgt pk) no_traffic eq_refl eq_refl (conj eq_refl eq_refl)
    (conj (Nat.le_0_l _) (Nat.le_0_l _)) (conj (Forall_nil_2 _) (Forall_nil_2 _)) Hpk) Hr) as [H1 H2 _ (H3 & H4) _ _].
  split; [done|]. split; [done|]. lia.
Qed.

(** Packets 1 and 2 are writes, packet 3 is a read. *)
Definition demo_packets : Z -> packet :=
  fun p => Pkt (p =? 3) (negb (p =? 3)) (replicate 512 p).

Definition demo_calls : list call := [Request HostSide 1; Respond HostSide; Request HostSide 2; Request NandSide 3].

Definition demo_check (o : outcome (buffer_mgt * traffic)) : bool :=
  match o with Ok (s, t) => bool_decide (wbufferQ s = [replicate 512 2]) && bool_decide (nand_read t = [replicate 512 1]) | Fault _ => false end.

Lemma demo_packets_ok : packets_ok demo_packets.
Proof. intros p. unfold demo_packets. cbn [pkt_data]. rewrite length_replicate. lia. Qed.

Lemma buffers_are_queues_witness : exists s t,
  run_calls demo_calls (new_buffer_mgt demo_packets) no_traffic = Ok (s, t) /\
  host_wrote t = [replicate 512 1; replicate 512 2] /\ nand_read t = [replicate 512 1] /\ wbufferQ s = [replicate 512 2].
Proof.
  assert (Hc : demo_check (run_calls demo_calls (new_buffer_mgt demo_packets) no_traffic) = true) by (vm_compute; reflexivity).
  destruct (run_calls demo_calls (new_buffer_mgt demo_packets) no_traffic) as [[s t]|f] eqn:E; [|discriminate Hc].
  unfold demo_check in Hc. apply andb_true_iff in Hc as (Hw & Hn).
  apply bool_decide_eq_true in Hw, Hn.
  destruct (buffers_are_queues demo_calls demo_packets s t demo_packets_ok E) as (H & _).
  exists s, t. split; [reflexivity|]. split; [rewrite H, Hn, Hw; reflexivity|]. split; [exact Hn|exact Hw].
Defined.

(** ** A refused request is heard of again *)

Definition of_side (x : side) (c : call) : bool := match c with Request y _ => bool_decide (y = x) | Respond _ => false end.

(** The flag of a refused request: [x] asked to read or to write. *)
Definition blocked (x : side) (read : bool) (s : buffer_mgt) : bool :=
  match x, read with
  | NandSide, true => hasBlockedNCReadReq s | NandSide, false => hasBlockedNCWriteReq s
  | HostSide, true => hasBlockedHIntReadReq s | HostSide, false => hasBlockedHintWriteReq s
  end.

Definition other_side (x : side) : side := match x with NandSide => HostSide | HostSide => NandSide end.

Definition valid_packet (p : packet) : bool := pkt_read p || pkt_write p.

Lemma refused_flag x pkt s s' : valid_packet (packets s pkt) = true -> recvTimingReq x pkt s = Ok (false, s') ->
  blocked x (pkt_read (packets s pkt)) s' = true /\ port_packet (port_of x s') = Some pkt /\
  resp_scheduled (port_of x s') = resp_scheduled (port_of x s) /\ outputs s' = outputs s.
Proof.
  unfold recvTimingReq, valid_packet. intros Hv. set (s0 := set_port x _ s).
  assert (H0 : port_packet (port_of x s0) = Some pkt /\ resp_scheduled (port_of x s0) = resp_scheduled (port_of x s) /\
    outputs s0 = outputs s /\ packets s0 = packets s) by (by destruct x). destruct H0 as (H1 & H2 & H3 & ->). clearbody s0.
  destruct (pkt_read (packets s pkt)); [|cbn [orb] in Hv; rewrite Hv]; destruct x; unfold handleNCRead, handleNCWrite, handleHIntRead, handleHIntWrite.
  1: destruct (wbufferQ s0); [by intros [= <-]|intros E; apply (served NandSide HostSide hasBlockedHintWriteReq) in E as (? & _); done].
  1: destruct (rbufferQ s0); [by intros [= <-]|intros E; apply (served HostSide NandSide hasBlockedNCWriteReq) in E as (? & _); done].
  1: destruct (readBufferSize s0 <=? _); [by intros [= <-]|intros E; apply (served NandSide HostSide hasBlockedHIntReadReq) in E as (? & _); done].
  destruct (writeBufferSize s0 <=? _); [by intros [= <-]|intros E; apply (served HostSide NandSide hasBlockedNCReadReq) in E as (? & _); done].
Qed.

(** The flags of the other side stay, whatever a side asks. *)
Lemma keeps_flag x y read pkt s b s' : y <> x -> recvTimingReq y pkt s = Ok (b, s') -> blocked x read s' = blocked x read s.
Proof.
  intros Hne E. unfold recvTimingReq in E. set (s0 := set_port y _ s) in E.
  assert (H0 : forall x read, blocked x read s0 = blocked x read s) by (intros [] []; by destruct y).
  rewrite <- H0. clearbody s0. clear H0.
  assert (Hsch : forall y s1 s2, schedule_resp y s1 = Ok s2 -> forall x read, blocked x read s2 = blocked x read s1).
  { intros z s1 s2 Hs. apply schedule_resp_ok in Hs as (-> & _). intros [] []; by destruct z. }
  assert (Hret : forall (c : bool) z s1, blocked x read (if c then trySendRetry z s1 else s1) = blocked x read s1) by (intros [] z s1; by destruct x, read).
  unfold handleNCRead, handleNCWrite, handleHIntRead, handleHIntWrite in E.
  destruct x, y; try done; repeat case_match; simplify_eq; try (by destruct read);
    (destruct (schedule_resp _ _) as [s2|] eqn:Es; cbn [obind] in E; [|done]; injection E as <- <-; rewrite Hret, (Hsch _ _ _ Es); by destruct read).
Qed.

Lemma keeps_flag_call x read c s t s' t' : of_side x c = false -> noted_call c s t = Ok (s', t') -> blocked x read s' = blocked x read s.
Proof.
  destruct c as [y pkt|y]; cbn [noted_call do_call of_side].
  - intros Hy. apply bool_decide_eq_false in Hy. destruct (recvTimingReq y pkt s) as [[b s1]|] eqn:E; cbn [obind]; [|done].
    intros [= <- <-]. by apply (keeps_flag x y read pkt s b).
  - intros _. destruct (resp_scheduled _); cbn [obind]; [|done]. unfold trysendTimingResp. destruct (port_packet _); cbn [obind]; [|done].
    intros [= <- <-]. destruct x, y, read; done.
Qed.

Lemma keeps_flag_run x read cs : forall s t s' t', forallb (fun c => negb (of_side x c)) cs = true ->
  run_calls cs s t = Ok (s', t') -> blocked x read s' = blocked x read s.
Proof.
  induction cs as [|c cs IH]; intros s t s' t' Hc; cbn [run_calls]; [by intros [= <- <-]|].
  cbn [forallb] in Hc. apply andb_true_iff in Hc as (Hc1 & Hc2). apply negb_true_iff in Hc1.
  destruct (noted_call c s t) as [[s1 t1]|] eqn:E; cbn [obind]; [|done]. intros Er.
  rewrite (IH _ _ _ _ Hc2 Er). by eapply keeps_flag_call.
Qed.

(** A served request tells the other side when that side waits for it. *)
Lemma serves_retry x pkt s s' : valid_packet (packets s pkt) = true ->
  blocked x (negb (pkt_read (packets s pkt))) s = true -> recvTimingReq (other_side x) pkt s = Ok (true, s') ->
  outputs s' = outputs s ++ [RetryReq x].
Proof.
  unfold recvTimingReq, valid_packet. intros Hv. set (s0 := set_port (other_side x) _ s).
  assert (H0 : outputs s0 = outputs s /\ packets s0 = packets s /\ forall x read, blocked x read s0 = blocked x read s)
    by (split; [by destruct x|split; [by destruct x|intros [] []; by destruct x]]).
  destruct H0 as (<- & -> & H0). rewrite <- H0. clearbody s0. clear H0.
  assert (Hserve : forall (y : side) (f : buffer_mgt -> bool) s1 r s', f s1 = true -> (forall z p, f (set_port z p s1) = f s1) ->
    (let! s := schedule_resp y s1 in Ok (true, if f s then trySendRetry x s else s)) = Ok (r, s') -> outputs s' = outputs s1 ++ [RetryReq x]).
  { intros y f s1 r s2 Hf Hp. destruct (schedule_resp y s1) as [s3|] eqn:E; cbn [obind]; [|done]. apply schedule_resp_ok in E as (-> & _).
    rewrite Hp, Hf. intros [= <- <-]. by destruct y. }
  destruct (pkt_read (packets s pkt)); [|cbn [orb] in Hv; rewrite Hv]; destruct x; cbn [other_side negb blocked];
    unfold handleNCRead, handleNCWrite, handleHIntRead, handleHIntWrite; intros Hb.
  1: destruct (rbufferQ s0); [done|]; intros E; apply (Hserve HostSide hasBlockedNCWriteReq) in E; [exact E|exact Hb|by intros []].
  1: destruct (wbufferQ s0); [done|]; intros E; apply (Hserve NandSide hasBlockedHintWriteReq) in E; [exact E|exact Hb|by intros []].
  1: destruct (writeBufferSize s0 <=? _); [done|]; intros E; apply (Hserve HostSide hasBlockedNCReadReq) in E; [exact E|exact Hb|by intros []].
  destruct (readBufferSize s0 <=? _); [done|]; intros E; apply (Hserve NandSide hasBlockedHIntReadReq) in E; [exact E|exact Hb|by intros []].
Qed.

(** C33: no refused request is forgotten: once a port's read or write is refused,
    and whatever the other side does meanwhile, the first request of the other
    side that is served and goes the other way through the same queue is followed
    by a retry to the port. *)
Theorem refused_is_retried x pkt cs pkt' s s1 t s2 t2 s3 :
  valid_packet (packets s pkt) = true -> recvTimingReq x pkt s = Ok (false, s1) ->
  forallb (fun c => negb (of_side x c)) cs = true -> run_calls cs s1 t = Ok (s2, t2) ->
  valid_packet (packets s2 pkt') = true -> pkt_read (packets s2 pkt') = negb (pkt_read (packets s pkt)) ->
  recvTimingReq (other_side x) pkt' s2 = Ok (true, s3) -> outputs s3 = outputs s2 ++ [RetryReq x].
Proof.
  intros Hv E1 Hcs E2 Hv' Hr E3. destruct (refused_flag x pkt s s1 Hv E1) as (Hb & _).
  apply (serves_retry x pkt'); [done| |done]. by rewrite Hr, negb_involutive, (keeps_flag_run x _ cs s1 t s2 t2 Hcs E2).
Qed.

(** The flash side reads from the empty write buffer; then the host writes. *)
Lemma refused_is_retried_witness : exists s1 s3,
  recvTimingReq NandSide 3 (new_buffer_mgt demo_packets) = Ok (false, s1) /\
  recvTimingReq HostSide 1 s1 = Ok (true, s3) /\ outputs s3 = [RetryReq NandSide].
Proof.
  eexists _, _. split; [reflexivity|]. split; [reflexivity|].
  etransitivity; [eapply (refused_is_retried NandSide 3 [] 1 (new_buffer_mgt demo_packets) _ no_traffic); reflexivity|reflexivity].
Defined.

(** ** A response that goes to another request *)

Definition no_response (x : side) (a : Z) (out : list output) : Prop := TimingResp x a ∉ out.

(** What a request does to the ports and to what is sent. *)
Lemma recv_effect y pkt s r s' : recvTimingReq y pkt s = Ok (r, s') ->
  port_packet (port_of y s') = Some pkt /\ (r = true -> resp_scheduled (port_of y s') = true) /\
  (forall x, x <> y -> port_of x s' = port_of x s) /\
  exists out, outputs s' = outputs s ++ out /\ forall x a, no_response x a out.
Proof.
  unfold recvTimingReq. set (s0 := set_port y _ s).
  assert (H0 : port_packet (port_of y s0) = Some pkt /\ (forall x, x <> y -> port_of x s0 = port_of x s) /\ outputs s0 = outputs s /\
    packets s0 = packets s) by (split; [by destruct y|split; [by intros []; destruct y|by destruct y]]).
  destruct H0 as (H1 & H2 & <- & ->). clearbody s0.
  assert (Hno : forall s1 (b : Prop), port_of y s1 = port_of y s0 -> (forall x, x <> y -> port_of x s1 = port_of x s0) -> outputs s1 = outputs s0 ->
    port_packet (port_of y s1) = Some pkt /\ (false = true -> b) /\ (forall x, x <> y -> port_of x s1 = port_of x s) /\
    exists out, outputs s1 = outputs s0 ++ out /\ forall x a, no_response x a out).
  { intros s1 b -> Hx ->. split; [done|]. split; [done|]. split; [intros x Hne; by rewrite Hx, H2|].
    exists []. rewrite app_nil_r. split; [done|]. intros x a. apply not_elem_of_nil. }
  assert (Hyes : forall s1 z (f : buffer_mgt -> bool) r s2, (forall x, port_of x s1 = port_of x s0) -> outputs s1 = outputs s0 ->
    (let! s := schedule_resp y s1 in Ok (true, if f s then trySendRetry z s else s)) = Ok (r, s2) ->
    port_packet (port_of y s2) = Some pkt /\ (r = true -> resp_scheduled (port_of y s2) = true) /\ (forall x, x <> y -> port_of x s2 = port_of x s) /\
    exists out, outputs s2 = outputs s0 ++ out /\ forall x a, no_response x a out).
  { intros s1 z f r2 s2 Hp Ho. destruct (schedule_resp y s1) as [s3|] eqn:E; cbn [obind]; [|done]. apply schedule_resp_ok in E as (-> & _).
    intros [= <- <-]. rewrite Hp. set (s3 := set_port y _ s1).
    assert (H3 : port_of y s3 = Port (port_packet (port_of y s0)) true /\ (forall x, x <> y -> port_of x s3 = port_of x s0) /\ outputs s3 = outputs s0)
      by (split; [by destruct y|split; [intros x Hx; rewrite <- Hp; by destruct x, y|by destruct y]]).
    destruct H3 as (H3 & H4 & H5). clearbody s3.
    assert (H6 : forall x, port_of x (if f s3 then trySendRetry z s3 else s3) = port_of x s3) by (intros x; by destruct (f s3), x).
    split; [by rewrite H6, H3|]. split; [by rewrite H6, H3|]. split; [intros x Hx; by rewrite H6, H4, H2|].
    exists (if f s3 then [RetryReq z] else []). split; [destruct (f s3); cbn; rewrite H5, ?app_nil_r; done|].
    intros x a. unfold no_response. destruct (f s3); [|apply not_elem_of_nil]. intros Hin%list_elem_of_singleton. done. }
  destruct (pkt_read (packets s pkt)); [|destruct (pkt_write (packets s pkt))]; [..|intros [= <- <-]; by apply Hno];
    destruct y; unfold handleNCRead, handleNCWrite, handleHIntRead, handleHIntWrite; case_match; intros E;
    first [injection E as <- <-; apply Hno; (done || by intros [])
          |eapply (Hyes _ HostSide hasBlockedHintWriteReq); [..|exact E]; (done || by intros [])
          |eapply (Hyes _ NandSide hasBlockedNCWriteReq); [..|exact E]; (done || by intros [])
          |eapply (Hyes _ HostSide hasBlockedHIntReadReq); [..|exact E]; (done || by intros [])
          |eapply (Hyes _ NandSide hasBlockedNCReadReq); [..|exact E]; (done || by intros [])].
Qed.

(** Calls on the port of [x]. *)
Definition touches (x : side) (c : call) : bool := match c with Request y _ | Respond y => bool_decide (y = x) end.

Lemma respond_effect y s s' : do_call (Respond y) s = Ok s' ->
  (forall x, port_packet (port_of x s') = port_packet (port_of x s)) /\ (forall x, x <> y -> port_of x s' = port_of x s) /\
  exists p, port_packet (port_of y s) = Some p /\ outputs s' = outputs s ++ [TimingResp y p].
Proof.
  cbn [do_call]. destruct (resp_scheduled _); [|done]. unfold trysendTimingResp. destruct (port_packet (port_of y s)) as [p|] eqn:Ep; [|done].
  intros [= <-]. split; [intros []; destruct y; by rewrite <- ?Ep|]. split; [by intros []; destruct y|]. exists p. split; [done|]. by destruct y.
Qed.

(** Calls of the other side leave the port of [x] alone and send it no response. *)
Lemma untouched_run x cs : forall s t s' t', forallb (fun c => negb (touches x c)) cs = true -> run_calls cs s t = Ok (s', t') ->
  port_of x s' = port_of x s /\ exists out, outputs s' = outputs s ++ out /\ forall a, no_response x a out.
Proof.
  induction cs as [|c cs IH]; intros s t s' t' Hc; cbn [run_calls].
  - intros [= <- <-]. split; [done|]. exists []. rewrite app_nil_r. split; [done|]. intros a. apply not_elem_of_nil.
  - cbn [forallb] in Hc. apply andb_true_iff in Hc as (Hc1 & Hc2). apply negb_true_iff in Hc1.
    destruct (noted_call c s t) as [[s1 t1]|] eqn:E; cbn [obind]; [|done]. intros Er.
    destruct (IH _ _ _ _ Hc2 Er) as (Hp & out & Ho & Hn).
    assert (H1 : port_of x s1 = port_of x s /\ exists out1, outputs s1 = outputs s ++ out1 /\ forall a, no_response x a out1).
    { destruct c as [y pkt|y]; cbn [noted_call touches] in *; apply bool_decide_eq_false in Hc1.
      - destruct (recvTimingReq y pkt s) as [[b s2]|] eqn:E2; cbn [obind] in E; [|done]. injection E as <- <-.
        destruct (recv_effect y pkt s b s2 E2) as (_ & _ & Hx & out1 & Ho1 & Hn1). split; [by apply Hx|]. exists out1. by split.
      - destruct (do_call (Respond y) s) as [s2|] eqn:E2; cbn [obind] in E; [|done]. injection E as <- <-.
        destruct (respond_effect y s s2 E2) as (_ & Hx & p & _ & Ho1). split; [by apply Hx|]. exists [TimingResp y p]. split; [done|].
        intros a. unfold no_response. intros Hin%list_elem_of_singleton. by injection Hin as Ex Ea. }
    destruct H1 as (Hp1 & out1 & Ho1 & Hn1). split; [congruence|]. exists (out1 ++ out). split; [by rewrite Ho, Ho1, app_assoc|].
    intros a. unfold no_response. rewrite elem_of_app. intros [H|H]; [by apply (Hn1 a)|by apply (Hn a)].
Qed.

(** While the port does not hold packet [a], and it is not asked again, nothing
    answers it. *)
Lemma never_answered x a cs : forall s t s' t', port_packet (port_of x s) <> Some a -> Request x a ∉ cs ->
  run_calls cs s t = Ok (s', t') -> exists out, outputs s' = outputs s ++ out /\ no_response x a out.
Proof.
  induction cs as [|c cs IH]; intros s t s' t' Hp Hc; cbn [run_calls].
  - intros [= <- <-]. exists []. rewrite app_nil_r. split; [done|]. apply not_elem_of_nil.
  - apply not_elem_of_cons in Hc as (Hc1 & Hc2). destruct (noted_call c s t) as [[s1 t1]|] eqn:E; cbn [obind]; [|done]. intros Er.
    assert (H1 : port_packet (port_of x s1) <> Some a /\ exists out1, outputs s1 = outputs s ++ out1 /\ no_response x a out1).
    { destruct c as [y pkt|y]; cbn [noted_call] in E.
      - destruct (recvTimingReq y pkt s) as [[b s2]|] eqn:E2; cbn [obind] in E; [|done]. injection E as <- <-.
        destruct (recv_effect y pkt s b s2 E2) as (Hy & _ & Hx & out1 & Ho1 & Hn1). split; [|exists out1; by split].
        destruct (decide (x = y)) as [->|Hne]; [rewrite Hy; congruence|by rewrite Hx].
      - destruct (do_call (Respond y) s) as [s2|] eqn:E2; cbn [obind] in E; [|done]. injection E as <- <-.
        destruct (respond_effect y s s2 E2) as (Hx & _ & p & Ep & Ho1). split; [by rewrite Hx|]. exists [TimingResp y p]. split; [done|].
        unfold no_response. intros Hin%list_elem_of_singleton. injection Hin as Ex Ea. congruence. }
    destruct H1 as (Hp1 & out1 & Ho1 & Hn1). destruct (IH _ _ _ _ Hp1 Hc2 Er) as (out & Ho & Hn).
    exists (out1 ++ out). split; [by rewrite Ho, Ho1, app_assoc|]. unfold no_response in *. rewrite elem_of_app. by intros [H|H].
Qed.

(** C34: a response can go to the wrong request: when a port's request [a] is served
    and, after any calls of the other side, another request [b] of the port is
    refused while the response to [a] is still scheduled, the event answers [b],
    which was refused; and whatever calls follow, [a], which was served, never
    gets a response unless it is asked again. *)
Theorem response_to_refused x a b cs s s1 t s2 t2 s3 :
  a <> b -> recvTimingReq x a s = Ok (true, s1) ->
  forallb (fun c => negb (touches x c)) cs = true -> run_calls cs s1 t = Ok (s2, t2) ->
  valid_packet (packets s2 b) = true -> recvTimingReq x b s2 = Ok (false, s3) ->
  (exists s4, do_call (Respond x) s3 = Ok s4 /\ outputs s4 = outputs s3 ++ [TimingResp x b]) /\
  forall cs' t' s4 t4, Request x a ∉ cs' -> run_calls cs' s3 t' = Ok (s4, t4) ->
    exists out, outputs s4 = outputs s ++ out /\ TimingResp x a ∉ out.
Proof.
  intros Hne E1 Hcs E2 Hv E3. destruct (refused_flag x b s2 s3 Hv E3) as (_ & Hp & Hs & Ho3).
  destruct (recv_effect x a s true s1 E1) as (_ & Hs1 & _ & out1 & Ho1 & Hn1).
  destruct (untouched_run x cs s1 t s2 t2 Hcs E2) as (Hp2 & out2 & Ho2 & Hn2). split.
  - cbn [do_call]. rewrite Hs, Hp2, Hs1 by done. unfold trysendTimingResp. rewrite Hp. eexists. split; [reflexivity|]. by destruct x.
  - intros cs' t' s4 t4 Hc E4. destruct (never_answered x a cs' s3 t' s4 t4) as (out & Ho & Hn); [rewrite Hp; congruence|done..|].
    exists (out1 ++ out2 ++ out). split; [by rewrite Ho, Ho3, Ho2, Ho1, !app_assoc|].
    rewrite !elem_of_app. intros [H|[H|H]]; [by apply (Hn1 x a)|by apply (Hn2 a)|by apply Hn].
Qed.

(** The host writes page 1, the flash side reads it, and the host's read of packet 3
    is refused before the response to the write is sent. *)
Definition meanwhile : list call := [Request NandSide 3; Respond NandSide].
Definition afterwards : list call := [Respond HostSide; Request HostSide 2; Respond HostSide].

Definition demo_refusal : bool :=
  match recvTimingReq HostSide 1 (new_buffer_mgt demo_packets) with
  | Ok (true, s1) =>
      match run_calls meanwhile s1 no_traffic with
      | Ok (s2, _) =>
          valid_packet (packets s2 3) &&
          match recvTimingReq HostSide 3 s2 with
          | Ok (false, s3) => match run_calls afterwards s3 no_traffic with Ok _ => true | _ => false end
          | _ => false
          end
      | _ => false
      end
  | _ => false
  end.

Lemma response_to_refused_witness : exists s1 s2 t2 s3 s4 t4,
  recvTimingReq HostSide 1 (new_buffer_mgt demo_packets) = Ok (true, s1) /\
  run_calls meanwhile s1 no_traffic = Ok (s2, t2) /\ recvTimingReq HostSide 3 s2 = Ok (false, s3) /\
  run_calls afterwards s3 no_traffic = Ok (s4, t4) /\ TimingResp HostSide 1 ∉ outputs s4.
Proof.
  assert (Hd : demo_refusal = true) by (vm_compute; reflexivity). unfold demo_refusal in Hd.
  destruct (recvTimingReq HostSide 1 (new_buffer_mgt demo_packets)) as [[[] s1]|] eqn:E1; [|discriminate Hd..].
  destruct (run_calls meanwhile s1 no_traffic) as [[s2 t2]|] eqn:E2; [|discriminate Hd].
  apply andb_true_iff in Hd as (Hv & Hd). destruct (recvTimingReq HostSide 3 s2) as [[[] s3]|] eqn:E3; [discriminate Hd| |discriminate Hd].
  destruct (run_calls afterwards s3 no_traffic) as [[s4 t4]|] eqn:E4; [|discriminate Hd].
  destruct (response_to_refused HostSide 1 3 meanwhile _ s1 no_traffic s2 t2 s3 ltac:(discriminate) E1 eq_refl E2 Hv E3) as (_ & Hlast).
  destruct (Hlast afterwards no_traffic s4 t4) as (out & Ho & Hn); [|exact E4|].
  { intros Hin. repeat (apply elem_of_cons in Hin as [Hin|Hin]; [discriminate Hin|]). by apply not_elem_of_nil in Hin. }
  exists s1, s2, t2, s3, s4, t4. split; [reflexivity|]. split; [exact E2|]. split; [exact E3|]. split; [exact E4|].
  rewrite Ho. exact Hn.
Defined.
