(* ===== verification/SimStats.v ===== *)
(** SSD_hw_platforms/gem5/extra_sim_objects/iSSDStats.cc: the simulated device that
    logs events, with the macro [LOG_EVENT] of firmware/util.h that writes to it.
    A write of the firmware becomes an event in a ring; a second thread of the
    simulator takes the events out of the ring and writes them to a file.

    The two threads share the ring and nothing else.  Every access of a shared word
    is one step of one thread, in the order of the program; opening and writing the
    file succeeds.  [nsleep] only lets time pass. *)

From Stdlib Require Import ZArith Lia Bool List.
From stdpp Require Import base tactics option list functions.
From S2P Require Import Prelude.

(** ** Events and the ring *)

(** [Stats_Event_t]; [data] is read and written as two 64-bit words. *)
Record event_t := Event { event_code : Z; event_cycle : Z; long_0 : Z; long_1 : Z }.

#[export] Instance event_eq_dec : EqDecision event_t.
Proof. solve_decision. Defined.

Definition sizeof_event : Z := 28.

Definition Event_Queue_Size : Z := Z.shiftl 1 17.

Record event_queue_t := EventQueue { head : Z; tail : Z; slot : Z -> event_t }.

(** The four assignments that copy an event. *)
Definition copy_field (k : Z) (from to : event_t) : event_t :=
  if k =? 0 then Event (event_code from) (event_cycle to) (long_0 to) (long_1 to)
  else if k =? 1 then Event (event_code to) (event_cycle from) (long_0 to) (long_1 to)
  else if k =? 2 then Event (event_code to) (event_cycle to) (long_0 from) (long_1 to)
  else Event (event_code to) (event_cycle to) (long_0 to) (long_1 from).

Definition copy_event (from to : event_t) : event_t :=
  copy_field 3 from (copy_field 2 from (copy_field 1 from (copy_field 0 from to))).

Definition enQueueEvt (q : event_queue_t) (e : event_t) : option Z * event_queue_t :=
  if head q =? (tail q + 1) mod Event_Queue_Size then (None, q)
  else (Some (tail q), EventQueue (head q) ((tail q + 1) mod Event_Queue_Size) (<[tail q := copy_event e (slot q (tail q))]> (slot q))).

Definition deQueueEvt (q : event_queue_t) : option Z * event_queue_t :=
  if head q =? tail q then (None, q)
  else (Some (head q), EventQueue ((head q + 1) mod Event_Queue_Size) (tail q) (slot q)).

(** ** The device *)

Record stats_dev := StatsDev { event : list event_t; event_queue : event_queue_t }.

(** The first [size] bytes of an event, at most those of its code, replaced. *)
Definition set_low (size data : Z) (e : event_t) : event_t :=
  Event (Z.lor (Z.land (event_code e) (Z.lnot (Z.ones (8 * size)))) (Z.land data (Z.ones (8 * size)))) (event_cycle e) (long_0 e) (long_1 e).

(** The value of the packet by its size. *)
Definition packet_value (size value : Z) : Z :=
  if size =? 1 then u8 value else if size =? 2 then value mod 2 ^ 16 else if size =? 4 then u32 value else 0.

Definition addEvent (e : event_t) (s : stats_dev) : stats_dev := StatsDev (event s) (snd (enQueueEvt (event_queue s) e)).

(** [use_event + offset] counts in events; [data] has four bytes. *)
Definition write (daddr size value tick : Z) (s : stats_dev) : outcome stats_dev :=
  let data := packet_value size value in
  let offset := daddr mod sizeof_event in
  let core_id := daddr / sizeof_event in
  let core_id := if 8 <? core_id then 0 else core_id in
  if 4 <? size then Fault FBounds
  else
    let! old := arr_get (event s) (core_id + offset) in
    let! evs := arr_set (event s) (core_id + offset) (set_low size data old) in
    if offset =? 0 then
      let! e := arr_get evs core_id in
      let e := Event (event_code e) tick (long_0 e) (long_1 e) in
      let! evs := arr_set evs core_id e in
      Ok (addEvent e (StatsDev evs (event_queue s)))
    else Ok (StatsDev evs (event_queue s)).

(** [LOG_EVENT]: [SimEventLog] points to words, so the bytes of the event are
    counted four times; the address is relative to that of the device, which the
    platform gives 0x4000 bytes, so that sources 0 to 146 reach it. *)
Definition LOG_EVENT (source code tick : Z) (s : stats_dev) : outcome stats_dev :=
  write (4 * (source * sizeof_event)) 4 code tick s.

(** ** The two threads *)

Inductive device_pos := DIdle | DTest (e : event_t) | DField (e : event_t) (k : Z) | DTail (e : event_t).
Inductive writer_pos := WTest | WTake | WCopy (item k : Z) | WCount.

(** [accepted] and [refused] are a history: the events the ring took and those it
    did not. *)
Record log := Log {
  ring : event_queue_t; device : device_pos; writer : writer_pos;
  wait_buffer : Z -> event_t; writes : Z; idle_cycles : Z; file : list event_t;
  accepted : list event_t; refused : list event_t }.

Definition set_device d s := Log (ring s) d (writer s) (wait_buffer s) (writes s) (idle_cycles s) (file s) (accepted s) (refused s).
Definition set_writer w s := Log (ring s) (device s) w (wait_buffer s) (writes s) (idle_cycles s) (file s) (accepted s) (refused s).
Definition set_ring r s := Log r (device s) (writer s) (wait_buffer s) (writes s) (idle_cycles s) (file s) (accepted s) (refused s).
Definition set_wait b s := Log (ring s) (device s) (writer s) b (writes s) (idle_cycles s) (file s) (accepted s) (refused s).
Definition set_counts n i s := Log (ring s) (device s) (writer s) (wait_buffer s) n i (file s) (accepted s) (refused s).
Definition set_history a r s := Log (ring s) (device s) (writer s) (wait_buffer s) (writes s) (idle_cycles s) (file s) a r.

(** A step of [enQueueEvt]. *)
Definition device_step (s : log) : log :=
  let q := ring s in
  match device s with
  | DIdle => s
  | DTest e =>
      if head q =? (tail q + 1) mod Event_Queue_Size
      then set_device DIdle (set_history (accepted s) (refused s ++ [e]) s)
      else set_device (DField e 0) s
  | DField e k =>
      let s := set_ring (EventQueue (head q) (tail q) (<[tail q := copy_field k e (slot q (tail q))]> (slot q))) s in
      set_device (if k <? 3 then DField e (k + 1) else DTail e) s
  | DTail e =>
      let s := set_ring (EventQueue (head q) ((tail q + 1) mod Event_Queue_Size) (slot q)) s in
      set_device DIdle (set_history (accepted s ++ [e]) (refused s) s)
  end.

(** The events of the wait buffer go to the end of the file. *)
Definition flushtofile (s : log) : log :=
  Log (ring s) (device s) (writer s) (wait_buffer s) 0 (idle_cycles s) (file s ++ map (wait_buffer s) (seqZ 0 (writes s))) (accepted s) (refused s).

(** A step of the loop of [write_event_log_to_file]. *)
Definition writer_step (s : log) : log :=
  let q := ring s in
  match writer s with
  | WTest =>
      if head q =? tail q then
        let s := set_counts (writes s) ((idle_cycles s + 1) mod 2 ^ 64) s in
        if (200 <? idle_cycles s) && negb (writes s =? 0) then
          let s := flushtofile s in set_counts (writes s) 0 s
        else s
      else set_writer WTake s
  | WTake => set_writer (WCopy (head q) 0) (set_ring (EventQueue ((head q + 1) mod Event_Queue_Size) (tail q) (slot q)) s)
  | WCopy item k =>
      let s := set_wait (<[writes s := copy_field k (slot q item) (wait_buffer s (writes s))]> (wait_buffer s)) s in
      set_writer (if k <? 3 then WCopy item (k + 1) else WCount) s
  | WCount =>
      let s := set_counts (writes s + 1) (idle_cycles s) s in
      let s := if 10 <=? writes s then flushtofile s else s in
      set_writer WTest (set_counts (writes s) 0 s)
  end.

(** A move: the firmware logs an event while the device is idle, or a step. *)
Inductive move := LogEvent (e : event_t) | DeviceStep | WriterStep.

Definition do_move (m : move) (s : log) : log :=
  match m with
  | LogEvent e => match device s with DIdle => set_device (DTest e) s | _ => s end
  | DeviceStep => device_step s
  | WriterStep => writer_step s
  end.

Definition run_moves (ms : list move) (s : log) : log := fold_left (fun s m => do_move m s) ms s.

(** The start: an empty ring at any place, an empty file. *)
Definition init_log (h : Z) (sl wb : Z -> event_t) : log := Log (EventQueue h h sl) DIdle WTest wb 0 0 [] [] [].

(** ** The ring between the threads *)

(** The ring's events when [h] were taken out and [t] put in since the start. *)
Definition ring_events (sl : Z -> event_t) (h t : Z) : list event_t :=
  map (fun i => sl (i mod Event_Queue_Size)) (seqZ h (t - h)).

(** What the writer holds: the event it took out of the ring. *)
Definition held (s : log) : list event_t :=
  match writer s with
  | WCopy item _ => [slot (ring s) item]
  | WCount => [wait_buffer s (writes s)]
  | _ => []
  end.

(** Everything taken out so far. *)
Definition taken (s : log) : list event_t := file s ++ map (wait_buffer s) (seqZ 0 (writes s)) ++ held s.

(** [k] fields of [to] are those of [from]. *)
Definition agrees (k : Z) (from to : event_t) : Prop := forall j, 0 <= j < k -> copy_field j from to = to.

Record log_inv (s : log) (h t : Z) : Prop := LogInv {
  li_head : head (ring s) = h mod Event_Queue_Size;
  li_tail : tail (ring s) = t mod Event_Queue_Size;
  li_size : 0 <= h /\ 0 <= t - h < Event_Queue_Size;
  li_writes : 0 <= writes s < 10;
  li_take : writer s = WTake -> h < t;
  li_item : forall i k, writer s = WCopy i k -> 0 <= k <= 3 /\ 1 <= h /\ i = (h - 1) mod Event_Queue_Size /\
    agrees k (slot (ring s) i) (wait_buffer s (writes s));
  li_device : forall e k, device s = DField e k -> 0 <= k <= 3 /\ t - h < Event_Queue_Size - 1 /\ agrees k e (slot (ring s) (tail (ring s)));
  li_done : forall e, device s = DTail e -> t - h < Event_Queue_Size - 1 /\ slot (ring s) (tail (ring s)) = e;
  li_events : accepted s = taken s ++ ring_events (slot (ring s)) h t }.

Lemma copy_agrees k from to : 0 <= k <= 3 -> agrees k from to -> agrees (k + 1) from (copy_field k from to).
Proof.
  intros Hk Ha j Hj. destruct from as [f0 f1 f2 f3], to as [t0 t1 t2 t3].
  pose proof (Ha 0) as H0. pose proof (Ha 1) as H1. pose proof (Ha 2) as H2. clear Ha.
  assert (Hk' : k = 0 \/ k = 1 \/ k = 2 \/ k = 3) by lia. assert (Hj' : j = 0 \/ j = 1 \/ j = 2 \/ j = 3) by lia.
  destruct Hk' as [-> |[-> |[-> | ->]]], Hj' as [-> |[-> |[-> | ->]]]; try lia;
    try specialize (H0 ltac:(lia)); try specialize (H1 ltac:(lia)); try specialize (H2 ltac:(lia));
    unfold copy_field in *; cbn in *; congruence.
Qed.

Lemma agrees_all from to : agrees 4 from to -> to = from.
Proof.
  intros Ha. pose proof (Ha 0 ltac:(lia)) as H0. pose proof (Ha 1 ltac:(lia)) as H1. pose proof (Ha 2 ltac:(lia)) as H2.
  pose proof (Ha 3 ltac:(lia)) as H3. destruct from, to. unfold copy_field in *. cbn in *. congruence.
Qed.

Lemma agrees_none from to : agrees 0 from to.
Proof. intros j Hj. lia. Qed.

(** Two places of the ring less than its size apart are different slots. *)
Lemma ring_place_ne a b : a < b -> b - a < Event_Queue_Size -> a mod Event_Queue_Size <> b mod Event_Queue_Size.
Proof.
  intros Hab Hd E. assert (HN : Event_Queue_Size = 131072) by reflexivity. rewrite HN in *.
  pose proof (Z.div_mod a 131072 ltac:(lia)). pose proof (Z.div_mod b 131072 ltac:(lia)). lia.
Qed.

Lemma next_place a : (a mod Event_Queue_Size + 1) mod Event_Queue_Size = (a + 1) mod Event_Queue_Size.
Proof. by rewrite Zplus_mod_idemp_l. Qed.

Lemma ring_events_snoc sl h t : h <= t -> ring_events sl h (t + 1) = ring_events sl h t ++ [sl (t mod Event_Queue_Size)].
Proof.
  intros Hh. unfold ring_events. replace (t + 1 - h) with ((t - h) + 1) by lia. rewrite seqZ_app by lia. rewrite map_app. f_equal.
  rewrite seqZ_cons by lia. rewrite seqZ_nil by lia. cbn [map]. do 3 f_equal. lia.
Qed.

Lemma ring_events_cons sl h t : h < t -> ring_events sl h t = sl (h mod Event_Queue_Size) :: ring_events sl (h + 1) t.
Proof. intros Hh. unfold ring_events. rewrite seqZ_cons by lia. cbn [map]. unfold Z.succ. do 3 f_equal. lia. Qed.

Lemma ring_events_tail sl h t e : t - h < Event_Queue_Size -> ring_events (<[t mod Event_Queue_Size := e]> sl) h t = ring_events sl h t.
Proof.
  intros Hs. unfold ring_events. apply map_ext_in. intros i Hi. apply list_elem_of_In, elem_of_seqZ in Hi.
  rewrite fn_lookup_insert_ne; [done|]. apply not_eq_sym, ring_place_ne; lia.
Qed.

(** ** The invariant *)

Lemma device_step_ok s h t : log_inv s h t -> exists t', log_inv (device_step s) h t'.
Proof.
  intros [Hh Ht Hs Hw Hk Hi Hd Hdone He]. unfold device_step. destruct (device s) as [|e|e k|e] eqn:Ed.
  - exists t. split; try done; by rewrite Ed.
  - exists t. rewrite Hh, Ht, next_place. destruct (Z.eqb_spec (h mod Event_Queue_Size) ((t + 1) mod Event_Queue_Size)) as [E|E].
    + split; try done.
    + split; try done. intros e' k' [= <- <-]. split; [lia|]. split; [|apply agrees_none].
      assert (t - h <> Event_Queue_Size - 1); [|lia]. intros Hf. apply E. replace (t + 1) with (h + 1 * Event_Queue_Size) by lia. by rewrite Z_mod_plus_full.
  - exists t. destruct (Hd e k eq_refl) as (Hk3 & Hroom & Ha).
    set (sl := <[tail (ring s) := _]> (slot (ring s))).
    assert (Hsl : sl (tail (ring s)) = copy_field k e (slot (ring s) (tail (ring s)))) by (unfold sl; by rewrite fn_lookup_insert).
    assert (Hitem : forall i k', writer s = WCopy i k' -> sl i = slot (ring s) i).
    { intros i k' Ew. destruct (Hi i k' Ew) as (_ & H1 & -> & _). unfold sl. rewrite Ht, fn_lookup_insert_ne; [done|]. apply not_eq_sym, ring_place_ne; lia. }
    split; try done.
    + intros i k' Ew. cbn in Ew |- *. rewrite (Hitem i k' Ew). by apply Hi.
    + intros e' k'. cbn. destruct (Z.ltb_spec k 3); [|done]. intros [= <- <-]. split; [lia|]. split; [done|]. rewrite Hsl. by apply copy_agrees.
    + intros e'. cbn. destruct (Z.ltb_spec k 3); [done|]. intros [= <-]. split; [done|]. rewrite Hsl. apply agrees_all.
      replace 4 with (k + 1) by lia. by apply copy_agrees.
    + cbn [set_device set_ring accepted ring slot]. rewrite He. unfold sl. rewrite Ht, ring_events_tail by lia. f_equal. unfold taken. cbn. do 2 f_equal.
      unfold held. cbn. destruct (writer s) as [| |i k'|] eqn:Ew; try done. by rewrite <- (Hitem i k' eq_refl), <- Ht.
  - exists (t + 1). destruct (Hdone e eq_refl) as (Hroom & Hsl). split; try done.
    + cbn. by rewrite Ht, next_place.
    + lia.
    + cbn. intros Ew. specialize (Hk Ew). lia.
    + cbn. rewrite ring_events_snoc by lia. rewrite <- Ht, Hsl, He. unfold taken, held. cbn. by rewrite !app_assoc.
Qed.

Lemma waiting_insert s e : 0 <= writes s -> map (<[writes s := e]> (wait_buffer s)) (seqZ 0 (writes s)) = map (wait_buffer s) (seqZ 0 (writes s)).
Proof. intros Hw. apply map_ext_in. intros i Hi. apply list_elem_of_In, elem_of_seqZ in Hi. by rewrite fn_lookup_insert_ne by lia. Qed.

Lemma waiting_snoc s : 0 <= writes s -> map (wait_buffer s) (seqZ 0 (writes s + 1)) = map (wait_buffer s) (seqZ 0 (writes s)) ++ [wait_buffer s (writes s)].
Proof. intros Hw. rewrite seqZ_app by lia. by rewrite map_app. Qed.

Lemma flush_taken s : writer s = WTest -> taken (flushtofile s) = taken s.
Proof. intros Ew. unfold taken, held, flushtofile. cbn. rewrite Ew. cbn. by rewrite !app_nil_r. Qed.

Lemma writer_step_ok s h t : log_inv s h t -> exists h', h <= h' /\ log_inv (writer_step s) h' t.
Proof.
  intros Hinv. pose proof Hinv as [Hh Ht Hs Hw Hk Hi Hd Hdone He]. unfold writer_step. destruct (writer s) as [| |i k|] eqn:Ew.
  - exists h. split; [lia|]. rewrite Hh, Ht. destruct (Z.eqb_spec (h mod Event_Queue_Size) (t mod Event_Queue_Size)) as [E|E].
    + destruct (_ && _); split; cbn; try done; try lia; try (intros; congruence).
      rewrite He. f_equal. symmetry. exact (flush_taken s Ew).
    + split; cbn; try done; [intros _; assert (h <> t) by congruence; lia|]. rewrite He. unfold taken, held. by rewrite Ew.
  - specialize (Hk eq_refl). exists (h + 1). split; [lia|]. split; cbn; try done.
    + by rewrite Hh, next_place.
    + lia.
    + intros i k [= <- <-]. split; [lia|]. split; [lia|]. split; [rewrite Hh; f_equal; lia|apply agrees_none].
    + intros e k Ed. destruct (Hd e k Ed) as (H1 & H2 & H3). split; [done|]. split; [lia|done].
    + intros e Ed. destruct (Hdone e Ed) as (H1 & H2). split; [lia|done].
    + rewrite He, (ring_events_cons _ h t) by done. unfold taken, held. rewrite Ew. cbn. rewrite Hh, app_nil_r. by rewrite <- !app_assoc.
  - destruct (Hi i k eq_refl) as (Hk3 & H1 & Ei & Ha). exists h. split; [lia|].
    assert (Hwait : agrees (k + 1) (slot (ring s) i) (copy_field k (slot (ring s) i) (wait_buffer s (writes s)))) by (by apply copy_agrees).
    split; cbn; try done.
    + by case_if.
    + intros i' k'. destruct (Z.ltb_spec k 3); [|done]. intros [= <- <-]. rewrite fn_lookup_insert. split; [lia|done].
    + rewrite He. f_equal. unfold taken, held. rewrite Ew. cbn. rewrite waiting_insert by lia. do 2 f_equal.
      destruct (Z.ltb_spec k 3); [done|]. rewrite fn_lookup_insert. f_equal. symmetry. apply agrees_all. by replace 4 with (k + 1) by lia.
  - exists h. split; [lia|]. cbn. destruct (Z.leb_spec 10 (writes s + 1)) as [Hf|Hf]; split; cbn; try done; try lia;
      rewrite He; f_equal; unfold taken, held; rewrite Ew; cbn; rewrite waiting_snoc by lia; by rewrite ?app_nil_r.
Qed.

Lemma move_ok m s h t : log_inv s h t -> exists h' t', log_inv (do_move m s) h' t'.
Proof.
  intros Hinv. destruct m as [e| |]; cbn [do_move].
  - exists h, t. destruct (device s) eqn:Ed; try done. by destruct Hinv.
  - destruct (device_step_ok s h t Hinv) as (t' & H). by exists h, t'.
  - destruct (writer_step_ok s h t Hinv) as (h' & _ & H). by exists h', t.
Qed.

Lemma run_moves_ok ms : forall s h t, log_inv s h t -> exists h' t', log_inv (run_moves ms s) h' t'.
Proof.
  induction ms as [|m ms IH]; intros s h t Hinv; [by exists h, t|]. destruct (move_ok m s h t Hinv) as (h' & t' & H'). by apply (IH _ h' t').
Qed.

Lemma init_log_ok h sl wb : 0 <= h < Event_Queue_Size -> log_inv (init_log h sl wb) h h.
Proof.
  intros Hh. assert (HN : 0 < Event_Queue_Size) by done. split; cbn; try done; try lia; try (by rewrite Z.mod_small).
  unfold ring_events. by rewrite Z.sub_diag.
Qed.

(** The steps of the device are [enQueueEvt], when the writer does not move. *)
Lemma device_steps_enqueue s e : device s = DTest e ->
  let q := ring (Nat.iter 6 device_step s) in let q' := snd (enQueueEvt (ring s) e) in
  head q = head q' /\ tail q = tail q' /\ forall i, slot q i = slot q' i.
Proof.
  intros Ed. cbv zeta. rewrite Nat.iter_succ_r. destruct s as [q d w wb n c f a r]. cbn in Ed. subst d.
  change (device_step (Log q (DTest e) w wb n c f a r)) with
    (if head q =? (tail q + 1) mod Event_Queue_Size then Log q DIdle w wb n c f a (r ++ [e]) else Log q (DField e 0) w wb n c f a r).
  unfold enQueueEvt. cbn [ring]. destruct (head q =? _); [by cbn|]. split; [reflexivity|]. split; [reflexivity|]. intros i.
  destruct q as [h t sl]. cbn [snd slot tail]. unfold copy_event.
  transitivity ((let s0 := <[t := copy_field 0 e (sl t)]> sl in let s1 := <[t := copy_field 1 e (s0 t)]> s0 in
    let s2 := <[t := copy_field 2 e (s1 t)]> s1 in <[t := copy_field 3 e (s2 t)]> s2) i); [reflexivity|]. cbv zeta.
  destruct (decide (t = i)) as [<-|Hne]; [by rewrite !fn_lookup_insert|by rewrite !fn_lookup_insert_ne].
Qed.

(** The steps of the writer take the event of [deQueueEvt]. *)
Lemma writer_steps_dequeue s : writer s = WTest -> head (ring s) <> tail (ring s) ->
  ring (Nat.iter 2 writer_step s) = snd (deQueueEvt (ring s)) /\ writer (Nat.iter 2 writer_step s) = WCopy (head (ring s)) 0.
Proof.
  intros Ew Hne. cbn [Nat.iter nat_rect]. unfold deQueueEvt. rewrite (proj2 (Z.eqb_neq _ _) Hne).
  assert (E1 : writer_step s = set_writer WTake s) by (unfold writer_step; by rewrite Ew, (proj2 (Z.eqb_neq _ _) Hne)). by rewrite E1.
Qed.

(** ** What was logged *)

(** The events the firmware logged, in order. *)
Fixpoint logged (ms : list move) (s : log) : list event_t :=
  match ms with
  | [] => []
  | m :: r =>
      match m, device s with LogEvent e, DIdle => [e] | _, _ => [] end ++ logged r (do_move m s)
  end.

Definition in_flight (s : log) : list event_t :=
  match device s with DIdle => [] | DTest e | DField e _ | DTail e => [e] end.

(** [h0]: where the ring started; [l]: what was logged up to now. *)
Record history_inv (h0 : Z) (l : list event_t) (s : log) (h t : Z) : Prop := HistoryInv {
  hi_head : h0 <= h;
  hi_tail : t = h0 + Z.of_nat (length (accepted s));
  hi_length : length l = (length (accepted s) + length (refused s) + length (in_flight s))%nat;
  hi_order : refused s = [] -> l = accepted s ++ in_flight s;
  hi_refused : refused s <> [] -> Event_Queue_Size <= Z.of_nat (length l) }.

Definition new_events (m : move) (s : log) : list event_t := match m, device s with LogEvent e, DIdle => [e] | _, _ => [] end.

Lemma device_step_full s h t e : log_inv s h t -> device s = DTest e -> head (ring s) = (tail (ring s) + 1) mod Event_Queue_Size ->
  t - h = Event_Queue_Size - 1.
Proof.
  intros [Hh Ht Hs _ _ _ _ _ _] _ E. rewrite Hh, Ht, next_place in E.
  destruct (Z.eq_dec (t - h) (Event_Queue_Size - 1)) as [?|Hne]; [done|]. exfalso. apply (ring_place_ne h (t + 1)); [lia|lia|done].
Qed.

Lemma writer_history s : accepted (writer_step s) = accepted s /\ refused (writer_step s) = refused s /\ device (writer_step s) = device s.
Proof. unfold writer_step. destruct (writer s); try done; repeat case_match; done. Qed.

Lemma device_history h0 l s h t : log_inv s h t -> history_inv h0 l s h t ->
  exists t', log_inv (device_step s) h t' /\ history_inv h0 l (device_step s) h t'.
Proof.
  intros Hinv [H1 H2 H3 H4 H5]. destruct (device_step_ok s h t Hinv) as (t' & Hinv'). unfold in_flight in H3, H4.
  assert (Ht : t' = h0 + Z.of_nat (length (accepted (device_step s)))).
  { pose proof (li_events _ _ _ Hinv') as Ee'. pose proof (li_events _ _ _ Hinv) as Ee. pose proof (li_size _ _ _ Hinv'). pose proof (li_size _ _ _ Hinv).
    assert (Htk : length (taken (device_step s)) = length (taken s)).
    { unfold taken. rewrite !length_app, !length_map, !length_seqZ. unfold device_step.
      destruct (device s); try done; [by case_match|]. unfold held. cbn. by destruct (writer s). }
    apply (f_equal length) in Ee', Ee. rewrite length_app in Ee', Ee. unfold ring_events in Ee', Ee. rewrite length_map, length_seqZ in Ee', Ee. lia. }
  exists t'. split; [done|]. unfold device_step in *. destruct (device s) as [|e|e k|e] eqn:Ed.
  - split; try done; unfold in_flight; by rewrite Ed.
  - destruct (Z.eqb_spec (head (ring s)) ((tail (ring s) + 1) mod Event_Queue_Size)) as [E|E]; cbn in Ht; split; cbn in *; try done.
    + rewrite length_app. cbn. lia.
    + by destruct (refused s).
    + intros _. pose proof (device_step_full s h t e Hinv Ed E). rewrite H3. lia.
  - cbn in Ht. split; cbn in *; try done; unfold in_flight; cbn; by destruct (k <? 3).
  - split; cbn in *; try done; [rewrite length_app; cbn; lia|]. by rewrite app_nil_r.
Qed.

Lemma move_history h0 l m s h t : log_inv s h t -> history_inv h0 l s h t ->
  exists h' t', log_inv (do_move m s) h' t' /\ history_inv h0 (l ++ new_events m s) (do_move m s) h' t'.
Proof.
  intros Hinv Hh. destruct m as [e| |]; cbn [do_move new_events].
  - destruct (device s) eqn:Ed; try (exists h, t; rewrite app_nil_r; done). exists h, t. split; [by destruct Hinv|].
    destruct Hh as [H1 H2 H3 H4 H5]. unfold in_flight in H3, H4. rewrite Ed in H3, H4. split; cbn; try done.
    + rewrite length_app. cbn in *. lia.
    + intros Hr. rewrite (H4 Hr). by rewrite app_nil_r.
    + intros Hr. specialize (H5 Hr). rewrite length_app. lia.
  - rewrite app_nil_r. destruct (device_history h0 l s h t Hinv Hh) as (t' & H). by exists h, t'.
  - rewrite app_nil_r. destruct (writer_step_ok s h t Hinv) as (h' & Hle & Hinv'). exists h', t. split; [done|].
    destruct (writer_history s) as (E1 & E2 & E3). destruct Hh as [H1 H2 H3 H4 H5].
    split; unfold in_flight; rewrite ?E1, ?E2, ?E3; try done. lia.
Qed.

Lemma run_history ms : forall h0 l s h t, log_inv s h t -> history_inv h0 l s h t ->
  exists h' t', log_inv (run_moves ms s) h' t' /\ history_inv h0 (l ++ logged ms s) (run_moves ms s) h' t'.
Proof.
  induction ms as [|m ms IH]; intros h0 l s h t Hinv Hh; cbn [logged]; [exists h, t; by rewrite app_nil_r|].
  destruct (move_history h0 l m s h t Hinv Hh) as (h' & t' & Hinv' & Hh'). change (run_moves (m :: ms) s) with (run_moves ms (do_move m s)).
  rewrite app_assoc. by apply (IH h0 _ _ h' t').
Qed.

Lemma init_history h sl wb : history_inv h [] (init_log h sl wb) h h.
Proof. split; cbn; try done; lia. Qed.

(** C29: the log of events is complete and in order: whatever the steps of the
    device and of the thread that writes the file, the events the ring accepted
    are, in order, those in the file, those in the wait buffer, the one being
    copied and those still in the ring, the wait buffer holds less than ten of its
    hundred, and as long as fewer than 131072 events were logged none was
    refused: all but the one the device works on were accepted. *)
Theorem event_log_complete h sl wb ms : 0 <= h < Event_Queue_Size ->
  let s := run_moves ms (init_log h sl wb) in let l := logged ms (init_log h sl wb) in
  exists queued, accepted s = file s ++ map (wait_buffer s) (seqZ 0 (writes s)) ++ held s ++ queued /\
    Z.of_nat (length queued) < Event_Queue_Size /\ 0 <= writes s < 10 /\
    (Z.of_nat (length l) < Event_Queue_Size -> refused s = [] /\ l = accepted s ++ in_flight s).
Proof.
  intros Hh. cbv zeta. destruct (run_history ms h [] _ h h (init_log_ok h sl wb Hh) (init_history h sl wb)) as (h' & t' & Hinv & Hhist).
  set (s := run_moves ms _) in *. exists (ring_events (slot (ring s)) h' t').
  split; [rewrite (li_events _ _ _ Hinv); unfold taken; by rewrite <- !app_assoc|].
  split; [unfold ring_events; rewrite length_map, length_seqZ; pose proof (li_size _ _ _ Hinv); lia|].
  split; [by apply (li_writes _ _ _ Hinv)|]. intros Hl. cbn [app] in Hhist.
  assert (Hr : refused s = []). { destruct (refused s) eqn:E; [done|]. pose proof (hi_refused _ _ _ _ _ Hhist). rewrite E in *. cbn in *.
    enough (Event_Queue_Size <= Z.of_nat (length (logged ms (init_log h sl wb)))) by lia. by apply H. }
  split; [done|]. by apply (hi_order _ _ _ _ _ Hhist).
Qed.

Definition demo_event (c : Z) : event_t := Event c (c * 10) 0 0.

(** Two events; the writer takes the first while the device stores the second. *)
Definition demo_moves : list move :=
  [LogEvent (demo_event 100)] ++ replicate 6 DeviceStep ++ [WriterStep; LogEvent (demo_event 101); WriterStep; DeviceStep] ++
  flat_map (fun _ => [WriterStep; DeviceStep]) (seq 0 5).

Lemma event_log_complete_witness :
  let s := run_moves demo_moves (init_log 131071 (fun _ => demo_event 0) (fun _ => demo_event 0)) in
  accepted s = [demo_event 100; demo_event 101] /\ writes s = 1 /\ logged demo_moves (init_log 131071 (fun _ => demo_event 0) (fun _ => demo_event 0)) = accepted s.
Proof.
  destruct (event_log_complete 131071 (fun _ => demo_event 0) (fun _ => demo_event 0) demo_moves ltac:(vm_compute; split; [discriminate|reflexivity]))
    as (queued & _ & _ & _ & H). destruct H as (_ & H); [vm_compute; reflexivity|].
  split; [vm_compute; reflexivity|]. split; [vm_compute; reflexivity|]. rewrite H. vm_compute. reflexivity.
Defined.

(** ** Every accepted event reaches the file *)

(** The steps until the writer has emptied the ring, and the tests of the empty
    ring until it flushes. *)
Definition writer_work (s : log) (h t : Z) : Z :=
  7 * (t - h) + match writer s with WTest => 0 | WTake => -1 | WCopy _ k => 5 - k | WCount => 1 end.

Definition idle_left (s : log) : Z :=
  if writes s =? 0 then 0
  else if idle_cycles s =? 2 ^ 64 - 1 then 202 else if 200 <=? idle_cycles s then 1 else 201 - idle_cycles s.

Definition drain_left (s : log) (h t : Z) : Z := writer_work s h t + (if 0 <? writer_work s h t then 202 else idle_left s).

Definition idle_ok (s : log) : Prop := 0 <= idle_cycles s < 2 ^ 64.

Lemma writer_idle_ok s : idle_ok s -> idle_ok (writer_step s).
Proof.
  unfold idle_ok, writer_step. intros Hi. assert (HB : 0 < 2 ^ 64) by done. pose proof (Z.mod_pos_bound (idle_cycles s + 1) _ HB).
  destruct (writer s); try done; repeat case_match; cbn; lia.
Qed.

Lemma run_idle_ok ms : forall s, idle_ok s -> idle_ok (run_moves ms s).
Proof.
  induction ms as [|m ms IH]; intros s Hi; [done|]. apply IH. destruct m; cbn [do_move]; [by destruct (device s)| |by apply writer_idle_ok].
  unfold device_step, idle_ok. destruct (device s); try done. by case_match.
Qed.

Lemma work_bounds s h t : log_inv s h t -> 0 <= writer_work s h t <= 7 * (Event_Queue_Size - 1) + 5.
Proof.
  intros Hi. pose proof (li_size _ _ _ Hi). unfold writer_work. destruct (writer s) eqn:Ew; try lia.
  - pose proof (li_take _ _ _ Hi Ew). lia.
  - destruct (li_item _ _ _ Hi _ _ Ew) as (? & _). lia.
Qed.

Lemma idle_left_bounds s : idle_ok s -> 0 <= idle_left s <= 202.
Proof. unfold idle_left, idle_ok. intros Hi. repeat case_match; zify_bools; lia. Qed.

Lemma idle_step s : writer s = WTest -> head (ring s) = tail (ring s) -> idle_ok s ->
  idle_left (writer_step s) <= Z.max 0 (idle_left s - 1).
Proof.
  unfold idle_ok. intros Ew Eh Hi. set (i := (idle_cycles s + 1) mod 2 ^ 64).
  assert (E : idle_left (writer_step s) = if (200 <? i) && negb (writes s =? 0) then 0
    else if writes s =? 0 then 0 else if i =? 2 ^ 64 - 1 then 202 else if 200 <=? i then 1 else 201 - i).
  { unfold writer_step. rewrite Ew, Eh, Z.eqb_refl. cbn [set_counts idle_cycles writes]. fold i. by destruct (_ && _). }
  rewrite E. unfold idle_left. destruct (writes s =? 0); [rewrite andb_false_r; lia|]. rewrite andb_true_r. subst i.
  destruct (Z.eqb_spec (idle_cycles s) (2 ^ 64 - 1)) as [E1|E1].
  - rewrite E1. change ((2 ^ 64 - 1 + 1) mod 2 ^ 64) with 0. clear. vm_compute. intros H. discriminate H.
  - rewrite Z.mod_small by lia. destruct (Z.ltb_spec 200 (idle_cycles s + 1)); [destruct (Z.leb_spec 200 (idle_cycles s)); lia|].
    rewrite (proj2 (Z.eqb_neq (idle_cycles s + 1) _)) by lia.
    destruct (Z.leb_spec 200 (idle_cycles s)), (Z.leb_spec 200 (idle_cycles s + 1)); lia.
Qed.

(** A step of the writer, the place of the ring it leaves and the steps left. *)
Lemma drain_step s h t : log_inv s h t -> idle_ok s -> exists h', log_inv (writer_step s) h' t /\
  drain_left (writer_step s) h' t <= Z.max 0 (drain_left s h t - 1).
Proof.
  intros Hinv Hidle. destruct (writer_step_ok s h t Hinv) as (h' & _ & Hinv'). exists h'. split; [done|].
  pose proof (work_bounds _ _ _ Hinv). pose proof (work_bounds _ _ _ Hinv'). pose proof (idle_left_bounds _ (writer_idle_ok _ Hidle)).
  assert (Hhead : forall a b, 0 <= t - a < Event_Queue_Size -> 0 <= t - b < Event_Queue_Size ->
    a mod Event_Queue_Size = b mod Event_Queue_Size -> a = b).
  { intros a b Ha Hb E. destruct (Z.lt_trichotomy a b) as [Hl|[->|Hl]]; [|done|]; exfalso.
    - apply (ring_place_ne a b); [done|lia|done]. - apply (ring_place_ne b a); [done|lia|done]. }
  pose proof (li_size _ _ _ Hinv) as Hsz. pose proof (li_size _ _ _ Hinv') as Hsz'.
  pose proof (li_head _ _ _ Hinv) as Hh. pose proof (li_head _ _ _ Hinv') as Hh'.
  assert (Hwork : writer_work (writer_step s) h' t = writer_work s h t - 1 \/
    (writer s = WTest /\ h = t /\ h' = t /\ writer (writer_step s) = WTest)).
  { unfold writer_step in *. destruct (writer s) as [| |i k|] eqn:Ew; unfold writer_work in *; rewrite ?Ew.
    - destruct (Z.eqb_spec (head (ring s)) (tail (ring s))) as [E|E].
      + right. assert (h = t). { apply Hhead; [lia|lia|]. rewrite <- Hh, <- (li_tail _ _ _ Hinv). done. }
        assert (h' = h). { apply Hhead; [lia|lia|]. rewrite <- Hh, <- Hh'. by case_match. }
        split; [done|]. split; [done|]. split; [lia|]. case_match; cbn; done.
      + left. cbn in *. assert (h' = h) by (apply Hhead; [lia|lia|congruence]). lia.
    - left. cbn in *. assert (h' = h + 1); [|lia]. pose proof (li_take _ _ _ Hinv Ew). apply Hhead; [lia|lia|]. by rewrite <- Hh', Hh, next_place.
    - left. cbn in *. assert (h' = h) by (apply Hhead; [lia|lia|congruence]). destruct (li_item _ _ _ Hinv _ _ Ew) as (Hk & _).
      destruct (Z.ltb_spec k 3); lia.
    - left. cbn in *. assert (h' = h); [|lia]. apply Hhead; [lia|lia|]. rewrite <- Hh, <- Hh'. by case_match. }
  unfold drain_left. destruct Hwork as [Hw|(Ew & -> & -> & Ew')].
  - rewrite Hw in *. destruct (Z.ltb_spec 0 (writer_work s h t)); [|lia].
    destruct (Z.ltb_spec 0 (writer_work s h t - 1)); lia.
  - unfold writer_work. rewrite Ew, Ew', !Z.sub_diag. change (7 * 0 + 0) with 0. change (0 <? 0) with false. cbv iota.
    rewrite !Z.add_0_l. apply idle_step; [done|by rewrite Hh, (li_tail _ _ _ Hinv)|done].
Qed.

Lemma drain_run n : forall s h t, log_inv s h t -> idle_ok s -> exists h', log_inv (Nat.iter n writer_step s) h' t /\
  idle_ok (Nat.iter n writer_step s) /\ accepted (Nat.iter n writer_step s) = accepted s /\
  drain_left (Nat.iter n writer_step s) h' t <= Z.max 0 (drain_left s h t - Z.of_nat n).
Proof.
  induction n as [|n IH]; intros s h t Hinv Hi; [exists h; change (Nat.iter 0 writer_step s) with s; split; [done|split; [done|split; [done|lia]]]|]. rewrite Nat.iter_succ_r.
  destruct (drain_step s h t Hinv Hi) as (h1 & Hinv1 & Hd). destruct (IH _ h1 t Hinv1 (writer_idle_ok _ Hi)) as (h2 & H1 & H2 & H3 & H4).
  exists h2. split; [done|]. split; [done|]. split; [rewrite H3; apply writer_history|]. lia.
Qed.

(** C30: every accepted event reaches the file: whatever happened before, once the
    device is not asked for 917704 steps of the thread (seven for each event of the
    ring, and about two hundred tests of the empty ring) the file holds exactly
    the accepted events, in order. *)
Theorem event_log_drains h sl wb ms n : 0 <= h < Event_Queue_Size -> 917704 <= Z.of_nat n ->
  let s := run_moves ms (init_log h sl wb) in file (Nat.iter n writer_step s) = accepted s.
Proof.
  intros Hh Hn s. destruct (run_moves_ok ms _ h h (init_log_ok h sl wb Hh)) as (h1 & t & Hinv). fold s in Hinv.
  assert (Hi : idle_ok s) by (apply run_idle_ok; split; done). destruct (drain_run n s h1 t Hinv Hi) as (h2 & H1 & H2 & <- & H4).
  set (e := Nat.iter n writer_step s) in *. pose proof (work_bounds _ _ _ Hinv) as Hb. pose proof (work_bounds _ _ _ H1) as Hb'.
  assert (HN : Event_Queue_Size = 131072) by reflexivity. rewrite HN in Hb. pose proof (idle_left_bounds s Hi). pose proof (idle_left_bounds e H2) as Hl.
  assert (Hs : drain_left s h1 t <= 917704) by (unfold drain_left; destruct (0 <? writer_work s h1 t); lia).
  assert (Hz : drain_left e h2 t <= 0) by lia.
  unfold drain_left in Hz. destruct (Z.ltb_spec 0 (writer_work e h2 t)); [lia|]. assert (Hw : writer_work e h2 t = 0) by lia.
  pose proof (li_size _ _ _ H1). rewrite (li_events _ _ _ H1). unfold writer_work in Hw.
  assert (Ht : writer e = WTest /\ t = h2).
  { destruct (writer e) as [| |i k|] eqn:Ew; [split; [done|lia]|pose proof (li_take _ _ _ H1 Ew); lia|
      destruct (li_item _ _ _ H1 _ _ Ew) as (? & _); lia|lia]. }
  destruct Ht as (Ew & ->). assert (Hwr : writes e = 0) by (unfold idle_left in *; destruct (Z.eqb_spec (writes e) 0); [done|]; repeat case_match; zify_bools; lia).
  unfold taken, held, ring_events. rewrite Ew, Hwr, Z.sub_diag, !seqZ_nil by lia. cbn. by rewrite !app_nil_r.
Qed.

Lemma event_log_drains_witness :
  file (Nat.iter (Z.to_nat 917704) writer_step (run_moves demo_moves (init_log 131071 (fun _ => demo_event 0) (fun _ => demo_event 0)))) =
  [demo_event 100; demo_event 101].
Proof.
  rewrite (event_log_drains 131071 (fun _ => demo_event 0) (fun _ => demo_event 0) demo_moves (Z.to_nat 917704)
    ltac:(vm_compute; split; [discriminate|reflexivity]) ltac:(rewrite Z2Nat.id by lia; lia)). vm_compute. reflexivity.
Defined.

(** ** What the macro of the firmware logs *)

Lemma set_low_word code e : set_low 4 (u32 code) e = Event (Z.lor (Z.land (event_code e) (Z.lnot (Z.ones 32))) (u32 code)) (event_cycle e) (long_0 e) (long_1 e).
Proof.
  unfold set_low. change (8 * 4) with 32. f_equal. f_equal. rewrite Z.land_ones by lia. unfold u32. by rewrite Z.mod_mod by done.
Qed.

Lemma set_low_code code e : fits 32 (event_code e) -> event_code (set_low 4 (u32 code) e) = u32 code.
Proof.
  intros Hf. rewrite set_low_word. cbn [event_code]. rewrite <- Z.ldiff_land. rewrite Z.ldiff_ones_r by lia.
  unfold fits in Hf. rewrite Z.shiftr_div_pow2, Z.div_small by lia. by rewrite Z.shiftl_0_l, Z.lor_0_l.
Qed.

Lemma log_source source : 0 <= source -> (4 * (source * sizeof_event)) mod sizeof_event = 0 /\ (4 * (source * sizeof_event)) / sizeof_event = 4 * source.
Proof. intros Hs. unfold sizeof_event. rewrite Z.mul_assoc, Z_mod_mult, Z.div_mul by lia. done. Qed.

(** The event [LOG_EVENT] stores: of the four sources of the firmware only the
    first has its own event. *)
Definition log_slot (source : Z) : Z := if source =? 1 then 4 else 0.

Definition events_ok (s : stats_dev) : Prop := length (event s) = 8%nat /\ Forall (fun e => fits 32 (event_code e)) (event s).

(** C31: [LOG_EVENT] by source, for the 147 sources whose address is one of the
    device (it answers 0x4000 bytes, a source is 112 further): for every source but 2 the event's code and the tick
    go to the ring, with the data words the event had, in the event 0 of the device
    except for source 1, which has event 4; source 2 writes behind the eight events
    of the device: the macro counts words where it means bytes. *)
Theorem log_event_correct source code tick s : events_ok s -> 0 <= source < 147 -> fits 32 code ->
  (source = 2 -> LOG_EVENT source code tick s = Fault FBounds) /\
  (source <> 2 -> exists old, event s !! Z.to_nat (log_slot source) = Some old /\
     let e := Event code tick (long_0 old) (long_1 old) in
     LOG_EVENT source code tick s = Ok (addEvent e (StatsDev (<[Z.to_nat (log_slot source) := e]> (event s)) (event_queue s)))).
Proof.
  intros (Hlen & Hall) Hs Hc. destruct (log_source source (proj1 Hs)) as (Ho & Hd). unfold LOG_EVENT, write, packet_value. rewrite Ho, Hd.
  change (4 <? 4) with false. change (4 =? 1) with false. change (4 =? 2) with false. change (4 =? 4) with true. cbv iota. split.
  - intros ->. change (if 8 <? 4 * 2 then 0 else 4 * 2) with 8. rewrite arr_get_oob; [done|]. rewrite Hlen. lia.
  - intros Hne. assert (Hslot : (if 8 <? 4 * source then 0 else 4 * source) = log_slot source).
    { unfold log_slot. destruct (Z.eqb_spec source 1) as [->|?]; [done|]. destruct (Z.ltb_spec 8 (4 * source)); lia. }
    rewrite Hslot, Z.add_0_r. assert (Hb : 0 <= log_slot source < Z.of_nat (length (event s))) by (rewrite Hlen; unfold log_slot; destruct (source =? 1); lia).
    destruct (arr_get_lookup (event s) (log_slot source) Hb) as (old & Hg & Hl). rewrite Hg. cbn [obind].
    rewrite arr_set_Ok by done. cbn [obind]. rewrite (proj2 (arr_get_Ok _ (log_slot source) (set_low 4 (u32 code) old))).
    2: { split; [lia|]. apply list_lookup_insert_eq. rewrite Hlen. rewrite Hlen in Hb. lia. }
    cbn [obind]. rewrite arr_set_Ok by (by rewrite length_insert). cbn [obind]. exists old. split; [done|]. cbv zeta.
    rewrite set_low_code by (rewrite Forall_lookup in Hall; by eapply Hall). rewrite u32_id by exact Hc. by rewrite list_insert_insert_eq.
Qed.

Definition demo_stats : stats_dev :=
  StatsDev (map demo_event [0; 1; 2; 3; 4; 5; 6; 7]) (EventQueue 5 5 (fun _ => demo_event 0)).

(** The read event of the NVMe driver, and a source that has no event. *)
Lemma log_event_correct_witness :
  (exists s, LOG_EVENT 0 100 7777 demo_stats = Ok s /\ slot (event_queue s) 5 = Event 100 7777 0 0 /\ tail (event_queue s) = 6) /\
  LOG_EVENT 2 100 7777 demo_stats = Fault FBounds.
Proof.
  assert (Hok : events_ok demo_stats) by (split; [reflexivity|]; repeat constructor; cbn; lia).
  destruct (log_event_correct 0 100 7777 demo_stats Hok ltac:(lia) ltac:(split; lia)) as (_ & H).
  destruct (log_event_correct 2 100 7777 demo_stats Hok ltac:(lia) ltac:(split; lia)) as (H2 & _).
  destruct (H ltac:(lia)) as (old & Ho & E). split; [|exact (H2 eq_refl)].
  injection Ho as <-. eexists. split; [exact E|]. split; reflexivity.
Defined.

(** A write of another field of an event never reaches that field: the device moves
    by events instead of bytes. *)
Lemma write_other_field daddr size value tick s s' : write daddr size value tick s = Ok s' -> daddr mod sizeof_event <> 0 ->
  event_queue s' = event_queue s /\ map (fun e => (event_cycle e, long_0 e, long_1 e)) (event s') = map (fun e => (event_cycle e, long_0 e, long_1 e)) (event s).
Proof.
  unfold write. intros E Hne. destruct (4 <? size); [done|]. rewrite (proj2 (Z.eqb_neq _ _) Hne) in E.
  destruct (arr_get (event s) _) as [old|] eqn:Eg; cbn [obind] in E; [|done].
  unfold arr_set in E. destruct (in_range _ _); cbn [obind] in E; [|done]. injection E as <-. split; [done|]. cbn [event].
  apply list_eq. intros i. rewrite !list_lookup_fmap. apply arr_get_Ok in Eg as (_ & Eg).
  set (k := Z.to_nat _) in *. destruct (decide (k = i)) as [<-|?]; [|by rewrite list_lookup_insert_ne].
  rewrite list_lookup_insert_eq by (by apply lookup_lt_Some in Eg). by rewrite Eg.
Qed.
